(* ===== verification/_CoqProject ===== *)
-Q . S2P
Prelude.v
PyDecimal.v
PyFloat.v
PyValues.v
TaxEngine.v
SqlWhere.v
StateMachines.v
FeePolicy.v
MerchantLedger.v
RazorpayLedgers.v
RouteSafety.v
Refunds.v
Payouts.v
Accounting.v
RefreshTokens.v
PyRegex.v
Disputes.v
Webhooks.v
RequestSecurity.v
Permissions.v
RouteTransfers.v
RouteMoney.v
Orders.v
OrderBilling.v
OrderHistory.v
DineIn.v
TableBilling.v
DineInAccess.v
TableMoney.v
PaymentEvents.v
PaymentFlow.v
PaymentIntents.v
Inventory.v
InventoryMoves.v
InventoryStock.v
InventoryOrders.v
InventoryMirror.v
InventoryBatches.v
InventoryTransfers.v
InventoryCases.v
