(* ===== verification/Prelude.v ===== *)
(** Verification library of the Bittu restaurant backend: root file.

    * The program

    [src/app] is a FastAPI backend for restaurants over one PostgreSQL database.
    Its core is money: an order is priced and taxed, a captured payment is split
    between the platform and the merchant and posted to the merchant's ledger, and
    refunds, disputes and payouts move that balance afterwards; a double-entry
    journal is kept beside it.  Guests order and pay from their table through a shared
    session.  Around the money stand the session tokens, the permissions, the
    signature check of every request, and the intake of the gateway's webhooks.

    * Which file models what

    The language and the shared parts:
    - this file: the exceptions of [core/exceptions.py], the result monad [res], and
      the lemmas and tactics on lists, sums and guards that the components share;
    - PyDecimal, PyFloat, PyValues, PyRegex: what the code uses of Python's
      [decimal], [float], strings, JSON values and [re].

    The components, one file each, in the order they build on one another:
    - TaxEngine: [services/tax_engine.py] (bills, carts, discounts, the settings
      cache and the settings patch);
    - SqlWhere: the syntax and three-valued truth of the SQL conditions that the code
      composes as text;
    - StateMachines: [core/state_machines.py], [core/order_status.py]; a class
      [Machine] with one instance per status enumeration;
    - FeePolicy: [services/razorpay/fee_policy.py], the split of a payment in paise;
    - MerchantLedger: [services/merchant_ledger_service.py] with the SQL functions of
      migration 037.  The class [LedgerApi] states what the ledger promises to those
      who post into it; [ledger_api] discharges it from the tables;
    - RazorpayLedgers: [services/razorpay/ledgers.py] and the capture half of
      [services/merchant_ledger_integration.py], against [LedgerApi];
    - RouteSafety: [services/razorpay/route_safety.py], at most one gateway call per
      operation key;
    - Refunds ([services/refund_service.py]), Disputes ([services/dispute_service.py],
      both with migration 043) and Payouts ([services/payout_service.py], migration
      040): the three services that move a merchant's balance after the capture,
      each against [LedgerApi]; Disputes shares the tables of Refunds;
    - Accounting: [services/accounting_engine.py] with the journal functions and
      triggers of migrations 006, 018, 019, 022 and 050;
    - RefreshTokens: [services/refresh_token_service.py],
      [services/session_key_service.py], migration 072, and the endpoints of
      [api/v1/auth.py];
    - RequestSecurity: [middleware/request_security.py], whose signing keys are those
      of RefreshTokens;
    - Webhooks: [core/webhook_security.py], migrations 047 and 086, and the Razorpay
      endpoint of [api/v1/webhooks.py];
    - Orders: [services/order_service.py] with [core/tenant.py], the payment-death
      handler of [services/order_status_handlers.py] and the tables of migrations 001,
      029, 058, 065 and 066.  [checkout] prices a request from the menu, bills it with
      TaxEngine, writes order, rows, payment and idempotency claim, and posts the
      receipt through [LedgerApi]; [apply_discount], [update_status] and [update_order]
      change the order afterwards.  OrderBilling proves what a checkout stores,
      OrderHistory what later calls can and cannot change;
    - Permissions: [services/rbac_service.py], [core/auth.py], [core/claims.py],
      [dependencies/rbac.py], [dependencies/scopes.py] and migration 013: who a request
      is, what it may do, and how long a copy of that answer lives;
    - RouteTransfers: the money half of [services/razorpay/route_service.py] with
      migrations 060, 070 and 086: the share of a captured payment sent to the
      merchant's linked account and taken back with refunds, each mutation through
      RouteSafety.  RouteMoney proves what reaches the gateway over whole runs;
    - DineIn and TableBilling: [services/dinein_session_service.py] with migrations 012
      and 083; DineIn has the sessions, tokens, shared cart and orders of a table,
      TableBilling the bill, its split and the payments, down to Orders' tables.
      DineInAccess proves who gets in, TableMoney what is ordered and paid.
    - PaymentEvents: the payment, order, QR, refund and transfer handlers of
      [services/razorpay/webhook_dispatcher.py], [payment_intent.py] and
      [static_qr_service.py] with migrations 060 and 078.  Its state [desk] is the hall
      of DineIn with the gateway's tables around it; transfers, refunds and dine-in
      settlements are the operations of RouteTransfers, Refunds and TableBilling on
      views of it, and a capture is posted through RazorpayLedgers.  PaymentFlow proves
      what a run of events does to the gateway, the payments and the ledger,
      PaymentIntents what intents and static codes promise;
    - Inventory: [services/inventory_event_service.py], [inventory_write.py] and the
      stock half of [erp_event_handlers.py] with migrations 001, 006, 035 and 083: the
      stock ledger, its mirror on the ingredient, batches, recipes, and the consumption
      and return of an order.  InventoryMoves adds the operations on top of it:
      [api/v1/inventory.py], [inventory_sales_service.py],
      [inventory_conversion_service.py], the purchase receipts of
      [inventory_service.py], the opening stock of [api/v1/ingredients.py] and the
      writers of [api/v1/erp.py].  InventoryStock has the lemmas on what each operation
      moves; InventoryOrders, InventoryMirror, InventoryBatches and InventoryTransfers
      the theorems, InventoryCases small runs where the stock does not do what its
      caller expects.

    * How the code is represented

    A table is a list of records, or a finite map where order does not matter; a
    row the code numbers with a random UUID is numbered here by its position.  An
    operation is a function from the database to [res (database * result)]: a call
    that runs in one transaction and raises changes nothing, so its [Err] carries no
    database.  Where each statement commits on its own (RouteSafety, RefreshTokens,
    Webhooks, RequestSecurity, RouteTransfers, PaymentEvents, and the gateway calls of
    Refunds and Disputes) the state is returned beside the outcome, and what was done
    before an exception stays done.  NUMERIC(p,s) columns are integers of 10^-s, with PostgreSQL's
    rounding and range check on the way in; Python's decimals keep their exponent.
    Everything outside [src/] is an argument: the gateway, the identity provider,
    hash functions, JSON and JWT decoding, and the clock, which is part of a
    [stamp] or an instant in microseconds.  Nothing is assumed of them except by a
    named hypothesis of the theorem that needs it.

    * What the theorems show

    - Pricing: a cart's printed total is the sum of its parts to the paisa, each line
      follows from its own rate, and a discount is spread exactly over the lines.
    - Splitting: fee, tax and merchant share always add up to what the customer paid;
      refunding in pieces recovers exactly what one full refund would.
    - The ledger: posting appends one row and moves the balance by it, once per
      idempotency key; every reachable ledger has running balances that add up; a
      capture is a refinement of posting the frozen entitlement.
    - Orders: a checkout bills exactly what the menu says, in columns the float
      parameters reach without an error of a paisa; a counter sale raises the
      merchant's balance by the order's total; a key places one order within its 24
      hours, and never a second one after;
      statuses only move along the order machine; a discount re-bills the stored rows
      to what checkout would have billed with it.
    - Refunds, disputes, payouts: refunds never exceed the payment whatever the
      interleaving; a settled refund or a lost dispute costs the merchant exactly its
      cumulative share; a failed payout gives back exactly what it reserved; every
      status history is a path of its machine; errors leave the state the code
      means them to leave, gateway failures included.
    - Accounting: every reachable journal balances entry by entry, events post to the
      accounts of their rule, a reversal cancels its original, and nothing enters a
      closed period.
    - Route transfers: in every run, with answers lost and retries anywhere, a payment's
      share is sent at most once and refunds take back at most the refunded part of it;
      a retry ends as soon as the gateway shows the transfer; a settlement's backfill
      sees every page.
    - Dine-in: a table has one active session; its token is told only to who opened it,
      held it, or gave the PIN; a cart becomes an order that bills it exactly; payments
      never exceed the bill, a captured payment counts once, and the last one frees the
      table; an equal split covers the bill to the paisa.
    - Permissions: a request passes a gate only if the rows, or the default role table, of
      some database of the last ten minutes entitled its user to the permission in its
      branch ([entitled], stated without the service's own lookup); the decision is exactly the one the alias and wildcard
      rules define; an invalidation takes effect on the worker it ran on at once.
    - Sessions and requests: replaying a rotated token kills its chain as far as the
      database answers, and what outages let through is stated beside it; an accepted
      nonce is refused for as long as the request could be replayed; a request under
      enforcement reaches the application only signed.
    - Payment events: a capture that goes through credits exactly the share its transfer
      froze, once, and none without a matching payment row; statuses of payments only
      move forward; whatever events arrive, what they do at the gateway is a run of
      RouteMoney.  An order has one intent, whatever other intents are made, a merchant one
      active static code.
    - Inventory: an order's stock leaves once and comes back at most once; a transfer
      brings in what it took out, unless an older endpoint ships or receives it; the mirror
      follows the ledger through every operation but the older writers, which write
      no mirror; a need is taken from the batches that expire first, and of these those
      received first, to the exact amount; and what checks the balance first never
      brings a branch below zero.  Runs contain every writer of the ledger; each theorem
      names the ones it excludes, and InventoryCases shows why.
    - Webhooks: under either index the table is an append-only record of authentic
      deliveries, a processed row never changes again, and a worker whose claim was
      taken over can no longer write; under the index the migrations create a replay is not
      recognised.
    - Revenue: the SQL text of the revenue filter, parsed by SqlWhere, keeps the rows the
      Python predicates keep.

    Each file's invariant is proved preserved by every operation of the file, lifted
    to all reachable states by induction over the step relation ([reachable],
    [service_step], [payout_op], [dispute_op], [book_op], [auth_step],
    [intake_step], [served], [order_op], [service_call], [dine_call], [reached],
    [route_step], [event_step], [static_step]; for the stock a [run] of [stock_op]s);
    environment steps are part of the relation where others write the
    same tables.

    * Bounds and fuel

    Decimals round to 28 digits, so the pricing theorems assume amounts in whole
    paise below [TaxEngine.money_bound] or [FeePolicy.paise_bound] (both 10^20);
    below these no intermediate product reaches 28 digits.  Amounts
    that pass through a [float] are below 10^15 paise ([PyFloat.money_through_float]),
    where the shortest digit string of a double still determines two decimals.
    [OrderBilling.placeable] keeps the sum of a request below
    [OrderBilling.order_bound] (10^11 paise), so the bill fits NUMERIC(12,2), and the
    price of a unit within NUMERIC(10,2).
    Posting into the ledger assumes [RazorpayLedgers.ledger_bound] (10^16 paise),
    inside NUMERIC(18,4).  The digit loops of PyDecimal and PyFloat run on fuel equal
    to a bound on the number of digits, and lemmas there show it suffices; the page
    loop of the ledger statement runs on one more than the number of rows, and
    [MerchantLedger.pages_cover_history] shows that it ends with every row read; the
    backfill of a settlement runs on one more than its full pages
    ([RouteMoney.backfill_sees_everything]).  A table's bill stays below 10^14 paise and
    is split into at most 10^6 parts (TableMoney).  The stock ledger has at most 10^12 rows
    of quantities that fit 28 digits, and a transfer is in the stock's own unit and whole
    thousandths (InventoryMirror, InventoryTransfers).

    * What is not modelled

    - Listings, CSV exports and response rendering without logic of their own, and
      audit records, which are best-effort and swallow their errors.
    - Strings beyond ASCII, decimals that are not finite past the guard that refuses
      them, and the exponent limits of the decimal context.
    - Schedules inside a transaction: row locks are taken as the serialisation they
      give, except where a service reads without one (the payout balance), which is
      modelled as two steps.
    - HTTP endpoints that only unpack a request, the database pool, Redis, logging,
      realtime and notification code: I/O around libraries outside [src/].
    - The onboarding half of the Route service (linked accounts, stakeholders, products,
      KYC documents), which composes bodies for the gateway.
    - Escrow: deprecated in the code, which creates no new holds.
    - The webhook handlers of disputes, settlements, virtual accounts, invoices and
      subscriptions: an argument of PaymentEvents.  They unpack the event for a service
      (that of disputes is modelled in Disputes) or store it.
    - The payments service: the payment row is modelled where it is written and moved
      (Orders, TableBilling, PaymentEvents); the service adds manual entries and listings.
    - The staff-side table sessions and the waitlist, which the sessions of DineIn replace
      for ordering and paying.
    - Subscriptions: recurring charges of the platform to its merchants, on a schedule
      the gateway keeps.
    - Finance, settlements and reconciliation: aggregation queries over the tables the other
      components write, with the arithmetic in SQL.
    - Of the inventory: snapshots, vendors and reports, which only read; and
      [deduct_for_order] and [restore_for_order], which nothing calls. *)

From Stdlib Require Import ZArith Lia.
From stdpp Require Export base numbers option list strings gmap.

#[global] Set Default Proof Using "Type".
#[global] Open Scope Z_scope.

(** ** Exceptions

    The exception classes of [src/app/core/exceptions.py], plus the built-in
    Python exceptions the modelled code raises or lets through.  Every
    constructor carries the constant part of the message (an f-string is cut at
    its first hole), which identifies the guard that raised. *)
Inductive exn :=
  | NotFoundError (resource : string)
  | ConflictError (detail : string)
  | ForbiddenError (detail : string)
  | ValidationError (detail : string)
  | InvalidStateTransition (entity from_state to_state : string)
  | ValueError (detail : string)
  | RuntimeError (detail : string)
  | KeyError (key : string)
  | InvalidOperation
  | DivisionByZero
  | ZeroDivisionError
  | TaxConfigError (detail : string)
  | RazorpayAPIError (status_code : Z)
  | DatabaseError (detail : string)
  | UniqueViolationError (index : string)
  | AttributeError (attribute : string)
  | TypeError (detail : string)
  | HTTPException (status_code : Z) (detail : string)
  | CheckoutError (detail : string)
  | LockAcquisitionError
  | ReuseDetected (user_id device_id : string)
  | UnauthorizedError (detail : string)
  | PermissionError (detail : string)
  | LookupError (detail : string)
  | InventoryError (detail : string).

#[export] Instance exn_eq_dec : EqDecision exn.
Proof. solve_decision. Defined.

(** ** Results: a value or the exception that was raised *)
Inductive res (A : Type) :=
  | Ok (a : A)
  | Err (e : exn).
Arguments Ok {A} a.
Arguments Err {A} e.

#[export] Instance res_ret : MRet res := @Ok.
#[export] Instance res_bind : MBind res := fun A B f m =>
  match m with Ok a => f a | Err e => Err e end.
#[export] Instance res_fmap : FMap res := fun A B f m =>
  match m with Ok a => Ok (f a) | Err e => Err e end.

#[export] Instance res_eq_dec `{EqDecision A} : EqDecision (res A).
Proof. solve_decision. Defined.

(** [raise_if b e] is [if b: raise e]. *)
Definition raise_if (b : bool) (e : exn) : res () :=
  if b then Err e else Ok ().

Definition is_ok {A} (m : res A) : bool :=
  match m with Ok _ => true | Err _ => false end.

(** [COALESCE(x, y)] *)
Definition coalesce {A} (x y : option A) : option A := match x with Some _ => x | None => y end.

Fixpoint res_map {A B} (f : A → res B) (l : list A) : res (list B) :=
  match l with
  | [] => Ok []
  | x :: l' => y ← f x; ys ← res_map f l'; Ok (y :: ys)
  end.

(** A Python [for] loop that threads a state and may raise. *)
Fixpoint res_foldl {A S} (f : S → A → res S) (s : S) (l : list A) : res S :=
  match l with
  | [] => Ok s
  | x :: l' => s' ← f s x; res_foldl f s' l'
  end.

(** ** Tactics *)

(** Take apart a hypothesis [H : (x ← m; k) = Ok r]: [m] returned some [y] and
    the rest of the computation returned [r]. *)
Lemma res_bind_Ok {A B} (m : res A) (k : A → res B) (b : B) :
  (m ≫= k) = Ok b ↔ ∃ a, m = Ok a ∧ k a = Ok b.
Proof. destruct m; cbn; naive_solver. Qed.

Lemma bind_Ok {A B} (a : A) (k : A → res B) : (Ok a ≫= k) = k a.
Proof. done. Qed.

Lemma raise_if_Ok b e u : raise_if b e = Ok u ↔ b = false.
Proof. destruct b, u; cbn; naive_solver. Qed.

Lemma raise_if_Err b e e' : raise_if b e = Err e' ↔ b = true ∧ e = e'.
Proof. destruct b; cbn; naive_solver. Qed.

Create HintDb res.
#[export] Hint Rewrite @res_bind_Ok raise_if_Ok raise_if_Err : res.

Ltac inv_res :=
  repeat match goal with
  | H : Ok _ = Ok _ |- _ => injection H as H
  | H : Err _ = Err _ |- _ => injection H as H
  | H : Ok _ = Err _ |- _ => discriminate H
  | H : Err _ = Ok _ |- _ => discriminate H
  | H : mret _ = Ok _ |- _ => injection H as H
  | H : raise_if _ _ = Ok _ |- _ => apply raise_if_Ok in H
  | H : (_ ≫= _) = Ok _ |- _ =>
      let y := fresh "y" in let Hy := fresh "Hy" in
      apply res_bind_Ok in H as (y & Hy & H)
  end.

(** ** Lists *)
Lemma res_map_Ok_Forall2 {A B} (f : A → res B) l l' :
  res_map f l = Ok l' ↔ Forall2 (λ x y, f x = Ok y) l l'.
Proof.
  revert l'; induction l as [|x l IH]; intros l'; cbn.
  - split; [intros H; inv_res; subst; constructor|by inversion 1].
  - split.
    + intros H. inv_res. subst. constructor; [done|]. by apply IH.
    + inversion 1 as [|? y ? ys Hy Hys]; subst. rewrite Hy. cbn.
      apply IH in Hys. by rewrite Hys.
Qed.

(** Sum of a list of integers, with the lemmas every money total uses. *)
Definition zsum (l : list Z) : Z := foldr Z.add 0 l.

Lemma zsum_cons x l : zsum (x :: l) = x + zsum l.
Proof. done. Qed.

Lemma zsum_app l k : zsum (l ++ k) = zsum l + zsum k.
Proof. induction l as [|x l IH]; [done|]. rewrite <-app_comm_cons, !zsum_cons. lia. Qed.

Lemma zsum_nonneg l : Forall (λ x, 0 <= x) l → 0 <= zsum l.
Proof. induction 1 as [|x l Hx _ IH]; rewrite ?zsum_cons; [done|lia]. Qed.

Lemma zsum_elem l x : Forall (λ y, 0 <= y) l → x ∈ l → x <= zsum l.
Proof.
  intros Hl Hx. apply list_elem_of_split in Hx as (l1 & l2 & ->).
  apply Forall_app in Hl as [H1 H2]. apply Forall_cons in H2 as [_ H2].
  rewrite zsum_app, zsum_cons. apply zsum_nonneg in H1, H2. lia.
Qed.

Lemma zsum_perm l k : l ≡ₚ k → zsum l = zsum k.
Proof. induction 1; rewrite ?zsum_cons; try done; lia. Qed.

#[export] Instance zsum_proper : Proper ((≡ₚ) ==> (=)) zsum.
Proof. intros l k. apply zsum_perm. Qed.

(** The sum of [f] over the elements that satisfy [b]. *)
Definition sum_where {A} (b : A → bool) (f : A → Z) (l : list A) : Z :=
  zsum (map f (filter (λ x, b x = true) l)).

Lemma sum_where_app {A} (b : A → bool) f l k : sum_where b f (l ++ k) = sum_where b f l + sum_where b f k.
Proof. unfold sum_where. by rewrite filter_app, map_app, zsum_app. Qed.

Lemma sum_where_cons {A} (b : A → bool) f x l :
  sum_where b f (x :: l) = (if b x then f x else 0) + sum_where b f l.
Proof. unfold sum_where. rewrite filter_cons. destruct (b x); case_decide; rewrite ?map_cons, ?zsum_cons; done. Qed.

Lemma sum_where_snoc {A} (b : A → bool) f l x :
  sum_where b f (l ++ [x]) = sum_where b f l + (if b x then f x else 0).
Proof. rewrite sum_where_app, sum_where_cons. unfold sum_where. rewrite filter_nil. cbn. lia. Qed.

Lemma sum_where_insert {A} (b : A → bool) f l i x y :
  l !! i = Some x →
  sum_where b f (<[i := y]> l) = sum_where b f l - (if b x then f x else 0) + (if b y then f y else 0).
Proof.
  intros Hi. rewrite (insert_take_drop l i y) by (by eapply lookup_lt_Some).
  assert (sum_where b f l = sum_where b f (take i l ++ x :: drop (S i) l)) as -> by (by rewrite take_drop_middle).
  rewrite !sum_where_app, !sum_where_cons. lia.
Qed.

Lemma sum_where_map {A} (b : A → bool) f g (l : list A) :
  (∀ x, x ∈ l → b (g x) = b x ∧ (b x = true → f (g x) = f x)) → sum_where b f (map g l) = sum_where b f l.
Proof.
  induction l as [|x l IH]; intros Hg; [done|]. cbn [map]. rewrite !sum_where_cons, IH.
  - destruct (Hg x) as [-> Hf]; [by left|]. destruct (b x); [|done]. by rewrite Hf.
  - intros y Hy. apply Hg. by right.
Qed.

Lemma sum_where_nonneg {A} (b : A → bool) f l : Forall (λ x, 0 <= f x) l → 0 <= sum_where b f l.
Proof. induction 1 as [|x l Hx _ IH]; [done|]. rewrite sum_where_cons. destruct (b x); lia. Qed.

Lemma zsum_reverse l : zsum (reverse l) = zsum l.
Proof. by rewrite reverse_Permutation. Qed.

Lemma map_reverse {A B} (f : A → B) (l : list A) : map f (reverse l) = reverse (map f l).
Proof. exact (fmap_reverse f l). Qed.

(** ** Integer division *)

(** [pow10 k] for a non-negative exponent; the base of the decimal model. *)
Notation pow10 k := (10 ^ k)%Z (only parsing).

Lemma pow10_pos k : 0 <= k → 0 < 10 ^ k.
Proof. intros. apply Z.pow_pos_nonneg; lia. Qed.

Lemma pow10_split a b : 0 <= a → 0 <= b → 10 ^ (a + b) = 10 ^ a * 10 ^ b.
Proof. intros. by apply Z.pow_add_r. Qed.

Lemma pow10_le a b : 0 <= a <= b → 10 ^ a <= 10 ^ b.
Proof. intros. apply Z.pow_le_mono_r; lia. Qed.

Create HintDb pow10.
#[export] Hint Resolve pow10_pos pow10_le : pow10.

(** Side conditions about powers of ten. *)
Ltac p10 :=
  solve [ lia | apply pow10_pos; lia | apply Z.pow_nonzero; lia
        | apply Z.lt_le_incl, pow10_pos; lia | apply Z.lt_gt, pow10_pos; lia ].

Lemma floor_div_bounds a b : 0 < b → b * (a / b) <= a < b * (a / b) + b.
Proof. intros. pose proof (Z.div_mod a b). pose proof (Z.mod_pos_bound a b). lia. Qed.

(** ** Filtering *)

Section Filter.
Context {A : Type} (P : A → Prop) `{!∀ x, Decision (P x)}.

Lemma filter_all l : Forall P l → filter P l = l.
Proof. induction 1 as [|x l Hx _ IH]; [done|]. by rewrite filter_cons_True, IH. Qed.

Lemma filter_none l : Forall (λ x, ¬ P x) l → filter P l = [].
Proof. induction 1 as [|x l Hx _ IH]; [done|]. by rewrite filter_cons_False. Qed.
End Filter.

Lemma existsb_false {A} (f : A → bool) l : existsb f l = false ↔ ∀ x, x ∈ l → f x = false.
Proof.
  induction l as [|y l IH]; cbn; [split; [intros _ x Hx; by apply elem_of_nil in Hx|done]|].
  rewrite orb_false_iff, IH. setoid_rewrite elem_of_cons. naive_solver.
Qed.

Lemma find_None_of {A} (P : A → bool) (l : list A) : (∀ x, x ∈ l → P x = false) → find P l = None.
Proof.
  induction l as [|x l IH]; intros Hl; [done|]. cbn. rewrite Hl by left. apply IH. intros y Hy. apply Hl. by right.
Qed.

Lemma find_app {A} (P : A → bool) l k : find P (l ++ k) = match find P l with Some x => Some x | None => find P k end.
Proof. induction l as [|x l IH]; [done|]. cbn. by destruct (P x). Qed.
Lemma find_Some_in {A} (f : A → bool) l x : find f l = Some x → x ∈ l ∧ f x = true.
Proof. intros [Hin Hf]%find_some. split; [by apply list_elem_of_In|done]. Qed.

(** Two elements with the same key are one, when keys are distinct. *)
Lemma NoDup_map_inj {A B} (f : A → B) l x y : NoDup (map f l) → x ∈ l → y ∈ l → f x = f y → x = y.
Proof.
  intros Hnd [i Hi]%list_elem_of_lookup [j Hj]%list_elem_of_lookup Heq.
  assert (i = j) as ->; [|congruence].
  apply (NoDup_lookup (map f l) i j (f x)); [done| |rewrite Heq]; by apply (list_lookup_fmap_Some_2 f l).
Qed.

Lemma NoDup_snoc {A} (l : list A) x : NoDup l → x ∉ l → NoDup (l ++ [x]).
Proof.
  intros Hl Hx. apply NoDup_app. split; [done|]. split; [|apply NoDup_singleton].
  intros y Hy ->%list_elem_of_singleton. done.
Qed.

(** ** Loops that raise *)

(** A loop of steps related by a preorder relates its two ends. *)
Lemma res_foldl_rel {A S} (R : S → S → Prop) `{!PreOrder R} (f : S → A → res S) l s s' :
  (∀ x s s', x ∈ l → f s x = Ok s' → R s s') → res_foldl f s l = Ok s' → R s s'.
Proof.
  revert s. induction l as [|x l IH]; intros s Hf H; cbn in H; inv_res; [by subst|].
  transitivity y; [by apply (Hf x); [left|]|]. apply IH; [|done]. intros z a b Hz. apply Hf. by right.
Qed.
