(* ===== verification/PyDecimal.v ===== *)
(** Python's [decimal.Decimal] under the default context.

    A finite [Decimal] is a coefficient and an exponent; [+], [-], [*] and [/]
    are computed exactly and then rounded to the context precision (28
    significant digits, ROUND_HALF_EVEN), comparisons are exact, and [quantize]
    raises InvalidOperation when its result needs more digits than the
    precision.  Signed zeros, NaN, infinities, and the exponent limits
    (999999) of the context are not modelled: no modelled caller observes the
    sign of a zero, and the callers that can meet a non-finite number test
    [is_finite] first (see [FeePolicy]).

    [at_scale s d n] says that [d] is exactly [n * 10^-s]; its lemmas are how
    the money components reason: paise are scale 2. *)

From Stdlib Require Import ZArith Lia.
From S2P Require Import Prelude.

(** ** Representation and rounding *)

Record decimal := Dec { coef : Z; dexp : Z }.

#[export] Instance decimal_eq_dec : EqDecision decimal.
Proof. solve_decision. Defined.

Definition prec : Z := 28.

(** Number of decimal digits of a non-negative integer (1 for 0). *)
Fixpoint ndigits_aux (fuel : nat) (c : Z) : Z :=
  match fuel with
  | O => 1
  | S f => if c <? 10 then 1 else 1 + ndigits_aux f (c / 10)
  end.

Definition ndigits (c : Z) : Z := ndigits_aux (Z.to_nat (Z.log2 c)) c.

Inductive rounding := ROUND_HALF_UP | ROUND_HALF_EVEN.

(** Does a quotient [q] with remainder [r] modulo [d] round away from zero? *)
Definition rounds_up (m : rounding) (q r d : Z) : bool :=
  match m with
  | ROUND_HALF_UP => d <=? 2 * r
  | ROUND_HALF_EVEN => (d <? 2 * r) || ((2 * r =? d) && negb (Z.even q))
  end.

(** [round_div m n d] is [n / d] rounded to an integer, for [0 < d]. *)
Definition round_div (m : rounding) (n d : Z) : Z :=
  let q := Z.abs n / d in
  let r := Z.abs n mod d in
  Z.sgn n * (if rounds_up m q r d then q + 1 else q).

(** The context's rounding of a result to [prec] digits. *)
Definition fix_prec (d : decimal) : decimal :=
  let n := ndigits (Z.abs (coef d)) in
  if n <=? prec then d
  else
    let k := n - prec in
    let c := round_div ROUND_HALF_EVEN (coef d) (10 ^ k) in
    if 10 ^ prec <=? Z.abs c then Dec (Z.quot c 10) (dexp d + k + 1)
    else Dec c (dexp d + k).

(** ** Operations *)

Definition d_int (n : Z) : decimal := Dec n 0.
Definition d_zero : decimal := d_int 0.
Definition dneg (a : decimal) : decimal := Dec (- coef a) (dexp a).

Definition dadd (a b : decimal) : decimal :=
  let e := Z.min (dexp a) (dexp b) in
  fix_prec (Dec (coef a * 10 ^ (dexp a - e) + coef b * 10 ^ (dexp b - e)) e).

Definition dsub (a b : decimal) : decimal := dadd a (dneg b).

Definition dmul (a b : decimal) : decimal :=
  fix_prec (Dec (coef a * coef b) (dexp a + dexp b)).

(** Division as in [_pydecimal]: enough quotient digits for the precision plus
    a sticky digit, then one rounding. (The library also strips trailing zeros
    of an exact quotient, which does not change its value.) *)
Definition ddiv (a b : decimal) : res decimal :=
  if coef b =? 0 then
    Err (if coef a =? 0 then InvalidOperation else DivisionByZero)
  else if coef a =? 0 then Ok (Dec 0 (dexp a - dexp b))
  else
    let ca := Z.abs (coef a) in
    let cb := Z.abs (coef b) in
    let shift := ndigits cb - ndigits ca + prec + 1 in
    let num := if 0 <=? shift then ca * 10 ^ shift else ca in
    let den := if 0 <=? shift then cb else cb * 10 ^ (- shift) in
    let q := num / den in
    let q' := if (num mod den =? 0) then q else if q mod 5 =? 0 then q + 1 else q in
    Ok (fix_prec (Dec (Z.sgn (coef a) * Z.sgn (coef b) * q') (dexp a - dexp b - shift))).

Definition dcompare (a b : decimal) : comparison :=
  let e := Z.min (dexp a) (dexp b) in
  coef a * 10 ^ (dexp a - e) ?= coef b * 10 ^ (dexp b - e).

Definition dltb (a b : decimal) : bool := match dcompare a b with Lt => true | _ => false end.
Definition dleb (a b : decimal) : bool := match dcompare a b with Gt => false | _ => true end.
Definition deqb (a b : decimal) : bool := match dcompare a b with Eq => true | _ => false end.
Definition dpos (a : decimal) : bool := dltb d_zero a.

(** Python's [max(a, b)]: the first argument unless the second is larger. *)
Definition dmax (a b : decimal) : decimal := if dltb a b then b else a.
Definition dabs (a : decimal) : decimal := Dec (Z.abs (coef a)) (dexp a).

(** The coefficient of [d] rescaled to exponent [e]. *)
Definition rescale (m : rounding) (e : Z) (d : decimal) : Z :=
  if e <=? dexp d then coef d * 10 ^ (dexp d - e)
  else round_div m (coef d) (10 ^ (e - dexp d)).

Definition quantize (m : rounding) (e : Z) (d : decimal) : res decimal :=
  let c := rescale m e d in
  if ndigits (Z.abs c) <=? prec then Ok (Dec c e) else Err InvalidOperation.

(** [int(d.to_integral_value(rounding=m))] *)
Definition to_int (m : rounding) (d : decimal) : Z := rescale m 0 d.

(** Addition of PostgreSQL numerics is exact. *)
Definition numeric_add (a b : decimal) : decimal :=
  let e := Z.min (dexp a) (dexp b) in
  Dec (coef a * 10 ^ (dexp a - e) + coef b * 10 ^ (dexp b - e)) e.

(** [sum(l, Decimal("0"))] *)
Definition dsum (l : list decimal) : decimal := foldl dadd d_zero l.

(** ** Digits *)

Lemma ndigits_aux_spec fuel c :
  0 < c → c < 2 ^ (Z.of_nat fuel + 1) →
  1 <= ndigits_aux fuel c ∧
  10 ^ (ndigits_aux fuel c - 1) <= c < 10 ^ ndigits_aux fuel c.
Proof.
  revert c; induction fuel as [|f IH]; intros c Hc Hlt; cbn [ndigits_aux].
  { change (2 ^ (Z.of_nat 0 + 1)) with 2 in Hlt. lia. }
  destruct (Z.ltb_spec c 10); [lia|].
  pose proof (floor_div_bounds c 10 ltac:(lia)) as Hdiv.
  assert (c / 10 < 2 ^ (Z.of_nat f + 1)) as Hf.
  { rewrite Nat2Z.inj_succ in Hlt.
    replace (Z.succ (Z.of_nat f) + 1) with ((Z.of_nat f + 1) + 1) in Hlt by lia.
    rewrite Z.pow_add_r in Hlt by lia. lia. }
  destruct (IH (c / 10) ltac:(lia) Hf) as (Hn & Hlo & Hhi).
  set (n := ndigits_aux f (c / 10)) in *.
  assert (10 ^ n = 10 * 10 ^ (n - 1)) as E1.
  { replace n with ((n - 1) + 1) at 1 by lia. rewrite pow10_split by lia. lia. }
  assert (10 ^ (1 + n) = 10 * 10 ^ n) as E2 by (rewrite pow10_split by lia; lia).
  replace (1 + n - 1) with n by lia. lia.
Qed.

Lemma ndigits_spec c :
  0 < c → 1 <= ndigits c ∧ 10 ^ (ndigits c - 1) <= c < 10 ^ ndigits c.
Proof.
  intros Hc. apply ndigits_aux_spec; [done|].
  pose proof (Z.log2_spec c Hc) as [_ Hlt]. pose proof (Z.log2_nonneg c).
  rewrite Z2Nat.id by lia. by rewrite <-Z.add_1_r in Hlt.
Qed.

Lemma ndigits_le c k : 0 <= c → 1 <= k → ndigits c <= k ↔ c < 10 ^ k.
Proof.
  intros Hc Hk. destruct (Z.eq_dec c 0) as [->|].
  { change (ndigits 0) with 1. pose proof (pow10_pos k). lia. }
  destruct (ndigits_spec c ltac:(lia)) as (Hn & Hlo & Hhi). split; intros H.
  - eapply Z.lt_le_trans; [exact Hhi|]. apply pow10_le; lia.
  - destruct (Z.le_gt_cases (ndigits c) k) as [|Hgt]; [done|].
    pose proof (pow10_le k (ndigits c - 1) ltac:(lia)). lia.
Qed.

Lemma ndigits_pos c : 0 <= c → 1 <= ndigits c.
Proof.
  intros. destruct (Z.eq_dec c 0) as [->|]; [done|]. apply ndigits_spec; lia.
Qed.

(** ** Rounding *)

Lemma rounds_up_true m q r d : rounds_up m q r d = true → d <= 2 * r.
Proof.
  destruct m; cbn; intros H; [by apply Z.leb_le|].
  apply orb_true_iff in H as [H|H]; [apply Z.ltb_lt in H; lia|].
  apply andb_true_iff in H as [H _]. apply Z.eqb_eq in H. lia.
Qed.

Lemma rounds_up_false m q r d : rounds_up m q r d = false → 2 * r <= d.
Proof.
  destruct m; cbn; intros H; [apply Z.leb_gt in H; lia|].
  apply orb_false_iff in H as [H _]. apply Z.ltb_ge in H. lia.
Qed.

Lemma round_div_exact m q d : 0 < d → round_div m (q * d) d = q.
Proof.
  intros Hd. unfold round_div.
  rewrite Z.abs_mul, (Z.abs_eq d), Z.div_mul, Z.mod_mul by lia.
  destruct (rounds_up _ _ _ _) eqn:E; [apply rounds_up_true in E; lia|].
  rewrite Z.sgn_mul, (Z.sgn_pos d) by lia.
  destruct (Z.sgn_spec q) as [[? ->]|[[? ->]|[? ->]]]; lia.
Qed.

(** Rounding is within half a unit in either mode. *)
Lemma round_div_error m n d : 0 < d → 2 * Z.abs (round_div m n d * d - n) <= d.
Proof.
  intros Hd. unfold round_div.
  pose proof (floor_div_bounds (Z.abs n) d Hd).
  pose proof (Z.div_mod (Z.abs n) d ltac:(lia)).
  set (q := Z.abs n / d) in *. set (r := Z.abs n mod d) in *.
  destruct (rounds_up m q r d) eqn:E;
    [apply rounds_up_true in E|apply rounds_up_false in E]; clearbody q r;
    destruct (Z.sgn_spec n) as [[Hn ->]|[[Hn ->]|[Hn ->]]]; nia.
Qed.

Lemma round_div_nonneg m n d : 0 < d → 0 <= n → 0 <= round_div m n d.
Proof. intros Hd Hn. pose proof (round_div_error m n d Hd). nia. Qed.

Lemma round_div_0 m d : 0 < d → round_div m 0 d = 0.
Proof. intros. by apply (round_div_exact m 0 d). Qed.

Lemma round_div_scale m n d k : 0 < d → 0 < k → round_div m (n * k) (d * k) = round_div m n d.
Proof.
  intros Hd Hk. unfold round_div. rewrite Z.abs_mul, (Z.abs_eq k) by lia.
  rewrite Z.div_mul_cancel_r, Z.mul_mod_distr_r by lia.
  replace (Z.sgn (n * k)) with (Z.sgn n) by (rewrite Z.sgn_mul, (Z.sgn_pos k) by lia; lia).
  set (q := Z.abs n / d). set (r := Z.abs n mod d).
  replace (rounds_up m q (r * k) (d * k)) with (rounds_up m q r d); [done|].
  destruct m; cbn; rewrite Z.mul_assoc.
  - destruct (Z.leb_spec d (2 * r)), (Z.leb_spec (d * k) (2 * r * k)); nia.
  - assert (d <? 2 * r = (d * k <? 2 * r * k)) as ->
      by (destruct (Z.ltb_spec d (2 * r)), (Z.ltb_spec (d * k) (2 * r * k)); nia).
    assert ((2 * r =? d) = (2 * r * k =? d * k)) as ->
      by (destruct (Z.eqb_spec (2 * r) d), (Z.eqb_spec (2 * r * k) (d * k)); nia). done.
Qed.

Lemma round_half_up_mono a b d :
  0 < d → 0 <= a <= b →
  round_div ROUND_HALF_UP a d <= round_div ROUND_HALF_UP b d.
Proof.
  intros Hd Hab. destruct (Z.eq_dec a 0) as [->|].
  { rewrite round_div_0 by done. apply round_div_nonneg; lia. }
  unfold round_div, rounds_up. rewrite !Z.abs_eq, !Z.sgn_pos by lia.
  pose proof (Z.div_mod a d ltac:(lia)). pose proof (Z.div_mod b d ltac:(lia)).
  pose proof (Z.mod_pos_bound a d Hd). pose proof (Z.mod_pos_bound b d Hd).
  destruct (Z.leb_spec d (2 * (a mod d))), (Z.leb_spec d (2 * (b mod d))); nia.
Qed.

(** ** Exact values at a scale *)

(** [d] is exactly [n * 10^-s]. *)
Definition at_scale (s : Z) (d : decimal) (n : Z) : Prop :=
  coef d * 10 ^ Z.max 0 (dexp d + s) = n * 10 ^ Z.max 0 (- (dexp d + s)).

(** The integers a [Decimal] result can hold without rounding. *)
Definition fits (n : Z) : Prop := Z.abs n < 10 ^ prec.

Lemma at_scale_shift s d n k :
  - dexp d <= k → s <= k →
  at_scale s d n ↔ coef d * 10 ^ (dexp d + k) = n * 10 ^ (k - s).
Proof.
  intros Hd Hs. unfold at_scale. destruct (Z.le_ge_cases 0 (dexp d + s)).
  - rewrite (Z.max_r 0 (dexp d + s)), (Z.max_l 0 (-(dexp d + s))) by lia.
    replace (dexp d + k) with ((dexp d + s) + (k - s)) by lia.
    rewrite (pow10_split (dexp d + s) (k - s)), Z.pow_0_r, Z.mul_1_r, Z.mul_assoc by lia. rewrite Z.mul_cancel_r by p10. done.
  - rewrite (Z.max_l 0 (dexp d + s)), (Z.max_r 0 (-(dexp d + s))) by lia.
    replace (k - s) with ((dexp d + k) + (- (dexp d + s))) by lia.
    rewrite (pow10_split (dexp d + k)), Z.pow_0_r, Z.mul_1_r, (Z.mul_comm (10 ^ (dexp d + k))) by lia.
    rewrite Z.mul_assoc, Z.mul_cancel_r by p10. done.
Qed.

Lemma at_scale_Dec c e s n : s = - e → c = n → at_scale s (Dec c e) n.
Proof. intros -> ->. unfold at_scale. cbn. by replace (e + - e) with 0 by lia. Qed.

Lemma at_scale_inj s d n m : at_scale s d n → at_scale s d m → n = m.
Proof.
  unfold at_scale. intros -> E. pose proof (pow10_pos (Z.max 0 (- (dexp d + s)))). nia.
Qed.

Lemma at_scale_zero s d : at_scale s d 0 ↔ coef d = 0.
Proof. unfold at_scale. pose proof (pow10_pos (Z.max 0 (dexp d + s))). nia. Qed.

Lemma at_scale_up s t d n : s <= t → at_scale s d n → at_scale t d (n * 10 ^ (t - s)).
Proof.
  intros Hst H. set (k := Z.max (- dexp d) t).
  rewrite (at_scale_shift s d n k) in H by lia. rewrite (at_scale_shift _ _ _ k) by lia.
  rewrite H. replace (k - s) with ((t - s) + (k - t)) by lia.
  rewrite (pow10_split (t - s)) by lia. lia.
Qed.

Lemma at_scale_int s n : 0 <= s → at_scale s (d_int n) (n * 10 ^ s).
Proof. intros. rewrite <-(Z.sub_0_r s) at 2. apply at_scale_up; [lia|]. by apply at_scale_Dec. Qed.

(** Comparisons read the integers. *)
Lemma dcompare_at_scale s a b n m :
  at_scale s a n → at_scale s b m → dcompare a b = (n ?= m).
Proof.
  intros Ha Hb. unfold dcompare. set (e := Z.min (dexp a) (dexp b)).
  set (k := Z.max (- e) s).
  rewrite (at_scale_shift s a n k) in Ha by lia.
  rewrite (at_scale_shift s b m k) in Hb by lia.
  rewrite (Zmult_compare_compat_r (coef a * _) _ (10 ^ (e + k)))
    by (apply Z.lt_gt, pow10_pos; lia).
  rewrite <-!Z.mul_assoc, <-!pow10_split by lia.
  replace (dexp a - e + (e + k)) with (dexp a + k) by lia.
  replace (dexp b - e + (e + k)) with (dexp b + k) by lia.
  rewrite Ha, Hb. symmetry. apply Zmult_compare_compat_r, Z.lt_gt, pow10_pos. lia.
Qed.

Lemma dltb_at_scale s a b n m :
  at_scale s a n → at_scale s b m → dltb a b = (n <? m).
Proof. intros Ha Hb. unfold dltb, Z.ltb. by rewrite (dcompare_at_scale s a b n m). Qed.

Lemma dleb_at_scale s a b n m :
  at_scale s a n → at_scale s b m → dleb a b = (n <=? m).
Proof. intros Ha Hb. unfold dleb, Z.leb. by rewrite (dcompare_at_scale s a b n m). Qed.

Lemma deqb_at_scale s a b n m :
  at_scale s a n → at_scale s b m → deqb a b = (n =? m).
Proof.
  intros Ha Hb. unfold deqb. rewrite (dcompare_at_scale s a b n m) by done.
  symmetry. apply Z.eqb_compare.
Qed.

Lemma dpos_at_scale s a n : at_scale s a n → dpos a = (0 <? n).
Proof. intros. apply (dltb_at_scale s); [by apply at_scale_zero|done]. Qed.

Lemma dmax_at_scale s a b n m :
  at_scale s a n → at_scale s b m → at_scale s (dmax a b) (Z.max n m).
Proof.
  intros Ha Hb. unfold dmax. rewrite (dltb_at_scale s a b n m) by done.
  destruct (Z.ltb_spec n m); [rewrite Z.max_r by lia|rewrite Z.max_l by lia]; done.
Qed.

(** The context rounding is the identity on values that fit. *)
Lemma fix_prec_at_scale s d n : at_scale s d n → fits n → at_scale s (fix_prec d) n.
Proof.
  unfold fits, prec. intros Hd Hn. unfold fix_prec, prec.
  destruct (Z.leb_spec (ndigits (Z.abs (coef d))) 28) as [|Hbig]; [done|].
  set (nd := ndigits (Z.abs (coef d))) in *.
  assert (0 < Z.abs (coef d)) as Hpos.
  { destruct (Z.eq_dec (coef d) 0) as [E|]; [|lia]. unfold nd in Hbig. by rewrite E in Hbig. }
  destruct (ndigits_spec _ Hpos) as (_ & Hlo & Hhi). fold nd in Hlo, Hhi.
  unfold at_scale in Hd. set (j := - (dexp d + s)) in *.
  assert (coef d = n * 10 ^ Z.max 0 j ∧ Z.max 0 (dexp d + s) = 0) as [Hc H0].
  { destruct (Z.le_gt_cases j 0) as [Hj|Hj].
    - exfalso. rewrite (Z.max_l 0 j), Z.mul_1_r in Hd by lia.
      pose proof (pow10_le 28 (nd - 1) ltac:(lia)).
      pose proof (pow10_pos (Z.max 0 (dexp d + s))). nia.
    - rewrite (Z.max_l 0 (dexp d + s)) in Hd by lia. split; lia. }
  assert (nd - 28 <= Z.max 0 j) as Hk.
  { apply Z.le_sub_le_add_l. unfold nd. apply ndigits_le; [lia|lia|].
    rewrite Hc, Z.abs_mul, (Z.abs_eq (10 ^ _)), pow10_split by p10.
    apply Z.mul_lt_mono_pos_r; [apply pow10_pos; lia|done]. }
  set (k := nd - 28) in *. set (q := n * 10 ^ (Z.max 0 j - k)).
  assert (coef d = q * 10 ^ k) as Hq.
  { unfold q. rewrite <-Z.mul_assoc, <-pow10_split by lia. rewrite Hc. do 2 f_equal. lia. }
  rewrite Hq, round_div_exact by (apply pow10_pos; lia).
  assert (Z.abs q < 10 ^ 28) as Hqs.
  { apply (Z.mul_lt_mono_pos_r (10 ^ k)); [apply pow10_pos; lia|].
    rewrite <-pow10_split by lia. replace (28 + k) with nd by lia.
    rewrite Hq, Z.abs_mul, (Z.abs_eq (10 ^ k)) in Hhi by (apply Z.lt_le_incl, pow10_pos; lia). done. }
  destruct (Z.leb_spec (10 ^ 28) (Z.abs q)) as [|_]; [lia|].
  rewrite (at_scale_shift s _ n (Z.max (- dexp d) s)) by (cbn; lia). cbn [coef dexp].
  unfold q. rewrite <-Z.mul_assoc, <-pow10_split by lia. do 2 f_equal. lia.
Qed.

Lemma dadd_at_scale s a b n m :
  at_scale s a n → at_scale s b m → fits (n + m) → at_scale s (dadd a b) (n + m).
Proof.
  intros Ha Hb Hf. apply fix_prec_at_scale; [|done].
  set (e := Z.min (dexp a) (dexp b)). set (k := Z.max (- e) s).
  rewrite (at_scale_shift s a n k) in Ha by lia.
  rewrite (at_scale_shift s b m k) in Hb by lia.
  rewrite (at_scale_shift s _ _ k) by (cbn; lia). cbn.
  rewrite Z.mul_add_distr_r, <-!Z.mul_assoc, <-!pow10_split by lia.
  replace (dexp a - e + (e + k)) with (dexp a + k) by lia.
  replace (dexp b - e + (e + k)) with (dexp b + k) by lia. lia.
Qed.

Lemma dneg_at_scale s a n : at_scale s a n → at_scale s (dneg a) (- n).
Proof. unfold at_scale. cbn. lia. Qed.

Lemma dsub_at_scale s a b n m :
  at_scale s a n → at_scale s b m → fits (n - m) → at_scale s (dsub a b) (n - m).
Proof. intros Ha Hb Hf. apply dadd_at_scale; [done|by apply dneg_at_scale|done]. Qed.

Lemma dmul_at_scale s t a b n m :
  at_scale s a n → at_scale t b m → fits (n * m) → at_scale (s + t) (dmul a b) (n * m).
Proof.
  intros Ha Hb Hf. apply fix_prec_at_scale; [|done].
  set (k := Z.max (- dexp a) s). set (l := Z.max (- dexp b) t).
  rewrite (at_scale_shift s a n k) in Ha by lia.
  rewrite (at_scale_shift t b m l) in Hb by lia.
  rewrite (at_scale_shift _ _ _ (k + l)) by (cbn; lia). cbn.
  replace (dexp a + dexp b + (k + l)) with ((dexp a + k) + (dexp b + l)) by lia.
  replace (k + l - (s + t)) with ((k - s) + (l - t)) by lia.
  rewrite (pow10_split (dexp a + k)), (pow10_split (k - s)) by lia.
  rewrite (Z.mul_shuffle1 (coef a)), (Z.mul_shuffle1 n). congruence.
Qed.

(** [sum] is exact while every prefix fits; non-negative terms below a total
    that fits suffice. *)
Lemma foldl_dadd_at_scale s l ns a n :
  at_scale s a n → 0 <= n → Forall2 (at_scale s) l ns → Forall (λ x, 0 <= x) ns →
  fits (n + zsum ns) → at_scale s (foldl dadd a l) (n + zsum ns).
Proof.
  intros Ha Hn Hl. revert a n Ha Hn. induction Hl as [|x m l ns Hx Hl IH]; intros a n Ha Hn Hpos Hf; cbn [foldl].
  { change (zsum []) with 0 in *. by rewrite Z.add_0_r in *. }
  rewrite zsum_cons in *. apply Forall_cons in Hpos as [Hm Hpos].
  pose proof (zsum_nonneg _ Hpos). rewrite Z.add_assoc in *. unfold fits in *.
  apply IH; [apply dadd_at_scale; [done..|unfold fits; lia]|lia|done|lia].
Qed.

Lemma dsum_at_scale s l ns :
  Forall2 (at_scale s) l ns → Forall (λ x, 0 <= x) ns → fits (zsum ns) →
  at_scale s (dsum l) (zsum ns).
Proof. intros. apply (foldl_dadd_at_scale s l ns d_zero 0); done. Qed.

(** Rescaling an exact value, and the half-unit error of any rescale. *)
Lemma rescale_at_scale m s d n : at_scale s d n → rescale m (- s) d = n.
Proof.
  intros H. unfold rescale, at_scale in *. destruct (Z.leb_spec (- s) (dexp d)).
  - rewrite Z.max_r, Z.max_l in H by lia. rewrite Z.mul_1_r in H.
    rewrite <-H. do 2 f_equal. lia.
  - rewrite Z.max_l, Z.max_r in H by lia. rewrite Z.mul_1_r in H.
    rewrite H. replace (- s - dexp d) with (- (dexp d + s)) by lia.
    apply round_div_exact, pow10_pos. lia.
Qed.

Lemma quantize_at_scale m s d n :
  at_scale s d n → fits n → quantize m (- s) d = Ok (Dec n (- s)).
Proof.
  intros H Hf. unfold quantize. rewrite (rescale_at_scale m s d n H).
  assert (ndigits (Z.abs n) <= prec) as Hn by (apply ndigits_le; [lia|done|done]).
  by apply Z.leb_le in Hn as ->.
Qed.

Lemma to_int_at_scale m d n : at_scale 0 d n → to_int m d = n.
Proof. apply (rescale_at_scale m 0). Qed.

(** [quantize] always lands on its exponent; what it returns is the rescale. *)
Lemma quantize_Ok m e d r :
  quantize m e d = Ok r ↔ r = Dec (rescale m e d) e ∧ fits (rescale m e d).
Proof.
  unfold quantize, fits. destruct (Z.leb_spec (ndigits (Z.abs (rescale m e d))) prec) as [H|H].
  - rewrite ndigits_le in H by (unfold prec; lia). naive_solver.
  - split; [done|intros [_ Hf]]. exfalso.
    rewrite <-(ndigits_le _ prec) in Hf by (unfold prec; lia). lia.
Qed.

Lemma rescale_nonneg m e d : 0 <= coef d → 0 <= rescale m e d.
Proof.
  intros. unfold rescale. destruct (Z.leb_spec e (dexp d)).
  - pose proof (pow10_pos (dexp d - e)). nia.
  - apply round_div_nonneg; [apply pow10_pos; lia|done].
Qed.

Lemma rescale_pos_coef m e d : 0 < rescale m e d → 0 < coef d.
Proof.
  unfold rescale. destruct (Z.leb_spec e (dexp d)).
  - pose proof (pow10_pos (dexp d - e)). nia.
  - unfold round_div. set (q := if rounds_up _ _ _ _ then _ else _).
    assert (0 <= q).
    { pose proof (pow10_pos (e - dexp d) ltac:(lia)).
      pose proof (Z.div_pos (Z.abs (coef d)) (10 ^ (e - dexp d)) ltac:(lia) ltac:(lia)). unfold q. case_match; lia. }
    destruct (Z.sgn_spec (coef d)) as [[? ->]|[[? ->]|[? ->]]]; lia.
Qed.

Create HintDb at_scale.
#[export] Hint Resolve at_scale_Dec dneg_at_scale dadd_at_scale dsub_at_scale dmul_at_scale
  dmax_at_scale : at_scale.

(** ** Division *)

(** Every result of the context has at most [prec] digits. *)
Lemma fix_prec_fits d : fits (coef (fix_prec d)).
Proof.
  unfold fix_prec, fits, prec.
  destruct (Z.leb_spec (ndigits (Z.abs (coef d))) 28) as [H|H].
  { by apply ndigits_le in H; [|lia|lia]. }
  set (k := ndigits (Z.abs (coef d)) - 28).
  set (c := round_div ROUND_HALF_EVEN (coef d) (10 ^ k)).
  destruct (Z.leb_spec (10 ^ 28) (Z.abs c)) as [Hc|Hc]; [|done]. cbn [coef].
  assert (Z.abs (coef d) < 10 ^ (28 + k)) as Hd.
  { apply ndigits_le; lia. }
  pose proof (round_div_error ROUND_HALF_EVEN (coef d) (10 ^ k) ltac:(p10)) as He. fold c in He.
  rewrite pow10_split in Hd by lia. pose proof (pow10_pos k ltac:(lia)).
  assert (Z.abs c <= 10 ^ 28) by (change (10 ^ 28) with 10000000000000000000000000000 in *; nia).
  rewrite <-Z.quot_abs by done. pose proof (Z.quot_le_mono (Z.abs c) (10 ^ 28) 10).
  change (Z.abs 10) with 10.
  change (10 ^ 28) with 10000000000000000000000000000 in *.
  change (10000000000000000000000000000 ÷ 10) with 1000000000000000000000000000 in *. lia.
Qed.

(** Scaling down by a power of ten is exact. *)
Lemma ddiv_pow10 s j a n :
  0 <= j <= 2 → at_scale s a n → fits n → fits (coef a) →
  ∃ r, ddiv a (d_int (10 ^ j)) = Ok r ∧ at_scale (s + j) r n.
Proof.
  intros Hj Ha Hn Hca. unfold ddiv, d_int. cbn [coef dexp].
  pose proof (pow10_pos j ltac:(lia)) as Hp.
  destruct (Z.eqb_spec (10 ^ j) 0) as [|_]; [lia|].
  destruct (Z.eqb_spec (coef a) 0) as [E|Hnz].
  { eexists; split; [done|].
    assert (n = 0) as -> by (apply (at_scale_inj s a); [done|by apply at_scale_zero]).
    by apply at_scale_zero. }
  assert (ndigits (Z.abs (coef a)) <= prec) as Hda by (apply ndigits_le; [lia|done|done]).
  pose proof (ndigits_pos (Z.abs (coef a)) ltac:(lia)).
  pose proof (ndigits_pos (Z.abs (10 ^ j)) ltac:(lia)).
  assert (j + 1 <= ndigits (Z.abs (10 ^ j))) as Hdj.
  { destruct (ndigits_spec (Z.abs (10 ^ j)) ltac:(lia)) as (_ & _ & Hlt).
    rewrite Z.abs_eq in Hlt at 1 by lia. apply Z.pow_lt_mono_r_iff in Hlt; lia. }
  set (sh := ndigits (Z.abs (10 ^ j)) - ndigits (Z.abs (coef a)) + prec + 1) in *.
  assert (j <= sh) as Hsh by (unfold prec in *; lia).
  destruct (Z.leb_spec 0 sh) as [_|]; [|lia].
  rewrite (Z.abs_eq (10 ^ j)), (Z.sgn_pos (10 ^ j)) by lia.
  replace (Z.abs (coef a) * 10 ^ sh) with (Z.abs (coef a) * 10 ^ (sh - j) * 10 ^ j).
  2: { rewrite <-Z.mul_assoc, <-pow10_split by lia. do 2 f_equal. lia. }
  rewrite Z.div_mul, Z.mod_mul by lia. cbn [Z.eqb].
  eexists; split; [done|]. apply fix_prec_at_scale; [|done].
  set (k := Z.max (- dexp a + sh) (Z.max s 0)).
  rewrite (at_scale_shift s a n k) in Ha by lia.
  rewrite (at_scale_shift _ _ _ (k + j)) by (cbn; lia). cbn [coef dexp].
  replace (Z.sgn (coef a) * 1 * (Z.abs (coef a) * 10 ^ (sh - j))) with (coef a * 10 ^ (sh - j))
    by (destruct (Z.sgn_spec (coef a)) as [[? ->]|[[? ->]|[? ->]]]; lia).
  rewrite <-Z.mul_assoc, <-pow10_split by lia.
  replace (sh - j + (dexp a - 0 - sh + (k + j))) with (dexp a + k) by lia.
  rewrite Ha. do 2 f_equal. lia.
Qed.

(** Rounding to the precision at most doubles a non-negative value. *)
Lemma fix_prec_double d k :
  0 <= coef d → - dexp d <= k →
  0 <= coef (fix_prec d) ∧ dexp d <= dexp (fix_prec d) ∧
  coef (fix_prec d) * 10 ^ (dexp (fix_prec d) + k) <= 2 * (coef d * 10 ^ (dexp d + k)).
Proof.
  intros Hd Hk. unfold fix_prec, prec. set (nd := ndigits (Z.abs (coef d))).
  pose proof (pow10_pos (dexp d + k) ltac:(lia)) as Hp.
  destruct (Z.leb_spec nd 28) as [|Hnd]; [split; [done|split; [lia|nia]]|].
  pose proof (pow10_pos (nd - 28) ltac:(lia)) as Hq.
  pose proof (round_div_nonneg ROUND_HALF_EVEN (coef d) _ Hq Hd) as Hc0.
  pose proof (round_div_error ROUND_HALF_EVEN (coef d) _ Hq) as Herr.
  set (c := round_div ROUND_HALF_EVEN (coef d) (10 ^ (nd - 28))) in *.
  assert (0 < coef d) as Hpos.
  { destruct (Z.eq_dec (coef d) 0) as [E|]; [|lia]. unfold nd in Hnd. by rewrite E in Hnd. }
  assert (10 ^ (nd - 28) <= coef d) as Hlow.
  { destruct (ndigits_spec (Z.abs (coef d)) ltac:(lia)) as (_ & Hlo & _). fold nd in Hlo.
    pose proof (pow10_le (nd - 28) (nd - 1) ltac:(lia)). lia. }
  assert (c * 10 ^ (nd - 28) <= 2 * coef d) as H2 by lia.
  destruct (Z.leb_spec (10 ^ 28) (Z.abs c)) as [Hbig|_]; cbn [coef dexp].
  - rewrite Z.quot_div_nonneg by lia. pose proof (floor_div_bounds c 10 ltac:(lia)).
    split; [lia|split; [lia|]].
    replace (dexp d + (nd - 28) + 1 + k) with (1 + ((nd - 28) + (dexp d + k))) by lia.
    rewrite pow10_split, (pow10_split (nd - 28)) by lia. change (10 ^ 1) with 10.
    rewrite !Z.mul_assoc. apply Z.mul_le_mono_nonneg_r; [lia|].
    transitivity (c * 10 ^ (nd - 28)); [|done]. apply Z.mul_le_mono_nonneg_r; lia.
  - split; [done|split; [lia|]].
    replace (dexp d + (nd - 28) + k) with ((nd - 28) + (dexp d + k)) by lia.
    rewrite (pow10_split (nd - 28)) by lia.
    rewrite !Z.mul_assoc. apply Z.mul_le_mono_nonneg_r; lia.
Qed.

(** An upper bound on a non-negative value bounds its rescale. *)
Lemma rescale_upper m k r x K :
  0 <= coef r → 0 <= x → - dexp r <= K → k <= K →
  coef r * 10 ^ (dexp r + K) <= x * 10 ^ (K - k) → rescale m (- k) r <= x + 1.
Proof.
  intros Hr Hx HK Hk H. unfold rescale. destruct (Z.leb_spec (- k) (dexp r)).
  - replace (dexp r + K) with ((dexp r - - k) + (K - k)) in H by lia.
    rewrite pow10_split, Z.mul_assoc in H by lia.
    apply Z.mul_le_mono_pos_r in H; [lia|p10].
  - set (p := 10 ^ (- k - dexp r)). assert (0 < p) as Hp by (apply pow10_pos; lia).
    replace (K - k) with ((- k - dexp r) + (dexp r + K)) in H by lia.
    rewrite (pow10_split (- k - dexp r)), Z.mul_assoc in H by lia.
    apply Z.mul_le_mono_pos_r in H; [|p10]. fold p in H.
    pose proof (round_div_error m (coef r) p Hp). nia.
Qed.

(** The quotient digits computed by [ddiv]. *)
Lemma ddiv_digits_pos ca cb sh num den :
  0 < ca → 0 < cb → sh = ndigits cb - ndigits ca + prec + 1 →
  num = (if 0 <=? sh then ca * 10 ^ sh else ca) →
  den = (if 0 <=? sh then cb else cb * 10 ^ (- sh)) →
  0 < den ∧ den <= num.
Proof.
  intros Ha Hb Hsh -> ->. unfold prec in *.
  destruct (ndigits_spec ca Ha) as (Hna & Hla & _).
  destruct (ndigits_spec cb Hb) as (Hnb & _ & Hub).
  destruct (Z.leb_spec 0 sh).
  - split; [done|]. transitivity (10 ^ (ndigits ca - 1) * 10 ^ sh).
    + rewrite <-pow10_split by lia. transitivity (10 ^ ndigits cb); [lia|]. apply pow10_le; lia.
    + apply Z.mul_le_mono_nonneg_r; p10.
  - pose proof (pow10_pos (- sh) ltac:(lia)). split; [nia|].
    transitivity (10 ^ ndigits cb * 10 ^ (- sh)); [apply Z.mul_le_mono_nonneg_r; lia|].
    rewrite <-pow10_split by lia. transitivity (10 ^ (ndigits ca - 1)); [|done].
    apply pow10_le; lia.
Qed.

Lemma ddiv_quot_bound a b q sh l K :
  - dexp b <= l → 10 ^ l <= coef b * 10 ^ (dexp b + l) → 0 <= l →
  0 <= q → 0 <= dexp a - dexp b - sh + K → 0 <= dexp a + K →
  (if 0 <=? sh then coef b else coef b * 10 ^ (- sh)) * q
    <= (if 0 <=? sh then coef a * 10 ^ sh else coef a) →
  q * 10 ^ (dexp a - dexp b - sh + K) <= coef a * 10 ^ (dexp a + K).
Proof.
  intros Hl Hb Hl0 Hq HE HK H. set (E := dexp a - dexp b - sh + K) in *.
  apply (Z.mul_le_mono_pos_r _ _ (10 ^ l)); [p10|].
  transitivity (q * 10 ^ E * (coef b * 10 ^ (dexp b + l))).
  { apply Z.mul_le_mono_nonneg_l; [|done]. pose proof (pow10_pos E HE). nia. }
  rewrite (Z.mul_shuffle1 q), <-(pow10_split E), (Z.mul_comm q (coef b)) by lia.
  rewrite <-Z.mul_assoc with (n := coef a), <-pow10_split by lia.
  destruct (Z.leb_spec 0 sh).
  - transitivity (coef a * 10 ^ sh * 10 ^ (E + (dexp b + l))).
    + apply Z.mul_le_mono_nonneg_r; p10.
    + rewrite <-Z.mul_assoc, <-pow10_split by lia. apply Z.eq_le_incl. do 2 f_equal. lia.
  - replace (E + (dexp b + l)) with ((- sh) + (dexp a + K + l)) by lia.
    rewrite (pow10_split (- sh)), (Z.mul_comm (coef b) q), Z.mul_assoc by lia.
    apply Z.mul_le_mono_nonneg_r; [p10|]. rewrite <-Z.mul_assoc, Z.mul_comm. done.
Qed.

(** Dividing by a number that is at least one: the quotient exists, is
    non-negative and within a factor four of the dividend. This is all a caller
    needs in order to know that a later [quantize] does not overflow. *)
Lemma ddiv_ge1_bound m a b k l :
  0 <= coef a → 0 < coef b → - dexp b <= l → 10 ^ l <= coef b * 10 ^ (dexp b + l) →
  0 <= l → - dexp a <= k →
  ∃ r, ddiv a b = Ok r ∧ 0 <= coef r ∧
       rescale m (- k) r <= 4 * (coef a * 10 ^ (dexp a + k)) + 1.
Proof.
  intros Ha Hb Hl Hb1 Hl0 Hk. unfold ddiv.
  destruct (Z.eqb_spec (coef b) 0) as [|_]; [lia|].
  destruct (Z.eqb_spec (coef a) 0) as [E|Hnz].
  { eexists; split; [done|]. split; [done|]. rewrite E, Z.mul_0_l.
    apply (rescale_upper _ _ _ 0 (Z.max k (- dexp (Dec 0 (dexp a - dexp b))))); cbn; lia. }
  rewrite (Z.abs_eq (coef a)), (Z.abs_eq (coef b)), !Z.sgn_pos by lia.
  set (sh := ndigits (coef b) - ndigits (coef a) + prec + 1).
  set (num := if 0 <=? sh then coef a * 10 ^ sh else coef a).
  set (den := if 0 <=? sh then coef b else coef b * 10 ^ (- sh)).
  destruct (ddiv_digits_pos (coef a) (coef b) sh num den) as [Hden Hnum]; [lia..|].
  pose proof (floor_div_bounds num den Hden) as [Hq _].
  assert (1 <= num / den) as Hq1 by (apply Z.div_le_lower_bound; lia).
  set (q' := if num mod den =? 0 then _ else _).
  assert (0 < q' <= 2 * (num / den)) as Hq'.
  { unfold q'. destruct (num mod den =? 0), (num / den mod 5 =? 0); lia. }
  set (r0 := Dec (1 * 1 * q') (dexp a - dexp b - sh)).
  set (K := Z.max (Z.max k 0) (Z.max (- dexp r0) (- dexp a + Z.max 0 sh + Z.max 0 (dexp b)))).
  destruct (fix_prec_double r0 K) as (Hr & He & Hr2); [cbn; lia|lia|].
  exists (fix_prec r0). split; [done|]. split; [done|].
  pose proof (pow10_pos (dexp a + k) ltac:(lia)).
  apply (rescale_upper _ _ _ _ K); [done|nia|lia|lia|].
  replace (4 * (coef a * 10 ^ (dexp a + k)) * 10 ^ (K - k)) with (4 * (coef a * 10 ^ (dexp a + K))).
  2: { rewrite <-!Z.mul_assoc, <-pow10_split by lia. do 3 f_equal. lia. }
  pose proof (ddiv_quot_bound a b (num / den) sh l K Hl Hb1 Hl0) as Hquot.
  specialize (Hquot ltac:(lia) ltac:(cbn in *; lia) ltac:(lia)).
  assert (num / den * 10 ^ (dexp a - dexp b - sh + K) <= coef a * 10 ^ (dexp a + K)) as Hbound.
  { apply Hquot. unfold num, den in Hq. by destruct (0 <=? sh). }
  cbn [coef dexp r0] in Hr2. pose proof (pow10_pos (dexp a - dexp b - sh + K) ltac:(cbn in *; lia)).
  etransitivity; [exact Hr2|]. clear -Hq' Hbound H0. nia.
Qed.

(** ** Rounding is monotone *)

(** Every decimal is exact at a scale large enough. *)
Lemma at_scale_fine s d : - dexp d <= s → at_scale s d (coef d * 10 ^ (dexp d + s)).
Proof. intros. unfold at_scale. rewrite Z.max_r, Z.max_l by lia. lia. Qed.

Lemma rescale_fine m k s d :
  - dexp d <= s → k <= s →
  rescale m (- k) d = round_div m (coef d * 10 ^ (dexp d + s)) (10 ^ (s - k)).
Proof.
  intros Hs Hk. unfold rescale. destruct (Z.leb_spec (- k) (dexp d)).
  - replace (dexp d + s) with ((dexp d - - k) + (s - k)) by lia.
    rewrite pow10_split, Z.mul_assoc, round_div_exact by p10. done.
  - replace (10 ^ (s - k)) with (10 ^ (- k - dexp d) * 10 ^ (dexp d + s))
      by (rewrite <-pow10_split by lia; f_equal; lia).
    by rewrite round_div_scale by p10.
Qed.

Lemma rescale_mono k a b :
  0 <= coef a → dltb b a = false → rescale ROUND_HALF_UP (- k) a <= rescale ROUND_HALF_UP (- k) b.
Proof.
  intros Ha Hab. set (s := Z.max k (Z.max (- dexp a) (- dexp b))).
  rewrite (rescale_fine _ k s a), (rescale_fine _ k s b) by lia.
  rewrite (dltb_at_scale s b a _ _ (at_scale_fine s b ltac:(lia)) (at_scale_fine s a ltac:(lia))) in Hab.
  apply Z.ltb_ge in Hab. apply round_half_up_mono; [p10|].
  split; [|done]. apply Z.mul_nonneg_nonneg; [done|p10].
Qed.

(** ** Rounding error of the context *)

Lemma fix_prec_error d :
  0 <= coef d →
  ∃ c e, fix_prec d = Dec c e ∧ 0 <= c ∧ dexp d <= e ∧
    e <= dexp d + Z.max 0 (ndigits (coef d) - prec) + 1 ∧
    2 * Z.abs (c * 10 ^ (e - dexp d) - coef d) <= 10 ^ Z.max 0 (ndigits (coef d) - prec).
Proof.
  intros Hd. unfold fix_prec. rewrite Z.abs_eq by done. set (nd := ndigits (coef d)).
  destruct (Z.leb_spec nd prec) as [Hn|Hn].
  { exists (coef d), (dexp d). rewrite Z.max_l, Z.sub_diag by lia. split; [by destruct d|]. lia. }
  rewrite Z.max_r by lia. set (k := nd - prec). assert (0 < k) as Hk by lia.
  pose proof (pow10_pos k ltac:(lia)) as Hp.
  pose proof (round_div_error ROUND_HALF_EVEN (coef d) (10 ^ k) Hp) as Herr.
  pose proof (round_div_nonneg ROUND_HALF_EVEN (coef d) _ Hp Hd) as Hc.
  set (c := round_div ROUND_HALF_EVEN (coef d) (10 ^ k)) in *.
  destruct (Z.leb_spec (10 ^ prec) (Z.abs c)) as [Hbig|_].
  2: { exists c, (dexp d + k). replace (dexp d + k - dexp d) with k by lia. split; [done|]. lia. }
  assert (c = 10 ^ prec) as E.
  { assert (coef d < 10 ^ (prec + k)) as Hlt.
    { apply ndigits_le; unfold prec in *; lia. }
    rewrite pow10_split in Hlt by (unfold prec; lia). rewrite Z.abs_eq in Hbig by done.
    change (10 ^ prec) with 10000000000000000000000000000 in *. nia. }
  exists (10 ^ 27), (dexp d + k + 1). replace (dexp d + k + 1 - dexp d) with (1 + k) by lia.
  rewrite E in *. split; [done|]. split; [done|]. split; [lia|]. split; [lia|].
  rewrite pow10_split by lia. change (10 ^ 27 * (10 ^ 1 * 10 ^ k)) with (10 ^ 27 * (10 * 10 ^ k)).
  replace (10 ^ 27 * (10 * 10 ^ k)) with (10 ^ prec * 10 ^ k); [done|].
  change (10 ^ prec) with (10 ^ 27 * 10). lia.
Qed.

(** Half up, in closed form. *)
Lemma round_half_up_eq n d : 0 <= n → 0 < d → round_div ROUND_HALF_UP n d = (2 * n + d) / (2 * d).
Proof.
  intros Hn Hd. unfold round_div, rounds_up. rewrite Z.abs_eq by done.
  pose proof (floor_div_bounds n d Hd) as Hq. pose proof (Z.div_mod n d ltac:(lia)) as Hm.
  destruct (Z.eq_dec n 0) as [->|Hnz].
  { cbn [Z.sgn]. rewrite Z.mul_0_l. symmetry. apply Z.div_small. lia. }
  rewrite Z.sgn_pos, Z.mul_1_l by lia. apply Z.div_unique_pos with
    (if d <=? 2 * (n mod d) then 2 * (n mod d) - d else 2 * (n mod d) + d).
  - destruct (Z.leb_spec d (2 * (n mod d))); lia.
  - destruct (Z.leb_spec d (2 * (n mod d))); lia.
Qed.

(** Rounding half up to an integer forgives an error too small to cross a half:
    with an odd denominator [d], [n / d] is never within [1 / 2d] of one. *)
Lemma round_half_up_stable n d c D :
  0 <= n → 0 <= c → 0 < D → 0 < d → Z.odd d = true →
  2 * Z.abs (c * d - n * D) < D →
  round_div ROUND_HALF_UP c D = round_div ROUND_HALF_UP n d.
Proof.
  intros Hn Hc HD Hd Hodd He. rewrite !round_half_up_eq by done.
  set (m := (2 * n + d) / (2 * d)). pose proof (floor_div_bounds (2 * n + d) (2 * d) ltac:(lia)) as Hm.
  fold m in Hm. apply Z.odd_spec in Hodd as [j ->].
  assert (2 * (2 * j + 1) * m + 1 <= 2 * n + (2 * j + 1) <= 2 * (2 * j + 1) * m + 2 * (2 * j + 1) - 1) as Hm' by lia.
  symmetry. apply Z.div_unique_pos with (2 * c + D - 2 * D * m); [|lia].
  split; apply Z.le_sub_le_add_r || apply Z.lt_sub_lt_add_r; nia.
Qed.

(** Dividing an integer by a three-digit number of hundredths and rounding to
    an integer: the double rounding (to 28 digits, then to zero places) is the
    single rounding half up of the exact quotient [100 n / b = p / d]. *)
Lemma ddiv_hundredths n b p d g :
  0 <= n < 10 ^ 20 → 100 <= b < 1000 → 0 < g → 100 * n = p * g → b = d * g → Z.odd d = true → d < 500 →
  ∃ r, ddiv (d_int n) (Dec b (-2)) = Ok r ∧ rescale ROUND_HALF_UP 0 r = round_div ROUND_HALF_UP p d.
Proof.
  intros Hn Hb Hg Hp Hd Hodd Hd5. unfold ddiv, d_int. cbn [coef dexp].
  assert (0 < d) as Hd0 by nia.
  destruct (Z.eqb_spec b 0) as [|_]; [lia|]. destruct (Z.eqb_spec n 0) as [->|Hnz].
  { eexists; split; [done|]. assert (p = 0) as -> by nia. rewrite round_div_0 by done. done. }
  rewrite (Z.abs_eq n), (Z.abs_eq b), !Z.sgn_pos by lia.
  assert (ndigits b = 3) as ->.
  { assert (ndigits b <= 3) by (apply ndigits_le; lia).
    assert (¬ ndigits b <= 2) by (rewrite (ndigits_le b 2) by lia; lia). lia. }
  assert (1 <= ndigits n <= 20) as Hnd.
  { split; [apply ndigits_pos; lia|]. apply ndigits_le; lia. }
  set (sh := 3 - ndigits n + prec + 1). assert (12 <= sh <= 31) as Hsh by (unfold sh, prec; lia).
  destruct (Z.leb_spec 0 sh) as [_|]; [|lia].
  pose proof (floor_div_bounds (n * 10 ^ sh) b ltac:(lia)) as Hq. set (q := n * 10 ^ sh / b) in *.
  set (q' := if _ mod _ =? 0 then q else _).
  assert (Z.abs (q' * b - n * 10 ^ sh) <= b) as Hq'.
  { unfold q'. case_match eqn:E; [lia|]. case_match; lia. }
  assert (0 <= q) as Hq0 by (apply Z.div_pos; [apply Z.mul_nonneg_nonneg; [lia|p10]|lia]).
  assert (0 <= q') as Hq0' by (unfold q'; repeat case_match; lia).
  rewrite !Z.mul_1_l. destruct (fix_prec_error (Dec q' (0 - -2 - sh))) as (c & e & -> & Hc & He1 & He2 & Herr); [done|].
  cbn [coef dexp] in *. set (k := Z.max 0 (ndigits q' - prec)) in *.
  assert (n < 10 ^ ndigits n) as Hn2 by (apply (ndigits_le n (ndigits n)); lia).
  assert (ndigits q' <= 31) as Hnq.
  { apply ndigits_le; [done|done|].
    assert (n * 10 ^ sh < 10 ^ 32) as H32.
    { replace 32 with (ndigits n + sh) by (unfold sh, prec; lia). rewrite pow10_split by lia.
      apply Z.mul_lt_mono_pos_r; [p10|lia]. }
    assert (100 * q <= b * q) by (apply Z.mul_le_mono_nonneg_r; lia).
    assert (q' <= q + 1) by (unfold q'; repeat case_match; lia).
    change (10 ^ 32) with (100 * 10 ^ 30) in H32. change (10 ^ 31) with (10 * 10 ^ 30).
    set (t := 10 ^ 30) in *. assert (1 <= t) by done. clearbody t. lia. }
  assert (0 <= k <= 3) as Hk by (unfold k, prec; lia).
  eexists; split; [done|]. unfold rescale. cbn [coef dexp].
  destruct (Z.leb_spec 0 e) as [|_]; [unfold k, prec in *; lia|].
  replace (e - (0 - -2 - sh)) with (e - 2 + sh) in Herr by lia. set (D := 10 ^ (0 - e)).
  assert (10 ^ sh = 100 * (D * 10 ^ (e - 2 + sh))) as Hsplit.
  { unfold D. change 100 with (10 ^ 2). rewrite <-!pow10_split by lia. f_equal. lia. }
  assert (10 ^ k <= 1000) as Hk10 by (apply (pow10_le k 3); lia).
  set (u := 10 ^ (e - 2 + sh)) in *. assert (0 < u) as Hu by (apply pow10_pos; lia).
  assert (0 < D) as HD by (apply pow10_pos; lia).
  apply round_half_up_stable; try done; [nia|].
  assert (g * u * Z.abs (c * d - p * D) = Z.abs (c * u * b - n * 10 ^ sh)) as Hx.
  { rewrite <-(Z.abs_eq (g * u)) at 1 by nia. rewrite <-Z.abs_mul. f_equal. rewrite Hsplit, Hd. nia. }
  assert (Z.abs (c * u * b - n * 10 ^ sh) <= 501 * b) as Hx2.
  { replace (c * u * b - n * 10 ^ sh) with ((c * u - q') * b + (q' * b - n * 10 ^ sh)) by ring.
    assert (Z.abs ((c * u - q') * b) <= 500 * b); [|lia]. rewrite Z.abs_mul, (Z.abs_eq b) by lia.
    apply Z.mul_le_mono_nonneg_r; lia. }
  assert (1000000 <= D) as HD6.
  { unfold D. change 1000000 with (10 ^ 6). apply pow10_le. unfold k, prec in *. lia. }
  assert (g * u * Z.abs (c * d - p * D) <= g * u * 501 * d) as Hbd.
  { rewrite Hx. transitivity (501 * b); [done|]. rewrite Hd. clear -Hg Hu Hd0.
    replace (g * u * 501 * d) with (501 * (d * g) * u) by ring.
    rewrite <-(Z.mul_1_r (501 * (d * g))) at 1. apply Z.mul_le_mono_nonneg_l; nia. }
  assert (Z.abs (c * d - p * D) <= 501 * d) as Hfin.
  { assert (0 < g * u) as Hgu by (clear -Hg Hu; nia).
    apply (Z.mul_le_mono_pos_l _ _ (g * u) Hgu). clear -Hbd. lia. }
  lia.
Qed.

(** Paise to rupees. *)
Lemma ddiv_100 p : fits p → ∃ r, ddiv (d_int p) (d_int 100) = Ok r ∧ at_scale 2 r p.
Proof.
  intros Hp. destruct (ddiv_pow10 0 2 (d_int p) p) as (r & Hr & Hs); [lia|by apply at_scale_Dec|done|done|].
  by exists r.
Qed.

(** Dividing by an integer: the quotient is right to 25 digits. *)
Lemma ddiv_int_near a n K :
  0 < coef a → 0 < n →
  ∃ c e, ddiv a (d_int n) = Ok (Dec c e) ∧ 0 <= c ∧
    (- dexp a <= K → - e <= K → Z.max 0 (ndigits n - ndigits (coef a) + prec + 1) - dexp a <= K →
     10 ^ 25 * Z.abs (c * 10 ^ (e + K) * n - coef a * 10 ^ (dexp a + K)) <= coef a * 10 ^ (dexp a + K)).
Proof.
  intros Ha Hn. unfold ddiv, d_int. cbn [coef dexp].
  destruct (Z.eqb_spec n 0) as [|_]; [lia|]. destruct (Z.eqb_spec (coef a) 0) as [|_]; [lia|].
  rewrite (Z.abs_eq (coef a)), (Z.abs_eq n), !Z.sgn_pos by lia.
  destruct (ndigits_spec _ Ha) as (_ & Ha1 & Ha2). destruct (ndigits_spec _ Hn) as (Hn0 & Hn1 & Hn2).
  set (sh := ndigits n - ndigits (coef a) + prec + 1).
  set (num := if 0 <=? sh then coef a * 10 ^ sh else coef a). set (den := if 0 <=? sh then n else n * 10 ^ (- sh)).
  assert (0 < den ∧ 10 ^ 28 * den <= num ∧ num < 10 ^ 30 * den) as (Hden & Hlo & Hhi).
  { unfold num, den. pose proof (ndigits_pos (coef a) ltac:(lia)). destruct (Z.leb_spec 0 sh).
    - assert (10 ^ (ndigits n + 28) = 10 ^ (ndigits (coef a) - 1) * 10 ^ sh) as E1 by (rewrite <-pow10_split by lia; f_equal; unfold sh, prec; lia).
      assert (10 ^ (ndigits n + 29) = 10 ^ ndigits (coef a) * 10 ^ sh) as E2 by (rewrite <-pow10_split by lia; f_equal; unfold sh, prec; lia).
      rewrite pow10_split in E1 by lia. replace (ndigits n + 29) with (30 + (ndigits n - 1)) in E2 by lia. rewrite pow10_split in E2 by lia.
      pose proof (pow10_pos sh ltac:(lia)). split; [done|]. split; nia.
    - pose proof (pow10_pos (- sh) ltac:(lia)) as Hp. split; [nia|].
      assert (10 ^ (ndigits (coef a) - 1) = 10 ^ 28 * (10 ^ ndigits n * 10 ^ (- sh))) as E1.
      { rewrite <-!pow10_split by lia. f_equal. unfold sh, prec in *. lia. }
      assert (10 ^ ndigits (coef a) = 10 ^ 30 * (10 ^ (ndigits n - 1) * 10 ^ (- sh))) as E2.
      { rewrite <-!pow10_split by lia. f_equal. unfold sh, prec in *. lia. }
      split; nia. }
  pose proof (floor_div_bounds num den Hden) as Hq. set (q := num / den) in *.
  set (q' := if _ mod _ =? 0 then q else _).
  assert (Z.abs (q' * den - num) <= den) as Hq' by (unfold q'; repeat case_match; lia).
  assert (0 <= q) as Hq0 by (apply Z.div_pos; lia). assert (0 <= q' <= q + 1) as Hq0' by (unfold q'; repeat case_match; lia).
  rewrite !Z.mul_1_l. destruct (fix_prec_error (Dec q' (dexp a - 0 - sh))) as (c & e & -> & Hc & He1 & He2 & Herr); [cbn; lia|].
  cbn [coef dexp] in *. exists c, e. split; [done|]. split; [done|]. intros HK1 HK2 HK3.
  assert (q < 10 ^ 30) as Hq30 by (apply (Z.mul_lt_mono_pos_r den); [done|]; lia).
  assert (ndigits q' <= 31) as Hnq.
  { apply ndigits_le; [lia|done|]. change (10 ^ 31) with (10 * 10 ^ 30). lia. }
  assert (10 ^ Z.max 0 (ndigits q' - prec) <= 1000) as Hk by (apply (pow10_le _ 3); unfold prec; lia).
  set (e0 := dexp a - 0 - sh) in *. assert (- e0 <= K) as HK0 by (unfold e0; fold sh in HK3; lia).
  assert (10 ^ 25 * Z.abs (c * 10 ^ (e - e0) * den - num) <= num) as Hrel.
  { assert (Z.abs (c * 10 ^ (e - e0) * den - num) <= 501 * den) as Hx; [|lia].
    replace (c * 10 ^ (e - e0) * den - num) with ((c * 10 ^ (e - e0) - q') * den + (q' * den - num)) by ring.
    assert (Z.abs ((c * 10 ^ (e - e0) - q') * den) <= 500 * den); [|lia].
    rewrite Z.abs_mul, (Z.abs_eq den) by lia. apply Z.mul_le_mono_nonneg_r; lia. }
  set (u := if 0 <=? sh then K + e0 else K + dexp a).
  assert (0 <= u) as Hu by (unfold u; destruct (0 <=? sh); lia). pose proof (pow10_pos u Hu) as Hpu.
  assert (coef a * 10 ^ (dexp a + K) = num * 10 ^ u) as ->.
  { unfold num, u. destruct (Z.leb_spec 0 sh); [rewrite <-Z.mul_assoc, <-pow10_split by lia; do 2 f_equal; unfold e0; lia|f_equal; f_equal; lia]. }
  assert (c * 10 ^ (e + K) * n = c * 10 ^ (e - e0) * den * 10 ^ u) as ->.
  { unfold den, u. destruct (Z.leb_spec 0 sh).
    - replace (e + K) with ((e - e0) + (K + e0)) by lia. rewrite pow10_split by lia. ring.
    - replace (e + K) with ((e - e0) + (- sh + (K + dexp a))) by (unfold e0; lia). rewrite !pow10_split by lia. ring. }
  replace (c * 10 ^ (e - e0) * den * 10 ^ u - num * 10 ^ u) with ((c * 10 ^ (e - e0) * den - num) * 10 ^ u) by ring.
  rewrite Z.abs_mul, (Z.abs_eq (10 ^ u)), Z.mul_assoc by lia. apply Z.mul_le_mono_nonneg_r; lia.
Qed.
