(* ===== verification/PyFloat.v ===== *)
(** Python's [float] (IEEE-754 binary64) as far as money passes through it.

    Several services turn a [Decimal] into a [float] for a JSON payload and
    read it back with [Decimal(str(x))].  [of_decimal] is the correctly rounded
    conversion, [repr_decimal] is [Decimal(repr(x))] with the shortest digit
    string that rounds back to [x].  Infinities and NaN are left out: the
    conversions below start from finite decimals, and overflow needs a value of
    at least 2^1024.

    The main lemma, [money_through_float], is the reason the detour is sound: a
    two-decimal amount below 10^13 comes back unchanged. *)

From Stdlib Require Import ZArith Lia.
From S2P Require Import Prelude PyDecimal.

(** The float [fmant * 2^fexp]. *)
Record float64 := Float { fmant : Z; fexp : Z }.

#[export] Instance float64_eq_dec : EqDecision float64.
Proof. solve_decision. Defined.

(** [floor(log2(a / d))] for positive [a] and [d]. *)
Definition floor_log2 (a d : Z) : Z :=
  let l := Z.log2 a - Z.log2 d in
  if d * 2 ^ Z.max 0 l <=? a * 2 ^ Z.max 0 (- l) then l else l - 1.

(** The float nearest to [n / d] (ties to even), gradual underflow included. *)
Definition of_ratio (n d : Z) : float64 :=
  if n =? 0 then Float 0 0
  else
    let e := Z.max (floor_log2 (Z.abs n) d - 52) (-1074) in
    Float (round_div ROUND_HALF_EVEN (n * 2 ^ Z.max 0 (- e)) (d * 2 ^ Z.max 0 e)) e.

(** [float(d)] *)
Definition of_decimal (d : decimal) : float64 :=
  of_ratio (coef d * 10 ^ Z.max 0 (dexp d)) (10 ^ Z.max 0 (- dexp d)).

Definition f_zero : float64 := Float 0 0.

(** Equality of values. *)
Definition feqb (f g : float64) : bool :=
  let e := Z.min (fexp f) (fexp g) in
  fmant f * 2 ^ (fexp f - e) =? fmant g * 2 ^ (fexp g - e).

(** The float as an exact decimal: every binary fraction is a decimal one. *)
Definition exact_decimal (f : float64) : decimal :=
  if 0 <=? fexp f then Dec (fmant f * 2 ^ fexp f) 0
  else Dec (fmant f * 5 ^ (- fexp f)) (fexp f).

(** The [k]-digit decimals on either side of the positive float [n / d], the
    nearer one first; [p] is the position of the leading digit. *)
Definition candidates (n d p k : Z) : list decimal :=
  let u := p - k + 1 in
  let n' := n * 10 ^ Z.max 0 (- u) in
  let d' := d * 10 ^ Z.max 0 u in
  let lo := n' / d' in
  let r := n' mod d' in
  if (2 * r <? d') || ((2 * r =? d') && Z.even lo)
  then [Dec lo u; Dec (lo + 1) u] else [Dec (lo + 1) u; Dec lo u].

(** [Decimal(repr(f))]: the shortest decimal that reads back as [f], the
    closest one among the shortest. *)
Definition repr_pos (f : float64) : decimal :=
  let n := fmant f * 2 ^ Z.max 0 (fexp f) in
  let d := 2 ^ Z.max 0 (- fexp f) in
  let p := if d <=? n then ndigits (n / d) - 1 else - ndigits (d / n) - 1 in
  let try := fun pk => filter (λ c, feqb (of_decimal c) f = true) (candidates n d pk.1 pk.2) in
  let ks := map Z.of_nat (seq 1 17) in
  match ks ≫= (λ k, try (p + 1, k) ++ try (p, k)) with
  | c :: _ => c
  | [] => exact_decimal f
  end.

Definition repr_decimal (f : float64) : decimal :=
  if fmant f =? 0 then d_zero
  else if fmant f <? 0 then dneg (repr_pos (Float (- fmant f) (fexp f)))
  else repr_pos f.

(** ** Conversion error *)

Lemma pow2_pos k : 0 <= k → 0 < 2 ^ k.
Proof. intros. apply Z.pow_pos_nonneg; lia. Qed.

Lemma pow2_split a b : 0 <= a → 0 <= b → 2 ^ (a + b) = 2 ^ a * 2 ^ b.
Proof. intros. by apply Z.pow_add_r. Qed.

#[local] Ltac p2 :=
  solve [ lia | apply pow2_pos; lia | apply Z.pow_nonzero; lia
        | apply Z.lt_le_incl, pow2_pos; lia ].

(** [2^l <= a/d], cleared of denominators, and how it moves with [l]. *)
Definition pow2_le_ratio (l a d : Z) : Prop := d * 2 ^ Z.max 0 l <= a * 2 ^ Z.max 0 (- l).

Lemma pow2_le_ratio_shift l a d k :
  0 <= k → - l <= k → pow2_le_ratio l a d ↔ d * 2 ^ (l + k) <= a * 2 ^ k.
Proof.
  intros Hk Hl. unfold pow2_le_ratio. destruct (Z.le_ge_cases 0 l).
  - rewrite (Z.max_r 0 l), (Z.max_l 0 (- l)), Z.pow_0_r, Z.mul_1_r, (pow2_split l) by lia.
    rewrite Z.mul_assoc, <-Z.mul_le_mono_pos_r by p2. done.
  - rewrite (Z.max_l 0 l), (Z.max_r 0 (- l)), Z.pow_0_r, Z.mul_1_r by lia.
    replace (2 ^ k) with (2 ^ (- l) * 2 ^ (l + k))
      by (rewrite <-pow2_split by lia; f_equal; lia).
    rewrite Z.mul_assoc, <-Z.mul_le_mono_pos_r by p2. done.
Qed.

Lemma floor_log2_spec a d :
  0 < a → 0 < d →
  pow2_le_ratio (floor_log2 a d) a d ∧ ¬ pow2_le_ratio (floor_log2 a d + 1) a d.
Proof.
  intros Ha Hd. set (l := Z.log2 a - Z.log2 d).
  destruct (Z.log2_spec a Ha) as [Hal Hau]. destruct (Z.log2_spec d Hd) as [Hdl Hdu].
  pose proof (Z.log2_nonneg a). pose proof (Z.log2_nonneg d).
  set (k := Z.log2 d + 1).
  assert (pow2_le_ratio (l - 1) a d) as Hlow.
  { rewrite (pow2_le_ratio_shift _ _ _ k) by lia.
    replace (l - 1 + k) with (Z.log2 a) by lia.
    transitivity (2 ^ k * 2 ^ Z.log2 a); [apply Z.mul_le_mono_nonneg_r; [p2|unfold k; lia]|].
    rewrite Z.mul_comm. apply Z.mul_le_mono_nonneg_r; [p2|done]. }
  assert (¬ pow2_le_ratio (l + 1) a d) as Hhigh.
  { rewrite (pow2_le_ratio_shift _ _ _ k) by lia. apply Z.lt_nge.
    replace (l + 1 + k) with (Z.log2 a + 1 + 1) by lia.
    apply Z.lt_le_trans with (2 ^ Z.succ (Z.log2 a) * 2 ^ k).
    - apply Z.mul_lt_mono_pos_r; [p2|done].
    - rewrite <-pow2_split by lia.
      replace (Z.succ (Z.log2 a) + k) with (Z.log2 d + (Z.log2 a + 1 + 1)) by lia.
      rewrite pow2_split by lia. apply Z.mul_le_mono_nonneg_r; [p2|done]. }
  unfold floor_log2. fold l. destruct (Z.leb_spec (d * 2 ^ Z.max 0 l) (a * 2 ^ Z.max 0 (- l))) as [Hc|Hc].
  - done.
  - split; [done|]. replace (l - 1 + 1) with l by lia. by apply Z.lt_nge.
Qed.

(** What is used of the conversion: half-unit error, a full significand unless
    the exponent is the smallest, at most 53 bits. *)
Lemma of_ratio_spec n d :
  0 < n → 0 < d →
  let f := of_ratio n d in
  let N := n * 2 ^ Z.max 0 (- fexp f) in
  let D := d * 2 ^ Z.max 0 (fexp f) in
  0 < D ∧ 2 * Z.abs (fmant f * D - N) <= D ∧ 0 <= fmant f <= 2 ^ 53 ∧
  (2 ^ 52 * D <= N ∧ 2 ^ 52 <= fmant f ∨ fexp f = -1074) ∧ -1074 <= fexp f.
Proof.
  intros Hn Hd. unfold of_ratio. destruct (Z.eqb_spec n 0) as [|_]; [lia|].
  rewrite (Z.abs_eq n) by lia. destruct (floor_log2_spec n d Hn Hd) as [Hlo Hhi].
  set (l := floor_log2 n d) in *. set (e := Z.max (l - 52) (-1074)). cbn [fmant fexp].
  set (N := n * 2 ^ Z.max 0 (- e)). set (D := d * 2 ^ Z.max 0 e).
  assert (0 < D) as HD by (pose proof (pow2_pos (Z.max 0 e)); nia).
  assert (0 < N) as HN by (pose proof (pow2_pos (Z.max 0 (- e))); nia).
  pose proof (round_div_error ROUND_HALF_EVEN N D HD) as Herr.
  pose proof (round_div_nonneg ROUND_HALF_EVEN N D HD ltac:(lia)) as Hm0.
  set (m := round_div ROUND_HALF_EVEN N D) in *.
  assert (∀ j, 0 <= j → pow2_le_ratio (e + j) n d ↔ 2 ^ j * D <= N) as Hpow.
  { intros j Hj. rewrite (pow2_le_ratio_shift _ _ _ (Z.max 0 (- e))) by lia.
    unfold D, N. replace (e + j + Z.max 0 (- e)) with (j + Z.max 0 e) by lia.
    rewrite pow2_split, Z.mul_assoc, (Z.mul_comm d), <-Z.mul_assoc by lia. done. }
  assert (N < 2 ^ 53 * D) as Hup.
  { apply Z.lt_nge. rewrite <-Hpow by done. intros Hc. apply Hhi.
    rewrite (pow2_le_ratio_shift _ _ _ (Z.max 0 (- (l + 1)))) by lia.
    rewrite (pow2_le_ratio_shift _ _ _ (Z.max 0 (- (l + 1)))) in Hc by lia.
    etransitivity; [|exact Hc]. apply Z.mul_le_mono_nonneg_l; [lia|].
    apply Z.pow_le_mono_r; lia. }
  change (2 ^ 53) with 9007199254740992 in *. change (2 ^ 52) with 4503599627370496 in *.
  split; [done|]. split; [done|]. split; [nia|]. split; [|lia].
  destruct (Z.le_gt_cases (-1074) (l - 52)) as [Hl|Hl]; [left|right; lia].
  assert (e + 52 = l) as El by lia.
  assert (4503599627370496 * D <= N) as HL.
  { change 4503599627370496 with (2 ^ 52). apply Hpow; [done|]. by rewrite El. }
  split; [done|]. nia.
Qed.

(** The float depends on the ratio alone, so equal decimals have one float. *)
Lemma floor_log2_unique a d l : 0 < a → 0 < d → pow2_le_ratio l a d → ¬ pow2_le_ratio (l + 1) a d → floor_log2 a d = l.
Proof.
  intros Ha Hd Hl Hl'. destruct (floor_log2_spec a d Ha Hd) as [Hf Hf']. set (f := floor_log2 a d) in *.
  assert (∀ x y, y <= x → pow2_le_ratio x a d → pow2_le_ratio y a d) as Hmono.
  { intros x y Hxy. rewrite (pow2_le_ratio_shift x _ _ (Z.max 0 (Z.max (- x) (- y)))), (pow2_le_ratio_shift y _ _ (Z.max 0 (Z.max (- x) (- y)))) by lia.
    intros H. etransitivity; [|exact H]. apply Z.mul_le_mono_nonneg_l; [lia|]. apply Z.pow_le_mono_r; lia. }
  destruct (Z.lt_trichotomy f l) as [H|[H|H]]; [|done|].
  - exfalso. apply Hf'. eapply Hmono; [|exact Hl]. lia.
  - exfalso. apply Hl'. eapply Hmono; [|exact Hf]. lia.
Qed.

Lemma of_ratio_scale n d k : 0 < d → 0 < k → of_ratio (n * k) (d * k) = of_ratio n d.
Proof.
  intros Hd Hk. unfold of_ratio. destruct (Z.eqb_spec n 0) as [->|Hn]; [done|]. destruct (Z.eqb_spec (n * k) 0); [nia|].
  assert (∀ l, pow2_le_ratio l (Z.abs n * k) (d * k) ↔ pow2_le_ratio l (Z.abs n) d) as Hl.
  { intros l. unfold pow2_le_ratio. rewrite (Z.mul_comm (Z.abs n) k), (Z.mul_comm d k), <-!Z.mul_assoc. by rewrite <-Z.mul_le_mono_pos_l. }
  rewrite Z.abs_mul, (Z.abs_eq k) by lia.
  assert (floor_log2 (Z.abs n * k) (d * k) = floor_log2 (Z.abs n) d) as ->.
  { destruct (floor_log2_spec (Z.abs n) d ltac:(lia) Hd) as [H1 H2]. apply floor_log2_unique; [nia|nia|by apply Hl|by rewrite Hl]. }
  cbn zeta. f_equal. set (e := Z.max (_ - 52) (-1074)).
  replace (n * k * 2 ^ Z.max 0 (- e)) with (n * 2 ^ Z.max 0 (- e) * k) by ring.
  replace (d * k * 2 ^ Z.max 0 e) with (d * 2 ^ Z.max 0 e * k) by ring.
  apply round_div_scale; [|done]. apply Z.mul_pos_pos; [done|p2].
Qed.

Lemma of_decimal_value s a b n : at_scale s a n → at_scale s b n → of_decimal a = of_decimal b.
Proof.
  set (k := Z.max 0 (Z.max s (Z.max (- dexp a) (- dexp b)))). intros Ha%(at_scale_shift s a n k); [|lia..]. intros Hb%(at_scale_shift s b n k); [|lia..].
  unfold of_decimal. set (Da := 10 ^ Z.max 0 (- dexp a)). set (Db := 10 ^ Z.max 0 (- dexp b)).
  assert (0 < Da ∧ 0 < Db) as [HDa HDb] by (split; apply pow10_pos; lia).
  rewrite <-(of_ratio_scale _ Da Db), <-(of_ratio_scale _ Db Da) by done. f_equal; [|lia].
  apply (Z.mul_cancel_r _ _ (10 ^ k)); [p10|].
  assert (∀ d D, D = 10 ^ Z.max 0 (- dexp d) → - dexp d <= k →
            coef d * 10 ^ Z.max 0 (dexp d) * 10 ^ k = coef d * 10 ^ (dexp d + k) * D) as Hk.
  { intros d D -> Hd. rewrite <-!Z.mul_assoc, <-!pow10_split by lia. do 2 f_equal. lia. }
  transitivity (coef a * 10 ^ Z.max 0 (dexp a) * 10 ^ k * Db); [ring|]. rewrite (Hk a Da), Ha by (done || lia).
  transitivity (coef b * 10 ^ Z.max 0 (dexp b) * 10 ^ k * Da); [|ring]. rewrite (Hk b Db), Hb by (done || lia). ring.
Qed.

(** A value with at most 53 bits converts to itself. *)
Lemma of_ratio_exact n d m e :
  0 < n → 0 < d → 0 < m < 2 ^ 53 → -1074 <= e →
  n * 2 ^ Z.max 0 (- e) = m * (d * 2 ^ Z.max 0 e) →
  feqb (of_ratio n d) (Float m e) = true.
Proof.
  intros Hn Hd Hm He Heq. unfold of_ratio. destruct (Z.eqb_spec n 0) as [|_]; [lia|].
  rewrite (Z.abs_eq n) by lia. destruct (floor_log2_spec n d Hn Hd) as [Hlo _].
  set (l := floor_log2 n d) in *. set (e' := Z.max (l - 52) (-1074)).
  assert (l < 53 + e) as Hl.
  { apply Z.lt_nge. intros Hge.
    set (k := Z.max (Z.max 0 (- l)) (- e)).
    rewrite (pow2_le_ratio_shift _ _ _ k) in Hlo by lia.
    assert (n * 2 ^ k = m * d * 2 ^ (e + k)) as E.
    { replace k with (Z.max 0 (- e) + (k - Z.max 0 (- e))) at 1 by lia.
      rewrite pow2_split, Z.mul_assoc, Heq by lia.
      replace (e + k) with (Z.max 0 e + (k - Z.max 0 (- e))) by lia.
      rewrite (pow2_split (Z.max 0 e)) by lia. ring. }
    assert (2 ^ 53 * (d * 2 ^ (e + k)) <= d * 2 ^ (l + k)) as E2.
    { rewrite Z.mul_assoc, (Z.mul_comm (2 ^ 53)), <-Z.mul_assoc, <-pow2_split by lia.
      apply Z.mul_le_mono_nonneg_l; [lia|]. apply Z.pow_le_mono_r; lia. }
    pose proof (pow2_pos (e + k) ltac:(lia)) as Hp.
    assert (0 < d * 2 ^ (e + k)) as Hdp by (by apply Z.mul_pos_pos).
    rewrite <-Z.mul_assoc in E. set (x := d * 2 ^ (e + k)) in *. clearbody x.
    assert (m * x < 2 ^ 53 * x) by (apply Z.mul_lt_mono_pos_r; [done|lia]). lia. }
  set (N := n * 2 ^ Z.max 0 (- e')). set (D := d * 2 ^ Z.max 0 e').
  assert (N = m * 2 ^ (e - e') * D) as E.
  { unfold N, D. replace (Z.max 0 (- e')) with (Z.max 0 (- e) + (Z.max 0 (- e') - Z.max 0 (- e))) by lia.
    rewrite pow2_split, Z.mul_assoc, Heq by lia.
    rewrite <-!Z.mul_assoc. f_equal. rewrite (Z.mul_comm (2 ^ (e - e'))), <-!Z.mul_assoc. f_equal.
    rewrite <-!pow2_split by lia. f_equal. lia. }
  rewrite E, round_div_exact by (apply Z.mul_pos_pos; p2).
  unfold feqb. cbn [fmant fexp]. rewrite Z.min_l, Z.sub_diag, Z.mul_1_r by lia. apply Z.eqb_refl.
Qed.

Lemma feqb_shift f g k :
  - fexp f <= k → - fexp g <= k →
  feqb f g = true ↔ fmant f * 2 ^ (fexp f + k) = fmant g * 2 ^ (fexp g + k).
Proof.
  intros Hf Hg. unfold feqb. set (e := Z.min (fexp f) (fexp g)).
  rewrite Z.eqb_eq, <-(Z.mul_cancel_r _ _ (2 ^ (e + k))) by p2.
  rewrite <-!Z.mul_assoc, <-!pow2_split by lia.
  replace (fexp f - e + (e + k)) with (fexp f + k) by lia.
  by replace (fexp g - e + (e + k)) with (fexp g + k) by lia.
Qed.

Lemma feqb_trans f g h : feqb f g = true → feqb g h = true → feqb f h = true.
Proof.
  set (k := Z.max (- fexp f) (Z.max (- fexp g) (- fexp h))).
  rewrite !(feqb_shift _ _ k) by lia. congruence.
Qed.

(** Reading the exact decimal expansion of a float gives the float back. *)
Lemma of_exact_decimal f :
  0 < fmant f <= 2 ^ 53 → -1074 <= fexp f →
  feqb (of_decimal (exact_decimal f)) f = true.
Proof.
  intros Hm He.
  assert (∀ m e, 0 < m < 2 ^ 53 → -1074 <= e → feqb (Float m e) f = true →
    feqb (of_decimal (exact_decimal f)) f = true) as Hgen.
  { intros m e Hm' He' Hfe. apply (feqb_trans _ (Float m e)); [|done].
    set (k := Z.max (- fexp f) (Z.max (- e) 0)).
    rewrite (feqb_shift _ _ k) in Hfe by (cbn; lia). cbn [fmant fexp] in Hfe.
    pose proof (pow2_pos (Z.max 0 e)). unfold exact_decimal, of_decimal.
    destruct (Z.leb_spec 0 (fexp f)); cbn [coef dexp].
    - rewrite Z.max_id, Z.mul_1_r.
      pose proof (pow2_pos (fexp f)). apply of_ratio_exact; [nia|lia|done|done|].
      apply (Z.mul_cancel_r _ _ (2 ^ (k - Z.max 0 (- e)))); [p2|].
      change (10 ^ Z.max 0 (- 0)) with 1.
      rewrite <-!Z.mul_assoc, Z.mul_1_l, <-!pow2_split by lia.
      replace (fexp f + (Z.max 0 (- e) + (k - Z.max 0 (- e)))) with (fexp f + k) by lia.
      rewrite <-Hfe. do 2 f_equal. lia.
    - rewrite Z.max_l, Z.max_r, Z.pow_0_r, Z.mul_1_r by lia.
      assert (0 < 5 ^ (- fexp f)) by (apply Z.pow_pos_nonneg; lia).
      assert (0 < 10 ^ (- fexp f)) by (apply pow10_pos; lia).
      apply of_ratio_exact; [nia|lia|done|done|].
      replace 10 with (5 * 2) by done. rewrite Z.pow_mul_l.
      assert (fmant f * 2 ^ Z.max 0 (- e) = m * (2 ^ (- fexp f) * 2 ^ Z.max 0 e)) as Hcore.
      { apply (Z.mul_cancel_r _ _ (2 ^ (fexp f + k))); [p2|].
        transitivity (fmant f * 2 ^ (fexp f + k) * 2 ^ Z.max 0 (- e)); [ring|]. rewrite <-Hfe.
        rewrite <-!Z.mul_assoc, <-!pow2_split by lia. do 2 f_equal. lia. }
      transitivity (5 ^ (- fexp f) * (fmant f * 2 ^ Z.max 0 (- e))); [ring|]. rewrite Hcore. ring. }
  destruct (Z.eq_dec (fmant f) (2 ^ 53)) as [E|].
  - apply (Hgen (2 ^ 52) (fexp f + 1)); [done|lia|].
    rewrite (feqb_shift _ _ (- fexp f)) by (cbn; lia). cbn [fmant fexp]. rewrite E.
    replace (fexp f + 1 + - fexp f) with 1 by lia. by replace (fexp f + - fexp f) with 0 by lia.
  - apply (Hgen (fmant f) (fexp f)); [lia|lia|]. unfold feqb; apply Z.eqb_refl.
Qed.

(** [repr] reads back as the same float. *)
Lemma repr_pos_reads_back f :
  0 < fmant f <= 2 ^ 53 → -1074 <= fexp f →
  feqb (of_decimal (repr_pos f)) f = true.
Proof.
  intros Hm He. unfold repr_pos.
  destruct (_ ≫= _) as [|c l] eqn:E; [by apply of_exact_decimal|].
  assert (c ∈ c :: l) as Hin by left. rewrite <-E in Hin.
  apply list_elem_of_bind in Hin as (k & Hin & _).
  by apply elem_of_app in Hin as [[Hin _]%list_elem_of_filter|[Hin _]%list_elem_of_filter].
Qed.

(** ** Money through a float *)

(** A decimal within a third of a cent of [c/100] rescales to [c]. *)
Lemma rescale_near m c r :
  let n := coef r * 10 ^ Z.max 0 (dexp r) in
  let d := 10 ^ Z.max 0 (- dexp r) in
  3 * Z.abs (100 * n - c * d) <= d → rescale m (-2) r = c.
Proof.
  cbn zeta. unfold rescale. intros H. destruct (Z.leb_spec (-2) (dexp r)) as [Hr|Hr].
  - destruct (Z.le_gt_cases 0 (dexp r)).
    + rewrite Z.max_r, Z.max_l in H by lia.
      replace (dexp r - -2) with (dexp r + 2) by lia. rewrite pow10_split by lia.
      change (10 ^ 2) with 100. lia.
    + assert (dexp r = -1 ∨ dexp r = -2) as [E|E] by lia; rewrite E in *;
        [change (10 ^ (-1 - -2)) with 10; change (10 ^ Z.max 0 (-1)) with 1 in H;
         change (10 ^ Z.max 0 (- -1)) with 10 in H
        |change (10 ^ (-2 - -2)) with 1; change (10 ^ Z.max 0 (-2)) with 1 in H;
         change (10 ^ Z.max 0 (- -2)) with 100 in H]; lia.
  - rewrite Z.max_l, Z.max_r, Z.mul_1_r in H by lia.
    replace (- dexp r) with (2 + (-2 - dexp r)) in H by lia. rewrite pow10_split in H by lia.
    change (10 ^ 2) with 100 in H.
    pose proof (pow10_pos (-2 - dexp r) ltac:(lia)) as Hp. set (p := 10 ^ (-2 - dexp r)) in *.
    pose proof (round_div_error m (coef r) p Hp). nia.
Qed.

Lemma float_detour_near c n d mf mg A B :
  0 < d → 512 <= A → 256 <= B →
  2 * Z.abs (mf * 100 - c * A) <= 100 → 2 * Z.abs (mg * d - n * B) <= d → mf * B = mg * A →
  3 * Z.abs (100 * n - c * d) <= d.
Proof.
  intros Hd HA HB Hf Hg Heq.
  assert (2 * Z.abs (mf * B * 100 * d - c * d * A * B) <= 100 * d * B) as H1.
  { replace (mf * B * 100 * d - c * d * A * B) with ((mf * 100 - c * A) * (d * B)) by ring.
    rewrite Z.abs_mul, (Z.abs_eq (d * B)) by nia. nia. }
  assert (2 * Z.abs (mf * B * 100 * d - 100 * n * A * B) <= 100 * d * A) as H2.
  { replace (mf * B * 100 * d - 100 * n * A * B) with ((mg * d - n * B) * (100 * A)) by (rewrite Heq; ring).
    rewrite Z.abs_mul, (Z.abs_eq (100 * A)) by nia. nia. }
  assert (2 * Z.abs ((100 * n - c * d) * (A * B)) <= 100 * d * (A + B)) as H3.
  { replace ((100 * n - c * d) * (A * B)) with (100 * n * A * B - c * d * A * B) by ring. lia. }
  rewrite Z.abs_mul, (Z.abs_eq (A * B)) in H3 by nia.
  assert (512 * (A + B) <= 3 * (A * B)) as H4 by nia.
  set (X := Z.abs (100 * n - c * d)) in *.
  assert (1024 * X * (A * B) <= 300 * d * (A * B)) as H5.
  { transitivity (512 * (100 * d * (A + B))); [lia|].
    transitivity (100 * d * (512 * (A + B))); [lia|].
    transitivity (100 * d * (3 * (A * B))); [|lia]. apply Z.mul_le_mono_nonneg_l; lia. }
  apply Z.mul_le_mono_pos_r in H5; [lia|]. apply Z.mul_pos_pos; lia.
Qed.

Lemma of_ratio_neg n d : 0 < d → of_ratio (- n) d = Float (- fmant (of_ratio n d)) (fexp (of_ratio n d)).
Proof.
  intros Hd. unfold of_ratio. destruct (Z.eqb_spec n 0) as [->|]; [done|].
  destruct (Z.eqb_spec (- n) 0); [lia|]. rewrite Z.abs_opp. cbn [fmant fexp]. f_equal.
  unfold round_div. rewrite Z.mul_opp_l, Z.abs_opp, Z.sgn_opp. lia.
Qed.

(** The exponent of a float below 2^(53-j): its unit is at most 2^-j. *)
Lemma of_ratio_unit j n d :
  0 < n → 0 < d → 1 <= j <= 53 → n < 2 ^ (53 - j) * d → fexp (of_ratio n d) <= - j.
Proof.
  intros Hn Hd Hj Hlt. destruct (of_ratio_spec n d Hn Hd) as (_ & _ & _ & [[H _]|H] & _); [|lia].
  destruct (Z.le_gt_cases (fexp (of_ratio n d)) (- j)) as [|Hgt]; [done|exfalso].
  set (e := fexp (of_ratio n d)) in *.
  assert (d * 2 ^ 52 * 2 ^ Z.max 0 e <= n * 2 ^ (j - 1)) as H2.
  { etransitivity; [|apply (Z.mul_le_mono_nonneg_l (2 ^ Z.max 0 (- e)) (2 ^ (j - 1))); [lia|apply Z.pow_le_mono_r; lia]].
    lia. }
  assert (1 <= 2 ^ Z.max 0 e) by (pose proof (pow2_pos (Z.max 0 e)); lia).
  assert (2 ^ 52 = 2 ^ (53 - j) * 2 ^ (j - 1)) as E by (rewrite <-pow2_split by lia; f_equal; lia).
  pose proof (pow2_pos (53 - j) ltac:(lia)).
  pose proof (pow2_pos (j - 1) ltac:(lia)). rewrite E in H2.
  set (a := 2 ^ (53 - j)) in *. set (b := 2 ^ (j - 1)) in *. set (m := 2 ^ Z.max 0 e) in *. clearbody a b m.
  assert (d * a <= n); [|lia]. apply (Z.mul_le_mono_pos_r _ _ b); [done|]. nia.
Qed.

Lemma of_ratio_small n d :
  0 < n → 0 < d → n < 10 ^ 13 * d → fexp (of_ratio n d) <= -9.
Proof. intros Hn Hd Hlt. apply (of_ratio_unit 9); try done. change (2 ^ (53 - 9)) with 17592186044416. lia. Qed.

(** Equal floats have almost equal exponents when one is normal. *)
Lemma equal_floats_exp f g k :
  - fexp f <= k → - fexp g <= k → 2 ^ 52 <= fmant g → fmant f <= 2 ^ 53 →
  fmant g * 2 ^ (fexp g + k) = fmant f * 2 ^ (fexp f + k) → fexp g <= fexp f + 1.
Proof.
  intros Hf Hg Hmg Hmf Heq. apply Z.le_ngt. intros Hgt.
  pose proof (pow2_pos (fexp f + k) ltac:(lia)) as Hp.
  assert (4 * 2 ^ (fexp f + k) <= 2 ^ (fexp g + k)) as H4.
  { change 4 with (2 ^ 2). rewrite <-pow2_split by lia. apply Z.pow_le_mono_r; lia. }
  set (p := 2 ^ (fexp f + k)) in *. set (q := 2 ^ (fexp g + k)) in *. clearbody p q.
  change (2 ^ 52) with 4503599627370496 in *. change (2 ^ 53) with 9007199254740992 in *.
  nia.
Qed.

(** Only a positive decimal reads back as a positive float. *)
Lemma reads_back_positive n d f :
  0 < d → 0 < fmant f → feqb (of_ratio n d) f = true → 0 < n.
Proof.
  intros Hd Hf Hback. set (g := of_ratio n d) in *. set (k := Z.max (- fexp g) (- fexp f)).
  apply (feqb_shift _ _ k) in Hback; [|apply Z.le_max_l|apply Z.le_max_r].
  pose proof (pow2_pos (fexp g + k) ltac:(lia)) as Hpg.
  pose proof (pow2_pos (fexp f + k) ltac:(lia)) as Hpf.
  assert (0 < fmant g) as Hg by nia. clear Hback Hpg Hpf.
  destruct (Z.lt_trichotomy n 0) as [Hlt|[E|]]; [exfalso|exfalso|done].
  - destruct (of_ratio_spec (- n) d ltac:(lia) Hd) as (_ & _ & Hm' & _).
    rewrite of_ratio_neg in Hm' by done. cbn [fmant] in Hm'. fold g in Hm'. lia.
  - unfold g in Hg. by rewrite E in Hg.
Qed.

(** Two-decimal amounts below 10^13 survive [Decimal(str(float(d)))]. *)
Lemma money_through_float m c :
  0 <= c < 10 ^ 15 → rescale m (-2) (repr_decimal (of_decimal (Dec c (-2)))) = c.
Proof.
  intros Hc. destruct (Z.eq_dec c 0) as [->|Hc0]; [by destruct m|].
  unfold of_decimal at 1. cbn [coef dexp]. change (10 ^ Z.max 0 (-2)) with 1.
  change (10 ^ Z.max 0 (- -2)) with 100. rewrite Z.mul_1_r.
  destruct (of_ratio_spec c 100) as (_ & Herr & Hm & Hfull & He); [lia..|].
  pose proof (of_ratio_small c 100 ltac:(lia) ltac:(lia) ltac:(lia)) as Hsmall.
  set (f := of_ratio c 100) in *.
  rewrite (Z.max_l 0 (fexp f)), (Z.max_r 0 (- fexp f)), Z.mul_1_r in Herr by lia.
  rewrite (Z.max_l 0 (fexp f)), (Z.max_r 0 (- fexp f)), Z.mul_1_r in Hfull by lia.
  assert (2 ^ 9 <= 2 ^ (- fexp f)) as HA by (apply Z.pow_le_mono_r; lia).
  change (2 ^ 9) with 512 in HA. set (A := 2 ^ (- fexp f)) in *.
  assert (0 < fmant f) as Hpos by nia.
  unfold repr_decimal. destruct (Z.eqb_spec (fmant f) 0) as [|_]; [lia|].
  destruct (Z.ltb_spec (fmant f) 0) as [|_]; [lia|].
  pose proof (repr_pos_reads_back f ltac:(lia) He) as Hback. set (r := repr_pos f) in *.
  unfold of_decimal in Hback.
  set (n := coef r * 10 ^ Z.max 0 (dexp r)) in *. set (d := 10 ^ Z.max 0 (- dexp r)) in *.
  assert (0 < d) as Hd by (apply pow10_pos; lia).
  apply rescale_near. fold n d.
  set (g := of_ratio n d) in *.
  assert (0 < n) as Hn by exact (reads_back_positive n d f Hd Hpos Hback).
  destruct (of_ratio_spec n d Hn Hd) as (_ & Herrg & Hmg & Hfullg & Heg). fold g in Herrg, Hmg, Hfullg, Heg.
  set (k := Z.max (- fexp g) (- fexp f)).
  apply (feqb_shift _ _ k) in Hback; [|apply Z.le_max_l|apply Z.le_max_r].
  assert (fexp g <= -8) as Hg8.
  { destruct Hfullg as [[_ Hfull']|Hmin]; [|clear -Hmin; lia].
    pose proof (equal_floats_exp f g k (Z.le_max_r _ _) (Z.le_max_l _ _) Hfull' (proj2 Hm) Hback) as Hexp.
    clear -Hexp Hsmall. lia. }
  clear Hfull Hfullg Hm Hmg.
  rewrite (Z.max_l 0 (fexp g)), (Z.max_r 0 (- fexp g)), Z.pow_0_r, Z.mul_1_r in Herrg by lia.
  assert (2 ^ 8 <= 2 ^ (- fexp g)) as HB by (apply Z.pow_le_mono_r; lia).
  apply (float_detour_near c n d (fmant f) (fmant g) A (2 ^ (- fexp g))); try done.
  unfold A. apply (Z.mul_cancel_r _ _ (2 ^ (fexp f + k) * 2 ^ (fexp g + k))).
  { apply Z.neq_mul_0. split; p2. }
  transitivity (fmant f * 2 ^ (fexp f + k) * (2 ^ (- fexp g) * 2 ^ (fexp g + k))); [ring|].
  transitivity (fmant g * 2 ^ (fexp g + k) * (2 ^ (- fexp f) * 2 ^ (fexp f + k))); [|ring].
  rewrite <-Hback, <-!pow2_split by (clear -Hsmall Hg8; lia). do 2 f_equal. clear. lia.
Qed.

(** A driver that hands a float to the database as its exact decimal loses nothing
    either: the column rounds it back to the two decimals it came from. *)
Lemma exact_money_nonneg m d c :
  at_scale 2 d c → 0 <= c < 10 ^ 15 → rescale m (-2) (exact_decimal (of_decimal d)) = c.
Proof.
  intros Hd Hc. unfold of_decimal. set (N := coef d * 10 ^ Z.max 0 (dexp d)).
  set (D := 10 ^ Z.max 0 (- dexp d)).
  assert (0 < D) as HD by (apply pow10_pos; lia).
  assert (100 * N = c * D) as HND.
  { set (k := Z.max 2 (- dexp d)).
    apply (at_scale_shift 2 d c k ltac:(lia) ltac:(lia)) in Hd.
    apply (Z.mul_cancel_r _ _ (10 ^ (k - 2))); [p10|]. subst N D.
    transitivity (coef d * 10 ^ (dexp d + k) * 10 ^ Z.max 0 (- dexp d)); [|rewrite Hd; ring].
    change 100 with (10 ^ 2). rewrite <-!Z.mul_assoc, (Z.mul_comm (10 ^ 2)), <-!Z.mul_assoc.
    f_equal. rewrite <-!pow10_split by lia. f_equal. lia. }
  destruct (Z.eq_dec c 0) as [->|Hc0].
  { assert (N = 0) as -> by lia. by destruct m. }
  assert (0 < N) as HN by nia.
  destruct (of_ratio_spec N D HN HD) as (_ & Herr & _).
  pose proof (of_ratio_small N D HN HD ltac:(nia)) as Hsmall.
  set (f := of_ratio N D) in *. rewrite (Z.max_l 0 (fexp f)), (Z.max_r 0 (- fexp f)), Z.pow_0_r, Z.mul_1_r in Herr by lia.
  set (k := - fexp f) in *. assert (2 ^ 9 <= 2 ^ k) as Hk by (apply Z.pow_le_mono_r; lia).
  change (2 ^ 9) with 512 in Hk. apply rescale_near. unfold exact_decimal.
  destruct (Z.leb_spec 0 (fexp f)) as [|_]; [lia|]. cbn [coef dexp]. fold k.
  rewrite Z.max_l, Z.max_r, Z.mul_1_r by lia.
  change (10 ^ k) with ((2 * 5) ^ k). rewrite Z.pow_mul_l.
  assert (0 < 5 ^ k) as H5 by (apply Z.pow_pos_nonneg; lia).
  set (A := 2 ^ k) in *. set (B := 5 ^ k) in *. clearbody A B.
  assert (2 * Z.abs (100 * fmant f - c * A) <= 100) as H1.
  { apply (Zmult_le_reg_r _ _ D); [lia|].
    assert ((100 * fmant f - c * A) * D = 100 * (fmant f * D - N * A)) as E.
    { transitivity (100 * fmant f * D - c * D * A); [ring|]. rewrite <-HND. ring. }
    apply (f_equal Z.abs) in E. rewrite !Z.abs_mul, (Z.abs_eq D), (Z.abs_eq 100) in E by lia. lia. }
  replace (100 * (fmant f * B) - c * (A * B)) with ((100 * fmant f - c * A) * B) by ring.
  rewrite Z.abs_mul, (Z.abs_eq B) by lia. nia.
Qed.

Lemma rescale_opp m k d : rescale m k (dneg d) = - rescale m k d.
Proof.
  unfold rescale, dneg. cbn [coef dexp]. destruct (k <=? dexp d); [lia|].
  unfold round_div. rewrite Z.abs_opp, Z.sgn_opp. lia.
Qed.

Lemma exact_decimal_neg d : exact_decimal (of_decimal (dneg d)) = dneg (exact_decimal (of_decimal d)).
Proof.
  unfold of_decimal at 1. cbn [dneg coef dexp]. rewrite Z.mul_opp_l, of_ratio_neg by (apply pow10_pos; lia).
  change (of_ratio _ _) with (of_decimal d). unfold exact_decimal, dneg. cbn [fmant fexp]. destruct (0 <=? _); cbn [coef dexp]; f_equal; lia.
Qed.

Lemma exact_money_through_float m d c :
  at_scale 2 d c → Z.abs c < 10 ^ 15 → rescale m (-2) (exact_decimal (of_decimal d)) = c.
Proof.
  intros Hd Hc. destruct (Z.le_gt_cases 0 c) as [Hc0|Hc0]; [apply exact_money_nonneg; [done|lia]|].
  apply dneg_at_scale in Hd. apply (exact_money_nonneg m) in Hd; [|lia].
  rewrite exact_decimal_neg, rescale_opp in Hd. lia.
Qed.

(** The error of the conversion itself: below 10^13 a float is within 1/1024 of the
    decimal it was made from.  [scaled K d] is [d] in units of 10^-K. *)
Definition scaled (K : Z) (d : decimal) : Z := coef d * 10 ^ (dexp d + K).

Lemma scaled_at_scale s K d n : at_scale s d n → - dexp d <= K → s <= K → scaled K d = n * 10 ^ (K - s).
Proof. intros Hd HK Hs. unfold scaled. by apply at_scale_shift. Qed.

Lemma scaled_neg K d : scaled K (dneg d) = - scaled K d.
Proof. unfold scaled, dneg. cbn [coef dexp]. lia. Qed.

Lemma float_error_fine j d K :
  0 < coef d → - dexp d <= K → - dexp (exact_decimal (of_decimal d)) <= K → 0 <= K → 1 <= j <= 53 →
  scaled K d < 2 ^ (53 - j) * 10 ^ K → 2 ^ (j + 1) * Z.abs (scaled K (exact_decimal (of_decimal d)) - scaled K d) <= 10 ^ K.
Proof.
  intros Hc HK HKx HK0 Hj Hb. unfold of_decimal in *. set (N := coef d * 10 ^ Z.max 0 (dexp d)) in *.
  set (D := 10 ^ Z.max 0 (- dexp d)) in *.
  assert (0 < D) as HD by (apply pow10_pos; lia).
  assert (0 < N) as HN by (apply Z.mul_pos_pos; [done|apply pow10_pos; lia]).
  assert (scaled K d * D = N * 10 ^ K) as HND.
  { unfold scaled, N, D. rewrite <-!Z.mul_assoc, <-!pow10_split by lia. do 2 f_equal. lia. }
  assert (0 < 10 ^ K) as HpK by (apply pow10_pos; lia).
  assert (N < 2 ^ (53 - j) * D) as HNb by (apply (Z.mul_lt_mono_pos_r (10 ^ K)); nia).
  destruct (of_ratio_spec N D HN HD) as (_ & Herr & _). pose proof (of_ratio_unit j N D HN HD ltac:(lia) HNb) as Hsmall.
  set (f := of_ratio N D) in *. rewrite (Z.max_l 0 (fexp f)), (Z.max_r 0 (- fexp f)), Z.pow_0_r, Z.mul_1_r in Herr by lia.
  unfold exact_decimal in *. destruct (Z.leb_spec 0 (fexp f)) as [|_]; [lia|]. cbn [dexp] in HKx.
  set (k := - fexp f) in *. assert (2 ^ j <= 2 ^ k) as Hk by (apply Z.pow_le_mono_r; lia).
  unfold scaled at 1. cbn [coef dexp].
  assert (5 ^ k * 10 ^ (fexp f + K) * 2 ^ k = 10 ^ K) as H10.
  { replace (10 ^ K) with (10 ^ k * 10 ^ (fexp f + K)) by (rewrite <-pow10_split by lia; f_equal; lia).
    change (10 ^ k) with ((2 * 5) ^ k). rewrite Z.pow_mul_l. ring. }
  set (X := fmant f * 5 ^ k * 10 ^ (fexp f + K)).
  assert ((X - scaled K d) * D * 2 ^ k = 10 ^ K * (fmant f * D - N * 2 ^ k)) as E.
  { transitivity (fmant f * D * (5 ^ k * 10 ^ (fexp f + K) * 2 ^ k) - scaled K d * D * 2 ^ k); [unfold X; ring|].
    rewrite H10, HND. ring. }
  apply (f_equal Z.abs) in E. rewrite !Z.abs_mul, (Z.abs_eq D), (Z.abs_eq (2 ^ k)), (Z.abs_eq (10 ^ K)) in E by lia.
  set (A := Z.abs (X - scaled K d)) in *. assert (0 <= A) as HA by apply Z.abs_nonneg.
  apply (Z.mul_le_mono_pos_r _ _ D); [done|]. set (T := 10 ^ K) in *.
  assert (A * D * 2 ^ j <= A * D * 2 ^ k) as H1 by (apply Z.mul_le_mono_nonneg_l; [apply Z.mul_nonneg_nonneg|]; lia).
  assert (T * (2 * Z.abs (fmant f * D - N * 2 ^ k)) <= T * D) as H2 by (apply Z.mul_le_mono_nonneg_l; lia).
  rewrite (pow2_split j 1) by lia. clear -E H1 H2. lia.
Qed.

Lemma float_error_pos d K :
  0 < coef d → - dexp d <= K → - dexp (exact_decimal (of_decimal d)) <= K → 0 <= K → scaled K d < 10 ^ 13 * 10 ^ K →
  1024 * Z.abs (scaled K (exact_decimal (of_decimal d)) - scaled K d) <= 10 ^ K.
Proof.
  intros Hc HK HKx HK0 Hb. apply (float_error_fine 9); try done. pose proof (pow10_pos K HK0).
  change (2 ^ (53 - 9)) with 17592186044416. lia.
Qed.

Lemma float_error d K :
  - dexp d <= K → - dexp (exact_decimal (of_decimal d)) <= K → 0 <= K → Z.abs (scaled K d) < 10 ^ 13 * 10 ^ K →
  1024 * Z.abs (scaled K (exact_decimal (of_decimal d)) - scaled K d) <= 10 ^ K.
Proof.
  intros HK HKx HK0 Hb. pose proof (pow10_pos K HK0). pose proof (pow10_pos (dexp d + K) ltac:(lia)).
  destruct (Z.lt_trichotomy (coef d) 0) as [Hc|[Hc|Hc]].
  - pose proof (float_error_pos (dneg d) K) as Hn. rewrite exact_decimal_neg, !scaled_neg in Hn.
    cbn [coef dexp dneg] in Hn. specialize (Hn ltac:(lia) ltac:(done) ltac:(done) HK0). lia.
  - assert (scaled K d = 0) as -> by (unfold scaled; by rewrite Hc).
    unfold of_decimal. rewrite Hc, Z.mul_0_l. change (exact_decimal (of_ratio 0 _)) with (Dec 0 0). unfold scaled. cbn [coef]. lia.
  - apply float_error_pos; try done. lia.
Qed.

(** A float of at least one is at least half of the decimal it was made from. *)
Lemma float_half d K :
  0 < coef d → - dexp d <= K → - dexp (exact_decimal (of_decimal d)) <= K → 0 <= K → 10 ^ K <= scaled K d →
  scaled K d <= 2 * scaled K (exact_decimal (of_decimal d)).
Proof.
  intros Hc HK HKx HK0 Hb. unfold of_decimal in *. set (N := coef d * 10 ^ Z.max 0 (dexp d)) in *.
  set (D := 10 ^ Z.max 0 (- dexp d)) in *.
  assert (0 < D) as HD by (apply pow10_pos; lia).
  assert (0 < N) as HN by (apply Z.mul_pos_pos; [done|apply pow10_pos; lia]).
  assert (scaled K d * D = N * 10 ^ K) as HND.
  { unfold scaled, N, D. rewrite <-!Z.mul_assoc, <-!pow10_split by lia. do 2 f_equal. lia. }
  assert (0 < 10 ^ K) as HpK by (apply pow10_pos; lia).
  destruct (of_ratio_spec N D HN HD) as (HD' & Herr & _ & Hfull & He).
  set (f := of_ratio N D) in *.
  assert (D * 2 ^ Z.max 0 (fexp f) <= N * 2 ^ Z.max 0 (- fexp f)) as Hge.
  { destruct Hfull as [[H _]|Emin]; [change (2 ^ 52) with 4503599627370496 in H; nia|].
    assert (D <= N) by (apply (Z.mul_le_mono_pos_r _ _ (10 ^ K)); [done|]; rewrite <-HND; nia). rewrite Emin. pose proof (pow2_pos (Z.max 0 (- -1074)) ltac:(lia)). change (2 ^ Z.max 0 (-1074)) with 1. nia. }
  assert (N * 2 ^ Z.max 0 (- fexp f) <= 2 * (fmant f * (D * 2 ^ Z.max 0 (fexp f)))) as Hm by (clear -Herr Hge; lia).
  assert (scaled K (exact_decimal f) * 2 ^ Z.max 0 (- fexp f) = fmant f * 2 ^ Z.max 0 (fexp f) * 10 ^ K) as HX.
  { unfold exact_decimal in *. destruct (Z.leb_spec 0 (fexp f)) as [Hf|Hf]; cbn [dexp] in HKx; unfold scaled; cbn [coef dexp].
    - rewrite (Z.max_l 0 (- fexp f)), (Z.max_r 0 (fexp f)) by lia. rewrite Z.add_0_l. cbn. ring.
    - rewrite (Z.max_r 0 (- fexp f)), (Z.max_l 0 (fexp f)) by lia. replace (10 ^ K) with (10 ^ (- fexp f) * 10 ^ (fexp f + K)).
      + change 10 with (2 * 5) at 2. rewrite Z.pow_mul_l. replace (- - fexp f + K) with (fexp f + K) by lia. cbn. ring.
      + rewrite <-pow10_split by lia. f_equal. lia. }
  set (X := scaled K (exact_decimal f)) in *. set (S := scaled K d) in *. set (a := 2 ^ Z.max 0 (- fexp f)) in *.
  set (b := 2 ^ Z.max 0 (fexp f)) in *. assert (0 < a) by (apply pow2_pos; lia).
  apply (Z.mul_le_mono_pos_r _ _ (D * a)); [nia|]. set (T := 10 ^ K) in *.
  transitivity (N * a * T).
  { apply Z.eq_le_incl. transitivity (S * D * a); [ring|]. rewrite HND. ring. }
  transitivity (2 * (fmant f * (D * b)) * T); [apply Z.mul_le_mono_nonneg_r; lia|].
  apply Z.eq_le_incl. transitivity (2 * D * (fmant f * b * T)); [ring|]. rewrite <-HX. ring.
Qed.

(** Reading a decimal from [K] places to two. *)
Lemma rescale_scaled m K r : - dexp r <= K → 2 <= K → rescale m (-2) r = round_div m (scaled K r) (10 ^ (K - 2)).
Proof. intros. by apply (rescale_fine m 2 K). Qed.

(** ** Arithmetic *)

(** [f + g] and [f * n] for an integer [n] that a float holds exactly. *)
Definition fadd (f g : float64) : float64 :=
  let e := Z.min (fexp f) (fexp g) in
  of_ratio ((fmant f * 2 ^ (fexp f - e) + fmant g * 2 ^ (fexp g - e)) * 2 ^ Z.max 0 e) (2 ^ Z.max 0 (- e)).
Definition fmul_int (f : float64) (n : Z) : float64 :=
  of_ratio (fmant f * n * 2 ^ Z.max 0 (fexp f)) (2 ^ Z.max 0 (- fexp f)).

(** ** Printing an amount *)

(** The two decimals around a value are candidates at their own exponent. *)
Lemma candidates_near n d p k c :
  0 < d → p - k + 1 = -2 → Z.abs (100 * n - c * d) < d →
  Dec c (-2) ∈ candidates n d p k.
Proof.
  intros Hd Hu Hc. unfold candidates. rewrite Hu. change (10 ^ Z.max 0 (- -2)) with 100. change (10 ^ Z.max 0 (-2)) with 1.
  rewrite Z.mul_1_r. pose proof (floor_div_bounds (n * 100) d Hd) as Hq. set (lo := n * 100 / d) in *.
  assert (c = lo ∨ c = lo + 1) as [->| ->] by nia; destruct (_ || _); set_solver.
Qed.

Lemma candidates_exp n d p k x : x ∈ candidates n d p k → dexp x = p - k + 1.
Proof. unfold candidates. destruct (_ || _); intros H; set_unfold; naive_solver. Qed.

Lemma first_in_prefix {A} (x e : A) l l' :
  x ∈ l → match l ++ l' with y :: _ => y | [] => e end ∈ l.
Proof. intros Hx. destruct l as [|y l]; [by apply elem_of_nil in Hx|]. by left. Qed.

(** The shortest text has no digit below the paisa when a float is one of an amount. *)
Lemma repr_pos_exp f c :
  - 1074 <= fexp f <= -9 → 2 <= c < 10 ^ 15 → 0 < fmant f → 2 * Z.abs (100 * fmant f - c * 2 ^ (- fexp f)) <= 100 →
  feqb (of_decimal (Dec c (-2))) f = true → -2 <= dexp (repr_pos f).
Proof.
  intros He Hc Hm Hnear Hback. unfold repr_pos. cbv zeta. rewrite (Z.max_l 0 (fexp f)), (Z.max_r 0 (- fexp f)), Z.pow_0_r, Z.mul_1_r by lia.
  set (n := fmant f) in *. set (d := 2 ^ (- fexp f)) in *.
  assert (512 <= d) as Hd by (change 512 with (2 ^ 9); apply Z.pow_le_mono_r; lia).
  assert (100 * n < 10 ^ 15 * d + 100) as Hn by (clear -Hnear Hc Hd; nia). assert (d < 100 * n) as Hn1 by (clear -Hnear Hc Hd; nia).
  set (p := if d <=? n then _ else _). assert (-3 <= p <= 14) as Hp.
  { unfold p. destruct (Z.leb_spec d n).
    - assert (n / d < 10 ^ 14) as Hq by (apply Z.div_lt_upper_bound; lia).
      pose proof (Z.div_pos n d ltac:(lia) ltac:(lia)) as Hq0.
      pose proof (ndigits_pos (n / d) Hq0). assert (ndigits (n / d) <= 14) by (apply ndigits_le; lia). lia.
    - assert (d / n < 10 ^ 2) as Hq by (apply Z.div_lt_upper_bound; lia).
      pose proof (Z.div_pos d n ltac:(lia) ltac:(lia)) as Hq0.
      pose proof (ndigits_pos (d / n) Hq0). assert (ndigits (d / n) <= 2) by (apply ndigits_le; lia). lia. }
  clearbody p. set (try := λ pk : Z * Z, filter (λ x, feqb (of_decimal x) f = true) (candidates n d pk.1 pk.2)).
  change (-2 <= dexp (match map Z.of_nat (seq 1 17) ≫= (λ k, try (p + 1, k) ++ try (p, k)) with y :: _ => y | [] => exact_decimal f end)).
  assert (∀ p' k, p' - k + 1 = -2 → Dec c (-2) ∈ try (p', k)) as Hin.
  { intros p' k Hu. unfold try. apply list_elem_of_filter. split; [done|]. apply candidates_near; cbn; [lia|done|lia]. }
  assert (∀ p' k x, x ∈ try (p', k) → dexp x = p' - k + 1) as Hexp.
  { intros p' k x [_ Hx]%list_elem_of_filter. by apply candidates_exp in Hx. }
  clearbody try. destruct (Z.eq_dec p (-3)) as [->|Hp3].
  - cbn [seq map]. change (Z.of_nat 1) with 1. cbn [mbind list_bind]. rewrite <-app_assoc.
    rewrite (Hexp (-3 + 1) 1); [lia|]. apply (first_in_prefix (Dec c (-2))). by apply Hin.
  - set (g := λ k, try (p + 1, k) ++ try (p, k)). set (k0 := Z.to_nat (p + 3)).
    replace 17%nat with (k0 + (17 - k0))%nat by lia. rewrite seq_app, map_app, bind_app.
    assert (match (map Z.of_nat (seq 1 k0) ≫= g) ++ (map Z.of_nat (seq (1 + k0) (17 - k0)) ≫= g) with y :: _ => y | [] => exact_decimal f end
      ∈ map Z.of_nat (seq 1 k0) ≫= g) as Hx.
    { apply (first_in_prefix (Dec c (-2))). apply list_elem_of_bind. exists (p + 3). split.
      - apply elem_of_app. right. apply Hin. lia.
      - apply list_elem_of_fmap. exists k0. split; [lia|]. apply elem_of_seq. lia. }
    set (y := match _ with y :: _ => y | [] => _ end) in *. clearbody y.
    apply list_elem_of_bind in Hx as (k & [Hx|Hx]%elem_of_app & (j & -> & Hj%elem_of_seq)%list_elem_of_fmap);
      rewrite (Hexp _ _ _ Hx); lia.
Qed.

(** An amount in paise is printed and read back as itself: [Decimal(str(float(d)))]. *)
Lemma repr_money c : 0 <= c < 10 ^ 15 → at_scale 2 (repr_decimal (of_decimal (Dec c (-2)))) c.
Proof.
  intros Hc. destruct (Z.eq_dec c 0) as [->|Hc0]; [done|]. destruct (Z.eq_dec c 1) as [->|Hc1]; [vm_compute; reflexivity|].
  pose proof (money_through_float ROUND_HALF_UP c Hc) as Er. set (f := of_decimal (Dec c (-2))) in *.
  assert (f = of_ratio c 100) as Ef by (unfold f, of_decimal; cbn [coef dexp]; by rewrite Z.mul_1_r).
  destruct (of_ratio_spec c 100 ltac:(lia) ltac:(lia)) as (_ & Herr & Hm & _ & He). rewrite <-Ef in *.
  pose proof (of_ratio_small c 100 ltac:(lia) ltac:(lia) ltac:(lia)) as Hs. rewrite <-Ef in Hs.
  rewrite (Z.max_l 0 (fexp f)), (Z.max_r 0 (- fexp f)), Z.pow_0_r, Z.mul_1_r in Herr by lia.
  assert (512 <= 2 ^ (- fexp f)) as Hd by (change 512 with (2 ^ 9); apply Z.pow_le_mono_r; lia).
  assert (0 < fmant f) as Hm0 by nia.
  unfold repr_decimal in *. destruct (Z.eqb_spec (fmant f) 0) as [|_]; [lia|]. destruct (Z.ltb_spec (fmant f) 0) as [|_]; [lia|].
  assert (-2 <= dexp (repr_pos f)) as Hexp.
  { apply (repr_pos_exp f c); [lia|lia|done|lia|]. fold f. unfold feqb. apply Z.eqb_refl. }
  unfold rescale in Er. rewrite (proj2 (Z.leb_le _ _) Hexp) in Er. unfold at_scale. rewrite Z.max_r, Z.max_l, Z.pow_0_r, Z.mul_1_r by lia.
  rewrite <-Er. reflexivity.
Qed.
