(* ===== verification/PyValues.v ===== *)
(** Python strings, optional dictionary fields and the dynamically typed values
    that reach the money code.

    Strings are modelled on their ASCII characters: [strip] removes ASCII
    whitespace, [lower], [upper] and [isalnum] work on ASCII letters and digits. *)

From Stdlib Require Import ZArith Ascii String.
From S2P Require Import Prelude PyDecimal PyFloat.
Open Scope Z_scope.

(** ** Strings *)

Definition is_space (c : ascii) : bool :=
  let n := N_of_ascii c in ((9 <=? n) && (n <=? 13) || (28 <=? n) && (n <=? 32))%N.

Definition to_lower (c : ascii) : ascii :=
  let n := N_of_ascii c in if ((65 <=? n) && (n <=? 90))%N then ascii_of_N (n + 32) else c.

Definition to_upper (c : ascii) : ascii :=
  let n := N_of_ascii c in if ((97 <=? n) && (n <=? 122))%N then ascii_of_N (n - 32) else c.

Definition is_alnum (c : ascii) : bool :=
  let n := N_of_ascii c in
  ((48 <=? n) && (n <=? 57) || (65 <=? n) && (n <=? 90) || (97 <=? n) && (n <=? 122))%N.

Fixpoint drop_spaces (l : list ascii) : list ascii :=
  match l with
  | c :: l' => if is_space c then drop_spaces l' else l
  | [] => []
  end.

Definition chars : string → list ascii := list_ascii_of_string.
Definition of_chars : list ascii → string := string_of_list_ascii.

(** [s.strip()], [s.lower()], [s.upper()], [s.isalnum()] *)
Definition strip (s : string) : string :=
  of_chars (rev (drop_spaces (rev (drop_spaces (chars s))))).
Definition lower (s : string) : string := of_chars (map to_lower (chars s)).
Definition upper (s : string) : string := of_chars (map to_upper (chars s)).
Definition isalnum (s : string) : bool :=
  match chars s with [] => false | l => forallb is_alnum l end.
Definition str_len (s : string) : Z := Z.of_nat (String.length s).

(** [s or d] for an optional string: [None] and the empty string are falsy. *)
Definition str_or (s : option string) (d : string) : string :=
  match s with Some t => if decide (t = ""%string) then d else t | None => d end.

(** Is an optional string truthy? *)
Definition str_truthy (s : option string) : bool :=
  match s with Some t => negb (bool_decide (t = ""%string)) | None => false end.

(** [s.split(sep)] for a one-character separator. *)
Fixpoint split_chars (sep : ascii) (acc l : list ascii) : list (list ascii) :=
  match l with
  | [] => [rev acc]
  | c :: l' => if decide (c = sep) then rev acc :: split_chars sep [] l'
               else split_chars sep (c :: acc) l'
  end.
Definition split (sep : ascii) (s : string) : list string :=
  map of_chars (split_chars sep [] (chars s)).

(** [sep.join(l)] *)
Fixpoint join (sep : string) (l : list string) : string :=
  match l with
  | [] => ""
  | [s] => s
  | s :: l' => (s ++ sep ++ join sep l')%string
  end.

Definition str_mem (s : string) (l : list string) : bool := bool_decide (s ∈ l).

(** ** Values *)

(** A value whose type the code inspects at run time. A string carries the
    result of [Decimal(s)], [None] when the constructor raises. *)
Inductive pyval :=
  | PNone
  | PBool (b : bool)
  | PInt (z : Z)
  | PFloat (f : float64)
  | PDec (d : decimal)
  | PStr (s : string) (parsed : option decimal).

#[export] Instance pyval_eq_dec : EqDecision pyval.
Proof. solve_decision. Defined.

(** [Decimal(str(v))], [None] when it raises InvalidOperation. *)
Definition parse_decimal (v : pyval) : option decimal :=
  match v with
  | PInt z => Some (d_int z)
  | PFloat f => Some (repr_decimal f)
  | PDec d => Some d
  | PStr _ p => p
  | PNone | PBool _ => None
  end.

(** [float(d)] as a value, and a numeric literal. *)
Definition py_float (d : decimal) : pyval := PFloat (of_decimal d).

(** A field of a partial update: [None] when the key is absent, [Some None]
    when it is present with the value [None]. *)
Abbreviation field A := (option (option A)).

(** [d.get(k)] on such a field. *)
Definition field_get {A} (x : field A) : option A := mjoin x.
Definition field_in {A} (x : field A) : bool := match x with Some _ => true | None => false end.

(** ** Facts *)

Lemma str_len_nonneg s : 0 <= str_len s.
Proof. apply Nat2Z.is_nonneg. Qed.

Lemma chars_of_chars l : chars (of_chars l) = l.
Proof. apply list_ascii_of_string_of_list_ascii. Qed.

Lemma of_chars_chars s : of_chars (chars s) = s.
Proof. apply string_of_list_ascii_of_string. Qed.

Lemma drop_spaces_idem l : drop_spaces (drop_spaces l) = drop_spaces l.
Proof. induction l as [|c l IH]; cbn; [done|]. destruct (is_space c) eqn:E; [done|]. cbn. by rewrite E. Qed.

Lemma to_lower_idem c : to_lower (to_lower c) = to_lower c.
Proof. destruct c as [[] [] [] [] [] [] [] []]; reflexivity. Qed.

Lemma to_upper_idem c : to_upper (to_upper c) = to_upper c.
Proof. destruct c as [[] [] [] [] [] [] [] []]; reflexivity. Qed.

Lemma lower_idem s : lower (lower s) = lower s.
Proof.
  unfold lower. rewrite chars_of_chars, map_map. f_equal. apply map_ext, to_lower_idem.
Qed.

Lemma upper_idem s : upper (upper s) = upper s.
Proof.
  unfold upper. rewrite chars_of_chars, map_map. f_equal. apply map_ext, to_upper_idem.
Qed.

(** ** Truthiness and amounts *)

(** [bool(v)] *)
Definition py_truthy (v : pyval) : bool :=
  match v with
  | PNone => false
  | PBool b => b
  | PInt z => negb (z =? 0)
  | PFloat f => negb (fmant f =? 0)
  | PDec d => negb (coef d =? 0)
  | PStr s _ => negb (bool_decide (s = ""%string))
  end.

(** [Decimal(str(v or 0))] *)
Definition decimal_or_zero (v : pyval) : res decimal :=
  if py_truthy v then match parse_decimal v with Some d => Ok d | None => Err InvalidOperation end
  else Ok d_zero.

(** A text into VARCHAR(w): only blanks may be cut off. *)
Definition varchar (w : nat) (s : string) : res string :=
  let l := chars s in
  if forallb (λ c, bool_decide (c = " "%char)) (drop w l) then Ok (of_chars (take w l))
  else Err (DatabaseError "value too long for type character varying").
Definition varchar_opt (w : nat) (s : option string) : res (option string) :=
  match s with None => Ok None | Some t => t ← varchar w t; Ok (Some t) end.

Definition not_null {A} (x : option A) : res A :=
  match x with Some a => Ok a | None => Err (DatabaseError "null value violates not-null constraint") end.

(** [NUMERIC(p,4)] of PostgreSQL as a number of ten-thousandths: values are
    rounded half away from zero and must be below [10 ^ (p - 4)] in size. *)
Definition ticks (d : decimal) : Z := rescale ROUND_HALF_UP (-4) d.
Definition numeric_18_4 (n : Z) : res Z :=
  if Z.abs n <? 10 ^ 18 then Ok n else Err (DatabaseError "numeric field overflow").

Lemma numeric_Ok n m : numeric_18_4 n = Ok m ↔ m = n ∧ Z.abs n < 10 ^ 18.
Proof. unfold numeric_18_4. destruct (Z.ltb_spec (Z.abs n) (10 ^ 18)); naive_solver lia. Qed.

Lemma ticks_at_scale d n : at_scale 4 d n → ticks d = n.
Proof. apply (rescale_at_scale ROUND_HALF_UP 4). Qed.

(** A column's value at most the bound its unrounded amount was checked against. *)
Lemma ticks_le amt t : dpos amt = true → dltb (Dec t (-4)) amt = false → ticks amt <= t.
Proof.
  intros Hpos Hle. assert (0 <= coef amt) as Hc.
  { set (s := Z.max 0 (- dexp amt)). unfold dpos in Hpos.
    rewrite (dltb_at_scale s d_zero amt 0 _ (proj2 (at_scale_zero s d_zero) eq_refl) (at_scale_fine s amt ltac:(lia))) in Hpos.
    apply Z.ltb_lt in Hpos. pose proof (pow10_pos (dexp amt + s) ltac:(lia)). nia. }
  etransitivity; [exact (rescale_mono 4 amt _ Hc Hle)|]. change (- 4) with (-4).
  rewrite (rescale_at_scale ROUND_HALF_UP 4 (Dec t (-4)) t); [done|]. by apply at_scale_Dec.
Qed.

(** ** Decimal text *)

(** The decimal digits of a natural number, least significant first. *)
Fixpoint digits_lsd (fuel : nat) (n : Z) : list Z :=
  match fuel with
  | O => []
  | S f => if n <? 10 then [n] else n mod 10 :: digits_lsd f (n / 10)
  end.

Definition digit_char (d : Z) : ascii := ascii_of_N (48 + Z.to_N d).

(** [n::text] for [0 <= n], and [lpad(t, w, '0')] (which also truncates). *)
Definition nat_digits (n : Z) : list Z := reverse (digits_lsd (S (Z.to_nat (Z.log2 n))) n).
Definition nat_text (n : Z) : string := of_chars (map digit_char (nat_digits n)).
(** [str(n)] *)
Definition int_text (n : Z) : string := if n <? 0 then ("-" ++ nat_text (- n))%string else nat_text n.
Definition lpad0 (w : nat) (s : string) : string :=
  of_chars (take w (replicate (w - String.length s) (digit_char 0) ++ chars s)).

(** The text of a non-negative amount of hundredths, two decimals. *)
Definition cents_text (n : Z) : string :=
  (nat_text (n / 100) ++ "." ++ lpad0 2 (nat_text (n mod 100)))%string.

Definition digits_value (l : list Z) : Z := foldl (λ v d, 10 * v + d) 0 l.

Lemma digits_value_app l d : digits_value (l ++ [d]) = 10 * digits_value l + d.
Proof. unfold digits_value. by rewrite foldl_app. Qed.

Lemma digits_lsd_spec fuel n :
  0 <= n → Z.log2 n < Z.of_nat fuel →
  digits_value (reverse (digits_lsd fuel n)) = n ∧ Forall (λ d, 0 <= d < 10) (digits_lsd fuel n) ∧
  (∀ w, (1 <= w)%nat → n < 10 ^ Z.of_nat w → (length (digits_lsd fuel n) <= w)%nat).
Proof.
  revert n. induction fuel as [|f IH]; intros n Hn Hf; [pose proof (Z.log2_nonneg n); lia|].
  cbn [digits_lsd]. destruct (Z.ltb_spec n 10) as [Hlt|Hge].
  { split; [done|]. split; [by repeat constructor|]. intros w Hw _. cbn. lia. }
  pose proof (Z.div_mod n 10 ltac:(lia)) as Hdm. pose proof (Z.mod_pos_bound n 10 ltac:(lia)) as Hm.
  destruct (IH (n / 10)) as (Hv & Hd & Hl).
  { apply Z.div_pos; lia. }
  { assert (Z.log2 (n / 10) < Z.log2 n); [|lia].
    apply Z.log2_lt_pow2; [lia|]. pose proof (Z.log2_spec n ltac:(lia)) as [_ Hlog].
    rewrite Z.pow_succ_r in Hlog by apply Z.log2_nonneg. apply Z.div_lt_upper_bound; lia. }
  rewrite reverse_cons, digits_value_app, Hv. split; [lia|]. split; [by constructor|].
  intros w Hw Hlt. cbn [length]. destruct w as [|[|w]]; [lia|cbn in Hlt; lia|].
  apply le_n_S, Hl; [lia|]. apply Z.div_lt_upper_bound; [lia|].
  replace (Z.of_nat (S (S w))) with (1 + Z.of_nat (S w)) in Hlt by lia.
  by rewrite pow10_split in Hlt by lia.
Qed.

Lemma digits_value_zeros k l : digits_value (replicate k 0 ++ l) = digits_value l.
Proof.
  unfold digits_value. rewrite foldl_app. f_equal. induction k as [|k IH]; [done|]. exact IH.
Qed.

Lemma digit_chars_inj l k :
  Forall (λ d, 0 <= d < 10) l → Forall (λ d, 0 <= d < 10) k →
  map digit_char l = map digit_char k → l = k.
Proof.
  intros Hl. revert k. induction Hl as [|a l Ha Hl IH]; intros k Hk E; destruct Hk as [|b k Hb Hk]; try done.
  cbn [map] in E. apply (inj2 cons) in E as [E1 E2]. f_equal; [|by apply IH].
  apply (f_equal N_of_ascii) in E1. unfold digit_char in E1. rewrite !N_ascii_embedding in E1 by lia. lia.
Qed.

(** ** Text order *)

(** [a < b] for texts, character by character. *)
Fixpoint string_ltb (a b : string) : bool :=
  match a, b with
  | EmptyString, String _ _ => true
  | String x a', String y b' => Ascii.ltb x y || (Ascii.eqb x y && string_ltb a' b')
  | _, EmptyString => false
  end.

Lemma ascii_ltb_spec x y : Ascii.ltb x y = (N_of_ascii x <? N_of_ascii y)%N.
Proof. done. Qed.

Lemma string_ltb_prefix p a b : string_ltb (p ++ a) (p ++ b) = string_ltb a b.
Proof.
  induction p as [|c p IH]; [done|].
  change (Ascii.ltb c c || (Ascii.eqb c c && string_ltb (p ++ a) (p ++ b)) = string_ltb a b).
  rewrite ascii_ltb_spec, N.ltb_irrefl, Ascii.eqb_refl. exact IH.
Qed.

Lemma digits_value_cons d l : digits_value (d :: l) = d * 10 ^ Z.of_nat (length l) + digits_value l.
Proof.
  revert d. induction l as [|x l IH] using rev_ind; intros d; [cbn; lia|].
  rewrite app_comm_cons, !digits_value_app, IH, length_app. cbn [length].
  replace (Z.of_nat (length l + 1)) with (Z.of_nat (length l) + 1) by lia.
  rewrite pow10_split by lia. lia.
Qed.

Lemma digits_value_bound l : Forall (λ d, 0 <= d < 10) l → 0 <= digits_value l < 10 ^ Z.of_nat (length l).
Proof.
  induction 1 as [|d l Hd _ IH]; [cbn; lia|]. rewrite digits_value_cons. cbn [length].
  rewrite Nat2Z.inj_succ, Z.pow_succ_r by lia. nia.
Qed.

Lemma digit_chars_lt l k :
  Forall (λ d, 0 <= d < 10) l → Forall (λ d, 0 <= d < 10) k → length l = length k →
  digits_value l < digits_value k →
  string_ltb (of_chars (map digit_char l)) (of_chars (map digit_char k)) = true.
Proof.
  intros Hl. revert k. induction Hl as [|a l Ha Hl IH]; intros k Hk Hlen Hlt; destruct Hk as [|b k Hb Hk]; try done.
  rewrite !digits_value_cons in Hlt. injection Hlen as Hlen.
  pose proof (digits_value_bound l Hl). pose proof (digits_value_bound k Hk). rewrite Hlen in *.
  change (Ascii.ltb (digit_char a) (digit_char b)
    || (Ascii.eqb (digit_char a) (digit_char b)
        && string_ltb (of_chars (map digit_char l)) (of_chars (map digit_char k))) = true).
  rewrite ascii_ltb_spec. unfold digit_char at 1 2. rewrite !N_ascii_embedding by lia.
  destruct (Z.lt_trichotomy a b) as [|[->|]].
  - apply orb_true_iff. left. apply N.ltb_lt. lia.
  - rewrite Ascii.eqb_refl, IH by (done || lia). by rewrite orb_true_r.
  - nia.
Qed.

(** The digits of a zero-padded text. *)
Lemma lpad0_digits w n :
  (1 <= w)%nat → 0 <= n < 10 ^ Z.of_nat w →
  ∃ l, lpad0 w (nat_text n) = of_chars (map digit_char l) ∧ Forall (λ d, 0 <= d < 10) l ∧
       digits_value l = n ∧ length l = w.
Proof.
  intros Hw Hn. destruct (digits_lsd_spec (S (Z.to_nat (Z.log2 n))) n) as (Hv & Hd & Hl); [lia| |].
  { pose proof (Z.log2_nonneg n). lia. }
  specialize (Hl w Hw ltac:(lia)). fold (nat_digits n) in Hv.
  assert (length (nat_digits n) <= w)%nat as Hlen by (unfold nat_digits; by rewrite length_reverse).
  exists (replicate (w - length (nat_digits n)) 0 ++ nat_digits n). split; [|split; [|split]].
  - unfold lpad0, nat_text. rewrite !chars_of_chars.
    assert (String.length (of_chars (map digit_char (nat_digits n))) = length (nat_digits n)) as ->.
    { rewrite <-(length_map digit_char (nat_digits n)). generalize (map digit_char (nat_digits n)).
      clear. induction l as [|c l IH]; [done|]. cbn. f_equal. exact IH. }
    f_equal. rewrite take_ge.
    2: { rewrite length_app, length_replicate, length_map. lia. }
    rewrite map_app. f_equal. by rewrite <-(fmap_replicate digit_char).
  - apply Forall_app. split; [by apply Forall_replicate|]. by apply Forall_reverse.
  - by rewrite digits_value_zeros.
  - rewrite length_app, length_replicate. lia.
Qed.

(** Zero-padded texts of numbers that fit the width are distinct. *)
Lemma lpad0_inj w a b :
  (1 <= w)%nat → 0 <= a < 10 ^ Z.of_nat w → 0 <= b < 10 ^ Z.of_nat w →
  lpad0 w (nat_text a) = lpad0 w (nat_text b) → a = b.
Proof.
  intros Hw Ha Hb. destruct (lpad0_digits w a Hw Ha) as (la & -> & Hla & <- & _).
  destruct (lpad0_digits w b Hw Hb) as (lb & -> & Hlb & <- & _). intros E. f_equal.
  apply digit_chars_inj; [done..|]. apply (f_equal chars) in E. by rewrite !chars_of_chars in E.
Qed.

Lemma lpad0_lt w a b :
  (1 <= w)%nat → 0 <= a < b → b < 10 ^ Z.of_nat w →
  string_ltb (lpad0 w (nat_text a)) (lpad0 w (nat_text b)) = true.
Proof.
  intros Hw Ha Hb. destruct (lpad0_digits w a) as (la & -> & Hla & Hva & Hlena); [lia..|].
  destruct (lpad0_digits w b) as (lb & -> & Hlb & Hvb & Hlenb); [lia..|].
  apply digit_chars_lt; [done..|lia|lia].
Qed.

(** [str(d)] of a finite decimal: plain digits unless the exponent is positive
    or the number is below [10^-6]. *)
Definition decimal_text (d : decimal) : string :=
  let digits := nat_digits (Z.abs (coef d)) in
  let n := Z.of_nat (length digits) in
  let left_digits := dexp d + n in
  let dot := if (dexp d <=? 0) && (-6 <? left_digits) then left_digits else 1 in
  let text l := of_chars (map digit_char l) in
  let int_part := if dot <=? 0 then "0"%string
                  else if n <=? dot then text (digits ++ replicate (Z.to_nat (dot - n)) 0)
                  else text (take (Z.to_nat dot) digits) in
  let frac := if dot <=? 0 then ("." ++ text (replicate (Z.to_nat (- dot)) 0 ++ digits)%list)%string
              else if n <=? dot then ""%string
              else ("." ++ text (drop (Z.to_nat dot) digits))%string in
  let e := left_digits - dot in
  let exponent := if e =? 0 then ""%string else if 0 <? e then ("E+" ++ nat_text e)%string else ("E" ++ int_text e)%string in
  let sign := if coef d <? 0 then "-"%string else ""%string in
  (sign ++ int_part ++ frac ++ exponent)%string.

Example decimal_texts : map decimal_text [Dec 12345 (-2); Dec 5 (-2); Dec 7 3; Dec (-100) (-2); Dec 0 0; Dec 1 (-8)]%list =
  ["123.45"; "0.05"; "7E+3"; "-1.00"; "0"; "1E-8"]%string.
Proof. reflexivity. Qed.

(** ** Integer text *)

(** [int(s)]: surrounding C white space, a sign, and decimal digits that single
    underscores may separate; a text of more than 4300 digits is refused. *)
Definition is_c_space (c : ascii) : bool := let n := N_of_ascii c in ((9 <=? n) && (n <=? 13) || (n =? 32))%N.
Definition digit_of (c : ascii) : option Z :=
  let n := N_of_ascii c in if ((48 <=? n) && (n <=? 57))%N then Some (Z.of_N n - 48) else None.

Fixpoint drop_c_spaces (l : list ascii) : list ascii :=
  match l with
  | c :: l' => if is_c_space c then drop_c_spaces l' else l
  | [] => []
  end.

(** [after_digit]: the character before was a digit. *)
Fixpoint int_digits (after_digit : bool) (value : Z) (l : list ascii) : option Z :=
  match l with
  | [] => if after_digit then Some value else None
  | c :: l' =>
      match digit_of c with
      | Some d => int_digits true (10 * value + d) l'
      | None => if bool_decide (c = "_"%char) && after_digit then int_digits false value l' else None
      end
  end.

Definition py_int (s : string) : option Z :=
  let l := rev (drop_c_spaces (rev (drop_c_spaces (chars s)))) in
  let digits l := if 4300 <? Z.of_nat (length (filter (λ c, digit_of c ≠ None) l)) then None else int_digits false 0 l in
  match l with
  | "-"%char :: l' => Z.opp <$> digits l'
  | "+"%char :: l' => digits l'
  | _ => digits l
  end.

(** [s.startswith(p)] *)
Definition starts_with (p s : string) : bool := bool_decide (take (length (chars p)) (chars s) = chars p).

(** ** JSON values *)

(** A float carries its [repr], which is all the code reads of it. *)
Inductive json :=
  | JNull
  | JBool (b : bool)
  | JInt (z : Z)
  | JFloat (zero : bool) (repr : string)
  | JStr (s : string)
  | JList (l : list json)
  | JObj (fields : list (string * json)).

Definition jtruthy (j : json) : bool :=
  match j with
  | JNull => false
  | JBool b => b
  | JInt z => negb (z =? 0)
  | JFloat zero _ => negb zero
  | JStr s => negb (bool_decide (s = ""%string))
  | JList l => negb (bool_decide (length l = 0%nat))
  | JObj l => negb (bool_decide (length l = 0%nat))
  end.

(** [x or y] *)
Definition jor (x y : json) : json := if jtruthy x then x else y.

(** [j.get(key)]: only an object has [get]. *)
Definition jget (key : string) (j : json) : res json :=
  match j with
  | JObj l => Ok (default JNull (snd <$> find (λ f, bool_decide (f.1 = key)) l))
  | _ => Err (AttributeError "get")
  end.

(** ** Request headers *)

(** [request.headers.get(name)]: names compare without case. *)
Definition get_header (name : string) (headers : list (string * string)) : option string :=
  snd <$> find (λ h, bool_decide (lower h.1 = lower name)) headers.

(** ** The order of texts *)

Lemma string_ltb_cons x a y b :
  string_ltb (String x a) (String y b) = true ↔
  (N_of_ascii x < N_of_ascii y)%N ∨ x = y ∧ string_ltb a b = true.
Proof.
  change (string_ltb (String x a) (String y b)) with (Ascii.ltb x y || (Ascii.eqb x y && string_ltb a b)).
  by rewrite orb_true_iff, andb_true_iff, ascii_ltb_spec, N.ltb_lt, Ascii.eqb_eq.
Qed.

Lemma string_ltb_irrefl a : string_ltb a a = false.
Proof.
  induction a as [|x a IH]; [done|]. apply not_true_iff_false. rewrite string_ltb_cons, IH.
  intros [H|[_ H]]; [lia|done].
Qed.

Lemma string_ltb_trans a b c : string_ltb a b = true → string_ltb b c = true → string_ltb a c = true.
Proof.
  revert b c. induction a as [|x a IH]; intros [|y b] [|z c]; try done.
  rewrite !string_ltb_cons. intros [H1|[-> H1]] [H2|[-> H2]]; [left; lia|by left|by left|right; eauto].
Qed.

Lemma string_ltb_total a b : string_ltb a b = true ∨ a = b ∨ string_ltb b a = true.
Proof.
  revert b. induction a as [|x a IH]; intros [|y b]; [by right; left|by left|by right; right|].
  rewrite !string_ltb_cons. destruct (N.lt_total (N_of_ascii x) (N_of_ascii y)) as [H|[H|H]]; [tauto| |tauto].
  assert (x = y) as -> by (rewrite <-(ascii_N_embedding x), <-(ascii_N_embedding y); by f_equal).
  destruct (IH b) as [H1|[->|H1]]; tauto.
Qed.

(** ** Splitting what was joined *)

Lemma chars_app a b : chars (a ++ b)%string = chars a ++ chars b.
Proof.
  induction a as [|x a IH]; [done|]. change (x :: chars (a ++ b)%string = x :: chars a ++ chars b). by rewrite IH.
Qed.

Lemma of_chars_app a b : of_chars (a ++ b) = (of_chars a ++ of_chars b)%string.
Proof.
  induction a as [|x a IH]; [done|].
  change (String x (of_chars (a ++ b)) = String x (of_chars a ++ of_chars b)%string). by rewrite IH.
Qed.

Lemma split_chars_plain sep acc a : sep ∉ a → split_chars sep acc a = [rev acc ++ a].
Proof.
  revert acc. induction a as [|c a IH]; intros acc H; cbn; [by rewrite app_nil_r|].
  apply not_elem_of_cons in H as [Hc Ha]. rewrite decide_False by done. rewrite (IH _ Ha). cbn.
  by rewrite <-app_assoc.
Qed.

Lemma split_chars_sep sep acc a b : sep ∉ a →
  split_chars sep acc (a ++ sep :: b) = (rev acc ++ a) :: split_chars sep [] b.
Proof.
  revert acc. induction a as [|c a IH]; intros acc H; cbn.
  - by rewrite decide_True, app_nil_r.
  - apply not_elem_of_cons in H as [Hc Ha]. rewrite decide_False by done. rewrite (IH _ Ha). cbn.
    by rewrite <-app_assoc.
Qed.

(** [sep.join(l).split(sep) == l] when no piece contains the separator. *)
Lemma split_join sep l : l ≠ [] → Forall (λ s, sep ∉ chars s) l → split sep (join (String sep "") l) = l.
Proof.
  intros Hne Hl. induction Hl as [|s l Hs Hl IH]; [done|].
  assert (∀ x, map of_chars [chars x] = [x]) as Hone by (intros x; cbn; by rewrite of_chars_chars).
  unfold split in *. destruct l as [|t l].
  - cbn [join]. rewrite split_chars_plain by done. apply Hone.
  - change (join (String sep "") (s :: t :: l)) with (s ++ String sep (join (String sep "") (t :: l)))%string.
    rewrite chars_app. change (chars (String sep ?x)) with (sep :: chars x).
    rewrite split_chars_sep by done. cbn [map rev app]. rewrite (IH ltac:(done)), of_chars_chars. done.
Qed.

Lemma split_chars_last sep acc a b : List.last (split_chars sep acc (a ++ sep :: b)) [] = List.last (split_chars sep [] b) [].
Proof.
  assert (∀ l acc', split_chars sep acc' l ≠ []) as Hne by (intros l; induction l as [|c l IH]; intros acc'; cbn; [done|by case_decide]).
  revert acc. induction a as [|c a IH]; intros acc; cbn.
  - rewrite decide_True by done. cbn. pose proof (Hne b []). by destruct (split_chars sep [] b).
  - case_decide; [|apply IH]. cbn. pose proof (Hne (a ++ sep :: b) []). rewrite <-(IH []). by destruct (split_chars sep [] (a ++ sep :: b)).
Qed.

(** [s.rsplit(sep, 1)[1]] of a text that ends in a piece without the separator. *)
Lemma split_last sep a b : sep ∉ chars b → List.last (split sep (a ++ String sep b)) ""%string = b.
Proof.
  intros Hb. unfold split. rewrite chars_app. change (chars (String sep b)) with (sep :: chars b).
  assert (∀ l, List.last (map of_chars l) ""%string = of_chars (List.last l [])) as Hl.
  { intros l. induction l as [|x [|y l] IH]; [done..|]. exact IH. }
  rewrite Hl, split_chars_last, split_chars_plain by done. cbn. apply of_chars_chars.
Qed.

Lemma starts_with_app p s : starts_with p (p ++ s) = true.
Proof. unfold starts_with. apply bool_decide_eq_true_2. by rewrite chars_app, take_app_length. Qed.

(** [int(str(n)) == n] below the digit limit. *)
Lemma digit_of_char d : 0 <= d < 10 → digit_of (digit_char d) = Some d ∧ is_c_space (digit_char d) = false ∧
  digit_char d ≠ "-"%char ∧ digit_char d ≠ "+"%char ∧ digit_char d ≠ ":"%char.
Proof.
  intros Hd. assert (d = 0 ∨ d = 1 ∨ d = 2 ∨ d = 3 ∨ d = 4 ∨ d = 5 ∨ d = 6 ∨ d = 7 ∨ d = 8 ∨ d = 9) as H by lia.
  repeat (destruct H as [->|H]; [vm_compute; split_and!; done|]). subst d. vm_compute. split_and!; done.
Qed.

Lemma int_digits_chars l b v : Forall (λ d, 0 <= d < 10) l → (b = true ∨ l ≠ []) →
  int_digits b v (map digit_char l) = Some (foldl (λ v d, 10 * v + d) v l).
Proof.
  intros Hl. revert b v. induction Hl as [|d l Hd Hl IH]; intros b v Hb; cbn; [by destruct Hb as [->|]|].
  destruct (digit_of_char d Hd) as [-> _]. apply IH. by left.
Qed.

Lemma py_int_text n : 0 <= n < 10 ^ 4300 → py_int (int_text n) = Some n.
Proof.
  intros [Hn Hlt]. unfold int_text. destruct (Z.ltb_spec n 0); [lia|]. unfold py_int, nat_text. rewrite chars_of_chars.
  destruct (digits_lsd_spec (S (Z.to_nat (Z.log2 n))) n Hn) as (Hv & Hd & Hlen); [pose proof (Z.log2_nonneg n); lia|].
  specialize (Hlen 4300%nat ltac:(lia) Hlt). unfold nat_digits. set (ds := digits_lsd _ n) in *.
  assert (ds ≠ []) as Hne by (unfold ds; cbn [digits_lsd]; by destruct (n <? 10)).
  assert (∀ l, Forall (λ d, 0 <= d < 10) l → drop_c_spaces (map digit_char l) = map digit_char l) as Hdrop.
  { intros l Hl. destruct Hl as [|d l Hd' _]; [done|]. cbn. by destruct (digit_of_char d Hd') as (_ & -> & _). }
  apply Forall_reverse in Hd as Hd'. rewrite Hdrop by done. rewrite <-map_rev, Hdrop, map_rev, rev_involutive.
  2:{ rewrite rev_alt, <-reverse_reverse at 1 || idtac. apply Forall_rev. done. }
  assert (reverse ds ≠ []) as Hne' by (intros E; apply Hne; by rewrite <-(reverse_involutive ds), E).
  assert (length (filter (λ c, digit_of c ≠ None) (map digit_char (reverse ds))) <= 4300)%nat as Hl2.
  { etransitivity; [apply length_filter|]. rewrite length_map, length_reverse. exact Hlen. }
  assert ((4300 <? Z.of_nat (length (filter (λ c, digit_of c ≠ None) (map digit_char (reverse ds))))) = false) as Hlim
    by (apply Z.ltb_ge; lia).
  pose proof (int_digits_chars (reverse ds) false 0 Hd' ltac:(by right)) as Hint. change (foldl _ 0 (reverse ds)) with (digits_value (reverse ds)) in Hint.
  rewrite Hv in Hint. destruct (reverse ds) as [|d l] eqn:El; [done|]. cbn [map] in *.
  apply Forall_cons in Hd' as [Hd0 _]. destruct (digit_of_char d Hd0) as (_ & _ & Hm & Hp & _).
  rewrite Hlim, Hint. destruct (digit_char d) as [[] [] [] [] [] [] [] []]; done.
Qed.

(** [float(v)] *)
Definition float_of (v : pyval) : res float64 :=
  match v with
  | PNone => Err (TypeError "float() argument must be a string or a real number")
  | PBool b => Ok (of_ratio (Z.b2z b) 1)
  | PInt z => Ok (of_ratio z 1)
  | PFloat f => Ok f
  | PDec d => Ok (of_decimal d)
  | PStr _ (Some d) => Ok (of_decimal d)
  | PStr _ None => Err (ValueError "could not convert string to float")
  end.
