(* ===== verification/TaxEngine.v ===== *)
(** The GST engine: [src/app/services/tax_engine.py].

    [compute_tax] prices one bill, [compute_cart_tax] a mixed cart line by
    line; both are written over the decimal model and raise InvalidOperation
    where [quantize] would.  The theorems are stated for amounts in whole paise
    ([at_scale 2]) below [money_bound]; outside it Python raises or rounds to 28
    digits and so does the model. *)

From Stdlib Require Import ZArith Lia Ascii String.
From S2P Require Import Prelude PyDecimal PyFloat PyValues.
Open Scope Z_scope.

(** ** Constants and conversions *)

Definition _MAX_RATE : decimal := d_int 28.
Definition _GSTIN_LEN : Z := 15.
Definition _CONFIG_TTL_SEC : Z := 60 * 10 ^ 9.   (* nanoseconds of the monotonic clock *)

(** Quantise to two places. *)
Definition _q (value : decimal) : res decimal := quantize ROUND_HALF_UP (-2) value.

Definition _to_decimal (value : pyval) (default : decimal) : decimal :=
  match value with
  | PNone => default
  | PDec d => d
  | v => match parse_decimal v with Some d => d | None => default end
  end.

(** ** Configuration *)

Record TaxConfig := {
  gst_enabled : bool;
  gst_type : string;
  gst_number : option string;
  gst_percentage : decimal;
  cgst_percentage : decimal;
  sgst_percentage : decimal;
  tax_inclusive : bool;
}.

Definition default_config : TaxConfig := {|
  gst_enabled := true; gst_type := "GST"; gst_number := None;
  gst_percentage := d_int 5; cgst_percentage := Dec 25 (-1); sgst_percentage := Dec 25 (-1);
  tax_inclusive := false |}.

(** A row of [restaurant_settings] as the query of [get_tax_config] selects it. *)
Record settings_row := {
  row_gst_enabled : option bool;
  row_gst_type : option string;
  row_gst_number : option string;
  row_gst_percentage : option decimal;
  row_cgst_percentage : option decimal;
  row_sgst_percentage : option decimal;
  row_tax_inclusive : option bool;
  row_tax_percentage : option decimal;
}.

Definition opt_dec (x : option decimal) (default : decimal) : decimal :=
  _to_decimal (match x with Some d => PDec d | None => PNone end) default.

Definition from_row (row : option settings_row) : res TaxConfig :=
  match row with
  | None => Ok default_config
  | Some r =>
      let enabled := match row_gst_enabled r with
                     | None => dpos (opt_dec (row_tax_percentage r) d_zero)
                     | Some b => b
                     end in
      let gst_pct := opt_dec (row_gst_percentage r) (opt_dec (row_tax_percentage r) (d_int 5)) in
      half ← ddiv gst_pct (d_int 2);
      let cgst := opt_dec (row_cgst_percentage r) half in
      let sgst := opt_dec (row_sgst_percentage r) half in
      Ok {| gst_enabled := enabled;
            gst_type := str_or (row_gst_type r) "GST";
            gst_number := if str_truthy (row_gst_number r)
                          then option_map (λ s, upper (strip s)) (row_gst_number r) else None;
            gst_percentage := gst_pct;
            cgst_percentage := cgst;
            sgst_percentage := sgst;
            tax_inclusive := default false (row_tax_inclusive r) |}
  end.

(** ** One bill *)

Record TaxBreakdown := {
  tb_subtotal : decimal;
  tb_discount_amount : decimal;
  tb_taxable_amount : decimal;
  tb_gst_enabled : bool;
  tb_gst_number : option string;
  tb_gst_type : string;
  tb_gst_percentage : decimal;
  tb_cgst_percentage : decimal;
  tb_sgst_percentage : decimal;
  tb_cgst_amount : decimal;
  tb_sgst_amount : decimal;
  tb_total_tax : decimal;
  tb_grand_total : decimal;
  tb_round_off : decimal;
  tb_tax_inclusive : bool;
}.

(** The optional rounding of a grand total to the rupee: the rounded total and
    the captured difference. *)
Definition round_rupee (round_to_rupee : bool) (grand : decimal) : res (decimal * decimal) :=
  if round_to_rupee then
    rounded ← quantize ROUND_HALF_UP 0 grand;
    Ok (rounded, dsub rounded grand)
  else Ok (grand, d_zero).

Definition compute_tax (subtotal discount : pyval) (config : TaxConfig)
    (round_to_rupee : bool) : res TaxBreakdown :=
  let sub := dmax (_to_decimal subtotal d_zero) d_zero in
  let disc := dmax (_to_decimal discount d_zero) d_zero in
  let disc := if dltb sub disc then sub else disc in
  if negb (gst_enabled config) then
    taxable ← _q (dsub sub disc);
    q_sub ← _q sub;
    q_disc ← _q disc;
    Ok {| tb_subtotal := q_sub; tb_discount_amount := q_disc; tb_taxable_amount := taxable;
          tb_gst_enabled := false; tb_gst_number := None; tb_gst_type := gst_type config;
          tb_gst_percentage := d_zero; tb_cgst_percentage := d_zero; tb_sgst_percentage := d_zero;
          tb_cgst_amount := d_zero; tb_sgst_amount := d_zero; tb_total_tax := d_zero;
          tb_grand_total := taxable; tb_round_off := d_zero; tb_tax_inclusive := false |}
  else
    let cgst_pct := dmax (cgst_percentage config) d_zero in
    let sgst_pct := dmax (sgst_percentage config) d_zero in
    let gst_pct := dadd cgst_pct sgst_pct in
    taxable ← (if tax_inclusive config then
                 let gross := dsub sub disc in
                 divisor ← ddiv (dadd (d_int 100) gst_pct) (d_int 100);
                 if negb (deqb divisor d_zero) then ddiv gross divisor else Ok gross
               else Ok (dsub sub disc));
    cgst_amount ← (x ← ddiv (dmul taxable cgst_pct) (d_int 100); _q x);
    sgst_amount ← (x ← ddiv (dmul taxable sgst_pct) (d_int 100); _q x);
    let total_tax := dadd cgst_amount sgst_amount in
    grand ← (if tax_inclusive config then _q (dsub sub disc) else _q (dadd taxable total_tax));
    gr ← round_rupee round_to_rupee grand;
    q_sub ← _q sub;
    q_disc ← _q disc;
    q_taxable ← _q taxable;
    q_gst_pct ← _q gst_pct;
    q_cgst_pct ← _q cgst_pct;
    q_sgst_pct ← _q sgst_pct;
    q_total_tax ← _q total_tax;
    q_round_off ← _q gr.2;
    Ok {| tb_subtotal := q_sub; tb_discount_amount := q_disc; tb_taxable_amount := q_taxable;
          tb_gst_enabled := true; tb_gst_number := gst_number config; tb_gst_type := gst_type config;
          tb_gst_percentage := q_gst_pct; tb_cgst_percentage := q_cgst_pct;
          tb_sgst_percentage := q_sgst_pct; tb_cgst_amount := cgst_amount;
          tb_sgst_amount := sgst_amount; tb_total_tax := q_total_tax;
          tb_grand_total := gr.1; tb_round_off := q_round_off;
          tb_tax_inclusive := tax_inclusive config |}.

(** ** Cart lines *)

Record ItemTaxLine := {
  it_line_total : decimal;
  it_gst_enabled : bool;
  it_gst_inclusive : bool;
  it_gst_rate : decimal;
}.

Record LineTaxResult := {
  lr_line_total : decimal;
  lr_gst_enabled : bool;
  lr_gst_inclusive : bool;
  lr_gst_rate : decimal;
  lr_taxable_amount : decimal;
  lr_cgst_amount : decimal;
  lr_sgst_amount : decimal;
  lr_total_tax : decimal;
  lr_final_price : decimal;
  lr_discount_amount : decimal;
}.

Record CartTaxBreakdown := {
  ct_subtotal : decimal;
  ct_inclusive_subtotal : decimal;
  ct_exclusive_subtotal : decimal;
  ct_nongst_subtotal : decimal;
  ct_discount_amount : decimal;
  ct_taxable_amount : decimal;
  ct_cgst_amount : decimal;
  ct_sgst_amount : decimal;
  ct_total_tax : decimal;
  ct_grand_total : decimal;
  ct_round_off : decimal;
  ct_gst_enabled : bool;
  ct_gst_number : option string;
  ct_gst_type : string;
  ct_lines : list LineTaxResult;
}.

(** The columns of an [items] row the engine reads; a column may be missing. *)
Record item_row := {
  item_gst_rate : field pyval;
  item_is_tax_inclusive : field bool;
}.

Definition _line_from_item_row (row : option item_row) (line_total : pyval) (store : TaxConfig)
    : ItemTaxLine :=
  let rate_val := match row with
                  | Some r => default PNone (field_get (item_gst_rate r))
                  | None => PNone
                  end in
  let rate := _to_decimal rate_val (gst_percentage store) in
  let enabled := gst_enabled store && dpos rate in
  let inclusive := match row with
                   | Some r => match item_is_tax_inclusive r with
                               | None => tax_inclusive store
                               | Some v => default false v
                               end
                   | None => tax_inclusive store
                   end in
  {| it_line_total := _to_decimal line_total d_zero; it_gst_enabled := enabled;
     it_gst_inclusive := inclusive; it_gst_rate := rate |}.

(** [int((x * 100).to_integral_value(rounding=ROUND_HALF_UP))] *)
Definition to_paise (x : decimal) : Z := to_int ROUND_HALF_UP (dmul x (d_int 100)).
Definition q_paise (x : decimal) : res Z := y ← _q x; Ok (to_paise y).

(** [Decimal(p) / 100] *)
Definition from_paise (p : Z) : res decimal := ddiv (d_int p) (d_int 100).

Definition _split_tax (tax : decimal) : res (decimal * decimal) :=
  tax_q ← _q tax;
  let paise := to_paise tax_q in
  cgst ← from_paise (paise / 2);
  q_cgst ← _q cgst;
  q_sgst ← _q (dsub tax_q cgst);
  Ok (q_cgst, q_sgst).

(** The backwards loop of [_allocate_discount] over the lines in reverse
    order: hand out the remainder to lines with room until none is left. *)
Fixpoint give_remainder (remainder : Z) (l : list (decimal * Z)) : res (list Z) :=
  match l with
  | [] => Ok []
  | (amt, share) :: l' =>
      if remainder =? 0 then Ok (share :: map snd l')
      else if dpos amt then
        amt_paise ← q_paise amt;
        let room := amt_paise - share in
        let take := Z.min room remainder in
        rest ← give_remainder (remainder - take) l';
        Ok (share + take :: rest)
      else
        rest ← give_remainder remainder l';
        Ok (share :: rest)
  end.

Definition floordiv (a b : Z) : res Z := if b =? 0 then Err ZeroDivisionError else Ok (a / b).

(** One pass of the share loop: [disc_paise * amt_paise // total_paise]. *)
Definition prorata_share (disc_paise total_paise : Z) (amt : decimal) : res Z :=
  amt_paise ← q_paise amt; floordiv (disc_paise * amt_paise) total_paise.

Definition _allocate_discount (amounts : list decimal) (discount : decimal) : res (list decimal) :=
  let total := dsum amounts in
  if negb (dpos discount) || negb (dpos total) then Ok (map (λ _, d_zero) amounts)
  else
    disc_paise ← q_paise discount;
    total_paise ← q_paise total;
    shares ← res_map (prorata_share disc_paise total_paise) amounts;
    let remainder := disc_paise - zsum shares in
    shares' ← give_remainder remainder (reverse (zip amounts shares));
    res_map from_paise (reverse shares').

(** The running totals of the loop in [compute_cart_tax]. *)
Record cart_acc := {
  inclusive_sub : decimal;
  exclusive_sub : decimal;
  nongst_sub : decimal;
  cgst_total : decimal;
  sgst_total : decimal;
  exclusive_tax : decimal;
  taxable_total : decimal;
  acc_grand : decimal;
  line_results : list LineTaxResult;
}.

Definition empty_acc : cart_acc := {|
  inclusive_sub := d_zero; exclusive_sub := d_zero; nongst_sub := d_zero; cgst_total := d_zero;
  sgst_total := d_zero; exclusive_tax := d_zero; taxable_total := d_zero; acc_grand := d_zero;
  line_results := [] |}.

Definition cart_line (store_enabled : bool) (acc : cart_acc)
    (ladt : ItemTaxLine * decimal * decimal) : res cart_acc :=
  let '(line, amt, d) := ladt in
  let rate := dmax (it_gst_rate line) d_zero in
  let rate := if dltb _MAX_RATE rate then _MAX_RATE else rate in
  let enabled := it_gst_enabled line && store_enabled && dpos rate in
  basis ← _q (dsub amt d);
  q_amt ← _q amt;
  q_rate ← (if enabled then _q rate else Ok d_zero);
  q_d ← _q d;
  if negb enabled then
    let res := {| lr_line_total := q_amt; lr_gst_enabled := enabled; lr_gst_inclusive := false;
                  lr_gst_rate := q_rate; lr_taxable_amount := basis; lr_cgst_amount := d_zero;
                  lr_sgst_amount := d_zero; lr_total_tax := Dec 0 (-2); lr_final_price := basis;
                  lr_discount_amount := q_d |} in
    Ok {| inclusive_sub := inclusive_sub acc; exclusive_sub := exclusive_sub acc;
          nongst_sub := dadd (nongst_sub acc) amt; cgst_total := cgst_total acc;
          sgst_total := sgst_total acc; exclusive_tax := exclusive_tax acc;
          taxable_total := taxable_total acc; acc_grand := dadd (acc_grand acc) basis;
          line_results := line_results acc ++ [res] |}
  else if it_gst_inclusive line then
    divisor ← ddiv (dadd (d_int 100) rate) (d_int 100);
    taxable_raw ← ddiv basis divisor;
    taxable_q ← _q taxable_raw;
    split ← _split_tax (dsub basis taxable_q);
    let '(cgst, sgst) := split in
    total_tax ← _q (dadd cgst sgst);
    let res := {| lr_line_total := q_amt; lr_gst_enabled := enabled; lr_gst_inclusive := true;
                  lr_gst_rate := q_rate; lr_taxable_amount := taxable_q; lr_cgst_amount := cgst;
                  lr_sgst_amount := sgst; lr_total_tax := total_tax; lr_final_price := basis;
                  lr_discount_amount := q_d |} in
    Ok {| inclusive_sub := dadd (inclusive_sub acc) amt; exclusive_sub := exclusive_sub acc;
          nongst_sub := nongst_sub acc; cgst_total := dadd (cgst_total acc) cgst;
          sgst_total := dadd (sgst_total acc) sgst; exclusive_tax := exclusive_tax acc;
          taxable_total := dadd (taxable_total acc) taxable_q;
          acc_grand := dadd (acc_grand acc) basis; line_results := line_results acc ++ [res] |}
  else
    tax ← ddiv (dmul basis rate) (d_int 100);
    split ← _split_tax tax;
    let '(cgst, sgst) := split in
    final ← _q (dadd (dadd basis cgst) sgst);
    total_tax ← _q (dadd cgst sgst);
    let res := {| lr_line_total := q_amt; lr_gst_enabled := enabled; lr_gst_inclusive := false;
                  lr_gst_rate := q_rate; lr_taxable_amount := basis; lr_cgst_amount := cgst;
                  lr_sgst_amount := sgst; lr_total_tax := total_tax; lr_final_price := final;
                  lr_discount_amount := q_d |} in
    Ok {| inclusive_sub := inclusive_sub acc; exclusive_sub := dadd (exclusive_sub acc) amt;
          nongst_sub := nongst_sub acc; cgst_total := dadd (cgst_total acc) cgst;
          sgst_total := dadd (sgst_total acc) sgst;
          exclusive_tax := dadd (exclusive_tax acc) (dadd cgst sgst);
          taxable_total := dadd (taxable_total acc) basis;
          acc_grand := dadd (acc_grand acc) final; line_results := line_results acc ++ [res] |}.

Definition compute_cart_tax (lines : list ItemTaxLine) (discount : pyval) (config : TaxConfig)
    (round_to_rupee : bool) : res CartTaxBreakdown :=
  let store_enabled := gst_enabled config in
  let bases := map (λ l, dmax (it_line_total l) d_zero) lines in
  let subtotal := dsum bases in
  let disc := dmax (_to_decimal discount d_zero) d_zero in
  let disc := if dltb subtotal disc then subtotal else disc in
  disc ← _q disc;
  allocations ← _allocate_discount bases disc;
  acc ← res_foldl (cart_line store_enabled) empty_acc (zip (zip lines bases) allocations);
  grand ← _q (acc_grand acc);
  gr ← round_rupee round_to_rupee grand;
  q_subtotal ← _q subtotal;
  q_inclusive ← _q (inclusive_sub acc);
  q_exclusive ← _q (exclusive_sub acc);
  q_nongst ← _q (nongst_sub acc);
  q_taxable ← _q (taxable_total acc);
  q_cgst ← _q (cgst_total acc);
  q_sgst ← _q (sgst_total acc);
  q_total_tax ← _q (dadd (cgst_total acc) (sgst_total acc));
  q_round_off ← _q gr.2;
  Ok {| ct_subtotal := q_subtotal; ct_inclusive_subtotal := q_inclusive;
        ct_exclusive_subtotal := q_exclusive; ct_nongst_subtotal := q_nongst;
        ct_discount_amount := disc; ct_taxable_amount := q_taxable;
        ct_cgst_amount := q_cgst; ct_sgst_amount := q_sgst; ct_total_tax := q_total_tax;
        ct_grand_total := gr.1; ct_round_off := q_round_off;
        ct_gst_enabled := store_enabled && dpos (dadd (cgst_total acc) (sgst_total acc));
        ct_gst_number := if store_enabled then gst_number config else None;
        ct_gst_type := gst_type config; ct_lines := line_results acc |}.

(** ** Configuration cache *)

(** [_CONFIG_CACHE]: restaurant id to configuration and the time it was read. *)
Abbreviation config_cache := (gmap string (TaxConfig * Z)).

Section ConfigCache.
(** The row the database returns for a restaurant id. *)
Variable fetchrow : string → option settings_row.

Definition get_tax_config (restaurant_id : option string) (now : Z) (cache : config_cache)
    : res (TaxConfig * config_cache) :=
  if negb (str_truthy restaurant_id) then Ok (default_config, cache)
  else
    let key := str_or restaurant_id "" in
    match cache !! key with
    | Some (cfg, at_time) =>
        if now - at_time <? _CONFIG_TTL_SEC then Ok (cfg, cache)
        else cfg' ← from_row (fetchrow key); Ok (cfg', <[key := (cfg', now)]> cache)
    | None => cfg' ← from_row (fetchrow key); Ok (cfg', <[key := (cfg', now)]> cache)
    end.
End ConfigCache.

Definition invalidate_tax_config (restaurant_id : option string) (cache : config_cache)
    : config_cache :=
  if negb (str_truthy restaurant_id) then cache else delete (str_or restaurant_id "") cache.

(** ** Settings validation *)

Definition validate_gst_number (value : option string) : res (option string) :=
  match value with
  | None => Ok None
  | Some v =>
      if decide (strip v = ""%string) then Ok None
      else
        let norm := upper (strip v) in
        _ ← raise_if (negb (str_len norm =? _GSTIN_LEN) || negb (isalnum norm))
              (TaxConfigError "gst_number must be 15 alphanumeric characters");
        Ok (Some norm)
  end.

(** The GST fields of an update payload. *)
Record gst_patch := {
  p_gst_number : field string;
  p_gst_percentage : field pyval;
  p_cgst_percentage : field pyval;
  p_sgst_percentage : field pyval;
  p_gst_enabled : field bool;
}.

(** One pass of the rate loop: a present, non-None rate must lie in the slab
    range and is stored as a float. *)
Definition validate_rate (name : string) (x : field pyval) : res (field pyval) :=
  match x with
  | Some (Some raw) =>
      let v := _to_decimal raw d_zero in
      _ ← raise_if (dltb v d_zero || dltb _MAX_RATE v)
            (TaxConfigError (name ++ " must be between 0 and 28"));
      Ok (Some (Some (py_float v)))
  | _ => Ok x
  end.

Definition rate_dec (x : option pyval) : decimal := _to_decimal (default PNone x) d_zero.

(** Fill in the derived rates: a 50/50 split of a lone total, or the sum of a
    split given without a total. *)
Definition derive_rates (gst cgst sgst : field pyval) : res (field pyval * field pyval * field pyval) :=
  match field_get gst, field_get cgst, field_get sgst with
  | Some g, None, None =>
      h ← ddiv (rate_dec (Some g)) (d_int 2);
      half ← _q h;
      Ok (gst, Some (Some (py_float half)), Some (Some (py_float (dsub (rate_dec (Some g)) half))))
  | None, None, None => Ok (gst, cgst, sgst)
  | None, c, s => Ok (Some (Some (py_float (dadd (rate_dec c) (rate_dec s)))), cgst, sgst)
  | _, _, _ => Ok (gst, cgst, sgst)
  end.

Definition validate_gst_settings_patch (patch : gst_patch) (existing_gst_number : option string)
    : res gst_patch :=
  number ← (match p_gst_number patch with
            | Some v => n ← validate_gst_number v; Ok (Some n)
            | None => Ok None
            end);
  gst ← validate_rate "gst_percentage" (p_gst_percentage patch);
  cgst ← validate_rate "cgst_percentage" (p_cgst_percentage patch);
  sgst ← validate_rate "sgst_percentage" (p_sgst_percentage patch);
  rates ← derive_rates gst cgst sgst;
  let '(gst, cgst, sgst) := rates in
  _ ← match field_get gst, field_get cgst, field_get sgst with
      | Some g, Some c, Some s =>
          let total := rate_dec (Some g) in
          let parts := dadd (rate_dec (Some c)) (rate_dec (Some s)) in
          raise_if (dltb (Dec 1 (-2)) (dabs (dsub total parts)))
            (TaxConfigError "cgst_percentage + sgst_percentage must equal gst_percentage")
      | _, _, _ => Ok ()
      end;
  _ ← (if bool_decide (field_get (p_gst_enabled patch) = Some true) then
         let effective := if field_in number then field_get number else existing_gst_number in
         raise_if (negb (str_truthy effective))
           (TaxConfigError "gst_number is required when gst_enabled is true")
       else Ok ());
  Ok {| p_gst_number := number; p_gst_percentage := gst; p_cgst_percentage := cgst;
        p_sgst_percentage := sgst; p_gst_enabled := p_gst_enabled patch |}.

(** ** Paise *)

(** Amounts the theorems cover: below 10^20 paise. *)
Definition money_bound : Z := 10 ^ 20.

(** The amount of a decimal in whole paise. *)
Definition pz (d : decimal) : Z := rescale ROUND_HALF_UP (-2) d.
Arguments pz : simpl never.

Lemma pz_at_scale d n : at_scale 2 d n → pz d = n.
Proof. apply (rescale_at_scale ROUND_HALF_UP 2). Qed.

Lemma at_scale_paise n : at_scale 2 (Dec n (-2)) n.
Proof. by apply at_scale_Dec. Qed.

Lemma pz_paise n : pz (Dec n (-2)) = n.
Proof. apply pz_at_scale, at_scale_paise. Qed.

Ltac fits_tac :=
  unfold fits, prec, money_bound in *;
  change (10 ^ 28) with 10000000000000000000000000000 in *;
  change (10 ^ 20) with 100000000000000000000 in *;
  try lia; nia.

Lemma fits_bound n : 0 <= n < money_bound → fits n.
Proof. intros. fits_tac. Qed.

Lemma q_at_scale d n : at_scale 2 d n → fits n → _q d = Ok (Dec n (-2)).
Proof. apply (quantize_at_scale ROUND_HALF_UP 2). Qed.

Lemma q_Ok d r : _q d = Ok r ↔ r = Dec (pz d) (-2) ∧ fits (pz d).
Proof. apply quantize_Ok. Qed.

Lemma to_paise_at_scale d n : at_scale 2 d n → fits (n * 100) → to_paise d = n.
Proof.
  intros Hd Hf. unfold to_paise. apply to_int_at_scale.
  pose proof (dmul_at_scale 2 (-2) d (d_int 100) n 1 Hd) as H.
  rewrite Z.mul_1_r in H. apply H; [done|]. fits_tac.
Qed.

Lemma q_paise_at_scale d n : at_scale 2 d n → fits (n * 100) → q_paise d = Ok n.
Proof.
  intros Hd Hf. unfold q_paise. rewrite (q_at_scale d n) by (done || fits_tac).
  cbn. by rewrite (to_paise_at_scale _ n) by (done || apply at_scale_paise).
Qed.

Lemma from_paise_spec p : fits p → ∃ r, from_paise p = Ok r ∧ at_scale 2 r p.
Proof. apply ddiv_100. Qed.

(** An odd paisa goes to SGST. *)
Lemma split_tax_spec tax t :
  pz tax = t → fits (t * 100) →
  _split_tax tax = Ok (Dec (t / 2) (-2), Dec (t - t / 2) (-2)).
Proof.
  intros Ht Hf. unfold _split_tax.
  assert (_q tax = Ok (Dec t (-2))) as ->.
  { apply q_Ok. rewrite Ht. split; [done|fits_tac]. }
  cbn [mbind res_bind]. rewrite (to_paise_at_scale _ t (at_scale_paise t) Hf).
  pose proof (floor_div_bounds t 2 ltac:(lia)) as Hdiv.
  destruct (from_paise_spec (t / 2)) as (c & -> & Hc); [fits_tac|]. cbn [mbind res_bind].
  rewrite (q_at_scale c (t / 2) Hc) by fits_tac. cbn [mbind res_bind].
  rewrite (q_at_scale _ (t - t / 2)); [done| |fits_tac].
  apply dsub_at_scale; [apply at_scale_paise|done|fits_tac].
Qed.

(** ** Discount allocation *)

(** One line of the backwards loop: its amount in paise and its share. *)
Definition line_room (n : Z) (l : decimal * Z) : Prop :=
  at_scale 2 l.1 n ∧ 0 <= l.2 <= n ∧ n < money_bound.

Lemma zsum_rooms_nonneg ns l :
  Forall2 line_room ns l → 0 <= zsum ns - zsum (map snd l).
Proof.
  induction 1 as [|n [amt s] ns l (_ & ? & _) _ IH]; [done|].
  cbn [map snd fst] in *. rewrite !zsum_cons. lia.
Qed.

Lemma give_remainder_spec ns l R :
  Forall2 line_room ns l → 0 <= R <= zsum ns - zsum (map snd l) →
  ∃ out, give_remainder R l = Ok out ∧ zsum out = zsum (map snd l) + R ∧
         Forall2 (λ n s, 0 <= s <= n) ns out.
Proof.
  intros Hl. revert R. induction Hl as [|n [amt s] ns l (Hamt & Hs & Hb) Hl IH]; intros R HR.
  { exists []. cbn in *. repeat split; [lia|constructor]. }
  cbn [map snd fst] in *. rewrite !zsum_cons in *. cbn [give_remainder].
  destruct (Z.eqb_spec R 0) as [->|HR0].
  { exists (s :: map snd l). rewrite zsum_cons. split; [done|]. split; [lia|].
    constructor; [done|]. clear -Hl. induction Hl as [|n' [amt' s'] ns l (_ & Hs & _)]; constructor; [done|by apply IHHl]. }
  rewrite (dpos_at_scale 2 amt n Hamt). destruct (Z.ltb_spec 0 n) as [Hn|Hn].
  - rewrite (q_paise_at_scale amt n Hamt) by fits_tac. cbn [mbind res_bind].
    destruct (IH (R - Z.min (n - s) R)) as (out & -> & Hsum & Hout).
    { pose proof (zsum_rooms_nonneg ns l Hl). lia. }
    cbn [mbind res_bind]. eexists; split; [done|]. rewrite zsum_cons. split; [lia|].
    constructor; [lia|done].
  - destruct (IH R) as (out & -> & Hsum & Hout); [lia|].
    cbn [mbind res_bind]. eexists; split; [done|]. rewrite zsum_cons. split; [lia|].
    constructor; [lia|done].
Qed.

(** The pro-rata shares, rounded down, never exceed the discount or the line. *)
Lemma prorata_bounds D T n :
  0 <= D <= T → 0 < T → 0 <= n → 0 <= D * n / T <= n.
Proof.
  intros HD HT Hn. split; [apply Z.div_pos; nia|].
  apply Z.div_le_upper_bound; [done|]. nia.
Qed.

Lemma prorata_sum D T ns :
  0 <= D → 0 < T → T * zsum (map (λ n, D * n / T) ns) <= D * zsum ns.
Proof.
  intros HD HT. induction ns as [|n ns IH]; [cbn; lia|]. cbn [map]. rewrite !zsum_cons.
  pose proof (floor_div_bounds (D * n) T HT). lia.
Qed.

Lemma prorata_lines D T amounts ns :
  0 <= D <= T → 0 < T → Forall2 (at_scale 2) amounts ns → Forall (λ n, 0 <= n < money_bound) ns →
  res_map (prorata_share D T) amounts = Ok (map (λ n, D * n / T) ns) ∧
  Forall2 line_room ns (zip amounts (map (λ n, D * n / T) ns)) ∧
  map snd (zip amounts (map (λ n, D * n / T) ns)) = map (λ n, D * n / T) ns.
Proof.
  intros HD HT Hns Hb. revert Hb. induction Hns as [|amt n amounts ns Hamt Hns IH]; intros Hb.
  { repeat split; constructor. }
  apply Forall_cons in Hb as [Hn Hb]. destruct (IH Hb) as (IHeq & Hroom & Hsnd). cbn [map res_map].
  assert (prorata_share D T amt = Ok (D * n / T)) as ->.
  { unfold prorata_share. rewrite (q_paise_at_scale amt n Hamt) by fits_tac.
    cbn. unfold floordiv. by destruct (Z.eqb_spec T 0); [lia|]. }
  rewrite IHeq. cbn [mbind res_bind].
  split; [done|]. cbn [zip zip_with map snd]. split; [|by rewrite Hsnd].
  constructor; [|done]. split; [done|]. cbn [snd]. split; [apply prorata_bounds; lia|lia].
Qed.

Lemma from_paise_map ss :
  Forall (λ s, 0 <= s < money_bound) ss →
  ∃ ds, res_map from_paise ss = Ok ds ∧ Forall2 (at_scale 2) ds ss.
Proof.
  induction 1 as [|s ss Hs _ (ds & IH & Hds)]; [by exists []|].
  cbn [res_map]. destruct (from_paise_spec s) as (d & -> & Hd); [fits_tac|].
  rewrite IH. exists (d :: ds). split; [done|by constructor].
Qed.

(** The sum-of-paise view of a list of bases. *)
Definition paise_list (l : list decimal) (ns : list Z) : Prop :=
  Forall2 (at_scale 2) l ns ∧ Forall (λ n, 0 <= n < money_bound) ns ∧ zsum ns < money_bound.

Lemma paise_list_nonneg l ns : paise_list l ns → Forall (λ n, 0 <= n) ns.
Proof. intros (_ & H & _). by eapply Forall_impl; [exact H|]; intros ? []. Qed.

Lemma paise_list_dsum l ns : paise_list l ns → at_scale 2 (dsum l) (zsum ns).
Proof.
  intros H. pose proof (paise_list_nonneg l ns H) as Hnn. destruct H as (Hl & Hb & Ht).
  apply dsum_at_scale; [done|done|]. pose proof (zsum_nonneg ns Hnn). fits_tac.
Qed.

Lemma zero_allocation amounts ns :
  Forall2 (at_scale 2) amounts ns → Forall (λ n, 0 <= n) ns →
  Forall2 (at_scale 2) (map (λ _, d_zero) amounts) (map (λ _, 0) ns) ∧
  zsum (map (λ _, 0) ns) = 0 ∧ Forall2 (λ n s, 0 <= s <= n) ns (map (λ _, 0) ns).
Proof.
  induction 1 as [|amt n amounts ns _ _ IH]; [repeat split; constructor|].
  intros [Hn Hnn]%Forall_cons. destruct (IH Hnn) as (H1 & H2 & H3). cbn [map]. rewrite zsum_cons.
  split; [|split]; [constructor; [by apply at_scale_zero|done]|lia|constructor; [lia|done]].
Qed.

Lemma allocate_discount_paise amounts ns disc D :
  paise_list amounts ns → at_scale 2 disc D → 0 <= D <= zsum ns →
  ∃ ds ss, _allocate_discount amounts disc = Ok ds ∧ Forall2 (at_scale 2) ds ss ∧
           zsum ss = D ∧ Forall2 (λ n s, 0 <= s <= n) ns ss.
Proof.
  intros Hp Hdisc HD. pose proof (paise_list_dsum _ _ Hp) as Htot.
  pose proof (paise_list_nonneg _ _ Hp) as Hnn. destruct Hp as (Hns & Hb & Hlt).
  unfold _allocate_discount.
  rewrite (dpos_at_scale 2 disc D Hdisc), (dpos_at_scale 2 _ _ Htot).
  destruct (Z.ltb_spec 0 D) as [HD0|HD0]; cbn [negb orb].
  2: { assert (D = 0) as -> by lia. do 2 eexists. split; [done|].
    by apply zero_allocation. }
  destruct (Z.ltb_spec 0 (zsum ns)) as [HT|HT]; [|lia]. cbn [negb].
  rewrite (q_paise_at_scale disc D Hdisc), (q_paise_at_scale _ _ Htot) by fits_tac.
  cbn [mbind res_bind].
  destruct (prorata_lines D (zsum ns) amounts ns) as (-> & Hroom & Hsnd); [lia|lia|done|done|].
  cbn [mbind res_bind]. set (shares := map (λ n, D * n / zsum ns) ns) in *.
  pose proof (prorata_sum D (zsum ns) ns ltac:(lia) HT) as Hsum. fold shares in Hsum.
  assert (zsum shares <= D) as Hle by nia.
  destruct (give_remainder_spec (reverse ns) (reverse (zip amounts shares)) (D - zsum shares))
    as (out & -> & Hout & Hbounds); [by apply Forall2_reverse| |].
  { rewrite map_reverse, Hsnd, !zsum_reverse. lia. }
  cbn [mbind res_bind]. rewrite map_reverse, Hsnd, zsum_reverse in Hout.
  apply Forall2_reverse in Hbounds. rewrite reverse_involutive in Hbounds.
  destruct (from_paise_map (reverse out)) as (ds & -> & Hds).
  { eapply Forall2_Forall_r; [exact Hbounds|].
    eapply Forall_impl; [exact Hb|]. cbn. lia. }
  exists ds, (reverse out). split; [done|]. split; [done|]. split; [|done].
  rewrite zsum_reverse. lia.
Qed.

(** ** Cart lines *)

(** The tax a line adds on top of its discounted price. *)
Definition exclusive_tax_of (r : LineTaxResult) : Z :=
  if lr_gst_enabled r && negb (lr_gst_inclusive r) then pz (lr_total_tax r) else 0.

(** What one receipt line says, in paise: [n] is its price, [a] its share of
    the discount. *)
Record line_spec (n a : Z) (r : LineTaxResult) : Prop := {
  ls_total : pz (lr_line_total r) = n;
  ls_discount : pz (lr_discount_amount r) = a;
  ls_tax : pz (lr_cgst_amount r) + pz (lr_sgst_amount r) = pz (lr_total_tax r);
  ls_odd_paisa : 0 <= pz (lr_sgst_amount r) - pz (lr_cgst_amount r) <= 1;
  ls_final : pz (lr_final_price r) = n - a + exclusive_tax_of r;
  ls_taxable : pz (lr_taxable_amount r)
    = (n - a) - (if lr_gst_inclusive r then pz (lr_total_tax r) else 0);
}.

(** Exactness and size of the amounts a line adds to the running totals. *)
Record line_exact (b : Z) (r : LineTaxResult) : Prop := {
  le_cgst : at_scale 2 (lr_cgst_amount r) (pz (lr_cgst_amount r));
  le_sgst : at_scale 2 (lr_sgst_amount r) (pz (lr_sgst_amount r));
  le_taxable : at_scale 2 (lr_taxable_amount r) (pz (lr_taxable_amount r));
  le_final : at_scale 2 (lr_final_price r) (pz (lr_final_price r));
  le_bound : Z.abs (pz (lr_total_tax r)) <= 4 * b;
  le_excl : 0 <= exclusive_tax_of r <= b;
  le_off : lr_gst_enabled r = false → pz (lr_cgst_amount r) = 0 ∧ pz (lr_sgst_amount r) = 0;
  le_rate : at_scale 2 (lr_gst_rate r) (pz (lr_gst_rate r)) ∧ 0 <= pz (lr_gst_rate r) <= 2800;
}.

(** The accumulator after a line with result [r] and price [amt]. *)
Definition acc_add (acc : cart_acc) (amt : decimal) (r : LineTaxResult) : cart_acc :=
  let en := lr_gst_enabled r in
  let inc := lr_gst_inclusive r in
  let add b x y := if b : bool then dadd x y else x in
  {| inclusive_sub := add (en && inc) (inclusive_sub acc) amt;
     exclusive_sub := add (en && negb inc) (exclusive_sub acc) amt;
     nongst_sub := add (negb en) (nongst_sub acc) amt;
     cgst_total := add en (cgst_total acc) (lr_cgst_amount r);
     sgst_total := add en (sgst_total acc) (lr_sgst_amount r);
     exclusive_tax := add (en && negb inc) (exclusive_tax acc) (dadd (lr_cgst_amount r) (lr_sgst_amount r));
     taxable_total := add en (taxable_total acc) (lr_taxable_amount r);
     acc_grand := dadd (acc_grand acc) (lr_final_price r);
     line_results := line_results acc ++ [r] |}.

(** GST on top of a price of [b] paise at [r] hundredths of a percent. *)
Lemma exclusive_tax_spec x b r rate :
  at_scale 2 x b → at_scale 2 rate r → 0 <= r <= 10000 → 0 <= b < money_bound →
  ∃ tax, ddiv (dmul x rate) (d_int 100) = Ok tax ∧
         pz tax = round_div ROUND_HALF_UP (b * r) 10000 ∧ 0 <= pz tax <= b.
Proof.
  intros Hx Hr Hrb Hb.
  pose proof (dmul_at_scale 2 2 _ _ b r Hx Hr ltac:(fits_tac)) as Hm.
  destruct (ddiv_pow10 4 2 _ _ ltac:(lia) Hm) as (tax & Htax & Hs);
    [fits_tac|apply fix_prec_fits|].
  exists tax. split; [exact Htax|].
  assert (pz tax = round_div ROUND_HALF_UP (b * r) 10000) as E.
  { unfold pz, rescale. unfold at_scale in Hs. change (4 + 2) with 6 in Hs.
    destruct (Z.leb_spec (-2) (dexp tax)).
    - rewrite Z.max_r, Z.max_l, Z.mul_1_r in Hs by lia. rewrite <-Hs.
      replace (dexp tax + 6) with ((dexp tax - -2) + 4) by lia. rewrite pow10_split by lia.
      change 10000 with (10 ^ 4). rewrite Z.mul_assoc. by rewrite round_div_exact.
    - destruct (Z.le_gt_cases 0 (dexp tax + 6)).
      + rewrite Z.max_r, Z.max_l, Z.mul_1_r in Hs by lia. rewrite <-Hs.
        change 10000 with (10 ^ 4).
        replace (10 ^ 4) with (10 ^ (-2 - dexp tax) * 10 ^ (dexp tax + 6))
          by (rewrite <-pow10_split by lia; f_equal; lia).
        rewrite round_div_scale by p10. done.
      + rewrite Z.max_l, Z.max_r, Z.mul_1_r in Hs by lia. rewrite Hs.
        replace (10 ^ (-2 - dexp tax)) with (10 ^ 4 * 10 ^ (- (dexp tax + 6)))
          by (rewrite <-pow10_split by lia; f_equal; lia).
        rewrite round_div_scale by p10. done. }
  split; [done|]. rewrite E.
  pose proof (round_div_error ROUND_HALF_UP (b * r) 10000 ltac:(lia)).
  pose proof (round_div_nonneg ROUND_HALF_UP (b * r) 10000 ltac:(lia) ltac:(nia)).
  destruct (Z.eq_dec b 0) as [->|]; [rewrite Z.mul_0_l, round_div_0 by lia; lia|]. nia.
Qed.

(** The taxable part of a tax-inclusive price. *)
Lemma inclusive_taxable_spec b r rate :
  at_scale 2 rate r → 0 <= r <= 2800 → 0 <= b < money_bound →
  ∃ divisor raw, ddiv (dadd (d_int 100) rate) (d_int 100) = Ok divisor ∧
    ddiv (Dec b (-2)) divisor = Ok raw ∧ _q raw = Ok (Dec (pz raw) (-2)) ∧
    0 <= pz raw <= 4 * b + 1 ∧ (b = 0 → pz raw = 0).
Proof.
  intros Hr Hrb Hb.
  pose proof (dadd_at_scale 2 _ _ 10000 r (at_scale_int 2 100 ltac:(lia)) Hr ltac:(fits_tac)) as Hsum.
  destruct (ddiv_pow10 2 2 _ _ ltac:(lia) Hsum) as (div & Hdiv & Hs); [fits_tac|apply fix_prec_fits|].
  change (2 + 2) with 4 in Hs. set (l := Z.max 0 (Z.max 4 (- dexp div))).
  rewrite (at_scale_shift 4 div (10000 + r) l) in Hs by lia.
  destruct (ddiv_ge1_bound ROUND_HALF_UP (Dec b (-2)) div 2 l) as (raw & Hraw & Hc & Hub);
    cbn [coef dexp]; [lia| |lia| |lia|lia|].
  { pose proof (pow10_pos (dexp div + l) ltac:(lia)). pose proof (pow10_pos (l - 4) ltac:(lia)). nia. }
  { rewrite Hs. replace l with (4 + (l - 4)) at 1 by lia. rewrite pow10_split by lia.
    apply Z.mul_le_mono_nonneg_r; [p10|]. change (10 ^ 4) with 10000. lia. }
  assert (0 <= pz raw) as H0 by exact (rescale_nonneg ROUND_HALF_UP (-2) raw Hc).
  assert (pz raw <= 4 * (b * 1) + 1) as Hub' by exact Hub. clear Hub.
  exists div, raw. split; [done|]. split; [done|]. split; [|split; [lia|]].
  - apply q_Ok. split; [done|]. fits_tac.
  - intros ->. unfold ddiv in Hraw. cbn [coef dexp] in Hraw.
    destruct (coef div =? 0); [done|]. injection Hraw as <-.
    by apply pz_at_scale, at_scale_zero.
Qed.

Definition clamp_rate (r : Z) : Z := Z.min 2800 (Z.max r 0).

Lemma clamped_rate rate r :
  at_scale 2 rate r →
  at_scale 2 (if dltb _MAX_RATE (dmax rate d_zero) then _MAX_RATE else dmax rate d_zero) (clamp_rate r).
Proof.
  intros Hr. assert (at_scale 2 _MAX_RATE 2800) as Hmax by done.
  pose proof (dmax_at_scale 2 rate d_zero r 0 Hr (proj2 (at_scale_zero 2 d_zero) eq_refl)) as Hm.
  rewrite (dltb_at_scale 2 _ _ _ _ Hmax Hm). unfold clamp_rate.
  destruct (Z.ltb_spec 2800 (Z.max r 0)); [by rewrite Z.min_l by lia|by rewrite Z.min_r by lia].
Qed.

(** The receipt line of the goal is the one the loop appended. *)
Ltac exists_line :=
  match goal with |- context [line_results _ ++ [?lr]] => exists lr end.

Ltac line_fields := first
  [ rewrite !pz_paise; lia | rewrite pz_paise; change (pz d_zero) with 0; lia | apply at_scale_paise | by rewrite ?pz_paise | fits_tac ].

(** Every line succeeds, says what [line_spec] says, and adds [acc_add]. *)
Lemma cart_line_spec se acc line amt d n a r :
  at_scale 2 amt n → at_scale 2 d a → 0 <= a <= n → n < money_bound →
  at_scale 2 (it_gst_rate line) r →
  ∃ lr, cart_line se acc (line, amt, d) = Ok (acc_add acc amt lr) ∧
        line_spec n a lr ∧ line_exact (n - a) lr ∧
        lr_gst_enabled lr = it_gst_enabled line && se && (0 <? r) ∧
        (lr_gst_enabled lr = true → lr_gst_inclusive lr = it_gst_inclusive line) ∧
        (lr_gst_enabled lr = true → it_gst_inclusive line = false →
         pz (lr_total_tax lr) = round_div ROUND_HALF_UP ((n - a) * clamp_rate r) 10000) ∧
        (lr_gst_enabled lr = true → pz (lr_gst_rate lr) = clamp_rate r).
Proof.
  intros Hamt Hd Ha Hn Hr. unfold cart_line.
  pose proof (clamped_rate _ _ Hr) as Hrate.
  set (rate := if dltb _MAX_RATE _ then _ else _) in *.
  rewrite (dpos_at_scale 2 rate _ Hrate).
  assert ((0 <? clamp_rate r) = (0 <? r)) as ->.
  { unfold clamp_rate. destruct (Z.ltb_spec 0 r), (Z.ltb_spec 0 (Z.min 2800 (Z.max r 0))); lia. }
  assert (0 <= clamp_rate r <= 2800) as Hcl by (unfold clamp_rate; lia).
  pose proof (dsub_at_scale 2 amt d n a Hamt Hd ltac:(fits_tac)) as Hbasis.
  rewrite (q_at_scale _ _ Hbasis), (q_at_scale _ _ Hamt), (q_at_scale _ _ Hd), (q_at_scale _ _ Hrate)
    by fits_tac.
  set (b := n - a) in *. assert (0 <= b < money_bound) as Hb by lia.
  set (en := it_gst_enabled line && se && (0 <? r)).
  destruct en eqn:Hen; cbn [mbind res_bind negb].
  2: { exists_line. split; [reflexivity|]. cbn. split; [split; cbn; line_fields|].
    split; [split; cbn; line_fields|]. done. }
  destruct (it_gst_inclusive line) eqn:Hinc.
  - destruct (inclusive_taxable_spec b _ rate Hrate Hcl Hb) as (dv & raw & -> & Hraw & Hq & Hraw0 & Hraw1).
    cbn [mbind res_bind]. rewrite Hraw. cbn [mbind res_bind]. rewrite Hq. cbn [mbind res_bind].
    set (t := pz raw) in *.
    pose proof (dsub_at_scale 2 _ _ b t (at_scale_paise b) (at_scale_paise t) ltac:(fits_tac)) as Ht.
    rewrite (split_tax_spec _ (b - t)) by (first [by apply pz_at_scale|fits_tac]).
    cbn [mbind res_bind]. set (c := (b - t) / 2).
    pose proof (floor_div_bounds (b - t) 2 ltac:(lia)) as Hc. fold c in Hc.
    pose proof (dadd_at_scale 2 _ _ c (b - t - c) (at_scale_paise c) (at_scale_paise _) ltac:(fits_tac)) as Hs.
    rewrite (q_at_scale _ _ Hs) by fits_tac. cbn [mbind res_bind].
    exists_line. split; [reflexivity|]. cbn.
    split; [split; cbn; line_fields|]. split; [split; cbn; line_fields|].
    split_and!; try done. intros _. apply pz_paise.
  - destruct (exclusive_tax_spec _ b _ rate (at_scale_paise b) Hrate ltac:(lia) Hb) as (tax & -> & Htax & Htaxb).
    cbn [mbind res_bind]. set (t := pz tax) in *.
    rewrite (split_tax_spec _ t) by (first [done|fits_tac]).
    cbn [mbind res_bind]. set (c := t / 2).
    pose proof (floor_div_bounds t 2 ltac:(lia)) as Hc. fold c in Hc.
    pose proof (dadd_at_scale 2 _ _ c (t - c) (at_scale_paise c) (at_scale_paise _) ltac:(fits_tac)) as Hs.
    pose proof (dadd_at_scale 2 _ _ b c (at_scale_paise b) (at_scale_paise c) ltac:(fits_tac)) as Hs1.
    pose proof (dadd_at_scale 2 _ _ _ (t - c) Hs1 (at_scale_paise _) ltac:(fits_tac)) as Hs2.
    rewrite (q_at_scale _ _ Hs), (q_at_scale _ _ Hs2) by fits_tac. cbn [mbind res_bind].
    exists_line. split; [reflexivity|]. cbn.
    split; [split; cbn; line_fields|]. split; [split; cbn; line_fields|].
    split_and!; try done; intros _; [|apply pz_paise]. intros _. rewrite pz_paise. lia.
Qed.

(** ** The whole cart *)

(** A line the loop produced: some discount share, [line_spec], [line_exact]. *)
Definition line_ok (r : LineTaxResult) : Prop :=
  let n := pz (lr_line_total r) in
  0 <= n ∧ ∃ a, 0 <= a <= n ∧ line_spec n a r ∧ line_exact (n - a) r.

Definition paise_sum (f : LineTaxResult → Z) (rs : list LineTaxResult) : Z := zsum (map f rs).

Lemma paise_sum_app f rs r : paise_sum f (rs ++ [r]) = paise_sum f rs + f r.
Proof. unfold paise_sum. rewrite map_app, zsum_app. cbn. lia. Qed.

Definition total_of (r : LineTaxResult) : Z := pz (lr_line_total r).
Definition total_when (b : LineTaxResult → bool) (r : LineTaxResult) : Z :=
  if b r then pz (lr_line_total r) else 0.
Definition is_inclusive (r : LineTaxResult) : bool := lr_gst_enabled r && lr_gst_inclusive r.
Definition is_exclusive (r : LineTaxResult) : bool := lr_gst_enabled r && negb (lr_gst_inclusive r).
Definition is_nongst (r : LineTaxResult) : bool := negb (lr_gst_enabled r).
Definition paise_when (f : LineTaxResult → decimal) (r : LineTaxResult) : Z :=
  if lr_gst_enabled r then pz (f r) else 0.

(** What the running totals are after the lines [rs]. *)
Record acc_inv (acc : cart_acc) (rs : list LineTaxResult) : Prop := {
  ai_inclusive : at_scale 2 (inclusive_sub acc) (paise_sum (total_when is_inclusive) rs);
  ai_exclusive : at_scale 2 (exclusive_sub acc) (paise_sum (total_when is_exclusive) rs);
  ai_nongst : at_scale 2 (nongst_sub acc) (paise_sum (total_when is_nongst) rs);
  ai_cgst : at_scale 2 (cgst_total acc) (paise_sum (paise_when lr_cgst_amount) rs);
  ai_sgst : at_scale 2 (sgst_total acc) (paise_sum (paise_when lr_sgst_amount) rs);
  ai_excl_tax : at_scale 2 (exclusive_tax acc) (paise_sum exclusive_tax_of rs);
  ai_taxable : at_scale 2 (taxable_total acc) (paise_sum (paise_when lr_taxable_amount) rs);
  ai_grand : at_scale 2 (acc_grand acc) (paise_sum (pz ∘ lr_final_price) rs);
  ai_lines : line_results acc = rs;
}.

(** Every summed amount of a line is at most five times its price. *)
Definition small (f : LineTaxResult → Z) : Prop :=
  ∀ r, line_ok r → Z.abs (f r) <= 5 * total_of r.

Ltac case_goal := match goal with |- context [if ?b then _ else _] => destruct b eqn:? end.

Lemma line_ok_small :
  small (total_when is_inclusive) ∧ small (total_when is_exclusive) ∧
  small (total_when is_nongst) ∧ small (paise_when lr_cgst_amount) ∧
  small (paise_when lr_sgst_amount) ∧ small exclusive_tax_of ∧
  small (paise_when lr_taxable_amount) ∧ small (pz ∘ lr_final_price).
Proof.
  repeat split; intros r (Hn & a & Ha & [_ _ H1 H2 H3 H4] & [_ _ _ _ H5 H6]);
    unfold total_of, total_when, paise_when, compose;
    set (n := pz (lr_line_total r)) in *.
  1,2,3: case_goal; lia.
  1,2: case_goal; lia.
  - lia.
  - case_goal; [|lia]. rewrite H4. destruct (lr_gst_inclusive r); lia.
  - lia.
Qed.

Lemma paise_sum_small f rs :
  small f → Forall line_ok rs → Z.abs (paise_sum f rs) <= 5 * paise_sum total_of rs.
Proof.
  intros Hf. unfold paise_sum. induction 1 as [|r rs Hr _ IH]; [done|].
  cbn [map]. rewrite !zsum_cons. pose proof (Hf r Hr). lia.
Qed.

Lemma paise_total_nonneg rs : Forall line_ok rs → 0 <= paise_sum total_of rs.
Proof.
  intros H. apply zsum_nonneg, Forall_map. eapply Forall_impl; [exact H|]. by intros r [? _].
Qed.

Lemma sum_fits f rs :
  small f → Forall line_ok rs → paise_sum total_of rs < money_bound → fits (paise_sum f rs).
Proof.
  intros Hf Hrs Hb. pose proof (paise_sum_small f rs Hf Hrs). fits_tac.
Qed.

(** Adding a paise amount to a running total. *)
Lemma add_when f rs r x d (b : bool) :
  small f → Forall line_ok rs → line_ok r → paise_sum total_of (rs ++ [r]) < money_bound →
  at_scale 2 x (paise_sum f rs) → (b = true → at_scale 2 d (f r)) → (b = false → f r = 0) →
  at_scale 2 (if b then dadd x d else x) (paise_sum f (rs ++ [r])).
Proof.
  intros Hf Hrs Hr Hb Hx H1 H0. rewrite paise_sum_app. destruct b.
  - apply dadd_at_scale; [done|by apply H1|].
    rewrite <-paise_sum_app. apply sum_fits; [done|by apply Forall_app_2; [|constructor]|done].
  - rewrite H0, Z.add_0_r by done. done.
Qed.

Lemma acc_inv_add acc rs amt r :
  acc_inv acc rs → Forall line_ok rs → line_ok r → at_scale 2 amt (total_of r) →
  paise_sum total_of (rs ++ [r]) < money_bound →
  acc_inv (acc_add acc amt r) (rs ++ [r]).
Proof.
  intros [] Hrs Hr Hamt Hb. pose proof Hr as (_ & a & Ha & [_ _ Htax _ _ _] & [Hc Hs Ht Hf _ Hx]).
  destruct line_ok_small as (S1 & S2 & S3 & S4 & S5 & S6 & S7 & S8).
  split; cbn [acc_add inclusive_sub exclusive_sub nongst_sub cgst_total sgst_total exclusive_tax
    taxable_total acc_grand line_results].
  1,2,3: apply add_when; try done; unfold total_when, is_inclusive, is_exclusive, is_nongst; by intros ->.
  1,2: apply add_when; try done; unfold paise_when; by intros ->.
  - apply add_when; try done; unfold exclusive_tax_of; intros E; rewrite E; [|done].
    rewrite <-Htax. apply dadd_at_scale; [done|done|]. unfold exclusive_tax_of in Hx.
    rewrite E in Hx. pose proof (paise_total_nonneg rs Hrs) as H0.
    rewrite paise_sum_app in Hb. unfold total_of in *. fits_tac.
  - apply add_when; try done; unfold paise_when; by intros ->.
  - apply (add_when (pz ∘ lr_final_price) rs r (acc_grand acc) (lr_final_price r) true); try done.
  - by subst.
Qed.

(** The prices [ns] of the lines, in paise: totals and rates have at most two
    decimals, negative totals count as zero, and the whole cart is below
    [money_bound]. *)
Definition line_input (l : ItemTaxLine) (n : Z) : Prop :=
  (∃ m, at_scale 2 (it_line_total l) m ∧ n = Z.max m 0) ∧ ∃ r, at_scale 2 (it_gst_rate l) r.

Definition cart_input (lines : list ItemTaxLine) (ns : list Z) : Prop :=
  Forall2 line_input lines ns ∧ zsum ns < money_bound.

(** The result line of a cart line with price [n] and discount share [a]. *)
Definition line_means (store_enabled : bool) (lna : ItemTaxLine * Z * Z) (r : LineTaxResult) : Prop :=
  let '(l, n, a) := lna in
  line_spec n a r ∧ 0 <= a <= n ∧
  (∃ rate, at_scale 2 (it_gst_rate l) rate ∧
     lr_gst_enabled r = it_gst_enabled l && store_enabled && (0 <? rate) ∧
     (is_exclusive r = true →
      pz (lr_total_tax r) = round_div ROUND_HALF_UP ((n - a) * clamp_rate rate) 10000) ∧
     (lr_gst_enabled r = true → pz (lr_gst_rate r) = clamp_rate rate)) ∧
  (lr_gst_enabled r = true → lr_gst_inclusive r = it_gst_inclusive l).

Lemma line_input_base l n : line_input l n → at_scale 2 (dmax (it_line_total l) d_zero) n ∧ 0 <= n.
Proof.
  intros [(m & Hm & ->) _]. split; [|lia].
  apply (dmax_at_scale 2 _ _ m 0 Hm (proj2 (at_scale_zero 2 d_zero) eq_refl)).
Qed.

Lemma cart_line_ok se acc l amt d n a rs :
  line_input l n → at_scale 2 amt n → at_scale 2 d a → 0 <= a <= n →
  acc_inv acc rs → Forall line_ok rs → paise_sum total_of rs + n < money_bound →
  ∃ r, cart_line se acc (l, amt, d) = Ok (acc_add acc amt r) ∧
       acc_inv (acc_add acc amt r) (rs ++ [r]) ∧ line_ok r ∧ total_of r = n ∧
       line_means se (l, n, a) r.
Proof.
  intros [_ (rate & Hrate)] Hamt Hd Ha Hinv Hrs Hb.
  pose proof (paise_total_nonneg rs Hrs) as H0.
  destruct (cart_line_spec se acc l amt d n a rate) as (r & -> & Hspec & Hexact & He & Hi & Ht & Hrt);
    [done..|lia|done|].
  pose proof (ls_total _ _ _ Hspec) as Hn.
  assert (line_ok r) as Hok.
  { unfold line_ok. rewrite Hn. split; [lia|]. exists a. done. }
  exists r. split; [done|]. split; [|split; [done|split; [exact Hn|]]].
  - apply acc_inv_add; try done; [unfold total_of; by rewrite Hn|].
    rewrite paise_sum_app. unfold total_of at 2. lia.
  - cbn. split; [done|]. split; [done|]. split; [|done]. exists rate. split; [done|].
    split; [done|]. split; [|exact Hrt]. unfold is_exclusive. intros [He1 He2]%andb_true_iff.
    apply Ht; [done|]. apply negb_true_iff in He2. rewrite <-Hi; done.
Qed.

Lemma cart_loop se lines ns bases ds shares :
  Forall2 line_input lines ns → Forall2 (at_scale 2) bases ns → Forall2 (at_scale 2) ds shares →
  Forall2 (λ n s, 0 <= s <= n) ns shares → ∀ acc rs,
  acc_inv acc rs → Forall line_ok rs → paise_sum total_of rs + zsum ns < money_bound →
  ∃ acc' rs', res_foldl (cart_line se) acc (zip (zip lines bases) ds) = Ok acc' ∧
    acc_inv acc' (rs ++ rs') ∧ Forall line_ok (rs ++ rs') ∧ map total_of rs' = ns ∧
    Forall2 (line_means se) (zip (zip lines ns) shares) rs'.
Proof.
  intros Hl. revert bases ds shares. induction Hl as [|l n lines ns Hln Hl IH];
    intros bases ds shares Hb Hd Hs acc rs Hinv Hrs Hlt.
  { inversion Hs; subst. inversion Hb; subst. exists acc, []. rewrite !app_nil_r.
    do 4 (split; [done|]). constructor. }
  inversion Hs as [|? a ? shares' Ha Hs']; subst. inversion Hb as [|amt ? bases' ? Hamt Hb']; subst.
  inversion Hd as [|d ? ds' ? Hda Hd']; subst. rewrite zsum_cons in Hlt. cbn [zip zip_with res_foldl].
  assert (0 <= zsum ns) as H0.
  { apply zsum_nonneg. clear -Hl. induction Hl; constructor; [|done]. by eapply line_input_base. }
  destruct (cart_line_ok se acc l amt d n a rs) as (r & -> & Hinv' & Hok & Ht & Hm); [done..|lia|].
  cbn [mbind res_bind].
  destruct (IH bases' ds' shares' Hb' Hd' Hs' _ _ Hinv') as (acc' & rs' & Heq & Hinv'' & Hok' & Hts & Hms).
  { by apply Forall_app_2; [|constructor]. }
  { rewrite paise_sum_app. lia. }
  exists acc', (r :: rs'). rewrite <-app_assoc in *. split; [done|]. split; [done|]. split; [done|].
  split; [cbn; by rewrite Ht, Hts|]. by constructor.
Qed.

Lemma dmax_zero_nonneg d : 0 <= coef (dmax d d_zero).
Proof.
  unfold dmax. destruct (dltb d d_zero) eqn:E; [done|]. set (s := Z.max 0 (- dexp d)).
  rewrite (dltb_at_scale s d d_zero _ 0 (at_scale_fine s d ltac:(lia)) (proj2 (at_scale_zero s d_zero) eq_refl)) in E.
  apply Z.ltb_ge in E. pose proof (pow10_pos (dexp d + s) ltac:(lia)). nia.
Qed.

(** The discount the cart applies is at most its subtotal. *)
Lemma clamped_discount sub T x :
  at_scale 2 sub T → 0 <= T < money_bound → 0 <= coef x →
  ∃ D, _q (if dltb sub x then sub else x) = Ok (Dec D (-2)) ∧ 0 <= D <= T.
Proof.
  intros Hsub HT Hx. destruct (dltb sub x) eqn:E.
  - exists T. split; [|lia]. apply q_at_scale; [done|]. fits_tac.
  - exists (pz x). assert (pz x <= T) as H1.
    { rewrite <-(pz_at_scale sub T Hsub). apply (rescale_mono 2); done. }
    assert (0 <= pz x) as H0 by exact (rescale_nonneg _ _ _ Hx).
    split; [|lia]. apply q_Ok. split; [done|]. fits_tac.
Qed.

(** The grand total, rounded to the rupee or not. *)
Definition rounded_total (round_to_rupee : bool) (g : Z) : Z :=
  if round_to_rupee then 100 * round_div ROUND_HALF_UP g 100 else g.

Lemma rounded_total_error rr g : 2 * Z.abs (rounded_total rr g - g) <= 100.
Proof.
  unfold rounded_total. destruct rr; [|lia]. pose proof (round_div_error ROUND_HALF_UP g 100). lia.
Qed.

Lemma round_rupee_spec rr g :
  fits (10 * g) → ∃ a b, round_rupee rr (Dec g (-2)) = Ok (a, b) ∧
    at_scale 2 a (rounded_total rr g) ∧ at_scale 2 b (rounded_total rr g - g).
Proof.
  intros Hg. pose proof (rounded_total_error rr g) as He.
  unfold round_rupee, rounded_total in *. destruct rr.
  - set (m := round_div ROUND_HALF_UP g 100) in *.
    assert (quantize ROUND_HALF_UP 0 (Dec g (-2)) = Ok (Dec m 0)) as ->.
    { apply quantize_Ok. split; [done|]. change (rescale ROUND_HALF_UP 0 (Dec g (-2))) with m.
      clearbody m. fits_tac. }
    cbn [mbind res_bind]. do 2 eexists. split; [reflexivity|].
    assert (at_scale 2 (Dec m 0) (100 * m)) as Hm.
    { change (m * 100 = 100 * m * 1). ring. }
    split; [exact Hm|]. apply dsub_at_scale; [exact Hm|apply at_scale_paise|]. clearbody m. fits_tac.
  - do 2 eexists. split; [reflexivity|]. split; [apply at_scale_paise|].
    rewrite Z.sub_diag. by apply at_scale_zero.
Qed.

(** What a computed cart says about prices [ns], in paise. *)
Record cart_bill (lines : list ItemTaxLine) (ns : list Z) (config : TaxConfig) (rr : bool)
    (b : CartTaxBreakdown) : Prop := {
  cb_subtotal : pz (ct_subtotal b) = zsum ns;
  cb_inclusive : pz (ct_inclusive_subtotal b) = paise_sum (total_when is_inclusive) (ct_lines b);
  cb_exclusive : pz (ct_exclusive_subtotal b) = paise_sum (total_when is_exclusive) (ct_lines b);
  cb_nongst : pz (ct_nongst_subtotal b) = paise_sum (total_when is_nongst) (ct_lines b);
  cb_taxable : pz (ct_taxable_amount b) = paise_sum (paise_when lr_taxable_amount) (ct_lines b);
  cb_cgst : pz (ct_cgst_amount b) = paise_sum (paise_when lr_cgst_amount) (ct_lines b);
  cb_sgst : pz (ct_sgst_amount b) = paise_sum (paise_when lr_sgst_amount) (ct_lines b);
  cb_tax : pz (ct_total_tax b) = pz (ct_cgst_amount b) + pz (ct_sgst_amount b);
  cb_grand : pz (ct_grand_total b) = rounded_total rr (paise_sum (pz ∘ lr_final_price) (ct_lines b));
  cb_round : pz (ct_round_off b)
    = pz (ct_grand_total b) - paise_sum (pz ∘ lr_final_price) (ct_lines b);
  cb_discount : 0 <= pz (ct_discount_amount b) <= zsum ns;
  cb_totals : map total_of (ct_lines b) = ns;
  cb_lines : ∃ shares, zsum shares = pz (ct_discount_amount b) ∧ length shares = length ns ∧
    Forall2 (line_means (gst_enabled config)) (zip (zip lines ns) shares) (ct_lines b);
  cb_number : ct_gst_number b = if gst_enabled config then gst_number config else None;
  cb_ok : Forall line_ok (ct_lines b);
  cb_exact : Forall (λ d, at_scale 2 d (pz d)) [ct_subtotal b; ct_discount_amount b; ct_taxable_amount b;
    ct_cgst_amount b; ct_sgst_amount b; ct_total_tax b; ct_grand_total b; ct_round_off b];
}.

Lemma empty_inv : acc_inv empty_acc [].
Proof. split; try done; by apply at_scale_zero. Qed.

Lemma cart_spec lines ns discount config rr :
  cart_input lines ns →
  ∃ b, compute_cart_tax lines discount config rr = Ok b ∧ cart_bill lines ns config rr b.
Proof.
  intros [Hl Hlt]. unfold compute_cart_tax.
  set (bases := map _ lines).
  assert (Forall2 (at_scale 2) bases ns ∧ Forall (λ n, 0 <= n) ns) as [Hb Hnn].
  { subst bases. clear -Hl. induction Hl as [|l n lines ns H _ [IH1 IH2]]; cbn; [by repeat constructor|].
    apply line_input_base in H as []. by repeat constructor. }
  pose proof (zsum_nonneg ns Hnn) as H0.
  pose proof (dsum_at_scale 2 bases ns Hb Hnn ltac:(fits_tac)) as Hsub.
  destruct (clamped_discount (dsum bases) (zsum ns) _ Hsub (conj H0 Hlt) (dmax_zero_nonneg (_to_decimal discount d_zero)))
    as (D & -> & HD). cbn [mbind res_bind].
  destruct (allocate_discount_paise bases ns (Dec D (-2)) D) as (ds & shares & -> & Hds & Hsum & Hsh);
    [|apply at_scale_paise|done|].
  { split; [done|]. split; [|done]. apply Forall_forall. intros n Hn.
    pose proof (proj1 (Forall_forall _ _) Hnn n Hn) as Hn0. cbn beta in Hn0.
    pose proof (zsum_elem ns n Hnn Hn). lia. }
  cbn [mbind res_bind].
  destruct (cart_loop (gst_enabled config) lines ns bases ds shares Hl Hb Hds Hsh empty_acc [] empty_inv)
    as (acc & rs & -> & Hinv & Hok & Hts & Hms); [constructor|cbn; lia|].
  cbn [mbind res_bind app] in *. destruct Hinv as [I1 I2 I3 I4 I5 I6 I7 I8 I9].
  assert (paise_sum total_of rs = zsum ns) as Ht by (unfold paise_sum; by rewrite Hts).
  assert (paise_sum total_of rs < money_bound) as Hlt' by lia.
  destruct line_ok_small as (S1 & S2 & S3 & S4 & S5 & S6 & S7 & S8).
  pose proof (paise_sum_small _ rs S4 Hok) as B4. pose proof (paise_sum_small _ rs S5 Hok) as B5.
  pose proof (paise_sum_small _ rs S8 Hok) as B8.
  rewrite (q_at_scale _ _ I8) by (by apply sum_fits). cbn [mbind res_bind].
  destruct (round_rupee_spec rr (paise_sum (pz ∘ lr_final_price) rs)) as (g & off & -> & Hg & Hoff);
    [fits_tac|]. cbn [mbind res_bind fst snd].
  pose proof (rounded_total_error rr (paise_sum (pz ∘ lr_final_price) rs)) as Herr.
  rewrite (q_at_scale _ _ Hsub) by fits_tac. cbn [mbind res_bind].
  rewrite (q_at_scale _ _ I1), (q_at_scale _ _ I2), (q_at_scale _ _ I3), (q_at_scale _ _ I7),
    (q_at_scale _ _ I4), (q_at_scale _ _ I5) by (by apply sum_fits).
  cbn [mbind res_bind].
  pose proof (dadd_at_scale 2 _ _ _ _ I4 I5 ltac:(fits_tac)) as Htax.
  rewrite (q_at_scale _ _ Htax) by fits_tac. cbn [mbind res_bind].
  rewrite (q_at_scale _ _ Hoff) by fits_tac. cbn [mbind res_bind].
  eexists. split; [reflexivity|]. rewrite I9.
  split; cbn [ct_subtotal ct_inclusive_subtotal ct_exclusive_subtotal ct_nongst_subtotal
    ct_discount_amount ct_taxable_amount ct_cgst_amount ct_sgst_amount ct_total_tax ct_grand_total
    ct_round_off ct_lines]; rewrite ?pz_paise; try done.
  - by rewrite (pz_at_scale g _ Hg).
  - by rewrite (pz_at_scale g _ Hg).
  - exists shares. split; [done|]. split; [|done]. symmetry. by eapply Forall2_length.
  - repeat constructor; rewrite ?pz_paise; try apply at_scale_paise. by rewrite (pz_at_scale g _ Hg).
Qed.

(** A discount in whole paise is applied as asked, within the cart. *)
Lemma cart_discount_applied lines ns discount config rr n b :
  cart_input lines ns → at_scale 2 (_to_decimal discount d_zero) n →
  compute_cart_tax lines discount config rr = Ok b → pz (ct_discount_amount b) = Z.min (Z.max n 0) (zsum ns).
Proof.
  intros [Hl Hlt] Hn. unfold compute_cart_tax. set (bases := map _ lines).
  assert (Forall2 (at_scale 2) bases ns ∧ Forall (λ n, 0 <= n) ns) as [Hb Hnn].
  { subst bases. clear -Hl. induction Hl as [|l n lines ns H _ [IH1 IH2]]; cbn; [by repeat constructor|].
    apply line_input_base in H as []. by repeat constructor. }
  pose proof (zsum_nonneg ns Hnn) as H0.
  pose proof (dsum_at_scale 2 bases ns Hb Hnn ltac:(fits_tac)) as Hsub.
  pose proof (dmax_at_scale 2 _ d_zero n 0 Hn (proj2 (at_scale_zero 2 d_zero) eq_refl)) as Hd.
  rewrite (dltb_at_scale 2 _ _ _ _ Hsub Hd). intros H. inv_res. subst b. cbn [ct_discount_amount].
  apply q_Ok in Hy as [-> _]. rewrite pz_paise.
  destruct (Z.ltb_spec (zsum ns) (Z.max n 0)).
  - rewrite (pz_at_scale _ _ Hsub). lia.
  - rewrite (pz_at_scale _ _ Hd). lia.
Qed.

(** Final prices are prices less discount plus the tax added on top. *)
Lemma final_prices se lines ns shares rs :
  Forall2 (line_means se) (zip (zip lines ns) shares) rs → map total_of rs = ns →
  length lines = length ns → length shares = length ns →
  paise_sum (pz ∘ lr_final_price) rs = zsum ns - zsum shares + paise_sum exclusive_tax_of rs.
Proof.
  revert ns shares rs. induction lines as [|l lines IH]; intros ns shares rs H Ht Hn Hs;
    destruct ns as [|n ns]; try done; destruct shares as [|a shares]; try done.
  { inversion H. done. }
  cbn [zip zip_with] in H. inversion H as [|? r ? rs' Hr H']; subst; clear H. cbn in Ht, Hn, Hs.
  injection Ht as Hn1 Hns. injection Hn as Hn. injection Hs as Hs.
  unfold paise_sum in *. cbn [map]. rewrite !zsum_cons. subst ns.
  rewrite (IH (map total_of rs') shares rs') by done.
  destruct Hr as ([_ _ _ _ Hf _] & _). unfold compose in *. rewrite Hf. unfold total_of. lia.
Qed.

Lemma parts_sum rs :
  paise_sum (total_when is_inclusive) rs + paise_sum (total_when is_exclusive) rs
    + paise_sum (total_when is_nongst) rs = zsum (map total_of rs).
Proof.
  unfold paise_sum. induction rs as [|r rs IH]; [done|]. cbn [map]. rewrite !zsum_cons.
  rewrite <-IH. unfold total_when, is_inclusive, is_exclusive, is_nongst, total_of.
  destruct (lr_gst_enabled r), (lr_gst_inclusive r); cbn; lia.
Qed.

(** C1: a cart of paise prices is always priced, and its totals balance to the
    paisa: the subtotal is the inclusive, exclusive and non-GST parts; the
    grand total is the subtotal less the discount plus the tax of the exclusive
    lines plus the rounding, which is zero when rounding is off and at most half
    a rupee, onto a whole rupee, when it is on. *)
Theorem cart_total_balances lines ns discount config rr :
  cart_input lines ns →
  ∃ b, compute_cart_tax lines discount config rr = Ok b ∧
    pz (ct_subtotal b) = zsum ns ∧
    pz (ct_subtotal b) = pz (ct_inclusive_subtotal b) + pz (ct_exclusive_subtotal b)
                         + pz (ct_nongst_subtotal b) ∧
    0 <= pz (ct_discount_amount b) <= pz (ct_subtotal b) ∧
    pz (ct_grand_total b) = pz (ct_subtotal b) - pz (ct_discount_amount b)
                            + paise_sum exclusive_tax_of (ct_lines b) + pz (ct_round_off b) ∧
    2 * Z.abs (pz (ct_round_off b)) <= 100 ∧
    (if rr then (100 | pz (ct_grand_total b)) else pz (ct_round_off b) = 0).
Proof.
  intros Hin. destruct (cart_spec lines ns discount config rr Hin) as (b & -> & []).
  exists b. split; [done|]. destruct cb_lines0 as (shares & Hsum & Hlen & Hms).
  pose proof (parts_sum (ct_lines b)) as Hparts. destruct Hin as [Hl%Forall2_length _].
  pose proof (rounded_total_error rr (paise_sum (pz ∘ lr_final_price) (ct_lines b))) as Herr.
  pose proof (final_prices _ _ _ _ _ Hms cb_totals0 Hl Hlen) as Hfin.
  rewrite cb_totals0 in Hparts. split; [done|]. split; [lia|]. split; [lia|].
  split; [lia|]. split; [lia|]. unfold rounded_total in *. destruct rr; [|lia].
  rewrite cb_grand0. apply Z.divide_factor_l.
Qed.

(** Every line of a priced cart says what its price, its discount share and
    its rate make of it (the shares add up to the discount applied; CGST and
    SGST add up to the line's tax and differ by at most the odd paisa; an
    exclusive line is taxed at the clamped rate, half up), and the cart's tax
    totals are the sums over the lines. *)
Theorem cart_lines_taxed lines ns discount config rr :
  cart_input lines ns →
  ∃ b shares, compute_cart_tax lines discount config rr = Ok b ∧
    zsum shares = pz (ct_discount_amount b) ∧ length shares = length lines ∧
    Forall2 (line_means (gst_enabled config)) (zip (zip lines ns) shares) (ct_lines b) ∧
    pz (ct_cgst_amount b) = paise_sum (paise_when lr_cgst_amount) (ct_lines b) ∧
    pz (ct_sgst_amount b) = paise_sum (paise_when lr_sgst_amount) (ct_lines b) ∧
    pz (ct_total_tax b) = pz (ct_cgst_amount b) + pz (ct_sgst_amount b) ∧
    pz (ct_taxable_amount b) = paise_sum (paise_when lr_taxable_amount) (ct_lines b).
Proof.
  intros Hin. destruct (cart_spec lines ns discount config rr Hin) as (b & -> & []).
  destruct cb_lines0 as (shares & Hsum & Hlen & Hms). exists b, shares.
  destruct Hin as [Hl%Forall2_length _]. repeat (split; [done || lia|]). done.
Qed.

(** The allocation splits a discount exactly: the shares are whole paise,
    none exceeds its line, and they add up to the discount. *)
Theorem discount_allocated_exactly amounts ns disc D :
  paise_list amounts ns → at_scale 2 disc D → 0 <= D <= zsum ns →
  ∃ ds shares, _allocate_discount amounts disc = Ok ds ∧ Forall2 (at_scale 2) ds shares ∧
    zsum shares = D ∧ Forall2 (λ n s, 0 <= s <= n) ns shares.
Proof. apply allocate_discount_paise. Qed.

Lemma clamped_discount_at_scale sub x N d :
  at_scale 2 sub N → at_scale 2 x d →
  at_scale 2 (if dltb sub x then sub else x) (Z.min N d).
Proof.
  intros Hs Hx. rewrite (dltb_at_scale 2 _ _ _ _ Hs Hx).
  destruct (Z.ltb_spec N d); [by rewrite Z.min_l by lia|by rewrite Z.min_r by lia].
Qed.

Lemma dmax_zero_at_scale x n : at_scale 2 x n → at_scale 2 (dmax x d_zero) (Z.max n 0).
Proof. intros H. by apply (dmax_at_scale 2 _ _ n 0 H), at_scale_zero. Qed.

(** One half of the GST of a bill with taxable amount [b]. *)
Definition bill_tax (config : TaxConfig) (b rate : Z) : Z :=
  if gst_enabled config then round_div ROUND_HALF_UP (b * Z.max rate 0) 10000 else 0.

Lemma percent_tax x b p r :
  at_scale 2 x b → at_scale 2 p r → 0 <= r <= 10000 → 0 <= b < money_bound →
  (y ← ddiv (dmul x p) (d_int 100); _q y) = Ok (Dec (round_div ROUND_HALF_UP (b * r) 10000) (-2)) ∧
  0 <= round_div ROUND_HALF_UP (b * r) 10000 <= b.
Proof.
  intros Hx Hp Hr Hb. destruct (exclusive_tax_spec x b r p Hx Hp Hr Hb) as (t & -> & Ht & Hbd).
  cbn [mbind res_bind]. rewrite Ht in Hbd. split; [|done]. apply q_Ok. rewrite Ht. split; [done|].
  clear -Hb Hbd. set (t' := round_div _ _ _) in *. clearbody t'. fits_tac.
Qed.

Ltac bill_fields := cbn [tb_subtotal tb_discount_amount tb_taxable_amount tb_cgst_amount
  tb_sgst_amount tb_total_tax tb_grand_total tb_round_off].

(** A bill priced exclusive of tax always succeeds; the discount is clamped
    between zero and the subtotal, each half of the GST is the rate on the
    discounted amount, half up, nothing is taxed when GST is off, and the grand
    total is the taxable amount plus the tax, rounded to the rupee on request
    with the difference kept as round-off. *)
Theorem compute_tax_exclusive sub disc n d c s config rr :
  at_scale 2 (_to_decimal sub d_zero) n → at_scale 2 (_to_decimal disc d_zero) d →
  at_scale 2 (cgst_percentage config) c → at_scale 2 (sgst_percentage config) s →
  n < money_bound → c <= 10000 → s <= 10000 → tax_inclusive config = false →
  let N := Z.max n 0 in
  let D := Z.min N (Z.max d 0) in
  let total := bill_tax config (N - D) c + bill_tax config (N - D) s in
  ∃ b, compute_tax sub disc config rr = Ok b ∧
    pz (tb_subtotal b) = N ∧ pz (tb_discount_amount b) = D ∧ pz (tb_taxable_amount b) = N - D ∧
    pz (tb_cgst_amount b) = bill_tax config (N - D) c ∧
    pz (tb_sgst_amount b) = bill_tax config (N - D) s ∧
    pz (tb_total_tax b) = total ∧
    pz (tb_grand_total b) = rounded_total (rr && gst_enabled config) (N - D + total) ∧
    pz (tb_round_off b) = pz (tb_grand_total b) - (N - D + total).
Proof.
  intros Hsub Hdisc Hc Hs Hn Hcb Hsb Hinc N D total. unfold compute_tax.
  apply dmax_zero_at_scale in Hsub, Hdisc, Hc, Hs. fold N in Hsub.
  pose proof (clamped_discount_at_scale _ _ _ _ Hsub Hdisc) as HD. fold D in HD.
  assert (0 <= D <= N ∧ 0 <= N < money_bound) as [HDb HNb] by (unfold money_bound in *; lia).
  pose proof (dsub_at_scale 2 _ _ _ _ Hsub HD ltac:(fits_tac)) as HB.
  subst total. clearbody D. clearbody N. unfold bill_tax.
  destruct (gst_enabled config); cbn [negb].
  2: { rewrite (q_at_scale _ _ HB), (q_at_scale _ _ Hsub), (q_at_scale _ _ HD) by fits_tac.
    cbn [mbind res_bind]. eexists. split; [reflexivity|]. rewrite andb_false_r. bill_fields.
    rewrite !pz_paise. assert (pz d_zero = 0) as -> by done. rewrite !Z.add_0_r. repeat split; lia. }
  rewrite Hinc. cbv iota. rewrite bind_Ok.
  assert (0 <= Z.max c 0 <= 10000 ∧ 0 <= Z.max s 0 <= 10000) as [Hc0 Hs0] by lia.
  assert (0 <= N - D < money_bound) as HNDb by (unfold money_bound in *; lia).
  destruct (percent_tax _ _ _ _ HB Hc Hc0 HNDb) as [Hct Hctb].
  destruct (percent_tax _ _ _ _ HB Hs Hs0 HNDb) as [Hst Hstb].
  rewrite Hct, bind_Ok, Hst, bind_Ok. clear Hct Hst.
  set (tc := round_div _ (_ * Z.max c 0) _) in *. set (ts := round_div _ (_ * Z.max s 0) _) in *.
  clearbody tc ts. rewrite andb_true_r.
  pose proof (dadd_at_scale 2 _ _ _ _ (at_scale_paise tc) (at_scale_paise ts) ltac:(fits_tac)) as Ht.
  pose proof (dadd_at_scale 2 _ _ _ _ HB Ht ltac:(fits_tac)) as Hg.
  rewrite (q_at_scale _ _ Hg), bind_Ok by fits_tac.
  destruct (round_rupee_spec rr (N - D + (tc + ts))) as (g & off & -> & Hgr & Hoff); [fits_tac|].
  pose proof (rounded_total_error rr (N - D + (tc + ts))) as Herr.
  rewrite bind_Ok. cbn [fst snd].
  pose proof (dadd_at_scale 2 _ _ _ _ Hc Hs ltac:(fits_tac)) as Hp.
  rewrite (q_at_scale _ _ Hsub), (q_at_scale _ _ HD), (q_at_scale _ _ HB), (q_at_scale _ _ Hp),
    (q_at_scale _ _ Hc), (q_at_scale _ _ Hs), (q_at_scale _ _ Ht), (q_at_scale _ _ Hoff) by fits_tac.
  rewrite !bind_Ok. eexists. split; [reflexivity|]. bill_fields.
  rewrite !pz_paise, (pz_at_scale _ _ Hgr). lia.
Qed.

(** ** Settings validation *)

Lemma validate_gst_number_Ok v n :
  validate_gst_number (Some v) = Ok (Some n) →
  n = upper (strip v) ∧ str_len n = _GSTIN_LEN ∧ isalnum n = true.
Proof.
  cbn. case_decide; [done|]. intros Hv. apply res_bind_Ok in Hv as ([] & H1 & H2).
  apply raise_if_Ok, orb_false_iff in H1 as [H3 H4]. injection H2 as <-.
  apply negb_false_iff in H3, H4. by apply Z.eqb_eq in H3.
Qed.

Lemma validate_rate_Ok name x y :
  validate_rate name x = Ok y →
  match x with
  | Some (Some raw) =>
      dltb (_to_decimal raw d_zero) d_zero = false ∧ dltb _MAX_RATE (_to_decimal raw d_zero) = false ∧
      y = Some (Some (py_float (_to_decimal raw d_zero)))
  | _ => y = x
  end.
Proof.
  destruct x as [[raw|]|]; cbn; [|by intros [=]..]. intros H.
  apply res_bind_Ok in H as ([] & H1 & [= <-]). apply raise_if_Ok, orb_false_iff in H1 as [H3 H4].
  done.
Qed.

(** A rate the settings accept: absent, or a number between 0 and 28 (the
    clauses are the comparisons of the decimals). *)
Definition rate_in_slab (x : field pyval) : Prop :=
  ∀ raw, x = Some (Some raw) → dltb (_to_decimal raw d_zero) d_zero = false ∧
                               dltb _MAX_RATE (_to_decimal raw d_zero) = false.

Lemma validate_rate_in_slab name x y : validate_rate name x = Ok y → rate_in_slab x.
Proof. intros H%validate_rate_Ok raw ->. tauto. Qed.

(** An accepted GST patch stores a number that is empty or fifteen upper-case
    alphanumerics, was given rates between 0 and 28 only, keeps
    |gst - (cgst + sgst)| within a hundredth whenever all three are present
    afterwards, and never leaves GST switched on without a number. *)
Theorem gst_patch_accepted patch existing r :
  validate_gst_settings_patch patch existing = Ok r →
  (∀ n, p_gst_number r = Some (Some n) → str_len n = _GSTIN_LEN ∧ isalnum n = true ∧ upper n = n) ∧
  rate_in_slab (p_gst_percentage patch) ∧ rate_in_slab (p_cgst_percentage patch) ∧
  rate_in_slab (p_sgst_percentage patch) ∧
  (∀ g c s, field_get (p_gst_percentage r) = Some g → field_get (p_cgst_percentage r) = Some c →
     field_get (p_sgst_percentage r) = Some s →
     dltb (Dec 1 (-2)) (dabs (dsub (rate_dec (Some g)) (dadd (rate_dec (Some c)) (rate_dec (Some s))))) = false) ∧
  (field_get (p_gst_enabled patch) = Some true →
     str_truthy (if field_in (p_gst_number r) then field_get (p_gst_number r) else existing) = true).
Proof.
  unfold validate_gst_settings_patch. intros H.
  apply res_bind_Ok in H as (number & Hnum & H). apply res_bind_Ok in H as (gst & Hg & H).
  apply res_bind_Ok in H as (cgst & Hc & H). apply res_bind_Ok in H as (sgst & Hs & H).
  apply res_bind_Ok in H as ([[gst' cgst'] sgst'] & Hder & H).
  apply res_bind_Ok in H as ([] & Hsum & H). apply res_bind_Ok in H as ([] & Hen & H).
  injection H as <-. cbn [p_gst_number p_gst_percentage p_cgst_percentage p_sgst_percentage].
  split; [|split; [|split; [|split; [|split]]]]; try (by eapply validate_rate_in_slab).
  - intros n Hn. destruct (p_gst_number patch) as [[v|]|]; cbn [validate_gst_number] in Hnum.
    + apply res_bind_Ok in Hnum as ([m|] & Hm & [= <-]); simplify_eq.
      apply validate_gst_number_Ok in Hm as (-> & ? & ?). by rewrite upper_idem.
    + cbn in Hnum. simplify_eq.
    + simplify_eq.
  - intros g c s Hg' Hc' Hs'. rewrite Hg', Hc', Hs' in Hsum. by apply raise_if_Ok in Hsum.
  - intros Hon. rewrite Hon, bool_decide_eq_true_2 in Hen by done. apply raise_if_Ok in Hen.
    by apply negb_false_iff.
Qed.

(** Two rates the range check accepts add up to a derived total outside it. *)
Example derived_total_unchecked :
  let f z := Some (Some (PInt z)) in
  let patch := {| p_gst_number := None; p_gst_percentage := None; p_cgst_percentage := f 28;
                  p_sgst_percentage := f 28; p_gst_enabled := None |} in
  ∃ r, validate_gst_settings_patch patch None = Ok r ∧
       p_gst_percentage r = Some (Some (py_float (Dec 560 (-1)))).
Proof. eexists. split; vm_compute; reflexivity. Qed.

(** ** Configuration cache *)

(** Every cached configuration was read from the database at its time stamp. *)
Definition cache_sound (fetchrow : string → option settings_row) (cache : config_cache) : Prop :=
  ∀ key cfg t, cache !! key = Some (cfg, t) → from_row (fetchrow key) = Ok cfg.

(** Reading a configuration serves a cached copy only within its sixty
    seconds and the row of the database otherwise, leaves every other key
    alone, and right after an invalidation it always serves the database. *)
Theorem tax_config_fresh fetchrow id now cache :
  id ≠ ""%string →
  (∀ cfg t, cache !! id = Some (cfg, t) → now - t < _CONFIG_TTL_SEC →
     get_tax_config fetchrow (Some id) now cache = Ok (cfg, cache)) ∧
  (∀ cfg t, cache !! id = Some (cfg, t) → _CONFIG_TTL_SEC <= now - t →
     get_tax_config fetchrow (Some id) now cache
     = (cfg' ← from_row (fetchrow id); Ok (cfg', <[id := (cfg', now)]> cache))) ∧
  get_tax_config fetchrow (Some id) now (invalidate_tax_config (Some id) cache)
    = (cfg' ← from_row (fetchrow id); Ok (cfg', <[id := (cfg', now)]> cache)) ∧
  (∀ other, other ≠ id → invalidate_tax_config (Some id) cache !! other = cache !! other).
Proof.
  intros Hid. unfold get_tax_config, invalidate_tax_config, str_truthy, str_or.
  rewrite bool_decide_eq_false_2 by done. cbn [negb]. rewrite !decide_False by done.
  split; [|split; [|split]].
  - intros cfg t -> Hlt. by destruct (Z.ltb_spec (now - t) _CONFIG_TTL_SEC); [|lia].
  - intros cfg t -> Hge. by destruct (Z.ltb_spec (now - t) _CONFIG_TTL_SEC); [lia|].
  - rewrite lookup_delete_eq. by destruct (from_row _); cbn; rewrite ?insert_delete_eq.
  - intros other Hne. by rewrite lookup_delete_ne.
Qed.

(** The cache stays sound: if every entry is what the database returns, so is
    every entry after a read, an invalidation, or both in any order. *)
Theorem tax_config_cache_sound fetchrow id now cache cfg cache' :
  cache_sound fetchrow cache → get_tax_config fetchrow id now cache = Ok (cfg, cache') →
  cache_sound fetchrow cache' ∧ cache_sound fetchrow (invalidate_tax_config id cache') ∧
  (str_truthy id = true → from_row (fetchrow (str_or id "")) = Ok cfg).
Proof.
  intros Hs H.
  assert (cache_sound fetchrow cache' ∧ (str_truthy id = true → from_row (fetchrow (str_or id "")) = Ok cfg))
    as [H1 H2].
  { unfold get_tax_config in H. destruct (str_truthy id); cbn [negb] in H; [|by simplify_eq].
    set (key := str_or id "") in *.
    assert (∀ r, from_row (fetchrow key) = Ok r → cache_sound fetchrow (<[key := (r, now)]> cache)) as Hins.
    { intros r Hr k cfg0 t Hk. apply lookup_insert_Some in Hk as [[<- ?]|[_ Hk]]; [by simplify_eq|by eapply Hs]. }
    destruct (cache !! key) as [[c t]|] eqn:Hk; [destruct (_ <? _)|].
    1: simplify_eq; split; [done|]; intros _; by eapply Hs.
    all: apply res_bind_Ok in H as (c' & Hc' & [= <- <-]); auto. }
  split; [done|]. split; [|done]. unfold invalidate_tax_config. destruct (negb _); [done|].
  intros k c t Hk. apply lookup_delete_Some in Hk as [_ Hk]. by eapply H1.
Qed.

(** ** Examples *)

Definition demo_line (paise : Z) (inclusive : bool) (rate : Z) : ItemTaxLine :=
  {| it_line_total := Dec paise (-2); it_gst_enabled := true; it_gst_inclusive := inclusive;
     it_gst_rate := d_int rate |}.

(** A mixed cart: 200.00 inclusive at 5%, 40.00 exclusive at 28%, 19.99 untaxed. *)
Definition demo_lines : list ItemTaxLine :=
  [demo_line 20000 true 5; demo_line 4000 false 28; demo_line 1999 false 0].
Definition demo_prices : list Z := [20000; 4000; 1999].
Definition demo_discount : pyval := PDec (Dec 3333 (-2)).

Lemma demo_input : cart_input demo_lines demo_prices.
Proof.
  split; [|done]. repeat constructor; cbn [demo_line it_line_total it_gst_rate].
  all: first [ eexists; split; [apply at_scale_paise|done] | eexists; apply at_scale_int; done ].
Qed.

Lemma cart_total_balances_witness :
  ∃ b, compute_cart_tax demo_lines demo_discount default_config true = Ok b ∧
    pz (ct_grand_total b) = pz (ct_subtotal b) - pz (ct_discount_amount b)
                            + paise_sum exclusive_tax_of (ct_lines b) + pz (ct_round_off b).
Proof.
  destruct (cart_total_balances demo_lines demo_prices demo_discount default_config true demo_input)
    as (b & Hb & _ & _ & _ & Hg & _). exact (ex_intro _ b (conj Hb Hg)).
Defined.

Lemma cart_lines_taxed_witness :
  ∃ b shares, compute_cart_tax demo_lines demo_discount default_config true = Ok b ∧
    zsum shares = pz (ct_discount_amount b) ∧
    Forall2 (line_means true) (zip (zip demo_lines demo_prices) shares) (ct_lines b).
Proof.
  destruct (cart_lines_taxed demo_lines demo_prices demo_discount default_config true demo_input)
    as (b & shares & H1 & H2 & _ & H3 & _). exists b, shares. exact (conj H1 (conj H2 H3)).
Defined.

Lemma discount_allocated_exactly_witness :
  ∃ ds shares, _allocate_discount [Dec 100 0; Dec 333 (-1)] (Dec 1001 (-2)) = Ok ds ∧
    Forall2 (at_scale 2) ds shares ∧ zsum shares = 1001.
Proof.
  destruct (discount_allocated_exactly [Dec 100 0; Dec 333 (-1)] [10000; 3330] (Dec 1001 (-2)) 1001)
    as (ds & shares & H1 & H2 & H3 & _); [|done|done|exists ds, shares; exact (conj H1 (conj H2 H3))].
  split; [by repeat constructor|]. split; [|done]. by repeat constructor.
Defined.

Lemma compute_tax_exclusive_witness :
  ∃ b, compute_tax (PInt 999) (PDec (Dec 155 (-1))) default_config true = Ok b ∧
    pz (tb_cgst_amount b) = 2459 ∧ pz (tb_grand_total b) = 103300 ∧ pz (tb_round_off b) = 32.
Proof.
  destruct (compute_tax_exclusive (PInt 999) (PDec (Dec 155 (-1))) 99900 1550 250 250 default_config true)
    as (b & H & _ & _ & _ & H1 & _ & _ & H2 & H3); [done..|].
  exists b. split; [exact H|]. split; [exact H1|]. split; [exact H2|]. by rewrite H3, H2.
Defined.

(** A patch with a number, a lone total of 5% and GST switched on. *)
Definition demo_patch : gst_patch := {|
  p_gst_number := Some (Some " 29abcde1234f1z5 "%string); p_gst_percentage := Some (Some (PInt 5));
  p_cgst_percentage := None; p_sgst_percentage := None; p_gst_enabled := Some (Some true) |}.

Definition demo_patch_result : gst_patch := {|
  p_gst_number := Some (Some "29ABCDE1234F1Z5"%string); p_gst_percentage := Some (Some (py_float (d_int 5)));
  p_cgst_percentage := Some (Some (py_float (Dec 250 (-2))));
  p_sgst_percentage := Some (Some (py_float (Dec 250 (-2)))); p_gst_enabled := Some (Some true) |}.

Lemma gst_patch_accepted_witness :
  str_len "29ABCDE1234F1Z5" = 15 ∧ rate_in_slab (p_gst_percentage demo_patch) ∧
  str_truthy (Some "29ABCDE1234F1Z5"%string) = true.
Proof.
  destruct (gst_patch_accepted demo_patch None demo_patch_result) as (H1 & H2 & _ & _ & _ & H3);
    [vm_compute; reflexivity|].
  split; [by apply (H1 "29ABCDE1234F1Z5"%string)|]. split; [exact H2|]. by apply H3.
Defined.

Lemma tax_config_fresh_witness :
  get_tax_config (λ _, None) (Some "r1"%string) 70000000000 (invalidate_tax_config (Some "r1"%string) ∅)
  = Ok (default_config, {[ "r1"%string := (default_config, 70000000000) ]}).
Proof.
  destruct (tax_config_fresh (λ _, None) "r1" 70000000000 ∅) as (_ & _ & H & _); [done|].
  rewrite H. reflexivity.
Defined.

Lemma tax_config_cache_sound_witness :
  cache_sound (λ _, None) {[ "r1"%string := (default_config, 70) ]}.
Proof.
  apply (tax_config_cache_sound (λ _, None) (Some "r1"%string) 70 ∅ default_config); [|reflexivity].
  intros k c t Hk. by rewrite lookup_empty in Hk.
Defined.
