(* ===== verification/SqlWhere.v ===== *)
(** The part of PostgreSQL's condition syntax the repository's SQL fragments are
    written in, read from text: words, quoted literals and punctuation; then
    AND, OR, parentheses, TRUE, and [IS NULL], [IN] and [NOT IN] on a column or its
    LOWER; then three-valued truth.  A text outside this part, an unbalanced
    one or a literal with an escaped quote does not parse.  Words are case-insensitive
    and unquoted names are folded to lower case, as the server folds them. *)

From Stdlib Require Import ZArith Lia Ascii String.
From S2P Require Import Prelude PyDecimal PyFloat PyValues.
Open Scope Z_scope.

(** ** Tokens *)

Inductive token :=
  | KAnd | KOr | KNot | KIn | KIs | KNull | KTrue
  | Name (s : string)
  | Lit (s : string)
  | LPar | RPar | Comma | Dot
  | Bad.

Definition word_char (c : ascii) : bool := is_alnum c || Ascii.eqb c "_".

Definition word_token (w : string) : token :=
  let w := lower w in
  if String.eqb w "and" then KAnd else if String.eqb w "or" then KOr
  else if String.eqb w "not" then KNot else if String.eqb w "in" then KIn
  else if String.eqb w "is" then KIs else if String.eqb w "null" then KNull
  else if String.eqb w "true" then KTrue else Name w.

Definition flush (w : list ascii) (ts : list token) : list token :=
  match w with [] => ts | _ => word_token (of_chars w) :: ts end.

(** Inside a word, or inside a literal, with what was read of it. *)
Inductive mode := InWord (w : list ascii) | InLit (w : list ascii).

Fixpoint lex (m : mode) (l : list ascii) : list token :=
  match m, l with
  | InWord w, [] => flush w []
  | InWord w, c :: l' =>
      if word_char c then lex (InWord (w ++ [c])) l'
      else flush w
        (if Ascii.eqb c "'" then lex (InLit []) l'
         else if Ascii.eqb c "(" then LPar :: lex (InWord []) l'
         else if Ascii.eqb c ")" then RPar :: lex (InWord []) l'
         else if Ascii.eqb c "," then Comma :: lex (InWord []) l'
         else if Ascii.eqb c "." then Dot :: lex (InWord []) l'
         else if is_space c then lex (InWord []) l' else [Bad])
  | InLit w, [] => [Bad]
  | InLit w, c :: l' => if Ascii.eqb c "'" then Lit (of_chars w) :: lex (InWord []) l' else lex (InLit (w ++ [c])) l'
  end.

Definition tokens (s : string) : list token := lex (InWord []) (chars s).

(** ** Conditions *)

Inductive term := Col (alias column : string) | Lower (alias column : string).

Inductive cond :=
  | CTrue
  | CIsNull (x : term)
  | CIn (x : term) (l : list string)
  | CNot (c : cond)
  | CAnd (c d : cond)
  | COr (c d : cond).

Definition parse_term (ts : list token) : option (term * list token) :=
  match ts with
  | Name a :: Dot :: Name c :: ts' => Some (Col a c, ts')
  | Name f :: LPar :: Name a :: Dot :: Name c :: RPar :: ts' =>
      if String.eqb f "lower" then Some (Lower a c, ts') else None
  | _ => None
  end.

Fixpoint parse_list (ts : list token) : option (list string * list token) :=
  match ts with
  | Lit s :: RPar :: ts' => Some ([s], ts')
  | Lit s :: Comma :: ts' => '(l, r) ← parse_list ts'; Some (s :: l, r)
  | _ => None
  end.

(** OR binds weaker than AND.  A token read costs at most three calls. *)
Fixpoint parse_or (n : nat) (ts : list token) : option (cond * list token) :=
  match n with
  | O => None
  | S n =>
      '(c, ts1) ← parse_and n ts;
      match ts1 with
      | KOr :: ts2 => '(d, ts3) ← parse_or n ts2; Some (COr c d, ts3)
      | _ => Some (c, ts1)
      end
  end
with parse_and (n : nat) (ts : list token) : option (cond * list token) :=
  match n with
  | O => None
  | S n =>
      '(c, ts1) ← parse_prim n ts;
      match ts1 with
      | KAnd :: ts2 => '(d, ts3) ← parse_and n ts2; Some (CAnd c d, ts3)
      | _ => Some (c, ts1)
      end
  end
with parse_prim (n : nat) (ts : list token) : option (cond * list token) :=
  match n with
  | O => None
  | S n =>
      match ts with
      | LPar :: ts1 =>
          '(c, ts2) ← parse_or n ts1;
          match ts2 with RPar :: ts3 => Some (c, ts3) | _ => None end
      | KTrue :: ts1 => Some (CTrue, ts1)
      | _ =>
          '(x, ts1) ← parse_term ts;
          match ts1 with
          | KIs :: KNull :: ts2 => Some (CIsNull x, ts2)
          | KIs :: KNot :: KNull :: ts2 => Some (CNot (CIsNull x), ts2)
          | KIn :: LPar :: ts2 => '(l, ts3) ← parse_list ts2; Some (CIn x l, ts3)
          | KNot :: KIn :: LPar :: ts2 => '(l, ts3) ← parse_list ts2; Some (CNot (CIn x l), ts3)
          | _ => None
          end
      end
  end.

Definition parse (s : string) : option cond :=
  let ts := tokens s in
  match parse_or (3 * S (length ts)) ts with Some (c, []) => Some c | _ => None end.

(** ** Truth *)

Section Truth.
(** The row: the value of a column of an aliased table, [None] for NULL. *)
Context (cell : string → string → option string).

Definition value_of (x : term) : option string :=
  match x with Col a c => cell a c | Lower a c => lower <$> cell a c end.

Definition and3 (x y : option bool) : option bool :=
  match x, y with
  | Some false, _ | _, Some false => Some false
  | Some true, Some true => Some true
  | _, _ => None
  end.

Definition or3 (x y : option bool) : option bool :=
  match x, y with
  | Some true, _ | _, Some true => Some true
  | Some false, Some false => Some false
  | _, _ => None
  end.

Fixpoint truth (c : cond) : option bool :=
  match c with
  | CTrue => Some true
  | CIsNull x => Some (bool_decide (value_of x = None))
  | CIn x l => (λ v, str_mem v l) <$> value_of x
  | CNot c => negb <$> truth c
  | CAnd c d => and3 (truth c) (truth d)
  | COr c d => or3 (truth c) (truth d)
  end.

(** Does WHERE with this text keep the row?  [None] when the text does not parse. *)
Definition keeps_row (s : string) : option bool := (λ c, bool_decide (truth c = Some true)) <$> parse s.
End Truth.

(** ** Reading a text with a name in it *)

(** A name that needs no quotes: a word that is not reserved. *)
Definition sql_name (a : string) : bool :=
  forallb word_char (chars a) && negb (bool_decide (a = ""%string)) &&
  match word_token a with Name _ => true | _ => false end.

Lemma lex_word w a l : forallb word_char a = true → lex (InWord w) (a ++ l) = lex (InWord (w ++ a)) l.
Proof.
  revert w. induction a as [|c a IH]; intros w H; [by rewrite app_nil_r|].
  apply andb_true_iff in H as [Hc Ha]. cbn [lex app]. rewrite Hc, IH by done. by rewrite <-app_assoc.
Qed.

Lemma sql_name_token a : sql_name a = true → word_token a = Name (lower a).
Proof.
  unfold sql_name. intros [_ H]%andb_true_iff. unfold word_token in *. cbv zeta in *.
  by repeat (destruct (String.eqb _ _); [done|]).
Qed.

(** A name followed by a full stop. *)
Lemma lex_name a l : sql_name a = true →
  lex (InWord []) (chars a ++ "."%char :: l) = Name (lower a) :: Dot :: lex (InWord []) l.
Proof.
  intros H. pose proof (sql_name_token a H) as Ht.
  unfold sql_name in H. apply andb_true_iff in H as [[Hw Hne]%andb_true_iff _].
  apply negb_true_iff, bool_decide_eq_false in Hne. rewrite lex_word by done. cbn [app].
  change (flush (chars a) (Dot :: lex (InWord []) l) = Name (lower a) :: Dot :: lex (InWord []) l).
  unfold flush. destruct (chars a) eqn:E; [|by rewrite <-E, of_chars_chars, Ht].
  destruct Hne. by rewrite <-(of_chars_chars a), E.
Qed.

(** ** Examples *)

Definition sample_row (alias column : string) : option string :=
  if String.eqb column "status" then (if String.eqb alias "o" then Some "Served"%string else None) else None.

Example where_or_and : keeps_row sample_row "p.status IS NULL OR o.status IN ('x') AND TRUE" = Some true.
Proof. vm_compute. reflexivity. Qed.
Example where_null_is_not_in : keeps_row sample_row "LOWER(p.status) NOT IN ('x','y')" = Some false.
Proof. vm_compute. reflexivity. Qed.
Example where_lower : keeps_row sample_row "(lower(O.Status) in ('served'))" = Some true.
Proof. vm_compute. reflexivity. Qed.
Example where_nested : keeps_row sample_row "((((TRUE))))" = Some true.
Proof. vm_compute. reflexivity. Qed.
Example where_unbalanced : keeps_row sample_row "(TRUE" = None.
Proof. vm_compute. reflexivity. Qed.
