(* ===== verification/StateMachines.v ===== *)
(** The status machines of [src/app/core/state_machines.py] and the revenue
    filter of [src/app/core/order_status.py].

    [Machine] is the interface every status enumeration implements (its values,
    members and transition table); [validate] is the body the [validate_*]
    functions share.  The theorems about validators are proved once against the
    interface; the rest is about each machine's reachable states. *)

From Stdlib Require Import ZArith Lia Ascii String.
From S2P Require Import Prelude PyDecimal PyFloat PyValues SqlWhere.
Open Scope Z_scope.

(** ** The interface *)

Class Machine (St : Type) := {
  machine_eq_dec :: EqDecision St;
  entity : string;
  value : St → string;
  members : list St;
  transitions : St → list St;
  members_all : ∀ s, s ∈ members;
  value_inj : Inj (=) (=) value;
}.

Section Machine.
Context {St : Type} `{Machine St}.

(** [Status(text)]: the member with that value, or ValueError. *)
Definition of_value (text : string) : option St :=
  snd <$> list_find (λ s, value s = text) members.

Definition allowed (s t : St) : bool := bool_decide (t ∈ transitions s).

Definition validate (current target : string) : res St :=
  match of_value current, of_value target with
  | Some c, Some t =>
      if negb (allowed c t) then Err (InvalidStateTransition entity current target) else Ok t
  | _, _ => Err (InvalidStateTransition entity current target)
  end.

(** One legal change of status, and the statuses it can lead to. *)
Definition step (s t : St) : Prop := allowed s t = true.

Lemma of_value_Some text s : of_value text = Some s ↔ value s = text.
Proof.
  unfold of_value. rewrite fmap_Some. split.
  - intros ([i t] & Hf & ->). by apply list_find_Some in Hf as (_ & ? & _).
  - intros Hs. destruct (list_find_elem_of (λ s, value s = text) members s (members_all s) Hs) as [[i t] Hf].
    exists (i, t). split; [done|]. apply list_find_Some in Hf as (_ & Ht & _).
    apply value_inj. cbn [snd]. congruence.
Qed.

Lemma of_value_value s : of_value (value s) = Some s.
Proof. by apply of_value_Some. Qed.

Lemma validate_values s t :
  validate (value s) (value t) =
  if allowed s t then Ok t else Err (InvalidStateTransition entity (value s) (value t)).
Proof. unfold validate. rewrite !of_value_value. by destruct (allowed s t). Qed.

Lemma validate_Ok current target t :
  validate current target = Ok t ↔ ∃ s, current = value s ∧ target = value t ∧ step s t.
Proof.
  unfold validate, step. split.
  - destruct (of_value current) as [s|] eqn:Hs; [|done].
    destruct (of_value target) as [u|] eqn:Hu; [|done].
    destruct (allowed s u) eqn:Ha; [|done]. intros [= ->]. exists s.
    apply of_value_Some in Hs, Hu. done.
  - intros (s & -> & -> & Ha). by rewrite !of_value_value, Ha.
Qed.

Lemma validate_Err current target e :
  validate current target = Err e → e = InvalidStateTransition entity current target.
Proof.
  unfold validate. destruct (of_value current); [|by intros [= <-]].
  destruct (of_value target); [|by intros [= <-]]. destruct (allowed _ _); [done|by intros [= <-]].
Qed.

(** A status with no transitions is never left. *)
Lemma stuck_forever s t : transitions s = [] → rtc step s t → t = s.
Proof.
  intros Hs. induction 1 as [|s u t Hstep _ IH]; [done|].
  apply bool_decide_eq_true in Hstep. rewrite Hs in Hstep. by apply elem_of_nil in Hstep.
Qed.

(** A rank that every transition raises bounds the number of changes. *)
Lemma ranked_bound (rank : St → nat) n s t :
  (∀ a b, step a b → rank a < rank b)%nat → nsteps step n s t → (n + rank s <= rank t)%nat.
Proof. intros Hr. induction 1 as [|n s u t Hs _ IH]; [lia|]. apply Hr in Hs. lia. Qed.
End Machine.
Arguments step {St _} s t : simpl never.

(** ** Orders *)

Module Order.
Inductive OrderStatus :=
  | QUEUED | PENDING | CONFIRMED | PREPARING | READY | SERVED | OUT_FOR_DELIVERY
  | DELIVERED | CANCELLED | REJECTED.

#[global] Instance OrderStatus_eq_dec : EqDecision OrderStatus.
Proof. solve_decision. Defined.

Definition status_value (s : OrderStatus) : string :=
  match s with
  | QUEUED => "Queued" | PENDING => "Pending" | CONFIRMED => "Confirmed"
  | PREPARING => "Preparing" | READY => "Ready" | SERVED => "Served"
  | OUT_FOR_DELIVERY => "Out for Delivery" | DELIVERED => "Delivered"
  | CANCELLED => "Cancelled" | REJECTED => "Rejected"
  end.

Definition is_terminal (s : OrderStatus) : bool :=
  match s with SERVED | DELIVERED | CANCELLED | REJECTED => true | _ => false end.

Definition ORDER_TRANSITIONS (s : OrderStatus) : list OrderStatus :=
  match s with
  | PENDING => [CONFIRMED; CANCELLED; REJECTED]
  | CONFIRMED => [PREPARING; CANCELLED]
  | QUEUED => [PREPARING; CANCELLED; REJECTED]
  | PREPARING => [READY; CANCELLED]
  | READY => [SERVED; OUT_FOR_DELIVERY; DELIVERED]
  | SERVED => []
  | OUT_FOR_DELIVERY => [DELIVERED]
  | DELIVERED => []
  | CANCELLED => []
  | REJECTED => []
  end.

#[global, program] Instance order_machine : Machine OrderStatus := {
  entity := "order"; value := status_value; transitions := ORDER_TRANSITIONS;
  members := [QUEUED; PENDING; CONFIRMED; PREPARING; READY; SERVED; OUT_FOR_DELIVERY;
              DELIVERED; CANCELLED; REJECTED] }.
Next Obligation. intros s. apply (bool_decide_unpack _). by destruct s. Qed.
Next Obligation. intros s t. by destruct s, t. Qed.

(** [None] is the no-op for an unchanged status. *)
Definition validate_order_transition (current target : string) : res (option OrderStatus) :=
  match of_value current, of_value target with
  | Some c, Some t =>
      if decide (c = t) then Ok None
      else if negb (allowed c t) then Err (InvalidStateTransition "order" current target)
      else Ok (Some t)
  | _, _ => Err (InvalidStateTransition "order" current target)
  end.
End Order.

(** ** Payments *)

Module Payment.
Inductive PaymentStatus :=
  | INITIATED | PENDING | COMPLETED | FAILED | SETTLED | REFUNDED | RECONCILED.

#[global] Instance PaymentStatus_eq_dec : EqDecision PaymentStatus.
Proof. solve_decision. Defined.

Definition status_value (s : PaymentStatus) : string :=
  match s with
  | INITIATED => "initiated" | PENDING => "pending" | COMPLETED => "completed"
  | FAILED => "failed" | SETTLED => "settled" | REFUNDED => "refunded"
  | RECONCILED => "reconciled"
  end.

Definition PAYMENT_TRANSITIONS (s : PaymentStatus) : list PaymentStatus :=
  match s with
  | INITIATED => [PENDING; FAILED]
  | PENDING => [COMPLETED; FAILED]
  | COMPLETED => [SETTLED; REFUNDED]
  | FAILED => [PENDING]
  | SETTLED => [REFUNDED; RECONCILED]
  | REFUNDED => []
  | RECONCILED => []
  end.

#[global, program] Instance payment_machine : Machine PaymentStatus := {
  entity := "payment"; value := status_value; transitions := PAYMENT_TRANSITIONS;
  members := [INITIATED; PENDING; COMPLETED; FAILED; SETTLED; REFUNDED; RECONCILED] }.
Next Obligation. intros s. apply (bool_decide_unpack _). by destruct s. Qed.
Next Obligation. intros s t. by destruct s, t. Qed.

Definition validate_payment_transition (current target : string) : res PaymentStatus :=
  validate current target.
End Payment.

(** ** Kitchen tickets *)

Module Kitchen.
Inductive KitchenStatus := QUEUED | PREPARING | READY | SERVED.

#[global] Instance KitchenStatus_eq_dec : EqDecision KitchenStatus.
Proof. solve_decision. Defined.

Definition status_value (s : KitchenStatus) : string :=
  match s with
  | QUEUED => "queued" | PREPARING => "preparing" | READY => "ready" | SERVED => "served"
  end.

Definition KITCHEN_TRANSITIONS (s : KitchenStatus) : list KitchenStatus :=
  match s with
  | QUEUED => [PREPARING]
  | PREPARING => [READY]
  | READY => [SERVED]
  | SERVED => []
  end.

#[global, program] Instance kitchen_machine : Machine KitchenStatus := {
  entity := "kitchen_order"; value := status_value; transitions := KITCHEN_TRANSITIONS;
  members := [QUEUED; PREPARING; READY; SERVED] }.
Next Obligation. intros s. apply (bool_decide_unpack _). by destruct s. Qed.
Next Obligation. intros s t. by destruct s, t. Qed.

Definition validate_kitchen_transition (current target : string) : res KitchenStatus :=
  validate current target.
End Kitchen.

(** ** Deliveries *)

Module Delivery.
Inductive DeliveryStatus :=
  | UNASSIGNED | ASSIGNED | PICKED_UP | OUT_FOR_DELIVERY | DELIVERED | FAILED.

#[global] Instance DeliveryStatus_eq_dec : EqDecision DeliveryStatus.
Proof. solve_decision. Defined.

Definition status_value (s : DeliveryStatus) : string :=
  match s with
  | UNASSIGNED => "unassigned" | ASSIGNED => "assigned" | PICKED_UP => "picked_up"
  | OUT_FOR_DELIVERY => "out_for_delivery" | DELIVERED => "delivered" | FAILED => "failed"
  end.

Definition DELIVERY_TRANSITIONS (s : DeliveryStatus) : list DeliveryStatus :=
  match s with
  | UNASSIGNED => [ASSIGNED; FAILED]
  | ASSIGNED => [PICKED_UP; UNASSIGNED; FAILED]
  | PICKED_UP => [OUT_FOR_DELIVERY; FAILED]
  | OUT_FOR_DELIVERY => [DELIVERED; FAILED]
  | DELIVERED => []
  | FAILED => [UNASSIGNED]
  end.

#[global, program] Instance delivery_machine : Machine DeliveryStatus := {
  entity := "delivery"; value := status_value; transitions := DELIVERY_TRANSITIONS;
  members := [UNASSIGNED; ASSIGNED; PICKED_UP; OUT_FOR_DELIVERY; DELIVERED; FAILED] }.
Next Obligation. intros s. apply (bool_decide_unpack _). by destruct s. Qed.
Next Obligation. intros s t. by destruct s, t. Qed.

Definition validate_delivery_transition (current target : string) : res DeliveryStatus :=
  validate current target.
End Delivery.

(** ** Table sessions *)

Module Table.
Inductive TableStatus := BLANK | AVAILABLE | RUNNING | RUNNING_KOT | PRINTED | PAID.

#[global] Instance TableStatus_eq_dec : EqDecision TableStatus.
Proof. solve_decision. Defined.

Definition status_value (s : TableStatus) : string :=
  match s with
  | BLANK => "blank" | AVAILABLE => "available" | RUNNING => "running"
  | RUNNING_KOT => "running_kot" | PRINTED => "printed" | PAID => "paid"
  end.

Definition TABLE_TRANSITIONS (s : TableStatus) : list TableStatus :=
  match s with
  | BLANK => [RUNNING]
  | AVAILABLE => [RUNNING]
  | RUNNING => [RUNNING_KOT; PRINTED; BLANK]
  | RUNNING_KOT => [PRINTED; RUNNING]
  | PRINTED => [PAID; RUNNING]
  | PAID => [BLANK]
  end.

#[global, program] Instance table_machine : Machine TableStatus := {
  entity := "table"; value := status_value; transitions := TABLE_TRANSITIONS;
  members := [BLANK; AVAILABLE; RUNNING; RUNNING_KOT; PRINTED; PAID] }.
Next Obligation. intros s. apply (bool_decide_unpack _). by destruct s. Qed.
Next Obligation. intros s t. by destruct s, t. Qed.

Definition validate_table_transition (current target : string) : res TableStatus :=
  validate current target.
End Table.

(** ** Subscriptions *)

Module Subscription.
Inductive SubscriptionStatus :=
  | TRIAL | ACTIVE | PAST_DUE | GRACE_PERIOD | SUSPENDED | CANCELLED | EXPIRED | PAYMENT_PENDING.

#[global] Instance SubscriptionStatus_eq_dec : EqDecision SubscriptionStatus.
Proof. solve_decision. Defined.

Definition status_value (s : SubscriptionStatus) : string :=
  match s with
  | TRIAL => "TRIAL" | ACTIVE => "ACTIVE" | PAST_DUE => "PAST_DUE"
  | GRACE_PERIOD => "GRACE_PERIOD" | SUSPENDED => "SUSPENDED" | CANCELLED => "CANCELLED"
  | EXPIRED => "EXPIRED" | PAYMENT_PENDING => "PAYMENT_PENDING"
  end.

Definition SUBSCRIPTION_TRANSITIONS (s : SubscriptionStatus) : list SubscriptionStatus :=
  match s with
  | TRIAL => [ACTIVE; EXPIRED; PAYMENT_PENDING]
  | PAYMENT_PENDING => [ACTIVE; EXPIRED]
  | ACTIVE => [PAST_DUE; CANCELLED]
  | PAST_DUE => [ACTIVE; GRACE_PERIOD]
  | GRACE_PERIOD => [ACTIVE; SUSPENDED]
  | SUSPENDED => [ACTIVE; CANCELLED]
  | CANCELLED => [ACTIVE]
  | EXPIRED => [ACTIVE]
  end.

#[global, program] Instance subscription_machine : Machine SubscriptionStatus := {
  entity := "subscription"; value := status_value; transitions := SUBSCRIPTION_TRANSITIONS;
  members := [TRIAL; ACTIVE; PAST_DUE; GRACE_PERIOD; SUSPENDED; CANCELLED; EXPIRED; PAYMENT_PENDING] }.
Next Obligation. intros s. apply (bool_decide_unpack _). by destruct s. Qed.
Next Obligation. intros s t. by destruct s, t. Qed.
End Subscription.

(** ** The revenue filter *)

Module Revenue.
Definition NON_REVENUE_ORDER_STATUSES : list string :=
  ["cancelled"; "canceled"; "failed"; "expired"; "refunded"; "pending_payment"; "awaiting_payment"]%string.

Definition NON_REVENUE_PAYMENT_STATUSES : list string :=
  ["cancelled"; "canceled"; "failed"; "expired"; "refunded"]%string.

Definition is_non_revenue_order_status (status : option string) : bool :=
  str_truthy status && str_mem (lower (str_or status "")) NON_REVENUE_ORDER_STATUSES.

Definition is_non_revenue_payment_status (status : option string) : bool :=
  str_truthy status && str_mem (lower (str_or status "")) NON_REVENUE_PAYMENT_STATUSES.

(** The list literals, sorted as [sorted] sorts them. *)
Definition order_list : list string :=
  ["awaiting_payment"; "canceled"; "cancelled"; "expired"; "failed"; "pending_payment"; "refunded"]%string.
Definition payment_list : list string :=
  ["canceled"; "cancelled"; "expired"; "failed"; "refunded"]%string.

Definition sql_list (l : list string) : string := join "," (map (λ s, ("'" ++ s ++ "'")%string) l).

Definition _ORDER_LIST_SQL : string := sql_list order_list.
Definition _PAYMENT_LIST_SQL : string := sql_list payment_list.

Definition order_part (orders_alias : string) : string :=
  "LOWER(" ++ orders_alias ++ ".status) NOT IN (" ++ _ORDER_LIST_SQL ++ ")"%string.

Definition payment_part (payments_alias : string) : string :=
  "(" ++ payments_alias ++ ".status IS NULL "
  ++ "OR LOWER(" ++ payments_alias ++ ".status) NOT IN (" ++ _PAYMENT_LIST_SQL ++ "))".

Definition where_parts (orders_alias payments_alias : option string) : list string :=
  (if str_truthy orders_alias then [order_part (str_or orders_alias "")] else []) ++
  (if str_truthy payments_alias then [payment_part (str_or payments_alias "")] else []).

Definition non_revenue_where_sql (orders_alias payments_alias : option string) : string :=
  match where_parts orders_alias payments_alias with
  | [] => "TRUE"
  | parts => "(" ++ join " AND " parts ++ ")"
  end.

Example default_fragment :
  non_revenue_where_sql (Some "o"%string) None
  = "(LOWER(o.status) NOT IN ('awaiting_payment','canceled','cancelled','expired','failed','pending_payment','refunded'))"%string.
Proof. reflexivity. Qed.

Lemma str_mem_perm s l k : l ≡ₚ k → str_mem s l = str_mem s k.
Proof. intros Hp. unfold str_mem. apply bool_decide_ext. by rewrite Hp. Qed.

(** The rendered lists are the sets of the Python predicates. *)
Lemma order_list_set : order_list ≡ₚ NON_REVENUE_ORDER_STATUSES.
Proof. apply (bool_decide_unpack _). vm_compute. done. Qed.

Lemma payment_list_set : payment_list ≡ₚ NON_REVENUE_PAYMENT_STATUSES.
Proof. apply (bool_decide_unpack _). vm_compute. done. Qed.

Lemma str_or_truthy x d : str_truthy x = true → x = Some (str_or x d).
Proof.
  destruct x as [s|]; [|done]. unfold str_truthy, str_or. intros H%negb_true_iff.
  apply bool_decide_eq_false in H. by rewrite decide_False.
Qed.

(** *** What the fragment says *)

Definition lits (l : list string) : list token := tokens (sql_list l).

(** The tokens of the two parts, in any text. *)
Definition order_tokens (a : string) : list token :=
  [Name "lower"; LPar; Name (lower a); Dot; Name "status"; RPar; KNot; KIn; LPar]%string ++ lits order_list ++ [RPar].

Definition payment_tokens (a : string) : list token :=
  [LPar; Name (lower a); Dot; Name "status"; KIs; KNull; KOr; Name "lower"; LPar; Name (lower a); Dot; Name "status"; RPar;
   KNot; KIn; LPar]%string ++ lits payment_list ++ [RPar; RPar].

Lemma lex_order_part a l : sql_name a = true →
  lex (InWord []) (chars (order_part a) ++ l) = order_tokens a ++ lex (InWord []) l.
Proof.
  intros H. unfold order_part. rewrite !chars_app, <-!app_assoc.
  change (lex (InWord []) (chars "LOWER(" ++ ?x)) with (Name "lower" :: LPar :: lex (InWord []) x).
  change (chars ".status) NOT IN (" ++ ?x) with ("."%char :: chars "status) NOT IN (" ++ x).
  rewrite (lex_name _ _ H). reflexivity.
Qed.

Lemma lex_payment_part a l : sql_name a = true →
  lex (InWord []) (chars (payment_part a) ++ l) = payment_tokens a ++ lex (InWord []) l.
Proof.
  intros H. unfold payment_part. rewrite !chars_app, <-!app_assoc.
  change (lex (InWord []) (chars "(" ++ ?x)) with (LPar :: lex (InWord []) x).
  change (chars ".status IS NULL " ++ ?x) with ("."%char :: chars "status IS NULL " ++ x).
  rewrite (lex_name _ _ H).
  change (lex (InWord []) (chars "status IS NULL " ++ chars "OR LOWER(" ++ ?x))
    with ([Name "status"; KIs; KNull; KOr; Name "lower"; LPar]%string ++ lex (InWord []) x).
  change (chars ".status) NOT IN (" ++ ?x) with ("."%char :: chars "status) NOT IN (" ++ x).
  rewrite (lex_name _ _ H). reflexivity.
Qed.

Section Fragment.
Context (cell : string → string → option string).
Notation order_status a := (cell (lower a) "status"%string).
Notation in_list x l := (negb <$> ((λ v, str_mem v l) <$> (lower <$> x))).

(** The meaning of a text with both parts, one of them, and none. *)
Lemma keeps_both o p : sql_name o = true → sql_name p = true →
  keeps_row cell ("(" ++ (order_part o ++ " AND " ++ payment_part p) ++ ")")
  = Some (bool_decide (and3 (in_list (order_status o) order_list)
      (or3 (Some (bool_decide (order_status p = None))) (in_list (order_status p) payment_list)) = Some true)).
Proof.
  intros Ho Hp. unfold keeps_row, parse, tokens. rewrite !chars_app, <-!app_assoc.
  change (lex (InWord []) (chars "(" ++ ?x)) with (LPar :: lex (InWord []) x).
  rewrite (lex_order_part _ _ Ho).
  change (lex (InWord []) (chars " AND " ++ ?x)) with (KAnd :: lex (InWord []) x).
  rewrite (lex_payment_part _ _ Hp). unfold order_tokens, payment_tokens.
  generalize (lower o) (lower p). intros o' p'. reflexivity.
Qed.

Lemma keeps_orders o : sql_name o = true →
  keeps_row cell ("(" ++ order_part o ++ ")") = Some (bool_decide (in_list (order_status o) order_list = Some true)).
Proof.
  intros Ho. unfold keeps_row, parse, tokens. rewrite !chars_app.
  change (lex (InWord []) (chars "(" ++ ?x)) with (LPar :: lex (InWord []) x).
  rewrite (lex_order_part _ _ Ho). unfold order_tokens. generalize (lower o). reflexivity.
Qed.

Lemma keeps_payments p : sql_name p = true →
  keeps_row cell ("(" ++ payment_part p ++ ")")
  = Some (bool_decide (or3 (Some (bool_decide (order_status p = None))) (in_list (order_status p) payment_list) = Some true)).
Proof.
  intros Hp. unfold keeps_row, parse, tokens. rewrite !chars_app.
  change (lex (InWord []) (chars "(" ++ ?x)) with (LPar :: lex (InWord []) x).
  rewrite (lex_payment_part _ _ Hp). unfold payment_tokens. generalize (lower p). reflexivity.
Qed.
End Fragment.

(** What the fragment should keep: an order whose status is known and not
    non-revenue, and a payment that is absent or not non-revenue. *)
Definition revenue_order (status : option string) : bool :=
  match status with None => false | _ => negb (is_non_revenue_order_status status) end.
Definition revenue_payment (status : option string) : bool := negb (is_non_revenue_payment_status status).

(** An alias that the caller leaves out, or a name that needs no quotes. *)
Definition alias_ok (a : option string) : bool := negb (str_truthy a) || sql_name (str_or a "").

Lemma predicate_empty s l : str_mem (lower "") l = false →
  str_truthy (Some s) && str_mem (lower (str_or (Some s) "")) l = str_mem (lower s) l.
Proof.
  intros Hl. destruct (decide (s = ""%string)) as [->|Hs]; [by rewrite Hl|].
  unfold str_truthy, str_or. rewrite bool_decide_eq_false_2, decide_False by done. done.
Qed.

Lemma order_condition x :
  bool_decide (negb <$> ((λ v, str_mem v order_list) <$> (lower <$> x)) = Some true) = revenue_order x.
Proof.
  destruct x as [s|]; [|done]. cbn. unfold is_non_revenue_order_status. rewrite predicate_empty by done.
  rewrite (str_mem_perm _ _ _ order_list_set). by destruct (str_mem _ _).
Qed.

Lemma payment_condition x :
  or3 (Some (bool_decide (x = None))) (negb <$> ((λ v, str_mem v payment_list) <$> (lower <$> x)))
  = Some (revenue_payment x).
Proof.
  destruct x as [s|]; [|done]. cbn. unfold revenue_payment, is_non_revenue_payment_status. rewrite predicate_empty by done.
  rewrite (str_mem_perm _ _ _ payment_list_set). by destruct (str_mem _ _).
Qed.

(** C40: the text [non_revenue_where_sql] returns, read as SQL, keeps a row
    exactly when neither Python predicate calls its statuses non-revenue: with an
    orders alias the row's order status must be known and not non-revenue in any
    letter case, with a payments alias its payment must be absent (NULL) or not
    non-revenue, an alias left out or empty adds no condition, and without
    any every row is kept.  The text parses for every alias that is an unquoted
    SQL name, and the row is any row.  (An order status of NULL is dropped by SQL
    although the predicate calls it revenue.) *)
Theorem filter_agrees_with_predicates (cell : string → string → option string) (orders_alias payments_alias : option string) :
  alias_ok orders_alias = true → alias_ok payments_alias = true →
  keeps_row cell (non_revenue_where_sql orders_alias payments_alias) = Some
    ((if str_truthy orders_alias then revenue_order (cell (lower (str_or orders_alias "")) "status") else true) &&
     (if str_truthy payments_alias then revenue_payment (cell (lower (str_or payments_alias "")) "status") else true)).
Proof.
  unfold alias_ok, non_revenue_where_sql, where_parts. intros Ho Hp.
  destruct (str_truthy orders_alias), (str_truthy payments_alias); cbn [app join negb orb] in *.
  - rewrite keeps_both by done. rewrite payment_condition, <-order_condition. f_equal.
    set (x := negb <$> _). destruct x as [[]|], (revenue_payment _); done.
  - rewrite keeps_orders by done. by rewrite order_condition, andb_true_r.
  - rewrite keeps_payments by done. rewrite payment_condition. by destruct (revenue_payment _).
  - reflexivity.
Qed.

Definition joined_row (order_status payment_status : option string) (alias column : string) : option string :=
  if String.eqb column "status" then
    if String.eqb alias "o" then order_status else if String.eqb alias "p" then payment_status else None
  else None.

Lemma filter_agrees_with_predicates_witness :
  map (λ '(os, ps), keeps_row (joined_row os ps) (non_revenue_where_sql (Some "o") (Some "p")))
    [(Some "Served", Some "Refunded"); (Some "Served", None); (Some "CANCELLED", None); (None, None)]%string
  = [Some false; Some true; Some false; Some false].
Proof.
  cbn [map]. rewrite !(filter_agrees_with_predicates _ (Some "o"%string) (Some "p"%string)) by reflexivity. reflexivity.
Defined.

(** Of the order machine's statuses only CANCELLED is outside revenue. *)
Example rejected_orders_count :
  filter (λ s : Order.OrderStatus, is_non_revenue_order_status (Some (value s)) = true) members
  = [Order.CANCELLED].
Proof. reflexivity. Qed.
End Revenue.

(** ** What the machines promise *)

(** Every validator accepts exactly the pairs of known values its table
    lists, returns the target's member, and raises InvalidStateTransition naming
    both texts otherwise. *)
Theorem validators_exact {St} `{Machine St} (current target : string) :
  (∀ t, validate current target = Ok t ↔ ∃ s : St, current = value s ∧ target = value t ∧ step s t) ∧
  (∀ e, validate (St := St) current target = Err e → e = InvalidStateTransition entity current target).
Proof. split; [intros t; apply validate_Ok|intros e; apply validate_Err]. Qed.

Definition order_rank (s : Order.OrderStatus) : nat :=
  match s with
  | Order.PENDING => 0 | Order.CONFIRMED | Order.QUEUED => 1 | Order.PREPARING => 2
  | Order.READY => 3 | Order.OUT_FOR_DELIVERY => 4 | _ => 5
  end.

(** An order is changed at most five times, its terminal statuses are
    exactly those without an exit and are kept forever, the same status is an
    accepted no-op, and every order can still end. *)
Theorem order_lifecycle :
  (∀ n (s t : Order.OrderStatus), nsteps step n s t → (n <= 5)%nat) ∧
  (∀ s t, Order.is_terminal s = true → rtc step s t → t = s) ∧
  (∀ s, Order.is_terminal s = true ↔ transitions s = []) ∧
  (∀ s : Order.OrderStatus, Order.validate_order_transition (value s) (value s) = Ok None) ∧
  (∀ s, ∃ t, Order.is_terminal t = true ∧ rtc step s t).
Proof.
  assert (∀ s, Order.is_terminal s = true ↔ transitions s = []) as Hterm by (intros []; done).
  split; [|split; [|split; [|split]]]; [..|done| |].
  - intros n s t Hn. assert (∀ t, order_rank t <= 5)%nat as Hr by (intros []; cbn; lia).
    assert (∀ a b, step a b → order_rank a < order_rank b)%nat as Hup.
    { intros [] [] Hs; try discriminate Hs; cbn; lia. }
    pose proof (ranked_bound order_rank n s t Hup Hn). specialize (Hr t). lia.
  - intros s t Hs. by apply stuck_forever, Hterm.
  - intros s. unfold Order.validate_order_transition. rewrite of_value_value. by rewrite decide_True.
  - intros s. destruct (Order.is_terminal s) eqn:Hs; [by exists s|].
    destruct s; try discriminate Hs.
    1,2,3,4: exists Order.CANCELLED; split; [done|].
    1,2,3,4: by apply rtc_once.
    all: exists Order.DELIVERED; split; [done|]; by apply rtc_once.
Qed.

Lemma order_lifecycle_witness :
  nsteps step 2 Order.PENDING Order.PREPARING ∧ (2 <= 5)%nat ∧ Order.validate_order_transition "Served" "Served" = Ok None.
Proof.
  assert (nsteps step 2 Order.PENDING Order.PREPARING) as Hs.
  { apply (nsteps_l _ _ _ Order.CONFIRMED); [done|]. by apply nsteps_once. }
  destruct order_lifecycle as (H & _ & _ & H' & _). split; [exact Hs|]. split; [by apply (H 2%nat _ _ Hs)|].
  exact (H' Order.SERVED).
Defined.

(** A change that does not enter [m]. *)
Definition step_avoiding {St} `{Machine St} (m : St) (s t : St) : Prop := step s t ∧ t ≠ m.

(** Only [m] leads into the statuses [l], and [s] is neither. *)
Definition guarded_by {St} `{Machine St} (m : St) (l : list St) (s : St) : bool :=
  bool_decide (s ∉ m :: l) &&
  forallb (λ a, forallb (λ b, bool_decide (b = m) || implb (bool_decide (a ∉ m :: l) && allowed a b)
                                                            (bool_decide (b ∉ m :: l))) members) members.

Lemma guarded_avoids {St} `{Machine St} (m : St) l s t :
  guarded_by m l s = true → rtc (step_avoiding m) s t → t ∉ l.
Proof.
  intros [Hs%bool_decide_eq_true Hall]%andb_true_iff Hst.
  assert (t ∉ m :: l) as Ht; [|by apply not_elem_of_cons in Ht as []].
  induction Hst as [|a b t [Hab Hb] _ IH]; [done|]. apply IH.
  rewrite forallb_forall in Hall. specialize (Hall a (proj1 (list_elem_of_In _ _) (members_all a))).
  rewrite forallb_forall in Hall. specialize (Hall b (proj1 (list_elem_of_In _ _) (members_all b))).
  unfold step in Hab. rewrite bool_decide_eq_false_2, (bool_decide_eq_true_2 _ Hs), Hab in Hall by done.
  by apply bool_decide_eq_true in Hall.
Qed.

(** Milestones are not skipped.  Without having been READY an order is never
    served, out for delivery or delivered; without COMPLETED no payment is
    settled, refunded or reconciled; without OUT_FOR_DELIVERY nothing is
    delivered; and a table is never PAID without a bill PRINTED. *)
Theorem milestones_not_skipped :
  (∀ s t, s = Order.PENDING ∨ s = Order.QUEUED → rtc (step_avoiding Order.READY) s t →
     t ∉ [Order.SERVED; Order.OUT_FOR_DELIVERY; Order.DELIVERED]) ∧
  (∀ t, rtc (step_avoiding Payment.COMPLETED) Payment.INITIATED t →
     t ∉ [Payment.SETTLED; Payment.REFUNDED; Payment.RECONCILED]) ∧
  (∀ t, rtc (step_avoiding Delivery.OUT_FOR_DELIVERY) Delivery.UNASSIGNED t → t ≠ Delivery.DELIVERED) ∧
  (∀ t, rtc (step_avoiding Table.PRINTED) Table.BLANK t → t ≠ Table.PAID).
Proof.
  split; [|split; [|split]].
  - intros s t Hs. apply guarded_avoids. by destruct Hs as [->| ->].
  - intros t. by apply guarded_avoids.
  - intros t Ht. apply (guarded_avoids _ [Delivery.DELIVERED]) in Ht; [|done]. set_solver.
  - intros t Ht. apply (guarded_avoids _ [Table.PAID]) in Ht; [|done]. set_solver.
Qed.

Lemma milestones_not_skipped_witness :
  rtc (step_avoiding Payment.COMPLETED) Payment.INITIATED Payment.PENDING ∧
  Payment.PENDING ∉ [Payment.SETTLED; Payment.REFUNDED; Payment.RECONCILED].
Proof.
  assert (rtc (step_avoiding Payment.COMPLETED) Payment.INITIATED Payment.PENDING) as Hp by (by apply rtc_once).
  split; [exact Hp|]. destruct milestones_not_skipped as (_ & H & _). by apply H.
Defined.
