(* ===== verification/FeePolicy.v ===== *)
(** Route pricing: [src/app/services/razorpay/fee_policy.py].

    All amounts are integer paise.  [rzp_estimate_rate] is the reporting setting
    [BITTU_RZP_ESTIMATE_RATE], an environment value and hence a parameter here. *)

From Stdlib Require Import ZArith Lia String.
From stdpp Require Import pretty.
From S2P Require Import Prelude PyDecimal PyFloat PyValues.
Open Scope Z_scope.

Definition GST_RATE : decimal := Dec 18 (-2).
Definition TOTAL_DEDUCTION_RATE : decimal := Dec 5 (-2).
Definition FEE_BASIS : string := "full_consideration".
Definition _CASH_METHODS : list string := ["cash"; "counter"; "cod"]%string.
Definition _GATEWAY_METHODS : list string := ["online"; "razorpay"; "gateway"; "netbanking"]%string.
Definition _GATEWAY_SOURCES : list string := ["razorpay"; "online"; "gateway"]%string.

Definition POS_METHOD_ALIASES : list (string * string) :=
  [("cash", "cash"); ("counter", "cash"); ("cod", "cash");
   ("upi", "upi"); ("qr_pay", "upi"); ("qr", "upi"); ("qr_code", "upi");
   ("card", "card"); ("swipe", "card"); ("credit", "card"); ("debit", "card");
   ("credit_card", "card"); ("debit_card", "card");
   ("wallet", "wallet");
   ("online", "online"); ("razorpay", "online"); ("gateway", "online"); ("netbanking", "online")]%string.

(** [int(Decimal(x).quantize(Decimal("1"), rounding=ROUND_HALF_UP))] *)
Definition _q_paise (amount : decimal) : res Z := d ← quantize ROUND_HALF_UP 0 amount; Ok (coef d).

(** [(s or "").strip().lower()] *)
Definition norm (s : option string) : string := lower (strip (str_or s "")).

Definition normalize_payment_method (method : option string) : string :=
  default "cash"%string
    (snd <$> find (λ p, bool_decide (p.1 = norm method)) POS_METHOD_ALIASES).

Inductive payment_kind := KCash | KDirect | KRazorpay.

#[export] Instance payment_kind_eq_dec : EqDecision payment_kind.
Proof. solve_decision. Defined.

Definition classify_method (method source : option string) : payment_kind :=
  let src := norm source in
  let m := norm method in
  if bool_decide (src = "cash"%string) || str_mem m _CASH_METHODS then KCash
  else if bool_decide (src = "direct"%string) then KDirect
  else if bool_decide (src = ""%string) || str_mem src _GATEWAY_SOURCES then KRazorpay
  else if str_mem m _GATEWAY_METHODS then KRazorpay else KDirect.

(** A non-negative [int] that is not a [bool]; anything else is a ValueError. *)
Definition paise_arg (message : string) (v : pyval) : res Z :=
  match v with
  | PInt n => if n <? 0 then Err (ValueError message) else Ok n
  | _ => Err (ValueError message)
  end.

Definition gst_split_paise (deduction_paise : pyval) : res (Z * Z) :=
  deduction ← paise_arg "deduction must be non-negative integer paise" deduction_paise;
  quotient ← ddiv (d_int deduction) (dadd (d_int 1) GST_RATE);
  fee ← _q_paise quotient;
  Ok (fee, deduction - fee).

Definition proportional_share_paise (cumulative_paise previous_cumulative_paise gross_paise share_paise : pyval)
    : res Z :=
  let arg := paise_arg "proportional share inputs must be non-negative integer paise" in
  cumulative ← arg cumulative_paise;
  previous ← arg previous_cumulative_paise;
  gross ← arg gross_paise;
  share ← arg share_paise;
  if gross =? 0 then Ok 0
  else
    let now := Z.min cumulative gross * share / gross in
    let before := Z.min previous gross * share / gross in
    Ok (now - before).

Definition merchant_transfer_paise (gross_paise : pyval) : res Z :=
  gross ← paise_arg "gross must be non-negative integer paise" gross_paise;
  deduction ← _q_paise (dmul (d_int gross) TOTAL_DEDUCTION_RATE);
  Ok (gross - deduction).

Definition split_payment_paise (gross_paise gateway_charges_paise : pyval) : res (Z * Z * Z) :=
  merchant ← merchant_transfer_paise gross_paise;
  gross ← paise_arg "gross must be non-negative integer paise" gross_paise;
  gateway ← paise_arg "gateway charges must be non-negative integer paise" gateway_charges_paise;
  Ok (merchant, gross - merchant - gateway, gateway).

Definition is_cash_method (method : option string) : bool := str_mem (norm method) _CASH_METHODS.

(** A currency amount; a string that is no number, NaN or an infinity is
    [parse_decimal]'s [None]. *)
Definition rupees_to_paise (amount : pyval) : res Z :=
  let message := "amount must be a finite non-negative currency amount"%string in
  match parse_decimal amount with
  | None => Err (ValueError message)
  | Some value =>
      _ ← raise_if (dltb value d_zero) (ValueError message);
      _q_paise (dmul value (d_int 100))
  end.

(** [Decimal(value) / 100] *)
Definition money (value : Z) : res decimal := ddiv (d_int value) (d_int 100).

Record breakdown := {
  br_gross : decimal;
  br_total_deduction : decimal;
  br_net_to_merchant : decimal;
  br_bittu_fee : decimal;
  br_gst_on_fee : decimal;
  br_razorpay_cut : decimal;
  br_platform_pool : decimal;
  br_platform_margin : decimal;
  br_platform_loss : decimal;
  br_payment_kind : payment_kind;
  br_estimated : bool;
}.

(** [f"{d:.kf}"] for a non-negative decimal; [Decimal] formats half to even. *)
Fixpoint zeros (n : nat) : string := match n with O => "" | S n' => "0" ++ zeros n' end%string.

Definition fmt_fixed (k : nat) (d : decimal) : string :=
  let c := rescale ROUND_HALF_EVEN (- Z.of_nat k) d in
  let whole := pretty (c / 10 ^ Z.of_nat k) in
  let frac := pretty (c mod 10 ^ Z.of_nat k) in
  match k with
  | O => whole
  | _ => whole ++ "." ++ zeros (k - String.length frac) ++ frac
  end%string.

Definition pct (k : nat) (rate : decimal) : string := (fmt_fixed k (dmul rate (d_int 100)) ++ "%")%string.

Record rates := {
  total_deduction_rate_pct : string;
  bittu_fee_rate_pct : string;
  gst_on_fee_rate_pct : string;
  gst_rate_pct : string;
  razorpay_cut_rate_pct : string;
  platform_margin_rate_pct : string;
  gateway_rate_is_estimate : bool;
  rate_payment_kind : payment_kind;
  description : string;
}.

(** The quote: the amounts as floats, with the rate card. *)
Record quote := {
  gross_amount : float64;
  total_deduction : float64;
  net_settlement : float64;
  bittu_fee : float64;
  gst_on_fee : float64;
  razorpay_cut : float64;
  platform_pool : float64;
  platform_margin : float64;
  platform_loss : float64;
  quote_payment_kind : payment_kind;
  gateway_charges_estimated : bool;
  fee_info : rates;
}.

Section Estimates.
Variable rzp_estimate_rate : decimal.

Definition estimate_rzp_charges_paise (gross_paise : pyval) (method : option string) : res Z :=
  _ ← merchant_transfer_paise gross_paise;
  gross ← paise_arg "gross must be non-negative integer paise" gross_paise;
  if is_cash_method method then Ok 0
  else _q_paise (dmul (d_int gross) rzp_estimate_rate).

Definition provisional_merchant_transfer_paise (gross_paise : pyval) (method : option string)
    : res (Z * Z * Z) :=
  if is_cash_method method then
    _ ← merchant_transfer_paise gross_paise;
    gross ← paise_arg "gross must be non-negative integer paise" gross_paise;
    Ok (gross, 0, 0)
  else
    gateway ← estimate_rzp_charges_paise gross_paise method;
    split_payment_paise gross_paise (PInt gateway).

Definition bittu_fee_paise (gross_paise : pyval) : res Z :=
  s ← provisional_merchant_transfer_paise gross_paise None; Ok s.1.2.

(** The merchant's entitlement: as frozen by the caller, or freshly computed. *)
Definition entitlement (merchant_paise : option pyval) (gross_paise : Z) : res Z :=
  match merchant_paise with
  | None => merchant_transfer_paise (PInt gross_paise)
  | Some (PInt m) => _ ← raise_if (negb ((0 <=? m) && (m <=? gross_paise)))
                       (ValueError "merchant entitlement must be integer paise within gross"); Ok m
  | Some _ => Err (ValueError "merchant entitlement must be integer paise within gross")
  end.

Definition reporting_breakdown (gross : pyval) (method source : option string)
    (actual_gateway_charges : option pyval) (merchant_paise : option pyval) : res breakdown :=
  gross_paise ← rupees_to_paise gross;
  let kind := classify_method method source in
  mg ← (if negb (bool_decide (kind = KRazorpay)) then Ok (gross_paise, 0)
        else
          merchant ← entitlement merchant_paise gross_paise;
          gateway ← (match actual_gateway_charges with
                     | Some c => rupees_to_paise c
                     | None => estimate_rzp_charges_paise (PInt gross_paise) method
                     end);
          Ok (merchant, gateway));
  let '(merchant, gateway) := mg in
  let deduction := gross_paise - merchant in
  split ← gst_split_paise (PInt deduction);
  let '(fee, gst) := split in
  let residual := deduction - gateway in
  m_gross ← money gross_paise;
  m_deduction ← money deduction;
  m_merchant ← money merchant;
  m_fee ← money fee;
  m_gst ← money gst;
  m_gateway ← money gateway;
  m_residual ← money residual;
  m_margin ← money (Z.max residual 0);
  m_loss ← money (Z.max (- residual) 0);
  Ok {| br_gross := m_gross; br_total_deduction := m_deduction; br_net_to_merchant := m_merchant;
        br_bittu_fee := m_fee; br_gst_on_fee := m_gst; br_razorpay_cut := m_gateway;
        br_platform_pool := m_residual; br_platform_margin := m_margin; br_platform_loss := m_loss;
        br_payment_kind := kind;
        br_estimated := bool_decide (kind = KRazorpay) && bool_decide (actual_gateway_charges = None) |}.

Definition rate_card (method source : option string) : res rates :=
  let kind := classify_method method source in
  let deducted := bool_decide (kind = KRazorpay) in
  let gateway := if deducted then rzp_estimate_rate else d_int 0 in
  let total := if deducted then TOTAL_DEDUCTION_RATE else d_int 0 in
  base ← ddiv total (dadd (d_int 1) GST_RATE);
  Ok {| total_deduction_rate_pct := pct 2 total;
        bittu_fee_rate_pct := pct 4 base;
        gst_on_fee_rate_pct := pct 4 (dsub total base);
        gst_rate_pct := pct 0 GST_RATE;
        razorpay_cut_rate_pct := pct 4 gateway;
        platform_margin_rate_pct := pct 4 (dmax (dsub total gateway) (d_int 0));
        gateway_rate_is_estimate := deducted;
        rate_payment_kind := kind;
        description := if negb deducted then "No deduction; collected directly by the merchant."
          else ("5% total deduction = 4.2373% platform fee + 18% GST on that fee. "
                ++ "Gateway charges are Bittu's cost and never change the merchant's 95%.")%string |}.

Definition quote_fee (gross : pyval) (method source : option string) : res quote :=
  br ← reporting_breakdown gross method source None None;
  card ← rate_card method source;
  Ok {| gross_amount := of_decimal (br_gross br);
        total_deduction := of_decimal (br_total_deduction br);
        net_settlement := of_decimal (br_net_to_merchant br);
        bittu_fee := of_decimal (br_bittu_fee br);
        gst_on_fee := of_decimal (br_gst_on_fee br);
        razorpay_cut := of_decimal (br_razorpay_cut br);
        platform_pool := of_decimal (br_platform_pool br);
        platform_margin := of_decimal (br_platform_margin br);
        platform_loss := of_decimal (br_platform_loss br);
        quote_payment_kind := br_payment_kind br;
        gateway_charges_estimated := br_estimated br;
        fee_info := card |}.
End Estimates.

Example card_matches_prose :
  (λ c, (total_deduction_rate_pct c, bittu_fee_rate_pct c, gst_on_fee_rate_pct c, gst_rate_pct c,
         razorpay_cut_rate_pct c, platform_margin_rate_pct c))
  <$> rate_card (Dec 165 (-4)) None None
  = Ok ("5.00%", "4.2373%", "0.7627%", "18%", "1.6500%", "3.3500%")%string.
Proof. vm_compute. reflexivity. Qed.

(** ** Exactness *)

(** Amounts the theorems cover: below 10^20 paise. *)
Definition paise_bound : Z := 10 ^ 20.

Lemma paise_arg_Ok m n : 0 <= n → paise_arg m (PInt n) = Ok n.
Proof. intros. unfold paise_arg. by destruct (Z.ltb_spec n 0); [lia|]. Qed.

Lemma paise_arg_inv m v n : paise_arg m v = Ok n → v = PInt n ∧ 0 <= n.
Proof.
  unfold paise_arg. destruct v; try done. destruct (Z.ltb_spec z 0); [done|]. by intros [= ->].
Qed.

Lemma fits_paise n : Z.abs n < 10 * paise_bound → fits n.
Proof.
  unfold fits, paise_bound, prec. change (10 ^ 28) with (10 * 10 ^ 20 * 10000000).
  set (b := 10 ^ 20). assert (0 < b) by done. clearbody b. lia.
Qed.

Lemma q_paise_round d : 0 <= rescale ROUND_HALF_UP 0 d < 10 * paise_bound →
  _q_paise d = Ok (rescale ROUND_HALF_UP 0 d).
Proof.
  intros H. unfold _q_paise.
  assert (quantize ROUND_HALF_UP 0 d = Ok (Dec (rescale ROUND_HALF_UP 0 d) 0)) as ->; [|done].
  apply quantize_Ok. split; [done|]. apply fits_paise. lia.
Qed.

(** The five percent deduction: the exact product, rounded half up once. *)
Definition deduction_of (gross : Z) : Z := round_div ROUND_HALF_UP (5 * gross) 100.

Lemma deduction_bounds g : 0 <= g → 0 <= deduction_of g <= g.
Proof.
  intros Hg. unfold deduction_of. rewrite round_half_up_eq by lia.
  split; [apply Z.div_pos; lia|]. apply Z.lt_succ_r, Z.div_lt_upper_bound; lia.
Qed.

Lemma five_percent g :
  0 <= g < paise_bound → rescale ROUND_HALF_UP 0 (dmul (d_int g) TOTAL_DEDUCTION_RATE) = deduction_of g.
Proof.
  intros Hg.
  pose proof (dmul_at_scale 0 2 (d_int g) TOTAL_DEDUCTION_RATE g 5
    ltac:(by apply at_scale_Dec) ltac:(by apply at_scale_Dec) ltac:(apply fits_paise; lia)) as H.
  set (p := dmul _ _) in *. clearbody p. set (s := Z.max 2 (- dexp p)).
  rewrite (at_scale_shift (0 + 2) p (g * 5) s) in H by lia.
  change 0 with (- 0). rewrite (rescale_fine ROUND_HALF_UP 0 s p), H by lia. unfold deduction_of.
  replace (s - 0) with (2 + (s - 2)) by lia. rewrite pow10_split by lia. change (10 ^ 2) with 100.
  rewrite round_div_scale by p10. by rewrite (Z.mul_comm g 5).
Qed.

Lemma merchant_transfer_spec g :
  0 <= g < paise_bound → merchant_transfer_paise (PInt g) = Ok (g - deduction_of g).
Proof.
  intros Hg. unfold merchant_transfer_paise. rewrite paise_arg_Ok, bind_Ok by lia.
  pose proof (deduction_bounds g ltac:(lia)).
  rewrite q_paise_round; rewrite five_percent by done; [|lia]. done.
Qed.

(** The taxable fee inside a GST-inclusive deduction: [n / 1.18], half up. *)
Definition fee_of (n : Z) : Z := round_div ROUND_HALF_UP (50 * n) 59.

Lemma fee_bounds n : 0 <= n → 0 <= fee_of n <= n.
Proof.
  intros Hn. unfold fee_of. rewrite round_half_up_eq by lia.
  split; [apply Z.div_pos; lia|]. apply Z.lt_succ_r, Z.div_lt_upper_bound; lia.
Qed.

Lemma gst_split_spec n :
  0 <= n < paise_bound → gst_split_paise (PInt n) = Ok (fee_of n, n - fee_of n).
Proof.
  intros Hn. unfold gst_split_paise. rewrite paise_arg_Ok, bind_Ok by lia.
  destruct (ddiv_hundredths n 118 (50 * n) 59 2) as (r & Hr & Hround); try lia; [exact Hn|done|].
  change (dadd (d_int 1) GST_RATE) with (Dec 118 (-2)). rewrite Hr, bind_Ok.
  pose proof (fee_bounds n ltac:(lia)) as Hb. unfold fee_of in *.
  rewrite q_paise_round; rewrite Hround; [done|lia].
Qed.

(** The merchant receives the gross less five percent rounded half up once,
    to the paisa: the deduction is within half a paisa of the exact five
    percent, never negative and never above the gross; anything but a
    non-negative integer is a ValueError. *)
Theorem merchant_transfer_exact (gross : Z) :
  0 <= gross < paise_bound →
  ∃ m, merchant_transfer_paise (PInt gross) = Ok m ∧ 0 <= m <= gross ∧
       2 * Z.abs (100 * (gross - m) - 5 * gross) <= 100 ∧
       (∀ v n, merchant_transfer_paise v = Ok n → ∃ g, v = PInt g ∧ 0 <= g).
Proof.
  intros Hg. exists (gross - deduction_of gross). split; [by apply merchant_transfer_spec|].
  pose proof (deduction_bounds gross ltac:(lia)). split; [lia|]. split.
  - unfold deduction_of. pose proof (round_div_error ROUND_HALF_UP (5 * gross) 100 ltac:(lia)). lia.
  - unfold merchant_transfer_paise. intros v n H0. apply res_bind_Ok in H0 as (g & Hv & _).
    apply paise_arg_inv in Hv as [-> ?]. by exists g.
Qed.

Lemma merchant_transfer_exact_witness :
  ∃ m, merchant_transfer_paise (PInt 10010) = Ok m ∧ 2 * Z.abs (100 * (10010 - m) - 5 * 10010) <= 100.
Proof.
  destruct (merchant_transfer_exact 10010) as (m & H1 & _ & H2 & _); [done|].
  exists m. exact (conj H1 H2).
Defined.

(** Splitting a GST-inclusive deduction conserves paise, and the fee is
    exactly the deduction over 1.18 rounded half up, although the code rounds
    twice (to 28 digits, then to the paisa). *)
Theorem gst_split_exact (deduction : Z) :
  0 <= deduction < paise_bound →
  ∃ fee gst, gst_split_paise (PInt deduction) = Ok (fee, gst) ∧ fee + gst = deduction ∧
    0 <= fee ∧ 0 <= gst ∧ 2 * Z.abs (118 * fee - 100 * deduction) <= 118.
Proof.
  intros Hn. exists (fee_of deduction), (deduction - fee_of deduction).
  split; [by apply gst_split_spec|]. pose proof (fee_bounds deduction ltac:(lia)).
  pose proof (round_div_error ROUND_HALF_UP (50 * deduction) 59 ltac:(lia)) as He.
  fold (fee_of deduction) in He. lia.
Qed.

Lemma gst_split_exact_witness :
  ∃ fee gst, gst_split_paise (PInt 500) = Ok (fee, gst) ∧ fee + gst = 500.
Proof.
  destruct (gst_split_exact 500) as (fee & gst & H1 & H2 & _); [done|].
  exists fee, gst. exact (conj H1 H2).
Defined.

(** The shares of a sequence of refunds, as its callers compute them: each
    moves the cumulative refund by its amount. *)
Fixpoint refund_shares (gross share cumulative : Z) (refunds : list Z) : res (list Z) :=
  match refunds with
  | [] => Ok []
  | r :: refunds' =>
      now ← proportional_share_paise (PInt (cumulative + r)) (PInt cumulative) (PInt gross) (PInt share);
      rest ← refund_shares gross share (cumulative + r) refunds';
      Ok (now :: rest)
  end.

Definition floor_share (gross share c : Z) : Z := Z.min c gross * share / gross.

Lemma proportional_share_spec c p g s :
  0 <= c → 0 <= p → 0 < g → 0 <= s →
  proportional_share_paise (PInt c) (PInt p) (PInt g) (PInt s)
  = Ok (floor_share g s c - floor_share g s p).
Proof.
  intros. unfold proportional_share_paise. rewrite !paise_arg_Ok, !bind_Ok by lia.
  by destruct (Z.eqb_spec g 0); [lia|].
Qed.

Lemma floor_share_mono g s a b : 0 < g → 0 <= s → a <= b → floor_share g s a <= floor_share g s b.
Proof. intros. apply Z.div_le_mono; [done|]. apply Z.mul_le_mono_nonneg_r; lia. Qed.

Lemma refund_shares_spec g s rs c :
  0 < g → 0 <= s → 0 <= c → Forall (λ r, 0 <= r) rs →
  ∃ l, refund_shares g s c rs = Ok l ∧ Forall (λ x, 0 <= x) l ∧
       zsum l = floor_share g s (c + zsum rs) - floor_share g s c.
Proof.
  intros Hg Hs Hc Hrs. revert c Hc. induction Hrs as [|r rs Hr Hrs IH]; intros c Hc.
  - exists []. cbn. rewrite Z.add_0_r. repeat split; [constructor|lia].
  - cbn [refund_shares]. rewrite proportional_share_spec, bind_Ok by lia.
    destruct (IH (c + r) ltac:(lia)) as (l & -> & Hl & Hsum). rewrite bind_Ok.
    eexists. split; [done|]. split.
    + constructor; [|done]. pose proof (floor_share_mono g s c (c + r) Hg Hs). lia.
    + rewrite !zsum_cons, Hsum. replace (c + r + zsum rs) with (c + (r + zsum rs)) by lia. lia.
Qed.

(** The shares of successive refunds are non-negative and never add up to
    more than the share itself, and once the refunds reach the gross amount they
    add up to the share exactly, however the refund was cut up. *)
Theorem refund_shares_recover_everything (gross share : Z) (refunds : list Z) :
  0 < gross → 0 <= share → Forall (λ r, 0 <= r) refunds →
  ∃ shares, refund_shares gross share 0 refunds = Ok shares ∧
    Forall (λ x, 0 <= x) shares ∧ zsum shares <= share ∧
    (gross <= zsum refunds → zsum shares = share).
Proof.
  intros Hg Hs Hr. destruct (refund_shares_spec gross share refunds 0) as (l & -> & Hl & Hsum); [done..|].
  exists l. split; [done|]. split; [done|]. rewrite Z.add_0_l in Hsum.
  assert (floor_share gross share 0 = 0) as E by (unfold floor_share; rewrite Z.min_l by lia; by rewrite Z.mul_0_l, Z.div_0_l by lia).
  rewrite E, Z.sub_0_r in Hsum. unfold floor_share in Hsum. split.
  - rewrite Hsum. apply Z.div_le_upper_bound; [done|].
    apply Z.mul_le_mono_nonneg_r; lia.
  - intros Hle. rewrite Hsum, Z.min_r by done. rewrite Z.mul_comm. by apply Z.div_mul; lia.
Qed.

Lemma refund_shares_recover_everything_witness :
  ∃ shares, refund_shares 10000 9500 0 [3333; 3333; 3334] = Ok shares ∧ zsum shares = 9500.
Proof.
  destruct (refund_shares_recover_everything 10000 9500 [3333; 3333; 3334])
    as (shares & H1 & _ & _ & H2); [done|done|by repeat constructor|].
  exists shares. split; [exact H1|]. by apply H2.
Defined.

Lemma rupees_to_paise_spec v d n :
  parse_decimal v = Some d → at_scale 2 d n → 0 <= n < paise_bound → rupees_to_paise v = Ok n.
Proof.
  intros Hv Hd Hn. unfold rupees_to_paise. rewrite Hv.
  rewrite (dltb_at_scale 2 d d_zero n 0 Hd (proj2 (at_scale_zero 2 d_zero) eq_refl)).
  destruct (Z.ltb_spec n 0); [lia|]. cbn [raise_if]. rewrite bind_Ok.
  pose proof (dmul_at_scale 2 (-2) d (d_int 100) n 1 Hd ltac:(done) ltac:(apply fits_paise; lia)) as Hm.
  rewrite Z.mul_1_r in Hm. assert (rescale ROUND_HALF_UP 0 (dmul d (d_int 100)) = n) as E
    by exact (rescale_at_scale ROUND_HALF_UP 0 _ n Hm).
  rewrite q_paise_round; rewrite E; [done|lia].
Qed.

Lemma money_spec n : Z.abs n < 10 * paise_bound → ∃ r, money n = Ok r ∧ at_scale 2 r n.
Proof. intros Hn. by apply ddiv_100, fits_paise. Qed.

(** The gateway charge a breakdown works with. *)
Definition gateway_charge (rate : decimal) (method : option string) (actual : option pyval) (gross : Z) : res Z :=
  match actual with
  | Some c => rupees_to_paise c
  | None => estimate_rzp_charges_paise rate (PInt gross) method
  end.

(** A fresh breakdown conserves every paisa: net plus deduction is the gross,
    fee plus GST is the deduction, margin less loss is the deduction less the
    gateway charge; what the merchant gets never depends on the gateway charge,
    a loss is the platform's, and a payment that did not come through the
    gateway carries no deduction at all. *)
Theorem breakdown_conserves rate gross d g method source actual w :
  parse_decimal gross = Some d → at_scale 2 d g → 0 <= g < paise_bound →
  gateway_charge rate method actual g = Ok w → 0 <= w < paise_bound →
  let online := bool_decide (classify_method method source = KRazorpay) in
  let deduction := if online then deduction_of g else 0 in
  let gateway := if online then w else 0 in
  ∃ b, reporting_breakdown rate gross method source actual None = Ok b ∧
    at_scale 2 (br_gross b) g ∧ at_scale 2 (br_net_to_merchant b) (g - deduction) ∧
    at_scale 2 (br_total_deduction b) deduction ∧
    (∃ fee, at_scale 2 (br_bittu_fee b) fee ∧ at_scale 2 (br_gst_on_fee b) (deduction - fee) ∧
            0 <= fee <= deduction) ∧
    at_scale 2 (br_platform_pool b) (deduction - gateway) ∧
    at_scale 2 (br_platform_margin b) (Z.max (deduction - gateway) 0) ∧
    at_scale 2 (br_platform_loss b) (Z.max (gateway - deduction) 0).
Proof.
  intros Hv Hd Hg Hw Hwb online deduction gateway. unfold reporting_breakdown.
  rewrite (rupees_to_paise_spec gross d g), bind_Ok by done.
  pose proof (deduction_bounds g ltac:(lia)) as Hded.
  cbv zeta. change (bool_decide (classify_method method source = KRazorpay)) with online.
  match goal with |- context [mbind _ (if negb online then _ else ?m)] => set (body := m) end.
  assert ((if negb online then Ok (g, 0) else body) = Ok (g - deduction, gateway)) as ->.
  { unfold deduction, gateway. destruct online; cbn [negb]; [|by rewrite Z.sub_0_r].
    unfold body, entitlement. rewrite merchant_transfer_spec, bind_Ok by done.
    unfold gateway_charge in Hw. by destruct actual; rewrite Hw. }
  assert (0 <= deduction <= g ∧ 0 <= gateway < paise_bound) as [Hdb Hgb]
    by (unfold deduction, gateway; destruct online; lia).
  clearbody deduction gateway. rewrite bind_Ok.
  replace (g - (g - deduction)) with deduction by lia.
  rewrite gst_split_spec, bind_Ok by lia. pose proof (fee_bounds deduction ltac:(lia)) as Hfee.
  destruct (money_spec g) as (m1 & -> & H1); [lia|]. rewrite bind_Ok.
  destruct (money_spec deduction) as (m2 & -> & H2); [lia|]. rewrite bind_Ok.
  destruct (money_spec (g - deduction)) as (m3 & -> & H3); [lia|]. rewrite bind_Ok.
  destruct (money_spec (fee_of deduction)) as (m4 & -> & H4); [lia|]. rewrite bind_Ok.
  destruct (money_spec (deduction - fee_of deduction)) as (m5 & -> & H5); [lia|]. rewrite bind_Ok.
  destruct (money_spec gateway) as (m6 & -> & H6); [lia|]. rewrite bind_Ok.
  destruct (money_spec (deduction - gateway)) as (m7 & -> & H7); [lia|]. rewrite bind_Ok.
  destruct (money_spec (Z.max (deduction - gateway) 0)) as (m8 & -> & H8); [lia|]. rewrite bind_Ok.
  destruct (money_spec (Z.max (- (deduction - gateway)) 0)) as (m9 & -> & H9); [lia|]. rewrite bind_Ok.
  replace (- (deduction - gateway)) with (gateway - deduction) in H9 by lia.
  eexists. split; [done|]. do 3 (split; [done|]). split; [by exists (fee_of deduction)|]. done.
Qed.

Lemma breakdown_conserves_witness :
  ∃ b, reporting_breakdown (Dec 165 (-4)) (PInt 1000) (Some "card"%string) None None None = Ok b ∧
    at_scale 2 (br_net_to_merchant b) 95000 ∧ at_scale 2 (br_platform_margin b) 3350.
Proof.
  destruct (breakdown_conserves (Dec 165 (-4)) (PInt 1000) (d_int 1000) 100000 (Some "card"%string) None None 1650)
    as (b & H1 & _ & H2 & _ & _ & _ & H3 & _); [done..|].
  exists b. exact (conj H1 (conj H2 H3)).
Defined.
