(* ===== verification/MerchantLedger.v ===== *)
(** The merchant ledger: [src/app/services/merchant_ledger_service.py] and the
    SQL functions it calls, of [src/migrations/037_merchant_ledger.sql] (with
    the enum values added by migrations 040 and 090).

    Amounts are NUMERIC(18,4), kept as integers of ten-thousandths.  A row's id
    is its position in the table (the code draws a fresh UUID); [now] and the
    month text of it are read from a [stamp].  The database is passed from call
    to call, and a call that raises changes nothing (its transaction rolls back). *)

From Stdlib Require Import ZArith Lia String Sorted.
From stdpp Require Import sorting.
From S2P Require Import Prelude PyDecimal PyFloat PyValues.
Open Scope Z_scope.

(** ** Data *)

Definition ALLOWED_TXN_TYPES : list string :=
  ["opening_balance"; "payment_received"; "settlement_initiated"; "settlement_completed";
   "settlement_reversed"; "fee_deduction"; "gst_deduction"; "fee_reversal"; "gst_reversal";
   "refund"; "chargeback"; "payout_failure"; "adjustment"; "reserve_hold"; "reserve_release";
   "manual_credit"; "manual_debit"]%string.

(** The enum of the database: what the SQL function accepts. *)
Definition merchant_ledger_txn_type : list string :=
  ALLOWED_TXN_TYPES ++ ["payout_initiated"; "payout_completed"; "payout_reversed"]%string.

(** The arguments of a posting. *)
Record posting := {
  p_merchant : string;
  p_type : string;
  p_debit : pyval;
  p_credit : pyval;
  p_branch : option string;
  p_currency : option string;
  p_source_type : option string;
  p_source_id : option string;
  p_settlement_id : option string;
  p_payment_id : option string;
  p_order_id : option string;
  p_bank_reference : option string;
  p_utr_number : option string;
  p_idempotency_key : option string;
  p_metadata : list (string * string);
  p_created_by : option string;
}.

Record entry := {
  e_id : Z;
  e_merchant : string;
  e_branch : option string;
  e_reference : string;
  e_type : string;
  e_debit : Z;
  e_credit : Z;
  e_balance : Z;
  e_currency : string;
  e_source_type : option string;
  e_source_id : option string;
  e_settlement_id : option string;
  e_payment_id : option string;
  e_order_id : option string;
  e_bank_reference : option string;
  e_utr_number : option string;
  e_idempotency_key : option string;
  e_metadata : list (string * string);
  e_created_at : Z;
  e_created_by : option string;
}.

Record lock_row := { current_balance : Z; last_entry_id : option Z; last_posted_at : option Z; version : Z }.

(** [merchant_ledger] in insertion order, the balance locks by merchant and
    currency, the monthly sequences by merchant and month, and the two
    uniqueness tables. *)
Record ledger_db := {
  ledger : list entry;
  locks : gmap (string * string) lock_row;
  seqs : gmap (string * string) Z;
  idempotency : gmap (string * string) Z;
  references : gset (string * string);
}.

Definition empty_ledger : ledger_db := {|
  ledger := []; locks := ∅; seqs := ∅; idempotency := ∅; references := ∅ |}.

Record stamp := { now : Z; yyyymm : string }.

Definition find_entry (db : ledger_db) (id : Z) : option entry :=
  if id <? 0 then None else ledger db !! Z.to_nat id.

Definition new_lock : lock_row :=
  {| current_balance := 0; last_entry_id := None; last_posted_at := None; version := 0 |}.

(** ** The posting function *)

(** [x::char(3)]: the explicit cast truncates. *)
Definition char3 (s : string) : string := of_chars (take 3 (chars s)).
Definition posting_currency (p : posting) : string := char3 (upper (str_or (p_currency p) "INR")).

Definition ledger_ref (month : string) (seq : Z) : string :=
  ("ML-" ++ month ++ "-" ++ lpad0 8 (nat_text seq))%string.

Definition fn_post_merchant_ledger_entry (s : stamp) (p : posting) (debit credit : decimal) (db : ledger_db)
    : res (ledger_db * entry) :=
  _ ← raise_if (negb (str_mem (p_type p) merchant_ledger_txn_type)) (DatabaseError "invalid enum value");
  v_debit ← numeric_18_4 (ticks debit);
  v_credit ← numeric_18_4 (ticks credit);
  _ ← raise_if ((v_debit <? 0) || (v_credit <? 0)) (DatabaseError "debit/credit must be non-negative");
  _ ← raise_if (Bool.eqb (0 <? v_debit) (0 <? v_credit))
        (DatabaseError "exactly one of debit_amount / credit_amount must be > 0");
  let v_currency := posting_currency p in
  let existing := k ← p_idempotency_key p; id ← idempotency db !! (p_merchant p, k); find_entry db id in
  match existing with
  | Some row => Ok (db, row)
  | None =>
      let lock := default new_lock (locks db !! (p_merchant p, v_currency)) in
      v_new_bal ← numeric_18_4 (current_balance lock + v_credit - v_debit);
      let v_seq := default 0 (seqs db !! (p_merchant p, yyyymm s)) + 1 in
      let v_ref := ledger_ref (yyyymm s) v_seq in
      let v_id := Z.of_nat (length (ledger db)) in
      let v_row := {|
        e_id := v_id; e_merchant := p_merchant p; e_branch := p_branch p; e_reference := v_ref;
        e_type := p_type p; e_debit := v_debit; e_credit := v_credit; e_balance := v_new_bal;
        e_currency := v_currency; e_source_type := p_source_type p; e_source_id := p_source_id p;
        e_settlement_id := p_settlement_id p; e_payment_id := p_payment_id p;
        e_order_id := p_order_id p; e_bank_reference := p_bank_reference p;
        e_utr_number := p_utr_number p; e_idempotency_key := p_idempotency_key p;
        e_metadata := p_metadata p; e_created_at := now s; e_created_by := p_created_by p |} in
      _ ← raise_if (bool_decide ((p_merchant p, v_ref) ∈ references db))
            (DatabaseError "duplicate key merchant_ledger_references");
      idem' ← (match p_idempotency_key p with
               | None => Ok (idempotency db)
               | Some k =>
                   _ ← raise_if (bool_decide (is_Some (idempotency db !! (p_merchant p, k))))
                         (DatabaseError "duplicate key merchant_ledger_idempotency");
                   Ok (<[(p_merchant p, k) := v_id]> (idempotency db))
               end);
      Ok ({| ledger := ledger db ++ [v_row];
             locks := <[(p_merchant p, v_currency) :=
               {| current_balance := v_new_bal; last_entry_id := Some v_id;
                  last_posted_at := Some (now s); version := version lock + 1 |}]> (locks db);
             seqs := <[(p_merchant p, yyyymm s) := v_seq]> (seqs db);
             idempotency := idem';
             references := {[(p_merchant p, v_ref)]} ∪ references db |}, v_row)
  end.

(** [post_entry]: the checks in Python, then the SQL function. *)
Definition post_entry (s : stamp) (p : posting) (db : ledger_db) : res (ledger_db * entry) :=
  _ ← raise_if (negb (str_mem (p_type p) ALLOWED_TXN_TYPES)) (ValidationError "unknown transaction_type");
  d ← decimal_or_zero (p_debit p);
  c ← decimal_or_zero (p_credit p);
  _ ← raise_if (dltb d d_zero || dltb c d_zero) (ValidationError "debit/credit must be non-negative");
  _ ← raise_if (Bool.eqb (dpos d) (dpos c))
        (ValidationError "exactly one of debit_amount / credit_amount must be > 0");
  fn_post_merchant_ledger_entry s p d c db.

(** The SQL function called directly, with the same arguments. *)
Definition post_sql (s : stamp) (p : posting) (db : ledger_db) : res (ledger_db * entry) :=
  d ← decimal_or_zero (p_debit p);
  c ← decimal_or_zero (p_credit p);
  fn_post_merchant_ledger_entry s p d c db.

(** ** Reading *)

Definition _merchant_id (restaurant_id : option string) : res string :=
  if str_truthy restaurant_id then Ok (str_or restaurant_id "")
  else Err (ValidationError "This endpoint requires an active restaurant context.").

Definition get_balance (restaurant_id currency : option string) (db : ledger_db) : res lock_row :=
  mid ← _merchant_id restaurant_id;
  Ok (default new_lock (locks db !! (mid, upper (str_or currency "INR")))).

(** A date filter: a day with its bounds in UTC, an instant, or unparsable. *)
Inductive date_arg := Day (start stop : Z) | Instant (t : Z) | BadDate.

Record filters := {
  f_transaction_type : option string;
  f_settlement_id : option string;
  f_payment_id : option string;
  f_order_id : option string;
  f_utr_number : option string;
  f_from_date : option date_arg;
  f_to_date : option date_arg;
  f_currency : option string;
}.

(** The WHERE conditions [_add] collects; [same x y] is the condition of an
    optional equality filter (the empty string is no filter). *)
Definition same (filter actual : option string) : bool :=
  negb (str_truthy filter) || bool_decide (actual = filter).

Definition lower_bound (d : option date_arg) : res (entry → bool) :=
  match d with
  | None => Ok (λ _, true)
  | Some (Day start _) => Ok (λ e, start <=? e_created_at e)
  | Some (Instant t) => Ok (λ e, t <=? e_created_at e)
  | Some BadDate => Err (ValidationError "invalid from_date")
  end.

Definition upper_bound (d : option date_arg) : res (entry → bool) :=
  match d with
  | None => Ok (λ _, true)
  | Some (Day _ stop) => Ok (λ e, e_created_at e <? stop)
  | Some (Instant t) => Ok (λ e, e_created_at e <=? t)
  | Some BadDate => Err (ValidationError "invalid to_date")
  end.

(** [branch] is the branch a branch user is confined to. *)
Definition entry_filter (mid : string) (branch : option string) (f : filters) : res (entry → bool) :=
  _ ← raise_if (str_truthy (f_transaction_type f)
                && negb (str_mem (str_or (f_transaction_type f) "") ALLOWED_TXN_TYPES))
        (ValidationError "unknown transaction_type");
  from ← lower_bound (f_from_date f);
  to ← upper_bound (f_to_date f);
  Ok (λ e, bool_decide (e_merchant e = mid)
           && bool_decide (e_currency e = upper (str_or (f_currency f) "INR"))
           && same (f_transaction_type f) (Some (e_type e))
           && same (f_settlement_id f) (e_settlement_id e)
           && same (f_payment_id f) (e_payment_id e)
           && same (f_order_id f) (e_order_id e)
           && same (f_utr_number f) (e_utr_number e)
           && from e && to e && same branch (e_branch e)).

(** The keyset: newest first, ties broken by id. *)
Definition key (e : entry) : Z * Z := (e_created_at e, e_id e).
Definition key_lt (a b : Z * Z) : bool := (a.1 <? b.1) || ((a.1 =? b.1) && (a.2 <? b.2)).

(** [ORDER BY created_at DESC, id DESC] *)
Definition newer (a b : entry) : Prop := key_lt (key a) (key b) = false.
#[export] Instance newer_dec a b : Decision (newer a b) := decide (key_lt (key a) (key b) = false).

Fixpoint insert_newest (e : entry) (l : list entry) : list entry :=
  match l with
  | [] => [e]
  | x :: l' => if decide (newer e x) then e :: l else x :: insert_newest e l'
  end.
Definition newest_first (l : list entry) : list entry := foldr insert_newest [] l.

Record page := { items : list entry; next_cursor : option (Z * Z); has_more : bool }.

Definition list_entries (restaurant_id branch : option string) (f : filters) (limit : Z)
    (cursor : option (Z * Z)) (db : ledger_db) : res page :=
  mid ← _merchant_id restaurant_id;
  let limit := Z.max 1 (Z.min limit 200) in
  matches ← entry_filter mid branch f;
  let before e := match cursor with None => true | Some c => key_lt (key e) c end in
  let rows := take (Z.to_nat (limit + 1))
                (filter (λ e, before e = true) (newest_first (filter (λ e, matches e = true) (ledger db)))) in
  let more := limit <? Z.of_nat (length rows) in
  let rows := take (Z.to_nat limit) rows in
  Ok {| items := rows;
        next_cursor := if more then key <$> last rows else None;
        has_more := more |}.

Definition get_entry (restaurant_id : option string) (entry_id : Z) (db : ledger_db) : res entry :=
  mid ← _merchant_id restaurant_id;
  match find_entry db entry_id with
  | Some e => if decide (e_merchant e = mid) then Ok e else Err (NotFoundError "ledger entry")
  | None => Err (NotFoundError "ledger entry")
  end.

(** ** The consistency check *)

Record consistency := {
  entry_count : Z;
  sum_of_movements : Z;
  lock_balance : Z;
  last_balance_after : Z;
  lock_matches_sum : bool;
  last_after_matches_sum : bool;
}.

Definition of_account (m c : string) (e : entry) : bool :=
  bool_decide (e_merchant e = m) && bool_decide (e_currency e = c).
Definition movement (e : entry) : Z := e_credit e - e_debit e.
Definition account (db : ledger_db) (m c : string) : list entry :=
  filter (λ e, of_account m c e = true) (ledger db).

(** [ORDER BY created_at DESC, ledger_reference DESC LIMIT 1]: the later of two
    rows. *)
Definition later (a b : entry) : entry :=
  if (e_created_at a <? e_created_at b)
     || ((e_created_at a =? e_created_at b) && string_ltb (e_reference a) (e_reference b))
  then b else a.
Definition latest (l : list entry) : option entry :=
  match l with [] => None | e :: l' => Some (foldl later e l') end.

Definition fn_check_merchant_ledger_consistency (m : string) (currency : option string) (db : ledger_db)
    : consistency :=
  let c := upper (str_or currency "INR") in
  let l := account db m c in
  let total := zsum (map movement l) in
  let lock := default 0 (current_balance <$> locks db !! (m, c)) in
  let last := default 0 (e_balance <$> latest l) in
  {| entry_count := Z.of_nat (length l); sum_of_movements := total; lock_balance := lock;
     last_balance_after := last; lock_matches_sum := lock =? total;
     last_after_matches_sum := last =? total |}.

Definition verify_consistency (restaurant_id currency : option string) (db : ledger_db) : res consistency :=
  mid ← _merchant_id restaurant_id;
  Ok (fn_check_merchant_ledger_consistency mid (Some (upper (str_or currency "INR"))) db).

(** ** Well-formed ledgers *)

Definition ref_key (e : entry) : string * string := (e_merchant e, e_reference e).
Definition balance (db : ledger_db) (m c : string) : Z :=
  default 0 (current_balance <$> locks db !! (m, c)).
Definition seq_of (db : ledger_db) (m month : string) : Z := default 0 (seqs db !! (m, month)).
Definition account_sum (l : list entry) (m c : string) : Z :=
  zsum (map movement (filter (λ e, of_account m c e = true) l)).

(** Each row moves money one way. *)
Definition one_sided (debit credit : Z) : Prop :=
  0 <= debit ∧ 0 <= credit ∧ Bool.eqb (0 <? debit) (0 <? credit) = false.

Record wf (db : ledger_db) : Prop := {
  wf_ids : ∀ i e, ledger db !! i = Some e → e_id e = Z.of_nat i;
  wf_locks : ∀ m c, balance db m c = account_sum (ledger db) m c;
  wf_running : ∀ i e, ledger db !! i = Some e →
    e_balance e = account_sum (take (S i) (ledger db)) (e_merchant e) (e_currency e);
  wf_sided : Forall (λ e, one_sided (e_debit e) (e_credit e)) (ledger db);
  wf_idem : ∀ m k id, idempotency db !! (m, k) = Some id →
    ∃ e, find_entry db id = Some e ∧ e_merchant e = m ∧ e_idempotency_key e = Some k;
  wf_keys : Forall (λ e, ∀ k, e_idempotency_key e = Some k →
    idempotency db !! (e_merchant e, k) = Some (e_id e)) (ledger db);
  wf_seqs : ∀ m month, 0 <= seq_of db m month;
  wf_refs : ∀ m r, (m, r) ∈ references db →
    ∃ month k, r = ledger_ref month k ∧ 1 <= k <= seq_of db m month ∧ k < 10 ^ 8;
  wf_ref_set : Forall (λ e, ref_key e ∈ references db) (ledger db);
  wf_ref_nodup : NoDup (map ref_key (ledger db));
}.

Lemma account_sum_app l k m c : account_sum (l ++ k) m c = account_sum l m c + account_sum k m c.
Proof. unfold account_sum. by rewrite filter_app, map_app, zsum_app. Qed.

Lemma account_sum_one e m c : account_sum [e] m c = if of_account m c e then movement e else 0.
Proof. unfold account_sum. rewrite filter_cons, filter_nil. destruct (of_account m c e); case_decide; cbn; done || lia. Qed.

Lemma empty_wf : wf empty_ledger.
Proof. by split; try (intros; set_solver); try constructor. Qed.

(** References of different months or sequence numbers differ. *)
Lemma lpad0_length w s : length (chars (lpad0 w s)) = w.
Proof.
  unfold lpad0. rewrite chars_of_chars, length_take, length_app, length_replicate.
  assert (length (chars s) = String.length s) as ->; [|lia].
  induction s as [|c s IH]; [done|]. cbn. f_equal. exact IH.
Qed.

Lemma ledger_ref_inj m1 m2 k1 k2 :
  0 <= k1 < 10 ^ 8 → 0 <= k2 < 10 ^ 8 → ledger_ref m1 k1 = ledger_ref m2 k2 → m1 = m2 ∧ k1 = k2.
Proof.
  intros H1 H2 E. unfold ledger_ref in E. apply (f_equal chars) in E.
  rewrite !chars_app in E. apply app_inv_head in E. rewrite !app_assoc in E.
  apply app_inj_2 in E as [Em Ek]; [|by rewrite !lpad0_length].
  apply app_inj_2 in Em as [Em _]; [|done]. split.
  - apply (f_equal of_chars) in Em. by rewrite !of_chars_chars in Em.
  - apply (f_equal of_chars) in Ek. rewrite !of_chars_chars in Ek.
    by apply (lpad0_inj 8) in Ek; [|lia|..].
Qed.

(** ** Postings *)

(** The posting [p] passes the checks and moves [debit] and [credit]
    ten-thousandths. *)
Definition posts (p : posting) (debit credit : Z) : Prop :=
  str_mem (p_type p) ALLOWED_TXN_TYPES = true ∧
  ∃ d c, decimal_or_zero (p_debit p) = Ok d ∧ decimal_or_zero (p_credit p) = Ok c ∧
    dltb d d_zero = false ∧ dltb c d_zero = false ∧ Bool.eqb (dpos d) (dpos c) = false ∧
    ticks d = debit ∧ ticks c = credit ∧ one_sided debit credit ∧ debit < 10 ^ 18 ∧ credit < 10 ^ 18.

(** The arguments the SQL function accepts, with the types only it knows. *)
Definition posts_sql (p : posting) (debit credit : Z) : Prop :=
  str_mem (p_type p) merchant_ledger_txn_type = true ∧
  ∃ d c, decimal_or_zero (p_debit p) = Ok d ∧ decimal_or_zero (p_credit p) = Ok c ∧
    ticks d = debit ∧ ticks c = credit ∧ one_sided debit credit ∧ debit < 10 ^ 18 ∧ credit < 10 ^ 18.

(** What the row of a posting says. *)
Definition records (s : stamp) (p : posting) (debit credit : Z) (e : entry) : Prop :=
  e_merchant e = p_merchant p ∧ e_type e = p_type p ∧ e_debit e = debit ∧ e_credit e = credit ∧
  e_currency e = posting_currency p ∧ e_idempotency_key e = p_idempotency_key p ∧
  e_created_at e = now s.

(** Room for [n] more rows of the month moving at most [total] in all. *)
Definition room (s : stamp) (m c : string) (n total : Z) (db : ledger_db) : Prop :=
  0 <= n ∧ 0 <= total ∧ Z.abs (balance db m c) + total < 10 ^ 18 ∧ seq_of db m (yyyymm s) + n < 10 ^ 8.

Definition posted (db : ledger_db) (m k : string) : option entry :=
  id ← idempotency db !! (m, k); find_entry db id.

Lemma str_mem_app s l k : str_mem s (l ++ k) = str_mem s l || str_mem s k.
Proof. unfold str_mem. rewrite (bool_decide_ext _ _ (elem_of_app l k s)). apply bool_decide_or. Qed.

Lemma posts_posts_sql p debit credit : posts p debit credit → posts_sql p debit credit.
Proof.
  intros (Ht & d & c & Hd & Hc & _ & _ & _ & H). split; [|by exists d, c].
  unfold merchant_ledger_txn_type. by rewrite str_mem_app, Ht.
Qed.

(** On arguments it accepts, the Python wrapper is the SQL function. *)
Lemma post_entry_sql s p debit credit db : posts p debit credit → post_sql s p db = post_entry s p db.
Proof.
  intros (Ht & d & c & Hd & Hc & Hd0 & Hc0 & Hx & _).
  unfold post_sql, post_entry. rewrite Ht, Hd, Hc. cbn [negb raise_if]. rewrite !bind_Ok, Hd0, Hc0.
  cbn [orb raise_if]. by rewrite bind_Ok, Hx.
Qed.

(** The SQL function after its checks. *)
Definition insert_entry (s : stamp) (p : posting) (debit credit : Z) (db : ledger_db) : ledger_db * entry :=
  let m := p_merchant p in
  let c := posting_currency p in
  let seq := seq_of db m (yyyymm s) + 1 in
  let id := Z.of_nat (length (ledger db)) in
  let bal := balance db m c + credit - debit in
  let row := {|
    e_id := id; e_merchant := m; e_branch := p_branch p; e_reference := ledger_ref (yyyymm s) seq;
    e_type := p_type p; e_debit := debit; e_credit := credit; e_balance := bal; e_currency := c;
    e_source_type := p_source_type p; e_source_id := p_source_id p;
    e_settlement_id := p_settlement_id p; e_payment_id := p_payment_id p; e_order_id := p_order_id p;
    e_bank_reference := p_bank_reference p; e_utr_number := p_utr_number p;
    e_idempotency_key := p_idempotency_key p; e_metadata := p_metadata p; e_created_at := now s;
    e_created_by := p_created_by p |} in
  ({| ledger := ledger db ++ [row];
      locks := <[(m, c) := {| current_balance := bal; last_entry_id := Some id;
        last_posted_at := Some (now s);
        version := version (default new_lock (locks db !! (m, c))) + 1 |}]> (locks db);
      seqs := <[(m, yyyymm s) := seq]> (seqs db);
      idempotency := match p_idempotency_key p with
                     | None => idempotency db
                     | Some k => <[(m, k) := id]> (idempotency db)
                     end;
      references := {[(m, ledger_ref (yyyymm s) seq)]} ∪ references db |}, row).

Definition existing_entry (p : posting) (db : ledger_db) : option entry :=
  k ← p_idempotency_key p; posted db (p_merchant p) k.

Lemma fresh_reference db s m :
  wf db → seq_of db m (yyyymm s) + 1 < 10 ^ 8 →
  (m, ledger_ref (yyyymm s) (seq_of db m (yyyymm s) + 1)) ∉ references db.
Proof.
  intros Hwf Hlt Hin. pose proof (wf_seqs _ Hwf m (yyyymm s)).
  apply (wf_refs _ Hwf) in Hin as (month & k & E & Hk & Hk8).
  apply ledger_ref_inj in E as [<- <-]; lia.
Qed.

(** A posting that passes the checks either replays or inserts. *)
Lemma post_sql_cases s p debit credit db :
  wf db → posts_sql p debit credit →
  (existing_entry p db = None →
   Z.abs (balance db (p_merchant p) (posting_currency p) + credit - debit) < 10 ^ 18 ∧
   seq_of db (p_merchant p) (yyyymm s) + 1 < 10 ^ 8) →
  post_sql s p db = Ok (match existing_entry p db with
                          | Some row => (db, row)
                          | None => insert_entry s p debit credit db
                          end).
Proof.
  intros Hwf (Ht & d & c & Hpd & Hpc & Hd & Hc & (H1 & H2 & H3) & H4 & H5) Hroom.
  unfold post_sql. rewrite Hpd, Hpc, !bind_Ok.
  assert (∀ n, Z.abs n < 10 ^ 18 → numeric_18_4 n = Ok n) as Hnum by (intros; by apply numeric_Ok).
  unfold fn_post_merchant_ledger_entry. rewrite Ht. cbn [negb raise_if]. rewrite bind_Ok, Hd, Hc, !Hnum, !bind_Ok by lia.
  destruct (Z.ltb_spec debit 0); [lia|]. destruct (Z.ltb_spec credit 0); [lia|]. cbn [orb raise_if].
  rewrite bind_Ok, H3. cbn [raise_if]. rewrite bind_Ok.
  assert (current_balance (default new_lock (locks db !! (p_merchant p, posting_currency p)))
          = balance db (p_merchant p) (posting_currency p)) as Hlock
    by (unfold balance; by destruct (locks db !! _)).
  change (k ← p_idempotency_key p; id ← idempotency db !! (p_merchant p, k); find_entry db id)
    with (existing_entry p db).
  destruct (existing_entry p db) as [row|] eqn:Hex; [done|].
  destruct (Hroom eq_refl) as [Hbal Hseq]. clear Hroom.
  rewrite Hlock, Hnum, bind_Ok by lia.
  fold (seq_of db (p_merchant p) (yyyymm s)).
  rewrite (bool_decide_eq_false_2 _ (fresh_reference db s (p_merchant p) Hwf Hseq)).
  cbn [raise_if]. rewrite bind_Ok. unfold insert_entry.
  destruct (p_idempotency_key p) as [k|] eqn:Hk; [|done].
  rewrite bool_decide_eq_false_2; [cbn [raise_if]; by rewrite !bind_Ok|].
  intros [id Hid]. destruct (wf_idem _ Hwf _ _ _ Hid) as (e & He & _).
  unfold existing_entry in Hex. rewrite Hk in Hex. unfold posted in Hex. cbn in Hex.
  rewrite Hid in Hex. cbn in Hex. by rewrite He in Hex.
Qed.

Lemma post_entry_cases s p debit credit db :
  wf db → posts p debit credit →
  (existing_entry p db = None →
   Z.abs (balance db (p_merchant p) (posting_currency p) + credit - debit) < 10 ^ 18 ∧
   seq_of db (p_merchant p) (yyyymm s) + 1 < 10 ^ 8) →
  post_entry s p db = Ok (match existing_entry p db with
                          | Some row => (db, row)
                          | None => insert_entry s p debit credit db
                          end).
Proof.
  intros Hwf Hp. rewrite <-(post_entry_sql s p debit credit db Hp). by apply post_sql_cases, posts_posts_sql.
Qed.

(** ** The invariant is preserved *)

Section Insert.
Context (s : stamp) (p : posting) (debit credit : Z) (db : ledger_db).
Context (Hwf : wf db) (Hsided : one_sided debit credit) (Hnew : existing_entry p db = None).
Context (Hseq : seq_of db (p_merchant p) (yyyymm s) + 1 < 10 ^ 8).
Let db' := (insert_entry s p debit credit db).1.
Let row := (insert_entry s p debit credit db).2.

Lemma insert_balance m c :
  balance db' m c = balance db m c + (if of_account m c row then credit - debit else 0).
Proof.
  unfold db', row, balance, of_account. cbn.
  destruct (decide ((p_merchant p, posting_currency p) = (m, c))) as [[= <- <-]|Hne].
  - rewrite lookup_insert_eq, !bool_decide_eq_true_2 by done. cbn. unfold balance. lia.
  - rewrite lookup_insert_ne by done.
    destruct (bool_decide (p_merchant p = m)) eqn:E1; [|cbn; lia].
    destruct (bool_decide (posting_currency p = c)) eqn:E2; [|cbn; lia].
    apply bool_decide_eq_true in E1, E2. by subst.
Qed.

Lemma insert_seq m month :
  seq_of db' m month
  = seq_of db m month + (if decide ((m, month) = (p_merchant p, yyyymm s)) then 1 else 0).
Proof.
  unfold db', seq_of. cbn. case_decide as E.
  - injection E as -> ->. by rewrite lookup_insert_eq.
  - rewrite lookup_insert_ne by done. lia.
Qed.

Lemma find_entry_new id e : find_entry db id = Some e → find_entry db' id = Some e.
Proof.
  unfold find_entry, db'. destruct (id <? 0); [done|]. intros H. cbn. by apply lookup_app_l_Some.
Qed.

Lemma find_row : find_entry db' (e_id row) = Some row.
Proof.
  unfold find_entry, db', row. cbn. destruct (Z.ltb_spec (Z.of_nat (length (ledger db))) 0); [lia|].
  rewrite Nat2Z.id. by apply list_lookup_middle.
Qed.

Lemma insert_idempotency m k :
  idempotency db' !! (m, k)
  = if decide (m = p_merchant p ∧ Some k = p_idempotency_key p) then Some (e_id row)
    else idempotency db !! (m, k).
Proof.
  unfold db', row. cbn. destruct (p_idempotency_key p) as [k'|].
  - case_decide as E.
    + destruct E as [Em [= Ek]]. rewrite Em, Ek. apply lookup_insert_eq.
    + apply lookup_insert_ne. intros [= Em Ek]. apply E. by rewrite Em, Ek.
  - by rewrite decide_False by naive_solver.
Qed.

Lemma insert_posted m k :
  posted db' m k
  = if decide (m = p_merchant p ∧ Some k = p_idempotency_key p) then Some row else posted db m k.
Proof using Hwf.
  assert (∀ id, idempotency db !! (m, k) = Some id → find_entry db' id = find_entry db id) as Hold.
  { intros id Hid. destruct (wf_idem _ Hwf _ _ _ Hid) as (e & He & _).
    rewrite He. by apply find_entry_new. }
  assert (posted db m k = id ← idempotency db !! (m, k); find_entry db' id) as Hpost.
  { unfold posted. destruct (idempotency db !! (m, k)) as [id|] eqn:E; [|done].
    exact (eq_sym (Hold id eq_refl)). }
  unfold posted at 1. rewrite insert_idempotency. case_decide as E; [apply find_row|by rewrite Hpost].
Qed.

Lemma insert_wf : wf db'.
Proof using Hwf Hsided Hnew Hseq.
  assert (∀ i e, ledger db' !! i = Some e → ledger db !! i = Some e ∨ (i = length (ledger db) ∧ e = row)) as Hrows.
  { intros i e. unfold db'. cbn. intros [H|[H1 H2]]%lookup_app_Some; [by left|right].
    apply list_lookup_singleton_Some in H2 as [H2 <-]. split; [lia|done]. }
  split.
  - intros i e [H|[-> ->]]%Hrows; [by apply (wf_ids _ Hwf)|done].
  - intros m c. rewrite insert_balance, (wf_locks _ Hwf). unfold db'. cbn [ledger fst insert_entry].
    by rewrite account_sum_app, account_sum_one.
  - intros i e [H|[-> ->]]%Hrows.
    + unfold db'. cbn [ledger fst insert_entry]. rewrite take_app_le; [by apply (wf_running _ Hwf)|].
      apply lookup_lt_Some in H. lia.
    + unfold db'. cbn [ledger fst insert_entry]. rewrite take_ge by (rewrite length_app; cbn; lia).
      rewrite account_sum_app, <-(wf_locks _ Hwf), account_sum_one. unfold row, of_account. cbn.
      rewrite !bool_decide_eq_true_2 by done. cbn. unfold movement. cbn. lia.
  - unfold db'. cbn. apply Forall_app. split; [exact (wf_sided _ Hwf)|by apply Forall_singleton].
  - intros m k id Hid. rewrite insert_idempotency in Hid. case_decide as E.
    + destruct E as [-> Hk]. injection Hid as <-. exists row. split; [apply find_row|]. by split.
    + destruct (wf_idem _ Hwf _ _ _ Hid) as (e & He & ?). exists e. split; [by apply find_entry_new|done].
  - change (ledger db') with (ledger db ++ [row]). apply Forall_app. split.
    + eapply Forall_impl; [exact (wf_keys _ Hwf)|]. intros e He k Hk. specialize (He k Hk).
      rewrite insert_idempotency. case_decide as E; [|done]. destruct E as [Em Ek].
      unfold existing_entry in Hnew. rewrite <-Ek in Hnew. cbn in Hnew. unfold posted in Hnew.
      rewrite <-Em, He in Hnew. cbn in Hnew. destruct (wf_idem _ Hwf _ _ _ He) as (e' & He' & _).
      by rewrite He' in Hnew.
    + apply Forall_singleton. intros k Hk. rewrite insert_idempotency. by rewrite decide_True.
  - intros m month. rewrite insert_seq. pose proof (wf_seqs _ Hwf m month). case_decide; lia.
  - intros m r. unfold db'. cbn. rewrite elem_of_union, elem_of_singleton.
    pose proof (wf_seqs _ Hwf (p_merchant p) (yyyymm s)) as Hs0.
    intros [[= -> ->]|Hr].
    + exists (yyyymm s), (seq_of db (p_merchant p) (yyyymm s) + 1). fold db'.
      rewrite insert_seq, decide_True by done. split; [done|]. lia.
    + destruct (wf_refs _ Hwf _ _ Hr) as (month & k & -> & Hk & Hk8). exists month, k. fold db'.
      rewrite insert_seq. split; [done|]. case_decide; lia.
  - unfold db'. cbn. apply Forall_app. split.
    + eapply Forall_impl; [exact (wf_ref_set _ Hwf)|]. set_solver.
    + apply Forall_singleton. cbn. unfold ref_key. cbn. set_solver.
  - unfold db'. cbn. rewrite map_app. apply NoDup_app. split; [exact (wf_ref_nodup _ Hwf)|].
    split; [|apply NoDup_singleton]. intros x Hx%list_elem_of_In Hin.
    apply list_elem_of_singleton in Hin. subst x. apply in_map_iff in Hx as (e & He & Hin%list_elem_of_In).
    pose proof (proj1 (Forall_forall _ _) (wf_ref_set _ Hwf) e Hin) as Href. cbn in Href.
    rewrite He in Href. by apply (fresh_reference db s (p_merchant p) Hwf Hseq) in Href.
Qed.
End Insert.

(** ** The interface *)

(** What the ledger promises its callers: posting under a fresh idempotency key
    succeeds while there is room and moves exactly its amount on its account;
    posting under a used key changes nothing and returns the row of that key. *)
Class LedgerApi (L : Type) := {
  api_post : stamp → posting → L → res (L * entry);
  api_post_sql : stamp → posting → L → res (L * entry);
  api_wf : L → Prop;
  api_balance : L → string → string → Z;
  api_posted : L → string → string → option entry;
  api_room : stamp → string → string → Z → Z → L → Prop;
  api_post_sql_new s p debit credit k n total db :
    api_wf db → posts_sql p debit credit → p_idempotency_key p = Some k →
    api_posted db (p_merchant p) k = None →
    0 <= n → 0 <= total →
    api_room s (p_merchant p) (posting_currency p) (1 + n) (Z.abs (credit - debit) + total) db →
    ∃ db' e, api_post_sql s p db = Ok (db', e) ∧ api_wf db' ∧ records s p debit credit e ∧
      (∀ m c, api_balance db' m c = api_balance db m c
         + (if bool_decide (p_merchant p = m) && bool_decide (posting_currency p = c)
            then credit - debit else 0)) ∧
      (∀ m k', api_posted db' m k'
         = if decide (m = p_merchant p ∧ k' = k) then Some e else api_posted db m k') ∧
      api_room s (p_merchant p) (posting_currency p) n total db';
  api_post_sql_old s p debit credit k e db :
    api_wf db → posts_sql p debit credit → p_idempotency_key p = Some k →
    api_posted db (p_merchant p) k = Some e → api_post_sql s p db = Ok (db, e);
  api_post_sql_eq s p debit credit db :
    posts p debit credit → api_post_sql s p db = api_post s p db;
  api_room_month s s' m c n total db :
    yyyymm s = yyyymm s' → api_room s m c n total db → api_room s' m c n total db;
}.

#[export] Instance ledger_api : LedgerApi ledger_db.
Proof.
  refine {| api_post := post_entry; api_post_sql := post_sql; api_wf := wf; api_balance := balance; api_posted := posted;
            api_room := room |}.
  - intros s p debit credit k n total db Hwf Hp Hk Hnew Hn Ht (_ & _ & Hbal & Hseq).
    assert (existing_entry p db = None) as Hex by (unfold existing_entry; by rewrite Hk).
    assert (one_sided debit credit) as Hsided by (destruct Hp as (_ & ? & ? & ?); tauto).
    assert (seq_of db (p_merchant p) (yyyymm s) + 1 < 10 ^ 8) as Hs1 by lia.
    exists (insert_entry s p debit credit db).1, (insert_entry s p debit credit db).2. split.
    { rewrite (post_sql_cases s p debit credit db Hwf Hp), Hex; [reflexivity|].
      intros _. split; lia. }
    split; [by apply insert_wf|]. split; [done|]. split; [|split].
    + intros m c. by rewrite insert_balance.
    + intros m k'. rewrite insert_posted by done. rewrite Hk. repeat case_decide; naive_solver.
    + repeat split; try done.
      * rewrite insert_balance. case_match; lia.
      * rewrite insert_seq, decide_True by done. lia.
  - intros s p debit credit k e db Hwf Hp Hk He.
    assert (existing_entry p db = Some e) as Hex by (unfold existing_entry; by rewrite Hk).
    rewrite (post_sql_cases s p debit credit db Hwf Hp), Hex; [done|]. by rewrite Hex.
  - intros s p debit credit db. apply post_entry_sql.
  - intros s s' m c n total db Hs. unfold room. by rewrite Hs.
Defined.

(** The same promises for the Python entry point. *)
Lemma api_post_new {L} `{LedgerApi L} s p debit credit k n total (db : L) :
  api_wf db → posts p debit credit → p_idempotency_key p = Some k →
  api_posted db (p_merchant p) k = None →
  0 <= n → 0 <= total →
  api_room s (p_merchant p) (posting_currency p) (1 + n) (Z.abs (credit - debit) + total) db →
  ∃ db' e, api_post s p db = Ok (db', e) ∧ api_wf db' ∧ records s p debit credit e ∧
    (∀ m c, api_balance db' m c = api_balance db m c
       + (if bool_decide (p_merchant p = m) && bool_decide (posting_currency p = c)
          then credit - debit else 0)) ∧
    (∀ m k', api_posted db' m k'
       = if decide (m = p_merchant p ∧ k' = k) then Some e else api_posted db m k') ∧
    api_room s (p_merchant p) (posting_currency p) n total db'.
Proof.
  intros Hwf Hp. rewrite <-(api_post_sql_eq s p debit credit db Hp).
  by apply api_post_sql_new, posts_posts_sql.
Qed.

Lemma api_post_old {L} `{LedgerApi L} s p debit credit k e (db : L) :
  api_wf db → posts p debit credit → p_idempotency_key p = Some k →
  api_posted db (p_merchant p) k = Some e → api_post s p db = Ok (db, e).
Proof.
  intros Hwf Hp. rewrite <-(api_post_sql_eq s p debit credit db Hp).
  intros Hk He. eapply api_post_sql_old; [done|by apply posts_posts_sql|done..].
Qed.

(** ** Posting several rows *)

(** A posting that moves [amount] ten-thousandths on account [m], [c]. *)
Definition moves (m c : string) (p : posting) (amount : Z) : Prop :=
  p_merchant p = m ∧ posting_currency p = c ∧
  ∃ debit credit, posts p debit credit ∧ amount = credit - debit.

Section PostAll.
Context {L : Type} `{LedgerApi L} (s : stamp).

Fixpoint post_all (ps : list posting) (db : L) : res L :=
  match ps with
  | [] => Ok db
  | p :: ps' => r ← api_post s p db; post_all ps' r.1
  end.

Lemma post_all_app ps qs db : post_all (ps ++ qs) db = (db' ← post_all ps db; post_all qs db').
Proof.
  revert db. induction ps as [|p ps IH]; intros db; [done|]. cbn [app post_all].
  destruct (api_post s p db) as [[db' e]|e]; [|done]. rewrite !bind_Ok. apply IH.
Qed.

(** Fresh, distinct keys and room for the whole: all rows are posted. *)
Lemma post_all_new m c ps amounts keys db n total :
  api_wf db → Forall2 (moves m c) ps amounts → Forall2 (λ p k, p_idempotency_key p = Some k) ps keys →
  NoDup keys → Forall (λ k, api_posted db m k = None) keys → 0 <= n → 0 <= total →
  api_room s m c (Z.of_nat (length ps) + n) (zsum (map Z.abs amounts) + total) db →
  ∃ db', post_all ps db = Ok db' ∧ api_wf db' ∧
    (∀ m' c', api_balance db' m' c' = api_balance db m' c'
       + (if bool_decide (m = m') && bool_decide (c = c') then zsum amounts else 0)) ∧
    (∀ m' k, (m' ≠ m ∨ k ∉ keys) → api_posted db' m' k = api_posted db m' k) ∧
    Forall (λ k, is_Some (api_posted db' m k)) keys ∧ api_room s m c n total db'.
Proof.
  intros Hwf Hps. revert keys db Hwf.
  induction Hps as [|p a ps amounts (Hm & Hc & debit & credit & Hp & Ha) Hps IH];
    intros keys db Hwf Hkeys Hnd Hfresh Hn Ht Hroom.
  { inversion Hkeys; subst. exists db. cbn in *. split; [done|]. split; [done|].
    split; [intros; case_match; lia|]. repeat split; done || constructor. }
  inversion Hkeys as [|? k ? keys' Hk Hkeys']; subst. apply NoDup_cons in Hnd as [Hk_in Hnd].
  apply Forall_cons in Hfresh as [Hk_new Hfresh]. cbn [map length] in Hroom. rewrite zsum_cons in Hroom.
  assert (0 <= zsum (map Z.abs amounts)) as Habs.
  { apply zsum_nonneg. clear. induction amounts; cbn; constructor; [lia|done]. }
  destruct (api_post_new s p debit credit k (Z.of_nat (length ps) + n) (zsum (map Z.abs amounts) + total) db)
    as (db1 & e & Hpost & Hwf1 & _ & Hbal & Hposted & Hroom1); [done..|lia|lia| |].
  { replace (1 + (Z.of_nat (length ps) + n)) with (Z.of_nat (S (length ps)) + n) by lia.
    by rewrite Z.add_assoc. }
  destruct (IH keys' db1) as (db' & Hall & Hwf' & Hbal' & Hposted' & Hsome & Hroom'); try done.
  { eapply Forall_impl; [apply Forall_and; split; [exact Hfresh|apply Forall_forall; intros x Hx; exact Hx]|].
    intros x [Hx Hin]. rewrite Hposted, decide_False; [done|]. intros [_ ->]. done. }
  exists db'. cbn [post_all]. rewrite Hpost, bind_Ok. split; [done|]. split; [done|]. split; [|split; [|split]].
  - intros m' c'. rewrite Hbal', Hbal, zsum_cons. case_match; lia.
  - intros m' k' Hne. rewrite Hposted' by set_solver. rewrite Hposted, decide_False; [done|].
    intros [-> ->]. set_solver.
  - constructor; [|done]. rewrite Hposted' by (by right). rewrite Hposted, decide_True by done. by eexists.
  - done.
Qed.

(** All keys used: nothing changes. *)
Lemma post_all_old m c ps amounts keys db :
  api_wf db → Forall2 (moves m c) ps amounts → Forall2 (λ p k, p_idempotency_key p = Some k) ps keys →
  Forall (λ k, is_Some (api_posted db m k)) keys → post_all ps db = Ok db.
Proof.
  intros Hwf Hps. revert keys. induction Hps as [|p a ps amounts (Hm & Hc & debit & credit & Hp & Ha) Hps IH];
    intros keys Hkeys Hold; [done|].
  inversion Hkeys as [|? k ? keys' Hk Hkeys']; subst. apply Forall_cons in Hold as [[e He] Hold].
  cbn [post_all]. rewrite (api_post_old s p debit credit k e db), bind_Ok by done. by eapply IH.
Qed.
End PostAll.

(** ** Properties *)

Lemma post_entry_posts s p db r : post_entry s p db = Ok r → ∃ debit credit, posts p debit credit.
Proof.
  unfold post_entry. intros H.
  apply res_bind_Ok in H as ([] & H1 & H). apply res_bind_Ok in H as (d & Hd & H).
  apply res_bind_Ok in H as (c & Hc & H). apply res_bind_Ok in H as ([] & H2 & H).
  apply res_bind_Ok in H as ([] & H3 & H). unfold fn_post_merchant_ledger_entry in H.
  apply res_bind_Ok in H as ([] & _ & H). apply res_bind_Ok in H as (vd & Hvd & H).
  apply res_bind_Ok in H as (vc & Hvc & H). apply res_bind_Ok in H as ([] & H4 & H).
  apply res_bind_Ok in H as ([] & H5 & _).
  apply raise_if_Ok in H1, H2, H3, H4, H5. apply negb_false_iff in H1.
  apply orb_false_iff in H2 as [Hd0 Hc0], H4 as [H6%Z.ltb_ge H7%Z.ltb_ge].
  apply numeric_Ok in Hvd as [-> Hvd], Hvc as [-> Hvc].
  exists (ticks d), (ticks c). split; [done|]. exists d, c. repeat split; done || lia.
Qed.

Lemma post_entry_room s p debit credit db r :
  wf db → posts p debit credit → existing_entry p db = None → post_entry s p db = Ok r →
  Z.abs (balance db (p_merchant p) (posting_currency p) + credit - debit) < 10 ^ 18.
Proof.
  intros Hwf Hp Hex. rewrite <-(post_entry_sql s p debit credit db Hp).
  destruct Hp as (_ & d & c & Hpd & Hpc & _ & _ & _ & Hd & Hc & _).
  unfold post_sql. rewrite Hpd, Hpc, !bind_Ok. unfold fn_post_merchant_ledger_entry. intros H.
  apply res_bind_Ok in H as ([] & _ & H). apply res_bind_Ok in H as (vd & Hvd & H).
  apply res_bind_Ok in H as (vc & Hvc & H). apply res_bind_Ok in H as ([] & _ & H).
  apply res_bind_Ok in H as ([] & _ & H). apply numeric_Ok in Hvd as [-> _], Hvc as [-> _].
  change (k ← p_idempotency_key p; id ← idempotency db !! (p_merchant p, k); find_entry db id)
    with (existing_entry p db) in H. rewrite Hex in H.
  apply res_bind_Ok in H as (b & Hb & _). apply numeric_Ok in Hb as [_ Hb].
  rewrite Hd, Hc in Hb. unfold balance. by destruct (locks db !! _).
Qed.

(** A successful posting replays or inserts, and keeps the ledger well-formed. *)
Lemma post_entry_Ok s p db db' e :
  wf db → seq_of db (p_merchant p) (yyyymm s) + 1 < 10 ^ 8 → post_entry s p db = Ok (db', e) →
  ∃ debit credit, posts p debit credit ∧
    ((existing_entry p db = Some e ∧ db' = db) ∨
     (existing_entry p db = None ∧ (db', e) = insert_entry s p debit credit db ∧ wf db')).
Proof.
  intros Hwf Hseq H. destruct (post_entry_posts _ _ _ _ H) as (debit & credit & Hp).
  exists debit, credit. split; [done|].
  destruct (existing_entry p db) as [row|] eqn:Hex.
  - rewrite (post_entry_cases s p debit credit db Hwf Hp), Hex in H by (by rewrite Hex).
    injection H as <- <-. by left.
  - right. split; [done|].
    pose proof (post_entry_room s p debit credit db _ Hwf Hp Hex H) as Hroom.
    assert (one_sided debit credit) as Hsided by (destruct Hp as (_ & ? & ? & ?); tauto).
    rewrite (post_entry_cases s p debit credit db Hwf Hp), Hex in H by done.
    assert ((db', e) = insert_entry s p debit credit db) as Hi by congruence.
    split; [exact Hi|]. apply (f_equal fst) in Hi. cbn [fst] in Hi. rewrite Hi. by apply insert_wf.
Qed.

(** C2: a successful posting either finds its key used and changes nothing, or
    appends exactly one row, whose running balance is the account's new balance;
    no other account's balance moves, and the ledger stays well-formed. *)
Theorem post_entry_appends_once s p db db' e :
  wf db → seq_of db (p_merchant p) (yyyymm s) + 1 < 10 ^ 8 → post_entry s p db = Ok (db', e) →
  wf db' ∧
  (existing_entry p db = Some e ∧ db' = db ∨
   existing_entry p db = None ∧ ledger db' = ledger db ++ [e] ∧
   e_merchant e = p_merchant p ∧ e_currency e = posting_currency p ∧ e_type e = p_type p ∧
   e_balance e = balance db' (e_merchant e) (e_currency e) ∧
   ∀ m c, balance db' m c = balance db m c + (if of_account m c e then movement e else 0)).
Proof.
  intros Hwf Hseq H. destruct (post_entry_Ok s p db db' e Hwf Hseq H)
    as (debit & credit & Hp & [[Hex ->]|(Hex & Hi & Hwf')]); [split; [done|by left]|].
  split; [done|]. right. split; [done|].
  pose proof (insert_balance s p debit credit db) as Hbal. rewrite <-Hi in Hbal.
  apply (f_equal snd) in Hi as He. apply (f_equal fst) in Hi as Hd. cbn [fst snd] in *.
  assert (movement e = credit - debit) as Hmv by (by rewrite He).
  split; [by rewrite Hd, He|]. split; [by rewrite He|]. split; [by rewrite He|]. split; [by rewrite He|].
  split; [|intros m c; rewrite Hmv; apply Hbal].
  rewrite Hbal. unfold of_account. rewrite !bool_decide_eq_true_2 by done. rewrite He. cbn. lia.
Qed.

(** Posting is idempotent in its key: the same posting again, or any other
    valid posting under the same key, returns the first row and changes
    nothing. *)
Theorem post_entry_idempotent s p db db' e s2 p2 debit2 credit2 k :
  wf db → seq_of db (p_merchant p) (yyyymm s) + 1 < 10 ^ 8 → post_entry s p db = Ok (db', e) →
  p_idempotency_key p = Some k → p_idempotency_key p2 = Some k → p_merchant p2 = p_merchant p →
  posts p2 debit2 credit2 →
  post_entry s2 p2 db' = Ok (db', e).
Proof.
  intros Hwf Hseq H Hk Hk2 Hm Hp2.
  destruct (post_entry_Ok s p db db' e Hwf Hseq H)
    as (debit & credit & Hp & [[Hex ->]|(Hex & Hi & Hwf')]).
  - assert (existing_entry p2 db = Some e) as Hex2.
    { unfold existing_entry in *. by rewrite Hk2, Hm; rewrite Hk in Hex. }
    rewrite (post_entry_cases s2 p2 debit2 credit2 db Hwf Hp2), Hex2; [done|]. by rewrite Hex2.
  - assert (existing_entry p2 db' = Some e) as Hex2.
    { unfold existing_entry. rewrite Hk2. cbn [mbind option_bind]. rewrite Hm.
      apply (f_equal fst) in Hi as Hd. apply (f_equal snd) in Hi as He. cbn [fst snd] in *.
      rewrite Hd, insert_posted, decide_True by (try done; by rewrite Hk). by rewrite He. }
    rewrite (post_entry_cases s2 p2 debit2 credit2 db' Hwf' Hp2), Hex2; [done|]. by rewrite Hex2.
Qed.

(** ** Reachable ledgers *)

(** The ledgers that postings build from the empty one. *)
Inductive reachable : ledger_db → Prop :=
  | reachable_empty : reachable empty_ledger
  | reachable_post db s p db' e :
      reachable db → seq_of db (p_merchant p) (yyyymm s) + 1 < 10 ^ 8 →
      post_entry s p db = Ok (db', e) → reachable db'.

Lemma reachable_wf db : reachable db → wf db.
Proof.
  induction 1 as [|db s p db' e _ IH Hseq H]; [exact empty_wf|].
  destruct (post_entry_Ok s p db db' e IH Hseq H) as (? & ? & _ & [[_ ->]|(_ & _ & ?)]); done.
Qed.

(** C3: on every reachable ledger the consistency check finds the lock's running
    balance equal to the sum of the movements, for every merchant and currency. *)
Theorem reachable_consistent db m currency :
  reachable db →
  let report := fn_check_merchant_ledger_consistency m currency db in
  lock_matches_sum report = true ∧ sum_of_movements report = lock_balance report ∧
  entry_count report = Z.of_nat (length (account db m (upper (str_or currency "INR")))).
Proof.
  intros Hr%reachable_wf. set (c := upper (str_or currency "INR")). cbn. fold c.
  pose proof (wf_locks _ Hr m c) as H. unfold balance in H. unfold account_sum in H.
  fold (account db m c) in H. rewrite H. split; [apply Z.eqb_refl|done].
Qed.

(** ** The latest row *)

Section InOrder.
(** [to_char(now, 'YYYYMM')]. *)
Variable month_of : Z → string.

(** Postings whose transactions start in the order they take the lock. *)
Inductive reachable_in_order : ledger_db → Prop :=
  | in_order_empty : reachable_in_order empty_ledger
  | in_order_post db s p db' e :
      reachable_in_order db → yyyymm s = month_of (now s) →
      Forall (λ x, e_created_at x <= now s) (ledger db) →
      seq_of db (p_merchant p) (yyyymm s) + 1 < 10 ^ 8 →
      post_entry s p db = Ok (db', e) → reachable_in_order db'.

Lemma in_order_reachable db : reachable_in_order db → reachable db.
Proof. induction 1; [constructor|by econstructor]. Qed.

(** Row [b] comes after row [a] in the order of the check. *)
Definition after (a b : entry) : Prop :=
  e_merchant a = e_merchant b →
  e_created_at a < e_created_at b ∨
  e_created_at a = e_created_at b ∧ string_ltb (e_reference a) (e_reference b) = true.

Definition ordered_refs (db : ledger_db) : Prop :=
  Forall (λ e, ∃ k, e_reference e = ledger_ref (month_of (e_created_at e)) k ∧
    1 <= k <= seq_of db (e_merchant e) (month_of (e_created_at e))) (ledger db).

Lemma ledger_ref_lt month j k :
  0 <= j < k → k < 10 ^ 8 → string_ltb (ledger_ref month j) (ledger_ref month k) = true.
Proof.
  intros Hj Hk. unfold ledger_ref. rewrite !string_ltb_prefix. by apply (lpad0_lt 8); [lia|..].
Qed.

Lemma in_order_invariant db :
  reachable_in_order db → wf db ∧ ordered_refs db ∧ StronglySorted after (ledger db).
Proof.
  induction 1 as [|db s p db' e _ (Hwf & Hrefs & Hsorted) Hmonth Hnow Hseq H].
  { split; [exact empty_wf|]. split; constructor. }
  destruct (post_entry_Ok s p db db' e Hwf Hseq H) as (debit & credit & _ & [[_ ->]|(_ & Hi & Hwf')]);
    [exact (conj Hwf (conj Hrefs Hsorted))|].
  split; [done|]. pose proof (insert_seq s p debit credit db) as Hs'. rewrite <-Hi in Hs'.
  apply (f_equal fst) in Hi as Hd. apply (f_equal snd) in Hi as He. cbn [fst snd] in *.
  assert (ledger db' = ledger db ++ [e]) as Hl by (by rewrite Hd, He).
  pose proof (wf_seqs _ Hwf (p_merchant p) (yyyymm s)) as H0.
  assert (e_reference e = ledger_ref (month_of (e_created_at e)) (seq_of db (p_merchant p) (yyyymm s) + 1)
          ∧ e_merchant e = p_merchant p ∧ e_created_at e = now s) as (Hre & Hme & Hce).
  { rewrite He. cbn. rewrite <-Hmonth. done. }
  split.
  - unfold ordered_refs. rewrite Hl. apply Forall_app. split.
    + eapply Forall_impl; [exact Hrefs|]. cbn beta. intros x (k & Hk & Hkb). exists k. split; [done|].
      rewrite Hs'. case_decide; lia.
    + apply Forall_singleton. exists (seq_of db (p_merchant p) (yyyymm s) + 1). split; [done|].
      rewrite Hs', Hme, Hce, <-Hmonth, decide_True by done. lia.
  - rewrite Hl. apply StronglySorted_app_2; [|done|by repeat constructor].
    intros x y Hx Hy%list_elem_of_singleton Hm. subst y.
    pose proof (proj1 (Forall_forall _ _) Hnow x Hx) as Hle.
    pose proof (proj1 (Forall_forall _ _) Hrefs x Hx) as (k & Hk & Hkb). cbn beta in *.
    destruct (decide (e_created_at x = now s)) as [E|]; [right|left; lia]. rewrite Hce. split; [done|].
    rewrite Hk, Hre, Hce, E. rewrite E, Hm, Hme, <-Hmonth in Hkb. apply ledger_ref_lt; lia.
Qed.

Lemma foldl_later l a :
  StronglySorted (λ x y, later x y = y) (a :: l) → foldl later a l = default a (last l).
Proof.
  revert a. induction l as [|b l IH]; intros a H; [done|].
  apply StronglySorted_inv in H as [H Ha]. cbn [foldl].
  rewrite (Forall_inv Ha). rewrite IH, last_cons by done. by destruct (last l).
Qed.

Lemma after_later a b : e_merchant a = e_merchant b → after a b → later a b = b.
Proof.
  intros Hm Hab. unfold later. destruct (Hab Hm) as [Hlt|[-> ->]].
  - by destruct (Z.ltb_spec (e_created_at a) (e_created_at b)); [|lia].
  - by rewrite Z.eqb_refl, orb_true_r.
Qed.

Lemma latest_last db m c :
  StronglySorted after (ledger db) → latest (account db m c) = last (account db m c).
Proof.
  intros Hs. assert (StronglySorted (λ x y, later x y = y) (account db m c)) as Ha.
  { unfold account. induction Hs as [|a l Hs IH Hall]; [constructor|]. rewrite filter_cons.
    case_decide as E; [|done]. constructor; [done|]. apply Forall_forall. intros b [Eb Hb]%list_elem_of_filter.
    apply after_later; [|by eapply Forall_forall in Hall].
    unfold of_account in *. apply andb_true_iff in E as [E _], Eb as [Eb _].
    apply bool_decide_eq_true in E, Eb. congruence. }
  destruct (account db m c) as [|a l]; [done|]. cbn [latest]. rewrite foldl_later, last_cons by done.
  by destruct (last l).
Qed.

(** When transactions reach the lock in the order they started, the newest
    row of an account carries the sum of its movements, so both comparisons of
    the consistency check hold. *)
Theorem in_order_last_row db m currency :
  reachable_in_order db →
  let report := fn_check_merchant_ledger_consistency m currency db in
  lock_matches_sum report = true ∧ last_after_matches_sum report = true.
Proof.
  intros Hr. destruct (in_order_invariant db Hr) as (Hwf & _ & Hsorted).
  set (c := upper (str_or currency "INR")). cbn. fold c.
  pose proof (wf_locks _ Hwf m c) as Hlock. unfold balance, account_sum in Hlock. fold (account db m c) in Hlock.
  rewrite Hlock. split; [apply Z.eqb_refl|]. rewrite latest_last by done. apply Z.eqb_eq.
  unfold account. pose proof (wf_running _ Hwf) as Hrun. clear Hsorted Hlock Hwf Hr.
  induction (ledger db) as [|x l IH] using rev_ind; [done|].
  rewrite filter_app, filter_cons, filter_nil. case_decide as E.
  - rewrite last_snoc. cbn. rewrite (Hrun (length l) x) by (by apply list_lookup_middle).
    rewrite take_ge by (rewrite length_app; cbn; lia). unfold account_sum.
    unfold of_account in E. apply andb_true_iff in E as [E1%bool_decide_eq_true E2%bool_decide_eq_true].
    rewrite E1, E2. by rewrite filter_app, filter_cons, filter_nil, decide_True
      by (unfold of_account; by rewrite E1, E2, !bool_decide_eq_true_2).
  - rewrite !app_nil_r. apply IH. intros i e Hi. rewrite (Hrun i e) by (by apply lookup_app_l_Some).
    rewrite take_app_le; [done|]. apply lookup_lt_Some in Hi. lia.
Qed.
End InOrder.

(** ** Pagination *)

Lemma key_lt_trans a b c : key_lt a b = true → key_lt b c = true → key_lt a c = true.
Proof. destruct a, b, c. unfold key_lt. cbn. lia. Qed.

Lemma key_total a b : key_lt a b = false → a ≠ b → key_lt b a = true.
Proof. destruct a, b. unfold key_lt. cbn. intros. destruct (decide (z = z1)), (decide (z0 = z2)); [congruence|lia..]. Qed.

(** [b] is listed strictly after [a]. *)
Definition older (a b : entry) : Prop := key_lt (key b) (key a) = true.

Lemma insert_newest_perm e l : insert_newest e l ≡ₚ e :: l.
Proof.
  induction l as [|x l IH]; [done|]. cbn. case_decide; [done|]. rewrite IH. apply Permutation_swap.
Qed.

Lemma newest_first_perm l : newest_first l ≡ₚ l.
Proof.
  induction l as [|x l IH]; [done|]. unfold newest_first in *. cbn [foldr].
  by rewrite insert_newest_perm, IH.
Qed.

Lemma insert_newest_sorted e l :
  key e ∉ map key l → StronglySorted older l → StronglySorted older (insert_newest e l).
Proof.
  intros Hnin Hl. induction Hl as [|x l Hl IH Hx]; cbn [insert_newest]; [by repeat constructor|].
  cbn [map] in Hnin. apply not_elem_of_cons in Hnin as [Hne Hnin]. case_decide as Hdec.
  - assert (older e x) as Hex by (apply key_total; [exact Hdec|done]).
    constructor; [by constructor|]. constructor; [done|].
    eapply Forall_impl; [exact Hx|]. intros y Hy. by eapply key_lt_trans.
  - constructor; [by apply IH|]. rewrite insert_newest_perm. constructor; [|done].
    unfold newer in Hdec. by apply not_false_iff_true in Hdec.
Qed.

Lemma newest_first_sorted l : NoDup (map key l) → StronglySorted older (newest_first l).
Proof.
  induction l as [|x l IH]; [constructor|]. cbn [map]. intros [Hx Hl]%NoDup_cons.
  unfold newest_first in *. cbn [foldr]. apply insert_newest_sorted; [|by apply IH].
  by rewrite (newest_first_perm l : foldr insert_newest [] l ≡ₚ l).
Qed.

Lemma wf_keys_nodup db (f : entry → bool) : wf db → NoDup (map key (filter (λ e, f e = true) (ledger db))).
Proof.
  intros Hwf. assert (NoDup (map key (ledger db))) as H.
  { apply NoDup_alt. intros i j k Hi Hj. rewrite !list_lookup_fmap in Hi, Hj.
    apply fmap_Some in Hi as (a & Ha & ->), Hj as (b & Hb & E).
    apply (wf_ids _ Hwf) in Ha, Hb. unfold key in E. injection E as _ E. lia. }
  revert H. generalize (ledger db). induction l as [|x l IH]; [done|]. cbn [map].
  intros [Hx Hl]%NoDup_cons. rewrite filter_cons. case_decide; [|by apply IH]. cbn [map].
  apply NoDup_cons. split; [|by apply IH]. intros Hin. apply Hx.
  apply list_elem_of_fmap in Hin as (y & -> & Hy). apply list_elem_of_filter in Hy as [_ Hy].
  by apply list_elem_of_fmap_2.
Qed.

(** After the cursor of row [x] come exactly the rows listed after [x]. *)
Lemma after_cursor pre x rest :
  StronglySorted older (pre ++ x :: rest) →
  filter (λ e, key_lt (key e) (key x) = true) (pre ++ x :: rest) = rest.
Proof.
  intros H. apply StronglySorted_app in H as (Hcross & _ & Hrest).
  apply StronglySorted_cons in Hrest as [Hx _]. rewrite filter_app, filter_cons.
  assert (key_lt (key x) (key x) = false) as Hxx by (unfold key_lt; cbn; lia).
  rewrite Hxx, decide_False by done. rewrite filter_none, filter_all; [done|done|].
  apply Forall_forall. intros e He Hlt.
  assert (older e x) as Hex by (apply Hcross; [done|set_solver]).
  pose proof (key_lt_trans _ _ _ Hlt Hex) as Hee. unfold key_lt in Hee. cbn in Hee. lia.
Qed.

(** Follow the cursors from a page to the last one. *)
Fixpoint walk (fuel : nat) (restaurant_id branch : option string) (f : filters) (limit : Z)
    (cursor : option (Z * Z)) (db : ledger_db) : res (list entry) :=
  match fuel with
  | O => Err (RuntimeError "fuel")
  | S fuel' =>
      pg ← list_entries restaurant_id branch f limit cursor db;
      match next_cursor pg with
      | None => Ok (items pg)
      | Some c => rest ← walk fuel' restaurant_id branch f limit (Some c) db; Ok (items pg ++ rest)
      end
  end.

Lemma page_size_bounds limit : (1 <= Z.to_nat (Z.max 1 (Z.min limit 200)) <= 200)%nat.
Proof. lia. Qed.

(** One page of the rows [l] that are still to come. *)
Lemma list_entries_page rid branch f limit cursor db mid matches l :
  _merchant_id rid = Ok mid → entry_filter mid branch f = Ok matches →
  filter (λ e, match cursor with None => true | Some c => key_lt (key e) c end = true)
    (newest_first (filter (λ e, matches e = true) (ledger db))) = l →
  let n := Z.to_nat (Z.max 1 (Z.min limit 200)) in
  list_entries rid branch f limit cursor db
  = Ok {| items := take n l;
          next_cursor := if bool_decide (n < length l)%nat then key <$> last (take n l) else None;
          has_more := bool_decide (n < length l)%nat |}.
Proof.
  intros Hmid Hf Hl n. unfold list_entries. rewrite Hmid, bind_Ok, Hf, bind_Ok, Hl.
  replace (Z.to_nat (Z.max 1 (Z.min limit 200) + 1)) with (S n) by lia. fold n.
  rewrite take_take, (Nat.min_l n (S n)) by lia.
  assert ((Z.max 1 (Z.min limit 200) <? Z.of_nat (length (take (S n) l)))
          = bool_decide (n < length l)%nat) as ->; [|done].
  rewrite length_take. destruct (decide (n < length l)%nat).
  - rewrite bool_decide_eq_true_2 by done. apply Z.ltb_lt. lia.
  - rewrite bool_decide_eq_false_2 by done. apply Z.ltb_ge. lia.
Qed.

Lemma walk_suffix rid branch f limit db mid matches fuel pre l cursor :
  wf db → _merchant_id rid = Ok mid → entry_filter mid branch f = Ok matches →
  newest_first (filter (λ e, matches e = true) (ledger db)) = pre ++ l →
  (pre = [] ∧ cursor = None ∨ key <$> last pre = cursor ∧ cursor ≠ None) →
  (length l < fuel)%nat →
  walk fuel rid branch f limit cursor db = Ok l.
Proof.
  intros Hwf Hmid Hf. revert pre l cursor. induction fuel as [|fuel IH]; intros pre l cursor Hall Hcur Hfuel; [lia|].
  pose proof (newest_first_sorted _ (wf_keys_nodup db matches Hwf)) as Hsorted.
  assert (filter (λ e, match cursor with None => true | Some c => key_lt (key e) c end = true)
    (newest_first (filter (λ e, matches e = true) (ledger db))) = l) as Hl.
  { rewrite Hall in *. destruct Hcur as [[-> ->]|[Hlast Hne]].
    - apply filter_all. by apply Forall_true.
    - destruct pre as [|x pre _] using rev_ind; [by subst|]. rewrite last_snoc in Hlast.
      subst cursor. cbn [fmap option_fmap option_map]. rewrite <-app_assoc in *. by apply after_cursor. }
  cbn [walk]. rewrite (list_entries_page rid branch f limit cursor db mid matches l Hmid Hf Hl), bind_Ok.
  pose proof (page_size_bounds limit) as Hn. set (n := Z.to_nat _) in *. cbn [next_cursor items].
  destruct (decide (n < length l)%nat) as [Hlt|Hge].
  - rewrite bool_decide_eq_true_2 by done.
    destruct (last (take n l)) as [x|] eqn:Hx.
    2: { apply last_None in Hx. apply (f_equal length) in Hx. rewrite length_take in Hx. cbn in Hx. lia. }
    cbn [fmap option_fmap option_map].
    rewrite (IH (pre ++ take n l) (drop n l)), bind_Ok.
    + by rewrite take_drop.
    + by rewrite <-app_assoc, take_drop.
    + right. split; [|done]. by rewrite last_app, Hx.
    + rewrite length_drop. lia.
  - rewrite bool_decide_eq_false_2 by done. by rewrite take_ge by lia.
Qed.

(** Following the cursors of the history from the first page to the last
    lists every matching row of the caller's merchant exactly once, newest
    first, whatever the page size asked for; no page exceeds two hundred rows. *)
Theorem pages_cover_history rid branch f limit db mid matches :
  wf db → _merchant_id rid = Ok mid → entry_filter mid branch f = Ok matches →
  ∃ rows, walk (S (length (ledger db))) rid branch f limit None db = Ok rows ∧
    rows ≡ₚ filter (λ e, matches e = true) (ledger db) ∧ StronglySorted older rows ∧
    ∀ cursor pg, list_entries rid branch f limit cursor db = Ok pg → (length (items pg) <= 200)%nat.
Proof.
  intros Hwf Hmid Hf. exists (newest_first (filter (λ e, matches e = true) (ledger db))). split.
  { apply (walk_suffix rid branch f limit db mid matches _ []); try done; [by left|].
    rewrite newest_first_perm. pose proof (length_filter (λ e, matches e = true) (ledger db)). lia. }
  split; [apply newest_first_perm|]. split; [by apply newest_first_sorted, wf_keys_nodup|].
  intros cursor pg H. rewrite (list_entries_page rid branch f limit cursor db mid matches _ Hmid Hf eq_refl) in H.
  pose proof (page_size_bounds limit). injection H as <-. cbn [items]. rewrite length_take. lia.
Qed.

(** ** Examples *)

Definition demo_posting (merchant type : string) (debit credit : Z) (k : string) : posting := {|
  p_merchant := merchant; p_type := type; p_debit := PDec (Dec debit (-2)); p_credit := PDec (Dec credit (-2));
  p_branch := None; p_currency := Some "INR"%string; p_source_type := None; p_source_id := None;
  p_settlement_id := None; p_payment_id := None; p_order_id := None; p_bank_reference := None;
  p_utr_number := None; p_idempotency_key := Some k; p_metadata := []; p_created_by := None |}.

Definition at_time (t : Z) : stamp := {| now := t; yyyymm := "202605" |}.
Definition after_post (s : stamp) (p : posting) (db : ledger_db) : ledger_db :=
  match post_entry s p db with Ok r => r.1 | Err _ => db end.
Definition receipt : posting := demo_posting "m1" "payment_received" 0 10000 "payment_received:p1".
Definition fee : posting := demo_posting "m1" "fee_deduction" 424 0 "fee_deduction:p1".

(** The fee posted at time 20 takes the lock before the receipt of time 10. *)
Definition overtaken : ledger_db := after_post (at_time 10) receipt (after_post (at_time 20) fee empty_ledger).

(** Out of order, the newest row is not the last one posted, and the check
    reports a mismatch on a sound ledger. *)
Example overtaken_last_row :
  let report := fn_check_merchant_ledger_consistency "m1" None overtaken in
  lock_matches_sum report = true ∧ last_after_matches_sum report = false ∧
  sum_of_movements report = 957600 ∧ last_balance_after report = -42400.
Proof. vm_compute. done. Qed.

Definition ledger1 : ledger_db := after_post (at_time 10) receipt empty_ledger.
Definition ledger2 : ledger_db := after_post (at_time 20) fee ledger1.

Lemma post_ok s p db : is_ok (post_entry s p db) = true → ∃ e, post_entry s p db = Ok (after_post s p db, e).
Proof. unfold after_post. destruct (post_entry s p db) as [[db' e]|]; [by exists e|done]. Qed.

Lemma reachable1 : reachable ledger1.
Proof.
  destruct (post_ok (at_time 10) receipt empty_ledger) as [e H]; [by vm_compute|].
  apply (reachable_post empty_ledger (at_time 10) receipt ledger1 e); [constructor|by vm_compute|exact H].
Qed.

Lemma reachable2 : reachable ledger2.
Proof.
  destruct (post_ok (at_time 20) fee ledger1) as [e H]; [by vm_compute|].
  apply (reachable_post ledger1 (at_time 20) fee ledger2 e); [exact reachable1|by vm_compute|exact H].
Qed.

Lemma in_order2 : reachable_in_order (λ _, "202605"%string) ledger2.
Proof.
  destruct (post_ok (at_time 10) receipt empty_ledger) as [e1 H1]; [by vm_compute|].
  destruct (post_ok (at_time 20) fee ledger1) as [e2 H2]; [by vm_compute|].
  assert (Forall (λ x, e_created_at x <= 20) (ledger ledger1)) as Hnow.
  { vm_compute. repeat constructor; discriminate. }
  apply (in_order_post _ ledger1 (at_time 20) fee ledger2 e2); [|done|exact Hnow|by vm_compute|exact H2].
  apply (in_order_post _ empty_ledger (at_time 10) receipt ledger1 e1);
    [constructor|done|constructor|by vm_compute|exact H1].
Qed.

Lemma post_entry_appends_once_witness :
  ∃ e, post_entry (at_time 20) fee ledger1 = Ok (ledger2, e) ∧ wf ledger2.
Proof.
  destruct (post_ok (at_time 20) fee ledger1) as [e H]; [by vm_compute|]. exists e. split; [exact H|].
  apply (post_entry_appends_once (at_time 20) fee ledger1 ledger2 e);
    [exact (reachable_wf _ reachable1)|by vm_compute|exact H].
Defined.

Lemma post_entry_idempotent_witness :
  ∃ e, post_entry (at_time 20) fee ledger1 = Ok (ledger2, e) ∧
       post_entry (at_time 99) fee ledger2 = Ok (ledger2, e).
Proof.
  destruct (post_ok (at_time 20) fee ledger1) as [e H]; [by vm_compute|]. exists e. split; [exact H|].
  destruct (post_entry_posts _ _ _ _ H) as (debit & credit & Hp).
  apply (post_entry_idempotent (at_time 20) fee ledger1 ledger2 e (at_time 99) fee debit credit "fee_deduction:p1");
    [exact (reachable_wf _ reachable1)|by vm_compute|exact H|done|done|done|exact Hp].
Defined.

Lemma reachable_consistent_witness :
  lock_matches_sum (fn_check_merchant_ledger_consistency "m1" None ledger2) = true.
Proof. exact (proj1 (reachable_consistent ledger2 "m1" None reachable2)). Defined.

Lemma in_order_last_row_witness :
  last_after_matches_sum (fn_check_merchant_ledger_consistency "m1" None ledger2) = true.
Proof. exact (proj2 (in_order_last_row (λ _, "202605"%string) ledger2 "m1" None in_order2)). Defined.

Definition no_filters : filters := {|
  f_transaction_type := None; f_settlement_id := None; f_payment_id := None; f_order_id := None;
  f_utr_number := None; f_from_date := None; f_to_date := None; f_currency := None |}.

Lemma pages_cover_history_witness :
  ∃ rows, walk 3 (Some "m1"%string) None no_filters 1 None ledger2 = Ok rows ∧ StronglySorted older rows.
Proof.
  destruct (pages_cover_history (Some "m1"%string) None no_filters 1 ledger2 "m1" _ (reachable_wf _ reachable2)
    eq_refl eq_refl) as (rows & H1 & _ & H2 & _).
  exists rows. exact (conj H1 H2).
Defined.
