(* ===== verification/RazorpayLedgers.v ===== *)
(** Razorpay events into the merchant ledger:
    [src/app/services/razorpay/ledgers.py] and the capture helper of
    [src/app/services/merchant_ledger_integration.py].

    The functions are written against the interface [LedgerApi]; [stamp] is the
    clock of the transaction they run in. *)

From Stdlib Require Import ZArith Lia String.
From S2P Require Import Prelude PyDecimal PyFloat PyValues FeePolicy MerchantLedger.
Open Scope Z_scope.

(** [Decimal(int(paise)) / 100] *)
Definition _rupees (paise : Z) : res decimal := ddiv (d_int paise) (d_int 100).

(** [post_entry]'s defaults. *)
Definition base_posting (merchant type : string) : posting := {|
  p_merchant := merchant; p_type := type; p_debit := PInt 0; p_credit := PInt 0; p_branch := None;
  p_currency := Some "INR"%string; p_source_type := None; p_source_id := None;
  p_settlement_id := None; p_payment_id := None; p_order_id := None; p_bank_reference := None;
  p_utr_number := None; p_idempotency_key := None; p_metadata := []; p_created_by := None |}.

(** The context of a capture: whose payment, and the optional columns. *)
Record capture := {
  cap_merchant : option string;
  cap_payment : string;
  cap_order : option string;
  cap_branch : option string;
  cap_bank_reference : option string;
  cap_razorpay_payment : option string;
  cap_created_by : option string;
}.

Definition kind_text (k : payment_kind) : string :=
  match k with KCash => "cash" | KDirect => "direct" | KRazorpay => "razorpay" end.

(** A metadata field whose value may be None; a JSON null is left out. *)
Definition opt_meta (key : string) (v : option string) : list (string * string) :=
  match v with Some x => [(key, x)] | None => [] end.

(** One leg: its type, its amount in paise and its key. *)
Abbreviation leg := (string * Z * string)%type.

Definition fee_leg_meta (c : capture) (gross merchant deduction : Z) (type : string) : list (string * string) :=
  opt_meta "razorpay_payment_id" (cap_razorpay_payment c) ++
  [("gross_paise", nat_text gross); ("merchant_paise", nat_text merchant);
   ("deduction_paise", nat_text deduction); ("fee_basis", "full_consideration"); ("leg", type)]%string.

(** The row of a fee or GST leg (a debit). *)
Definition fee_leg_posting (c : capture) (merchant_id : string) (gross merchant deduction : Z)
    (type key : string) (amount : decimal) : posting := {|
  p_merchant := merchant_id; p_type := type; p_debit := PDec amount; p_credit := PInt 0;
  p_branch := cap_branch c; p_currency := Some "INR"%string; p_source_type := Some "payment"%string;
  p_source_id := None; p_settlement_id := None; p_payment_id := Some (cap_payment c);
  p_order_id := cap_order c; p_bank_reference := None; p_utr_number := None;
  p_idempotency_key := Some key; p_metadata := fee_leg_meta c gross merchant deduction type;
  p_created_by := cap_created_by c |}.

(** The receipt's row (a credit); [amount] is [Decimal(str(amount))]. *)
Definition receipt_posting (c : capture) (merchant_id : string) (method : option string)
    (extra : list (string * string)) (amount : decimal) : posting := {|
  p_merchant := merchant_id; p_type := "payment_received"; p_debit := PInt 0; p_credit := PDec amount;
  p_branch := cap_branch c; p_currency := Some "INR"%string; p_source_type := Some "payment"%string;
  p_source_id := None; p_settlement_id := None; p_payment_id := Some (cap_payment c);
  p_order_id := cap_order c; p_bank_reference := cap_bank_reference c; p_utr_number := None;
  p_idempotency_key := Some ("payment_received:" ++ cap_payment c)%string;
  p_metadata := opt_meta "method" method ++ extra; p_created_by := cap_created_by c |}.

(** What a recovery is about: the payment and where its key and source come from. *)
Record recovery := {
  rec_merchant : string;
  rec_payment : string;
  rec_key_prefix : string;
  rec_source_type : string;
  rec_source_id : option string;
  rec_order : option string;
  rec_created_by : option string;
}.

Definition reversal_posting (r : recovery) (recovered cumulative share deduction : Z)
    (type key : string) (amount : decimal) : posting := {|
  p_merchant := rec_merchant r; p_type := type; p_debit := PInt 0; p_credit := PDec amount;
  p_branch := None; p_currency := Some "INR"%string; p_source_type := Some (rec_source_type r);
  p_source_id := rec_source_id r; p_settlement_id := None; p_payment_id := Some (rec_payment r);
  p_order_id := rec_order r; p_bank_reference := None; p_utr_number := None;
  p_idempotency_key := Some key;
  p_metadata := [("recovered_paise", nat_text recovered); ("cumulative_recovered_paise", nat_text cumulative);
                 ("merchant_share_paise", nat_text share); ("deduction_share_paise", nat_text deduction);
                 ("fee_basis", "full_consideration"); ("leg", type)]%string;
  p_created_by := rec_created_by r |}.

(** A settlement line of the query of [apply_settlement_processed]: the net
    paise per payment, with the local payment when there is one. *)
Record settlement_line := {
  sl_merchant : string;
  sl_razorpay_payment : string;
  sl_net_paise : option Z;
  sl_payment : option string;
  sl_order : option string;
  sl_branch : option string;
  sl_utr : option string;
}.

(** *** The reading query *)

Record rzp_settlement_payment := {
  sp_merchant : string; sp_settlement : string; sp_payment : option string;
  sp_credit : option Z; sp_debit : option Z }.
Record rzp_route_transfer := {
  t_merchant : string; t_payment : string; t_recipient_settlement : option string;
  t_status : string; t_amount : Z }.
Record payment_link := {
  pl_id : string; pl_razorpay : string; pl_restaurant : string; pl_order : option string;
  pl_branch : option string }.

Record razorpay_tables := {
  rzp_settlement_payments : list rzp_settlement_payment;
  rzp_route_transfers : list rzp_route_transfer;
  payments : list payment_link;
  settlement_utr : gmap string string }.

(** [GROUP BY merchant, payment] with [SUM(net)], in order of first appearance. *)
Definition group_sum (l : list (string * string * Z)) : list (string * string * Z) :=
  map (λ k, (k, zsum (map snd (filter (λ x, x.1 = k) l)))) (remove_dups (map fst l)).

Definition for_merchant (merchant_id : option string) (m : string) : bool :=
  match merchant_id with None => true | Some x => bool_decide (m = x) end.

Definition settlement_rows (t : razorpay_tables) (settlement_id : string) (merchant_id : option string)
    : list settlement_line :=
  let lines := group_sum (omap (λ sp,
    p ← sp_payment sp;
    if bool_decide (sp_settlement sp = settlement_id) && for_merchant merchant_id (sp_merchant sp)
    then Some (sp_merchant sp, p, default 0 (sp_credit sp) - default 0 (sp_debit sp)) else None)
    (rzp_settlement_payments t)) in
  let transfers := group_sum (omap (λ tr,
    if bool_decide (t_recipient_settlement tr = Some settlement_id)
       && bool_decide (t_status tr = "processed"%string) && for_merchant merchant_id (t_merchant tr)
       && negb (existsb (λ l, bool_decide (l.1.2 = t_payment tr)) lines)
    then Some (t_merchant tr, t_payment tr, t_amount tr) else None) (rzp_route_transfers t)) in
  '(m, rp, net) ← lines ++ transfers;
  let row p := {| sl_merchant := m; sl_razorpay_payment := rp; sl_net_paise := Some net;
    sl_payment := pl_id <$> p; sl_order := p ≫= pl_order; sl_branch := p ≫= pl_branch;
    sl_utr := settlement_utr t !! settlement_id |} in
  match filter (λ p, pl_razorpay p = rp ∧ pl_restaurant p = m) (payments t) with
  | [] => [row None]
  | ps => map (λ p, row (Some p)) ps
  end.

Definition settlement_type (net : Z) : string :=
  if 0 <? net then "settlement_completed" else "settlement_reversed".

Definition settlement_key (settlement_id : string) (net : Z) (payment : string) : string :=
  (settlement_type net ++ ":" ++ settlement_id ++ ":" ++ payment)%string.

Definition settlement_posting (settlement_id : string) (row : settlement_line) (payment : string) (net : Z)
    (amount : decimal) : posting := {|
  p_merchant := sl_merchant row; p_type := settlement_type net;
  p_debit := if 0 <? net then PDec amount else PInt 0;
  p_credit := if 0 <? net then PInt 0 else PDec amount;
  p_branch := sl_branch row; p_currency := Some "INR"%string; p_source_type := Some "settlement"%string;
  p_source_id := None; p_settlement_id := None; p_payment_id := Some payment;
  p_order_id := sl_order row; p_bank_reference := None; p_utr_number := sl_utr row;
  p_idempotency_key := Some (settlement_key settlement_id net payment);
  p_metadata := [("settlement_id", settlement_id); ("razorpay_payment_id", sl_razorpay_payment row);
                 ("net_paise", int_text net)]%string;
  p_created_by := None |}.

Record settlement_summary := { posted_count : Z; skipped_count : Z }.

Record capture_result := { cr_kind : payment_kind; cr_fee : option Z; cr_gst : option Z }.
Record reversal_result := { rr_merchant_share : Z; rr_fee : Z; rr_gst : Z }.

Section Ledgers.
Context {L : Type} `{LedgerApi L} (s : stamp).

(** The loops over legs: a leg of nothing is skipped. *)
Fixpoint post_legs (make : string → string → decimal → posting) (legs : list leg) (db : L) : res L :=
  match legs with
  | [] => Ok db
  | (type, paise, key) :: legs' =>
      if paise <=? 0 then post_legs make legs' db
      else
        amount ← _rupees paise;
        r ← api_post s (make type key amount) db;
        post_legs make legs' r.1
  end.

Definition fee_legs (c : capture) (fee gst : Z) : list leg :=
  [("fee_deduction", fee, "fee_deduction:" ++ cap_payment c);
   ("gst_deduction", gst, "gst_deduction:" ++ cap_payment c)]%string.

Definition post_fee_legs (c : capture) (merchant_id : string) (gross merchant : Z) (db : L)
    : res (L * (Z * Z)) :=
  let deduction := gross - merchant in
  _ ← raise_if (deduction <? 0) (ValueError "merchant entitlement exceeds gross");
  split ← gst_split_paise (PInt deduction);
  let '(fee, gst) := split in
  db' ← post_legs (fee_leg_posting c merchant_id gross merchant deduction) (fee_legs c fee gst) db;
  Ok (db', (fee, gst)).

(** [merchant_ledger_integration._to_decimal] *)
Definition to_decimal0 (v : pyval) : decimal :=
  match parse_decimal v with Some d => d | None => d_zero end.

(** With [strict] an error of the ledger is raised again, otherwise logged. *)
Definition post_payment_received (c : capture) (amount : pyval) (method : option string)
    (extra : list (string * string)) (strict : bool) (db : L) : res L :=
  if negb (str_truthy (cap_merchant c)) || bool_decide (cap_payment c = ""%string) then Ok db
  else
    let amt := to_decimal0 amount in
    if negb (dpos amt) then Ok db
    else
      match api_post s (receipt_posting c (str_or (cap_merchant c) "") method extra amt) db with
      | Ok r => Ok r.1
      | Err e => if strict then Err e else Ok db
      end.

Definition apply_payment_capture (c : capture) (amount : pyval) (method : option string)
    (merchant_paise : option Z) (payment_kind : option payment_kind) (db : L) : res (L * capture_result) :=
  gross_paise ← rupees_to_paise amount;
  _ ← raise_if (negb (str_truthy (cap_merchant c)) || bool_decide (cap_payment c = ""%string)
                || (gross_paise <=? 0))
        (ValueError "Capture bridge requires a merchant, canonical payment and positive amount");
  let kind := default (classify_method method None) payment_kind in
  let online := bool_decide (kind = KRazorpay) in
  let metadata := opt_meta "razorpay_payment_id" (cap_razorpay_payment c) ++
    [("source", if online then "razorpay_capture" else "pos_capture");
     ("payment_kind", kind_text kind)]%string in
  db ← post_payment_received c amount method metadata true db;
  if negb online then Ok (db, {| cr_kind := kind; cr_fee := Some 0; cr_gst := Some 0 |})
  else
    match merchant_paise with
    | None => Ok (db, {| cr_kind := kind; cr_fee := None; cr_gst := None |})
    | Some m =>
        r ← post_fee_legs c (str_or (cap_merchant c) "") gross_paise m db;
        Ok (r.1, {| cr_kind := kind; cr_fee := Some r.2.1; cr_gst := Some r.2.2 |})
    end.

(** Each line is its own transaction: what is posted before a failure stays. *)
Fixpoint apply_settlement_lines (settlement_id : string) (rows : list settlement_line)
    (acc : settlement_summary) (db : L) : L * res settlement_summary :=
  match rows with
  | [] => (db, Ok acc)
  | row :: rows' =>
      match sl_payment row, sl_net_paise row with
      | Some payment, Some net =>
          if bool_decide (payment = ""%string) || (net =? 0) then
            apply_settlement_lines settlement_id rows'
              {| posted_count := posted_count acc; skipped_count := skipped_count acc + 1 |} db
          else
            match (amount ← _rupees (Z.abs net); api_post s (settlement_posting settlement_id row payment net amount) db) with
            | Ok r => apply_settlement_lines settlement_id rows'
                {| posted_count := posted_count acc + 1; skipped_count := skipped_count acc |} r.1
            | Err e => (db, Err e)
            end
      | _, _ => apply_settlement_lines settlement_id rows'
          {| posted_count := posted_count acc; skipped_count := skipped_count acc + 1 |} db
      end
  end.

Definition apply_settlement_processed (t : razorpay_tables) (settlement_id : string)
    (merchant_id : option string) (db : L) : L * res settlement_summary :=
  apply_settlement_lines settlement_id (settlement_rows t settlement_id merchant_id)
    {| posted_count := 0; skipped_count := 0 |} db.

Definition reversal_legs (r : recovery) (fee gst : Z) : list leg :=
  [("fee_reversal", fee, rec_key_prefix r ++ "_fee_reversal");
   ("gst_reversal", gst, rec_key_prefix r ++ "_gst_reversal")]%string.

(** The fee and GST a recovery gives back, before it is posted. *)
Definition reversal_amounts (recovered cumulative gross merchant : Z) : res (Z * Z * Z) :=
  let previous := cumulative - recovered in
  merchant_share ← proportional_share_paise (PInt cumulative) (PInt previous) (PInt gross) (PInt merchant);
  let deduction_share := Z.max (recovered - merchant_share) 0 in
  split ← gst_split_paise (PInt (gross - merchant));
  fee_now ← proportional_share_paise (PInt cumulative) (PInt previous) (PInt gross) (PInt split.1);
  let gst_now := deduction_share - fee_now in
  Ok (if gst_now <? 0 then (merchant_share, deduction_share, 0) else (merchant_share, fee_now, gst_now)).

Definition post_recovery_fee_reversal (r : recovery) (recovered cumulative gross merchant : Z) (db : L)
    : res (L * reversal_result) :=
  a ← reversal_amounts recovered cumulative gross merchant;
  let '(merchant_share, fee_now, gst_now) := a in
  let deduction_share := Z.max (recovered - merchant_share) 0 in
  db' ← post_legs (reversal_posting r recovered cumulative merchant_share deduction_share)
          (reversal_legs r fee_now gst_now) db;
  Ok (db', {| rr_merchant_share := merchant_share; rr_fee := fee_now; rr_gst := gst_now |}).
End Ledgers.

(** ** Legs as postings *)

(** Paise amounts that fit a ledger column: below 10^14 rupees. *)
Definition ledger_bound : Z := 10 ^ 16.

Definition rupees_dec (paise : Z) : decimal := match _rupees paise with Ok d => d | Err _ => d_zero end.

Lemma rupees_spec n : Z.abs n < 10 * paise_bound → _rupees n = Ok (rupees_dec n) ∧ at_scale 2 (rupees_dec n) n.
Proof. intros Hn. unfold rupees_dec. destruct (money_spec n Hn) as (r & Hr & Hs). unfold money in Hr. unfold _rupees. by rewrite Hr. Qed.

Lemma ticks_paise d n : at_scale 2 d n → ticks d = 100 * n.
Proof. intros H. apply ticks_at_scale. pose proof (at_scale_up 2 4 d n ltac:(lia) H) as H4. by rewrite Z.mul_comm. Qed.

Lemma zero_amount : decimal_or_zero (PInt 0) = Ok d_zero.
Proof. done. Qed.

Lemma positive_amount d n :
  at_scale 2 d n → 0 < n →
  decimal_or_zero (PDec d) = Ok d ∧ dltb d d_zero = false ∧ dpos d = true.
Proof.
  intros Hd Hn. assert (at_scale 2 d_zero 0) as H0 by (by apply at_scale_zero).
  rewrite (dltb_at_scale 2 d d_zero n 0 Hd H0), (dpos_at_scale 2 d n Hd).
  split; [|split; [destruct (Z.ltb_spec n 0); [lia|done]|destruct (Z.ltb_spec 0 n); [done|lia]]].
  unfold decimal_or_zero, py_truthy. destruct (Z.eqb_spec (coef d) 0) as [E|]; [|done].
  apply (at_scale_zero 2) in E. pose proof (at_scale_inj 2 d _ _ Hd E). lia.
Qed.

(** A positive paise amount on one side of an allowed posting. *)
Lemma posts_debit p d n :
  str_mem (p_type p) ALLOWED_TXN_TYPES = true → p_debit p = PDec d → p_credit p = PInt 0 →
  at_scale 2 d n → 0 < n < ledger_bound → posts p (100 * n) 0.
Proof.
  intros Ht Hd Hc Hs Hn. destruct (positive_amount d n Hs) as (H1 & H2 & H3); [lia|].
  split; [done|]. exists d, d_zero. rewrite Hd, Hc, H1, H2, H3. pose proof (ticks_paise d n Hs).
  unfold ledger_bound in *. change (10 ^ 18) with (100 * 10 ^ 16).
  repeat (split; [done || lia|]). split; [|lia].
  unfold one_sided. destruct (Z.ltb_spec 0 (100 * n)); [|lia]. repeat split; lia.
Qed.

Lemma posts_credit p d n :
  str_mem (p_type p) ALLOWED_TXN_TYPES = true → p_debit p = PInt 0 → p_credit p = PDec d →
  at_scale 2 d n → 0 < n < ledger_bound → posts p 0 (100 * n).
Proof.
  intros Ht Hd Hc Hs Hn. destruct (positive_amount d n Hs) as (H1 & H2 & H3); [lia|].
  split; [done|]. exists d_zero, d. rewrite Hd, Hc, H1, H2, H3. pose proof (ticks_paise d n Hs).
  unfold ledger_bound in *. change (10 ^ 18) with (100 * 10 ^ 16).
  repeat (split; [done || lia|]). split; [|lia].
  unfold one_sided. destruct (Z.ltb_spec 0 (100 * n)); [|lia]. repeat split; lia.
Qed.

Definition live (legs : list leg) : list leg := filter (λ l, 0 < l.1.2) legs.
Definition leg_posting (make : string → string → decimal → posting) (l : leg) : posting :=
  make l.1.1 l.2 (rupees_dec l.1.2).

Section LedgerFacts.
Context {L : Type} `{LedgerApi L} (s : stamp).

Lemma post_legs_all make legs db :
  Forall (λ l, l.1.2 < paise_bound) legs →
  post_legs s make legs db = post_all s (map (leg_posting make) (live legs)) db.
Proof.
  intros Hl. revert db. induction Hl as [|[[t n] k] legs Hn _ IH]; intros db; [done|]. cbn in Hn.
  unfold live in *. rewrite filter_cons. cbn [fst snd post_legs].
  destruct (Z.leb_spec n 0); [rewrite decide_False by lia; apply IH|]. rewrite decide_True by lia.
  destruct (rupees_spec n) as [-> _]; [lia|]. rewrite bind_Ok. cbn [map post_all].
  unfold leg_posting at 1. cbn [fst snd]. destruct (api_post s _ db) as [[db' e]|]; [|done].
  rewrite !bind_Ok. apply IH.
Qed.

Lemma live_keys legs : Forall (λ l, 0 <= l.1.2) legs →
  zsum (map (λ l, l.1.2) (live legs)) = zsum (map (λ l, l.1.2) legs).
Proof.
  induction 1 as [|[[t n] k] legs Hn _ IH]; [done|]. unfold live in *. rewrite filter_cons. cbn [fst snd] in *.
  cbn [map]. case_decide; cbn [map fst snd] in *; rewrite ?zsum_cons, IH; [done|]. cbn in *. lia.
Qed.
End LedgerFacts.

(** ** Captures *)

Definition online_metadata (c : capture) : list (string * string) :=
  opt_meta "razorpay_payment_id" (cap_razorpay_payment c) ++
  [("source", "razorpay_capture"); ("payment_kind", "razorpay")]%string.

Definition capture_postings (c : capture) (mid : string) (method : option string) (d : decimal) (g m : Z)
    : list posting :=
  receipt_posting c mid method (online_metadata c) d ::
  map (leg_posting (fee_leg_posting c mid g m (g - m)))
      (live (fee_legs c (fee_of (g - m)) (g - m - fee_of (g - m)))).

Definition capture_keys (c : capture) (g m : Z) : list string :=
  ("payment_received:" ++ cap_payment c)%string ::
  map snd (live (fee_legs c (fee_of (g - m)) (g - m - fee_of (g - m)))).

Definition capture_moves (c : capture) (g m : Z) : list Z :=
  100 * g :: map (λ l : leg, - (100 * l.1.2)) (live (fee_legs c (fee_of (g - m)) (g - m - fee_of (g - m)))).

Section Capture.
Context {L : Type} `{LedgerApi L} (s : stamp).
Context (c : capture) (mid : string) (method : option string) (kind : option payment_kind).
Context (amount : pyval) (d : decimal) (g m : Z).
Context (Hmid : cap_merchant c = Some mid) (Hmid0 : mid ≠ ""%string) (Hpay : cap_payment c ≠ ""%string).
Context (Hamount : parse_decimal amount = Some d) (Hd : at_scale 2 d g) (Hg : 0 < g < ledger_bound).
Context (Hm : 0 <= m <= g) (Hkind : default (classify_method method None) kind = KRazorpay).

(** An online capture: the receipt, then the fee legs of a known share. *)
Lemma capture_receipt share (db : L) :
  apply_payment_capture s c amount method share kind db
  = (r ← api_post s (receipt_posting c mid method (online_metadata c) d) db;
     match share with
     | None => Ok (r.1, {| cr_kind := KRazorpay; cr_fee := None; cr_gst := None |})
     | Some m => x ← post_fee_legs s c mid g m r.1; Ok (x.1, {| cr_kind := KRazorpay; cr_fee := Some x.2.1; cr_gst := Some x.2.2 |})
     end).
Proof using Hmid Hmid0 Hpay Hamount Hd Hg Hkind.
  assert (g < paise_bound) as Hgb by (unfold ledger_bound, paise_bound in *; lia).
  unfold apply_payment_capture. rewrite (rupees_to_paise_spec amount d g), bind_Ok by (done || lia).
  rewrite Hmid, Hkind. unfold str_truthy, str_or.
  rewrite (bool_decide_eq_false_2 (mid = _)), (bool_decide_eq_false_2 (cap_payment c = _)) by done.
  rewrite (decide_False (P := mid = ""%string)) by done.
  cbn [negb orb]. destruct (Z.leb_spec g 0); [lia|]. cbn [raise_if]. rewrite bind_Ok.
  rewrite bool_decide_eq_true_2 by done. unfold post_payment_received, str_truthy, str_or.
  rewrite Hmid, (bool_decide_eq_false_2 (mid = _)), (bool_decide_eq_false_2 (cap_payment c = _)) by done.
  rewrite (decide_False (P := mid = ""%string)) by done. cbn [negb orb].
  unfold to_decimal0. rewrite Hamount. destruct (positive_amount d g Hd ltac:(lia)) as (_ & _ & ->).
  cbn [negb]. change (kind_text KRazorpay) with "razorpay"%string. fold (online_metadata c).
  destruct (api_post s (receipt_posting c mid method (online_metadata c) d) db) as [[db1 e]|e]; [|done].
  by rewrite !bind_Ok.
Qed.

Let result : capture_result := {|
  cr_kind := KRazorpay; cr_fee := Some (fee_of (g - m)); cr_gst := Some (g - m - fee_of (g - m)) |}.

Lemma capture_is_post_all (db : L) :
  apply_payment_capture s c amount method (Some m) kind db
  = (db' ← post_all s (capture_postings c mid method d g m) db; Ok (db', result)).
Proof using Hmid Hmid0 Hpay Hamount Hd Hg Hm Hkind.
  rewrite capture_receipt. unfold capture_postings. cbn [post_all].
  destruct (api_post s (receipt_posting c mid method (online_metadata c) d) db) as [[db1 e]|e]; [|done].
  rewrite !bind_Ok. unfold post_fee_legs. destruct (Z.ltb_spec (g - m) 0); [lia|]. cbn [raise_if].
  pose proof (fee_bounds (g - m) ltac:(lia)). assert (g < paise_bound) as Hgb by (unfold ledger_bound, paise_bound in *; lia).
  rewrite bind_Ok, gst_split_spec, bind_Ok by lia. rewrite post_legs_all.
  2: { repeat constructor; cbn; lia. }
  cbn [fst]. destruct (post_all s _ db1); [|done]. by rewrite !bind_Ok.
Qed.

Lemma capture_moves_spec :
  Forall2 (moves mid "INR") (capture_postings c mid method d g m) (capture_moves c g m) ∧
  Forall2 (λ p k, p_idempotency_key p = Some k) (capture_postings c mid method d g m) (capture_keys c g m) ∧
  zsum (capture_moves c g m) = 100 * m ∧
  zsum (map Z.abs (capture_moves c g m)) = 100 * (g + (g - m)) ∧
  NoDup (capture_keys c g m) ∧ (length (capture_postings c mid method d g m) <= 3)%nat.
Proof using Hamount Hd Hg Hkind Hm Hmid Hmid0 Hpay.
  pose proof (fee_bounds (g - m) ltac:(lia)) as Hf. set (f := fee_of (g - m)) in *.
  assert (∀ n, 0 < n <= g → at_scale 2 (rupees_dec n) n) as Hdec.
  { intros n Hn. apply rupees_spec. unfold ledger_bound, paise_bound in *. lia. }
  assert (moves mid "INR" (receipt_posting c mid method (online_metadata c) d) (100 * g)) as Hreceipt.
  { split; [done|]. split; [done|]. exists 0, (100 * g). split; [|lia]. by apply (posts_credit _ d g). }
  assert (∀ t k n, t = "fee_deduction"%string ∨ t = "gst_deduction"%string → 0 < n <= g →
    moves mid "INR" (leg_posting (fee_leg_posting c mid g m (g - m)) (t, n, k)) (- (100 * n))) as Hleg.
  { intros t k n Htype Hn. split; [done|]. split; [done|]. exists (100 * n), 0. split; [|lia].
    apply (posts_debit _ (rupees_dec n) n); [by destruct Htype as [->| ->]|done|done|by apply Hdec|].
    unfold ledger_bound in *. lia. }
  assert (∀ x y : string, ("payment_received:" ++ x)%string ≠ ("fee_deduction:" ++ y)%string ∧
    ("payment_received:" ++ x)%string ≠ ("gst_deduction:" ++ y)%string ∧
    ("fee_deduction:" ++ x)%string ≠ ("gst_deduction:" ++ y)%string) as Hkeys by (by intros).
  specialize (Hkeys (cap_payment c) (cap_payment c)) as (K1 & K2 & K3).
  unfold capture_postings, capture_moves, capture_keys, live, fee_legs. fold f.
  rewrite !filter_cons, filter_nil. cbn [fst snd].
  destruct (decide (0 < f)), (decide (0 < g - m - f)); cbn [map zsum foldr length fst snd];
    (split; [repeat (apply List.Forall2_cons || apply List.Forall2_nil); first [done | apply Hleg; [tauto|lia]]|]);
    (split; [repeat (apply List.Forall2_cons || apply List.Forall2_nil); done|]);
    (split; [lia|]); (split; [lia|]); (split; [|lia]);
    repeat (apply NoDup_cons; split); try apply NoDup_nil; rewrite ?not_elem_of_cons;
    repeat split; first [done | exact (not_elem_of_nil _)].
Qed.
End Capture.

(** A gateway capture with a frozen allocation moves the merchant's balance
    by exactly the entitlement (the gross credited, the fee and its GST debited,
    fee plus GST being the deduction), touches no other account, and a retry of
    the whole capture changes nothing and reports the same. *)
Theorem capture_posts_entitlement {L} `{LedgerApi L} s s' c mid method kind amount d g m (db : L) :
  cap_merchant c = Some mid → mid ≠ ""%string → cap_payment c ≠ ""%string →
  parse_decimal amount = Some d → at_scale 2 d g → 0 < g < ledger_bound → 0 <= m <= g →
  default (classify_method method None) kind = KRazorpay →
  api_wf db → Forall (λ k, api_posted db mid k = None) (capture_keys c g m) →
  api_room s mid "INR" 3 (100 * (g + (g - m))) db →
  ∃ db' r fee gst, apply_payment_capture s c amount method (Some m) kind db = Ok (db', r) ∧
    cr_fee r = Some fee ∧ cr_gst r = Some gst ∧ fee + gst = g - m ∧
    (∀ m' c', api_balance db' m' c' = api_balance db m' c'
       + (if bool_decide (mid = m') && bool_decide ("INR"%string = c') then 100 * m else 0)) ∧
    apply_payment_capture s' c amount method (Some m) kind db' = Ok (db', r).
Proof.
  intros Hmid Hmid0 Hpay Hamount Hd Hg Hm Hkind Hwf Hfresh Hroom.
  destruct (capture_moves_spec c mid method kind amount d g m Hmid Hmid0 Hpay Hamount Hd Hg Hm Hkind)
    as (Hmoves & Hkeys & Hsum & Habs & Hnd & Hlen).
  destruct (post_all_new s mid "INR" _ _ _ db (3 - Z.of_nat (length (capture_postings c mid method d g m))) 0
    Hwf Hmoves Hkeys Hnd Hfresh) as (db' & Hall & Hwf' & Hbal & _ & Hsome & _); [lia|lia| |].
  { rewrite Habs, Z.add_0_r. by replace (_ + (3 - _)) with 3 by lia. }
  do 4 eexists. split; [rewrite (capture_is_post_all s c mid method kind amount d g m) by done; by rewrite Hall, bind_Ok|].
  split; [done|]. split; [done|]. split; [lia|]. split.
  - intros m' c'. rewrite Hbal, Hsum. done.
  - rewrite (capture_is_post_all s' c mid method kind amount d g m) by done.
    by rewrite (post_all_old s' mid "INR" _ _ _ db' Hwf' Hmoves Hkeys Hsome), bind_Ok.
Qed.

(** ** Settlements *)

Definition row_move (r : settlement_line) : Z := - default 0 (sl_net_paise r).

(** A line that is posted: a local payment and a net amount that fits. *)
Definition postable (mid : string) (r : settlement_line) : Prop :=
  sl_merchant r = mid ∧ (∃ p, sl_payment r = Some p ∧ p ≠ ""%string) ∧
  ∃ n, sl_net_paise r = Some n ∧ 0 < Z.abs n < ledger_bound.

Definition row_posting (settlement_id : string) (r : settlement_line) : posting :=
  let n := default 0 (sl_net_paise r) in
  settlement_posting settlement_id r (default ""%string (sl_payment r)) n (rupees_dec (Z.abs n)).

Definition row_key (settlement_id : string) (r : settlement_line) : string :=
  settlement_key settlement_id (default 0 (sl_net_paise r)) (default ""%string (sl_payment r)).

Lemma row_moves settlement_id mid r :
  postable mid r → moves mid "INR" (row_posting settlement_id r) (100 * row_move r).
Proof.
  intros (Hm & _ & n & Hn & Hb). unfold row_posting, row_move. rewrite Hn. cbn [from_option id].
  split; [done|]. split; [done|].
  destruct (rupees_spec (Z.abs n)) as [_ Hs]; [unfold ledger_bound, paise_bound in *; lia|].
  destruct (0 <? n) eqn:E.
  - exists (100 * Z.abs n), 0. split; [|apply Z.ltb_lt in E; lia].
    apply (posts_debit _ (rupees_dec (Z.abs n)) (Z.abs n));
      unfold settlement_posting, settlement_type; cbn; rewrite ?E; done.
  - exists 0, (100 * Z.abs n). split; [|apply Z.ltb_ge in E; lia].
    apply (posts_credit _ (rupees_dec (Z.abs n)) (Z.abs n));
      unfold settlement_posting, settlement_type; cbn; rewrite ?E; done.
Qed.

Section Settlement.
Context {L : Type} `{LedgerApi L} (s : stamp).

Lemma settlement_post_all sid mid rows acc db db' :
  Forall (postable mid) rows → post_all s (map (row_posting sid) rows) db = Ok db' →
  apply_settlement_lines s sid rows acc db
  = (db', Ok {| posted_count := posted_count acc + Z.of_nat (length rows); skipped_count := skipped_count acc |}).
Proof.
  intros Hrows. revert acc db. induction Hrows as [|r rows (Hm & (p & Hp & Hp0) & n & Hn & Hb) Hrows IH]; intros acc db Hall.
  { injection Hall as ->. cbn. rewrite Z.add_0_r. by destruct acc. }
  cbn [map post_all apply_settlement_lines] in *. 
  assert (row_posting sid r = settlement_posting sid r p n (rupees_dec (Z.abs n))) as Er
    by (unfold row_posting; by rewrite Hp, Hn).
  rewrite Er in Hall. rewrite Hp, Hn.
  rewrite bool_decide_eq_false_2 by done. destruct (Z.eqb_spec n 0); [lia|]. cbn [orb].
  destruct (rupees_spec (Z.abs n)) as [-> _]; [unfold ledger_bound, paise_bound in *; lia|].
  rewrite bind_Ok. destruct (api_post s _ db) as [[db1 e]|e]; [|done]. rewrite bind_Ok in Hall. cbn [fst] in *.
  rewrite (IH _ _ Hall). cbn [posted_count skipped_count length]. do 2 f_equal. f_equal. lia.
Qed.
End Settlement.

(** Processing a settlement whose lines all have a local payment takes the sum
    of their net amounts out of the merchant's balance (a negative line puts it
    back), and processing the same settlement again, as a polling retry does,
    changes nothing. *)
Theorem settlement_clears_once {L} `{LedgerApi L} s s' t sid merchant mid (db : L) n total :
  let rows := settlement_rows t sid merchant in
  Forall (postable mid) rows → NoDup (map (row_key sid) rows) → api_wf db →
  Forall (λ k, api_posted db mid k = None) (map (row_key sid) rows) →
  0 <= n → 0 <= total →
  api_room s mid "INR" (Z.of_nat (length rows) + n)
    (zsum (map (λ r, Z.abs (100 * row_move r)) rows) + total) db →
  ∃ db', apply_settlement_processed s t sid merchant db
           = (db', Ok {| posted_count := Z.of_nat (length rows); skipped_count := 0 |}) ∧
    (∀ m' c', api_balance db' m' c' = api_balance db m' c'
       + (if bool_decide (mid = m') && bool_decide ("INR"%string = c')
          then 100 * zsum (map row_move rows) else 0)) ∧
    apply_settlement_processed s' t sid merchant db'
      = (db', Ok {| posted_count := Z.of_nat (length rows); skipped_count := 0 |}).
Proof.
  intros rows Hrows Hnd Hwf Hfresh Hn Ht Hroom.
  assert (Forall2 (moves mid "INR") (map (row_posting sid) rows) (map (λ r, 100 * row_move r) rows)) as Hmoves.
  { clear -Hrows. induction Hrows as [|r rs Hr _ IH]; constructor; [by apply row_moves|done]. }
  assert (Forall2 (λ p k, p_idempotency_key p = Some k) (map (row_posting sid) rows) (map (row_key sid) rows)) as Hkeys.
  { clear. induction rows; by constructor. }
  destruct (post_all_new s mid "INR" _ _ _ db n total Hwf Hmoves Hkeys Hnd Hfresh Hn Ht)
    as (db' & Hall & Hwf' & Hbal & _ & Hsome & _).
  { by rewrite length_map, map_map. }
  pose proof (post_all_old s' mid "INR" _ _ _ db' Hwf' Hmoves Hkeys Hsome) as Hold.
  exists db'. unfold apply_settlement_processed. fold rows.
  split; [by rewrite (settlement_post_all s sid mid rows _ db db' Hrows Hall)|].
  split; [|by rewrite (settlement_post_all s' sid mid rows _ db' db' Hrows Hold)].
  intros m' c'. rewrite Hbal. case_match; [|done]. f_equal.
  clear. induction rows as [|r rs IH]; [done|]. cbn [map]. rewrite !zsum_cons, IH. lia.
Qed.

(** ** Recoveries *)

Lemma floor_share_lipschitz g m a b :
  0 < g → 0 <= m <= g → 0 <= a <= b → floor_share g m b - floor_share g m a <= b - a.
Proof.
  intros Hg Hm Hab. unfold floor_share.
  assert (Z.min b g * m / g <= Z.min a g * m / g + (b - a)); [|lia].
  rewrite <-Z.div_add by lia. apply Z.div_le_mono; [done|].
  destruct (Z.le_ge_cases b g); [rewrite Z.min_l, Z.min_l by lia; nia|].
  rewrite (Z.min_r b g) by lia. destruct (Z.le_ge_cases a g); [rewrite Z.min_l by lia; nia|].
  rewrite Z.min_r by lia. nia.
Qed.

Definition merchant_share (g m cumulative recovered : Z) : Z :=
  floor_share g m cumulative - floor_share g m (cumulative - recovered).

Lemma reversal_amounts_spec g m recovered cumulative :
  0 < g < paise_bound → 0 <= m <= g → 0 <= recovered <= cumulative →
  ∃ fee gst, reversal_amounts recovered cumulative g m = Ok (merchant_share g m cumulative recovered, fee, gst) ∧
    0 <= fee ∧ 0 <= gst ∧ fee + gst = recovered - merchant_share g m cumulative recovered.
Proof.
  intros Hg Hm Hr. unfold reversal_amounts. rewrite proportional_share_spec, bind_Ok by lia.
  fold (merchant_share g m cumulative recovered).
  pose proof (floor_share_lipschitz g m (cumulative - recovered) cumulative ltac:(lia) Hm ltac:(lia)) as Hlip.
  fold (merchant_share g m cumulative recovered) in Hlip.
  pose proof (fee_bounds (g - m) ltac:(lia)) as Hf.
  rewrite gst_split_spec, bind_Ok by lia. cbn [fst]. rewrite proportional_share_spec, bind_Ok by lia.
  pose proof (floor_share_mono g (fee_of (g - m)) (cumulative - recovered) cumulative ltac:(lia) ltac:(lia) ltac:(lia)).
  rewrite Z.max_l by lia. destruct (Z.ltb_spec (recovered - merchant_share g m cumulative recovered
    - (floor_share g (fee_of (g - m)) cumulative - floor_share g (fee_of (g - m)) (cumulative - recovered))) 0);
    do 2 eexists; (split; [reflexivity|]); lia.
Qed.

Definition reversal_keys (r : recovery) : list string :=
  [rec_key_prefix r ++ "_fee_reversal"; rec_key_prefix r ++ "_gst_reversal"]%string.

Lemma app_suffix_ne (p a b : string) : a ≠ b → (p ++ a)%string ≠ (p ++ b)%string.
Proof. intros Hne E. apply Hne. by apply (inj (String.append p)) in E. Qed.

Lemma app_ne_self (p b : string) : b ≠ ""%string → (p ++ b)%string ≠ p.
Proof.
  intros Hb. induction p as [|a p IH]; [done|]. intros [= E]. by apply IH.
Qed.

Section Recovery.
Context {L : Type} `{LedgerApi L} (r : recovery) (recovered cumulative g m : Z).
Context (Hg : 0 < g < ledger_bound) (Hm : 0 <= m <= g) (Hr : 0 <= recovered <= cumulative).
Context (Hrb : recovered < ledger_bound).

(** A recovery is a list of postings that credits the deduction's share. *)
Lemma recovery_postings :
  ∃ ps keys amounts result,
    (∀ s (db : L), post_recovery_fee_reversal s r recovered cumulative g m db
               = (db' ← post_all s ps db; Ok (db', result))) ∧
    Forall2 (moves (rec_merchant r) "INR") ps amounts ∧
    Forall2 (λ p k, p_idempotency_key p = Some k) ps keys ∧ NoDup keys ∧
    (∀ k, k ∈ keys → k ∈ reversal_keys r) ∧ (length ps <= 2)%nat ∧
    zsum amounts = 100 * (recovered - merchant_share g m cumulative recovered) ∧
    zsum (map Z.abs amounts) = zsum amounts ∧
    rr_merchant_share result = merchant_share g m cumulative recovered ∧
    rr_fee result + rr_gst result = recovered - merchant_share g m cumulative recovered.
Proof using Hg Hm Hr Hrb.
  assert (0 < g < paise_bound) as Hgb by (unfold ledger_bound, paise_bound in *; lia).
  destruct (reversal_amounts_spec g m recovered cumulative Hgb Hm Hr) as (fee & gst & Hamt & Hf & Hgst & Hsum).
  set (share := merchant_share g m cumulative recovered) in *.
  assert (0 <= share) as Hshare.
  { unfold share, merchant_share.
    pose proof (floor_share_mono g m (cumulative - recovered) cumulative ltac:(lia) ltac:(lia) ltac:(lia)). lia. }
  set (make := reversal_posting r recovered cumulative share (Z.max (recovered - share) 0)).
  assert (∀ t k n, t = "fee_reversal"%string ∨ t = "gst_reversal"%string → 0 < n <= recovered →
    moves (rec_merchant r) "INR" (leg_posting make (t, n, k)) (100 * n)) as Hleg.
  { intros t k n Htype Hn. split; [done|]. split; [done|]. exists 0, (100 * n). split; [|lia].
    apply (posts_credit _ (rupees_dec n) n); [by destruct Htype as [->| ->]|done|done| |].
    - apply rupees_spec. unfold ledger_bound, paise_bound in *. lia.
    - unfold ledger_bound in *. lia. }
  pose proof (app_suffix_ne (rec_key_prefix r) "_fee_reversal" "_gst_reversal" ltac:(done)) as Hne.
  exists (map (leg_posting make) (live (reversal_legs r fee gst))), (map snd (live (reversal_legs r fee gst))),
    (map (λ l : leg, 100 * l.1.2) (live (reversal_legs r fee gst))),
    {| rr_merchant_share := share; rr_fee := fee; rr_gst := gst |}.
  split.
  { intros s db. unfold post_recovery_fee_reversal. rewrite Hamt, bind_Ok. rewrite post_legs_all; [done|].
    unfold ledger_bound, paise_bound in *. repeat constructor; cbn; lia. }
  unfold live, reversal_legs, reversal_keys. rewrite !filter_cons, filter_nil. cbn [fst snd].
  destruct (decide (0 < fee)), (decide (0 < gst)); cbn [map zsum foldr length fst snd rr_merchant_share rr_fee rr_gst];
    (split; [repeat (apply List.Forall2_cons || apply List.Forall2_nil); (apply Hleg; [tauto|lia])|]);
    (split; [repeat (apply List.Forall2_cons || apply List.Forall2_nil); done|]);
    (split; [repeat (apply NoDup_cons; split); try apply NoDup_nil; set_solver|]);
    (split; [set_solver|]); (split; [lia|]); (split; [lia|]); (split; [lia|]); (split; [reflexivity|lia]).
Qed.
End Recovery.

(** *** A gross debit and its recovery *)

(** What a refund or a lost dispute does: debit the whole amount and, for an
    allocated payment of [gross] and [merchant] paise, give the deduction's share
    back. *)
Definition debit_and_recover {L} `{LedgerApi L} (s : stamp) (p : posting) (amount : pyval) (r : recovery)
    (cumulative : Z → Z) (allocation : option (Z * Z)) (db : L) : res (L * Z) :=
  posted ← api_post_sql s p db;
  ml ← (match allocation with
        | None => Ok posted.1
        | Some (gross, merchant) =>
            recovered ← rupees_to_paise amount;
            rev ← post_recovery_fee_reversal s r recovered (cumulative recovered) gross merchant posted.1;
            Ok rev.1
        end);
  Ok (ml, e_id posted.2).

(** What it costs the merchant, in paise. *)
Definition recovery_cost (allocation : option (Z * Z)) (cumulative paise : Z) : Z :=
  match allocation with
  | None => paise
  | Some (gross, merchant) => merchant_share gross merchant cumulative paise
  end.

Lemma reversal_keys_ne r k : k ∈ reversal_keys r → k ≠ rec_key_prefix r.
Proof.
  unfold reversal_keys. intros [->|[->|Hk]%elem_of_cons]%elem_of_cons; [by apply app_ne_self..|].
  by apply elem_of_nil in Hk.
Qed.

Lemma debit_and_recover_spec {L} `{LedgerApi L} s p amount r cumulative allocation paise (db : L) :
  posts p (100 * paise) 0 → posting_currency p = "INR"%string → p_merchant p = rec_merchant r →
  p_idempotency_key p = Some (rec_key_prefix r) → rupees_to_paise amount = Ok paise → 0 < paise < ledger_bound →
  (∀ g m, allocation = Some (g, m) → 0 < g < ledger_bound ∧ 0 <= m <= g ∧ paise <= cumulative paise) →
  api_wf db → Forall (λ k, api_posted db (rec_merchant r) k = None) (rec_key_prefix r :: reversal_keys r) →
  api_room s (rec_merchant r) "INR" 3 (200 * paise) db →
  ∃ ml id, debit_and_recover s p amount r cumulative allocation db = Ok (ml, id) ∧ api_wf ml ∧
    (∀ m' c', api_balance ml m' c' = api_balance db m' c'
       - (if bool_decide (rec_merchant r = m') && bool_decide ("INR"%string = c')
          then 100 * recovery_cost allocation (cumulative paise) paise else 0)).
Proof.
  intros Hposts Hcur Hmer Hkey Hamount Hpaise Hfits Hwf [Hnew Hkeys]%Forall_cons Hroom.
  unfold debit_and_recover, recovery_cost. rewrite (api_post_sql_eq s _ _ _ _ Hposts).
  rewrite <-Hmer in Hnew, Hroom. rewrite <-Hcur in Hroom.
  destruct (api_post_new s _ _ _ _ 2 (100 * paise) db Hwf Hposts Hkey Hnew)
    as (ml & e & -> & Hwf1 & _ & Hbal & Hposted & Hroom1); [lia|lia| |].
  { replace (Z.abs _ + _) with (200 * paise) by lia. exact Hroom. }
  rewrite Hcur, Hmer in *. rewrite bind_Ok. cbn [fst snd].
  destruct allocation as [[g m]|].
  2:{ rewrite bind_Ok. exists ml, (e_id e). split; [done|]. split; [done|]. intros m' c'. rewrite Hbal. case_match; lia. }
  destruct (Hfits g m eq_refl) as (Hg & Hm & Hcum). rewrite Hamount, bind_Ok. set (cum := cumulative paise) in *.
  destruct (recovery_postings (L := L) r paise cum g m Hg Hm ltac:(lia) ltac:(lia))
    as (ps & keys & amounts & res & Heq & Hmoves & Hk & Hnd & Hkin & Hlen & Hsum & Habs & _ & _).
  assert (Forall (λ k, api_posted ml (rec_merchant r) k = None) keys) as Hfresh.
  { apply Forall_forall. intros k Hkk. apply Hkin in Hkk. rewrite Hposted, decide_False.
    - by apply (proj1 (Forall_forall _ _) Hkeys).
    - intros [_ E]. by apply (reversal_keys_ne r k). }
  pose proof (floor_share_mono g m (cum - paise) cum ltac:(lia) ltac:(lia) ltac:(lia)) as Hmono.
  destruct (post_all_new s (rec_merchant r) "INR" ps amounts keys ml (2 - Z.of_nat (length ps))
    (100 * paise - zsum amounts) Hwf1 Hmoves Hk Hnd Hfresh) as (ml' & Hall & Hwf2 & Hbal2 & _); [lia| | |].
  { rewrite Hsum. unfold merchant_share. lia. }
  { rewrite Habs. replace (_ + (2 - _)) with 2 by lia. replace (_ + (_ - _)) with (100 * paise) by lia. exact Hroom1. }
  rewrite Heq, Hall, bind_Ok. cbn [fst]. rewrite !bind_Ok. exists ml', (e_id e). split; [done|]. split; [done|].
  intros m' c'. rewrite Hbal2, Hbal, Hsum. case_match; lia.
Qed.

(** A recovery (a refund or a lost dispute) gives the merchant back exactly
    what is not the merchant's share of it: the fee and GST credited add up to
    the recovered amount less the floored share, and a replay under the same
    keys changes nothing. *)
Theorem recovery_credits_deduction {L} `{LedgerApi L} s s' r recovered cumulative g m (db : L) :
  0 < g < ledger_bound → 0 <= m <= g → 0 <= recovered <= cumulative → recovered < ledger_bound →
  api_wf db → Forall (λ k, api_posted db (rec_merchant r) k = None) (reversal_keys r) →
  api_room s (rec_merchant r) "INR" 2 (100 * (recovered - merchant_share g m cumulative recovered)) db →
  ∃ db' res, post_recovery_fee_reversal s r recovered cumulative g m db = Ok (db', res) ∧
    rr_fee res + rr_gst res = recovered - rr_merchant_share res ∧
    0 <= rr_merchant_share res <= recovered ∧
    (∀ m' c', api_balance db' m' c' = api_balance db m' c'
       + (if bool_decide (rec_merchant r = m') && bool_decide ("INR"%string = c')
          then 100 * (recovered - rr_merchant_share res) else 0)) ∧
    post_recovery_fee_reversal s' r recovered cumulative g m db' = Ok (db', res).
Proof.
  intros Hg Hm Hr Hrb Hwf Hfresh Hroom.
  destruct (recovery_postings (L := L) r recovered cumulative g m Hg Hm Hr Hrb)
    as (ps & keys & amounts & res & Heq & Hmoves & Hkeys & Hnd & Hin & Hlen & Hsum & Habs & Hres & Hfg).
  assert (Forall (λ k, api_posted db (rec_merchant r) k = None) keys) as Hfresh'.
  { apply Forall_forall. intros k Hk. by apply (proj1 (Forall_forall _ _) Hfresh), Hin. }
  destruct (post_all_new s (rec_merchant r) "INR" ps amounts keys db (2 - Z.of_nat (length ps)) 0
    Hwf Hmoves Hkeys Hnd Hfresh') as (db' & Hall & Hwf' & Hbal & _ & Hsome & _); [lia|lia| |].
  { rewrite Habs, Hsum, Z.add_0_r. by replace (_ + (2 - _)) with 2 by lia. }
  exists db', res. rewrite Heq, Hall, bind_Ok, Hres. split; [done|]. split; [lia|]. split; [|split].
  - pose proof (floor_share_lipschitz g m (cumulative - recovered) cumulative ltac:(lia) Hm ltac:(lia)).
    pose proof (floor_share_mono g m (cumulative - recovered) cumulative ltac:(lia) ltac:(lia) ltac:(lia)).
    unfold merchant_share. lia.
  - intros m' c'. by rewrite Hbal, Hsum.
  - by rewrite Heq, (post_all_old s' (rec_merchant r) "INR" ps amounts keys db' Hwf' Hmoves Hkeys Hsome), bind_Ok.
Qed.

(** ** Examples *)

Definition demo_capture : capture := {|
  cap_merchant := Some "m1"%string; cap_payment := "p1"; cap_order := None; cap_branch := None;
  cap_bank_reference := None; cap_razorpay_payment := Some "pay_1"%string; cap_created_by := None |}.

Lemma capture_posts_entitlement_witness :
  ∃ db' r, apply_payment_capture (at_time 5) demo_capture (PInt 1000) (Some "card"%string) (Some 95000) None
             empty_ledger = Ok (db', r) ∧
    api_balance db' "m1" "INR" = 9500000 ∧
    apply_payment_capture (at_time 9) demo_capture (PInt 1000) (Some "card"%string) (Some 95000) None db'
      = Ok (db', r).
Proof.
  destruct (capture_posts_entitlement (at_time 5) (at_time 9) demo_capture "m1" (Some "card"%string) None
    (PInt 1000) (d_int 1000) 100000 95000 empty_ledger)
    as (db' & r & fee & gst & H1 & _ & _ & _ & H2 & H3).
  1-8: (done || reflexivity).
  - exact empty_wf.
  - vm_compute. repeat constructor.
  - repeat split; vm_compute; congruence.
  - exists db', r. split; [exact H1|]. split; [|exact H3]. rewrite (H2 "m1" "INR")%string. reflexivity.
Defined.

Definition demo_tables : razorpay_tables := {|
  rzp_settlement_payments :=
    [{| sp_merchant := "m1"; sp_settlement := "setl_1"; sp_payment := Some "pay_1"%string;
        sp_credit := Some 95000; sp_debit := None |}];
  rzp_route_transfers := [];
  payments := [{| pl_id := "p1"; pl_razorpay := "pay_1"; pl_restaurant := "m1"; pl_order := None;
                  pl_branch := None |}];
  settlement_utr := {[ "setl_1"%string := "UTR1"%string ]} |}.

Definition demo_row : settlement_line := {|
  sl_merchant := "m1"; sl_razorpay_payment := "pay_1"; sl_net_paise := Some 95000;
  sl_payment := Some "p1"%string; sl_order := None; sl_branch := None; sl_utr := Some "UTR1"%string |}.

Lemma settlement_clears_once_witness :
  ∃ db', apply_settlement_processed (at_time 5) demo_tables "setl_1" None empty_ledger
           = (db', Ok {| posted_count := 1; skipped_count := 0 |}) ∧
    api_balance db' "m1" "INR" = -9500000 ∧
    apply_settlement_processed (at_time 9) demo_tables "setl_1" None db'
      = (db', Ok {| posted_count := 1; skipped_count := 0 |}).
Proof.
  destruct (settlement_clears_once (at_time 5) (at_time 9) demo_tables "setl_1" None "m1" empty_ledger 0 0)
    as (db' & H1 & H2 & H3).
  - replace (settlement_rows demo_tables "setl_1" None) with [demo_row] by reflexivity.
    repeat constructor; [by exists "p1"%string|]. by exists 95000.
  - replace (settlement_rows demo_tables "setl_1" None) with [demo_row] by reflexivity.
    apply NoDup_singleton.
  - exact empty_wf.
  - vm_compute. repeat constructor.
  - done.
  - done.
  - repeat split; vm_compute; congruence.
  - exists db'. split; [exact H1|]. split; [|exact H3]. rewrite (H2 "m1" "INR")%string. reflexivity.
Defined.

Definition demo_recovery : recovery := {|
  rec_merchant := "m1"; rec_payment := "p1"; rec_key_prefix := "refund:r1"; rec_source_type := "refund";
  rec_source_id := None; rec_order := None; rec_created_by := None |}.

Lemma recovery_credits_deduction_witness :
  ∃ db' res, post_recovery_fee_reversal (at_time 5) demo_recovery 40000 40000 100000 95000 empty_ledger
               = Ok (db', res) ∧ rr_fee res + rr_gst res = 40000 - rr_merchant_share res.
Proof.
  destruct (recovery_credits_deduction (at_time 5) (at_time 9) demo_recovery 40000 40000 100000 95000 empty_ledger)
    as (db' & res & H1 & H2 & _).
  1-4: (done || (split; done)).
  - exact empty_wf.
  - vm_compute. repeat constructor.
  - repeat split; vm_compute; congruence.
  - exists db', res. exact (conj H1 H2).
Defined.
