(* ===== verification/RouteSafety.v ===== *)
(** Guarded gateway mutations: [src/app/services/razorpay/route_safety.py].

    Every statement here commits on its own, so a mutation is a state
    transformer that keeps its effects when it raises.  [W] is the world outside
    the operations table (the gateway and the other tables), [send] the mutation
    itself, and the request is known by its digest. *)

From Stdlib Require Import ZArith Lia String.
From S2P Require Import Prelude PyDecimal PyFloat PyValues.
Open Scope Z_scope.

Inductive op_state := Unknown | Rejected | Succeeded.

#[export] Instance op_state_eq_dec : EqDecision op_state.
Proof. solve_decision. Defined.

(** Does an exception of [send] prove that nothing happened at the gateway? *)
Definition proves_rejection (e : exn) : bool :=
  match e with
  | ValidationError _ | ConflictError _ | NotFoundError _ => true
  | RazorpayAPIError code =>
      (400 <=? code) && (code <? 500) && negb (bool_decide (code ∈ [408; 409; 425; 429]))
  | _ => false
  end.

Section RouteSafety.
Context {W R : Type}.

(** A row of [rzp_route_operations]. *)
Record operation := { request_hash : string; resource_key : string; state : op_state; response : option R }.
Abbreviation operations := (gmap string operation).

(** Another operation of the same resource has an unknown outcome. *)
Definition blocked (ops : operations) (key resource : string) : bool :=
  bool_decide (map_Exists (λ k op, resource_key op = resource ∧ k ≠ key ∧ state op = Unknown) ops).

(** [INSERT ... ON CONFLICT DO UPDATE ... WHERE ... RETURNING]: the claim. *)
Definition claim (ops : operations) (key digest resource : string) : option operations :=
  match ops !! key with
  | None => Some (<[key := {| request_hash := digest; resource_key := resource; state := Unknown;
                              response := None |}]> ops)
  | Some op =>
      if bool_decide (request_hash op = digest) && bool_decide (resource_key op = resource)
         && bool_decide (state op = Rejected)
      then Some (<[key := {| request_hash := request_hash op; resource_key := resource_key op;
                             state := Unknown; response := response op |}]> ops)
      else None
  end.

Definition set_state (s : op_state) (r : option R) (op : operation) : operation := {|
  request_hash := request_hash op; resource_key := resource_key op; state := s;
  response := match r with Some _ => r | None => response op end |}.

Definition guarded_mutation (key resource digest : string) (send : W → W * res R)
    (st : operations * W) : operations * W * res R :=
  let (ops, w) := st in
  if blocked ops key resource then
    (ops, w, Err (RuntimeError "Earlier Route operation has an unknown outcome; reconcile before another mutation"))
  else
    let claim_and_send :=
      match claim ops key digest resource with
      | None => (ops, w, Err (ValueError "Route operation was already claimed or key was reused"))
      | Some ops' =>
          match send w with
          | (w', Ok r) => (alter (set_state Succeeded (Some r)) key ops', w', Ok r)
          | (w', Err e) =>
              if proves_rejection e then (alter (set_state Rejected None) key ops', w', Err e)
              else (ops', w', Err e)
          end
      end in
    match ops !! key with
    | Some op =>
        if negb (bool_decide (request_hash op = digest)) then
          (ops, w, Err (ValueError "Route operation key reused with different request"))
        else
          match state op with
          | Succeeded =>
              match response op with
              | Some r => (ops, w, Ok r)
              | None => (ops, w, Err (ValueError "null response"))
              end
          | Unknown => (ops, w, Err (RuntimeError "Route outcome unknown: reconcile at Razorpay before retrying "))
          | Rejected => claim_and_send
          end
    | None => claim_and_send
    end.

(** A stored success carries its response. *)
Definition ops_wf (ops : operations) : Prop :=
  map_Forall (λ _ op, state op = Succeeded → is_Some (response op)) ops.

(** ** Facts *)

Lemma blocked_spec ops key resource :
  blocked ops key resource = true ↔
  ∃ k op, ops !! k = Some op ∧ resource_key op = resource ∧ k ≠ key ∧ state op = Unknown.
Proof. unfold blocked. rewrite bool_decide_eq_true. unfold map_Exists. naive_solver. Qed.

(** The cases of a mutation: refused without sending, replayed, or sent. *)
Inductive outcome (key resource digest : string) (send : W → W * res R) (ops : operations) (w : W) :
    operations → W → res R → Prop :=
  | Refused e :
      (blocked ops key resource = true ∨ ∃ op, ops !! key = Some op ∧
         (request_hash op ≠ digest ∨ state op = Unknown ∨ (state op = Rejected ∧ resource_key op ≠ resource))) →
      outcome key resource digest send ops w ops w (Err e)
  | Replayed op r :
      ops !! key = Some op → request_hash op = digest → state op = Succeeded → response op = Some r →
      outcome key resource digest send ops w ops w (Ok r)
  | Sent w' result :
      blocked ops key resource = false →
      (ops !! key = None ∨ ∃ op, ops !! key = Some op ∧ request_hash op = digest ∧
         resource_key op = resource ∧ state op = Rejected) →
      send w = (w', result) →
      ∀ old, outcome key resource digest send ops w
        (<[key := {| request_hash := digest; resource_key := resource;
             state := match result with
                      | Ok _ => Succeeded
                      | Err e => if proves_rejection e then Rejected else Unknown
                      end;
             response := match result with Ok r => Some r | Err _ => old end |}]> ops) w' result.

Lemma guarded_mutation_outcome key resource digest send ops w ops' w' result :
  ops_wf ops → guarded_mutation key resource digest send (ops, w) = (ops', w', result) →
  outcome key resource digest send ops w ops' w' result.
Proof.
  intros Hwf H. cbn in H. destruct (blocked ops key resource) eqn:Hb.
  { simplify_eq. apply Refused. by left. }
  assert (∀ old, ((ops !! key = None ∧ old = None) ∨ ∃ op, ops !! key = Some op ∧ request_hash op = digest ∧
      resource_key op = resource ∧ state op = Rejected ∧ old = response op) →
    claim ops key digest resource = Some (<[key := {| request_hash := digest; resource_key := resource;
      state := Unknown; response := old |}]> ops)) as Hclaim.
  { intros old [[Hn ->]|(op & Hop & Hd & Hr & Hs & ->)]; unfold claim; [by rewrite Hn|].
    rewrite Hop, !bool_decide_eq_true_2 by done. cbn. by rewrite Hd, Hr. }
  assert (∀ old, claim ops key digest resource = Some (<[key := {| request_hash := digest; resource_key := resource;
      state := Unknown; response := old |}]> ops) →
    (ops !! key = None ∨ ∃ op, ops !! key = Some op ∧ request_hash op = digest ∧
       resource_key op = resource ∧ state op = Rejected) →
    match claim ops key digest resource with
    | None => (ops, w, Err (ValueError "Route operation was already claimed or key was reused"))
    | Some ops' =>
        match send w with
        | (w', Ok r) => (alter (set_state Succeeded (Some r)) key ops', w', Ok r)
        | (w', Err e) =>
            if proves_rejection e then (alter (set_state Rejected None) key ops', w', Err e)
            else (ops', w', Err e)
        end
    end = (ops', w', result) → outcome key resource digest send ops w ops' w' result) as Hsend.
  { intros old -> Hcase. destruct (send w) as [w1 [r|e]] eqn:Hs; [|destruct (proves_rejection e) eqn:He]; intros E;
      injection E as <- <- <-; rewrite ?alter_insert_eq;
      pose proof (Sent key resource digest send ops w _ _ Hb Hcase Hs old) as Ho; cbn in Ho; rewrite ?He in Ho; exact Ho. }
  destruct (ops !! key) as [op|] eqn:Hop.
  - destruct (bool_decide (request_hash op = digest)) eqn:Hd; cbn [negb] in H;
      [apply bool_decide_eq_true in Hd|apply bool_decide_eq_false in Hd; simplify_eq; apply Refused; right; exists op; auto].
    destruct (state op) eqn:Hs.
    + simplify_eq. apply Refused. right. exists op. auto.
    + destruct (decide (resource_key op = resource)) as [Hr|Hr].
      * apply (Hsend (response op)); [apply Hclaim; right; eauto 10|right; eauto 10|exact H].
      * unfold claim in H. rewrite Hop, (bool_decide_eq_true_2 _ Hd), (bool_decide_eq_false_2 _ Hr) in H.
        cbn in H. injection H as <- <- <-. apply Refused. right. exists op. auto.
    + destruct (Hwf key op Hop Hs) as [r Hr]. rewrite Hr in H. simplify_eq. by eapply Replayed.
  - apply (Hsend None); [apply Hclaim; by left|by left|exact H].
Qed.

(** A mutation leaves the world alone or is one send. *)
Lemma guarded_mutation_world key resource digest send ops w :
  let w' := (guarded_mutation key resource digest send (ops, w)).1.2 in w' = w ∨ w' = (send w).1.
Proof. cbn. destruct (send w) as [w1 r]. repeat case_match; simplify_eq/=; auto. Qed.

Lemma outcome_wf key resource digest send ops w ops' w' result :
  ops_wf ops → outcome key resource digest send ops w ops' w' result → ops_wf ops'.
Proof.
  intros Hwf [| |w1 result1 Hb Hcase Hs old]; [done..|]. apply map_Forall_insert_2; [|done]. cbn.
  destruct result1 as [r|e]; [by eexists|]. by destruct (proves_rejection e).
Qed.
End RouteSafety.
Arguments operation R : clear implicits.

(** ** Sequences of attempts *)

(** What a send's result says about the gateway. *)
Definition verdict {R} (r : res R) : op_state :=
  match r with Ok _ => Succeeded | Err e => if proves_rejection e then Rejected else Unknown end.

Section Attempts.
Context {W R : Type}.

Record attempt := { a_key : string; a_resource : string; a_digest : string; a_send : W → W * res R }.

(** The same send, recorded in a log of the world. *)
Definition logged (a : attempt) (w : W * list (string * op_state)) : W * list (string * op_state) * res R :=
  let (w', r) := a_send a w.1 in ((w', w.2 ++ [(a_key a, verdict r)]), r).

Definition attempt_once (a : attempt) (st : gmap string (operation R) * (W * list (string * op_state))) :=
  guarded_mutation (a_key a) (a_resource a) (a_digest a) (logged a) st.

Fixpoint run (l : list attempt) (st : gmap string (operation R) * (W * list (string * op_state))) :=
  match l with [] => st | a :: l' => run l' (attempt_once a st).1 end.

(** The sends made under a key. *)
Definition sends (key : string) (log : list (string * op_state)) : list op_state :=
  map snd (filter (λ x, x.1 = key) log).

(** The log of a key is rejections, then its current state. *)
Definition log_inv (ops : gmap string (operation R)) (log : list (string * op_state)) : Prop :=
  ∀ key, match ops !! key with
         | None => sends key log = []
         | Some op => ∃ pre, Forall (λ s, s = Rejected) pre ∧ sends key log = pre ++ [state op]
         end.

Lemma sends_app key log k v : sends key (log ++ [(k, v)]) = sends key log ++ (if decide (k = key) then [v] else []).
Proof. unfold sends. rewrite filter_app, filter_cons, filter_nil, map_app. cbn. by case_decide. Qed.

Lemma attempt_inv a ops w log :
  ops_wf ops → log_inv ops log →
  let st' := (attempt_once a (ops, (w, log))).1 in ops_wf st'.1 ∧ log_inv st'.1 st'.2.2.
Proof.
  intros Hwf Hinv. unfold attempt_once.
  destruct (guarded_mutation (a_key a) (a_resource a) (a_digest a) (logged a) (ops, (w, log))) as [[ops' [w' log']] r] eqn:E.
  cbn. pose proof (guarded_mutation_outcome _ _ _ _ _ _ _ _ _ Hwf E) as Ho.
  split; [by eapply outcome_wf|]. inversion Ho as [| |? ? Hb Hcase Hs old]; subst; [done..|].
  unfold logged in Hs. destruct (a_send a (w, log).1) as [w1 r1] eqn:Hw. cbn in Hs. injection Hs as <- <- <-.
  intros key. rewrite sends_app. destruct (decide (a_key a = key)) as [<-|Hne].
  - rewrite lookup_insert_eq. specialize (Hinv (a_key a)).
    destruct Hcase as [Hn|(op & Hop & _ & _ & Hrej)].
    + rewrite Hn in Hinv. exists []. rewrite Hinv. split; [constructor|done].
    + rewrite Hop in Hinv. destruct Hinv as (pre & Hpre & Hlog). exists (pre ++ [Rejected]).
      rewrite Hlog, Hrej. split; [by apply Forall_app_2; [|constructor]|done].
  - rewrite lookup_insert_ne by done. rewrite app_nil_r. apply Hinv.
Qed.

Lemma run_inv l ops w log :
  ops_wf ops → log_inv ops log → let st := run l (ops, (w, log)) in ops_wf st.1 ∧ log_inv st.1 st.2.2.
Proof.
  revert ops w log. induction l as [|a l IH]; intros ops w log Hwf Hinv; [done|]. cbn [run].
  pose proof (attempt_inv a ops w log Hwf Hinv) as Ha. cbv zeta in Ha.
  destruct Ha as [Hwf' Hinv']. destruct (attempt_once a (ops, (w, log))) as [[ops' [w' log']] r].
  exact (IH ops' w' log' Hwf' Hinv').
Qed.
End Attempts.

(** However often and under whatever keys a gateway mutation is attempted,
    each key sends at most one request whose outcome is not a proven rejection,
    and nothing is sent under the key after it. *)
Theorem at_most_one_send {W R} (l : list (@attempt W R)) (w : W) (key : string) :
  ∃ rejected final, sends key (run l (∅, (w, []))).2.2 = rejected ++ final ∧
    Forall (λ s, s = Rejected) rejected ∧ (length final <= 1)%nat.
Proof.
  destruct (run_inv l ∅ w [] (map_Forall_empty _)) as [_ Hinv]; [intros k; by rewrite lookup_empty|].
  specialize (Hinv key). destruct (_ !! key) as [op|].
  - destruct Hinv as (pre & Hpre & ->). exists pre, [state op]. done.
  - exists [], []. rewrite Hinv. repeat split; [constructor|cbn; lia].
Qed.

(** While an operation of a resource has an unknown outcome, every mutation of
    the resource is refused without sending: neither the operations table nor
    the world changes, whatever the key and the request. *)
Theorem unknown_outcome_blocks {W R} key resource digest (send : W → W * res R) ops w k op :
  ops !! k = Some op → resource_key op = resource → state op = Unknown →
  ∃ e, guarded_mutation key resource digest send (ops, w) = (ops, w, Err e).
Proof.
  intros Hop Hr Hs. cbn. destruct (blocked ops key resource) eqn:Hb; [by eexists|].
  destruct (decide (k = key)) as [->|Hne].
  - rewrite Hop, Hs. case_match; by eexists.
  - assert (blocked ops key resource = true); [|congruence]. apply blocked_spec. by exists k, op.
Qed.

(** A succeeded operation is replayed: the same key and request return the
    stored response and send nothing; the same key with another request is a
    ValueError. *)
Theorem success_is_replayed {W R} key resource digest digest2 (send : W → W * res R) ops w op r :
  blocked ops key resource = false → ops !! key = Some op → request_hash op = digest →
  state op = Succeeded → response op = Some r → digest2 ≠ digest →
  guarded_mutation key resource digest send (ops, w) = (ops, w, Ok r) ∧
  guarded_mutation key resource digest2 send (ops, w)
    = (ops, w, Err (ValueError "Route operation key reused with different request")).
Proof.
  intros Hb Hop Hd Hs Hr Hne. cbn. rewrite Hb, Hop, Hd, Hs, Hr.
  by rewrite bool_decide_eq_true_2, bool_decide_eq_false_2.
Qed.

(** ** Examples *)

Definition demo_op (s : op_state) : operation Z :=
  {| request_hash := "h"; resource_key := "pay_1"; state := s; response := Some 7 |}.
Definition demo_ops (s : op_state) : gmap string (operation Z) := {[ "k1"%string := demo_op s ]}.
Definition charge (w : Z) : Z * res Z := (w + 100, Ok 7).

Lemma unknown_outcome_blocks_witness :
  ∃ e, guarded_mutation "k2" "pay_1" "h2" charge (demo_ops Unknown, 0) = (demo_ops Unknown, 0, Err e).
Proof.
  apply (unknown_outcome_blocks "k2" "pay_1" "h2" charge (demo_ops Unknown) 0 "k1" (demo_op Unknown));
    reflexivity.
Defined.

Lemma success_is_replayed_witness :
  guarded_mutation "k1" "pay_1" "h" charge (demo_ops Succeeded, 0) = (demo_ops Succeeded, 0, Ok 7).
Proof.
  apply (success_is_replayed "k1" "pay_1" "h" "other" charge (demo_ops Succeeded) 0 (demo_op Succeeded) 7);
    [reflexivity..|done].
Defined.
