(* ===== verification/Refunds.v ===== *)
(** Refunds: [src/app/services/refund_service.py], with [fn_refundable_amount] of
    [src/migrations/043_refunds_disputes.sql] and [frozen_allocation_for_payment]
    of [src/app/services/razorpay/ledgers.py].

    The service owns the refunds table and posts into a merchant ledger it knows
    only through [LedgerApi].  Amounts of rows are ten-thousandths of a rupee.
    The gateway call is a parameter; audit records are best-effort and never
    raise, so they are left out. *)

From Stdlib Require Import ZArith Lia String.
From S2P Require Import Prelude PyDecimal PyFloat PyValues FeePolicy MerchantLedger RazorpayLedgers RouteSafety.
Open Scope Z_scope.

(** ** Data *)

Inductive refund_status := Initiated | Processing | RSucceeded | Failed | Cancelled.

#[export] Instance refund_status_eq_dec : EqDecision refund_status.
Proof. solve_decision. Defined.

Definition status_text (s : refund_status) : string :=
  match s with
  | Initiated => "initiated" | Processing => "processing" | RSucceeded => "succeeded"
  | Failed => "failed" | Cancelled => "cancelled"
  end.

Definition all_statuses : list refund_status := [Initiated; Processing; RSucceeded; Failed; Cancelled].

Definition parse_status (text : string) : option refund_status :=
  find (λ s, bool_decide (status_text s = text)) all_statuses.

Definition _ALLOWED_TRANSITIONS (s : refund_status) : list refund_status :=
  match s with
  | Initiated => [Processing; RSucceeded; Failed; Cancelled]
  | Processing => [RSucceeded; Failed; Cancelled]
  | RSucceeded | Failed | Cancelled => []
  end.

Record refund := {
  r_id : Z;
  r_uuid : string;
  r_merchant : string;
  r_payment : string;
  r_order : option string;
  r_amount : Z;
  r_currency : string;
  r_kind : string;
  r_status : refund_status;
  r_reason : option string;
  r_customer_contact : option string;
  r_gateway_refund_id : option string;
  r_initiated_by_user : option string;
  r_initiated_by_admin : option string;
  r_ledger_entry : option Z;
  r_notes : list (string * string);
  r_failure_reason : option string;
  r_processed_at : option Z;
}.

(** A row of [payments], its amount in ten-thousandths. *)
Record payment := {
  pay_restaurant : option string;
  pay_order : option string;
  pay_amount : Z;
  pay_status : string;
  pay_currency : option string;
  pay_razorpay : option string;
}.

(** A mirrored gateway refund. *)
Record rzp_refund := { rz_internal : option string; rz_merchant : string; rz_amount : Z; rz_status : string }.

Record refund_db (L : Type) := {
  payment_rows : gmap string payment;
  refund_rows : list refund;
  route_allocations : gmap string (Z * option Z);
  rzp_refunds : gmap string rzp_refund;
  merchant_ledger : L;
}.
Arguments payment_rows {L}.
Arguments refund_rows {L}.
Arguments route_allocations {L}.
Arguments rzp_refunds {L}.
Arguments merchant_ledger {L}.

Definition with_refunds {L} (db : refund_db L) (l : list refund) (ml : L) : refund_db L := {|
  payment_rows := payment_rows db; refund_rows := l; route_allocations := route_allocations db;
  rzp_refunds := rzp_refunds db; merchant_ledger := ml |}.

(** ** [fn_refundable_amount] *)

Definition is_active (s : refund_status) : bool :=
  match s with Initiated | Processing | RSucceeded => true | _ => false end.

(** The refunds that count against a payment. *)
Definition active_for (merchant payment_id : string) (r : refund) : bool :=
  bool_decide (r_merchant r = merchant) && bool_decide (r_payment r = payment_id) && is_active (r_status r).

Definition refunded (l : list refund) (merchant payment_id : string) : Z :=
  sum_where (active_for merchant payment_id) r_amount l.

Definition owned_by (merchant : string) (p : payment) : bool :=
  match pay_restaurant p with None => true | Some m => bool_decide (m = merchant) end.

Definition fn_refundable_amount {L} (db : refund_db L) (merchant payment_id : string) : Z :=
  match payment_rows db !! payment_id with
  | Some p => if owned_by merchant p
              then Z.max (pay_amount p - refunded (refund_rows db) merchant payment_id) 0 else 0
  | None => 0
  end.

(** ** The requests *)

Record refund_request := {
  rq_merchant : string;
  rq_payment : string;
  rq_amount : pyval;
  rq_reason : option string;
  rq_kind : string;
  rq_order : option string;
  rq_customer_contact : option string;
  rq_notes : list (string * string);
  rq_user : option string;
  rq_admin : option string;
}.

Definition refundable_statuses : list string := ["paid"; "captured"; "succeeded"; "completed"; "settled"]%string.
Definition refund_kinds : list string := ["full"; "partial"; "goodwill"]%string.

(** [Decimal(str(v))], InvalidOperation when it is no number. *)
Definition decimal_of (v : pyval) : res decimal :=
  match parse_decimal v with Some d => Ok d | None => Err InvalidOperation end.

(** The optional arguments of [transition]. *)
Record change := {
  ch_gateway_refund_id : option string;
  ch_failure_reason : option string;
  ch_notes : list (string * string);
  ch_actor_user : option string;
  ch_actor_admin : option string;
}.

Definition find_refund {L} (db : refund_db L) (id : Z) : option refund :=
  find (λ r, r_id r =? id) (refund_rows db).

Definition ends_refund (s : refund_status) : bool :=
  match s with RSucceeded | Failed | Cancelled => true | _ => false end.

(** [CASE WHEN $5 IS NOT NULL THEN notes || $5 ELSE notes END] *)
Definition merge_notes (old new : list (string * string)) : list (string * string) :=
  filter (λ p, p.1 ∉ map fst new) old ++ new.

Definition updated_refund (now : Z) (status : refund_status) (c : change) (entry : option Z) (r : refund) : refund := {|
  r_id := r_id r; r_uuid := r_uuid r; r_merchant := r_merchant r; r_payment := r_payment r;
  r_order := r_order r; r_amount := r_amount r; r_currency := r_currency r; r_kind := r_kind r;
  r_status := status; r_reason := r_reason r; r_customer_contact := r_customer_contact r;
  r_gateway_refund_id := coalesce (ch_gateway_refund_id c) (r_gateway_refund_id r);
  r_initiated_by_user := r_initiated_by_user r; r_initiated_by_admin := r_initiated_by_admin r;
  r_ledger_entry := coalesce entry (r_ledger_entry r);
  r_notes := merge_notes (r_notes r) (ch_notes c);
  r_failure_reason := coalesce (ch_failure_reason c) (r_failure_reason r);
  r_processed_at := if ends_refund status then Some now else r_processed_at r |}.

Definition update_refund (id : Z) (r' : refund) (l : list refund) : list refund :=
  map (λ r, if r_id r =? id then r' else r) l.

(** The debit of a succeeded refund. *)
Definition refund_posting (r : refund) (c : change) : posting := {|
  p_merchant := r_merchant r; p_type := "refund"; p_debit := PDec (Dec (r_amount r) (-4)); p_credit := PInt 0;
  p_branch := None; p_currency := Some (r_currency r); p_source_type := Some "refund"%string;
  p_source_id := None; p_settlement_id := None; p_payment_id := Some (r_payment r); p_order_id := r_order r;
  p_bank_reference := None; p_utr_number := None;
  p_idempotency_key := Some ("refund:" ++ r_uuid r)%string;
  p_metadata := [("refund_id", nat_text (r_id r)); ("kind", r_kind r)]%string;
  p_created_by := coalesce (ch_actor_admin c) (ch_actor_user c) |}.

Definition refund_recovery (r : refund) (c : change) : recovery := {|
  rec_merchant := r_merchant r; rec_payment := r_payment r; rec_key_prefix := ("refund:" ++ r_uuid r)%string;
  rec_source_type := "refund"; rec_source_id := None; rec_order := r_order r;
  rec_created_by := coalesce (ch_actor_admin c) (ch_actor_user c) |}.

(** [ROUND(amount * 100)] of a column of ten-thousandths. *)
Definition paise_of (ticks : Z) : Z := round_div ROUND_HALF_UP ticks 100.

(** The cumulative paise of the payment's succeeded refunds and this one. *)
Definition cumulative_paise (l : list refund) (r : refund) : Z :=
  zsum (map (λ x, paise_of (r_amount x))
    (filter (λ x, r_payment x = r_payment r ∧ r_merchant x = r_merchant r ∧
                  (r_status x = RSucceeded ∨ r_id x = r_id r)) l)).

Section Service.
Context {L : Type} `{LedgerApi L}.

Definition frozen_allocation_for_payment (db : refund_db L) (payment_id : string) : option (Z * Z) :=
  p ← payment_rows db !! payment_id;
  rp ← pay_razorpay p;
  a ← route_allocations db !! rp;
  m ← a.2;
  Some (a.1, m).

Definition create (uuid : string) (rq : refund_request) (db : refund_db L) : res (refund_db L * refund) :=
  amt ← decimal_of (rq_amount rq);
  _ ← raise_if (negb (dpos amt)) (ValidationError "amount must be > 0");
  _ ← raise_if (negb (str_mem (rq_kind rq) refund_kinds)) (ValidationError "kind must be full|partial|goodwill");
  match payment_rows db !! rq_payment rq with
  | None => Err (NotFoundError "payment not found")
  | Some pay =>
      _ ← raise_if (negb (owned_by (rq_merchant rq) pay)) (NotFoundError "payment not found");
      _ ← raise_if (negb (str_mem (pay_status pay) refundable_statuses))
            (ValidationError "only captured/completed payments can be refunded");
      let refundable := Dec (fn_refundable_amount db (rq_merchant rq) (rq_payment rq)) (-4) in
      _ ← raise_if (dltb refundable amt) (ConflictError "refund amount exceeds refundable balance");
      amount ← numeric_18_4 (ticks amt);
      _ ← raise_if (negb (0 <? amount)) (DatabaseError "refunds_amount_check");
      let r := {|
        r_id := Z.of_nat (length (refund_rows db)) + 1; r_uuid := uuid; r_merchant := rq_merchant rq;
        r_payment := rq_payment rq;
        r_order := if str_truthy (rq_order rq) then rq_order rq else pay_order pay;
        r_amount := amount; r_currency := upper (str_or (pay_currency pay) "INR"); r_kind := rq_kind rq;
        r_status := Initiated; r_reason := rq_reason rq; r_customer_contact := rq_customer_contact rq;
        r_gateway_refund_id := None; r_initiated_by_user := rq_user rq; r_initiated_by_admin := rq_admin rq;
        r_ledger_entry := None; r_notes := rq_notes rq; r_failure_reason := None; r_processed_at := None |} in
      Ok (with_refunds db (refund_rows db ++ [r]) (merchant_ledger db), r)
  end.

(** The ledger side of a success: the gross debit, and for an allocated gateway
    payment the fee and GST share back. *)
Definition post_refund_success (s : stamp) (c : change) (r : refund) (db : refund_db L) : res (L * Z) :=
  debit_and_recover s (refund_posting r c) (PDec (Dec (r_amount r) (-4))) (refund_recovery r c)
    (λ _, cumulative_paise (refund_rows db) r) (frozen_allocation_for_payment db (r_payment r)) (merchant_ledger db).

Definition transition (s : stamp) (refund_id : Z) (merchant_id : option string) (new_status : string)
    (c : change) (db : refund_db L) : res (refund_db L * refund) :=
  match parse_status new_status with
  | None => Err (ValidationError "invalid status")
  | Some new =>
      match find_refund db refund_id with
      | None => Err (NotFoundError "refund not found")
      | Some r =>
          _ ← raise_if (match merchant_id with Some m => negb (bool_decide (r_merchant r = m)) | None => false end)
                (NotFoundError "refund not found");
          _ ← raise_if (negb (bool_decide (new ∈ _ALLOWED_TRANSITIONS (r_status r))))
                (ConflictError "cannot transition refund");
          posted ← (if bool_decide (new = RSucceeded) && bool_decide (r_ledger_entry r = None)
                    then p ← post_refund_success s c r db; Ok (p.1, Some p.2)
                    else Ok (merchant_ledger db, r_ledger_entry r));
          let r' := updated_refund (now s) new c posted.2 r in
          Ok (with_refunds db (update_refund refund_id r' (refund_rows db)) posted.1, r')
      end
  end.

Definition get (refund_id : Z) (merchant_id : option string) (db : refund_db L) : res refund :=
  match find_refund db refund_id with
  | None => Err (NotFoundError "refund not found")
  | Some r =>
      _ ← raise_if (match merchant_id with Some m => negb (bool_decide (r_merchant r = m)) | None => false end)
            (NotFoundError "refund not found");
      Ok r
  end.

Definition refundable_amount (merchant_id payment_id : string) (db : refund_db L) : decimal :=
  Dec (fn_refundable_amount db merchant_id payment_id) (-4).

(** *** The gateway *)

(** The reply of the refund call; [None] is an absent key. *)
Record gateway_reply := {
  gr_id : option string;
  gr_status : option string;
  gr_amount : option Z;
  gr_failure_reason : option string;
  gr_speed : option string;
}.

(** What the call sends. *)
Record gateway_call := {
  gc_payment : string; gc_amount_paise : Z; gc_speed : string; gc_idempotency_key : string;
  gc_refund_id : Z; gc_refund_uuid : string; gc_request_key : string; gc_reason : string }.

(** [int((amt * 100).to_integral_value())]: half to even, the context's default. *)
Definition amount_paise (amt : decimal) : Z := to_int ROUND_HALF_EVEN (dmul amt (d_int 100)).

Definition refund_call (local : refund) (pay : payment) (amt : decimal) (request_key speed : string)
    (rq : refund_request) : gateway_call := {|
  gc_payment := str_or (pay_razorpay pay) ""; gc_amount_paise := amount_paise amt;
  gc_speed := speed; gc_idempotency_key := ("refund:" ++ r_uuid local)%string;
  gc_refund_id := r_id local; gc_refund_uuid := r_uuid local;
  gc_request_key := request_key; gc_reason := str_or (rq_reason rq) "" |}.

(** The status a gateway reply gives the local row, and its failure reason. *)
Definition gateway_outcome (reply : gateway_reply) : string * option string :=
  let gw_status := lower (str_or (gr_status reply) "pending") in
  if bool_decide (gw_status = "processed"%string) then ("succeeded"%string, None)
  else if bool_decide (gw_status = "failed"%string)
  then ("failed"%string, Some (str_or (gr_failure_reason reply) "razorpay_refund_failed"))
  else ("processing"%string, None).

Definition _mirror_rzp_refund (reply : gateway_reply) (uuid merchant_id : string) (db : refund_db L) : refund_db L :=
  match gr_id reply with
  | None => db
  | Some rid =>
      if bool_decide (rid = ""%string) then db
      else
        let status := lower (str_or (gr_status reply) "pending") in
        let row := match rzp_refunds db !! rid with
                   | None => {| rz_internal := Some uuid; rz_merchant := merchant_id;
                                rz_amount := default 0 (gr_amount reply); rz_status := status |}
                   | Some old => {| rz_internal := coalesce (rz_internal old) (Some uuid);
                                    rz_merchant := rz_merchant old; rz_amount := rz_amount old;
                                    rz_status := status |}
                   end in
        {| payment_rows := payment_rows db; refund_rows := refund_rows db;
           route_allocations := route_allocations db; rzp_refunds := <[rid := row]> (rzp_refunds db);
           merchant_ledger := merchant_ledger db |}
  end.

Definition actor_change (rq : refund_request) (gid reason : option string) (notes : list (string * string)) : change :=
  {| ch_gateway_refund_id := gid; ch_failure_reason := reason; ch_notes := notes;
     ch_actor_user := rq_user rq; ch_actor_admin := rq_admin rq |}.

(** The two exceptional outcomes of the call. *)
Definition is_rejection (e : exn) : bool :=
  match e with
  | RazorpayAPIError code => (400 <=? code) && (code <? 500) && negb (bool_decide (code ∈ [408; 409; 425; 429]))
  | _ => false
  end.

Section Gateway.
(** The gateway: its own state [G], and its reply or exception. *)
Context {G : Type} (create_refund : gateway_call → G → G * res gateway_reply).
(** The text of an exception, as far as a failure reason keeps it. *)
Context (exn_text : exn → string).

(** Effects before an exception stay: the local row, the gateway and the
    transition are separate transactions. *)
Definition _create_and_dispatch_once (s : stamp) (uuid request_key speed : string) (rq : refund_request)
    (w : refund_db L * G) : (refund_db L * G) * res refund :=
  let (db, g) := w in
  match payment_rows db !! rq_payment rq with
  | None => (w, Err (NotFoundError "payment not found"))
  | Some pay =>
      match create uuid rq db with
      | Err e => (w, Err e)
      | Ok (db1, local) =>
          if negb (str_truthy (pay_razorpay pay)) then ((db1, g), Ok local)
          else
            match decimal_of (rq_amount rq) with
            | Err e => ((db1, g), Err e)
            | Ok amt =>
                match create_refund (refund_call local pay amt request_key speed rq) g with
                | (g', Err e) =>
                    let target := if is_rejection e then "failed"%string else "processing"%string in
                    let reason := Some ("gateway_error: " ++ exn_text e)%string in
                    match transition s (r_id local) (Some (rq_merchant rq)) target
                            (actor_change rq None reason []) db1 with
                    | Ok (db2, _) => ((db2, g'), Err e)
                    | Err e' => ((db1, g'), Err e')
                    end
                | (g', Ok reply) =>
                    let db2 := _mirror_rzp_refund reply (r_uuid local) (rq_merchant rq) db1 in
                    let (target, reason) := gateway_outcome reply in
                    let notes := [("razorpay_status", lower (str_or (gr_status reply) "pending"))]%string
                                 ++ opt_meta "speed_processed" (gr_speed reply) in
                    match transition s (r_id local) (Some (rq_merchant rq)) target
                            (actor_change rq (gr_id reply) reason notes) db2 with
                    | Ok (db3, r) => ((db3, g'), Ok r)
                    | Err e' => ((db2, g'), Err e')
                    end
                end
            end
      end
  end.

(** The digest of the request body is a parameter ([sha256] of its JSON). *)
Context (digest : string → refund_request → string).

Definition create_and_dispatch (s : stamp) (uuid request_key speed : string) (rq : refund_request)
    (st : gmap string (operation refund) * (refund_db L * G))
    : gmap string (operation refund) * (refund_db L * G) * res refund :=
  if bool_decide (request_key = ""%string) || (200 <? str_len request_key) then
    (st, Err (ValidationError "a refund request key of 1–200 characters is required"))
  else
    let key := ("refund_request:" ++ rq_merchant rq ++ ":" ++ request_key)%string in
    let resource := ("refund_request:" ++ rq_merchant rq ++ ":" ++ rq_payment rq)%string in
    guarded_mutation key resource (digest speed rq)
      (_create_and_dispatch_once s uuid key speed rq) st.
End Gateway.

(** The webhook's transition; [None] when there is nothing to do. *)
Definition transition_by_gateway_id (s : stamp) (merchant_id gateway_refund_id new_status : string)
    (failure_reason : option string) (db : refund_db L) : res (refund_db L * option refund) :=
  match find (λ r, bool_decide (r_merchant r = merchant_id)
                   && bool_decide (r_gateway_refund_id r = Some gateway_refund_id)) (refund_rows db) with
  | None => Ok (db, None)
  | Some r =>
      match parse_status new_status with
      | Some new =>
          if bool_decide (new ∈ _ALLOWED_TRANSITIONS (r_status r)) then
            t ← transition s (r_id r) (Some merchant_id) new_status
                  {| ch_gateway_refund_id := None; ch_failure_reason := failure_reason; ch_notes := [];
                     ch_actor_user := None; ch_actor_admin := None |} db;
            Ok (t.1, Some t.2)
          else Ok (db, None)
      | None => Ok (db, None)
      end
  end.
End Service.

(** ** The table *)

(** Rows are numbered in the order they were created. *)
Definition numbered (l : list refund) : Prop := ∀ i r, l !! i = Some r → r_id r = Z.of_nat i + 1.

(** What no operation changes of a refund. *)
Definition same_refund (r r' : refund) : Prop :=
  r_id r' = r_id r ∧ r_uuid r' = r_uuid r ∧ r_merchant r' = r_merchant r ∧ r_payment r' = r_payment r ∧
  r_amount r' = r_amount r ∧ r_currency r' = r_currency r ∧ r_kind r' = r_kind r.

Definition status_step (a b : refund_status) : Prop := b ∈ _ALLOWED_TRANSITIONS a.

(** One operation's effect on the table: rows are appended as initiated and
    changed along the status machine. *)
Definition table_step (l l' : list refund) : Prop :=
  (∃ r, l' = l ++ [r] ∧ r_status r = Initiated ∧ r_id r = Z.of_nat (length l) + 1) ∨
  (∃ i r r', l !! i = Some r ∧ l' = <[i := r']> l ∧ same_refund r r' ∧ status_step (r_status r) (r_status r')).

Lemma numbered_step l l' : numbered l → table_step l l' → numbered l'.
Proof.
  intros Hl [(r & -> & _ & Hid)|(i & r & r' & Hi & -> & (Hid & _) & _)] j x.
  - intros [H|[H1 H2]]%lookup_app_Some; [by apply Hl|].
    apply list_lookup_singleton_Some in H2 as [H2 <-]. rewrite Hid. lia.
  - intros Hj. destruct (decide (i = j)) as [<-|Hne].
    + rewrite list_lookup_insert_eq in Hj by (by eapply lookup_lt_Some). injection Hj as <-.
      rewrite Hid. by apply Hl.
    + rewrite list_lookup_insert_ne in Hj by done. by apply Hl.
Qed.

Lemma find_numbered (l : list refund) id r :
  numbered l → find (λ r, r_id r =? id) l = Some r ↔ 0 < id ∧ l !! Z.to_nat (id - 1) = Some r.
Proof.
  intros Hl. split.
  - intros [Hin Hid]%find_some. apply Z.eqb_eq in Hid. apply list_elem_of_In, list_elem_of_lookup in Hin as [i Hi].
    pose proof (Hl i r Hi) as Hr. split; [lia|]. by replace (Z.to_nat (id - 1)) with i by lia.
  - intros [Hpos Hi]. pose proof (Hl _ _ Hi) as Hr.
    destruct (find (λ r, r_id r =? id) l) as [r0|] eqn:Hf.
    + apply find_some in Hf as [Hin Hid]. apply Z.eqb_eq in Hid.
      apply list_elem_of_In, list_elem_of_lookup in Hin as [j Hj]. pose proof (Hl j r0 Hj).
      replace (Z.to_nat (id - 1)) with j in Hi by lia. congruence.
    + exfalso. apply list_elem_of_lookup_2, list_elem_of_In in Hi.
      pose proof (find_none _ _ Hf r Hi) as Hn. cbn in Hn. apply Z.eqb_neq in Hn. lia.
Qed.

Lemma update_numbered l i r r' :
  numbered l → l !! i = Some r → update_refund (r_id r) r' l = <[i := r']> l.
Proof.
  intros Hl Hi. apply list_eq. intros j. unfold update_refund. rewrite list_lookup_fmap.
  destruct (l !! j) as [x|] eqn:Hj; cbn.
  - pose proof (Hl i r Hi). pose proof (Hl j x Hj). destruct (decide (i = j)) as [<-|Hne].
    + rewrite list_lookup_insert_eq by (by eapply lookup_lt_Some). rewrite Hj in Hi. injection Hi as ->.
      by rewrite Z.eqb_refl.
    + rewrite list_lookup_insert_ne, Hj by done. destruct (Z.eqb_spec (r_id x) (r_id r)); [lia|done].
  - symmetry. rewrite list_lookup_insert_ne; [done|]. intros ->. by rewrite Hj in Hi.
Qed.

(** ** The money that counts against a payment *)

Definition amounts_nonneg (l : list refund) : Prop := Forall (λ r, 0 <= r_amount r) l.

(** Moving along the machine never makes an inactive refund active. *)
Lemma step_active a b : status_step a b → is_active b = true → is_active a = true.
Proof. unfold status_step. destruct a; cbn; set_solver. Qed.

Lemma refunded_update l i r r' m p :
  amounts_nonneg l → l !! i = Some r → same_refund r r' → status_step (r_status r) (r_status r') →
  refunded (<[i := r']> l) m p <= refunded l m p.
Proof.
  intros Hnn Hi (_ & _ & Hm & Hp & Ha & _) Hs. unfold refunded. rewrite (sum_where_insert _ _ l i r r' Hi), Ha.
  assert (0 <= r_amount r) as H0 by (by eapply Forall_lookup_1 in Hnn).
  unfold active_for. rewrite Hm, Hp. destruct (bool_decide (r_merchant r = m)), (bool_decide (r_payment r = p)); cbn; try lia.
  pose proof (step_active _ _ Hs). destruct (is_active (r_status r)), (is_active (r_status r')); cbn; try lia.
Qed.

(** ** What the operations do to the table *)

Section Effects.
Context {L : Type} `{LedgerApi L}.

Lemma create_refund_effect uuid rq (db db' : refund_db L) r :
  create uuid rq db = Ok (db', r) →
  ∃ pay, payment_rows db !! rq_payment rq = Some pay ∧ owned_by (rq_merchant rq) pay = true ∧
    db' = with_refunds db (refund_rows db ++ [r]) (merchant_ledger db) ∧
    r_status r = Initiated ∧ r_id r = Z.of_nat (length (refund_rows db)) + 1 ∧
    r_merchant r = rq_merchant rq ∧ r_payment r = rq_payment rq ∧ r_ledger_entry r = None ∧
    r_uuid r = uuid ∧
    0 < r_amount r <= fn_refundable_amount db (rq_merchant rq) (rq_payment rq).
Proof.
  unfold create. intros E. apply res_bind_Ok in E as (amt & _ & E).
  apply res_bind_Ok in E as ([] & Hpos & E). apply res_bind_Ok in E as ([] & _ & E).
  destruct (payment_rows db !! rq_payment rq) as [pay|]; [|done].
  apply res_bind_Ok in E as ([] & Hown & E). apply res_bind_Ok in E as ([] & _ & E).
  apply res_bind_Ok in E as ([] & Hle & E). apply res_bind_Ok in E as (n & Hn & E).
  apply res_bind_Ok in E as ([] & Hgt & E).
  apply raise_if_Ok in Hpos, Hown, Hle, Hgt. apply negb_false_iff in Hpos, Hown, Hgt.
  apply numeric_Ok in Hn as [-> _]. apply Z.ltb_lt in Hgt. injection E as <- <-.
  exists pay. repeat (split; [done|]). cbn.
  by apply ticks_le.
Qed.

Lemma transition_effect s id m new c (db db' : refund_db L) r' :
  numbered (refund_rows db) → transition s id m new c db = Ok (db', r') →
  ∃ i r ml, refund_rows db !! i = Some r ∧ find_refund db id = Some r ∧ r_id r = id ∧
    db' = with_refunds db (<[i := r']> (refund_rows db)) ml ∧ same_refund r r' ∧
    parse_status new = Some (r_status r') ∧ status_step (r_status r) (r_status r').
Proof.
  intros Hl. unfold transition. destruct (parse_status new) as [st|]; [|done].
  destruct (find_refund db id) as [r|] eqn:Hf; [|done]. intros E.
  apply res_bind_Ok in E as ([] & _ & E). apply res_bind_Ok in E as ([] & Hst & E).
  apply raise_if_Ok, negb_false_iff, bool_decide_eq_true in Hst.
  apply res_bind_Ok in E as ([ml e] & _ & E).
  pose proof Hf as Hf'. unfold find_refund in Hf'. apply find_numbered in Hf' as [Hpos Hi]; [|done].
  assert (r_id r = id) as Hid by (pose proof (Hl _ _ Hi); lia).
  exists (Z.to_nat (id - 1)), r, ml. rewrite <-Hid in E at 1.
  rewrite (update_numbered (refund_rows db) _ r _ Hl Hi) in E. injection E as <- <-.
  do 4 (split; [done|]). split; [by repeat split|]. done.
Qed.
End Effects.

(** ** The service's invariant *)

(** What a merchant may refund of a payment in all. *)
Definition refund_limit {L} (db : refund_db L) (merchant payment_id : string) : Z :=
  match payment_rows db !! payment_id with
  | Some p => if owned_by merchant p then Z.max (pay_amount p) 0 else 0
  | None => 0
  end.

Record sound {L} (db : refund_db L) : Prop := {
  sound_numbered : numbered (refund_rows db);
  sound_amounts : Forall (λ r, 0 < r_amount r) (refund_rows db);
  sound_limit : ∀ m p, refunded (refund_rows db) m p <= refund_limit db m p;
  sound_entries : Forall (λ r, r_status r = RSucceeded ↔ is_Some (r_ledger_entry r)) (refund_rows db);
}.

(** How a row may change: along the status machine, and not once it is final. *)
Definition row_evolves (r r' : refund) : Prop :=
  same_refund r r' ∧ rtc status_step (r_status r) (r_status r') ∧ (ends_refund (r_status r) = true → r' = r).

Definition evolves {L} (db db' : refund_db L) : Prop :=
  ∀ i r, refund_rows db !! i = Some r → ∃ r', refund_rows db' !! i = Some r' ∧ row_evolves r r'.

Definition preserved {L} (db db' : refund_db L) : Prop := sound db → sound db' ∧ evolves db db'.

#[export] Instance row_evolves_preorder : PreOrder row_evolves.
Proof.
  split.
  - intros r. split; [by repeat split|]. by split; [|done].
  - intros r1 r2 r3 (Hs1 & Ht1 & Hf1) (Hs2 & Ht2 & Hf2).
    split; [unfold same_refund in *; naive_solver congruence|]. split; [by etrans|].
    intros He. pose proof (Hf1 He) as ->. by apply Hf2.
Qed.

#[export] Instance preserved_preorder {L} : PreOrder (@preserved L).
Proof.
  split.
  - intros db Hs. split; [done|]. intros i r Hr. exists r. by split.
  - intros db1 db2 db3 H1 H2 Hs. destruct (H1 Hs) as [Hs2 He1]. destruct (H2 Hs2) as [Hs3 He2].
    split; [done|]. intros i r Hr. destruct (He1 i r Hr) as (r2 & Hr2 & E1).
    destruct (He2 i r2 Hr2) as (r3 & Hr3 & E2). exists r3. split; [done|by etrans].
Qed.

Lemma final_step a b : status_step a b → ends_refund a = false.
Proof. unfold status_step. destruct a; cbn; set_solver. Qed.

(** The refund table of the result is all that matters. *)
Lemma preserved_rows {L} (db db' : refund_db L) :
  payment_rows db' = payment_rows db → refund_rows db' = refund_rows db → preserved db db'.
Proof.
  intros Hp Hr [H1 H2 H3 H4]. split.
  - split; rewrite ?Hr; try done. intros m p. unfold refund_limit. rewrite Hp. apply H3.
  - intros i r Hi. exists r. by rewrite Hr.
Qed.

Section Preservation.
Context {L : Type} `{LedgerApi L}.

Lemma create_preserved uuid rq (db db' : refund_db L) r : create uuid rq db = Ok (db', r) → preserved db db'.
Proof.
  intros E [H1 H2 H3 H4].
  destruct (create_refund_effect _ _ _ _ _ E) as (pay & Hpay & Hown & -> & Hst & Hid & Hm & Hp & He & _ & Hlo & Hhi).
  split; [split|].
  - cbn. eapply numbered_step; [exact H1|]. left. by exists r.
  - cbn. apply Forall_app_2; [done|]. by constructor.
  - intros m p. unfold refund_limit. cbn [refund_rows payment_rows with_refunds]. specialize (H3 m p). unfold refund_limit in H3.
    unfold refunded in *. rewrite sum_where_snoc. unfold active_for at 2. rewrite Hm, Hp, Hst.
    destruct (decide (rq_merchant rq = m)) as [<-|]; [|rewrite bool_decide_eq_false_2 by done; cbn; lia].
    destruct (decide (rq_payment rq = p)) as [<-|]; [|rewrite (bool_decide_eq_false_2 (rq_payment rq = p)) by done;
      rewrite andb_false_r; cbn; lia].
    rewrite !bool_decide_eq_true_2 by done. cbn. unfold fn_refundable_amount, refunded in *. rewrite Hpay, Hown in *. lia.
  - cbn. apply Forall_app_2; [done|]. constructor; [|done]. rewrite Hst, He. split; [done|by intros [? ?]].
  - intros i x Hi. exists x. cbn. rewrite lookup_app_l by (by eapply lookup_lt_Some). by split.
Qed.

Lemma transition_entry s id m new c (db db' : refund_db L) r r' :
  find_refund db id = Some r → transition s id m new c db = Ok (db', r') →
  r_status r' = RSucceeded ∧ is_Some (r_ledger_entry r') ∨
  r_status r' ≠ RSucceeded ∧ r_ledger_entry r' = r_ledger_entry r.
Proof.
  intros Hf. unfold transition. rewrite Hf. destruct (parse_status new) as [st|]; [|done]. intros E.
  apply res_bind_Ok in E as ([] & _ & E). apply res_bind_Ok in E as ([] & _ & E).
  apply res_bind_Ok in E as ([ml e] & Hp & E). injection E as _ <-. cbn.
  destruct (decide (st = RSucceeded)) as [->|Hne]; [left|right]; (split; [done|]).
  - destruct (r_ledger_entry r) as [e0|] eqn:He; [by destruct e; eexists|].
    rewrite !bool_decide_eq_true_2 in Hp by done. cbn in Hp.
    apply res_bind_Ok in Hp as (p & _ & Hp). injection Hp as _ <-. by eexists.
  - rewrite bool_decide_eq_false_2 in Hp by done. injection Hp as _ <-. by destruct (r_ledger_entry r).
Qed.

Lemma transition_preserved s id m new c (db db' : refund_db L) r :
  transition s id m new c db = Ok (db', r) → preserved db db'.
Proof.
  intros E [H1 H2 H3 H4].
  destruct (transition_effect _ _ _ _ _ _ _ _ H1 E) as (i & r0 & ml & Hi & Hf & _ & -> & Hsame & _ & Hstep).
  pose proof (transition_entry _ _ _ _ _ _ _ _ _ Hf E) as Hent.
  split; [split|].
  - cbn. eapply numbered_step; [exact H1|]. right. by exists i, r0, r.
  - cbn. apply Forall_insert; [done|]. destruct Hsame as (_ & _ & _ & _ & -> & _).
    by apply (proj1 (Forall_lookup _ _) H2 i).
  - intros m' p. cbn [refund_rows payment_rows with_refunds]. etrans; [|apply (H3 m' p)]. eapply refunded_update; try done.
    unfold amounts_nonneg. eapply Forall_impl; [exact H2|]. cbn. lia.
  - cbn. apply Forall_insert; [done|]. pose proof (proj1 (Forall_lookup _ _) H4 i r0 Hi) as H0. cbn in H0.
    destruct Hent as [[-> Hs]|[Hne ->]]; [done|]. split; [done|]. intros Hs. apply H0 in Hs.
    rewrite Hs in Hstep. by apply final_step in Hstep.
  - intros j x Hj. cbn. destruct (decide (i = j)) as [<-|Hne].
    + rewrite Hi in Hj. injection Hj as <-. exists r.
      rewrite list_lookup_insert_eq by (by eapply lookup_lt_Some). split; [done|].
      split; [done|]. split; [by apply rtc_once|]. apply final_step in Hstep. congruence.
    + exists x. rewrite list_lookup_insert_ne by done. by split.
Qed.

Lemma dispatch_preserved {G} (create_refund : gateway_call → G → G * res gateway_reply) exn_text
    s uuid request_key speed rq (db : refund_db L) g :
  preserved db (_create_and_dispatch_once create_refund exn_text s uuid request_key speed rq (db, g)).1.1.
Proof.
  unfold _create_and_dispatch_once. destruct (payment_rows db !! rq_payment rq) as [pay|]; [|done].
  destruct (create uuid rq db) as [[db1 local]|e] eqn:Hc; [|done].
  apply create_preserved in Hc. destruct (negb _); [done|].
  destruct (decimal_of (rq_amount rq)) as [amt|e]; [|done].
  destruct (create_refund _ g) as [g' [reply|e]].
  - set (db2 := _mirror_rzp_refund reply (r_uuid local) (rq_merchant rq) db1).
    assert (preserved db1 db2) as H2
      by (unfold db2, _mirror_rzp_refund; repeat case_match; by apply preserved_rows).
    destruct (gateway_outcome reply) as [target reason].
    destruct (transition s (r_id local) _ target _ db2) as [[db3 r]|e] eqn:Ht; cbn [fst]; [|by etrans].
    apply transition_preserved in Ht. etrans; [exact Hc|]. by etrans.
  - destruct (transition s (r_id local) _ _ _ db1) as [[db2 r]|e'] eqn:Ht; cbn [fst]; [|done].
    apply transition_preserved in Ht. by etrans.
Qed.

Lemma webhook_preserved s m gid new reason (db db' : refund_db L) r :
  transition_by_gateway_id s m gid new reason db = Ok (db', r) → preserved db db'.
Proof.
  unfold transition_by_gateway_id. destruct (find _ _) as [r0|]; [|by intros [= <- _]].
  destruct (parse_status new); [|by intros [= <- _]]. case_bool_decide; [|by intros [= <- _]].
  intros E. apply res_bind_Ok in E as ([db9 t] & E & [= <- _]). by apply transition_preserved in E.
Qed.
End Preservation.

(** *** Sequences of operations *)

(** Payments are added and change status; amount and owner stay. *)
Definition payments_extend (old new : gmap string payment) : Prop :=
  ∀ p pay, old !! p = Some pay →
    ∃ pay', new !! p = Some pay' ∧ pay_amount pay' = pay_amount pay ∧ pay_restaurant pay' = pay_restaurant pay.

(** One request, webhook or activity of another service. *)
Inductive service_step {L} `{LedgerApi L} (db : refund_db L) : refund_db L → Prop :=
  | StepCreate uuid rq db' r : create uuid rq db = Ok (db', r) → service_step db db'
  | StepTransition s id m new c db' r : transition s id m new c db = Ok (db', r) → service_step db db'
  | StepWebhook s m gid new reason db' r :
      transition_by_gateway_id s m gid new reason db = Ok (db', r) → service_step db db'
  | StepDispatch {G : Type} (create_refund : gateway_call → G → G * res gateway_reply) exn_text digest
      s uuid request_key speed rq ops g :
      service_step db (create_and_dispatch create_refund exn_text digest s uuid request_key speed rq (ops, (db, g))).1.2.1
  | StepElsewhere payments allocations mirror ml :
      payments_extend (payment_rows db) payments →
      service_step db {| payment_rows := payments; refund_rows := refund_rows db;
        route_allocations := allocations; rzp_refunds := mirror; merchant_ledger := ml |}.

Definition empty_refunds {L} (db : refund_db L) : Prop := refund_rows db = [].

Section Sequences.
Context {L : Type} `{LedgerApi L}.

Lemma step_preserved (db db' : refund_db L) : service_step db db' → preserved db db'.
Proof.
  intros [| | |G create_refund exn_text digest s uuid request_key speed rq ops g|payments allocations mirror ml Hext].
  - by eapply create_preserved.
  - by eapply transition_preserved.
  - by eapply webhook_preserved.
  - unfold create_and_dispatch. case_match; [done|].
    pose proof (guarded_mutation_world ("refund_request:" ++ rq_merchant rq ++ ":" ++ request_key)
      ("refund_request:" ++ rq_merchant rq ++ ":" ++ rq_payment rq) (digest speed rq)
      (_create_and_dispatch_once create_refund exn_text s uuid
        ("refund_request:" ++ rq_merchant rq ++ ":" ++ request_key) speed rq) ops (db, g)) as [-> | ->]; [done|].
    apply dispatch_preserved.
  - intros [H1 H2 H3 H4]. split.
    + split; [done|done| |done]. intros m p. cbn [refund_rows]. specialize (H3 m p).
      unfold refund_limit in *. cbn [payment_rows]. destruct (payment_rows db !! p) as [pay|] eqn:Hp.
      * destruct (Hext p pay Hp) as (pay' & -> & -> & Ho). unfold owned_by in *. by rewrite Ho.
      * case_match; [|lia]. destruct (owned_by _ _); lia.
    + intros i r Hi. by exists r.
Qed.

Lemma steps_preserved (db db' : refund_db L) : rtc service_step db db' → preserved db db'.
Proof. induction 1 as [db|db1 db2 db3 H1 _ IH]; [done|]. etrans; [by apply step_preserved|done]. Qed.

Lemma empty_sound (db : refund_db L) : empty_refunds db → sound db.
Proof.
  unfold empty_refunds. intros He. split; rewrite He; try done.
  intros m p. cbn. unfold refund_limit. repeat case_match; lia.
Qed.
End Sequences.

(** C4: whatever requests, gateway replies, webhooks and retries a database has
    seen, the refunds of a payment that count (initiated, processing or
    succeeded) never add up to more than the payment's amount for a merchant,
    and to nothing for a merchant the payment does not belong to. *)
Theorem refunds_within_payment {L} `{LedgerApi L} (db0 db : refund_db L) m p pay :
  empty_refunds db0 → rtc service_step db0 db → payment_rows db !! p = Some pay → 0 <= pay_amount pay →
  0 <= refunded (refund_rows db) m p <= pay_amount pay ∧
  (∀ owner, pay_restaurant pay = Some owner → m ≠ owner → refunded (refund_rows db) m p = 0).
Proof.
  intros He Hr Hp Ha. destruct (steps_preserved _ _ Hr (empty_sound _ He)) as [[_ Hpos Hlim _] _].
  specialize (Hlim m p). unfold refund_limit in Hlim. rewrite Hp in Hlim.
  assert (0 <= refunded (refund_rows db) m p) as H0.
  { apply zsum_nonneg, Forall_map, Forall_forall. intros r [_ Hr0]%list_elem_of_filter.
    pose proof (proj1 (Forall_forall _ _) Hpos r Hr0). cbn in *. lia. }
  split; [destruct (owned_by m pay); lia|]. intros owner Ho Hne. unfold owned_by in Hlim. rewrite Ho in Hlim.
  rewrite bool_decide_eq_false_2 in Hlim by done. lia.
Qed.

(** A refund only moves along its status machine: its identity, payment,
    merchant and amount never change, its status is reached from the earlier one
    by allowed transitions, a row that has succeeded, failed or been cancelled is
    never changed again, and a row has a ledger entry exactly when it succeeded. *)
Theorem refund_history_sound {L} `{LedgerApi L} (db0 db1 db2 : refund_db L) i r :
  empty_refunds db0 → rtc service_step db0 db1 → rtc service_step db1 db2 →
  refund_rows db1 !! i = Some r →
  ∃ r', refund_rows db2 !! i = Some r' ∧ same_refund r r' ∧ rtc status_step (r_status r) (r_status r') ∧
    (ends_refund (r_status r) = true → r' = r) ∧
    (r_status r' = RSucceeded ↔ is_Some (r_ledger_entry r')).
Proof.
  intros He H1 H2 Hi. destruct (steps_preserved _ _ H1 (empty_sound _ He)) as [Hs _].
  destruct (steps_preserved _ _ H2 Hs) as [Hs2 Hev]. destruct (Hev i r Hi) as (r' & Hr' & Hsame & Hrtc & Hfin).
  exists r'. do 4 (split; [done|]). exact (proj1 (Forall_lookup _ _) (sound_entries _ Hs2) i r' Hr').
Qed.

(** ** The money of a success *)

Lemma cents_at_scale n : at_scale 2 (Dec (100 * n) (-4)) n.
Proof. unfold at_scale. change (10 ^ Z.max 0 (dexp _ + 2)) with 1. change (10 ^ Z.max 0 _) with 100. cbn [coef]. lia. Qed.

Lemma paise_of_cents n : paise_of (100 * n) = n.
Proof. unfold paise_of. rewrite Z.mul_comm. by apply round_div_exact. Qed.

(** The refund being settled is one of those summed. *)
Lemma cumulative_covers l r :
  Forall (λ x, 0 < r_amount x) l → r ∈ l → paise_of (r_amount r) <= cumulative_paise l r.
Proof.
  intros Hpos Hin. unfold cumulative_paise. apply (zsum_elem _ (paise_of (r_amount r))).
  - apply Forall_map, Forall_forall. intros x [_ Hx]%list_elem_of_filter.
    assert (0 < r_amount x) by (by apply (proj1 (Forall_forall _ _) Hpos x Hx)).
    unfold paise_of. apply round_div_nonneg; lia.
  - apply list_elem_of_fmap. exists r. split; [done|]. apply list_elem_of_filter. auto.
Qed.

(** What a success takes from the merchant, in paise: its share of the refund
    when the payment was split at capture, the whole refund otherwise. *)
Definition refund_cost {L} (db : refund_db L) (r : refund) (paise : Z) : Z :=
  recovery_cost (frozen_allocation_for_payment db (r_payment r)) (cumulative_paise (refund_rows db) r) paise.

Definition refund_keys (r : refund) (c : change) : list string :=
  ("refund:" ++ r_uuid r)%string :: reversal_keys (refund_recovery r c).

Definition allocation_fits {L} (db : refund_db L) (r : refund) : Prop :=
  ∀ gross merchant, frozen_allocation_for_payment db (r_payment r) = Some (gross, merchant) →
    0 < gross < ledger_bound ∧ 0 <= merchant <= gross.

Section Success.
Context {L : Type} `{LedgerApi L} (s : stamp) (c : change) (r : refund) (paise : Z).
Context (Hamount : r_amount r = 100 * paise) (Hpaise : 0 < paise < ledger_bound) (Hinr : r_currency r = "INR"%string).

Lemma refund_posts : posts (refund_posting r c) (100 * paise) 0.
Proof using Hamount Hpaise.
  apply (posts_debit _ (Dec (r_amount r) (-4)) paise); try done. rewrite Hamount. apply cents_at_scale.
Qed.

Lemma post_refund_success_spec (db : refund_db L) :
  sound db → r ∈ refund_rows db → allocation_fits db r → api_wf (merchant_ledger db) →
  Forall (λ k, api_posted (merchant_ledger db) (r_merchant r) k = None) (refund_keys r c) →
  api_room s (r_merchant r) "INR" 3 (200 * paise) (merchant_ledger db) →
  ∃ ml id, post_refund_success s c r db = Ok (ml, id) ∧ api_wf ml ∧
    (∀ m' c', api_balance ml m' c' = api_balance (merchant_ledger db) m' c'
       - (if bool_decide (r_merchant r = m') && bool_decide ("INR"%string = c') then 100 * refund_cost db r paise else 0)).
Proof using Hamount Hpaise Hinr.
  intros Hsound Hin Hfits Hwf Hfresh Hroom. unfold post_refund_success, refund_cost.
  pose proof (cumulative_covers (refund_rows db) r (sound_amounts _ Hsound) Hin) as Hcum.
  rewrite Hamount, paise_of_cents in Hcum. rewrite Hamount.
  refine (debit_and_recover_spec s _ _ (refund_recovery r c) _ _ paise (merchant_ledger db)
    refund_posts _ eq_refl eq_refl _ Hpaise _ Hwf Hfresh Hroom).
  - unfold posting_currency. cbn. by rewrite Hinr.
  - apply (rupees_to_paise_spec _ (Dec (100 * paise) (-4)) paise);
      [done|apply cents_at_scale|unfold ledger_bound, paise_bound in *; lia].
  - intros g m Ha. destruct (Hfits g m Ha). auto.
Qed.
End Success.

(** C35: settling a refund posts, once and in the same step as the status change,
    what it costs the merchant: the whole amount for a payment that was never
    split, and exactly the merchant's floored share of it for an allocated gateway
    payment (the gross debit less the fee and GST credited back). *)
Theorem success_costs_share {L} `{LedgerApi L} s id m c (db : refund_db L) r paise :
  sound db → find_refund db id = Some r → r_status r = Initiated ∨ r_status r = Processing →
  (∀ m', m = Some m' → r_merchant r = m') →
  r_amount r = 100 * paise → 0 < paise < ledger_bound → r_currency r = "INR"%string →
  allocation_fits db r → api_wf (merchant_ledger db) →
  Forall (λ k, api_posted (merchant_ledger db) (r_merchant r) k = None) (refund_keys r c) →
  api_room s (r_merchant r) "INR" 3 (200 * paise) (merchant_ledger db) →
  ∃ db' r', transition s id m "succeeded" c db = Ok (db', r') ∧
    r_status r' = RSucceeded ∧ is_Some (r_ledger_entry r') ∧
    (∀ m' c', api_balance (merchant_ledger db') m' c' = api_balance (merchant_ledger db) m' c'
       - (if bool_decide (r_merchant r = m') && bool_decide ("INR"%string = c') then 100 * refund_cost db r paise else 0)) ∧
    transition s id m "succeeded" c db' = Err (ConflictError "cannot transition refund").
Proof.
  intros Hs Hf Hst Hm Ha Hp Hc Hfits Hwf Hfresh Hroom.
  pose proof Hf as Hf'. unfold find_refund in Hf'. apply find_numbered in Hf' as [Hpos Hi]; [|apply Hs].
  assert (r ∈ refund_rows db) as Hin by (by eapply list_elem_of_lookup_2).
  pose proof (proj1 (Forall_forall _ _) (sound_entries _ Hs) r Hin) as Hent. cbn in Hent.
  assert (r_ledger_entry r = None) as Hnone.
  { apply eq_None_not_Some. intros Hsome%Hent. destruct Hst; congruence. }
  destruct (post_refund_success_spec s c r paise Ha Hp Hc db Hs Hin Hfits Hwf Hfresh Hroom) as (ml & e & Hpost & _ & Hbal).
  assert (match m with Some m' => negb (bool_decide (r_merchant r = m')) | None => false end = false) as Hm'.
  { destruct m as [m'|]; [|done]. by rewrite bool_decide_eq_true_2 by (by apply Hm). }
  assert (RSucceeded ∈ _ALLOWED_TRANSITIONS (r_status r)) as Hstep by (destruct Hst as [-> | ->]; set_solver).
  set (r' := updated_refund (now s) RSucceeded c (Some e) r).
  exists (with_refunds db (update_refund id r' (refund_rows db)) ml), r'.
  assert (r_id r = id) as Hid by (pose proof (sound_numbered _ Hs _ _ Hi); lia).
  split; [|split; [done|split; [by eexists|split; [exact Hbal|]]]].
  - unfold transition. change (parse_status "succeeded") with (Some RSucceeded). cbv iota. rewrite Hf, Hm'.
    cbn [raise_if]. rewrite bind_Ok, (bool_decide_eq_true_2 _ Hstep). cbn [negb raise_if]. rewrite bind_Ok.
    rewrite !bool_decide_eq_true_2 by done. cbn [andb]. by rewrite Hpost, !bind_Ok.
  - unfold transition. change (parse_status "succeeded") with (Some RSucceeded). cbv iota.
    rewrite <-Hid, (update_numbered _ _ r r' (sound_numbered _ Hs) Hi).
    assert (find_refund (with_refunds db (<[Z.to_nat (id - 1):=r']> (refund_rows db)) ml) (r_id r) = Some r') as ->.
    { apply find_numbered.
      - eapply numbered_step; [apply Hs|]. right. exists (Z.to_nat (id - 1)), r, r'. repeat (split; [done|]). done.
      - rewrite Hid. split; [done|]. cbn. by rewrite list_lookup_insert_eq by (by eapply lookup_lt_Some). }
    change (r_merchant r') with (r_merchant r). by rewrite Hm'.
Qed.

(** ** What the gateway's answer does *)

(** The status an answer gives the local row. *)
Definition answered (result : res gateway_reply) : refund_status :=
  match result with
  | Err e => if is_rejection e then Failed else Processing
  | Ok reply =>
      let status := lower (str_or (gr_status reply) "pending") in
      if bool_decide (status = "processed"%string) then RSucceeded
      else if bool_decide (status = "failed"%string) then Failed else Processing
  end.

Section Fresh.
Context {L : Type} `{LedgerApi L} (db : refund_db L) (l : list refund) (r : refund).
Context (Hdb : refund_rows db = l ++ [r]) (Hl : numbered (l ++ [r])) (Hst : r_status r = Initiated).

Lemma find_fresh : find_refund db (r_id r) = Some r.
Proof using Hdb Hl.
  unfold find_refund. rewrite Hdb. assert (r_id r = Z.of_nat (length l) + 1) as Hid.
  { apply Hl. rewrite lookup_app_r, Nat.sub_diag by lia. done. }
  apply find_numbered; [done|]. rewrite Hid. split; [lia|].
  replace (Z.to_nat _) with (length l) by lia. by rewrite lookup_app_r, Nat.sub_diag by lia.
Qed.

(** The first transition of a fresh row, other than to success. *)
Lemma transition_fresh s c st :
  st ∈ _ALLOWED_TRANSITIONS Initiated → st ≠ RSucceeded →
  let r' := updated_refund (now s) st c (r_ledger_entry r) r in
  transition s (r_id r) (Some (r_merchant r)) (status_text st) c db
  = Ok (with_refunds db (l ++ [r']) (merchant_ledger db), r').
Proof using Hdb Hl Hst.
  intros Hin Hne r'. unfold transition.
  assert (parse_status (status_text st) = Some st) as -> by (by destruct st). cbv iota.
  rewrite find_fresh, (bool_decide_eq_true_2 (r_merchant r = r_merchant r)) by done.
  cbn [negb raise_if]. rewrite bind_Ok, Hst, (bool_decide_eq_true_2 _ Hin). cbn [negb raise_if]. rewrite bind_Ok.
  rewrite (bool_decide_eq_false_2 _ Hne). cbn [andb]. rewrite bind_Ok. cbn [fst snd]. do 3 f_equal.
  rewrite Hdb, (update_numbered (l ++ [r]) (length l) r _ Hl) by (by rewrite lookup_app_r, Nat.sub_diag by lia).
  rewrite insert_app_r_alt, Nat.sub_diag by lia. done.
Qed.
End Fresh.

Lemma mirror_rows {L} reply uuid m (db : refund_db L) :
  refund_rows (_mirror_rzp_refund reply uuid m db) = refund_rows db ∧
  payment_rows (_mirror_rzp_refund reply uuid m db) = payment_rows db.
Proof. unfold _mirror_rzp_refund. by repeat case_match. Qed.

(** Dispatching a refund of a gateway payment sends one call, keyed by the
    refund's own identifier, and its answer decides the row: a rejected call
    (4xx, other than timeouts and rate limits) or a reply of failed leaves the row
    failed and the money refundable again; any other exception, and a reply that
    is not final, leaves it processing with the money still reserved; the
    exception of the call reaches the caller. *)
Theorem dispatch_follows_gateway {L} `{LedgerApi L} {G} (create_refund : gateway_call → G → G * res gateway_reply)
    exn_text s uuid request_key speed rq (db db1 : refund_db L) g local pay amt g' result :
  sound db → create uuid rq db = Ok (db1, local) → decimal_of (rq_amount rq) = Ok amt →
  payment_rows db !! rq_payment rq = Some pay → str_truthy (pay_razorpay pay) = true →
  create_refund (refund_call local pay amt request_key speed rq) g = (g', result) →
  answered result ≠ RSucceeded →
  ∃ db2 r2, _create_and_dispatch_once create_refund exn_text s uuid request_key speed rq (db, g)
      = ((db2, g'), match result with Ok _ => Ok r2 | Err e => Err e end) ∧
    refund_rows db2 = refund_rows db ++ [r2] ∧ same_refund local r2 ∧ r_status r2 = answered result ∧
    refunded (refund_rows db2) (rq_merchant rq) (rq_payment rq)
    = refunded (refund_rows db) (rq_merchant rq) (rq_payment rq)
      + (if bool_decide (answered result = Processing) then r_amount local else 0).
Proof.
  intros Hs Hc Hd Hpay Hrzp Hg Hns.
  destruct (create_refund_effect _ _ _ _ _ Hc) as (pay0 & Hpay0 & _ & Hdb1 & Hst & Hid & Hm & Hp & _).
  assert (numbered (refund_rows db ++ [local])) as Hnum.
  { eapply numbered_step; [apply Hs|]. left. by exists local. }
  assert (answered result = Processing ∨ answered result = Failed) as Hcase.
  { unfold answered in *. repeat case_match; auto; done. }
  assert (answered result ∈ _ALLOWED_TRANSITIONS Initiated) as Hin by (destruct Hcase as [-> | ->]; set_solver).
  assert (∀ c, let r2 := updated_refund (now s) (answered result) c (r_ledger_entry local) local in
    same_refund local r2 ∧ r_status r2 = answered result ∧
    refunded (refund_rows db ++ [r2]) (rq_merchant rq) (rq_payment rq)
    = refunded (refund_rows db) (rq_merchant rq) (rq_payment rq)
      + (if bool_decide (answered result = Processing) then r_amount local else 0)) as Hrow.
  { intros c r2. split; [by repeat split|]. split; [done|]. unfold refunded. rewrite sum_where_snoc. unfold active_for.
    change (r_merchant r2) with (r_merchant local). change (r_payment r2) with (r_payment local).
    rewrite Hm, Hp, !bool_decide_eq_true_2 by done. cbn [r_status r2 updated_refund andb].
    by destruct Hcase as [-> | ->]. }
  unfold _create_and_dispatch_once. rewrite Hpay, Hc, Hrzp, Hd, Hg. cbn [negb]. destruct result as [reply|e].
  - set (db2 := _mirror_rzp_refund reply (r_uuid local) (rq_merchant rq) db1).
    assert (refund_rows db2 = refund_rows db ++ [local]) as Hdb2
      by (unfold db2; rewrite (proj1 (mirror_rows _ _ _ _)), Hdb1; done).
    destruct (gateway_outcome reply) as [target reason] eqn:Ho.
    assert (target = status_text (answered (Ok reply))) as ->
      by (unfold gateway_outcome, answered in *; cbv zeta in *; repeat case_bool_decide; by injection Ho as <- _).
    rewrite <-Hm, (transition_fresh db2 _ local Hdb2 Hnum Hst) by done.
    do 2 eexists. split; [reflexivity|]. split; [done|]. rewrite Hm. apply Hrow.
  - assert (refund_rows db1 = refund_rows db ++ [local]) as Hrows by (by rewrite Hdb1).
    assert ((if is_rejection e then "failed" else "processing")%string = status_text (answered (@Err gateway_reply e))) as ->
      by (cbn; by destruct (is_rejection e)).
    rewrite <-Hm, (transition_fresh db1 _ local Hrows Hnum Hst) by done.
    do 2 eexists. split; [reflexivity|]. split; [done|]. rewrite Hm. apply Hrow.
Qed.

(** ** Examples *)

(** A captured payment of 1000 rupees, 950 of them the merchant's. *)
Definition demo_payment : payment := {|
  pay_restaurant := Some "m1"%string; pay_order := None; pay_amount := 10000000; pay_status := "captured";
  pay_currency := None; pay_razorpay := Some "pay_1"%string |}.

Definition demo_refunds : refund_db ledger_db := {|
  payment_rows := {[ "p1"%string := demo_payment ]}; refund_rows := [];
  route_allocations := {[ "pay_1"%string := (100000, Some 95000) ]}; rzp_refunds := ∅;
  merchant_ledger := empty_ledger |}.

Definition demo_request (amount : Z) : refund_request := {|
  rq_merchant := "m1"; rq_payment := "p1"; rq_amount := PInt amount; rq_reason := None; rq_kind := "partial";
  rq_order := None; rq_customer_contact := None; rq_notes := []; rq_user := None; rq_admin := None |}.

Definition demo_change : change := {|
  ch_gateway_refund_id := None; ch_failure_reason := None; ch_notes := []; ch_actor_user := None; ch_actor_admin := None |}.

Definition demo_refund : refund := {|
  r_id := 1; r_uuid := "u1"; r_merchant := "m1"; r_payment := "p1"; r_order := None; r_amount := 4000000;
  r_currency := "INR"; r_kind := "partial"; r_status := Initiated; r_reason := None; r_customer_contact := None;
  r_gateway_refund_id := None; r_initiated_by_user := None; r_initiated_by_admin := None; r_ledger_entry := None;
  r_notes := []; r_failure_reason := None; r_processed_at := None |}.

Definition demo_created : refund_db ledger_db := with_refunds demo_refunds [demo_refund] empty_ledger.

Lemma demo_create : create "u1" (demo_request 400) demo_refunds = Ok (demo_created, demo_refund).
Proof. reflexivity. Qed.

Lemma demo_steps : rtc service_step demo_refunds demo_created.
Proof. eapply rtc_once, StepCreate, demo_create. Qed.

Lemma demo_sound : sound demo_created.
Proof. by apply (steps_preserved _ _ demo_steps), empty_sound. Qed.

Definition demo_failed : refund :=
  updated_refund 5 Failed demo_change None demo_refund.

Lemma demo_fails :
  transition (at_time 5) 1 None "failed" demo_change demo_created
  = Ok (with_refunds demo_refunds [demo_failed] empty_ledger, demo_failed).
Proof. reflexivity. Qed.

Lemma refunds_within_payment_witness :
  0 <= refunded (refund_rows demo_created) "m1" "p1" <= 10000000 ∧ refunded (refund_rows demo_created) "m1" "p1" = 4000000.
Proof.
  split; [|reflexivity].
  exact (proj1 (refunds_within_payment demo_refunds demo_created "m1" "p1" demo_payment
    eq_refl demo_steps eq_refl ltac:(done))).
Defined.

Lemma refund_history_sound_witness :
  ∃ r', refund_rows (with_refunds demo_refunds [demo_failed] empty_ledger) !! 0%nat = Some r' ∧
    same_refund demo_refund r' ∧ rtc status_step Initiated (r_status r').
Proof.
  destruct (refund_history_sound demo_refunds demo_created (with_refunds demo_refunds [demo_failed] empty_ledger)
    0 demo_refund eq_refl demo_steps (rtc_once _ _ (StepTransition _ _ _ _ _ _ _ _ demo_fails)) eq_refl)
    as (r' & H1 & H2 & H3 & _).
  exists r'. exact (conj H1 (conj H2 H3)).
Defined.

Lemma success_costs_share_witness :
  ∃ db' r', transition (at_time 5) 1 (Some "m1"%string) "succeeded" demo_change demo_created = Ok (db', r') ∧
    balance (merchant_ledger db') "m1" "INR" = -3800000.
Proof.
  destruct (success_costs_share (at_time 5) 1 (Some "m1"%string) demo_change demo_created demo_refund 40000
    demo_sound eq_refl (or_introl eq_refl)) as (db' & r' & H1 & _ & _ & H2 & _).
  - intros m' [= <-]. reflexivity.
  - reflexivity.
  - vm_compute. done.
  - reflexivity.
  - intros g m [= <- <-]. vm_compute. repeat split; discriminate.
  - exact empty_wf.
  - vm_compute. repeat constructor.
  - repeat split; vm_compute; congruence.
  - exists db', r'. split; [exact H1|]. exact (H2 "m1" "INR")%string.
Defined.

(** A gateway that never answers in time, counting its calls. *)
Definition demo_gateway (call : gateway_call) (n : nat) : nat * res gateway_reply :=
  (S n, Err (RuntimeError "timeout")).

Lemma dispatch_follows_gateway_witness :
  ∃ db2 r2, _create_and_dispatch_once demo_gateway (λ _, "timeout"%string) (at_time 5) "u1" "k" "normal"
      (demo_request 400) (demo_refunds, 0%nat) = ((db2, 1%nat), Err (RuntimeError "timeout")) ∧
    r_status r2 = Processing ∧ refunded (refund_rows db2) "m1" "p1" = 4000000.
Proof.
  destruct (dispatch_follows_gateway demo_gateway (λ _, "timeout"%string) (at_time 5) "u1" "k" "normal"
    (demo_request 400) demo_refunds demo_created 0%nat demo_refund demo_payment (d_int 400) 1%nat
    (Err (RuntimeError "timeout")) (empty_sound demo_refunds eq_refl) demo_create eq_refl eq_refl eq_refl eq_refl ltac:(done))
    as (db2 & r2 & H1 & _ & _ & H2 & H3).
  exists db2, r2. exact (conj H1 (conj H2 H3)).
Defined.
