(* ===== verification/Payouts.v ===== *)
(** Payouts: [src/app/services/payout_service.py], with the reference and
    available-balance functions of [src/migrations/040_payouts_disbursement.sql].

    Rows are numbered in the order they were created (the code draws UUIDs);
    amounts are ten-thousandths of a rupee.  The merchant ledger is known only
    through [LedgerApi].  A call that raises changes nothing. *)

From Stdlib Require Import ZArith Lia Ascii String.
From S2P Require Import Prelude PyDecimal PyFloat PyValues MerchantLedger.
Open Scope Z_scope.

(** ** Data *)

Inductive payout_status :=
  | Draft | Requested | Approved | PRejected | PCancelled | Queued | InFile | SentToBank | PCompleted | PFailed.

#[export] Instance payout_status_eq_dec : EqDecision payout_status.
Proof. solve_decision. Defined.

(** The statuses of [fn_payout_available_balance] and [PENDING_STATUSES]. *)
Definition pending (s : payout_status) : bool :=
  match s with Requested | Approved | Queued | InFile => true | _ => false end.

Definition TERMINAL_STATUSES : list payout_status := [PCompleted; PRejected; PCancelled; PFailed].

Inductive beneficiary_type := BankAccount | Upi.

#[export] Instance beneficiary_type_eq_dec : EqDecision beneficiary_type.
Proof. solve_decision. Defined.

Definition parse_beneficiary_type (s : string) : option beneficiary_type :=
  if bool_decide (s = "bank"%string) then Some BankAccount
  else if bool_decide (s = "upi"%string) then Some Upi else None.

Record beneficiary := {
  b_id : Z;
  b_merchant : string;
  b_label : string;
  b_type : beneficiary_type;
  b_holder : option string;
  b_account : option string;
  b_last4 : option string;
  b_ifsc : option string;
  b_bank : option string;
  b_upi : option string;
  b_active : bool;
  b_verified : bool;
  b_verified_by : option (string * Z);
  b_metadata : list (string * string);
  b_created_by : option string;
}.

(** What a request fixes of a payout. *)
Record payout_terms := {
  t_reference : string;
  t_merchant : string;
  t_branch : option string;
  t_beneficiary : Z;
  t_amount : Z;
  t_currency : string;
  t_method : string;
  t_requested_by : string;
  t_requested_at : Z;
  t_idempotency_key : option string;
  t_metadata : list (string * string);
}.

(** What its life adds. *)
Record progress := {
  po_status : payout_status;
  po_approved : option (string * Z);
  po_rejected : option (string * Z * string);
  po_cancelled_at : option Z;
  po_batch : option Z;
  po_ledger_entry : option Z;
  po_reversal : option Z;
  po_utr : option string;
  po_bank_reference : option string;
  po_sent_at : option Z;
  po_completed_at : option Z;
  po_failed : option (Z * string);
  po_notes : option string;
}.

Record payout := { po_id : Z; terms : payout_terms; life : progress }.
Definition status_of (p : payout) : payout_status := po_status (life p).

Inductive event_type :=
  | ECreated | EApproved | ERejected | ECancelled | EBatched | EUnbatched | EFileGenerated | ESent | ECompleted | EFailed
  | EReversed | ENote.

Record event := {
  ev_payout : Z;
  ev_type : event_type;
  ev_from : option payout_status;
  ev_to : payout_status;
  ev_actor : string;
  ev_admin : bool;
  ev_notes : option string;
}.

Inductive batch_status := BOpen | BFileGenerated | BProcessing | BClosed | BCancelled.

#[export] Instance batch_status_eq_dec : EqDecision batch_status.
Proof. solve_decision. Defined.

Record batch := {
  ba_id : Z;
  ba_reference : string;
  ba_status : batch_status;
  ba_total : Z;
  ba_count : Z;
  ba_currency : string;
  ba_file : option (string * Z);
  ba_notes : option string;
  ba_created_by : string;
  ba_created_at : Z;
}.

Record payout_db (L : Type) := {
  beneficiaries : list beneficiary;
  payouts : list payout;
  events : list event;
  batches : list batch;
  payout_seqs : gmap (string * string) Z;
  batch_seqs : gmap string Z;
  ledger_of : L;
}.
Arguments beneficiaries {L}.
Arguments payouts {L}.
Arguments events {L}.
Arguments batches {L}.
Arguments payout_seqs {L}.
Arguments batch_seqs {L}.
Arguments ledger_of {L}.

Definition with_beneficiaries {L} (l : list beneficiary) (db : payout_db L) : payout_db L := {|
  beneficiaries := l; payouts := payouts db; events := events db; batches := batches db;
  payout_seqs := payout_seqs db; batch_seqs := batch_seqs db; ledger_of := ledger_of db |}.

Definition with_payouts {L} (l : list payout) (ev : list event) (ml : L) (db : payout_db L) : payout_db L := {|
  beneficiaries := beneficiaries db; payouts := l; events := ev; batches := batches db;
  payout_seqs := payout_seqs db; batch_seqs := batch_seqs db; ledger_of := ml |}.

Definition find_row {A} (id : Z) (l : list A) : option A := if id <=? 0 then None else l !! Z.to_nat (id - 1).

(** ** Beneficiaries *)

Record beneficiary_request := {
  br_merchant : string;
  br_label : option string;
  br_type : string;
  br_holder : option string;
  br_account : option string;
  br_ifsc : option string;
  br_bank : option string;
  br_upi : option string;
  br_metadata : list (string * string);
  br_created_by : option string;
}.

(** [s[-4:]] *)
Definition last_four (s : string) : string := of_chars (drop (length (chars s) - 4) (chars s)).

Definition has_at (s : string) : bool := bool_decide ("@"%char ∈ chars s).

(** The account number, IFSC, last digits and UPI address that are stored. *)
Definition beneficiary_account (type : beneficiary_type) (rq : beneficiary_request)
    : res (option string * option string * option string * option string) :=
  match type with
  | BankAccount =>
      _ ← raise_if (negb (str_truthy (br_account rq) && str_truthy (br_ifsc rq)))
            (ValidationError "bank beneficiary requires account_number + ifsc");
      let account := strip (str_or (br_account rq) "") in
      let ifsc := upper (strip (str_or (br_ifsc rq) "")) in
      let last4 := if 4 <=? str_len account then last_four account else account in
      Ok (Some account, Some ifsc, Some last4, None)
  | Upi =>
      _ ← raise_if (negb (str_truthy (br_upi rq)) || negb (has_at (str_or (br_upi rq) "")))
            (ValidationError "upi beneficiary requires a valid upi_vpa (xxx@bank)");
      Ok (None, None, None, Some (lower (strip (str_or (br_upi rq) ""))))
  end.

Section Beneficiaries.
Context {L : Type}.

(** [ON CONFLICT (merchant_id, label) DO UPDATE]: the verification stays. *)
Definition create_beneficiary (rq : beneficiary_request) (db : payout_db L) : res (payout_db L * beneficiary) :=
  match parse_beneficiary_type (br_type rq) with
  | None => Err (ValidationError "type must be 'bank' or 'upi'")
  | Some type =>
      let label := strip (str_or (br_label rq) "") in
      _ ← raise_if (str_len label <? 2) (ValidationError "label is required (min 2 chars)");
      fields ← beneficiary_account type rq;
      let '(account, ifsc, last4, upi) := fields in
      let row id old := {|
        b_id := id; b_merchant := br_merchant rq; b_label := label; b_type := type; b_holder := br_holder rq;
        b_account := account; b_last4 := last4; b_ifsc := ifsc; b_bank := br_bank rq; b_upi := upi;
        b_active := true;
        b_verified := match old with Some b => b_verified b | None => false end;
        b_verified_by := match old with Some b => b_verified_by b | None => None end;
        b_metadata := br_metadata rq;
        b_created_by := match old with Some b => b_created_by b | None => br_created_by rq end |} in
      match find (λ b, bool_decide (b_merchant b = br_merchant rq) && bool_decide (b_label b = label)) (beneficiaries db) with
      | Some old =>
          let b := row (b_id old) (Some old) in
          Ok (with_beneficiaries (map (λ x, if b_id x =? b_id old then b else x) (beneficiaries db)) db, b)
      | None =>
          let b := row (Z.of_nat (length (beneficiaries db)) + 1) None in
          Ok (with_beneficiaries (beneficiaries db ++ [b]) db, b)
      end
  end.

(** [id = $1 AND merchant_id = $2], the second only when it is given. *)
Definition visible (merchant : option string) (owner : string) : bool :=
  match merchant with Some m => bool_decide (owner = m) | None => true end.

Definition change_beneficiary (id : Z) (merchant : option string) (f : beneficiary → beneficiary) (db : payout_db L)
    : res (payout_db L * beneficiary) :=
  match find_row id (beneficiaries db) with
  | Some b =>
      if visible merchant (b_merchant b)
      then Ok (with_beneficiaries (<[Z.to_nat (id - 1) := f b]> (beneficiaries db)) db, f b)
      else Err (NotFoundError "payout_beneficiary")
  | None => Err (NotFoundError "payout_beneficiary")
  end.

Definition deactivate_beneficiary (id : Z) (merchant : option string) : payout_db L → res (payout_db L * beneficiary) :=
  change_beneficiary id merchant (λ b, {|
    b_id := b_id b; b_merchant := b_merchant b; b_label := b_label b; b_type := b_type b; b_holder := b_holder b;
    b_account := b_account b; b_last4 := b_last4 b; b_ifsc := b_ifsc b; b_bank := b_bank b; b_upi := b_upi b;
    b_active := false; b_verified := b_verified b; b_verified_by := b_verified_by b; b_metadata := b_metadata b;
    b_created_by := b_created_by b |}).

Definition verify_beneficiary (s : stamp) (id : Z) (verified_by : string) : payout_db L → res (payout_db L * beneficiary) :=
  change_beneficiary id None (λ b, {|
    b_id := b_id b; b_merchant := b_merchant b; b_label := b_label b; b_type := b_type b; b_holder := b_holder b;
    b_account := b_account b; b_last4 := b_last4 b; b_ifsc := b_ifsc b; b_bank := b_bank b; b_upi := b_upi b;
    b_active := b_active b; b_verified := true; b_verified_by := Some (verified_by, now s);
    b_metadata := b_metadata b; b_created_by := b_created_by b |}).

Definition get_beneficiary (id : Z) (merchant : option string) (db : payout_db L) : res beneficiary :=
  match find_row id (beneficiaries db) with
  | Some b => if visible merchant (b_merchant b) then Ok b else Err (NotFoundError "payout_beneficiary")
  | None => Err (NotFoundError "payout_beneficiary")
  end.
End Beneficiaries.

(** ** The statuses' steps *)

(** [SET status = ..., ... = COALESCE(...)], one function per UPDATE. *)
Definition approve_life (actor : string) (at_ : Z) (l : progress) : progress := {|
  po_status := Approved; po_approved := Some (actor, at_); po_rejected := po_rejected l;
  po_cancelled_at := po_cancelled_at l; po_batch := po_batch l; po_ledger_entry := po_ledger_entry l;
  po_reversal := po_reversal l; po_utr := po_utr l; po_bank_reference := po_bank_reference l;
  po_sent_at := po_sent_at l; po_completed_at := po_completed_at l; po_failed := po_failed l;
  po_notes := po_notes l |}.

Definition reject_life (actor : string) (at_ : Z) (reason : string) (l : progress) : progress := {|
  po_status := PRejected; po_approved := po_approved l; po_rejected := Some (actor, at_, reason);
  po_cancelled_at := po_cancelled_at l; po_batch := po_batch l; po_ledger_entry := po_ledger_entry l;
  po_reversal := po_reversal l; po_utr := po_utr l; po_bank_reference := po_bank_reference l;
  po_sent_at := po_sent_at l; po_completed_at := po_completed_at l; po_failed := po_failed l;
  po_notes := po_notes l |}.

Definition cancel_life (at_ : Z) (notes : option string) (l : progress) : progress := {|
  po_status := PCancelled; po_approved := po_approved l; po_rejected := po_rejected l;
  po_cancelled_at := Some at_; po_batch := po_batch l; po_ledger_entry := po_ledger_entry l;
  po_reversal := po_reversal l; po_utr := po_utr l; po_bank_reference := po_bank_reference l;
  po_sent_at := po_sent_at l; po_completed_at := po_completed_at l; po_failed := po_failed l;
  po_notes := coalesce notes (po_notes l) |}.

Definition queue_life (batch : Z) (l : progress) : progress := {|
  po_status := Queued; po_approved := po_approved l; po_rejected := po_rejected l;
  po_cancelled_at := po_cancelled_at l; po_batch := Some batch; po_ledger_entry := po_ledger_entry l;
  po_reversal := po_reversal l; po_utr := po_utr l; po_bank_reference := po_bank_reference l;
  po_sent_at := po_sent_at l; po_completed_at := po_completed_at l; po_failed := po_failed l;
  po_notes := po_notes l |}.

Definition file_life (l : progress) : progress := {|
  po_status := InFile; po_approved := po_approved l; po_rejected := po_rejected l;
  po_cancelled_at := po_cancelled_at l; po_batch := po_batch l; po_ledger_entry := po_ledger_entry l;
  po_reversal := po_reversal l; po_utr := po_utr l; po_bank_reference := po_bank_reference l;
  po_sent_at := po_sent_at l; po_completed_at := po_completed_at l; po_failed := po_failed l;
  po_notes := po_notes l |}.

Definition send_life (at_ : Z) (utr bank notes : option string) (entry : Z) (l : progress) : progress := {|
  po_status := SentToBank; po_approved := po_approved l; po_rejected := po_rejected l;
  po_cancelled_at := po_cancelled_at l; po_batch := po_batch l; po_ledger_entry := Some entry;
  po_reversal := po_reversal l; po_utr := coalesce utr (po_utr l);
  po_bank_reference := coalesce bank (po_bank_reference l); po_sent_at := Some at_;
  po_completed_at := po_completed_at l; po_failed := po_failed l; po_notes := coalesce notes (po_notes l) |}.

Definition complete_life (at_ : Z) (utr notes : option string) (l : progress) : progress := {|
  po_status := PCompleted; po_approved := po_approved l; po_rejected := po_rejected l;
  po_cancelled_at := po_cancelled_at l; po_batch := po_batch l; po_ledger_entry := po_ledger_entry l;
  po_reversal := po_reversal l; po_utr := coalesce utr (po_utr l); po_bank_reference := po_bank_reference l;
  po_sent_at := po_sent_at l; po_completed_at := Some at_; po_failed := po_failed l;
  po_notes := coalesce notes (po_notes l) |}.

Definition fail_life (at_ : Z) (reason : string) (reversal : option Z) (notes : option string) (l : progress) : progress := {|
  po_status := PFailed; po_approved := po_approved l; po_rejected := po_rejected l;
  po_cancelled_at := po_cancelled_at l; po_batch := po_batch l; po_ledger_entry := po_ledger_entry l;
  po_reversal := reversal; po_utr := po_utr l; po_bank_reference := po_bank_reference l;
  po_sent_at := po_sent_at l; po_completed_at := po_completed_at l; po_failed := Some (at_, reason);
  po_notes := coalesce notes (po_notes l) |}.

(** ** Payouts *)

Record payout_request := {
  pq_merchant : string;
  pq_beneficiary : Z;
  pq_amount : pyval;
  pq_method : string;
  pq_currency : string;
  pq_branch : option string;
  pq_requested_by : string;
  pq_notes : option string;
  pq_idempotency_key : option string;
  pq_metadata : list (string * string);
}.

Definition payout_methods : list string := ["bank_neft"; "bank_imps"; "bank_rtgs"; "upi"]%string.

(** The payouts whose money is earmarked but not yet posted. *)
Definition in_flight (merchant currency : string) (p : payout) : bool :=
  bool_decide (t_merchant (terms p) = merchant) && bool_decide (t_currency (terms p) = currency)
  && pending (status_of p).

Definition locked (l : list payout) (merchant currency : string) : Z :=
  sum_where (in_flight merchant currency) (λ p, t_amount (terms p)) l.

(** [format('PO-%s-%s', ...)]: the merchant is not part of it. *)
Definition payout_ref (month : string) (seq : Z) : string :=
  ("PO-" ++ month ++ "-" ++ lpad0 8 (nat_text seq))%string.
Definition batch_ref (month : string) (seq : Z) : string :=
  ("POBATCH-" ++ month ++ "-" ++ lpad0 6 (nat_text seq))%string.

Definition payout_event (p : payout) (type : event_type) (from : option payout_status) (to_ : payout_status)
    (actor : string) (admin : bool) (notes : option string) : event := {|
  ev_payout := po_id p; ev_type := type; ev_from := from; ev_to := to_; ev_actor := actor; ev_admin := admin;
  ev_notes := notes |}.

Section Requests.
Context {L : Type} `{LedgerApi L}.

Definition fn_payout_available_balance (db : payout_db L) (merchant currency : string) : res Z :=
  v_locked ← numeric_18_4 (locked (payouts db) merchant (upper currency));
  Ok (api_balance (ledger_of db) merchant (upper currency) - v_locked).

Record availability := { av_current : Z; av_locked : Z; av_available : Z }.

Definition available_balance (merchant currency : string) (db : payout_db L) : res availability :=
  avail ← fn_payout_available_balance db merchant (upper currency);
  Ok {| av_current := api_balance (ledger_of db) merchant (upper currency);
        av_locked := locked (payouts db) merchant (upper currency); av_available := avail |}.

(** The next reference and the sequences after it. *)
Definition fn_next_payout_reference (s : stamp) (merchant : string) (seqs : gmap (string * string) Z)
    : string * gmap (string * string) Z :=
  let seq := default 0 (seqs !! (merchant, yyyymm s)) + 1 in
  (payout_ref (yyyymm s) seq, <[(merchant, yyyymm s) := seq]> seqs).

(** What the checks of a request decide: the earlier payout of its key, or an
    amount that may be requested. *)
Inductive decision := Replay (p : payout) | Grant (amount : decimal).

Definition request_check (rq : payout_request) (db : payout_db L) : res decision :=
  _ ← raise_if (negb (str_mem (pq_method rq) payout_methods)) (ValidationError "unknown method");
  match parse_decimal (pq_amount rq) with
  | None => Err (ValidationError "amount is invalid")
  | Some amt =>
      _ ← raise_if (negb (dpos amt)) (ValidationError "amount must be > 0");
      let currency := upper (pq_currency rq) in
      match find_row (pq_beneficiary rq) (beneficiaries db) with
      | None => Err (NotFoundError "payout_beneficiary")
      | Some ben =>
          _ ← raise_if (negb (bool_decide (b_merchant ben = pq_merchant rq)))
                (ValidationError "beneficiary does not belong to this merchant");
          _ ← raise_if (negb (b_active ben)) (ValidationError "beneficiary is inactive");
          let upi := bool_decide (pq_method rq = "upi"%string) in
          _ ← raise_if (negb upi && negb (bool_decide (b_type ben = BankAccount)))
                (ValidationError "bank_* method requires a bank beneficiary");
          _ ← raise_if (upi && negb (bool_decide (b_type ben = Upi)))
                (ValidationError "upi method requires a upi beneficiary");
          let prev := if str_truthy (pq_idempotency_key rq)
                      then find (λ p, bool_decide (t_merchant (terms p) = pq_merchant rq)
                                      && bool_decide (t_idempotency_key (terms p) = pq_idempotency_key rq)) (payouts db)
                      else None in
          match prev with
          | Some p => Ok (Replay p)
          | None =>
              avail ← fn_payout_available_balance db (pq_merchant rq) currency;
              _ ← raise_if (dltb (Dec avail (-4)) amt) (ValidationError "insufficient available balance");
              Ok (Grant amt)
          end
      end
  end.

(** The INSERT, with the table's constraints. *)
Definition request_insert (s : stamp) (rq : payout_request) (amt : decimal) (db : payout_db L)
    : res (payout_db L * payout) :=
  let (ref, seqs) := fn_next_payout_reference s (pq_merchant rq) (payout_seqs db) in
  amount ← numeric_18_4 (ticks amt);
  _ ← raise_if (negb (0 <? amount)) (DatabaseError "payout_requests_amount_check");
  _ ← raise_if (3 <? str_len (upper (pq_currency rq))) (DatabaseError "value too long for type character(3)");
  _ ← raise_if (bool_decide (Exists (λ p, t_reference (terms p) = ref) (payouts db)))
        (DatabaseError "duplicate key payout_requests_payout_reference_key");
  _ ← raise_if (bool_decide (is_Some (pq_idempotency_key rq)) &&
                bool_decide (Exists (λ p, t_merchant (terms p) = pq_merchant rq ∧
                                          t_idempotency_key (terms p) = pq_idempotency_key rq) (payouts db)))
        (DatabaseError "duplicate key payout_requests_merchant_id_idempotency_key_key");
  let p := {|
    po_id := Z.of_nat (length (payouts db)) + 1;
    terms := {| t_reference := ref; t_merchant := pq_merchant rq; t_branch := pq_branch rq;
                t_beneficiary := pq_beneficiary rq; t_amount := amount; t_currency := upper (pq_currency rq);
                t_method := pq_method rq; t_requested_by := pq_requested_by rq; t_requested_at := now s;
                t_idempotency_key := pq_idempotency_key rq; t_metadata := pq_metadata rq |};
    life := {| po_status := Requested; po_approved := None; po_rejected := None; po_cancelled_at := None;
               po_batch := None; po_ledger_entry := None; po_reversal := None; po_utr := None;
               po_bank_reference := None; po_sent_at := None; po_completed_at := None; po_failed := None;
               po_notes := pq_notes rq |} |} in
  Ok ({| beneficiaries := beneficiaries db; payouts := payouts db ++ [p];
         events := events db ++ [payout_event p ECreated None Requested (pq_requested_by rq) false (pq_notes rq)];
         batches := batches db; payout_seqs := seqs; batch_seqs := batch_seqs db; ledger_of := ledger_of db |}, p).

Definition request_payout (s : stamp) (rq : payout_request) (db : payout_db L) : res (payout_db L * payout) :=
  d ← request_check rq db;
  match d with
  | Replay p => Ok (db, p)
  | Grant amt => request_insert s rq amt db
  end.

(** *** Changing one payout *)

(** The UPDATE of one row, with its event(s). *)
Definition update_payout (p : payout) (l : progress) (evs : list event) (ml : L) (db : payout_db L)
    : payout_db L * payout :=
  let p' := {| po_id := po_id p; terms := terms p; life := l |} in
  (with_payouts (<[Z.to_nat (po_id p - 1) := p']> (payouts db)) (events db ++ evs) ml db, p').

Definition find_payout (id : Z) (merchant : option string) (db : payout_db L) : res payout :=
  match find_row id (payouts db) with
  | Some p => if visible merchant (t_merchant (terms p)) then Ok p else Err (NotFoundError "payout_request")
  | None => Err (NotFoundError "payout_request")
  end.

Definition get_payout : Z → option string → payout_db L → res payout := find_payout.

(** A status check on a row that was read. *)
Definition in_status (allowed : list payout_status) (message : string) (p : payout) : res () :=
  raise_if (negb (bool_decide (status_of p ∈ allowed))) (ValidationError message).

Definition cancel_payout (s : stamp) (id : Z) (merchant actor : string) (notes : option string) (db : payout_db L)
    : res (payout_db L * payout) :=
  p ← find_payout id (Some merchant) db;
  _ ← in_status [Requested] "only 'requested' payouts can be cancelled by merchant" p;
  Ok (update_payout p (cancel_life (now s) notes (life p))
        [payout_event p ECancelled (Some Requested) PCancelled actor false notes] (ledger_of db) db).

Definition approve_payout (s : stamp) (id : Z) (actor : string) (notes : option string) (db : payout_db L)
    : res (payout_db L * payout) :=
  p ← find_payout id None db;
  _ ← in_status [Requested] "only 'requested' payouts can be approved" p;
  Ok (update_payout p (approve_life actor (now s) (life p))
        [payout_event p EApproved (Some Requested) Approved actor true notes] (ledger_of db) db).

(** [notes or reason] *)
Definition notes_or (notes : option string) (reason : string) : option string :=
  if str_truthy notes then notes else Some reason.

Definition reject_payout (s : stamp) (id : Z) (actor reason : string) (notes : option string) (db : payout_db L)
    : res (payout_db L * payout) :=
  _ ← raise_if (bool_decide (reason = ""%string) || (str_len (strip reason) <? 3))
        (ValidationError "rejection reason is required (min 3 chars)");
  p ← find_payout id None db;
  _ ← in_status [Requested; Approved] "only 'requested' or 'approved' payouts can be rejected" p;
  Ok (update_payout p (reject_life actor (now s) reason (life p))
        [payout_event p ERejected (Some (status_of p)) PRejected actor true (notes_or notes reason)] (ledger_of db) db).

(** The debit and the credit of a payout. *)
Definition payout_debit (p : payout) (actor : string) (utr bank : option string) : posting := {|
  p_merchant := t_merchant (terms p); p_type := "payout_initiated";
  p_debit := PDec (Dec (t_amount (terms p)) (-4)); p_credit := PInt 0; p_branch := t_branch (terms p);
  p_currency := Some (t_currency (terms p)); p_source_type := Some "payout"%string;
  p_source_id := Some (nat_text (po_id p)); p_settlement_id := None; p_payment_id := None; p_order_id := None;
  p_bank_reference := bank; p_utr_number := utr;
  p_idempotency_key := Some ("payout-sent:" ++ t_reference (terms p))%string;
  p_metadata := [("payout_reference", t_reference (terms p)); ("method", t_method (terms p));
                 ("beneficiary_id", nat_text (t_beneficiary (terms p)))]%string;
  p_created_by := Some actor |}.

Definition payout_credit (p : payout) (actor reason : string) : posting := {|
  p_merchant := t_merchant (terms p); p_type := "payout_reversed"; p_debit := PInt 0;
  p_credit := PDec (Dec (t_amount (terms p)) (-4)); p_branch := t_branch (terms p);
  p_currency := Some (t_currency (terms p)); p_source_type := Some "payout_reversal"%string;
  p_source_id := Some (nat_text (po_id p)); p_settlement_id := None; p_payment_id := None; p_order_id := None;
  p_bank_reference := None; p_utr_number := None;
  p_idempotency_key := Some ("payout-failed:" ++ t_reference (terms p))%string;
  p_metadata := ("payout_reference", t_reference (terms p))%string
                :: match po_ledger_entry (life p) with
                   | Some e => [("original_ledger_entry_id", nat_text e)]%string | None => [] end
                ++ [("reason", reason)]%string;
  p_created_by := Some actor |}.

Definition mark_sent (s : stamp) (id : Z) (actor : string) (utr bank notes : option string) (db : payout_db L)
    : res (payout_db L * payout) :=
  p ← find_payout id None db;
  _ ← in_status [InFile] "mark_sent requires status='processing'" p;
  posted ← api_post_sql s (payout_debit p actor utr bank) (ledger_of db);
  Ok (update_payout p (send_life (now s) utr bank notes (e_id posted.2) (life p))
        [payout_event p ESent (Some InFile) SentToBank actor true notes] posted.1 db).

(** [mark_completed] reads the row without locking it, then updates it by id:
    two statements, between which another transaction may commit. *)
Definition complete_read (id : Z) (db : payout_db L) : res payout :=
  p ← find_payout id None db;
  _ ← in_status [SentToBank] "mark_completed requires status='sent'" p;
  Ok p.

Definition complete_write (s : stamp) (id : Z) (actor : string) (utr notes : option string) (db : payout_db L)
    : res (payout_db L * payout) :=
  p ← find_payout id None db;
  Ok (update_payout p (complete_life (now s) utr notes (life p))
        [payout_event p ECompleted (Some SentToBank) PCompleted actor true notes] (ledger_of db) db).

Definition mark_completed (s : stamp) (id : Z) (actor : string) (utr notes : option string) (db : payout_db L)
    : res (payout_db L * payout) :=
  _ ← complete_read id db;
  complete_write s id actor utr notes db.

Definition mark_failed (s : stamp) (id : Z) (actor reason : string) (notes : option string) (db : payout_db L)
    : res (payout_db L * payout) :=
  _ ← raise_if (bool_decide (reason = ""%string) || (str_len (strip reason) <? 3))
        (ValidationError "failure reason is required (min 3 chars)");
  p ← find_payout id None db;
  _ ← in_status [Queued; InFile; SentToBank] "mark_failed only valid from 'queued'|'processing'|'sent'" p;
  posted ← (if bool_decide (status_of p = SentToBank)
            then r ← api_post_sql s (payout_credit p actor reason) (ledger_of db); Ok (r.1, Some (e_id r.2))
            else Ok (ledger_of db, None));
  Ok (update_payout p (fail_life (now s) reason posted.2 notes (life p))
        (payout_event p EFailed (Some (status_of p)) PFailed actor true (notes_or notes reason)
         :: match posted.2 with
            | Some _ => [payout_event p EReversed (Some PFailed) PFailed actor true None]
            | None => []
            end) posted.1 db).

(** *** Batches *)

(** [ORDER BY key] of rows in table order. *)
Fixpoint insert_by (key : payout → Z) (p : payout) (l : list payout) : list payout :=
  match l with
  | [] => [p]
  | q :: l' => if key p <=? key q then p :: l else q :: insert_by key p l'
  end.
Definition order_by (key : payout → Z) (l : list payout) : list payout := foldr (insert_by key) [] l.

Definition approved_at (p : payout) : Z := match po_approved (life p) with Some (_, t) => t | None => 0 end.

(** The rows a batch takes: those named, all approved and of its currency, or
    every approved row that is in no batch. *)
Definition batch_rows (merchant : option string) (payout_ids : list Z) (currency : string) (db : payout_db L)
    : res (list payout) :=
  match payout_ids with
  | [] =>
      Ok (order_by approved_at (filter (λ p, bool_decide (status_of p = Approved)
              && bool_decide (po_batch (life p) = None) && bool_decide (t_currency (terms p) = currency)
              && visible merchant (t_merchant (terms p)) = true) (payouts db)))
  | _ =>
      let rows := filter (λ p, po_id p ∈ payout_ids) (payouts db) in
      _ ← raise_if (negb (bool_decide (length rows = length payout_ids))) (NotFoundError "payout_request");
      _ ← raise_if (bool_decide (Exists (λ p, status_of p ≠ Approved) rows))
            (ValidationError "all payouts must be 'approved'");
      _ ← raise_if (bool_decide (Exists (λ p, t_currency (terms p) ≠ currency) rows))
            (ValidationError "all payouts in a batch must share currency");
      Ok rows
  end.

Definition in_rows (rows : list payout) (p : payout) : bool := bool_decide (po_id p ∈ map po_id rows).

Definition queue_payout (batch_id : Z) (p : payout) : payout :=
  {| po_id := po_id p; terms := terms p; life := queue_life batch_id (life p) |}.

Definition create_batch (s : stamp) (actor : string) (merchant : option string) (payout_ids : list Z)
    (currency : string) (notes : option string) (db : payout_db L) : res (payout_db L * batch) :=
  let currency := upper currency in
  rows ← batch_rows merchant payout_ids currency db;
  _ ← raise_if (bool_decide (rows = [])) (ValidationError "no eligible 'approved' payouts to batch");
  let seq := default 0 (batch_seqs db !! yyyymm s) + 1 in
  let ref := batch_ref (yyyymm s) seq in
  total ← numeric_18_4 (zsum (map (λ p, t_amount (terms p)) rows));
  _ ← raise_if (bool_decide (Exists (λ b, ba_reference b = ref) (batches db)))
        (DatabaseError "duplicate key payout_batches_batch_reference_key");
  let b := {|
    ba_id := Z.of_nat (length (batches db)) + 1; ba_reference := ref; ba_status := BOpen; ba_total := total;
    ba_count := Z.of_nat (length rows); ba_currency := currency; ba_file := None; ba_notes := notes;
    ba_created_by := actor; ba_created_at := now s |} in
  Ok ({| beneficiaries := beneficiaries db;
         payouts := map (λ p, if in_rows rows p then queue_payout (ba_id b) p else p) (payouts db);
         events := events db ++ map (λ p, payout_event p EBatched (Some Approved) Queued actor true None) rows;
         batches := batches db ++ [b]; payout_seqs := payout_seqs db;
         batch_seqs := <[yyyymm s := seq]> (batch_seqs db); ledger_of := ledger_of db |}, b).

(** [csv.writer] with its defaults: minimal quoting, CRLF line ends. *)
Definition quote_char : ascii := ascii_of_nat 34.
Definition needs_quotes (c : ascii) : bool :=
  bool_decide (c ∈ [","%char; quote_char; ascii_of_nat 10; ascii_of_nat 13]).
Definition csv_field (s : string) : string :=
  let l := chars s in
  if existsb needs_quotes l
  then of_chars (quote_char :: mjoin (map (λ c, if bool_decide (c = quote_char) then [c; c] else [c]) l) ++ [quote_char])
  else s.
Definition csv_row (cells : list string) : string :=
  (join "," (map csv_field cells) ++ of_chars [ascii_of_nat 13; ascii_of_nat 10])%string.

(** [f"{amount:.2f}"] of a positive amount: half to even. *)
Definition fmt2 (amount : Z) : string := cents_text (round_div ROUND_HALF_EVEN amount 100).

(** [(notes or reference)[:100]] *)
Definition narration (p : payout) : string :=
  of_chars (take 100 (chars (str_or (po_notes (life p)) (t_reference (terms p))))).

Definition upi_cells (m : payout * beneficiary) : list string :=
  let (p, b) := m in
  [t_reference (terms p); default "" (b_upi b); fmt2 (t_amount (terms p)); t_currency (terms p); narration p]%string.

Definition bank_cells (m : payout * beneficiary) : list string :=
  let (p, b) := m in
  [t_reference (terms p); str_or (b_holder b) ""; str_or (b_account b) ""; str_or (b_ifsc b) ""; str_or (b_bank b) "";
   fmt2 (t_amount (terms p)); t_currency (terms p); narration p]%string.

Definition batch_csv (file_format : string) (members : list (payout * beneficiary)) : string :=
  if bool_decide (file_format = "upi_csv"%string)
  then join "" (csv_row ["payout_reference"; "vpa"; "amount"; "currency"; "narration"]%string
                :: map (λ m, csv_row (upi_cells m)) members)
  else join "" (csv_row ["payout_reference"; "beneficiary_name"; "account_number"; "ifsc"; "bank_name"; "amount";
                         "currency"; "narration"]%string
                :: map (λ m, csv_row (bank_cells m)) members).

(** [WHERE batch_id = $1 ORDER BY requested_at], joined with the beneficiary. *)
Definition list_batch_payouts (batch_id : Z) (db : payout_db L) : list payout :=
  order_by (λ p, t_requested_at (terms p)) (filter (λ p, po_batch (life p) = Some batch_id) (payouts db)).

Definition batch_members (batch_id : Z) (db : payout_db L) : list (payout * beneficiary) :=
  omap (λ p, b ← find_row (t_beneficiary (terms p)) (beneficiaries db); Some (p, b)) (list_batch_payouts batch_id db).

Definition in_batch (batch_id : Z) (p : payout) : bool :=
  bool_decide (po_batch (life p) = Some batch_id) && bool_decide (status_of p = Queued).

Definition file_payout (p : payout) : payout := {| po_id := po_id p; terms := terms p; life := file_life (life p) |}.

Definition file_formats : list string := ["neft_csv"; "imps_csv"; "upi_csv"]%string.

(** The batch, the file's text and its number of rows. *)
Definition generate_batch_file (s : stamp) (batch_id : Z) (actor file_format : string) (db : payout_db L)
    : res (payout_db L * (batch * string * Z)) :=
  _ ← raise_if (negb (str_mem file_format file_formats)) (ValidationError "unknown file_format");
  match find_row batch_id (batches db) with
  | None => Err (NotFoundError "payout_batch")
  | Some b =>
      _ ← raise_if (negb (bool_decide (ba_status b ∈ [BOpen; BFileGenerated]))) (ValidationError "cannot regenerate");
      let members := batch_members batch_id db in
      let b' := {| ba_id := ba_id b; ba_reference := ba_reference b; ba_status := BFileGenerated;
                   ba_total := ba_total b; ba_count := ba_count b; ba_currency := ba_currency b;
                   ba_file := Some (file_format, now s); ba_notes := ba_notes b; ba_created_by := ba_created_by b;
                   ba_created_at := ba_created_at b |} in
      Ok ({| beneficiaries := beneficiaries db;
             payouts := map (λ p, if in_batch batch_id p then file_payout p else p) (payouts db);
             events := events db ++ map (λ m, payout_event m.1 EFileGenerated (Some Queued) InFile actor true None)
                         (filter (λ m, status_of m.1 = Queued) members);
             batches := <[Z.to_nat (batch_id - 1) := b']> (batches db); payout_seqs := payout_seqs db;
             batch_seqs := batch_seqs db; ledger_of := ledger_of db |},
          (b', batch_csv file_format members, Z.of_nat (length members)))
  end.

Definition get_batch (batch_id : Z) (db : payout_db L) : res batch :=
  match find_row batch_id (batches db) with Some b => Ok b | None => Err (NotFoundError "payout_batch") end.

Definition list_events (id : Z) (db : payout_db L) : list event := filter (λ e, ev_payout e = id) (events db).

(** Count and total of a merchant's payouts by status. *)
Definition status_total (merchant : option string) (s : payout_status) (db : payout_db L) : Z * Z :=
  let rows := filter (λ p, status_of p = s ∧ visible merchant (t_merchant (terms p)) = true) (payouts db) in
  (Z.of_nat (length rows), zsum (map (λ p, t_amount (terms p)) rows)).
End Requests.

(** ** The audit trail *)

(** The module's state machine; [failed -> failed] is the event of a reversal. *)
Definition payout_next (s : payout_status) : list payout_status :=
  match s with
  | Requested => [Approved; PRejected; PCancelled]
  | Approved => [Queued; PRejected]
  | Queued => [InFile; PFailed]
  | InFile => [SentToBank; PFailed]
  | SentToBank => [PCompleted; PFailed]
  | PFailed => [PFailed]
  | Draft | PRejected | PCancelled | PCompleted => []
  end.

(** Events that lead from one status to another along the machine. *)
Fixpoint path (a : payout_status) (l : list event) (b : payout_status) : Prop :=
  match l with
  | [] => a = b
  | e :: l' => ev_from e = Some a ∧ ev_to e ∈ payout_next a ∧ path (ev_to e) l' b
  end.

Lemma path_app a l k b c : path a l b → path b k c → path a (l ++ k) c.
Proof. revert a. induction l as [|e l IH]; intros a; cbn; [by intros ->|]. naive_solver. Qed.

Definition trail (id : Z) (l : list event) : list event := filter (λ e, ev_payout e = id) l.

Lemma trail_app id l k : trail id (l ++ k) = trail id l ++ trail id k.
Proof. apply filter_app. Qed.

Lemma trail_all id l : Forall (λ e, ev_payout e = id) l → trail id l = l.
Proof. apply filter_all. Qed.

Lemma trail_none id l : Forall (λ e, ev_payout e ≠ id) l → trail id l = [].
Proof. intros. by apply filter_none. Qed.

Record sound {L} (db : payout_db L) : Prop := {
  so_ids : ∀ i p, payouts db !! i = Some p → po_id p = Z.of_nat i + 1;
  so_amounts : Forall (λ p, 0 < t_amount (terms p)) (payouts db);
  so_beneficiaries : Forall (λ p, is_Some (find_row (t_beneficiary (terms p)) (beneficiaries db))) (payouts db);
  so_events : Forall (λ e, 1 <= ev_payout e <= Z.of_nat (length (payouts db))) (events db);
  so_trails : Forall (λ p, ∃ e l, trail (po_id p) (events db) = e :: l ∧ ev_from e = None ∧ ev_to e = Requested ∧
                path Requested l (status_of p)) (payouts db);
}.

(** Existing rows move along the machine, each move with its event. *)
Record advances {L} (db db' : payout_db L) : Prop := {
  adv_length : length (payouts db') = length (payouts db);
  adv_beneficiaries : (length (beneficiaries db) <= length (beneficiaries db'))%nat;
  adv_rows : ∀ i p, payouts db !! i = Some p → ∃ p', payouts db' !! i = Some p' ∧
    po_id p' = po_id p ∧ terms p' = terms p ∧
    ∃ evs, trail (po_id p) (events db') = trail (po_id p) (events db) ++ evs ∧ path (status_of p) evs (status_of p');
  adv_events : Forall (λ e, 1 <= ev_payout e <= Z.of_nat (length (payouts db))) (events db');
}.

Lemma find_row_mono {A} id (l k : list A) :
  (length l <= length k)%nat → is_Some (find_row id l) → is_Some (find_row id k).
Proof.
  unfold find_row. destruct (id <=? 0); [by intros _ [? ?]|]. intros Hle [x Hx].
  apply lookup_lt_is_Some. apply lookup_lt_Some in Hx. lia.
Qed.

Lemma find_row_Some {A} id (l : list A) x : find_row id l = Some x → 0 < id ∧ l !! Z.to_nat (id - 1) = Some x.
Proof. unfold find_row. destruct (Z.leb_spec id 0); [done|]. by split. Qed.

Lemma advances_sound {L} (db db' : payout_db L) : sound db → advances db db' → sound db'.
Proof.
  intros [H1 H2 H3 H4 H5] [A1 A2 A3 A4].
  assert (∀ i p', payouts db' !! i = Some p' → ∃ p, payouts db !! i = Some p ∧ po_id p' = po_id p ∧ terms p' = terms p ∧
    ∃ evs, trail (po_id p) (events db') = trail (po_id p) (events db) ++ evs ∧ path (status_of p) evs (status_of p')) as Hback.
  { intros i p' Hp'. destruct (lookup_lt_is_Some_2 (payouts db) i) as [p Hp]; [rewrite <-A1; by eapply lookup_lt_Some|].
    destruct (A3 i p Hp) as (p2 & Hp2 & Hrest). rewrite Hp2 in Hp'. injection Hp' as <-. by exists p. }
  split.
  - intros i p' (p & Hp & -> & _)%Hback. by apply H1.
  - apply Forall_lookup. intros i p' (p & Hp & _ & -> & _)%Hback. by apply (proj1 (Forall_lookup _ _) H2 i p).
  - apply Forall_lookup. intros i p' (p & Hp & _ & -> & _)%Hback. eapply find_row_mono; [exact A2|].
    by apply (proj1 (Forall_lookup _ _) H3 i p).
  - by rewrite A1.
  - apply Forall_lookup. intros i p' (p & Hp & -> & _ & evs & -> & Hpath)%Hback.
    destruct (proj1 (Forall_lookup _ _) H5 i p Hp) as (e & l & -> & Hf & Ht & Hl).
    exists e, (l ++ evs). do 3 (split; [done|]). by eapply path_app.
Qed.

Section Advances.
Context {L : Type} (db : payout_db L) (Hs : sound db).

Lemma same_advances (db' : payout_db L) :
  payouts db' = payouts db → events db' = events db → (length (beneficiaries db) <= length (beneficiaries db'))%nat →
  advances db db'.
Proof using Hs.
  intros Hp He Hb. split; rewrite ?Hp, ?He; [done|done| |apply Hs].
  intros i p Hi. exists p. do 3 (split; [done|]). exists []. by rewrite app_nil_r.
Qed.

Lemma find_payout_Some id m p :
  find_payout id m db = Ok p → po_id p = id ∧ payouts db !! Z.to_nat (id - 1) = Some p ∧ visible m (t_merchant (terms p)) = true.
Proof using Hs.
  unfold find_payout. destruct (find_row id (payouts db)) as [q|] eqn:Hf; [|done].
  destruct (visible m _) eqn:Hv; [|done]. intros [= ->]. apply find_row_Some in Hf as [Hpos Hi].
  split; [|done]. pose proof (so_ids _ Hs _ _ Hi). lia.
Qed.

Lemma update_advances id m p l evs ml :
  find_payout id m db = Ok p → Forall (λ e, ev_payout e = po_id p) evs → path (status_of p) evs (po_status l) →
  advances db (update_payout p l evs ml db).1.
Proof using Hs.
  intros (Hid & Hi & _)%find_payout_Some Hevs Hpath. rewrite <-Hid in Hi.
  pose proof (so_ids _ Hs _ _ Hi) as Hn.
  split; cbn [update_payout fst payouts events beneficiaries with_payouts].
  - apply length_insert.
  - done.
  - intros j q Hj. rewrite trail_app. destruct (decide (Z.to_nat (po_id p - 1) = j)) as [<-|Hne].
    + rewrite Hi in Hj. injection Hj as <-. rewrite list_lookup_insert_eq by (by eapply lookup_lt_Some).
      eexists. do 3 (split; [done|]). exists evs. rewrite (trail_all _ evs) by done. by split.
    + exists q. rewrite list_lookup_insert_ne by done. do 3 (split; [done|]). exists [].
      rewrite (trail_none _ evs); [done|]. eapply Forall_impl; [exact Hevs|]. cbn. intros e ->.
      pose proof (so_ids _ Hs _ _ Hj). lia.
  - apply Forall_app_2; [apply Hs|]. eapply Forall_impl; [exact Hevs|]. cbn. intros e ->.
    apply lookup_lt_Some in Hi. lia.
Qed.

(** Rows selected in bulk, each with one event. *)
Lemma bulk_advances (sel : payout → bool) (f : payout → payout) (ev : payout → event) (rows : list payout) (db' : payout_db L) to_ :
  payouts db' = map (λ p, if sel p then f p else p) (payouts db) →
  events db' = events db ++ map ev rows → beneficiaries db' = beneficiaries db →
  NoDup (map po_id rows) → (∀ p, p ∈ rows → p ∈ payouts db) →
  (∀ p, p ∈ payouts db → sel p = true ↔ p ∈ rows) →
  (∀ p, ev_payout (ev p) = po_id p ∧ po_id (f p) = po_id p ∧ terms (f p) = terms p) →
  (∀ p, p ∈ rows → ev_from (ev p) = Some (status_of p) ∧ ev_to (ev p) = to_ ∧
     to_ ∈ payout_next (status_of p) ∧ status_of (f p) = to_) →
  advances db db'.
Proof using Hs.
  intros Hp He Hb Hnd Hsub Hsel Hids Hev.
  assert (∀ p, p ∈ payouts db → trail (po_id p) (map ev rows) = if sel p then [ev p] else []) as Htrail.
  { intros p Hin. specialize (Hsel p Hin). 
    assert (∀ q, q ∈ rows → po_id q = po_id p → q = p) as Huniq.
    { intros q Hq Heq. apply Hsub in Hq. apply list_elem_of_lookup in Hin as [i Hi], Hq as [j Hj].
      pose proof (so_ids _ Hs _ _ Hi). pose proof (so_ids _ Hs _ _ Hj). replace j with i in Hj by lia. congruence. }
    clear -Hsel Hnd Huniq Hids. unfold trail. destruct (sel p).
    - assert (p ∈ rows) as Hin by (by apply Hsel). clear Hsel.
      apply list_elem_of_split in Hin as (l1 & l2 & ->). rewrite !map_app in *. cbn [map] in *.
      rewrite filter_app, filter_cons_True by (apply Hids).
      apply NoDup_app in Hnd as (_ & Hd & [Hn2 _]%NoDup_cons).
      rewrite !filter_none; [done|..]; apply Forall_map, Forall_forall; intros q Hq; cbn; rewrite (proj1 (Hids q)); intros Heq.
      + apply Hn2. rewrite <-Heq. by apply list_elem_of_fmap_2.
      + apply (Hd (po_id q)); [by apply list_elem_of_fmap_2|]. rewrite Heq. by left.
    - apply filter_none, Forall_map, Forall_forall. intros q Hq. cbn. rewrite (proj1 (Hids q)). intros Heq.
      rewrite (Huniq q Hq Heq) in Hq. apply Hsel in Hq. done. }
  split.
  - by rewrite Hp, length_map.
  - by rewrite Hb.
  - intros i p Hi. pose proof (list_elem_of_lookup_2 _ _ _ Hi) as Hin.
    exists (if sel p then f p else p). rewrite Hp, He, trail_app, (Htrail p Hin), list_lookup_fmap, Hi.
    destruct (sel p) eqn:E; cbn.
    + split; [by rewrite E|]. do 2 (split; [apply Hids|]). exists [ev p]. split; [done|].
      cbn [path]. destruct (Hev p) as (-> & -> & Hn & ->); [by apply Hsel|]. by repeat split.
    + split; [by rewrite E|]. do 2 (split; [done|]). by exists [].
  - rewrite He. apply Forall_app_2; [apply Hs|]. apply Forall_map, Forall_forall. intros p Hin. cbn.
    rewrite (proj1 (Hids p)). apply Hsub, list_elem_of_lookup in Hin as [i Hi].
    pose proof (so_ids _ Hs _ _ Hi). apply lookup_lt_Some in Hi. lia.
Qed.
End Advances.

(** *** Every operation advances the rows *)

Lemma insert_by_perm key p l : insert_by key p l ≡ₚ p :: l.
Proof. induction l as [|q l IH]; [done|]. cbn. case_match; [done|]. rewrite IH. apply Permutation_swap. Qed.

Lemma order_by_perm key l : order_by key l ≡ₚ l.
Proof. induction l as [|p l IH]; [done|]. cbn. by rewrite insert_by_perm, IH. Qed.

Lemma ids_nodup {L} (db : payout_db L) : sound db → NoDup (map po_id (payouts db)).
Proof.
  intros Hs. apply NoDup_alt. intros i j x Hi Hj. rewrite list_lookup_fmap in Hi, Hj.
  destruct (payouts db !! i) as [p|] eqn:Ei; [|done]. destruct (payouts db !! j) as [q|] eqn:Ej; [|done].
  injection Hi as <-. injection Hj as Hq. pose proof (so_ids _ Hs _ _ Ei). pose proof (so_ids _ Hs _ _ Ej). lia.
Qed.

(** Rows picked from the table, in any order. *)
Definition picked {L} (db : payout_db L) (rows : list payout) : Prop :=
  NoDup (map po_id rows) ∧ ∀ p, p ∈ rows → p ∈ payouts db.

Lemma picked_filter {L} (db : payout_db L) P `{∀ p, Decision (P p)} : sound db → picked db (filter P (payouts db)).
Proof.
  intros Hs. split; [|by intros p [_ ?]%list_elem_of_filter]. pose proof (ids_nodup db Hs) as Hnd. revert Hnd.
  generalize (payouts db). clear. intros l. induction l as [|p l IH]; [done|]. intros [Hp Hl]%NoDup_cons.
  rewrite filter_cons. case_decide; [|by apply IH]. apply NoDup_cons. split; [|by apply IH].
  intros (q & Hq & [_ Hin]%list_elem_of_filter)%list_elem_of_fmap. apply Hp. rewrite Hq. by apply list_elem_of_fmap_2.
Qed.

Lemma picked_perm {L} (db : payout_db L) rows rows' : rows' ≡ₚ rows → picked db rows → picked db rows'.
Proof.
  intros Hp [Hnd Hsub]. split; [|by intros p; rewrite Hp; apply Hsub]. by rewrite Hp.
Qed.

Lemma in_rows_picked {L} (db : payout_db L) rows p :
  sound db → picked db rows → p ∈ payouts db → in_rows rows p = true ↔ p ∈ rows.
Proof.
  intros Hs [Hnd Hsub] Hin. unfold in_rows. rewrite bool_decide_eq_true. split; [|intros; by apply list_elem_of_fmap_2].
  intros (q & Hq & Hqin)%list_elem_of_fmap. pose proof (Hsub q Hqin) as Hq2.
  apply list_elem_of_lookup in Hin as [i Hi], Hq2 as [j Hj].
  pose proof (so_ids _ Hs _ _ Hi). pose proof (so_ids _ Hs _ _ Hj). replace j with i in Hj by lia. congruence.
Qed.

Section Operations.
Context {L : Type} `{LedgerApi L} (db : payout_db L) (Hs : sound db).

Lemma batch_rows_picked merchant ids currency rows :
  batch_rows merchant ids currency db = Ok rows → picked db rows ∧ Forall (λ p, status_of p = Approved) rows.
Proof using Hs.
  unfold batch_rows. destruct ids as [|id ids].
  - intros [= <-]. split; [eapply picked_perm; [apply order_by_perm|by apply picked_filter]|].
    rewrite order_by_perm. apply Forall_forall. intros p [Hp _]%list_elem_of_filter.
    do 3 apply andb_prop in Hp as [Hp _]. by apply bool_decide_eq_true in Hp.
  - intros E. apply res_bind_Ok in E as ([] & _ & E). apply res_bind_Ok in E as ([] & Ha & E).
    apply res_bind_Ok in E as ([] & _ & E). injection E as <-. apply raise_if_Ok, bool_decide_eq_false in Ha.
    split; [by apply picked_filter|]. apply Forall_forall. intros p Hp. destruct (decide (status_of p = Approved)); [done|].
    exfalso. apply Ha, Exists_exists. by exists p.
Qed.

Lemma create_batch_advances s actor merchant ids currency notes db' b :
  create_batch s actor merchant ids currency notes db = Ok (db', b) → advances db db'.
Proof using Hs.
  unfold create_batch. intros E. apply res_bind_Ok in E as (rows & Hrows & E).
  apply res_bind_Ok in E as ([] & _ & E). apply res_bind_Ok in E as (total & _ & E).
  apply res_bind_Ok in E as ([] & _ & E). injection E as <- _.
  apply batch_rows_picked in Hrows as [Hpick Hst]. pose proof Hpick as [Hnd Hsub].
  eapply (bulk_advances db Hs (in_rows rows) (queue_payout _)
    (λ p, payout_event p EBatched (Some Approved) Queued actor true None) rows _ Queued); try done.
  - intros p Hp. by apply (in_rows_picked db).
  - intros p Hp. rewrite (proj1 (Forall_forall _ _) Hst p Hp). set_solver.
Qed.

Lemma members_queued batch_id :
  map fst (filter (λ m, status_of m.1 = Queued) (batch_members batch_id db))
  = filter (λ p, status_of p = Queued) (list_batch_payouts batch_id db).
Proof using Hs.
  unfold batch_members.
  assert (Forall (λ p, is_Some (find_row (t_beneficiary (terms p)) (beneficiaries db))) (list_batch_payouts batch_id db)) as Hfk.
  { unfold list_batch_payouts. rewrite order_by_perm. apply Forall_forall. intros p [_ Hp]%list_elem_of_filter.
    by apply (proj1 (Forall_forall _ _) (so_beneficiaries _ Hs)). }
  revert Hfk. generalize (list_batch_payouts batch_id db). induction 1 as [|p l [b Hb] _ IH]; [done|].
  cbn [omap list_omap]. rewrite Hb. cbn [mbind option_bind]. rewrite !filter_cons. cbn [fst]. case_decide; cbn [map fst]; by rewrite IH.
Qed.

Lemma generate_advances s batch_id actor fmt db' r :
  generate_batch_file s batch_id actor fmt db = Ok (db', r) → advances db db'.
Proof using Hs.
  unfold generate_batch_file. intros E. apply res_bind_Ok in E as ([] & _ & E).
  destruct (find_row batch_id (batches db)) as [b|]; [|done]. apply res_bind_Ok in E as ([] & _ & E). injection E as <- _.
  set (rows := filter (λ p, status_of p = Queued) (list_batch_payouts batch_id db)).
  assert (rows ≡ₚ filter (λ p, status_of p = Queued) (filter (λ p, po_batch (life p) = Some batch_id) (payouts db))) as Hperm.
  { unfold rows, list_batch_payouts. by rewrite order_by_perm. }
  rewrite list_filter_filter in Hperm.
  assert (picked db rows) as [Hnd Hsub] by (eapply picked_perm; [exact Hperm|by apply picked_filter]).
  eapply (bulk_advances db Hs (in_batch batch_id) file_payout
    (λ p, payout_event p EFileGenerated (Some Queued) InFile actor true None) rows _ InFile); try done.
  - cbn. f_equal. rewrite <-(map_map fst (λ p, payout_event p EFileGenerated (Some Queued) InFile actor true None)).
    by rewrite members_queued.
  - intros p Hp. rewrite Hperm, list_elem_of_filter. unfold in_batch.
    rewrite andb_true_iff, !bool_decide_eq_true. naive_solver.
  - intros p. rewrite Hperm, list_elem_of_filter. intros [[-> _] _]. set_solver.
Qed.
End Operations.

(** One call of the service, or activity of other services on the ledger. *)
Inductive payout_op {L} `{LedgerApi L} (db : payout_db L) : payout_db L → Prop :=
  | OpBeneficiary rq db' b : create_beneficiary rq db = Ok (db', b) → payout_op db db'
  | OpDeactivate id m db' b : deactivate_beneficiary id m db = Ok (db', b) → payout_op db db'
  | OpVerify s id who db' b : verify_beneficiary s id who db = Ok (db', b) → payout_op db db'
  | OpRequest s rq db' p : request_payout s rq db = Ok (db', p) → payout_op db db'
  | OpCancel s id m who notes db' p : cancel_payout s id m who notes db = Ok (db', p) → payout_op db db'
  | OpApprove s id who notes db' p : approve_payout s id who notes db = Ok (db', p) → payout_op db db'
  | OpReject s id who reason notes db' p : reject_payout s id who reason notes db = Ok (db', p) → payout_op db db'
  | OpBatch s who m ids c notes db' b : create_batch s who m ids c notes db = Ok (db', b) → payout_op db db'
  | OpFile s id who fmt db' r : generate_batch_file s id who fmt db = Ok (db', r) → payout_op db db'
  | OpSent s id who utr bank notes db' p : mark_sent s id who utr bank notes db = Ok (db', p) → payout_op db db'
  | OpCompleted s id who utr notes db' p : mark_completed s id who utr notes db = Ok (db', p) → payout_op db db'
  | OpFailed s id who reason notes db' p : mark_failed s id who reason notes db = Ok (db', p) → payout_op db db'
  | OpLedger ml : payout_op db (with_payouts (payouts db) (events db) ml db).

Section Soundness.
Context {L : Type} `{LedgerApi L} (db : payout_db L) (Hs : sound db).

Lemma with_beneficiaries_advances l :
  (length (beneficiaries db) <= length l)%nat → advances db (with_beneficiaries l db).
Proof using Hs. intros. by apply same_advances. Qed.

Lemma change_beneficiary_advances id m f db' b : change_beneficiary id m f db = Ok (db', b) → advances db db'.
Proof using Hs.
  unfold change_beneficiary. destruct (find_row id (beneficiaries db)); [|done]. destruct (visible _ _); [|done].
  intros [= <- _]. apply with_beneficiaries_advances. by rewrite length_insert.
Qed.

Lemma create_beneficiary_advances rq db' b : create_beneficiary rq db = Ok (db', b) → advances db db'.
Proof using Hs.
  unfold create_beneficiary. destruct (parse_beneficiary_type _) as [type|]; [|done]. intros E.
  apply res_bind_Ok in E as ([] & _ & E). apply res_bind_Ok in E as ([[[a i] l4] u] & _ & E).
  destruct (find _ _); injection E as <- _; apply with_beneficiaries_advances; rewrite ?length_map, ?length_app; lia.
Qed.

(** A request replays an earlier payout or appends one. *)
Lemma request_check_beneficiary rq d :
  request_check rq db = Ok d → is_Some (find_row (pq_beneficiary rq) (beneficiaries db)).
Proof using Type.
  unfold request_check. intros E. apply res_bind_Ok in E as ([] & _ & E).
  destruct (parse_decimal _) as [amt|]; [|done]. apply res_bind_Ok in E as ([] & _ & E).
  by destruct (find_row (pq_beneficiary rq) (beneficiaries db)).
Qed.

Lemma request_insert_effect s rq amt db' p :
  request_insert s rq amt db = Ok (db', p) →
  payouts db' = payouts db ++ [p] ∧
  events db' = events db ++ [payout_event p ECreated None Requested (pq_requested_by rq) false (pq_notes rq)] ∧
  beneficiaries db' = beneficiaries db ∧ ledger_of db' = ledger_of db ∧
  po_id p = Z.of_nat (length (payouts db)) + 1 ∧ status_of p = Requested ∧
  0 < t_amount (terms p) ∧ t_amount (terms p) = ticks amt ∧ t_beneficiary (terms p) = pq_beneficiary rq ∧
  t_merchant (terms p) = pq_merchant rq ∧ t_currency (terms p) = upper (pq_currency rq).
Proof using Type.
  unfold request_insert, fn_next_payout_reference. intros E. apply res_bind_Ok in E as (n & Hn & E).
  apply res_bind_Ok in E as ([] & Hpos & E). apply res_bind_Ok in E as ([] & _ & E).
  apply res_bind_Ok in E as ([] & _ & E). apply res_bind_Ok in E as ([] & _ & E).
  apply numeric_Ok in Hn as [-> _]. apply raise_if_Ok, negb_false_iff, Z.ltb_lt in Hpos.
  injection E as <- <-. by repeat split.
Qed.

Lemma insert_sound rq p (db' : payout_db L) who notes :
  payouts db' = payouts db ++ [p] → events db' = events db ++ [payout_event p ECreated None Requested who false notes] →
  beneficiaries db' = beneficiaries db → po_id p = Z.of_nat (length (payouts db)) + 1 → status_of p = Requested →
  0 < t_amount (terms p) → t_beneficiary (terms p) = pq_beneficiary rq →
  is_Some (find_row (pq_beneficiary rq) (beneficiaries db)) → sound db'.
Proof using Hs.
  destruct Hs as [H1 H2 H3 H4 H5]. intros Hp He Hb Hid Hst Ha Hben Hfk. split; rewrite ?Hp, ?He, ?Hb.
  - intros i q [Hi|[Hi Hq]]%lookup_app_Some; [by apply H1|].
    apply list_lookup_singleton_Some in Hq as [Hq <-]. lia.
  - apply Forall_app_2; [done|]. by constructor.
  - apply Forall_app_2; [done|]. rewrite <-Hben in Hfk. by constructor.
  - rewrite length_app. cbn. apply Forall_app_2; [eapply Forall_impl; [exact H4|cbn; lia]|].
    constructor; [cbn; lia|done].
  - assert (trail (po_id p) (events db) = []) as Hnone.
    { apply trail_none. eapply Forall_impl; [exact H4|]. cbn. lia. }
    apply Forall_app_2; [|constructor; [|done]].
    + apply Forall_lookup. intros i q Hq. destruct (proj1 (Forall_lookup _ _) H5 i q Hq) as (e & l & Ht & Hrest).
      exists e, l. rewrite trail_app, Ht, (trail_none (po_id q) [_]); [by rewrite app_nil_r|].
      constructor; [|done]. cbn. pose proof (H1 i q Hq). apply lookup_lt_Some in Hq. lia.
    + eexists _, []. rewrite trail_app, Hnone, (trail_all (po_id p) [_]) by (by constructor). by rewrite Hst.
Qed.

Lemma op_sound (db' : payout_db L) : payout_op db db' → sound db'.
Proof using Hs.
  assert (∀ x, advances db x → sound x) as Hadv by (intros; by eapply advances_sound).
  assert (∀ allowed msg p u, in_status allowed msg p = Ok u → status_of p ∈ allowed) as Hst.
  { intros allowed msg p u E. by apply raise_if_Ok, negb_false_iff, bool_decide_eq_true in E. }
  intros [rq db1 b E|id m db1 b E|s id who db1 b E|s rq db1 p E|s id m who notes db1 p E|s id who notes db1 p E
         |s id who reason notes db1 p E|s who m ids c notes db1 b E|s id who fmt db1 r E|s id who utr bank notes db1 p E
         |s id who utr notes db1 p E|s id who reason notes db1 p E|ml].
  - apply Hadv. by eapply create_beneficiary_advances.
  - apply Hadv. by eapply change_beneficiary_advances.
  - apply Hadv. by eapply change_beneficiary_advances.
  - unfold request_payout in E. apply res_bind_Ok in E as ([q|amt] & Hc & E); [by injection E as <- _|].
    apply request_check_beneficiary in Hc.
    apply request_insert_effect in E as (E1 & E2 & E3 & _ & E4 & E5 & E6 & _ & E7 & _). by eapply insert_sound.
  - apply Hadv. unfold cancel_payout in E. apply res_bind_Ok in E as (p0 & Hf & E).
    apply res_bind_Ok in E as ([] & Hin%Hst & [= <- _]). apply list_elem_of_singleton in Hin.
    eapply update_advances; [done|done|by constructor|]. rewrite Hin. cbn. set_solver.
  - apply Hadv. unfold approve_payout in E. apply res_bind_Ok in E as (p0 & Hf & E).
    apply res_bind_Ok in E as ([] & Hin%Hst & [= <- _]). apply list_elem_of_singleton in Hin.
    eapply update_advances; [done|done|by constructor|]. rewrite Hin. cbn. set_solver.
  - apply Hadv. unfold reject_payout in E. apply res_bind_Ok in E as ([] & _ & E).
    apply res_bind_Ok in E as (p0 & Hf & E). apply res_bind_Ok in E as ([] & Hin%Hst & [= <- _]).
    eapply update_advances; [done|done|by constructor|]. cbn. split; [done|]. split; [|done].
    destruct (status_of p0); set_solver.
  - apply Hadv. by eapply create_batch_advances.
  - apply Hadv. by eapply generate_advances.
  - apply Hadv. unfold mark_sent in E. apply res_bind_Ok in E as (p0 & Hf & E).
    apply res_bind_Ok in E as ([] & Hin%Hst & E). apply res_bind_Ok in E as (posted & _ & [= <- _]).
    apply list_elem_of_singleton in Hin.
    eapply update_advances; [done|done|by constructor|]. rewrite Hin. cbn. set_solver.
  - apply Hadv. unfold mark_completed, complete_read, complete_write in E. apply res_bind_Ok in E as (q & Hq & E).
    apply res_bind_Ok in Hq as (p0 & Hf & Hq). apply res_bind_Ok in Hq as ([] & Hin%Hst & _).
    rewrite Hf, bind_Ok in E. injection E as <- _. apply list_elem_of_singleton in Hin.
    eapply update_advances; [done|done|by constructor|]. rewrite Hin. cbn. set_solver.
  - apply Hadv. unfold mark_failed in E. apply res_bind_Ok in E as ([] & _ & E).
    apply res_bind_Ok in E as (p0 & Hf & E). apply res_bind_Ok in E as ([] & Hin%Hst & E).
    apply res_bind_Ok in E as ([ml rev] & _ & [= <- _]).
    eapply update_advances; [done|done| |].
    + constructor; [done|]. cbn. by destruct rev; repeat constructor.
    + cbn. split; [done|]. split; [destruct (status_of p0); set_solver|].
      destruct rev; cbn; [|done]. split; [done|]. split; [set_solver|done].
  - apply Hadv, same_advances; done.
Qed.
End Soundness.

Definition no_payouts {L} (db : payout_db L) : Prop := payouts db = [] ∧ events db = [].

Lemma no_payouts_sound {L} (db : payout_db L) : no_payouts db → sound db.
Proof. intros [Hp He]. by split; rewrite ?Hp, ?He. Qed.

Lemma ops_sound {L} `{LedgerApi L} (db db' : payout_db L) : sound db → rtc payout_op db db' → sound db'.
Proof. intros Hs. induction 1 as [|x y z Hxy _ IH]; [done|]. apply IH. by eapply op_sound. Qed.

(** The audit trail of every payout is complete: after any sequence of calls
    its events start with its creation and lead, one allowed step of the machine
    at a time and without a gap, to the status the row has now. *)
Theorem trail_explains_status {L} `{LedgerApi L} (db0 db : payout_db L) i p :
  no_payouts db0 → rtc payout_op db0 db → payouts db !! i = Some p →
  ∃ e l, list_events (po_id p) db = e :: l ∧ ev_from e = None ∧ ev_to e = Requested ∧ path Requested l (status_of p).
Proof.
  intros H0 Hr Hi. pose proof (ops_sound _ _ (no_payouts_sound _ H0) Hr) as Hs.
  exact (proj1 (Forall_lookup _ _) (so_trails _ Hs) i p Hi).
Qed.

(** ** The money *)

(** The available balance, as an integer. *)
Definition available {L} `{LedgerApi L} (db : payout_db L) (m c : string) : Z :=
  api_balance (ledger_of db) m c - locked (payouts db) m c.

Definition is_account (p : payout) (m c : string) : bool :=
  bool_decide (t_merchant (terms p) = m) && bool_decide (t_currency (terms p) = c).

Lemma locked_update l i p p' m c :
  l !! i = Some p → terms p' = terms p →
  locked (<[i := p']> l) m c
  = locked l m c + (if is_account p m c
                    then (if pending (status_of p') then t_amount (terms p) else 0)
                         - (if pending (status_of p) then t_amount (terms p) else 0) else 0).
Proof.
  intros Hi Ht. unfold locked. rewrite (sum_where_insert _ _ l i p p' Hi). unfold in_flight, is_account. rewrite Ht.
  destruct (bool_decide _), (bool_decide _), (pending (status_of p)), (pending (status_of p')); cbn; lia.
Qed.

(** A request that is granted earmarks its amount: the merchant's available
    balance in that currency goes down by exactly the stored amount and stays
    non-negative, no other account changes and nothing is posted; a request
    under a used key returns the earlier payout and changes nothing. *)
Theorem request_reserves {L} `{LedgerApi L} s rq (db db' : payout_db L) p :
  request_payout s rq db = Ok (db', p) →
  (db' = db ∧ p ∈ payouts db ∧ t_idempotency_key (terms p) = pq_idempotency_key rq ∧ t_merchant (terms p) = pq_merchant rq) ∨
  (payouts db' = payouts db ++ [p] ∧ ledger_of db' = ledger_of db ∧
   0 < t_amount (terms p) ∧ 0 <= available db' (pq_merchant rq) (upper (pq_currency rq)) ∧
   ∀ m c, available db' m c = available db m c
     - (if bool_decide (pq_merchant rq = m) && bool_decide (upper (pq_currency rq) = c) then t_amount (terms p) else 0)).
Proof.
  unfold request_payout. intros E. apply res_bind_Ok in E as (d & Hc & E).
  unfold request_check in Hc. apply res_bind_Ok in Hc as ([] & _ & Hc).
  destruct (parse_decimal _) as [amt|]; [|done]. apply res_bind_Ok in Hc as ([] & Hpos & Hc).
  destruct (find_row (pq_beneficiary rq) _) as [ben|]; [|done]. do 4 apply res_bind_Ok in Hc as ([] & _ & Hc).
  destruct (if str_truthy _ then _ else None) as [q|] eqn:Hprev.
  { injection Hc as <-. injection E as <- <-. left. split; [done|]. destruct (str_truthy _); [|done].
    apply find_some in Hprev as [Hin Hq]. apply list_elem_of_In in Hin. apply andb_prop in Hq as [H1 H2].
    apply bool_decide_eq_true in H1, H2. done. }
  apply res_bind_Ok in Hc as (avail & Ha & Hc). apply res_bind_Ok in Hc as ([] & Hle & [= <-]). right.
  apply request_insert_effect in E as (Hp & _ & _ & Hml & _ & Hst & Hpos' & Hamt & _ & Hm & Hcur).
  assert (∀ m c, available db' m c = available db m c
    - (if bool_decide (pq_merchant rq = m) && bool_decide (upper (pq_currency rq) = c) then t_amount (terms p) else 0)) as Hav.
  { intros m c. unfold available, locked. rewrite Hp, Hml, sum_where_snoc. unfold in_flight at 2.
    rewrite Hm, Hcur, Hst. cbn [pending]. rewrite andb_true_r. case_match; lia. }
  do 3 (split; [done|]). split; [|done]. rewrite Hav, !bool_decide_eq_true_2 by done. cbn [andb].
  unfold fn_payout_available_balance in Ha. apply res_bind_Ok in Ha as (lk & Hlk & [= <-]).
  apply numeric_Ok in Hlk as [-> _]. rewrite upper_idem in Hle.
  apply raise_if_Ok in Hpos, Hle. apply negb_false_iff in Hpos.
  pose proof (ticks_le amt _ Hpos Hle). unfold available. lia.
Qed.

Section Money.
Context {L : Type} `{LedgerApi L} (db : payout_db L) (Hs : sound db) (id : Z) (p : payout).
Context (Hp : find_payout id None db = Ok p) (Hinr : t_currency (terms p) = "INR"%string).
Context (Hamount : t_amount (terms p) < 10 ^ 18).

Lemma amount_positive : 0 < t_amount (terms p).
Proof using Hs Hp.
  destruct (find_payout_Some db Hs id None p Hp) as (_ & Hi & _).
  by apply (proj1 (Forall_lookup _ _) (so_amounts _ Hs) _ p Hi).
Qed.

Lemma ticks_column n : ticks (Dec n (-4)) = n.
Proof using Type. apply ticks_at_scale. by apply at_scale_Dec. Qed.

Lemma column_value n : 0 < n → decimal_or_zero (PDec (Dec n (-4))) = Ok (Dec n (-4)).
Proof using Type. intros Hn. unfold decimal_or_zero, py_truthy. cbn. by destruct (Z.eqb_spec n 0); [lia|]. Qed.

Lemma debit_posts actor utr bank : posts_sql (payout_debit p actor utr bank) (t_amount (terms p)) 0.
Proof using Hs Hp Hamount.
  pose proof amount_positive. split; [done|]. exists (Dec (t_amount (terms p)) (-4)), d_zero. cbn [p_debit p_credit payout_debit].
  rewrite column_value, ticks_column by done. split; [done|]. split; [done|]. split; [done|]. split; [done|].
  split; [|done]. unfold one_sided. destruct (Z.ltb_spec 0 (t_amount (terms p))); [|lia]. repeat split; lia.
Qed.

Lemma credit_posts actor reason : posts_sql (payout_credit p actor reason) 0 (t_amount (terms p)).
Proof using Hs Hp Hamount.
  pose proof amount_positive. split; [done|]. exists d_zero, (Dec (t_amount (terms p)) (-4)). cbn [p_debit p_credit payout_credit].
  rewrite column_value, ticks_column by done. split; [done|]. split; [done|]. split; [done|]. split; [done|].
  split; [|done]. unfold one_sided. destruct (Z.ltb_spec 0 (t_amount (terms p))); [|lia]. repeat split; lia.
Qed.

(** The updated row is found again. *)
Lemma update_found l evs ml :
  find_payout id None (update_payout p l evs ml db).1 = Ok (update_payout p l evs ml db).2.
Proof using Hs Hp.
  destruct (find_payout_Some db Hs id None p Hp) as (Hid & Hi & _).
  unfold find_payout, update_payout, find_row. cbn [fst snd payouts with_payouts]. rewrite Hid.
  pose proof (so_ids _ Hs _ _ Hi). destruct (Z.leb_spec id 0); [lia|].
  by rewrite list_lookup_insert_eq by (by eapply lookup_lt_Some).
Qed.

Lemma update_available l evs ml m c :
  available (update_payout p l evs ml db).1 m c
  = available db m c + (api_balance ml m c - api_balance (ledger_of db) m c)
    - (if is_account p m c then (if pending (po_status l) then t_amount (terms p) else 0)
                                - (if pending (status_of p) then t_amount (terms p) else 0) else 0).
Proof using Hs Hp.
  destruct (find_payout_Some db Hs id None p Hp) as (Hid & Hi & _).
  unfold available, update_payout. cbn [fst payouts ledger_of with_payouts]. rewrite Hid.
  rewrite (locked_update (payouts db) _ p {| po_id := id; terms := terms p; life := l |} m c Hi eq_refl).
  unfold status_of. cbn [life]. lia.
Qed.
End Money.

Definition payout_keys (p : payout) : list string :=
  [("payout-sent:" ++ t_reference (terms p))%string; ("payout-failed:" ++ t_reference (terms p))%string].

Section Ledger.
Context {L : Type} `{LedgerApi L} (db : payout_db L) (Hs : sound db) (id : Z) (p : payout).
Context (Hp : find_payout id None db = Ok p) (Hinr : t_currency (terms p) = "INR"%string).
Context (Hamount : t_amount (terms p) < 10 ^ 18) (Hwf : api_wf (ledger_of db)).
Let m := t_merchant (terms p).
Let amount := t_amount (terms p).

Lemma mark_sent_spec s actor utr bank notes n total :
  status_of p = InFile → api_posted (ledger_of db) m ("payout-sent:" ++ t_reference (terms p))%string = None →
  0 <= n → 0 <= total → api_room s m "INR" (1 + n) (amount + total) (ledger_of db) →
  ∃ ml e, let l := send_life (now s) utr bank notes (e_id e) (life p) in
    let evs := [payout_event p ESent (Some InFile) SentToBank actor true notes] in
    mark_sent s id actor utr bank notes db = Ok (update_payout p l evs ml db) ∧ api_wf ml ∧
    (∀ m' c, api_balance ml m' c = api_balance (ledger_of db) m' c - (if is_account p m' c then amount else 0)) ∧
    (∀ m' k, k ≠ ("payout-sent:" ++ t_reference (terms p))%string → api_posted ml m' k = api_posted (ledger_of db) m' k) ∧
    api_room s m "INR" n total ml.
Proof using Hs Hp Hinr Hamount Hwf.
  intros Hst Hnew Hn Ht Hroom. pose proof (debit_posts db Hs id p Hp Hamount actor utr bank) as Hposts.
  pose proof (amount_positive db Hs id p Hp) as Hpos.
  assert (posting_currency (payout_debit p actor utr bank) = "INR"%string) as Hcur
    by (unfold posting_currency; cbn [p_currency payout_debit]; by rewrite Hinr).
  destruct (api_post_sql_new s _ _ _ _ n total (ledger_of db) Hwf Hposts eq_refl Hnew Hn Ht)
    as (ml & e & Hpost & Hwf' & _ & Hbal & Hposted & Hroom').
  { rewrite Hcur. cbn [p_merchant payout_debit]. by replace (Z.abs _ + _) with (amount + total) by (unfold amount; lia). }
  rewrite Hcur in Hbal, Hroom'. exists ml, e. split; [|split; [done|split; [|split; [|done]]]].
  - unfold mark_sent. rewrite Hp, bind_Ok. unfold in_status. rewrite Hst. cbn. by rewrite Hpost.
  - intros m' c. rewrite Hbal. unfold is_account. rewrite Hinr. cbn [p_merchant payout_debit].
    unfold amount. case_match; lia.
  - intros m' k Hne. rewrite Hposted, decide_False; [done|]. intros [_ ->]. done.
Qed.

Lemma mark_failed_spec s actor reason notes n total :
  status_of p = SentToBank → 3 <= str_len (strip reason) → reason ≠ ""%string →
  api_posted (ledger_of db) m ("payout-failed:" ++ t_reference (terms p))%string = None →
  0 <= n → 0 <= total → api_room s m "INR" (1 + n) (amount + total) (ledger_of db) →
  ∃ ml e evs, let l := fail_life (now s) reason (Some (e_id e)) notes (life p) in
    mark_failed s id actor reason notes db = Ok (update_payout p l evs ml db) ∧
    (∀ m' c, api_balance ml m' c = api_balance (ledger_of db) m' c + (if is_account p m' c then amount else 0)).
Proof using Hs Hp Hinr Hamount Hwf.
  intros Hst Hlen Hne Hnew Hn Ht Hroom. pose proof (credit_posts db Hs id p Hp Hamount actor reason) as Hposts.
  pose proof (amount_positive db Hs id p Hp) as Hpos.
  assert (posting_currency (payout_credit p actor reason) = "INR"%string) as Hcur
    by (unfold posting_currency; cbn [p_currency payout_credit]; by rewrite Hinr).
  destruct (api_post_sql_new s _ _ _ _ n total (ledger_of db) Hwf Hposts eq_refl Hnew Hn Ht)
    as (ml & e & Hpost & _ & _ & Hbal & _ & _).
  { rewrite Hcur. cbn [p_merchant payout_credit]. by replace (Z.abs _ + _) with (amount + total) by (unfold amount; lia). }
  rewrite Hcur in Hbal. eexists ml, e, _. split.
  - unfold mark_failed. rewrite (bool_decide_eq_false_2 _ Hne). destruct (Z.ltb_spec (str_len (strip reason)) 3); [lia|].
    cbn [orb raise_if]. rewrite bind_Ok, Hp, bind_Ok. unfold in_status. rewrite Hst. cbn [negb raise_if].
    rewrite (bool_decide_eq_true_2 (SentToBank ∈ _)) by set_solver. cbn [negb raise_if].
    rewrite bind_Ok, (bool_decide_eq_true_2 (SentToBank = _)) by done.
    rewrite Hpost, !bind_Ok. cbn [fst snd]. reflexivity.
  - intros m' c. rewrite Hbal. unfold is_account. rewrite Hinr. cbn [p_merchant payout_credit].
    unfold amount. case_match; lia.
Qed.
End Ledger.

(** C14: sending a payout posts its amount as a debit once and turns earmarked money
    into posted money, so the available balance does not move; when the bank then
    fails it, the whole amount comes back: every balance is what it was before the
    payout was sent, the amount is available again, and neither step can be
    repeated nor the payout completed any more. *)
Theorem failed_payout_is_restored {L} `{LedgerApi L} s s2 id actor utr bank notes actor2 reason notes2 (db : payout_db L) p :
  sound db → find_payout id None db = Ok p → status_of p = InFile → t_currency (terms p) = "INR"%string →
  t_amount (terms p) < 10 ^ 18 → reason ≠ ""%string → 3 <= str_len (strip reason) → yyyymm s = yyyymm s2 →
  api_wf (ledger_of db) → Forall (λ k, api_posted (ledger_of db) (t_merchant (terms p)) k = None) (payout_keys p) →
  api_room s (t_merchant (terms p)) "INR" 2 (2 * t_amount (terms p)) (ledger_of db) →
  ∃ db1 p1 db2 p2,
    mark_sent s id actor utr bank notes db = Ok (db1, p1) ∧ status_of p1 = SentToBank ∧
    (∀ m c, available db1 m c = available db m c ∧
       api_balance (ledger_of db1) m c
       = api_balance (ledger_of db) m c - (if is_account p m c then t_amount (terms p) else 0)) ∧
    mark_failed s2 id actor2 reason notes2 db1 = Ok (db2, p2) ∧ status_of p2 = PFailed ∧
    (∀ m c, api_balance (ledger_of db2) m c = api_balance (ledger_of db) m c ∧
       available db2 m c = available db m c + (if is_account p m c then t_amount (terms p) else 0)) ∧
    is_ok (mark_sent s2 id actor utr bank notes db2) = false ∧
    is_ok (mark_failed s2 id actor2 reason notes2 db2) = false ∧ is_ok (mark_completed s2 id actor utr notes db2) = false.
Proof.
  intros Hs Hp Hst Hinr Hamount Hne Hlen Hmonth Hwf Hkeys Hroom.
  apply Forall_cons in Hkeys as [Hk1 Hk2]. apply Forall_cons in Hk2 as [Hk2 _].
  pose proof (amount_positive db Hs id p Hp) as Hpos.
  destruct (mark_sent_spec db Hs id p Hp Hinr Hamount Hwf s actor utr bank notes 1 (t_amount (terms p)) Hst Hk1)
    as (ml & e & Hsent & Hwf1 & Hbal & Hposted & Hroom1); [lia|lia| |].
  { by replace (t_amount (terms p) + t_amount (terms p)) with (2 * t_amount (terms p)) by lia. }
  set (l := send_life (now s) utr bank notes (e_id e) (life p)) in *.
  set (evs := [payout_event p ESent (Some InFile) SentToBank actor true notes]) in *.
  set (u := update_payout p l evs ml db) in *.
  assert (sound u.1) as Hs1 by (eapply op_sound; [exact Hs|]; eapply OpSent, Hsent).
  assert (find_payout id None u.1 = Ok u.2) as Hp1 by (by eapply update_found).
  assert (∀ m c, available u.1 m c = available db m c ∧ api_balance (ledger_of u.1) m c
    = api_balance (ledger_of db) m c - (if is_account p m c then t_amount (terms p) else 0)) as Hav1.
  { intros m c. unfold u. rewrite (update_available db Hs id p Hp). split; [|by cbn; rewrite Hbal].
    rewrite Hbal, Hst. cbn. case_match; lia. }
  destruct (mark_failed_spec u.1 Hs1 id u.2 Hp1 Hinr Hamount Hwf1 s2 actor2 reason notes2 0 0 eq_refl Hlen Hne)
    as (ml2 & e2 & evs2 & Hfail & Hbal2); [|lia|lia| |].
  { cbn. rewrite Hposted; [done|]. by intros E. }
  { rewrite !Z.add_0_r. exact (api_room_month s s2 _ _ _ _ _ Hmonth Hroom1). }
  set (l2 := fail_life (now s2) reason (Some (e_id e2)) notes2 (life u.2)) in *.
  set (v := update_payout u.2 l2 evs2 ml2 u.1) in *.
  assert (find_payout id None v.1 = Ok v.2) as Hp2 by (by eapply update_found).
  assert (status_of v.2 = PFailed) as Hst2 by done.
  exists u.1, u.2, v.1, v.2. split; [exact Hsent|]. split; [done|]. split; [exact Hav1|].
  split; [exact Hfail|]. split; [done|]. split.
  - intros m c. destruct (Hav1 m c) as [Ha Hb]. split.
    + cbn. rewrite Hbal2, Hb. change (is_account u.2 m c) with (is_account p m c).
      change (t_amount (terms u.2)) with (t_amount (terms p)). case_match; lia.
    + unfold v. rewrite (update_available u.1 Hs1 id u.2 Hp1), Hbal2, Ha.
      change (is_account u.2 m c) with (is_account p m c). change (t_amount (terms u.2)) with (t_amount (terms p)).
      cbn. case_match; lia.
  - unfold mark_sent, mark_failed, mark_completed, complete_read, in_status.
    split; [by rewrite Hp2|]. split; [|by rewrite Hp2]. destruct (raise_if _ _) as [[]|]; [|done]. by rewrite bind_Ok, Hp2.
Qed.

(** ** Examples *)

Definition demo_beneficiary (id : Z) (merchant : string) : beneficiary := {|
  b_id := id; b_merchant := merchant; b_label := "main"; b_type := BankAccount; b_holder := None;
  b_account := Some "12345678"%string; b_last4 := Some "5678"%string; b_ifsc := Some "ABCD0000001"%string;
  b_bank := None; b_upi := None; b_active := true; b_verified := false; b_verified_by := None; b_metadata := [];
  b_created_by := None |}.

(** Two merchants with an account each; [m1] has 100 rupees, [m2] 100 rupees. *)
Definition demo_payouts : payout_db ledger_db := {|
  beneficiaries := [demo_beneficiary 1 "m1"; demo_beneficiary 2 "m2"]; payouts := []; events := []; batches := [];
  payout_seqs := ∅; batch_seqs := ∅;
  ledger_of := after_post (at_time 11) (demo_posting "m2" "payment_received" 0 10000 "payment_received:p2") ledger1 |}.

Definition demo_payout_request (merchant : string) (ben amount : Z) : payout_request := {|
  pq_merchant := merchant; pq_beneficiary := ben; pq_amount := PInt amount; pq_method := "bank_neft"; pq_currency := "inr";
  pq_branch := None; pq_requested_by := "u1"; pq_notes := None; pq_idempotency_key := None; pq_metadata := [] |}.

Definition after_op {A} (r : res (payout_db ledger_db * A)) (db : payout_db ledger_db) : payout_db ledger_db :=
  match r with Ok (db', _) => db' | Err _ => db end.

Definition requested : payout_db ledger_db :=
  after_op (request_payout (at_time 20) (demo_payout_request "m1" 1 60) demo_payouts) demo_payouts.
Definition approved : payout_db ledger_db := after_op (approve_payout (at_time 21) 1 "admin" None requested) requested.
Definition queued : payout_db ledger_db :=
  after_op (create_batch (at_time 22) "admin" None [] "inr" None approved) approved.
Definition filed : payout_db ledger_db :=
  after_op (generate_batch_file (at_time 23) 1 "admin" "neft_csv" queued) queued.
Definition sent : payout_db ledger_db :=
  after_op (mark_sent (at_time 24) 1 "admin" None None None filed) filed.

(** The references of the month do not name the merchant, so the second merchant
    to request a payout in a month is refused. *)
Example second_merchant_refused :
  is_ok (request_payout (at_time 20) (demo_payout_request "m2" 2 10) demo_payouts) = true ∧
  request_payout (at_time 21) (demo_payout_request "m2" 2 10) requested
  = Err (DatabaseError "duplicate key payout_requests_payout_reference_key").
Proof. split; reflexivity. Qed.

(** The check and the insertion of two requests interleaved: both are granted. *)
Example concurrent_requests_overcommit :
  ∃ d, request_check (demo_payout_request "m1" 1 60) demo_payouts = Ok (Grant d) ∧
  available (after_op (request_insert (at_time 21) (demo_payout_request "m1" 1 60) d requested) requested) "m1" "INR"
  = -200000.
Proof. eexists. split; reflexivity. Qed.

(** [mark_completed] overtaken by [mark_failed]: the money is back and the payout
    says completed. *)
Example completed_after_reversal :
  let failed := after_op (mark_failed (at_time 25) 1 "admin" "bank rejected" None sent) sent in
  let completed := after_op (complete_write (at_time 26) 1 "admin" None None failed) failed in
  is_ok (complete_read 1 sent) = true ∧ map status_of (payouts completed) = [PCompleted] ∧
  api_balance (ledger_of completed) "m1" "INR" = 1000000.
Proof. vm_compute. done. Qed.

(** Replacing the account of a verified beneficiary keeps it verified. *)
Example verified_survives_new_account :
  let verified := after_op (verify_beneficiary (at_time 20) 1 "admin" demo_payouts) demo_payouts in
  let rq := {| br_merchant := "m1"; br_label := Some "main"%string; br_type := "bank"; br_holder := None;
               br_account := Some "99999999"%string; br_ifsc := Some "wxyz0000002"%string; br_bank := None; br_upi := None;
               br_metadata := []; br_created_by := None |} in
  match create_beneficiary rq verified with
  | Ok (_, b) => b_verified b = true ∧ b_account b = Some "99999999"%string
  | Err _ => False
  end.
Proof. vm_compute. done. Qed.

Lemma after_op_ok {A} (r : res (payout_db ledger_db * A)) db :
  is_ok r = true → ∃ x, r = Ok (after_op r db, x).
Proof. destruct r as [[db' x]|e]; [by exists x|done]. Qed.

Lemma demo_requested : rtc payout_op demo_payouts requested.
Proof.
  destruct (after_op_ok (request_payout (at_time 20) (demo_payout_request "m1" 1 60) demo_payouts) demo_payouts) as [p E];
    [by vm_compute|]. eapply rtc_once, OpRequest, E.
Qed.

Lemma demo_filed : rtc payout_op demo_payouts filed.
Proof.
  etrans; [exact demo_requested|].
  destruct (after_op_ok (approve_payout (at_time 21) 1 "admin" None requested) requested) as [p E]; [by vm_compute|].
  eapply rtc_l; [eapply OpApprove, E|].
  destruct (after_op_ok (create_batch (at_time 22) "admin" None [] "inr" None approved) approved) as [b E2]; [by vm_compute|].
  eapply rtc_l; [eapply OpBatch, E2|].
  destruct (after_op_ok (generate_batch_file (at_time 23) 1 "admin" "neft_csv" queued) queued) as [f E3]; [by vm_compute|].
  eapply rtc_once, OpFile, E3.
Qed.

Definition first_payout (db : payout_db ledger_db) : payout :=
  match payouts db with
  | p :: _ => p
  | [] => {| po_id := 0; terms := {| t_reference := ""; t_merchant := ""; t_branch := None; t_beneficiary := 0; t_amount := 0;
                t_currency := ""; t_method := ""; t_requested_by := ""; t_requested_at := 0; t_idempotency_key := None;
                t_metadata := [] |};
             life := {| po_status := Draft; po_approved := None; po_rejected := None; po_cancelled_at := None;
                po_batch := None; po_ledger_entry := None; po_reversal := None; po_utr := None; po_bank_reference := None;
                po_sent_at := None; po_completed_at := None; po_failed := None; po_notes := None |} |}
  end.

Lemma trail_explains_status_witness :
  ∃ e l, list_events 1 filed = e :: l ∧ ev_from e = None ∧ length l = 3%nat ∧ path Requested l InFile.
Proof.
  destruct (trail_explains_status demo_payouts filed 0 (first_payout filed) (conj eq_refl eq_refl) demo_filed)
    as (e & l & H1 & H2 & _ & H3); [by vm_compute|].
  exists e, l. split; [exact H1|]. split; [exact H2|]. split; [|exact H3].
  apply (f_equal length) in H1. change (4 = S (length l))%nat in H1. congruence.
Defined.

Lemma request_reserves_witness : available requested "m1" "INR" = 400000.
Proof.
  destruct (after_op_ok (request_payout (at_time 20) (demo_payout_request "m1" 1 60) demo_payouts) demo_payouts) as [p E];
    [by vm_compute|].
  destruct (request_reserves _ _ _ _ _ E) as [(_ & Hin & _)|(_ & _ & _ & _ & H)].
  - by apply elem_of_nil in Hin.
  - pose proof (H "m1" "INR")%string as H1. 
    pose proof (f_equal (λ r, match r with Ok (_, q) => t_amount (terms q) | Err _ => 0 end) E) as Ha. cbn beta iota in Ha.
    unfold requested. rewrite H1, <-Ha. vm_compute. reflexivity.
Defined.

Lemma failed_payout_is_restored_witness :
  ∃ db1 p1 db2 p2,
    mark_sent (at_time 24) 1 "admin" None None None filed = Ok (db1, p1) ∧
    api_balance (ledger_of db1) "m1" "INR" = 400000 ∧
    mark_failed (at_time 25) 1 "admin" "bank rejected" None db1 = Ok (db2, p2) ∧
    api_balance (ledger_of db2) "m1" "INR" = 1000000.
Proof.
  destruct (failed_payout_is_restored (at_time 24) (at_time 25) 1 "admin" None None None "admin" "bank rejected" None
    filed (first_payout filed)) as (db1 & p1 & db2 & p2 & H1 & _ & H2 & H3 & _ & H4 & _).
  1,2: (exact (ops_sound _ _ (no_payouts_sound demo_payouts (conj eq_refl eq_refl)) demo_filed) || reflexivity).
  1-6: by vm_compute.
  - apply reachable_wf. destruct (post_ok (at_time 11) (demo_posting "m2" "payment_received" 0 10000 "payment_received:p2") ledger1)
      as [e E]; [by vm_compute|]. eapply reachable_post; [exact reachable1| |exact E]. by vm_compute.
  - apply List.Forall_cons; [by vm_compute|]. apply List.Forall_cons; [by vm_compute|apply List.Forall_nil].
  - repeat split; vm_compute; congruence.
  - exists db1, p1, db2, p2. split; [exact H1|]. split; [rewrite (proj2 (H2 "m1" "INR")%string); reflexivity|].
    split; [exact H3|]. rewrite (proj1 (H4 "m1" "INR")%string). reflexivity.
Defined.
