(* ===== verification/Accounting.v ===== *)
(** Double-entry accounting: [src/app/services/accounting_engine.py], with
    [fn_create_journal_entry] and the triggers on the journal of
    [src/migrations/006_erp_full_system.sql], 018, 019, 022 and 050.

    A journal line's amounts are NUMERIC(14,2), kept as paise; an entry carries its
    lines; rows are numbered in the order they were created (the code draws
    UUIDs, which are taken to be well-formed).  A call that raises changes nothing
    (its transaction is serializable and rolls back).  The audit log row, whose
    failure is swallowed, is left out. *)

From Stdlib Require Import ZArith Lia String.
From S2P Require Import Prelude PyDecimal PyFloat PyValues FeePolicy.
Open Scope Z_scope.

(** ** Accounts *)

Inductive account_type := Asset | Liability | Equity | Revenue | Expense.

#[export] Instance account_type_eq_dec : EqDecision account_type.
Proof. solve_decision. Defined.

Definition SYSTEM_ACCOUNTS : list (string * (string * string)) := [
  ("CASH", ("CASH_ACCOUNT", "1001"));
  ("UPI", ("UPI_ACCOUNT", "1002"));
  ("CARD", ("CARD_ACCOUNT", "1003"));
  ("INVENTORY_FOOD", ("INVENTORY_FOOD", "1004"));
  ("INVENTORY_BEVERAGE", ("INVENTORY_BEVERAGE", "1005"));
  ("PG_CLEARING", ("PG_CLEARING", "1006"));
  ("ACCOUNTS_RECEIVABLE", ("ACCOUNTS_RECEIVABLE", "1007"));
  ("BANK", ("BANK_ACCOUNT", "1008"));
  ("ACCOUNTS_PAYABLE", ("ACCOUNTS_PAYABLE", "2001"));
  ("CGST_PAYABLE", ("CGST_PAYABLE", "2002"));
  ("SGST_PAYABLE", ("SGST_PAYABLE", "2003"));
  ("IGST_PAYABLE", ("IGST_PAYABLE", "2004"));
  ("FOOD_SALES", ("FOOD_SALES", "4001"));
  ("BEVERAGE_SALES", ("BEVERAGE_SALES", "4002"));
  ("COGS_FOOD", ("COGS_FOOD", "5001"));
  ("COGS_BEVERAGE", ("COGS_BEVERAGE", "5002"));
  ("DISCOUNT_EXPENSE", ("DISCOUNT_EXPENSE", "5006"));
  ("SALES_RETURNS", ("SALES_RETURNS", "5007"));
  ("GATEWAY_CHARGES", ("GATEWAY_CHARGES", "5011"));
  ("GATEWAY_TAX", ("GATEWAY_TAX", "5012"));
  ("RENT_EXPENSE", ("RENT_EXPENSE", "5020"));
  ("SALARY_EXPENSE", ("SALARY_EXPENSE", "5021"));
  ("UTILITIES_EXPENSE", ("UTILITIES_EXPENSE", "5022"));
  ("MISC_EXPENSE", ("MISC_EXPENSE", "5030"));
  ("WASTAGE_EXPENSE", ("WASTAGE_EXPENSE", "5040"))]%string.

(** The loop of one label: every code is seen once. *)
Fixpoint distinct_codes (label : string) (seen codes : list string) : res () :=
  match codes with
  | [] => Ok ()
  | k :: codes' =>
      _ ← raise_if (str_mem k seen) (RuntimeError ("SYSTEM_ACCOUNTS: " ++ label ++ " is shared")%string);
      distinct_codes label (k :: seen) codes'
  end.

Definition _assert_distinct_codes (mapping : list (string * (string * string))) : res () :=
  _ ← distinct_codes "system_code" [] (map (λ p, p.2.1) mapping);
  distinct_codes "account_code" [] (map (λ p, p.2.2) mapping).

Definition VALID_REFERENCE_TYPES : list string :=
  ["order"; "payment"; "refund"; "discount"; "grn"; "inventory_consumption"; "inventory_adjustment";
   "vendor_payment"; "expense"; "income"; "reversal"; "shift_close"; "period_close"; "settlement"; "gateway_fee";
   "invoice"; "invoice_void"; "tax_payment"; "bank_recon"; "partial_refund"; "chargeback"; "wastage";
   "inventory_purchase"; "inventory_transfer"; "inventory_count"]%string.

(** A row of [chart_of_accounts]. *)
Record account := {
  ac_id : Z;
  ac_restaurant : string;
  ac_code : string;
  ac_system : option string;
  ac_name : string;
  ac_type : account_type;
  ac_active : bool;
}.

(** ** The journal *)

Record jline := { jl_account : Z; jl_debit : Z; jl_credit : Z; jl_description : string }.

Record jentry := {
  j_id : Z;
  j_restaurant : string;
  j_branch : option string;
  j_date : Z;
  j_type : string;
  j_ref : string;
  j_description : string;
  j_created_by : string;
  j_reversed : bool;
  j_reversed_by : option Z;
  j_reversed_entry : option Z;
  j_source_event : option string;
  j_lines : list jline;
}.

Inductive period_status := POpen | PClosed | PLocked.

#[export] Instance period_status_eq_dec : EqDecision period_status.
Proof. solve_decision. Defined.

Record period := {
  pr_id : Z;
  pr_restaurant : string;
  pr_start : Z;
  pr_end : Z;
  pr_status : period_status;
  pr_closed_by : option (string * Z);
  pr_reopened_by : option (string * Z);
  pr_notes : option string;
}.

Record books := { accounts : list account; journal : list jentry; periods : list period }.

Definition with_journal (b : books) (j : list jentry) : books :=
  {| accounts := accounts b; journal := j; periods := periods b |}.
Definition with_periods (b : books) (p : list period) : books :=
  {| accounts := accounts b; journal := journal b; periods := p |}.

(** [Decimal(str(val)).quantize(Decimal("0.01"), ROUND_HALF_UP)] *)
Definition _quantize (val : pyval) : res decimal :=
  match parse_decimal val with
  | Some d => quantize ROUND_HALF_UP (-2) d
  | None => Err InvalidOperation
  end.

(** The first active account of the restaurant with a property. *)
Definition find_account (b : books) (restaurant : string) (has : account → bool) : option Z :=
  ac_id <$> find (λ a, bool_decide (ac_restaurant a = restaurant) && has a && ac_active a) (accounts b).

Definition _resolve_account (b : books) (restaurant code : string) : res Z :=
  match find (λ p, bool_decide (p.1 = code)) SYSTEM_ACCOUNTS with
  | None => Err (ValidationError "Unknown account code")
  | Some (_, (system_code, account_code)) =>
      match find_account b restaurant (λ a, bool_decide (ac_system a = Some system_code)) with
      | Some id => Ok id
      | None =>
          match find_account b restaurant (λ a, bool_decide (ac_code a = account_code)) with
          | Some id => Ok id
          | None => Err (ValidationError "System account")
          end
      end
  end.

(** ** [fn_create_journal_entry] *)

(** NUMERIC(14,2) as paise. *)
Definition paise_of_numeric (d : decimal) : Z := rescale ROUND_HALF_UP (-2) d.
Definition numeric_14_2 (n : Z) : res Z :=
  if Z.abs n <? 10 ^ 14 then Ok n else Err (DatabaseError "numeric field overflow").

(** A line as the JSON carries it: the floats are read back as numerics. *)
Record raw_line := { rl_account : Z; rl_debit : decimal; rl_credit : decimal; rl_description : string }.

(** [v_total := v_total + x], the variable being NUMERIC(14,2). *)
Definition add_total (x : raw_line → decimal) (total : Z) (l : raw_line) : res Z :=
  numeric_14_2 (paise_of_numeric (numeric_add (Dec total (-2)) (x l))).

Definition insert_line (l : raw_line) : res jline :=
  d ← numeric_14_2 (paise_of_numeric (rl_debit l));
  c ← numeric_14_2 (paise_of_numeric (rl_credit l));
  _ ← raise_if ((d <? 0) || (c <? 0)) (DatabaseError "journal_lines_debit_check");
  _ ← raise_if (negb ((0 <? d) || (0 <? c))) (DatabaseError "journal_lines_check");
  Ok {| jl_account := rl_account l; jl_debit := d; jl_credit := c; jl_description := rl_description l |}.

Definition is_shut (s : period_status) : bool := match s with POpen => false | _ => true end.

(** A closed or locked period of the restaurant that contains the date. *)
Definition in_shut_period (b : books) (restaurant : string) (date : Z) : bool :=
  existsb (λ p, bool_decide (pr_restaurant p = restaurant) && is_shut (pr_status p)
                && (pr_start p <=? date) && (date <=? pr_end p)) (periods b).

Definition same_reference (restaurant type ref : string) (e : jentry) : bool :=
  bool_decide (j_restaurant e = restaurant) && bool_decide (j_type e = type) && bool_decide (j_ref e = ref).

Definition sum_debit (l : list jline) : Z := zsum (map jl_debit l).
Definition sum_credit (l : list jline) : Z := zsum (map jl_credit l).

(** The function, the unique index, the period trigger, and the triggers that
    fire at commit. *)
Definition fn_create_journal_entry (restaurant : string) (branch : option string) (date : Z)
    (type ref description created_by : string) (lines : list raw_line) (b : books) : res (books * jentry) :=
  total_debit ← res_foldl (add_total rl_debit) 0 lines;
  total_credit ← res_foldl (add_total rl_credit) 0 lines;
  _ ← raise_if (negb (total_debit =? total_credit)) (DatabaseError "Unbalanced journal entry");
  _ ← raise_if (in_shut_period b restaurant date) (DatabaseError "Cannot create journal entry in closed period");
  _ ← raise_if (existsb (same_reference restaurant type ref) (journal b)) (DatabaseError "uq_journal_entries_reference");
  rows ← res_map insert_line lines;
  _ ← raise_if (negb (sum_debit rows =? sum_credit rows)) (DatabaseError "Journal entry is unbalanced");
  _ ← raise_if (Z.of_nat (length rows) =? 1) (DatabaseError "journal entry has < 2 lines");
  let e := {|
    j_id := Z.of_nat (length (journal b)) + 1; j_restaurant := restaurant; j_branch := branch; j_date := date;
    j_type := type; j_ref := ref; j_description := description; j_created_by := created_by; j_reversed := false;
    j_reversed_by := None; j_reversed_entry := None; j_source_event := None; j_lines := rows |} in
  Ok (with_journal b (journal b ++ [e]), e).

(** *** The updates the journal guards allow *)

Definition map_entry (id : Z) (f : jentry → jentry) (j : list jentry) : list jentry :=
  map (λ e, if j_id e =? id then f e else e) j.

Definition set_reversed (by_ : Z) (e : jentry) : jentry := {|
  j_id := j_id e; j_restaurant := j_restaurant e; j_branch := j_branch e; j_date := j_date e; j_type := j_type e;
  j_ref := j_ref e; j_description := j_description e; j_created_by := j_created_by e; j_reversed := true;
  j_reversed_by := Some by_; j_reversed_entry := j_reversed_entry e; j_source_event := j_source_event e;
  j_lines := j_lines e |}.

Definition set_reversed_entry (of_ : Z) (e : jentry) : jentry := {|
  j_id := j_id e; j_restaurant := j_restaurant e; j_branch := j_branch e; j_date := j_date e; j_type := j_type e;
  j_ref := j_ref e; j_description := j_description e; j_created_by := j_created_by e; j_reversed := j_reversed e;
  j_reversed_by := j_reversed_by e; j_reversed_entry := Some of_; j_source_event := j_source_event e;
  j_lines := j_lines e |}.

Definition set_source_event (event : string) (e : jentry) : jentry := {|
  j_id := j_id e; j_restaurant := j_restaurant e; j_branch := j_branch e; j_date := j_date e; j_type := j_type e;
  j_ref := j_ref e; j_description := j_description e; j_created_by := j_created_by e; j_reversed := j_reversed e;
  j_reversed_by := j_reversed_by e; j_reversed_entry := j_reversed_entry e; j_source_event := Some event;
  j_lines := j_lines e |}.

Definition find_entry (b : books) (id : Z) : option jentry := find (λ e, j_id e =? id) (journal b).

(** [is_reversed = true, reversed_by = $1]: a second reversal is refused. *)
Definition mark_reversed (original reversal : Z) (b : books) : res books :=
  _ ← raise_if (match find_entry b original with
                | Some e => j_reversed e && negb (bool_decide (j_reversed_by e = Some reversal))
                | None => false
                end) (DatabaseError "reversed_by is immutable once set");
  Ok (with_journal b (map_entry original (set_reversed reversal) (journal b))).

Definition link_reversal (reversal original : Z) (b : books) : res books :=
  _ ← raise_if (negb (bool_decide (is_Some (find_entry b original)))) (DatabaseError "journal_entries_reversed_entry_id_fkey");
  Ok (with_journal b (map_entry reversal (set_reversed_entry original) (journal b))).

(** ** [create_journal_entry] *)

Record line := { ln_account : string; ln_debit : pyval; ln_credit : pyval; ln_description : string }.

Record entry_request := {
  er_type : string;
  er_ref : string;
  er_restaurant : string;
  er_branch : option string;
  er_lines : list line;
  er_description : string;
  er_created_by : string;
  er_date : option Z;
  er_is_reversal : bool;
  er_reversed_entry : option Z;
  er_source_event : option string;
}.

(** One turn of the validation loop over the running totals. *)
Definition check_line (totals : decimal * decimal) (l : line) : res (decimal * decimal) :=
  d ← _quantize (ln_debit l);
  c ← _quantize (ln_credit l);
  _ ← raise_if (dltb d d_zero || dltb c d_zero) (ValidationError "Debit and credit must be >= 0");
  _ ← raise_if (dpos d && dpos c) (ValidationError "A line cannot have both debit and credit > 0");
  _ ← raise_if (deqb d d_zero && deqb c d_zero) (ValidationError "A line must have either debit or credit > 0");
  Ok (dadd totals.1 d, dadd totals.2 c).

(** [float(_quantize(...))], then the JSON text read back as a numeric. *)
Definition through_float (d : decimal) : decimal := repr_decimal (of_decimal d).

Definition resolve_line (b : books) (restaurant : string) (l : line) : res raw_line :=
  id ← _resolve_account b restaurant (ln_account l);
  d ← _quantize (ln_debit l);
  c ← _quantize (ln_credit l);
  Ok {| rl_account := id; rl_debit := through_float d; rl_credit := through_float c; rl_description := ln_description l |}.

(** The checks in Python. *)
Definition validate_request (rq : entry_request) : res () :=
  _ ← raise_if (negb (str_mem (er_type rq) VALID_REFERENCE_TYPES)) (ValidationError "Invalid reference_type");
  _ ← raise_if (bool_decide (er_lines rq = [])) (ValidationError "Journal entry must have at least one line");
  totals ← res_foldl check_line (d_zero, d_zero) (er_lines rq);
  raise_if (negb (deqb totals.1 totals.2)) (ValidationError "Unbalanced entry").

(** The links of a reversal, and the event of the audit trail. *)
Definition annotate (rq : entry_request) (e : jentry) (b : books) : res books :=
  b2 ← (match er_reversed_entry rq with
        | Some original =>
            if er_is_reversal rq then b' ← link_reversal (j_id e) original b; mark_reversed original (j_id e) b'
            else Ok b
        | None => Ok b
        end);
  Ok (match er_source_event rq with
      | Some event => if bool_decide (event = ""%string) then b2
                      else with_journal b2 (map_entry (j_id e) (set_source_event event) (journal b2))
      | None => b2
      end).

(** The transaction. *)
Definition enter_entry (date : Z) (rq : entry_request) (b : books) : res (books * option Z) :=
  _ ← raise_if (in_shut_period b (er_restaurant rq) date) (ValidationError "Cannot create journal entry: accounting period");
  match find (same_reference (er_restaurant rq) (er_type rq) (er_ref rq)) (journal b) with
  | Some existing => Ok (b, Some (j_id existing))
  | None =>
      resolved ← res_map (resolve_line b (er_restaurant rq)) (er_lines rq);
      r ← fn_create_journal_entry (er_restaurant rq) (er_branch rq) date (er_type rq) (er_ref rq)
            (er_description rq) (er_created_by rq) resolved b;
      b' ← annotate rq r.2 r.1;
      Ok (b', Some (j_id r.2))
  end.

(** The id of the entry, [None] when the call was skipped. *)
Definition create_journal_entry (today : Z) (rq : entry_request) (b : books) : res (books * option Z) :=
  if bool_decide (er_ref rq = ""%string) || bool_decide (er_restaurant rq = ""%string) then Ok (b, None)
  else
    _ ← validate_request rq;
    enter_entry (default today (er_date rq)) rq b.

(** ** Reversal *)

Definition reversal_line (l : jline) : raw_line := {|
  rl_account := jl_account l; rl_debit := through_float (Dec (jl_credit l) (-2));
  rl_credit := through_float (Dec (jl_debit l) (-2)); rl_description := ("REVERSAL: " ++ jl_description l)%string |}.

Definition reversal_ref (id : Z) : string := ("rev_" ++ nat_text id)%string.

Definition reverse_entry (today : Z) (id : Z) (reason created_by : string) (b : books) : res (books * Z) :=
  match find_entry b id with
  | None => Err (ValidationError "Journal entry not found")
  | Some e =>
      _ ← raise_if (j_reversed e) (ValidationError "Journal entry is already reversed");
      _ ← raise_if (in_shut_period b (j_restaurant e) (j_date e)) (ValidationError "Cannot reverse journal entry: accounting period");
      _ ← raise_if (bool_decide (j_lines e = [])) (ValidationError "Journal entry has no lines");
      let description := ("Reversal of " ++ j_type e ++ " " ++ j_ref e
                          ++ (if bool_decide (reason = "") then "" else " — " ++ reason))%string in
      r ← fn_create_journal_entry (j_restaurant e) (j_branch e) today "reversal" (reversal_ref id) description created_by
            (map reversal_line (j_lines e)) b;
      b2 ← mark_reversed id (j_id r.2) r.1;
      b3 ← link_reversal (j_id r.2) id b2;
      Ok (b3, j_id r.2)
  end.

(** ** Periods *)

Definition find_period (b : books) (restaurant : string) (start stop : Z) : option period :=
  find (λ p, bool_decide (pr_restaurant p = restaurant) && (pr_start p =? start) && (pr_end p =? stop)) (periods b).

Definition map_period (id : Z) (f : period → period) (l : list period) : list period :=
  map (λ p, if pr_id p =? id then f p else p) l.

Definition close_period (now : Z) (restaurant : string) (start stop : Z) (closed_by notes : string) (b : books)
    : books * (Z * period_status) :=
  let shut (p : period) := {|
    pr_id := pr_id p; pr_restaurant := pr_restaurant p; pr_start := pr_start p; pr_end := pr_end p; pr_status := PClosed;
    pr_closed_by := Some (closed_by, now); pr_reopened_by := pr_reopened_by p; pr_notes := Some notes |} in
  match find_period b restaurant start stop with
  | Some p =>
      if is_shut (pr_status p) then (b, (pr_id p, pr_status p))
      else (with_periods b (map_period (pr_id p) shut (periods b)), (pr_id p, PClosed))
  | None =>
      let p := {| pr_id := Z.of_nat (length (periods b)) + 1; pr_restaurant := restaurant; pr_start := start;
                  pr_end := stop; pr_status := PClosed; pr_closed_by := Some (closed_by, now); pr_reopened_by := None;
                  pr_notes := Some notes |} in
      (with_periods b (periods b ++ [p]), (pr_id p, PClosed))
  end.

Definition reopen_period (now : Z) (restaurant : string) (start stop : Z) (reopened_by notes : string) (b : books)
    : res (books * Z) :=
  match find_period b restaurant start stop with
  | None => Err (ValidationError "Period not found")
  | Some p =>
      match pr_status p with
      | PLocked => Err (ValidationError "Cannot reopen a locked period")
      | POpen => Ok (b, pr_id p)
      | PClosed =>
          Ok (with_periods b (map_period (pr_id p) (λ p, {|
                pr_id := pr_id p; pr_restaurant := pr_restaurant p; pr_start := pr_start p; pr_end := pr_end p;
                pr_status := POpen; pr_closed_by := pr_closed_by p; pr_reopened_by := Some (reopened_by, now);
                pr_notes := Some notes |}) (periods b)), pr_id p)
      end
  end.

(** ** The entries of business events *)

(** [float(amt)] on one side, [0] on the other. *)
Definition dr (acct : string) (amt : decimal) (description : string) : line :=
  {| ln_account := acct; ln_debit := py_float amt; ln_credit := PInt 0; ln_description := description |}.
Definition cr (acct : string) (amt : decimal) (description : string) : line :=
  {| ln_account := acct; ln_debit := PInt 0; ln_credit := py_float amt; ln_description := description |}.

(** Who and where: the arguments every builder has. *)
Record place := { at_restaurant : string; at_branch : option string; by_user : string }.

Definition simple_entry (pl : place) (type ref description : string) (event : option string) (lines : list line)
    : entry_request := {|
  er_type := type; er_ref := ref; er_restaurant := at_restaurant pl; er_branch := at_branch pl; er_lines := lines;
  er_description := description; er_created_by := by_user pl; er_date := None; er_is_reversal := false;
  er_reversed_entry := None; er_source_event := event |}.

(** [amt = _quantize(amount)]; nothing is recorded unless it is positive. *)
Definition when_positive (amount : pyval) (build : decimal → entry_request) (today : Z) (b : books) : res (books * option Z) :=
  amt ← _quantize amount;
  if negb (dpos amt) then Ok (b, None) else create_journal_entry today (build amt) b.

Definition is_online_payment (method : string) (source : option string) : bool :=
  bool_decide (classify_method (Some method) source = KRazorpay).

Definition _payment_method_account (method : string) : string :=
  let method := lower (if bool_decide (method = ""%string) then "cash" else method) in
  if bool_decide (method = "upi"%string) then "UPI"
  else if str_mem method ["bank"; "bank_transfer"; "neft"; "rtgs"]%string then "BANK"
  else if str_mem method ["card"; "credit_card"; "debit_card"]%string then "CARD"
  else "CASH".

Definition record_order_created (pl : place) (order_id : string) (total_amount : pyval) :=
  when_positive total_amount (λ amt, simple_entry pl "order" order_id ("Sale — order " ++ order_id)%string None
    [dr "ACCOUNTS_RECEIVABLE" amt ("Order " ++ order_id ++ " receivable")%string;
     cr "FOOD_SALES" amt ("Order " ++ order_id ++ " revenue")%string]).

(** The account a receipt goes to: the gateway's clearing account when it is
    online. *)
Definition money_account (method : string) (kind : option string) : string :=
  if is_online_payment method kind then "PG_CLEARING" else _payment_method_account method.

Definition record_payment (pl : place) (payment_id order_id : string) (amount : pyval) (method : string) (payment_kind : option string) :=
  when_positive amount (λ amt, simple_entry pl "payment" payment_id
    ("Payment " ++ payment_id ++ " for order " ++ order_id ++ " (" ++ method ++ ")")%string (Some "PAYMENT_COMPLETED"%string)
    [dr (money_account method payment_kind) amt
       (if is_online_payment method payment_kind then "Gateway capture (" ++ method ++ ")"
        else "Payment received (" ++ method ++ ")")%string;
     cr "ACCOUNTS_RECEIVABLE" amt ("Receivable settled — order " ++ order_id)%string]).

Definition record_discount (pl : place) (order_id : string) (discount_amount : pyval) :=
  when_positive discount_amount (λ amt, simple_entry pl "discount" ("disc_" ++ order_id)%string
    ("Discount on order " ++ order_id)%string None
    [dr "DISCOUNT_EXPENSE" amt ("Discount — order " ++ order_id)%string;
     cr "ACCOUNTS_RECEIVABLE" amt ("Receivable reduced — discount on " ++ order_id)%string]).

Definition record_refund (pl : place) (payment_id order_id : string) (amount : pyval) (method : string) :=
  when_positive amount (λ amt, simple_entry pl "refund" ("ref_" ++ payment_id)%string
    ("Refund for order " ++ order_id)%string (Some "PAYMENT_REFUNDED"%string)
    [dr "SALES_RETURNS" amt ("Refund — order " ++ order_id)%string;
     cr (money_account method None) amt
       (if is_online_payment method None then "Refund via gateway (" ++ method ++ ")"
        else "Cash refunded (" ++ method ++ ")")%string]).

Definition record_cogs (pl : place) (order_id : string) (amount : pyval) :=
  when_positive amount (λ amt, simple_entry pl "inventory_consumption" ("cogs_" ++ order_id)%string
    ("COGS for order " ++ order_id)%string None
    [dr "COGS_FOOD" amt ("Cost of goods — order " ++ order_id)%string;
     cr "INVENTORY_FOOD" amt ("Inventory consumed — order " ++ order_id)%string]).

Definition record_grn (pl : place) (grn_id : string) (amount : pyval) :=
  when_positive amount (λ amt, simple_entry pl "grn" grn_id ("GRN " ++ grn_id ++ " — inventory received")%string None
    [dr "INVENTORY_FOOD" amt ("Inventory in — GRN " ++ grn_id)%string;
     cr "ACCOUNTS_PAYABLE" amt ("Payable to vendor — GRN " ++ grn_id)%string]).

Definition record_vendor_payment (pl : place) (payment_id vendor_id : string) (amount : pyval) (method : string) :=
  when_positive amount (λ amt, simple_entry pl "vendor_payment" payment_id
    ("Vendor payment " ++ payment_id ++ " to " ++ vendor_id)%string None
    [dr "ACCOUNTS_PAYABLE" amt ("Payable settled — vendor " ++ vendor_id)%string;
     cr (_payment_method_account method) amt ("Paid to vendor (" ++ method ++ ")")%string]).

Definition or_text (s d : string) : string := if bool_decide (s = ""%string) then d else s.

Definition record_expense (pl : place) (expense_id : string) (amount : pyval) (expense_account payment_account description : string) :=
  when_positive amount (λ amt, simple_entry pl "expense" expense_id (or_text description ("Expense " ++ expense_id)) None
    [dr expense_account amt description; cr payment_account amt ("Paid — " ++ description)%string]).

Definition record_income (pl : place) (income_id : string) (amount : pyval) (revenue_account receipt_account description : string) :=
  when_positive amount (λ amt, simple_entry pl "income" income_id (or_text description ("Income " ++ income_id)) None
    [dr receipt_account amt ("Received — " ++ description)%string; cr revenue_account amt description]).

(** [" — {reason}"] when there is one. *)
Definition because (reason : string) : string := if bool_decide (reason = ""%string) then "" else (" — " ++ reason)%string.
Definition amount_text (amt : decimal) : string := cents_text (coef amt).

Definition record_partial_refund (pl : place) (payment_id order_id : string) (refund_amount original_amount : pyval)
    (method reason : string) (today : Z) (b : books) : res (books * option Z) :=
  amt ← _quantize refund_amount;
  orig ← _quantize original_amount;
  _ ← raise_if (negb (dpos amt) || dltb orig amt) (ValidationError "Partial refund amount");
  create_journal_entry today (simple_entry pl "partial_refund" ("pref_" ++ payment_id ++ "_" ++ amount_text amt)%string
    ("Partial refund ₹" ++ amount_text amt ++ " of ₹" ++ amount_text orig ++ " for order " ++ order_id ++ because reason)%string
    (Some "PAYMENT_REFUNDED"%string)
    [dr "SALES_RETURNS" amt ("Partial refund — order " ++ order_id)%string;
     cr (money_account method None) amt ("Refunded ₹" ++ amount_text amt ++ " (" ++ method ++ ")")%string]) b.

Record split := { sp_method : option string; sp_amount : pyval; sp_payment : option string }.

(** One turn of the loop over the splits; [i] counts from 0. *)
Definition record_one_split (pl : place) (order_id : string) (n today : Z) (acc : books * list Z * Z) (sp : split)
    : res (books * list Z * Z) :=
  let '(b, ids, i) := acc in
  let method := default "cash"%string (sp_method sp) in
  amount ← _quantize (sp_amount sp);
  let pid := default ("split_" ++ order_id ++ "_" ++ nat_text i)%string (sp_payment sp) in
  if negb (dpos amount) then Ok (b, ids, i + 1)
  else
    r ← create_journal_entry today (simple_entry pl "payment" ("pay_" ++ pid)%string
          ("Split payment " ++ nat_text (i + 1) ++ "/" ++ nat_text n ++ " for order " ++ order_id
           ++ " (" ++ method ++ " ₹" ++ amount_text amount ++ ")")%string (Some "PAYMENT_COMPLETED"%string)
          [dr (money_account method None) amount ("Payment received (" ++ method ++ ")")%string;
           cr "ACCOUNTS_RECEIVABLE" amount ("Split payment — order " ++ order_id)%string]) b;
    Ok (r.1, ids ++ match r.2 with Some id => [id] | None => [] end, i + 1).

(** Each split is its own transaction: the result of an exception is the books
    so far. *)
Fixpoint record_splits (pl : place) (order_id : string) (n today : Z) (acc : books * list Z * Z) (splits : list split)
    : books * res (list Z) :=
  match splits with
  | [] => (acc.1.1, Ok acc.1.2)
  | sp :: splits' =>
      match record_one_split pl order_id n today acc sp with
      | Ok acc' => record_splits pl order_id n today acc' splits'
      | Err e => (acc.1.1, Err e)
      end
  end.

Definition record_split_payment (pl : place) (order_id : string) (splits : list split) (today : Z) (b : books) : books * res (list Z) :=
  match splits with
  | [] => (b, Err (ValidationError "Split payment requires at least one split"))
  | _ => record_splits pl order_id (Z.of_nat (length splits)) today (b, [], 0) splits
  end.

Definition record_chargeback (pl : place) (payment_id order_id : string) (amount : pyval) (method reason : string) :=
  when_positive amount (λ amt, simple_entry pl "chargeback" ("cb_" ++ payment_id)%string
    ("Chargeback for order " ++ order_id ++ " — payment " ++ payment_id ++ because reason)%string (Some "PAYMENT_REFUNDED"%string)
    [dr "SALES_RETURNS" amt ("Chargeback loss — order " ++ order_id)%string;
     cr "PG_CLEARING" amt ("Gateway chargeback clawback (" ++ method ++ ")")%string]).

Definition record_shift_close (pl : place) (shift_id : string) (cash_sales card_sales upi_sales : pyval) (today : Z) (b : books)
    : res (books * option Z) :=
  cash ← _quantize cash_sales;
  card ← _quantize card_sales;
  upi ← _quantize upi_sales;
  let part (acct description : string) (amt : decimal) := if dpos amt then [dr acct amt description] else [] in
  let add total amt := if dpos amt then dadd total amt else total in
  let total := add (add (add d_zero cash) card) upi in
  if negb (dpos total) then Ok (b, None)
  else
    create_journal_entry today (simple_entry pl "shift_close" shift_id
      ("Shift close " ++ shift_id ++ ": cash=" ++ amount_text cash ++ ", card=" ++ amount_text card
       ++ ", upi=" ++ amount_text upi)%string (Some "SHIFT_CLOSED"%string)
      (part "CASH" "Cash drawer — shift close" cash ++ part "CARD" "Card receipts — shift close" card
       ++ part "BANK" "UPI receipts — shift close" upi
       ++ [cr "FOOD_SALES" total ("Revenue summary — shift " ++ shift_id)%string]))%string b.

(** ** Reports *)

(** [chart LEFT JOIN lines LEFT JOIN entries ON id AND <conditions>]: every line
    of the account appears once, with its entry when the conditions hold and
    with NULLs otherwise. *)
Definition left_joined (b : books) (cond : jentry → bool) (acct : Z) : list (jline * option jentry) :=
  mjoin (map (λ e, map (λ l, (l, if cond e then Some e else None))
                     (filter (λ l, jl_account l = acct) (j_lines e))) (journal b)).

(** The conditions of the ON clause. *)
Definition report_cond (as_of : Z) (branch : option string) (e : jentry) : bool :=
  (j_date e <=? as_of) && negb (j_reversed e)
  && (negb (str_truthy branch) || bool_decide (j_branch e = branch)).

Record report_row := { rr_account : account; rr_debit : Z; rr_credit : Z }.

(** [SUM(jl.debit), SUM(jl.credit)] of an account's joined rows. *)
Definition joined_row (b : books) (cond : jentry → bool) (a : account) : report_row :=
  let rows := left_joined b cond (ac_id a) in
  {| rr_account := a; rr_debit := zsum (map (λ r, jl_debit r.1) rows); rr_credit := zsum (map (λ r, jl_credit r.1) rows) |}.

Fixpoint insert_code (r : report_row) (l : list report_row) : list report_row :=
  match l with
  | [] => [r]
  | x :: l' => if string_ltb (ac_code (rr_account x)) (ac_code (rr_account r)) then x :: insert_code r l' else r :: l
  end.

(** [WHERE restaurant AND is_active AND type GROUP BY ... HAVING ... ORDER BY account_code] *)
Definition joined_rows (b : books) (restaurant : string) (types : list account_type) (cond : jentry → bool) : list report_row :=
  foldr insert_code []
    (filter (λ r, negb (rr_debit r =? 0) || negb (rr_credit r =? 0) = true)
      (map (joined_row b cond)
        (filter (λ a, ac_restaurant a = restaurant ∧ ac_active a = true ∧ ac_type a ∈ types) (accounts b)))).

Definition all_types : list account_type := [Asset; Liability; Equity; Revenue; Expense].

Record trial_balance := { tb_debit : Z; tb_credit : Z; tb_balanced : bool; tb_rows : list report_row }.

(** Totals of columns of two decimals are exact. *)
Definition get_trial_balance (today : Z) (restaurant : string) (as_of : option Z) (branch : option string) (b : books)
    : trial_balance :=
  let rows := joined_rows b restaurant all_types (report_cond (default today as_of) branch) in
  let d := zsum (map rr_debit rows) in
  let c := zsum (map rr_credit rows) in
  {| tb_debit := d; tb_credit := c; tb_balanced := d =? c; tb_rows := rows |}.

(** [lines JOIN entries ON id AND <conditions> JOIN chart]: the lines that count,
    with the account's type. *)
Definition inner_joined (b : books) (cond : jentry → bool) : list (jline * account) :=
  mjoin (map (λ e, if cond e
                   then omap (λ l, a ← find (λ a, ac_id a =? jl_account l) (accounts b); Some (l, a)) (j_lines e)
                   else []) (journal b)).

Definition net_of (t : account_type) (l : jline) : Z :=
  match t with Revenue | Liability | Equity => jl_credit l - jl_debit l | Asset | Expense => jl_debit l - jl_credit l end.

Definition type_total (t : account_type) (rows : list (jline * account)) : Z :=
  sum_where (λ r, bool_decide (ac_type r.2 = t)) (λ r, net_of t r.1) rows.

Record balance_sheet := {
  bs_assets : Z; bs_liabilities : Z; bs_equity : Z; bs_retained : Z; bs_balanced : bool }.

Definition get_balance_sheet (today : Z) (restaurant : string) (as_of : option Z) (branch : option string) (b : books)
    : balance_sheet :=
  let cond := report_cond (default today as_of) branch in
  let rows := joined_rows b restaurant [Asset; Liability; Equity] cond in
  let total t sign := sum_where (λ r, bool_decide (ac_type (rr_account r) = t)) (λ r, sign * (rr_debit r - rr_credit r)) rows in
  let counted := inner_joined b (λ e, cond e && bool_decide (j_restaurant e = restaurant)) in
  let retained := type_total Revenue counted - type_total Expense counted in
  let assets := total Asset 1 in
  let liabilities := total Liability (-1) in
  let equity := total Equity (-1) + retained in
  {| bs_assets := assets; bs_liabilities := liabilities; bs_equity := equity; bs_retained := retained;
     bs_balanced := assets =? liabilities + equity |}.

Record income_statement := { is_revenue : Z; is_expenses : Z; is_net : Z; is_profit : bool }.

(** [first_of_month] is [date.today().replace(day=1)]. *)
Definition get_income_statement (today first_of_month : Z) (restaurant : string) (from_date to_date : option Z)
    (branch : option string) (b : books) : income_statement :=
  let counted := filter (λ r, ac_active r.2 = true)
    (inner_joined b (λ e, bool_decide (j_restaurant e = restaurant) && (default first_of_month from_date <=? j_date e)
       && (j_date e <=? default today to_date) && negb (j_reversed e)
       && (negb (str_truthy branch) || bool_decide (j_branch e = branch)))) in
  let revenue := type_total Revenue counted in
  let expenses := type_total Expense counted in
  {| is_revenue := revenue; is_expenses := expenses; is_net := revenue - expenses; is_profit := 0 <? revenue - expenses |}.

(** ** Well-formed books *)

Definition one_sided_line (l : jline) : Prop :=
  0 <= jl_debit l < 10 ^ 14 ∧ 0 <= jl_credit l < 10 ^ 14 ∧ 0 < jl_debit l + jl_credit l.

(** A journal entry as double-entry bookkeeping wants it. *)
Definition balanced_entry (e : jentry) : Prop :=
  (2 <= length (j_lines e))%nat ∧ Forall one_sided_line (j_lines e) ∧ sum_debit (j_lines e) = sum_credit (j_lines e).

Definition reference_of (e : jentry) : string * string * string := (j_restaurant e, j_type e, j_ref e).

Record wf (b : books) : Prop := {
  wf_ids : ∀ i e, journal b !! i = Some e → j_id e = Z.of_nat i + 1;
  wf_balanced : Forall balanced_entry (journal b);
  wf_refs : NoDup (map reference_of (journal b));
}.

(** What no operation changes of an entry. *)
Definition same_entry (e e' : jentry) : Prop :=
  j_id e' = j_id e ∧ j_restaurant e' = j_restaurant e ∧ j_branch e' = j_branch e ∧ j_date e' = j_date e ∧
  j_type e' = j_type e ∧ j_ref e' = j_ref e ∧ j_description e' = j_description e ∧ j_created_by e' = j_created_by e ∧
  j_lines e' = j_lines e ∧ (j_reversed e = true → j_reversed e' = true).

#[export] Instance same_entry_preorder : PreOrder same_entry.
Proof.
  split; [by intros e; repeat split|].
  intros x y z (H1 & H2 & H3 & H4 & H5 & H6 & H7 & H8 & H9 & H10) (K1 & K2 & K3 & K4 & K5 & K6 & K7 & K8 & K9 & K10).
  repeat split; try congruence. auto.
Qed.

(** The journal grows at its end; old entries keep what is fixed. *)
Definition extends (b b' : books) : Prop :=
  ∃ kept new, journal b' = kept ++ new ∧ Forall2 same_entry (journal b) kept.

Lemma map_entry_same id f j :
  (∀ e, e ∈ j → j_id e = id → same_entry e (f e)) → Forall2 same_entry j (map_entry id f j).
Proof.
  intros Hf. induction j as [|e j IH]; constructor.
  - destruct (Z.eqb_spec (j_id e) id); [|by repeat split]. apply Hf; [by left|done].
  - apply IH. intros x Hx. apply Hf. by right.
Qed.

Lemma balanced_same e e' : same_entry e e' → balanced_entry e → balanced_entry e'.
Proof. unfold balanced_entry. by intros (_ & _ & _ & _ & _ & _ & _ & _ & -> & _). Qed.

Lemma wf_same b b' : Forall2 same_entry (journal b) (journal b') → wf b → wf b'.
Proof.
  intros Hs [H1 H2 H3]. split.
  - intros i e Hi. destruct (Forall2_lookup_r _ _ _ _ _ Hs Hi) as (e0 & Hi0 & Hsame).
    destruct Hsame as (-> & _). by apply H1.
  - apply Forall_lookup. intros i e Hi. destruct (Forall2_lookup_r _ _ _ _ _ Hs Hi) as (e0 & Hi0 & Hsame).
    by apply (balanced_same e0), (proj1 (Forall_lookup _ _) H2 i).
  - assert (map reference_of (journal b') = map reference_of (journal b)) as ->; [|done].
    clear H1 H2 H3. induction Hs as [|e e' j j' (_ & Hr & _ & _ & Ht & Hrf & _) _ IH]; [done|]. cbn. rewrite IH.
    unfold reference_of. by rewrite Hr, Ht, Hrf.
Qed.

#[export] Instance extends_preorder : PreOrder extends.
Proof.
  split.
  - intros b. exists (journal b), []. rewrite app_nil_r. split; [done|]. reflexivity.
  - intros b1 b2 b3 (k1 & n1 & E1 & H1) (k2 & n2 & E2 & H2). rewrite E1 in H2.
    apply Forall2_app_inv_l in H2 as (k2a & k2b & Ha & Hb & ->).
    exists k2a, (k2b ++ n2). rewrite E2. split; [by rewrite app_assoc|]. by etrans.
Qed.

Section Creation.
Context (b : books) (Hwf : wf b).

Lemma insert_line_Ok l r : insert_line l = Ok r → one_sided_line r ∧ jl_account r = rl_account l.
Proof using Type.
  unfold insert_line. intros E. apply res_bind_Ok in E as (d & Hd' & E). apply res_bind_Ok in E as (c & Hc' & E).
  apply res_bind_Ok in E as ([] & Hn & E). apply res_bind_Ok in E as ([] & Hp & [= <-]).
  assert (∀ x y, numeric_14_2 x = Ok y → y < 10 ^ 14) as Hb.
  { unfold numeric_14_2. intros x y. destruct (Z.ltb_spec (Z.abs x) (10 ^ 14)); [intros [= <-]; lia|done]. }
  apply Hb in Hd', Hc'. clear Hb.
  apply raise_if_Ok in Hn, Hp. apply orb_false_iff in Hn as [Hd%Z.ltb_ge Hc%Z.ltb_ge]. apply negb_false_iff in Hp.
  split; [|done]. unfold one_sided_line. cbn. apply orb_true_iff in Hp as [Hp%Z.ltb_lt|Hp%Z.ltb_lt]; lia.
Qed.

(** The database accepts an entry only if it is balanced and its reference is
    new, outside closed periods. *)
Lemma fn_create_Ok restaurant branch date type ref descr who lines b' e :
  fn_create_journal_entry restaurant branch date type ref descr who lines b = Ok (b', e) → lines ≠ [] →
  b' = with_journal b (journal b ++ [e]) ∧ j_id e = Z.of_nat (length (journal b)) + 1 ∧ balanced_entry e ∧
  reference_of e = (restaurant, type, ref) ∧ j_date e = date ∧ j_branch e = branch ∧
  j_reversed e = false ∧ reference_of e ∉ map reference_of (journal b) ∧
  in_shut_period b restaurant date = false ∧ Forall2 (λ l r, insert_line l = Ok r) lines (j_lines e).
Proof using Type.
  unfold fn_create_journal_entry. intros E Hne.
  apply res_bind_Ok in E as (td & _ & E). apply res_bind_Ok in E as (tc & _ & E).
  apply res_bind_Ok in E as ([] & _ & E). apply res_bind_Ok in E as ([] & Hshut & E).
  apply res_bind_Ok in E as ([] & Href & E). apply res_bind_Ok in E as (rows & Hrows & E).
  apply res_bind_Ok in E as ([] & Hbal & E). apply res_bind_Ok in E as ([] & Htwo & [= <- <-]).
  apply raise_if_Ok in Hshut, Href, Hbal, Htwo. apply negb_false_iff, Z.eqb_eq in Hbal. apply Z.eqb_neq in Htwo.
  apply res_map_Ok_Forall2 in Hrows. pose proof (Forall2_length _ _ _ Hrows) as Hlen.
  cbn [j_id j_lines j_reversed j_date j_branch reference_of j_restaurant j_type j_ref].
  split; [done|]. split; [done|]. split.
  { split; [|split; [|done]].
    - destruct lines as [|l0 [|l1 ls]]; [done| |]; cbn in *; lia.
    - apply Forall_lookup. intros i r Hr. destruct (Forall2_lookup_r _ _ _ _ _ Hrows Hr) as (l & _ & Hins).
      by apply insert_line_Ok in Hins as [? _]. }
  do 4 (split; [done|]). split; [|done].
  intros (e & He & Hin)%list_elem_of_fmap. apply not_true_iff_false in Href. apply Href, existsb_exists.
  exists e. split; [by apply list_elem_of_In|]. unfold same_reference. injection He as -> -> ->.
  by rewrite !bool_decide_eq_true_2.
Qed.

Lemma append_wf e :
  j_id e = Z.of_nat (length (journal b)) + 1 → balanced_entry e → reference_of e ∉ map reference_of (journal b) →
  wf (with_journal b (journal b ++ [e])) ∧ extends b (with_journal b (journal b ++ [e])).
Proof using Hwf.
  intros Hid Hbal Href. split; [split; cbn|].
  - intros i x [Hi|[Hi Hx]]%lookup_app_Some; [by apply (wf_ids _ Hwf)|].
    apply list_lookup_singleton_Some in Hx as [Hx <-]. lia.
  - apply Forall_app_2; [apply Hwf|by constructor].
  - rewrite map_app. apply NoDup_app. split; [apply Hwf|]. split; [|apply NoDup_singleton].
    intros x Hx Hin. apply list_elem_of_singleton in Hin. by subst.
  - exists (journal b), [e]. split; [done|reflexivity].
Qed.
End Creation.

(** ** Amounts survive the float detour *)

Lemma add_cents t x :
  0 <= t → 0 <= coef x → paise_of_numeric (numeric_add (Dec t (-2)) x) = t + paise_of_numeric x.
Proof.
  intros Ht Hx. unfold paise_of_numeric, numeric_add, rescale. cbn [coef dexp].
  destruct (Z.leb_spec (-2) (dexp x)).
  - rewrite Z.min_l by lia. replace (-2 <=? -2) with true by done. rewrite Z.sub_diag, Z.pow_0_r. lia.
  - rewrite Z.min_r by lia. destruct (Z.leb_spec (-2) (dexp x)); [lia|]. rewrite Z.sub_diag, Z.pow_0_r, !Z.mul_1_r.
    pose proof (pow10_pos (-2 - dexp x) ltac:(lia)) as Hp.
    rewrite !round_half_up_eq by nia. rewrite <-Z.div_add_l by lia. f_equal. ring.
Qed.

Lemma through_float_cents n : 0 <= n < 10 ^ 15 →
  paise_of_numeric (through_float (Dec n (-2))) = n ∧ 0 <= coef (through_float (Dec n (-2))).
Proof.
  intros Hn. pose proof (money_through_float ROUND_HALF_UP n Hn) as H. split; [done|].
  destruct (Z.eq_dec n 0) as [->|]; [by vm_compute|].
  assert (0 < coef (through_float (Dec n (-2)))); [|lia]. apply (rescale_pos_coef ROUND_HALF_UP (-2)).
  unfold through_float. lia.
Qed.

(** Account, debit and credit in paise. *)
Notation row := (Z * Z * Z)%type.

Definition sided_row (r : row) : Prop := 0 <= r.1.2 ∧ 0 <= r.2 ∧ (r.1.2 = 0 ∧ r.2 ≠ 0 ∨ r.2 = 0 ∧ r.1.2 ≠ 0).

Definition row_debit (l : list row) : Z := zsum (map (λ r, r.1.2) l).
Definition row_credit (l : list row) : Z := zsum (map (λ r, r.2) l).

(** What a line says: its account resolves and its amounts are these paise. *)
Definition says (b : books) (restaurant : string) (l : line) (r : row) : Prop :=
  _resolve_account b restaurant (ln_account l) = Ok r.1.1 ∧
  _quantize (ln_debit l) = Ok (Dec r.1.2 (-2)) ∧ _quantize (ln_credit l) = Ok (Dec r.2 (-2)) ∧ sided_row r.

Definition raw_of (l : line) (r : row) : raw_line := {|
  rl_account := r.1.1; rl_debit := through_float (Dec r.1.2 (-2)); rl_credit := through_float (Dec r.2 (-2));
  rl_description := ln_description l |}.

Definition jline_of (raw : raw_line) (r : row) : jline := {|
  jl_account := r.1.1; jl_debit := r.1.2; jl_credit := r.2; jl_description := rl_description raw |}.

Lemma dec_cents n : at_scale 2 (Dec n (-2)) n.
Proof. by apply at_scale_Dec. Qed.

Lemma row_bounds l r : Forall sided_row l → r ∈ l → r.1.2 <= row_debit l ∧ r.2 <= row_credit l.
Proof.
  intros Hl Hr. split; apply zsum_elem;
    (apply list_elem_of_fmap; by exists r) || (apply Forall_map; eapply Forall_impl; [exact Hl|]; unfold sided_row; cbn; lia).
Qed.

Lemma check_line_says b restaurant l r totals A C :
  says b restaurant l r → at_scale 2 totals.1 A → at_scale 2 totals.2 C →
  0 <= A → 0 <= C → A + r.1.2 < 10 ^ 20 → C + r.2 < 10 ^ 20 →
  ∃ totals', check_line totals l = Ok totals' ∧ at_scale 2 totals'.1 (A + r.1.2) ∧ at_scale 2 totals'.2 (C + r.2).
Proof.
  intros (_ & Hd & Hc & H1 & H2 & H3) HA HC HA0 HC0 HA1 HC1. unfold check_line. rewrite Hd, Hc, !bind_Ok.
  pose proof (proj2 (at_scale_zero 2 d_zero) eq_refl) as H0.
  rewrite (dltb_at_scale 2 _ _ _ _ (dec_cents r.1.2) H0), (dltb_at_scale 2 _ _ _ _ (dec_cents r.2) H0).
  rewrite (dpos_at_scale 2 _ _ (dec_cents r.1.2)), (dpos_at_scale 2 _ _ (dec_cents r.2)).
  rewrite (deqb_at_scale 2 _ _ _ _ (dec_cents r.1.2) H0), (deqb_at_scale 2 _ _ _ _ (dec_cents r.2) H0).
  destruct (Z.ltb_spec r.1.2 0), (Z.ltb_spec r.2 0); [lia..|]. cbn [orb raise_if]. rewrite bind_Ok.
  assert ((0 <? r.1.2) && (0 <? r.2) = false) as -> by (destruct (Z.ltb_spec 0 r.1.2), (Z.ltb_spec 0 r.2); lia).
  assert ((r.1.2 =? 0) && (r.2 =? 0) = false) as -> by (destruct (Z.eqb_spec r.1.2 0), (Z.eqb_spec r.2 0); lia).
  cbn [raise_if]. rewrite !bind_Ok. eexists. split; [done|]. cbn [fst snd].
  split; apply dadd_at_scale; try done; try apply dec_cents; unfold fits, prec; change (10 ^ 28) with (10 ^ 20 * 10 ^ 8); lia.
Qed.

Lemma says_sided b restaurant lines rows : Forall2 (says b restaurant) lines rows → Forall sided_row rows.
Proof. induction 1 as [|l r ls rs (_ & _ & _ & H) _ IH]; [apply Forall_nil_2|by apply Forall_cons_2]. Qed.

Lemma row_sums_nonneg (rs : list row) : Forall sided_row rs → 0 <= row_debit rs ∧ 0 <= row_credit rs.
Proof.
  intros H. split; apply zsum_nonneg, Forall_map; (eapply Forall_impl; [exact H|]); unfold sided_row; cbn; lia.
Qed.

Lemma check_lines_say b restaurant lines rows totals A C :
  Forall2 (says b restaurant) lines rows →
  at_scale 2 totals.1 A → at_scale 2 totals.2 C → 0 <= A → 0 <= C →
  A + row_debit rows < 10 ^ 20 → C + row_credit rows < 10 ^ 20 →
  ∃ totals', res_foldl check_line totals lines = Ok totals' ∧
    at_scale 2 totals'.1 (A + row_debit rows) ∧ at_scale 2 totals'.2 (C + row_credit rows).
Proof.
  intros Hsays. revert totals A C. induction Hsays as [|l r ls rs Hl Hls IH]; intros totals A C HA HC HA0 HC0 HA1 HC1.
  { exists totals. cbn in *. by rewrite !Z.add_0_r. }
  pose proof (row_sums_nonneg rs (says_sided _ _ _ _ Hls)) as [Hd0 Hc0]. pose proof Hl as (_ & _ & _ & Hr1 & Hr2 & _).
  unfold row_debit, row_credit in *. cbn [map] in *. rewrite zsum_cons in *.
  destruct (check_line_says b restaurant l r totals A C Hl HA HC HA0 HC0) as (t' & E & Ht1 & Ht2); [lia|lia|].
  cbn [res_foldl]. rewrite E, bind_Ok.
  destruct (IH t' (A + r.1.2) (C + r.2)) as (t2 & E2 & H1 & H2); [done|done|lia|lia|lia|lia|].
  exists t2. split; [done|]. rewrite zsum_cons. by rewrite !Z.add_assoc.
Qed.

Lemma resolve_lines_say b restaurant lines rows :
  Forall2 (says b restaurant) lines rows →
  ∃ raws, res_map (resolve_line b restaurant) lines = Ok raws ∧ Forall2 (λ raw r, ∃ l, raw = raw_of l r) raws rows.
Proof.
  induction 1 as [|l r ls rs (Ha & Hd & Hc & _) _ (raws & E & H)]; [by exists []|].
  exists (raw_of l r :: raws). cbn [res_map].
  assert (resolve_line b restaurant l = Ok (raw_of l r)) as -> by (unfold resolve_line; by rewrite Ha, Hd, Hc).
  rewrite bind_Ok. split; [by rewrite E|]. constructor; [by exists l|done].
Qed.

Definition small_row (r : row) : Prop := sided_row r ∧ r.1.2 < 10 ^ 14 ∧ r.2 < 10 ^ 14.

Lemma insert_raw l r : small_row r → insert_line (raw_of l r) = Ok (jline_of (raw_of l r) r).
Proof.
  intros ((H1 & H2 & H3) & H4 & H5). unfold insert_line. cbn [raw_of rl_debit rl_credit].
  destruct (through_float_cents r.1.2) as [-> _]; [lia|]. destruct (through_float_cents r.2) as [-> _]; [lia|].
  unfold numeric_14_2. destruct (Z.ltb_spec (Z.abs r.1.2) (10 ^ 14)); [|lia].
  destruct (Z.ltb_spec (Z.abs r.2) (10 ^ 14)); [|lia]. rewrite !bind_Ok.
  destruct (Z.ltb_spec r.1.2 0), (Z.ltb_spec r.2 0); [lia..|]. cbn [orb raise_if]. rewrite bind_Ok.
  destruct (Z.ltb_spec 0 r.1.2), (Z.ltb_spec 0 r.2); cbn [orb negb raise_if]; rewrite ?bind_Ok; done || lia.
Qed.

Lemma totals_say (x : raw_line → decimal) (y : row → Z) raws rows t :
  (∀ l r, x (raw_of l r) = through_float (Dec (y r) (-2))) → (∀ r, small_row r → 0 <= y r < 10 ^ 14) →
  Forall2 (λ raw r, ∃ l, raw = raw_of l r) raws rows → Forall small_row rows →
  0 <= t → t + zsum (map y rows) < 10 ^ 14 →
  res_foldl (add_total x) t raws = Ok (t + zsum (map y rows)).
Proof.
  intros Hx Hy Hraw. revert t. induction Hraw as [|raw r rs ls (l & ->) _ IH]; intros t Hsm Ht Hlt.
  { cbn. by rewrite Z.add_0_r. }
  apply Forall_cons in Hsm as [Hr Hrs]. pose proof (Hy r Hr) as Hyr.
  assert (0 <= zsum (map y ls)) as H0.
  { apply zsum_nonneg, Forall_map. eapply Forall_impl; [exact Hrs|]. intros q Hq. cbv beta. destruct (Hy q Hq). done. }
  cbn [map] in *. rewrite zsum_cons in Hlt |- *.
  assert (add_total x t (raw_of l r) = Ok (t + y r)) as Hadd.
  { unfold add_total. rewrite Hx. destruct (through_float_cents (y r)) as [Hv Hc]; [lia|]. rewrite add_cents, Hv by done.
    unfold numeric_14_2. by destruct (Z.ltb_spec (Z.abs (t + y r)) (10 ^ 14)); [|lia]. }
  cbn [res_foldl]. rewrite Hadd, bind_Ok.
  rewrite IH by (done || lia). f_equal. lia.
Qed.

Lemma insert_lines_say raws rows :
  Forall2 (λ raw r, ∃ l, raw = raw_of l r) raws rows → Forall small_row rows →
  ∃ jls, res_map insert_line raws = Ok jls ∧
    Forall2 (λ j r, jl_account j = r.1.1 ∧ jl_debit j = r.1.2 ∧ jl_credit j = r.2) jls rows ∧
    sum_debit jls = row_debit rows ∧ sum_credit jls = row_credit rows.
Proof.
  induction 1 as [|raw r rs ls (l & ->) _ IH]; intros Hsm; [by exists []|].
  apply Forall_cons in Hsm as [Hr Hrs]. destruct (IH Hrs) as (jls & E & H & H1 & H2).
  exists (jline_of (raw_of l r) r :: jls). cbn [res_map]. rewrite insert_raw, bind_Ok, E by done.
  split; [done|]. split; [by constructor|]. unfold sum_debit, sum_credit, row_debit, row_credit in *.
  cbn [map]. rewrite !zsum_cons, H1, H2. done.
Qed.

(** The journal's rows for these lines. *)
Definition lines_are (e : jentry) (rows : list row) : Prop :=
  Forall2 (λ j r, jl_account j = r.1.1 ∧ jl_debit j = r.1.2 ∧ jl_credit j = r.2) (j_lines e) rows.

Lemma fn_create_says b restaurant branch date type ref descr who raws rows :
  Forall2 (λ raw r, ∃ l, raw = raw_of l r) raws rows → Forall small_row rows →
  (2 <= length rows)%nat → row_debit rows = row_credit rows → row_debit rows < 10 ^ 14 →
  in_shut_period b restaurant date = false → existsb (same_reference restaurant type ref) (journal b) = false →
  ∃ e, fn_create_journal_entry restaurant branch date type ref descr who raws b = Ok (with_journal b (journal b ++ [e]), e) ∧
    lines_are e rows ∧ reference_of e = (restaurant, type, ref) ∧ j_date e = date ∧
    j_id e = Z.of_nat (length (journal b)) + 1.
Proof.
  intros Hraw Hsmall Hlen Hbal Hlt Hshut Hnew.
  assert (∀ r, small_row r → 0 <= r.1.2 < 10 ^ 14) as Hyd by (unfold small_row, sided_row; lia).
  assert (∀ r, small_row r → 0 <= r.2 < 10 ^ 14) as Hyc by (unfold small_row, sided_row; lia).
  destruct (insert_lines_say raws rows Hraw Hsmall) as (jls & Hjls & Hsay & Hd & Hc).
  unfold fn_create_journal_entry.
  rewrite (totals_say rl_debit (λ r, r.1.2) raws rows 0), bind_Ok by (done || unfold row_debit in *; lia).
  rewrite (totals_say rl_credit (λ r, r.2) raws rows 0), bind_Ok by (done || unfold row_debit, row_credit in *; lia).
  fold (row_debit rows) (row_credit rows). rewrite Hbal, Z.eqb_refl. cbn [negb raise_if]. rewrite bind_Ok, Hshut.
  cbn [raise_if]. rewrite bind_Ok, Hnew. cbn [raise_if]. rewrite bind_Ok, Hjls, bind_Ok, Hd, Hc, Hbal, Z.eqb_refl.
  cbn [negb raise_if]. rewrite bind_Ok. pose proof (Forall2_length _ _ _ Hsay) as Hl.
  destruct (Z.eqb_spec (Z.of_nat (length jls)) 1); [lia|]. cbn [raise_if]. rewrite bind_Ok.
  eexists. split; [reflexivity|]. done.
Qed.

(** ** Every operation keeps the books *)

Definition kept (b b' : books) : Prop :=
  Forall2 same_entry (journal b) (journal b') ∧ accounts b' = accounts b ∧ periods b' = periods b.

Lemma kept_trans b1 b2 b3 : kept b1 b2 → kept b2 b3 → kept b1 b3.
Proof. intros (H1 & Ha1 & Hp1) (H2 & Ha2 & Hp2). split; [by etrans|]. by rewrite Ha2, Hp2. Qed.

Lemma kept_refl b : kept b b.
Proof. by repeat split. Qed.

Lemma kept_extends b b' : kept b b' → extends b b'.
Proof. intros (H & _). exists (journal b'), []. by rewrite app_nil_r. Qed.

Lemma mark_reversed_kept o r b b' : mark_reversed o r b = Ok b' → kept b b'.
Proof.
  unfold mark_reversed. intros E. apply res_bind_Ok in E as ([] & _ & [= <-]). split; [|done].
  apply map_entry_same. by intros e _ _; repeat split.
Qed.

Lemma link_reversal_kept r o b b' : link_reversal r o b = Ok b' → kept b b'.
Proof.
  unfold link_reversal. intros E. apply res_bind_Ok in E as ([] & _ & [= <-]). split; [|done].
  apply map_entry_same. by intros e _ _; repeat split.
Qed.

Lemma source_event_kept id event b : kept b (with_journal b (map_entry id (set_source_event event) (journal b))).
Proof. split; [|done]. apply map_entry_same. by intros e _ _; repeat split. Qed.

(** A call adds nothing, or one balanced entry with a new reference, dated
    outside closed periods. *)
Definition adds_one (b b' : books) (e : jentry) : Prop :=
  kept (with_journal b (journal b ++ [e])) b' ∧ j_id e = Z.of_nat (length (journal b)) + 1 ∧ balanced_entry e ∧
  reference_of e ∉ map reference_of (journal b) ∧ in_shut_period b (j_restaurant e) (j_date e) = false.

Lemma adds_one_wf b b' e : wf b → adds_one b b' e → wf b' ∧ extends b b'.
Proof.
  intros Hwf (Hk & Hid & Hbal & Href & _). destruct (append_wf b Hwf e Hid Hbal Href) as [Hw Hx].
  split; [by eapply wf_same; [apply Hk|]|]. etrans; [exact Hx|by apply kept_extends].
Qed.

Lemma annotate_kept rq e b b' : annotate rq e b = Ok b' → kept b b'.
Proof.
  unfold annotate. intros E. apply res_bind_Ok in E as (b2 & Hr & [= <-]).
  assert (kept b b2) as Hk.
  { destruct (er_reversed_entry rq) as [o|]; [|injection Hr as <-; apply kept_refl].
    destruct (er_is_reversal rq); [|injection Hr as <-; apply kept_refl].
    apply res_bind_Ok in Hr as (b' & H1 & H2). apply link_reversal_kept in H1. apply mark_reversed_kept in H2.
    by eapply kept_trans. }
  destruct (er_source_event rq) as [ev|]; [|done]. destruct (bool_decide _); [done|].
  eapply kept_trans; [exact Hk|]. apply source_event_kept.
Qed.

Lemma create_entry_effect today rq b b' id :
  create_journal_entry today rq b = Ok (b', id) →
  (b' = b ∧ ∀ n, id = Some n → ∃ e, e ∈ journal b ∧ j_id e = n ∧ reference_of e = (er_restaurant rq, er_type rq, er_ref rq)) ∨
  ∃ e, adds_one b b' e ∧ id = Some (j_id e) ∧ reference_of e = (er_restaurant rq, er_type rq, er_ref rq) ∧
    in_shut_period b (er_restaurant rq) (default today (er_date rq)) = false.
Proof.
  unfold create_journal_entry. case_match; [by intros [= <- <-]; left|]. intros E.
  apply res_bind_Ok in E as ([] & Hv & E). unfold enter_entry in E. apply res_bind_Ok in E as ([] & Hshut & E).
  apply raise_if_Ok in Hshut. destruct (find _ (journal b)) as [old|] eqn:Hf.
  { injection E as <- <-. left. split; [done|]. intros n [= <-]. apply find_some in Hf as [Hin Hs].
    exists old. split; [by apply list_elem_of_In|]. split; [done|]. unfold same_reference in Hs.
    rewrite !andb_true_iff, !bool_decide_eq_true in Hs. unfold reference_of. by destruct Hs as [[-> ->] ->]. }
  apply res_bind_Ok in E as (raws & Hraws & E). apply res_bind_Ok in E as ([b1 e] & Hc & E).
  apply res_bind_Ok in E as (b2 & Hr & [= <- <-]). right. exists e.
  assert (raws ≠ []) as Hne.
  { apply res_map_Ok_Forall2, Forall2_length in Hraws. unfold validate_request in Hv.
    apply res_bind_Ok in Hv as ([] & _ & Hv). apply res_bind_Ok in Hv as ([] & Hl & _).
    apply raise_if_Ok, bool_decide_eq_false in Hl. destruct raws; [|done]. by destruct (er_lines rq). }
  destruct (fn_create_Ok b _ _ _ _ _ _ _ _ _ _ Hc Hne) as (-> & Hid & Hbal & Href & Hdate & _ & _ & Hnew & Hs & _).
  assert (j_restaurant e = er_restaurant rq) as Hrest by (exact (f_equal (λ x, x.1.1) Href)).
  split; [|done]. split; [by eapply annotate_kept|]. do 3 (split; [done|]). by rewrite Hrest, Hdate.
Qed.

Lemma reverse_effect today id reason who b b' rid :
  reverse_entry today id reason who b = Ok (b', rid) →
  ∃ o e, find_entry b id = Some o ∧ adds_one b b' e ∧ rid = j_id e ∧ j_reversed o = false ∧
    reference_of e = (j_restaurant o, "reversal"%string, reversal_ref id) ∧
    in_shut_period b (j_restaurant o) (j_date o) = false ∧
    Forall2 (λ l r, insert_line (reversal_line l) = Ok r) (j_lines o) (j_lines e).
Proof.
  unfold reverse_entry. destruct (find_entry b id) as [o|] eqn:Hf; [|done]. intros E.
  apply res_bind_Ok in E as ([] & Hrev & E). apply res_bind_Ok in E as ([] & Hs & E).
  apply res_bind_Ok in E as ([] & Hne & E). apply res_bind_Ok in E as ([b1 e] & Hc & E).
  apply res_bind_Ok in E as (b2 & H1 & E). apply res_bind_Ok in E as (b3 & H2 & [= <- <-]).
  apply raise_if_Ok in Hrev, Hs, Hne. apply bool_decide_eq_false in Hne. exists o, e. cbn [fst snd] in *.
  assert (map reversal_line (j_lines o) ≠ []) as Hne2 by (by destruct (j_lines o)).
  destruct (fn_create_Ok b _ _ _ _ _ _ _ _ _ _ Hc Hne2) as (-> & Hid & Hbal & Href & Hdate & _ & _ & Hnew & Hs2 & Hrows).
  assert (j_restaurant e = j_restaurant o) as Hrest by (exact (f_equal (λ x, x.1.1) Href)).
  apply mark_reversed_kept in H1. apply link_reversal_kept in H2.
  split; [done|]. split; [|split; [done|split; [done|split; [done|split; [done|]]]]].
  - split; [by eapply kept_trans|]. do 3 (split; [done|]). by rewrite Hrest, Hdate.
  - by apply Forall2_fmap_l in Hrows.
Qed.

(** One call of the engine, or a change of the chart of accounts. *)
Inductive book_op (b : books) : books → Prop :=
  | BCreate today rq b' id : create_journal_entry today rq b = Ok (b', id) → book_op b b'
  | BReverse today id reason who b' r : reverse_entry today id reason who b = Ok (b', r) → book_op b b'
  | BClose now restaurant start stop who notes : book_op b (close_period now restaurant start stop who notes b).1
  | BReopen now restaurant start stop who notes b' id :
      reopen_period now restaurant start stop who notes b = Ok (b', id) → book_op b b'
  | BChart accts : book_op b {| accounts := accts; journal := journal b; periods := periods b |}.

Lemma same_journal b b' : wf b → journal b' = journal b → wf b' ∧ extends b b'.
Proof.
  intros [H1 H2 H3] E. split; [by split; rewrite E|]. exists (journal b'), []. rewrite app_nil_r. by rewrite E.
Qed.

Lemma op_keeps b b' : wf b → book_op b b' → wf b' ∧ extends b b'.
Proof.
  intros Hwf [today rq b1 id E|today id reason who b1 r E|now restaurant start stop who notes
             |now restaurant start stop who notes b1 id E|accts].
  - apply create_entry_effect in E as [[-> _]|(e & Ha & _)]; [by split|]. by eapply adds_one_wf.
  - apply reverse_effect in E as (o & e & _ & Ha & _). by eapply adds_one_wf.
  - apply same_journal; [done|]. unfold close_period. by repeat case_match.
  - apply same_journal; [done|]. unfold reopen_period in E. destruct (find_period _ _ _ _) as [p|]; [|done].
    by destruct (pr_status p); inversion E.
  - by apply same_journal.
Qed.

Lemma ops_keep b b' : wf b → rtc book_op b b' → wf b' ∧ extends b b'.
Proof.
  intros Hwf H. induction H as [b|b1 b2 b3 H1 _ IH]; [by split|].
  destruct (op_keeps b1 b2 Hwf H1) as [Hw Hx]. destruct (IH Hw) as [Hw2 Hx2]. split; [done|]. by etrans.
Qed.

(** C13: from empty books, after any sequence of calls, every journal entry has at
    least two lines, each moving a positive amount on one side or both, and
    equal debits and credits; no two entries share a reference; and entries are
    only appended: what an entry recorded, its lines above all, never changes,
    and a reversed entry stays reversed. *)
Theorem journal_stays_balanced b0 b1 b2 i e :
  journal b0 = [] → rtc book_op b0 b1 → rtc book_op b1 b2 → journal b1 !! i = Some e →
  balanced_entry e ∧ NoDup (map reference_of (journal b2)) ∧
  ∃ e', journal b2 !! i = Some e' ∧ same_entry e e'.
Proof.
  intros H0 H1 H2 Hi. assert (wf b0) as Hw0 by (split; rewrite H0; [done|done|apply NoDup_nil_2]).
  destruct (ops_keep b0 b1 Hw0 H1) as [Hw1 _]. destruct (ops_keep b1 b2 Hw1 H2) as [Hw2 (k & n & E & Hk)].
  split; [by apply (proj1 (Forall_lookup _ _) (wf_balanced _ Hw1) i)|]. split; [apply Hw2|].
  destruct (Forall2_lookup_l _ _ _ _ _ Hk Hi) as (e' & He' & Hs). exists e'. split; [|done].
  rewrite E. by apply lookup_app_l_Some.
Qed.

(** *** Closed periods *)

Definition dated (restaurant : string) (d : Z) (e : jentry) : Prop := j_restaurant e = restaurant ∧ j_date e = d.

#[export] Instance dated_dec restaurant d e : Decision (dated restaurant d e).
Proof. unfold dated. apply _. Defined.

Lemma filter_same restaurant d j j' :
  Forall2 same_entry j j' → Forall2 same_entry (filter (dated restaurant d) j) (filter (dated restaurant d) j').
Proof.
  induction 1 as [|e e' j j' He _ IH]; [constructor|]. rewrite !filter_cons.
  assert (dated restaurant d e' ↔ dated restaurant d e) as Hd
    by (destruct He as (_ & Hr & _ & Ht & _); unfold dated; by rewrite Hr, Ht).
  destruct (decide (dated restaurant d e)), (decide (dated restaurant d e')); try tauto. by constructor.
Qed.

Lemma adds_one_dated b b' e restaurant d :
  adds_one b b' e → in_shut_period b restaurant d = true →
  Forall2 same_entry (filter (dated restaurant d) (journal b)) (filter (dated restaurant d) (journal b')).
Proof.
  intros ((Hk & _) & _ & _ & _ & Hopen) Hshut. apply (filter_same restaurant d) in Hk. cbn [journal with_journal] in Hk.
  rewrite filter_app, filter_cons, filter_nil in Hk. destruct (decide (dated restaurant d e)) as [[<- <-]|]; [congruence|].
  by rewrite app_nil_r in Hk.
Qed.

(** A call after which the date is still in a closed period. *)
Definition stays_shut (restaurant : string) (d : Z) (b b' : books) : Prop :=
  book_op b b' ∧ in_shut_period b' restaurant d = true.

Lemma shut_step restaurant d b b' :
  in_shut_period b restaurant d = true → book_op b b' →
  Forall2 same_entry (filter (dated restaurant d) (journal b)) (filter (dated restaurant d) (journal b')).
Proof.
  intros Hshut [today rq b1 id E|today id reason who b1 r E|now r start stop who notes|now r start stop who notes b1 id E|accts].
  - apply create_entry_effect in E as [[-> _]|(e & Ha & _)]; [done|]. by eapply adds_one_dated.
  - apply reverse_effect in E as (o & e & _ & Ha & _). by eapply adds_one_dated.
  - unfold close_period. by repeat case_match.
  - unfold reopen_period in E. destruct (find_period _ _ _ _) as [p|]; [|done].
    by destruct (pr_status p); inversion E.
  - done.
Qed.

Lemma close_shuts now restaurant start stop who notes b d :
  start <= d <= stop → in_shut_period (close_period now restaurant start stop who notes b).1 restaurant d = true.
Proof.
  intros Hd. unfold in_shut_period. apply existsb_exists. unfold close_period.
  assert (start <=? d = true) as H1 by (apply Z.leb_le; lia). assert (d <=? stop = true) as H2 by (apply Z.leb_le; lia).
  destruct (find_period b restaurant start stop) as [p|] eqn:Hf.
  - unfold find_period in Hf. apply find_some in Hf as [Hin Hp].
    apply andb_prop in Hp as [Hp He%Z.eqb_eq]. apply andb_prop in Hp as [Hr Hs%Z.eqb_eq].
    destruct (is_shut (pr_status p)) eqn:Hst.
    + exists p. split; [done|]. by rewrite Hr, Hst, Hs, He, H1, H2.
    + cbn [fst periods with_periods]. eexists. split.
      * apply in_map_iff. exists p. by split.
      * rewrite Z.eqb_refl. cbn. by rewrite Hr, Hs, He, H1, H2.
  - cbn [fst periods with_periods]. eexists. split; [apply in_or_app; right; by left|]. cbn.
    by rewrite bool_decide_eq_true_2, H1, H2.
Qed.

(** Closing a period freezes it: as long as no call reopens it, the entries
    dated inside it stay the same in number and content, and none of them can
    be reversed. *)
Theorem closed_period_is_frozen now restaurant start stop who notes b b2 d :
  let b1 := (close_period now restaurant start stop who notes b).1 in
  start <= d <= stop → rtc (stays_shut restaurant d) b1 b2 →
  Forall2 same_entry (filter (dated restaurant d) (journal b)) (filter (dated restaurant d) (journal b2)) ∧
  (∀ today id reason by_ e, find_entry b2 id = Some e → dated restaurant d e →
     is_ok (reverse_entry today id reason by_ b2) = false).
Proof.
  intros b1 Hd Hr. pose proof (close_shuts now restaurant start stop who notes b d Hd) as Hshut. fold b1 in Hshut.
  assert (journal b1 = journal b) as Hj by (unfold b1, close_period; by repeat case_match). rewrite <-Hj. clearbody b1.
  assert (in_shut_period b2 restaurant d = true ∧
    Forall2 same_entry (filter (dated restaurant d) (journal b1)) (filter (dated restaurant d) (journal b2))) as [Hs Hf].
  { clear Hj. induction Hr as [x|x y z [Hxy Hy] _ IH]; [by split|]. destruct (IH Hy) as [Hz Hyz]. split; [done|].
    etrans; [by apply shut_step|done]. }
  split; [done|]. intros today id reason by_ e He [<- <-]. unfold reverse_entry. rewrite He.
  destruct (raise_if (j_reversed e) _) as [[]|]; [|done]. rewrite bind_Ok, Hs. done.
Qed.

(** *** Reversals *)

(** The net debit of an account over some lines. *)
Definition account_net (a : Z) (l : list jline) : Z :=
  sum_where (λ x, jl_account x =? a) (λ x, jl_debit x - jl_credit x) l.

Lemma reversal_line_swaps l r :
  one_sided_line l → insert_line (reversal_line l) = Ok r →
  jl_account r = jl_account l ∧ jl_debit r = jl_credit l ∧ jl_credit r = jl_debit l.
Proof.
  intros (Hd & Hc & _). unfold insert_line, reversal_line. cbn [rl_debit rl_credit rl_account].
  destruct (through_float_cents (jl_credit l)) as [-> _]; [lia|]. destruct (through_float_cents (jl_debit l)) as [-> _]; [lia|].
  intros E. apply res_bind_Ok in E as (d & Hd' & E). apply res_bind_Ok in E as (c & Hc' & E).
  apply res_bind_Ok in E as ([] & _ & E). apply res_bind_Ok in E as ([] & _ & [= <-]).
  unfold numeric_14_2 in Hd', Hc'. by repeat case_match; simplify_eq.
Qed.

Lemma swapped_net a l k :
  Forall one_sided_line l → Forall2 (λ x r, insert_line (reversal_line x) = Ok r) l k →
  account_net a l + account_net a k = 0.
Proof.
  intros Hl H. unfold account_net. induction H as [|x r l k Hx _ IH]; [done|]. apply Forall_cons in Hl as [Hs Hl].
  destruct (reversal_line_swaps x r Hs Hx) as (Ha & Hd & Hc). rewrite !sum_where_cons, Ha, Hd, Hc.
  specialize (IH Hl). destruct (jl_account x =? a); lia.
Qed.

Lemma find_map_entry id k f (j : list jentry) :
  (∀ e, j_id (f e) = j_id e) →
  find (λ e, j_id e =? id) (map_entry k f j) = (λ e, if j_id e =? k then f e else e) <$> find (λ e, j_id e =? id) j.
Proof.
  intros Hf. induction j as [|e j IH]; [done|]. cbn [map_entry map find].
  assert (j_id (if j_id e =? k then f e else e) = j_id e) as -> by (by destruct (j_id e =? k)).
  destruct (j_id e =? id); [done|exact IH].
Qed.

Lemma find_fresh_entry b e : wf b → j_id e = Z.of_nat (length (journal b)) + 1 →
  find (λ x, j_id x =? j_id e) (journal b ++ [e]) = Some e.
Proof.
  intros Hwf Hid. assert (find (λ x, j_id x =? j_id e) (journal b) = None) as Hn.
  { destruct (find _ _) as [x|] eqn:Hf; [|done]. apply find_some in Hf as [Hin Hx%Z.eqb_eq].
    apply list_elem_of_In, list_elem_of_lookup in Hin as [i Hi]. pose proof (wf_ids _ Hwf _ _ Hi).
    apply lookup_lt_Some in Hi. lia. }
  revert Hn. generalize (journal b). clear. intros l. induction l as [|x l IH]; cbn; [by rewrite Z.eqb_refl|].
  by destruct (j_id x =? j_id e).
Qed.

(** A reversal cancels its entry account by account: it books the same lines
    with debit and credit exchanged, to the paisa; the original keeps its lines,
    is marked with the reversal and the reversal with the original; and a second
    reversal is refused. *)
Theorem reversal_cancels today id reason who b b' rid :
  wf b → reverse_entry today id reason who b = Ok (b', rid) →
  ∃ o o' e', find_entry b id = Some o ∧ find_entry b' id = Some o' ∧ find_entry b' rid = Some e' ∧
    same_entry o o' ∧ j_reversed o' = true ∧ j_reversed_by o' = Some rid ∧ j_reversed_entry e' = Some id ∧
    j_date e' = today ∧ (∀ a, account_net a (j_lines o') + account_net a (j_lines e') = 0) ∧
    ∀ today2 reason2 who2,
      reverse_entry today2 id reason2 who2 b' = Err (ValidationError "Journal entry is already reversed").
Proof.
  intros Hwf E. destruct (reverse_effect _ _ _ _ _ _ _ E) as (o & e0 & Hf & _ & _ & _ & _ & _ & _).
  unfold reverse_entry in E. rewrite Hf in E.
  apply res_bind_Ok in E as ([] & _ & E). apply res_bind_Ok in E as ([] & _ & E).
  apply res_bind_Ok in E as ([] & Hne & E). apply res_bind_Ok in E as ([b1 e] & Hc & E).
  apply res_bind_Ok in E as (b2 & H1 & E). apply res_bind_Ok in E as (b3 & H2 & [= <- <-]). cbn [fst snd] in *.
  apply raise_if_Ok, bool_decide_eq_false in Hne.
  assert (map reversal_line (j_lines o) ≠ []) as Hne2 by (by destruct (j_lines o)).
  destruct (fn_create_Ok b _ _ _ _ _ _ _ _ _ _ Hc Hne2) as (-> & Hid & _ & _ & Hdate & _ & _ & _ & _ & Hrows).
  pose proof (find_some _ _ Hf) as [Hin Hoid%Z.eqb_eq]. apply list_elem_of_In in Hin.
  assert (id ≠ j_id e) as Hne3.
  { apply list_elem_of_lookup in Hin as [i Hi]. pose proof (wf_ids _ Hwf _ _ Hi). apply lookup_lt_Some in Hi. lia. }
  unfold mark_reversed in H1. apply res_bind_Ok in H1 as ([] & _ & [= <-]).
  unfold link_reversal in H2. apply res_bind_Ok in H2 as ([] & _ & [= <-]).
  pose proof (find_fresh_entry b e Hwf Hid) as Hfe.
  assert (find (λ x, j_id x =? id) (journal b ++ [e]) = Some o) as Hfo.
  { unfold find_entry in Hf. revert Hf. generalize (journal b). clear. intros l. induction l as [|x l IH]; [done|]. cbn.
    by destruct (j_id x =? id). }
  assert (∀ k, find_entry (with_journal b (map_entry (j_id e) (set_reversed_entry id)
      (map_entry id (set_reversed (j_id e)) (journal b ++ [e])))) k
    = (λ x, if j_id x =? j_id e then set_reversed_entry id x else x) <$>
      ((λ x, if j_id x =? id then set_reversed (j_id e) x else x) <$> find (λ x, j_id x =? k) (journal b ++ [e]))) as Hfind.
  { intros k. unfold find_entry. cbn [journal with_journal]. by rewrite !find_map_entry. }
  exists o, (set_reversed (j_id e) o), (set_reversed_entry id e).
  assert (j_id o =? id = true) as Eo by (by apply Z.eqb_eq). assert (j_id o =? j_id e = false) as Eo2 by (apply Z.eqb_neq; lia).
  assert (j_id e =? id = false) as Ee by (apply Z.eqb_neq; lia).
  split; [done|]. split.
  { cbn [journal with_journal] in *. rewrite Hfind, Hfo. cbn. rewrite Eo. cbn. by rewrite Eo2. }
  split.
  { rewrite Hfind, Hfe. cbn. rewrite Ee. by rewrite Z.eqb_refl. }
  split; [by repeat split|]. do 4 (split; [done|]). split.
  - intros a. apply swapped_net.
    + pose proof (proj1 (Forall_forall _ _) (wf_balanced _ Hwf) o Hin) as (_ & Hl & _). exact Hl.
    + by apply Forall2_fmap_l in Hrows.
  - intros today2 reason2 who2. unfold reverse_entry. rewrite Hfind, Hfo. cbn. rewrite Eo. cbn. by rewrite Eo2.
Qed.

(** *** What the engine records *)

Lemma find_same_reference restaurant type ref j e :
  find (same_reference restaurant type ref) j = None → reference_of e = (restaurant, type, ref) →
  find (same_reference restaurant type ref) (j ++ [e]) = Some e.
Proof.
  intros Hn He. injection He as <- <- <-.
  assert (same_reference (j_restaurant e) (j_type e) (j_ref e) e = true) as Hs
    by (unfold same_reference; by rewrite !bool_decide_eq_true_2).
  revert Hn. induction j as [|x j IH]; cbn [app find]; [by rewrite Hs|]. by destruct (same_reference _ _ _ x).
Qed.

(** A valid request is recorded to the paisa, and only once. *)
Lemma create_records b today rq rows :
  wf b → Forall2 (says b (er_restaurant rq)) (er_lines rq) rows → (2 <= length rows)%nat →
  row_debit rows = row_credit rows → row_debit rows < 10 ^ 14 →
  er_ref rq ≠ ""%string → er_restaurant rq ≠ ""%string → str_mem (er_type rq) VALID_REFERENCE_TYPES = true →
  in_shut_period b (er_restaurant rq) (default today (er_date rq)) = false →
  find (same_reference (er_restaurant rq) (er_type rq) (er_ref rq)) (journal b) = None → er_reversed_entry rq = None →
  ∃ b' e, create_journal_entry today rq b = Ok (b', Some (j_id e)) ∧ journal b' = journal b ++ [e] ∧
    lines_are e rows ∧ reference_of e = (er_restaurant rq, er_type rq, er_ref rq) ∧ j_date e = default today (er_date rq) ∧
    create_journal_entry today rq b' = Ok (b', Some (j_id e)).
Proof.
  intros Hwf Hsays Hlen Hbal Hlt Href Hrest Htype Hshut Hnew Hrev.
  pose proof (says_sided _ _ _ _ Hsays) as Hsided.
  assert (Forall small_row rows) as Hsmall.
  { apply Forall_forall. intros r Hr. pose proof (proj1 (Forall_forall _ _) Hsided r Hr) as Hs.
    destruct (row_bounds rows r Hsided Hr). split; [exact Hs|lia]. }
  destruct (row_sums_nonneg rows Hsided) as [Hd0 Hc0].
  pose proof (proj2 (at_scale_zero 2 d_zero) eq_refl) as H0.
  destruct (check_lines_say b (er_restaurant rq) _ rows (d_zero, d_zero) 0 0 Hsays H0 H0) as (t & Ht & Ht1 & Ht2); [lia..|].
  destruct (resolve_lines_say _ _ _ _ Hsays) as (raws & Hraws & Hraw).
  assert (existsb (same_reference (er_restaurant rq) (er_type rq) (er_ref rq)) (journal b) = false) as Hex.
  { apply not_true_iff_false. intros (x & Hx & Hs)%existsb_exists.
    pose proof (find_none _ _ Hnew x Hx) as Hf. congruence. }
  destruct (fn_create_says b (er_restaurant rq) (er_branch rq) (default today (er_date rq)) (er_type rq) (er_ref rq)
    (er_description rq) (er_created_by rq) raws rows Hraw Hsmall Hlen Hbal Hlt Hshut Hex)
    as (e & Hfn & Hlines & He & Hdate & Hid).
  assert (er_lines rq ≠ []) as Hne.
  { intros E. rewrite E in Hsays. inversion Hsays; subst. cbn in Hlen. lia. }
  assert (∀ x, create_journal_entry today rq x = enter_entry (default today (er_date rq)) rq x) as Hcreate.
  { intros x. unfold create_journal_entry, validate_request. rewrite (bool_decide_eq_false_2 _ Href), (bool_decide_eq_false_2 _ Hrest).
    cbn [orb]. rewrite Htype. cbn [negb raise_if]. rewrite bind_Ok, (bool_decide_eq_false_2 _ Hne). cbn [raise_if].
    by rewrite bind_Ok, Ht, bind_Ok, (deqb_at_scale 2 _ _ _ _ Ht1 Ht2), !Z.add_0_l, Hbal, Z.eqb_refl. }
  set (e' := match er_source_event rq with
             | Some event => if bool_decide (event = ""%string) then e else set_source_event event e | None => e end).
  set (b' := with_journal b (journal b ++ [e'])).
  assert (j_id e' = j_id e ∧ lines_are e' rows ∧ reference_of e' = reference_of e ∧ j_date e' = j_date e) as (Hi' & Hl' & Hr' & Hd').
  { unfold e'. destruct (er_source_event rq) as [ev|]; [|by repeat split]. destruct (bool_decide _); by repeat split. }
  assert (∀ f, map_entry (j_id e) f (journal b ++ [e]) = journal b ++ [f e]) as Hmap.
  { intros f. unfold map_entry. rewrite map_app. cbn [map]. rewrite Z.eqb_refl. f_equal. rewrite <-(map_id (journal b)) at 2.
    apply map_ext_in. intros x Hx%list_elem_of_In. apply list_elem_of_lookup in Hx as [i Hi].
    pose proof (wf_ids _ Hwf _ _ Hi). apply lookup_lt_Some in Hi. destruct (Z.eqb_spec (j_id x) (j_id e)); [lia|done]. }
  exists b', e'. split.
  { rewrite Hcreate. unfold enter_entry. rewrite Hshut. cbn [raise_if]. rewrite bind_Ok, Hnew, Hraws, bind_Ok, Hfn, bind_Ok, Hi'.
    unfold annotate. rewrite Hrev, bind_Ok. cbn [fst snd journal with_journal]. rewrite bind_Ok.
    unfold b', e'. destruct (er_source_event rq) as [ev|]; [|done]. destruct (bool_decide _); [done|]. by rewrite Hmap. }
  split; [done|]. split; [done|]. split; [by rewrite Hr'|]. split; [by rewrite Hd'|].
  rewrite Hcreate. unfold enter_entry. change (in_shut_period b' (er_restaurant rq) (default today (er_date rq)))
    with (in_shut_period b (er_restaurant rq) (default today (er_date rq))). rewrite Hshut. cbn [raise_if]. rewrite bind_Ok.
  cbn [journal with_journal b']. by rewrite (find_same_reference _ _ _ (journal b) e' Hnew) by (by rewrite Hr').
Qed.

(** The two-line events, with the accounts each debits and credits. *)
Inductive business_event :=
  | OrderCreated (order_id : string)
  | PaymentReceived (payment_id order_id method : string) (kind : option string)
  | DiscountGiven (order_id : string)
  | PaymentRefunded (payment_id order_id method : string)
  | GoodsConsumed (order_id : string)
  | GoodsReceived (grn_id : string)
  | VendorPaid (payment_id vendor_id method : string)
  | ExpensePaid (expense_id expense_account payment_account description : string)
  | IncomeReceived (income_id revenue_account receipt_account description : string)
  | ChargedBack (payment_id order_id method reason : string).

Definition run_event (pl : place) (ev : business_event) (amount : pyval) : Z → books → res (books * option Z) :=
  match ev with
  | OrderCreated o => record_order_created pl o amount
  | PaymentReceived p o m k => record_payment pl p o amount m k
  | DiscountGiven o => record_discount pl o amount
  | PaymentRefunded p o m => record_refund pl p o amount m
  | GoodsConsumed o => record_cogs pl o amount
  | GoodsReceived g => record_grn pl g amount
  | VendorPaid p v m => record_vendor_payment pl p v amount m
  | ExpensePaid i e p d => record_expense pl i amount e p d
  | IncomeReceived i r a d => record_income pl i amount r a d
  | ChargedBack p o m r => record_chargeback pl p o amount m r
  end.

(** The posting rule: debited account, credited account, reference. *)
Definition posting_rule (ev : business_event) : string * string * (string * string) :=
  match ev with
  | OrderCreated o => ("ACCOUNTS_RECEIVABLE", "FOOD_SALES", ("order", o))
  | PaymentReceived p _ m k => (money_account m k, "ACCOUNTS_RECEIVABLE", ("payment", p))
  | DiscountGiven o => ("DISCOUNT_EXPENSE", "ACCOUNTS_RECEIVABLE", ("discount", "disc_" ++ o))
  | PaymentRefunded p _ m => ("SALES_RETURNS", money_account m None, ("refund", "ref_" ++ p))
  | GoodsConsumed o => ("COGS_FOOD", "INVENTORY_FOOD", ("inventory_consumption", "cogs_" ++ o))
  | GoodsReceived g => ("INVENTORY_FOOD", "ACCOUNTS_PAYABLE", ("grn", g))
  | VendorPaid p _ m => ("ACCOUNTS_PAYABLE", _payment_method_account m, ("vendor_payment", p))
  | ExpensePaid i e p _ => (e, p, ("expense", i))
  | IncomeReceived i r a _ => (a, r, ("income", i))
  | ChargedBack p _ _ _ => ("SALES_RETURNS", "PG_CLEARING", ("chargeback", "cb_" ++ p))
  end%string.

Lemma quantize_cents n : 0 <= n < 10 ^ 15 → _quantize (py_float (Dec n (-2))) = Ok (Dec n (-2)).
Proof.
  intros Hn. unfold _quantize, py_float, parse_decimal. apply quantize_Ok.
  rewrite (money_through_float ROUND_HALF_UP n Hn). split; [done|]. unfold fits, prec. change (10 ^ 28) with (10 ^ 15 * 10 ^ 13). lia.
Qed.

Lemma two_lines_say b restaurant debited credited a c n d1 d2 :
  0 < n < 10 ^ 14 → _resolve_account b restaurant debited = Ok a → _resolve_account b restaurant credited = Ok c →
  Forall2 (says b restaurant) [dr debited (Dec n (-2)) d1; cr credited (Dec n (-2)) d2] [(a, n, 0); (c, 0, n)].
Proof.
  intros Hn Ha Hc. pose proof (quantize_cents n ltac:(lia)) as Hq.
  apply List.Forall2_cons; [|apply List.Forall2_cons; [|apply List.Forall2_nil]];
    (split; [done|]); (split; [exact Hq || reflexivity|]); (split; [exact Hq || reflexivity|]); unfold sided_row; cbn; lia.
Qed.

(** C36: every two-line business event is booked by its posting rule: an amount of
    [n] paise moves exactly [n] from the credited to the debited account in one
    new entry under the event's reference, whatever floats it travels through,
    and handling the event again returns the same entry and books nothing.  An
    amount that rounds to nothing books nothing. *)
Theorem events_follow_posting_rule pl ev amount n today b a c :
  wf b → _quantize amount = Ok (Dec n (-2)) → n < 10 ^ 14 →
  let '(debited, credited, (type, ref)) := posting_rule ev in
  _resolve_account b (at_restaurant pl) debited = Ok a → _resolve_account b (at_restaurant pl) credited = Ok c →
  at_restaurant pl ≠ ""%string → ref ≠ ""%string → in_shut_period b (at_restaurant pl) today = false →
  find (same_reference (at_restaurant pl) type ref) (journal b) = None →
  (n <= 0 → run_event pl ev amount today b = Ok (b, None)) ∧
  (0 < n → ∃ b' e, run_event pl ev amount today b = Ok (b', Some (j_id e)) ∧ journal b' = journal b ++ [e] ∧
     lines_are e [(a, n, 0); (c, 0, n)] ∧ reference_of e = (at_restaurant pl, type, ref) ∧ j_date e = today ∧
     run_event pl ev amount today b' = Ok (b', Some (j_id e))).
Proof.
  intros Hwf Hq Hn. destruct (posting_rule ev) as [[debited credited] [type ref]] eqn:Hrule.
  intros Ha Hc Hrest Href Hshut Hnew.
  assert (∃ descr event d1 d2, (∀ x, run_event pl ev amount today x = when_positive amount (λ amt,
    simple_entry pl type ref descr event [dr debited amt d1; cr credited amt d2]) today x) ∧
    str_mem type VALID_REFERENCE_TYPES = true) as (descr & event & d1 & d2 & Hrun & Htype).
  { destruct ev; cbn in Hrule; injection Hrule as <- <- <- <-; do 4 eexists; (split; [intros x; reflexivity|reflexivity]). }
  assert (∀ x, run_event pl ev amount today x = if negb (0 <? n) then Ok (x, None)
    else create_journal_entry today (simple_entry pl type ref descr event [dr debited (Dec n (-2)) d1; cr credited (Dec n (-2)) d2]) x) as Hrun2.
  { intros x. rewrite Hrun. unfold when_positive. by rewrite Hq, bind_Ok, (dpos_at_scale 2 _ _ (dec_cents n)). }
  split; [intros Hneg; rewrite Hrun2; by destruct (Z.ltb_spec 0 n); [lia|]|]. intros Hpos.
  destruct (create_records b today (simple_entry pl type ref descr event [dr debited (Dec n (-2)) d1; cr credited (Dec n (-2)) d2])
    [(a, n, 0); (c, 0, n)] Hwf) as (b' & e & H1 & H2 & H3 & H4 & H5 & H6); try done.
  - by apply two_lines_say.
  - change (n + (0 + 0) < 10 ^ 14). lia.
  - exists b', e. rewrite !Hrun2. destruct (Z.ltb_spec 0 n); [|lia]. done.
Qed.

(** *** Reports *)

Lemma left_joined_lines b cond acct :
  map fst (left_joined b cond acct) = mjoin (map (λ e, filter (λ l, jl_account l = acct) (j_lines e)) (journal b)).
Proof.
  unfold left_joined. generalize (journal b). intros j. induction j as [|e j IH]; [done|].
  cbn [map mjoin list_join]. rewrite map_app. f_equal; [|exact IH]. rewrite map_map. apply map_id.
Qed.

Lemma joined_row_any b cond cond' a : joined_row b cond a = joined_row b cond' a.
Proof.
  unfold joined_row. f_equal.
  - rewrite <-!(map_map fst jl_debit). by rewrite !left_joined_lines.
  - rewrite <-!(map_map fst jl_credit). by rewrite !left_joined_lines.
Qed.

(** The date, branch and reversal conditions of the trial balance stand in the ON
    clause of an outer join, so they change no sum: the report is the same for
    every date and branch. *)
Lemma trial_balance_ignores_filters today restaurant as_of as_of' branch branch' b :
  get_trial_balance today restaurant as_of branch b = get_trial_balance today restaurant as_of' branch' b.
Proof.
  unfold get_trial_balance. assert (∀ c c', joined_rows b restaurant all_types c = joined_rows b restaurant all_types c') as E;
    [|by rewrite (E _ (report_cond (default today as_of') branch'))].
  intros c c'. unfold joined_rows. do 2 f_equal. apply map_ext. intros a. apply joined_row_any.
Qed.

(** ** Examples *)

Definition demo_chart : list account :=
  let acct id code system type := {| ac_id := id; ac_restaurant := "r1"; ac_code := code; ac_system := Some system;
                                     ac_name := system; ac_type := type; ac_active := true |} in
  [acct 1 "1001" "CASH_ACCOUNT" Asset; acct 2 "1006" "PG_CLEARING" Asset; acct 3 "1007" "ACCOUNTS_RECEIVABLE" Asset;
   acct 4 "4001" "FOOD_SALES" Revenue; acct 5 "5007" "SALES_RETURNS" Expense]%string.

Definition demo_books : books := {| accounts := demo_chart; journal := []; periods := [] |}.
Definition demo_place : place := {| at_restaurant := "r1"; at_branch := None; by_user := "u1" |}.

Definition after_call {A} (r : res (books * A)) (b : books) : books := match r with Ok (b', _) => b' | Err _ => b end.

Lemma after_call_ok {A} (r : res (books * A)) b : is_ok r = true → ∃ x, r = Ok (after_call r b, x).
Proof. destruct r as [[b' x]|e]; [by exists x|done]. Qed.

(** A sale of 100 rupees on day 10, and its reversal on day 11. *)
Definition sold : books := after_call (record_order_created demo_place "o1" (PInt 100) 10 demo_books) demo_books.
Definition unsold : books := after_call (reverse_entry 11 1 "" "u1" sold) sold.

(** The reversal is counted and the reversed entry is not: undoing a sale of 100
    leaves a revenue of -100 and a balance sheet that does not balance. *)
Example reversal_counts_twice :
  is_revenue (get_income_statement 12 1 "r1" None None None unsold) = -10000 ∧
  bs_assets (get_balance_sheet 12 "r1" None None unsold) = 0 ∧
  bs_equity (get_balance_sheet 12 "r1" None None unsold) = -10000 ∧
  bs_balanced (get_balance_sheet 12 "r1" None None unsold) = false.
Proof. vm_compute. done. Qed.

(** Two partial refunds of the same amount share a reference: the second is
    taken for a repetition of the first. *)
Example equal_partial_refunds_merge :
  let once := after_call (record_partial_refund demo_place "p1" "o1" (PInt 10) (PInt 100) "cash" "" 10 demo_books) demo_books in
  let twice := after_call (record_partial_refund demo_place "p1" "o1" (PInt 10) (PInt 100) "cash" "" 11 once) once in
  length (journal once) = 1%nat ∧ length (journal twice) = 1%nat.
Proof. vm_compute. done. Qed.

Example system_accounts_distinct : _assert_distinct_codes SYSTEM_ACCOUNTS = Ok ().
Proof. vm_compute. done. Qed.

Lemma demo_sale : ∃ x, create_journal_entry 10 (simple_entry demo_place "order" "o1" "Sale — order o1" None
    [dr "ACCOUNTS_RECEIVABLE" (Dec 10000 (-2)) "Order o1 receivable"; cr "FOOD_SALES" (Dec 10000 (-2)) "Order o1 revenue"])%string
    demo_books = Ok (sold, x).
Proof. eexists. vm_compute. reflexivity. Qed.

Lemma demo_sold : rtc book_op demo_books sold.
Proof. destruct demo_sale as [x E]. eapply rtc_once, BCreate, E. Qed.

Lemma demo_unsold : rtc book_op sold unsold.
Proof.
  destruct (after_call_ok (reverse_entry 11 1 "" "u1" sold) sold) as [x E]; [by vm_compute|].
  eapply rtc_once, BReverse, E.
Qed.

Lemma demo_wf : wf demo_books.
Proof. split; [done|done|apply NoDup_nil_2]. Qed.

Definition demo_entry : jentry := {|
  j_id := 1; j_restaurant := "r1"; j_branch := None; j_date := 10; j_type := "order"; j_ref := "o1";
  j_description := "Sale — order o1"; j_created_by := "u1"; j_reversed := false; j_reversed_by := None;
  j_reversed_entry := None; j_source_event := None;
  j_lines := [{| jl_account := 3; jl_debit := 10000; jl_credit := 0; jl_description := "Order o1 receivable" |};
              {| jl_account := 4; jl_debit := 0; jl_credit := 10000; jl_description := "Order o1 revenue" |}] |}.

Lemma journal_stays_balanced_witness :
  balanced_entry demo_entry ∧ ∃ e', journal unsold !! 0%nat = Some e' ∧ same_entry demo_entry e'.
Proof.
  destruct (journal_stays_balanced demo_books sold unsold 0 demo_entry eq_refl demo_sold demo_unsold) as (H1 & _ & H2);
    [by vm_compute|]. exact (conj H1 H2).
Defined.

Lemma closed_period_is_frozen_witness :
  let shut := (close_period 12 "r1" 1 31 "u1" "" sold).1 in
  Forall2 same_entry (filter (dated "r1" 10) (journal sold)) (filter (dated "r1" 10) (journal shut)) ∧
  is_ok (reverse_entry 12 1 "" "u1" shut) = false.
Proof.
  destruct (closed_period_is_frozen 12 "r1" 1 31 "u1" "" sold (close_period 12 "r1" 1 31 "u1" "" sold).1 10 ltac:(lia)
    (rtc_refl _ _)) as [H1 H2].
  split; [exact H1|]. apply (H2 12 1 "" "u1" demo_entry)%string; [by vm_compute|by split].
Defined.

Lemma reversal_cancels_witness :
  ∃ o' e', find_entry unsold 1 = Some o' ∧ find_entry unsold 2 = Some e' ∧
    account_net 3 (j_lines o') + account_net 3 (j_lines e') = 0.
Proof.
  assert (reverse_entry 11 1 "" "u1" sold = Ok (unsold, 2)) as E by (vm_compute; reflexivity).
  destruct (reversal_cancels 11 1 "" "u1" sold unsold 2 (proj1 (ops_keep _ _ demo_wf demo_sold)) E)
    as (o & o' & e' & _ & H1 & H2 & _ & _ & _ & _ & _ & H3 & _).
  exists o', e'. exact (conj H1 (conj H2 (H3 3))).
Defined.

Lemma events_follow_posting_rule_witness :
  ∃ b' e, record_payment demo_place "p1" "o1" (PFloat (of_decimal (Dec 9999 (-2)))) "razorpay" None 10 demo_books
          = Ok (b', Some (j_id e)) ∧ lines_are e [(2, 9999, 0); (3, 0, 9999)].
Proof.
  destruct (events_follow_posting_rule demo_place (PaymentReceived "p1" "o1" "razorpay" None)
    (PFloat (of_decimal (Dec 9999 (-2)))) 9999 10 demo_books 2 3) as [_ H].
  - exact demo_wf.
  - vm_compute. reflexivity.
  - lia.
  - vm_compute. reflexivity.
  - vm_compute. reflexivity.
  - discriminate.
  - discriminate.
  - reflexivity.
  - reflexivity.
  - destruct (H ltac:(lia)) as (b' & e & H1 & _ & H2 & _). exists b', e. exact (conj H1 H2).
Defined.
