(* ===== verification/RefreshTokens.v ===== *)
(** Refresh-token rotation: [src/app/services/refresh_token_service.py] with
    [fn_refresh_token_revoke_chain] of [src/migrations/072_refresh_token_rotation.sql],
    the signing keys of [src/app/services/session_key_service.py], and the endpoints
    of [src/app/api/v1/auth.py] that put them together.

    The service connection commits each statement at once, so what happens
    before an exception stays, and each request says which of its statements the
    database carries out and whether Redis answers ([answers]).  SHA-256 and the
    identity provider (GoTrue) are parameters; nothing is assumed of either. *)

From Stdlib Require Import ZArith Lia String Ascii.
From S2P Require Import Prelude PyValues.
Open Scope Z_scope.

(** ** Data *)

Record token_row := {
  tk_user : string;
  tk_device : string;
  tk_parent : option string;
  tk_rotated_to : option string;
  tk_issued_at : Z;
  tk_last_seen : Z;
  tk_expires : option Z;
  tk_revoked : option Z;
  tk_reason : option string;
  tk_ip : option string;
  tk_agent : option string;
}.

(** The token table by hash, and Redis: a value and the
    instant after which it is gone. *)
Record store := { tokens : gmap string token_row; signing_keys : gmap string (string * Z) }.

Definition with_tokens (st : store) (t : gmap string token_row) : store :=
  {| tokens := t; signing_keys := signing_keys st |}.
Definition with_keys (st : store) (k : gmap string (string * Z)) : store :=
  {| tokens := tokens st; signing_keys := k |}.

(** What answers during a request: the lookup of the presented token, the statement that
    follows it, the insert of a new token, the mark on its parent, and Redis.  What does not
    answer has done nothing. *)
Record answers := { an_lookup : bool; an_mark : bool; an_insert : bool; an_parent : bool; an_redis : bool }.
Definition all_answer : answers := {| an_lookup := true; an_mark := true; an_insert := true; an_parent := true; an_redis := true |}.
Definition no_database : exn := DatabaseError "connection".
Definition no_redis : exn := RuntimeError "redis connection".

(** ** Signing keys *)

Definition DEFAULT_TTL_SECONDS : Z := 30 * 24 * 3600.

(** [device_id.replace(":", "_")] *)
Definition safe_device (device : string) : string :=
  of_chars (map (λ c, if bool_decide (c = ":"%char) then "_"%char else c) (chars device)).

Definition _redis_key (user device : string) : string := ("session-signing:" ++ user ++ ":" ++ safe_device device)%string.

(** [key] is the fresh secret. *)
Definition issue_session_key (up : bool) (now : Z) (key user device : string) (st : store) : res (store * string) :=
  _ ← raise_if (bool_decide (user = ""%string) || bool_decide (device = ""%string)) (ValueError "user_id and device_id are required");
  _ ← raise_if (negb up) no_redis;
  Ok (with_keys st (<[_redis_key user device := (key, now + DEFAULT_TTL_SECONDS)]> (signing_keys st)), key).

Definition rotate_session_key : bool → Z → string → string → string → store → res (store * string) := issue_session_key.

Definition get_session_key (now : Z) (user device : string) (st : store) : option string :=
  if bool_decide (user = ""%string) || bool_decide (device = ""%string) then None
  else kv ← signing_keys st !! _redis_key user device; if now <=? kv.2 then Some kv.1 else None.

Definition revoke_session_key (up : bool) (user device : string) (st : store) : res store :=
  if bool_decide (user = ""%string) || bool_decide (device = ""%string) then Ok st
  else _ ← raise_if (negb up) no_redis; Ok (with_keys st (delete (_redis_key user device) (signing_keys st))).
(** [try: ... except Exception] around it. *)
Definition or_keep (st : store) (r : res store) : store := match r with Ok st' => st' | Err _ => st end.

(** The keys of a user: those the scan pattern [session-signing:{user}:*] matches. *)
Definition revoke_all_for_user (user : string) (st : store) : store * Z :=
  if bool_decide (user = ""%string) then (st, 0)
  else
    let mine := filter (λ kv, starts_with ("session-signing:" ++ user ++ ":") kv.1 = true) (signing_keys st) in
    (with_keys st (filter (λ kv, starts_with ("session-signing:" ++ user ++ ":") kv.1 = false) (signing_keys st)),
     Z.of_nat (size mine)).

(** ** The token table *)

(** [COALESCE] into the two revocation columns. *)
Definition revoke_row (now : Z) (reason : string) (r : token_row) : token_row := {|
  tk_user := tk_user r; tk_device := tk_device r; tk_parent := tk_parent r; tk_rotated_to := tk_rotated_to r;
  tk_issued_at := tk_issued_at r; tk_last_seen := tk_last_seen r; tk_expires := tk_expires r;
  tk_revoked := coalesce (tk_revoked r) (Some now); tk_reason := coalesce (tk_reason r) (Some reason);
  tk_ip := tk_ip r; tk_agent := tk_agent r |}.

Definition rotate_row (now : Z) (to_ : string) (r : token_row) : token_row := {|
  tk_user := tk_user r; tk_device := tk_device r; tk_parent := tk_parent r; tk_rotated_to := Some to_;
  tk_issued_at := tk_issued_at r; tk_last_seen := tk_last_seen r; tk_expires := tk_expires r;
  tk_revoked := coalesce (tk_revoked r) (Some now); tk_reason := coalesce (tk_reason r) (Some "rotated"%string);
  tk_ip := tk_ip r; tk_agent := tk_agent r |}.

Definition see_row (now : Z) (r : token_row) : token_row := {|
  tk_user := tk_user r; tk_device := tk_device r; tk_parent := tk_parent r; tk_rotated_to := tk_rotated_to r;
  tk_issued_at := tk_issued_at r; tk_last_seen := now; tk_expires := tk_expires r; tk_revoked := tk_revoked r;
  tk_reason := tk_reason r; tk_ip := tk_ip r; tk_agent := tk_agent r |}.

Definition in_chain (user device : string) (r : token_row) : bool :=
  bool_decide (tk_user r = user) && bool_decide (tk_device r = device).

Definition is_active (r : token_row) : bool := bool_decide (tk_revoked r = None).

(** The rows after the update, and how many it changed. *)
Definition fn_refresh_token_revoke_chain (now : Z) (user device reason : string) (t : gmap string token_row)
    : gmap string token_row * Z :=
  ((λ r, if in_chain user device r && is_active r then revoke_row now reason r else r) <$> t,
   Z.of_nat (size (filter (λ kv, in_chain user device kv.2 && is_active kv.2 = true) t))).

(** What a session reply of the provider carries. *)
Record auth_session := {
  as_user : option string;
  as_refresh_token : option string;
  as_expires_at : option Z;
  as_expires_in : option Z;
}.

(** A number that is present and not zero. *)
Definition given (n : option Z) : option Z := match n with Some z => if z =? 0 then None else Some z | None => None end.

Definition parse_expires_at (now : Z) (payload : auth_session) : option Z :=
  match given (as_expires_at payload) with
  | Some raw => Some raw
  | None => expires_in ← given (as_expires_in payload); Some (now + expires_in)
  end.

Section Tokens.
Context (sha256 : string → string).

Definition _hash (token : string) : string := sha256 token.

(** What the two statements leave, and whether one of them raised. *)
Definition record_issuance (a : answers) (now : Z) (user device token : string) (parent_token : option string) (expires_at : option Z)
    (ip agent : option string) (st : store) : store * res () :=
  let token_hash := _hash token in
  let parent_hash := if str_truthy parent_token then _hash <$> parent_token else None in
  if an_insert a then
    let t := tokens st in
    let t1 := match t !! token_hash with
              | Some _ => alter (see_row now) token_hash t
              | None => <[token_hash := {|
                  tk_user := user; tk_device := device; tk_parent := parent_hash; tk_rotated_to := None;
                  tk_issued_at := now; tk_last_seen := now; tk_expires := expires_at; tk_revoked := None;
                  tk_reason := None; tk_ip := ip; tk_agent := agent |}]> t
              end in
    match parent_hash with
    | Some p => if bool_decide (p = ""%string) then (with_tokens st t1, Ok ())
                else if an_parent a then (with_tokens st (alter (rotate_row now token_hash) p t1), Ok ())
                else (with_tokens st t1, Err no_database)
    | None => (with_tokens st t1, Ok ())
    end
  else (st, Err no_database).

Definition check_for_reuse (a : answers) (now : Z) (token : string) (st : store) : store * res () :=
  if an_lookup a then
    match tokens st !! _hash token with
    | None => (st, Ok ())
    | Some row =>
        if is_active row then
          if an_mark a then (with_tokens st (alter (see_row now) (_hash token) (tokens st)), Ok ()) else (st, Err no_database)
        else
          if an_mark a then
            let (t, _) := fn_refresh_token_revoke_chain now (tk_user row) (tk_device row) "reuse_detected" (tokens st) in
            let st1 := with_tokens st t in
            (or_keep st1 (revoke_session_key (an_redis a) (tk_user row) (tk_device row) st1), Err (ReuseDetected (tk_user row) (tk_device row)))
          else (st, Err no_database)
    end
  else (st, Err no_database).

Definition revoke_for_logout (up : bool) (now : Z) (token : string) (st : store) : res store :=
  _ ← raise_if (negb up) no_database; Ok (with_tokens st (alter (revoke_row now "logout") (_hash token) (tokens st))).

(** ** The endpoints *)

Section Endpoints.
(** The provider, with its own state. *)
Context {G : Type} (gotrue_refresh gotrue_code : string → G → G * res auth_session).
Context (gotrue_logout : G → G).

(** The reply: the session, and the signing key when one was issued. *)
Definition reply : Type := auth_session * option string.

Record client := { cl_ip : option string; cl_agent : option string }.

Definition google_callback (a : answers) (now : Z) (cl : client) (code : string) (device : option string) (key : string)
    (w : store * G) : (store * G) * res reply :=
  let (st, g) := w in
  if bool_decide (code = ""%string) then (w, Err (ValueError "missing_code"))
  else
    match gotrue_code code g with
    | (g', Err e) => ((st, g'), Err e)
    | (g', Ok result) =>
        if str_truthy (as_user result) && str_truthy device then
          let user := str_or (as_user result) "" in
          let dev := str_or device "" in
          match issue_session_key (an_redis a) now key user dev st with
          | Err _ => ((st, g'), Ok (result, None))
          | Ok (st1, k) =>
              let st2 := if str_truthy (as_refresh_token result)
                         then (record_issuance a now user dev (str_or (as_refresh_token result) "") None
                                 (parse_expires_at now result) (cl_ip cl) (cl_agent cl) st1).1
                         else st1 in
              ((st2, g'), Ok (result, Some k))
          end
        else ((st, g'), Ok (result, None))
    end.

(** After the check: the provider, and the new token and key as far as they can be kept. *)
Definition exchange (a : answers) (now : Z) (cl : client) (token : string) (device : option string) (key : string)
    (w : store * G) : (store * G) * res reply :=
  let (st, g) := w in
  match gotrue_refresh token g with
  | (g', Err e) => ((st, g'), Err e)
  | (g', Ok result) =>
      if str_truthy (as_user result) && str_truthy device && str_truthy (as_refresh_token result) then
        let user := str_or (as_user result) "" in
        let dev := str_or device "" in
        match record_issuance a now user dev (str_or (as_refresh_token result) "") (Some token)
                (parse_expires_at now result) (cl_ip cl) (cl_agent cl) st with
        | (st2, Err _) => ((st2, g'), Ok (result, None))
        | (st2, Ok _) =>
            match rotate_session_key (an_redis a) now key user dev st2 with
            | Err _ => ((st2, g'), Ok (result, None))
            | Ok (st3, k) => ((st3, g'), Ok (result, Some k))
            end
        end
      else ((st, g'), Ok (result, None))
  end.

(** A check that fails for any other reason than reuse lets the request through. *)
Definition refresh_access_token (a : answers) (now : Z) (cl : client) (token : string) (device : option string) (key : string)
    (w : store * G) : (store * G) * res reply :=
  let (st, g) := w in
  match check_for_reuse a now token st with
  | (st1, Err (ReuseDetected u d)) => ((st1, g), Err (ReuseDetected u d))
  | (st1, _) => exchange a now cl token device key (st1, g)
  end.

Definition issue_signing_key (up : bool) (now : Z) (user device key : string) (w : store * G) : (store * G) * res string :=
  match issue_session_key up now key user device w.1 with
  | Ok (st, k) => ((st, w.2), Ok k)
  | Err e => (w, Err e)
  end.

Definition logout_endpoint (a : answers) (now : Z) (user : string) (device token : option string) (w : store * G) : store * G :=
  let (st, g) := w in
  let st1 := if str_truthy device then or_keep st (revoke_session_key (an_redis a) user (str_or device "") st) else st in
  let st2 := if str_truthy token then or_keep st1 (revoke_for_logout (an_mark a) now (str_or token "") st1) else st1 in
  (st2, gotrue_logout g).

(** One request. *)
Inductive auth_step (w : store * G) : store * G → Prop :=
  | StepLogin a now cl code device key : auth_step w (google_callback a now cl code device key w).1
  | StepRefresh a now cl token device key : auth_step w (refresh_access_token a now cl token device key w).1
  | StepKey up now user device key : auth_step w (issue_signing_key up now user device key w).1
  | StepLogout a now user device token : auth_step w (logout_endpoint a now user device token w).
End Endpoints.
End Tokens.

(** ** Revocation is for good *)

(** A row keeps its owner, and a revocation its time and reason. *)
Definition row_kept (r r' : token_row) : Prop :=
  tk_user r' = tk_user r ∧ tk_device r' = tk_device r ∧
  (is_Some (tk_revoked r) → tk_revoked r' = tk_revoked r) ∧ (is_Some (tk_reason r) → tk_reason r' = tk_reason r).

#[export] Instance row_kept_preorder : PreOrder row_kept.
Proof.
  split; [by intros r|]. intros x y z (H1 & H2 & H3 & H4) (K1 & K2 & K3 & K4).
  split; [congruence|]. split; [congruence|]. split; intros Hs.
  - rewrite K3; [by apply H3|]. by rewrite H3.
  - rewrite K4; [by apply H4|]. by rewrite H4.
Qed.

(** No row disappears or comes back to life. *)
Definition tokens_kept (t t' : gmap string token_row) : Prop :=
  ∀ h r, t !! h = Some r → ∃ r', t' !! h = Some r' ∧ row_kept r r'.

#[export] Instance tokens_kept_preorder : PreOrder tokens_kept.
Proof.
  split; [intros t h r Hr; by exists r|]. intros t1 t2 t3 H1 H2 h r Hr.
  destruct (H1 h r Hr) as (r' & Hr' & K1). destruct (H2 h r' Hr') as (r2 & Hr2 & K2). exists r2. split; [done|by etrans].
Qed.

Lemma alter_kept f h t : (∀ r, row_kept r (f r)) → tokens_kept t (alter f h t).
Proof.
  intros Hf k r Hr. destruct (decide (h = k)) as [<-|Hne].
  - exists (f r). by rewrite lookup_alter_eq, Hr.
  - exists r. by rewrite lookup_alter_ne.
Qed.

Lemma revoke_row_kept now reason r : row_kept r (revoke_row now reason r).
Proof. split; [done|]. split; [done|]. split; cbn; intros [x ->]; done. Qed.

Lemma rotate_row_kept now to_ r : row_kept r (rotate_row now to_ r).
Proof. split; [done|]. split; [done|]. split; cbn; intros [x ->]; done. Qed.

Lemma see_row_kept now r : row_kept r (see_row now r).
Proof. by repeat split. Qed.

Create HintDb tokens.
#[export] Hint Resolve revoke_row_kept rotate_row_kept see_row_kept alter_kept : tokens.

Lemma revoke_chain_kept now user device reason t : tokens_kept t (fn_refresh_token_revoke_chain now user device reason t).1.
Proof.
  intros h r Hr. cbn. rewrite lookup_fmap, Hr. eexists. split; [done|]. case_match; [auto with tokens|done].
Qed.

#[export] Hint Resolve revoke_chain_kept : tokens.

Section Kept.
Context (sha256 : string → string).

Lemma record_issuance_kept a now user device token parent exp ip agent st :
  tokens_kept (tokens st) (tokens (record_issuance sha256 a now user device token parent exp ip agent st).1).
Proof using Type.
  unfold record_issuance. cbn zeta. destruct (an_insert a); [|done].
  set (t1 := match tokens st !! _ with Some _ => _ | None => _ end).
  assert (tokens_kept (tokens st) t1) as H1.
  { unfold t1. destruct (tokens st !! _) eqn:Hn; [auto with tokens|].
    intros h r Hr. exists r. split; [|done]. rewrite lookup_insert_ne; [done|]. congruence. }
  case_match; [|done]. case_bool_decide; [done|]. destruct (an_parent a); [|done]. etrans; [exact H1|]. cbn. auto with tokens.
Qed.

Lemma revoke_session_key_tokens up user device st : tokens (or_keep st (revoke_session_key up user device st)) = tokens st.
Proof using Type. unfold revoke_session_key. destruct (_ || _); [done|]. by destruct up. Qed.

Lemma check_for_reuse_kept a now token st : tokens_kept (tokens st) (tokens (check_for_reuse sha256 a now token st).1).
Proof using Type.
  unfold check_for_reuse. destruct (an_lookup a); [|done]. destruct (tokens st !! _) as [row|]; [|done].
  destruct (is_active row), (an_mark a); try done; [cbn; auto with tokens|]. unfold fn_refresh_token_revoke_chain at 1. cbn [fst].
  rewrite revoke_session_key_tokens. apply revoke_chain_kept.
Qed.

Lemma issue_session_key_tokens up now key user device st st' k :
  issue_session_key up now key user device st = Ok (st', k) → tokens st' = tokens st.
Proof using Type. unfold issue_session_key. destruct (_ || _); [done|]. destruct up; [|done]. by intros [= <- <-]. Qed.

Context {G : Type} (gotrue_refresh gotrue_code : string → G → G * res auth_session) (gotrue_logout : G → G).

Lemma exchange_kept a now cl token device key (w : store * G) :
  tokens_kept (tokens w.1) (tokens (exchange sha256 gotrue_refresh a now cl token device key w).1.1).
Proof using Type.
  destruct w as [st g]. unfold exchange. destruct (gotrue_refresh token g) as [g' [result|e]]; [|done].
  destruct (_ && _); [|done]. pose proof (record_issuance_kept a now (str_or (as_user result) "") (str_or device "") (str_or (as_refresh_token result) "")
    (Some token) (parse_expires_at now result) (cl_ip cl) (cl_agent cl) st) as Hr.
  destruct (record_issuance _ _ _ _ _ _ _ _ _ _ st) as [st2 [u|e]]; [|exact Hr]. cbn [fst] in Hr |- *.
  destruct (rotate_session_key _ _ _ _ _ _) as [[st3 k]|e] eqn:Hk; cbn [fst]; [|exact Hr].
  by rewrite (issue_session_key_tokens _ _ _ _ _ _ _ _ Hk).
Qed.

Lemma refresh_kept a now cl token device key (w : store * G) :
  tokens_kept (tokens w.1) (tokens (refresh_access_token sha256 gotrue_refresh a now cl token device key w).1.1).
Proof using Type.
  destruct w as [st g]. unfold refresh_access_token. pose proof (check_for_reuse_kept a now token st) as Hc.
  destruct (check_for_reuse sha256 a now token st) as [st1 r]. cbn [fst] in Hc |- *.
  assert (tokens_kept (tokens st) (tokens (exchange sha256 gotrue_refresh a now cl token device key (st1, g)).1.1)) as He
    by (etrans; [exact Hc|apply (exchange_kept _ _ _ _ _ _ (st1, g))]).
  destruct r as [u|[]]; first [exact He|exact Hc].
Qed.

Lemma auth_step_kept (w w' : store * G) :
  auth_step sha256 gotrue_refresh gotrue_code gotrue_logout w w' → tokens_kept (tokens w.1) (tokens w'.1).
Proof using Type.
  destruct w as [st g]. intros [a now cl code device key|a now cl token device key|up now user device key|a now user device token].
  - unfold google_callback. case_bool_decide; [done|]. destruct (gotrue_code code g) as [g' [result|e]]; [|done].
    destruct (_ && _); [|done]. destruct (issue_session_key _ _ _ _ _ _) as [[st1 k]|e] eqn:Hk; [|done].
    cbn [fst]. rewrite <- (issue_session_key_tokens _ _ _ _ _ _ _ _ Hk).
    destruct (str_truthy (as_refresh_token result)); [apply record_issuance_kept|done].
  - apply refresh_kept.
  - unfold issue_signing_key. cbn [fst]. destruct (issue_session_key _ _ _ _ _ _) as [[st1 k]|e] eqn:Hk; [|done].
    cbn [fst]. by rewrite (issue_session_key_tokens _ _ _ _ _ _ _ _ Hk).
  - unfold logout_endpoint. cbn [fst].
    assert (tokens (if str_truthy device then or_keep st (revoke_session_key (an_redis a) user (str_or device "") st) else st) = tokens st) as Hd.
    { destruct (str_truthy device); [apply revoke_session_key_tokens|done]. }
    destruct (str_truthy token); [|by rewrite Hd]. unfold revoke_for_logout. destruct (an_mark a); cbn; rewrite Hd; [auto with tokens|done].
Qed.

Lemma auth_steps_kept (w w' : store * G) :
  rtc (auth_step sha256 gotrue_refresh gotrue_code gotrue_logout) w w' → tokens_kept (tokens w.1) (tokens w'.1).
Proof using Type. induction 1 as [|x y z Hs _ IH]; [done|]. etrans; [by apply auth_step_kept|done]. Qed.

(** The rows after a replay is seen. *)
Definition chain_killed (now : Z) (r : token_row) (st : store) : store :=
  with_tokens st (fn_refresh_token_revoke_chain now (tk_user r) (tk_device r) "reuse_detected" (tokens st)).1.

(** A revoked token is refused before the provider hears of it, when the check runs. *)
Lemma revoked_refused a now cl token device key st (g : G) r :
  tokens st !! _hash sha256 token = Some r → is_active r = false → an_lookup a = true → an_mark a = true →
  refresh_access_token sha256 gotrue_refresh a now cl token device key (st, g) =
  ((or_keep (chain_killed now r st) (revoke_session_key (an_redis a) (tk_user r) (tk_device r) (chain_killed now r st)), g),
   Err (ReuseDetected (tk_user r) (tk_device r))).
Proof using Type. intros Hr Ha H1 H2. unfold refresh_access_token, check_for_reuse. by rewrite H1, Hr, Ha, H2. Qed.

(** When it does not, the request goes on to the provider with the rows as they are. *)
Lemma unchecked_passes a now cl token device key st (g : G) r :
  tokens st !! _hash sha256 token = Some r → an_lookup a && an_mark a = false →
  refresh_access_token sha256 gotrue_refresh a now cl token device key (st, g) =
  exchange sha256 gotrue_refresh a now cl token device key (st, g).
Proof using Type.
  intros Hr Ha. unfold refresh_access_token, check_for_reuse. destruct (an_lookup a); [|done]. rewrite Hr. cbn in Ha. rewrite Ha.
  by destruct (is_active r).
Qed.

Lemma exchange_provider a now cl token device key (w : store * G) :
  (exchange sha256 gotrue_refresh a now cl token device key w).1.2 = (gotrue_refresh token w.2).1.
Proof using Type.
  destruct w as [st g]. unfold exchange. cbn [snd]. destruct (gotrue_refresh token g) as [g' [result|e]]; [|done].
  destruct (_ && _); [|done]. destruct (record_issuance _ _ _ _ _ _ _ _ _ _ _) as [st2 [u|e]]; [|done].
  by destruct (rotate_session_key _ _ _ _ _ _) as [[]|].
Qed.

(** After an exchange that issued a key, a known token is revoked. *)
Lemma rotation_revokes a now cl token device key st (g : G) r w' result k :
  token ≠ ""%string → _hash sha256 token ≠ ""%string → tokens st !! _hash sha256 token = Some r →
  refresh_access_token sha256 gotrue_refresh a now cl token device key (st, g) = (w', Ok (result, Some k)) →
  ∃ r', tokens w'.1 !! _hash sha256 token = Some r' ∧ is_Some (tk_revoked r') ∧
        tk_user r' = tk_user r ∧ tk_device r' = tk_device r ∧
        tk_rotated_to r' = Some (_hash sha256 (str_or (as_refresh_token result) "")).
Proof using Type.
  intros Ht Hh Hr. unfold refresh_access_token. pose proof (check_for_reuse_kept a now token st _ r Hr) as (r1 & Hr1 & Hu1 & Hd1 & _).
  destruct (check_for_reuse sha256 a now token st) as [st1 res1]. cbn [fst] in Hr1.
  assert (exchange sha256 gotrue_refresh a now cl token device key (st1, g) = (w', Ok (result, Some k)) →
    ∃ r', tokens w'.1 !! _hash sha256 token = Some r' ∧ is_Some (tk_revoked r') ∧ tk_user r' = tk_user r ∧ tk_device r' = tk_device r ∧
      tk_rotated_to r' = Some (_hash sha256 (str_or (as_refresh_token result) ""))) as He; [|destruct res1 as [?|[]]; try exact He; done].
  rewrite <-Hu1, <-Hd1. clear Hu1 Hd1 res1 Hr r. unfold exchange. destruct (gotrue_refresh token g) as [g' [res0|e]]; [|done].
  destruct (_ && _) eqn:Hc; [|done]. unfold record_issuance. cbn zeta. unfold str_truthy at 1. cbn [fmap option_fmap option_map].
  destruct (an_insert a); [|done]. rewrite (bool_decide_eq_false_2 (token = _)) by done. cbn [negb].
  rewrite bool_decide_eq_false_2 by done. destruct (an_parent a); [|done].
  destruct (rotate_session_key _ _ _ _ _ _) as [[st3 k']|e] eqn:Hk; [|done].
  intros [= <- <- <-]. cbn [fst]. rewrite (issue_session_key_tokens _ _ _ _ _ _ _ _ Hk). clear Hk. cbn [tokens with_tokens].
  set (n := _hash sha256 (str_or (as_refresh_token res0) "")). rewrite lookup_alter_eq.
  destruct (decide (n = _hash sha256 token)) as [E|Hne].
  - rewrite E, Hr1, lookup_alter_eq, Hr1. eexists. split; [done|]. cbn. by destruct (tk_revoked r1).
  - case_match.
    + rewrite lookup_alter_ne, Hr1 by done. eexists. split; [done|]. cbn. by destruct (tk_revoked r1).
    + rewrite lookup_insert_ne, Hr1 by done. eexists. split; [done|]. cbn. by destruct (tk_revoked r1).
Qed.
End Kept.

(** ** Properties *)

(** C32: a replayed refresh token kills its chain.  When a revoked token is presented and
    the database answers the check, the request fails with ReuseDetected without a call to
    the identity provider; afterwards no token of that user and device is active, every
    other token is as it was, the signing key of the user and device is gone if Redis
    answered (its removal is best effort), and every other signing key is as it was.  When
    the database does not answer the check, the request goes on to the provider, as the
    endpoint means it to; the presented token stays revoked, so that the next presentation
    is seen. *)
Theorem reuse_kills_the_chain (sha256 : string → string) {G : Type} (gotrue_refresh : string → G → G * res auth_session)
    a now cl token device key st (g : G) r w' out :
  tokens st !! _hash sha256 token = Some r → is_Some (tk_revoked r) → tk_user r ≠ ""%string → tk_device r ≠ ""%string →
  refresh_access_token sha256 gotrue_refresh a now cl token device key (st, g) = (w', out) →
  if an_lookup a && an_mark a then
    out = Err (ReuseDetected (tk_user r) (tk_device r)) ∧ w'.2 = g ∧
    (∀ h r', tokens w'.1 !! h = Some r' → in_chain (tk_user r) (tk_device r) r' = true → is_active r' = false) ∧
    (∀ h r0, tokens st !! h = Some r0 → in_chain (tk_user r) (tk_device r) r0 = false → tokens w'.1 !! h = Some r0) ∧
    (∀ later, get_session_key later (tk_user r) (tk_device r) w'.1 =
              if an_redis a then None else get_session_key later (tk_user r) (tk_device r) st) ∧
    (∀ k, k ≠ _redis_key (tk_user r) (tk_device r) → signing_keys w'.1 !! k = signing_keys st !! k)
  else
    w'.2 = (gotrue_refresh token g).1 ∧
    ∃ r', tokens w'.1 !! _hash sha256 token = Some r' ∧ tk_revoked r' = tk_revoked r ∧ tk_user r' = tk_user r ∧ tk_device r' = tk_device r.
Proof.
  intros Hr Hrev Hu Hd Hreq. assert (is_active r = false) as Ha by (unfold is_active; destruct Hrev as [x ->]; done).
  destruct (an_lookup a && an_mark a) eqn:Hans.
  - apply andb_prop in Hans as [A1 A2]. rewrite (revoked_refused _ _ _ _ _ _ _ _ _ _ _ Hr Ha A1 A2) in Hreq. injection Hreq as <- <-.
    do 2 (split; [done|]). cbn [fst]. rewrite !revoke_session_key_tokens. cbn [chain_killed tokens with_tokens].
    split; [|split; [|unfold revoke_session_key, get_session_key; rewrite !bool_decide_eq_false_2 by done; cbn [orb]; split]].
    + intros h r' Hh Hc. cbn [fn_refresh_token_revoke_chain fst] in Hh. rewrite lookup_fmap in Hh.
      apply fmap_Some in Hh as (r0 & Hr0 & ->). destruct (in_chain _ _ r0 && is_active r0) eqn:E.
      * unfold is_active. apply bool_decide_eq_false_2. cbn. by destruct (tk_revoked r0).
      * rewrite Hc in E. exact E.
    + intros h r0 Hh Hc. cbn [fn_refresh_token_revoke_chain fst]. by rewrite lookup_fmap, Hh; cbn; rewrite Hc.
    + intros later. destruct (an_redis a); cbn; [by rewrite lookup_delete_eq|done].
    + intros k Hk. destruct (an_redis a); cbn; [by rewrite lookup_delete_ne|done].
  - pose proof (refresh_kept sha256 gotrue_refresh a now cl token device key (st, g) _ r Hr) as (r' & Hr' & E1 & E2 & E3 & _).
    rewrite (unchecked_passes _ _ _ _ _ _ _ _ _ _ _ Hr Hans) in Hreq, Hr'. rewrite Hreq in Hr'.
    pose proof (exchange_provider sha256 gotrue_refresh a now cl token device key (st, g)) as Hp. rewrite Hreq in Hp.
    split; [exact Hp|]. exists r'. split; [exact Hr'|]. split; [by apply E3|done].
Qed.

(** Once a recorded refresh token has been exchanged for a new session with a
    signing key, it stays dead: after any further logins, refreshes, key issues and
    logouts, presenting it again, when the database answers the check, is refused as
    reuse and the identity provider is not called. *)
Theorem rotated_token_is_dead (sha256 : string → string) {G : Type} (gotrue_refresh gotrue_code : string → G → G * res auth_session)
    (gotrue_logout : G → G) a now cl token device key st (g : G) r w1 result k w2 a' now' cl' device' key' :
  token ≠ ""%string → _hash sha256 token ≠ ""%string → tokens st !! _hash sha256 token = Some r →
  refresh_access_token sha256 gotrue_refresh a now cl token device key (st, g) = (w1, Ok (result, Some k)) →
  rtc (auth_step sha256 gotrue_refresh gotrue_code gotrue_logout) w1 w2 → an_lookup a' = true → an_mark a' = true →
  (refresh_access_token sha256 gotrue_refresh a' now' cl' token device' key' w2).2 = Err (ReuseDetected (tk_user r) (tk_device r)) ∧
  (refresh_access_token sha256 gotrue_refresh a' now' cl' token device' key' w2).1.2 = w2.2.
Proof.
  intros Ht Hh Hr Hok Hs A1 A2. destruct (rotation_revokes _ _ _ _ _ _ _ _ _ _ _ _ _ _ Ht Hh Hr Hok) as (r1 & Hr1 & [at_ Hat] & Hu & Hd & _).
  destruct (auth_steps_kept _ _ _ _ _ _ Hs _ _ Hr1) as (r2 & Hr2 & Hu2 & Hd2 & Hat2 & _).
  destruct w2 as [st2 g2]. cbn [fst] in Hr2. rewrite (revoked_refused _ _ _ _ _ _ _ _ _ _ _ Hr2).
  - by rewrite Hu2, Hd2, Hu, Hd.
  - unfold is_active. apply bool_decide_eq_false_2. by rewrite Hat2, Hat.
  - done.
  - done.
Qed.

(** ** A login, two refreshes and a replay *)

(** The provider hands out T1, T2, ... in order, and counts the calls. *)
Definition demo_session (n : Z) : auth_session := {|
  as_user := Some "u1"%string; as_refresh_token := Some ("T" ++ nat_text n)%string;
  as_expires_at := None; as_expires_in := Some 3600 |}.

Definition demo_refresh (_ : string) (n : Z) : Z * res auth_session := (n + 1, Ok (demo_session (n + 1))).

(** A hash without collisions. *)
Definition demo_hash (token : string) : string := ("h:" ++ token)%string.

Definition demo_client : client := {| cl_ip := None; cl_agent := None |}.

Definition demo_empty : store := {| tokens := ∅; signing_keys := ∅ |}.

Definition demo_login : store * Z :=
  (google_callback demo_hash demo_refresh all_answer 100 demo_client "code" (Some "phone"%string) "k1" (demo_empty, 0)).1.

Definition demo_refreshed : (store * Z) * res reply :=
  refresh_access_token demo_hash demo_refresh all_answer 200 demo_client "T1" (Some "phone"%string) "k2" demo_login.

Definition demo_row (h : string) (w : store * Z) : token_row :=
  default {| tk_user := ""; tk_device := ""; tk_parent := None; tk_rotated_to := None; tk_issued_at := 0; tk_last_seen := 0;
             tk_expires := None; tk_revoked := None; tk_reason := None; tk_ip := None; tk_agent := None |} (tokens w.1 !! h).

Lemma reuse_kills_the_chain_witness :
  let w := demo_refreshed.1 in
  (refresh_access_token demo_hash demo_refresh all_answer 300 demo_client "T1" (Some "phone"%string) "k3" w).2 =
    Err (ReuseDetected "u1" "phone") ∧
  get_session_key 300 "u1" "phone" w.1 = Some "k2"%string ∧
  get_session_key 300 "u1" "phone"
    (refresh_access_token demo_hash demo_refresh all_answer 300 demo_client "T1" (Some "phone"%string) "k3" w).1.1 = None.
Proof.
  intros w. destruct (refresh_access_token demo_hash demo_refresh all_answer 300 demo_client "T1" (Some "phone"%string) "k3" w) as [w' out] eqn:E.
  destruct w as [st g] eqn:Ew.
  destruct (reuse_kills_the_chain demo_hash demo_refresh all_answer 300 demo_client "T1" (Some "phone"%string) "k3" st g
    (demo_row "h:T1" (st, g)) w' out) as (H1 & _ & _ & _ & H2 & _).
  - change st with ((st, g).1). rewrite <- Ew. by vm_compute.
  - rewrite <- Ew. vm_compute. eauto.
  - rewrite <- Ew. by vm_compute.
  - rewrite <- Ew. by vm_compute.
  - exact E.
  - rewrite <- Ew in H1, H2. split; [exact H1|]. split; [|exact (H2 300)].
    change st with ((st, g).1). rewrite <- Ew. by vm_compute.
Defined.

Lemma rotated_token_is_dead_witness :
  let w2 := logout_endpoint demo_hash (λ n, n) all_answer 250 "u1" (Some "phone"%string) (Some "T2"%string) demo_refreshed.1 in
  (refresh_access_token demo_hash demo_refresh all_answer 300 demo_client "T1" None "k3" w2).2 = Err (ReuseDetected "u1" "phone") ∧
  (refresh_access_token demo_hash demo_refresh all_answer 300 demo_client "T1" None "k3" w2).1.2 = 2.
Proof.
  intros w2.
  destruct (rotated_token_is_dead demo_hash demo_refresh demo_refresh (λ n, n) all_answer 200 demo_client "T1" (Some "phone"%string) "k2"
    demo_login.1 demo_login.2 (demo_row "h:T1" demo_login) demo_refreshed.1 (demo_session 2) "k2"%string w2 all_answer 300 demo_client None "k3")
    as [H1 H2]; [by vm_compute..| |done|done|].
  - apply rtc_once. exact (StepLogout demo_hash demo_refresh demo_refresh (λ n, n) demo_refreshed.1 all_answer 250 "u1" (Some "phone"%string) (Some "T2"%string)).
  - split; [exact H1|rewrite H2; by vm_compute].
Defined.

(** ** What the chain misses *)

(** The chain is keyed by the device the client names: a thief who refreshes the
    stolen token under a device of his own keeps a live token when the owner's
    replay is detected. *)
Definition demo_theft : store * Z :=
  (refresh_access_token demo_hash demo_refresh all_answer 200 demo_client "T1" (Some "thief"%string) "k2" demo_login).1.

Example stolen_chain_survives :
  (refresh_access_token demo_hash demo_refresh all_answer 300 demo_client "T1" (Some "phone"%string) "k3" demo_theft).2 =
    Err (ReuseDetected "u1" "phone") ∧
  tk_revoked (demo_row "h:T2" (refresh_access_token demo_hash demo_refresh all_answer 300 demo_client "T1" (Some "phone"%string) "k3" demo_theft).1) = None.
Proof. by vm_compute. Qed.

(** A database that does not answer lets a replayed token through to the provider; one that
    loses the mark on the parent leaves the exchanged token alive. *)
Definition lost_lookup : answers := {| an_lookup := false; an_mark := true; an_insert := true; an_parent := true; an_redis := true |}.
Definition lost_parent : answers := {| an_lookup := true; an_mark := true; an_insert := true; an_parent := false; an_redis := true |}.
Example outage_lets_replay_through :
  (refresh_access_token demo_hash demo_refresh lost_lookup 300 demo_client "T1" (Some "phone"%string) "k3" demo_refreshed.1).2 =
    Ok (demo_session 3, Some "k3"%string).
Proof. by vm_compute. Qed.
Example unmarked_parent_lives :
  let w := (refresh_access_token demo_hash demo_refresh lost_parent 200 demo_client "T1" (Some "phone"%string) "k2" demo_login).1 in
  (refresh_access_token demo_hash demo_refresh all_answer 300 demo_client "T1" (Some "phone"%string) "k3" w).2 = Ok (demo_session 3, Some "k3"%string).
Proof. by vm_compute. Qed.

(** Without a device id a refresh records nothing, and the token can be presented again. *)
Example refresh_without_device_not_rotated :
  let w := (refresh_access_token demo_hash demo_refresh all_answer 200 demo_client "T1" None "k2" demo_login).1 in
  (refresh_access_token demo_hash demo_refresh all_answer 300 demo_client "T1" None "k3" w).2 = Ok (demo_session 3, None).
Proof. by vm_compute. Qed.

(** A token that was never recorded stays unrecorded when it is exchanged: its replay passes. *)
Example unknown_token_never_dies :
  let w := (refresh_access_token demo_hash demo_refresh all_answer 200 demo_client "T0" (Some "phone"%string) "k2" (demo_empty, 0)).1 in
  (refresh_access_token demo_hash demo_refresh all_answer 300 demo_client "T0" (Some "phone"%string) "k3" w).2 = Ok (demo_session 2, Some "k3"%string).
Proof. by vm_compute. Qed.

(** Devices whose names differ in [:] and [_] share a signing key. *)
Example signing_keys_collide : _redis_key "u1" "a:b" = _redis_key "u1" "a_b".
Proof. by vm_compute. Qed.
