(* ===== verification/PyRegex.v ===== *)
(** Regular expressions of Python's [re] as far as the code uses them: literals,
    character classes, concatenation, alternation, [?], [+], [*] and a fixed
    repetition, matched against a whole string ([re.fullmatch]).

    [fullmatch] computes with Brzozowski derivatives; [Matches] is the language,
    and [fullmatch_spec] says that the two agree. *)

From Stdlib Require Import ZArith Lia Ascii String.
From S2P Require Import Prelude PyDecimal PyFloat PyValues.
Open Scope Z_scope.

Inductive regex :=
  | RNone
  | REps
  | RClass (f : ascii → bool)
  | RSeq (r s : regex)
  | RAlt (r s : regex)
  | RStar (r : regex).

Inductive Matches : regex → list ascii → Prop :=
  | MEps : Matches REps []
  | MClass f c : f c = true → Matches (RClass f) [c]
  | MSeq r s l k : Matches r l → Matches s k → Matches (RSeq r s) (l ++ k)
  | MAltL r s l : Matches r l → Matches (RAlt r s) l
  | MAltR r s l : Matches s l → Matches (RAlt r s) l
  | MStarNil r : Matches (RStar r) []
  | MStarCons r l k : Matches r l → Matches (RStar r) k → Matches (RStar r) (l ++ k).

Fixpoint nullable (r : regex) : bool :=
  match r with
  | RNone | RClass _ => false
  | REps | RStar _ => true
  | RSeq r s => nullable r && nullable s
  | RAlt r s => nullable r || nullable s
  end.

(** Constructors that drop what cannot match. *)
Definition seq' (r s : regex) : regex := match r with RNone => RNone | REps => s | _ => RSeq r s end.
Definition alt' (r s : regex) : regex :=
  match r, s with RNone, _ => s | _, RNone => r | _, _ => RAlt r s end.

Fixpoint derive (c : ascii) (r : regex) : regex :=
  match r with
  | RNone | REps => RNone
  | RClass f => if f c then REps else RNone
  | RSeq r s => if nullable r then alt' (seq' (derive c r) s) (derive c s) else seq' (derive c r) s
  | RAlt r s => alt' (derive c r) (derive c s)
  | RStar r => seq' (derive c r) (RStar r)
  end.

Fixpoint fullmatch_chars (r : regex) (l : list ascii) : bool :=
  match l with
  | [] => nullable r
  | c :: l' => fullmatch_chars (derive c r) l'
  end.

(** [re.fullmatch(r, s) is not None] *)
Definition fullmatch (r : regex) (s : string) : bool := fullmatch_chars r (chars s).

(** ** Notation of patterns *)

Definition rchar (c : ascii) : regex := RClass (λ d, bool_decide (d = c)).
Definition rlit (s : string) : regex := foldr (λ c r, RSeq (rchar c) r) REps (chars s).
Definition rseq (l : list regex) : regex := foldr RSeq REps l.
Definition ralt (l : list regex) : regex := foldr RAlt RNone l.
Definition ropt (r : regex) : regex := RAlt r REps.
Definition rplus (r : regex) : regex := RSeq r (RStar r).
Definition rtimes (n : nat) (r : regex) : regex := foldr RSeq REps (replicate n r).

(** ** Correctness *)

(** Inversion, as equivalences. *)
Lemma Matches_class f l : Matches (RClass f) l ↔ ∃ c, l = [c] ∧ f c = true.
Proof. split; [inversion 1; eauto|intros (c & -> & H); by constructor]. Qed.

Lemma Matches_seq r s l : Matches (RSeq r s) l ↔ ∃ l1 l2, l = l1 ++ l2 ∧ Matches r l1 ∧ Matches s l2.
Proof. split; [inversion 1; eauto 6|intros (l1 & l2 & -> & H1 & H2); by constructor]. Qed.

Lemma Matches_alt r s l : Matches (RAlt r s) l ↔ Matches r l ∨ Matches s l.
Proof. split; [inversion 1; eauto|intros [H|H]; by constructor]. Qed.

Lemma Matches_none l : Matches RNone l ↔ False.
Proof. split; [inversion 1|done]. Qed.

Lemma Matches_eps l : Matches REps l ↔ l = [].
Proof. split; [by inversion 1|intros ->; constructor]. Qed.

(** A non-empty match of a star begins with a non-empty match of its body. *)
Lemma Matches_star_cons r c l :
  Matches (RStar r) (c :: l) ↔ ∃ l1 l2, l = l1 ++ l2 ∧ Matches r (c :: l1) ∧ Matches (RStar r) l2.
Proof.
  split.
  - intros H. remember (RStar r) as q eqn:Hq. remember (c :: l) as k eqn:Hk. revert l Hk.
    induction H as [| | | | | |r' l1 l2 H1 _ H2 IH]; intros l0 Hk; try done. injection Hq as ->.
    destruct l1 as [|d l1]; cbn in Hk; [by apply IH|].
    injection Hk as -> <-. by exists l1, l2.
  - intros (l1 & l2 & -> & H1 & H2). exact (MStarCons r (c :: l1) l2 H1 H2).
Qed.

Lemma nullable_spec r : nullable r = true ↔ Matches r [].
Proof.
  induction r as [| |f|r IHr s IHs|r IHr s IHs|r IHr]; cbn.
  - by rewrite Matches_none.
  - by rewrite Matches_eps.
  - rewrite Matches_class. naive_solver.
  - rewrite andb_true_iff, IHr, IHs, Matches_seq. split; [by intros [H1 H2]; exists [], []|].
    intros (l1 & l2 & H & H1 & H2). apply eq_sym, app_nil in H as [-> ->]. done.
  - by rewrite orb_true_iff, IHr, IHs, Matches_alt.
  - split; [constructor|done].
Qed.

Lemma seq'_spec r s l : Matches (seq' r s) l ↔ Matches (RSeq r s) l.
Proof.
  destruct r; cbn; try done; rewrite Matches_seq.
  - rewrite Matches_none. split; [done|]. intros (l1 & l2 & _ & H & _). by rewrite Matches_none in H.
  - split; [intros H; exists [], l; by repeat constructor|].
    intros (l1 & l2 & -> & ->%Matches_eps & H). done.
Qed.

Lemma alt'_spec r s l : Matches (alt' r s) l ↔ Matches (RAlt r s) l.
Proof. rewrite Matches_alt. destruct r, s; cbn; rewrite ?Matches_none, ?Matches_alt; tauto. Qed.

Lemma derive_spec c r l : Matches (derive c r) l ↔ Matches r (c :: l).
Proof.
  revert l. induction r as [| |f|r IHr s IHs|r IHr s IHs|r IHr]; intros l; cbn.
  - by rewrite !Matches_none.
  - rewrite Matches_none, Matches_eps. done.
  - rewrite Matches_class. destruct (f c) eqn:Hf; rewrite ?Matches_eps, ?Matches_none.
    + split; [intros ->; by exists c|by intros (d & [= _ ->] & _)].
    + split; [done|intros (d & [= -> _] & Hd); congruence].
  - assert (Matches (seq' (derive c r) s) l ↔ ∃ l1 l2, l = l1 ++ l2 ∧ Matches r (c :: l1) ∧ Matches s l2) as Hseq.
    { rewrite seq'_spec, Matches_seq. by setoid_rewrite IHr. }
    rewrite Matches_seq. destruct (nullable r) eqn:Hn.
    + rewrite alt'_spec, Matches_alt, Hseq, IHs. apply nullable_spec in Hn. split.
      * intros [(l1 & l2 & -> & H1 & H2)|H]; [by exists (c :: l1), l2|by exists [], (c :: l)].
      * intros ([|d l1] & l2 & Hl & H1 & H2); cbn in Hl; [right; by subst|left].
        injection Hl as <- ->. by exists l1, l2.
    + rewrite Hseq. split; [intros (l1 & l2 & -> & H1 & H2); by exists (c :: l1), l2|].
      intros ([|d l1] & l2 & Hl & H1 & H2); cbn in Hl.
      * apply nullable_spec in H1. congruence.
      * injection Hl as <- ->. by exists l1, l2.
  - by rewrite alt'_spec, !Matches_alt, IHr, IHs.
  - rewrite seq'_spec, Matches_seq, Matches_star_cons. by setoid_rewrite IHr.
Qed.

Lemma fullmatch_chars_spec l r : fullmatch_chars r l = true ↔ Matches r l.
Proof.
  revert r. induction l as [|c l IH]; intros r; cbn; [apply nullable_spec|]. by rewrite IH, derive_spec.
Qed.

(** The matcher accepts exactly the language of the pattern. *)
Lemma fullmatch_spec r s : fullmatch r s = true ↔ Matches r (chars s).
Proof. apply fullmatch_chars_spec. Qed.

Lemma Matches_lit p l : Matches (rlit p) l ↔ l = chars p.
Proof.
  unfold rlit. revert l. induction (chars p) as [|c k IH]; intros l; cbn; [apply Matches_eps|].
  unfold rchar. rewrite Matches_seq. setoid_rewrite Matches_class. setoid_rewrite IH. split.
  - intros (l1 & l2 & -> & (d & -> & Hd) & ->). by apply bool_decide_eq_true in Hd as ->.
  - intros ->. exists [c], k. split; [done|]. split; [|done]. exists c. by rewrite bool_decide_eq_true.
Qed.
