(* ===== verification/Disputes.v ===== *)
(** Disputes: [src/app/services/dispute_service.py], with the tables of
    [src/migrations/043_refunds_disputes.sql].

    A dispute lives beside the payments, refunds, allocations and merchant ledger
    of [Refunds], and posts into the ledger through [LedgerApi].  Rows are numbered
    in the order they were created; amounts are ten-thousandths of a rupee; JSON
    columns are maps.  The gateway (accepting, contesting and fetching a dispute,
    reversing a Route transfer) is a parameter with its own state.  Audit records
    are best-effort and never raise, so they are left out. *)

From Stdlib Require Import ZArith Lia Ascii String.
From stdpp Require Import sorting.
From S2P Require Import Prelude PyDecimal PyFloat PyValues FeePolicy MerchantLedger RazorpayLedgers RouteSafety Refunds.
Open Scope Z_scope.

(** ** Data *)

Inductive dispute_status := Opened | UnderReview | EvidenceSubmitted | Won | Lost | Withdrawn.

#[export] Instance dispute_status_eq_dec : EqDecision dispute_status.
Proof. solve_decision. Defined.

Definition dispute_text (s : dispute_status) : string :=
  match s with
  | Opened => "opened" | UnderReview => "under_review" | EvidenceSubmitted => "evidence_submitted"
  | Won => "won" | Lost => "lost" | Withdrawn => "withdrawn"
  end.

Definition dispute_statuses : list dispute_status := [Opened; UnderReview; EvidenceSubmitted; Won; Lost; Withdrawn].

Definition parse_dispute_status (text : string) : option dispute_status :=
  find (λ s, bool_decide (dispute_text s = text)) dispute_statuses.

Definition _ALLOWED_TRANSITIONS (s : dispute_status) : list dispute_status :=
  match s with
  | Opened => [UnderReview; EvidenceSubmitted; Won; Lost; Withdrawn]
  | UnderReview => [EvidenceSubmitted; Won; Lost; Withdrawn]
  | EvidenceSubmitted => [Won; Lost; Withdrawn]
  | Won | Lost | Withdrawn => []
  end.

Definition _TERMINAL : list dispute_status := [Won; Lost; Withdrawn].
Definition is_terminal (s : dispute_status) : bool := bool_decide (s ∈ _TERMINAL).

Definition _KINDS : list string :=
  ["chargeback"; "customer_complaint"; "fraud"; "service_issue"; "duplicate"; "other"]%string.
Definition dispute_outcomes : list string := ["won"; "lost"; "withdrawn"]%string.

Definition ROUTE_REVERSAL_PENDING : string := "recovery_pending".
Definition ROUTE_REVERSAL_DONE : string := "reversed".
Definition ROUTE_REVERSAL_NA : string := "not_applicable".

Notation jsonb := (gmap string json).

Record dispute := {
  d_id : Z;
  d_uuid : string;
  d_merchant : string;
  d_payment : option string;
  d_refund : option Z;
  d_order : option string;
  d_kind : string;
  d_status : dispute_status;
  d_amount : Z;
  d_currency : string;
  d_customer_reference : option string;
  d_bank_case : option string;
  d_evidence : jsonb;
  d_notes : jsonb;
  d_opened_by_user : option string;
  d_opened_by_admin : option string;
  d_assigned_admin : option string;
  d_outcome : option string;
  d_resolution_notes : option string;
  d_ledger_entry : option Z;
  d_due_at : option Z;
  d_resolved_at : option Z;
}.

Record dispute_event := {
  ev_dispute : Z;
  ev_type : string;
  ev_from : option dispute_status;
  ev_to : option dispute_status;
  ev_payload : jsonb;
  ev_user : option string;
  ev_admin : option string;
  ev_label : option string;
}.

(** [rzp_disputes] maps a gateway dispute to the local one it is linked to. *)
Record dispute_db (L : Type) := {
  base : refund_db L;
  dispute_rows : list dispute;
  dispute_events : list dispute_event;
  rzp_disputes : gmap string (option string);
}.
Arguments base {L}.
Arguments dispute_rows {L}.
Arguments dispute_events {L}.
Arguments rzp_disputes {L}.

Definition with_disputes {L} (db : dispute_db L) (rows : list dispute) (events : list dispute_event) : dispute_db L :=
  {| base := base db; dispute_rows := rows; dispute_events := events; rzp_disputes := rzp_disputes db |}.

Definition find_dispute {L} (db : dispute_db L) (id : Z) : option dispute :=
  find (λ d, d_id d =? id) (dispute_rows db).

Definition update_dispute (id : Z) (f : dispute → dispute) (rows : list dispute) : list dispute :=
  map (λ d, if d_id d =? id then f d else d) rows.

(** The optional arguments of [transition]; an empty patch is no patch. *)
Record dispute_change := {
  dc_outcome : option string;
  dc_resolution_notes : option string;
  dc_evidence : jsonb;
  dc_notes : jsonb;
  dc_user : option string;
  dc_admin : option string;
  dc_label : option string;
}.

Definition opt_str (x : option string) : json := match x with Some s => JStr s | None => JNull end.

(** The row the UPDATE of [transition] writes. *)
Definition resolved_dispute (now : Z) (status : dispute_status) (c : dispute_change) (notes : jsonb) (entry : option Z)
    (d : dispute) : dispute := {|
  d_id := d_id d; d_uuid := d_uuid d; d_merchant := d_merchant d; d_payment := d_payment d; d_refund := d_refund d;
  d_order := d_order d; d_kind := d_kind d; d_status := status; d_amount := d_amount d; d_currency := d_currency d;
  d_customer_reference := d_customer_reference d; d_bank_case := d_bank_case d;
  d_evidence := dc_evidence c ∪ d_evidence d; d_notes := notes ∪ d_notes d;
  d_opened_by_user := d_opened_by_user d; d_opened_by_admin := d_opened_by_admin d;
  d_assigned_admin := d_assigned_admin d;
  d_outcome := coalesce (if is_terminal status then dc_outcome c else None) (d_outcome d);
  d_resolution_notes := coalesce (dc_resolution_notes c) (d_resolution_notes d);
  d_ledger_entry := coalesce entry (d_ledger_entry d); d_due_at := d_due_at d;
  d_resolved_at := if is_terminal status then Some now else d_resolved_at d |}.

(** An UPDATE of the JSON columns and of the assignee. *)
Definition annotated (evidence notes : jsonb → jsonb) (admin : option string → option string) (d : dispute) : dispute := {|
  d_id := d_id d; d_uuid := d_uuid d; d_merchant := d_merchant d; d_payment := d_payment d; d_refund := d_refund d;
  d_order := d_order d; d_kind := d_kind d; d_status := d_status d; d_amount := d_amount d; d_currency := d_currency d;
  d_customer_reference := d_customer_reference d; d_bank_case := d_bank_case d;
  d_evidence := evidence (d_evidence d); d_notes := notes (d_notes d);
  d_opened_by_user := d_opened_by_user d; d_opened_by_admin := d_opened_by_admin d;
  d_assigned_admin := admin (d_assigned_admin d); d_outcome := d_outcome d;
  d_resolution_notes := d_resolution_notes d; d_ledger_entry := d_ledger_entry d; d_due_at := d_due_at d;
  d_resolved_at := d_resolved_at d |}.

(** [x::char(3)] on assignment: padded with blanks, and only blanks may be cut off. *)
Definition char3_column (s : string) : res string :=
  let l := chars s in
  if forallb (λ c, bool_decide (c = " "%char)) (drop 3 l) then Ok (of_chars (take 3 (l ++ replicate 3 " "%char)))
  else Err (DatabaseError "value too long for type character(3)").

(** [str(admin or user) if (admin or user) else None] *)
Definition actor (c : dispute_change) : option string :=
  if str_truthy (dc_admin c) then dc_admin c else if str_truthy (dc_user c) then dc_user c else None.

(** An id argument: [str(x) if x else None]. *)
Definition truthy_id (x : option string) : option string := if str_truthy x then x else None.

(** ** The ledger side of a loss *)

Definition dispute_posting (d : dispute) (c : dispute_change) : posting := {|
  p_merchant := d_merchant d; p_type := "chargeback"; p_debit := PDec (Dec (d_amount d) (-4)); p_credit := PInt 0;
  p_branch := None; p_currency := Some (d_currency d); p_source_type := Some "dispute"%string;
  p_source_id := None; p_settlement_id := None; p_payment_id := truthy_id (d_payment d);
  p_order_id := truthy_id (d_order d); p_bank_reference := None; p_utr_number := None;
  p_idempotency_key := Some ("dispute:" ++ d_uuid d)%string;
  p_metadata := [("dispute_id", nat_text (d_id d)); ("kind", d_kind d)]%string;
  p_created_by := actor c |}.

Definition dispute_recovery (d : dispute) (c : dispute_change) : recovery := {|
  rec_merchant := d_merchant d; rec_payment := default ""%string (d_payment d);
  rec_key_prefix := ("dispute:" ++ d_uuid d)%string; rec_source_type := "dispute"; rec_source_id := None;
  rec_order := truthy_id (d_order d); rec_created_by := actor c |}.

(** The paise already recovered of the payment: succeeded refunds and other lost disputes. *)
Definition prior_paise (refunds : list refund) (rows : list dispute) (d : dispute) : Z :=
  zsum (map (λ r, paise_of (r_amount r))
    (filter (λ r, Some (r_payment r) = d_payment d ∧ r_merchant r = d_merchant d ∧ r_status r = RSucceeded) refunds)) +
  zsum (map (λ x, paise_of (d_amount x))
    (filter (λ x, d_payment x = d_payment d ∧ d_merchant x = d_merchant d ∧ d_status x = Lost ∧ d_id x ≠ d_id d) rows)).

(** ** The gateway's view *)

Record rzp_entity := {
  re_id : option string;
  re_status : option string;
  re_phase : option string;
  re_amount : pyval;
  re_currency : option string;
  re_respond_by : option Z;
  re_deadline_at : option Z;
  re_payment : option string;
  re_gateway_dispute : option string;
  re_reason_code : json;
  re_reason_description : json;
  re_evidence : json;
}.

Definition _RZP_STATUS_MAP (status : string) : dispute_status :=
  if bool_decide (status = "open"%string) then Opened
  else if bool_decide (status = "under_review"%string) then UnderReview
  else if bool_decide (status = "action_required"%string) then UnderReview
  else if bool_decide (status = "won"%string) then Won
  else if bool_decide (status = "lost"%string) then Lost
  else if bool_decide (status = "closed"%string) then Withdrawn else Opened.

Definition _RZP_PHASE_TO_KIND (phase : string) : string :=
  if bool_decide (phase = "fraud"%string) then "fraud"
  else if bool_decide (phase = "retrieval"%string) then "customer_complaint" else "chargeback".

(** [x or y or None] for the epoch seconds of a deadline; only a positive one counts. *)
Definition due_at_of (e : rzp_entity) : option Z :=
  let nonzero x := match x with Some 0 | None => None | Some z => Some z end in
  match coalesce (nonzero (re_respond_by e)) (re_deadline_at e) with
  | Some z => if 0 <? z then Some z else None
  | None => None
  end.

Definition ORPHAN_MERCHANT : string := "00000000-0000-0000-0000-000000000000".

(** The order [sorted] gives texts. *)
Definition text_le (a b : string) : Prop := string_ltb b a = false.
#[export] Instance text_le_dec : RelDecision text_le.
Proof. intros a b. unfold text_le. apply _. Defined.

Record dispute_request := {
  dq_merchant : string;
  dq_kind : string;
  dq_amount : pyval;
  dq_payment : option string;
  dq_order : option string;
  dq_refund : option Z;
  dq_currency : string;
  dq_customer_reference : option string;
  dq_bank_case : option string;
  dq_evidence : jsonb;
  dq_notes : jsonb;
  dq_due_at : option Z;
  dq_user : option string;
  dq_admin : option string;
  dq_assigned : option string;
}.

Section Service.
Context {L : Type} `{LedgerApi L}.

Definition append_event (e : dispute_event) (db : dispute_db L) : dispute_db L :=
  with_disputes db (dispute_rows db) (dispute_events db ++ [e]).

Definition open_dispute (uuid : string) (rq : dispute_request) (db : dispute_db L) : res (dispute_db L * dispute) :=
  _ ← raise_if (negb (str_mem (dq_kind rq) _KINDS)) (ValidationError "kind must be one of ");
  amt ← decimal_of (dq_amount rq);
  _ ← raise_if (negb (dpos amt)) (ValidationError "amount must be > 0");
  amount ← numeric_18_4 (ticks amt);
  _ ← raise_if (negb (0 <? amount)) (DatabaseError "disputes_amount_check");
  currency ← char3_column (upper (dq_currency rq));
  _ ← raise_if (match dq_refund rq with Some r => negb (existsb (λ x, r_id x =? r) (refund_rows (base db))) | None => false end)
        (DatabaseError "disputes_refund_id_fkey");
  let d := {|
    d_id := Z.of_nat (length (dispute_rows db)) + 1; d_uuid := uuid; d_merchant := dq_merchant rq;
    d_payment := truthy_id (dq_payment rq); d_refund := dq_refund rq; d_order := truthy_id (dq_order rq);
    d_kind := dq_kind rq; d_status := Opened; d_amount := amount; d_currency := currency;
    d_customer_reference := dq_customer_reference rq; d_bank_case := dq_bank_case rq;
    d_evidence := dq_evidence rq; d_notes := dq_notes rq; d_opened_by_user := truthy_id (dq_user rq);
    d_opened_by_admin := truthy_id (dq_admin rq); d_assigned_admin := truthy_id (dq_assigned rq); d_outcome := None;
    d_resolution_notes := None; d_ledger_entry := None; d_due_at := dq_due_at rq; d_resolved_at := None |} in
  let e := {|
    ev_dispute := d_id d; ev_type := "opened"; ev_from := None; ev_to := Some Opened;
    ev_payload := <["kind" := JStr (dq_kind rq)]> {["amount" := JStr (decimal_text amt)]};
    ev_user := truthy_id (dq_user rq); ev_admin := truthy_id (dq_admin rq); ev_label := None |}%string in
  Ok (with_disputes db (dispute_rows db ++ [d]) (dispute_events db ++ [e]), d).

(** The row of a caller's merchant. *)
Definition visible_dispute (id : Z) (merchant_id : option string) (db : dispute_db L) : res dispute :=
  match find_dispute db id with
  | None => Err (NotFoundError "dispute not found")
  | Some d =>
      _ ← raise_if (match merchant_id with Some m => negb (bool_decide (d_merchant d = m)) | None => false end)
            (NotFoundError "dispute not found");
      Ok d
  end.

Definition get : Z → option string → dispute_db L → res dispute := visible_dispute.

(** The debit of a loss, its recovery, and the notes it leaves. *)
Definition post_loss (s : stamp) (c : dispute_change) (d : dispute) (db : dispute_db L) : res (L * Z * jsonb) :=
  let payment := truthy_id (d_payment d) in
  let allocation := p ← payment; frozen_allocation_for_payment (base db) p in
  posted ← debit_and_recover s (dispute_posting d c) (PDec (Dec (d_amount d) (-4))) (dispute_recovery d c)
             (λ recovered, prior_paise (refund_rows (base db)) (dispute_rows db) d + recovered)
             allocation (merchant_ledger (base db));
  let notes :=
    match payment with
    | None => dc_notes c
    | Some p =>
        match allocation with
        | Some _ => <["razorpay_payment_id" := opt_str (pay ← payment_rows (base db) !! p; pay_razorpay pay)]>
                      (<["route_reversal_state" := JStr ROUTE_REVERSAL_PENDING]> (dc_notes c))
        | None => <["route_reversal_state" := JStr ROUTE_REVERSAL_NA]> (dc_notes c)
        end
    end%string in
  Ok (posted.1, posted.2, notes).

(** The transaction of [transition]. *)
Definition transition_tx (s : stamp) (id : Z) (merchant_id : option string) (new_status : string) (c : dispute_change)
    (db : dispute_db L) : res (dispute_db L * dispute) :=
  match parse_dispute_status new_status with
  | None => Err (ValidationError "invalid status: ")
  | Some new =>
      d ← visible_dispute id merchant_id db;
      _ ← raise_if (negb (bool_decide (new ∈ _ALLOWED_TRANSITIONS (d_status d))))
            (ConflictError "cannot transition dispute from ");
      posted ← (if bool_decide (new = Lost) && bool_decide (d_ledger_entry d = None)
                then p ← post_loss s c d db; Ok (p.1.1, Some p.1.2, p.2)
                else Ok (merchant_ledger (base db), d_ledger_entry d, dc_notes c));
      let '(ml, entry, notes) := posted in
      _ ← raise_if (is_terminal new && match dc_outcome c with Some o => negb (str_mem o dispute_outcomes) | None => false end)
            (DatabaseError "invalid input value for enum dispute_outcome_enum");
      let d' := resolved_dispute (now s) new c notes entry d in
      let e := {|
        ev_dispute := id; ev_type := if is_terminal new then "resolved" else "status_changed";
        ev_from := Some (d_status d); ev_to := Some new;
        ev_payload := <["outcome" := opt_str (dc_outcome c)]> (<["resolution_notes" := opt_str (dc_resolution_notes c)]>
          {["ledger_entry_id" := match entry with Some n => JInt n | None => JNull end]});
        ev_user := truthy_id (dc_user c); ev_admin := truthy_id (dc_admin c); ev_label := dc_label c |}%string in
      Ok ({| base := with_refunds (base db) (refund_rows (base db)) ml;
             dispute_rows := update_dispute id (λ _, d') (dispute_rows db);
             dispute_events := dispute_events db ++ [e]; rzp_disputes := rzp_disputes db |}, d')
  end.

Definition assign (id : Z) (merchant_id : option string) (assigned_admin : string) (actor_admin : option string)
    (db : dispute_db L) : res (dispute_db L * dispute) :=
  d ← visible_dispute id merchant_id db;
  let f := annotated (λ x, x) (λ x, x) (λ _, Some assigned_admin) in
  Ok (append_event {| ev_dispute := id; ev_type := "assigned"; ev_from := None; ev_to := None;
        ev_payload := {["assigned_admin_id" := JStr assigned_admin]}; ev_user := None;
        ev_admin := truthy_id actor_admin; ev_label := None |}%string
      (with_disputes db (update_dispute id f (dispute_rows db)) (dispute_events db)), f d).

Definition add_note (id : Z) (merchant_id : option string) (note : string) (actor_user actor_admin : option string)
    (db : dispute_db L) : res (dispute_db L * dispute) :=
  _ ← raise_if (bool_decide (strip note = ""%string)) (ValidationError "note is required");
  d ← visible_dispute id merchant_id db;
  Ok (append_event {| ev_dispute := id; ev_type := "note"; ev_from := None; ev_to := None;
        ev_payload := {["note" := JStr note]}; ev_user := truthy_id actor_user; ev_admin := truthy_id actor_admin;
        ev_label := None |}%string db, d).

(** *** With the gateway *)

Section Gateway.
Context {G : Type}.
Context (reverse_refunded_share : string → string → G → G * res ())
  (accept_dispute : string → string → string → G → G * res json)
  (contest_dispute : string → jsonb → string → string → string → G → G * res json)
  (fetch_dispute : string → string → G → G * res rzp_entity)
  (exn_text : exn → string).

Definition set_notes (id : Z) (f : jsonb → jsonb) (db : dispute_db L) : dispute_db L :=
  with_disputes db (update_dispute id (annotated (λ x, x) f (λ x, x)) (dispute_rows db)) (dispute_events db).

Definition note_text (key : string) (notes : jsonb) : option string :=
  match notes !! key with Some (JStr s) => Some s | _ => None end.

(** Outside any transaction: what happened before an exception stays. *)
Definition _reverse_route_for_lost (d : dispute) (w : dispute_db L * G) : dispute_db L * G * res dispute :=
  let (db, g) := w in
  let notes := d_notes d in
  if negb (bool_decide (note_text "route_reversal_state" notes = Some ROUTE_REVERSAL_PENDING)) then (db, g, Ok d)
  else
    let payment := note_text "razorpay_payment_id" notes in
    if negb (str_truthy payment) then (db, g, Ok d)
    else
      match reverse_refunded_share (default ""%string payment) ("dispute:" ++ nat_text (d_id d))%string g with
      | (g', Err e) =>
          (set_notes (d_id d) (λ n, <["route_reversal_error" := JStr (of_chars (take 500 (chars (exn_text e))))]> n) db,
           g', Err e)
      | (g', Ok _) =>
          let db' := set_notes (d_id d)
            (λ n, <["route_reversal_state" := JStr ROUTE_REVERSAL_DONE]> (delete "route_reversal_error" n)) db in
          (db', g', Ok (default d (find_dispute db' (d_id d))))
      end%string.

Definition transition (s : stamp) (id : Z) (merchant_id : option string) (new_status : string) (c : dispute_change)
    (w : dispute_db L * G) : dispute_db L * G * res dispute :=
  match transition_tx s id merchant_id new_status c w.1 with
  | Err e => (w.1, w.2, Err e)
  | Ok (db, d) => if bool_decide (d_status d = Lost) then _reverse_route_for_lost d (db, w.2) else (db, w.2, Ok d)
  end.

(** The first payment a gateway payment and the merchant have. *)
Definition payment_of_gateway (merchant : string) (razorpay : option string) (db : dispute_db L) : option string :=
  if str_truthy razorpay then
    fst <$> find (λ p, bool_decide (pay_razorpay p.2 = razorpay) && bool_decide (pay_restaurant p.2 = Some merchant))
              (map_to_list (payment_rows (base db)))
  else None.

Definition _find_local_by_razorpay_id (merchant_id razorpay_dispute_id : string) (db : dispute_db L) : option dispute :=
  uuid ← mjoin (rzp_disputes db !! razorpay_dispute_id);
  find (λ d, bool_decide (d_uuid d = uuid) && bool_decide (d_merchant d = merchant_id)) (dispute_rows db).

Definition _link_rzp_dispute (razorpay_dispute_id uuid : string) (db : dispute_db L) : dispute_db L :=
  {| base := base db; dispute_rows := dispute_rows db; dispute_events := dispute_events db;
     rzp_disputes := alter (λ _, Some uuid) razorpay_dispute_id (rzp_disputes db) |}.

Definition razorpay_request (merchant_id rid phase : string) (amount : decimal) (e : rzp_entity) (db : dispute_db L)
    : dispute_request := {|
  dq_merchant := merchant_id; dq_kind := _RZP_PHASE_TO_KIND phase;
  dq_amount := PDec (if dpos amount then amount else Dec 1 (-2));
  dq_payment := payment_of_gateway merchant_id (re_payment e) db; dq_order := None; dq_refund := None;
  dq_currency := upper (str_or (re_currency e) "INR"); dq_customer_reference := Some rid;
  dq_bank_case := re_gateway_dispute e;
  dq_evidence := {["razorpay" := jor (re_evidence e) (JObj [])]};
  dq_notes := <["razorpay_dispute_id" := JStr rid]> (<["razorpay_phase" := JStr phase]>
    (<["razorpay_reason_code" := re_reason_code e]> {["razorpay_reason_description" := re_reason_description e]}));
  dq_due_at := due_at_of e; dq_user := None; dq_admin := None; dq_assigned := None |}%string.

(** The dispute found or opened, then moved when the gateway is ahead. *)
Definition advance_to (s : stamp) (merchant_id : string) (target : dispute_status) (d : dispute) (w : dispute_db L * G)
    : dispute_db L * G * res dispute :=
  if bool_decide (target = d_status d) || is_terminal (d_status d) then
    if bool_decide (d_status d = Lost) then _reverse_route_for_lost d w else (w.1, w.2, Ok d)
  else if negb (bool_decide (target ∈ _ALLOWED_TRANSITIONS (d_status d))) then (w.1, w.2, Ok d)
  else transition s (d_id d) (Some merchant_id) (dispute_text target)
         {| dc_outcome := if is_terminal target then Some (dispute_text target) else None; dc_resolution_notes := None;
            dc_evidence := ∅; dc_notes := ∅; dc_user := None; dc_admin := None;
            dc_label := Some "razorpay_webhook"%string |} w.

Definition upsert_from_razorpay (s : stamp) (uuid merchant_id : string) (status_override : option string) (e : rzp_entity)
    (w : dispute_db L * G) : dispute_db L * G * res (option dispute) :=
  let (db, g) := w in
  let wrap r := match r with (x, Ok d) => (x, Ok (Some d)) | (x, Err e) => (x, Err e) end in
  if bool_decide (merchant_id = ORPHAN_MERCHANT) then (db, g, Ok None)
  else if negb (str_truthy (re_id e)) then (db, g, Ok None)
  else
    let rid := default ""%string (re_id e) in
    let status := lower (str_or status_override (str_or (re_status e) "open")) in
    let target := _RZP_STATUS_MAP status in
    let phase := lower (str_or (re_phase e) "chargeback") in
    match (a ← decimal_or_zero (re_amount e); ddiv a (d_int 100)) with
    | Err e => (db, g, Err e)
    | Ok amount =>
        match _find_local_by_razorpay_id merchant_id rid db with
        | Some d => wrap (advance_to s merchant_id target d (db, g))
        | None =>
            match open_dispute uuid (razorpay_request merchant_id rid phase amount e db) db with
            | Err e => (db, g, Err e)
            | Ok (db1, d) => wrap (advance_to s merchant_id target d (_link_rzp_dispute rid (d_uuid d) db1, g))
            end
        end
    end.

Definition razorpay_dispute_id (d : dispute) : option string := truthy_id (note_text "razorpay_dispute_id" (d_notes d)).

Definition accept_via_gateway (s : stamp) (id : Z) (merchant_id : string) (user admin : option string)
    (w : dispute_db L * G) : dispute_db L * G * res dispute :=
  let (db, g) := w in
  match get id (Some merchant_id) db with
  | Err e => (db, g, Err e)
  | Ok local =>
      match razorpay_dispute_id local with
      | None => (db, g, Err (ValidationError "dispute is not linked to a razorpay dispute"))
      | Some rid =>
          if is_terminal (d_status local) then (db, g, Ok local)
          else
            match accept_dispute rid ("rzp_dispute_accept:" ++ d_uuid local)%string merchant_id g with
            | (g', Err e) => (db, g', Err (ConflictError "razorpay accept failed: "))
            | (g', Ok reply) =>
                transition s id (Some merchant_id) "lost"
                  {| dc_outcome := Some "lost"; dc_resolution_notes := Some "accepted via razorpay";
                     dc_evidence := {["razorpay_accept_response" := reply]}; dc_notes := ∅; dc_user := user;
                     dc_admin := admin; dc_label := Some "razorpay_accept" |}%string (db, g')
            end
      end
  end.

Definition json_object (fields : jsonb) : json := JObj (map_to_list fields).

(** The keys of a payload, sorted. *)
Definition sorted_keys (fields : jsonb) : json :=
  JList (map JStr (merge_sort text_le (map fst (map_to_list fields)))).

(** The transaction of a contest that stays a draft. *)
Definition record_draft (id : Z) (action : string) (reply : json) (evidence : jsonb) (user admin : option string)
    (db : dispute_db L) : dispute_db L :=
  let db1 := append_event {|
    ev_dispute := id; ev_type := "evidence_added"; ev_from := None; ev_to := None;
    ev_payload := <["action" := JStr action]> (<["razorpay_response" := reply]> {["evidence_keys" := sorted_keys evidence]});
    ev_user := truthy_id user; ev_admin := truthy_id admin; ev_label := Some "razorpay_contest_draft" |}%string db in
  with_disputes db1 (update_dispute id (annotated
    (λ ev, <["razorpay_contest_draft" := reply]> (<["draft_evidence" := json_object evidence]> ev)) (λ n, n) (λ a, a))
    (dispute_rows db1)) (dispute_events db1).

Definition contest_via_gateway (s : stamp) (id : Z) (merchant_id : string) (evidence : jsonb) (action : string)
    (user admin : option string) (w : dispute_db L * G) : dispute_db L * G * res dispute :=
  let (db, g) := w in
  if negb (str_mem action ["draft"; "submit"]%string) then (db, g, Err (ValidationError "action must be draft|submit"))
  else if bool_decide (size evidence = 0%nat) then (db, g, Err (ValidationError "evidence is required"))
  else
    match get id (Some merchant_id) db with
    | Err e => (db, g, Err e)
    | Ok local =>
        match razorpay_dispute_id local with
        | None => (db, g, Err (ValidationError "dispute is not linked to a razorpay dispute"))
        | Some rid =>
            if is_terminal (d_status local) then (db, g, Err (ConflictError "dispute is already "))
            else
              match contest_dispute rid evidence action ("rzp_dispute_contest:" ++ d_uuid local ++ ":" ++ action)%string
                      merchant_id g with
              | (g', Err e) => (db, g', Err (ConflictError "razorpay contest failed: "))
              | (g', Ok reply) =>
                  if bool_decide (action = "submit"%string) && bool_decide (d_status local ∈ [Opened; UnderReview]) then
                    transition s id (Some merchant_id) "evidence_submitted"
                      {| dc_outcome := None; dc_resolution_notes := None;
                         dc_evidence := <["razorpay_contest_response" := reply]>
                                          {["submitted_evidence" := json_object evidence]};
                         dc_notes := ∅; dc_user := user; dc_admin := admin;
                         dc_label := Some "razorpay_contest_submit" |}%string (db, g')
                  else
                    let db' := record_draft id action reply evidence user admin db in
                    (db', g', get id (Some merchant_id) db')
              end
        end
    end.

Definition sync_from_gateway (s : stamp) (uuid : string) (id : Z) (merchant_id : string) (w : dispute_db L * G)
    : dispute_db L * G * res dispute :=
  let (db, g) := w in
  match get id (Some merchant_id) db with
  | Err e => (db, g, Err e)
  | Ok local =>
      match razorpay_dispute_id local with
      | None => (db, g, Err (ValidationError "dispute is not linked to a razorpay dispute"))
      | Some rid =>
          match fetch_dispute rid merchant_id g with
          | (g', Err e) => (db, g', Err e)
          | (g', Ok entity) =>
              match upsert_from_razorpay s uuid merchant_id None entity (db, g') with
              | (w', Ok synced) => (w', Ok (default local synced))
              | (w', Err e) => (w', Err e)
              end
          end
      end
  end.
End Gateway.
End Service.

(** ** The table and its trail *)

Definition dispute_step (a b : dispute_status) : Prop := b ∈ _ALLOWED_TRANSITIONS a.

(** The status changes the events of a dispute record, in order. *)
Definition trail (id : Z) (events : list dispute_event) : list (option dispute_status * dispute_status) :=
  omap (λ e, if ev_dispute e =? id then (λ t, (ev_from e, t)) <$> ev_to e else None) events.

(** A trail that starts by opening and follows the status machine to [s]. *)
Inductive follows : list (option dispute_status * dispute_status) → dispute_status → Prop :=
  | follows_open : follows [(None, Opened)] Opened
  | follows_step l a b : follows l a → dispute_step a b → follows (l ++ [(Some a, b)]) b.

(** What no operation changes of a dispute. *)
Definition same_dispute (d d' : dispute) : Prop :=
  d_id d' = d_id d ∧ d_uuid d' = d_uuid d ∧ d_merchant d' = d_merchant d ∧ d_payment d' = d_payment d ∧
  d_order d' = d_order d ∧ d_kind d' = d_kind d ∧ d_amount d' = d_amount d ∧ d_currency d' = d_currency d.

(** What is decided of a dispute: its status, ledger entry, outcome and the time it was resolved. *)
Definition verdict_of (d : dispute) : dispute_status * option Z * option string * option Z :=
  (d_status d, d_ledger_entry d, d_outcome d, d_resolved_at d).

Record dispute_row_ok (events : list dispute_event) (d : dispute) : Prop := {
  ok_amount : 0 < d_amount d;
  ok_entry : is_Some (d_ledger_entry d) ↔ d_status d = Lost;
  ok_resolved : is_Some (d_resolved_at d) ↔ is_terminal (d_status d) = true;
  ok_trail : follows (trail (d_id d) events) (d_status d);
}.

Definition ids_in_order (l : list dispute) : Prop := ∀ i d, l !! i = Some d → d_id d = Z.of_nat i + 1.

Record disputes_ok {L} (db : dispute_db L) : Prop := {
  ok_ids : ids_in_order (dispute_rows db);
  ok_rows : Forall (dispute_row_ok (dispute_events db)) (dispute_rows db);
  ok_events : Forall (λ e, ev_to e ≠ None → 0 < ev_dispute e <= Z.of_nat (length (dispute_rows db))) (dispute_events db);
}.

Definition dispute_evolves (d d' : dispute) : Prop :=
  same_dispute d d' ∧ rtc dispute_step (d_status d) (d_status d') ∧
  (is_terminal (d_status d) = true → verdict_of d' = verdict_of d).

Record disputes_evolve {L} (db db' : dispute_db L) : Prop := {
  ev_rows : ∀ i d, dispute_rows db !! i = Some d → ∃ d', dispute_rows db' !! i = Some d' ∧ dispute_evolves d d';
  ev_log : dispute_events db `prefix_of` dispute_events db';
}.

Definition disputes_kept {L} (db db' : dispute_db L) : Prop := disputes_ok db → disputes_ok db' ∧ disputes_evolve db db'.

#[export] Instance dispute_evolves_preorder : PreOrder dispute_evolves.
Proof.
  split.
  - intros d. split; [by repeat split|]. by split.
  - intros d1 d2 d3 (S1 & T1 & F1) (S2 & T2 & F2). split; [unfold same_dispute in *; intuition congruence|].
    split; [by etrans|]. intros Ht. specialize (F1 Ht). injection F1 as E1 E2 E3 E4.
    rewrite F2 by (by rewrite E1). unfold verdict_of. congruence.
Qed.

#[export] Instance disputes_kept_preorder {L} : PreOrder (@disputes_kept L).
Proof.
  split.
  - intros db Hok. split; [done|]. split; [|done]. intros i d Hd. by exists d.
  - intros db1 db2 db3 H12 H23 H1. destruct (H12 H1) as [H2 [E1 L1]]. destruct (H23 H2) as [H3 [E2 L2]].
    split; [done|]. split; [|by etrans]. intros i d Hd. destruct (E1 i d Hd) as (d' & Hd' & K1).
    destruct (E2 i d' Hd') as (d'' & Hd'' & K2). exists d''. split; [done|by etrans].
Qed.

Lemma find_in_order l id d : ids_in_order l → find (λ d, d_id d =? id) l = Some d ↔ 0 < id ∧ l !! Z.to_nat (id - 1) = Some d.
Proof.
  intros Hl. split.
  - intros [Hin Hid]%find_some. apply Z.eqb_eq in Hid. apply list_elem_of_In, list_elem_of_lookup in Hin as [i Hi].
    pose proof (Hl i d Hi). split; [lia|]. by replace (Z.to_nat (id - 1)) with i by lia.
  - intros [Hpos Hi]. pose proof (Hl _ _ Hi) as Hd. destruct (find (λ d, d_id d =? id) l) as [d0|] eqn:Hf.
    + apply find_some in Hf as [Hin Hid]. apply Z.eqb_eq in Hid.
      apply list_elem_of_In, list_elem_of_lookup in Hin as [j Hj]. pose proof (Hl j d0 Hj).
      replace (Z.to_nat (id - 1)) with j in Hi by lia. congruence.
    + exfalso. apply list_elem_of_lookup_2, list_elem_of_In in Hi.
      pose proof (find_none _ _ Hf d Hi) as Hn. cbn in Hn. apply Z.eqb_neq in Hn. lia.
Qed.

Lemma update_lookup id f l i : update_dispute id f l !! i = (λ d, if d_id d =? id then f d else d) <$> l !! i.
Proof. apply list_lookup_fmap. Qed.

Lemma find_update p id f l : (∀ d, p (f d) = p d) →
  find p (update_dispute id f l) = (λ d, if d_id d =? id then f d else d) <$> find p l.
Proof.
  intros Hp. induction l as [|x l IH]; [done|]. cbn. destruct (d_id x =? id) eqn:E; rewrite ?Hp; destruct (p x); cbn;
    rewrite ?E; done.
Qed.

Lemma find_replaced id d d' l : find (λ x, d_id x =? id) l = Some d → d_id d' = d_id d →
  find (λ x, d_id x =? id) (update_dispute id (λ _, d') l) = Some d'.
Proof.
  intros Hf Hid. assert (d_id d = id) as Hd by (apply find_some in Hf as [_ E]; by apply Z.eqb_eq in E).
  induction l as [|x l IH]; [done|]. cbn in Hf |- *. destruct (d_id x =? id) eqn:E.
  - by rewrite Hid, Hd, Z.eqb_refl.
  - rewrite E. by apply IH.
Qed.

Lemma dispute_trail_app id l k : trail id (l ++ k) = trail id l ++ trail id k.
Proof. apply omap_app. Qed.

(** An event that records no status change, or one of another dispute. *)
Lemma trail_other id events e : ev_to e = None ∨ ev_dispute e ≠ id → trail id (events ++ [e]) = trail id events.
Proof.
  intros H. rewrite dispute_trail_app. unfold trail at 2. cbn. destruct (Z.eqb_spec (ev_dispute e) id); cbn; [|by rewrite app_nil_r].
  destruct H as [-> |H]; [by rewrite app_nil_r|done].
Qed.

Lemma trail_silent id events es : Forall (λ e, ev_to e = None) es → trail id (events ++ es) = trail id events.
Proof.
  intros Hes. rewrite dispute_trail_app. replace (trail id es) with (@nil (option dispute_status * dispute_status)); [by rewrite app_nil_r|].
  unfold trail. induction Hes as [|e es He _ IH]; [done|]. cbn. rewrite He. by destruct (ev_dispute e =? id).
Qed.

(** Changing the JSON columns and the assignee, and logging it. *)
Lemma annotated_kept {L} (db db' : dispute_db L) id evidence notes admin es :
  dispute_rows db' = update_dispute id (annotated evidence notes admin) (dispute_rows db) →
  dispute_events db' = dispute_events db ++ es → Forall (λ e, ev_to e = None) es → disputes_kept db db'.
Proof.
  intros Hrows Hev Hes [H1 H2 H3].
  assert (∀ d, dispute_evolves d (if d_id d =? id then annotated evidence notes admin d else d)) as Hevol.
  { intros d. destruct (d_id d =? id); [|done]. split; [by repeat split|]. by split. }
  split; [split|split].
  - intros i d Hi. rewrite Hrows, update_lookup in Hi. destruct (dispute_rows db !! i) as [d0|] eqn:Hd; [|done].
    injection Hi as <-. pose proof (H1 i d0 Hd). by destruct (d_id d0 =? id).
  - rewrite Hrows. unfold update_dispute. apply Forall_map. eapply Forall_impl; [exact H2|]. intros d [K1 K2 K3 K4]. cbn.
    destruct (d_id d =? id); split; cbn; rewrite ?Hev, ?trail_silent; done.
  - rewrite Hev, Hrows. unfold update_dispute. rewrite length_map. apply Forall_app. split; [done|].
    eapply Forall_impl; [exact Hes|]. by intros e ->.
  - intros i d Hd. exists (if d_id d =? id then annotated evidence notes admin d else d).
    rewrite Hrows, update_lookup, Hd. split; [done|]. apply Hevol.
  - rewrite Hev. by apply prefix_app_r.
Qed.

(** Nothing of the disputes changes. *)
Lemma unchanged_kept {L} (db db' : dispute_db L) :
  dispute_rows db' = dispute_rows db → dispute_events db' = dispute_events db → disputes_kept db db'.
Proof.
  intros Hr He [H1 H2 H3]. split; [split; by rewrite ?Hr, ?He|]. split; [|by rewrite He].
  intros i d Hd. exists d. by rewrite Hr.
Qed.

(** No event names a dispute yet to be opened. *)
Lemma trail_fresh {L} (db : dispute_db L) id : disputes_ok db → Z.of_nat (length (dispute_rows db)) < id →
  trail id (dispute_events db) = [].
Proof.
  intros [_ _ H] Hid. induction (dispute_events db) as [|e l IH]; [done|]. apply Forall_cons in H as [He Hl].
  cbn. unfold trail in IH. rewrite (IH Hl). destruct (Z.eqb_spec (ev_dispute e) id) as [<-|]; [|done].
  destruct (ev_to e); [|done]. destruct He; [done|lia].
Qed.

Section Kept.
Context {L : Type} `{LedgerApi L}.

Lemma open_effect uuid rq (db db' : dispute_db L) d : open_dispute uuid rq db = Ok (db', d) →
  ∃ e, dispute_rows db' = dispute_rows db ++ [d] ∧ dispute_events db' = dispute_events db ++ [e] ∧
    base db' = base db ∧ rzp_disputes db' = rzp_disputes db ∧
    d_id d = Z.of_nat (length (dispute_rows db)) + 1 ∧ d_uuid d = uuid ∧ d_merchant d = dq_merchant rq ∧
    d_status d = Opened ∧ 0 < d_amount d ∧ d_ledger_entry d = None ∧ d_resolved_at d = None ∧
    ev_dispute e = d_id d ∧ ev_from e = None ∧ ev_to e = Some Opened.
Proof.
  unfold open_dispute. intros E. apply res_bind_Ok in E as (u1 & _ & E). apply res_bind_Ok in E as (amt & _ & E).
  apply res_bind_Ok in E as (u2 & _ & E). apply res_bind_Ok in E as (amount & _ & E).
  apply res_bind_Ok in E as (u3 & Ha & E). apply res_bind_Ok in E as (cur & _ & E).
  apply res_bind_Ok in E as (u4 & _ & E). injection E as <- <-.
  apply raise_if_Ok, negb_false_iff, Z.ltb_lt in Ha. eexists. cbn. repeat split. done.
Qed.

Lemma open_kept uuid rq (db db' : dispute_db L) d : open_dispute uuid rq db = Ok (db', d) → disputes_kept db db'.
Proof.
  intros (e & Hr & He & _ & _ & Hid & _ & _ & Hst & Hamt & Hent & Hres & Hed & Hef & Het)%open_effect Hok.
  pose proof Hok as [H1 H2 H3].
  assert (∀ x, x ∈ dispute_rows db → d_id x ≠ d_id d) as Hother.
  { intros x [i Hi]%list_elem_of_lookup. pose proof (H1 i x Hi). apply lookup_lt_Some in Hi. lia. }
  split; [split|split].
  - intros i x. rewrite Hr. intros [Hi|[Hge Hi]]%lookup_app_Some; [by apply H1|].
    apply list_lookup_singleton_Some in Hi as [Hi <-]. lia.
  - rewrite Hr, He. apply Forall_app. split.
    + apply Forall_forall. intros x Hx. destruct (proj1 (Forall_forall _ _) H2 x Hx) as [K1 K2 K3 K4].
      split; try done. rewrite trail_other by (right; rewrite Hed; by apply not_eq_sym, Hother). done.
    + apply Forall_singleton. split; [done|rewrite Hent, Hst; split; [by intros [? ?]|done]|
        rewrite Hres, Hst; split; [by intros [? ?]|done]|].
      rewrite dispute_trail_app, (trail_fresh db) by (done || lia). cbn. rewrite Hed, Z.eqb_refl, Het, Hef, Hst. constructor.
  - rewrite Hr, He, length_app. apply Forall_app. split.
    + eapply Forall_impl; [exact H3|]. cbn. intros x Hx Hn. specialize (Hx Hn). lia.
    + apply Forall_singleton. cbn. rewrite Hed, Hid. lia.
  - intros i x Hi. exists x. rewrite Hr, lookup_app_l by (by eapply lookup_lt_Some). done.
  - rewrite He. by apply prefix_app_r.
Qed.

Lemma visible_effect id m (db : dispute_db L) d : visible_dispute id m db = Ok d →
  find_dispute db id = Some d ∧ ∀ m', m = Some m' → d_merchant d = m'.
Proof.
  unfold visible_dispute. destruct (find_dispute db id) as [d0|]; [|done]. intros E.
  apply res_bind_Ok in E as (u & Hm & [= <-]). apply raise_if_Ok in Hm. split; [done|]. intros m' ->.
  by apply negb_false_iff, bool_decide_eq_true in Hm.
Qed.

(** The effect of a transition: one row moves a step along the machine, one event
    records it, and the ledger changes only for a loss. *)
Lemma dispute_transition_effect s id m new c (db db' : dispute_db L) d' : transition_tx s id m new c db = Ok (db', d') →
  ∃ d st notes entry ml e, find_dispute db id = Some d ∧ parse_dispute_status new = Some st ∧
    dispute_step (d_status d) st ∧ d' = resolved_dispute (now s) st c notes entry d ∧
    db' = {| base := with_refunds (base db) (refund_rows (base db)) ml;
             dispute_rows := update_dispute id (λ _, d') (dispute_rows db);
             dispute_events := dispute_events db ++ [e]; rzp_disputes := rzp_disputes db |} ∧
    ev_dispute e = id ∧ ev_from e = Some (d_status d) ∧ ev_to e = Some st ∧
    (st = Lost → is_Some (coalesce entry (d_ledger_entry d))) ∧
    (st ≠ Lost → entry = d_ledger_entry d ∧ ml = merchant_ledger (base db)).
Proof.
  unfold transition_tx. destruct (parse_dispute_status new) as [st|]; [|done]. intros E.
  apply res_bind_Ok in E as (d & [Hd _]%visible_effect & E).
  apply res_bind_Ok in E as (u & Hstep%raise_if_Ok & E). apply negb_false_iff, bool_decide_eq_true in Hstep.
  apply res_bind_Ok in E as ([[ml entry] notes] & Hp & E).
  apply res_bind_Ok in E as (u' & _ & E). injection E as <- <-.
  exists d, st, notes, entry, ml. eexists. split; [done|]. split; [done|]. split; [done|]. split; [reflexivity|].
  split; [reflexivity|]. do 3 (split; [done|]). split.
  - intros ->. destruct (d_ledger_entry d) as [n|]; [by destruct entry; eexists|].
    rewrite !bool_decide_eq_true_2 in Hp by done. cbn in Hp. apply res_bind_Ok in Hp as (p & _ & [= _ <- _]). by eexists.
  - intros Hne. rewrite (bool_decide_eq_false_2 _ Hne) in Hp. by injection Hp as <- <- _.
Qed.

Lemma dispute_step_live a b : dispute_step a b → is_terminal a = false.
Proof. unfold dispute_step. destruct a; cbn; try done; intros H0; by apply elem_of_nil in H0. Qed.

Lemma transition_kept s id m new c (db db' : dispute_db L) d' :
  transition_tx s id m new c db = Ok (db', d') → disputes_kept db db'.
Proof.
  intros (d & st & notes & entry & ml & e & Hf & _ & Hstep & -> & -> & Hed & Hef & Het & Hlost & Hother)%dispute_transition_effect Hok.
  pose proof Hok as [H1 H2 H3]. set (d' := resolved_dispute (now s) st c notes entry d) in *.
  pose proof Hf as Hf'. apply (find_in_order _ _ _ H1) in Hf' as [Hpos Hi].
  assert (d_id d = id) as Hid by (pose proof (H1 _ _ Hi); lia).
  destruct (proj1 (Forall_lookup _ _) H2 _ _ Hi) as [K1 K2 K3 K4].
  pose proof (dispute_step_live _ _ Hstep) as Hlive.
  assert (d_ledger_entry d = None) as Hnone.
  { apply eq_None_not_Some. intros Hs%K2. by rewrite Hs in Hlive. }
  assert (dispute_evolves d d') as Hevol.
  { split; [by repeat split|]. split; [by apply rtc_once|]. by rewrite Hlive. }
  split; [split|split]; cbn [dispute_rows dispute_events].
  - intros i x Hx. rewrite update_lookup in Hx. destruct (dispute_rows db !! i) as [x0|] eqn:Hx0; [|done].
    injection Hx as <-. pose proof (H1 i x0 Hx0). destruct (Z.eqb_spec (d_id x0) id) as [E|]; [|done]. cbn. lia.
  - unfold update_dispute. apply Forall_map, Forall_forall. intros x Hx.
    destruct (proj1 (Forall_forall _ _) H2 x Hx) as [J1 J2 J3 J4]. destruct (Z.eqb_spec (d_id x) id) as [E|E]; cbn.
    + split; cbn; [done|..].
      * split; [|exact Hlost]. intros Hs. destruct (decide (st = Lost)) as [->|Hne]; [done|].
        destruct (Hother Hne) as [-> _]. rewrite Hnone in Hs. by destruct Hs.
      * destruct (is_terminal st) eqn:Ht; [split; [done|by eexists]|]. split; [|done].
        intros Hs%K3. congruence.
      * rewrite Hid, dispute_trail_app. cbn. rewrite Hed, Z.eqb_refl, Het, Hef. constructor; [by rewrite <-Hid|done].
    + split; try done. rewrite trail_other; [done|]. right. rewrite Hed. by apply not_eq_sym.
  - unfold update_dispute. rewrite length_map. apply Forall_app. split; [done|]. apply Forall_singleton. intros _.
    rewrite Hed. apply lookup_lt_Some in Hi. lia.
  - intros i x Hx. rewrite update_lookup, Hx. eexists. split; [reflexivity|]. cbn.
    destruct (Z.eqb_spec (d_id x) id) as [E|E]; [|done].
    assert (x = d) as ->; [|done]. pose proof (H1 i x Hx). replace i with (Z.to_nat (id - 1)) in Hx by lia. congruence.
  - by apply prefix_app_r.
Qed.
End Kept.

(** ** Sequences of operations *)

Section Operations.
Context {L : Type} `{LedgerApi L} {G : Type}.
Context (reverse_refunded_share : string → string → G → G * res ())
  (accept_dispute : string → string → string → G → G * res json)
  (contest_dispute : string → jsonb → string → string → string → G → G * res json)
  (fetch_dispute : string → string → G → G * res rzp_entity)
  (exn_text : exn → string).
Notation reverse := (_reverse_route_for_lost reverse_refunded_share exn_text).
Notation move := (transition reverse_refunded_share exn_text).
Notation upsert := (upsert_from_razorpay reverse_refunded_share exn_text).

Lemma notes_kept id f (db : dispute_db L) : disputes_kept db (set_notes id f db).
Proof using Type. eapply (annotated_kept db _ id _ _ _ []); [done| |constructor]. cbn. by rewrite app_nil_r. Qed.

Lemma reverse_kept d (w : dispute_db L * G) : disputes_kept w.1 (reverse d w).1.1.
Proof using Type.
  destruct w as [db g]. unfold _reverse_route_for_lost. cbv zeta. destruct (negb _); [done|]. destruct (negb _); [done|].
  destruct (reverse_refunded_share _ _ g) as [g' [[]|e]]; apply notes_kept.
Qed.

Lemma move_kept s id m new c (w : dispute_db L * G) : disputes_kept w.1 (move s id m new c w).1.1.
Proof using Type.
  unfold transition. destruct (transition_tx s id m new c w.1) as [[db d]|e] eqn:E; [|done].
  apply transition_kept in E. case_bool_decide; [|done]. etrans; [exact E|].
  exact (reverse_kept d (db, w.2)).
Qed.

Lemma advance_kept s m target d (w : dispute_db L * G) :
  disputes_kept w.1 (advance_to reverse_refunded_share exn_text s m target d w).1.1.
Proof using Type.
  unfold advance_to. destruct (_ || _).
  - case_bool_decide; [apply reverse_kept|done].
  - destruct (negb _); [done|apply move_kept].
Qed.

Lemma upsert_kept s uuid m o e (w : dispute_db L * G) : disputes_kept w.1 (upsert s uuid m o e w).1.1.
Proof using Type.
  destruct w as [db g]. unfold upsert_from_razorpay. cbv zeta. case_bool_decide; [done|]. destruct (negb _); [done|].
  destruct (decimal_or_zero (re_amount e) ≫= _) as [amount|]; [|done].
  destruct (_find_local_by_razorpay_id m _ db) as [d|].
  - match goal with |- context [advance_to _ _ ?s ?m ?t ?d ?w] => pose proof (advance_kept s m t d w) as Hk;
      destruct (advance_to reverse_refunded_share exn_text s m t d w) as [x [?|?]] end; exact Hk.
  - destruct (open_dispute uuid _ db) as [[db1 d]|e'] eqn:Ho; [|done]. apply open_kept in Ho. etrans; [exact Ho|].
    etrans; [apply (unchanged_kept db1 (_link_rzp_dispute (default ""%string (re_id e)) (d_uuid d) db1)); done|].
    match goal with |- context [advance_to _ _ ?s ?m ?t ?d ?w] => pose proof (advance_kept s m t d w) as Hk;
      destruct (advance_to reverse_refunded_share exn_text s m t d w) as [x [?|?]] end; exact Hk.
Qed.

Lemma accept_kept s id m user admin (w : dispute_db L * G) :
  disputes_kept w.1 (accept_via_gateway reverse_refunded_share accept_dispute exn_text s id m user admin w).1.1.
Proof using Type.
  destruct w as [db g]. unfold accept_via_gateway. destruct (get id (Some m) db) as [local|]; [|done].
  destruct (razorpay_dispute_id local); [|done]. destruct (is_terminal _); [done|].
  destruct (accept_dispute _ _ _ g) as [g' [reply|e]]; [|done]. exact (move_kept s id _ _ _ (db, g')).
Qed.

Lemma contest_kept s id m evidence action user admin (w : dispute_db L * G) :
  disputes_kept w.1 (contest_via_gateway reverse_refunded_share contest_dispute exn_text s id m evidence action user admin w).1.1.
Proof using Type.
  destruct w as [db g]. unfold contest_via_gateway. destruct (negb _); [done|]. case_bool_decide; [done|].
  destruct (get id (Some m) db) as [local|]; [|done]. destruct (razorpay_dispute_id local); [|done].
  destruct (is_terminal _); [done|]. destruct (contest_dispute _ _ _ _ _ g) as [g' [reply|e]]; [|done].
  destruct (bool_decide _ && bool_decide _); [exact (move_kept s id _ _ _ (db, g'))|].
  eapply (annotated_kept db); [reflexivity|reflexivity|]. by constructor.
Qed.

Lemma sync_kept s uuid id m (w : dispute_db L * G) :
  disputes_kept w.1 (sync_from_gateway reverse_refunded_share fetch_dispute exn_text s uuid id m w).1.1.
Proof using Type.
  destruct w as [db g]. unfold sync_from_gateway. destruct (get id (Some m) db) as [local|]; [|done].
  destruct (razorpay_dispute_id local); [|done]. destruct (fetch_dispute _ _ g) as [g' [entity|e]]; [|done].
  pose proof (upsert_kept s uuid m None entity (db, g')) as Hk.
  destruct (upsert s uuid m None entity (db, g')) as [w' [?|?]]; exact Hk.
Qed.

(** One request or webhook of the dispute service, or activity of another one. *)
Inductive dispute_op (w : dispute_db L * G) : dispute_db L * G → Prop :=
  | OpOpen uuid rq db d : open_dispute uuid rq w.1 = Ok (db, d) → dispute_op w (db, w.2)
  | OpTransition s id m new c : dispute_op w (move s id m new c w).1
  | OpAssign id m admin who db d : assign id m admin who w.1 = Ok (db, d) → dispute_op w (db, w.2)
  | OpNote id m note user admin db d : add_note id m note user admin w.1 = Ok (db, d) → dispute_op w (db, w.2)
  | OpUpsert s uuid m o e : dispute_op w (upsert s uuid m o e w).1
  | OpAccept s id m user admin :
      dispute_op w (accept_via_gateway reverse_refunded_share accept_dispute exn_text s id m user admin w).1
  | OpContest s id m evidence action user admin :
      dispute_op w (contest_via_gateway reverse_refunded_share contest_dispute exn_text s id m evidence action user admin w).1
  | OpSync s uuid id m :
      dispute_op w (sync_from_gateway reverse_refunded_share fetch_dispute exn_text s uuid id m w).1
  | OpElsewhere b links g : dispute_op w
      ({| base := b; dispute_rows := dispute_rows w.1; dispute_events := dispute_events w.1; rzp_disputes := links |}, g).

Lemma op_kept w w' : dispute_op w w' → disputes_kept w.1 w'.1.
Proof using Type.
  intros [uuid rq db d E|s id m new c|id m admin who db d E|id m note user admin db d E|s uuid m o e|s id m user admin
    |s id m evidence action user admin|s uuid id m|b links g].
  - by eapply open_kept.
  - apply move_kept.
  - unfold assign in E. apply res_bind_Ok in E as (d0 & _ & [= <- _]).
    eapply (annotated_kept w.1); [reflexivity|reflexivity|]. by constructor.
  - unfold add_note in E. apply res_bind_Ok in E as (u & _ & E). apply res_bind_Ok in E as (d0 & _ & [= <- _]).
    eapply (annotated_kept w.1 _ 0 (λ x, x) (λ x, x) (λ x, x)); [|reflexivity|by constructor]. cbn.
    unfold update_dispute. symmetry. rewrite <-(map_id (dispute_rows w.1)) at 2. apply map_ext. intros x.
    destruct (d_id x =? 0); [by destruct x|done].
  - apply upsert_kept.
  - apply accept_kept.
  - apply contest_kept.
  - apply sync_kept.
  - by apply unchanged_kept.
Qed.

Lemma ops_kept w w' : rtc dispute_op w w' → disputes_kept w.1 w'.1.
Proof using Type. induction 1 as [w|w1 w2 w3 H12 _ IH]; [done|]. etrans; [by apply op_kept|done]. Qed.

Lemma no_disputes_ok (db : dispute_db L) : dispute_rows db = [] → dispute_events db = [] → disputes_ok db.
Proof using Type. intros Hr He. split; rewrite ?Hr, ?He; done. Qed.

(** C38: whatever requests, gateway replies and webhooks the service has seen, the
    append-only events of a dispute tell its whole course: they start with its
    opening, follow the status machine step by step and end in its current
    status; what it is about never changes, later events never rewrite earlier
    ones, a closed dispute keeps its status, outcome, ledger entry and time of
    resolution for ever, and a dispute has a ledger entry exactly when it is lost. *)
Theorem dispute_history_sound w0 w1 w2 i d :
  dispute_rows w0.1 = [] → dispute_events w0.1 = [] → rtc dispute_op w0 w1 → rtc dispute_op w1 w2 →
  dispute_rows w1.1 !! i = Some d →
  ∃ d', dispute_rows w2.1 !! i = Some d' ∧ same_dispute d d' ∧ rtc dispute_step (d_status d) (d_status d') ∧
    (is_terminal (d_status d) = true → verdict_of d' = verdict_of d) ∧
    follows (trail (d_id d) (dispute_events w2.1)) (d_status d') ∧
    trail (d_id d) (dispute_events w1.1) `prefix_of` trail (d_id d) (dispute_events w2.1) ∧
    (is_Some (d_ledger_entry d') ↔ d_status d' = Lost).
Proof using Type.
  intros Hr He H1 H2 Hd. destruct (ops_kept _ _ H1 (no_disputes_ok _ Hr He)) as [Hok1 _].
  destruct (ops_kept _ _ H2 Hok1) as [[_ Hrows _] [Hev Hlog]].
  destruct (Hev i d Hd) as (d' & Hd' & Hsame & Hrtc & Hfin). exists d'.
  destruct (proj1 (Forall_lookup _ _) Hrows i d' Hd') as [_ K2 _ K4]. do 4 (split; [done|]).
  destruct Hsame as (Hid & _). rewrite Hid in K4. split; [done|]. split; [|done].
  destruct Hlog as [k ->]. rewrite dispute_trail_app. by apply prefix_app_r.
Qed.

(** *** Clawing back a lost share *)

(** The Route reversal of a lost dispute is retried until it succeeds and then
    never sent again: while it is pending, each gateway update of the dispute
    sends it once; a failure is raised, is noted on the dispute and leaves it
    pending; a success marks it reversed, and the next update sends nothing. *)
Theorem reversal_until_done s uuid uuid' m o o' e (db : dispute_db L) g d rid pay amt :
  disputes_ok db → m ≠ ORPHAN_MERCHANT → re_id e = Some rid → rid ≠ ""%string →
  decimal_or_zero (re_amount e) ≫= (λ a, ddiv a (d_int 100)) = Ok amt →
  _find_local_by_razorpay_id m rid db = Some d → find_dispute db (d_id d) = Some d → d_status d = Lost →
  note_text "route_reversal_state" (d_notes d) = Some ROUTE_REVERSAL_PENDING →
  note_text "razorpay_payment_id" (d_notes d) = Some pay → pay ≠ ""%string →
  let '(g', r) := reverse_refunded_share pay ("dispute:" ++ nat_text (d_id d))%string g in
  ∃ db' result, upsert s uuid m o e (db, g) = (db', g', result) ∧
    match r with
    | Err x => result = Err x ∧ ∃ d', find_dispute db' (d_id d) = Some d' ∧ verdict_of d' = verdict_of d ∧
        note_text "route_reversal_state" (d_notes d') = Some ROUTE_REVERSAL_PENDING
    | Ok _ => ∃ d', result = Ok (Some d') ∧ find_dispute db' (d_id d) = Some d' ∧
        note_text "route_reversal_state" (d_notes d') = Some ROUTE_REVERSAL_DONE ∧
        upsert s uuid' m o' e (db', g') = (db', g', Ok (Some d'))
    end.
Proof using Type.
  intros Hok Hm Hid Hne Ha Hloc Hf Hst Hpend Hpay Hpayne.
  assert (∀ f, find_dispute (set_notes (d_id d) f db) (d_id d) = Some (annotated (λ x, x) f (λ x, x) d) ∧
    _find_local_by_razorpay_id m rid (set_notes (d_id d) f db) = Some (annotated (λ x, x) f (λ x, x) d)) as Hset.
  { intros f. unfold find_dispute, _find_local_by_razorpay_id in *. cbn [set_notes with_disputes dispute_rows rzp_disputes].
    destruct (mjoin (rzp_disputes db !! rid)) as [u|]; [|done]. cbn in Hloc |- *.
    rewrite !find_update, Hf, Hloc by done. cbn. by rewrite Z.eqb_refl. }
  assert (∀ target, (bool_decide (target = d_status d) || is_terminal (d_status d)) = true) as Hclosed
    by (intros target; rewrite Hst; apply orb_true_r).
  unfold upsert_from_razorpay. cbv zeta.
  rewrite (bool_decide_eq_false_2 _ Hm), Hid. unfold str_truthy at 1 2. rewrite (bool_decide_eq_false_2 _ Hne).
  cbn [negb default from_option id]. rewrite Ha, Hloc. unfold advance_to at 1. rewrite Hclosed, (bool_decide_eq_true_2 _ Hst).
  unfold _reverse_route_for_lost at 1. cbv zeta. rewrite (bool_decide_eq_true_2 _ Hpend), Hpay.
  unfold str_truthy at 1. rewrite (bool_decide_eq_false_2 _ Hpayne). cbn [negb default from_option id].
  destruct (reverse_refunded_share pay _ g) as [g' [[]|x]].
  - destruct (Hset (λ n, <["route_reversal_state" := JStr ROUTE_REVERSAL_DONE]> (delete "route_reversal_error" n))%string)
      as [H1 H2].
    match type of H1 with _ = Some ?x => set (d' := x) in * end.
    rewrite H1. do 2 eexists. split; [reflexivity|]. exists d'. cbn [default from_option id].
    assert (note_text "route_reversal_state" (d_notes d') = Some ROUTE_REVERSAL_DONE) as Hdone
      by (unfold note_text; cbn; by rewrite lookup_insert_eq).
    do 3 (split; [done|]). rewrite H2. unfold advance_to. change (d_status d') with (d_status d).
    rewrite Hclosed, (bool_decide_eq_true_2 _ Hst). unfold _reverse_route_for_lost. cbv zeta. rewrite Hdone. done.
  - destruct (Hset (λ n, <["route_reversal_error" := JStr (of_chars (take 500 (chars (exn_text x))))]> n)%string) as [H1 _].
    do 2 eexists. split; [reflexivity|]. split; [done|]. eexists. split; [exact H1|]. split; [done|].
    unfold note_text. cbn. rewrite lookup_insert_ne by done. exact Hpend.
Qed.
End Operations.

(** ** The money of a loss *)

Definition dispute_allocation {L} (db : dispute_db L) (d : dispute) : option (Z * Z) :=
  p ← truthy_id (d_payment d); frozen_allocation_for_payment (base db) p.

(** What a loss takes from the merchant, in paise: its share of the disputed
    amount on top of what was recovered before, or all of an unallocated one. *)
Definition dispute_cost {L} (db : dispute_db L) (d : dispute) (paise : Z) : Z :=
  recovery_cost (dispute_allocation db d) (prior_paise (refund_rows (base db)) (dispute_rows db) d + paise) paise.

Definition dispute_keys (d : dispute) (c : dispute_change) : list string :=
  ("dispute:" ++ d_uuid d)%string :: reversal_keys (dispute_recovery d c).

Lemma prior_nonneg refunds rows d :
  Forall (λ r, 0 < r_amount r) refunds → Forall (λ x, 0 < d_amount x) rows → 0 <= prior_paise refunds rows d.
Proof.
  intros Hr Hd. unfold prior_paise.
  assert (∀ n, 0 < n → 0 <= paise_of n) as Hp by (intros n Hn; unfold paise_of; apply round_div_nonneg; lia).
  apply Z.add_nonneg_nonneg; apply zsum_nonneg, Forall_map, Forall_forall; intros x [_ Hx]%list_elem_of_filter; apply Hp.
  - exact (proj1 (Forall_forall _ _) Hr x Hx).
  - exact (proj1 (Forall_forall _ _) Hd x Hx).
Qed.

Section Loss.
Context {L : Type} `{LedgerApi L} (s : stamp) (c : dispute_change) (d : dispute) (paise : Z).
Context (Hamount : d_amount d = 100 * paise) (Hpaise : 0 < paise < ledger_bound) (Hinr : d_currency d = "INR"%string).

Lemma post_loss_spec (db : dispute_db L) :
  disputes_ok db → sound (base db) →
  (∀ g m, dispute_allocation db d = Some (g, m) → 0 < g < ledger_bound ∧ 0 <= m <= g) →
  api_wf (merchant_ledger (base db)) →
  Forall (λ k, api_posted (merchant_ledger (base db)) (d_merchant d) k = None) (dispute_keys d c) →
  api_room s (d_merchant d) "INR" 3 (200 * paise) (merchant_ledger (base db)) →
  ∃ ml id notes, post_loss s c d db = Ok (ml, id, notes) ∧
    (∀ m' c', api_balance ml m' c' = api_balance (merchant_ledger (base db)) m' c'
       - (if bool_decide (d_merchant d = m') && bool_decide ("INR"%string = c') then 100 * dispute_cost db d paise else 0)).
Proof using Hamount Hpaise Hinr.
  intros Hok Hs Hfits Hwf Hfresh Hroom. unfold post_loss. cbv zeta. fold (dispute_allocation db d).
  pose proof (prior_nonneg (refund_rows (base db)) (dispute_rows db) d (sound_amounts _ Hs)) as Hprior.
  destruct (debit_and_recover_spec s (dispute_posting d c) (PDec (Dec (d_amount d) (-4))) (dispute_recovery d c)
    (λ recovered, prior_paise (refund_rows (base db)) (dispute_rows db) d + recovered) (dispute_allocation db d) paise
    (merchant_ledger (base db))) as (ml & id & Hpost & _ & Hbal); try done.
  - apply (posts_debit _ (Dec (100 * paise) (-4)) paise);
      [done|cbn; by rewrite Hamount|done|apply cents_at_scale|done].
  - unfold posting_currency. cbn. by rewrite Hinr.
  - rewrite Hamount. apply (rupees_to_paise_spec _ (Dec (100 * paise) (-4)) paise);
      [done|apply cents_at_scale|unfold ledger_bound, paise_bound in *; lia].
  - intros g m Ha. destruct (Hfits g m Ha). do 2 (split; [done|]).
    enough (0 <= prior_paise (refund_rows (base db)) (dispute_rows db) d) by lia. apply Hprior.
    eapply Forall_impl; [apply ok_rows, Hok|]. intros x Hx. apply Hx.
  - rewrite Hpost, bind_Ok. cbn [fst snd]. exists ml, id. eexists. split; [reflexivity|exact Hbal].
Qed.
End Loss.

(** Marking a dispute lost posts, once and in the same step as the status
    change, what it costs the merchant: the whole amount for a payment that was
    never split, and exactly the merchant's floored share of it, counted on top
    of earlier refunds and losses, for an allocated gateway payment; marking it
    again is refused. *)
Theorem loss_costs_share {L} `{LedgerApi L} s id m c (db : dispute_db L) d paise :
  disputes_ok db → sound (base db) → find_dispute db id = Some d → is_terminal (d_status d) = false →
  (∀ m', m = Some m' → d_merchant d = m') →
  d_amount d = 100 * paise → 0 < paise < ledger_bound → d_currency d = "INR"%string →
  (∀ g m, dispute_allocation db d = Some (g, m) → 0 < g < ledger_bound ∧ 0 <= m <= g) →
  (∀ o, dc_outcome c = Some o → str_mem o dispute_outcomes = true) →
  api_wf (merchant_ledger (base db)) →
  Forall (λ k, api_posted (merchant_ledger (base db)) (d_merchant d) k = None) (dispute_keys d c) →
  api_room s (d_merchant d) "INR" 3 (200 * paise) (merchant_ledger (base db)) →
  ∃ db' d', transition_tx s id m "lost" c db = Ok (db', d') ∧ d_status d' = Lost ∧ is_Some (d_ledger_entry d') ∧
    (∀ m' c', api_balance (merchant_ledger (base db')) m' c' = api_balance (merchant_ledger (base db)) m' c'
       - (if bool_decide (d_merchant d = m') && bool_decide ("INR"%string = c') then 100 * dispute_cost db d paise else 0)) ∧
    transition_tx s id m "lost" c db' = Err (ConflictError "cannot transition dispute from ").
Proof.
  intros Hok Hs Hf Hlive Hm Ha Hp Hc Hfits Hout Hwf Hfresh Hroom.
  destruct (post_loss_spec s c d paise Ha Hp Hc db Hok Hs Hfits Hwf Hfresh Hroom) as (ml & e & notes & Hpost & Hbal).
  pose proof Hf as Hf'. apply (find_in_order _ _ _ (ok_ids _ Hok)) in Hf' as [_ Hi].
  destruct (proj1 (Forall_lookup _ _) (ok_rows _ Hok) _ _ Hi) as [_ K2 _ _].
  assert (d_ledger_entry d = None) as Hnone.
  { apply eq_None_not_Some. intros Hsome%K2. by rewrite Hsome in Hlive. }
  assert (∀ x, d_merchant x = d_merchant d →
    match m with Some m' => negb (bool_decide (d_merchant x = m')) | None => false end = false) as Hm'.
  { intros x Hx. destruct m as [m'|]; [|done]. rewrite Hx. by rewrite bool_decide_eq_true_2 by (by apply Hm). }
  assert (Lost ∈ _ALLOWED_TRANSITIONS (d_status d)) as Hstep by (destruct (d_status d); try done; set_solver).
  assert ((match dc_outcome c with Some o => negb (str_mem o dispute_outcomes) | None => false end) = false) as Hout'.
  { destruct (dc_outcome c) as [o|]; [|done]. by rewrite (Hout o eq_refl). }
  set (d' := resolved_dispute (now s) Lost c notes (Some e) d).
  assert (transition_tx s id m "lost" c db = Ok ({| base := with_refunds (base db) (refund_rows (base db)) ml;
      dispute_rows := update_dispute id (λ _, d') (dispute_rows db);
      dispute_events := dispute_events db ++ [{| ev_dispute := id; ev_type := "resolved"; ev_from := Some (d_status d);
        ev_to := Some Lost; ev_payload := <["outcome" := opt_str (dc_outcome c)]>
          (<["resolution_notes" := opt_str (dc_resolution_notes c)]> {["ledger_entry_id" := JInt e]});
        ev_user := truthy_id (dc_user c); ev_admin := truthy_id (dc_admin c); ev_label := dc_label c |}];
      rzp_disputes := rzp_disputes db |}%string, d')) as Ht.
  { unfold transition_tx, visible_dispute. change (parse_dispute_status "lost") with (Some Lost). cbv iota.
    rewrite Hf, Hm' by done. cbn [raise_if]. rewrite !bind_Ok, (bool_decide_eq_true_2 _ Hstep). cbn [negb raise_if].
    rewrite bind_Ok, Hnone, !bool_decide_eq_true_2 by done. cbn [andb]. rewrite Hpost, !bind_Ok. cbn [fst snd].
    rewrite Hout', andb_false_r. cbn [raise_if]. by rewrite bind_Ok. }
  do 2 eexists. split; [exact Ht|]. split; [done|]. split; [by eexists|]. split; [exact Hbal|].
  unfold transition_tx, visible_dispute. change (parse_dispute_status "lost") with (Some Lost). cbv iota.
  unfold find_dispute in *. cbn [dispute_rows]. rewrite (find_replaced id d d') by done.
  rewrite Hm' by done. done.
Qed.

(** Any other change of status leaves the ledger alone. *)
Lemma only_a_loss_moves_money {L} `{LedgerApi L} s id m new c (db db' : dispute_db L) d' :
  transition_tx s id m new c db = Ok (db', d') → d_status d' ≠ Lost → merchant_ledger (base db') = merchant_ledger (base db).
Proof.
  intros (d & st & notes & entry & ml & e & _ & _ & _ & -> & -> & _ & _ & _ & _ & Hother)%dispute_transition_effect Hne.
  by destruct (Hother Hne) as [_ ->].
Qed.

(** ** Examples *)

Definition no_change : dispute_change := {|
  dc_outcome := None; dc_resolution_notes := None; dc_evidence := ∅; dc_notes := ∅; dc_user := None;
  dc_admin := Some "admin"%string; dc_label := None |}.

(** The database of [Refunds]'s examples: one captured payment of 1000 rupees, of
    which 950 are the merchant's, and no dispute yet. *)
Definition demo_disputes : dispute_db ledger_db := {|
  base := demo_refunds; dispute_rows := []; dispute_events := []; rzp_disputes := {["disp_1"%string := None]} |}.

Definition demo_dispute_request (amount : Z) : dispute_request := {|
  dq_merchant := "m1"; dq_kind := "chargeback"; dq_amount := PInt amount; dq_payment := Some "p1"%string;
  dq_order := None; dq_refund := None; dq_currency := "inr"; dq_customer_reference := None; dq_bank_case := None;
  dq_evidence := ∅; dq_notes := ∅; dq_due_at := None; dq_user := None; dq_admin := None; dq_assigned := None |}.

Definition ok_or {A} (x : A) (m : res A) : A := match m with Ok y => y | Err _ => x end.

Definition demo_opened : dispute_db ledger_db := (ok_or (demo_disputes, ok_or
  {| d_id := 0; d_uuid := ""; d_merchant := ""; d_payment := None; d_refund := None; d_order := None; d_kind := "";
     d_status := Opened; d_amount := 0; d_currency := ""; d_customer_reference := None; d_bank_case := None;
     d_evidence := ∅; d_notes := ∅; d_opened_by_user := None; d_opened_by_admin := None; d_assigned_admin := None;
     d_outcome := None; d_resolution_notes := None; d_ledger_entry := None; d_due_at := None; d_resolved_at := None |}
  (Err InvalidOperation)) (open_dispute "d1" (demo_dispute_request 1000) demo_disputes)).1.

Definition demo_dispute : option dispute := find_dispute demo_opened 1.

(** Losing the whole payment costs the merchant its 950 rupees... *)
Definition demo_lost : dispute_db ledger_db :=
  match transition_tx (at_time 5) 1 None "lost" no_change demo_opened with Ok (db, _) => db | Err _ => demo_opened end.

Example loss_costs_950 : balance (merchant_ledger (base demo_lost)) "m1" "INR" = -9500000.
Proof. reflexivity. Qed.

(** ... and a full refund of it afterwards costs them again, because the refund's
    cumulative base leaves lost disputes out; in the other order the loss is free. *)
Definition refund_in_full (b : refund_db ledger_db) : refund_db ledger_db :=
  match create "u1" (demo_request 1000) b with
  | Ok (b1, r) => match Refunds.transition (at_time 6) (r_id r) None "succeeded" demo_change b1 with
                  | Ok (b2, _) => b2 | Err _ => b1 end
  | Err _ => b
  end.

Example refund_after_loss_costs_again :
  balance (merchant_ledger (refund_in_full (base demo_lost))) "m1" "INR" = -19000000.
Proof. reflexivity. Qed.

Definition demo_refunded_first : dispute_db ledger_db := {|
  base := refund_in_full (base demo_opened); dispute_rows := dispute_rows demo_opened;
  dispute_events := dispute_events demo_opened; rzp_disputes := rzp_disputes demo_opened |}.

Example loss_after_refund_is_free :
  match transition_tx (at_time 7) 1 None "lost" no_change demo_refunded_first with
  | Ok (db, _) => balance (merchant_ledger (base db)) "m1" "INR" | Err _ => 0 end = -9500000.
Proof. reflexivity. Qed.

(** A gateway that reverses on the second request, counting them. *)
Definition demo_reverse (payment key : string) (n : nat) : nat * res () :=
  (S n, if bool_decide (n = 0%nat) then Err (RuntimeError "timeout") else Ok ()).
Definition demo_accept (id key merchant : string) (n : nat) : nat * res json := (n, Ok JNull).
Definition demo_contest (id : string) (ev : jsonb) (action key merchant : string) (n : nat) : nat * res json := (n, Ok JNull).
Definition demo_fetch (id merchant : string) (n : nat) : nat * res rzp_entity := (n, Err (RazorpayAPIError 404)).

Notation demo_op := (dispute_op (L := ledger_db) demo_reverse demo_accept demo_contest demo_fetch (λ _, "timeout"%string)).
Notation demo_move := (transition demo_reverse (λ _, "timeout"%string)).

Lemma demo_opened_reachable : demo_op (demo_disputes, 0%nat) (demo_opened, 0%nat).
Proof.
  assert (∃ d, open_dispute "d1" (demo_dispute_request 1000) demo_disputes = Ok (demo_opened, d)) as [d Hd]
    by (eexists; reflexivity).
  exact (OpOpen _ _ _ _ _ (demo_disputes, 0%nat) "d1" (demo_dispute_request 1000) demo_opened d Hd).
Qed.

Lemma demo_opened_ok : disputes_ok demo_opened.
Proof. by apply (op_kept _ _ _ _ _ _ _ demo_opened_reachable), no_disputes_ok. Qed.

Lemma demo_opened_sound : sound (base demo_opened).
Proof. by apply empty_sound. Qed.

Lemma dispute_history_sound_witness : ∃ d d',
  dispute_rows demo_opened !! 0%nat = Some d ∧
  dispute_rows (demo_move (at_time 5) 1 None "won" no_change (demo_opened, 0%nat)).1.1 !! 0%nat = Some d' ∧
  rtc dispute_step (d_status d) (d_status d') ∧ d_status d' = Won ∧
  follows (trail (d_id d) (dispute_events (demo_move (at_time 5) 1 None "won" no_change (demo_opened, 0%nat)).1.1)) Won.
Proof.
  destruct (dispute_rows demo_opened !! 0%nat) as [d|] eqn:Hd; [|discriminate Hd].
  destruct (dispute_history_sound demo_reverse demo_accept demo_contest demo_fetch (λ _, "timeout"%string)
    (demo_disputes, 0%nat) (demo_opened, 0%nat) (demo_move (at_time 5) 1 None "won" no_change (demo_opened, 0%nat)).1 0%nat d
    eq_refl eq_refl (rtc_once _ _ demo_opened_reachable)
    (rtc_once _ _ (OpTransition _ _ _ _ _ (demo_opened, 0%nat) (at_time 5) 1 None "won" no_change)) Hd)
    as (d' & H1 & _ & H2 & _ & H3 & _).
  assert (d_status d' = Won) as Hwon by (vm_compute in H1; injection H1 as <-; reflexivity).
  exists d, d'. rewrite Hwon in *. auto.
Defined.

Lemma loss_costs_share_witness : ∃ db' d', transition_tx (at_time 5) 1 (Some "m1"%string) "lost" no_change demo_opened = Ok (db', d') ∧
  balance (merchant_ledger (base db')) "m1" "INR" = -9500000.
Proof.
  destruct demo_dispute as [d|] eqn:Hd; [|discriminate Hd].
  assert (d_status d = Opened ∧ d_merchant d = "m1" ∧ d_amount d = 10000000 ∧ d_currency d = "INR" ∧ d_uuid d = "d1" ∧
    d_payment d = Some "p1")%string as (E1 & E2 & E3 & E4 & E5 & E6) by (injection Hd as <-; repeat split).
  assert (dispute_allocation demo_opened d = Some (100000, 95000)) as Ha by (unfold dispute_allocation; by rewrite E6).
  destruct (loss_costs_share (at_time 5) 1 (Some "m1"%string) no_change demo_opened d 100000 demo_opened_ok demo_opened_sound
    Hd) as (db' & d' & H1 & _ & _ & H2 & _).
  - by rewrite E1.
  - intros m' [= <-]. exact E2.
  - exact E3.
  - unfold ledger_bound. lia.
  - exact E4.
  - rewrite Ha. intros g m [= <- <-]. unfold ledger_bound. lia.
  - intros o Ho. discriminate Ho.
  - exact empty_wf.
  - unfold dispute_keys, reversal_keys, dispute_recovery. cbn [rec_key_prefix]. rewrite E2, E5. vm_compute. repeat constructor.
  - rewrite E2. repeat split; vm_compute; congruence.
  - exists db', d'. split; [exact H1|]. specialize (H2 "m1" "INR")%string. rewrite E2 in H2.
    assert (dispute_cost demo_opened d 100000 = 95000) as Hcost.
    { unfold dispute_cost. rewrite Ha. injection Hd as <-. reflexivity. }
    rewrite Hcost in H2. exact H2.
Defined.

Definition demo_entity : rzp_entity := {|
  re_id := Some "disp_1"%string; re_status := Some "Lost"%string; re_phase := None; re_amount := PInt 100000;
  re_currency := None; re_respond_by := None; re_deadline_at := None; re_payment := Some "pay_1"%string;
  re_gateway_dispute := None; re_reason_code := JNull; re_reason_description := JNull; re_evidence := JNull |}.

(** The gateway's first notice opens the dispute, loses it and fails to reverse the transfer. *)
Notation demo_upsert w :=
  (upsert_from_razorpay demo_reverse (λ _, "timeout"%string) (at_time 5) "d1" "m1" None demo_entity w).
Definition demo_pending : dispute_db ledger_db * nat := (demo_upsert (demo_disputes, 0%nat)).1.

Lemma demo_pending_ok : disputes_ok demo_pending.1.
Proof.
  assert (demo_op (demo_disputes, 0%nat) demo_pending) as Hop by (apply OpUpsert).
  by apply (op_kept _ _ _ _ _ _ _ Hop), no_disputes_ok.
Qed.

Lemma reversal_until_done_witness : ∃ db' d', demo_upsert (demo_pending.1, 1%nat) = (db', 2%nat, Ok (Some d')) ∧
  note_text "route_reversal_state" (d_notes d') = Some ROUTE_REVERSAL_DONE ∧
  demo_upsert (db', 2%nat) = (db', 2%nat, Ok (Some d')).
Proof.
  assert (∃ d, find_dispute demo_pending.1 1 = Some d ∧ _find_local_by_razorpay_id "m1" "disp_1" demo_pending.1 = Some d ∧
    d_id d = 1 ∧ d_status d = Lost ∧ note_text "route_reversal_state" (d_notes d) = Some ROUTE_REVERSAL_PENDING ∧
    note_text "razorpay_payment_id" (d_notes d) = Some "pay_1")%string as (d & Hd & Hl & E1 & E2 & E3 & E4).
  { eexists. split; [vm_compute; reflexivity|]. split; [vm_compute; reflexivity|]. by repeat split. }
  assert ("m1"%string ≠ ORPHAN_MERCHANT) as A1 by (vm_compute; discriminate).
  assert ("disp_1"%string ≠ ""%string) as A2 by discriminate.
  assert ("pay_1"%string ≠ ""%string) as A3 by discriminate.
  assert (∃ amt, decimal_or_zero (re_amount demo_entity) ≫= (λ a, ddiv a (d_int 100)) = Ok amt) as [amt A4]
    by (eexists; vm_compute; reflexivity).
  assert (find_dispute demo_pending.1 (d_id d) = Some d) as A5 by (rewrite E1; exact Hd).
  pose proof (reversal_until_done demo_reverse (λ _, "timeout"%string) (at_time 5) "d1" "d1" "m1" None None demo_entity
    demo_pending.1 1%nat d "disp_1" "pay_1" amt demo_pending_ok A1 eq_refl A2 A4 Hl A5 E2 E3 E4 A3) as H.
  destruct H as (db' & result & H1 & d' & -> & _ & H2 & H3).
  exists db', d'. exact (conj H1 (conj H2 H3)).
Defined.
