(* ===== verification/Webhooks.v ===== *)
(** Webhook intake: [src/app/core/webhook_security.py], the table of
    [src/migrations/047_payment_webhook_events.sql] and 086, and the Razorpay
    endpoint of [src/app/api/v1/webhooks.py] with [dispatch_event] of
    [src/app/services/razorpay/webhook_dispatcher.py].

    The table is append-only (a trigger refuses DELETE).  Instants are
    microseconds, and the server and the database share one clock.  SHA-256, HMAC,
    the JSON parser and the rendering of a nested JSON value are parameters, as
    are the per-event handlers.  The unique index is a parameter with two
    instances: the one the migrations create and the one the repository's own
    test of replay protection creates. *)

From Stdlib Require Import ZArith Lia Ascii String.
From S2P Require Import Prelude PyDecimal PyFloat PyValues.
Open Scope Z_scope.

(** ** The table *)

Record webhook_event := {
  ev_row : string;
  ev_gateway : string;
  ev_id : string;
  ev_type : option string;
  ev_hash : string;
  ev_state : string;
  ev_retries : Z;
  ev_latency : option Z;
  ev_error : option string;
  ev_headers : list (string * string);
  ev_payload : json;
  ev_received_at : Z;
  ev_processed_at : option Z;
  ev_token : option string;
  ev_started_at : option Z;
}.

Definition processing_states : list string := ["received"; "processing"; "processed"; "failed"; "skipped"]%string.

Inductive schema := Migrated | Tested.

(** Do the two rows break a unique index together?  The table is partitioned by
    [received_at], so every index of the migration ends with that column. *)
Definition violates (sch : schema) (e e' : webhook_event) : bool :=
  let same_row := bool_decide (ev_row e = ev_row e') in
  let same_event := bool_decide (ev_gateway e = ev_gateway e') && bool_decide (ev_id e = ev_id e') in
  match sch with
  | Migrated => bool_decide (ev_received_at e = ev_received_at e') &&
                (same_row || same_event
                 || bool_decide (ev_gateway e = ev_gateway e') && bool_decide (ev_hash e = ev_hash e'))
  | Tested => same_row || same_event
  end.

Definition is_event (gateway event_id : string) (e : webhook_event) : bool :=
  bool_decide (ev_gateway e = gateway) && bool_decide (ev_id e = event_id).

(** [COALESCE(processing_started_at,received_at) < now()-interval '10 minutes'] *)
Definition stale (now : Z) (e : webhook_event) : bool :=
  default (ev_received_at e) (ev_started_at e) <? now - 600 * 10 ^ 6.

Definition reclaimed (now : Z) (token : string) (e : webhook_event) : webhook_event := {|
  ev_row := ev_row e; ev_gateway := ev_gateway e; ev_id := ev_id e; ev_type := ev_type e; ev_hash := ev_hash e;
  ev_state := "received"; ev_retries := ev_retries e; ev_latency := ev_latency e; ev_error := ev_error e;
  ev_headers := ev_headers e; ev_payload := ev_payload e; ev_received_at := ev_received_at e;
  ev_processed_at := None; ev_token := Some token; ev_started_at := Some now |}.

Definition marked (now : Z) (status : string) (error : option string) (latency : Z) (e : webhook_event) : webhook_event := {|
  ev_row := ev_row e; ev_gateway := ev_gateway e; ev_id := ev_id e; ev_type := ev_type e; ev_hash := ev_hash e;
  ev_state := status; ev_retries := ev_retries e + (if bool_decide (status = "failed"%string) then 1 else 0);
  ev_latency := Some latency; ev_error := error;
  ev_headers := ev_headers e; ev_payload := ev_payload e; ev_received_at := ev_received_at e;
  ev_processed_at := Some now; ev_token := ev_token e; ev_started_at := ev_started_at e |}.

(** ** The claim on an event *)

Record WebhookResult := {
  event_row_id : string;
  wr_gateway : string;
  wr_event_id : string;
  duplicate : bool;
  processing_token : option string;
}.

(** [processing_token = $5::uuid] is null, so not true, when either side is. *)
Definition holds_claim (r : WebhookResult) (e : webhook_event) : bool :=
  bool_decide (ev_row e = event_row_id r) &&
  match processing_token r, ev_token e with Some t, Some t' => bool_decide (t = t') | _, _ => false end.

(** [latency] counts hundredths of a millisecond. *)
Definition mark_processed (now : Z) (r : WebhookResult) (status : string) (error : option string) (latency : Z)
    (db : list webhook_event) : res (list webhook_event) :=
  if duplicate r then Ok db
  else
    _ ← raise_if (existsb (holds_claim r) db && negb (str_mem status processing_states))
          (DatabaseError "payment_webhook_events_processing_state_check");
    Ok (map (λ e, if holds_claim r e then marked now status error latency e else e) db).

(** ** Intake *)

Definition signature_header_of (gateway : string) : string :=
  if bool_decide (gateway = "razorpay"%string) then "X-Razorpay-Signature"
  else if bool_decide (gateway = "stripe"%string) then "Stripe-Signature"
  else if bool_decide (gateway = "cashfree"%string) then "x-webhook-signature"
  else if bool_decide (gateway = "payu"%string) then "X-PayU-Signature" else "X-Signature".

Definition _constant_time_eq (a b : string) : bool := bool_decide (strip a = strip b).

Definition DEFAULT_TIMESTAMP_TOLERANCE_S : Z := 300.

(** A call: the request's headers and body and the keyword arguments.  An
    extractor that raises returns [None]. *)
Record delivery := {
  headers : list (string * string);
  body : string;
  gateway : string;
  secret : string;
  signature_header : option string;
  timestamp_header : option string;
  timestamp_tolerance_s : Z;
  event_id_extractor : option (json → res json);
  event_type_extractor : option (json → res json);
}.

Definition signature_of (d : delivery) : string :=
  default ""%string (get_header (str_or (signature_header d) (signature_header_of (gateway d))) (headers d)).

(** Step 3: the timestamp window, when the gateway sends a timestamp. *)
Definition check_timestamp (now : Z) (d : delivery) : res () :=
  if negb (str_truthy (timestamp_header d)) then Ok ()
  else
    let ts_raw := name ← timestamp_header d; get_header name (headers d) in
    if negb (str_truthy ts_raw) then Ok ()
    else
      match ts_raw ≫= py_int with
      | None => Err (HTTPException 400 "invalid_timestamp")
      | Some ts =>
          let ts := if 10 ^ 12 <? ts then ts / 1000 else ts in
          raise_if (timestamp_tolerance_s d <? Z.abs (now / 10 ^ 6 - ts)) (HTTPException 400 "timestamp_out_of_window")
      end.

Definition run_extractor (f : option (json → res json)) (payload : json) : json :=
  match f with
  | Some g => match g payload with Ok j => j | Err _ => JNull end
  | None => JNull
  end.

(** [x or payload.get(key)], which reads [payload] only when [x] is falsy. *)
Definition or_field (key : string) (payload : json) (x : json) : res json :=
  if jtruthy x then Ok x else jget key payload.

(** A text parameter of the statement: asyncpg refuses anything but a string or null. *)
Definition text_param (j : json) : res (option string) :=
  match j with
  | JStr s => Ok (Some s)
  | JNull => Ok None
  | _ => Err (DatabaseError "expected str")
  end.

Section Intake.
Context (sch : schema) (sha256_hex : string → string) (hmac_sha256_hex : string → string → string)
  (json_loads : string → option json).

(** Steps 1 to 4: what a delivery carries, once it is authentic and fresh. *)
Definition verified (now : Z) (d : delivery) : res (json * string * option string * string) :=
  let signature := signature_of d in
  _ ← raise_if (bool_decide (signature = ""%string)) (HTTPException 401 "missing_signature");
  _ ← raise_if (negb (_constant_time_eq (hmac_sha256_hex (secret d) (body d)) signature))
        (HTTPException 401 "invalid_signature");
  _ ← check_timestamp now d;
  payload ← (if bool_decide (body d = ""%string) then Ok (JObj [])
             else match json_loads (body d) with
                  | Some j => Ok j
                  | None => Err (HTTPException 400 "invalid_json")
                  end);
  id1 ← or_field "id" payload (run_extractor (event_id_extractor d) payload);
  id2 ← or_field "event_id" payload id1;
  type1 ← or_field "event" payload (run_extractor (event_type_extractor d) payload);
  type2 ← or_field "type" payload type1;
  let event_hash := sha256_hex (body d ++ signature) in
  event_id ← text_param (if jtruthy id2 then id2 else JStr event_hash);
  event_type ← text_param type2;
  Ok (payload, default ""%string event_id, event_type, event_hash).

(** [row_id] and [token] are the fresh UUIDs. *)
Definition verify_and_register_webhook (now : Z) (row_id token : string) (d : delivery) (db : list webhook_event)
    : res (list webhook_event * WebhookResult) :=
  v ← verified now d;
  let '(payload, event_id, event_type, event_hash) := v in
  let row := {|
    ev_row := row_id; ev_gateway := gateway d; ev_id := event_id; ev_type := event_type; ev_hash := event_hash;
    ev_state := "received"; ev_retries := 0; ev_latency := None; ev_error := None; ev_headers := headers d;
    ev_payload := payload; ev_received_at := now; ev_processed_at := None; ev_token := Some token;
    ev_started_at := Some now |} in
  let claim r := {| event_row_id := r; wr_gateway := gateway d; wr_event_id := event_id; duplicate := false;
                    processing_token := Some token |} in
  if negb (existsb (violates sch row) db) then Ok (db ++ [row], claim row_id)
  else
    match find (is_event (gateway d) event_id) db with
    | None => Err (HTTPException 409 "webhook_event_identity_conflict")
    | Some existing =>
        _ ← raise_if (negb (bool_decide (ev_hash existing = event_hash)))
              (HTTPException 409 "webhook_event_identity_conflict");
        if bool_decide (ev_state existing = "processed"%string) then
          Ok (db, {| event_row_id := ev_row existing; wr_gateway := gateway d; wr_event_id := event_id;
                     duplicate := true; processing_token := None |})
        else
          _ ← raise_if (negb (bool_decide (ev_state existing = "failed"%string)) && negb (stale now existing))
                (HTTPException 503 "webhook_processing_in_progress");
          Ok (map (λ e, if bool_decide (ev_row e = ev_row existing) then reclaimed now token e else e) db,
              claim (ev_row existing))
    end.
End Intake.

(** ** The Razorpay endpoint *)

Section Endpoint.
Context (sch : schema) (sha256_hex : string → string) (hmac_sha256_hex : string → string → string)
  (json_loads : string → option json) (py_repr : json → string).

(** A value inside an f-string. *)
Definition py_str (j : json) : string :=
  match j with
  | JNull => "None"
  | JBool true => "True"
  | JBool false => "False"
  | JInt z => int_text z
  | JFloat _ r => r
  | JStr s => s
  | JList _ | JObj _ => py_repr j
  end.

Definition entity_keys : list string :=
  ["payment"; "refund"; "dispute"; "settlement"; "order"; "qr_code"; "invoice"; "virtual_account"]%string.

(** The loop over the entity families: the first one whose entity has an id. *)
Fixpoint first_entity (payload bod event : json) (keys : list string) : res json :=
  match keys with
  | [] => Ok JNull
  | key :: keys' =>
      outer ← jget key bod;
      inner ← jget "entity" (jor outer (JObj []));
      id ← jget "id" (jor inner (JObj []));
      if jtruthy id then
        created ← jget "created_at" payload;
        let seed := (py_str event ++ "|" ++ key ++ "|" ++ py_str id ++ "|" ++ py_str (jor created (JStr "")))%string in
        Ok (JStr ("rzp_synth_" ++ of_chars (take 32 (chars (sha256_hex seed)))))
      else first_entity payload bod event keys'
  end.

Definition _make_razorpay_event_id_extractor (header_event_id : option string) (payload : json) : res json :=
  if str_truthy header_event_id then Ok (JStr (default ""%string header_event_id))
  else
    event ← jget "event" payload;
    bod ← jget "payload" payload;
    first_entity payload (jor bod (JObj [])) (jor event (JStr "")) entity_keys.

Definition razorpay_delivery (hs : list (string * string)) (bod secret : string) : delivery := {|
  headers := hs; body := bod; gateway := "razorpay"; secret := secret; signature_header := None;
  timestamp_header := None; timestamp_tolerance_s := DEFAULT_TIMESTAMP_TOLERANCE_S;
  event_id_extractor := Some (_make_razorpay_event_id_extractor (get_header "X-Razorpay-Event-Id" hs));
  event_type_extractor := Some (jget "event") |}.

Inductive webhook_reply := Duplicate (event_id : string) | Handled (status : string).

(** The handlers by event name; each changes the rest of the system, and what it
    did before it raised stays. *)
Context {W : Type} (_HANDLERS : string → option (json → string → W → W * res ())).

(** Only a string is a handler's key, and a list or an object cannot be looked up. *)
Definition dispatch_event (event envelope : json) (signature : string) (w : W) : W * res string :=
  match event with
  | JList _ | JObj _ => (w, Err (TypeError "unhashable type"))
  | JNull | JBool _ | JInt _ | JFloat _ _ => (w, Ok "unhandled"%string)
  | JStr name =>
      match _HANDLERS name with
      | None => (w, Ok "unhandled"%string)
      | Some handler =>
          match handler envelope signature w with
          | (w', Ok _) => (w', Ok "processed"%string)
          | (w', Err e) => (w', Err e)
          end
      end
  end.

(** [done_at] and [latency] are read when the attempt ends. *)
Definition razorpay_payment_webhook (now done_at latency : Z) (row_id token secret : string)
    (error_text : exn → string) (hs : list (string * string)) (bod : string)
    (st : list webhook_event * W) : list webhook_event * W * res webhook_reply :=
  let (db, w) := st in
  match verify_and_register_webhook sch sha256_hex hmac_sha256_hex json_loads now row_id token
          (razorpay_delivery hs bod secret) db with
  | Err e => (db, w, Err e)
  | Ok (db1, r) =>
      if duplicate r then (db1, w, Ok (Duplicate (wr_event_id r)))
      else
        let payload := if bool_decide (bod = ""%string) then None else json_loads bod in
        match payload with
        | None => (db1, w, Err (ValueError "Expecting value"))
        | Some j =>
            let event := match jget "event" j with Ok v => v | Err _ => JNull end in
            let failed w' e :=
              match mark_processed done_at r "failed" (Some (of_chars (take 500 (chars (error_text e))))) latency db1 with
              | Ok db2 => (db2, w', Err e)
              | Err e' => (db1, w', Err e')
              end in
            match dispatch_event event j (default ""%string (get_header "X-Razorpay-Signature" hs)) w with
            | (w', Err e) => failed w' e
            | (w', Ok status) =>
                match mark_processed done_at r "processed" None latency db1 with
                | Ok db2 => (db2, w', Ok (Handled status))
                | Err e => failed w' e
                end
            end
        end
  end.
End Endpoint.

(** ** Intake facts *)

Section Facts.
Context (sch : schema) (sha256_hex : string → string) (hmac_sha256_hex : string → string → string)
  (json_loads : string → option json).
Notation verified := (verified sha256_hex hmac_sha256_hex json_loads).
Notation register := (verify_and_register_webhook sch sha256_hex hmac_sha256_hex json_loads).

Lemma verified_authentic now d v : verified now d = Ok v →
  signature_of d ≠ ""%string ∧ strip (hmac_sha256_hex (secret d) (body d)) = strip (signature_of d) ∧
  check_timestamp now d = Ok ().
Proof.
  unfold Webhooks.verified. intros H.
  apply res_bind_Ok in H as (u1 & H1%raise_if_Ok & H). apply bool_decide_eq_false in H1.
  apply res_bind_Ok in H as (u2 & H2%raise_if_Ok & H).
  apply res_bind_Ok in H as ([] & H3 & H). split; [done|]. split; [|done].
  apply negb_false_iff in H2. by apply bool_decide_eq_true in H2.
Qed.

Lemma verified_event_id now d j id ty h : verified now d = Ok (j, id, ty, h) →
  h = sha256_hex (body d ++ signature_of d).
Proof.
  unfold Webhooks.verified. intros H. inv_res. by simplify_eq.
Qed.

(** What a registration did: a new row, a duplicate, or a taken-over claim. *)
Inductive registered (now : Z) (row_id token : string) (d : delivery) (db : list webhook_event) :
    list webhook_event → WebhookResult → Prop :=
  | reg_new row : ev_row row = row_id → ev_gateway row = gateway d → ev_state row = "received"%string →
      ev_token row = Some token → ev_received_at row = now → ev_started_at row = Some now →
      (ev_headers row = headers d ∧ verified now d = Ok (ev_payload row, ev_id row, ev_type row, ev_hash row)) →
      existsb (violates sch row) db = false →
      registered now row_id token d db (db ++ [row])
        {| event_row_id := row_id; wr_gateway := gateway d; wr_event_id := ev_id row; duplicate := false;
           processing_token := Some token |}
  | reg_duplicate e : e ∈ db → ev_state e = "processed"%string → is_event (gateway d) (ev_id e) e = true →
      registered now row_id token d db db
        {| event_row_id := ev_row e; wr_gateway := gateway d; wr_event_id := ev_id e; duplicate := true;
           processing_token := None |}
  | reg_reclaim e : e ∈ db → ev_state e ≠ "processed"%string →
      ev_state e = "failed"%string ∨ stale now e = true →
      registered now row_id token d db
        (map (λ e', if bool_decide (ev_row e' = ev_row e) then reclaimed now token e' else e') db)
        {| event_row_id := ev_row e; wr_gateway := gateway d; wr_event_id := ev_id e; duplicate := false;
           processing_token := Some token |}.

Lemma is_event_true g i e : is_event g i e = true ↔ ev_gateway e = g ∧ ev_id e = i.
Proof. unfold is_event. by rewrite andb_true_iff, !bool_decide_eq_true. Qed.

Lemma register_cases now row_id token d db db' r :
  register now row_id token d db = Ok (db', r) → registered now row_id token d db db' r.
Proof.
  unfold verify_and_register_webhook. intros H.
  apply res_bind_Ok in H as ([[[j id] ty] h] & Hv & H). cbv zeta in H.
  match type of H with context [existsb ?f db] => destruct (existsb f db) eqn:Hex; cbn [negb] in H end.
  2:{ injection H as <- <-. match type of Hex with existsb (violates sch ?row) db = _ =>
        exact (reg_new now row_id token d db row eq_refl eq_refl eq_refl eq_refl eq_refl eq_refl (conj eq_refl Hv) Hex) end. }
  destruct (find (is_event (gateway d) id) db) as [e|] eqn:He; [|done].
  apply find_some in He as [Hin%list_elem_of_In He].
  apply res_bind_Ok in H as (u & _ & H).
  pose proof (proj1 (is_event_true _ _ _) He) as [_ <-].
  destruct (bool_decide_reflect (ev_state e = "processed"%string)) as [Hp|Hp].
  { injection H as <- <-. by apply (reg_duplicate now row_id token d db e). }
  apply res_bind_Ok in H as (u' & Hs%raise_if_Ok & H). injection H as <- <-.
  apply (reg_reclaim now row_id token d db e); [done|done|].
  apply andb_false_iff in Hs as [Hs|Hs]; apply negb_false_iff in Hs; [left; by apply bool_decide_eq_true in Hs|by right].
Qed.
End Facts.

(** ** What the table keeps, whichever index it has *)

Section Replay.
(** The table and the claims workers hold.  A worker ends by marking its event;
    one that dies keeps its claim for ever. *)
Record intake := { events : list webhook_event; workers : list WebhookResult }.

Definition event_key (e : webhook_event) : string * string := (ev_gateway e, ev_id e).

Definition no_events : intake := {| events := []; workers := [] |}.

Record intake_wf (s : intake) : Prop := {
  rows_distinct : NoDup (map ev_row (events s));
  claims_distinct : NoDup (omap processing_token (workers s));
  claims_live : ∀ r, r ∈ workers s → duplicate r = false;
  done_unclaimed : ∀ e r, e ∈ events s → ev_state e = "processed"%string → r ∈ workers s → holds_claim r e = false;
}.

Lemma map_same_columns {B} (f : webhook_event → B) (b : webhook_event → bool) g l :
  (∀ e, f (g e) = f e) → map f (map (λ e, if b e then g e else e) l) = map f l.
Proof. intros Hf. rewrite map_map. apply map_ext. intros e. by destruct (b e). Qed.

(** What is in such a table: a changed row or an old one. *)
Lemma elem_of_changed (b : webhook_event → bool) g l e :
  e ∈ map (λ e, if b e then g e else e) l ↔ (∃ e0, e0 ∈ l ∧ b e0 = true ∧ e = g e0) ∨ (e ∈ l ∧ b e = false).
Proof.
  rewrite list_elem_of_fmap. split.
  - intros (e0 & -> & H). destruct (b e0) eqn:E; [left; by exists e0|by right].
  - intros [(e0 & H & Hb & ->)|[H Hb]]; [exists e0; by rewrite Hb|exists e; by rewrite Hb].
Qed.

Lemma holds_claim_true r e : holds_claim r e = true ↔
  ev_row e = event_row_id r ∧ ∃ t, processing_token r = Some t ∧ ev_token e = Some t.
Proof.
  unfold holds_claim. rewrite andb_true_iff, bool_decide_eq_true.
  destruct (processing_token r), (ev_token e); try rewrite bool_decide_eq_true; naive_solver.
Qed.

(** A claim with a token no row carries holds nothing; nor does a claim whose
    token another claim has on the row. *)
Lemma other_token_holds_nothing r e t t' : processing_token r = Some t → ev_token e = Some t' → t ≠ t' →
  holds_claim r e = false.
Proof. intros Hr He Hne. apply not_true_iff_false. rewrite holds_claim_true. naive_solver. Qed.

Lemma fresh_token_holds_nothing r e (l : list webhook_event) t : processing_token r = Some t → t ∉ omap ev_token l → e ∈ l →
  holds_claim r e = false.
Proof.
  intros Hr Hf He. apply not_true_iff_false. rewrite holds_claim_true. intros (_ & t' & Ht & Hte). apply Hf.
  apply list_elem_of_omap. exists e. split; [done|]. congruence.
Qed.

Lemma wf_no_events : intake_wf no_events.
Proof. split; cbn; try constructor; intros; set_solver. Qed.

Lemma finish_preserves now l r k status error latency db s : intake_wf s →
  workers s = l ++ r :: k → mark_processed now r status error latency (events s) = Ok db →
  intake_wf {| events := db; workers := l ++ k |}.
Proof.
  intros [Hr Hc Hl Hd] Hw Hmark. rewrite Hw in *.
  assert (duplicate r = false) as Hdup by (apply Hl; set_solver).
  unfold mark_processed in Hmark. rewrite Hdup in Hmark. inv_res. subst db.
  assert (∀ c, c ∈ l ++ k → c ∈ l ++ r :: k) as Hsub by set_solver.
  split; cbn [events workers]; rewrite ?(map_same_columns ev_row); try done.
  - rewrite omap_app in *. cbn in Hc. destruct (processing_token r); [|done].
    apply NoDup_app in Hc as (H1 & H2 & [H3 H4]%NoDup_cons). apply NoDup_app. split; [done|]. split; [|done].
    intros x Hx. specialize (H2 x Hx). set_solver.
  - intros c Hin. by apply Hl, Hsub.
  - intros e c [(e0 & He0 & Hb & ->)|[He _]]%elem_of_changed Hp Hin; [|by apply Hd; [| |apply Hsub]].
    apply holds_claim_true in Hb as (_ & t & Hrt & Het).
    apply not_true_iff_false. rewrite holds_claim_true. intros (_ & t' & Hct & Het').
    cbn in Het'. assert (t' = t) as -> by congruence.
    rewrite omap_app in Hc. cbn in Hc. rewrite Hrt in Hc. apply NoDup_app in Hc as (_ & H2 & [H3 _]%NoDup_cons).
    assert (t ∈ omap processing_token l ∨ t ∈ omap processing_token k) as [Hx|Hx].
    { apply elem_of_app in Hin as [Hin|Hin]; [left|right]; apply list_elem_of_omap; by exists c. }
    + apply (H2 t Hx). set_solver.
    + done.
Qed.

Context (sch : schema) (sha256_hex : string → string) (hmac_sha256_hex : string → string → string)
  (json_loads : string → option json) (secret_of : string → string).
Notation verified := (verified sha256_hex hmac_sha256_hex json_loads).
Notation register := (verify_and_register_webhook sch sha256_hex hmac_sha256_hex json_loads).

(** What a row says of its delivery, which no worker rewrites. *)
Definition delivered_as (e : webhook_event) :=
  (ev_row e, ev_gateway e, ev_id e, ev_type e, ev_hash e, ev_headers e, ev_payload e, ev_received_at e).

(** The row was made from a delivery signed with its gateway's secret: its
    signature is the HMAC of the body, and its event id, type, payload and hash
    are what the verification read from that body. *)
Definition authentic (e : webhook_event) : Prop := ∃ d,
  gateway d = ev_gateway e ∧ headers d = ev_headers e ∧
  strip (hmac_sha256_hex (secret_of (gateway d)) (body d)) = strip (signature_of d) ∧
  ev_hash e = sha256_hex (body d ++ signature_of d) ∧
  verified (ev_received_at e) d = Ok (ev_payload e, ev_id e, ev_type e, ev_hash e).

(** A delivery brings a new row id and a new token (both UUIDs) and is checked
    against its gateway's secret; a worker reports any outcome at any time. *)
Inductive intake_step : intake → intake → Prop :=
  | step_deliver now row_id token d db r s :
      secret d = secret_of (gateway d) → row_id ∉ map ev_row (events s) →
      token ∉ omap ev_token (events s) → token ∉ omap processing_token (workers s) →
      register now row_id token d (events s) = Ok (db, r) →
      intake_step s {| events := db; workers := if duplicate r then workers s else r :: workers s |}
  | step_finish now l r k status error latency db s :
      workers s = l ++ r :: k → mark_processed now r status error latency (events s) = Ok db →
      intake_step s {| events := db; workers := l ++ k |}.

Lemma deliver_preserves now row_id token d db r s : intake_wf s → row_id ∉ map ev_row (events s) →
  token ∉ omap ev_token (events s) → token ∉ omap processing_token (workers s) →
  register now row_id token d (events s) = Ok (db, r) →
  intake_wf {| events := db; workers := if duplicate r then workers s else r :: workers s |}.
Proof.
  intros [Hr Hc Hl Hd] Hrow0 Hfe Hfw Hreg. apply register_cases in Hreg.
  destruct Hreg as [row Hrow Hgw Hst Htok Hrec Hsta Hauth Hnew|e He Hp Hkey|e He Hnp Hwhy]; cbn [duplicate].
  - rewrite <-Hrow in Hrow0.
    split; cbn; rewrite ?map_app; try (by apply NoDup_snoc).
    + by apply NoDup_cons.
    + intros c [->|Hc']%elem_of_cons; [done|by apply Hl].
    + intros e c [He| ->%list_elem_of_singleton]%elem_of_app Hp [->|Hc']%elem_of_cons; try congruence.
      * by eapply (fresh_token_holds_nothing _ _ (events s)).
      * by apply Hd.
  - by split.
  - split; cbn; rewrite ?(map_same_columns ev_row); try done.
    + by apply NoDup_cons.
    + intros c [->|Hc']%elem_of_cons; [done|by apply Hl].
    + intros e1 c [(e0 & _ & _ & ->)|[He1 _]]%elem_of_changed Hp [->|Hc']%elem_of_cons; try done.
      * by eapply (fresh_token_holds_nothing _ _ (events s)).
      * by apply Hd.
Qed.

Lemma step_preserves s s' : intake_wf s → intake_step s s' → intake_wf s'.
Proof.
  intros Hwf H. destruct H; [by eapply deliver_preserves|by eapply finish_preserves].
Qed.

Lemma steps_preserve s s' : intake_wf s → rtc intake_step s s' → intake_wf s'.
Proof. intros Hwf. induction 1; eauto using step_preserves. Qed.

Lemma processed_kept_step s s' e : intake_wf s → intake_step s s' →
  e ∈ events s → ev_state e = "processed"%string → e ∈ events s'.
Proof.
  intros Hwf Hstep He Hp. destruct Hstep as [now row_id token d db r s _ _ Hfe Hfw Hreg|now l r k status error latency db s Hw Hmark]; cbn.
  - apply register_cases in Hreg. destruct Hreg as [row|e0 He0 Hp0 Hkey|e0 He0 Hnp Hwhy]; [set_solver|done|].
    apply elem_of_changed. right. split; [done|]. apply bool_decide_eq_false. intros Heq. apply Hnp.
    by rewrite <-(NoDup_map_inj ev_row (events s) e e0 (rows_distinct s Hwf) He He0 Heq).
  - unfold mark_processed in Hmark. destruct (duplicate r); [injection Hmark as <-; done|]. inv_res. subst db.
    apply elem_of_changed. right. split; [done|]. eapply done_unclaimed; try done. rewrite Hw. set_solver.
Qed.

Lemma processed_kept s s' e : intake_wf s → rtc intake_step s s' →
  e ∈ events s → ev_state e = "processed"%string → e ∈ events s'.
Proof.
  intros Hwf Hsteps. induction Hsteps as [|s1 s2 s3 H12 _ IH]; [done|]. intros He Hp.
  apply IH; [by eapply step_preserves|by eapply processed_kept_step|done].
Qed.

(** Every step keeps the deliveries of the rows, at most adding one that is
    authentic. *)
Lemma step_rows s s' : intake_step s s' →
  map delivered_as (events s') = map delivered_as (events s) ∨
  ∃ row, events s' = events s ++ [row] ∧ authentic row.
Proof.
  destruct 1 as [now row_id token d db r s Hsec _ _ _ Hreg|now l r k status error latency db s _ Hmark]; cbn.
  - apply register_cases in Hreg. destruct Hreg as [row _ Hgw _ _ Hrec _ [Hh Hv] _|e _ _ _|e _ _ _]; [right|by left|left].
    + exists row. split; [done|]. exists d. pose proof (verified_authentic _ _ _ _ _ _ Hv) as (_ & Hs & _).
      rewrite <-Hsec. split; [done|]. split; [done|]. split; [done|]. split; [by eapply verified_event_id|by rewrite Hrec].
    + by apply map_same_columns.
  - left. unfold mark_processed in Hmark. destruct (duplicate r); [by injection Hmark as <-|]. inv_res. subst db.
    by apply map_same_columns.
Qed.

Lemma authentic_same e e' : delivered_as e = delivered_as e' → authentic e → authentic e'.
Proof. intros [= _ Hg Hi Ht Hh Hhd Hp Hr] (d & H). exists d. by rewrite <-Hg, <-Hi, <-Ht, <-Hh, <-Hhd, <-Hp, <-Hr. Qed.

Lemma steps_authentic s s' : Forall authentic (events s) → rtc intake_step s s' → Forall authentic (events s').
Proof.
  intros Hs. induction 1 as [|s1 s2 s3 H12 _ IH]; [done|]. apply IH. clear IH.
  destruct (step_rows _ _ H12) as [Heq|(row & -> & Hrow)]; [|by apply Forall_app; split; [|constructor]].
  apply Forall_forall. intros e He. rewrite Forall_forall in Hs.
  assert (delivered_as e ∈ map delivered_as (events s1)) as (e1 & H1 & He1)%list_elem_of_fmap
    by (rewrite <-Heq; apply list_elem_of_fmap; by exists e).
  by eapply authentic_same; [symmetry|apply Hs].
Qed.

Lemma steps_append s s' : rtc intake_step s s' → map delivered_as (events s) `prefix_of` map delivered_as (events s').
Proof.
  induction 1 as [|s1 s2 s3 H12 _ IH]; [done|]. etrans; [|exact IH].
  destruct (step_rows _ _ H12) as [Heq|(row & Heq & _)]; rewrite Heq, ?map_app; [done|by apply prefix_app_r].
Qed.

(** C34: under either unique index, the table is an append-only record of
    authentic webhooks: every row of it was made from a delivery whose signature
    is the HMAC of its body under the gateway's secret and holds what the
    verification read from that body; whatever deliveries, takeovers and workers follow, the rows stay in
    place with their deliveries, with distinct ids; and a row once marked
    processed never changes again, whichever worker reports. *)
Theorem processed_is_final s s' :
  rtc intake_step no_events s → rtc intake_step s s' →
  Forall authentic (events s') ∧ NoDup (map ev_row (events s')) ∧
  map delivered_as (events s) `prefix_of` map delivered_as (events s') ∧
  ∀ e, e ∈ events s → ev_state e = "processed"%string → e ∈ events s'.
Proof.
  intros Hs Hs'. pose proof (steps_preserve _ _ wf_no_events Hs) as Hwf. split_and!.
  - apply (steps_authentic no_events); [constructor|by etrans].
  - exact (rows_distinct _ (steps_preserve _ _ Hwf Hs')).
  - by apply steps_append.
  - intros e. by apply processed_kept.
Qed.

(** Only the claim that holds a row's current token writes to it. *)
Lemma only_the_claim_marks now r status error latency db db' e :
  mark_processed now r status error latency db = Ok db' → e ∈ db → holds_claim r e = false → e ∈ db'.
Proof.
  unfold mark_processed. destruct (duplicate r); [by intros [= <-]|]. intros H He Hh.
  apply res_bind_Ok in H as (u & _ & H). injection H as <-. apply elem_of_changed. by right.
Qed.

(** Taking over a failed or abandoned event fences its earlier worker off: the
    row then carries the new token, and nothing the earlier worker reports,
    success or failure, changes the table. *)
Theorem takeover_fences_the_worker s now row_id token d db r old status error latency at_ :
  rtc intake_step no_events s → row_id ∉ map ev_row (events s) →
  token ∉ omap ev_token (events s) → token ∉ omap processing_token (workers s) →
  register now row_id token d (events s) = Ok (db, r) → duplicate r = false →
  old ∈ workers s → event_row_id old = event_row_id r → str_mem status processing_states = true →
  mark_processed at_ old status error latency db = Ok db.
Proof.
  intros Hs Hnew Hfe Hfw Hreg Hdup Hold Hrow Hst. pose proof (steps_preserve _ _ wf_no_events Hs) as Hwf.
  assert (∀ e, e ∈ db → holds_claim old e = false) as Hnone.
  { intros e He. apply not_true_iff_false. rewrite holds_claim_true. intros (Hid & t & Ht & Het).
    assert (t ≠ token) as Hne by (intros ->; apply Hfw; apply list_elem_of_omap; by exists old).
    apply register_cases in Hreg. destruct Hreg as [row H1 _ _ H2 _ _ _ _|e0 _ _ _|e0 He0 _ _]; [|done|].
    - apply elem_of_app in He as [He| ->%list_elem_of_singleton]; [|congruence].
      apply Hnew. apply list_elem_of_fmap. exists e. cbn in Hrow. split; [congruence|done].
    - apply elem_of_changed in He as [(e1 & _ & _ & ->)|[_ He]]; [cbn in Het; congruence|].
      apply bool_decide_eq_false in He. cbn in Hrow. congruence. }
  unfold mark_processed. destruct (duplicate old); [done|]. rewrite Hst, andb_false_r. cbn [raise_if]. rewrite bind_Ok. f_equal.
  rewrite <-(map_id db) at 2. apply map_ext_in. intros e He%list_elem_of_In. by rewrite Hnone.
Qed.
End Replay.

(** ** Replay protection, under the index the test creates *)

Section Tested.
Context (sha256_hex : string → string) (hmac_sha256_hex : string → string → string)
  (json_loads : string → option json) (secret_of : string → string).
Notation verified := (verified sha256_hex hmac_sha256_hex json_loads).
Notation register := (verify_and_register_webhook Tested sha256_hex hmac_sha256_hex json_loads).
Notation intake_step := (intake_step Tested sha256_hex hmac_sha256_hex json_loads secret_of).

Lemma not_violating l row : existsb (violates Tested row) l = false → event_key row ∉ map event_key l.
Proof.
  intros H (e & He & Hin)%list_elem_of_fmap. rewrite existsb_false in H. specialize (H e Hin).
  cbn in H. apply orb_false_iff in H as [_ H]. injection He as H3 H4. by rewrite H3, H4, !bool_decide_eq_true_2 in H.
Qed.

Lemma tested_keys s s' : NoDup (map event_key (events s)) → rtc intake_step s s' → NoDup (map event_key (events s')).
Proof.
  intros Hs. induction 1 as [|s1 s2 s3 H12 _ IH]; [done|]. apply IH. clear IH.
  destruct H12 as [now row_id token d db r s _ _ _ _ Hreg|now l r k status error latency db s _ Hmark]; cbn.
  - apply register_cases in Hreg. destruct Hreg as [row _ _ _ _ _ _ _ Hnew|e _ _ _|e _ _ _]; [|done|by rewrite map_same_columns].
    rewrite map_app. apply NoDup_snoc; [done|by apply not_violating].
  - unfold mark_processed in Hmark. destruct (duplicate r); [by injection Hmark as <-|]. inv_res. subst db.
    by rewrite map_same_columns.
Qed.

(** An authentic delivery of an event already processed is answered as a
    duplicate and changes nothing; the same event id with another body is
    refused. *)
Lemma tested_replay_is_duplicate s e now row_id token d j ty h :
  rtc intake_step no_events s → e ∈ events s → ev_state e = "processed"%string →
  verified now d = Ok (j, ev_id e, ty, h) → gateway d = ev_gateway e →
  register now row_id token d (events s) =
    if bool_decide (ev_hash e = h)
    then Ok (events s, {| event_row_id := ev_row e; wr_gateway := ev_gateway e; wr_event_id := ev_id e;
                          duplicate := true; processing_token := None |})
    else Err (HTTPException 409 "webhook_event_identity_conflict").
Proof.
  intros Hs He Hp Hv Hg. pose proof (tested_keys no_events s NoDup_nil_2 Hs) as Hk.
  unfold verify_and_register_webhook. rewrite Hv, bind_Ok. cbv zeta.
  match goal with |- context [existsb ?f ?l] => destruct (existsb f l) eqn:Hex end.
  2:{ apply not_violating in Hex as []. apply list_elem_of_fmap. exists e. split; [|done].
      unfold event_key. cbn [ev_gateway ev_id]. by rewrite Hg. }
  cbn [negb]. rewrite Hg. assert (find (is_event (ev_gateway e) (ev_id e)) (events s) = Some e) as ->.
  { destruct (find _ _) as [e'|] eqn:Hf.
    - apply find_some in Hf as [Hin%list_elem_of_In [H1 H2]%is_event_true]. f_equal.
      apply (NoDup_map_inj event_key (events s) e' e Hk); [done..|]. unfold event_key. congruence.
    - pose proof (find_none _ _ Hf e ltac:(by apply list_elem_of_In)) as Hn.
      unfold is_event in Hn. by rewrite !bool_decide_eq_true_2 in Hn. }
  rewrite (bool_decide_eq_true_2 (ev_state e = _) Hp). by case_bool_decide.
Qed.
End Tested.

(** ** The index the migrations create *)

Section Migrated.
Context (sha256_hex : string → string) (hmac_sha256_hex : string → string → string)
  (json_loads : string → option json) (py_repr : json → string)
  {W : Type} (_HANDLERS : string → option (json → string → W → W * res ())).
Notation endpoint := (razorpay_payment_webhook Migrated sha256_hex hmac_sha256_hex json_loads py_repr _HANDLERS).
Notation signature hs := (default ""%string (get_header "X-Razorpay-Signature" hs)).

Lemma later_row_violates_nothing row db :
  Forall (λ e, ev_received_at e < ev_received_at row) db → existsb (violates Migrated row) db = false.
Proof.
  intros H. apply existsb_false. intros e He. rewrite Forall_forall in H. specialize (H e He).
  unfold violates. rewrite bool_decide_eq_false_2 by lia. done.
Qed.

(** Under the index the migrations create, whose key includes the instant of
    arrival, a delivery at a later instant is never recognised as a replay: it
    opens a new row, and the handler runs, whatever rows the table already holds
    for the event. *)
Theorem replay_runs_the_handler now done_at latency row_id token secret error_text hs bod db w j id ty h name handler :
  Forall (λ e, ev_received_at e < now) db →
  verified sha256_hex hmac_sha256_hex json_loads now (razorpay_delivery sha256_hex py_repr hs bod secret) = Ok (j, id, ty, h) →
  bod ≠ ""%string → json_loads bod = Some j → jget "event" j = Ok (JStr name) → _HANDLERS name = Some handler →
  (endpoint now done_at latency row_id token secret error_text hs bod (db, w)).1.2 = (handler j (signature hs) w).1 ∧
  length (endpoint now done_at latency row_id token secret error_text hs bod (db, w)).1.1 = S (length db).
Proof.
  intros Hdb Hv Hbod Hj Hname Hh. unfold razorpay_payment_webhook, verify_and_register_webhook.
  rewrite Hv, bind_Ok. cbv zeta. rewrite later_row_violates_nothing by done. cbn [negb duplicate].
  rewrite (bool_decide_eq_false_2 _ Hbod), Hj, Hname. unfold dispatch_event. rewrite Hh.
  unfold mark_processed. cbn [duplicate].
  change (str_mem "failed" processing_states) with true. change (str_mem "processed" processing_states) with true.
  cbn [negb]. rewrite !andb_false_r. cbn [raise_if].
  destruct (handler j (signature hs) w) as [w' [[]|e]]; rewrite bind_Ok;
    cbn [fst snd]; rewrite length_map, length_app; cbn; split; (done || lia).
Qed.

(** A request whose signature is missing or is not the HMAC of its body under
    the endpoint's secret changes nothing and runs no handler. *)
Theorem forged_webhook_is_refused now done_at latency row_id token secret error_text hs bod db w :
  strip (hmac_sha256_hex secret bod) ≠ strip (signature hs) →
  ∃ detail, endpoint now done_at latency row_id token secret error_text hs bod (db, w) =
    (db, w, Err (HTTPException 401 detail)).
Proof.
  intros Hsig. unfold razorpay_payment_webhook, verify_and_register_webhook, verified. cbv zeta.
  assert (signature_of (razorpay_delivery sha256_hex py_repr hs bod secret) = signature hs) as -> by done.
  destruct (bool_decide (signature hs = ""%string)); cbn [raise_if]; [by exists "missing_signature"%string|]. rewrite bind_Ok.
  unfold _constant_time_eq. rewrite (bool_decide_eq_false_2 _ Hsig). by exists "invalid_signature"%string.
Qed.
End Migrated.

(** ** Concrete runs *)

(** The delivery of the repository's test, with transparent stand-ins for the
    hash, the signature and the parser. *)
Definition plain_hash (s : string) : string := s.
Definition plain_hmac (key s : string) : string := (key ++ "|" ++ s)%string.
Definition sample_json : json := JObj [("event", JStr "payment.captured"); ("id", JStr "evt_test")]%string.
Definition sample_loads (s : string) : option json := Some sample_json.
Definition sample : delivery := {|
  headers := [("x-razorpay-signature", "test_secret|captured")]%string; body := "captured"; gateway := "razorpay";
  secret := "test_secret"; signature_header := None; timestamp_header := None; timestamp_tolerance_s := 300;
  event_id_extractor := None; event_type_extractor := None |}.
Definition sample_register (now : Z) (row token : string) :=
  verify_and_register_webhook Tested plain_hash plain_hmac sample_loads now row token sample.
Definition sample_intake (m : res (list webhook_event * WebhookResult)) : intake :=
  match m with Ok (db, r) => {| events := db; workers := [r] |} | Err _ => no_events end.
Definition claimed : intake := sample_intake (sample_register 1000 "row-1" "token-1" []).
Definition ended (status : string) : intake :=
  match workers claimed with
  | r :: _ => match mark_processed 2000 r status None 1 (events claimed) with
              | Ok db => {| events := db; workers := [] |} | Err _ => no_events end
  | [] => no_events
  end.

Definition sample_secret (gateway : string) : string := "test_secret".
Notation sample_step sch := (intake_step sch plain_hash plain_hmac sample_loads sample_secret).

Lemma claimed_reachable sch : rtc (sample_step sch) no_events claimed.
Proof.
  assert (∃ db r, sample_register 1000 "row-1" "token-1" [] = Ok (db, r) ∧ duplicate r = false ∧
    claimed = {| events := db; workers := [r] |}) as (db & r & H & Hdup & ->).
  { do 2 eexists. split; [reflexivity|]. by split. }
  assert (verify_and_register_webhook sch plain_hash plain_hmac sample_loads 1000 "row-1" "token-1" sample [] = Ok (db, r)) as H'
    by (rewrite <-H; by destruct sch).
  pose proof (step_deliver sch plain_hash plain_hmac sample_loads sample_secret 1000 "row-1" "token-1" sample db r no_events
    eq_refl ltac:(cbn; set_solver) ltac:(cbn; set_solver) ltac:(cbn; set_solver) H') as Hstep.
  rewrite Hdup in Hstep. by apply rtc_once.
Qed.

Lemma ended_reachable sch status : str_mem status processing_states = true → rtc (sample_step sch) no_events (ended status).
Proof.
  intros Hst. eapply rtc_r; [exact (claimed_reachable sch)|].
  assert (∃ r, workers claimed = [r] ∧ duplicate r = false ∧
    mark_processed 2000 r status None 1 (events claimed) = Ok (events (ended status)) ∧ workers (ended status) = [])
    as (r & Hw & _ & Hm & He).
  { eexists. split; [reflexivity|]. split; [reflexivity|]. unfold ended, mark_processed. cbn -[str_mem].
    rewrite Hst. by split. }
  pose proof (step_finish sch plain_hash plain_hmac sample_loads sample_secret 2000 [] r [] status None 1 _ claimed Hw Hm) as H.
  destruct (ended status) as [db ws]. cbn in He, H. by subst ws.
Qed.

(** The test [test_failed_webhook_retries_and_completed_duplicate_is_skipped]: a
    delivery under way blocks a second one, a failed one is taken over, and a
    processed one is answered as a duplicate. *)
Example in_progress_blocks :
  sample_register 1500 "row-2" "token-2" (events claimed) = Err (HTTPException 503 "webhook_processing_in_progress").
Proof. reflexivity. Qed.

Example failed_is_taken_over : match sample_register 3000 "row-2" "token-2" (events (ended "failed")) with
  | Ok (db, r) => (length db, duplicate r, event_row_id r, processing_token r) | Err _ => (0%nat, true, ""%string, None) end
  = (1%nat, false, "row-1"%string, Some "token-2"%string).
Proof. reflexivity. Qed.

Example abandoned_is_taken_over : is_ok (sample_register (1000 + 601 * 10 ^ 6) "row-2" "token-2" (events claimed)) = true.
Proof. reflexivity. Qed.

(** Under the migrated index the test's event is processed, delivered once more
    and claimed again: the processed row is still the first one. *)
Definition redelivered : intake :=
  match verify_and_register_webhook Migrated plain_hash plain_hmac sample_loads 9000 "row-2" "token-2" sample
          (events (ended "processed")) with
  | Ok (db, r) => {| events := db; workers := [r] |}
  | Err _ => no_events
  end.

Lemma redelivered_reachable : rtc (sample_step Migrated) (ended "processed") redelivered.
Proof.
  assert (∃ db r, verify_and_register_webhook Migrated plain_hash plain_hmac sample_loads 9000 "row-2" "token-2" sample
      (events (ended "processed")) = Ok (db, r) ∧ duplicate r = false ∧ redelivered = {| events := db; workers := [r] |}
    ∧ workers (ended "processed") = []) as (db & r & H & Hdup & -> & Hw) by (do 2 eexists; split; [reflexivity|by split_and!]).
  pose proof (step_deliver Migrated plain_hash plain_hmac sample_loads sample_secret 9000 "row-2" "token-2" sample db r
    (ended "processed") eq_refl ltac:(vm_compute; set_solver) ltac:(vm_compute; set_solver) ltac:(vm_compute; set_solver) H) as Hstep.
  rewrite Hdup, Hw in Hstep. by apply rtc_once.
Qed.

Lemma processed_is_final_witness :
  Forall (authentic plain_hash plain_hmac sample_loads sample_secret) (events redelivered) ∧
  map ev_row (events redelivered) = ["row-1"; "row-2"]%string ∧
  ∀ e, e ∈ events (ended "processed") → e ∈ events redelivered.
Proof.
  destruct (processed_is_final Migrated plain_hash plain_hmac sample_loads sample_secret (ended "processed") redelivered
    (ended_reachable Migrated "processed" eq_refl) redelivered_reachable) as (Ha & _ & _ & Hp).
  split; [exact Ha|]. split; [reflexivity|]. intros e He. apply Hp; [done|].
  assert (Forall (λ e, ev_state e = "processed"%string) (events (ended "processed"))) as Hall by (repeat constructor).
  rewrite Forall_forall in Hall. by apply Hall.
Defined.

Definition taken_over : list webhook_event :=
  events (sample_intake (sample_register (1000 + 601 * 10 ^ 6) "row-2" "token-2" (events claimed))).

Lemma takeover_fences_the_worker_witness :
  match workers claimed with
  | old :: _ => mark_processed (1002 * 10 ^ 6) old "processed" None 5 taken_over = Ok taken_over
  | [] => False
  end.
Proof.
  assert (∃ r, sample_register (1000 + 601 * 10 ^ 6) "row-2" "token-2" (events claimed) = Ok (taken_over, r) ∧
    duplicate r = false ∧ event_row_id r = "row-1"%string) as (r & H & Hdup & Hrow).
  { eexists. split; [reflexivity|]. by split. }
  exact (takeover_fences_the_worker Tested plain_hash plain_hmac sample_loads sample_secret claimed (1000 + 601 * 10 ^ 6) "row-2" "token-2"
    sample taken_over r _ "processed" None 5 (1002 * 10 ^ 6) (claimed_reachable Tested) ltac:(vm_compute; set_solver)
    ltac:(vm_compute; set_solver) ltac:(vm_compute; set_solver) H Hdup ltac:(left) ltac:(by rewrite Hrow) eq_refl).
Defined.

(** The Razorpay endpoint with one handler, which counts its runs. *)
Definition counting (event : string) : option (json → string → Z → Z * res ()) :=
  if bool_decide (event = "payment.captured"%string) then Some (λ _ _ n, (n + 1, Ok ())) else None.
Definition sample_endpoint (sch : schema) (now : Z) (row token : string) (st : list webhook_event * Z) :=
  razorpay_payment_webhook sch plain_hash plain_hmac sample_loads (λ _, "") counting now (now + 5) 3 row token
    "test_secret" (λ _, "error"%string) [("x-razorpay-signature", "test_secret|captured")]%string "captured" st.
Definition delivered_twice (sch : schema) : list webhook_event * Z * res webhook_reply :=
  sample_endpoint sch 9000 "row-2" "token-2" (sample_endpoint sch 1000 "row-1" "token-1" ([], 0)).1.

Example replay_is_a_duplicate_when_tested :
  (let '(db, n, reply) := delivered_twice Tested in (length db, n, reply)) =
    (1%nat, 1, Ok (Duplicate "evt_test")).
Proof. reflexivity. Qed.

Example replay_is_handled_again_when_migrated :
  (let '(db, n, reply) := delivered_twice Migrated in (length db, n, reply)) =
    (2%nat, 2, Ok (Handled "processed")).
Proof. reflexivity. Qed.

Lemma replay_runs_the_handler_witness :
  (sample_endpoint Migrated 9000 "row-2" "token-2" (events (ended "processed"), 1)).1.2 = 2.
Proof.
  exact (proj1 (replay_runs_the_handler plain_hash plain_hmac sample_loads (λ _, ""%string) counting 9000 9005 3 "row-2"
    "token-2" "test_secret" (λ _, "error"%string) [("x-razorpay-signature", "test_secret|captured")]%string "captured"
    (events (ended "processed")) 1 sample_json "evt_test" (Some "payment.captured"%string) "capturedtest_secret|captured"
    "payment.captured" (λ _ _ n, (n + 1, Ok ())) ltac:(vm_compute; repeat constructor) eq_refl ltac:(done) eq_refl eq_refl eq_refl)).
Defined.

Lemma forged_webhook_is_refused_witness : ∃ detail,
  razorpay_payment_webhook Migrated plain_hash plain_hmac sample_loads (λ _, ""%string) counting 9000 9005 3 "row-2"
    "token-2" "test_secret" (λ _, "error"%string) [("x-razorpay-signature", "forged")]%string "captured" ([], 0)
  = ([], 0, Err (HTTPException 401 detail)).
Proof.
  exact (forged_webhook_is_refused plain_hash plain_hmac sample_loads (λ _, ""%string) counting 9000 9005 3 "row-2"
    "token-2" "test_secret" (λ _, "error"%string) [("x-razorpay-signature", "forged")]%string "captured" [] 0
    ltac:(vm_compute; discriminate)).
Defined.
