(* ===== verification/RequestSecurity.v ===== *)
(** Request signing: [src/app/middleware/request_security.py] and the path test of
    [src/app/services/partner_onboarding/paths.py].

    Instants are microseconds.  Redis is its nonce table here and the signing keys
    of RefreshTokens there; a key is gone once its expiry instant has passed.
    SHA-256, HMAC, base64 decoding, JWT decoding and the application behind the
    middleware are parameters. *)

From Stdlib Require Import ZArith Lia Ascii String Sorted.
From stdpp Require Import sorting.
From S2P Require Import Prelude PyDecimal PyFloat PyValues PyRegex RefreshTokens.
Open Scope Z_scope.

(** ** Requests *)

Record request := {
  rq_method : string;
  rq_path : string;
  rq_query : string;
  rq_headers : list (string * string);
  rq_cookies : list (string * string);
  rq_body : string;
}.

Definition CLOCK_DRIFT_SECONDS : Z := 300.
Definition NONCE_TTL_SECONDS : Z := 600.
Definition MAX_HEADER_LEN : Z := 256.
Definition MAX_DEVICE_ID_LEN : Z := 128.

(** ** Paths outside the scheme *)

Definition _SKIP_PREFIXES : list string :=
  ["/api/v1/auth/"; "/api/v1/webhooks/"; "/api/v1/health"; "/api/v1/voice/payment-audio/"; "/health"; "/metrics";
   "/docs"; "/redoc"; "/openapi.json"]%string.

Definition is_digit (c : ascii) : bool := let n := N_of_ascii c in ((48 <=? n) && (n <=? 57))%N.
Definition hex_digit : regex :=
  RClass (λ c, is_digit c || (let n := N_of_ascii (to_lower c) in (97 <=? n) && (n <=? 102))%N).
Definition uid : regex :=
  rseq [rtimes 8 hex_digit; rtimes 3 (rseq [rlit "-"; rtimes 4 hex_digit]); rlit "-"; rtimes 12 hex_digit].
Definition asset_char : regex :=
  RClass (λ c, is_alnum c || bool_decide (c = "_"%char) || bool_decide (c = "."%char) || bool_decide (c = "-"%char)).

Definition public_get : regex := ralt
  [rseq [rlit "/q/"; uid];
   rseq [rlit "/api/v1/waitlist/"; ralt
     [rseq [rlit "qr/"; uid; ropt (rlit ".png")]; rseq [rlit "display/"; uid]; rseq [rlit "status/"; uid];
      rlit "push/vapid-key"; rlit "sw.js"; rseq [rlit "assets/"; rplus asset_char]]]].
Definition public_post : regex :=
  rseq [rlit "/api/v1/waitlist/"; ralt [rseq [rlit "public/"; uid]; rseq [rlit "push/subscribe/"; uid]]].

Definition _is_skipped (path method : string) : bool :=
  if (bool_decide (method = "GET"%string) && fullmatch public_get path)
     || (bool_decide (method = "POST"%string) && fullmatch public_post path) then true
  else existsb (λ p, bool_decide (path = p) || starts_with p path) _SKIP_PREFIXES.

(** [path.split('/', 3)[3]], when there is one. *)
Fixpoint after_slashes (n : nat) (l : list ascii) : option (list ascii) :=
  match n, l with
  | O, _ => Some l
  | S n', c :: l' => if bool_decide (c = "/"%char) then after_slashes n' l' else after_slashes n l'
  | S _, [] => None
  end.

Definition segment : regex := rplus (RClass (λ c, negb (bool_decide (c = "/"%char)))).
Definition onboarding_exact : list (string * list string) :=
  [("/admin/session", ["GET"; "POST"]); ("/admin/logout", ["POST"]);
   ("/onboarding/policy", ["GET"]); ("/catalogs/cuisines", ["GET"]); ("/catalogs/locations", ["GET"]);
   ("/locations/search", ["GET"]); ("/locations/reverse", ["GET"]); ("/restaurants/duplicates", ["GET"]);
   ("/menu-imports/template", ["GET"])]%string.
Definition onboarding_pattern (method : string) : option regex :=
  if bool_decide (method = "GET"%string) then Some (ralt
    [rlit "onboarding"; rlit "readiness"; rlit "audit"; rlit "documents";
     rseq [rlit "documents/"; segment; rlit "/history"]; rseq [rlit "verifications/"; segment]; rlit "contracts/current";
     rseq [rlit "contracts/"; segment; rlit "/signature-requests/"; segment]; rseq [rlit "uploads/"; segment];
     rseq [rlit "downloads/"; segment]; rseq [rlit "menu-imports/"; segment]; rlit "menu-items"])
  else if bool_decide (method = "POST"%string) then Some (ralt
    [rlit "submit"; rlit "review/start"; rlit "review/decisions"; rlit "approve"; rlit "activate"; rlit "uploads";
     rseq [rlit "uploads/"; segment; rlit "/"; ralt [rlit "complete"; rlit "retry"]];
     rseq [rlit "assets/"; segment; rlit "/download"]; rlit "menu-imports/preview";
     rseq [rlit "menu-imports/"; segment; rlit "/confirm"];
     rseq [rlit "documents/"; segment; rlit "/"; ralt [rlit "submit"; rlit "decisions"; rlit "verification"]];
     rlit "contracts";
     rseq [rlit "contracts/"; segment; rlit "/"; ralt [rlit "download"; rlit "signed-copy"; rlit "signature-requests";
       rlit "signed-copy/approve"; rlit "supersede"]]])
  else if bool_decide (method = "PATCH"%string) then Some (ralt
    [rlit "onboarding"; rseq [rlit "assets/"; segment]; rseq [rlit "menu-imports/"; segment];
     rseq [rlit "menu-items/"; segment]])
  else if bool_decide (method = "PUT"%string) then Some (ralt
    [rseq [rlit "uploads/"; segment; rlit "/content"]; rseq [rlit "documents/"; segment]])
  else if bool_decide (method = "DELETE"%string) then Some (ralt
    [rseq [rlit "assets/"; segment]; rseq [rlit "menu-items/"; segment]])
  else None.

Definition is_onboarding_request (rq : request) : bool :=
  let path := of_chars (drop 7 (chars (rq_path rq))) in
  let method := rq_method rq in
  if negb (starts_with "/api/v1/" (rq_path rq)) then false
  else if existsb (λ e, bool_decide (path = e.1) && str_mem method e.2) onboarding_exact then true
  else if bool_decide (path = "/restaurants"%string) && str_mem method ["GET"; "POST"]%string then
    str_truthy (snd <$> find (λ c, bool_decide (c.1 = "bittu_onboarding_session"%string)) (rq_cookies rq))
    || str_truthy (get_header "x-onboarding-tenant" (rq_headers rq))
  else
    let tail := if starts_with "/restaurants/" path then default [] (after_slashes 3 (chars path)) else [] in
    negb (bool_decide (tail = []))
    && match onboarding_pattern method with Some r => fullmatch_chars r tail | None => false end.

(** ** The canonical string *)

Definition _safe_header (value : option string) (max_len : Z) : option string :=
  v ← value; if max_len <? str_len v then None else Some v.

Definition hex_upper (d : N) : ascii := ascii_of_N (if (d <? 10)%N then 48 + d else 55 + d).
Definition quote_byte (c : ascii) : list ascii :=
  if is_alnum c || bool_decide (c ∈ ["_"; "."; "-"; "~"]%char) then [c]
  else let n := N_of_ascii c in ["%"%char; hex_upper (n / 16)%N; hex_upper (n mod 16)%N].
(** [quote(s, safe="-._~")] *)
Definition quote (s : string) : string := of_chars (mjoin (map quote_byte (chars s))).

(** [s.split(c, 1)] *)
Fixpoint split_once (c : ascii) (l : list ascii) : list ascii * option (list ascii) :=
  match l with
  | [] => ([], None)
  | x :: l' => if bool_decide (x = c) then ([], Some l') else let (a, b) := split_once c l' in (x :: a, b)
  end.

Definition query_pair (raw : string) : string * string :=
  let (k, v) := split_once "=" (chars raw) in (quote (of_chars k), quote (of_chars (default [] v))).

(** The order of Python's tuples of strings. *)
Definition pair_le (a b : string * string) : Prop :=
  string_ltb a.1 b.1 = true ∨ a.1 = b.1 ∧ string_ltb b.2 a.2 = false.
#[export] Instance pair_le_dec : RelDecision pair_le.
Proof. intros a b. unfold pair_le. apply _. Defined.

Definition _canonical_query (query : string) : string :=
  let raws := filter (λ r, r ≠ ""%string) (split "&" query) in
  join "&" (map (λ kv, (kv.1 ++ "=" ++ kv.2)%string) (merge_sort pair_le (map query_pair raws))).

Definition LF : string := String (ascii_of_N 10) "".

(** [bytes.fromhex]: pairs of digits; white space may stand between pairs. *)
Definition hex_value (c : ascii) : option N :=
  let n := N_of_ascii c in
  if ((48 <=? n) && (n <=? 57))%N then Some (n - 48)%N
  else if ((97 <=? n) && (n <=? 102))%N then Some (n - 87)%N
  else if ((65 <=? n) && (n <=? 70))%N then Some (n - 55)%N else None.
Fixpoint fromhex_chars (l : list ascii) : option (list ascii) :=
  match l with
  | [] => Some []
  | c :: l' =>
      if is_c_space c then fromhex_chars l'
      else match l' with
           | [] => None
           | d :: l'' => x ← hex_value c; y ← hex_value d; bs ← fromhex_chars l''; Some (ascii_of_N (16 * x + y) :: bs)
           end
  end.
Definition fromhex (s : string) : option string := of_chars <$> fromhex_chars (chars s).

(** ** Verification *)

Inductive verdict := Accepted (device user : string) | Refused (reason : string).

Section Middleware.
Context (sha256_hex : string → string) (hmac_sha256_hex : string → string → string)
  (b64decode : string → option string) (jwt_decode : string → option json).

Definition _sha256_hex (data : string) : string := if bool_decide (data = ""%string) then "" else sha256_hex data.

Definition _extract_user_id (authorization : option string) : option string :=
  if negb (str_truthy authorization) then None
  else
    let (scheme, rest) := split_once " " (chars (default ""%string authorization)) in
    match rest with
    | None => None
    | Some rest =>
        if negb (bool_decide (lower (of_chars scheme) = "bearer"%string)) then None
        else
          let token := strip (of_chars rest) in
          if bool_decide (token = ""%string) then None
          else match jwt_decode token with
               | None => None
               | Some payload =>
                   match jget "sub" payload with
                   | Ok (JStr sub) => if bool_decide (sub = ""%string) then None else Some sub
                   | _ => None
                   end
               end
    end.

Definition nonce_key (device nonce : string) : string := ("sig-nonce:" ++ device ++ ":" ++ nonce)%string.

(** [SET key 1 EX 600 NX]: does nothing while the key lives. *)
Definition _nonce_seen (now : Z) (device nonce : string) (nonces : gmap string Z) : gmap string Z * bool :=
  let key := nonce_key device nonce in
  match nonces !! key with
  | Some expiry => if now <=? expiry then (nonces, true) else (<[key := now + NONCE_TTL_SECONDS * 10 ^ 6]> nonces, false)
  | None => (<[key := now + NONCE_TTL_SECONDS * 10 ^ 6]> nonces, false)
  end.

Definition canonical_string (rq : request) (ts nonce device : string) : string :=
  join LF [upper (rq_method rq); rq_path rq; _canonical_query (rq_query rq); _sha256_hex (rq_body rq); ts; nonce; device].

(** Hex first, then base64; [None] when neither decodes. *)
Definition key_bytes (signing_key : string) : option string :=
  match fromhex signing_key with Some k => Some k | None => b64decode signing_key end.

Definition signature_matches (key : string) (rq : request) (ts nonce device signature : string) : bool :=
  let expected := hmac_sha256_hex key (canonical_string rq ts nonce device) in
  if bool_decide (expected = lower (strip signature)) then true
  else match b64decode signature, fromhex expected with
       | Some provided, Some bytes => bool_decide (bytes = provided)
       | _, _ => false
       end.

(** [down] says whether Redis fails the key lookup and the nonce check.  One instant
    [now] stands for the reading of the clock in the timestamp check and for the SET of
    the nonce, which the code runs after the key lookup: the time of life of a nonce is
    exactly twice the drift, so it covers a replay only as far as the two coincide. *)
Definition _verify (now : Z) (st : store) (down : bool * bool) (rq : request) (nonces : gmap string Z)
    : gmap string Z * verdict :=
  let h := rq_headers rq in
  let device_id := _safe_header (get_header "X-Device-Id" h) MAX_DEVICE_ID_LEN in
  let ts := _safe_header (get_header "X-Timestamp" h) MAX_HEADER_LEN in
  let nonce := _safe_header (get_header "X-Nonce" h) MAX_HEADER_LEN in
  let signature := _safe_header (get_header "X-Signature" h) MAX_HEADER_LEN in
  if negb (str_truthy device_id && str_truthy ts && str_truthy nonce && str_truthy signature)
  then (nonces, Refused "missing_headers")
  else
    let device_id := default ""%string device_id in
    let ts := default ""%string ts in
    let nonce := default ""%string nonce in
    let signature := default ""%string signature in
    match py_int ts with
    | None => (nonces, Refused "bad_timestamp")
    | Some ts_int =>
        if CLOCK_DRIFT_SECONDS * 10 ^ 6 <? Z.abs (now - ts_int * 10 ^ 6) then (nonces, Refused "timestamp_out_of_window")
        else
          match _extract_user_id (get_header "Authorization" h) with
          | None => (nonces, Refused "no_subject")
          | Some user_id =>
              if down.1 then (nonces, Refused "key_lookup_error")
              else
                let signing_key := get_session_key (now / 10 ^ 6) user_id device_id st in
                if negb (str_truthy signing_key) then (nonces, Refused "no_session_key")
                else if down.2 then (nonces, Refused "nonce_check_error")
                else
                  let (nonces', seen) := _nonce_seen now device_id nonce nonces in
                  if seen then (nonces', Refused "nonce_replayed")
                  else
                    match key_bytes (default ""%string signing_key) with
                    | None => (nonces', Refused "bad_key_encoding")
                    | Some key =>
                        (nonces', if signature_matches key rq ts nonce device_id signature
                                  then Accepted device_id user_id else Refused "signature_mismatch")
                    end
          end
    end.

(** ** The middleware *)

Definition modes : list string := ["off"; "monitor"; "enforce"]%string.

(** [configured] is the constructor's argument, [setting] the application's. *)
Definition mode (configured setting : option string) : string :=
  let own := strip (lower (str_or configured "")) in
  if str_mem own modes then own
  else
    let s := strip (lower (str_or setting "monitor")) in
    if str_mem s modes then s else "monitor".

Context {W R : Type} (call_next : request → W → W * R).

Inductive outcome := Answer (r : R) | Unauthorized (reason : string).

Definition dispatch (configured setting : option string) (now : Z) (st : store) (down : bool * bool) (rq : request)
    (nonces : gmap string Z) (w : W) : gmap string Z * W * outcome :=
  let pass n := let (w', r) := call_next rq w in (n, w', Answer r) in
  let m := mode configured setting in
  if bool_decide (m = "off"%string) then pass nonces
  else if _is_skipped (rq_path rq) (rq_method rq) then pass nonces
  else if is_onboarding_request rq then pass nonces
  else if bool_decide (rq_method rq = "OPTIONS"%string) then pass nonces
  else if bool_decide (lower (default ""%string (get_header "upgrade" (rq_headers rq))) = "websocket"%string) then pass nonces
  else
    let (nonces', v) := _verify now st down rq nonces in
    match v with
    | Accepted _ _ => pass nonces'
    | Refused reason => if bool_decide (m = "enforce"%string) then (nonces', w, Unauthorized reason) else pass nonces'
    end.
End Middleware.

(** ** Facts about the canonical string *)

#[export] Instance pair_le_total : Total pair_le.
Proof.
  intros [k v] [k' v']. unfold pair_le. cbn.
  destruct (string_ltb_total k k') as [H|[->|H]]; [tauto| |tauto].
  destruct (string_ltb v' v) eqn:E; [|tauto]. right; right. split; [done|].
  apply not_true_iff_false. intros H. pose proof (string_ltb_trans _ _ _ E H). by rewrite string_ltb_irrefl in *.
Qed.

Lemma string_leb_trans a b c : string_ltb b a = false → string_ltb c b = false → string_ltb c a = false.
Proof.
  rewrite <-!not_true_iff_false. intros H1 H2 H3. destruct (string_ltb_total a b) as [H|[->|H]]; [|done|done].
  apply H2. by eapply string_ltb_trans.
Qed.

#[export] Instance pair_le_trans : Transitive pair_le.
Proof.
  intros [k1 v1] [k2 v2] [k3 v3]. unfold pair_le. cbn.
  intros [H1|[-> H1]] [H2|[-> H2]]; [left; by eapply string_ltb_trans|by left|by left|right].
  split; [done|]. by eapply string_leb_trans.
Qed.

#[export] Instance pair_le_antisymm : AntiSymm (=) pair_le.
Proof.
  intros [k v] [k' v']. unfold pair_le. cbn. intros [H1|[-> H1]] [H2|[H2 H3]]; subst.
  - pose proof (string_ltb_trans _ _ _ H1 H2). by rewrite string_ltb_irrefl in *.
  - by rewrite string_ltb_irrefl in *.
  - by rewrite string_ltb_irrefl in *.
  - destruct (string_ltb_total v v') as [H|[->|H]]; congruence.
Qed.

Lemma merge_sort_perm l l' : l ≡ₚ l' → merge_sort pair_le l = merge_sort pair_le l'.
Proof.
  intros H. apply (StronglySorted_unique pair_le);
    [apply StronglySorted_merge_sort; apply _..|].
  by rewrite !merge_sort_Permutation.
Qed.

Lemma pieces_of_query l : Forall (λ r, "&"%char ∉ chars r) l →
  filter (λ r, r ≠ ""%string) (split "&" (join "&" l)) = filter (λ r, r ≠ ""%string) l.
Proof. intros H. destruct l as [|s l]; [done|]. by rewrite (split_join "&"). Qed.

(** The signature does not depend on the order in which the client wrote its
    query parameters: the canonical query of a query is that of any reordering
    of its [k=v] pieces. *)
Theorem query_order_irrelevant l l' : l ≡ₚ l' → Forall (λ r, "&"%char ∉ chars r) l →
  _canonical_query (join "&" l) = _canonical_query (join "&" l').
Proof.
  intros Hp Hl. assert (Forall (λ r, "&"%char ∉ chars r) l') as Hl' by (by rewrite <-Hp).
  unfold _canonical_query. rewrite !pieces_of_query by done. do 2 f_equal. apply merge_sort_perm. by rewrite Hp.
Qed.

Notation no_LF s := (ascii_of_N 10 ∉ chars s).

Lemma hex_upper_visible d : (d < 16)%N → hex_upper d ≠ ascii_of_N 10.
Proof.
  intros Hd. unfold hex_upper. intros H. apply (f_equal N_of_ascii) in H.
  destruct (N.ltb_spec d 10); rewrite !N_ascii_embedding in H; lia.
Qed.

Lemma quote_byte_visible c x : x ∈ quote_byte c → x ≠ ascii_of_N 10.
Proof.
  unfold quote_byte. destruct (is_alnum c || bool_decide (c ∈ ["_"; "."; "-"; "~"]%char)) eqn:H.
  - intros ->%list_elem_of_singleton ->. by vm_compute in H.
  - intros Hx. assert (N_of_ascii c < 256)%N as Hc by apply N_ascii_bounded.
    rewrite !elem_of_cons in Hx. destruct Hx as [->|[->|[->|Hx]]]; [done|..|by apply elem_of_nil in Hx];
      apply hex_upper_visible; [|apply N.mod_lt; lia].
    apply N.Div0.div_lt_upper_bound; lia.
Qed.

Lemma quote_no_LF s : no_LF (quote s).
Proof.
  unfold quote. rewrite chars_of_chars. intros H. apply list_elem_of_join in H as (l & H & Hl).
  apply list_elem_of_fmap in Hl as (c & -> & _). by apply quote_byte_visible in H.
Qed.

Lemma join_no_LF sep l : no_LF sep → Forall (λ s, no_LF s) l → no_LF (join sep l).
Proof.
  intros Hsep Hl. induction Hl as [|s l Hs Hl IH]; [apply not_elem_of_nil|].
  destruct l; [done|]. change (join sep (s :: ?r)) with (s ++ sep ++ join sep r)%string.
  rewrite !chars_app, !not_elem_of_app. auto.
Qed.

Lemma canonical_query_no_LF q : no_LF (_canonical_query q).
Proof.
  unfold _canonical_query. apply join_no_LF; [vm_compute; set_solver|].
  rewrite Forall_forall. intros s Hs. apply list_elem_of_fmap in Hs as ([k v] & -> & Hs).
  rewrite merge_sort_Permutation in Hs. apply list_elem_of_fmap in Hs as (raw & Hkv & _).
  unfold query_pair in Hkv. destruct (split_once "=" (chars raw)) as [a b]. injection Hkv as -> ->.
  cbn. rewrite !chars_app, !not_elem_of_app. repeat split; try apply quote_no_LF. vm_compute. set_solver.
Qed.

Lemma upper_no_LF s : no_LF s → no_LF (upper s).
Proof.
  unfold upper. rewrite chars_of_chars. intros Hs H. apply list_elem_of_fmap in H as (c & Hc & Hin). apply Hs.
  assert (c = ascii_of_N 10) as <-; [|done]. clear Hs Hin. destruct c as [[] [] [] [] [] [] [] []]; try discriminate Hc; done.
Qed.

(** ** What acceptance means *)

(** The four headers of a request that carries them all. *)
Record signed_headers := { sh_device : string; sh_ts : string; sh_nonce : string; sh_signature : string }.

Definition headers_of (rq : request) : option signed_headers :=
  let h := rq_headers rq in
  d ← _safe_header (get_header "X-Device-Id" h) MAX_DEVICE_ID_LEN;
  t ← _safe_header (get_header "X-Timestamp" h) MAX_HEADER_LEN;
  n ← _safe_header (get_header "X-Nonce" h) MAX_HEADER_LEN;
  s ← _safe_header (get_header "X-Signature" h) MAX_HEADER_LEN;
  Some {| sh_device := d; sh_ts := t; sh_nonce := n; sh_signature := s |}.

(** Is the key of a nonce live? *)
Definition nonce_live (now : Z) (nonces : gmap string Z) (device nonce : string) : bool :=
  match nonces !! nonce_key device nonce with Some expiry => now <=? expiry | None => false end.

(** Paths and methods the middleware lets through unread. *)
Definition exempt (rq : request) : bool :=
  _is_skipped (rq_path rq) (rq_method rq) || is_onboarding_request rq
  || bool_decide (rq_method rq = "OPTIONS"%string)
  || bool_decide (lower (default ""%string (get_header "upgrade" (rq_headers rq))) = "websocket"%string).

Lemma nonce_seen_spec now d n nonces : _nonce_seen now d n nonces =
  if nonce_live now nonces d n then (nonces, true)
  else (<[nonce_key d n := now + NONCE_TTL_SECONDS * 10 ^ 6]> nonces, false).
Proof. unfold _nonce_seen, nonce_live. cbv zeta. destruct (nonces !! nonce_key d n); [by destruct (now <=? z)|done]. Qed.

Section Acceptance.
Context (sha256_hex : string → string) (hmac_sha256_hex : string → string → string)
  (b64decode : string → option string) (jwt_decode : string → option json).
Notation verify := (_verify sha256_hex hmac_sha256_hex b64decode jwt_decode).
Notation canonical := (canonical_string sha256_hex).

(** The canonical string is unambiguous: two requests with one canonical
    string have the same method, path, query parameters, body digest, timestamp,
    nonce and device, so a signature covers exactly these. *)
Theorem canonical_unambiguous rq rq' ts ts' n n' d d' :
  (∀ s, no_LF (sha256_hex s)) →
  no_LF (rq_method rq) → no_LF (rq_path rq) → no_LF ts → no_LF n → no_LF d →
  no_LF (rq_method rq') → no_LF (rq_path rq') → no_LF ts' → no_LF n' → no_LF d' →
  canonical rq ts n d = canonical rq' ts' n' d' →
  upper (rq_method rq) = upper (rq_method rq') ∧ rq_path rq = rq_path rq' ∧
  _canonical_query (rq_query rq) = _canonical_query (rq_query rq') ∧
  _sha256_hex sha256_hex (rq_body rq) = _sha256_hex sha256_hex (rq_body rq') ∧ ts = ts' ∧ n = n' ∧ d = d'.
Proof.
  intros Hsha M1 P1 T1 N1 D1 M2 P2 T2 N2 D2 Heq.
  assert (∀ b, no_LF (_sha256_hex sha256_hex b)) as Hb.
  { intros b. unfold _sha256_hex. case_bool_decide; [apply not_elem_of_nil|apply Hsha]. }
  apply (f_equal (split (ascii_of_N 10))) in Heq. unfold canonical_string, LF in Heq.
  rewrite !split_join in Heq; try discriminate;
    try (repeat (apply List.Forall_cons; [auto using upper_no_LF, canonical_query_no_LF|]); apply List.Forall_nil).
  injection Heq as -> -> -> -> -> -> ->. auto 10.
Qed.

Lemma verify_cases now st down rq nonces :
  match verify now st down rq nonces with
  | (nonces', Accepted d u) => ∃ h skey key ts, headers_of rq = Some h ∧ sh_device h = d ∧
      py_int (sh_ts h) = Some ts ∧ Z.abs (now - ts * 10 ^ 6) <= CLOCK_DRIFT_SECONDS * 10 ^ 6 ∧
      _extract_user_id jwt_decode (get_header "Authorization" (rq_headers rq)) = Some u ∧
      get_session_key (now / 10 ^ 6) u d st = Some skey ∧ key_bytes b64decode skey = Some key ∧
      signature_matches sha256_hex hmac_sha256_hex b64decode key rq (sh_ts h) (sh_nonce h) d (sh_signature h) = true ∧
      nonce_live now nonces d (sh_nonce h) = false ∧
      nonces' = <[nonce_key d (sh_nonce h) := now + NONCE_TTL_SECONDS * 10 ^ 6]> nonces
  | (nonces', Refused _) => nonces' = nonces ∨ ∃ d n, nonce_live now nonces d n = false ∧
      nonces' = <[nonce_key d n := now + NONCE_TTL_SECONDS * 10 ^ 6]> nonces
  end.
Proof.
  unfold _verify, headers_of. cbv zeta.
  destruct (_safe_header (get_header "X-Device-Id" _) _) as [d|]; [|by left].
  destruct (_safe_header (get_header "X-Timestamp" _) _) as [ts|]; [|cbn [str_truthy]; rewrite ?andb_false_r; by left].
  destruct (_safe_header (get_header "X-Nonce" _) _) as [n|]; [|cbn [str_truthy]; rewrite ?andb_false_r; by left].
  destruct (_safe_header (get_header "X-Signature" _) _) as [s|]; [|cbn [str_truthy]; rewrite ?andb_false_r; by left].
  cbn [default from_option id mbind option_bind]. destruct (negb _); [by left|].
  destruct (py_int ts) as [t|] eqn:Ht; [|by left].
  destruct (Z.ltb_spec (CLOCK_DRIFT_SECONDS * 10 ^ 6) (Z.abs (now - t * 10 ^ 6))) as [|Hskew]; [by left|].
  destruct (_extract_user_id _ _) as [u|] eqn:Hu; [|by left].
  destruct (down.1); [by left|].
  destruct (get_session_key _ u d st) as [skey|] eqn:Hk; [|by left]. cbn [default from_option id].
  destruct (negb (str_truthy (Some skey))); [by left|]. destruct (down.2); [by left|].
  rewrite nonce_seen_spec. destruct (nonce_live now nonces d n) eqn:Hn; [by left|].
  destruct (key_bytes b64decode skey) as [key|] eqn:Hkey; [|right; by exists d, n].
  destruct (signature_matches _ _ _ key rq ts n d s) eqn:Hs; [|right; by exists d, n].
  exists {| sh_device := d; sh_ts := ts; sh_nonce := n; sh_signature := s |}, skey, key, t. cbn. auto 12.
Qed.





Context {W R : Type} (call_next : request → W → W * R).

(** In enforce mode the application runs only for an exempt path or method, or
    for a request that carries all four headers, a timestamp within five minutes,
    an unused nonce, and a signature that is the HMAC of its canonical string
    under the key issued to the token's subject and the device; and a refused
    request leaves the application alone. *)
Theorem enforced_request_is_signed configured setting now st down rq nonces w nonces' w' o :
  mode configured setting = "enforce"%string → exempt rq = false →
  dispatch sha256_hex hmac_sha256_hex b64decode jwt_decode call_next configured setting now st down rq nonces w = (nonces', w', o) →
  match o with
  | Unauthorized _ => w' = w
  | Answer r => (w', r) = call_next rq w ∧ ∃ h skey key ts u, headers_of rq = Some h ∧
      py_int (sh_ts h) = Some ts ∧ Z.abs (now - ts * 10 ^ 6) <= CLOCK_DRIFT_SECONDS * 10 ^ 6 ∧
      nonce_live now nonces (sh_device h) (sh_nonce h) = false ∧
      nonce_live now nonces' (sh_device h) (sh_nonce h) = true ∧
      _extract_user_id jwt_decode (get_header "Authorization" (rq_headers rq)) = Some u ∧
      get_session_key (now / 10 ^ 6) u (sh_device h) st = Some skey ∧ key_bytes b64decode skey = Some key ∧
      signature_matches sha256_hex hmac_sha256_hex b64decode key rq (sh_ts h) (sh_nonce h) (sh_device h) (sh_signature h) = true
  end.
Proof.
  intros Hm He. unfold exempt in He. rewrite !orb_false_iff in He. destruct He as [[[He1 He2] He3] He4].
  unfold dispatch. cbv zeta. rewrite Hm, He1, He2, He3, He4. change (bool_decide ("enforce"%string = "off"%string)) with false.
  pose proof (verify_cases now st down rq nonces) as C. destruct (verify now st down rq nonces) as [n1 [d u|reason]].
  - destruct C as (h & skey & key & ts & E & <- & T & Hw & U & K & B & S & L & ->).
    destruct (call_next rq w) as [w1 r1] eqn:Hc. intros [= <- <- <-]. split; [done|].
    exists h, skey, key, ts, u. repeat (split; [done|]). split; [|by repeat split].
    unfold nonce_live. rewrite lookup_insert_eq. apply Z.leb_le. unfold NONCE_TTL_SECONDS. lia.
  - rewrite bool_decide_eq_true_2 by done. by intros [= _ <- <-].
Qed.
End Acceptance.

(** ** Concrete requests *)

Definition demo_sha (s : string) : string := "00".
Definition demo_hmac (key s : string) : string := if bool_decide (key = "k"%string) then "ab" else "cd".
Definition demo_b64 (s : string) : option string := None.
Definition demo_jwt (s : string) : option json := Some (JObj [("sub", JStr s)])%string.
Definition demo_keys : store := {| tokens := ∅; signing_keys := {["session-signing:u1:dev" := ("6b", 5000)]} |}%string.
Definition demo_request (signature : string) : request := {|
  rq_method := "post"; rq_path := "/api/v1/orders"; rq_query := "b=2&a=1"; rq_cookies := []; rq_body := "{}";
  rq_headers := [("authorization", "Bearer u1"); ("x-device-id", "dev"); ("x-timestamp", "1000"); ("x-nonce", "n1");
                 ("x-signature", signature)] |}%string.
Definition demo_verify (now : Z) (signature : string) (nonces : gmap string Z) :=
  _verify demo_sha demo_hmac demo_b64 demo_jwt now demo_keys (false, false) (demo_request signature) nonces.
Definition demo_dispatch (now : Z) (signature : string) (nonces : gmap string Z) :=
  dispatch demo_sha demo_hmac demo_b64 demo_jwt (λ _ n, (n + 1, tt)) (Some "Enforce "%string) None now demo_keys (false, false)
    (demo_request signature) nonces 0.

Example accepted_once : (demo_verify (1000 * 10 ^ 6) " AB" ∅).2 = Accepted "dev" "u1".
Proof. reflexivity. Qed.
Example refused_twice : (demo_verify (1001 * 10 ^ 6) "ab" (demo_verify (1000 * 10 ^ 6) "ab" ∅).1).2 = Refused "nonce_replayed".
Proof. reflexivity. Qed.
Example refused_late : (demo_verify (1301 * 10 ^ 6) "ab" ∅).2 = Refused "timestamp_out_of_window".
Proof. reflexivity. Qed.
Example mismatch_burns_the_nonce : (demo_verify (1000 * 10 ^ 6) "ab" (demo_verify (999 * 10 ^ 6) "cd" ∅).1).2 = Refused "nonce_replayed".
Proof. reflexivity. Qed.
Example query_sorted : _canonical_query "b=2&a=x+y&&b=1&c" = "a=x%2By&b=1&b=2&c="%string.
Proof. reflexivity. Qed.
Example skipped_paths : map (λ p, _is_skipped p "GET")
  ["/api/v1/auth/login"; "/q/0123abcd-0000-4000-8000-0123456789AB"; "/q/xyz"; "/api/v1/orders"; "/documents"]%string =
  [true; true; false; false; false].
Proof. reflexivity. Qed.
Example prefixes_are_not_segments : _is_skipped "/docs-of-a-merchant" "POST" = true.
Proof. reflexivity. Qed.

Lemma query_order_irrelevant_witness :
  _canonical_query (join "&" ["b=2"; "a=1"; "b=1"]%string) = _canonical_query (join "&" ["b=1"; "b=2"; "a=1"]%string).
Proof.
  apply query_order_irrelevant.
  - symmetry. exact (Permutation_cons_append ["b=2"; "a=1"]%string "b=1"%string).
  - repeat constructor; vm_compute; set_solver.
Defined.

Lemma canonical_unambiguous_witness : upper "post" = upper "POST" ∧ "/p"%string = "/p"%string ∧
  _canonical_query "b=2&a=1" = _canonical_query "a=1&b=2" ∧
  _sha256_hex demo_sha "x" = _sha256_hex demo_sha "y" ∧ "1"%string = "1"%string ∧ "n"%string = "n"%string ∧ "d"%string = "d"%string.
Proof.
  apply (canonical_unambiguous demo_sha
    {| rq_method := "post"; rq_path := "/p"; rq_query := "b=2&a=1"; rq_headers := []; rq_cookies := []; rq_body := "x" |}
    {| rq_method := "POST"; rq_path := "/p"; rq_query := "a=1&b=2"; rq_headers := []; rq_cookies := []; rq_body := "y" |});
    [intros s|..]; try (vm_compute; set_solver).
Defined.


Lemma enforced_request_is_signed_witness : ∃ n, demo_dispatch (1000 * 10 ^ 6) "ab" ∅ = (n, 1, Answer tt) ∧
  ∃ h skey key ts u, headers_of (demo_request "ab") = Some h ∧ py_int (sh_ts h) = Some ts ∧
    get_session_key 1000 u (sh_device h) demo_keys = Some skey ∧ key_bytes demo_b64 skey = Some key ∧
    signature_matches demo_sha demo_hmac demo_b64 key (demo_request "ab") (sh_ts h) (sh_nonce h) (sh_device h) (sh_signature h) = true.
Proof.
  destruct (demo_dispatch (1000 * 10 ^ 6) "ab" ∅) as [[n w] o] eqn:E.
  assert (w = 1 ∧ o = Answer tt) as [-> ->] by (vm_compute in E; by injection E as <- <- <-).
  exists n. split; [done|].
  destruct (enforced_request_is_signed demo_sha demo_hmac demo_b64 demo_jwt (λ _ n, (n + 1, tt)) (Some "Enforce "%string) None
    (1000 * 10 ^ 6) demo_keys (false, false) (demo_request "ab") ∅ 0 n 1 (Answer tt) eq_refl eq_refl E)
    as (_ & h & skey & key & ts & u & H1 & H2 & _ & _ & _ & _ & H3 & H4 & H5).
  exists h, skey, key, ts, u. done.
Defined.
