(* ===== verification/Permissions.v ===== *)
(** Who may do what: [src/app/services/rbac_service.py], the request's identity in
    [src/app/core/auth.py], the gates of [src/app/dependencies/] and
    [src/app/core/claims.py], over the tables of migrations 001 and 013.

    A request is authenticated by its token, its user is resolved to a context, and the
    context is checked against a permission map.  Context and map are cached in Redis,
    the map also in each worker's memory, so a call takes the caches along and says which
    of database and Redis answer ([avail]).  Instants are microseconds.  JWT decoding,
    [json.loads] and the iteration order of a Python set are arguments. *)

From Stdlib Require Import ZArith Lia Ascii String.
From S2P Require Import Prelude PyDecimal PyFloat PyValues.
Open Scope Z_scope.

(** ** Data *)

Definition fields := list (string * json).

(** The caller ([UserContext]). *)
Record user_context := {
  u_id : string;
  u_email : option string;
  u_role : string;
  u_role_id : option string;
  u_restaurant : option string;
  u_branch : option string;
  u_owner : option string;
  u_is_branch_user : bool;
  u_permission_key : option string;
  u_permission_meta : fields;
}.

(** A context with the dataclass defaults. *)
Definition bare_context (user : string) (email : option string) : user_context := {|
  u_id := user; u_email := email; u_role := "owner"; u_role_id := None; u_restaurant := None; u_branch := None;
  u_owner := None; u_is_branch_user := false; u_permission_key := None; u_permission_meta := [] |}.

(** An entry of a permission map. *)
Record details := {
  dt_allowed : bool;
  dt_meta : fields;
  dt_role_id : option string;
  dt_role_name : option string;
  dt_branch : option string;
}.

(** A Python dict in insertion order; assigning to a key keeps its place. *)
Definition permission_map := list (string * details).
Fixpoint dict_set {A} (k : string) (v : A) (m : list (string * A)) : list (string * A) :=
  match m with
  | [] => [(k, v)]
  | kv :: m' => if bool_decide (kv.1 = k) then (k, v) :: m' else kv :: dict_set k v m'
  end.
Definition dict_get {A} (k : string) (m : list (string * A)) : option A :=
  snd <$> find (λ kv, bool_decide (kv.1 = k)) m.

Record permission_decision := {
  pd_key : string;
  pd_allowed : bool;
  pd_role_id : option string;
  pd_role_name : option string;
  pd_branch : option string;
  pd_meta : fields;
}.

(** The tables.  [gr_meta] is what the driver returns for the JSONB column. *)
Inductive raw_meta := RawNone | RawDict (d : fields) | RawText (s : string) | RawOther.
Record branch_user := {
  bu_user : string; bu_branch : string; bu_owner : string; bu_role : string; bu_role_id : option string;
  bu_active : bool; bu_created_at : Z }.
Record sub_branch := { sb_id : string; sb_restaurant : option string; sb_main : bool }.
Record restaurant := { rs_id : string; rs_owner : string }.
Record role := { ro_id : string; ro_name : string; ro_branch : string }.
Record grant := { gr_role : string; gr_permission : string; gr_allowed : bool; gr_meta : raw_meta }.

(** [permissions] as id and key. *)
Record auth_db := {
  branch_users : list branch_user;
  sub_branches : list sub_branch;
  restaurants : list restaurant;
  roles : list role;
  grants : list grant;
  permissions : list (string * string);
  platform_admins : list string;
}.

(** ** Permission keys *)

Definition replace_char (a b : ascii) (s : string) : string :=
  of_chars (map (λ c, if bool_decide (c = a) then b else c) (chars s)).
Definition _norm (permission_key : string) : string := replace_char ":" "." (lower (strip permission_key)).

(** [s.split(".", 1)]: the part before the first dot, and the part after it. *)
Fixpoint cut_dot (l : list ascii) : list ascii * option (list ascii) :=
  match l with
  | [] => ([], None)
  | c :: l' => if bool_decide (c = "."%char) then ([], Some l') else let (a, b) := cut_dot l' in (c :: a, b)
  end.
Definition before_dot (s : string) : string := of_chars (cut_dot (chars s)).1.
Definition after_dot (s : string) : string := of_chars (default [] (cut_dot (chars s)).2).

(** The set [aliases], in the order its elements are added. *)
Definition alias_pairs : list (string * string) :=
  [("order.", "orders."); ("orders.", "order."); ("payment.", "payments."); ("payments.", "payment.");
   ("table.", "tables."); ("tables.", "table.")]%string.
Definition _aliases (permission_key : string) : list string :=
  let base := _norm permission_key in
  base :: omap (λ p, if starts_with p.1 base then Some (p.2 ++ after_dot base)%string else None) alias_pairs.

Definition wildcard (key : string) : string := (before_dot key ++ ".*")%string.
Definition _has_wildcard (key : string) (candidates : list string) : bool := str_mem (wildcard key) candidates.

(** ** The fallback table *)

Definition fallback_owner : list string := [
     "order.*"; "orders.*"; "billing.*"; "payment.*"; "payments.*"; "table.*"; "tables.*"; "dinein.*";
     "inventory.*"; "kitchen.*"; "kitchen_station.*"; "voice.*"; "staff.*"; "accounting.*"; "erp.*";
     "subscription.*"; "cash_transaction.*"; "menu.*"; "analytics.*"; "reports.*"; "waitlist.*"; "customer.*";
     "promotion.*"; "due_payment.*"; "feedback.*"; "settings.*"; "purchase_order.*"; "supplier.*"; "expense.*";
     "invoice.*"; "audit.*"; "delivery.*"; "favourites.*"; "merchant_ledger.*"; "bank_recon.*"; "recon.*";
     "statements.*"; "statement.*"; "settlement.*"; "subledger.*"; "payout.*"; "refunds.*"; "disputes.*";
     "escrow.*"; "tax.*"; "finance.*"; "razorpay.*"]%string.
Definition fallback_manager : list string := [
     "order.create"; "order.edit"; "order.cancel"; "order.read"; "orders.create"; "orders.read";
     "orders.update"; "billing.generate"; "billing.discount"; "payment.create"; "payments.create";
     "payment.refund"; "table.read"; "table.start"; "table.close"; "table.manage"; "tables.manage";
     "inventory.read"; "inventory.update"; "inventory.manage"; "kitchen.read"; "kitchen.update";
     "kitchen_station.read"; "kitchen_station.manage"; "staff.read"; "staff.branch_users.read";
     "staff.invites.read"; "accounting.read"; "accounting.write"; "erp.read"; "erp.write"; "erp.shifts.read";
     "erp.shifts.manage"; "cash_transaction.read"; "cash_transaction.create"; "cash_transaction.delete";
     "menu.read"; "menu.write"; "analytics.read"; "waitlist.read"; "waitlist.manage"; "waitlist.admin";
     "dinein.manage"; "customer.read"; "customer.write"; "promotion.read"; "promotion.write";
     "due_payment.read"; "due_payment.write"; "due_payment.delete"; "feedback.read"; "feedback.write";
     "settings.read"; "purchase_order.read"; "purchase_order.write"; "supplier.read"; "supplier.write";
     "supplier.delete"; "delivery.read"; "delivery.write"; "favourites.manage"; "bank_recon.read";
     "merchant_ledger.read"; "statements.read"; "statement.read"; "settlement.read"; "recon.read";
     "subledger.read"; "reports.read"; "finance.dashboard"; "finance.report"; "finance.pnl"; "finance.gst";
     "invoice.read"; "expense.read"; "refunds.read"; "disputes.read"]%string.
Definition fallback_cashier : list string := [
     "order.read"; "order.edit"; "orders.read"; "orders.update"; "billing.generate"; "billing.discount";
     "payment.create"; "payments.create"; "table.read"; "table.start"; "table.close"; "table.manage";
     "tables.manage"; "erp.shifts.read"; "erp.shifts.manage"; "cash_transaction.read";
     "cash_transaction.create"; "menu.read"; "waitlist.read"; "waitlist.manage"; "customer.read";
     "customer.write"; "due_payment.read"; "due_payment.write"; "feedback.write"; "favourites.manage"]%string.
Definition fallback_waiter : list string := [
     "order.create"; "order.read"; "orders.create"; "orders.read"; "table.read"; "table.start"; "table.close";
     "table.manage"; "tables.manage"; "kitchen.read"; "waitlist.read"; "waitlist.manage"; "dinein.manage";
     "feedback.write"; "favourites.manage"]%string.
Definition fallback_chef : list string := [
     "order.read"; "orders.read"; "kitchen.read"; "kitchen.update"; "kitchen_station.read"]%string.
Definition fallback_kitchen : list string := [
     "order.read"; "orders.read"; "kitchen.read"; "kitchen.update"; "kitchen_station.read"]%string.
Definition fallback_staff : list string := [
     "order.read"; "orders.read"; "table.read"; "kitchen.read"; "waitlist.read"]%string.

Definition fallback_meta (role key : string) : fields :=
  if bool_decide (key = "billing.discount"%string) then
    if bool_decide (role = "manager"%string) then [("max_discount_percent"%string, JInt 50)]
    else if bool_decide (role = "cashier"%string) then [("max_discount_percent"%string, JInt 10)] else []
  else if bool_decide (key = "payment.refund"%string) && bool_decide (role = "manager"%string)
       then [("max_refund_amount"%string, JInt 5000)] else [].
Definition _fallback_permissions : list (string * list string) :=
  [("owner", fallback_owner); ("manager", fallback_manager); ("cashier", fallback_cashier);
   ("waiter", fallback_waiter); ("chef", fallback_chef); ("kitchen", fallback_kitchen); ("staff", fallback_staff)]%string.

(** The entries of a role; [role_of] and [branch] are what the caller adds to each. *)
Definition fallback_map (role : string) (role_of branch : option string) : permission_map :=
  foldl (λ m k, dict_set k {| dt_allowed := true; dt_meta := fallback_meta role k; dt_role_id := None;
                              dt_role_name := role_of; dt_branch := branch |} m)
    [] (default [] (dict_get role _fallback_permissions)).

(** [(role or "staff").lower()] *)
Definition role_or_staff (role : string) : string := lower (str_or (Some role) "staff").

(** ** The caches *)

Definition _LOCAL_TTL : Z := 300 * 10 ^ 6.
Definition CACHE_TTL : Z := 300 * 10 ^ 6.

(** Values with the instant they expire: each worker's [_LOCAL_CACHE], and Redis. *)
Record caches := {
  local : gmap (nat * string) (Z * permission_map);
  redis_perms : gmap string (Z * permission_map);
  redis_users : gmap string (Z * user_context);
}.
Definition no_caches : caches := {| local := ∅; redis_perms := ∅; redis_users := ∅ |}.

(** What answers during a call: the database, and Redis for reads and for writes. *)
Record avail := { db_up : bool; redis_reads : bool; redis_writes : bool }.
Definition all_up : avail := {| db_up := true; redis_reads := true; redis_writes := true |}.

Definition live {A} (now : Z) (e : option (Z * A)) : option A :=
  match e with Some (exp, a) => if now <? exp then Some a else None | None => None end.

Definition set_local (wk : nat) (k : string) (v : Z * permission_map) (c : caches) : caches :=
  {| local := <[(wk, k) := v]> (local c); redis_perms := redis_perms c; redis_users := redis_users c |}.
Definition set_redis (k : string) (v : Z * permission_map) (c : caches) : caches :=
  {| local := local c; redis_perms := <[k := v]> (redis_perms c); redis_users := redis_users c |}.
Definition set_user (k : string) (v : Z * user_context) (c : caches) : caches :=
  {| local := local c; redis_perms := redis_perms c; redis_users := <[k := v]> (redis_users c) |}.

(** ** Loading the permission map *)

Section Rbac.
(** [json.loads] ([None] when it raises), the iteration order of a set. *)
Context (json_loads : string → option json) (set_order : list string → list string).

Definition _coerce_meta (m : raw_meta) : fields :=
  match m with
  | RawDict d => d
  | RawText s => match json_loads s with Some (JObj d) => d | _ => [] end
  | RawNone | RawOther => []
  end.

Definition cache_key (user : string) (branch : option string) : string :=
  ("rbac_perms:" ++ user ++ ":" ++ str_or branch "none")%string.

(** [ORDER BY created_at DESC LIMIT 1] *)
Definition newest_row (l : list branch_user) : option branch_user :=
  foldl (λ best b, match best with
                   | Some a => if bu_created_at a <? bu_created_at b then Some b else best
                   | None => Some b
                   end) None l.
Definition own_row (u : user_context) (db : auth_db) : option branch_user :=
  newest_row (filter (λ b, bu_user b = u_id u ∧ bu_active b = true ∧ (u_branch u = None ∨ u_branch u = Some (bu_branch b)))
                     (branch_users db)).
Definition find_role (id : string) (db : auth_db) : option role := find (λ r, bool_decide (ro_id r = id)) (roles db).

(** The permission rows of a role, keyed by their normalised key. *)
Definition role_map (role role_of : string) (branch : option string) (db : auth_db) : permission_map :=
  foldl (λ m g,
    match find (λ p, bool_decide (p.1 = gr_permission g)) (permissions db) with
    | Some p => dict_set (_norm p.2) {| dt_allowed := gr_allowed g; dt_meta := _coerce_meta (gr_meta g);
                   dt_role_id := Some role; dt_role_name := Some role_of; dt_branch := branch |} m
    | None => m
    end) [] (filter (λ g, gr_role g = role) (grants db)).

(** The map the database yields, and whether it goes into the caches. *)
Definition load_from_db (u : user_context) (db : auth_db) : permission_map * bool :=
  match own_row u db with
  | None =>
      let role_name := role_or_staff (u_role u) in
      let role_row := b ← u_branch u;
                      find (λ r, bool_decide (ro_branch r = b) && bool_decide (lower (ro_name r) = lower role_name)) (roles db) in
      match role_row with
      | Some r => (role_map (ro_id r) (lower (str_or (Some (ro_name r)) role_name)) (Some (ro_branch r)) db, false)
      | None => (fallback_map role_name None None, false)
      end
  | Some row =>
      let of_role := ro_name <$> (id ← bu_role_id row; find_role id db) in
      let named := coalesce of_role (Some (bu_role row)) in
      let role_name := lower (str_or named (str_or (Some (bu_role row)) (str_or (Some (u_role u)) "staff"))) in
      if u_is_branch_user u && str_truthy (u_branch u) && negb (bool_decide (u_branch u = Some (bu_branch row))) then ([], false)
      else
        match bu_role_id row with
        | Some id => (role_map id role_name (Some (bu_branch row)) db, true)
        | None => (fallback_map role_name (Some role_name) (Some (bu_branch row)), true)
        end
  end.

(** [wk]: the worker process that serves the request. *)
Definition _load_permission_map (wk : nat) (u : user_context) (now : Z) (a : avail) (db : auth_db) (c : caches)
    : caches * permission_map :=
  let k := cache_key (u_id u) (u_branch u) in
  match live now (local c !! (wk, k)) with
  | Some m => (c, m)
  | None =>
      match (if redis_reads a then live now (redis_perms c !! k) else None) with
      | Some m => (set_local wk k (now + _LOCAL_TTL, m) c, m)
      | None =>
          if db_up a then
            let (m, keep) := load_from_db u db in
            if keep then
              let c1 := if redis_writes a then set_redis k (now + CACHE_TTL, m) c else c in
              (set_local wk k (now + _LOCAL_TTL, m) c1, m)
            else (c, m)
          else (c, fallback_map (role_or_staff (u_role u)) None None)
      end
  end.

Definition invalidate_user_cache (wk : nat) (user : string) (branch : option string) (a : avail) (c : caches) : caches :=
  let k := cache_key user branch in
  {| local := delete (wk, k) (local c);
     redis_perms := if redis_writes a then delete k (redis_perms c) else redis_perms c;
     redis_users := redis_users c |}.

(** [StaffService._invalidate_auth_cache] *)
Definition _invalidate_auth_cache (wk : nat) (user : string) (branch : option string) (a : avail) (c : caches) : caches :=
  invalidate_user_cache wk user branch a
    {| local := local c; redis_perms := redis_perms c;
       redis_users := if redis_writes a then delete user (redis_users c) else redis_users c |}.

(** ** The decision *)

(** What a branch of the loop returns. *)
Definition granted (u : user_context) (key : string) (d : option details) : permission_decision := {|
  pd_key := key; pd_allowed := true;
  pd_role_id := match d ≫= dt_role_id with Some r => if str_truthy (Some r) then Some r else u_role_id u | None => u_role_id u end;
  pd_role_name := match d ≫= dt_role_name with Some r => if str_truthy (Some r) then Some r else Some (u_role u)
                  | None => Some (u_role u) end;
  pd_branch := match d ≫= dt_branch with Some b => if str_truthy (Some b) then Some b else u_branch u | None => u_branch u end;
  pd_meta := default [] (dt_meta <$> d) |}.
Definition denied (u : user_context) (key : string) : permission_decision := {|
  pd_key := key; pd_allowed := false; pd_role_id := u_role_id u; pd_role_name := Some (u_role u);
  pd_branch := u_branch u; pd_meta := [] |}.

Fixpoint decide_loop (u : user_context) (m : permission_map) (keys : list string) : option permission_decision :=
  match keys with
  | [] => None
  | key :: keys' =>
      match dict_get key m with
      | Some d =>
          if dt_allowed d then Some (granted u key (Some d))
          else if _has_wildcard key (map fst m) then Some (granted u key (dict_get (wildcard key) m))
          else decide_loop u m keys'
      | None =>
          if _has_wildcard key (map fst m) then Some (granted u key (dict_get (wildcard key) m))
          else decide_loop u m keys'
      end
  end.
Definition decision (u : user_context) (m : permission_map) (permission_key : string) : permission_decision :=
  match decide_loop u m (set_order (_aliases permission_key)) with
  | Some d => d
  | None => denied u (_norm permission_key)
  end.

Definition check_permission (wk : nat) (u : user_context) (permission_key : string) (now : Z) (a : avail) (db : auth_db)
    (c : caches) : caches * permission_decision :=
  let (c', m) := _load_permission_map wk u now a db c in (c', decision u m permission_key).

(** [/auth/permissions/me]: role, role id, branch, where the map came from, and the map. *)
Definition get_user_permissions (wk : nat) (u : user_context) (now : Z) (a : avail) (db : auth_db) (c : caches)
    : caches * (option string * option string * option string * string * list (string * (bool * fields))) :=
  let (c', m) := _load_permission_map wk u now a db c in
  let source := match m with
                | (_, d) :: _ => if bool_decide (dt_role_id d = None) && negb (str_truthy (dt_branch d)) then "fallback" else "db"
                | [] => "db"
                end%string in
  let of_last (f : details → option string) (own : option string) :=
    match last m with Some (_, d) => if str_truthy (f d) then f d else own | None => own end in
  (c', (of_last dt_role_name (Some (u_role u)), of_last dt_role_id (u_role_id u), u_branch u, source,
        map (λ kd, (kd.1, (dt_allowed kd.2, dt_meta kd.2))) m)).

(** ** The identity of a request *)

(** What [jwt.decode] does with a token under one algorithm: the claims [sub] and
    [email], or the exception.  [unverified_alg] reads the header ([None]: it raises
    [DecodeError]). *)
Inductive decoded := Claims (sub email : option string) | Expired | Invalid | Broken (e : exn).
Context (unverified_alg : string → option (option string)) (jwt_decode : string → string → decoded).

Definition _decode_token (token : string) : res decoded :=
  match unverified_alg token with
  | None => Err (UnauthorizedError "Malformed token")
  | Some alg => Ok (jwt_decode (if bool_decide (default "HS256" alg = "ES256")%string then "ES256" else "HS256")%string token)
  end.

(** The user and email a token proves. *)
Definition authenticated (token : string) : res (string * option string) :=
  d ← _decode_token token;
  match d with
  | Claims sub email => if str_truthy sub then Ok (str_or sub "", email) else Err (UnauthorizedError "Invalid token: no subject")
  | Expired => Err (UnauthorizedError "Token expired")
  | Invalid => Err (UnauthorizedError "Invalid token")
  | Broken e => Err e
  end.

Definition _resolve_user_context (user : string) (email : option string) (db : auth_db) : user_context :=
  match head (filter (λ b, bu_user b = user ∧ bu_active b = true ∧ existsb (λ s, bool_decide (sb_id s = bu_branch b)) (sub_branches db) = true)
                (branch_users db)) with
  | Some b =>
      {| u_id := user; u_email := email;
         u_role := default (bu_role b) (ro_name <$> (id ← bu_role_id b; find_role id db));
         u_role_id := bu_role_id b;
         u_restaurant := find (λ s, bool_decide (sb_id s = bu_branch b)) (sub_branches db) ≫= sb_restaurant;
         u_branch := Some (bu_branch b); u_owner := Some (bu_owner b); u_is_branch_user := true;
         u_permission_key := None; u_permission_meta := [] |}
  | None =>
      match find (λ r, bool_decide (rs_owner r = user)) (restaurants db) with
      | Some r =>
          {| u_id := user; u_email := email; u_role := "owner"; u_role_id := None; u_restaurant := Some (rs_id r);
             u_branch := sb_id <$> find (λ s, bool_decide (sb_restaurant s = Some (rs_id r)) && sb_main s) (sub_branches db);
             u_owner := Some user; u_is_branch_user := false; u_permission_key := None; u_permission_meta := [] |}
      | None => bare_context user email
      end
  end.

(** [owner_id or user_id]: the tenant whose rows the connection may see. *)
Definition tenant (u : user_context) : string := str_or (u_owner u) (u_id u).

(** The context, and the tenant set for the request. *)
Definition get_current_user (token : string) (now : Z) (a : avail) (db : auth_db) (c : caches)
    : caches * res (user_context * string) :=
  match authenticated token with
  | Err e => (c, Err e)
  | Ok (user, email) =>
      match (if redis_reads a then live now (redis_users c !! user) else None) with
      | Some u => (c, Ok (u, tenant u))
      | None =>
          if db_up a then
            let u := _resolve_user_context user email db in
            (if redis_writes a then set_user user (now + CACHE_TTL, u) c else c, Ok (u, tenant u))
          else (c, Ok (bare_context user email, user))
      end
  end.

Definition with_decision (u : user_context) (d : permission_decision) : user_context := {|
  u_id := u_id u; u_email := u_email u; u_role := u_role u;
  u_role_id := match pd_role_id d with Some r => if str_truthy (Some r) then Some r else u_role_id u | None => u_role_id u end;
  u_restaurant := u_restaurant u; u_branch := u_branch u; u_owner := u_owner u;
  u_is_branch_user := u_is_branch_user u; u_permission_key := Some (pd_key d); u_permission_meta := pd_meta d |}.

(** The gate of an endpoint: [require_permission] over [get_current_user]. *)
Definition require_permission (permission : string) (wk : nat) (token : string) (now : Z) (a : avail) (db : auth_db)
    (c : caches) : caches * res user_context :=
  match get_current_user token now a db c with
  | (c1, Err e) => (c1, Err e)
  | (c1, Ok (u, _)) =>
      let (c2, d) := check_permission wk u permission now a db c1 in
      (c2, if pd_allowed d then Ok (with_decision u d) else Err (ForbiddenError "Permission denied: "))
  end.

Definition ROLE_HIERARCHY : list (string * Z) :=
  [("owner", 100); ("manager", 80); ("cashier", 60); ("chef", 40); ("waiter", 30); ("staff", 20)]%string.
Definition level (role : string) : Z := default 0 (dict_get role ROLE_HIERARCHY).
Definition require_role (allowed : list string) (u : user_context) : res user_context :=
  if str_mem (u_role u) allowed then Ok u else Err (ForbiddenError "Role '").
Definition require_min_role (min_role : string) (u : user_context) : res user_context :=
  if level (u_role u) <? level min_role then Err (ForbiddenError "Minimum role required: ") else Ok u.

(** The SQL helper raises when the database is down. *)
Definition require_platform_admin (u : user_context) (a : avail) (db : auth_db) : res user_context :=
  if negb (db_up a) then Err (DatabaseError "connection")
  else if str_mem (u_id u) (platform_admins db) then Ok u else Err (ForbiddenError "Platform admin privilege required").

(** The channels a WebSocket may subscribe to ([realtime/__init__.py]). *)
Definition _can_subscribe (u : user_context) (channel : string) : bool :=
  if starts_with "branch:" channel
  then str_truthy (u_branch u) && bool_decide (channel = ("branch:" ++ str_or (u_branch u) "")%string)
  else if starts_with "restaurant:" channel
  then str_truthy (u_restaurant u) && bool_decide (u_role u = "owner"%string) && negb (u_is_branch_user u)
       && bool_decide (channel = ("restaurant:" ++ str_or (u_restaurant u) "")%string)
  else false.

(** ** Scopes *)

Definition PLATFORM_ADMIN_SCOPES : list string :=
  ["platform:*"; "financial:ledger:read"; "financial:journal:post"; "financial:payout:orchestrate"; "financial:refund:orchestrate"]%string.
Definition PLATFORM_SUBROLE_SCOPES : list (string * list string) :=
  [("super_admin", PLATFORM_ADMIN_SCOPES);
   ("finance_admin", ["platform:fee_plans:write"; "platform:payouts:approve"; "platform:escrow:read";
                      "platform:fin_reports:read"; "platform:audit:read"; "financial:ledger:read"]);
   ("recon_admin", ["platform:recon:operate"; "platform:audit:read"; "platform:escrow:read"; "financial:ledger:read"]);
   ("risk_admin", ["platform:risk:operate"; "platform:disputes:operate"; "platform:audit:read"; "platform:fin_reports:read"]);
   ("support_admin", ["platform:merchants:read"; "platform:audit:read"; "platform:refunds:operate"])]%string.
Definition ROLE_PERMISSIONS : list (string * list string) :=
  [("owner", ["orders:*"; "payments:*"; "menu:*"; "inventory:*"; "staff:*"; "reports:*"; "settings:*"; "tables:*";
              "kitchen:*"; "customers:*"; "branches:*"; "kyc:*"; "voice:*"; "ai:*"; "notifications:*"; "accounting:*"]);
   ("manager", ["orders:*"; "payments:*"; "menu:read"; "menu:write"; "inventory:*"; "staff:read"; "reports:read"; "tables:*";
                "kitchen:*"; "customers:*"; "kyc:*"; "notifications:*"; "accounting:read"; "accounting:write"]);
   ("cashier", ["orders:read"; "orders:write"; "payments:*"; "tables:*"; "customers:read"; "customers:write"; "accounting:read"]);
   ("chef", ["kitchen:*"; "orders:read"; "inventory:read"]);
   ("waiter", ["orders:read"; "orders:write"; "tables:*"; "kitchen:read"; "customers:read"]);
   ("staff", ["orders:read"; "tables:read"; "kitchen:read"])]%string.

(** [required.rsplit(":", 1)[0]]: without the part after the last colon. *)
Definition before_last_colon (s : string) : string := join ":" (match split ":" s with [p] => [p] | ps => removelast ps end).
Definition _scope_matches (scopes : list string) (required : string) : bool :=
  str_mem "*" scopes || str_mem required scopes ||
  str_mem (before_last_colon required ++ ":*") scopes ||
  match split ":" required with
  | p :: rest =>
      (negb (bool_decide (rest = [])) && str_mem (p ++ ":*") scopes) ||
      match rest with
      | [x; y] => str_mem (x ++ ":" ++ y) scopes || str_mem (x ++ ":*") scopes
      | _ => false
      end
  | [] => false
  end.

Record claims := { cl_user : string; cl_role : string; cl_is_platform_admin : bool; cl_merchant : option string;
                   cl_branch : option string; cl_scopes : list string }.
Definition build_claims (u : user_context) (is_platform_admin : bool) (platform_role : option string) : claims :=
  let role := lower (u_role u) in
  let own := default [] (dict_get role ROLE_PERMISSIONS) in
  let more := if is_platform_admin
              then default PLATFORM_ADMIN_SCOPES (dict_get (lower (str_or platform_role "super_admin")) PLATFORM_SUBROLE_SCOPES) else [] in
  {| cl_user := u_id u; cl_role := role; cl_is_platform_admin := is_platform_admin; cl_merchant := u_restaurant u;
     cl_branch := u_branch u; cl_scopes := own ++ more |}.

(** Fail-closed: no database, no platform access. *)
Definition resolve_claims (u : user_context) (a : avail) (db : auth_db) : claims :=
  build_claims u (db_up a && str_mem (u_id u) (platform_admins db)) None.
Definition require_scope (scope : string) (u : user_context) (a : avail) (db : auth_db) : res claims :=
  let c := resolve_claims u a db in
  if _scope_matches (cl_scopes c) scope then Ok c else Err (HTTPException 403 "missing_scope:").
Definition require_platform_scope (scope : string) (u : user_context) (a : avail) (db : auth_db) : res claims :=
  let c := resolve_claims u a db in
  _ ← raise_if (negb (cl_is_platform_admin c)) (HTTPException 403 "platform_admin_required");
  if _scope_matches (cl_scopes c) scope then Ok c else Err (HTTPException 403 "missing_scope:").
End Rbac.

(** ** Dictionaries and keys *)

Lemma dict_get_set {A} k (v : A) m k' : dict_get k' (dict_set k v m) = if decide (k' = k) then Some v else dict_get k' m.
Proof.
  unfold dict_get. induction m as [|kv m IH]; cbn.
  - case_decide as E; [subst; by rewrite bool_decide_eq_true_2|by rewrite bool_decide_eq_false_2].
  - case_bool_decide as E1; cbn.
    + case_decide as E; [subst; by rewrite bool_decide_eq_true_2|].
      rewrite (bool_decide_eq_false_2 (k = k')), (bool_decide_eq_false_2 (kv.1 = k')) by congruence. done.
    + case_bool_decide as E2; cbn; [|exact IH]. rewrite decide_False by congruence. done.
Qed.

Lemma dict_set_keys {A} k (v : A) m k' : k' ∈ map fst (dict_set k v m) ↔ k' = k ∨ k' ∈ map fst m.
Proof. induction m as [|kv m IH]; cbn; [set_solver|]. case_bool_decide as E; cbn; set_solver. Qed.

Lemma dict_set_nodup {A} k (v : A) m : NoDup (map fst m) → NoDup (map fst (dict_set k v m)).
Proof.
  induction m as [|kv m IH]; cbn; [intros _; apply NoDup_singleton|]. intros [Hn Hm]%NoDup_cons.
  case_bool_decide as E; cbn; [subst; by constructor|]. constructor; [|by apply IH].
  intros [He|He]%dict_set_keys; [congruence|done].
Qed.

(** Case, colons and surrounding space are gone after one [_norm]. *)
Lemma drop_spaces_map f l : (∀ c, is_space (f c) = is_space c) → drop_spaces (map f l) = map f (drop_spaces l).
Proof. intros Hf. induction l as [|c l IH]; cbn; [done|]. rewrite Hf. by destruct (is_space c). Qed.

Lemma drop_spaces_snoc l c : is_space c = false → drop_spaces (l ++ [c]) = drop_spaces l ++ [c].
Proof. intros Hc. induction l as [|d l IH]; cbn; [by rewrite Hc|]. by destruct (is_space d). Qed.

Definition strip_chars (l : list ascii) : list ascii := rev (drop_spaces (rev (drop_spaces l))).
Lemma strip_chars_idem l : strip_chars (strip_chars l) = strip_chars l.
Proof.
  unfold strip_chars. destruct (drop_spaces l) as [|c m] eqn:E; [done|].
  assert (is_space c = false) as Hc.
  { revert E. induction l as [|d l IH]; cbn; [done|]. destruct (is_space d) eqn:Ed; [exact IH|]. by intros [= <- _]. }
  cbn [rev]. rewrite (drop_spaces_snoc _ _ Hc), rev_app_distr. cbn. rewrite Hc. cbn.
  rewrite rev_involutive, (drop_spaces_snoc _ _ Hc), drop_spaces_idem, rev_app_distr. done.
Qed.
Lemma strip_chars_map f l : (∀ c, is_space (f c) = is_space c) → strip_chars (map f l) = map f (strip_chars l).
Proof. intros Hf. unfold strip_chars. by rewrite drop_spaces_map, <-!map_rev, drop_spaces_map, <-map_rev. Qed.

Definition norm_char (c : ascii) : ascii := let c := to_lower c in if bool_decide (c = ":"%char) then "."%char else c.
Lemma norm_char_spec c : norm_char (norm_char c) = norm_char c ∧ is_space (norm_char c) = is_space c.
Proof. destruct c as [[] [] [] [] [] [] [] []]; vm_compute; done. Qed.

Lemma norm_chars s : _norm s = of_chars (map norm_char (strip_chars (chars s))).
Proof.
  unfold _norm, replace_char, lower, strip. rewrite !chars_of_chars, map_map. done.
Qed.

Lemma norm_idem s : _norm (_norm s) = _norm s.
Proof.
  rewrite !norm_chars, chars_of_chars, strip_chars_map by (intros c; apply norm_char_spec).
  rewrite strip_chars_idem, map_map. f_equal. apply map_ext. intros c. apply norm_char_spec.
Qed.

(** ** The decision *)

(** What a map grants: an allowed entry under the key, or any entry under its wildcard. *)
Definition permits (m : permission_map) (key : string) : bool :=
  match dict_get key m with Some d => dt_allowed d | None => false end || str_mem (wildcard key) (map fst m).
Definition permits_any (m : permission_map) (permission_key : string) : bool := existsb (permits m) (_aliases permission_key).

Section Decision.
Context (set_order : list string → list string) (set_order_perm : ∀ l, set_order l ≡ₚ l).

Lemma decide_loop_spec u m keys :
  match decide_loop u m keys with
  | Some d => pd_allowed d = true ∧ pd_key d ∈ keys ∧ permits m (pd_key d) = true
  | None => existsb (permits m) keys = false
  end.
Proof.
  induction keys as [|key keys IH]; [done|]. cbn [decide_loop existsb].
  assert (match decide_loop u m keys with
          | Some d => pd_allowed d = true ∧ pd_key d ∈ key :: keys ∧ permits m (pd_key d) = true
          | None => existsb (permits m) keys = false end) as IH'.
  { destruct (decide_loop u m keys); [|done]. destruct IH as (? & ? & ?). split_and!; [done|by right|done]. }
  unfold permits at 2. change (str_mem (wildcard key) (map fst m)) with (_has_wildcard key (map fst m)).
  assert (∀ d, permits m key = true →
    pd_allowed (granted u key d) = true ∧ pd_key (granted u key d) ∈ key :: keys ∧ permits m (pd_key (granted u key d)) = true) as Hyes
    by (intros d Hp; split_and!; [done|by left|done]).
  destruct (dict_get key m) as [d|] eqn:Ed; [destruct (dt_allowed d) eqn:Ea|]; cbn [orb].
  - apply Hyes. unfold permits. by rewrite Ed, Ea.
  - destruct (_has_wildcard key (map fst m)) eqn:Ew; [|exact IH'].
    apply Hyes. unfold permits. fold (_has_wildcard key (map fst m)). by rewrite Ew, orb_true_r.
  - destruct (_has_wildcard key (map fst m)) eqn:Ew; [|exact IH'].
    apply Hyes. unfold permits. fold (_has_wildcard key (map fst m)). by rewrite Ew, orb_true_r.
Qed.

Lemma existsb_perm {A} (f : A → bool) l k : l ≡ₚ k → existsb f l = existsb f k.
Proof. induction 1; cbn; [done|congruence|by rewrite !orb_assoc, (orb_comm (f y))|congruence]. Qed.

Lemma decision_spec u m key :
  pd_allowed (decision set_order u m key) = permits_any m key ∧
  (if permits_any m key
   then pd_key (decision set_order u m key) ∈ _aliases key ∧ permits m (pd_key (decision set_order u m key)) = true
   else decision set_order u m key = denied u (_norm key)).
Proof using set_order_perm.
  unfold decision. pose proof (decide_loop_spec u m (set_order (_aliases key))) as H.
  assert (existsb (permits m) (set_order (_aliases key)) = permits_any m key) as Hany by (by apply existsb_perm).
  destruct (decide_loop _ _ _) as [d|].
  - destruct H as (Ha & Hin & Hp). rewrite Ha, <-Hany.
    assert (existsb (permits m) (set_order (_aliases key)) = true) as ->.
    { apply existsb_exists. exists (pd_key d). split; [by apply list_elem_of_In|done]. }
    split; [done|]. split; [by rewrite <-(set_order_perm (_aliases key))|done].
  - rewrite Hany in H. rewrite H. done.
Qed.

Lemma cut_dot_app a b : "."%char ∉ a → cut_dot (a ++ "."%char :: b) = (a, Some b).
Proof.
  induction a as [|c a IH]; cbn; [done|]. intros Hn. apply not_elem_of_cons in Hn as [Hc Hn].
  rewrite bool_decide_eq_false_2 by congruence. by rewrite IH.
Qed.

End Decision.

Lemma drop_spaces_length l : (length (drop_spaces l) <= length l)%nat.
Proof. induction l as [|c l IH]; cbn; [done|]. destruct (is_space c); cbn; lia. Qed.

Lemma drop_spaces_app a b : drop_spaces b = b → drop_spaces (a ++ b) = drop_spaces a ++ b.
Proof. intros Hb. induction a as [|c a IH]; [exact Hb|]. cbn. by destruct (is_space c). Qed.

Definition normal_tail (x : string) : Prop := map norm_char (chars x) = chars x ∧ drop_spaces (rev (chars x)) = rev (chars x).
Lemma normal_chars x : _norm x = x → normal_tail x.
Proof.
  intros Hx. rewrite norm_chars in Hx. assert (chars x = map norm_char (strip_chars (chars x))) as E by (by rewrite <-Hx, chars_of_chars at 1).
  split.
  - rewrite E, map_map. apply map_ext. intros c. apply norm_char_spec.
  - rewrite E. unfold strip_chars. rewrite <-map_rev, rev_involutive, drop_spaces_map, drop_spaces_idem by (intros c; apply norm_char_spec). done.
Qed.

(** A key under one of the singular or plural resources is normal when its rest ends so. *)
Lemma norm_resource p q x : (p, q) ∈ alias_pairs → normal_tail x → _norm (p ++ x)%string = (p ++ x)%string.
Proof.
  intros Hp [H1 H2]. rewrite norm_chars, chars_app. unfold strip_chars.
  assert (∀ l, drop_spaces (chars p ++ l) = chars p ++ l ∧ drop_spaces (rev (chars p)) = rev (chars p) ∧
    map norm_char (chars p) = chars p) as Hc.
  { intros l. unfold alias_pairs in Hp. repeat (apply elem_of_cons in Hp as [[= -> ->]|Hp]; [split_and!; reflexivity|]).
    by apply elem_of_nil in Hp. }
  destruct (Hc (chars x)) as (-> & Hr & Hm). rewrite rev_app_distr, drop_spaces_app, H2 by exact Hr.
  rewrite <-rev_app_distr, rev_involutive, map_app, Hm, H1, <-chars_app. apply of_chars_chars.
Qed.

Lemma after_dot_resource p q x : (p, q) ∈ alias_pairs → after_dot (p ++ x) = x.
Proof.
  intros Hp. unfold alias_pairs in Hp.
  repeat (apply elem_of_cons in Hp as [[= -> ->]|Hp]; [unfold after_dot; vm_compute; apply of_chars_chars|]).
  by apply elem_of_nil in Hp.
Qed.

Lemma aliases_resource p q x : (p, q) ∈ alias_pairs → _norm x = x → _aliases (p ++ x) = [(p ++ x)%string; (q ++ x)%string].
Proof.
  intros Hp Hx. unfold _aliases. rewrite (norm_resource p q x Hp (normal_chars x Hx)), (after_dot_resource p q x Hp). unfold alias_pairs in *.
  repeat (apply elem_of_cons in Hp as [[= -> ->]|Hp]; [vm_compute; reflexivity|]). by apply elem_of_nil in Hp.
Qed.

Lemma alias_pairs_sym p q : (p, q) ∈ alias_pairs → (q, p) ∈ alias_pairs.
Proof. unfold alias_pairs. set_solver. Qed.

Lemma starts_with_split p s : starts_with p s = true → ∃ x, s = (p ++ x)%string.
Proof.
  intros Hs%bool_decide_eq_true. exists (of_chars (drop (length (chars p)) (chars s))).
  rewrite <-(of_chars_chars p) at 1. rewrite <-of_chars_app. rewrite <-(of_chars_chars s) at 1. f_equal.
  rewrite <-(take_drop (length (chars p)) (chars s)) at 1. by rewrite Hs.
Qed.

Lemma normal_tail_app p x : normal_tail (p ++ x) → normal_tail x.
Proof.
  unfold normal_tail. rewrite !chars_app, map_app, rev_app_distr. intros [H1 H2]. split.
  - apply (f_equal (drop (length (chars p)))) in H1. by rewrite !drop_app_length' in H1 by by rewrite ?length_map.
  - destruct (rev (chars x)) as [|c l]; [done|]. cbn in H2 |- *. destruct (is_space c); [|done]. exfalso.
    apply (f_equal length) in H2. pose proof (drop_spaces_length (l ++ rev (chars p))). cbn in H2. lia.
Qed.

Lemma aliases_normal k : Forall (λ key, _norm key = key) (_aliases k).
Proof.
  unfold _aliases. constructor; [apply norm_idem|]. apply Forall_forall. intros key Hk.
  apply list_elem_of_omap in Hk as ([p q] & Hp & Hk). cbn in Hk.
  destruct (starts_with p (_norm k)) eqn:E; [|done]. injection Hk as <-.
  apply starts_with_split in E as [x Hx]. pose proof (normal_chars _ (norm_idem k)) as Hn. rewrite Hx in Hn |- *.
  rewrite (after_dot_resource p q x Hp). apply (norm_resource q p); [by apply alias_pairs_sym|]. by eapply normal_tail_app.
Qed.

(** The legacy plural of a resource decides like its singular. *)
Lemma plural_agrees m p q x : (p, q) ∈ alias_pairs → _norm x = x → permits_any m (p ++ x) = permits_any m (q ++ x).
Proof.
  intros Hp Hx. unfold permits_any. rewrite (aliases_resource p q x Hp Hx), (aliases_resource q p x (alias_pairs_sym _ _ Hp) Hx).
  apply existsb_perm, Permutation_swap.
Qed.

(** ** Typing of the maps *)

(** A key occurs once and is normal, so looking a normal key up misses no entry. *)
Record typed (m : permission_map) : Prop := {
  ty_once : NoDup (map fst m);
  ty_normal : Forall (λ kv, _norm kv.1 = kv.1) m;
}.

Lemma typed_nil : typed [].
Proof. split; [apply NoDup_nil_2|constructor]. Qed.

Lemma typed_set k d m : _norm k = k → typed m → typed (dict_set k d m).
Proof.
  intros Hk [H1 H2]. split; [by apply dict_set_nodup|]. clear H1. induction H2 as [|kv m Hkv Hm IH]; cbn.
  - by repeat constructor.
  - case_bool_decide; by constructor.
Qed.

Lemma typed_fold {A} (f : permission_map → A → permission_map) l m :
  (∀ m a, a ∈ l → typed m → typed (f m a)) → typed m → typed (foldl f m l).
Proof.
  revert m. induction l as [|a l IH]; intros m Hf Hm; [done|]. cbn. apply IH.
  - intros m' a' Ha'. apply Hf. by right.
  - apply Hf; [by left|done].
Qed.

Lemma fallback_keys_normal : Forall (λ rk, Forall (λ k, _norm k = k) rk.2) _fallback_permissions.
Proof. unfold _fallback_permissions. repeat (apply Forall_cons; split); [repeat (apply Forall_cons; split); vm_compute; done..|done]. Qed.

Lemma dict_get_in {A} k (m : list (string * A)) v : dict_get k m = Some v → (k, v) ∈ m.
Proof.
  unfold dict_get. destruct (find _ m) as [[k' v']|] eqn:E; [|done]. intros [= <-].
  apply find_some in E as [Hin Hk]. apply bool_decide_eq_true in Hk. cbn in Hk. subst. by apply list_elem_of_In.
Qed.

Lemma fallback_typed r n b : typed (fallback_map r n b).
Proof.
  unfold fallback_map. apply typed_fold; [|apply typed_nil]. intros m k Hk. apply typed_set.
  destruct (dict_get r _fallback_permissions) as [ks|] eqn:E; [|by apply elem_of_nil in Hk]. cbn in Hk.
  apply dict_get_in in E. pose proof (proj1 (Forall_forall _ _) fallback_keys_normal _ E) as H. cbn in H.
  exact (proj1 (Forall_forall _ _) H _ Hk).
Qed.

Section Loads.
Context (json_loads : string → option json).

Lemma role_map_typed r n b db : typed (role_map json_loads r n b db).
Proof.
  unfold role_map. apply typed_fold; [|apply typed_nil]. intros m g _ Hm.
  destruct (find _ (permissions db)) as [p|]; [|done]. apply typed_set; [apply norm_idem|done].
Qed.

Lemma load_from_db_typed u db : typed (load_from_db json_loads u db).1.
Proof.
  unfold load_from_db. destruct (own_row u db) as [row|].
  - destruct (_ && _ && _); [apply typed_nil|]. destruct (bu_role_id row); [apply role_map_typed|apply fallback_typed].
  - destruct (_ ≫= _); [apply role_map_typed|apply fallback_typed].
Qed.
End Loads.

(** ** What the tables say

    Who a user is and what may be done, as relations between the rows, without the queries
    of the code. *)

(** A permission row of a role, under the normal spelling of its key. *)
Definition granted_row (db : auth_db) (role_id k : string) (allowed : bool) : Prop :=
  ∃ g p, g ∈ grants db ∧ p ∈ permissions db ∧ gr_role g = role_id ∧ p.1 = gr_permission g ∧ _norm p.2 = k ∧ gr_allowed g = allowed.
Definition by_default (role k : string) : Prop := ∃ ks, (role, ks) ∈ _fallback_permissions ∧ k ∈ ks.

(** An active membership of the branch; any branch will do for a caller without one. *)
Definition member (db : auth_db) (user : string) (branch : option string) (row : branch_user) : Prop :=
  row ∈ branch_users db ∧ bu_user row = user ∧ bu_active row = true ∧ (branch = None ∨ branch = Some (bu_branch row)).
Definition newest_member (db : auth_db) (user : string) (branch : option string) (row : branch_user) : Prop :=
  member db user branch row ∧ ∀ other, member db user branch other → bu_created_at other <= bu_created_at row.

(** What the user may do in the branch, as entry [k] of a map: the grants of the role of the
    newest membership, or the defaults of its role name; without a membership, the grants of
    the branch's role the caller claims, or the defaults of that name. *)
Inductive entitled (db : auth_db) (user : string) (branch : option string) (claim : string) : string → bool → Prop :=
  | en_role row r k allowed :
      newest_member db user branch row → bu_role_id row = Some r → granted_row db r k allowed → entitled db user branch claim k allowed
  | en_default row k :
      newest_member db user branch row → bu_role_id row = None →
      by_default (lower (str_or (Some (bu_role row)) (str_or (Some claim) "staff"))) k → entitled db user branch claim k true
  | en_named r k allowed :
      (∀ row, ¬ member db user branch row) → r ∈ roles db → branch = Some (ro_branch r) → lower (ro_name r) = lower (role_or_staff claim) →
      granted_row db (ro_id r) k allowed → entitled db user branch claim k allowed
  | en_outsider k :
      (∀ row, ¬ member db user branch row) → by_default (role_or_staff claim) k → entitled db user branch claim k true.

(** Who the user is: a branch's active member, else the owner of a restaurant, else nobody
    in particular: branch, restaurant, owner and role. *)
Definition at_work (db : auth_db) (user : string) (row : branch_user) (s : sub_branch) : Prop :=
  row ∈ branch_users db ∧ bu_user row = user ∧ bu_active row = true ∧ s ∈ sub_branches db ∧ sb_id s = bu_branch row.
Definition named_role (db : auth_db) (row : branch_user) (role : string) : Prop :=
  (∃ r, r ∈ roles db ∧ bu_role_id row = Some (ro_id r) ∧ role = ro_name r) ∨
  role = bu_role row ∧ ∀ r, r ∈ roles db → bu_role_id row ≠ Some (ro_id r).
Inductive identity (db : auth_db) (user : string) : option string * option string * option string * string → Prop :=
  | id_member row s role : at_work db user row s → named_role db row role →
      identity db user (Some (bu_branch row), sb_restaurant s, Some (bu_owner row), role)
  | id_owner rs branch : (∀ row s, ¬ at_work db user row s) → rs ∈ restaurants db → rs_owner rs = user →
      (∀ b, branch = Some b → ∃ s, s ∈ sub_branches db ∧ sb_id s = b ∧ sb_restaurant s = Some (rs_id rs) ∧ sb_main s = true) →
      identity db user (branch, Some (rs_id rs), Some user, "owner"%string)
  | id_nobody : (∀ row s, ¬ at_work db user row s) → (∀ rs, rs ∈ restaurants db → rs_owner rs ≠ user) →
      identity db user (None, None, None, "owner"%string).
Definition claimed (u : user_context) := (u_branch u, u_restaurant u, u_owner u, u_role u).

Lemma find_elem {A} (f : A → bool) l x : find f l = Some x → x ∈ l ∧ f x = true.
Proof. intros [H1 H2]%find_some. by rewrite list_elem_of_In. Qed.
Lemma find_elem_none {A} (f : A → bool) l x : find f l = None → x ∈ l → f x = false.
Proof. intros H Hx. apply (find_none f l H). by apply list_elem_of_In. Qed.

Lemma dict_set_in {A} k (v : A) m kv : kv ∈ dict_set k v m → kv = (k, v) ∨ kv ∈ m.
Proof. induction m as [|x m IH]; cbn; [set_solver|]. case_bool_decide; set_solver. Qed.

Lemma fallback_entry r n b k d : (k, d) ∈ fallback_map r n b → by_default r k ∧ dt_allowed d = true.
Proof.
  unfold fallback_map. destruct (dict_get r _fallback_permissions) as [ks|] eqn:E; cbn; [|by intros ?%elem_of_nil].
  apply dict_get_in in E. intros H. assert (k ∈ ks ∧ dt_allowed d = true) as [Hk Hd]; [|split; [by exists ks|done]]. revert H.
  assert (∀ m, (∀ k d, (k, d) ∈ m → k ∈ ks ∧ dt_allowed d = true) → ∀ l, l ⊆ ks →
    (k, d) ∈ foldl (λ m k, dict_set k {| dt_allowed := true; dt_meta := fallback_meta r k; dt_role_id := None; dt_role_name := n; dt_branch := b |} m) m l →
    k ∈ ks ∧ dt_allowed d = true) as Hf; [|by apply Hf; [intros ? ? ?%elem_of_nil|]].
  intros m Hm l. revert m Hm. induction l as [|x l IH]; intros m Hm Hl; cbn; [by apply Hm|]. apply IH; [|set_solver].
  intros k' d' [[= -> ->]|H]%dict_set_in; [split; [set_solver|done]|by apply Hm].
Qed.

Lemma newest_row_spec l row : newest_row l = Some row → row ∈ l ∧ ∀ other, other ∈ l → bu_created_at other <= bu_created_at row.
Proof.
  unfold newest_row. match goal with |- context [foldl ?g] => set (f := g) end. assert (∀ acc, foldl f acc l = Some row →
    (row ∈ l ∨ acc = Some row) ∧ (∀ o, o ∈ l → bu_created_at o <= bu_created_at row) ∧ (∀ x, acc = Some x → bu_created_at x <= bu_created_at row)) as H.
  { induction l as [|x l IH]; intros acc H; cbn in H.
    - subst acc. split_and!; [by right|by intros ? ?%elem_of_nil|]. by intros ? [= <-].
    - destruct (IH _ H) as (H1 & H2 & H3). assert (bu_created_at x <= bu_created_at row ∧ (∀ y, acc = Some y → bu_created_at y <= bu_created_at row) ∧
        (f acc x = Some row → row = x ∨ acc = Some row)) as (A1 & A2 & A3).
      { revert H3. unfold f. destruct acc as [y|]; [|naive_solver]. destruct (Z.ltb_spec (bu_created_at y) (bu_created_at x)); intros H3;
          specialize (H3 _ eq_refl); split_and!; try lia; try (intros ? [= <-]; lia); naive_solver. }
      split_and!; [destruct H1 as [H1|H1%A3]; [left; by right|destruct H1 as [->|H1]; [left; by left|by right]]| |done].
      intros o [->|Ho]%elem_of_cons; [done|by apply H2]. }
  intros (H1 & H2 & _)%H. split; [by destruct H1|done].
Qed.

Lemma newest_row_none l : newest_row l = None → l = [].
Proof.
  destruct l as [|x l]; [done|]. unfold newest_row. cbn. intros H. exfalso. revert x H. induction l as [|y l IH]; intros x; cbn; [done|].
  destruct (_ <? _); apply IH.
Qed.

Lemma own_row_member u db row : own_row u db = Some row → newest_member db (u_id u) (u_branch u) row.
Proof.
  unfold own_row. intros [H Hm]%newest_row_spec. assert (∀ x, member db (u_id u) (u_branch u) x ↔ 
    x ∈ filter (λ b, bu_user b = u_id u ∧ bu_active b = true ∧ (u_branch u = None ∨ u_branch u = Some (bu_branch b))) (branch_users db)) as E.
  { intros x. rewrite list_elem_of_filter. unfold member. naive_solver. }
  split; [by apply E|]. intros o Ho. by apply Hm, E.
Qed.
Lemma own_row_none u db row : own_row u db = None → ¬ member db (u_id u) (u_branch u) row.
Proof.
  unfold own_row. intros H%newest_row_none (H1 & H2 & H3 & H4).
  assert (row ∈ filter (λ b, bu_user b = u_id u ∧ bu_active b = true ∧ (u_branch u = None ∨ u_branch u = Some (bu_branch b))) (branch_users db)) as Hr
    by (apply list_elem_of_filter; naive_solver). rewrite H in Hr. by apply elem_of_nil in Hr.
Qed.

Section Entitlements.
Context (json_loads : string → option json).

Lemma role_map_entry r n b db k d : (k, d) ∈ role_map json_loads r n b db → granted_row db r k (dt_allowed d).
Proof.
  unfold role_map. set (l := filter _ (grants db)). assert (∀ g, g ∈ l → g ∈ grants db ∧ gr_role g = r) as Hl.
  { intros g. unfold l. rewrite list_elem_of_filter. naive_solver. }
  match goal with |- context [foldl ?g] => set (f := g) end. assert (∀ m, (∀ k d, (k, d) ∈ m → granted_row db r k (dt_allowed d)) → (k, d) ∈ foldl f m l → granted_row db r k (dt_allowed d)) as H;
    [|apply H; by intros ? ? ?%elem_of_nil].
  clearbody l. induction l as [|g l IH]; intros m Hm; cbn; [apply Hm|]. apply IH; [set_solver|]. intros k' d'. unfold f.
  destruct (find _ (permissions db)) as [p|] eqn:E; [|apply Hm]. intros [[= -> ->]|Hin]%dict_set_in; [|by apply Hm].
  apply find_elem in E as [Hp Eq%bool_decide_eq_true]. destruct (Hl g) as [Hg Hr]; [by left|]. by exists g, p.
Qed.

(** Every entry of a loaded map is something the tables say, and only a member's map is
    kept. *)
Lemma load_entitled u db k d :
  (k, d) ∈ (load_from_db json_loads u db).1 → entitled db (u_id u) (u_branch u) (u_role u) k (dt_allowed d).
Proof.
  unfold load_from_db. destruct (own_row u db) as [row|] eqn:Er.
  - apply own_row_member in Er. destruct (_ && _ && _); [by intros ?%elem_of_nil|]. destruct (bu_role_id row) as [r|] eqn:Ei.
    + intros H%role_map_entry. by eapply en_role.
    + intros [H ->]%fallback_entry. eapply en_default; [done|done|]. revert H. cbn. by destruct (decide (bu_role row = EmptyString)).
  - pose proof (λ row, own_row_none u db row Er) as Hn. destruct (_ ≫= _) as [r|] eqn:Eb.
    + destruct (u_branch u) as [b|] eqn:Eu; [|done]. cbn in Eb. apply find_elem in Eb as [Hr [Eb%bool_decide_eq_true En%bool_decide_eq_true]%andb_true_iff].
      intros H%role_map_entry. rewrite <-Eu in Hn |- *. eapply en_named; [done|done|by rewrite Eu, Eb|done|done].
    + intros [H ->]%fallback_entry. by apply en_outsider.
Qed.
Lemma load_kept u db m : load_from_db json_loads u db = (m, true) → ∃ row, member db (u_id u) (u_branch u) row.
Proof.
  unfold load_from_db. destruct (own_row u db) as [row|] eqn:Er; [|by destruct (_ ≫= _)].
  intros _. apply own_row_member in Er as [Er _]. by exists row.
Qed.
End Entitlements.

Lemma resolve_identity user email db : u_id (_resolve_user_context user email db) = user ∧ identity db user (claimed (_resolve_user_context user email db)).
Proof.
  unfold _resolve_user_context. set (l := filter _ (branch_users db)).
  assert (∀ row, row ∈ l ↔ ∃ s, at_work db user row s) as El.
  { intros row. unfold l, at_work. rewrite list_elem_of_filter, existsb_exists. setoid_rewrite <-list_elem_of_In. setoid_rewrite bool_decide_eq_true. naive_solver. }
  clearbody l. destruct l as [|row l]; cbn [head].
  - assert (∀ row s, ¬ at_work db user row s) as Hn by (intros row s Hr; assert (row ∈ []) as H by (apply El; by exists s); by apply elem_of_nil in H).
    destruct (find _ (restaurants db)) as [rs|] eqn:E; cbn.
    + apply find_elem in E as [Hr Ho%bool_decide_eq_true]. split; [done|]. apply id_owner; [done..|]. intros b Hb.
      apply fmap_Some in Hb as (s & Hs & ->). apply find_elem in Hs as [Hs [H1%bool_decide_eq_true H2]%andb_true_iff]. by exists s.
    + split; [done|]. apply id_nobody; [done|]. intros rs Hr Ho. apply (find_elem_none _ _ _ E) in Hr. by apply bool_decide_eq_false in Hr.
  - destruct (proj1 (El row)) as (s & Hw); [by left|]. split; [done|]. unfold claimed. cbn. destruct Hw as (H1 & H2 & H3 & H4 & H5).
    destruct (find (λ s, bool_decide (sb_id s = bu_branch row)) (sub_branches db)) as [s'|] eqn:Es.
    2: { apply (find_elem_none _ _ _ Es) in H4. by apply bool_decide_eq_false in H4. }
    apply find_elem in Es as [Hs' Es%bool_decide_eq_true]. cbn. apply id_member; [by repeat split|].
    destruct (bu_role_id row) as [i|] eqn:Ei; cbn; [|right; split; [done|by rewrite Ei]].
    unfold find_role. destruct (find _ (roles db)) as [r|] eqn:Er; cbn.
    + left. apply find_elem in Er as [Hr Er%bool_decide_eq_true]. exists r. by rewrite Ei, Er.
    + right. split; [done|]. intros r Hr. rewrite Ei. intros [= ->]. apply (find_elem_none _ _ _ Er) in Hr. by apply bool_decide_eq_false in Hr.
Qed.

(** ** Cache keys

    The keys of two branches differ as long as a branch's id has no colon in it and is not
    the word "none": ids are UUIDs. *)
Definition branch_id (b : string) : Prop := ":"%char ∉ chars b ∧ b ≠ ""%string ∧ b ≠ "none"%string.
Definition in_branch (u : user_context) : Prop := ∀ b, u_branch u = Some b → branch_id b.
Definition branch_ids (db : auth_db) : Prop :=
  (∀ row, row ∈ branch_users db → branch_id (bu_branch row)) ∧ (∀ s, s ∈ sub_branches db → branch_id (sb_id s)).

Lemma last_colon {A} (c : A) a b x y : c ∉ x → c ∉ y → a ++ c :: x = b ++ c :: y → a = b ∧ x = y.
Proof.
  intros Hx Hy. revert b. induction a as [|d a IH]; intros [|e b]; cbn; [by intros [= ->]|intros [= <- ->]; set_solver|intros [= -> <-]; set_solver|intros [= <- H]].
  destruct (IH b) as [-> ->]; done.
Qed.

Lemma cache_key_inj user user' branch branch' :
  (∀ b, branch = Some b → branch_id b) → (∀ b, branch' = Some b → branch_id b) →
  cache_key user branch = cache_key user' branch' → user = user' ∧ branch = branch'.
Proof.
  intros H1 H2 E. assert (∀ o : option string, (∀ b, o = Some b → branch_id b) → ":"%char ∉ chars (str_or o "none")) as Hc.
  { intros [b|] Hb; [|vm_compute; set_solver]. destruct (Hb b eq_refl) as (? & Hne & _). cbn. by rewrite decide_False. }
  unfold cache_key in E. apply (f_equal chars) in E. rewrite !chars_app in E. apply app_inv_head in E.
  apply (last_colon ":"%char (chars user) (chars user')) in E as [E1 E2]; [|by apply Hc..].
  split; [by rewrite <-(of_chars_chars user), <-(of_chars_chars user'), E1|].
  apply (f_equal of_chars) in E2. rewrite !of_chars_chars in E2.
  destruct branch as [b|], branch' as [b'|]; cbn in E2; try (destruct (H1 _ eq_refl) as (_ & ? & ?)); try (destruct (H2 _ eq_refl) as (_ & ? & ?));
    rewrite ?decide_False in E2 by done; congruence.
Qed.

Lemma identity_in_branch db user u : branch_ids db → identity db user (claimed u) → in_branch u.
Proof.
  intros [B1 B2] H b Hb. remember (claimed u) as x eqn:Ex. unfold claimed in Ex. rewrite Hb in Ex.
  destruct H as [row s role (Hin & _) _|rs branch _ _ _ Hbr|]; [|..|done].
  - injection Ex as <- _ _ _. by apply B1.
  - injection Ex as -> _ _ _. destruct (Hbr b eq_refl) as (s & Hs & <- & _). by apply B2.
Qed.

(** ** A running system *)

Section Running.
Context (json_loads : string → option json) (set_order : list string → list string).
Context (unverified_alg : string → option (option string)) (jwt_decode : string → string → decoded).

(** The contexts for which a worker loads maps: any at all, or those of well-named
    branches. *)
Context (ok : user_context → Prop).

Record world := { w_now : Z; w_db : auth_db; w_caches : caches }.
Definition with_caches (w : world) (c : caches) : world := {| w_now := w_now w; w_db := w_db w; w_caches := c |}.

(** What moves the caches: loading a map, resolving a user, an invalidation, and entries
    that are evicted or vanish with their process. *)
Inductive act : world → world → Prop :=
  | act_load wk u a w : ok u →
      act w (with_caches w (_load_permission_map json_loads wk u (w_now w) a (w_db w) (w_caches w)).1)
  | act_user token a w :
      act w (with_caches w (get_current_user unverified_alg jwt_decode token (w_now w) a (w_db w) (w_caches w)).1)
  | act_invalidate wk user branch a w : act w (with_caches w (_invalidate_auth_cache wk user branch a (w_caches w)))
  | act_forget c w :
      local c ⊆ local (w_caches w) → redis_perms c ⊆ redis_perms (w_caches w) → redis_users c ⊆ redis_users (w_caches w) →
      act w (with_caches w c).

(** A history: the instants at which the clock or the database moved, newest first. *)
Inductive reached : list (Z * auth_db) → world → Prop :=
  | reached_start t db : reached [(t, db)] {| w_now := t; w_db := db; w_caches := no_caches |}
  | reached_later h w t db : reached h w → w_now w <= t →
      reached ((t, db) :: h) {| w_now := t; w_db := db; w_caches := w_caches w |}
  | reached_act h w w' : reached h w → act w w' → reached h w'.

(** What the database of the history said since an instant, for a cache key and for a
    user. *)
Definition map_at (h : list (Z * auth_db)) (since : Z) (k : string) (m : permission_map) : Prop :=
  ∃ t db u, (t, db) ∈ h ∧ since <= t ∧ ok u ∧ cache_key (u_id u) (u_branch u) = k ∧ load_from_db json_loads u db = (m, true).
Definition user_at (h : list (Z * auth_db)) (since : Z) (user : string) (u : user_context) : Prop :=
  ∃ t db email, (t, db) ∈ h ∧ since <= t ∧ u = _resolve_user_context user email db.

Record backed (h : list (Z * auth_db)) (c : caches) : Prop := {
  bk_local wk k exp m : local c !! (wk, k) = Some (exp, m) → map_at h (exp - _LOCAL_TTL - CACHE_TTL) k m;
  bk_redis k exp m : redis_perms c !! k = Some (exp, m) → map_at h (exp - CACHE_TTL) k m;
  bk_users user exp u : redis_users c !! user = Some (exp, u) → user_at h (exp - CACHE_TTL) user u;
}.

Lemma map_at_mono h since since' k m : since' <= since → map_at h since k m → map_at h since' k m.
Proof. intros Hle (t & db & u & Hin & Ht & Hr). exists t, db, u. split; [done|]. split; [lia|done]. Qed.

Lemma backed_grow h x c : backed h c → backed (x :: h) c.
Proof.
  intros [H1 H2 H3]. split; intros *.
  - intros (t & db & u & Hin & Hr)%H1. exists t, db, u. split; [by right|done].
  - intros (t & db & u & Hin & Hr)%H2. exists t, db, u. split; [by right|done].
  - intros (t & db & em & Hin & Hr)%H3. exists t, db, em. split; [by right|done].
Qed.

Lemma backed_set_local h wk k exp m c : map_at h (exp - _LOCAL_TTL - CACHE_TTL) k m → backed h c → backed h (set_local wk k (exp, m) c).
Proof.
  intros Hm [H1 H2 H3]. split; [|exact H2|exact H3]. intros wk' k' exp' m' Hl. cbn in Hl.
  destruct (decide ((wk, k) = (wk', k'))) as [[= <- <-]|Hne].
  - rewrite lookup_insert_eq in Hl. by injection Hl as <- <-.
  - rewrite lookup_insert_ne in Hl by done. by eapply H1.
Qed.

Lemma backed_set_redis h k exp m c : map_at h (exp - CACHE_TTL) k m → backed h c → backed h (set_redis k (exp, m) c).
Proof.
  intros Hm [H1 H2 H3]. split; [exact H1| |exact H3]. intros k' exp' m' Hl. cbn in Hl.
  destruct (decide (k = k')) as [<-|Hne].
  - rewrite lookup_insert_eq in Hl. by injection Hl as <- <-.
  - rewrite lookup_insert_ne in Hl by done. by eapply H2.
Qed.

Lemma backed_set_user h k exp u c : user_at h (exp - CACHE_TTL) k u → backed h c → backed h (set_user k (exp, u) c).
Proof.
  intros Hm [H1 H2 H3]. split; [exact H1|exact H2|]. intros k' exp' m' Hl. cbn in Hl.
  destruct (decide (k = k')) as [<-|Hne].
  - rewrite lookup_insert_eq in Hl. by injection Hl as <- <-.
  - rewrite lookup_insert_ne in Hl by done. by eapply H3.
Qed.

Lemma live_Some {A} now (e : option (Z * A)) a : live now e = Some a → ∃ exp, e = Some (exp, a) ∧ now < exp.
Proof. destruct e as [[exp a']|]; cbn; [|done]. destruct (Z.ltb_spec now exp); [|done]. intros [= ->]. by exists exp. Qed.

(** Loading: the map comes from a cache, which got it in the last ten minutes, from the
    database now, or, with the database down, from the fallback table. *)
Lemma load_backed h wk u now a db c :
  backed h c → (now, db) ∈ h →
  let r := _load_permission_map json_loads wk u now a db c in
  (ok u → backed h r.1) ∧
  (map_at h (now - _LOCAL_TTL - CACHE_TTL) (cache_key (u_id u) (u_branch u)) r.2 ∨
   r.2 = (load_from_db json_loads u db).1 ∨ db_up a = false ∧ r.2 = fallback_map (role_or_staff (u_role u)) None None).
Proof.
  intros Hb Hin. cbn zeta. unfold _load_permission_map. set (k := cache_key (u_id u) (u_branch u)).
  assert (0 < _LOCAL_TTL ∧ 0 < CACHE_TTL) as [Hl Hc] by done.
  destruct (live now (local c !! (wk, k))) as [m|] eqn:E1.
  { apply live_Some in E1 as (exp & He & Hexp). split; [done|left]. eapply map_at_mono; [|by eapply bk_local]. lia. }
  destruct (if redis_reads a then _ else _) as [m|] eqn:E2.
  { destruct (redis_reads a); [|done]. apply live_Some in E2 as (exp & He & Hexp).
    assert (map_at h (now - CACHE_TTL) k m) as Hm by (eapply map_at_mono; [|by eapply bk_redis]; lia).
    split; [|left; eapply map_at_mono; [|exact Hm]; lia]. intros _. apply backed_set_local; [|done]. eapply map_at_mono; [|exact Hm]. lia. }
  destruct (db_up a); [|by split; [|right; right]]. destruct (load_from_db json_loads u db) as [m keep] eqn:El. cbn [fst].
  destruct keep; cbn; [|by split; [|right; left]]. split; [|by right; left]. intros Hok.
  assert (map_at h now k m) as Hnow by (exists now, db, u; split_and!; done || lia).
  apply backed_set_local; [eapply map_at_mono; [|exact Hnow]; lia|]. destruct (redis_writes a); [|done].
  apply backed_set_redis; [eapply map_at_mono; [|exact Hnow]; lia|done].
Qed.

Lemma user_backed h token now a db c :
  backed h c → (now, db) ∈ h →
  let r := get_current_user unverified_alg jwt_decode token now a db c in
  backed h r.1 ∧
  (∀ u ten, r.2 = Ok (u, ten) → ∃ user email, authenticated unverified_alg jwt_decode token = Ok (user, email) ∧
     ten = tenant u ∧
     (user_at h (now - CACHE_TTL) user u ∨ db_up a = false ∧ u = bare_context user email)).
Proof.
  intros Hb Hin. cbn zeta. unfold get_current_user.
  destruct (authenticated _ _ _) as [[user email]|e] eqn:Ea; [|by split]. 
  assert (user_at h now user (_resolve_user_context user email db)) as Hnow by (exists now, db, email; split_and!; done || lia).
  assert (0 < CACHE_TTL) as Hc by done.
  destruct (if redis_reads a then _ else _) as [u|] eqn:E2.
  { destruct (redis_reads a); [|done]. apply live_Some in E2 as (exp & He & Hexp). split; [done|]. cbn.
    intros u' ten [= <- <-]. exists user, email. split_and!; [done..|left].
    destruct (bk_users _ _ Hb _ _ _ He) as (t & db' & em & H1 & H2 & H3). exists t, db', em. split_and!; [done|lia|done]. }
  destruct (db_up a); cbn.
  - split.
    + destruct (redis_writes a); [|done]. apply backed_set_user; [|done]. by replace (now + CACHE_TTL - CACHE_TTL) with now by lia.
    + intros u' ten [= <- <-]. exists user, email. split_and!; [done..|left].
      destruct Hnow as (t & db' & em & H1 & H2 & H3). exists t, db', em. split_and!; [done|lia|done].
  - split; [done|]. intros u' ten [= <- <-]. exists user, email. split_and!; [done..|by right].
Qed.

Lemma backed_shrink h c c' : local c' ⊆ local c → redis_perms c' ⊆ redis_perms c → redis_users c' ⊆ redis_users c → backed h c → backed h c'.
Proof.
  intros S1 S2 S3 [H1 H2 H3]. split; intros *.
  - intros H. eapply H1. by eapply lookup_weaken.
  - intros H. eapply H2. by eapply lookup_weaken.
  - intros H. eapply H3. by eapply lookup_weaken.
Qed.

Lemma reached_backed h w : reached h w → backed h (w_caches w) ∧ (w_now w, w_db w) ∈ h ∧ Forall (λ x, x.1 <= w_now w) h.
Proof.
  induction 1 as [t db|h w t db _ (Hb & _ & Hle) Ht|h w w' _ (Hb & Hin & Hle) Hact]; cbn.
  - split; [|split; [by left|by repeat constructor]]. split; intros *; cbn; by rewrite lookup_empty.
  - split; [by apply backed_grow|]. split; [by left|]. constructor; [done|]. eapply Forall_impl; [exact Hle|]. cbn. lia.
  - destruct Hact as [wk u a w Hok|token a w|wk user branch a w|c w S1 S2 S3]; cbn; split; try done.
    + by apply load_backed.
    + by apply user_backed.
    + eapply backed_shrink; [..|exact Hb]; cbn; [apply delete_subseteq|destruct (redis_writes a); [apply delete_subseteq|done]..].
    + by eapply backed_shrink.
Qed.

(** ** Theorems *)

(** An invalidation takes effect at once: after the user's caches are invalidated on a
    worker, with Redis and the database answering, the next request of that user there is
    decided by what the database says now, whatever was cached before. *)
Theorem invalidation_takes_effect permission wk token user branch email now a a' db c :
  redis_writes a = true → db_up a' = true → authenticated unverified_alg jwt_decode token = Ok (user, email) →
  let u := _resolve_user_context user email db in
  u_branch u = branch →
  let d := decision set_order u (load_from_db json_loads u db).1 permission in
  (require_permission json_loads set_order unverified_alg jwt_decode permission wk token now a' db
     (_invalidate_auth_cache wk user branch a c)).2 =
  if pd_allowed d then Ok (with_decision u d) else Err (ForbiddenError "Permission denied: ").
Proof.
  intros Hw Hdb Ha u Hbr d. unfold require_permission, get_current_user. rewrite Ha.
  unfold _invalidate_auth_cache at 1, invalidate_user_cache at 1. cbn [redis_users]. rewrite Hw, lookup_delete_eq.
  assert ((if redis_reads a' then live now (@None (Z * user_context)) else None) = None) as -> by (by destruct (redis_reads a')).
  rewrite Hdb. fold u. unfold check_permission.
  assert (u_id u = user) as Hid.
  { unfold u, _resolve_user_context. destruct (head _); [done|]. by destruct (find _ _). }
  destruct (_load_permission_map json_loads wk u now a' db _) as [c2 m] eqn:El.
  assert (m = (load_from_db json_loads u db).1) as ->; [|by unfold d].
  apply (f_equal snd) in El. cbn in El. rewrite <-El. clear El. unfold _load_permission_map. rewrite Hid, Hbr, Hdb.
  assert (∀ x, local (if redis_writes a' then set_user user x (_invalidate_auth_cache wk user branch a c)
                      else _invalidate_auth_cache wk user branch a c) !! (wk, cache_key user branch) = None) as ->
    by (intros x; destruct (redis_writes a'); cbn; apply lookup_delete_eq).
  assert (∀ x, redis_perms (if redis_writes a' then set_user user x (_invalidate_auth_cache wk user branch a c)
                      else _invalidate_auth_cache wk user branch a c) !! cache_key user branch = None) as ->
    by (intros x; destruct (redis_writes a'); cbn; rewrite Hw; apply lookup_delete_eq).
  cbn [live]. assert ((if redis_reads a' then @None permission_map else None) = None) as -> by (by destruct (redis_reads a')).
  by destruct (load_from_db json_loads u db) as [m' []].
Qed.

(** C37: every permission map is well formed: whatever a worker or Redis holds, and whatever
    a load returns, has each key once and in its normal spelling (no case, colon or
    surrounding space), which is the spelling a decision looks up. *)
Theorem maps_are_typed h w :
  reached h w →
  (∀ wk k exp m, local (w_caches w) !! (wk, k) = Some (exp, m) → typed m) ∧
  (∀ k exp m, redis_perms (w_caches w) !! k = Some (exp, m) → typed m) ∧
  (∀ wk u a, typed (_load_permission_map json_loads wk u (w_now w) a (w_db w) (w_caches w)).2) ∧
  (∀ permission_key, Forall (λ key, _norm key = key) (_aliases permission_key)).
Proof.
  intros (Hb & Hin & _)%reached_backed.
  assert (∀ since k m, map_at h since k m → typed m) as Hat.
  { intros since k m (t & db & u & _ & _ & _ & _ & E). apply (f_equal fst) in E. cbn in E. subst m. apply load_from_db_typed. }
  split_and!.
  - intros wk k exp m H. eapply Hat. by eapply bk_local.
  - intros k exp m H. eapply Hat. by eapply bk_redis.
  - intros wk u a. destruct (load_backed h wk u (w_now w) a _ _ Hb Hin) as [_ [H|[->|[_ ->]]]]; [by eapply Hat|apply load_from_db_typed|apply fallback_typed].
  - apply aliases_normal.
Qed.
End Running.

(** An entry that lets a permission pass: an allowed one for an alias, or any for the
    wildcard of one. *)
Definition passes (permission : string) (k : string) (allowed : bool) : Prop :=
  ∃ key, key ∈ _aliases permission ∧ (k = key ∧ allowed = true ∨ k = wildcard key).

Lemma permits_passes m permission :
  permits_any m permission = true → ∃ k d, (k, d) ∈ m ∧ passes permission k (dt_allowed d).
Proof.
  unfold permits_any. rewrite existsb_exists. intros (key & Hk%list_elem_of_In & H). unfold permits in H. apply orb_true_iff in H as [H|H].
  - destruct (dict_get key m) as [d|] eqn:E; [|done]. apply dict_get_in in E. exists key, d. split; [done|]. exists key. auto.
  - apply bool_decide_eq_true, list_elem_of_fmap in H as ([k d] & Hw & Hx). exists k, d. split; [done|]. exists key. auto.
Qed.

Section Gate.
Context (json_loads : string → option json) (set_order : list string → list string).
Context (unverified_alg : string → option (option string)) (jwt_decode : string → string → decoded).
Let reached := reached json_loads unverified_alg jwt_decode in_branch.

(** What a gate has let through, within the history: *)
Record was_granted (h : list (Z * auth_db)) (w : world) (a : avail) (permission : string) (u : user_context) : Prop := {
  wg_identity :
    (∃ t db, (t, db) ∈ h ∧ w_now w - CACHE_TTL <= t ∧ identity db (u_id u) (claimed u)) ∨
    db_up a = false ∧ claimed u = (None, None, None, "owner"%string);
  wg_grant : ∃ k allowed, passes permission k allowed ∧
    ((∃ t db claim row, (t, db) ∈ h ∧ w_now w - _LOCAL_TTL - CACHE_TTL <= t ∧
        member db (u_id u) (u_branch u) row ∧ entitled db (u_id u) (u_branch u) claim k allowed) ∨
     entitled (w_db w) (u_id u) (u_branch u) (u_role u) k allowed ∨
     db_up a = false ∧ by_default (role_or_staff (u_role u)) k)
}.

(** C9: no request passes a gate without a grant: when an endpoint guarded by a permission
    runs, its token proves the user; the user's branch, restaurant, owner and role are what
    the rows of the database said of that user within the last five minutes; and a row that
    lets the permission or one of its aliases pass was granted to that very user in that
    very branch: by the role of an active membership of the branch, within the last ten
    minutes, or, without a membership, by the branch's role of the caller's name or the
    defaults, now.  With the database down, a context or map that no cache holds is the
    default one.  (Branch ids have no colon and are not "none": they are UUIDs.) *)
Theorem guarded_request_was_granted h w permission wk token a c' u :
  (∀ l, set_order l ≡ₚ l) → (∀ t db, (t, db) ∈ h → branch_ids db) → reached h w →
  require_permission json_loads set_order unverified_alg jwt_decode permission wk token (w_now w) a (w_db w) (w_caches w) = (c', Ok u) →
  (∃ email, authenticated unverified_alg jwt_decode token = Ok (u_id u, email)) ∧ was_granted h w a permission u.
Proof.
  intros Hord Hids (Hb & Hin & _)%reached_backed E. unfold require_permission in E.
  pose proof (user_backed json_loads unverified_alg jwt_decode in_branch h token (w_now w) a (w_db w) (w_caches w) Hb Hin) as [Hb1 Hu].
  destruct (get_current_user _ _ token _ a _ _) as [c1 [[u0 ten]|e]]; [|done]. cbn in Hb1, Hu.
  destruct (Hu u0 ten eq_refl) as (user & email & Ha & _ & Hat). clear Hu.
  assert (u_id u0 = user ∧ ((∃ t db, (t, db) ∈ h ∧ w_now w - CACHE_TTL <= t ∧ identity db user (claimed u0)) ∨
            db_up a = false ∧ claimed u0 = (None, None, None, "owner"%string))) as [Hid Hwho].
  { destruct Hat as [(t & db & em & Ht & Hs & ->)|[Hd ->]]; [|by split; [|right]].
    destruct (resolve_identity user em db) as [-> Hr]. split; [done|left]. by exists t, db. }
  assert (in_branch u0) as Hbr.
  { destruct Hwho as [(t & db & Ht & _ & Hr)|[_ Hr]]; [by eapply identity_in_branch; [eapply Hids|]|].
    intros b Hub. unfold claimed in Hr. rewrite Hub in Hr. discriminate. }
  unfold check_permission in E. pose proof (load_backed json_loads in_branch h wk u0 (w_now w) a (w_db w) c1 Hb1 Hin) as [_ Hm].
  destruct (_load_permission_map json_loads wk u0 (w_now w) a (w_db w) c1) as [c2 m]. cbn in Hm.
  pose proof (decision_spec set_order Hord u0 m permission) as [Hd _].
  destruct (pd_allowed (decision set_order u0 m permission)); [|done]. injection E as <- <-.
  split; [exists email; cbn; by rewrite Hid|]. split; [by rewrite <-Hid in Hwho|]. cbn [with_decision u_id u_branch u_role].
  symmetry in Hd. apply permits_passes in Hd as (k & d & Hk & Hp). exists k, (dt_allowed d). split; [done|].
  destruct Hm as [(t & db & u1 & Ht & Hs & Hok & Hkey & Hl)|[->|[Hdown ->]]].
  - left. apply cache_key_inj in Hkey as [E1 E2]; [|done..]. destruct (load_kept _ _ _ _ Hl) as [row Hrow].
    exists t, db, (u_role u1), row. rewrite <-E1, <-E2. split_and!; [done..|]. eapply load_entitled. by rewrite Hl.
  - right; left. by eapply load_entitled.
  - right; right. split; [done|]. by apply fallback_entry in Hk as [? _].
Qed.
End Gate.

(** C12: a permission check grants exactly what the map grants: a key is allowed if and only
    if the map holds an allowed entry for it or one of its aliases, or any entry for the
    wildcard of one; the order in which Python iterates the set of aliases does not matter,
    an allowed decision names an alias that is granted, a refused one the key itself, and
    the singular and plural spelling of a resource decide alike. *)
Theorem check_permission_exact json_loads set_order set_order' wk u key now a db c :
  (∀ l, set_order l ≡ₚ l) → (∀ l, set_order' l ≡ₚ l) →
  let m := (_load_permission_map json_loads wk u now a db c).2 in
  let d := (check_permission json_loads set_order wk u key now a db c).2 in
  pd_allowed d = permits_any m key ∧
  pd_allowed (check_permission json_loads set_order' wk u key now a db c).2 = permits_any m key ∧
  (if permits_any m key then pd_key d ∈ _aliases key ∧ permits m (pd_key d) = true else d = denied u (_norm key)) ∧
  (∀ p q x, (p, q) ∈ alias_pairs → _norm x = x → permits_any m (p ++ x) = permits_any m (q ++ x)).
Proof.
  intros Ho Ho' m d. unfold d, m, check_permission. destruct (_load_permission_map _ _ _ _ _ _ _) as [c' m'].
  cbn [snd]. destruct (decision_spec set_order Ho u m' key) as [H1 H2]. destruct (decision_spec set_order' Ho' u m' key) as [H3 _].
  split_and!; [done..|]. intros p q x. apply plural_agrees.
Qed.

(** ** A restaurant with two branches *)

Definition no_json (s : string) : option json := None.
Definition as_is (l : list string) : list string := l.
Definition hs256 (token : string) : option (option string) := Some None.
(** A token is the id of its user. *)
Definition names_user (alg token : string) : decoded := Claims (Some token) None.

Definition cashier_row (active : bool) : branch_user := {|
  bu_user := "asha"; bu_branch := "b1"; bu_owner := "meera"; bu_role := "cashier"; bu_role_id := Some "r1"; bu_active := active;
  bu_created_at := 0 |}.
Definition demo_db (active : bool) (granted : list grant) : auth_db := {|
  branch_users := [cashier_row active];
  sub_branches := [{| sb_id := "b1"; sb_restaurant := Some "cafe"; sb_main := true |}];
  restaurants := [{| rs_id := "cafe"; rs_owner := "meera" |}];
  roles := [{| ro_id := "r1"; ro_name := "Cashier"; ro_branch := "b1" |}];
  grants := granted;
  permissions := [("p1", "Orders:Read"); ("p2", "payment.refund"); ("p3", "payment.*")]%string;
  platform_admins := [] |}.
Definition grant_of (p : string) (allowed : bool) : grant := {| gr_role := "r1"; gr_permission := p; gr_allowed := allowed; gr_meta := RawNone |}.
Definition before : auth_db := demo_db true [grant_of "p1" true; grant_of "p2" true].
Definition after : auth_db := demo_db true [grant_of "p1" true].

Definition gate (permission : string) (wk : nat) (now : Z) (a : avail) (db : auth_db) (c : caches) : caches * res user_context :=
  require_permission no_json as_is hs256 names_user permission wk "asha" now a db c.
Definition warm : caches := (gate "payments.refund" 0 0 all_up before no_caches).1.
Definition everywhere : caches := (gate "order:read" 1 0 all_up before warm).1.
Definition dark : avail := {| db_up := false; redis_reads := false; redis_writes := false |}.

Example spelling_and_plural :
  map (λ k, is_ok (gate k 0 0 all_up before no_caches).2) ["order.read"; " Orders:READ "; "payments.refund"; "payment.create"]%string
  = [true; true; true; false].
Proof. vm_compute. reflexivity. Qed.

(** A wildcard row grants its resource even when it says [allowed = false]. *)
Example refused_wildcard_grants :
  is_ok (gate "payment.create" 0 0 all_up (demo_db true [grant_of "p3" false]) no_caches).2 = true.
Proof. vm_compute. reflexivity. Qed.

(** A database outage makes a cashier an owner. *)
Example outage_makes_owners :
  is_ok (gate "payout.create" 0 0 all_up before no_caches).2 = false ∧
  match (gate "payout.create" 0 0 dark before no_caches).2 with Ok u => u_role u | Err _ => ""%string end = "owner"%string.
Proof. vm_compute. split; reflexivity. Qed.

(** The invalidation reaches the worker it runs on: the others decide from their own copy. *)
Example other_workers_keep_their_copy :
  let c := _invalidate_auth_cache 0 "asha" (Some "b1"%string) all_up everywhere in
  (is_ok (gate "payment.refund" 0 1 all_up after c).2, is_ok (gate "payment.refund" 1 1 all_up after c).2) = (false, true).
Proof. vm_compute. reflexivity. Qed.

(** The owner of a restaurant has the platform's scope to review KYC; an unknown minimum
    role lets everyone pass. *)
Example owners_review_kyc :
  is_ok (require_scope "platform:kyc:review" (bare_context "asha" None) all_up before) = true ∧
  is_ok (require_min_role "supervisor" {| u_id := "asha"; u_email := None; u_role := "staff"; u_role_id := None; u_restaurant := None;
    u_branch := None; u_owner := None; u_is_branch_user := false; u_permission_key := None; u_permission_meta := [] |}) = true.
Proof. vm_compute. split; reflexivity. Qed.

Lemma as_is_perm l : as_is l ≡ₚ l.
Proof. done. Qed.

Definition demo_world (t : Z) (db : auth_db) (c : caches) : world := {| w_now := t; w_db := db; w_caches := c |}.

Lemma demo_started ok : reached no_json hs256 names_user ok [(0, before)] (demo_world 0 before no_caches).
Proof. apply reached_start. Qed.

Lemma demo_ids t db : (t, db) ∈ [(0, before)] → branch_ids db.
Proof.
  assert (branch_id "b1") as Hb by (split; [apply (bool_decide_unpack _); vm_compute; exact I|done]).
  intros [= -> ->]%list_elem_of_singleton. split; intros x ->%list_elem_of_singleton; exact Hb.
Qed.

(** A cashier's refund is let through by the row of her role, under the plural. *)
Lemma guarded_request_was_granted_witness :
  ∃ u, (gate "payments.refund" 0 0 all_up before no_caches).2 = Ok u ∧ u_branch u = Some "b1"%string ∧
    was_granted [(0, before)] (demo_world 0 before no_caches) all_up "payments.refund" u.
Proof.
  destruct (gate "payments.refund" 0 0 all_up before no_caches) as [c' [u|e]] eqn:E; [|vm_compute in E; discriminate].
  exists u. split; [reflexivity|]. split; [apply (f_equal snd) in E; vm_compute in E; injection E as <-; reflexivity|].
  exact (proj2 (guarded_request_was_granted no_json as_is hs256 names_user [(0, before)] (demo_world 0 before no_caches)
    "payments.refund" 0 "asha" all_up c' u as_is_perm demo_ids (demo_started in_branch) E)).
Defined.

Lemma invalidation_takes_effect_witness :
  (gate "payment.refund" 0 1 all_up after (_invalidate_auth_cache 0 "asha" (Some "b1"%string) all_up warm)).2
  = Err (ForbiddenError "Permission denied: ").
Proof.
  unfold gate. rewrite (invalidation_takes_effect no_json as_is hs256 names_user "payment.refund" 0 "asha" "asha" (Some "b1"%string)
    None 1 all_up all_up after warm); vm_compute; reflexivity.
Defined.

Lemma maps_are_typed_witness : typed (_load_permission_map no_json 0 (bare_context "asha" None) 0 all_up before no_caches).2.
Proof.
  destruct (maps_are_typed no_json hs256 names_user (λ _, True) [(0, before)] (demo_world 0 before no_caches) (demo_started _)) as (_ & _ & H & _).
  exact (H 0%nat (bare_context "asha" None) all_up).
Defined.

Lemma check_permission_exact_witness :
  pd_allowed (check_permission no_json as_is 0 (_resolve_user_context "asha" None before) "payments.refund" 0 all_up before no_caches).2 = true.
Proof.
  destruct (check_permission_exact no_json as_is as_is 0 (_resolve_user_context "asha" None before) "payments.refund" 0 all_up before no_caches
    as_is_perm as_is_perm) as [H _]. cbn zeta in H. rewrite H. vm_compute. reflexivity.
Defined.
