(* ===== verification/RouteTransfers.v ===== *)
(** Route transfers: [src/app/services/razorpay/route_service.py], the merchant's share of
    a captured payment sent to its linked account and taken back when the payment is
    refunded, with the tables of migrations 060, 068, 070 and 086.

    The gateway is a record of calls on a world [W] the service does not own; nothing is
    assumed of it except by a named hypothesis.  Each statement commits on its own, so an
    operation returns the state beside its outcome; [payment_lock] is the serialisation
    its sequences assume.  Money mutations go through [guarded_mutation] of RouteSafety.
    Amounts are integer paise and fit a BIGINT. *)

From Stdlib Require Import ZArith Lia Ascii String.
From S2P Require Import Prelude PyDecimal PyFloat PyValues FeePolicy RouteSafety.
Open Scope Z_scope.

(** ** Gateway entities *)

(** The [recipient] of a transfer entity: missing, an account id, or an object. *)
Inductive recipient := NoRecipient | Account (id : string) | AccountObject (id account : option string).

#[export] Instance recipient_eq_dec : EqDecision recipient.
Proof. solve_decision. Defined.

Record transfer := {
  t_id : string;
  t_recipient : recipient;
  t_recipient_account_id : option string;
  t_account : option string;
  t_amount : Z;
  t_currency : option string;
  t_status : option string;
  t_transfer_status : option string;
  t_amount_reversed : option Z;
  t_on_hold : bool;
  t_on_hold_until : option Z;
  t_fees : option Z;
  t_tax : option Z;
  t_processed_at : option Z;
  t_created_at : option Z;
  t_reversed_at : option Z;
  t_source : option string;
  t_razorpay_payment_id : option string;
  t_source_account_id : option string;
  t_recipient_settlement_id : option string;
  t_settlement_id : option string;
}.

Definition with_source (payment : string) (t : transfer) : transfer := {|
  t_id := t_id t; t_recipient := t_recipient t; t_recipient_account_id := t_recipient_account_id t; t_account := t_account t;
  t_amount := t_amount t; t_currency := t_currency t; t_status := t_status t; t_transfer_status := t_transfer_status t;
  t_amount_reversed := t_amount_reversed t; t_on_hold := t_on_hold t; t_on_hold_until := t_on_hold_until t; t_fees := t_fees t;
  t_tax := t_tax t; t_processed_at := t_processed_at t; t_created_at := t_created_at t; t_reversed_at := t_reversed_at t;
  t_source := Some payment; t_razorpay_payment_id := t_razorpay_payment_id t; t_source_account_id := t_source_account_id t;
  t_recipient_settlement_id := t_recipient_settlement_id t; t_settlement_id := t_settlement_id t |}.

(** [a or b] for optional strings and numbers. *)
Definition or_str (a b : option string) : option string := if str_truthy a then a else b.
Definition nonzero (z : option Z) : option Z := match z with Some 0 => None | _ => z end.
Definition or_num (a b : option Z) : option Z := match nonzero a with Some _ => a | None => b end.

(** [x.get("transfer_status") or x.get("status")] *)
Definition live_status (t : transfer) : option string := or_str (t_transfer_status t) (t_status t).
Definition not_failed (t : transfer) : bool := negb (bool_decide (live_status t = Some "failed"%string)).
Definition paid_to (account : string) (t : transfer) : bool := bool_decide (t_recipient t = Account account).

(** The bodies of the three mutations. *)
Record create_body := {
  cb_account : string; cb_amount : Z; cb_currency : string; cb_notes : list (string * string);
  cb_on_hold : bool; cb_on_hold_until : option Z }.
Inductive body :=
  | CreateBody (b : create_body)
  | RefundReversalBody (amount target : Z)
  | ReversalBody (amount : option Z) (notes : list (string * string)).

(** What a succeeded operation stores: the transfers of the reply, or a reversal. *)
Inductive reply := Transfers (items : list transfer) | Reversal.

(** [gw_create] takes the payment, the body and the idempotency key; [gw_reverse] the
    transfer, the amount (all of it when [None]) and the key. *)
Record gateway (W : Type) := {
  gw_payment_transfers : string → W → res (list transfer);
  gw_order_transfers : string → W → res (list transfer);
  gw_transfer : string → W → res transfer;
  gw_settled : string → nat → nat → W → res (list transfer);
  gw_create : string → create_body → string → W → W * res (list transfer);
  gw_reverse : string → option Z → string → W → W * res ();
}.
Arguments gw_payment_transfers {W}.
Arguments gw_order_transfers {W}.
Arguments gw_transfer {W}.
Arguments gw_settled {W}.
Arguments gw_create {W}.
Arguments gw_reverse {W}.

(** ** Tables *)

(** [rzp_route_accounts]: one linked account per merchant. *)
Record account := {
  ac_linked : string;
  ac_merchant : string;
  ac_status : string;
  ac_product : option string;
  ac_product_status : option string;
  ac_requested_at : option Z;
  ac_activated_at : option Z;
  ac_tnc_at : option Z;
}.

(** [rzp_payments], oldest first. *)
Record rzp_payment := {
  rp_id : string; rp_merchant : string; rp_amount : Z; rp_currency : string; rp_captured : bool;
  rp_order : option string; rp_internal_order : option string }.
Record rzp_refund := { rr_payment : string; rr_amount : Z; rr_status : string }.
(** A row of the join of [disputes] and [payments] the service sums. *)
Record lost_dispute := { ld_payment : string; ld_merchant : string; ld_paise : Z }.
Record allocation := { al_merchant : string; al_gross : Z; al_merchant_paise : Z; al_currency : string }.

(** [rzp_route_transfers] *)
Record mirror := {
  m_payment : string;
  m_source_account : option string;
  m_recipient : string;
  m_merchant : string;
  m_amount : Z;
  m_currency : string;
  m_on_hold : bool;
  m_on_hold_until : option Z;
  m_fee : option Z;
  m_tax : option Z;
  m_status : string;
  m_processed_at : option Z;
  m_reversed_at : option Z;
  m_restaurant : option string;
  m_internal_order : option string;
  m_order : option string;
  m_settlement : option string;
  m_refund : option string;
  m_reversal_of : option string;
}.

Record route_db := {
  accounts : list account;
  rzp_payments : list rzp_payment;
  rzp_refunds : list rzp_refund;
  lost_disputes : list lost_dispute;
  allocations : gmap string allocation;
  operations : gmap string (operation reply);
  mirrors : gmap string mirror;
}.

Definition with_accounts (db : route_db) (l : list account) : route_db := {|
  accounts := l; rzp_payments := rzp_payments db; rzp_refunds := rzp_refunds db; lost_disputes := lost_disputes db;
  allocations := allocations db; operations := operations db; mirrors := mirrors db |}.
Definition with_allocations (db : route_db) (m : gmap string allocation) : route_db := {|
  accounts := accounts db; rzp_payments := rzp_payments db; rzp_refunds := rzp_refunds db; lost_disputes := lost_disputes db;
  allocations := m; operations := operations db; mirrors := mirrors db |}.
Definition with_operations (db : route_db) (ops : gmap string (operation reply)) : route_db := {|
  accounts := accounts db; rzp_payments := rzp_payments db; rzp_refunds := rzp_refunds db; lost_disputes := lost_disputes db;
  allocations := allocations db; operations := ops; mirrors := mirrors db |}.
Definition with_mirrors (db : route_db) (m : gmap string mirror) : route_db := {|
  accounts := accounts db; rzp_payments := rzp_payments db; rzp_refunds := rzp_refunds db; lost_disputes := lost_disputes db;
  allocations := allocations db; operations := operations db; mirrors := m |}.

Definition _existing_account (merchant : string) (db : route_db) : option account :=
  find (λ a, bool_decide (ac_merchant a = merchant)) (accounts db).
(** [ORDER BY created_at DESC LIMIT 1] *)
Definition newest_payment (payment : string) (db : route_db) : option rzp_payment :=
  last (filter (λ p, rp_id p = payment) (rzp_payments db)).
Definition refunded_paise (payment : string) (db : route_db) : Z :=
  sum_where (λ r, bool_decide (rr_payment r = payment) && bool_decide (rr_status r = "processed"%string)) rr_amount (rzp_refunds db).
Definition lost_paise (payment merchant : string) (db : route_db) : Z :=
  sum_where (λ d, bool_decide (ld_payment d = payment) && bool_decide (ld_merchant d = merchant)) ld_paise (lost_disputes db).

(** ** Linked accounts *)

Definition _ACCOUNT_STATES : list string := ["created"; "activated"; "suspended"; "rejected"; "deleted"]%string.
Definition _TRANSFER_STATES : list string := ["created"; "processed"; "reversed"; "failed"]%string.
Definition _COMPANY_BUSINESS_TYPES : list string := ["private_limited"; "public_limited"; "llp"]%string.

Definition coerce_state (states : list string) (value : option string) : string :=
  let v := strip (lower (str_or value "")) in if str_mem v states then v else "created"%string.
Definition _coerce_account_state : option string → string := coerce_state _ACCOUNT_STATES.
Definition _coerce_transfer_state : option string → string := coerce_state _TRANSFER_STATES.

(** The default flags [director] and [executive]. *)
Definition _default_relationship_for (business_type : option string) : bool * bool :=
  if str_mem (lower (strip (str_or business_type ""))) _COMPANY_BUSINESS_TYPES then (true, true) else (false, true).

Definition is_digit (c : ascii) : bool := match digit_of c with Some _ => true | None => false end.
Definition digits_of (s : string) : list ascii := filter (λ c, is_digit c = true) (chars s).

Definition _normalize_phone (value : option string) : option string :=
  match value with
  | None => None
  | Some s =>
      let digits := digits_of s in
      if bool_decide (digits = []) then None
      else
        let rest := drop 2 digits in
        Some (of_chars (if (10 <? length digits)%nat && starts_with "91" (of_chars digits)
                           && (8 <=? length rest)%nat && (length rest <=? 15)%nat then rest else digits))
  end.
Definition _normalize_country (value : option string) : option string :=
  match value with
  | None => None
  | Some v =>
      let s := strip v in
      if bool_decide (s = ""%string) then None
      else if (length (chars s) =? 2)%nat then Some (upper s)
      else if bool_decide (lower s = "india"%string) then Some "IN"%string else Some (lower s)
  end.
Definition _last4 (account_number : option string) : option string :=
  if str_truthy account_number then
    let digits := digits_of (str_or account_number "") in
    if (4 <=? length digits)%nat then Some (of_chars (drop (length digits - 4) digits)) else None
  else None.

(** The onboarding state shown to the merchant. *)
Definition _derive_effective_status (a : option account) : string :=
  match a with
  | None => "pending"
  | Some a =>
      let prod := lower (str_or (ac_product_status a) "") in
      if bool_decide (ac_linked a = ""%string) then "pending"
      else if bool_decide (lower (ac_status a) = "suspended"%string) then "suspended"
      else if str_mem prod ["activated"; "rejected"; "needs_clarification"]%string then prod
      else "under_review"
  end%string.

(** The account the payment intent splits to. *)
Definition get_active_linked_account_id (merchant : option string) (db : route_db) : option string :=
  if negb (str_truthy merchant) then None
  else
    a ← _existing_account (str_or merchant "") db;
    if bool_decide (ac_linked a = ""%string) || bool_decide (lower (ac_status a) = "suspended"%string)
       || negb (bool_decide (lower (str_or (ac_product_status a) "") = "activated"%string))
    then None else Some (ac_linked a).

Definition not_ready (a : account) : bool :=
  str_mem (lower (ac_status a)) ["suspended"; "rejected"]%string
  || negb (bool_decide (lower (str_or (ac_product_status a) "") = "activated"%string)).
Definition assert_settlement_ready (merchant : option string) (db : route_db) : res () :=
  if negb (str_truthy merchant) then Err (PermissionError "merchant context required for Route payments")
  else match _existing_account (str_or merchant "") db with
       | Some a =>
           if bool_decide (ac_linked a = ""%string) then Err (PermissionError "merchant_not_settlement_ready: no Route linked account")
           else if not_ready a then Err (PermissionError "merchant_not_settlement_ready: linked_account_status=") else Ok ()
       | None => Err (PermissionError "merchant_not_settlement_ready: no Route linked account")
       end.

(** The identity and state columns of [upsert_linked_account_from_razorpay]: a known
    account keeps its merchant; the merchant column is unique. *)
Definition local_status (rzp_status : option string) : string :=
  let v := lower (str_or rzp_status "") in
  if str_mem v ["under_review"; "needs_clarification"]%string then "created"%string
  else if str_mem v ["activated"; "suspended"; "rejected"; "deleted"]%string then v
  else _coerce_account_state (if bool_decide (v = ""%string) then None else Some v).
Definition set_account_status (status : string) (a : account) : account := {|
  ac_linked := ac_linked a; ac_merchant := ac_merchant a; ac_status := status; ac_product := ac_product a;
  ac_product_status := ac_product_status a; ac_requested_at := ac_requested_at a; ac_activated_at := ac_activated_at a;
  ac_tnc_at := ac_tnc_at a |}.
Definition upsert_linked_account_from_razorpay (linked rzp_status merchant_override : option string) (db : route_db)
    : res (route_db * option account) :=
  if negb (str_truthy linked) then Ok (db, None)
  else
    let id := str_or linked "" in
    let bound := find (λ a, bool_decide (ac_linked a = id)) (accounts db) in
    let merchant := if str_truthy merchant_override then merchant_override else ac_merchant <$> bound in
    match merchant with
    | None => Ok (db, None)
    | Some m =>
        match bound with
        | Some a =>
            let a' := set_account_status (local_status rzp_status) a in
            Ok (with_accounts db (map (λ x, if bool_decide (ac_linked x = id) then set_account_status (local_status rzp_status) x else x) (accounts db)), Some a')
        | None =>
            let a := {| ac_linked := id; ac_merchant := m; ac_status := local_status rzp_status; ac_product := None;
                        ac_product_status := None; ac_requested_at := None; ac_activated_at := None; ac_tnc_at := None |} in
            _ ← raise_if (existsb (λ x, bool_decide (ac_merchant x = m)) (accounts db)) (UniqueViolationError "rzp_route_accounts_merchant_id_key");
            Ok (with_accounts db (accounts db ++ [a]), Some a)
        end
    end.

(** [_persist_product]; [now] is the instant of the statement. *)
Definition _persist_product (merchant : string) (product activation_status status : option string) (tnc mark_requested : bool)
    (now : Z) (db : route_db) : route_db :=
  if negb (str_truthy product) then db
  else
    let s := lower (str_or (or_str activation_status status) "") in
    let st := if bool_decide (s = ""%string) then None else Some s in
    with_accounts db (map (λ a, if bool_decide (ac_merchant a = merchant) then {|
      ac_linked := ac_linked a; ac_merchant := ac_merchant a; ac_status := ac_status a; ac_product := product;
      ac_product_status := coalesce st (ac_product_status a);
      ac_requested_at := if mark_requested then coalesce (ac_requested_at a) (Some now) else ac_requested_at a;
      ac_activated_at := if bool_decide (st = Some "activated"%string) then coalesce (ac_activated_at a) (Some now) else ac_activated_at a;
      ac_tnc_at := if tnc then coalesce (ac_tnc_at a) (Some now) else ac_tnc_at a |} else a) (accounts db)).

(** ** The mirror of a transfer *)

Definition platform_merchant : string := "00000000-0000-0000-0000-000000000000".

Definition recipient_of (t : transfer) : option string :=
  let first := match t_recipient t with
               | Account "" | AccountObject None None | NoRecipient => t_recipient_account_id t
               | Account s => Some s
               | AccountObject id account => or_str id account
               end in
  if negb (str_truthy first) && str_truthy (t_account t) then t_account t else first.

Definition _resolve_merchant_for_transfer (recipient : option string) (db : route_db) : option string :=
  if str_truthy recipient
  then ac_merchant <$> find (λ a, bool_decide (Some (ac_linked a) = recipient)) (accounts db) else None.

(** The row an INSERT would write. *)
Definition mirror_of (t : transfer) (merchant_override status_override refund reversal_of : option string) (recipient : string)
    (db : route_db) : mirror :=
  let merchant := default platform_merchant (if str_truthy merchant_override then merchant_override
                                             else _resolve_merchant_for_transfer (Some recipient) db) in
  let status := _coerce_transfer_state (or_str status_override (or_str (t_transfer_status t) (t_status t))) in
  let payment := str_or (or_str (t_source t) (t_razorpay_payment_id t)) "" in
  let ctx := if bool_decide (payment = ""%string) then None else newest_payment payment db in
  {| m_payment := payment; m_source_account := t_source_account_id t; m_recipient := recipient; m_merchant := merchant;
     m_amount := t_amount t; m_currency := str_or (t_currency t) "INR"; m_on_hold := t_on_hold t;
     m_on_hold_until := nonzero (t_on_hold_until t); m_fee := t_fees t; m_tax := t_tax t; m_status := status;
     m_processed_at := if bool_decide (status = "processed"%string) then nonzero (or_num (t_processed_at t) (t_created_at t)) else None;
     m_reversed_at := if bool_decide (status = "reversed"%string) then nonzero (t_reversed_at t) else None;
     m_restaurant := rp_merchant <$> ctx; m_internal_order := ctx ≫= rp_internal_order; m_order := ctx ≫= rp_order;
     m_settlement := or_str (t_recipient_settlement_id t) (t_settlement_id t); m_refund := refund; m_reversal_of := reversal_of |}.

(** [ON CONFLICT (transfer_id) DO UPDATE] *)
Definition merge_mirror (old new : mirror) : mirror := {|
  m_payment := m_payment new;
  m_source_account := coalesce (m_source_account new) (m_source_account old);
  m_recipient := m_recipient new;
  m_merchant := if bool_decide (m_merchant old = platform_merchant) then m_merchant new else m_merchant old;
  m_amount := m_amount new; m_currency := m_currency old; m_on_hold := m_on_hold new;
  m_on_hold_until := coalesce (m_on_hold_until new) (m_on_hold_until old);
  m_fee := coalesce (m_fee new) (m_fee old); m_tax := coalesce (m_tax new) (m_tax old);
  m_status := m_status new;
  m_processed_at := coalesce (m_processed_at new) (m_processed_at old);
  m_reversed_at := coalesce (m_reversed_at new) (m_reversed_at old);
  m_restaurant := coalesce (m_restaurant old) (m_restaurant new);
  m_internal_order := coalesce (m_internal_order old) (m_internal_order new);
  m_order := coalesce (m_order old) (m_order new);
  m_settlement := coalesce (m_settlement new) (m_settlement old);
  m_refund := coalesce (m_refund new) (m_refund old);
  m_reversal_of := coalesce (m_reversal_of new) (m_reversal_of old) |}.

(** An entity without an id is ignored; [recipient_account_id] is NOT NULL. *)
Definition upsert_transfer_from_razorpay (t : transfer) (merchant_override status_override refund reversal_of : option string)
    (db : route_db) : res (route_db * option mirror) :=
  if bool_decide (t_id t = ""%string) then Ok (db, None)
  else
    match recipient_of t with
    | None => Err (DatabaseError "null value in column recipient_account_id")
    | Some r =>
        let new := mirror_of t merchant_override status_override refund reversal_of r db in
        let row := match mirrors db !! t_id t with Some old => merge_mirror old new | None => new end in
        Ok (with_mirrors db (<[t_id t := row]> (mirrors db)), Some row)
    end.

Fixpoint mirror_all (merchant : string) (items : list transfer) (db : route_db) : route_db * res (list mirror) :=
  match items with
  | [] => (db, Ok [])
  | t :: items' =>
      match upsert_transfer_from_razorpay t (Some merchant) None None None db with
      | Err e => (db, Err e)
      | Ok (db', row) =>
          match mirror_all merchant items' db' with
          | (db'', Ok rows) => (db'', Ok (match row with Some r => r :: rows | None => rows end))
          | (db'', Err e) => (db'', Err e)
          end
      end
  end.

(** ** Operations on transfers *)

Section Route.
Context {W : Type} (gw : gateway W) (digest : body → string).

Definition transfer_key (merchant payment : string) (expected : Z) : string :=
  ("rzp_transfer:" ++ merchant ++ ":" ++ payment ++ ":" ++ int_text expected)%string.

(** The arguments of [create_transfer]. *)
Record transfer_args := {
  ta_merchant : string; ta_payment : string; ta_amount : Z; ta_currency : string; ta_on_hold : bool;
  ta_on_hold_until : option Z; ta_notes : list (string * string) }.

(** The checks before the gateway is asked: the linked account, the payment, and the
    share that is due. *)
Definition transfer_checks (a : transfer_args) (db : route_db) : res (account * rzp_payment * Z) :=
  match _existing_account (ta_merchant a) db with
  | None => Err (LookupError "Merchant has no Razorpay linked account")
  | Some acct =>
      _ ← raise_if (bool_decide (ac_linked acct = ""%string)) (LookupError "Merchant has no Razorpay linked account");
      _ ← raise_if (not_ready acct) (PermissionError "Linked account not settlement-ready (status=");
      match newest_payment (ta_payment a) db with
      | None => Err (PermissionError "payment does not belong to merchant")
      | Some p =>
          _ ← raise_if (negb (bool_decide (rp_merchant p = ta_merchant a))) (PermissionError "payment does not belong to merchant");
          _ ← raise_if (negb (rp_captured p) || negb (bool_decide (ta_currency a = "INR"%string)) || negb (bool_decide (rp_currency p = ta_currency a)))
                (ValueError "Route requires a captured INR payment");
          expected ← merchant_transfer_paise (PInt (rp_amount p));
          _ ← raise_if (negb (ta_amount a =? expected) || (expected <? 100))
                (ValueError "Route transfer must equal the fixed 95% merchant entitlement (minimum 100 paise)");
          Ok (acct, p, expected)
      end
  end.

(** The gateway already has transfers for the payment: they are adopted when they go to
    the merchant and agree with the saved allocation, and a timed-out intent is closed. *)
Definition adopt (a : transfer_args) (acct : account) (key : string) (existing : list transfer) (db : route_db) : res route_db :=
  _ ← raise_if (negb (forallb (paid_to (ac_linked acct)) existing)) (ValueError "payment has transfers to an unexpected linked account");
  match allocations db !! ta_payment a with
  | None => Ok db
  | Some al =>
      _ ← raise_if (negb (zsum (map t_amount existing) =? al_merchant_paise al))
            (RuntimeError "gateway transfers differ from saved entitlement; reconciliation required");
      Ok (match operations db !! key with
          | Some op =>
              if bool_decide (resource_key op = ta_payment a) && bool_decide (state op = Unknown)
              then with_operations db (<[key := set_state Succeeded (Some (Transfers existing)) op]> (operations db)) else db
          | None => db
          end)
  end.

(** The reasons not to send. *)
Definition refuse_send (a : transfer_args) (p : rzp_payment) (db : route_db) (w : W) : res () :=
  _ ← raise_if (negb (refunded_paise (ta_payment a) db =? 0)) (RuntimeError "payment refunded before Route transfer; reconciliation required");
  match rp_order p with
  | Some o =>
      if bool_decide (o = ""%string) then Ok ()
      else
        items ← gw_order_transfers gw o w;
        raise_if (negb (bool_decide (items = []))) (RuntimeError "order-owned Route split awaiting payment transfer reconciliation")
  | None => Ok ()
  end.

Definition allocate (a : transfer_args) (p : rzp_payment) (expected : Z) (db : route_db) : route_db :=
  match allocations db !! ta_payment a with
  | Some _ => db
  | None => with_allocations db (<[ta_payment a := {| al_merchant := ta_merchant a; al_gross := rp_amount p;
      al_merchant_paise := expected; al_currency := ta_currency a |}]> (allocations db))
  end.

Definition transfer_body (a : transfer_args) (acct : account) (expected : Z) : create_body := {|
  cb_account := ac_linked acct; cb_amount := expected; cb_currency := ta_currency a; cb_notes := ta_notes a;
  cb_on_hold := ta_on_hold a; cb_on_hold_until := if ta_on_hold a then nonzero (ta_on_hold_until a) else None |}.

Definition send_create (payment : string) (b : create_body) (key : string) (w : W) : W * res reply :=
  let (w', r) := gw_create gw payment b key w in (w', Transfers <$> r).

(** What the reply of a send, or a replayed one, must say. *)
Definition verify_reply (acct : account) (expected : Z) (r : reply) : res (list transfer) :=
  match r with
  | Transfers items =>
      _ ← raise_if (bool_decide (items = [])) (RuntimeError "Route returned no transfers; reconciliation required");
      _ ← raise_if (negb (forallb (paid_to (ac_linked acct)) items)) (ValueError "payment has transfers to an unexpected linked account");
      _ ← raise_if (negb (forallb not_failed items) || negb (zsum (map t_amount items) =? expected))
            (RuntimeError "Route transfer failed or has an unexpected amount; reconciliation required");
      Ok items
  | Reversal => Err (RuntimeError "Route returned no transfers; reconciliation required")
  end.

(** Sending: the saved entitlement, then one guarded mutation. *)
Definition send_transfer (a : transfer_args) (acct : account) (p : rzp_payment) (expected : Z) (s : route_db * W)
    : route_db * W * res (list transfer) :=
  let (db, w) := s in
  let key := transfer_key (ta_merchant a) (ta_payment a) expected in
  let b := transfer_body a acct expected in
  let db1 := allocate a p expected db in
  match guarded_mutation key (ta_payment a) (digest (CreateBody b)) (send_create (ta_payment a) b key) (operations db1, w) with
  | (ops, w', r) => (with_operations db1 ops, w', r ≫= verify_reply acct expected)
  end.

(** What the transfer of the share comes to: adopted, or sent. *)
Definition obtain_transfers (a : transfer_args) (s : route_db * W) : route_db * W * res (list transfer) :=
  let (db, w) := s in
  match transfer_checks a db with
  | Err e => (db, w, Err e)
  | Ok (acct, p, expected) =>
      match gw_payment_transfers gw (ta_payment a) w with
      | Err e => (db, w, Err e)
      | Ok remote =>
          match filter (λ t, not_failed t = true) remote with
          | [] =>
              match refuse_send a p db w with
              | Err e => (db, w, Err e)
              | Ok _ => send_transfer a acct p expected (db, w)
              end
          | existing =>
              match adopt a acct (transfer_key (ta_merchant a) (ta_payment a) expected) existing db with
              | Err e => (db, w, Err e)
              | Ok db' => (db', w, Ok existing)
              end
          end
      end
  end.

Definition create_transfer (a : transfer_args) (s : route_db * W) : route_db * W * res (list mirror) :=
  match obtain_transfers a s with
  | (db, w, Err e) => (db, w, Err e)
  | (db, w, Ok items) =>
      let (db', r) := mirror_all (ta_merchant a) (map (with_source (ta_payment a)) items) db in (db', w, r)
  end.

(** ** Reversals *)

Definition refund_prefix : string := "rzp_refund_reversal:".
Definition refund_key (transfer : string) (target : Z) : string := (refund_prefix ++ transfer ++ ":" ++ int_text target)%string.
(** [int(key.rsplit(":", 1)[1])] *)
Definition key_target (key : string) : option Z := py_int (List.last (split ":" key) ""%string).

(** The earlier automatic reversals of a transfer against what the gateway has reversed:
    one it does not show yet stops the refund, one whose answer was lost is closed. *)
Fixpoint reconcile (transfer : string) (reversed : Z) (prior : list (string * operation reply)) (ops : gmap string (operation reply))
    : gmap string (operation reply) * res () :=
  match prior with
  | [] => (ops, Ok ())
  | (key, op) :: prior' =>
      if bool_decide (resource_key op = transfer) && negb (bool_decide (state op = Rejected)) && starts_with refund_prefix key
      then
        match key_target key with
        | None => (ops, Err (ValueError "invalid literal for int()"))
        | Some previous =>
            if reversed <? previous then (ops, Err (RuntimeError "previous reversal not yet reconciled at gateway"))
            else reconcile transfer reversed prior'
                   (if bool_decide (state op = Unknown) then alter (set_state Succeeded (Some Reversal)) key ops else ops)
        end
      else reconcile transfer reversed prior' ops
  end.

Definition send_reverse (transfer : string) (amount : option Z) (key : string) (w : W) : W * res reply :=
  let (w', r) := gw_reverse gw transfer amount key w in (w', (λ _, Reversal) <$> r).

(** One transfer of the payment: [refunded] of [total] is gone, and so should be the same
    part of the transfer. *)
Definition reverse_one (merchant : string) (refunded total : Z) (t : transfer) (s : route_db * W) : route_db * W * res () :=
  let (db, w) := s in
  if total =? 0 then (db, w, Err ZeroDivisionError)
  else
    let target := Z.min refunded total * t_amount t / total in
    let reversed := default 0 (t_amount_reversed t) in
    match reconcile (t_id t) reversed (map_to_list (operations db)) (operations db) with
    | (ops, Err e) => (with_operations db ops, w, Err e)
    | (ops, Ok _) =>
        let db1 := with_operations db ops in
        let sent :=
          if reversed <? target then
            let key := refund_key (t_id t) target in
            match guarded_mutation key (t_id t) (digest (RefundReversalBody (target - reversed) target))
                    (send_reverse (t_id t) (Some (target - reversed)) key) (ops, w) with
            | (ops', w', Err e) => (with_operations db ops', w', Err e)
            | (ops', w', Ok _) => (with_operations db ops', w', gw_transfer gw (t_id t) w')
            end
          else (db1, w, Ok t) in
        match sent with
        | (db2, w', Err e) => (db2, w', Err e)
        | (db2, w', Ok t') =>
            match upsert_transfer_from_razorpay t' (Some merchant) None None None db2 with
            | Err e => (db2, w', Err e)
            | Ok (db3, _) => (db3, w', Ok ())
            end
        end
    end.

Fixpoint reverse_all (merchant : string) (refunded total : Z) (ts : list transfer) (s : route_db * W) : route_db * W * res () :=
  match ts with
  | [] => (s.1, s.2, Ok ())
  | t :: ts' =>
      match reverse_one merchant refunded total t s with
      | (db, w, Ok _) => reverse_all merchant refunded total ts' (db, w)
      | (db, w, Err e) => (db, w, Err e)
      end
  end.

(** The share of everything refunded or lost in a dispute, taken back cumulatively. *)
Definition reverse_refunded_share (payment : string) (s : route_db * W) : route_db * W * res () :=
  let (db, w) := s in
  match newest_payment payment db with
  | None => (db, w, Err (LookupError "refunded payment is not mirrored"))
  | Some p =>
      let refunded := refunded_paise payment db + lost_paise payment (rp_merchant p) db in
      if refunded <=? 0 then (db, w, Ok ())
      else
        match gw_payment_transfers gw payment w with
        | Err e => (db, w, Err e)
        | Ok remote =>
            let transfers := filter (λ t, not_failed t = true) remote in
            let foreign := match _existing_account (rp_merchant p) db with
                           | None => true
                           | Some a => negb (forallb (paid_to (ac_linked a)) transfers)
                           end in
            if negb (bool_decide (transfers = [])) && foreign
            then (db, w, Err (PermissionError "refund transfer belongs to another linked account"))
            else reverse_all (rp_merchant p) refunded (rp_amount p) transfers (db, w)
        end
  end.

(** A reversal an operator asks for; the refetch afterwards is best-effort. *)
Definition manual_key (transfer : string) (refund : option string) (amount : option Z) : string :=
  ("rzp_transfer_reverse:" ++ transfer ++ ":" ++ str_or refund "manual" ++ ":" ++ int_text (default 0 amount))%string.
Definition reverse_transfer (merchant transfer : string) (amount : option Z) (notes : list (string * string)) (refund : option string)
    (s : route_db * W) : route_db * W * res reply :=
  let (db, w) := s in
  match mirrors db !! transfer with
  | None => (db, w, Err (LookupError "transfer not found"))
  | Some m =>
      if negb (bool_decide (m_merchant m = merchant)) then (db, w, Err (PermissionError "transfer belongs to another merchant"))
      else if str_mem (m_status m) ["reversed"; "failed"]%string then (db, w, Err (ValueError "transfer already terminal (status="))
      else
        let key := manual_key transfer refund amount in
        let merged := if str_truthy refund && negb (existsb (λ n, bool_decide (n.1 = "refund_id"%string)) notes)
                      then notes ++ [("refund_id"%string, str_or refund "")] else notes in
        match guarded_mutation key transfer (digest (ReversalBody amount merged)) (send_reverse transfer amount key) (operations db, w) with
        | (ops, w', Err e) => (with_operations db ops, w', Err e)
        | (ops, w', Ok r) =>
            let db1 := with_operations db ops in
            (match gw_transfer gw transfer w' with
             | Ok t =>
                 match upsert_transfer_from_razorpay t (Some merchant) None refund (Some transfer) db1 with
                 | Ok (db2, _) => db2
                 | Err _ => db1
                 end
             | Err _ => db1
             end, w', Ok r)
        end
  end.

Definition sync_transfer (merchant transfer : string) (s : route_db * W) : route_db * res (option mirror) :=
  let (db, w) := s in
  match gw_transfer gw transfer w with
  | Err e => (db, Err e)
  | Ok t =>
      let own := match _existing_account merchant db with Some a => paid_to (ac_linked a) t | None => false end in
      if negb own then (db, Err (PermissionError "transfer belongs to another merchant"))
      else match upsert_transfer_from_razorpay t (Some merchant) None None None db with
           | Ok (db', row) => (db', Ok row)
           | Err e => (db, Err e)
           end
  end.

(** The settlement's transfers, mirrored page by page; an entity that cannot be stored is
    skipped.  [fuel] bounds the pages. *)
Definition page : nat := 100.
Definition backfill_page (merchant : option string) (items : list transfer) (db : route_db) : route_db * Z :=
  foldl (λ acc t, match upsert_transfer_from_razorpay t merchant None None None acc.1 with
                  | Ok (db', _) => (db', acc.2 + 1)
                  | Err _ => acc
                  end) (db, 0) items.
Fixpoint backfill_loop (fuel : nat) (settlement : string) (merchant : option string) (skip : nat) (w : W) (db : route_db) (n : Z)
    : option (route_db * res Z) :=
  match fuel with
  | O => None
  | S fuel' =>
      match gw_settled gw settlement page skip w with
      | Err e => Some (db, Err e)
      | Ok items =>
          if bool_decide (items = []) then Some (db, Ok n)
          else
            let (db', k) := backfill_page merchant items db in
            if (length items <? page)%nat then Some (db', Ok (n + k))
            else backfill_loop fuel' settlement merchant (skip + page) w db' (n + k)
      end
  end.
Definition backfill_transfer_settlement_links (fuel : nat) (settlement : string) (merchant : option string) (w : W) (db : route_db)
    : option (route_db * res Z) := backfill_loop fuel settlement merchant 0 w db 0.
End Route.
