(* ===== verification/RouteMoney.v ===== *)
(** The money of a Route payment: whatever the gateway answers and however often the calls
    are repeated, the merchant's share is sent once and taken back no further than the
    refunds of the payment; and a retry ends as soon as the gateway shows the transfer.

    The gateway is wrapped so that its world carries a log of what was sent to it
    ([with_log]); a run is a sequence of the service's calls and of changes from outside
    ([route_step]). *)

From Stdlib Require Import ZArith Lia Ascii String.
From S2P Require Import Prelude PyDecimal PyFloat PyValues FeePolicy RouteSafety RouteTransfers.
Open Scope Z_scope.

(** ** What was sent *)

Inductive sending := Posted (payment account : string) (amount : Z) | TakenBack (transfer : string) (amount : option Z).
Record sent := { s_what : sending; s_key : string; s_verdict : op_state }.

(** All but a proven rejection may have moved money. *)
Definition effective (s : sent) : bool := negb (bool_decide (s_verdict s = Rejected)).

Section Log.
Context {W : Type} (gw : gateway W).

Definition with_log : gateway (W * list sent) := {|
  gw_payment_transfers p w := gw_payment_transfers gw p w.1;
  gw_order_transfers o w := gw_order_transfers gw o w.1;
  gw_transfer t w := gw_transfer gw t w.1;
  gw_settled s n k w := gw_settled gw s n k w.1;
  gw_create p b key w :=
    let (w', r) := gw_create gw p b key w.1 in
    ((w', w.2 ++ [{| s_what := Posted p (cb_account b) (cb_amount b); s_key := key; s_verdict := verdict r |}]), r);
  gw_reverse t amount key w :=
    let (w', r) := gw_reverse gw t amount key w.1 in
    ((w', w.2 ++ [{| s_what := TakenBack t amount; s_key := key; s_verdict := verdict r |}]), r) |}.
End Log.

Definition under (key : string) (s : sent) : bool := effective s && bool_decide (s_key s = key).
Definition count (f : sent → bool) (log : list sent) : nat := length (filter (λ s, f s = true) log).

Lemma count_app f l k : count f (l ++ k) = (count f l + count f k)%nat.
Proof. unfold count. by rewrite filter_app, length_app. Qed.
Lemma count_one f s : count f [s] = if f s then 1%nat else 0%nat.
Proof. unfold count. rewrite filter_cons, filter_nil. by destruct (f s). Qed.
Lemma count_le (f g : sent → bool) l : (∀ s, s ∈ l → f s = true → g s = true) → (count f l <= count g l)%nat.
Proof.
  unfold count. induction l as [|s l IH]; intros H; [done|]. rewrite !filter_cons.
  assert (length (filter (λ s, f s = true) l) <= length (filter (λ s, g s = true) l))%nat by (apply IH; intros x Hx; apply H; by right).
  destruct (decide (f s = true)) as [Hf|Hf]; [rewrite decide_True by (apply H; [by left|done]); cbn; lia|].
  case_decide; cbn; lia.
Qed.

(** ** The operations table against the log *)

Definition not_rejected (ops : gmap string (operation reply)) (key resource : string) : Prop :=
  ∃ op, ops !! key = Some op ∧ resource_key op = resource ∧ state op ≠ Rejected.

(** Each key sent effectively at most once, and then it is not open for another send. *)
Record tracked (ops : gmap string (operation reply)) (log : list sent) : Prop := {
  tr_wf : ops_wf ops;
  tr_once key : (count (under key) log <= 1)%nat;
  tr_kept key : count (under key) log ≠ 0%nat → ∃ resource, not_rejected ops key resource;
}.

(** Operations that are not rejected stay so. *)
Definition ops_grow (ops ops' : gmap string (operation reply)) : Prop :=
  ∀ key resource, not_rejected ops key resource → not_rejected ops' key resource.

#[export] Instance ops_grow_po : PreOrder ops_grow.
Proof. split; [by intros ops key r|]. intros a b c H1 H2 key r H. by apply H2, H1. Qed.

Lemma tracked_grow ops ops' log : ops_wf ops' → ops_grow ops ops' → tracked ops log → tracked ops' log.
Proof. intros Hwf Hg [_ H2 H3]. split; [done..|]. intros key [r Hr]%H3. exists r. by apply Hg. Qed.

Lemma mark_grow ops key r op : ops !! key = Some op → state op = Unknown → ops_grow ops (<[key := set_state Succeeded (Some r) op]> ops).
Proof.
  intros Hop Hs k resource (op' & Hop' & Hr & Hn). destruct (decide (key = k)) as [<-|Hne].
  - exists (set_state Succeeded (Some r) op). rewrite lookup_insert_eq. rewrite Hop in Hop'. by injection Hop' as <-.
  - exists op'. by rewrite lookup_insert_ne.
Qed.

Lemma mark_wf ops key (r : reply) op : ops_wf ops → ops_wf (<[key := set_state Succeeded (Some r) op]> ops).
Proof. intros Hwf. apply map_Forall_insert_2; [|done]. intros _. by eexists. Qed.

(** A guarded mutation that logs its send: nothing was sent and nothing changed, or one
    entry was logged under a key that was free. *)
Section Guarded.
Context {W : Type} (send : W * list sent → W * list sent * res reply) (what : sending).
Context (key resource dg : string) (ops : gmap string (operation reply)) (w : W) (log : list sent).
Context (logs : ∃ w' r, send (w, log) = ((w', log ++ [{| s_what := what; s_key := key; s_verdict := verdict r |}]), r)).

Lemma guarded_cases ops' w' log' r :
  tracked ops log → guarded_mutation key resource dg send (ops, (w, log)) = (ops', (w', log'), r) →
  tracked ops' log' ∧ ops_grow ops ops' ∧
  ((log' = log ∧ w' = w) ∨
   log' = log ++ [{| s_what := what; s_key := key; s_verdict := verdict r |}] ∧ send (w, log) = ((w', log'), r) ∧
   (verdict r ≠ Rejected → not_rejected ops' key resource)).
Proof using logs.
  intros [Hwf Honce Hkept] E. pose proof (guarded_mutation_outcome _ _ _ _ _ _ _ _ _ Hwf E) as Ho.
  assert (ops_wf ops') as Hwf' by (by eapply outcome_wf).
  inversion Ho as [e _|op r0 Hop _ _ _|w1 r1 Hb Hcase Hs old]; subst; [split_and!; [done|done|by left]..|].
  destruct logs as (w2 & r2 & Hl). rewrite Hs in Hl. injection Hl as E1 E2 E3. subst w2 r2 log'.
  assert (count (under key) log = 0%nat) as Hfree.
  { destruct (decide (count (under key) log = 0%nat)) as [H0|H0]; [done|exfalso].
    destruct (Hkept key H0) as (res & op & Hop & _ & Hn).
    destruct Hcase as [Hnone|(op' & Hop' & _ & _ & Hrej)]; congruence. }
  set (op' := {| request_hash := dg; resource_key := resource;
    state := match r with Ok _ => Succeeded | Err e => if proves_rejection e then Rejected else Unknown end;
    response := match r with Ok r => Some r | Err _ => old end |}) in *.
  assert (state op' = verdict r) as Hst by done.
  assert (ops_grow ops (<[key := op']> ops)) as Hgrow.
  { intros k res (op & Hop & Hr & Hn). destruct (decide (key = k)) as [<-|Hne]; [|exists op; by rewrite lookup_insert_ne].
    destruct Hcase as [Hnone|(op1 & Hop1 & _ & _ & Hrej)]; congruence. }
  assert (verdict r ≠ Rejected → not_rejected (<[key := op']> ops) key resource) as Hnew.
  { intros Hv. exists op'. rewrite lookup_insert_eq. split_and!; [done|done|by rewrite Hst]. }
  split_and!; [|done|by right].
  assert (∀ k, count (under k) [{| s_what := what; s_key := key; s_verdict := verdict r |}] =
    if decide (verdict r ≠ Rejected ∧ key = k) then 1%nat else 0%nat) as Hnewc.
  { intros k. rewrite count_one. unfold under, effective. cbn.
    destruct (decide (verdict r = Rejected)) as [Hv|Hv]; [rewrite (bool_decide_eq_true_2 _ Hv); cbn; by rewrite decide_False by naive_solver|].
    rewrite (bool_decide_eq_false_2 _ Hv). cbn. case_bool_decide; [by rewrite decide_True|by rewrite decide_False by naive_solver]. }
  split; [done|..].
  - intros k. rewrite count_app, Hnewc. destruct (decide (_ ∧ _)) as [Hk|_]; [destruct Hk as [_ Hk]; subst k; rewrite Hfree; lia|]. specialize (Honce k). lia.
  - intros k. rewrite count_app, Hnewc. destruct (decide (_ ∧ _)) as [Hk|_]; [destruct Hk as [Hv Hk]; subst k; intros _; exists resource; by apply Hnew|].
    rewrite Nat.add_0_r. intros [res Hres]%Hkept. exists res. by apply Hgrow.
Qed.
End Guarded.

(** ** What one call does *)

(** The service never writes the tables it decides on, and operations only settle. *)
Record calm (db db' : route_db) : Prop := {
  cm_accounts : accounts db' = accounts db;
  cm_payments : rzp_payments db' = rzp_payments db;
  cm_refunds : rzp_refunds db' = rzp_refunds db;
  cm_disputes : lost_disputes db' = lost_disputes db;
  cm_operations : ops_grow (operations db) (operations db');
}.

#[export] Instance calm_po : PreOrder calm.
Proof.
  split; [by intros db|]. intros a b c [A1 A2 A3 A4 A5] [B1 B2 B3 B4 B5]. split; try congruence. by etransitivity.
Qed.

Lemma calm_mirrors db m : calm db (with_mirrors db m).
Proof. by split. Qed.
Lemma calm_operations db ops : ops_grow (operations db) ops → calm db (with_operations db ops).
Proof. by split. Qed.

Lemma upsert_calm t m s r v db db' row :
  upsert_transfer_from_razorpay t m s r v db = Ok (db', row) → calm db db' ∧ operations db' = operations db ∧ allocations db' = allocations db.
Proof.
  unfold upsert_transfer_from_razorpay. case_bool_decide; [by intros [= <- <-]|]. destruct (recipient_of t); [|done].
  intros [= <- <-]. split_and!; [apply calm_mirrors|done..].
Qed.

Lemma mirror_all_calm m items db : let r := mirror_all m items db in calm db r.1 ∧ operations r.1 = operations db ∧ allocations r.1 = allocations db.
Proof.
  cbn zeta. revert db. induction items as [|t items IH]; intros db; [done|]. cbn [mirror_all].
  destruct (upsert_transfer_from_razorpay _ _ _ _ _ db) as [[db1 row]|e] eqn:E; [|done].
  apply upsert_calm in E as (H1 & H2 & H3). destruct (IH db1) as (I1 & I2 & I3).
  destruct (mirror_all m items db1) as [db2 [rows|e]]; cbn in *; (split; [by etransitivity|split; congruence]).
Qed.

Section Effects.
Context {W : Type} (gw : gateway W) (digest : body → string).

Lemma create_logs p b key w log :
  ∃ w' r, send_create (with_log gw) p b key (w, log)
    = ((w', log ++ [{| s_what := Posted p (cb_account b) (cb_amount b); s_key := key; s_verdict := verdict r |}]), r).
Proof. unfold send_create. cbn. destruct (gw_create gw p b key w) as [w' [items|e]]; cbn; [by exists w', (Ok (Transfers items))|by exists w', (Err e)]. Qed.

Lemma reverse_logs t amount key w log :
  ∃ w' r, send_reverse (with_log gw) t amount key (w, log)
    = ((w', log ++ [{| s_what := TakenBack t amount; s_key := key; s_verdict := verdict r |}]), r).
Proof. unfold send_reverse. cbn. destruct (gw_reverse gw t amount key w) as [w' [x|e]]; cbn; [by exists w', (Ok Reversal)|by exists w', (Err e)]. Qed.

(** A call leaves the books in order and logs nothing, or one entry that is [allowed]. *)
Definition logs_one (allowed : sent → Prop) (db : route_db) (log : list sent) (db' : route_db) (log' : list sent) : Prop :=
  tracked (operations db') log' ∧ calm db db' ∧
  (log' = log ∨ ∃ s, log' = log ++ [s] ∧ allowed s).

Lemma create_effect a db w log db' w' log' r :
  tracked (operations db) log → create_transfer (with_log gw) digest a (db, (w, log)) = (db', (w', log'), r) →
  logs_one (λ s, ∃ acct p expected v, transfer_checks a db = Ok (acct, p, expected) ∧
    s = {| s_what := Posted (ta_payment a) (ac_linked acct) expected;
           s_key := transfer_key (ta_merchant a) (ta_payment a) expected; s_verdict := v |}) db log db' log'.
Proof.
  intros Ht E. unfold create_transfer in E.
  assert (∀ db1 w1 log1 r1, obtain_transfers (with_log gw) digest a (db, (w, log)) = (db1, (w1, log1), r1) →
    logs_one (λ s, ∃ acct p expected v, transfer_checks a db = Ok (acct, p, expected) ∧
      s = {| s_what := Posted (ta_payment a) (ac_linked acct) expected;
             s_key := transfer_key (ta_merchant a) (ta_payment a) expected; s_verdict := v |}) db log db1 log1) as Hobt.
  { clear E. intros db1 w1 log1 r1 E. unfold obtain_transfers in E.
    destruct (transfer_checks a db) as [[[acct p] expected]|e] eqn:Ec; [|by injection E as <- <- <- <-; split_and!; [..|left]].
    cbn [gw_payment_transfers with_log] in E. destruct (gw_payment_transfers gw _ _) as [remote|e]; [|by injection E as <- <- <- <-; split_and!; [..|left]].
    destruct (filter _ remote) as [|t ts].
    - destruct (refuse_send _ _ _ _ _) as [u|e]; [|by injection E as <- <- <- <-; split_and!; [..|left]].
      unfold send_transfer in E. set (b := transfer_body a acct expected) in *. set (db0 := allocate a p expected db) in *.
      assert (operations db0 = operations db ∧ calm db db0) as [Hops Hcalm].
      { unfold db0, allocate. destruct (allocations db !! _); [done|]. by split. }
      set (key := transfer_key (ta_merchant a) (ta_payment a) expected) in *.
      destruct (guarded_mutation _ _ _ _ _) as [[ops [w2 log2]] r2] eqn:Eg. injection E as <- <- <- _. rewrite Hops in Eg.
      pose proof (guarded_cases _ _ key _ _ _ _ _ (create_logs (ta_payment a) b key w log) _ _ _ _ Ht Eg) as (Ht2 & Hg & Hcase).
      split; [exact Ht2|]. split; [etransitivity; [exact Hcalm|apply calm_operations; by rewrite Hops]|].
      destruct Hcase as [[-> _]|(-> & _)]; [by left|right]. eexists. split; [done|]. by eexists acct, p, expected, _.
    - destruct (adopt _ _ _ _ _) as [db2|e] eqn:Ea; [|by injection E as <- <- <- <-; split_and!; [..|left]].
      injection E as <- <- <- _. unfold adopt in Ea. apply res_bind_Ok in Ea as (? & _ & Ea).
      assert (∀ P, logs_one P db log db log) as Hsame by (intros P; split_and!; [done..|by left]).
      destruct (allocations db !! _) as [al|]; [|injection Ea as <-; apply Hsame]. apply res_bind_Ok in Ea as (? & _ & Ea). injection Ea as <-.
      destruct (operations db !! _) as [op|] eqn:Eo; [|apply Hsame]. destruct (_ && _) eqn:Eb; [|apply Hsame].
      apply andb_prop in Eb as [_ Hs%bool_decide_eq_true].
      split_and!; [|apply calm_operations; by apply mark_grow|by left]. cbn.
      eapply tracked_grow; [|by apply mark_grow|exact Ht]. apply mark_wf, Ht. }
  destruct (obtain_transfers (with_log gw) digest a (db, (w, log))) as [[db1 [w1 log1]] r1]. specialize (Hobt _ _ _ _ eq_refl).
  destruct r1 as [items|e]; [|by injection E as <- <- <- <-].
  pose proof (mirror_all_calm (ta_merchant a) (map (with_source (ta_payment a)) items) db1) as (Hc & Ho & _).
  destruct (mirror_all _ _ db1) as [db2 r2]. cbn in Hc, Ho. injection E as <- <- <- _.
  destruct Hobt as (H1 & H2 & H3). split; [by rewrite Ho|]. split; [by etransitivity|done].
Qed.

Lemma alter_grow key (r : reply) ops : ops_grow ops (alter (set_state Succeeded (Some r)) key ops).
Proof.
  intros k resource (op & Hop & Hr & Hn). destruct (decide (key = k)) as [<-|Hne].
  - exists (set_state Succeeded (Some r) op). by rewrite lookup_alter_eq, Hop.
  - exists op. by rewrite lookup_alter_ne.
Qed.

Lemma alter_wf key (r : reply) ops : ops_wf ops → ops_wf (alter (set_state Succeeded (Some r)) key ops).
Proof.
  intros Hwf k op Hop Hs. destruct (decide (key = k)) as [<-|Hne].
  - rewrite lookup_alter_eq in Hop. destruct (ops !! key); [|done]. injection Hop as <-. by eexists.
  - rewrite lookup_alter_ne in Hop by done. by apply (Hwf k).
Qed.

(** The automatic reversals of a transfer that may have moved money. *)
Definition auto (ops : gmap string (operation reply)) (t key : string) (target : Z) : Prop :=
  not_rejected ops key t ∧ starts_with refund_prefix key = true ∧ key_target key = Some target.

Lemma reconcile_spec t reversed prior ops ops' r :
  reconcile t reversed prior ops = (ops', r) →
  (ops_wf ops → ops_wf ops') ∧ ops_grow ops ops' ∧
  (r = Ok () → ∀ key op target, (key, op) ∈ prior → resource_key op = t → state op ≠ Rejected →
     starts_with refund_prefix key = true → key_target key = Some target → target <= reversed).
Proof.
  revert ops. induction prior as [|[key op] prior IH]; intros ops E; cbn [reconcile] in E.
  { injection E as <- <-. split_and!; [done..|]. intros _ key op target Hin. by apply elem_of_nil in Hin. }
  destruct (_ && _ && _) eqn:Eb.
  - destruct (key_target key) as [n|] eqn:Ek; [|by injection E as <- <-; split_and!].
    destruct (Z.ltb_spec reversed n) as [Hlt|Hge]; [by injection E as <- <-; split_and!|].
    apply IH in E as (H1 & H2 & H3). split_and!.
    + intros Hwf. apply H1. case_bool_decide; [by apply alter_wf|done].
    + etransitivity; [|exact H2]. case_bool_decide; [apply alter_grow|done].
    + intros Hr key' op' target [[= -> ->]|Hin]%elem_of_cons Hres Hn Hs Ht; [|by eapply H3]. rewrite Ek in Ht. by injection Ht as <-.
  - apply IH in E as (H1 & H2 & H3). split_and!; [done..|].
    intros Hr key' op' target [[= -> ->]|Hin]%elem_of_cons Hres Hn Hs Ht; [|by eapply H3].
    rewrite (bool_decide_eq_true_2 _ Hres), (bool_decide_eq_false_2 _ Hn), Hs in Eb. done.
Qed.

(** One transfer: at most one reversal, from what the gateway shows up to the target,
    which no earlier automatic reversal exceeds. *)
Lemma reverse_one_effect merchant refunded total t db w log db' w' log' r :
  tracked (operations db) log →
  reverse_one (with_log gw) digest merchant refunded total t (db, (w, log)) = (db', (w', log'), r) →
  let target := Z.min refunded total * t_amount t / total in
  let reversed := default 0 (t_amount_reversed t) in
  logs_one (λ s, ∃ v, s = {| s_what := TakenBack (t_id t) (Some (target - reversed)); s_key := refund_key (t_id t) target; s_verdict := v |} ∧
    reversed < target ∧ total ≠ 0 ∧ (v ≠ Rejected → not_rejected (operations db') (refund_key (t_id t) target) (t_id t)) ∧
    (∀ key n, auto (operations db) (t_id t) key n → n <= reversed)) db log db' log'.
Proof.
  intros Ht E target reversed. unfold reverse_one in E.
  destruct (Z.eqb_spec total 0) as [Hz|Hz]; [by injection E as <- <- <- _; split_and!; [..|left]|]. fold target reversed in E.
  destruct (reconcile _ _ _ _) as [ops r0] eqn:Er. apply reconcile_spec in Er as (Hwf & Hgrow & Hprior). specialize (Hwf (tr_wf _ _ Ht)).
  assert (tracked ops log) as Ht1 by (by eapply tracked_grow).
  destruct r0 as [u|e]; [|injection E as <- <- <- _; split_and!; [done|by apply calm_operations|by left]].
  destruct u. specialize (Hprior eq_refl).
  assert (∀ key n, auto (operations db) (t_id t) key n → n <= reversed) as Hauto.
  { intros key n ((op & Hop & Hres & Hn) & Hs & Hk). eapply (Hprior key op); [by apply elem_of_map_to_list|done..]. }
  set (key := refund_key (t_id t) target) in *.
  assert (∀ db2 ws2 r2, (if reversed <? target then
      match guarded_mutation key (t_id t) (digest (RefundReversalBody (target - reversed) target))
              (send_reverse (with_log gw) (t_id t) (Some (target - reversed)) key) (ops, (w, log)) with
      | (ops', w', Err e) => (with_operations db ops', w', Err e)
      | (ops', w', Ok _) => (with_operations db ops', w', gw_transfer (with_log gw) (t_id t) w')
      end else (with_operations db ops, (w, log), Ok t)) = (db2, ws2, r2) →
    logs_one (λ s, ∃ v, s = {| s_what := TakenBack (t_id t) (Some (target - reversed)); s_key := key; s_verdict := v |} ∧
      reversed < target ∧ total ≠ 0 ∧ (v ≠ Rejected → not_rejected (operations db2) key (t_id t)) ∧
      (∀ key n, auto (operations db) (t_id t) key n → n <= reversed)) db log db2 ws2.2) as Hsent.
  { intros db2 ws2 r2 Es. destruct (Z.ltb_spec reversed target) as [Hlt|Hge].
    2:{ injection Es as <- <- <-. split_and!; [done|by apply calm_operations|by left]. }
    destruct (guarded_mutation _ _ _ _ _) as [[ops2 [w2 log2]] r3] eqn:Eg.
    pose proof (guarded_cases _ _ key _ _ _ _ _ (reverse_logs (t_id t) (Some (target - reversed)) key w log) _ _ _ _ Ht1 Eg) as (Ht2 & Hg2 & Hcase).
    assert (db2 = with_operations db ops2 ∧ ws2 = (w2, log2)) as [-> ->] by (destruct r3; by injection Es as <- <- _).
    split; [exact Ht2|]. split; [apply calm_operations; by etransitivity|].
    destruct Hcase as [[-> _]|(-> & _ & Hn)]; [by left|right]. eexists. split; [done|]. by eexists. }
  destruct (if reversed <? target then _ else _) as [[db2 [w2 log2]] r2]. specialize (Hsent _ _ _ eq_refl).
  destruct r2 as [t'|e]; [|by injection E as <- <- <- _].
  destruct (upsert_transfer_from_razorpay _ _ _ _ _ _) as [[db3 row]|e] eqn:Eu; [|by injection E as <- <- <- _].
  injection E as <- <- <- _. apply upsert_calm in Eu as (Hc & Ho & _). unfold logs_one. rewrite Ho.
  destruct Hsent as (H1 & H2 & H3). split_and!; [done|by etransitivity|done].
Qed.

Lemma manual_effect merchant t amount notes refund db w log db' w' log' r :
  tracked (operations db) log →
  reverse_transfer (with_log gw) digest merchant t amount notes refund (db, (w, log)) = (db', (w', log'), r) →
  logs_one (λ s, ∃ v, s = {| s_what := TakenBack t amount; s_key := manual_key t refund amount; s_verdict := v |}) db log db' log'.
Proof.
  intros Ht E. unfold reverse_transfer in E.
  destruct (mirrors db !! t) as [m|]; [|by injection E as <- <- <- _; split_and!; [..|left]].
  destruct (negb _); [by injection E as <- <- <- _; split_and!; [..|left]|].
  destruct (str_mem _ _); [by injection E as <- <- <- _; split_and!; [..|left]|].
  destruct (guarded_mutation _ _ _ _ _) as [[ops [w2 log2]] r2] eqn:Eg.
  pose proof (guarded_cases _ _ _ _ _ _ _ _ (reverse_logs t amount _ w log) _ _ _ _ Ht Eg) as (Ht2 & Hg & Hcase).
  assert (calm db (with_operations db ops)) as Hc by (by apply calm_operations).
  assert (log' = log2 ∧ operations db' = ops ∧ calm db db') as (-> & Ho & Hc').
  { destruct r2 as [x|e]; injection E as <- <- <- _; [|done]. split; [done|].
    destruct (gw_transfer _ t _) as [t'|e]; [|done]. destruct (upsert_transfer_from_razorpay _ _ _ _ _ _) as [[db3 row]|e] eqn:Eu; [|done].
    apply upsert_calm in Eu as (Hu & Ho & _). split; [done|by etransitivity]. }
  split; [by rewrite Ho|]. split; [done|]. destruct Hcase as [[-> _]|(-> & _)]; [by left|right]. eexists. split; [done|]. by eexists.
Qed.
End Effects.

(** ** Keys of reversals *)

Lemma int_text_plain n : 0 <= n → ":"%char ∉ chars (int_text n).
Proof.
  intros Hn. unfold int_text. destruct (Z.ltb_spec n 0); [lia|]. unfold nat_text. rewrite chars_of_chars.
  destruct (digits_lsd_spec (S (Z.to_nat (Z.log2 n))) n Hn) as (_ & Hd & _); [pose proof (Z.log2_nonneg n); lia|].
  apply Forall_reverse in Hd. unfold nat_digits. intros (d & Hc & Hin)%list_elem_of_fmap.
  rewrite Forall_forall in Hd. destruct (digit_of_char d) as (_ & _ & _ & _ & Hne); [by apply Hd|]. by apply Hne.
Qed.

Lemma refund_key_target t n : 0 <= n < 10 ^ 18 → key_target (refund_key t n) = Some n.
Proof.
  intros Hn. unfold key_target, refund_key.
  assert (refund_prefix ++ t ++ ":" ++ int_text n = (refund_prefix ++ t) ++ String ":" (int_text n))%string as ->
    by (rewrite <-(of_chars_chars (_ ++ _)), <-(of_chars_chars (_ ++ String _ _)); f_equal; by rewrite !chars_app, <-!app_assoc).
  rewrite split_last by (apply int_text_plain; lia). apply py_int_text. split; [lia|].
  apply Z.lt_le_trans with (10 ^ 18); [lia|]. apply pow10_le. lia.
Qed.

Lemma refund_key_prefix t n : starts_with refund_prefix (refund_key t n) = true.
Proof. apply starts_with_app. Qed.

Lemma manual_key_other t refund amount : starts_with refund_prefix (manual_key t refund amount) = false.
Proof. reflexivity. Qed.

(** ** Runs *)

Definition gone (payment : string) (row : rzp_payment) (db : route_db) : Z :=
  refunded_paise payment db + lost_paise payment (rp_merchant row) db.
Definition priced (db : route_db) : Prop := ∀ payment row, newest_payment payment db = Some row → 0 <= rp_amount row.

(** What the rest of the system does to the tables between the calls of this service: a
    payment keeps its merchant and amount, and processed refunds and lost disputes stay.
    (One race breaks the last: the mirror of RefundService overwrites a refund already
    processed when its own reply arrives after the webhook.) *)
Record outside (db db' : route_db) : Prop := {
  out_operations : operations db' = operations db;
  out_payment payment row : newest_payment payment db = Some row →
    ∃ row', newest_payment payment db' = Some row' ∧ rp_merchant row' = rp_merchant row ∧ rp_amount row' = rp_amount row;
  out_priced : priced db → priced db';
  out_gone payment merchant : refunded_paise payment db <= refunded_paise payment db' ∧ lost_paise payment merchant db <= lost_paise payment merchant db';
}.

Section Run.
Context {W : Type} (gw : gateway W) (digest : body → string).
Abbreviation run_state := (route_db * (W * list sent))%type.
Abbreviation g := (with_log gw).

Inductive route_step : run_state → run_state → Prop :=
  | Creates a s s' r : create_transfer g digest a s = (s', r) → route_step s s'
  | Refunds payment s s' r : reverse_refunded_share g digest payment s = (s', r) → route_step s s'
  | Reverses merchant t amount notes refund s s' r :
      reverse_transfer g digest merchant t amount notes refund s = (s', r) → route_step s s'
  | Syncs merchant t s db' r : sync_transfer g merchant t s = (db', r) → route_step s (db', s.2)
  | Backfills fuel settlement merchant db ws db' r :
      backfill_transfer_settlement_links g fuel settlement merchant ws db = Some (db', r) → route_step (db, ws) (db', ws)
  | Notified t merchant status refund reversal_of db ws db' row :
      upsert_transfer_from_razorpay t merchant status refund reversal_of db = Ok (db', row) → route_step (db, ws) (db', ws)
  | Elsewhere db db' w w' log : outside db db' → route_step (db, (w, log)) (db', (w', log)).

(** From before the first operation. *)
Definition route_run (s : run_state) : Prop := ∃ db w, operations db = ∅ ∧ priced db ∧ rtc route_step (db, (w, [])) s.

(** The transfers of a payment that may exist. *)
Definition posted (payment : string) (s : sent) : bool :=
  effective s && match s_what s with Posted p _ _ => bool_decide (p = payment) | TakenBack _ _ => false end.

(** A sent share is that of the payment it is sent for. *)
Definition due (db : route_db) (s : sent) : Prop :=
  match s_what s with
  | Posted payment _ n =>
      ∃ row, newest_payment payment db = Some row ∧ merchant_transfer_paise (PInt (rp_amount row)) = Ok n ∧ 100 <= n ∧
        s_key s = transfer_key (rp_merchant row) payment n
  | TakenBack _ _ => True
  end.

Lemma newest_same db db' payment : rzp_payments db' = rzp_payments db → newest_payment payment db' = newest_payment payment db.
Proof. unfold newest_payment. by intros ->. Qed.

Lemma due_calm db db' s : calm db db' → due db s → due db' s.
Proof. intros [_ Hp _ _ _]. unfold due. destruct (s_what s); [|done]. by rewrite (newest_same _ _ _ Hp). Qed.

Lemma due_outside db db' s : outside db db' → due db s → due db' s.
Proof.
  intros Ho. unfold due. destruct (s_what s) as [p a n|]; [|done]. intros (row & Hrow & Hm & Hn & Hk).
  destruct (out_payment _ _ Ho _ _ Hrow) as (row' & Hrow' & Em & Ea). exists row'. by rewrite Em, Ea.
Qed.

Lemma checks_due a db acct row expected v :
  transfer_checks a db = Ok (acct, row, expected) →
  due db {| s_what := Posted (ta_payment a) (ac_linked acct) expected;
            s_key := transfer_key (ta_merchant a) (ta_payment a) expected; s_verdict := v |}.
Proof.
  unfold transfer_checks, due. cbn. destruct (_existing_account _ _); [|done]. intros H.
  apply res_bind_Ok in H as (? & _ & H). apply res_bind_Ok in H as (? & _ & H).
  destruct (newest_payment _ _) as [p|]; [|done].
  apply res_bind_Ok in H as (? & Hm%raise_if_Ok & H). apply res_bind_Ok in H as (? & _ & H).
  apply res_bind_Ok in H as (n & Hn & H). apply res_bind_Ok in H as (? & Hb%raise_if_Ok & H). injection H as <- <- <-.
  apply negb_false_iff, bool_decide_eq_true in Hm. apply orb_false_iff in Hb as [_ Hb%Z.ltb_ge].
  exists p. rewrite Hm. done.
Qed.
Lemma gone_calm db db' payment row : calm db db' → gone payment row db' = gone payment row db.
Proof. intros [_ _ Hr Hd _]. unfold gone, refunded_paise, lost_paise. by rewrite Hr, Hd. Qed.

(** *** The moves a step is made of *)

(** [t] was shown by the gateway as a transfer of [payment]. *)
Definition listed (payment : string) (t : transfer) : Prop := ∃ w items, gw_payment_transfers gw payment w = Ok items ∧ t ∈ items.

Definition target_of (payment : string) (row : rzp_payment) (t : transfer) (db : route_db) : Z :=
  floor_share (rp_amount row) (t_amount t) (gone payment row db).
Definition shown (t : transfer) : Z := default 0 (t_amount_reversed t).

Inductive move : route_db * list sent → route_db * list sent → Prop :=
  | Quiet db db' log : tracked (operations db') log → calm db db' → move (db, log) (db', log)
  | Posts db db' log s : tracked (operations db') (log ++ [s]) → calm db db' → due db s → (∀ t n, s_what s ≠ TakenBack t n) →
      move (db, log) (db', log ++ [s])
  | Takes payment row t db db' log v :
      newest_payment payment db = Some row → listed payment t → rp_amount row ≠ 0 →
      let target := target_of payment row t db in
      let s := {| s_what := TakenBack (t_id t) (Some (target - shown t)); s_key := refund_key (t_id t) target; s_verdict := v |} in
      tracked (operations db') (log ++ [s]) → calm db db' → shown t < target →
      (v ≠ Rejected → not_rejected (operations db') (refund_key (t_id t) target) (t_id t)) →
      (∀ key n, auto (operations db) (t_id t) key n → n <= shown t) →
      move (db, log) (db', log ++ [s])
  | Takes_manually t amount refund v db db' log :
      let s := {| s_what := TakenBack t amount; s_key := manual_key t refund amount; s_verdict := v |} in
      tracked (operations db') (log ++ [s]) → calm db db' → move (db, log) (db', log ++ [s])
  | Moves_outside db db' log : tracked (operations db') log → outside db db' → move (db, log) (db', log).

Definition books (s : run_state) : route_db * list sent := (s.1, s.2.2).
Definition in_order (b : route_db * list sent) : Prop := tracked (operations b.1) b.2.

Lemma move_in_order b b' : move b b' → in_order b'.
Proof. by intros []. Qed.
Lemma moves_in_order b b' : rtc move b b' → in_order b → in_order b'.
Proof. induction 1 as [|b1 b2 b3 H _ IH]; [done|]. intros _. by apply IH, (move_in_order b1). Qed.

Lemma quiet_moves db db' log : tracked (operations db) log → calm db db' → operations db' = operations db → rtc move (db, log) (db', log).
Proof. intros Ht Hc Ho. apply rtc_once. apply Quiet; [by rewrite Ho|done]. Qed.

Lemma create_moves a s s' r : create_transfer g digest a s = (s', r) → in_order (books s) → rtc move (books s) (books s').
Proof.
  destruct s as [db [w log]], s' as [db' [w' log']]. intros E Ht.
  destruct (create_effect gw digest a _ _ _ _ _ _ _ Ht E) as (Ht' & Hc & Hlog). unfold books. cbn in *. apply rtc_once.
  destruct Hlog as [->|(x & -> & acct & row & n & v & Hchk & ->)]; [by apply Quiet|].
  apply Posts; [done|done|by eapply checks_due|done].
Qed.

Lemma reverse_all_moves payment row w0 items ts db w log s' r :
  newest_payment payment db = Some row → gw_payment_transfers gw payment w0 = Ok items → (∀ t, t ∈ ts → t ∈ items) →
  tracked (operations db) log →
  reverse_all g digest (rp_merchant row) (gone payment row db) (rp_amount row) ts (db, (w, log)) = (s', r) →
  rtc move (db, log) (books s').
Proof.
  revert db w log. induction ts as [|t ts IH]; intros db w log Hrow Hitems Hts Ht E; cbn [reverse_all] in E; [by injection E as <- _|].
  destruct (reverse_one _ _ _ _ _ _ _) as [[db1 [w1 log1]] r1] eqn:E1.
  destruct (reverse_one_effect gw digest _ _ _ _ _ _ _ _ _ _ _ Ht E1) as (Ht1 & Hc & Hlog).
  assert (rtc move (db, log) (db1, log1)) as Hmove.
  { apply rtc_once. destruct Hlog as [->|(x & -> & v & -> & H1 & H2 & H3 & H4)]; [by apply Quiet|].
    apply (Takes payment row t db db1 log v); [done|exists w0, items; split; [done|apply Hts; by left]|done..]. }
  etransitivity; [exact Hmove|]. destruct r1 as [[]|e]; [|injection E as <- _; done].
  rewrite <-(gone_calm _ _ payment row Hc) in E. destruct Hc as [_ Hp _ _ _].
  eapply IH; [by rewrite (newest_same _ _ _ Hp)|done| |done|exact E]. intros x Hx. apply Hts. by right.
Qed.

Lemma refund_moves payment s s' r : reverse_refunded_share g digest payment s = (s', r) → in_order (books s) → rtc move (books s) (books s').
Proof.
  destruct s as [db [w log]]. intros E Ht. unfold reverse_refunded_share in E.
  destruct (newest_payment payment db) as [row|] eqn:Hrow; [|by injection E as <- _]. fold (gone payment row db) in E.
  destruct (_ <=? 0); [by injection E as <- _|]. cbn [gw_payment_transfers with_log fst] in E.
  destruct (gw_payment_transfers gw payment w) as [items|e] eqn:Hi; [|by injection E as <- _].
  destruct (_ && _); [by injection E as <- _|].
  eapply (reverse_all_moves payment row w items); [done|done| |done|exact E]. intros t [_ Hin]%list_elem_of_filter. done.
Qed.

Lemma manual_moves merchant t amount notes refund s s' r :
  reverse_transfer g digest merchant t amount notes refund s = (s', r) → in_order (books s) → rtc move (books s) (books s').
Proof.
  destruct s as [db [w log]], s' as [db' [w' log']]. intros E Ht.
  destruct (manual_effect gw digest _ _ _ _ _ _ _ _ _ _ _ _ Ht E) as (Ht' & Hc & Hlog). unfold books. cbn in *. apply rtc_once.
  destruct Hlog as [->|(x & -> & v & ->)]; [by apply Quiet|]. by apply Takes_manually.
Qed.

Lemma sync_calm merchant t db ws db' r :
  sync_transfer g merchant t (db, ws) = (db', r) → calm db db' ∧ operations db' = operations db.
Proof.
  unfold sync_transfer. destruct (gw_transfer _ _ _) as [x|e]; [|by intros [= <- <-]].
  destruct (negb _); [by intros [= <- <-]|].
  destruct (upsert_transfer_from_razorpay _ _ _ _ _ _) as [[db1 row]|e] eqn:E; intros [= <- <-]; [|done].
  by apply upsert_calm in E as (H1 & H2 & _).
Qed.

Lemma backfill_page_calm merchant items db : let r := backfill_page merchant items db in calm db r.1 ∧ operations r.1 = operations db.
Proof.
  cbn zeta. unfold backfill_page. generalize 0 as n. revert db. induction items as [|t items IH]; intros db n; [done|]. cbn [foldl fst snd].
  destruct (upsert_transfer_from_razorpay _ _ _ _ _ db) as [[db1 row]|e] eqn:E; [|apply IH].
  apply upsert_calm in E as (H1 & H2 & _). destruct (IH db1 (n + 1)) as [I1 I2]. split; [by etransitivity|congruence].
Qed.

Lemma backfill_calm fuel settlement merchant skip ws db n db' r :
  backfill_loop g fuel settlement merchant skip ws db n = Some (db', r) → calm db db' ∧ operations db' = operations db.
Proof.
  revert skip db n. induction fuel as [|fuel IH]; intros skip db n; cbn [backfill_loop]; [done|].
  destruct (gw_settled _ _ _ _ _) as [items|e]; [|by intros [= <- <-]]. case_bool_decide; [by intros [= <- <-]|].
  pose proof (backfill_page_calm merchant items db) as [Hc Ho]. destruct (backfill_page merchant items db) as [db1 k]. cbn in Hc, Ho.
  destruct (_ <? _)%nat; [by intros [= <- <-]|]. intros [I1 I2]%IH. split; [by etransitivity|congruence].
Qed.

Lemma step_moves s s' : route_step s s' → in_order (books s) → rtc move (books s) (books s').
Proof.
  intros [] Ht.
  - by eapply create_moves.
  - by eapply refund_moves.
  - by eapply manual_moves.
  - destruct s0 as [db ws]. destruct (sync_calm _ _ _ _ _ _ H) as [Hc Ho]. by apply quiet_moves.
  - destruct (backfill_calm _ _ _ _ _ _ _ _ _ H) as [Hc Ho]. by apply quiet_moves.
  - apply upsert_calm in H as (Hc & Ho & _). by apply quiet_moves.
  - apply rtc_once, Moves_outside; [|done]. unfold books, in_order in *. cbn in *. by rewrite (out_operations _ _ H).
Qed.

Lemma tracked_start db : operations db = ∅ → tracked (operations db) [].
Proof. intros ->. split; [apply map_Forall_empty|intros key; cbn; lia|done]. Qed.

(** An invariant of the moves holds after every run. *)
Lemma run_induction (P : route_db * list sent → Prop) :
  (∀ db, operations db = ∅ → priced db → P (db, [])) → (∀ b b', move b b' → in_order b → P b → P b') →
  ∀ s, route_run s → P (books s) ∧ in_order (books s).
Proof.
  intros H0 Hstep s (db & w & Ho & Hp & Hrun).
  assert (P (books (db, (w, []))) ∧ in_order (books (db, (w, [])))) as Hstart by (split; [by apply H0|by apply tracked_start]).
  revert Hstart. induction Hrun as [|s1 s2 s3 H _ IH]; [done|]. intros [HP Hio]. apply IH.
  pose proof (step_moves _ _ H Hio) as Hm. clear H IH. revert HP Hio.
  induction Hm as [|b1 b2 b3 H _ IH2]; [done|]. intros HP Hio. apply IH2; [by apply (Hstep b1)|by apply (move_in_order b1)].
Qed.

(** ** Sent once *)

Lemma due_kept b b' : move b b' → Forall (due b.1) b.2 → Forall (due b'.1) b'.2.
Proof.
  assert (∀ db db' log, calm db db' → Forall (due db) log → Forall (due db') log) as Hcalm.
  { intros db db' log Hc Hd. eapply Forall_impl; [exact Hd|]. intros s. by apply due_calm. }
  intros [db db' log Ht Hc|db db' log s Ht Hc Hs _|? row t db db' log v ? ? ? target s Ht Hc ? ? ?|t amount refund v db db' log s Ht Hc|db db' log Ht Ho] Hd;
    cbn in *; [by eapply Hcalm|apply Forall_app; split; [by eapply Hcalm|repeat constructor]..|].
  - by eapply due_calm.
  - eapply Forall_impl; [exact Hd|]. intros s. by apply due_outside.
Qed.

Lemma posted_due db payment x : due db x → posted payment x = true →
  ∃ row n, newest_payment payment db = Some row ∧ merchant_transfer_paise (PInt (rp_amount row)) = Ok n ∧
    under (transfer_key (rp_merchant row) payment n) x = true.
Proof.
  unfold due, posted, under. destruct (s_what x) as [p a n|]; [|by rewrite andb_false_r].
  intros (row & Hrow & Hn & _ & Hk) [He Ep%bool_decide_eq_true]%andb_prop. subst p. exists row, n. by rewrite He, Hk, bool_decide_eq_true_2.
Qed.

Lemma count_witness f log : count f log ≠ 0%nat → ∃ x, x ∈ log ∧ f x = true.
Proof.
  unfold count. intros H. destruct (filter _ log) as [|x l] eqn:E; [done|]. exists x.
  assert (x ∈ filter (λ s, f s = true) log) as [Hf Hx]%list_elem_of_filter by (rewrite E; by left). done.
Qed.

(** C23: in every run of the service's calls from empty books, in any order, with whatever
    answers of the gateway and changes of the other tables: each payment has at most one
    transfer sent that may exist, and whatever was sent is the merchant's share of the
    payment, at least 100 paise. *)
Theorem share_sent_once s payment :
  route_run s →
  (count (posted payment) s.2.2 <= 1)%nat ∧
  (∀ x account n, x ∈ s.2.2 → s_what x = Posted payment account n →
     ∃ row, newest_payment payment s.1 = Some row ∧ merchant_transfer_paise (PInt (rp_amount row)) = Ok n ∧ 100 <= n).
Proof.
  intros Hrun. destruct (run_induction (λ b, Forall (due b.1) b.2)) with (s := s) as [Hdue Hio]; [constructor|intros; by eapply due_kept|done|].
  unfold books, in_order in *. cbn in *. rewrite Forall_forall in Hdue. split.
  - destruct (decide (count (posted payment) s.2.2 = 0%nat)) as [->|(x & Hx & Hp)%count_witness]; [lia|].
    destruct (posted_due _ _ _ (Hdue x Hx) Hp) as (row & n & Hrow & Hn & _).
    etransitivity; [apply (count_le _ (under (transfer_key (rp_merchant row) payment n)))|apply Hio].
    intros y Hy Hpy. destruct (posted_due _ _ _ (Hdue y Hy) Hpy) as (row' & n' & Hrow' & Hn' & Hu).
    rewrite Hrow in Hrow'. injection Hrow' as <-. rewrite Hn in Hn'. by injection Hn' as <-.
  - intros x account n Hin Hx. specialize (Hdue x Hin). unfold due in Hdue. rewrite Hx in Hdue. destruct Hdue as (row & H1 & H2 & H3 & _). by exists row.
Qed.

(** ** Taken back *)

(** What the refunds of its payment took back from a transfer. *)
Definition taken (t : string) (s : sent) : Z :=
  match s_what s with
  | TakenBack t' (Some n) => if effective s && bool_decide (t' = t) && starts_with refund_prefix (s_key s) then n else 0
  | _ => 0
  end.
Definition back (t : string) (log : list sent) : Z := zsum (map (taken t) log).

(** A gateway that knows its transfers: an entity always belongs to the payment it is
    listed for, with the amount it was made with and no negative reversal. *)
Record lawful (payment_of : string → string) (amount_of : string → Z) : Prop := {
  law_listed payment t : listed payment t → payment_of (t_id t) = payment ∧ t_amount t = amount_of (t_id t) ∧ 0 <= shown t;
  law_amount id : 0 <= amount_of id < 10 ^ 18;
}.

Section Back.
Context (payment_of : string → string) (amount_of : string → Z) (law : lawful payment_of amount_of).

(** Nothing, or no more than an automatic reversal on the books aimed at, which is within
    the share of what is gone by now. *)
Definition within (db : route_db) (log : list sent) (t : string) : Prop :=
  back t log = 0 ∨
  0 < back t log ∧ ∃ key n row, auto (operations db) t key n ∧ back t log <= n ∧ newest_payment (payment_of t) db = Some row ∧
    0 < rp_amount row ∧ n <= floor_share (rp_amount row) (amount_of t) (gone (payment_of t) row db).

Lemma back_snoc t log s : back t (log ++ [s]) = back t log + taken t s.
Proof. unfold back. rewrite map_app, zsum_app. cbn. lia. Qed.

Lemma within_same db log log' t : back t log' = back t log → within db log t → within db log' t.
Proof. unfold within. by intros ->. Qed.

Lemma within_outside db db' log t : outside db db' → within db log t → within db' log t.
Proof using law.
  intros Ho [H|(Hb & key & n & row & Ha & Hn & Hrow & Hpos & Hle)]; [by left|right]. split; [done|].
  destruct (out_payment _ _ Ho _ _ Hrow) as (row' & Hrow' & Em & Ea). exists key, n, row'.
  split_and!; [unfold auto in *; by rewrite (out_operations _ _ Ho)|done..|by rewrite Ea|]. rewrite Ea. etransitivity; [exact Hle|].
  apply floor_share_mono; [done|apply law|]. unfold gone. rewrite Em. destruct (out_gone _ _ Ho (payment_of t) (rp_merchant row)). lia.
Qed.

Lemma within_calm db db' log t : calm db db' → within db log t → within db' log t.
Proof.
  intros Hc [H|(Hb & key & n & row & (Ha & Hs & Hk) & Hn & Hrow & Hpos & Hle)]; [by left|right]. split; [done|]. exists key, n, row.
  rewrite (gone_calm _ _ _ _ Hc), (newest_same _ _ _ (cm_payments _ _ Hc)). split_and!; try done. split; [by apply (cm_operations _ _ Hc)|done].
Qed.

Lemma floor_share_le g share c : 0 < g → 0 <= share → floor_share g share c <= share.
Proof.
  intros Hg Hs. unfold floor_share. apply Z.div_le_upper_bound; [done|]. apply Z.mul_le_mono_nonneg_r; lia.
Qed.

Lemma priced_calm db db' : calm db db' → priced db → priced db'.
Proof. intros [_ Hp _ _ _] H payment row. rewrite (newest_same _ _ _ Hp). apply H. Qed.

(** One automatic reversal keeps its transfer within bounds. *)
Lemma takes_within payment row t db db' log v :
  0 < rp_amount row → newest_payment payment db = Some row → listed payment t → calm db db' → shown t < target_of payment row t db →
  let target := target_of payment row t db in
  let s := {| s_what := TakenBack (t_id t) (Some (target - shown t)); s_key := refund_key (t_id t) target; s_verdict := v |} in
  (v ≠ Rejected → not_rejected (operations db') (refund_key (t_id t) target) (t_id t)) →
  (∀ key n, auto (operations db) (t_id t) key n → n <= shown t) →
  ∀ id, within db log id → within db' (log ++ [s]) id.
Proof using law.
  intros Hgross Hrow Hl Hc Hlt target s Hnew Hold id Hw.
  destruct (law_listed _ _ law _ _ Hl) as (Hof & Ham & Hsh).
  assert (back id (log ++ [s]) = back id log ∨ (v ≠ Rejected ∧ id = t_id t ∧ back id (log ++ [s]) = back id log + (target - shown t))) as Hb.
  { rewrite back_snoc. unfold taken, s, effective. cbn [s_what s_key s_verdict]. rewrite refund_key_prefix.
    destruct (decide (v = Rejected)) as [Hv|Hv]; [rewrite (bool_decide_eq_true_2 _ Hv); left; cbn; lia|].
    rewrite (bool_decide_eq_false_2 _ Hv). case_bool_decide; cbn; [right; by subst|left; lia]. }
  destruct Hb as [Hb|(Hv & -> & Hb)]; [apply (within_same _ log); [done|by apply (within_calm db)]|]. right. rewrite Hb.
  assert (back (t_id t) log <= shown t ∧ 0 <= back (t_id t) log) as [Hle Hnn].
  { destruct Hw as [->|(Hpos & key & n & row' & Ha & Hn & _)]; [lia|]. specialize (Hold key n Ha). lia. }
  split; [unfold target; lia|]. pose proof (law_amount _ _ law (t_id t)) as Hbound. 
  exists (refund_key (t_id t) target), target, row. rewrite Hof, (gone_calm _ _ _ _ Hc), (newest_same _ _ _ (cm_payments _ _ Hc)), <-Ham.
  split_and!; [|lia|done|done|done]. split; [by apply Hnew|]. split; [apply refund_key_prefix|apply refund_key_target].
  pose proof (floor_share_le (rp_amount row) (t_amount t) (gone payment row db) Hgross ltac:(lia)). unfold target, target_of in *. lia.
Qed.

Lemma within_kept b b' : move b b' → priced b.1 ∧ (∀ t, within b.1 b.2 t) → priced b'.1 ∧ (∀ t, within b'.1 b'.2 t).
Proof using law.
  intros [db db' log Ht Hc|db db' log s Ht Hc Hs Hn|payment row t db db' log v Hrow Hl Ha target s Ht Hc Hlt Hnew Hold
         |t amount refund v db db' log s Ht Hc|db db' log Ht Ho] [Hpr Hw]; cbn in *.
  - split; [by apply (priced_calm db)|]. intros t. by apply (within_calm db).
  - split; [by apply (priced_calm db)|]. intros t. apply (within_same _ log); [|by apply (within_calm db)].
    rewrite back_snoc. unfold taken. destruct (s_what s) as [|t' [n|]] eqn:E; [lia|by destruct (Hn t' (Some n))|lia].
  - split; [by apply (priced_calm db)|]. intros id. eapply takes_within; [|done..]. specialize (Hpr _ _ Hrow). lia.
  - split; [by apply (priced_calm db)|]. intros id. apply (within_same _ log); [|by apply (within_calm db)].
    rewrite back_snoc. unfold taken, s. cbn [s_what s_key]. destruct amount; [|lia]. rewrite manual_key_other, andb_false_r. lia.
  - split; [by apply Ho|]. intros t. by eapply within_outside.
Qed.

(** C24: in every run against a gateway that knows its transfers, the refunds of a payment
    take back from each transfer at most the transfer's part of what is refunded or lost by
    then, rounded down, so never more than the transfer: however refunds arrive and retries
    repeat, and even if answers are lost. *)
Theorem refunds_take_their_share s t :
  route_run s →
  back t s.2.2 = 0 ∨
  ∃ row, newest_payment (payment_of t) s.1 = Some row ∧
    0 < back t s.2.2 <= floor_share (rp_amount row) (amount_of t) (gone (payment_of t) row s.1) ∧
    back t s.2.2 <= amount_of t.
Proof using law.
  intros Hrun.
  destruct (run_induction (λ b, priced b.1 ∧ ∀ t, within b.1 b.2 t)) with (s := s) as [[Hpr Hw] _];
    [intros db _ Hp; split; [done|by left]|intros; by eapply within_kept|done|].
  destruct (Hw t) as [H|(Hb & key & n & row & _ & Hn & Hrow & Hpos & Hle)]; [by left|right]. unfold books in *. cbn [fst snd] in *. exists row.
  pose proof (floor_share_le (rp_amount row) (amount_of t) (gone (payment_of t) row s.1) Hpos (proj1 (law_amount _ _ law t))).
  split_and!; [done|lia..].
Qed.
End Back.
End Run.

(** ** Retries *)

Section Retry.
Context {W : Type} (gw : gateway W) (digest : body → string) (a : transfer_args).

(** The state after [n] attempts, the world moving by [env] before each. *)
Fixpoint attempts (env : nat → W → W) (n : nat) (s : route_db * W) : route_db * W :=
  match n with
  | O => s
  | S k => let (db, w) := attempts env k s in (create_transfer gw digest a (db, env k w)).1
  end.

(** The gateway shows the share at the linked account. *)
Definition shows (acct : account) (expected : Z) (w : W) : Prop :=
  ∃ items, gw_payment_transfers gw (ta_payment a) w = Ok items ∧
    let live := filter (λ t, not_failed t = true) items in
    live ≠ [] ∧ Forall (λ t, paid_to (ac_linked acct) t = true) live ∧ zsum (map t_amount live) = expected.

(** An intent is only open once its entitlement is saved. *)
Definition ready (expected : Z) (db : route_db) : Prop :=
  match allocations db !! ta_payment a with
  | Some al => al_merchant_paise al = expected
  | None => ∀ op, operations db !! transfer_key (ta_merchant a) (ta_payment a) expected = Some op → state op ≠ Unknown
  end.

Lemma checks_same db db' : accounts db' = accounts db → rzp_payments db' = rzp_payments db → transfer_checks a db' = transfer_checks a db.
Proof. intros Ha Hp. unfold transfer_checks, _existing_account, newest_payment. by rewrite Ha, Hp. Qed.

Lemma checks_account db acct row expected : transfer_checks a db = Ok (acct, row, expected) → ac_linked acct ≠ ""%string.
Proof.
  unfold transfer_checks. destruct (_existing_account _ _); [|done]. intros H. apply res_bind_Ok in H as (? & Hb%raise_if_Ok%bool_decide_eq_false & H).
  apply res_bind_Ok in H as (? & _ & H). destruct (newest_payment _ _); [|done].
  do 3 apply res_bind_Ok in H as (? & _ & H). apply res_bind_Ok in H as (? & _ & H). by injection H as <- _ _.
Qed.

Lemma adopt_keeps acct key existing db db' expected : adopt a acct key existing db = Ok db' → ready expected db →
  accounts db' = accounts db ∧ rzp_payments db' = rzp_payments db ∧ ready expected db'.
Proof.
  unfold adopt. intros H Hr. apply res_bind_Ok in H as (? & _ & H). destruct (allocations db !! ta_payment a) as [al|] eqn:Hal; [|by injection H as <-].
  apply res_bind_Ok in H as (? & _ & H). injection H as <-. unfold ready in *. destruct (operations db !! key); [|done].
  destruct (_ && _); [|done]. split_and!; [done..|]. cbn. by rewrite Hal in *.
Qed.

Lemma obtain_keeps db w db' w' r acct row expected :
  transfer_checks a db = Ok (acct, row, expected) → ready expected db → obtain_transfers gw digest a (db, w) = (db', w', r) →
  accounts db' = accounts db ∧ rzp_payments db' = rzp_payments db ∧ ready expected db'.
Proof.
  intros Hchk Hr. unfold obtain_transfers. rewrite Hchk. destruct (gw_payment_transfers _ _ _) as [remote|e]; [|by intros [= <- <- <-]].
  destruct (filter _ remote) as [|t ts].
  - destruct (refuse_send _ _ _ _ _); [|by intros [= <- <- <-]]. unfold send_transfer.
    destruct (guarded_mutation _ _ _ _ _) as [[ops w2] r2]. intros [= <- <- _].
    unfold allocate, ready in *. destruct (allocations db !! ta_payment a) as [al|] eqn:Hal; cbn; [by rewrite Hal|by rewrite lookup_insert_eq].
  - destruct (adopt _ _ _ _ _) as [db1|e] eqn:Ea; [|by intros [= <- <- <-]]. intros [= <- <- <-]. by eapply adopt_keeps.
Qed.

Lemma create_keeps db w acct row expected :
  transfer_checks a db = Ok (acct, row, expected) → ready expected db →
  let db' := (create_transfer gw digest a (db, w)).1.1 in transfer_checks a db' = Ok (acct, row, expected) ∧ ready expected db'.
Proof.
  intros Hchk Hr. cbn zeta. unfold create_transfer. destruct (obtain_transfers gw digest a (db, w)) as [[db1 w1] r1] eqn:E.
  destruct (obtain_keeps _ _ _ _ _ _ _ _ Hchk Hr E) as (Ha & Hp & Hr1). destruct r1 as [items|e]; [|cbn; by rewrite (checks_same db)].
  destruct (mirror_all_calm (ta_merchant a) (map (with_source (ta_payment a)) items) db1) as (Hc & Ho & Hal).
  destruct (mirror_all _ _ db1) as [db2 r2]. cbn in *. rewrite (checks_same db) by (rewrite ?(cm_accounts _ _ Hc), ?(cm_payments _ _ Hc); done).
  split; [done|]. unfold ready in *. by rewrite Hal, Ho.
Qed.

Lemma attempts_keep env n db w acct row expected :
  transfer_checks a db = Ok (acct, row, expected) → ready expected db →
  let db' := (attempts env n (db, w)).1 in transfer_checks a db' = Ok (acct, row, expected) ∧ ready expected db'.
Proof.
  intros Hchk Hr. cbn zeta. induction n as [|n [IH1 IH2]]; [done|]. cbn [attempts].
  destruct (attempts env n (db, w)) as [dbn wn]. by apply (create_keeps dbn _ acct row).
Qed.

(** Entities paid to a linked account can be stored. *)
Lemma mirror_all_Ok merchant acct items db : ac_linked acct ≠ ""%string → Forall (λ t, paid_to (ac_linked acct) t = true) items →
  ∃ db' rows, mirror_all merchant (map (with_source (ta_payment a)) items) db = (db', Ok rows) ∧ operations db' = operations db.
Proof.
  intros Hne Hf. revert db. induction Hf as [|t items Ht Hf IH]; intros db; [by exists db, []|]. cbn [map mirror_all].
  assert (∃ db1 row, upsert_transfer_from_razorpay (with_source (ta_payment a) t) (Some merchant) None None None db = Ok (db1, row)) as (db1 & row & E).
  { unfold upsert_transfer_from_razorpay. case_bool_decide; [by eexists _, _|]. apply bool_decide_eq_true in Ht.
    assert (recipient_of (with_source (ta_payment a) t) = Some (ac_linked acct)) as ->; [|by eexists _, _].
    unfold recipient_of. cbn. rewrite Ht. destruct (ac_linked acct) as [|c s] eqn:El; [done|]. reflexivity. }
  rewrite E. destruct (IH db1) as (db2 & rows & E2 & Ho). rewrite E2. eexists db2, _. split; [done|]. rewrite Ho. by apply upsert_calm in E as (_ & ? & _).
Qed.

(** C25: whatever the first attempts met (lost answers, errors, refusals), the first retry
    at which the gateway shows the share at the linked account succeeds without sending
    anything, and the operation no longer blocks the payment. *)
Theorem retries_end env k db w dbk wk acct row expected :
  transfer_checks a db = Ok (acct, row, expected) → ready expected db →
  attempts env k (db, w) = (dbk, wk) → shows acct expected (env k wk) →
  ∃ db' rows, create_transfer gw digest a (dbk, env k wk) = (db', env k wk, Ok rows) ∧
    (∀ op, operations db' !! transfer_key (ta_merchant a) (ta_payment a) expected = Some op → resource_key op = ta_payment a → state op ≠ Unknown).
Proof.
  intros Hchk0 Hr0 E. destruct (attempts_keep env k db w acct row expected Hchk0 Hr0) as [Hchk Hr].
  rewrite E in *. cbn [fst] in *. intros (items & Hi & Hne & Hpaid & Hsum).
  unfold create_transfer, obtain_transfers. rewrite Hchk, Hi. destruct (filter (λ t, not_failed t = true) items) as [|t ts] eqn:El; [done|].
  pose proof (checks_account _ _ _ _ Hchk) as Hacct. unfold ready in Hr. unfold adopt.
  assert (negb (forallb (paid_to (ac_linked acct)) (t :: ts)) = false) as ->
    by (apply negb_false_iff, Is_true_true, forallb_True; eapply Forall_impl; [exact Hpaid|]; intros x; by rewrite Is_true_true).
  cbn [raise_if]. rewrite bind_Ok. destruct (allocations dbk !! ta_payment a) as [al|].
  - rewrite Hsum, Hr, Z.eqb_refl. cbn [negb raise_if]. rewrite bind_Ok.
    match goal with |- context [mirror_all _ _ ?d] => destruct (mirror_all_Ok (ta_merchant a) acct (t :: ts) d Hacct Hpaid) as (db' & rows & -> & Ho) end.
    exists db', rows. split; [done|]. rewrite Ho. intros op Hop Hres Hs.
    destruct (operations dbk !! _) as [op0|] eqn:E0; [|congruence]. destruct (_ && _) eqn:Eb.
    + cbn in Hop. rewrite lookup_insert_eq in Hop. injection Hop as <-. done.
    + rewrite E0 in Hop. injection Hop as ->. by rewrite !bool_decide_eq_true_2 in Eb.
  - destruct (mirror_all_Ok (ta_merchant a) acct (t :: ts) dbk Hacct Hpaid) as (db' & rows & -> & Ho).
    exists db', rows. split; [done|]. rewrite Ho. intros op Hop _. by apply Hr.
Qed.
End Retry.

(** ** Mirrors *)

Lemma coalesce_again {A} (x y : option A) : coalesce x (coalesce x y) = coalesce x y.
Proof. by destruct x. Qed.
Lemma coalesce_kept {A} (x y : option A) : coalesce (coalesce x y) y = coalesce x y.
Proof. by destruct x, y. Qed.
Lemma coalesce_diag {A} (x : option A) : coalesce x x = x.
Proof. by destruct x. Qed.

#[local] Hint Rewrite @coalesce_again @coalesce_kept @coalesce_diag : merge.

Lemma merge_again old new : merge_mirror (merge_mirror old new) new = merge_mirror old new.
Proof.
  unfold merge_mirror. cbn. autorewrite with merge. f_equal. destruct (decide (m_merchant old = platform_merchant)) as [E|E].
  - rewrite (bool_decide_eq_true_2 (m_merchant old = _)) by done. by destruct (bool_decide _).
  - by rewrite !(bool_decide_eq_false_2 (m_merchant old = _)).
Qed.

Lemma merge_self new : merge_mirror new new = new.
Proof. destruct new. unfold merge_mirror. cbn. autorewrite with merge. f_equal. by destruct (bool_decide _). Qed.

Lemma upsert_lookup t m s r v db db' row id :
  upsert_transfer_from_razorpay t m s r v db = Ok (db', row) → id ≠ t_id t → mirrors db' !! id = mirrors db !! id.
Proof.
  unfold upsert_transfer_from_razorpay. case_bool_decide; [by intros [= <- <-]|]. destruct (recipient_of t); [|done].
  intros [= <- <-] Hne. cbn. by rewrite lookup_insert_ne.
Qed.

(** A transfer webhook delivered twice changes what it changed the first time and
    nothing more, and no entity moves a mirrored transfer from the merchant it is
    attributed to. *)
Theorem mirror_is_idempotent t merchant status refund reversal_of db db' row :
  upsert_transfer_from_razorpay t merchant status refund reversal_of db = Ok (db', row) →
  upsert_transfer_from_razorpay t merchant status refund reversal_of db' = Ok (db', row) ∧
  (∀ id m, mirrors db !! id = Some m → m_merchant m ≠ platform_merchant →
     ∃ m', mirrors db' !! id = Some m' ∧ m_merchant m' = m_merchant m).
Proof.
  intros E. split.
  - unfold upsert_transfer_from_razorpay in *. case_bool_decide; [by injection E as <- <-|]. destruct (recipient_of t) as [rc|]; [|done].
    injection E as <- <-. cbn [mirrors with_mirrors]. rewrite lookup_insert_eq.
    change (mirror_of t merchant status refund reversal_of rc (with_mirrors db ?x)) with (mirror_of t merchant status refund reversal_of rc db).
    set (new := mirror_of _ _ _ _ _ _ _). assert (∀ o, merge_mirror (match o with Some old => merge_mirror old new | None => new end) new
      = match o with Some old => merge_mirror old new | None => new end) as -> by (intros [old|]; [apply merge_again|apply merge_self]).
    unfold with_mirrors. cbn. by rewrite insert_insert_eq.
  - intros id m Hm Hne. destruct (decide (id = t_id t)) as [->|Hid]; [|exists m; by rewrite (upsert_lookup _ _ _ _ _ _ _ _ _ E Hid)].
    unfold upsert_transfer_from_razorpay in E. case_bool_decide; [injection E as <- <-; by exists m|]. destruct (recipient_of t) as [rc|]; [|done].
    rewrite Hm in E. injection E as <- <-. eexists. cbn. rewrite lookup_insert_eq. split; [done|]. unfold merge_mirror. cbn. by rewrite bool_decide_eq_false_2.
Qed.

(** *** Backfill *)

Section Backfill.
Context {W : Type} (gw : gateway W) (merchant : option string).

Definition store (acc : route_db * Z) (t : transfer) : route_db * Z :=
  match upsert_transfer_from_razorpay t merchant None None None acc.1 with
  | Ok (db', _) => (db', acc.2 + 1)
  | Err _ => acc
  end.

Lemma store_counts items db n : foldl store (db, n) items = let r := backfill_page merchant items db in (r.1, n + r.2).
Proof.
  unfold backfill_page. fold store. cut (∀ m, foldl store (db, n + m) items = ((foldl store (db, m) items).1, n + (foldl store (db, m) items).2)).
  { intros H. specialize (H 0). rewrite Z.add_0_r in H. exact H. }
  revert db. induction items as [|t items IH]; intros db m; [done|]. cbn [foldl].
  unfold store at 2 4 6. cbn. destruct (upsert_transfer_from_razorpay _ _ _ _ _ db) as [[db1 row]|e]; [|apply IH].
  rewrite <-Z.add_assoc. apply IH.
Qed.

Lemma backfill_page_app l k db :
  backfill_page merchant (l ++ k) db = let r := backfill_page merchant l db in let q := backfill_page merchant k r.1 in (q.1, r.2 + q.2).
Proof.
  unfold backfill_page at 1. fold store. rewrite foldl_app, store_counts. cbn zeta. rewrite Z.add_0_l.
  destruct (backfill_page merchant l db) as [db1 n]. apply store_counts.
Qed.

Lemma backfill_loop_all settlement all w fuel skip db n :
  (∀ k, gw_settled gw settlement page k w = Ok (take page (drop k all))) →
  (length all - skip < fuel * page)%nat →
  backfill_loop gw fuel settlement merchant skip w db n
  = let r := backfill_page merchant (drop skip all) db in Some (r.1, Ok (n + r.2)).
Proof.
  intros Hlaw. revert skip db n. induction fuel as [|fuel IH]; intros skip db n Hf; [lia|]. cbn [backfill_loop]. rewrite Hlaw.
  case_bool_decide as Hnil.
  { assert (drop skip all = []) as ->; [|cbn; by rewrite Z.add_0_r].
    destruct (drop skip all); [done|]. unfold page in Hnil. done. }
  destruct (Nat.ltb_spec (length (take page (drop skip all))) page) as [Hlt|Hge].
  - rewrite length_take, length_drop in Hlt. rewrite take_ge by (rewrite length_drop; lia).
    destruct (backfill_page merchant (drop skip all) db) as [db1 k]. done.
  - rewrite length_take, length_drop in Hge. destruct (backfill_page merchant (take page (drop skip all)) db) as [db1 k] eqn:E.
    rewrite (IH (skip + page)%nat) by lia. rewrite <-(take_drop page (drop skip all)), backfill_page_app, E. cbn [fst snd].
    rewrite drop_drop. destruct (backfill_page merchant (drop (skip + page) all) db1) as [db2 m]. cbn. by rewrite Z.add_assoc.
Qed.

Lemma backfill_page_other items db id : id ∉ map t_id items → mirrors (backfill_page merchant items db).1 !! id = mirrors db !! id.
Proof.
  unfold backfill_page. generalize 0 as n. revert db. induction items as [|t items IH]; intros db n Hid; [done|].
  cbn [map] in Hid. apply not_elem_of_cons in Hid as [Ht Hid]. cbn [foldl fst snd].
  destruct (upsert_transfer_from_razorpay _ _ _ _ _ db) as [[db1 row]|e] eqn:E; rewrite IH by done; [|done]. by eapply upsert_lookup.
Qed.

(** C39: with a gateway that serves a settlement's transfers in pages, the backfill ends
    within one round more than there are full pages, having seen every transfer once, and
    each transfer it can store carries the settlement its entity names. *)
Theorem backfill_sees_everything settlement all w fuel db :
  (∀ k, gw_settled gw settlement page k w = Ok (take page (drop k all))) → (length all < fuel * page)%nat → NoDup (map t_id all) →
  ∃ db' n, backfill_transfer_settlement_links gw fuel settlement merchant w db = Some (db', Ok n) ∧
    (db', n) = backfill_page merchant all db ∧
    ∀ t s, t ∈ all → t_id t ≠ ""%string → recipient_of t ≠ None → or_str (t_recipient_settlement_id t) (t_settlement_id t) = Some s →
      ∃ m, mirrors db' !! t_id t = Some m ∧ m_settlement m = Some s.
Proof.
  intros Hlaw Hf Hnd. eexists _, _. unfold backfill_transfer_settlement_links. rewrite (backfill_loop_all _ all) by (done || lia).
  cbn zeta. rewrite drop_0, Z.add_0_l. split; [done|]. split; [by destruct (backfill_page merchant all db)|].
  intros t s (l & k & ->)%list_elem_of_split Hid Hrec Hs. rewrite map_app in Hnd. cbn [map] in Hnd. apply NoDup_app in Hnd as (_ & _ & Hnd).
  apply NoDup_cons in Hnd as [Hk _]. rewrite (backfill_page_app l (t :: k)). cbn zeta. cbn [fst]. set (db1 := (backfill_page merchant l db).1).
  change (t :: k) with ([t] ++ k). rewrite backfill_page_app. cbn zeta. cbn [fst]. rewrite backfill_page_other by done.
  unfold backfill_page. cbn [foldl fst]. unfold upsert_transfer_from_razorpay. rewrite bool_decide_eq_false_2 by done.
  destruct (recipient_of t) as [rc|]; [|done]. eexists. cbn. rewrite lookup_insert_eq. split; [done|].
  destruct (mirrors db1 !! t_id t) as [old|]; cbn; by rewrite Hs.
Qed.
End Backfill.

(** ** Examples *)

(** A gateway that takes transfers but loses the answers, and shows them when it likes:
    the world maps a payment to what is reversed of its transfer. *)
Definition demo_world : Type := gmap string N * bool.
Definition demo_id (payment : string) : string := ("trf_" ++ payment)%string.
Definition demo_payment_of (id : string) : string := of_chars (drop 4 (chars id)).
Definition demo_transfer (payment : string) (reversed : N) (status : string) : transfer := {|
  t_id := demo_id payment; t_recipient := Account "acc_1"; t_recipient_account_id := None; t_account := None; t_amount := 9500;
  t_currency := Some "INR"%string; t_status := Some status; t_transfer_status := None; t_amount_reversed := Some (Z.of_N reversed);
  t_on_hold := false; t_on_hold_until := None; t_fees := None; t_tax := None; t_processed_at := None; t_created_at := Some 5;
  t_reversed_at := None; t_source := Some payment; t_razorpay_payment_id := None; t_source_account_id := None;
  t_recipient_settlement_id := Some "setl_1"%string; t_settlement_id := None |}.
Definition demo_settled : list transfer := [demo_transfer "pay_1" 0 "processed"; demo_transfer "pay_2" 0 "processed"].
Definition demo_gateway : gateway demo_world := {|
  gw_payment_transfers p (w : demo_world) := Ok (if w.2 then match w.1 !! p with Some n => [demo_transfer p n "processed"] | None => [] end else []);
  gw_order_transfers _ _ := Ok [];
  gw_transfer t (w : demo_world) := match w.1 !! demo_payment_of t with Some n => Ok (demo_transfer (demo_payment_of t) n "processed") | None => Err (NotFoundError "transfer") end;
  gw_settled _ n skip _ := Ok (take n (drop skip demo_settled));
  gw_create p _ _ (w : demo_world) := ((<[p := 0%N]> w.1, w.2), Err (RazorpayAPIError 504));
  gw_reverse t n _ (w : demo_world) := ((alter (λ r, N.add r (Z.to_N (default 9500 n))) (demo_payment_of t) w.1, w.2), Ok ()) |}.
Definition demo_digest (b : body) : string :=
  match b with
  | CreateBody b => "create " ++ int_text (cb_amount b)
  | RefundReversalBody n target => "refund " ++ int_text n ++ " " ++ int_text target
  | ReversalBody n _ => "reverse " ++ int_text (default 0 n)
  end%string.

Definition demo_account (status : string) : account := {|
  ac_linked := "acc_1"; ac_merchant := "m1"; ac_status := status; ac_product := Some "acc_prd"%string;
  ac_product_status := Some "activated"%string; ac_requested_at := None; ac_activated_at := None; ac_tnc_at := None |}.
Definition demo_row : rzp_payment := {|
  rp_id := "pay_1"; rp_merchant := "m1"; rp_amount := 10000; rp_currency := "INR"; rp_captured := true; rp_order := None; rp_internal_order := None |}.
Definition demo_db : route_db := {|
  accounts := [demo_account "created"]; rzp_payments := [demo_row]; rzp_refunds := []; lost_disputes := [];
  allocations := ∅; operations := ∅; mirrors := ∅ |}.
Definition demo_args : transfer_args := {|
  ta_merchant := "m1"; ta_payment := "pay_1"; ta_amount := 9500; ta_currency := "INR"; ta_on_hold := false; ta_on_hold_until := None; ta_notes := [] |}.

Definition with_refund (r : rzp_refund) (db : route_db) : route_db := {|
  accounts := accounts db; rzp_payments := rzp_payments db; rzp_refunds := rzp_refunds db ++ [r]; lost_disputes := lost_disputes db;
  allocations := allocations db; operations := operations db; mirrors := mirrors db |}.

Lemma refund_outside r db : 0 <= rr_amount r → outside db (with_refund r db).
Proof.
  intros Hr. split; [done|intros payment row H; by exists row|done|]. intros payment merchant. split; [|done].
  unfold refunded_paise. cbn [rzp_refunds with_refund]. rewrite sum_where_snoc. case_match; lia.
Qed.

Lemma outside_refl db : outside db db.
Proof. split; [done|intros payment row H; by exists row|done|done]. Qed.

Lemma demo_lawful : lawful demo_gateway demo_payment_of (λ _, 9500).
Proof.
  split; [|done]. intros payment t ([m b] & items & Hi & Hin). cbn in Hi. injection Hi as <-.
  destruct b; [|by apply elem_of_nil in Hin]. destruct (m !! payment) as [n|]; [|by apply elem_of_nil in Hin].
  apply list_elem_of_singleton in Hin as ->. split_and!; [|done|unfold shown; cbn; lia].
  unfold demo_payment_of. cbn [t_id demo_transfer]. unfold demo_id. rewrite chars_app. change (drop 4 _) with (chars payment). apply of_chars_chars.
Qed.

Lemma demo_priced : priced demo_db.
Proof.
  intros payment row. unfold newest_payment. cbn [rzp_payments demo_db]. rewrite filter_cons, filter_nil. case_decide; [by intros [= <-]; cbn|done].
Qed.

(** The first send times out; then the gateway shows the transfer and half is refunded. *)
Definition demo_log_gateway := with_log demo_gateway.
Definition after_send : route_db * (demo_world * list sent) := (create_transfer demo_log_gateway demo_digest demo_args (demo_db, ((∅, false), []))).1.
Definition after_retry : route_db * (demo_world * list sent) :=
  (create_transfer demo_log_gateway demo_digest demo_args (after_send.1, ((after_send.2.1.1, true), after_send.2.2))).1.
Definition half_refund : rzp_refund := {| rr_payment := "pay_1"; rr_amount := 5000; rr_status := "processed" |}.
Definition after_refund : route_db * (demo_world * list sent) :=
  (reverse_refunded_share demo_log_gateway demo_digest "pay_1" (with_refund half_refund after_retry.1, after_retry.2)).1.

Lemma step_outside {W} (gw : gateway W) digest (s : route_db * (W * list sent)) db' w' :
  outside s.1 db' → route_step gw digest s (db', (w', s.2.2)).
Proof. destruct s as [db [w log]]. apply Elsewhere. Qed.

Lemma demo_run : route_run demo_gateway demo_digest after_refund.
Proof.
  exists demo_db, (∅, false). split; [done|]. split; [apply demo_priced|].
  eapply rtc_l; [apply (Creates _ _ demo_args _ after_send _ (surjective_pairing _))|].
  eapply rtc_l; [apply (step_outside _ _ after_send after_send.1 (after_send.2.1.1, true)), outside_refl|].
  eapply rtc_l; [apply (Creates _ _ demo_args _ after_retry _ (surjective_pairing _))|].
  eapply rtc_l; [apply (step_outside _ _ after_retry (with_refund half_refund after_retry.1) after_retry.2.1), refund_outside; done|].
  apply rtc_once. rewrite <-(surjective_pairing after_retry.2). apply (Refunds _ _ "pay_1" _ after_refund _ (surjective_pairing _)).
Qed.

Example half_is_taken_back : map s_what after_refund.2.2 = [Posted "pay_1" "acc_1" 9500; TakenBack "trf_pay_1" (Some 4750)].
Proof. vm_compute. reflexivity. Qed.

Lemma share_sent_once_witness : (count (posted "pay_1") after_refund.2.2 <= 1)%nat.
Proof. apply (share_sent_once demo_gateway demo_digest after_refund "pay_1" demo_run). Defined.

Lemma refunds_take_their_share_witness : back "trf_pay_1" after_refund.2.2 <= 9500.
Proof.
  destruct (refunds_take_their_share demo_gateway demo_digest demo_payment_of (λ _, 9500) demo_lawful after_refund "trf_pay_1" demo_run)
    as [H|(row & _ & _ & H)]; [rewrite H; done|exact H].
Defined.

(** The answers stay lost until the gateway shows the transfer at the third attempt. *)
Definition slow_gateway (n : nat) (w : demo_world) : demo_world := (w.1, (2 <=? n)%nat).

Definition third_attempt : route_db * demo_world := attempts demo_gateway demo_digest demo_args slow_gateway 2 (demo_db, (∅, false)).

Lemma third_attempt_shown : shows demo_gateway demo_args (demo_account "created") 9500 (slow_gateway 2 third_attempt.2).
Proof.
  exists [demo_transfer "pay_1" 0 "processed"]. split; [vm_compute; reflexivity|]. split; [vm_compute; discriminate|].
  split; [repeat constructor|vm_compute; reflexivity].
Qed.

Lemma retries_end_witness : ∃ db' rows,
  create_transfer demo_gateway demo_digest demo_args (third_attempt.1, slow_gateway 2 third_attempt.2)
  = (db', slow_gateway 2 third_attempt.2, Ok rows).
Proof.
  destruct (retries_end demo_gateway demo_digest demo_args slow_gateway 2 demo_db (∅, false) third_attempt.1 third_attempt.2
              (demo_account "created") demo_row 9500) as (db' & rows & Hok & _);
    [vm_compute; reflexivity|vm_compute; intros op H; discriminate H|exact (surjective_pairing third_attempt)|exact third_attempt_shown|].
  exists db', rows. exact Hok.
Defined.

Lemma mirror_is_idempotent_witness : ∃ db' row,
  upsert_transfer_from_razorpay (demo_transfer "pay_1" 0 "processed") (Some "m1"%string) None None None demo_db = Ok (db', row) ∧
  upsert_transfer_from_razorpay (demo_transfer "pay_1" 0 "processed") (Some "m1"%string) None None None db' = Ok (db', row).
Proof.
  eexists _, _. split; [reflexivity|]. eapply (mirror_is_idempotent (demo_transfer "pay_1" 0 "processed") (Some "m1"%string) None None None demo_db). reflexivity.
Defined.

Lemma backfill_sees_everything_witness : ∃ db', 
  backfill_transfer_settlement_links demo_gateway 1 "setl_1" None (∅, true) demo_db = Some (db', Ok 2) ∧
  ∃ m, mirrors db' !! "trf_pay_2"%string = Some m ∧ m_settlement m = Some "setl_1"%string.
Proof.
  destruct (backfill_sees_everything demo_gateway None "setl_1" demo_settled (∅, true) 1 demo_db) as (db' & n & H & Hall & Hs);
    [reflexivity|unfold page; cbn; lia|repeat (constructor; [vm_compute; set_solver|]); constructor|].
  exists db'. split.
  - rewrite H. assert (n = 2) as ->; [|done]. apply (f_equal snd) in Hall. vm_compute in Hall. exact Hall.
  - apply (Hs (demo_transfer "pay_2" 0 "processed") "setl_1"%string); [right; left|discriminate|discriminate|reflexivity].
Defined.

(** A transfer that fails after the gateway accepted it is never sent again: the stored
    answer is replayed as a success. *)
Definition accepted : operation reply := {|
  request_hash := "create 9500"; resource_key := "pay_1"; state := Succeeded; response := Some (Transfers [demo_transfer "pay_1" 0 "created"]) |}.
Definition failing_gateway : gateway () := {|
  gw_payment_transfers p w := Ok [demo_transfer p 0 "failed"]; gw_order_transfers _ _ := Ok []; gw_transfer t w := Err (NotFoundError "transfer");
  gw_settled _ _ _ _ := Ok []; gw_create _ _ _ w := (w, Ok []); gw_reverse _ _ _ w := (w, Ok ()) |}.
Example failed_transfer_is_replayed :
  let r := create_transfer failing_gateway demo_digest demo_args
             (with_operations demo_db {[ transfer_key "m1" "pay_1" 9500 := accepted ]}, ()) in
  match r.2 with Ok rows => map m_status rows = ["created"%string] | Err _ => False end ∧
  operations r.1.1 = {[ transfer_key "m1" "pay_1" 9500 := accepted ]}.
Proof. vm_compute. split; reflexivity. Qed.

(** A rejected account still gets the split of a payment intent. *)
Example rejected_account_is_offered :
  let db := with_accounts demo_db [demo_account "rejected"] in
  get_active_linked_account_id (Some "m1"%string) db = Some "acc_1"%string ∧
  assert_settlement_ready (Some "m1"%string) db = Err (PermissionError "merchant_not_settlement_ready: linked_account_status=").
Proof. vm_compute. split; reflexivity. Qed.

(** A late notification undoes the status of a mirror. *)
Definition status_after (statuses : list string) : option string :=
  m_status <$> mirrors (foldl (λ db st, match upsert_transfer_from_razorpay (demo_transfer "pay_1" 0 st) None None None None db with
                                        | Ok (db', _) => db' | Err _ => db end) demo_db statuses) !! "trf_pay_1"%string.
Example late_notification_wins : status_after ["created"; "reversed"; "processed"]%string = Some "processed"%string.
Proof. vm_compute. reflexivity. Qed.

(** Two partial reversals of the same amount are one: the second sends nothing. *)
Definition two_reversals : list sent :=
  let ask s := (reverse_transfer demo_log_gateway demo_digest "m1" "trf_pay_1" (Some 1000) [] None s).1 in
  (ask (ask (create_transfer demo_log_gateway demo_digest demo_args (demo_db, (({[ "pay_1"%string := 0%N ]}, true), []))).1)).2.2.
Example equal_reversals_are_one : map s_what two_reversals = [TakenBack "trf_pay_1" (Some 1000)].
Proof. vm_compute. reflexivity. Qed.

(** An entity without a source erases the payment of its mirror: the statement keeps the old
    value for NULL, but the code writes an empty string. *)
Definition without_source (t : transfer) : transfer := {|
  t_id := t_id t; t_recipient := t_recipient t; t_recipient_account_id := t_recipient_account_id t; t_account := t_account t;
  t_amount := t_amount t; t_currency := t_currency t; t_status := t_status t; t_transfer_status := t_transfer_status t;
  t_amount_reversed := t_amount_reversed t; t_on_hold := t_on_hold t; t_on_hold_until := t_on_hold_until t; t_fees := t_fees t;
  t_tax := t_tax t; t_processed_at := t_processed_at t; t_created_at := t_created_at t; t_reversed_at := t_reversed_at t;
  t_source := None; t_razorpay_payment_id := None; t_source_account_id := t_source_account_id t;
  t_recipient_settlement_id := t_recipient_settlement_id t; t_settlement_id := t_settlement_id t |}.
Example missing_source_erases_payment :
  let store db t := match upsert_transfer_from_razorpay t None None None None db with Ok (db', _) => db' | Err _ => db end in
  let t := demo_transfer "pay_1" 0 "created" in
  m_payment <$> mirrors (store (store demo_db t) (without_source t)) !! "trf_pay_1"%string = Some ""%string.
Proof. vm_compute. reflexivity. Qed.
