(* ===== verification/Orders.v ===== *)
(** Orders and checkout: [src/app/services/order_service.py], the tenant fields of
    [src/app/core/tenant.py] and the payment-death handler of
    [src/app/services/order_status_handlers.py].

    The tables are those of migrations 001, 029, 058, 065 and 066: money columns are
    NUMERIC with two decimals, kept as paise; order and payment ids are the UUIDs the
    call draws.  A query without ORDER BY returns the first matching row of its table.
    Prices come from a [menu] that other services edit, so each call is given the
    menu it reads.  The merchant ledger is known through [LedgerApi].  The gateway
    intent of [razorpay/payment_intent.py] and the constraints the deployed payments
    table has beyond the migrations are parameters.  The read of the stored order that
    [update_order] ends with, the listings and the log lines are left out. *)

From Stdlib Require Import ZArith Lia Ascii String.
From S2P Require Import Prelude PyDecimal PyFloat PyValues TaxEngine StateMachines FeePolicy MerchantLedger RazorpayLedgers.
Open Scope Z_scope.

(** ** The menu *)

Record item := {
  i_id : Z;
  i_name : string;
  i_price : Z;
  i_available : bool;
  i_gst_rate : Z;           (* hundredths of a percent *)
  i_tax_inclusive : bool;
  i_user : option string;
}.

Record variant := { v_id : Z; v_item : Z; v_name : string; v_price : Z; v_active : bool }.
Record addon := { a_id : Z; a_item : Z; a_price : Z; a_active : bool }.

(** The code reads a column [times_used]; [None] when the table has none. *)
Record coupon := {
  c_id : Z;
  c_user : string;
  c_active : bool;
  c_from : option Z;
  c_until : option Z;
  c_type : string;
  c_discount_value : Z;
  c_min_order_value : option Z;
  c_max_discount : option Z;
  c_usage_limit : option Z;
  c_times_used : field Z;
}.

(** Migration 057 drops the coupons table: [coupons] is then [None]. *)
Record menu := {
  items : list item;
  variants : list variant;
  addons : list addon;
  coupons : option (list coupon);
  settings : string → option settings_row;
}.

(** ** Requests *)

Record UserContext := {
  user_id : string;
  role : string;
  restaurant_id : option string;
  branch_id : option string;
  owner_id : option string;
  is_branch_user : bool;
}.

(** [user.owner_id if user.is_branch_user else user.user_id] *)
Definition owner_of (u : UserContext) : option string :=
  if is_branch_user u then owner_id u else Some (user_id u).

Record tenant_fields := { t_user : option string; t_branch : option string }.

Definition tenant_insert_fields (u : UserContext) : tenant_fields :=
  {| t_user := owner_of u; t_branch := if str_truthy (branch_id u) then branch_id u else None |}.

(** An addon of the request: a flat object, a value, or a list. *)
Inductive addon_in :=
  | AddonDict (fields : list (string * pyval))
  | AddonValue (v : pyval)
  | AddonList.

Record entry_in := {
  e_item_name : option string;
  e_item_id : option Z;
  e_quantity : Z;
  e_variant_name : option string;
  e_variant_id : option Z;
  e_addons : list addon_in;
  e_notes : option string;
}.

Record request := {
  q_items : list entry_in;
  q_source : string;
  q_order_type : option string;
  q_payment_method : option string;
  q_total_amount : option float64;
  q_customer_id : option Z;
  q_customer_name : option string;
  q_customer_phone : option string;
  q_table_number : option string;
  q_delivery_address : option string;
  q_coupon_id : option Z;
  q_notes : option string;
  q_idempotency_key : option string;
}.

(** What a call draws: the UUIDs, the wall clock (microseconds), the monotonic clock
    (nanoseconds) and the stamp of its ledger transaction. *)
Record draw := { d_order : string; d_payment : string; d_now : Z; d_mono : Z; d_stamp : stamp }.

Definition id_truthy (x : option Z) : bool := match x with Some z => negb (z =? 0) | None => false end.

(** An [integer] parameter: asyncpg refuses what four bytes do not hold. *)
Definition int4 (z : Z) : res Z :=
  if (- 2 ^ 31 <=? z) && (z <? 2 ^ 31) then Ok z else Err (ValueError "value out of int32 range").

(** ** Looking up what is sold *)

Definition owned_by (u : option string) (owner : option string) : bool :=
  match u, owner with Some a, Some b => bool_decide (a = b) | _, _ => false end.

Section Lookup.
Variable m : menu.
Variable owner : option string.

Definition _lookup_item (item_id : option Z) (item_name : option string) : res item :=
  by_id ← (if id_truthy item_id then
             id ← int4 (default 0 item_id);
             Ok (find (λ i, (i_id i =? id) && owned_by (i_user i) owner) (items m))
           else Ok None);
  let row := match by_id with
             | Some i => Some i
             | None => if str_truthy item_name
                       then find (λ i, bool_decide (Some (i_name i) = item_name) && owned_by (i_user i) owner) (items m)
                       else None
             end in
  match row with
  | None => Err (NotFoundError "Item")
  | Some i => _ ← raise_if (negb (i_available i)) (ValidationError "Item '"); Ok i
  end.

(** [item_variants JOIN items] *)
Definition variant_rows : list (variant * item) :=
  omap (λ v, pair v <$> find (λ i, i_id i =? v_item v) (items m)) (variants m).

(** The row an entry is priced from, as the loop of [_create_order_txn] keeps it:
    price, item, variant, full name and the (possibly filled in) item name. *)
Record picked := {
  pk_price : Z;
  pk_item : item;
  pk_variant : option Z;
  pk_full_name : string;
  pk_item_name : option string;
}.

Definition of_variant (e : entry_in) (r : variant * item) : picked := {|
  pk_price := v_price r.1; pk_item := r.2; pk_variant := Some (v_id r.1);
  pk_full_name := (i_name r.2 ++ " (" ++ v_name r.1 ++ ")")%string; pk_item_name := e_item_name e |}.

Definition of_item (item_name : option string) (i : item) : picked := {|
  pk_price := i_price i; pk_item := i; pk_variant := None; pk_full_name := i_name i;
  pk_item_name := item_name |}.

Definition pick_row (e : entry_in) : res picked :=
  if id_truthy (e_variant_id e) then
    id ← int4 (default 0 (e_variant_id e));
    match find (λ r, (v_id r.1 =? id) && v_active r.1) variant_rows with
    | Some r => Ok (of_variant e r)
    | None => Err (NotFoundError "Variant")
    end
  else if str_truthy (e_variant_name e) then
    match find (λ r, bool_decide (Some (v_name r.1) = e_variant_name e)
                     && bool_decide (Some (i_name r.2) = e_item_name e) && v_active r.1) variant_rows with
    | Some r => Ok (of_variant e r)
    | None => i ← _lookup_item (e_item_id e) (e_item_name e); Ok (of_item (e_item_name e) i)
    end
  else
    i ← _lookup_item (e_item_id e) (e_item_name e);
    Ok (of_item (if str_truthy (e_item_name e) then e_item_name e else Some (i_name i)) i).

(** [int(v)], [None] for a TypeError or a ValueError. *)
Definition int_of (v : pyval) : option Z :=
  match v with
  | PNone => None
  | PBool b => Some (Z.b2z b)
  | PInt z => Some z
  | PFloat f => Some (Z.quot (fmant f * 2 ^ Z.max 0 (fexp f)) (2 ^ Z.max 0 (- fexp f)))
  | PDec d => Some (Z.quot (coef d * 10 ^ Z.max 0 (dexp d)) (10 ^ Z.max 0 (- dexp d)))
  | PStr s _ => py_int s
  end.

Definition addon_id (a : addon_in) : res Z :=
  let id := match a with
            | AddonDict l => int_of (default PNone (snd <$> find (λ f, bool_decide (f.1 = "id"%string)) l))
            | AddonValue v => int_of v
            | AddonList => None
            end in
  match id with Some z => Ok z | None => Err (ValidationError "Invalid addon id: ") end.

Definition find_addon (item_id : Z) (id : Z) : option addon :=
  find (λ a, (a_id a =? id) && (a_item a =? item_id) && a_active a) (addons m).

Definition add_addon (item_id : Z) (total : decimal) (a : addon_in) : res decimal :=
  id ← addon_id a;
  id ← int4 id;
  Ok (match find_addon item_id id with
      | Some row => dadd total (Dec (a_price row) (-2))
      | None => total
      end).

(** ** Pricing a request *)

Record cart_item := {
  ci_item_id : Z;
  ci_variant_id : option Z;
  ci_item_name : string;
  ci_quantity : Z;
  ci_unit_price : float64;
  ci_total_price : float64;
  ci_addons : list addon_in;
  ci_notes : option string;
  ci_gst_src : item_row;
  ci_line_total : decimal;
}.

Definition gst_columns (i : item) : item_row := {|
  item_gst_rate := Some (Some (PDec (Dec (i_gst_rate i) (-2))));
  item_is_tax_inclusive := Some (Some (i_tax_inclusive i)) |}.

Definition price_entry (e : entry_in) : res cart_item :=
  _ ← raise_if ((e_quantity e <? 1) || (100 <? e_quantity e)) (ValidationError "Invalid quantity: ");
  p ← pick_row e;
  addon_total ← res_foldl (add_addon (i_id (pk_item p))) d_zero (e_addons e);
  let unit_price := dadd (Dec (pk_price p) (-2)) addon_total in
  let line_total := dmul unit_price (d_int (e_quantity e)) in
  Ok {| ci_item_id := i_id (pk_item p); ci_variant_id := pk_variant p;
        ci_item_name := if id_truthy (pk_variant p) then pk_full_name p else str_or (pk_item_name p) "";
        ci_quantity := e_quantity e; ci_unit_price := of_decimal unit_price;
        ci_total_price := of_decimal line_total; ci_addons := e_addons e; ci_notes := e_notes e;
        ci_gst_src := gst_columns (pk_item p); ci_line_total := line_total |}.

Definition add_entry (acc : decimal * list cart_item) (e : entry_in) : res (decimal * list cart_item) :=
  c ← price_entry e;
  Ok (dadd acc.1 (ci_line_total c), acc.2 ++ [c]).

(** ** Coupons *)

Definition money_dec (n : Z) : decimal := Dec n (-2).

Definition coupon_valid (id now : Z) (c : coupon) : bool :=
  (c_id c =? id) && owned_by (Some (c_user c)) owner && c_active c
  && match c_from c with None => true | Some t => t <=? now end
  && match c_until c with None => true | Some t => now <=? t end.

(** [coupon["usage_limit"] and coupon["times_used"] >= coupon["usage_limit"]] *)
Definition used_up (c : coupon) : res bool :=
  if id_truthy (c_usage_limit c) then
    match c_times_used c with
    | None => Err (KeyError "times_used")
    | Some None => Err (TypeError "'>=' not supported")
    | Some (Some n) => Ok (default 0 (c_usage_limit c) <=? n)
    end
  else Ok false.

Definition dmin (a b : decimal) : decimal := if dltb b a then b else a.

Definition _calculate_coupon_discount (coupon_id : Z) (subtotal : decimal) (now : Z) : res decimal :=
  id ← int4 coupon_id;
  match coupons m with
  | None => Err (DatabaseError "relation coupons does not exist")
  | Some rows =>
      match find (coupon_valid id now) rows with
      | None => Ok d_zero
      | Some c =>
          if id_truthy (c_min_order_value c) && dltb subtotal (money_dec (default 0 (c_min_order_value c)))
          then Ok d_zero
          else
            used ← used_up c;
            if (used : bool) then Ok d_zero
            else
              let value := money_dec (c_discount_value c) in
              discount ←
                (if bool_decide (c_type c = "percentage"%string) then
                   d ← ddiv (dmul subtotal value) (d_int 100);
                   Ok (match c_max_discount c with
                       | Some x => if dpos (money_dec x) then dmin d (money_dec x) else d
                       | None => d
                       end)
                 else Ok value);
              Ok (dmin discount subtotal)
      end
  end.
End Lookup.

(** ** The tables *)

(** The metadata column; [md_tax] and [md_discount] are what is rendered into it, and
    the last three keys are those of a dine-in order. *)
Record metadata := {
  md_payment_method : option string;
  md_customer_name : option string;
  md_order_number : option string;
  md_tax : CartTaxBreakdown;
  md_discount : option (float64 * float64 * option string);
  md_device : option string;
  md_session : option string;
  md_merged : bool;
}.

Record order := {
  o_id : string;
  o_user : string;
  o_branch : option string;
  o_restaurant : option string;
  o_customer : option Z;
  o_source : string;
  o_subtotal : Z;
  o_tax_amount : Z;
  o_cgst_amount : Z;
  o_sgst_amount : Z;
  o_gst_number : option string;
  o_discount_amount : Z;
  o_total_amount : Z;
  o_round_off : Z;
  o_status : string;
  o_table_number : option string;
  o_delivery_address : option string;
  o_delivery_phone : option string;
  o_coupon : option Z;
  o_notes : option string;
  o_metadata : metadata;
  o_updated_at : Z;
}.

Record order_item := {
  oi_id : Z;
  oi_order : string;
  oi_item : Z;
  oi_variant : option Z;
  oi_name : string;
  oi_quantity : Z;
  oi_unit_price : Z;
  oi_total_price : Z;
  oi_addons : list addon_in;
  oi_notes : option string;
  oi_user : option string;
  oi_gst_enabled : option bool;
  oi_gst_inclusive : option bool;
  oi_gst_rate : option Z;
  oi_taxable : Z;
  oi_cgst : Z;
  oi_sgst : Z;
}.

Record payment := {
  py_id : string;
  py_order : string;
  py_restaurant : option string;
  py_user : string;
  py_branch : option string;
  py_method : string;
  py_status : string;
  py_amount : Z;
  py_paid_at : option Z;
}.

Record response_item := {
  ri_item_id : Z;
  ri_variant_id : option Z;
  ri_item_name : string;
  ri_quantity : Z;
  ri_unit_price : float64;
  ri_total_price : float64;
  ri_addons : list addon_in;
  ri_notes : option string;
  ri_tax : option (bool * bool * float64 * float64 * float64 * float64 * float64);
}.

(** [rs_razorpay] is the intent of an online payment, [Some None] when it failed. *)
Record response (I : Type) := {
  rs_id : string;
  rs_order_number : string;
  rs_status : string;
  rs_source : string;
  rs_payment_method : option string;
  rs_payment_id : option string;
  rs_payment_status : option string;
  rs_subtotal : float64;
  rs_tax_amount : float64;
  rs_discount_amount : float64;
  rs_total_amount : float64;
  rs_customer_id : option Z;
  rs_customer_name : option string;
  rs_customer_phone : option string;
  rs_table_number : option string;
  rs_delivery_address : option string;
  rs_notes : option string;
  rs_created_at : Z;
  rs_items : list response_item;
  rs_idempotent : bool;
  rs_razorpay : field I;
}.
Arguments rs_id {I}. Arguments rs_order_number {I}. Arguments rs_status {I}. Arguments rs_source {I}.
Arguments rs_payment_method {I}. Arguments rs_payment_id {I}. Arguments rs_payment_status {I}.
Arguments rs_subtotal {I}. Arguments rs_tax_amount {I}. Arguments rs_discount_amount {I}.
Arguments rs_total_amount {I}. Arguments rs_customer_id {I}. Arguments rs_customer_name {I}.
Arguments rs_customer_phone {I}. Arguments rs_table_number {I}. Arguments rs_delivery_address {I}.
Arguments rs_notes {I}. Arguments rs_created_at {I}. Arguments rs_items {I}. Arguments rs_idempotent {I}.
Arguments rs_razorpay {I}.

(** A row of [checkout_idempotency], unique in key and owner. *)
Record claim (I : Type) := {
  cl_key : string;
  cl_user : string;
  cl_order : string;
  cl_payload : response I;
  cl_expires_at : Z;
}.
Arguments cl_key {I}. Arguments cl_user {I}. Arguments cl_order {I}. Arguments cl_payload {I}.
Arguments cl_expires_at {I}.

Record order_db (I : Type) := {
  orders : list order;
  order_items : list order_item;
  payments : list payment;
  claims : list (claim I);
}.
Arguments orders {I}. Arguments order_items {I}. Arguments payments {I}. Arguments claims {I}.
Arguments Build_order_db {I}.

Inductive event_type := ORDER_CREATED | ORDER_CONFIRMED | ORDER_STATUS_CHANGED | ORDER_CANCELLED.

Record domain_event := {
  ev_type : event_type;
  ev_order_id : string;
  ev_from_status : option string;
  ev_to_status : option string;
  ev_total_amount : option float64;
  ev_source : option string;
  ev_item_count : option Z;
  ev_user : option string;
  ev_restaurant : option string;
  ev_branch : option string;
}.

(** Everything a call can change: the tables, the process's tax cache, the merchant
    ledger, the gateway and the events it has published. *)
Record world (L G I : Type) := {
  w_db : order_db I;
  w_cache : config_cache;
  w_ledger : L;
  w_gateway : G;
  w_events : list domain_event;
}.
Arguments w_db {L G I}. Arguments w_cache {L G I}. Arguments w_ledger {L G I}.
Arguments w_gateway {L G I}. Arguments w_events {L G I}.

(** ** Columns *)

(** A float into NUMERIC(w,2), as paise: the driver sends its exact decimal. *)
Definition pg_money (w : Z) (f : float64) : res Z :=
  let n := rescale ROUND_HALF_UP (-2) (exact_decimal f) in
  if Z.abs n <? 10 ^ w then Ok n else Err (DatabaseError "numeric field overflow").

(** ** Reading an order's bill into rows *)

(** The amounts of a bill, as the columns of an order take them. *)
Record bill_columns := { bc_subtotal : Z; bc_discount : Z; bc_tax : Z; bc_cgst : Z; bc_sgst : Z; bc_round_off : Z; bc_total : Z }.

Definition read_bill (b : CartTaxBreakdown) : res bill_columns :=
  subtotal ← pg_money 12 (of_decimal (ct_subtotal b));
  discount ← pg_money 12 (of_decimal (ct_discount_amount b));
  tax ← pg_money 12 (of_decimal (ct_total_tax b));
  cgst ← pg_money 12 (of_decimal (ct_cgst_amount b));
  sgst ← pg_money 12 (of_decimal (ct_sgst_amount b));
  round_off ← pg_money 8 (of_decimal (ct_round_off b));
  total ← pg_money 12 (of_decimal (ct_grand_total b));
  Ok {| bc_subtotal := subtotal; bc_discount := discount; bc_tax := tax; bc_cgst := cgst; bc_sgst := sgst;
        bc_round_off := round_off; bc_total := total |}.

Definition opt_int4 (x : option Z) : res (option Z) :=
  match x with None => Ok None | Some z => z ← int4 z; Ok (Some z) end.

Definition order_row (u : UserContext) (q : request) (source : string) (d : draw)
    (b : CartTaxBreakdown) : res order :=
  let t := tenant_insert_fields u in
  customer ← opt_int4 (q_customer_id q);
  coupon ← opt_int4 (q_coupon_id q);
  user ← not_null (t_user t);
  c ← read_bill b;
  gst_number ← varchar_opt 20 (ct_gst_number b);
  table_number ← varchar_opt 50 (q_table_number q);
  phone ← varchar_opt 20 (q_customer_phone q);
  Ok {| o_id := d_order d; o_user := user; o_branch := t_branch t; o_restaurant := restaurant_id u;
        o_customer := customer; o_source := source; o_subtotal := bc_subtotal c;
        o_tax_amount := bc_tax c; o_cgst_amount := bc_cgst c; o_sgst_amount := bc_sgst c; o_gst_number := gst_number;
        o_discount_amount := bc_discount c; o_total_amount := bc_total c; o_round_off := bc_round_off c;
        o_status := Order.status_value Order.PENDING; o_table_number := table_number;
        o_delivery_address := q_delivery_address q; o_delivery_phone := phone;
        o_coupon := coupon; o_notes := q_notes q;
        o_metadata := {| md_payment_method := if str_truthy (q_payment_method q) then q_payment_method q else None;
                         md_customer_name := if str_truthy (q_customer_name q) then q_customer_name q else None;
                         md_order_number := Some (upper (of_chars (take 8 (chars (d_order d)))));
                         md_tax := b; md_discount := None; md_device := None; md_session := None;
                         md_merged := false |};
        o_updated_at := d_now d |}.

(** [zip(order_items_data, breakdown.lines)]: an entry past the lines has no [_tax]. *)
Fixpoint attach_tax (l : list cart_item) (lines : list LineTaxResult) : list (cart_item * option LineTaxResult) :=
  match l, lines with
  | [], _ => []
  | c :: l', r :: lines' => (c, Some r) :: attach_tax l' lines'
  | c :: l', [] => (c, None) :: attach_tax l' []
  end.

(** NUMERIC(5,2) with the range CHECK of migration 066. *)
Definition pg_rate (f : float64) : res Z :=
  n ← pg_money 5 f;
  if (0 <=? n) && (n <=? 2800) then Ok n else Err (DatabaseError "order_items_gst_rate_chk").

Definition tax_float (f : LineTaxResult → decimal) (default : float64) (t : option LineTaxResult) : float64 :=
  match t with Some r => of_decimal (f r) | None => default end.

Definition item_row_of (u : UserContext) (d : draw) (ct : cart_item * option LineTaxResult) (id : Z) : res order_item :=
  let '(c, t) := ct in
  name ← varchar 255 (ci_item_name c);
  unit ← pg_money 10 (ci_unit_price c);
  total ← pg_money 12 (ci_total_price c);
  rate ← pg_rate (tax_float lr_gst_rate f_zero t);
  taxable ← pg_money 12 (tax_float lr_taxable_amount (ci_total_price c) t);
  cgst ← pg_money 12 (tax_float lr_cgst_amount f_zero t);
  sgst ← pg_money 12 (tax_float lr_sgst_amount f_zero t);
  Ok {| oi_id := id; oi_order := d_order d; oi_item := ci_item_id c; oi_variant := ci_variant_id c;
        oi_name := name; oi_quantity := ci_quantity c; oi_unit_price := unit; oi_total_price := total;
        oi_addons := ci_addons c; oi_notes := ci_notes c; oi_user := t_user (tenant_insert_fields u);
        oi_gst_enabled := Some (match t with Some r => lr_gst_enabled r | None => false end);
        oi_gst_inclusive := Some (match t with Some r => lr_gst_inclusive r | None => false end);
        oi_gst_rate := Some rate; oi_taxable := taxable; oi_cgst := cgst; oi_sgst := sgst |}.

(** The INSERT loop; the serial ids go up by one. *)
Fixpoint insert_items (u : UserContext) (d : draw) (l : list (cart_item * option LineTaxResult))
    (rows : list order_item) : res (list order_item) :=
  match l with
  | [] => Ok rows
  | ct :: l' =>
      row ← item_row_of u d ct (Z.of_nat (length rows));
      insert_items u d l' (rows ++ [row])
  end.

Definition response_item_of (ct : cart_item * option LineTaxResult) : response_item :=
  let '(c, t) := ct in
  {| ri_item_id := ci_item_id c; ri_variant_id := ci_variant_id c; ri_item_name := ci_item_name c;
     ri_quantity := ci_quantity c; ri_unit_price := ci_unit_price c; ri_total_price := ci_total_price c;
     ri_addons := ci_addons c; ri_notes := ci_notes c;
     ri_tax := option_map (λ r, (lr_gst_enabled r, lr_gst_inclusive r, of_decimal (lr_gst_rate r),
       of_decimal (lr_taxable_amount r), of_decimal (lr_cgst_amount r), of_decimal (lr_sgst_amount r),
       of_decimal (lr_final_price r))) t |}.

(** ** Placing an order *)

Definition _ALLOWED : list string := ["pos"; "app"; "qr_table"; "online"; "delivery_partner"]%string.
Definition _SOURCE_ALIASES : list (string * string) :=
  [("dine_in", "qr_table"); ("dinein", "qr_table"); ("dine-in", "qr_table"); ("table", "qr_table");
   ("qr", "qr_table"); ("takeaway", "pos"); ("take_away", "pos"); ("counter", "pos");
   ("website", "online"); ("web", "online"); ("mobile", "app"); ("delivery", "delivery_partner")]%string.

Definition _normalise (v : option string) : string :=
  let x := norm v in default x (snd <$> find (λ p, bool_decide (p.1 = x)) _SOURCE_ALIASES).

Definition source_value (source : string) (order_type : option string) : string :=
  let primary := _normalise (Some source) in
  if str_mem primary _ALLOWED then primary
  else let fallback := _normalise order_type in
       if str_mem fallback _ALLOWED then fallback else "pos"%string.

Record intent_request := {
  ir_merchant : option string;
  ir_branch : option string;
  ir_order : string;
  ir_payment : string;
  ir_amount : decimal;
  ir_receipt : string;
  ir_customer_name : option string;
  ir_customer_phone : option string;
  ir_customer_id : option string;
  ir_created_by : string;
  ir_owner : option string;
}.

(** [UPDATE orders SET ... WHERE id = $n], [f] being the assignments. *)
Definition update_orders {I} (id : string) (f : order → order) (db : order_db I) : order_db I :=
  {| orders := map (λ o, if bool_decide (o_id o = id) then f o else o) (orders db);
     order_items := order_items db; payments := payments db; claims := claims db |}.

Definition set_status (status : string) (now : Z) (o : order) : order := {|
  o_id := o_id o; o_user := o_user o; o_branch := o_branch o; o_restaurant := o_restaurant o;
  o_customer := o_customer o; o_source := o_source o; o_subtotal := o_subtotal o;
  o_tax_amount := o_tax_amount o; o_cgst_amount := o_cgst_amount o; o_sgst_amount := o_sgst_amount o;
  o_gst_number := o_gst_number o; o_discount_amount := o_discount_amount o; o_total_amount := o_total_amount o;
  o_round_off := o_round_off o; o_status := status; o_table_number := o_table_number o;
  o_delivery_address := o_delivery_address o; o_delivery_phone := o_delivery_phone o; o_coupon := o_coupon o;
  o_notes := o_notes o; o_metadata := o_metadata o; o_updated_at := now |}.

Definition set_notes (notes : option string) (now : Z) (o : order) : order := {|
  o_id := o_id o; o_user := o_user o; o_branch := o_branch o; o_restaurant := o_restaurant o;
  o_customer := o_customer o; o_source := o_source o; o_subtotal := o_subtotal o;
  o_tax_amount := o_tax_amount o; o_cgst_amount := o_cgst_amount o; o_sgst_amount := o_sgst_amount o;
  o_gst_number := o_gst_number o; o_discount_amount := o_discount_amount o; o_total_amount := o_total_amount o;
  o_round_off := o_round_off o; o_status := o_status o; o_table_number := o_table_number o;
  o_delivery_address := o_delivery_address o; o_delivery_phone := o_delivery_phone o; o_coupon := o_coupon o;
  o_notes := notes; o_metadata := o_metadata o; o_updated_at := now |}.

Section Checkout.
Context {L : Type} `{LedgerApi L} {G I : Type}.

(** The gateway intent of an online payment, and what the deployed payments table
    accepts (its enums are not in the migrations). *)
Variable create_intent_for_order : intent_request → G → G * res I.
Variable accepts_payment : payment → bool.

Definition payment_row (u : UserContext) (d : draw) (method status : string) (total : decimal) : res payment :=
  let t := tenant_insert_fields u in
  user ← not_null (t_user t);
  amount ← pg_money 12 (of_decimal total);
  Ok {| py_id := d_payment d; py_order := d_order d; py_restaurant := restaurant_id u; py_user := user;
        py_branch := t_branch t; py_method := method; py_status := status; py_amount := amount;
        py_paid_at := if bool_decide (status = "pending"%string) then None else Some (d_now d) |}.

Definition insert_payment (p : payment) (db : order_db I) : res (order_db I) :=
  _ ← raise_if (negb (accepts_payment p)) (DatabaseError "invalid input value for enum");
  _ ← raise_if (existsb (λ x, bool_decide (py_id x = py_id p)) (payments db)) (UniqueViolationError "payments_pkey");
  Ok {| orders := orders db; order_items := order_items db; payments := payments db ++ [p]; claims := claims db |}.

(** What the payment block leaves: the open transaction ([None] once a statement has
    failed in it), the payment's id and status, and its method and kind. *)
Record paid := {
  pd_tx : option (order_db I);
  pd_id : option string;
  pd_status : option string;
}.

Definition pay_order (u : UserContext) (q : request) (d : draw) (total : decimal) (db : order_db I) : paid :=
  if str_truthy (q_payment_method q) then
    let pm_norm := normalize_payment_method (q_payment_method q) in
    let kind := classify_method (Some pm_norm) (Some "pos"%string) in
    let status := if bool_decide (kind = KRazorpay) then "pending"%string else "completed"%string in
    match (p ← payment_row u d pm_norm status total; insert_payment p db) with
    | Ok db' =>
        {| pd_tx := Some (if bool_decide (status = "completed"%string) then update_orders (d_order d) (set_status "Confirmed" (d_now d)) db' else db');
           pd_id := Some (d_payment d); pd_status := Some status |}
    | Err _ => {| pd_tx := None; pd_id := None; pd_status := None |}
    end
  else {| pd_tx := Some db; pd_id := None; pd_status := None |}.

Definition day : Z := 24 * 3600 * 10 ^ 6.

Definition claim_key (key : string) (owner : option string) (d : draw) (r : response I) (db : order_db I)
    : res (order_db I) :=
  key ← varchar 255 key;
  user ← not_null owner;
  _ ← raise_if (existsb (λ c, bool_decide (cl_key c = key) && bool_decide (cl_user c = user)) (claims db))
        (UniqueViolationError "uq_checkout_idempotency_key_user");
  Ok {| orders := orders db; order_items := order_items db; payments := payments db;
        claims := claims db ++ [{| cl_key := key; cl_user := user; cl_order := d_order d; cl_payload := r;
                                   cl_expires_at := d_now d + day |}] |}.

Definition order_response (q : request) (source : string) (d : draw) (subtotal discount : decimal)
    (b : CartTaxBreakdown) (cart : list (cart_item * option LineTaxResult)) (p : paid) : response I := {|
  rs_id := d_order d;
  rs_order_number := upper (of_chars (take 8 (chars (d_order d))));
  rs_status := if bool_decide (pd_status p = Some "completed"%string) then "Confirmed"%string
               else Order.status_value Order.PENDING;
  rs_source := source;
  rs_payment_method := q_payment_method q;
  rs_payment_id := pd_id p;
  rs_payment_status := pd_status p;
  rs_subtotal := of_decimal subtotal;
  rs_tax_amount := of_decimal (ct_total_tax b);
  rs_discount_amount := of_decimal discount;
  rs_total_amount := of_decimal (ct_grand_total b);
  rs_customer_id := q_customer_id q;
  rs_customer_name := q_customer_name q;
  rs_customer_phone := q_customer_phone q;
  rs_table_number := q_table_number q;
  rs_delivery_address := q_delivery_address q;
  rs_notes := q_notes q;
  rs_created_at := d_now d;
  rs_items := map response_item_of cart;
  rs_idempotent := false;
  rs_razorpay := None |}.

Definition insert_order (o : order) (db : order_db I) : res (order_db I) :=
  _ ← raise_if (existsb (λ x, bool_decide (o_id x = o_id o)) (orders db)) (UniqueViolationError "orders_pkey");
  Ok {| orders := orders db ++ [o]; order_items := order_items db; payments := payments db; claims := claims db |}.

(** The price lines of a request with the store's tax configuration. *)
Definition tax_lines (cfg : TaxConfig) (cart : list cart_item) : list ItemTaxLine :=
  map (λ c, _line_from_item_row (Some (ci_gst_src c)) (PDec (ci_line_total c)) cfg) cart.

(** The writes of the transaction, once the request is priced.  A commit of a
    transaction in which a statement failed rolls it back without an error. *)
Definition write_order (u : UserContext) (q : request) (source : string) (d : draw)
    (subtotal discount : decimal) (cart : list cart_item) (b : CartTaxBreakdown) (db : order_db I)
    : res (order_db I * response I * paid) :=
  let priced := attach_tax cart (ct_lines b) in
  o ← order_row u q source d b;
  db1 ← insert_order o db;
  rows ← insert_items u d priced (order_items db1);
  let db2 := {| orders := orders db1; order_items := rows; payments := payments db1; claims := claims db1 |} in
  let p := pay_order u q d (ct_grand_total b) db2 in
  let r := order_response q source d subtotal discount b priced p in
  if str_truthy (q_idempotency_key q) then
    match pd_tx p with
    | None => Err (DatabaseError "current transaction is aborted")
    | Some tx => tx' ← claim_key (str_or (q_idempotency_key q) "") (owner_of u) d r tx; Ok (tx', r, p)
    end
  else Ok (default db (pd_tx p), r, p).

(** The transaction; the tax cache is the process's and outlives a rollback. *)
Definition order_txn (m : menu) (u : UserContext) (q : request) (source : string) (d : draw)
    (cache : config_cache) (db : order_db I) : config_cache * res (order_db I * response I * paid * CartTaxBreakdown) :=
  let owner := t_user (tenant_insert_fields u) in
  match (acc ← res_foldl (add_entry m owner) (d_zero, []) (q_items q);
         discount ← (if id_truthy (q_coupon_id q)
                     then _calculate_coupon_discount m owner (default 0 (q_coupon_id q)) acc.1 (d_now d)
                     else Ok d_zero);
         Ok (acc, discount)) with
  | Err e => (cache, Err e)
  | Ok (subtotal, cart, discount) =>
      match get_tax_config (λ id, settings m id) (restaurant_id u) (d_mono d) cache with
      | Err e => (cache, Err e)
      | Ok (cfg, cache') =>
          (cache',
           b ← compute_cart_tax (tax_lines cfg cart) (PDec discount) cfg false;
           r ← write_order u q source d subtotal discount cart b db;
           Ok (r, b))
      end
  end.

(** After the commit: the receipt goes to the merchant ledger (an error is logged),
    and an online payment gets its gateway intent. *)
Definition capture_of (u : UserContext) (d : draw) : capture := {|
  cap_merchant := restaurant_id u; cap_payment := d_payment d; cap_order := Some (d_order d);
  cap_branch := t_branch (tenant_insert_fields u); cap_bank_reference := None;
  cap_razorpay_payment := None; cap_created_by := Some (user_id u) |}.

Definition post_receipt (u : UserContext) (q : request) (d : draw) (b : CartTaxBreakdown) (p : paid) (l : L) : res L :=
  if bool_decide (pd_status p = Some "completed"%string) then
    let pm_norm := normalize_payment_method (q_payment_method q) in
    post_payment_received (d_stamp d) (capture_of u d) (PDec (ct_grand_total b)) (Some pm_norm)
      [("payment_kind", kind_text (classify_method (Some pm_norm) (Some "pos"))); ("source", "pos_checkout")]%string
      false l
  else Ok l.

Definition with_razorpay (r : response I) (x : field I) : response I := {|
  rs_id := rs_id r; rs_order_number := rs_order_number r; rs_status := rs_status r; rs_source := rs_source r;
  rs_payment_method := rs_payment_method r; rs_payment_id := rs_payment_id r;
  rs_payment_status := rs_payment_status r; rs_subtotal := rs_subtotal r; rs_tax_amount := rs_tax_amount r;
  rs_discount_amount := rs_discount_amount r; rs_total_amount := rs_total_amount r;
  rs_customer_id := rs_customer_id r; rs_customer_name := rs_customer_name r;
  rs_customer_phone := rs_customer_phone r; rs_table_number := rs_table_number r;
  rs_delivery_address := rs_delivery_address r; rs_notes := rs_notes r; rs_created_at := rs_created_at r;
  rs_items := rs_items r; rs_idempotent := rs_idempotent r; rs_razorpay := x |}.

Definition request_intent (u : UserContext) (q : request) (d : draw) (b : CartTaxBreakdown) (p : paid)
    (r : response I) (g : G) : G * response I :=
  match pd_id p with
  | Some payment_id =>
      if str_truthy (q_payment_method q) && bool_decide (pd_status p = Some "pending"%string)
         && bool_decide (normalize_payment_method (q_payment_method q) = "online"%string) then
        let '(g', reply) := create_intent_for_order {|
          ir_merchant := restaurant_id u; ir_branch := t_branch (tenant_insert_fields u);
          ir_order := d_order d; ir_payment := payment_id; ir_amount := ct_grand_total b;
          ir_receipt := rs_order_number r; ir_customer_name := q_customer_name q;
          ir_customer_phone := q_customer_phone q; ir_customer_id := option_map int_text (q_customer_id q);
          ir_created_by := user_id u; ir_owner := owner_of u |} g in
        (g', with_razorpay r (Some (match reply with Ok i => Some i | Err _ => None end)))
      else (g, r)
  | None => (g, r)
  end.

Definition created_events (u : UserContext) (source : string) (r : response I) : list domain_event :=
  let event type from to total source count := {|
    ev_type := type; ev_order_id := rs_id r; ev_from_status := from; ev_to_status := to;
    ev_total_amount := Some total; ev_source := Some source; ev_item_count := count;
    ev_user := Some (user_id u); ev_restaurant := restaurant_id u; ev_branch := branch_id u |} in
  event ORDER_CREATED None None (rs_total_amount r) source (Some (Z.of_nat (length (rs_items r)))) ::
  (if bool_decide (rs_status r = "Confirmed"%string)
   then [event ORDER_CONFIRMED (Some (Order.status_value Order.PENDING)) (Some "Confirmed"%string)
           (rs_total_amount r) source None]
   else []).

(** The stored response of a key, marked as a replay. *)
Definition replayed (r : response I) : response I := {|
  rs_id := rs_id r; rs_order_number := rs_order_number r; rs_status := rs_status r; rs_source := rs_source r;
  rs_payment_method := rs_payment_method r; rs_payment_id := rs_payment_id r;
  rs_payment_status := rs_payment_status r; rs_subtotal := rs_subtotal r; rs_tax_amount := rs_tax_amount r;
  rs_discount_amount := rs_discount_amount r; rs_total_amount := rs_total_amount r;
  rs_customer_id := rs_customer_id r; rs_customer_name := rs_customer_name r;
  rs_customer_phone := rs_customer_phone r; rs_table_number := rs_table_number r;
  rs_delivery_address := rs_delivery_address r; rs_notes := rs_notes r; rs_created_at := rs_created_at r;
  rs_items := rs_items r; rs_idempotent := true; rs_razorpay := rs_razorpay r |}.

Definition find_claim (key : option string) (owner : option string) (rows : list (claim I)) : option (claim I) :=
  find (λ c, bool_decide (Some (cl_key c) = key) && owned_by (Some (cl_user c)) owner) rows.

(** [seen] is the database the first read meets; other checkouts may commit between
    it and the transaction, which runs in [w]. *)
Definition checkout (m : menu) (u : UserContext) (q : request) (d : draw) (seen : order_db I) (w : world L G I)
    : world L G I * res (response I) :=
  let key := q_idempotency_key q in
  match (if str_truthy key
         then find_claim key (owner_of u) (filter (λ c, d_now d < cl_expires_at c) (claims seen)) else None) with
  | Some c => (w, Ok (replayed (cl_payload c)))
  | None =>
      if bool_decide (q_items q = []) then (w, Err (ValidationError "Order must contain at least one item"))
      else
        let source := source_value (q_source q) (q_order_type q) in
        let '(cache, outcome) := order_txn m u q source d (w_cache w) (w_db w) in
        let w1 := {| w_db := w_db w; w_cache := cache; w_ledger := w_ledger w; w_gateway := w_gateway w;
                     w_events := w_events w |} in
        match outcome with
        | Err (UniqueViolationError index) =>
            match (if str_truthy key then find_claim key (owner_of u) (claims (w_db w)) else None) with
            | Some c => (w1, Ok (replayed (cl_payload c)))
            | None => (w1, Err (UniqueViolationError index))
            end
        | Err (DatabaseError _) => (w1, Err (CheckoutError "Order creation failed: "))
        | Err e => (w1, Err e)
        | Ok (db, r, p, b) =>
            match post_receipt u q d b p (w_ledger w) with
            | Err e => ({| w_db := db; w_cache := cache; w_ledger := w_ledger w; w_gateway := w_gateway w;
                           w_events := w_events w |}, Err e)
            | Ok l =>
                let '(g, r') := request_intent u q d b p r (w_gateway w) in
                ({| w_db := db; w_cache := cache; w_ledger := l; w_gateway := g;
                    w_events := w_events w ++ created_events u source r' |}, Ok r')
            end
        end
  end.

Definition create_order (m : menu) (u : UserContext) (items : list entry_in) (source : string)
    (customer : option Z) (table address phone : option string) (coupon : option Z)
    (notes key : option string) (d : draw) (seen : order_db I) (w : world L G I) : world L G I * res (response I) :=
  checkout m u {| q_items := items; q_source := source; q_order_type := None; q_payment_method := None;
    q_total_amount := None; q_customer_id := customer; q_customer_name := None; q_customer_phone := phone;
    q_table_number := table; q_delivery_address := address; q_coupon_id := coupon; q_notes := notes;
    q_idempotency_key := key |} d seen w.

(** ** Changing an order *)

Definition find_order (id : string) (owner : option string) (db : order_db I) : option order :=
  find (λ o, bool_decide (o_id o = id) && owned_by (Some (o_user o)) owner) (orders db).

Definition newline : string := String (ascii_of_N 10) "".

(** [CASE WHEN COALESCE($9, '') = '' THEN notes ELSE CONCAT(...) END] *)
Definition discount_notes (notes : option string) (reason : string) : option string :=
  if bool_decide (reason = ""%string) then notes
  else Some (default ""%string notes ++ newline ++ "[discount] " ++ reason)%string.

Definition set_bill (c : bill_columns) (b : CartTaxBreakdown) (pct : decimal) (reason : option string) (now : Z)
    (o : order) : order := {|
  o_id := o_id o; o_user := o_user o; o_branch := o_branch o; o_restaurant := o_restaurant o;
  o_customer := o_customer o; o_source := o_source o; o_subtotal := bc_subtotal c;
  o_tax_amount := bc_tax c; o_cgst_amount := bc_cgst c; o_sgst_amount := bc_sgst c;
  o_gst_number := o_gst_number o; o_discount_amount := bc_discount c; o_total_amount := bc_total c;
  o_round_off := bc_round_off c; o_status := o_status o; o_table_number := o_table_number o;
  o_delivery_address := o_delivery_address o; o_delivery_phone := o_delivery_phone o; o_coupon := o_coupon o;
  o_notes := discount_notes (o_notes o) (str_or reason "");
  o_metadata := {| md_payment_method := md_payment_method (o_metadata o);
                   md_customer_name := md_customer_name (o_metadata o);
                   md_order_number := md_order_number (o_metadata o); md_tax := b;
                   md_discount := Some (of_decimal pct, of_decimal (ct_discount_amount b),
                                        if str_truthy reason then reason else None);
                   md_device := md_device (o_metadata o); md_session := md_session (o_metadata o);
                   md_merged := md_merged (o_metadata o) |};
  o_updated_at := now |}.

(** The line a stored item is taxed as: its own snapshot, the store's where it has none. *)
Definition snapshot_line (cfg : TaxConfig) (r : order_item) : ItemTaxLine := {|
  it_line_total := if oi_total_price r =? 0 then d_zero else money_dec (oi_total_price r);
  it_gst_enabled := default (gst_enabled cfg) (oi_gst_enabled r);
  it_gst_inclusive := default (tax_inclusive cfg) (oi_gst_inclusive r);
  it_gst_rate := match oi_gst_rate r with Some n => money_dec n | None => gst_percentage cfg end |}.

Definition percent_of (subtotal pct : decimal) : res decimal := x ← ddiv (dmul subtotal pct) (d_int 100); _q x.

Definition set_item_tax (id taxable cgst sgst : Z) (rows : list order_item) : list order_item :=
  map (λ r, if oi_id r =? id
            then {| oi_id := oi_id r; oi_order := oi_order r; oi_item := oi_item r; oi_variant := oi_variant r;
                    oi_name := oi_name r; oi_quantity := oi_quantity r; oi_unit_price := oi_unit_price r;
                    oi_total_price := oi_total_price r; oi_addons := oi_addons r; oi_notes := oi_notes r;
                    oi_user := oi_user r; oi_gst_enabled := oi_gst_enabled r;
                    oi_gst_inclusive := oi_gst_inclusive r; oi_gst_rate := oi_gst_rate r;
                    oi_taxable := taxable; oi_cgst := cgst; oi_sgst := sgst |}
            else r) rows.

Definition retax_item (rows : list order_item) (p : order_item * LineTaxResult) : res (list order_item) :=
  taxable ← pg_money 12 (of_decimal (lr_taxable_amount p.2));
  cgst ← pg_money 12 (of_decimal (lr_cgst_amount p.2));
  sgst ← pg_money 12 (of_decimal (lr_sgst_amount p.2));
  Ok (set_item_tax (oi_id p.1) taxable cgst sgst rows).

Definition items_of (id : string) (db : order_db I) : list order_item :=
  filter (λ r, oi_order r = id) (order_items db).

Definition discount_check (u : UserContext) (order_id : string) (discount_percent : pyval) (db : order_db I)
    : res (order * decimal * list order_item) :=
  match find_order order_id (owner_of u) db with
  | None => Err (NotFoundError "Order")
  | Some o =>
      _ ← raise_if (is_branch_user u && str_truthy (branch_id u) && str_truthy (o_branch o)
                    && negb (bool_decide (o_branch o = branch_id u))) (ForbiddenError "Cross-branch access denied");
      _ ← raise_if (str_mem (lower (o_status o)) ["cancelled"; "completed"]%string)
            (ValidationError "Cannot apply discount to completed/cancelled orders");
      pct ← match parse_decimal discount_percent with Some p => Ok p | None => Err InvalidOperation end;
      _ ← raise_if (dltb pct d_zero || dltb (d_int 100) pct)
            (ValidationError "discount_percent must be between 0 and 100");
      let rows := items_of order_id db in
      _ ← raise_if (bool_decide (rows = [])) (ValidationError "Order has no line items to discount");
      Ok (o, pct, rows)
  end.

Definition discount_write (order_id : string) (o : order) (pct : decimal) (rows : list order_item) (cfg : TaxConfig)
    (reason : option string) (now : Z) (db : order_db I) : res (order_db I * option order * CartTaxBreakdown) :=
  let lines := map (snapshot_line cfg) rows in
  amount ← percent_of (dsum (map it_line_total lines)) pct;
  b ← compute_cart_tax lines (PDec amount) cfg false;
  c ← read_bill b;
  let db1 := update_orders order_id (set_bill c b pct reason now) db in
  rows' ← res_foldl retax_item (order_items db1) (zip rows (ct_lines b));
  let db2 := {| orders := orders db1; order_items := rows'; payments := payments db1; claims := claims db1 |} in
  Ok (db2, find (λ x, bool_decide (o_id x = order_id)) (orders db2), b).

Definition apply_discount (m : menu) (u : UserContext) (order_id : string) (discount_percent : pyval)
    (reason : option string) (d : draw) (cache : config_cache) (db : order_db I)
    : config_cache * res (order_db I * option order * CartTaxBreakdown) :=
  match discount_check u order_id discount_percent db with
  | Err e => (cache, Err e)
  | Ok (o, pct, rows) =>
      let restaurant := if str_truthy (o_restaurant o) then o_restaurant o else restaurant_id u in
      match get_tax_config (λ id, settings m id) restaurant (d_mono d) cache with
      | Err e => (cache, Err e)
      | Ok (cfg, cache') => (cache', discount_write order_id o pct rows cfg reason (d_now d) db)
      end
  end.

(** ** Status *)

Definition _validate_cancellation (u : UserContext) (o : order) : res () :=
  match of_value (o_status o) with
  | None => Err (ValueError "is not a valid OrderStatus")
  | Some status =>
      raise_if (bool_decide (status ∈ [Order.PREPARING; Order.READY])
                && negb (str_mem (role u) ["owner"; "manager"]%string))
        (ForbiddenError "Only owner/manager can cancel orders in preparation")
  end.

Definition status_event (u : UserContext) (order_id current : string) (target : Order.OrderStatus) : domain_event := {|
  ev_type := match target with
             | Order.CONFIRMED => ORDER_CONFIRMED
             | Order.CANCELLED => ORDER_CANCELLED
             | _ => ORDER_STATUS_CHANGED
             end;
  ev_order_id := order_id; ev_from_status := Some current; ev_to_status := Some (value target);
  ev_total_amount := None; ev_source := None; ev_item_count := None;
  ev_user := Some (user_id u); ev_restaurant := restaurant_id u; ev_branch := branch_id u |}.

Definition publish (e : domain_event) (db : order_db I) (w : world L G I) : world L G I := {|
  w_db := db; w_cache := w_cache w; w_ledger := w_ledger w; w_gateway := w_gateway w;
  w_events := w_events w ++ [e] |}.

(** [locked]: the Redis lock of the order was acquired in time. *)
Definition update_status (u : UserContext) (order_id new_status : string) (locked : bool) (d : draw)
    (w : world L G I) : world L G I * res (string * string) :=
  if negb locked then (w, Err LockAcquisitionError)
  else
    match find_order order_id (owner_of u) (w_db w) with
    | None => (w, Err (NotFoundError "Order"))
    | Some o =>
        match Order.validate_order_transition (o_status o) new_status with
        | Err e => (w, Err e)
        | Ok None => (w, Ok (order_id, o_status o))
        | Ok (Some target) =>
            match (if bool_decide (target = Order.CANCELLED) then _validate_cancellation u o else Ok ()) with
            | Err e => (w, Err e)
            | Ok _ =>
                (publish (status_event u order_id (o_status o) target)
                   (update_orders order_id (set_status (value target) (d_now d)) (w_db w)) w,
                 Ok (order_id, value target))
            end
        end
    end.

(** The notes are committed before the status is tried; without a status the reply
    is the stored order, [None] here. *)
Definition update_order (u : UserContext) (order_id : string) (status notes : option string) (locked : bool)
    (d : draw) (w : world L G I) : world L G I * res (option (string * string)) :=
  match find_order order_id (owner_of u) (w_db w) with
  | None => (w, Err (NotFoundError "Order"))
  | Some _ =>
      let w1 := match notes with
                | None => w
                | Some n => {| w_db := update_orders order_id (set_notes (Some n) (d_now d)) (w_db w);
                               w_cache := w_cache w; w_ledger := w_ledger w; w_gateway := w_gateway w;
                               w_events := w_events w |}
                end in
      if str_truthy status then
        let '(w2, r) := update_status u order_id (str_or status "") locked d w1 in (w2, Some <$> r)
      else (w1, Ok None)
  end.

(** ** A payment that died *)

Definition settled_words : list string :=
  ["cancelled"; "canceled"; "refunded"; "completed"; "paid"; "captured"]%string.

(** The UPDATE of the handler with its RETURNING row, and the follow-up event. *)
Definition _flip_order_to_cancelled (payload_order : option string) (event_user : option string) (now : Z)
    (w : world L G I) : world L G I :=
  if negb (str_truthy payload_order) then w
  else
    let id := str_or payload_order "" in
    match find (λ o, bool_decide (o_id o = id) && negb (str_mem (lower (o_status o)) settled_words))
            (orders (w_db w)) with
    | None => w
    | Some o =>
        publish {| ev_type := ORDER_CANCELLED; ev_order_id := o_id o; ev_from_status := None;
                   ev_to_status := None; ev_total_amount := None; ev_source := None; ev_item_count := None;
                   ev_user := event_user; ev_restaurant := o_restaurant o; ev_branch := o_branch o |}
          (update_orders id (set_status "cancelled" now) (w_db w)) w
    end.
End Checkout.

(** ** Columns, once more *)

Lemma varchar_short w s : (length (chars s) <= w)%nat → varchar w s = Ok s.
Proof. intros Hs. unfold varchar. rewrite drop_ge, take_ge by done. cbn [forallb]. by rewrite of_chars_chars. Qed.

Lemma varchar_idem n s t : varchar n s = Ok t → varchar n t = Ok t.
Proof.
  intros E. apply varchar_short. unfold varchar in E. destruct (forallb _ _); [|done].
  injection E as <-. rewrite chars_of_chars, length_take. lia.
Qed.
