(* ===== verification/OrderBilling.v ===== *)
(** What a checkout charges: the theorems about the prices, the bill, the payment and the
    ledger posting of an order placed with [Orders.checkout].

    [placeable] collects when a request can be placed; [checkout_commits] is what the
    other files use of such a checkout.  The cafe at the end is the concrete store the
    witnesses of this file and of [OrderHistory] are evaluated in. *)

From Stdlib Require Import ZArith Lia Ascii String.
From S2P Require Import Prelude PyDecimal PyFloat PyValues TaxEngine StateMachines FeePolicy MerchantLedger RazorpayLedgers Orders.
Open Scope Z_scope.

(** ** What a line costs *)

Lemma fix_prec_id d : fits (coef d) → fix_prec d = d.
Proof.
  intros Hf. unfold fix_prec.
  destruct (Z.leb_spec (ndigits (Z.abs (coef d))) prec) as [|Hgt]; [done|].
  apply (ndigits_le _ prec) in Hf; [lia|lia|done].
Qed.

(** A sum of prices: no price yet, or whole paise. *)
Definition money_val (d : decimal) (n : Z) : Prop := d = money_dec n ∨ d = d_zero ∧ n = 0.

Lemma money_val_at_scale d n : money_val d n → at_scale 2 d n.
Proof. intros [->|[-> ->]]; [apply at_scale_paise|by apply at_scale_zero]. Qed.

Lemma add_money d n p : money_val d n → fits (n + p) → dadd d (money_dec p) = money_dec (n + p).
Proof.
  intros [->|[-> ->]] Hf; unfold dadd, money_dec, d_zero, d_int; cbn [coef dexp].
  - change (Z.min (-2) (-2)) with (-2). change (10 ^ (-2 - -2)) with 1. rewrite !Z.mul_1_r. by apply fix_prec_id.
  - change (Z.min 0 (-2)) with (-2). change (10 ^ (-2 - -2)) with 1. rewrite Z.mul_0_l, Z.mul_1_r. by apply fix_prec_id.
Qed.

Lemma money_add p d n : money_val d n → fits (p + n) → dadd (money_dec p) d = money_dec (p + n).
Proof.
  intros [->|[-> ->]] Hf; unfold dadd, money_dec, d_zero, d_int; cbn [coef dexp].
  - change (Z.min (-2) (-2)) with (-2). change (10 ^ (-2 - -2)) with 1. rewrite !Z.mul_1_r. by apply fix_prec_id.
  - change (Z.min (-2) 0) with (-2). change (10 ^ (-2 - -2)) with 1. rewrite Z.mul_0_l, Z.mul_1_r. by apply fix_prec_id.
Qed.

Lemma mul_money p q : fits (p * q) → dmul (money_dec p) (d_int q) = money_dec (p * q).
Proof. intros Hf. by apply (fix_prec_id (Dec (p * q) (-2))). Qed.

(** What the menu says an addon, one unit and an entry cost, in paise. *)
Definition addon_paise (m : menu) (item_id : Z) (a : addon_in) : Z :=
  match addon_id a with
  | Ok id => match find_addon m item_id id with Some row => a_price row | None => 0 end
  | Err _ => 0
  end.
Definition unit_paise (m : menu) (p : picked) (e : entry_in) : Z :=
  pk_price p + zsum (map (addon_paise m (i_id (pk_item p))) (e_addons e)).
Definition entry_paise (m : menu) (p : picked) (e : entry_in) : Z := unit_paise m p e * e_quantity e.

Definition gst_rate_ok (r : Z) : Prop := r ∈ [0; 500; 1200; 1800; 2800].

(** The CHECKs of migration 058 and prices that are not negative. *)
Record menu_wf (m : menu) : Prop := {
  mw_items : Forall (λ i, 0 <= i_price i ∧ gst_rate_ok (i_gst_rate i)) (items m);
  mw_variants : Forall (λ v, 0 <= v_price v) (variants m);
  mw_addons : Forall (λ a, 0 <= a_price a) (addons m);
}.

Definition addon_id_ok (a : addon_in) : Prop := ∃ z, addon_id a = Ok z ∧ int4 z = Ok z.

(** [p] is the menu row entry [e] is sold from. *)
Record sold_as (m : menu) (owner : option string) (e : entry_in) (p : picked) : Prop := {
  sa_pick : pick_row m owner e = Ok p;
  sa_quantity : 1 <= e_quantity e <= 100;
  sa_addons : Forall addon_id_ok (e_addons e);
  sa_name : (length (chars (if id_truthy (pk_variant p) then pk_full_name p else str_or (pk_item_name p) "")) <= 255)%nat;
  sa_unit : unit_paise m p e < 10 ^ 10;
}.

Lemma find_Forall {A} (P : A → Prop) f l x : Forall P l → find f l = Some x → P x.
Proof. intros Hl Hx. apply find_some in Hx as [Hin _]. by apply (proj1 (Forall_forall _ _) Hl), list_elem_of_In. Qed.

Lemma lookup_item_wf m owner id name i :
  _lookup_item m owner id name = Ok i → i ∈ items m.
Proof.
  unfold _lookup_item. intros H. inv_res. destruct (match y with Some i => Some i | None => _ end) as [j|] eqn:Hj; [|done].
  inv_res. subst j. destruct y as [k|].
  - injection Hj as ->. destruct (id_truthy id); inv_res; [|done].
    subst. apply find_some in Hy as [Hin _]. by apply list_elem_of_In.
  - destruct (str_truthy name); [|done]. apply find_some in Hj as [Hin _]. by apply list_elem_of_In.
Qed.

Lemma variant_rows_wf m r : r ∈ variant_rows m → r.1 ∈ variants m ∧ r.2 ∈ items m.
Proof.
  unfold variant_rows. intros (v & Hv & Hr)%list_elem_of_omap.
  apply fmap_Some in Hr as (i & Hi & ->). split; [done|]. apply find_some in Hi as [Hin _]. by apply list_elem_of_In.
Qed.

Lemma pick_row_wf m owner e p :
  menu_wf m → pick_row m owner e = Ok p → 0 <= pk_price p ∧ gst_rate_ok (i_gst_rate (pk_item p)).
Proof.
  intros [Hi Hv _] H.
  assert (∀ f r, find f (variant_rows m) = Some r →
    0 <= pk_price (of_variant e r) ∧ gst_rate_ok (i_gst_rate (pk_item (of_variant e r)))) as Hvar.
  { intros f r [Hin _]%find_some. apply list_elem_of_In, variant_rows_wf in Hin as [Hin1 Hin2].
    split; [exact (proj1 (Forall_forall _ _) Hv _ Hin1)|exact (proj2 (proj1 (Forall_forall _ _) Hi _ Hin2))]. }
  assert (∀ n i, _lookup_item m owner (e_item_id e) (e_item_name e) = Ok i →
    0 <= pk_price (of_item n i) ∧ gst_rate_ok (i_gst_rate (pk_item (of_item n i)))) as Hitem.
  { intros n i Hin%lookup_item_wf. exact (proj1 (Forall_forall _ _) Hi _ Hin). }
  unfold pick_row in H. destruct (id_truthy (e_variant_id e)); [|destruct (str_truthy (e_variant_name e))].
  - inv_res. case_match; inv_res; subst. by eapply Hvar.
  - case_match; inv_res; subst; [by eapply Hvar|by apply Hitem].
  - inv_res. subst. by apply Hitem.
Qed.

Lemma addon_paise_nonneg m item_id a : menu_wf m → 0 <= addon_paise m item_id a.
Proof.
  intros Hm. unfold addon_paise. destruct (addon_id a); [|done]. destruct (find_addon _ _ _) eqn:Hf; [|done].
  exact (find_Forall _ _ _ _ (mw_addons m Hm) Hf).
Qed.

Lemma addons_nonneg m item_id ads : menu_wf m → 0 <= zsum (map (addon_paise m item_id) ads).
Proof. intros Hm. apply zsum_nonneg, Forall_map, Forall_forall. intros. by apply addon_paise_nonneg. Qed.

Lemma add_addon_spec m item_id a d n :
  addon_id_ok a → money_val d n → fits (n + addon_paise m item_id a) →
  ∃ d', add_addon m item_id d a = Ok d' ∧ money_val d' (n + addon_paise m item_id a).
Proof.
  intros (z & Ha & Hz) Hd. unfold add_addon, addon_paise. rewrite Ha, bind_Ok, Hz, bind_Ok.
  destruct (find_addon m item_id z) as [row|]; intros Hf; (eexists; split; [reflexivity|]).
  - left. by apply add_money.
  - by rewrite Z.add_0_r.
Qed.

Lemma addons_sum m item_id ads d n :
  menu_wf m → Forall addon_id_ok ads → money_val d n → 0 <= n →
  n + zsum (map (addon_paise m item_id) ads) < money_bound →
  ∃ d', res_foldl (add_addon m item_id) d ads = Ok d' ∧ money_val d' (n + zsum (map (addon_paise m item_id) ads)).
Proof.
  intros Hm Hads. revert d n. induction Hads as [|a ads Ha _ IH]; intros d n Hd Hn Hb.
  { exists d. split; [done|]. cbn. by rewrite Z.add_0_r. }
  cbn [map] in *. rewrite zsum_cons, Z.add_assoc in *.
  pose proof (addon_paise_nonneg m item_id a Hm). pose proof (addons_nonneg m item_id ads Hm).
  destruct (add_addon_spec m item_id a d n Ha Hd) as (d1 & E & Hd1); [fits_tac|].
  cbn [res_foldl]. rewrite E, bind_Ok. apply IH; [done|lia|done].
Qed.

Lemma unit_nonneg m owner e p : menu_wf m → pick_row m owner e = Ok p → 0 <= unit_paise m p e.
Proof.
  intros Hm Hp. pose proof (proj1 (pick_row_wf _ _ _ _ Hm Hp)).
  pose proof (addons_nonneg m (i_id (pk_item p)) (e_addons e) Hm). unfold unit_paise. lia.
Qed.

(** A line of a bill, in paise, wherever it comes from. *)
Record sale_line := {
  sl_item : Z;
  sl_quantity : Z;
  sl_unit : Z;
  sl_total : Z;
  sl_name : string;
  sl_gst : item_row;
}.

(** The line as the tax engine sees it. *)
Definition tax_line (cfg : TaxConfig) (l : sale_line) : ItemTaxLine :=
  _line_from_item_row (Some (sl_gst l)) (PDec (money_dec (sl_total l))) cfg.

(** It fits the columns of an order row, at a rate of at most two decimals. *)
Record line_fits (cfg : TaxConfig) (l : sale_line) : Prop := {
  lf_unit : 0 <= sl_unit l < 10 ^ 10;
  lf_total : 0 <= sl_total l;
  lf_name : (length (chars (sl_name l)) <= 255)%nat;
  lf_rate : ∃ r, at_scale 2 (it_gst_rate (tax_line cfg l)) r;
}.

(** The cart item that carries the line, and the order row stored from it and its tax. *)
Record priced_line (l : sale_line) (c : cart_item) : Prop := {
  pa_total : ci_line_total c = money_dec (sl_total l);
  pa_unit_price : ci_unit_price c = of_decimal (money_dec (sl_unit l));
  pa_total_price : ci_total_price c = of_decimal (money_dec (sl_total l));
  pa_item : ci_item_id c = sl_item l;
  pa_quantity : ci_quantity c = sl_quantity l;
  pa_gst : ci_gst_src c = sl_gst l;
  pa_name : ci_item_name c = sl_name l;
}.
Record stored_line (order : string) (l : sale_line) (r : LineTaxResult) (row : order_item) : Prop := {
  st_order : oi_order row = order;
  st_item : oi_item row = sl_item l;
  st_quantity : oi_quantity row = sl_quantity l;
  st_unit : oi_unit_price row = sl_unit l;
  st_total : oi_total_price row = sl_total l;
  st_enabled : oi_gst_enabled row = Some (lr_gst_enabled r);
  st_inclusive : oi_gst_inclusive row = Some (lr_gst_inclusive r);
  st_rate : oi_gst_rate row = Some (pz (lr_gst_rate r));
  st_taxable : oi_taxable row = pz (lr_taxable_amount r);
  st_cgst : oi_cgst row = pz (lr_cgst_amount r);
  st_sgst : oi_sgst row = pz (lr_sgst_amount r);
  st_name : oi_name row = sl_name l;
}.

(** The line of an entry sold from the menu. *)
Definition menu_line (m : menu) (e : entry_in) (p : picked) : sale_line := {|
  sl_item := i_id (pk_item p); sl_quantity := e_quantity e; sl_unit := unit_paise m p e; sl_total := entry_paise m p e;
  sl_name := if id_truthy (pk_variant p) then pk_full_name p else str_or (pk_item_name p) "";
  sl_gst := gst_columns (pk_item p) |}.
Notation priced_as m e p := (priced_line (menu_line m e p)).

Lemma price_entry_spec m owner e p :
  menu_wf m → sold_as m owner e p →
  ∃ c, price_entry m owner e = Ok c ∧ priced_as m e p c.
Proof.
  intros Hm [Hp Hq Ha _ Hu]. unfold price_entry. rewrite (proj2 (Z.ltb_ge _ _)), (proj2 (Z.ltb_ge 100 _)) by lia.
  cbn [orb raise_if]. rewrite bind_Ok, Hp, bind_Ok.
  pose proof (unit_nonneg _ _ _ _ Hm Hp) as H0. pose proof (proj1 (pick_row_wf _ _ _ _ Hm Hp)) as Hp0.
  destruct (addons_sum m (i_id (pk_item p)) (e_addons e) d_zero 0 Hm Ha) as (d & -> & Hd); [by right|done| |].
  { unfold unit_paise, money_bound in *. lia. }
  rewrite Z.add_0_l in Hd. rewrite bind_Ok. cbn zeta.
  change (Dec (pk_price p) (-2)) with (money_dec (pk_price p)).
  rewrite (money_add _ _ _ Hd) by (fold (unit_paise m p e); unfold fits, prec; lia). fold (unit_paise m p e).
  rewrite mul_money by (unfold fits, prec; nia). eexists. split; [reflexivity|]. by split.
Qed.

Lemma entry_nonneg m owner e p : menu_wf m → sold_as m owner e p → 0 <= entry_paise m p e < 10 ^ 12.
Proof.
  intros Hm [Hp Hq _ _ Hu]. pose proof (unit_nonneg _ _ _ _ Hm Hp). unfold entry_paise. nia.
Qed.

(** The entries of a request and the menu rows they are sold from. *)
Definition prices (m : menu) (es : list entry_in) (ps : list picked) : list Z := zip_with (entry_paise m) ps es.
Definition sale_lines (m : menu) (es : list entry_in) (ps : list picked) : list sale_line := zip_with (menu_line m) es ps.

Lemma prices_lines m es ps : map sl_total (sale_lines m es ps) = prices m es ps.
Proof. unfold sale_lines, prices. revert ps. induction es as [|e es IH]; intros [|p ps]; [done..|]. cbn. by rewrite IH. Qed.

Lemma menu_line_fits cfg m owner e p : menu_wf m → sold_as m owner e p → line_fits cfg (menu_line m e p).
Proof.
  intros Hm Hs. pose proof (unit_nonneg _ _ _ _ Hm (sa_pick _ _ _ _ Hs)). pose proof (entry_nonneg _ _ _ _ Hm Hs).
  destruct Hs as [_ _ _ Hn Hu]. split; [cbn; lia|cbn; lia|exact Hn|]. exists (i_gst_rate (pk_item p)). apply at_scale_paise.
Qed.

Lemma sale_lines_fit cfg m owner es ps :
  menu_wf m → Forall2 (sold_as m owner) es ps → Forall (line_fits cfg) (sale_lines m es ps).
Proof.
  intros Hm Hes. unfold sale_lines. induction Hes as [|e p es ps He _ IH]; [done|]. constructor; [|exact IH].
  by eapply menu_line_fits.
Qed.

Lemma prices_nonneg m owner es ps : menu_wf m → Forall2 (sold_as m owner) es ps → 0 <= zsum (prices m es ps).
Proof.
  intros Hm Hes. unfold prices. induction Hes as [|e p es ps He _ IH]; [done|]. cbn [zip_with]. rewrite zsum_cons.
  pose proof (entry_nonneg _ _ _ _ Hm He). lia.
Qed.

Lemma cart_spec_of m owner es ps sub n cart :
  menu_wf m → Forall2 (sold_as m owner) es ps → at_scale 2 sub n → 0 <= n → n + zsum (prices m es ps) < money_bound →
  ∃ sub' cs, res_foldl (add_entry m owner) (sub, cart) es = Ok (sub', cart ++ cs) ∧
    at_scale 2 sub' (n + zsum (prices m es ps)) ∧ Forall2 priced_line (sale_lines m es ps) cs.
Proof.
  intros Hm Hes. unfold prices. revert sub n cart. induction Hes as [|e p es ps He Hes IH]; intros sub n cart Hs Hn Hb.
  { exists sub, []. cbn. rewrite app_nil_r, Z.add_0_r. by repeat constructor. }
  cbn [zip_with] in *. rewrite zsum_cons, Z.add_assoc in *.
  destruct (price_entry_spec _ _ _ _ Hm He) as (c & Hc & Hpc).
  pose proof (entry_nonneg _ _ _ _ Hm He).
  pose proof (prices_nonneg m owner es ps Hm Hes). unfold prices in *.
  destruct (IH (dadd sub (ci_line_total c)) (n + entry_paise m p e) (cart ++ [c])) as (sub' & cs & E & Hsub & Hcs).
  { apply dadd_at_scale; [done| |fits_tac]. rewrite (pa_total _ _ Hpc). apply at_scale_paise. }
  { lia. }
  { done. }
  exists sub', (c :: cs). split; [|split; [done|by constructor]].
  cbn [res_foldl]. assert (add_entry m owner (sub, cart) e = Ok (dadd sub (ci_line_total c), cart ++ [c])) as ->
    by (unfold add_entry; by rewrite Hc).
  by rewrite bind_Ok, E, <-app_assoc.
Qed.

(** ** Amounts into columns *)

Lemma at_scale_money n : at_scale 2 (money_dec n) n.
Proof. apply at_scale_paise. Qed.

Lemma pg_money_exact w d n : at_scale 2 d n → 0 <= w <= 15 → Z.abs n < 10 ^ w → pg_money w (of_decimal d) = Ok n.
Proof.
  intros Hd Hw Hn. unfold pg_money. pose proof (Z.pow_le_mono_r 10 w 15 ltac:(lia) ltac:(lia)).
  rewrite (exact_money_through_float ROUND_HALF_UP d n Hd) by lia. by rewrite (proj2 (Z.ltb_lt _ _) Hn).
Qed.

(** Orders the theorems cover: prices adding up to less than 10^11 paise, so that the
    bill, at most five times that, fits NUMERIC(12,2). *)
Definition order_bound : Z := 10 ^ 11.

(** The columns of a bill, in paise. *)
Definition bill_of (b : CartTaxBreakdown) : bill_columns := {|
  bc_subtotal := pz (ct_subtotal b); bc_discount := pz (ct_discount_amount b); bc_tax := pz (ct_total_tax b);
  bc_cgst := pz (ct_cgst_amount b); bc_sgst := pz (ct_sgst_amount b); bc_round_off := pz (ct_round_off b);
  bc_total := pz (ct_grand_total b) |}.

(** No amount of a bill is more than ten times the sum it is for. *)
Lemma bill_bounds lines ns cfg b :
  cart_bill lines ns cfg false b →
  Forall (λ d, at_scale 2 d (pz d) ∧ Z.abs (pz d) <= 10 * zsum ns)
    [ct_subtotal b; ct_discount_amount b; ct_total_tax b; ct_cgst_amount b; ct_sgst_amount b; ct_grand_total b] ∧
  pz (ct_round_off b) = 0 ∧ at_scale 2 (ct_round_off b) 0.
Proof.
  intros Hb. destruct Hb as [B1 _ _ _ _ B6 B7 B8 B9 B10 B11 B12 _ _ Hok Hex].
  destruct line_ok_small as (_ & _ & _ & S4 & S5 & _ & _ & S8).
  pose proof (paise_sum_small _ _ S4 Hok) as T4. pose proof (paise_sum_small _ _ S5 Hok) as T5.
  pose proof (paise_sum_small _ _ S8 Hok) as T8.
  assert (paise_sum total_of (ct_lines b) = zsum ns) as Ht by (unfold paise_sum; by rewrite B12).
  rewrite Ht in T4, T5, T8.
  unfold rounded_total in B9. rewrite !Forall_cons in Hex. destruct Hex as (X1 & X2 & _ & X4 & X5 & X6 & X7 & X8 & _).
  assert (pz (ct_round_off b) = 0) as E by lia. rewrite E in X8.
  split; [|by split]. repeat (apply Forall_cons; split; [split; [done|lia]|]). constructor.
Qed.

Lemma bill_small lines ns cfg b :
  cart_bill lines ns cfg false b → 0 <= zsum ns < order_bound →
  Forall (λ d, at_scale 2 d (pz d) ∧ Z.abs (pz d) < 10 ^ 12)
    [ct_subtotal b; ct_discount_amount b; ct_total_tax b; ct_cgst_amount b; ct_sgst_amount b; ct_grand_total b] ∧
  pz (ct_round_off b) = 0 ∧ at_scale 2 (ct_round_off b) 0.
Proof.
  intros Hb Hn. destruct (bill_bounds _ _ _ _ Hb) as (Hall & E & Hr). split; [|by split].
  eapply Forall_impl; [exact Hall|]. intros d [Hd Hs]. split; [done|]. unfold order_bound in Hn. lia.
Qed.

Lemma grand_at_least lines ns cfg b :
  cart_input lines ns → cart_bill lines ns cfg false b → zsum ns - pz (ct_discount_amount b) <= pz (ct_grand_total b).
Proof.
  intros [Hl%Forall2_length _] Hb. destruct (cb_lines _ _ _ _ _ Hb) as (shares & Hsh & Hshl & Hms).
  rewrite (cb_grand _ _ _ _ _ Hb). unfold rounded_total. rewrite (final_prices _ _ _ _ _ Hms (cb_totals _ _ _ _ _ Hb) Hl Hshl), Hsh.
  assert (0 <= paise_sum exclusive_tax_of (ct_lines b)); [|lia].
  apply zsum_nonneg, Forall_map. eapply Forall_impl; [exact (cb_ok _ _ _ _ _ Hb)|].
  intros r (_ & a & _ & _ & [_ _ _ _ _ [H _] _ _]). exact H.
Qed.

Lemma read_bill_spec lines ns cfg b :
  cart_bill lines ns cfg false b → 0 <= zsum ns < order_bound → read_bill b = Ok (bill_of b).
Proof.
  intros Hb Hn. destruct (bill_small _ _ _ _ Hb Hn) as (Hall & E & Hr).
  rewrite !Forall_cons in Hall. destruct Hall as ([X1 Y1] & [X2 Y2] & [X3 Y3] & [X4 Y4] & [X5 Y5] & [X6 Y6] & _).
  unfold read_bill, bill_of.
  rewrite (pg_money_exact 12 _ _ X1), (pg_money_exact 12 _ _ X2), (pg_money_exact 12 _ _ X3), (pg_money_exact 12 _ _ X4),
    (pg_money_exact 12 _ _ X5), (pg_money_exact 8 _ _ Hr), (pg_money_exact 12 _ _ X6), E by (done || lia).
  reflexivity.
Qed.

Lemma line_small r : line_ok r →
  Z.abs (pz (lr_cgst_amount r)) <= 5 * total_of r + 1 ∧ Z.abs (pz (lr_sgst_amount r)) <= 5 * total_of r + 1 ∧
  Z.abs (pz (lr_taxable_amount r)) <= 5 * total_of r.
Proof.
  intros (H0 & a & Ha & [_ _ T1 T2 _ T4] & [_ _ _ _ B _ _ _]). unfold total_of in *.
  destruct (lr_gst_inclusive r); lia.
Qed.

Lemma item_row_spec cfg u d l c r id :
  line_fits cfg l → priced_line l c → line_ok r → total_of r = sl_total l → sl_total l < order_bound →
  ∃ row, item_row_of u d (c, Some r) id = Ok row ∧ oi_id row = id ∧ stored_line (d_order d) l r row.
Proof.
  intros [Hu H0 Hn _] Hp Hok Ht Hb.
  pose proof (line_small r Hok) as (B1 & B2 & B3). rewrite Ht in B1, B2, B3. unfold order_bound in Hb.
  destruct Hok as (_ & a & _ & _ & [X1 X2 X3 _ _ _ _ [X4 X5]]).
  unfold item_row_of. rewrite (pa_name _ _ Hp), varchar_short, bind_Ok by apply Hn.
  rewrite (pa_unit_price _ _ Hp), (pa_total_price _ _ Hp).
  rewrite (pg_money_exact 10 _ _ (at_scale_money (sl_unit l))), bind_Ok by lia.
  rewrite (pg_money_exact 12 _ _ (at_scale_money (sl_total l))), bind_Ok by lia.
  unfold tax_float, pg_rate. rewrite (pg_money_exact 5 _ _ X4), bind_Ok by lia.
  rewrite (proj2 (Z.leb_le _ _) (proj1 X5)), (proj2 (Z.leb_le _ _) (proj2 X5)). cbn [andb]. rewrite bind_Ok.
  rewrite (pg_money_exact 12 _ _ X3), bind_Ok, (pg_money_exact 12 _ _ X1), bind_Ok, (pg_money_exact 12 _ _ X2), bind_Ok by lia.
  eexists. split; [reflexivity|]. split; [done|]. destruct Hp as [_ _ _ Hi Hq _ _]. by split.
Qed.

(** Consecutive serial ids. *)
Definition ids_from (n : nat) (rows : list order_item) : Prop := ∀ i row, rows !! i = Some row → oi_id row = Z.of_nat (n + i).

Lemma ids_from_cons n row rows : oi_id row = Z.of_nat n → ids_from (S n) rows → ids_from n (row :: rows).
Proof.
  intros Hr Hrows [|i] x Hx; cbn in Hx; [injection Hx as <-; rewrite Hr; f_equal; lia|].
  rewrite (Hrows i x Hx). f_equal. lia.
Qed.

Lemma ids_from_app n l k : ids_from n l → ids_from (n + length l) k → ids_from n (l ++ k).
Proof.
  intros Hl Hk i x [Hx|(Hi & Hx)]%lookup_app_Some; [by apply Hl|]. rewrite (Hk _ _ Hx). f_equal. lia.
Qed.

Lemma ids_from_nodup n l : ids_from n l → NoDup (map oi_id l).
Proof.
  intros Hl. apply NoDup_alt. intros i j x Hi Hj. rewrite list_lookup_fmap in Hi, Hj.
  apply fmap_Some in Hi as (a & Ha & ->). apply fmap_Some in Hj as (b & Hb & E).
  rewrite (Hl _ _ Ha), (Hl _ _ Hb) in E. lia.
Qed.

Lemma insert_items_spec cfg u d ls cs rs rows :
  Forall (line_fits cfg) ls → Forall2 priced_line ls cs →
  Forall line_ok rs → map total_of rs = map sl_total ls → zsum (map sl_total ls) < order_bound →
  ∃ news, insert_items u d (attach_tax cs rs) rows = Ok (rows ++ news) ∧ ids_from (length rows) news ∧
    Forall2 (λ x row, stored_line (d_order d) x.1 x.2 row) (zip ls rs) news.
Proof.
  intros Hls Hcs. revert rs rows Hls. induction Hcs as [|l c ls cs Hc Hcs IH]; intros rs rows Hls Hok Htot Hb.
  { exists []. cbn. rewrite app_nil_r. split; [done|]. split; [by intros i x|constructor]. }
  destruct rs as [|r rs]; [done|]. cbn [map] in Htot, Hb. apply (inj2 cons) in Htot as [Ht Htot].
  apply Forall_cons in Hok as [Hr Hok]. apply Forall_cons in Hls as [Hl Hls]. rewrite zsum_cons in Hb.
  assert (0 <= zsum (map sl_total ls)) as H0.
  { apply zsum_nonneg, Forall_map. eapply Forall_impl; [exact Hls|]. by intros x [_ ? _ _]. }
  pose proof (lf_total _ _ Hl) as Hl0.
  destruct (item_row_spec cfg u d l c r (Z.of_nat (length rows)) Hl Hc Hr Ht) as (row & Hrow & Hid & Hst); [lia|].
  destruct (IH rs (rows ++ [row]) Hls Hok Htot ltac:(lia)) as (news & E & Hids & Hall).
  exists (row :: news). split; [|split; [|by constructor]].
  - cbn [attach_tax insert_items]. by rewrite Hrow, bind_Ok, E, <-app_assoc.
  - apply ids_from_cons; [done|]. rewrite length_app in Hids. cbn in Hids. by rewrite Nat.add_1_r in Hids.
Qed.

(** ** Placing an order *)

(** The price lines of entries sold as [ps], with the store's configuration. *)
Definition menu_lines (cfg : TaxConfig) (m : menu) (es : list entry_in) (ps : list picked) : list ItemTaxLine :=
  map (tax_line cfg) (sale_lines m es ps).

Lemma tax_lines_priced cfg ls cs : Forall2 priced_line ls cs → tax_lines cfg cs = map (tax_line cfg) ls.
Proof.
  induction 1 as [|l c ls cs Hc _ IH]; [done|]. unfold tax_lines in *. cbn [map].
  by rewrite (pa_gst _ _ Hc), (pa_total _ _ Hc), IH.
Qed.

Lemma lines_input cfg ls :
  Forall (line_fits cfg) ls → zsum (map sl_total ls) < money_bound → cart_input (map (tax_line cfg) ls) (map sl_total ls).
Proof.
  intros Hls Hb. split; [|done]. clear Hb. induction Hls as [|l ls [_ H0 _ Hr] _ IH]; [constructor|]. cbn [map].
  constructor; [|exact IH]. split; [|exact Hr]. exists (sl_total l). split; [apply at_scale_money|lia].
Qed.

(** The tax a stored item adds to its price. *)
Definition added_tax (row : order_item) : Z :=
  if bool_decide (oi_gst_inclusive row = Some true) then 0 else oi_cgst row + oi_sgst row.
Definition item_tax (row : order_item) : Z := oi_cgst row + oi_sgst row.

Lemma stored_sums order xs rows :
  Forall (λ x, line_ok x.2) xs → Forall2 (λ x row, stored_line order x.1 x.2 row) xs rows →
  map oi_total_price rows = map (λ x, sl_total x.1) xs ∧
  zsum (map item_tax rows) = zsum (map (λ x, paise_when lr_cgst_amount x.2 + paise_when lr_sgst_amount x.2) xs) ∧
  zsum (map added_tax rows) = zsum (map (λ x, exclusive_tax_of x.2) xs).
Proof.
  intros Hok H. induction H as [|x row xs rows Hx _ IH]; [done|]. apply Forall_cons in Hok as [Hr Hok].
  destruct (IH Hok) as (I1 & I2 & I3). cbn [map]. rewrite !zsum_cons, I1, I2, I3, (st_total _ _ _ _ Hx).
  destruct Hr as (_ & a & _ & [_ _ T _ _ _] & [_ _ _ _ _ _ Hoff _]).
  unfold item_tax, added_tax, exclusive_tax_of, paise_when.
  rewrite (st_cgst _ _ _ _ Hx), (st_sgst _ _ _ _ Hx), (st_inclusive _ _ _ _ Hx).
  split; [done|]. destruct (lr_gst_enabled x.2) eqn:He; cbn [andb].
  - split; [lia|]. destruct (lr_gst_inclusive x.2); cbn [negb]; [by rewrite bool_decide_eq_true_2|].
    rewrite bool_decide_eq_false_2 by done. lia.
  - destruct (Hoff eq_refl) as [-> ->]. split; [lia|]. by case_bool_decide.
Qed.

Lemma zip_lines (ls : list sale_line) (rs : list LineTaxResult) :
  length rs = length ls →
  map (λ x, sl_total x.1) (zip ls rs) = map sl_total ls ∧
  (∀ f : LineTaxResult → Z, map (λ x, f x.2) (zip ls rs) = map f rs) ∧
  (∀ P : LineTaxResult → Prop, Forall P rs → Forall (λ x, P x.2) (zip ls rs)).
Proof.
  revert rs. induction ls as [|l ls IH]; intros [|r rs] Hlen; try done.
  injection Hlen as Hlen. destruct (IH rs Hlen) as (I1 & I2 & I3).
  cbn. rewrite I1. split; [done|]. split; [intros f; by rewrite I2|].
  intros P HP. apply Forall_cons in HP as [? ?]. constructor; auto.
Qed.

(** The amounts of a bill are sums over the rows stored from it. *)
Lemma bill_sums order ls cfg b rows n :
  cart_input (map (tax_line cfg) ls) (map sl_total ls) →
  compute_cart_tax (map (tax_line cfg) ls) (PDec (money_dec n)) cfg false = Ok b ∨
    n = 0 ∧ compute_cart_tax (map (tax_line cfg) ls) (PDec d_zero) cfg false = Ok b →
  cart_bill (map (tax_line cfg) ls) (map sl_total ls) cfg false b →
  Forall2 (λ x row, stored_line order x.1 x.2 row) (zip ls (ct_lines b)) rows →
  map oi_total_price rows = map sl_total ls ∧ pz (ct_subtotal b) = zsum (map sl_total ls) ∧
  pz (ct_discount_amount b) = Z.min (Z.max n 0) (zsum (map sl_total ls)) ∧
  pz (ct_total_tax b) = zsum (map item_tax rows) ∧
  pz (ct_grand_total b) = pz (ct_subtotal b) - pz (ct_discount_amount b) + zsum (map added_tax rows).
Proof.
  intros Hin Eb Hb Hrows. pose proof (Forall2_length _ _ _ (proj1 Hin)) as Hl1.
  assert (length (ct_lines b) = length ls) as Hl2.
  { by rewrite <-(length_map total_of), (cb_totals _ _ _ _ _ Hb), length_map. }
  destruct (zip_lines ls (ct_lines b) Hl2) as (Z1 & Z2 & Z3).
  destruct (stored_sums _ _ _ (Z3 _ (cb_ok _ _ _ _ _ Hb)) Hrows) as (S1 & S2 & S3). rewrite Z1 in S1.
  rewrite (Z2 (λ r, paise_when lr_cgst_amount r + paise_when lr_sgst_amount r)) in S2. rewrite (Z2 exclusive_tax_of) in S3.
  assert (pz (ct_discount_amount b) = Z.min (Z.max n 0) (zsum (map sl_total ls))) as Hd.
  { destruct Eb as [Eb|[-> Eb]]; (eapply cart_discount_applied; [exact Hin| |exact Eb]).
    - exact (at_scale_money n).
    - exact (proj2 (at_scale_zero 2 d_zero) eq_refl). }
  destruct (cb_lines _ _ _ _ _ Hb) as (shares & Hsh & Hshl & Hms).
  pose proof (final_prices _ _ _ _ _ Hms (cb_totals _ _ _ _ _ Hb) Hl1 Hshl) as Hfin.
  pose proof (cb_grand _ _ _ _ _ Hb) as Hg. unfold rounded_total in Hg.
  split; [done|]. split; [exact (cb_subtotal _ _ _ _ _ Hb)|]. split; [done|]. rewrite S2, S3. split.
  - rewrite (cb_tax _ _ _ _ _ Hb), (cb_cgst _ _ _ _ _ Hb), (cb_sgst _ _ _ _ _ Hb). unfold paise_sum.
    clear. induction (ct_lines b) as [|r rs IH]; [done|]. cbn [map]. rewrite !zsum_cons, <-IH. lia.
  - rewrite Hg, Hfin, (cb_subtotal _ _ _ _ _ Hb), Hsh. reflexivity.
Qed.

Section Placed.
Context {L : Type} `{LedgerApi L} {G I : Type}.
Variable create_intent : intent_request → G → G * res I.
Variable accepts : payment → bool.

(** A request that can be placed: its entries are on the menu, its texts fit their
    columns, the ids it draws and its key are new. *)
Record placeable (m : menu) (u : UserContext) (owner : string) (q : request) (d : draw) (cfg : TaxConfig)
    (db : order_db I) (ps : list picked) : Prop := {
  pl_menu : menu_wf m;
  pl_owner : owner_of u = Some owner;
  pl_some : q_items q ≠ [];
  pl_sold : Forall2 (sold_as m (Some owner)) (q_items q) ps;
  pl_bound : zsum (prices m (q_items q) ps) < order_bound;
  pl_no_coupon : id_truthy (q_coupon_id q) = false;
  pl_customer : opt_int4 (q_customer_id q) = Ok (q_customer_id q);
  pl_number : varchar_opt 20 (gst_number cfg) = Ok (gst_number cfg);
  pl_table : varchar_opt 50 (q_table_number q) = Ok (q_table_number q);
  pl_phone : varchar_opt 20 (q_customer_phone q) = Ok (q_customer_phone q);
  pl_order : existsb (λ x, bool_decide (o_id x = d_order d)) (orders db) = false;
  pl_payment : existsb (λ x, bool_decide (py_id x = d_payment d)) (payments db) = false;
  pl_accepts : ∀ p, py_id p = d_payment d → accepts p = true;
  pl_key : str_truthy (q_idempotency_key q) = true → varchar 255 (str_or (q_idempotency_key q) "") = Ok (str_or (q_idempotency_key q) "")
    ∧ existsb (λ c, bool_decide (cl_key c = str_or (q_idempotency_key q) "") && bool_decide (cl_user c = owner)) (claims db) = false;
}.

(** The payment of a placed order: of its whole total, completed unless it is online. *)
Definition paid_as (q : request) (d : draw) (o : order) (before after : list payment) : Prop :=
  if str_truthy (q_payment_method q) then
    ∃ p, after = before ++ [p] ∧ py_id p = d_payment d ∧ py_order p = o_id o ∧ py_amount p = o_total_amount o ∧
      py_method p = normalize_payment_method (q_payment_method q) ∧
      (py_status p = "completed"%string ∧ o_status o = "Confirmed"%string ∨
       py_status p = "pending"%string ∧ py_method p = "online"%string ∧ o_status o = "Pending"%string)
  else after = before ∧ o_status o = "Pending"%string.

(** The status of the payment a checkout records. *)
Definition pay_status (q : request) : option string :=
  if str_truthy (q_payment_method q) then
    Some (if bool_decide (normalize_payment_method (q_payment_method q) = "online"%string) then "pending" else "completed")%string
  else None.

Lemma online_kind method :
  bool_decide (classify_method (Some (normalize_payment_method method)) (Some "pos"%string) = KRazorpay) =
  bool_decide (normalize_payment_method method = "online"%string).
Proof.
  unfold normalize_payment_method. destruct (find _ POS_METHOD_ALIASES) as [p|] eqn:E; [|by vm_compute].
  apply find_some in E as [Hin _]. cbn [fmap option_fmap option_map snd default].
  assert (Forall (λ p, bool_decide (classify_method (Some p.2) (Some "pos"%string) = KRazorpay)
    = bool_decide (p.2 = "online"%string)) POS_METHOD_ALIASES) as Hall by (repeat constructor; vm_compute; reflexivity).
  apply (proj1 (Forall_forall _ _) Hall). by apply list_elem_of_In.
Qed.

Lemma update_last (db : order_db I) before o id f :
  orders db = before ++ [o] → o_id o = id → existsb (λ x, bool_decide (o_id x = id)) before = false →
  orders (update_orders id f db) = before ++ [f o].
Proof.
  intros Ho Hid Hnew. unfold update_orders. cbn [orders]. rewrite Ho, map_app. cbn [map].
  rewrite (bool_decide_eq_true_2 (o_id o = id)) by done. f_equal.
  rewrite <-(map_id before) at 2. apply map_ext_in. intros x Hx%list_elem_of_In.
  rewrite existsb_false in Hnew. by rewrite (Hnew x Hx).
Qed.

Lemma pay_order_spec m u owner q d cfg db0 ps (db : order_db I) o total :
  placeable m u owner q d cfg db0 ps → payments db = payments db0 → claims db = claims db0 →
  orders db = orders db0 ++ [o] → o_id o = d_order d → o_status o = "Pending"%string →
  pg_money 12 (of_decimal total) = Ok (o_total_amount o) →
  ∃ db' o', pd_tx (pay_order accepts u q d total db) = Some db' ∧ orders db' = orders db0 ++ [o'] ∧
    order_items db' = order_items db ∧ claims db' = claims db0 ∧
    (o' = o ∨ o' = set_status "Confirmed" (d_now d) o) ∧ paid_as q d o' (payments db0) (payments db') ∧
    pd_status (pay_order accepts u q d total db) = pay_status q.
Proof.
  intros Hpl Hp Hc Ho Hid Hst Htot. unfold pay_order, paid_as, pay_status.
  destruct (str_truthy (q_payment_method q)); [|exists db, o; by split_and!; try left].
  rewrite online_kind. unfold payment_row, tenant_insert_fields.
  rewrite (pl_owner _ _ _ _ _ _ _ _ Hpl). cbn [t_user not_null]. rewrite bind_Ok, Htot, !bind_Ok.
  unfold insert_payment. rewrite (pl_accepts _ _ _ _ _ _ _ _ Hpl) by done. cbn [negb raise_if py_id]. rewrite bind_Ok, Hp.
  rewrite (pl_payment _ _ _ _ _ _ _ _ Hpl). cbn [raise_if]. rewrite bind_Ok. cbn [pd_tx].
  destruct (bool_decide_reflect (normalize_payment_method (q_payment_method q) = "online"%string)) as [Hm|Hm].
  - rewrite (bool_decide_eq_false_2 ("pending"%string = "completed"%string)) by done.
    eexists _, o. split; [reflexivity|]. cbn [orders order_items claims payments]. split_and!; try done; [by left|].
    eexists. split; [reflexivity|]. cbn [py_id py_order py_amount py_method py_status]. split_and!; try done.
    right. by split_and!.
  - rewrite (bool_decide_eq_true_2 ("completed"%string = "completed"%string)) by done.
    eexists _, (set_status "Confirmed" (d_now d) o). split; [reflexivity|].
    split; [by apply update_last, (pl_order _ _ _ _ _ _ _ _ Hpl)|]. cbn [update_orders order_items claims payments].
    split_and!; try done; [by right|]. eexists. split; [reflexivity|].
    cbn [py_id py_order py_amount py_method py_status]. split_and!; try done. by left.
Qed.
Lemma order_row_spec m u owner q d cfg db ps source lines b :
  placeable m u owner q d cfg db ps → cart_bill lines (prices m (q_items q) ps) cfg false b →
  ∃ o, order_row u q source d b = Ok o ∧ o_id o = d_order d ∧ o_user o = owner ∧ o_status o = "Pending"%string ∧
    o_source o = source ∧ o_subtotal o = pz (ct_subtotal b) ∧ o_discount_amount o = pz (ct_discount_amount b) ∧
    o_tax_amount o = pz (ct_total_tax b) ∧ o_total_amount o = pz (ct_grand_total b).
Proof.
  intros Hpl Hb. unfold order_row. rewrite (pl_customer _ _ _ _ _ _ _ _ Hpl), bind_Ok.
  assert (opt_int4 (q_coupon_id q) = Ok (q_coupon_id q)) as ->.
  { pose proof (pl_no_coupon _ _ _ _ _ _ _ _ Hpl) as Hc. destruct (q_coupon_id q) as [z|]; [|done].
    cbn in Hc. apply negb_false_iff, Z.eqb_eq in Hc as ->. reflexivity. }
  rewrite bind_Ok. cbn [tenant_insert_fields t_user]. rewrite (pl_owner _ _ _ _ _ _ _ _ Hpl). cbn [not_null]. rewrite bind_Ok.
  rewrite (read_bill_spec _ _ _ _ Hb), bind_Ok.
  2: { split; [exact (prices_nonneg _ _ _ _ (pl_menu _ _ _ _ _ _ _ _ Hpl) (pl_sold _ _ _ _ _ _ _ _ Hpl))|].
       exact (pl_bound _ _ _ _ _ _ _ _ Hpl). }
  assert (∃ n, varchar_opt 20 (ct_gst_number b) = Ok n) as [n ->].
  { rewrite (cb_number _ _ _ _ _ Hb). destruct (gst_enabled cfg); [|by exists None].
    rewrite (pl_number _ _ _ _ _ _ _ _ Hpl). by eexists. }
  rewrite bind_Ok, (pl_table _ _ _ _ _ _ _ _ Hpl), bind_Ok, (pl_phone _ _ _ _ _ _ _ _ Hpl), bind_Ok.
  eexists. split; [reflexivity|]. by split_and!.
Qed.

Lemma write_order_spec m u owner q d cfg db ps source lines b cs sub disc :
  placeable m u owner q d cfg db ps → cart_bill lines (prices m (q_items q) ps) cfg false b →
  Forall2 priced_line (sale_lines m (q_items q) ps) cs →
  ∃ db' r p o rows, write_order accepts u q source d sub disc cs b db = Ok (db', r, p) ∧
    orders db' = orders db ++ [o] ∧ order_items db' = order_items db ++ rows ∧
    rs_id r = d_order d ∧ o_id o = d_order d ∧ o_user o = owner ∧ o_source o = source ∧
    o_subtotal o = pz (ct_subtotal b) ∧ o_discount_amount o = pz (ct_discount_amount b) ∧
    o_tax_amount o = pz (ct_total_tax b) ∧ o_total_amount o = pz (ct_grand_total b) ∧
    Forall2 (λ x row, stored_line (d_order d) x.1 x.2 row) (zip (sale_lines m (q_items q) ps) (ct_lines b)) rows ∧
    ids_from (length (order_items db)) rows ∧ paid_as q d o (payments db) (payments db') ∧ pd_status p = pay_status q.
Proof.
  intros Hpl Hb Hcs. pose proof (pl_menu _ _ _ _ _ _ _ _ Hpl) as Hm. pose proof (pl_sold _ _ _ _ _ _ _ _ Hpl) as Hes.
  pose proof (prices_nonneg _ _ _ _ Hm Hes) as H0. pose proof (pl_bound _ _ _ _ _ _ _ _ Hpl) as Hbd.
  unfold write_order.
  destruct (order_row_spec _ _ _ _ _ _ _ _ source _ _ Hpl Hb) as (o & -> & Hid & Hu & Hst & Hsrc & O1 & O2 & O3 & O4).
  rewrite bind_Ok. unfold insert_order. rewrite Hid, (pl_order _ _ _ _ _ _ _ _ Hpl). cbn [raise_if]. rewrite !bind_Ok.
  cbn [orders order_items payments claims].
  pose proof (cb_totals _ _ _ _ _ Hb) as Htots. rewrite <-prices_lines in Htots, Hbd.
  destruct (insert_items_spec cfg u d _ _ _ (order_items db) (sale_lines_fit cfg _ _ _ _ Hm Hes) Hcs (cb_ok _ _ _ _ _ Hb)
    Htots Hbd) as (rows & -> & Hids & Hrows). rewrite prices_lines in Hbd.
  rewrite bind_Ok. set (db2 := Build_order_db _ _ _ _).
  destruct (pay_order_spec m u owner q d cfg db ps db2 o (ct_grand_total b) Hpl) as (db' & o' & Etx & Ho & Hit & Hcl & Ho' & Hpaid & Hps);
    [done..| |].
  { destruct (bill_small _ _ _ _ Hb (conj H0 Hbd)) as (Hall & _). rewrite !Forall_cons in Hall.
    destruct Hall as (_ & _ & _ & _ & _ & [X Y] & _). rewrite O4. by apply pg_money_exact. }
  assert (o_id o' = d_order d ∧ o_user o' = owner ∧ o_source o' = source ∧ o_subtotal o' = pz (ct_subtotal b) ∧
    o_discount_amount o' = pz (ct_discount_amount b) ∧ o_tax_amount o' = pz (ct_total_tax b) ∧
    o_total_amount o' = pz (ct_grand_total b)) as (P1 & P2 & P3 & P4 & P5 & P6 & P7) by (by destruct Ho' as [->| ->]).
  set (p := pay_order accepts u q d (ct_grand_total b) db2) in *. set (r := order_response _ _ _ _ _ _ _ p).
  destruct (str_truthy (q_idempotency_key q)) eqn:Hk; rewrite Etx.
  - destruct (pl_key _ _ _ _ _ _ _ _ Hpl Hk) as [Hv Hnew]. unfold claim_key. rewrite Hv, bind_Ok.
    rewrite (pl_owner _ _ _ _ _ _ _ _ Hpl). cbn [not_null]. rewrite bind_Ok, Hcl, Hnew. cbn [raise_if]. rewrite !bind_Ok.
    eexists _, r, p, o', rows. split; [reflexivity|]. cbn [orders order_items payments]. rewrite Hit. by split_and!.
  - exists db', r, p, o', rows. split; [reflexivity|]. rewrite Hit. by split_and!.
Qed.
Lemma receipt_never_fails u q d b (p : @paid I) (l : L) : ∃ l', post_receipt u q d b p l = Ok l'.
Proof.
  unfold post_receipt, post_payment_received. destruct (bool_decide _); [|by eexists].
  destruct (negb _ || _); [by eexists|]. destruct (negb _); [by eexists|]. destruct (api_post _ _ _); by eexists.
Qed.

Lemma find_claim_Some key owner (rows : list (claim I)) c :
  find_claim key owner rows = Some c → c ∈ rows ∧ Some (cl_key c) = key ∧ Some (cl_user c) = owner.
Proof.
  intros [Hin Hc]%find_some. apply list_elem_of_In in Hin. apply andb_prop in Hc as [Hk Ho].
  apply bool_decide_eq_true in Hk. split; [done|]. split; [done|]. unfold owned_by in Ho.
  destruct owner; [|done]. apply bool_decide_eq_true in Ho. by subst.
Qed.

Lemma no_replay m u owner q d cfg (db seen : order_db I) ps :
  placeable m u owner q d cfg db ps → claims seen ⊆ claims db →
  (if str_truthy (q_idempotency_key q)
   then find_claim (q_idempotency_key q) (owner_of u) (filter (λ c, d_now d < cl_expires_at c) (claims seen)) else None) = None.
Proof.
  intros Hpl Hseen. destruct (str_truthy _) eqn:Hk; [|done]. destruct (find_claim _ _ _) as [c|] eqn:Hf; [|done].
  apply find_claim_Some in Hf as (Hin & Hck & Hcu). apply list_elem_of_filter in Hin as [_ Hin].
  destruct (pl_key _ _ _ _ _ _ _ _ Hpl Hk) as [_ Hnew]. rewrite existsb_false in Hnew.
  specialize (Hnew c (Hseen c Hin)). rewrite (pl_owner _ _ _ _ _ _ _ _ Hpl) in Hcu. injection Hcu as Hcu.
  rewrite <-Hck in Hk, Hnew. cbn in Hnew, Hk. unfold str_or in Hnew. apply negb_true_iff, bool_decide_eq_false in Hk.
  rewrite decide_False in Hnew by done. by rewrite Hcu, !bool_decide_eq_true_2 in Hnew by done.
Qed.

Lemma intent_keeps_id u q d b (p : @paid I) r (g : G) : rs_id (request_intent create_intent u q d b p r g).2 = rs_id r.
Proof.
  unfold request_intent. destruct (pd_id p); [|done]. destruct (_ && _); [|done]. by destruct (create_intent _ _).
Qed.

(** A placeable request commits: its order is billed by the tax engine and its rows
    are stored line by line. *)
Lemma checkout_commits m u owner q d cfg cache' seen (w : world L G I) ps :
  placeable m u owner q d cfg (w_db w) ps → claims seen ⊆ claims (w_db w) →
  get_tax_config (λ id, settings m id) (restaurant_id u) (d_mono d) (w_cache w) = Ok (cfg, cache') →
  ∃ w' r o rows b, checkout create_intent accepts m u q d seen w = (w', Ok r) ∧
    orders (w_db w') = orders (w_db w) ++ [o] ∧ order_items (w_db w') = order_items (w_db w) ++ rows ∧
    rs_id r = d_order d ∧ o_id o = d_order d ∧ o_user o = owner ∧
    cart_input (menu_lines cfg m (q_items q) ps) (prices m (q_items q) ps) ∧
    compute_cart_tax (menu_lines cfg m (q_items q) ps) (PDec d_zero) cfg false = Ok b ∧
    cart_bill (menu_lines cfg m (q_items q) ps) (prices m (q_items q) ps) cfg false b ∧
    Forall2 (λ x row, stored_line (d_order d) x.1 x.2 row) (zip (sale_lines m (q_items q) ps) (ct_lines b)) rows ∧
    o_subtotal o = pz (ct_subtotal b) ∧ o_discount_amount o = pz (ct_discount_amount b) ∧
    o_tax_amount o = pz (ct_total_tax b) ∧ o_total_amount o = pz (ct_grand_total b) ∧
    paid_as q d o (payments (w_db w)) (payments (w_db w')) ∧
    ∃ p : @paid I, pd_status p = pay_status q ∧ post_receipt u q d b p (w_ledger w) = Ok (w_ledger w').
Proof.
  intros Hpl Hseen Hcfg. unfold checkout. rewrite (no_replay _ _ _ _ _ _ _ _ _ Hpl Hseen).
  rewrite bool_decide_eq_false_2 by exact (pl_some _ _ _ _ _ _ _ _ Hpl).
  pose proof (pl_menu _ _ _ _ _ _ _ _ Hpl) as Hm. pose proof (pl_sold _ _ _ _ _ _ _ _ Hpl) as Hes.
  pose proof (prices_nonneg _ _ _ _ Hm Hes) as H0. pose proof (pl_bound _ _ _ _ _ _ _ _ Hpl) as Hbd.
  assert (zsum (prices m (q_items q) ps) < money_bound) as Hmb
    by (unfold order_bound, money_bound in *; lia).
  unfold order_txn. cbn [tenant_insert_fields t_user]. rewrite (pl_owner _ _ _ _ _ _ _ _ Hpl).
  destruct (cart_spec_of m (Some owner) _ _ d_zero 0 [] Hm Hes) as (sub & cs & -> & _ & Hcs); [by apply at_scale_zero|done|lia|].
  rewrite bind_Ok, (pl_no_coupon _ _ _ _ _ _ _ _ Hpl), bind_Ok. cbn [app]. rewrite Hcfg.
  rewrite (tax_lines_priced cfg _ cs Hcs). fold (menu_lines cfg m (q_items q) ps).
  assert (cart_input (menu_lines cfg m (q_items q) ps) (prices m (q_items q) ps)) as Hin.
  { rewrite <-prices_lines. apply lines_input; [by eapply sale_lines_fit|by rewrite prices_lines]. }
  destruct (cart_spec _ _ (PDec d_zero) cfg false Hin) as (b & Eb & Hb). rewrite Eb, bind_Ok.
  destruct (write_order_spec m u owner q d cfg (w_db w) ps (source_value (q_source q) (q_order_type q)) _ _ cs sub d_zero Hpl Hb Hcs)
    as (db' & r & p & o & rows & -> & Ho & Hi & Hr & Hid & Hu & _ & Hsub & Hdisc & Htax & Htot & Hrows & _ & Hpaid & Hps).
  rewrite bind_Ok. destruct (receipt_never_fails u q d b p (w_ledger w)) as (l' & Hl). rewrite Hl.
  pose proof (intent_keeps_id u q d b p r (w_gateway w)) as Hr'.
  destruct (request_intent create_intent u q d b p r (w_gateway w)) as [g r']. cbn [snd] in Hr'.
  eexists _, r', o, rows, b. split; [reflexivity|]. cbn [w_db w_ledger]. rewrite Hr'. split_and!; try done. by exists p.
Qed.

(** C5: checkout of entries that are on the menu succeeds and stores an order whose
    bill is computed from the menu alone: the rows are priced (unit price and addons)
    times quantity, the subtotal is their sum, the tax is the sum of the tax of the rows,
    the total is the subtotal plus the tax of the rows whose price does not contain
    it, and the payment, if a method was given, is of that total and confirms the order
    unless it is online. *)
Theorem checkout_bills_menu m u owner q d cfg cache' seen (w : world L G I) ps :
  placeable m u owner q d cfg (w_db w) ps → claims seen ⊆ claims (w_db w) →
  get_tax_config (λ id, settings m id) (restaurant_id u) (d_mono d) (w_cache w) = Ok (cfg, cache') →
  ∃ w' r o rows, checkout create_intent accepts m u q d seen w = (w', Ok r) ∧
    orders (w_db w') = orders (w_db w) ++ [o] ∧ order_items (w_db w') = order_items (w_db w) ++ rows ∧
    rs_id r = o_id o ∧ o_id o = d_order d ∧ o_user o = owner ∧
    map oi_total_price rows = prices m (q_items q) ps ∧ Forall (λ row, oi_order row = o_id o) rows ∧
    o_subtotal o = zsum (map oi_total_price rows) ∧ o_discount_amount o = 0 ∧
    o_tax_amount o = zsum (map item_tax rows) ∧ o_total_amount o = o_subtotal o + zsum (map added_tax rows) ∧
    paid_as q d o (payments (w_db w)) (payments (w_db w')).
Proof.
  intros Hpl Hseen Hcfg.
  pose proof (prices_nonneg _ _ _ _ (pl_menu _ _ _ _ _ _ _ _ Hpl) (pl_sold _ _ _ _ _ _ _ _ Hpl)) as H0.
  destruct (checkout_commits _ _ _ _ _ _ _ _ _ _ Hpl Hseen Hcfg) as
    (w' & r & o & rows & b & E & Ho & Hi & Hr & Hid & Hu & Hin & Eb & Hb & Hrows & Hsub & Hdisc & Htax & Htot & Hpaid & _).
  rewrite <-prices_lines in Hin, Hb.
  destruct (bill_sums _ _ cfg b rows 0 Hin (or_intror (conj eq_refl Eb)) Hb Hrows) as (S1 & S2 & S3 & S4 & S5).
  rewrite prices_lines in S1, S2, S3.
  exists w', r, o, rows. rewrite Hsub, Hdisc, Htax, Htot, Hr, Hid, S1, S2, S4, S5, S2, S3.
  split_and!; try done; [|lia..].
  eapply Forall2_Forall_r; [exact Hrows|]. apply Forall_forall. intros x _ row Hx. exact (st_order _ _ _ _ Hx).
Qed.
(** A sale that is paid at the counter reaches the merchant's ledger: when the
    receipt of the payment is not there yet and the ledger has room, the checkout that
    stores the order and its completed payment raises the merchant's balance by exactly
    the total of the order (in ten-thousandths), and posts it under the payment's key. *)
Theorem counter_sale_credits_merchant m u owner q d cfg cache' seen (w : world L G I) ps mid :
  placeable m u owner q d cfg (w_db w) ps → claims seen ⊆ claims (w_db w) →
  get_tax_config (λ id, settings m id) (restaurant_id u) (d_mono d) (w_cache w) = Ok (cfg, cache') →
  restaurant_id u = Some mid → mid ≠ ""%string → d_payment d ≠ ""%string →
  pay_status q = Some "completed"%string → 0 < zsum (prices m (q_items q) ps) →
  api_wf (w_ledger w) → api_posted (w_ledger w) mid ("payment_received:" ++ d_payment d) = None →
  (∀ n, 0 < n < ledger_bound → api_room (d_stamp d) mid "INR" 1 (100 * n) (w_ledger w)) →
  ∃ w' r o, checkout create_intent accepts m u q d seen w = (w', Ok r) ∧
    orders (w_db w') = orders (w_db w) ++ [o] ∧ o_status o = "Confirmed"%string ∧ 0 < o_total_amount o ∧
    api_wf (w_ledger w') ∧
    (∀ mc c, api_balance (w_ledger w') mc c = api_balance (w_ledger w) mc c
       + (if bool_decide (mid = mc) && bool_decide ("INR"%string = c) then 100 * o_total_amount o else 0)) ∧
    ∃ e, api_posted (w_ledger w') mid ("payment_received:" ++ d_payment d) = Some e.
Proof.
  intros Hpl Hseen Hcfg Hmid Hmid0 Hpay0 Hps Hpos Hwf Hnew Hroom.
  pose proof (Forall2_length _ _ _ (pl_sold _ _ _ _ _ _ _ _ Hpl)) as Hlen.
  pose proof (pl_bound _ _ _ _ _ _ _ _ Hpl) as Hbd.
  destruct (checkout_commits _ _ _ _ _ _ _ _ _ _ Hpl Hseen Hcfg) as
    (w' & r & o & rows & b & E & Ho & _ & _ & Hid & _ & Hin & Eb & Hb & Hrows & Hsub & Hdisc & _ & Htot & Hpaid & p & Hp & Hpost).
  destruct (bill_small _ _ _ _ Hb) as (Hall & _); [lia|]. rewrite !Forall_cons in Hall.
  destruct Hall as (_ & _ & _ & _ & _ & [Hscale Hsmall] & _).
  pose proof (grand_at_least _ _ _ _ Hin Hb) as Hge.
  rewrite (cart_discount_applied _ _ (PDec d_zero) _ _ 0 _ Hin (proj2 (at_scale_zero 2 d_zero) eq_refl) Eb) in Hge.
  set (n := pz (ct_grand_total b)) in *.
  assert (0 < n < ledger_bound) as Hn by (unfold ledger_bound; lia).
  unfold post_receipt, post_payment_received, capture_of in Hpost. cbn [cap_merchant cap_payment] in Hpost.
  rewrite Hp, Hps, bool_decide_eq_true_2, Hmid in Hpost by done. cbn [str_truthy str_or] in Hpost.
  rewrite (bool_decide_eq_false_2 (mid = _)), (bool_decide_eq_false_2 (d_payment d = _)), decide_False in Hpost by done.
  cbn [negb orb] in Hpost. change (to_decimal0 (PDec (ct_grand_total b))) with (ct_grand_total b) in Hpost.
  destruct (positive_amount _ n Hscale ltac:(unfold ledger_bound in Hn; lia)) as (_ & _ & Hdp). rewrite Hdp in Hpost. cbn [negb] in Hpost.
  set (post := receipt_posting _ _ _ _ _) in *.
  assert (posts post 0 (100 * n)) as Hposts by (by apply (posts_credit _ (ct_grand_total b) n)).
  destruct (api_post_new (d_stamp d) post 0 (100 * n) ("payment_received:" ++ d_payment d)%string 0 0 (w_ledger w) Hwf Hposts)
    as (l' & e & El & Hwf' & _ & Hbal & Hposted & _); [done|exact Hnew|lia|lia| |].
  { rewrite Z.add_0_r, Z.sub_0_r, Z.add_0_r, Z.abs_eq by lia. by apply Hroom. }
  rewrite El in Hpost. injection Hpost as Hl. exists w', r, o. rewrite Htot, <-Hl. split_and!; try done.
  - unfold paid_as in Hpaid. unfold pay_status in Hps. destruct (str_truthy _); [|done].
    destruct Hpaid as (y & _ & _ & _ & _ & Hm & [(_ & Hst)|(_ & Honl & _)]); [done|].
    rewrite <-Hm, Honl in Hps. done.
  - lia.
  - intros mc c. rewrite Hbal. cbn [p_merchant post receipt_posting]. by rewrite Z.sub_0_r.
  - exists e. rewrite Hposted. by rewrite decide_True.
Qed.
End Placed.

(** ** A day at a cafe *)

Definition cafe_menu : menu := {|
  items := [{| i_id := 1; i_name := "Dosa"; i_price := 12050; i_available := true; i_gst_rate := 500;
               i_tax_inclusive := false; i_user := Some "owner"%string |};
            {| i_id := 2; i_name := "Cola"; i_price := 4000; i_available := true; i_gst_rate := 1800;
               i_tax_inclusive := true; i_user := Some "owner"%string |}];
  variants := [{| v_id := 7; v_item := 1; v_name := "Masala"; v_price := 15099; v_active := true |}];
  addons := [{| a_id := 3; a_item := 1; a_price := 2500; a_active := true |}];
  coupons := None; settings := λ _, None |}.

Definition cafe_owner : UserContext := {|
  user_id := "owner"; role := "owner"; restaurant_id := Some "r1"%string; branch_id := None;
  owner_id := None; is_branch_user := false |}.

Definition cafe_entry (name : option string) (id : option Z) (quantity : Z) (variant : option Z) (ads : list addon_in) : entry_in := {|
  e_item_name := name; e_item_id := id; e_quantity := quantity; e_variant_name := None; e_variant_id := variant;
  e_addons := ads; e_notes := None |}.

Definition cafe_request : request := {|
  q_items := [cafe_entry None (Some 1) 2 None [AddonValue (PInt 3)]; cafe_entry (Some "Cola"%string) None 3 None [];
              cafe_entry None None 1 (Some 7) []];
  q_source := "Dine_In"; q_order_type := None; q_payment_method := Some "UPI"%string; q_total_amount := None;
  q_customer_id := None; q_customer_name := None; q_customer_phone := None; q_table_number := Some "T4"%string;
  q_delivery_address := None; q_coupon_id := None; q_notes := None; q_idempotency_key := Some "k1"%string |}.

Definition cafe_draw (order payment : string) (t : Z) : draw := {|
  d_order := order; d_payment := payment; d_now := t; d_mono := 5; d_stamp := {| now := t; yyyymm := "202601" |} |}.

Definition cafe_world : world ledger_db () () := {|
  w_db := Build_order_db [] [] [] []; w_cache := ∅; w_ledger := empty_ledger; w_gateway := (); w_events := [] |}.

Definition no_intent (_ : intent_request) (g : ()) : () * res () := (g, Ok ()).
Definition any_payment (_ : payment) : bool := true.

Definition cafe_checkout (order payment : string) (t : Z) (w : world ledger_db () ()) : world ledger_db () () * res (response ()) :=
  checkout no_intent any_payment cafe_menu cafe_owner cafe_request (cafe_draw order payment t) (w_db w) w.

Definition cafe_rows : list picked :=
  omap (λ e, match pick_row cafe_menu (Some "owner"%string) e with Ok p => Some p | Err _ => None end) (q_items cafe_request).

Example cafe_prices : prices cafe_menu (q_items cafe_request) cafe_rows = [29100; 12000; 15099].
Proof. vm_compute. reflexivity. Qed.

Lemma cafe_placeable :
  placeable any_payment cafe_menu cafe_owner "owner" cafe_request (cafe_draw "o1" "p1" 10) default_config (w_db cafe_world) cafe_rows.
Proof.
  split; try (vm_compute; reflexivity); try done.
  - split; repeat constructor; cbn; try lia; unfold gst_rate_ok; set_solver.
  - assert (∀ e p, pick_row cafe_menu (Some "owner"%string) e = Ok p → (1 <=? e_quantity e) && (e_quantity e <=? 100) = true →
      forallb (λ a, bool_decide (addon_id a = Ok 3)) (e_addons e) = true →
      Nat.leb (length (chars (if id_truthy (pk_variant p) then pk_full_name p else str_or (pk_item_name p) ""))) 255 = true →
      (unit_paise cafe_menu p e <? 10 ^ 10) = true → sold_as cafe_menu (Some "owner"%string) e p) as Hsold.
    { intros e p Hp [Hq1%Z.leb_le Hq2%Z.leb_le]%andb_prop Ha Hn%Nat.leb_le Hu%Z.ltb_lt. split; [done|lia| |done|done].
      apply Forall_forall. intros a Hin. exists 3. split; [|done]. rewrite forallb_forall in Ha.
      specialize (Ha a ltac:(by apply list_elem_of_In)). by apply bool_decide_eq_true in Ha. }
    repeat (apply List.Forall2_cons || apply List.Forall2_nil); apply Hsold; vm_compute; reflexivity.
Qed.

(** What the call stored, read off by evaluation. *)
Example cafe_bill :
  map (λ o, (o_subtotal o, o_tax_amount o, o_total_amount o, o_status o, o_source o))
    (orders (w_db (cafe_checkout "o1" "p1" 10 cafe_world).1)) = [(56199, 4041, 58409, "Confirmed"%string, "qr_table"%string)].
Proof. vm_compute. reflexivity. Qed.

Lemma checkout_bills_menu_witness :
  ∃ w' r o rows, cafe_checkout "o1" "p1" 10 cafe_world = (w', Ok r) ∧ orders (w_db w') = [o] ∧
    order_items (w_db w') = rows ∧ o_subtotal o = 29100 + (12000 + (15099 + 0)) ∧
    o_total_amount o = o_subtotal o + zsum (map added_tax rows).
Proof.
  destruct (checkout_bills_menu no_intent any_payment cafe_menu cafe_owner "owner" cafe_request (cafe_draw "o1" "p1" 10)
    default_config (<["r1"%string := (default_config, 5)]> ∅) (w_db cafe_world) cafe_world cafe_rows cafe_placeable)
    as (w' & r & o & rows & E & Ho & Hi & _ & _ & _ & Hp & _ & Hs & _ & _ & Ht & _).
  - done.
  - vm_compute. reflexivity.
  - exists w', r, o, rows. split; [exact E|]. split; [exact Ho|]. split; [exact Hi|]. split; [|exact Ht].
    rewrite Hs, Hp, cafe_prices. reflexivity.
Defined.

Lemma counter_sale_credits_merchant_witness :
  ∃ w' r o, cafe_checkout "o1" "p1" 10 cafe_world = (w', Ok r) ∧ orders (w_db w') = [o] ∧
    api_balance (w_ledger w') "r1" "INR" = 100 * o_total_amount o.
Proof.
  destruct (counter_sale_credits_merchant no_intent any_payment cafe_menu cafe_owner "owner" cafe_request (cafe_draw "o1" "p1" 10)
    default_config (<["r1"%string := (default_config, 5)]> ∅) (w_db cafe_world) cafe_world cafe_rows "r1" cafe_placeable)
    as (w' & r & o & E & Ho & _ & _ & _ & Hb & _).
  1-6: first [done | vm_compute; reflexivity].
  - rewrite cafe_prices. reflexivity.
  - exact empty_wf.
  - reflexivity.
  - intros n Hn. unfold ledger_bound in Hn.
    assert (Z.abs (balance empty_ledger "r1" "INR") + 100 * n < 10 ^ 18) as Hbal by (change (balance _ _ _) with 0; lia).
    split; [done|]. split; [lia|]. split; [exact Hbal|reflexivity].
  - exists w', r, o. split; [exact E|]. split; [exact Ho|]. rewrite (Hb "r1" "INR")%string. reflexivity.
Defined.
