(* ===== verification/OrderHistory.v ===== *)
(** What happens to an order after it was placed: one order per idempotency key, the
    invariant of the order tables, statuses along the machine, and discounts that bill
    the order again.

    [service_call] is one call of the order service; [order_op] adds the handler of
    payments that die, which is not bound by the status machine. *)

From Stdlib Require Import ZArith Lia Ascii String.
From S2P Require Import Prelude PyDecimal PyFloat PyValues TaxEngine StateMachines FeePolicy MerchantLedger RazorpayLedgers Orders OrderBilling.
Open Scope Z_scope.

(** ** One order per key *)

Section Once.
Context {L : Type} `{LedgerApi L} {G I : Type}.
Variable create_intent : intent_request → G → G * res I.
Variable accepts : payment → bool.

(** One call of the service, or anything that leaves its tables alone.  The first
    read of a checkout sees claims that are there. *)
Inductive service_call (w : world L G I) : world L G I → Prop :=
  | call_checkout m u q d seen w' out :
      claims seen ⊆ claims (w_db w) → checkout create_intent accepts m u q d seen w = (w', out) → service_call w w'
  | call_status u id status locked d : service_call w (update_status u id status locked d w).1
  | call_update u id status notes locked d : service_call w (update_order u id status notes locked d w).1
  | call_discount m u id pct reason d db o b :
      (apply_discount m u id pct reason d (w_cache w) (w_db w)).2 = Ok (db, o, b) →
      service_call w {| w_db := db; w_cache := (apply_discount m u id pct reason d (w_cache w) (w_db w)).1;
                        w_ledger := w_ledger w; w_gateway := w_gateway w; w_events := w_events w |}
  | call_other w' : w_db w' = w_db w → service_call w w'.

(** The same, and payments that die. *)
Inductive order_op (w : world L G I) : world L G I → Prop :=
  | op_service w' : service_call w w' → order_op w w'
  | op_flip id user now : order_op w (_flip_order_to_cancelled id user now w).

(** Keys are unique per owner and fit their column. *)
Record claims_wf (rows : list (claim I)) : Prop := {
  cw_unique : NoDup (map (λ c, (cl_key c, cl_user c)) rows);
  cw_width : Forall (λ c, varchar 255 (cl_key c) = Ok (cl_key c)) rows;
}.

Lemma claims_same rows c c' :
  claims_wf rows → c ∈ rows → c' ∈ rows → cl_key c = cl_key c' → cl_user c = cl_user c' → c = c'.
Proof.
  intros [Hu _] Hc Hc' Hk Hs. apply (NoDup_map_inj _ _ _ _ Hu Hc Hc'). by rewrite Hk, Hs.
Qed.

Lemma pay_order_claims u q d total (db tx : order_db I) :
  pd_tx (pay_order accepts u q d total db) = Some tx → claims tx = claims db.
Proof.
  unfold pay_order. destruct (str_truthy _); [|by intros [= <-]].
  destruct (payment_row _ _ _ _ _ ≫= _) as [db'|] eqn:E; [|done].
  cbn [pd_tx]. intros Etx%(inj Some). subst tx. apply res_bind_Ok in E as (row & _ & E).
  unfold insert_payment in E. inv_res. subst db'. by destruct (bool_decide _).
Qed.

(** A transaction that commits under a key found the key free and takes it. *)
Definition claims_key (u : UserContext) (q : request) (d : draw) (db db' : order_db I) (r : response I) : Prop :=
  ∃ k user c, varchar 255 (str_or (q_idempotency_key q) "") = Ok k ∧ owner_of u = Some user ∧
    (∀ x, x ∈ claims db → ¬ (cl_key x = k ∧ cl_user x = user)) ∧ claims db' = claims db ++ [c] ∧
    cl_key c = k ∧ cl_user c = user ∧ cl_order c = d_order d ∧ cl_expires_at c = d_now d + day ∧ cl_payload c = r.

Lemma write_order_claims u q source d sub disc cart b (db db' : order_db I) r p :
  write_order accepts u q source d sub disc cart b db = Ok (db', r, p) →
  r = order_response q source d sub disc b (attach_tax cart (ct_lines b)) p ∧
  if str_truthy (q_idempotency_key q) then claims_key u q d db db' r else claims db' = claims db.
Proof.
  unfold write_order. intros (o & _ & (db1 & Hdb1 & (rows & _ & E)%res_bind_Ok)%res_bind_Ok)%res_bind_Ok.
  apply res_bind_Ok in Hdb1 as (t & _ & Hdb1). injection Hdb1 as <-. cbn [orders order_items payments claims] in E.
  set (db2 := Build_order_db _ _ _ _) in *. destruct (str_truthy (q_idempotency_key q)).
  - destruct (pd_tx _) as [tx|] eqn:Etx; [|done]. apply pay_order_claims in Etx.
    apply res_bind_Ok in E as (tx' & Hkey & E). injection E as <- <- <-. split; [done|].
    apply res_bind_Ok in Hkey as (k & Hk & (user & Hu & (t' & Hnew & Hkey)%res_bind_Ok)%res_bind_Ok).
    injection Hkey as <-. apply raise_if_Ok in Hnew. rewrite Etx in *. cbn [claims].
    unfold not_null in Hu. destruct (owner_of u) as [user'|] eqn:Ho; [|done]. injection Hu as ->.
    eexists k, user, _. split; [done|]. split; [done|]. split; [|by split_and!].
    intros x Hx [<- <-]. rewrite existsb_false in Hnew. specialize (Hnew x Hx). cbn beta in Hnew.
    by rewrite !bool_decide_eq_true_2 in Hnew by done.
  - injection E as <- <- <-. split; [done|]. destruct (pd_tx _) as [tx|] eqn:Etx; [|done].
    by apply pay_order_claims in Etx.
Qed.
(** Nothing happened but, perhaps, a refreshed tax cache. *)
Record untouched (w w' : world L G I) : Prop := {
  un_db : w_db w' = w_db w;
  un_ledger : w_ledger w' = w_ledger w;
  un_gateway : w_gateway w' = w_gateway w;
  un_events : w_events w' = w_events w;
}.

Definition claim_of (u : UserContext) (q : request) (c : claim I) : Prop :=
  str_truthy (q_idempotency_key q) = true ∧ Some (cl_key c) = q_idempotency_key q ∧ Some (cl_user c) = owner_of u.

Lemma find_claim_of u q (rows : list (claim I)) c :
  (if str_truthy (q_idempotency_key q) then find_claim (q_idempotency_key q) (owner_of u) rows else None) = Some c →
  c ∈ rows ∧ claim_of u q c.
Proof.
  destruct (str_truthy _) eqn:Hk; [|done]. intros (Hin & H1 & H2)%find_claim_Some. by split; [|split; [|split]].
Qed.

Lemma intent_only_razorpay u q d b (p : @paid I) r (g : G) :
  rs_razorpay r = None → with_razorpay (request_intent create_intent u q d b p r g).2 None = r.
Proof.
  intros Hr. assert (with_razorpay r None = r) as E by (destruct r; cbn in *; by subst).
  unfold request_intent. destruct (pd_id p); [|done]. destruct (_ && _); [|done].
  destruct (create_intent _ _) as [g' rep]. cbn [snd]. rewrite <-E at 2. by destruct r.
Qed.

(** A checkout replays a claim, fails without a trace, or commits a transaction. *)
Lemma checkout_cases m u q d seen (w w' : world L G I) out :
  claims seen ⊆ claims (w_db w) → checkout create_intent accepts m u q d seen w = (w', out) →
  (untouched w w' ∧ ∃ c, c ∈ claims (w_db w) ∧ claim_of u q c ∧ out = Ok (replayed (cl_payload c))) ∨
  (untouched w w' ∧ ∃ e, out = Err e) ∨
  (∃ source sub disc cart b r p r', write_order accepts u q source d sub disc cart b (w_db w) = Ok (w_db w', r, p) ∧
     out = Ok r' ∧ with_razorpay r' None = r).
Proof.
  intros Hseen. unfold checkout.
  destruct (if str_truthy _ then find_claim _ _ (filter _ _) else None) as [c|] eqn:Hf.
  { intros [= <- <-]. left. apply find_claim_of in Hf as [Hin Hc]. apply list_elem_of_filter in Hin as [_ Hin].
    split; [by split|]. exists c. split; [by apply Hseen|done]. }
  destruct (bool_decide _); [intros [= <- <-]; right; left; split; [by split|by eexists]|].
  destruct (order_txn _ _ _ _ _ _ _ _) as [cache outcome] eqn:Ht.
  destruct outcome as [[[[db r] p] b]|e].
  - destruct (receipt_never_fails u q d b p (w_ledger w)) as [l ->].
    destruct (request_intent _ _ _ _ _ _ _ _) as [g r'] eqn:Hint. intros [= <- <-]. right. right.
    unfold order_txn in Ht. destruct (_ ≫= _) as [[[sub cart] disc]|]; [|by injection Ht as _ Ht].
    destruct (get_tax_config _ _ _ _) as [[cfg cache']|]; [|by injection Ht as _ Ht].
    apply (f_equal snd) in Ht. cbn [snd] in Ht. apply res_bind_Ok in Ht as (b' & _ & Ht).
    apply res_bind_Ok in Ht as (r0 & Hw & Ht). injection Ht as -> ->.
    exists (source_value (q_source q) (q_order_type q)), sub, disc, cart, b, r, p, r'. split; [exact Hw|]. split; [done|].
    apply write_order_claims in Hw as [Hr _]. pose proof (intent_only_razorpay u q d b p r (w_gateway w)) as Hi.
    rewrite Hint in Hi. apply Hi. by rewrite Hr.
  - destruct e; try (intros [= <- <-]; right; left; split; [by split|by eexists]).
    destruct (if str_truthy _ then find_claim _ _ (claims (w_db w)) else None) as [c|] eqn:Hc.
    + intros [= <- <-]. left. apply find_claim_of in Hc as [Hin Hc]. split; [by split|]. by exists c.
    + intros [= <- <-]. right. left. split; [by split|by eexists].
Qed.
Lemma update_status_claims u id status locked d (w : world L G I) :
  claims (w_db (update_status u id status locked d w).1) = claims (w_db w).
Proof.
  unfold update_status. destruct (negb locked); [done|]. destruct (find_order _ _ _); [|done].
  destruct (Order.validate_order_transition _ _) as [[target|]|]; [|done..].
  by destruct (if bool_decide (target = Order.CANCELLED) then _ else _).
Qed.

Lemma update_order_claims u id status notes locked d (w : world L G I) :
  claims (w_db (update_order u id status notes locked d w).1) = claims (w_db w).
Proof.
  unfold update_order. destruct (find_order _ _ _); [|done]. set (w1 := match notes with None => w | Some _ => _ end).
  assert (claims (w_db w1) = claims (w_db w)) as E by (by subst w1; destruct notes).
  destruct (str_truthy status); [|done].
  pose proof (update_status_claims u id (str_or status "") locked d w1) as E1.
  destruct (update_status _ _ _ _ _ _) as [w2 r]. cbn [fst] in *. congruence.
Qed.

Lemma discount_claims m u id pct reason d cache (db db' : order_db I) o b :
  (apply_discount m u id pct reason d cache db).2 = Ok (db', o, b) → claims db' = claims db.
Proof.
  unfold apply_discount. destruct (discount_check _ _ _ _) as [[[o' pct'] rows]|]; [|done].
  destruct (get_tax_config _ _ _ _) as [[cfg cache']|]; [|done]. cbn [snd]. unfold discount_write.
  intros (x1 & _ & (x2 & _ & (x3 & _ & (x4 & _ & E)%res_bind_Ok)%res_bind_Ok)%res_bind_Ok)%res_bind_Ok.
  injection E as <- _ _. reflexivity.
Qed.

Lemma flip_claims id user now (w : world L G I) : claims (w_db (_flip_order_to_cancelled id user now w)) = claims (w_db w).
Proof. unfold _flip_order_to_cancelled. destruct (negb _); [done|]. by destruct (find _ _). Qed.

(** Claims are only added, one by a checkout that commits under a key. *)
Lemma op_claims w w' :
  order_op w w' → claims_wf (claims (w_db w)) →
  claims_wf (claims (w_db w')) ∧ claims (w_db w) `prefix_of` claims (w_db w').
Proof.
  intros Hop Hwf.
  assert (claims (w_db w') = claims (w_db w) → claims_wf (claims (w_db w')) ∧ claims (w_db w) `prefix_of` claims (w_db w')) as Hsame.
  { intros ->. by split. }
  destruct Hop as [w' [m u q d seen w1 out Hseen E|u id status locked d|u id status notes locked d|m u id pct reason d db o b E|w1 E]|id user now].
  - apply (checkout_cases _ _ _ _ _ _ _ _ Hseen) in E as [[[-> _ _ _] _]|[[[-> _ _ _] _]|(source & sub & disc & cart & b & r & p & r' & E & _)]]; [by split..|].
    apply write_order_claims in E as [_ E]. destruct (str_truthy _); [|by apply Hsame].
    destruct E as (k & user & c & Hk & _ & Hnew & -> & Hck & Hcu & _). split; [|by apply prefix_app_r].
    destruct Hwf as [Hn Hw]. split.
    + rewrite map_app. apply NoDup_snoc; [done|]. intros (x & Hx & Hin)%list_elem_of_fmap.
      injection Hx as Hx1 Hx2. apply (Hnew x Hin). by rewrite <-Hx1, <-Hx2.
    + apply Forall_app. split; [done|]. repeat constructor. rewrite Hck. by eapply varchar_idem.
  - apply Hsame, update_status_claims.
  - apply Hsame, update_order_claims.
  - apply Hsame. by eapply discount_claims.
  - apply Hsame. by rewrite E.
  - apply Hsame, flip_claims.
Qed.

Lemma ops_claims w w' :
  rtc order_op w w' → claims_wf (claims (w_db w)) →
  claims_wf (claims (w_db w')) ∧ claims (w_db w) `prefix_of` claims (w_db w').
Proof.
  induction 1 as [w|w w1 w' Hop _ IH]; intros Hwf; [by split|].
  destruct (op_claims _ _ Hop Hwf) as [Hwf1 Hp]. destruct (IH Hwf1) as [? ?]. split; [done|]. by etransitivity.
Qed.

(** A key that has placed an order places no second one, however much later: the unique
    index on key and owner does not know about expiry, and the path of the violation reads
    the claim without looking at its date. *)
Lemma spent_key_places_nothing m u q d seen w0 w w1 r m2 u2 q2 d2 seen2 w2 w3 out :
  claims (w_db w0) = [] → rtc order_op w0 w → claims seen ⊆ claims (w_db w) →
  checkout create_intent accepts m u q d seen w = (w1, Ok r) → rs_idempotent r = false →
  str_truthy (q_idempotency_key q) = true → rtc order_op w1 w2 → claims seen2 ⊆ claims (w_db w2) →
  owner_of u2 = owner_of u → q_idempotency_key q2 = q_idempotency_key q →
  checkout create_intent accepts m2 u2 q2 d2 seen2 w2 = (w3, out) →
  untouched w2 w3 ∧ ∀ r2, out = Ok r2 → r2 = replayed (with_razorpay r None).
Proof.
  intros H0 Hops Hseen E1 Hr Hkey Hops2 Hseen2 Hu Hq E2.
  assert (claims_wf (claims (w_db w0))) as Hwf0 by (rewrite H0; split; constructor).
  destruct (ops_claims _ _ Hops Hwf0) as [Hwf _].
  destruct (op_claims _ _ (op_service _ _ (call_checkout _ _ _ _ _ _ _ _ Hseen E1)) Hwf) as [Hwf1 _].
  destruct (ops_claims _ _ Hops2 Hwf1) as [Hwf2 Hpre].
  apply (checkout_cases _ _ _ _ _ _ _ _ Hseen) in E1 as [(_ & c & _ & _ & [= ->])|[(_ & e & [=])|E1]]; [done|].
  destruct E1 as (source & sub & disc & cart & b & r0 & p & r' & E1 & [= <-] & Hr0).
  apply write_order_claims in E1 as [_ E1]. rewrite Hkey in E1.
  destruct E1 as (k & user & c & Hk & Hown & _ & Hcl & Hck & Hcu & _ & _ & Hpay).
  assert (c ∈ claims (w_db w2)) as Hin.
  { destruct Hpre as [l ->]. rewrite Hcl. apply elem_of_app. left. apply elem_of_app. right. by left. }
  apply (checkout_cases _ _ _ _ _ _ _ _ Hseen2) in E2 as [(Hun & c2 & Hin2 & (_ & Hk2 & Hu2) & ->)|[(Hun & e & ->)|E2]].
  - split; [done|]. intros r2 [= <-]. do 2 f_equal. rewrite Hr0, <-Hpay. f_equal.
    rewrite Hu, Hown in Hu2. injection Hu2 as Hu2.
    apply (claims_same _ _ _ Hwf2); [done..| |congruence].
    rewrite Hq in Hk2. rewrite <-Hk2 in Hk, Hkey. unfold str_truthy in Hkey. apply negb_true_iff, bool_decide_eq_false in Hkey.
    unfold str_or in Hk. rewrite decide_False in Hk by done.
    rewrite (proj1 (Forall_forall _ _) (cw_width _ Hwf2) c2 Hin2) in Hk. congruence.
  - split; [done|]. by intros r2 [=].
  - destruct E2 as (? & ? & ? & ? & ? & ? & ? & ? & E2 & _). apply write_order_claims in E2 as [_ E2].
    rewrite Hq, Hkey in E2. destruct E2 as (k2 & user2 & c2 & Hk2 & Hown2 & Hnew & _).
    exfalso. apply (Hnew c Hin). rewrite Hq in Hk2. rewrite Hu in Hown2. split; congruence.
Qed.

(** What a claim holds, and that a read which sees it in time answers with its payload. *)
Lemma claim_of_checkout m u q d seen w w1 r :
  claims seen ⊆ claims (w_db w) → checkout create_intent accepts m u q d seen w = (w1, Ok r) → rs_idempotent r = false →
  str_truthy (q_idempotency_key q) = true →
  ∃ k user c, varchar 255 (str_or (q_idempotency_key q) "") = Ok k ∧ owner_of u = Some user ∧ c ∈ claims (w_db w1) ∧
    cl_key c = k ∧ cl_user c = user ∧ cl_expires_at c = d_now d + day ∧ cl_payload c = with_razorpay r None.
Proof.
  intros Hseen E1 Hr Hkey. apply (checkout_cases _ _ _ _ _ _ _ _ Hseen) in E1 as [(_ & c & _ & _ & [= ->])|[(_ & e & [=])|E1]]; [done|].
  destruct E1 as (source & sub & disc & cart & b & r0 & p & r' & E1 & [= <-] & Hr0).
  apply write_order_claims in E1 as [_ E1]. rewrite Hkey in E1.
  destruct E1 as (k & user & c & Hk & Hown & _ & Hcl & Hck & Hcu & _ & Hexp & Hpay). exists k, user, c. split_and!; try done.
  - rewrite Hcl. apply elem_of_app. right. by left.
  - by rewrite Hpay.
Qed.

Lemma fresh_claim_replays m u q d seen w c :
  str_truthy (q_idempotency_key q) = true → claims_wf (claims (w_db w)) → claims seen ⊆ claims (w_db w) → c ∈ claims seen → Some (cl_key c) = q_idempotency_key q →
  owner_of u = Some (cl_user c) → d_now d < cl_expires_at c →
  checkout create_intent accepts m u q d seen w = (w, Ok (replayed (cl_payload c))).
Proof.
  intros Hkey Hwf Hsub Hc Hk Ho Hd. unfold checkout. rewrite Hkey.
  destruct (find_claim _ _ _) as [c'|] eqn:Hf.
  - unfold find_claim in Hf. apply find_Some_in in Hf as [[_ Hin]%list_elem_of_filter [H1%bool_decide_eq_true H2]%andb_prop].
    assert (c' = c) as ->; [|done]. apply (claims_same (claims (w_db w))); [done|by apply Hsub..|congruence|].
    rewrite Ho in H2. unfold owned_by in H2. apply bool_decide_eq_true in H2. congruence.
  - exfalso. unfold find_claim in Hf. eapply find_none in Hf; [|apply list_elem_of_In, list_elem_of_filter; split; [exact Hd|exact Hc]].
    cbn beta in Hf. unfold owned_by in Hf. by rewrite Hk, Ho, !bool_decide_true in Hf by done.
Qed.

(** C6: within its 24 hours a key places one order.  After a checkout under a key has placed
    an order, a later checkout of the same owner under the key leaves the tables, the
    ledger, the gateway and the events alone, whatever the service does in between and
    whatever the second request holds; it can only fail or give the first response back,
    marked as a replay; and it does give it back when its first read meets the order. *)
Theorem checkout_once m u q d seen w0 w w1 r m2 u2 q2 d2 seen2 w2 w3 out :
  claims (w_db w0) = [] → rtc order_op w0 w → claims seen ⊆ claims (w_db w) →
  checkout create_intent accepts m u q d seen w = (w1, Ok r) → rs_idempotent r = false →
  str_truthy (q_idempotency_key q) = true → rtc order_op w1 w2 → claims seen2 ⊆ claims (w_db w2) →
  owner_of u2 = owner_of u → q_idempotency_key q2 = q_idempotency_key q → d_now d2 < d_now d + day →
  checkout create_intent accepts m2 u2 q2 d2 seen2 w2 = (w3, out) →
  untouched w2 w3 ∧ (∀ r2, out = Ok r2 → r2 = replayed (with_razorpay r None)) ∧
  (claims (w_db w1) ⊆ claims seen2 → varchar 255 (str_or (q_idempotency_key q) "") = Ok (str_or (q_idempotency_key q) "") →
   out = Ok (replayed (with_razorpay r None))).
Proof.
  intros H0 Hops Hseen E1 Hr Hkey Hops2 Hseen2 Hu Hq Hday E2.
  destruct (spent_key_places_nothing _ _ _ _ _ _ _ _ _ _ _ _ _ _ _ _ _ H0 Hops Hseen E1 Hr Hkey Hops2 Hseen2 Hu Hq E2) as [Hun Hout].
  split; [done|]. split; [done|]. intros Hsub Hfit.
  destruct (claim_of_checkout _ _ _ _ _ _ _ _ Hseen E1 Hr Hkey) as (k & user & c & Hk & Hown & Hc & <- & <- & Hexp & Hpay).
  assert (claims_wf (claims (w_db w2))) as Hwf2.
  { assert (claims_wf (claims (w_db w0))) as Hwf0 by (rewrite H0; split; constructor).
    destruct (ops_claims _ _ Hops Hwf0) as [Hwf _].
    destruct (op_claims _ _ (op_service _ _ (call_checkout _ _ _ _ _ _ _ _ Hseen E1)) Hwf) as [Hwf1 _]. by apply (ops_claims _ _ Hops2). }
  rewrite Hfit in Hk. injection Hk as Hk. rewrite (fresh_claim_replays _ _ _ _ _ _ c) in E2; [|by rewrite Hq|done|done|by apply Hsub| |by rewrite Hu|by rewrite Hexp].
  - injection E2 as <- <-. by rewrite Hpay.
  - rewrite Hq, <-Hk. unfold str_truthy, str_or in *. destruct (q_idempotency_key q) as [t|]; [|done].
    apply negb_true_iff, bool_decide_eq_false in Hkey. by rewrite decide_False.
Qed.
End Once.

(** ** The tables of orders *)

Section Tables.
Context {L : Type} `{LedgerApi L} {G I : Type}.
Variable create_intent : intent_request → G → G * res I.
Variable accepts : payment → bool.

Definition order_ids (db : order_db I) : list string := map o_id (orders db).

(** Order ids are unique, item ids are serial, and every item has its order. *)
Record tables_wf (db : order_db I) : Prop := {
  tw_orders : NoDup (order_ids db);
  tw_items : ids_from 0 (order_items db);
  tw_parent : Forall (λ r, oi_order r ∈ order_ids db) (order_items db);
}.

Lemma pay_order_tables u q d total (db tx : order_db I) :
  pd_tx (pay_order accepts u q d total db) = Some tx →
  order_items tx = order_items db ∧
  (orders tx = orders db ∨ orders tx = orders (update_orders (d_order d) (set_status "Confirmed" (d_now d)) db)).
Proof.
  unfold pay_order. destruct (str_truthy _); [|intros Etx%(inj Some); subst; auto].
  destruct (payment_row _ _ _ _ _ ≫= _) as [db'|] eqn:E; [|done].
  cbn [pd_tx]. intros Etx%(inj Some). subst tx. apply res_bind_Ok in E as (row & _ & E).
  unfold insert_payment in E. inv_res. subst db'. destruct (bool_decide _); auto.
Qed.

Lemma insert_items_tables u d l rows rows' :
  insert_items u d l rows = Ok rows' →
  ∃ news, rows' = rows ++ news ∧ ids_from (length rows) news ∧ Forall (λ r, oi_order r = d_order d) news.
Proof.
  revert rows. induction l as [|ct l IH]; intros rows E.
  { injection E as <-. exists []. rewrite app_nil_r. split; [done|]. split; [by intros i x|done]. }
  cbn [insert_items] in E. apply res_bind_Ok in E as (row & Hrow & E).
  destruct (IH _ E) as (news & -> & Hids & Hall). exists (row :: news). rewrite <-app_assoc. split; [done|].
  assert (oi_id row = Z.of_nat (length rows) ∧ oi_order row = d_order d) as [Hid Hord].
  { unfold item_row_of in Hrow. destruct ct as [c t]. inv_res. by subst row. }
  split; [|by constructor]. apply ids_from_cons; [done|].
  rewrite length_app in Hids. cbn in Hids. by rewrite Nat.add_1_r in Hids.
Qed.

(** What a committed checkout adds: one order with a new id, and its items. *)
Record adds_order (d : draw) (db db' : order_db I) (o : order) : Prop := {
  ao_id : o_id o = d_order d;
  ao_new : o_id o ∉ order_ids db;
  ao_orders : orders db' = orders db ++ [o];
  ao_status : o_status o = "Pending"%string ∨ o_status o = "Confirmed"%string;
  ao_items : ∃ news, order_items db' = order_items db ++ news ∧ ids_from (length (order_items db)) news ∧
    Forall (λ r, oi_order r = o_id o) news;
}.

Lemma write_order_tables u q source d sub disc cart b (db db' : order_db I) r p :
  write_order accepts u q source d sub disc cart b db = Ok (db', r, p) → db' = db ∨ ∃ o, adds_order d db db' o.
Proof.
  unfold write_order. intros (o & Ho & (db1 & Hdb1 & (rows & Hrows & E)%res_bind_Ok)%res_bind_Ok)%res_bind_Ok.
  assert (o_id o = d_order d ∧ o_status o = "Pending"%string) as [Hid Hst] by (unfold order_row in Ho; inv_res; by subst o).
  apply res_bind_Ok in Hdb1 as (t & Hnew & Hdb1). injection Hdb1 as <-. cbn [orders order_items payments claims] in *.
  apply raise_if_Ok in Hnew. destruct (insert_items_tables _ _ _ _ _ Hrows) as (news & -> & Hids & Hall).
  set (db2 := Build_order_db _ _ _ _) in *. set (pd := pay_order accepts u q d (ct_grand_total b) db2) in *.
  assert (∀ tx, pd_tx pd = Some tx → ∃ o', adds_order d db tx o') as Hadd.
  { intros tx (Hi & Htx)%pay_order_tables.
    assert (∃ o', orders tx = orders db ++ [o'] ∧ o_id o' = d_order d ∧
      (o_status o' = "Pending"%string ∨ o_status o' = "Confirmed"%string)) as (o' & Ho' & Hid' & Hst').
    { destruct Htx as [->|Htx]; [exists o; auto|]. exists (set_status "Confirmed" (d_now d) o).
      rewrite Htx. split; [|cbn; auto]. apply update_last; [done..|]. by rewrite <-Hid. }
    exists o'. split; try done.
    - unfold order_ids. intros (x & Hx & Hin)%list_elem_of_fmap. rewrite existsb_false in Hnew.
      specialize (Hnew x Hin). apply bool_decide_eq_false in Hnew. congruence.
    - exists news. rewrite Hi, Hid'. by split_and!. }
  destruct (str_truthy (q_idempotency_key q)).
  - destruct (pd_tx pd) as [tx|]; [|done]. destruct (Hadd tx eq_refl) as (o' & [A1 A2 A3 A4 A5]).
    apply res_bind_Ok in E as (tx' & Hk & E). injection E as <- _ _. right. exists o'.
    unfold claim_key in Hk. inv_res. subst tx'. by split.
  - injection E as <- _ _. destruct (pd_tx pd) as [tx|]; [right; auto|by left].
Qed.

(** An update of orders that keeps their ids keeps the tables well-formed. *)
Lemma update_orders_wf id f (db : order_db I) :
  (∀ o, o_id (f o) = o_id o) → tables_wf db → tables_wf (update_orders id f db) ∧ order_ids (update_orders id f db) = order_ids db.
Proof.
  intros Hf [H1 H2 H3].
  assert (order_ids (update_orders id f db) = order_ids db) as E.
  { unfold order_ids, update_orders. cbn [orders]. rewrite map_map. apply map_ext. intros o. by destruct (bool_decide _). }
  split; [|done]. split; [by rewrite E|done|by rewrite E].
Qed.
(** What never changes of a stored item: its place, price and tax flags. *)
Definition fixed_part (r : order_item) : Z * string * Z * option bool * option bool * option Z :=
  (oi_id r, oi_order r, oi_total_price r, oi_gst_enabled r, oi_gst_inclusive r, oi_gst_rate r).

(** The order is still there, its status moved along the machine if at all. *)
Record order_evolves (o o' : order) : Prop := {
  oe_id : o_id o' = o_id o;
  oe_user : o_user o' = o_user o;
  oe_status : o_status o' = o_status o ∨
    ∃ s t : Order.OrderStatus, o_status o = value s ∧ o_status o' = value t ∧ rtc step s t;
}.

#[export] Instance order_evolves_preorder : PreOrder order_evolves.
Proof.
  split; [by split; auto|]. intros a b c [A1 A2 A3] [B1 B2 B3]. split; [congruence..|].
  destruct A3 as [A3|(s & t & As & At & Ast)].
  - rewrite <-A3. destruct B3 as [B3|B3]; [by left|by right].
  - destruct B3 as [B3|(s' & t' & Bs & Bt & Bst)]; right; [exists s, t; split_and!; congruence|].
    rewrite At in Bs. apply value_inj in Bs as <-. exists s, t'. split; [done|]. split; [done|]. by etransitivity.
Qed.

Record tables_evolve (db db' : order_db I) : Prop := {
  te_orders : ∀ o, o ∈ orders db → ∃ o', o' ∈ orders db' ∧ order_evolves o o';
  te_items : ∀ id, id ∈ order_ids db → map fixed_part (items_of id db') = map fixed_part (items_of id db);
}.

Lemma evolve_ids db db' id : tables_evolve db db' → id ∈ order_ids db → id ∈ order_ids db'.
Proof.
  intros [Ho _] (o & -> & Hin)%list_elem_of_fmap. destruct (Ho o Hin) as (o' & Hin' & [<- _ _]).
  by apply list_elem_of_fmap_2.
Qed.

#[export] Instance tables_evolve_preorder : PreOrder tables_evolve.
Proof.
  split; [split; [intros o Ho; by exists o|done]|]. intros a b c Hab Hbc. split.
  - intros o Ho. destruct (te_orders _ _ Hab o Ho) as (o1 & H1 & E1). destruct (te_orders _ _ Hbc o1 H1) as (o2 & H2 & E2).
    exists o2. split; [done|]. by etransitivity.
  - intros id Hid. rewrite (te_items _ _ Hbc) by (by eapply evolve_ids). by apply (te_items _ _ Hab).
Qed.

Lemma update_orders_evolve id f (db : order_db I) :
  (∀ o, o ∈ orders db → o_id o = id → order_evolves o (f o)) → tables_evolve db (update_orders id f db).
Proof.
  intros Hf. split; [|done]. intros o Ho. destruct (decide (o_id o = id)) as [Hid|Hid].
  - exists (f o). split; [|auto]. unfold update_orders. cbn [orders]. apply list_elem_of_fmap. exists o.
    by rewrite bool_decide_eq_true_2.
  - exists o. split; [|done]. unfold update_orders. cbn [orders]. apply list_elem_of_fmap. exists o.
    by rewrite bool_decide_eq_false_2.
Qed.

Lemma items_of_fixed id (db db' : order_db I) :
  map fixed_part (order_items db') = map fixed_part (order_items db) →
  map fixed_part (items_of id db') = map fixed_part (items_of id db).
Proof.
  unfold items_of. generalize (order_items db). induction (order_items db') as [|r rows IH]; intros [|k ks] E; try done.
  cbn [map] in E. apply (inj2 cons) in E as [Er E]. specialize (IH ks E).
  assert (oi_order r = oi_order k) as Eo by (unfold fixed_part in Er; congruence).
  rewrite !filter_cons. destruct (decide (oi_order r = id)), (decide (oi_order k = id)); try congruence.
  cbn [map]. by rewrite Er, IH.
Qed.

Lemma retax_fixed rows ps rows' :
  res_foldl retax_item rows ps = Ok rows' → map fixed_part rows' = map fixed_part rows.
Proof.
  revert rows. induction ps as [|p ps IH]; intros rows E; cbn [res_foldl] in E; [by injection E as <-|].
  apply res_bind_Ok in E as (rows1 & E1 & E). rewrite (IH _ E). unfold retax_item in E1. inv_res. subst rows1.
  unfold set_item_tax. rewrite map_map. apply map_ext. intros r. by destruct (oi_id r =? oi_id p.1).
Qed.

Lemma fixed_wf (db db' : order_db I) :
  order_ids db' = order_ids db → map fixed_part (order_items db') = map fixed_part (order_items db) →
  tables_wf db → tables_wf db'.
Proof.
  intros Hids Hfix [H1 H2 H3].
  assert (∀ i r, order_items db' !! i = Some r → ∃ k, order_items db !! i = Some k ∧ fixed_part k = fixed_part r) as Hrow.
  { intros i r Hr. apply (f_equal (lookup i)) in Hfix. rewrite !list_lookup_fmap, Hr in Hfix.
    symmetry in Hfix. by apply fmap_Some in Hfix as (k & ? & ?); exists k. }
  split; [by rewrite Hids| |].
  - intros i r Hr. destruct (Hrow i r Hr) as (k & Hk & E). rewrite <-(H2 i k Hk). unfold fixed_part in E. congruence.
  - rewrite Hids. apply Forall_lookup. intros i r Hr. destruct (Hrow i r Hr) as (k & Hk & E).
    pose proof (proj1 (Forall_lookup _ _) H3 i k Hk) as Hp. cbn in Hp. unfold fixed_part in E. congruence.
Qed.
Lemma adds_order_wf d (db db' : order_db I) o :
  adds_order d db db' o → tables_wf db → tables_wf db' ∧ tables_evolve db db'.
Proof.
  intros [_ A2 A3 _ (news & A5 & A6 & A7)] [H1 H2 H3]. unfold order_ids in *. split; [split|split].
  - unfold order_ids. rewrite A3, map_app. by apply NoDup_snoc.
  - rewrite A5. by apply ids_from_app.
  - unfold order_ids. rewrite A5, A3, map_app. apply Forall_app. split.
    + eapply Forall_impl; [exact H3|]. intros r Hr. apply elem_of_app. by left.
    + eapply Forall_impl; [exact A7|]. intros r ->. apply elem_of_app. right. by left.
  - intros x Hx. exists x. split; [|done]. rewrite A3. apply elem_of_app. by left.
  - intros id Hid. unfold items_of. rewrite A5, filter_app.
    assert (filter (λ r, oi_order r = id) news = []) as ->; [|by rewrite app_nil_r].
    apply filter_none. eapply Forall_impl; [exact A7|]. intros r Hr Heq. apply A2. by rewrite <-Hr, Heq.
Qed.

Lemma find_order_Some id owner (db : order_db I) o :
  find_order id owner db = Some o → o ∈ orders db ∧ o_id o = id ∧ Some (o_user o) = owner.
Proof.
  intros [Hin Ho]%find_some. apply andb_prop in Ho as [Hid Hu]. apply bool_decide_eq_true in Hid.
  split; [by apply list_elem_of_In|]. split; [done|]. unfold owned_by in Hu. destruct owner; [|done].
  apply bool_decide_eq_true in Hu. by subst.
Qed.

Lemma update_status_evolves u id status locked d (w : world L G I) :
  tables_wf (w_db w) →
  tables_wf (w_db (update_status u id status locked d w).1) ∧ tables_evolve (w_db w) (w_db (update_status u id status locked d w).1).
Proof.
  intros Hwf. unfold update_status. destruct (negb locked); [by split|].
  destruct (find_order _ _ _) as [o|] eqn:Hf; [|by split].
  destruct (Order.validate_order_transition _ _) as [[target|]|] eqn:Hv; [|by split..].
  destruct (if bool_decide (target = Order.CANCELLED) then _ else _); [|by split]. cbn [fst publish w_db].
  split; [by apply update_orders_wf|]. apply update_orders_evolve. intros x Hx Hid.
  apply find_order_Some in Hf as (Ho & Hoid & _).
  assert (x = o) as -> by (apply (NoDup_map_inj _ _ _ _ (tw_orders _ Hwf) Hx Ho); congruence).
  split; [done..|]. right. unfold Order.validate_order_transition in Hv.
  destruct (of_value (o_status o)) as [s|] eqn:Hs; [|done]. destruct (of_value status) as [t|] eqn:Ht; [|done].
  destruct (decide (s = t)); [done|]. destruct (allowed s t) eqn:Ha; [|done]. injection Hv as <-.
  apply of_value_Some in Hs. exists s, t. split; [done|]. split; [done|]. by apply rtc_once.
Qed.

Lemma discount_evolves m u id pct reason d cache (db db' : order_db I) o b :
  (apply_discount m u id pct reason d cache db).2 = Ok (db', o, b) → tables_wf db → tables_wf db' ∧ tables_evolve db db'.
Proof.
  unfold apply_discount. destruct (discount_check _ _ _ _) as [[[o' pct'] rows]|]; [|done].
  destruct (get_tax_config _ _ _ _) as [[cfg cache']|]; [|done]. cbn [snd]. unfold discount_write.
  intros (x1 & _ & (x2 & _ & (x3 & _ & (x4 & Hx4 & E)%res_bind_Ok)%res_bind_Ok)%res_bind_Ok)%res_bind_Ok Hwf.
  injection E as <- _ _. apply retax_fixed in Hx4. cbn [update_orders order_items] in Hx4.
  assert (∀ y, o_id (set_bill x3 x2 pct' reason (d_now d) y) = o_id y) as Hsid by done.
  destruct (update_orders_wf id _ db Hsid Hwf) as [Hwf1 Hids].
  split; [by apply (fixed_wf (update_orders id (set_bill x3 x2 pct' reason (d_now d)) db))|].
  destruct (update_orders_evolve id (set_bill x3 x2 pct' reason (d_now d)) db) as [Hev _]; [by split; auto|].
  split; [exact Hev|]. intros i _. by apply items_of_fixed.
Qed.

Lemma call_evolves w w' :
  service_call create_intent accepts w w' → tables_wf (w_db w) → tables_wf (w_db w') ∧ tables_evolve (w_db w) (w_db w').
Proof.
  intros [m u q d seen w1 out Hseen E|u id status locked d|u id status notes locked d|m u id pct reason d db o b E|w1 E] Hwf.
  - apply (checkout_cases _ _ _ _ _ _ _ _ _ _ Hseen) in E as [[[-> _ _ _] _]|[[[-> _ _ _] _]|E]]; [by split..|].
    destruct E as (source & sub & disc & cart & b & r & p & r' & E & _).
    apply write_order_tables in E as [->|(o & Ho)]; [by split|]. by eapply adds_order_wf.
  - by apply update_status_evolves.
  - unfold update_order. destruct (find_order _ _ _); [|by split]. set (w1 := match notes with None => w | Some _ => _ end).
    assert (tables_wf (w_db w1) ∧ tables_evolve (w_db w) (w_db w1)) as [Hwf1 Hev1].
    { subst w1. destruct notes as [n|]; [|by split]. cbn [w_db]. split; [by apply update_orders_wf|].
      apply update_orders_evolve. by split; auto. }
    destruct (str_truthy status); [|by split].
    destruct (update_status_evolves u id (str_or status "") locked d w1 Hwf1) as [Hwf2 Hev2].
    destruct (update_status _ _ _ _ _ _) as [w2 r]. cbn [fst] in *. split; [done|]. by etransitivity.
  - by eapply discount_evolves.
  - by rewrite E.
Qed.

Lemma calls_evolve w w' :
  rtc (service_call create_intent accepts) w w' → tables_wf (w_db w) → tables_wf (w_db w') ∧ tables_evolve (w_db w) (w_db w').
Proof.
  induction 1 as [w|w w1 w' Hop _ IH]; intros Hwf; [by split|].
  destruct (call_evolves _ _ Hop Hwf) as [Hwf1 Hp]. destruct (IH Hwf1) as [? ?]. split; [done|]. by etransitivity.
Qed.

(** C21: whatever calls of the service follow, an order stays, with its owner, and its
    status is reached from the one it had along the transition table; a terminal
    status is final.  (A payment that dies is not bound by the table, see
    [flip_leaves_the_machine].) *)
Theorem order_follows_machine w w' o :
  tables_wf (w_db w) → rtc (service_call create_intent accepts) w w' → o ∈ orders (w_db w) →
  ∃ o', o' ∈ orders (w_db w') ∧ o_id o' = o_id o ∧ o_user o' = o_user o ∧
    (o_status o' = o_status o ∨ ∃ s t : Order.OrderStatus, o_status o = value s ∧ o_status o' = value t ∧ rtc step s t) ∧
    (∀ s, o_status o = value s → Order.is_terminal s = true → o_status o' = o_status o).
Proof.
  intros Hwf Hops Ho. destruct (calls_evolve _ _ Hops Hwf) as [_ [He _]]. destruct (He o Ho) as (o' & Hin & [E1 E2 E3]).
  exists o'. split_and!; try done. intros s Hs Ht. destruct E3 as [E3|(s' & t & Hs' & Ht' & Hst)]; [done|].
  rewrite Hs in Hs'. apply value_inj in Hs' as <-. rewrite Ht', Hs. f_equal. apply stuck_forever in Hst; [done|].
  by destruct s.
Qed.
End Tables.

(** ** Re-billing an order *)

(** Is a line taxed? *)
Definition line_active (store_enabled : bool) (l : ItemTaxLine) : bool :=
  let rate := dmax (it_gst_rate l) d_zero in
  it_gst_enabled l && store_enabled && dpos (if dltb _MAX_RATE rate then _MAX_RATE else rate).

(** Lines the engine cannot tell apart. *)
Definition same_tax (store_enabled : bool) (l l' : ItemTaxLine) : Prop :=
  it_line_total l = it_line_total l' ∧
  (l = l' ∨ line_active store_enabled l = false ∧ line_active store_enabled l' = false).

Lemma cart_line_same se acc l l' amt d : same_tax se l l' → cart_line se acc (l, amt, d) = cart_line se acc (l', amt, d).
Proof.
  intros [_ [->|[H1 H2]]]; [done|]. unfold line_active in H1, H2. unfold cart_line.
  set (rate := if dltb _MAX_RATE (dmax (it_gst_rate l) d_zero) then _ else _) in *.
  set (rate' := if dltb _MAX_RATE (dmax (it_gst_rate l') d_zero) then _ else _) in *.
  rewrite H1, H2. reflexivity.
Qed.

Lemma cart_same lines lines' discount cfg rr :
  Forall2 (same_tax (gst_enabled cfg)) lines lines' → compute_cart_tax lines discount cfg rr = compute_cart_tax lines' discount cfg rr.
Proof.
  intros Hs. unfold compute_cart_tax.
  assert (map (λ l, dmax (it_line_total l) d_zero) lines = map (λ l, dmax (it_line_total l) d_zero) lines') as ->.
  { induction Hs as [|l l' lines lines' [E _] _ IH]; [done|]. cbn [map]. by rewrite E, IH. }
  set (bases := map _ lines').
  assert (∀ ds acc, res_foldl (cart_line (gst_enabled cfg)) acc (zip (zip lines bases) ds) =
    res_foldl (cart_line (gst_enabled cfg)) acc (zip (zip lines' bases) ds)) as E.
  { generalize bases. induction Hs as [|l l' lines lines' Hl _ IH]; intros [|x bs] [|y ds] acc; try done.
    cbn [zip zip_with res_foldl]. rewrite (cart_line_same _ _ _ _ _ _ Hl).
    destruct (cart_line _ acc _); [|done]. rewrite !bind_Ok. apply IH. }
  set (asked := if dltb _ _ then _ else _). destruct (_q asked) as [d|]; [|reflexivity]. rewrite !bind_Ok.
  destruct (_allocate_discount bases d) as [ds|]; [|reflexivity]. rewrite !bind_Ok, E. reflexivity.
Qed.

Lemma active_at_scale se l r : at_scale 2 (it_gst_rate l) r → line_active se l = it_gst_enabled l && se && (0 <? r).
Proof.
  intros Hr. unfold line_active. rewrite (dpos_at_scale 2 _ _ (clamped_rate _ _ Hr)). f_equal.
  unfold clamp_rate. destruct (Z.ltb_spec 0 r), (Z.ltb_spec 0 (Z.min 2800 (Z.max r 0))); lia.
Qed.

(** A line at a rate the tax engine does not clamp. *)
Definition slab_line (cfg : TaxConfig) (l : sale_line) : Prop :=
  ∃ rate, it_gst_rate (tax_line cfg l) = Dec rate (-2) ∧ 0 <= rate <= 2800.

Lemma sale_lines_slab cfg m owner es ps :
  menu_wf m → Forall2 (sold_as m owner) es ps → Forall (slab_line cfg) (sale_lines m es ps).
Proof.
  intros Hm Hes. unfold sale_lines. induction Hes as [|e p es ps Hs _ IH]; [done|]. constructor; [|exact IH].
  exists (i_gst_rate (pk_item p)). split; [done|].
  pose proof (proj2 (pick_row_wf _ _ _ _ Hm (sa_pick _ _ _ _ Hs))) as Hr. unfold gst_rate_ok in Hr.
  rewrite !elem_of_cons, elem_of_nil in Hr. lia.
Qed.

(** The snapshot a row keeps is taxed as the line it was stored from. *)
Lemma snapshot_same cfg order l a r row :
  slab_line cfg l → 0 < sl_total l → line_means (gst_enabled cfg) (tax_line cfg l, sl_total l, a) r →
  stored_line order l r row → same_tax (gst_enabled cfg) (tax_line cfg l) (snapshot_line cfg row).
Proof.
  intros (rate' & Erate & Hr) Hpos (_ & _ & (rate & Hrate & Hen & _ & Hrt) & Hinc) Hst.
  assert (at_scale 2 (it_gst_rate (tax_line cfg l)) rate') as Hrate' by (rewrite Erate; apply at_scale_paise).
  pose proof (at_scale_inj 2 _ _ _ Hrate Hrate') as ->.
  assert (it_line_total (tax_line cfg l) = it_line_total (snapshot_line cfg row)) as Htot.
  { cbn [snapshot_line it_line_total]. rewrite (st_total _ _ _ _ Hst). by destruct (Z.eqb_spec (sl_total l) 0); [lia|]. }
  split; [exact Htot|]. destruct (lr_gst_enabled r) eqn:He.
  - left. specialize (Hrt eq_refl). specialize (Hinc eq_refl). symmetry in Hen.
    apply andb_prop in Hen as [[Hl _]%andb_prop _].
    assert (clamp_rate rate' = rate') as Hc by (unfold clamp_rate; lia).
    assert (∀ x y : ItemTaxLine, it_line_total x = it_line_total y → it_gst_enabled x = it_gst_enabled y →
      it_gst_inclusive x = it_gst_inclusive y → it_gst_rate x = it_gst_rate y → x = y) as Hext.
    { intros [] []; cbn. by intros -> -> -> ->. }
    apply Hext; [exact Htot|..]; cbn [snapshot_line it_gst_enabled it_gst_inclusive it_gst_rate].
    + by rewrite (st_enabled _ _ _ _ Hst), He.
    + by rewrite (st_inclusive _ _ _ _ Hst), Hinc.
    + by rewrite (st_rate _ _ _ _ Hst), Hrt, Hc, Erate.
  - right. split; [by rewrite (active_at_scale _ _ _ Hrate')|].
    unfold line_active. cbn [snapshot_line it_gst_enabled]. by rewrite (st_enabled _ _ _ _ Hst), He.
Qed.

Lemma snapshots_same cfg order ls rs shares rows :
  Forall (slab_line cfg) ls → Forall (λ n, 0 < n) (map sl_total ls) → length shares = length ls →
  Forall2 (line_means (gst_enabled cfg)) (zip (zip (map (tax_line cfg) ls) (map sl_total ls)) shares) rs →
  Forall2 (λ x row, stored_line order x.1 x.2 row) (zip ls rs) rows →
  Forall2 (same_tax (gst_enabled cfg)) (map (tax_line cfg) ls) (map (snapshot_line cfg) rows).
Proof.
  intros Hls. revert rs shares rows. induction Hls as [|l ls Hl _ IH];
    intros rs shares rows Hpos Hlen Hms Hst; [inversion Hst; constructor|].
  destruct shares as [|a shares]; [done|]. cbn [map zip zip_with] in *.
  inversion Hms as [|? r ? rs' Hr Hms']; subst. cbn [zip zip_with] in Hst. inversion Hst as [|? row ? rows' Hrow Hst']; subst.
  apply Forall_cons in Hpos as [H0 Hpos]. injection Hlen as Hlen. constructor; [|by eapply IH].
  by eapply snapshot_same.
Qed.

Section Discount.
Context {L : Type} `{LedgerApi L} {G I : Type}.
Variable create_intent : intent_request → G → G * res I.
Variable accepts : payment → bool.

Lemma retax_succeeds (rs : list LineTaxResult) rows all :
  Forall line_ok rs → zsum (map total_of rs) < order_bound → ∃ all', res_foldl retax_item all (zip rows rs) = Ok all'.
Proof.
  intros Hok Hb. assert (Forall (λ r, total_of r < order_bound) rs) as Hsmall.
  { assert (Forall (λ n, 0 <= n) (map total_of rs)) as Hnn.
    { apply Forall_map. eapply Forall_impl; [exact Hok|]. by intros r [? _]. }
    apply Forall_forall. intros r Hr. pose proof (zsum_elem _ (total_of r) Hnn). specialize (H0 ltac:(by apply list_elem_of_fmap_2)). lia. }
  clear Hb. revert rows all. induction Hok as [|r rs Hr _ IH]; intros rows all; [destruct rows; by eexists|].
  apply Forall_cons in Hsmall as [Hr' Hsmall]. destruct rows as [|row rows]; [by eexists|]. cbn [zip zip_with res_foldl].
  assert (∃ all1, retax_item all (row, r) = Ok all1) as [all1 ->]; [|rewrite bind_Ok; apply (IH Hsmall)].
  pose proof (line_small r Hr) as (B1 & B2 & B3). destruct Hr as (H0 & a & _ & _ & [X1 X2 X3 _ _ _ _ _]).
  fold (total_of r) in H0. unfold order_bound in Hr'. unfold retax_item. cbn [fst snd].
  rewrite (pg_money_exact 12 _ _ X3), bind_Ok, (pg_money_exact 12 _ _ X1), bind_Ok, (pg_money_exact 12 _ _ X2), bind_Ok by lia.
  by eexists.
Qed.

Lemma find_updated id f (db : order_db I) o :
  NoDup (order_ids db) → o ∈ orders db → o_id o = id → o_id (f o) = id →
  find (λ x, bool_decide (o_id x = id)) (orders (update_orders id f db)) = Some (f o).
Proof.
  unfold order_ids, update_orders. cbn [orders]. intros Hnd Ho Hid Hf.
  induction (orders db) as [|x l IH]; [by apply elem_of_nil in Ho|]. cbn [map find].
  cbn [map] in Hnd. apply NoDup_cons in Hnd as [Hx Hnd]. apply elem_of_cons in Ho as [->|Ho].
  - rewrite (bool_decide_eq_true_2 (o_id x = id)), bool_decide_eq_true_2 by done. done.
  - destruct (bool_decide_reflect (o_id x = id)) as [E|E].
    + exfalso. apply Hx. rewrite E, <-Hid. by apply list_elem_of_fmap_2.
    + rewrite bool_decide_eq_false_2 by done. by apply IH.
Qed.

(** Billing an order again from snapshots the engine cannot tell from [lines]. *)
Lemma discount_write_spec id o pct rows cfg reason now (db : order_db I) lines ns amount b :
  NoDup (order_ids db) → o ∈ orders db → o_id o = id → cart_input lines ns → 0 <= zsum ns < order_bound →
  Forall2 (same_tax (gst_enabled cfg)) lines (map (snapshot_line cfg) rows) →
  percent_of (dsum (map it_line_total lines)) pct = Ok amount →
  compute_cart_tax lines (PDec amount) cfg false = Ok b → cart_bill lines ns cfg false b →
  ∃ db', discount_write id o pct rows cfg reason now db = Ok (db', Some (set_bill (bill_of b) b pct reason now o), b).
Proof.
  intros Hnd Ho Hid Hin Hb Hsame Hpct Eb Hbill. unfold discount_write.
  rewrite (cart_same _ _ _ _ _ Hsame) in Eb.
  assert (map it_line_total (map (snapshot_line cfg) rows) = map it_line_total lines) as ->.
  { clear -Hsame. induction Hsame as [|l l' ls ls' [E _] _ IH]; [done|]. cbn [map]. by rewrite E, IH. }
  rewrite Hpct, bind_Ok, Eb, bind_Ok, (read_bill_spec _ _ _ _ Hbill Hb), bind_Ok.
  destruct (retax_succeeds (ct_lines b) rows (order_items (update_orders id (set_bill (bill_of b) b pct reason now) db))
    (cb_ok _ _ _ _ _ Hbill)) as [all ->].
  { rewrite (cb_totals _ _ _ _ _ Hbill). lia. }
  rewrite bind_Ok. eexists. do 2 f_equal. f_equal. cbn [orders]. by apply find_updated.
Qed.

Lemma snapshot_fixed cfg rows rows' :
  map fixed_part rows = map fixed_part rows' → map (snapshot_line cfg) rows = map (snapshot_line cfg) rows'.
Proof.
  revert rows'. induction rows as [|r rows IH]; intros [|k ks] E; try done. cbn [map] in *.
  apply (inj2 cons) in E as [E Es]. f_equal; [|by apply IH]. unfold fixed_part in E.
  injection E as _ _ E1 E2 E3 E4. unfold snapshot_line. by rewrite E1, E2, E3, E4.
Qed.

Lemma discount_check_Ok u id pv (db : order_db I) o pct rows :
  discount_check u id pv db = Ok (o, pct, rows) →
  o ∈ orders db ∧ o_id o = id ∧ parse_decimal pv = Some pct ∧ rows = items_of id db.
Proof.
  unfold discount_check. destruct (find_order _ _ _) as [o'|] eqn:Hf; [|done]. apply find_order_Some in Hf as (Ho & Hid & _).
  intros (t1 & _ & (t2 & _ & (p & Hp & (t3 & _ & (t4 & _ & E)%res_bind_Ok)%res_bind_Ok)%res_bind_Ok)%res_bind_Ok)%res_bind_Ok.
  injection E as <- <- <-. destruct (parse_decimal pv); [|done]. injection Hp as ->. done.
Qed.

(** The items of an order that was just added are the rows it was stored with. *)
Lemma new_items id (db db' : order_db I) rows :
  tables_wf db → id ∉ order_ids db → order_items db' = order_items db ++ rows → Forall (λ r, oi_order r = id) rows →
  items_of id db' = rows.
Proof.
  intros [_ _ Hp] Hid Hi Hrows. unfold items_of. rewrite Hi, filter_app, (filter_all _ rows Hrows), filter_none; [done|].
  eapply Forall_impl; [exact Hp|]. intros r Hr <-. by apply Hid.
Qed.

(** C22: a discount bills the order as checkout would have: given at any later time,
    after any other calls and earlier discounts, a percentage re-prices the entries the
    order was placed with, at the rates they had then, and the order gets the amounts of
    that bill; discounts do not compound. *)
Theorem discount_rebills_cart m u owner q d cfg cache' seen (w w1 w2 : world L G I) ps r m2 u2 pv reason d2 o2 pct rows2 cache2 amount :
  tables_wf (w_db w) → placeable accepts m u owner q d cfg (w_db w) ps → Forall (λ n, 0 < n) (prices m (q_items q) ps) →
  claims seen ⊆ claims (w_db w) →
  get_tax_config (λ id, settings m id) (restaurant_id u) (d_mono d) (w_cache w) = Ok (cfg, cache') →
  checkout create_intent accepts m u q d seen w = (w1, Ok r) → rtc (service_call create_intent accepts) w1 w2 →
  discount_check u2 (d_order d) pv (w_db w2) = Ok (o2, pct, rows2) →
  get_tax_config (λ id, settings m2 id) (if str_truthy (o_restaurant o2) then o_restaurant o2 else restaurant_id u2)
    (d_mono d2) (w_cache w2) = Ok (cfg, cache2) →
  percent_of (dsum (map it_line_total (menu_lines cfg m (q_items q) ps))) pct = Ok amount →
  ∃ db3 o3 b, apply_discount m2 u2 (d_order d) pv reason d2 (w_cache w2) (w_db w2) = (cache2, Ok (db3, Some o3, b)) ∧
    compute_cart_tax (menu_lines cfg m (q_items q) ps) (PDec amount) cfg false = Ok b ∧
    o_id o3 = d_order d ∧ o_subtotal o3 = zsum (prices m (q_items q) ps) ∧
    o_discount_amount o3 = pz (ct_discount_amount b) ∧ o_tax_amount o3 = pz (ct_total_tax b) ∧
    o_total_amount o3 = pz (ct_grand_total b).
Proof.
  intros Hwf Hpl Hpos Hseen Hcfg E Hops Hcheck Hcfg2 Hpct.
  pose proof (pl_menu _ _ _ _ _ _ _ _ _ Hpl) as Hm. pose proof (pl_sold _ _ _ _ _ _ _ _ _ Hpl) as Hes.
  pose proof (prices_nonneg _ _ _ _ Hm Hes) as H0. pose proof (pl_bound _ _ _ _ _ _ _ _ _ Hpl) as Hbd.
  destruct (call_evolves _ _ _ _ (call_checkout _ _ _ _ _ _ _ _ _ _ Hseen E) Hwf) as [Hwf1 _].
  destruct (calls_evolve _ _ _ _ Hops Hwf1) as [Hwf2 Hev].
  destruct (checkout_commits create_intent accepts _ _ _ _ _ _ _ _ _ _ Hpl Hseen Hcfg) as
    (w1' & r' & o & rows & b0 & E' & Ho & Hi & _ & Hid & _ & Hin & _ & Hb0 & Hrows & _).
  rewrite E in E'. injection E' as <- <-.
  destruct (cb_lines _ _ _ _ _ Hb0) as (shares & _ & Hshl & Hms).
  assert (length shares = length (sale_lines m (q_items q) ps)) as Hlen by (by rewrite Hshl, <-prices_lines, length_map).
  rewrite <-prices_lines in Hpos, Hms.
  pose proof (snapshots_same _ _ _ _ _ _ (sale_lines_slab cfg _ _ _ _ Hm Hes) Hpos Hlen Hms Hrows) as Hsame.
  assert (d_order d ∉ order_ids (w_db w)) as Hnew.
  { unfold order_ids. intros (x & Hx & Hx')%list_elem_of_fmap. pose proof (pl_order _ _ _ _ _ _ _ _ _ Hpl) as Hf.
    rewrite existsb_false in Hf. specialize (Hf x Hx'). apply bool_decide_eq_false in Hf. congruence. }
  assert (Forall (λ row, oi_order row = d_order d) rows) as Hord.
  { eapply Forall2_Forall_r; [exact Hrows|]. apply Forall_forall. intros x _ row Hx. exact (st_order _ _ _ _ Hx). }
  pose proof (new_items _ _ _ _ Hwf Hnew Hi Hord) as Hitems.
  apply discount_check_Ok in Hcheck as Hc. destruct Hc as (Ho2 & Hid2 & _ & Hrows2).
  assert (map fixed_part rows2 = map fixed_part rows) as Hfix.
  { rewrite Hrows2, (te_items _ _ Hev), Hitems; [done|]. unfold order_ids. rewrite Ho, map_app. apply elem_of_app. right.
    rewrite <-Hid. by left. }
  rewrite <-(snapshot_fixed cfg _ _ Hfix) in Hsame.
  destruct (cart_spec _ _ (PDec amount) cfg false Hin) as (b & Eb & Hb).
  destruct (discount_write_spec _ o2 pct rows2 cfg reason (d_now d2) _ _ _ _ _ (tw_orders _ Hwf2) Ho2 Hid2 Hin (conj H0 Hbd)
    Hsame Hpct Eb Hb) as (db3 & E3).
  exists db3, (set_bill (bill_of b) b pct reason (d_now d2) o2), b. unfold apply_discount. rewrite Hcheck, Hcfg2, E3.
  split_and!; try done. cbn. exact (cb_subtotal _ _ _ _ _ Hb).
Qed.
End Discount.

Definition hour_later : Z := 10 + 3600 * 10 ^ 6.

(** The same key again, an hour later and from another till. *)
Lemma checkout_once_witness :
  ∃ w1 r w3, cafe_checkout "o1" "p1" 10 cafe_world = (w1, Ok r) ∧
    cafe_checkout "o2" "p2" hour_later w1 = (w3, Ok (replayed (with_razorpay r None))) ∧ w_db w3 = w_db w1.
Proof.
  destruct (cafe_checkout "o1" "p1" 10 cafe_world) as [w1 out1] eqn:E1.
  destruct (cafe_checkout "o2" "p2" hour_later w1) as [w3 out3] eqn:E3.
  assert (∃ r, out1 = Ok r ∧ rs_idempotent r = false) as (r & Hr & Hi).
  { apply (f_equal snd) in E1. cbn [snd] in E1. rewrite <-E1. vm_compute. eexists. split; reflexivity. }
  rewrite Hr in E1.
  destruct (checkout_once no_intent any_payment cafe_menu cafe_owner cafe_request (cafe_draw "o1" "p1" 10) (w_db cafe_world)
    cafe_world cafe_world w1 r cafe_menu cafe_owner cafe_request (cafe_draw "o2" "p2" hour_later) (w_db w1) w1 w3 out3)
    as (Hun & _ & Hout).
  1-12: first [reflexivity | apply rtc_refl | exact E1 | exact Hi | exact E3 | done | cbn [d_now cafe_draw]; unfold hour_later, day; lia].
  exists w1, r, w3. rewrite Hr. split; [reflexivity|]. assert (out3 = Ok (replayed (with_razorpay r None))) as Eo by (apply Hout; done). rewrite <-Eo. split; [exact E3|exact (un_db _ _ Hun)].
Defined.

(** A year later the key has long expired, and still places nothing: the checkout runs into
    the unique index and answers with the old order. *)
Example expired_key_replays :
  let w1 := (cafe_checkout "o1" "p1" 10 cafe_world).1 in
  let '(w2, out) := cafe_checkout "o2" "p2" (365 * day) w1 in
  map o_id (orders (w_db w2)) = ["o1"%string] ∧ (rs_idempotent <$> out) = Ok true.
Proof. vm_compute. split; reflexivity. Qed.

Lemma cafe_tables_wf order payment t : tables_wf (w_db (cafe_checkout order payment t cafe_world).1).
Proof.
  destruct (cafe_checkout order payment t cafe_world) as [w out] eqn:E.
  refine (proj1 (call_evolves no_intent any_payment cafe_world w (call_checkout _ _ _ _ _ _ _ _ _ _ _ E) _)); [done|].
  split; [constructor|by intros i row|constructor].
Qed.

Lemma order_follows_machine_witness :
  ∃ o', o' ∈ orders (w_db (update_status cafe_owner "o1" "Preparing" true (cafe_draw "" "" 20)
                             (cafe_checkout "o1" "p1" 10 cafe_world).1).1) ∧ o_id o' = "o1"%string.
Proof.
  set (w := (cafe_checkout "o1" "p1" 10 cafe_world).1).
  destruct (orders (w_db w)) as [|o l] eqn:Ho; [vm_compute in Ho; discriminate|].
  destruct (order_follows_machine no_intent any_payment w
    (update_status cafe_owner "o1" "Preparing" true (cafe_draw "" "" 20) w).1 o) as (o' & Hin & Hid & _).
  - exact (cafe_tables_wf "o1" "p1" 10).
  - apply rtc_once, call_status.
  - rewrite Ho. by left.
  - exists o'. split; [exact Hin|]. rewrite Hid. vm_compute in Ho. injection Ho as <- _. reflexivity.
Defined.

(** Ten per cent off the order of the cafe, ten minutes later. *)
Lemma discount_rebills_cart_witness :
  ∃ db3 o3 b, (apply_discount cafe_menu cafe_owner "o1" (PInt 10) None (cafe_draw "" "" 20)
      (w_cache (cafe_checkout "o1" "p1" 10 cafe_world).1) (w_db (cafe_checkout "o1" "p1" 10 cafe_world).1)).2
      = Ok (db3, Some o3, b) ∧
    o_subtotal o3 = 29100 + (12000 + (15099 + 0)) ∧ o_total_amount o3 = pz (ct_grand_total b).
Proof.
  destruct (cafe_checkout "o1" "p1" 10 cafe_world) as [w1 out] eqn:E.
  assert (∃ r, out = Ok r) as (r & Hr).
  { apply (f_equal snd) in E. cbn [snd] in E. rewrite <-E. vm_compute. eexists. reflexivity. }
  rewrite Hr in E. assert (w1 = (cafe_checkout "o1" "p1" 10 cafe_world).1) as Hw by (by rewrite E).
  pose proof (λ o2 pct rows2 cache2, discount_rebills_cart no_intent any_payment cafe_menu cafe_owner "owner" cafe_request
    (cafe_draw "o1" "p1" 10) default_config (<["r1"%string := (default_config, 5)]> ∅) (w_db cafe_world) cafe_world w1 w1 cafe_rows
    r cafe_menu cafe_owner (PInt 10) None (cafe_draw "" "" 20) o2 pct rows2 cache2 (Dec 5620 (-2))) as D.
  assert (∃ o2 rows2, discount_check cafe_owner "o1" (PInt 10) (w_db w1) = Ok (o2, d_int 10, rows2) ∧
    o_restaurant o2 = Some "r1"%string) as (o2 & rows2 & Hc & Ho2).
  { rewrite Hw. vm_compute. eexists _, _. split; reflexivity. }
  destruct (D o2 (d_int 10) rows2 (<["r1"%string := (default_config, 5)]> ∅)) as (db3 & o3 & b & E3 & _ & _ & Hs & _ & _ & Ht).
  - split; [constructor|by intros i row|constructor].
  - exact cafe_placeable.
  - rewrite cafe_prices. repeat constructor.
  - done.
  - vm_compute. reflexivity.
  - exact E.
  - apply rtc_refl.
  - exact Hc.
  - rewrite Ho2, Hw. vm_compute. reflexivity.
  - vm_compute. reflexivity.
  - exists db3, o3, b. split; [exact (f_equal snd E3)|]. split; [|exact Ht]. rewrite Hs, cafe_prices. reflexivity.
Defined.

(** ** What evaluation shows of the code *)

Definition set_all (u : UserContext) (id : string) (l : list string) (w : world ledger_db () ()) : world ledger_db () () :=
  foldl (λ w s, (update_status u id s true (cafe_draw "" "" 20) w).1) w l.

(** A payment that dies cancels an order that was served, with a status the machine
    does not know: no update is accepted afterwards. *)
Example flip_leaves_the_machine :
  let w := set_all cafe_owner "o1" ["Preparing"; "Ready"; "Served"]%string (cafe_checkout "o1" "p1" 10 cafe_world).1 in
  let w' := _flip_order_to_cancelled (Some "o1"%string) None 30 w in
  (map o_status (orders (w_db w)), map o_status (orders (w_db w')),
   (update_status cafe_owner "o1" "Cancelled" true (cafe_draw "" "" 40) w').2) =
  (["Served"%string], ["cancelled"%string], Err (InvalidStateTransition "order" "cancelled" "Cancelled")).
Proof. vm_compute. reflexivity. Qed.

(** The payments table refuses the row, the rollback is silent, and the caller without
    a key is told that the order exists. *)
Example lost_order_is_reported :
  let q := {| q_items := q_items cafe_request; q_source := "pos"; q_order_type := None;
              q_payment_method := Some "wallet"%string; q_total_amount := None; q_customer_id := None;
              q_customer_name := None; q_customer_phone := None; q_table_number := None;
              q_delivery_address := None; q_coupon_id := None; q_notes := None; q_idempotency_key := None |} in
  let r := checkout no_intent (λ _, false) cafe_menu cafe_owner q (cafe_draw "o1" "p1" 10) (w_db cafe_world) cafe_world in
  (is_ok r.2, orders (w_db r.1), length (w_events r.1)) = (true, [], 1%nat).
Proof. vm_compute. reflexivity. Qed.

(** A coupon of any number fails the checkout once the table is dropped. *)
Example coupons_are_gone :
  _calculate_coupon_discount cafe_menu (Some "owner"%string) 1 (money_dec 50000) 10 =
  Err (DatabaseError "relation coupons does not exist").
Proof. reflexivity. Qed.

(** A variant is found whoever owns it, and whether or not its item is on sale. *)
Example variant_of_another_merchant :
  (pick_row cafe_menu (Some "stranger"%string) (cafe_entry None None 1 (Some 7) []),
   pick_row cafe_menu (Some "stranger"%string) (cafe_entry None (Some 1) 1 None [])) =
  (Ok {| pk_price := 15099; pk_item := hd {| i_id := 0; i_name := ""; i_price := 0; i_available := false;
           i_gst_rate := 0; i_tax_inclusive := false; i_user := None |} (items cafe_menu); pk_variant := Some 7;
         pk_full_name := "Dosa (Masala)"; pk_item_name := None |}, Err (NotFoundError "Item")).
Proof. vm_compute. reflexivity. Qed.
