(* ===== verification/DineIn.v ===== *)
(** Dine-in sessions: [src/app/services/dinein_session_service.py], with the tables of
    migrations 001, 012 and 083.

    A session is opened by scanning the code of a table, joined with its PIN, filled
    through a shared cart, turned into orders, paid in parts and closed.  Every method
    first reads the session by its token and works in a later transaction: each
    operation therefore takes the session row [seen] by the first read beside the state
    the transaction runs in.  Rows are appended in order of creation, so [ORDER BY
    created_at DESC LIMIT 1] is the last match.  The orders, order rows and payments are
    those of Orders; the ledger is known through [LedgerApi].

    This file holds the data, the life of a session, the cart, and placing and merging
    orders; TableBilling holds the bill and the payments.  asyncpg refuses a text for an
    integer parameter, which is what every [variant_id] of this service is.  Redis is
    taken to be reachable; the waitlist's reservations are an argument.  The JSON text of
    the addons and extras columns and the read-only views (session state, cart, menu,
    order and kitchen status) are left out. *)

From Stdlib Require Import ZArith Lia Ascii String.
From S2P Require Import Prelude PyDecimal PyFloat PyValues TaxEngine StateMachines FeePolicy MerchantLedger RazorpayLedgers Orders.
Open Scope Z_scope.

(** ** The tables *)

(** What a session is opened with and never changes, and the session. *)
Record opening := {
  se_id : string;
  se_table : string;
  se_restaurant : option string;
  se_user : string;
  se_branch : option string;
  se_token : string;
  se_device : option string;
  se_expires_at : option Z;
  se_created_at : Z;
  se_created_by : string;
  se_join_pin : option string;
}.

Record totals := { to_total : Z; to_paid : Z; to_remaining : Z }.

Record session := {
  se_opening :> opening;
  se_status : string;
  se_active_order : option string;
  se_last_activity : Z;
  se_ended_at : option Z;
  se_totals : totals;
  se_active_users : Z;
  se_merged_into : option string;
}.

(** A row of [restaurant_tables]: the table, and who sits at it. *)
Record place := {
  tb_id : string;
  tb_number : string;
  tb_capacity : option Z;
  tb_user : string;
  tb_restaurant : option string;
  tb_active : bool;
}.
Record rtable := {
  tb_place :> place;
  tb_status : string;
  tb_occupied : bool;
  tb_occupied_since : option Z;
  tb_session_token : option string;
  tb_current_order : option string;
}.

Record participant := {
  su_id : string;
  su_session : string;
  su_type : string;
  su_name : option string;
  su_device : option string;
  su_joined_at : Z;
  su_active : bool;
}.

Record cart_row := {
  ca_id : string;
  ca_session : string;
  ca_item : Z;
  ca_variant : option Z;
  ca_item_name : string;
  ca_quantity : Z;
  ca_unit_price : Z;
  ca_total_price : Z;
  ca_addons : list addon_in;
  ca_extras : list addon_in;
  ca_notes : option string;
  ca_added_by : string;
  ca_request : option string;
}.

(** A row of [session_orders]. *)
Record link := { lk_session : string; lk_order : string; lk_role : string }.

(** A row of [table_session_payments]. *)
Record receipt := {
  rc_id : string;
  rc_session : string;
  rc_amount : Z;
  rc_method : string;
  rc_transaction_ref : option string;
  rc_paid_by : option string;
  rc_notes : option string;
  rc_created_by : option string;
}.

Record kitchen_order := {
  ko_id : string;
  ko_order : string;
  ko_restaurant : option string;
  ko_user : string;
  ko_branch : option string;
  ko_status : string;
}.
Record kitchen_item := {
  ki_kitchen_order : string;
  ki_order_item : Z;
  ki_status : string;
  ki_name : string;
  ki_quantity : Z;
}.

(** What the mutations reply, and store under their [request_id]. *)
Inductive reply :=
  | CartAdded (cart_item item_name : string) (quantity : Z) (total_price : float64)
  | CartUpdated (cart_item : string) (quantity : Z) (total_price : float64)
  | CartRemoved (cart_item : string)
  | OrderPlaced (order_id order_number kitchen_order_id : string) (total : float64) (is_append : bool) (items_added : Z).

(** A row of [idempotency_keys]. *)
Record stored_reply := { sr_key : string; sr_session : string; sr_reply : reply }.

Record dine_db (I : Type) := {
  sessions : list session;
  tables : list rtable;
  users : list participant;
  carts : list cart_row;
  links : list link;
  receipts : list receipt;
  kitchen_orders : list kitchen_order;
  kitchen_items : list kitchen_item;
  replies : list stored_reply;
  book : order_db I;
}.
Arguments sessions {I}. Arguments tables {I}. Arguments users {I}. Arguments carts {I}. Arguments links {I}.
Arguments receipts {I}. Arguments kitchen_orders {I}. Arguments kitchen_items {I}. Arguments replies {I}.
Arguments book {I}.

(** ** Events, the bill and the state *)

Inductive session_event := SESSION_CREATED | SESSION_RESTORED.

Inductive dine_event :=
  | SessionOpened (kind : session_event) (session table : string) (device : option string)
  | TableStatusChanged (table session : string) (occupied : bool) (action : string)
  | SessionClosed (session table : string) (reason_or_closer : option string)
  | CartChanged (session action : string)
  | TableOrderPlaced (order : string) (number : string) (session : string) (total : float64) (is_append : bool)
      (linked_sessions : list string)
  | KitchenOrderCreated (kitchen_order order : string) (session : string) (item_count : Z)
  | SessionMerged (source target order : string)
  | CallWaiter (session table request_type : string)
  | BillUpdated (session : string) (payment : option string) (method : string) (amount remaining : float64).

Record bill_order := {
  bo_order : string;
  bo_number : string;
  bo_status : string;
  bo_subtotal : float64;
  bo_tax : float64;
  bo_discount : float64;
  bo_total : float64;
}.

Record session_bill := {
  bi_status : string;
  bi_orders : list bill_order;
  bi_subtotal : float64;
  bi_tax : float64;
  bi_discount : float64;
  bi_grand_total : float64;
  bi_paid_total : float64;
  bi_remaining : float64;
  bi_payments : list receipt;
}.

(** [h_bills]: the cached bills with the instant they expire. *)
Record hall (L I : Type) := {
  h_db : dine_db I;
  h_cache : config_cache;
  h_bills : gmap string (session_bill * Z);
  h_ledger : L;
  h_events : list dine_event;
}.
Arguments h_db {L I}. Arguments h_cache {L I}. Arguments h_bills {L I}. Arguments h_ledger {L I}. Arguments h_events {L I}.
Arguments Build_hall {L I}.

(** What a call draws: UUIDs, tokens, PINs and the clocks (microseconds; the tax cache's
    in nanoseconds). *)
Record dice := {
  x_now : Z;
  x_mono : Z;
  x_session : string;
  x_token : string;
  x_pin : string;
  x_user : string;
  x_cart : string;
  x_order : string;
  x_kitchen : string;
  x_receipt : string;
  x_payment : string;
  x_stamp : stamp;
}.

Definition hour : Z := 3600 * 10 ^ 6.
Definition SESSION_EXPIRY_HOURS : Z := 4.
Definition INACTIVITY_TIMEOUT_MINUTES : Z := 120.
Definition BILL_CACHE_TTL_SECONDS : Z := 3.

(** ** Updates *)

Section Updates.
Context {I : Type}.

Definition with_sessions (f : list session → list session) (db : dine_db I) : dine_db I := {|
  sessions := f (sessions db); tables := tables db; users := users db; carts := carts db; links := links db;
  receipts := receipts db; kitchen_orders := kitchen_orders db; kitchen_items := kitchen_items db;
  replies := replies db; book := book db |}.
Definition with_tables (f : list rtable → list rtable) (db : dine_db I) : dine_db I := {|
  sessions := sessions db; tables := f (tables db); users := users db; carts := carts db; links := links db;
  receipts := receipts db; kitchen_orders := kitchen_orders db; kitchen_items := kitchen_items db;
  replies := replies db; book := book db |}.
Definition with_users (f : list participant → list participant) (db : dine_db I) : dine_db I := {|
  sessions := sessions db; tables := tables db; users := f (users db); carts := carts db; links := links db;
  receipts := receipts db; kitchen_orders := kitchen_orders db; kitchen_items := kitchen_items db;
  replies := replies db; book := book db |}.
Definition with_carts (f : list cart_row → list cart_row) (db : dine_db I) : dine_db I := {|
  sessions := sessions db; tables := tables db; users := users db; carts := f (carts db); links := links db;
  receipts := receipts db; kitchen_orders := kitchen_orders db; kitchen_items := kitchen_items db;
  replies := replies db; book := book db |}.
Definition with_links (f : list link → list link) (db : dine_db I) : dine_db I := {|
  sessions := sessions db; tables := tables db; users := users db; carts := carts db; links := f (links db);
  receipts := receipts db; kitchen_orders := kitchen_orders db; kitchen_items := kitchen_items db;
  replies := replies db; book := book db |}.
Definition with_receipts (f : list receipt → list receipt) (db : dine_db I) : dine_db I := {|
  sessions := sessions db; tables := tables db; users := users db; carts := carts db; links := links db;
  receipts := f (receipts db); kitchen_orders := kitchen_orders db; kitchen_items := kitchen_items db;
  replies := replies db; book := book db |}.
Definition with_kitchen (f : list kitchen_order → list kitchen_order) (g : list kitchen_item → list kitchen_item)
    (db : dine_db I) : dine_db I := {|
  sessions := sessions db; tables := tables db; users := users db; carts := carts db; links := links db;
  receipts := receipts db; kitchen_orders := f (kitchen_orders db); kitchen_items := g (kitchen_items db);
  replies := replies db; book := book db |}.
Definition with_replies (f : list stored_reply → list stored_reply) (db : dine_db I) : dine_db I := {|
  sessions := sessions db; tables := tables db; users := users db; carts := carts db; links := links db;
  receipts := receipts db; kitchen_orders := kitchen_orders db; kitchen_items := kitchen_items db;
  replies := f (replies db); book := book db |}.
Definition with_book (b : order_db I) (db : dine_db I) : dine_db I := {|
  sessions := sessions db; tables := tables db; users := users db; carts := carts db; links := links db;
  receipts := receipts db; kitchen_orders := kitchen_orders db; kitchen_items := kitchen_items db;
  replies := replies db; book := b |}.

(** [UPDATE dine_in_sessions SET ... WHERE id = $n] *)
Definition update_session (id : string) (f : session → session) : dine_db I → dine_db I :=
  with_sessions (map (λ s : session, if bool_decide (se_id s = id) then f s else s)).

(** [UPDATE restaurant_tables SET ... WHERE id = $n] *)
Definition update_table (id : string) (f : rtable → rtable) : dine_db I → dine_db I :=
  with_tables (map (λ t : rtable, if bool_decide (tb_id t = id) then f t else t)).
End Updates.

Definition touch (now : Z) (s : session) : session := {|
  se_opening := s; se_status := se_status s; se_active_order := se_active_order s; se_last_activity := now;
  se_ended_at := se_ended_at s; se_totals := se_totals s; se_active_users := se_active_users s;
  se_merged_into := se_merged_into s |}.
Definition end_with (status : string) (now : Z) (s : session) : session := {|
  se_opening := s; se_status := status; se_active_order := se_active_order s; se_last_activity := se_last_activity s;
  se_ended_at := Some now; se_totals := se_totals s; se_active_users := se_active_users s;
  se_merged_into := se_merged_into s |}.
Definition set_active_order (o : string) (now : Z) (s : session) : session := {|
  se_opening := s; se_status := se_status s; se_active_order := Some o; se_last_activity := now;
  se_ended_at := se_ended_at s; se_totals := se_totals s; se_active_users := se_active_users s;
  se_merged_into := se_merged_into s |}.
Definition set_totals (t : totals) (s : session) : session := {|
  se_opening := s; se_status := se_status s; se_active_order := se_active_order s;
  se_last_activity := se_last_activity s; se_ended_at := se_ended_at s; se_totals := t;
  se_active_users := se_active_users s; se_merged_into := se_merged_into s |}.
Definition set_active_users (n : Z) (s : session) : session := {|
  se_opening := s; se_status := se_status s; se_active_order := se_active_order s;
  se_last_activity := se_last_activity s; se_ended_at := se_ended_at s; se_totals := se_totals s;
  se_active_users := n; se_merged_into := se_merged_into s |}.
Definition merge_into (target order : string) (now : Z) (s : session) : session := {|
  se_opening := s; se_status := se_status s; se_active_order := Some order; se_last_activity := now;
  se_ended_at := se_ended_at s; se_totals := se_totals s; se_active_users := se_active_users s;
  se_merged_into := Some target |}.

Definition occupy (now : Z) (t : rtable) : rtable := {|
  tb_place := t; tb_status := "running"; tb_occupied := true;
  tb_occupied_since := Some (default now (tb_occupied_since t)); tb_session_token := tb_session_token t;
  tb_current_order := tb_current_order t |}.
Definition vacate (status : string) (t : rtable) : rtable := {|
  tb_place := t; tb_status := status; tb_occupied := false; tb_occupied_since := None; tb_session_token := None;
  tb_current_order := None |}.
Definition serve_order (o : string) (t : rtable) : rtable := {|
  tb_place := t; tb_status := tb_status t; tb_occupied := tb_occupied t; tb_occupied_since := tb_occupied_since t;
  tb_session_token := tb_session_token t; tb_current_order := Some o |}.

(** ** The life of a session *)

Section Sessions.
Context {L : Type} {I : Type}.

Definition find_session (id : string) (db : dine_db I) : option session :=
  find (λ s : session, bool_decide (se_id s = id)) (sessions db).
Definition session_of_token (token : string) (db : dine_db I) : option session :=
  find (λ s : session, bool_decide (se_token s = token)) (sessions db).
Definition find_table (id : string) (db : dine_db I) : option rtable :=
  find (λ t : rtable, bool_decide (tb_id t = id)) (tables db).
Definition is_active (s : session) : bool := bool_decide (se_status s = "active"%string).
Definition active_at (table : string) (db : dine_db I) : list session :=
  filter (λ s : session, se_table s = table ∧ is_active s = true) (sessions db).

Definition emit (e : dine_event) (w : hall L I) : hall L I := {|
  h_db := h_db w; h_cache := h_cache w; h_bills := h_bills w; h_ledger := h_ledger w; h_events := h_events w ++ [e] |}.
Definition on_db (f : dine_db I → dine_db I) (w : hall L I) : hall L I := {|
  h_db := f (h_db w); h_cache := h_cache w; h_bills := h_bills w; h_ledger := h_ledger w; h_events := h_events w |}.

Definition expired (now : Z) (s : session) : bool :=
  match se_expires_at s with Some t => t <? now | None => false end.

(** Any operation with a token starts here; a session found expired is marked so. *)
Definition _get_valid_session (token : string) (now : Z) (w : hall L I) : hall L I * res session :=
  match session_of_token token (h_db w) with
  | None => (w, Err (NotFoundError "Session"))
  | Some s =>
      if negb (is_active s) then
        if bool_decide (se_status s = "expired"%string)
        then (w, Err (ValidationError "Session has expired. Please scan QR again."))
        else if str_mem (se_status s) ["completed"; "closed"]%string then (w, Err (ValidationError "Session is closed."))
        else if bool_decide (se_status s = "merged"%string) then (w, Ok s)
        else (w, Err (ValidationError "Session is "))
      else if expired now s then
        (on_db (update_session (se_id s) (end_with "expired" now)) w,
         Err (ValidationError "Session has expired. Please scan QR again."))
      else (w, Ok s)
  end.

Definition session_device (session device : string) (u : participant) : bool :=
  bool_decide (su_session u = session) && bool_decide (su_device u = Some device).

Definition active_users (session : string) (l : list participant) : Z :=
  Z.of_nat (length (filter (λ u, su_session u = session ∧ su_active u = true) l)).

(** The device's row, activated, or a new one; and the count on the session. *)
Definition _ensure_session_user (session user_type : string) (name device : option string) (d : dice)
    (db : dine_db I) : res (dine_db I * string) :=
  name ← varchar_opt 120 name;
  device ← varchar_opt 120 device;
  let known := if str_truthy device then find (session_device session (str_or device "")) (users db) else None in
  let '(l, id) :=
    match known with
    | Some u =>
        (map (λ v, if bool_decide (su_id v = su_id u)
                   then {| su_id := su_id v; su_session := su_session v; su_type := su_type v;
                           su_name := match name with Some n => Some n | None => su_name v end;
                           su_device := su_device v; su_joined_at := su_joined_at v; su_active := true |}
                   else v) (users db), su_id u)
    | None =>
        (users db ++ [{| su_id := x_user d; su_session := session; su_type := user_type; su_name := name;
                         su_device := device; su_joined_at := x_now d; su_active := true |}], x_user d)
    end in
  Ok (update_session session (set_active_users (active_users session l)) (with_users (λ _, l) db), id).

(** What a scan answers.  Only [Restored] and [Opened] carry a token. *)
Inductive scan_reply :=
  | Restored (session token : string) (active_order : option string)
  | Terminal (session status : string) (is_paid : bool) (grand_total remaining : float64)
  | RequiresJoin (session : string)
  | Opened (session token pin : string) (is_new : bool) (active_order : option string).

Definition money_float (n : Z) : float64 := of_decimal (money_dec n).

Definition _try_restore_session (token : string) (now : Z) (db : dine_db I) : option session :=
  match find (λ s : session, bool_decide (se_token s = token) && is_active s && bool_decide (is_Some (find_table (se_table s) db)))
          (sessions db) with
  | Some s => if expired now s then None else Some s
  | None => None
  end.

Definition _terminal_session_for_token (token : string) (db : dine_db I) : option scan_reply :=
  match find (λ s : session, bool_decide (se_token s = token) && bool_decide (is_Some (find_table (se_table s) db)))
          (sessions db) with
  | Some s =>
      if is_active s then None
      else
        let t := se_totals s in
        Some (Terminal (se_id s) (se_status s) ((0 <? to_total t) && (to_remaining t <=? 0))
                (money_float (to_total t)) (money_float (to_remaining t)))
  | None => None
  end.

(** The table a scan names: active, of the restaurant or of its owner. *)
Definition table_in_scope (table restaurant : string) (db : dine_db I) : option rtable :=
  find (λ t : rtable, bool_decide (tb_id t = table) && tb_active t
                      && (bool_decide (tb_restaurant t = Some restaurant) || bool_decide (tb_user t = restaurant)))
    (tables db).

Definition new_session (t : rtable) (device : string) (d : dice) : session := {|
  se_opening := {| se_id := x_session d; se_table := tb_id t; se_restaurant := tb_restaurant t; se_user := tb_user t;
                   se_branch := None; se_token := x_token d; se_device := Some device;
                   se_expires_at := Some (x_now d + SESSION_EXPIRY_HOURS * hour); se_created_at := x_now d;
                   se_created_by := "qr"; se_join_pin := Some (x_pin d) |};
  se_status := "active"; se_active_order := None; se_last_activity := x_now d; se_ended_at := None;
  se_totals := {| to_total := 0; to_paid := 0; to_remaining := 0 |}; se_active_users := 0; se_merged_into := None |}.

(** The transaction of a scan.  [seen] is the active session its first read locked, if
    any; a new session is only inserted when, under the table's lock, there is still
    none and the waitlist holds no reservation. *)
Definition scan_txn (t : rtable) (device : string) (reserved : bool) (seen : option session) (d : dice)
    (db : dine_db I) : res (dine_db I * scan_reply) :=
  match seen with
  | Some s =>
      if bool_decide (device ≠ ""%string) && existsb (session_device (se_id s) device) (users db)
      then Ok (update_table (tb_id t) (occupy (x_now d)) (update_session (se_id s) (touch (x_now d)) db),
               Opened (se_id s) (se_token s) (default ""%string (se_join_pin s)) false (se_active_order s))
      else Ok (db, RequiresJoin (se_id s))
  | None =>
      _ ← raise_if reserved (ConflictError "Table is reserved for a notified waitlist party");
      _ ← raise_if (negb (bool_decide (active_at (tb_id t) db = []))) (ConflictError "Table session changed; scan again");
      _ ← varchar 100 device;
      _ ← raise_if (existsb (λ s : session, bool_decide (se_id s = x_session d)) (sessions db))
            (UniqueViolationError "dine_in_sessions_pkey");
      Ok (update_table (tb_id t) (occupy (x_now d)) (with_sessions (λ l, l ++ [new_session t device d]) db),
          Opened (x_session d) (x_token d) (x_pin d) true None)
  end.

Definition scan_events (t : rtable) (device : string) (session : string) (is_new : bool) (w : hall L I) : hall L I :=
  let w1 := emit (SessionOpened (if is_new then SESSION_CREATED else SESSION_RESTORED) session (tb_id t) (Some device)) w in
  if is_new then emit (TableStatusChanged (tb_id t) session true "occupied") w1 else w1.

(** [seen]: the database the transaction's first read meets, [w] what the rest does. *)
Definition scan_qr (restaurant table device : string) (token : option string) (reserved : bool) (seen : dine_db I)
    (d : dice) (w : hall L I) : hall L I * res scan_reply :=
  let db := h_db w in
  let client := if str_truthy token then str_or token "" else ""%string in
  match (if str_truthy token then _try_restore_session client (x_now d) db else None) with
  | Some s =>
      match _ensure_session_user (se_id s) "qr" None (Some device) d db with
      | Err e => (w, Err e)
      | Ok (db1, _) =>
          (on_db (λ _, update_session (se_id s) (touch (x_now d)) db1) w,
           Ok (Restored (se_id s) (se_token s) (se_active_order s)))
      end
  | None =>
      match (if str_truthy token then _terminal_session_for_token client db else None) with
      | Some r => (w, Ok r)
      | None =>
          match table_in_scope table restaurant db with
          | None => (w, Err (NotFoundError "Table"))
          | Some t =>
              match scan_txn t device reserved (last (active_at table seen)) d db with
              | Err e => (w, Err e)
              | Ok (db1, RequiresJoin s) => (on_db (λ _, db1) w, Ok (RequiresJoin s))
              | Ok (db1, Opened s tok pin is_new o) =>
                  match _ensure_session_user s "qr" None (Some device) d db1 with
                  | Err e => (on_db (λ _, db1) w, Err e)
                  | Ok (db2, _) => (scan_events t device s is_new (on_db (λ _, db2) w), Ok (Opened s tok pin is_new o))
                  end
              | Ok (db1, r) => (on_db (λ _, db1) w, Ok r)
              end
          end
      end
  end.

(** Joining a live session from another device takes its PIN. *)
Definition join_session (table device pin : string) (d : dice) (w : hall L I)
    : hall L I * res (string * string * option string) :=
  match last (active_at table (h_db w)) with
  | None => (w, Err (NotFoundError "Session"))
  | Some s =>
      let supplied := strip pin in
      let expected := strip (default ""%string (se_join_pin s)) in
      if bool_decide (expected = ""%string) || negb (bool_decide (supplied = expected))
      then (w, Err (ValidationError "Invalid table PIN"))
      else
        let db1 := update_session (se_id s) (touch (x_now d)) (h_db w) in
        match _ensure_session_user (se_id s) "qr" None (Some device) d db1 with
        | Err e => (on_db (λ _, db1) w, Err e)
        | Ok (db2, _) => (on_db (λ _, db2) w, Ok (se_id s, se_token s, se_active_order s))
        end
  end.

(** Closing: only an active row is ended; a table without another active session is
    freed.  [locked]: the session's Redis lock was acquired in time. *)
Definition close_session (seen : session) (reason : string) (locked : bool) (d : dice) (w : hall L I)
    : hall L I * res string :=
  if negb locked then (w, Err LockAcquisitionError)
  else
    let sid := se_id seen in
    let status := if bool_decide (reason = "completed"%string) then "completed"%string else "cancelled"%string in
    let db1 := with_sessions (map (λ s : session, if bool_decide (se_id s = sid) && is_active s
                                                  then end_with status (x_now d) s else s)) (h_db w) in
    let free := bool_decide (filter (λ s : session, se_id s ≠ sid) (active_at (se_table seen) db1) = []) in
    let db2 := if free then update_table (se_table seen) (vacate "blank") db1 else db1 in
    let w1 := emit (SessionClosed sid (se_table seen) (Some reason)) (on_db (λ _, db2) w) in
    (if free then emit (TableStatusChanged (se_table seen) sid false "vacated") w1 else w1, Ok status).

(** The background sweep. *)
Definition overdue (now : Z) (s : session) : bool :=
  is_active s && ((se_last_activity s <? now - INACTIVITY_TIMEOUT_MINUTES * (60 * 10 ^ 6)) || expired now s).
Definition expire_inactive_sessions (now : Z) (w : hall L I) : hall L I * Z :=
  (on_db (with_sessions (map (λ s, if overdue now s then end_with "expired" now s else s))) w,
   Z.of_nat (length (filter (λ s, overdue now s = true) (sessions (h_db w))))).

Definition call_waiter (seen : session) (request_type : string) (w : hall L I) : hall L I * res string :=
  (emit (CallWaiter (se_id seen) (se_table seen) request_type) w, Ok request_type).
End Sessions.

(** ** The cart *)

(** [sum(float(a.get("price", 0)) for a in l)]; only a dict has [get]. *)
Definition extra_price (a : addon_in) : res float64 :=
  match a with
  | AddonDict l => float_of (default (PInt 0) (snd <$> find (λ f, bool_decide (f.1 = "price"%string)) l))
  | _ => Err (AttributeError "object has no attribute 'get'")
  end.
Definition extras_total (l : list addon_in) : res float64 :=
  res_foldl (λ total a, p ← extra_price a; Ok (fadd total p)) f_zero l.

(** The price of one unit: the stored price and what the request says of its extras. *)
Definition line_price (unit : float64) (addons extras : list addon_in) : res float64 :=
  a ← extras_total addons;
  e ← extras_total extras;
  Ok (fadd (fadd unit a) e).

Section Cart.
Context {L : Type} {I : Type}.

Definition _check_idempotency (request session : string) (db : dine_db I) : option reply :=
  sr_reply <$> find (λ r, bool_decide (sr_key r = request) && bool_decide (sr_session r = session)) (replies db).

(** [ON CONFLICT (key) DO NOTHING]: the key is unique over all sessions. *)
Definition _save_idempotency (request session : string) (r : reply) (db : dine_db I) : dine_db I :=
  if existsb (λ x, bool_decide (sr_key x = request)) (replies db) then db
  else with_replies (λ l, l ++ [{| sr_key := request; sr_session := session; sr_reply := r |}]) db.

(** The reply stored for a request, read before the lock is taken. *)
Definition cached_reply (request : option string) (session : string) (db : dine_db I) : option reply :=
  if str_truthy request then _check_idempotency (str_or request "") session db else None.
Definition remember (request : option string) (session : string) (r : reply) (w : hall L I) : hall L I :=
  if str_truthy request then on_db (_save_idempotency (str_or request "") session r) w else w.

Definition same_line (session : string) (item : Z) (variant notes : option string) (c : cart_row) : bool :=
  bool_decide (ca_session c = session) && (ca_item c =? item)
  && bool_decide (match ca_variant c with Some v => int_text v | None => ""%string end = default ""%string variant)
  && bool_decide (default ""%string (ca_notes c) = default ""%string notes).

Definition set_line (quantity total : Z) (addons extras : list addon_in) (c : cart_row) : cart_row := {|
  ca_id := ca_id c; ca_session := ca_session c; ca_item := ca_item c; ca_variant := ca_variant c;
  ca_item_name := ca_item_name c; ca_quantity := quantity; ca_unit_price := ca_unit_price c;
  ca_total_price := total; ca_addons := addons; ca_extras := extras; ca_notes := ca_notes c;
  ca_added_by := ca_added_by c; ca_request := ca_request c |}.
Definition update_cart (id : string) (f : cart_row → cart_row) : dine_db I → dine_db I :=
  with_carts (map (λ c, if bool_decide (ca_id c = id) then f c else c)).

(** The transaction of [add_to_cart]: an equal line grows, and is priced anew as a whole. *)
Definition add_txn (m : menu) (sid user : string) (item_id quantity : Z) (variant : option string)
    (addons extras : list addon_in) (notes request : option string) (d : dice) (db : dine_db I)
    : res (dine_db I * reply) :=
  id ← int4 item_id;
  match find (λ i, i_id i =? id) (items m) with
  | None => Err (ValidationError "Item not available")
  | Some i =>
      _ ← raise_if (negb (i_available i)) (ValidationError "Item not available");
      _ ← raise_if (str_truthy variant) (ValueError "invalid input for query argument $1");
      let unit := money_float (i_price i) in
      price ← line_price unit addons extras;
      match find (same_line sid id variant notes) (carts db) with
      | Some c =>
          let quantity' := ca_quantity c + quantity in
          let total := fmul_int price quantity' in
          q ← int4 quantity';
          t ← pg_money 12 total;
          Ok (update_session sid (touch (x_now d)) (update_cart (ca_id c) (set_line q t addons extras) db),
              CartAdded (ca_id c) (i_name i) quantity' total)
      | None =>
          let total := fmul_int price quantity in
          _ ← raise_if (bool_decide (is_Some variant)) (ValueError "invalid input for query argument $4");
          name ← varchar 255 (i_name i);
          q ← int4 quantity;
          u ← pg_money 10 unit;
          t ← pg_money 12 total;
          by_user ← varchar 100 user;
          key ← varchar_opt 100 request;
          let row := {| ca_id := x_cart d; ca_session := sid; ca_item := id; ca_variant := None; ca_item_name := name;
                        ca_quantity := q; ca_unit_price := u; ca_total_price := t; ca_addons := addons;
                        ca_extras := extras; ca_notes := notes; ca_added_by := by_user; ca_request := key |} in
          Ok (update_session sid (touch (x_now d)) (with_carts (λ l, l ++ [row]) db),
              CartAdded (x_cart d) (i_name i) quantity total)
      end
  end.

(** [seen] is the session, [checked] the database the idempotency check met. *)
Definition add_to_cart (m : menu) (seen : session) (item_id quantity : Z) (variant : option string)
    (addons extras : list addon_in) (notes device request : option string) (checked : dine_db I) (locked : bool)
    (d : dice) (w : hall L I) : hall L I * res reply :=
  let sid := se_id seen in
  match _ensure_session_user sid "qr" None device d (h_db w) with
  | Err e => (w, Err e)
  | Ok (db0, user) =>
      let w0 := on_db (λ _, db0) w in
      match cached_reply request sid checked with
      | Some r => (w0, Ok r)
      | None =>
          if negb locked then (w0, Err LockAcquisitionError)
          else
            match add_txn m sid user item_id quantity variant addons extras notes request d db0 with
            | Err e => (w0, Err e)
            | Ok (db1, r) => (emit (CartChanged sid "item_added") (remember request sid r (on_db (λ _, db1) w)), Ok r)
            end
      end
  end.

(** Without addons in the request the stored ones stay on the row but leave its price. *)
Definition update_txn (sid cart_item : string) (quantity : option Z) (addons extras : list addon_in) (d : dice)
    (db : dine_db I) : res (dine_db I * reply) :=
  match find (λ c, bool_decide (ca_id c = cart_item) && bool_decide (ca_session c = sid)) (carts db) with
  | None => Err (NotFoundError "CartItem")
  | Some c =>
      let quantity' := default (ca_quantity c) quantity in
      if quantity' <=? 0 then
        Ok (update_session sid (touch (x_now d)) (with_carts (filter (λ x, ca_id x ≠ cart_item)) db), CartRemoved cart_item)
      else
        price ← line_price (money_float (ca_unit_price c)) addons extras;
        let total := fmul_int price quantity' in
        q ← int4 quantity';
        t ← pg_money 12 total;
        let keep (new old : list addon_in) := match new with [] => old | _ => new end in
        Ok (update_session sid (touch (x_now d))
              (update_cart cart_item (set_line q t (keep addons (ca_addons c)) (keep extras (ca_extras c))) db),
            CartUpdated cart_item quantity' total)
  end.

Definition update_cart_item (seen : session) (cart_item : string) (quantity : option Z) (addons extras : list addon_in)
    (request : option string) (checked : dine_db I) (locked : bool) (d : dice) (w : hall L I) : hall L I * res reply :=
  let sid := se_id seen in
  match cached_reply request sid checked with
  | Some r => (w, Ok r)
  | None =>
      if negb locked then (w, Err LockAcquisitionError)
      else
        match update_txn sid cart_item quantity addons extras d (h_db w) with
        | Err e => (w, Err e)
        | Ok (db1, r) => (emit (CartChanged sid "cart_updated") (remember request sid r (on_db (λ _, db1) w)), Ok r)
        end
  end.

(** The flag is [DELETE 1]: something was removed. *)
Definition remove_cart_item (seen : session) (cart_item : string) (d : dice) (w : hall L I) : hall L I * res bool :=
  let sid := se_id seen in
  let mine := λ c, bool_decide (ca_id c = cart_item) && bool_decide (ca_session c = sid) in
  (emit (CartChanged sid "item_removed")
     (on_db (λ db, update_session sid (touch (x_now d)) (with_carts (filter (λ c, mine c = false)) db)) w),
   Ok (existsb mine (carts (h_db w)))).

Definition clear_cart (seen : session) (d : dice) (w : hall L I) : hall L I * res () :=
  let sid := se_id seen in
  (emit (CartChanged sid "cart_cleared")
     (on_db (λ db, update_session sid (touch (x_now d)) (with_carts (filter (λ c, ca_session c ≠ sid)) db)) w),
   Ok ()).
End Cart.

(** ** Placing and merging orders *)

(** [subtotal + $1] with a float parameter, into NUMERIC(12,2). *)
Definition pg_money_plus (old : Z) (f : float64) : res Z :=
  let x := exact_decimal f in
  let e := Z.min (-2) (dexp x) in
  let n := rescale ROUND_HALF_UP (-2) (Dec (old * 10 ^ (-2 - e) + coef x * 10 ^ (dexp x - e)) e) in
  if Z.abs n <? 10 ^ 12 then Ok n else Err (DatabaseError "numeric field overflow").

Definition gst_of (m : menu) (c : cart_row) : item_row :=
  match find (λ i, i_id i =? ca_item c) (items m) with
  | Some i => gst_columns i
  | None => {| item_gst_rate := Some None; item_is_tax_inclusive := Some None |}
  end.

Definition cart_item_of (m : menu) (c : cart_row) : cart_item := {|
  ci_item_id := ca_item c; ci_variant_id := ca_variant c; ci_item_name := ca_item_name c;
  ci_quantity := ca_quantity c; ci_unit_price := money_float (ca_unit_price c);
  ci_total_price := money_float (ca_total_price c); ci_addons := ca_addons c; ci_notes := ca_notes c;
  ci_gst_src := gst_of m c; ci_line_total := money_dec (ca_total_price c) |}.

(** The owner as a user, for the columns the order rows share with a checkout. *)
Definition owner_context (s : session) : UserContext := {|
  user_id := se_user s; role := "owner"; restaurant_id := se_restaurant s; branch_id := None; owner_id := None;
  is_branch_user := false |}.
Definition order_draw (order : string) (d : dice) : draw := {|
  d_order := order; d_payment := x_payment d; d_now := x_now d; d_mono := x_mono d; d_stamp := x_stamp d |}.

(** What a diner says when placing the order. *)
Record placing := {
  pl_device : option string;
  pl_notes : option string;
  pl_customer_name : option string;
  pl_customer_phone : option string;
  pl_payment_method : string;
  pl_request : option string;
}.

Definition dine_order (s : session) (q : placing) (table_number : option string) (d : dice) (b : CartTaxBreakdown)
    : res order :=
  c ← read_bill b;
  gst_number ← varchar_opt 20 (ct_gst_number b);
  table_number ← varchar_opt 50 table_number;
  phone ← varchar_opt 20 (pl_customer_phone q);
  Ok {| o_id := x_order d; o_user := se_user s; o_branch := if str_truthy (se_branch s) then se_branch s else None;
        o_restaurant := if str_truthy (se_restaurant s) then se_restaurant s else None; o_customer := None;
        o_source := "qr_table"; o_subtotal := bc_subtotal c; o_tax_amount := bc_tax c; o_cgst_amount := bc_cgst c;
        o_sgst_amount := bc_sgst c; o_gst_number := gst_number; o_discount_amount := 0; o_total_amount := bc_total c;
        o_round_off := bc_round_off c; o_status := Order.status_value Order.QUEUED; o_table_number := table_number;
        o_delivery_address := None; o_delivery_phone := phone; o_coupon := None; o_notes := pl_notes q;
        o_metadata := {| md_payment_method := Some (pl_payment_method q); md_customer_name := pl_customer_name q;
                         md_order_number := None; md_tax := b; md_discount := None; md_device := pl_device q;
                         md_session := Some (se_id s); md_merged := false |};
        o_updated_at := x_now d |}.

Definition set_amounts (subtotal tax cgst sgst total : Z) (now : Z) (o : order) : order := {|
  o_id := o_id o; o_user := o_user o; o_branch := o_branch o; o_restaurant := o_restaurant o;
  o_customer := o_customer o; o_source := o_source o; o_subtotal := subtotal; o_tax_amount := tax;
  o_cgst_amount := cgst; o_sgst_amount := sgst; o_gst_number := o_gst_number o;
  o_discount_amount := o_discount_amount o; o_total_amount := total; o_round_off := o_round_off o;
  o_status := o_status o; o_table_number := o_table_number o; o_delivery_address := o_delivery_address o;
  o_delivery_phone := o_delivery_phone o; o_coupon := o_coupon o; o_notes := o_notes o;
  o_metadata := o_metadata o; o_updated_at := now |}.

(** Appending to an order adds the new lines' bill to the stored amounts. *)
Definition add_bill (b : CartTaxBreakdown) (now : Z) (o : order) : res order :=
  subtotal ← pg_money_plus (o_subtotal o) (of_decimal (ct_subtotal b));
  tax ← pg_money_plus (o_tax_amount o) (of_decimal (ct_total_tax b));
  cgst ← pg_money_plus (o_cgst_amount o) (of_decimal (ct_cgst_amount b));
  sgst ← pg_money_plus (o_sgst_amount o) (of_decimal (ct_sgst_amount b));
  total ← pg_money_plus (o_total_amount o) (of_decimal (ct_grand_total b));
  Ok (set_amounts subtotal tax cgst sgst total now o).

Definition order_number (o : order) : string :=
  str_or (match md_order_number (o_metadata o) with Some n => Some n | None => Some (of_chars (take 8 (chars (o_id o)))) end)
    (of_chars (take 8 (chars (o_id o)))).

Section Placing.
Context {L : Type} {I : Type}.

Definition order_by_id (id : string) (b : order_db I) : option order :=
  find (λ o, bool_decide (o_id o = id)) (orders b).

(** The session's active order, when it can still take items. *)
Definition open_order (s : session) (b : order_db I) : option order :=
  if str_truthy (se_active_order s) then
    match order_by_id (str_or (se_active_order s) "") b with
    | Some o => if str_mem (o_status o) ["Queued"; "Preparing"]%string then Some o else None
    | None => None
    end
  else None.

Definition add_link (l : link) (db : dine_db I) : dine_db I :=
  if existsb (λ x, bool_decide (lk_session x = lk_session l) && bool_decide (lk_order x = lk_order l)) (links db)
  then db else with_links (λ r, r ++ [l]) db.

(** The order of the cart: a new one, linked to the session, or the open one grown.
    [again] is the tax configuration of the second lookup an append makes. *)
Definition book_order (s : session) (q : placing) (table_number : option string) (d : dice)
    (b again : CartTaxBreakdown) (db : dine_db I) : res (dine_db I * string * bool) :=
  match open_order s (book db) with
  | Some o =>
      o' ← add_bill again (x_now d) o;
      Ok (with_book (update_orders (o_id o) (λ _, o') (book db)) db, o_id o, true)
  | None =>
      o ← dine_order s q table_number d b;
      bk ← insert_order o (book db);
      Ok (update_session (se_id s) (set_active_order (x_order d) (x_now d))
            (add_link {| lk_session := se_id s; lk_order := x_order d; lk_role := "owner" |} (with_book bk db)),
          x_order d, false)
  end.

(** The order rows, and one kitchen order with an item per row. *)
Definition book_items (s : session) (order : string) (d : dice) (lines : list (cart_item * option LineTaxResult))
    (db : dine_db I) : res (dine_db I) :=
  rows ← insert_items (owner_context s) (order_draw order d) lines (order_items (book db));
  let new := drop (length (order_items (book db))) rows in
  let bk := {| orders := orders (book db); order_items := rows; payments := payments (book db); claims := claims (book db) |} in
  Ok (with_kitchen
        (λ l, l ++ [{| ko_id := x_kitchen d; ko_order := order; ko_restaurant := se_restaurant s; ko_user := se_user s;
                       ko_branch := se_branch s; ko_status := "queued" |}])
        (λ l, l ++ map (λ r, {| ki_kitchen_order := x_kitchen d; ki_order_item := oi_id r; ki_status := "queued";
                                ki_name := oi_name r; ki_quantity := oi_quantity r |}) new)
        (with_book bk db)).

Definition cart_of (sid : string) (db : dine_db I) : list cart_row := filter (λ c, ca_session c = sid) (carts db).

(** The writes, once the cart is billed. *)
Definition place_writes (s : session) (q : placing) (d : dice) (data : list cart_item) (b again : CartTaxBreakdown)
    (db : dine_db I) : res (dine_db I * reply) :=
  let table := find_table (se_table s) db in
  booked ← book_order s q (option_map (λ t : rtable, tb_number t) table) d b again db;
  let '(db1, order, is_append) := booked in
  db2 ← book_items s order d (attach_tax data (ct_lines b)) db1;
  let db3 := match table with
             | Some t => update_table (tb_id t) (serve_order order) db2
             | None => db2
             end in
  let number := match order_by_id order (book db3) with
                | Some o => order_number o
                | None => of_chars (take 8 (chars order))
                end in
  Ok (with_carts (filter (λ c, ca_session c ≠ se_id s)) db3,
      OrderPlaced order number (x_kitchen d) (of_decimal (ct_grand_total b)) is_append (Z.of_nat (length data))).

Definition place_txn (m : menu) (s : session) (q : placing) (d : dice) (cache : config_cache) (db : dine_db I)
    : config_cache * res (dine_db I * reply) :=
  let cart := cart_of (se_id s) db in
  if bool_decide (cart = []) then (cache, Err (ValidationError "Cart is empty"))
  else
    let data := map (cart_item_of m) cart in
    match get_tax_config (λ id, settings m id) (se_restaurant s) (x_mono d) cache with
    | Err e => (cache, Err e)
    | Ok (cfg, cache1) =>
        match compute_cart_tax (tax_lines cfg data) (PDec d_zero) cfg false with
        | Err e => (cache1, Err e)
        | Ok b =>
            let second := match open_order s (book db) with
                          | Some _ => get_tax_config (λ id, settings m id) (se_restaurant s) (x_mono d) cache1
                          | None => Ok (cfg, cache1)
                          end in
            match second with
            | Err e => (cache1, Err e)
            | Ok (cfg2, cache2) =>
                (cache2, again ← compute_cart_tax (tax_lines cfg2 data) (PDec d_zero) cfg2 false;
                         place_writes s q d data b again db)
            end
        end
    end.

Definition sessions_of_order (order : string) (db : dine_db I) : list string :=
  map lk_session (filter (λ l, lk_order l = order) (links db)).

Definition _invalidate_bill_cache (sid : string) (w : hall L I) : hall L I := {|
  h_db := h_db w; h_cache := h_cache w; h_bills := delete sid (h_bills w); h_ledger := h_ledger w;
  h_events := h_events w |}.

Definition with_cache (cache : config_cache) (w : hall L I) : hall L I := {|
  h_db := h_db w; h_cache := cache; h_bills := h_bills w; h_ledger := h_ledger w; h_events := h_events w |}.

Definition placed_events (sid : string) (r : reply) (w : hall L I) : hall L I :=
  match r with
  | OrderPlaced order number kitchen total is_append n =>
      emit (KitchenOrderCreated kitchen order sid n)
        (emit (TableOrderPlaced order number sid total is_append (sessions_of_order order (h_db w))) w)
  | _ => w
  end.

Definition place_order (m : menu) (seen : session) (q : placing) (checked : dine_db I) (locked : bool) (d : dice)
    (w : hall L I) : hall L I * res reply :=
  let sid := se_id seen in
  match cached_reply (pl_request q) sid checked with
  | Some r => (w, Ok r)
  | None =>
      if negb locked then (w, Err LockAcquisitionError)
      else
        match place_txn m seen q d (h_cache w) (h_db w) with
        | (cache, Err e) => (with_cache cache w, Err e)
        | (cache, Ok (db1, r)) =>
            let w1 := remember (pl_request q) sid r (on_db (λ _, db1) (with_cache cache w)) in
            (_invalidate_bill_cache sid (placed_events sid r w1), Ok r)
        end
  end.

(** The totals of a merged order, from the snapshot of its rows. *)
Definition merged_amounts (rows : list order_item) : res (Z * Z * Z * Z * Z) :=
  let sum f := money_dec (zsum (map f rows)) in
  let on_top := money_dec (zsum (map (λ r, if bool_decide (oi_gst_inclusive r = Some false) then oi_cgst r + oi_sgst r else 0) rows)) in
  subtotal ← pg_money 12 (of_decimal (sum oi_total_price));
  tax ← pg_money 12 (of_decimal (dadd (sum oi_cgst) (sum oi_sgst)));
  cgst ← pg_money 12 (of_decimal (sum oi_cgst));
  sgst ← pg_money 12 (of_decimal (sum oi_sgst));
  total ← pg_money 12 (of_decimal (dadd (sum oi_total_price) on_top));
  Ok (subtotal, tax, cgst, sgst, total).

Definition move_item (from to : string) (r : order_item) : order_item :=
  if bool_decide (oi_order r = from)
  then {| oi_id := oi_id r; oi_order := to; oi_item := oi_item r; oi_variant := oi_variant r; oi_name := oi_name r;
          oi_quantity := oi_quantity r; oi_unit_price := oi_unit_price r; oi_total_price := oi_total_price r;
          oi_addons := oi_addons r; oi_notes := oi_notes r; oi_user := oi_user r; oi_gst_enabled := oi_gst_enabled r;
          oi_gst_inclusive := oi_gst_inclusive r; oi_gst_rate := oi_gst_rate r; oi_taxable := oi_taxable r;
          oi_cgst := oi_cgst r; oi_sgst := oi_sgst r |}
  else r.

Definition mark_merged (o : order) : order :=
  let md := o_metadata o in
  {| o_id := o_id o; o_user := o_user o; o_branch := o_branch o; o_restaurant := o_restaurant o;
     o_customer := o_customer o; o_source := o_source o; o_subtotal := o_subtotal o; o_tax_amount := o_tax_amount o;
     o_cgst_amount := o_cgst_amount o; o_sgst_amount := o_sgst_amount o; o_gst_number := o_gst_number o;
     o_discount_amount := o_discount_amount o; o_total_amount := o_total_amount o; o_round_off := o_round_off o;
     o_status := o_status o; o_table_number := o_table_number o; o_delivery_address := o_delivery_address o;
     o_delivery_phone := o_delivery_phone o; o_coupon := o_coupon o; o_notes := o_notes o;
     o_metadata := {| md_payment_method := md_payment_method md; md_customer_name := md_customer_name md;
                      md_order_number := md_order_number md; md_tax := md_tax md; md_discount := md_discount md;
                      md_device := md_device md; md_session := md_session md; md_merged := true |};
     o_updated_at := o_updated_at o |}.

(** Moving the rows of order [from] into order [to] and cancelling [from]. *)
Definition merge_orders (from to : string) (d : dice) (db : dine_db I) : res (dine_db I) :=
  let terminal o := match order_by_id o (book db) with
                    | Some x => str_mem (o_status x) ["Cancelled"; "Rejected"; "Served"; "Delivered"]%string
                    | None => false
                    end in
  _ ← raise_if (terminal from) (ConflictError "Cannot merge: source order is ");
  _ ← raise_if (terminal to) (ConflictError "Cannot merge: target order is ");
  let rows := map (move_item from to) (order_items (book db)) in
  amounts ← merged_amounts (filter (λ r, oi_order r = to) rows);
  let '(subtotal, tax, cgst, sgst, total) := amounts in
  let bk := {| orders := orders (book db); order_items := rows; payments := payments (book db); claims := claims (book db) |} in
  let bk := update_orders to (λ o, mark_merged (set_amounts subtotal tax cgst sgst total (x_now d) o)) bk in
  let bk := update_orders from (λ o, set_status (Order.status_value Order.CANCELLED) (x_now d)
                                       (set_notes (Some ("Merged into " ++ to)%string) (x_now d) o)) bk in
  Ok (with_kitchen (map (λ k, if bool_decide (ko_order k = from)
                              then {| ko_id := ko_id k; ko_order := to; ko_restaurant := ko_restaurant k;
                                      ko_user := ko_user k; ko_branch := ko_branch k; ko_status := ko_status k |}
                              else k)) (λ l, l) (with_book bk db)).

(** Whether [session_orders] has the unique index on session and order that the
    ON CONFLICT clauses of a merge name; no migration creates it. *)
Variable linked_once : bool.

Definition link_upsert (l : link) (replace : bool) (db : dine_db I) : res (dine_db I) :=
  let same x := bool_decide (lk_session x = lk_session l) && bool_decide (lk_order x = lk_order l) in
  _ ← raise_if (negb linked_once) (DatabaseError "no unique constraint matching the ON CONFLICT specification");
  Ok (if existsb same (links db)
      then if replace then with_links (map (λ x, if same x then l else x)) db else db
      else with_links (λ r, r ++ [l]) db).

Definition move_cart (from to : string) (c : cart_row) : cart_row :=
  if bool_decide (ca_session c = from)
  then {| ca_id := ca_id c; ca_session := to; ca_item := ca_item c; ca_variant := ca_variant c;
          ca_item_name := ca_item_name c; ca_quantity := ca_quantity c; ca_unit_price := ca_unit_price c;
          ca_total_price := ca_total_price c; ca_addons := ca_addons c; ca_extras := ca_extras c;
          ca_notes := ca_notes c; ca_added_by := ca_added_by c; ca_request := ca_request c |}
  else c.

Definition merge_txn (source target : session) (d : dice) (db : dine_db I) : res (dine_db I * string) :=
  start ← match se_active_order target, se_active_order source with
          | Some o, _ => Ok (db, o)
          | None, Some o => Ok (update_session (se_id target) (set_active_order o (x_now d)) db, o)
          | None, None => Err (ValidationError "Neither session has an active order to merge")
          end;
  let '(db1, order) := start in
  db2 ← match se_active_order source with
        | Some o => if bool_decide (o = order) then Ok db1 else merge_orders o order d db1
        | None => Ok db1
        end;
  let db3 := with_carts (map (move_cart (se_id source) (se_id target))) db2 in
  db4 ← link_upsert {| lk_session := se_id source; lk_order := order; lk_role := "linked" |} true db3;
  db5 ← link_upsert {| lk_session := se_id target; lk_order := order; lk_role := "owner" |} false db4;
  Ok (update_session (se_id source) (merge_into (se_id target) order (x_now d)) db5, order).

Definition merge_sessions (source target : session) (locked : bool) (d : dice) (w : hall L I)
    : hall L I * res string :=
  if bool_decide (se_id source = se_id target) then (w, Err (ValidationError "Cannot merge session with itself"))
  else if negb (bool_decide (se_table source = se_table target))
  then (w, Err (ValidationError "Sessions must be on the same table to merge"))
  else if str_truthy (se_merged_into source) then (w, Err (ConflictError "Source session is already merged"))
  else if str_truthy (se_merged_into target)
  then (w, Err (ConflictError "Target session is already merged into another session"))
  else if negb locked then (w, Err LockAcquisitionError)
  else
    match merge_txn source target d (h_db w) with
    | Err e => (w, Err e)
    | Ok (db1, order) => (emit (SessionMerged (se_id source) (se_id target) order) (on_db (λ _, db1) w), Ok order)
    end.
End Placing.
