(* ===== verification/TableBilling.v ===== *)
(** The bill of a dine-in session and its payments: the second half of
    [src/app/services/dinein_session_service.py].

    [get_session_bill] sums the linked orders, writes the totals back and caches the
    bill for three seconds; [split_bill] proposes shares of it; staff record payments,
    the gateway's webhook settles captured ones, and a session without a balance is
    closed and its table freed.  Reading the bill and closing the session are two
    transactions, so [vacate_session] is an operation of its own.  The gateway, the
    restaurant's plan and its static QR are arguments; the item listings of the bill are
    left out. *)

From Stdlib Require Import ZArith Lia Ascii String.
From S2P Require Import Prelude PyDecimal PyFloat PyValues TaxEngine StateMachines FeePolicy MerchantLedger RazorpayLedgers Orders DineIn.
Open Scope Z_scope.

(** ** The bill *)

(** [Decimal(str(x or 0))] of a money column. *)
Definition column_dec (n : Z) : decimal := if n =? 0 then d_zero else money_dec n.

(** [GROUP BY item_id, item_name]: the totals of the groups. *)
Definition cart_groups (l : list cart_row) : list Z :=
  let key c := (ca_item c, ca_item_name c) in
  map (λ k, zsum (map ca_total_price (filter (λ c, key c = k) l))) (remove_dups (map key l)).

Record share := { sh_label : string; sh_amount : float64; sh_user : option string }.
Record split_row := { sp_label : option string; sp_amount : pyval; sp_user : option string }.

(** Equal shares to the paisa, the first one taking the difference. *)
Definition equal_shares (labels : list (string * option string)) (grand : decimal) : res (list share) :=
  let n := d_int (Z.of_nat (length labels)) in
  x ← ddiv grand n;
  per ← quantize ROUND_HALF_EVEN (-2) x;
  let delta := dsub grand (dmul per n) in
  let share_of amount l := {| sh_label := l.1; sh_amount := amount; sh_user := l.2 |} in
  Ok (match labels with
      | l :: ls =>
          share_of (if coef delta =? 0 then of_decimal per else of_decimal (dadd (repr_decimal (of_decimal per)) delta)) l
          :: map (share_of (of_decimal per)) ls
      | [] => []
      end).

(** The positive amounts of a request, with a label for the unnamed ones. *)
Fixpoint given_shares (prefix : string) (idx : Z) (rows : list split_row) (total : decimal) (acc : list share)
    : res (decimal * list share) :=
  match rows with
  | [] => Ok (total, acc)
  | r :: rows' =>
      amount ← decimal_or_zero (sp_amount r);
      if negb (dpos amount) then given_shares prefix (idx + 1) rows' total acc
      else given_shares prefix (idx + 1) rows' (dadd total amount)
             (acc ++ [{| sh_label := str_or (sp_label r) (prefix ++ int_text (idx + 1)); sh_amount := of_decimal amount;
                         sh_user := sp_user r |}])
  end.

Definition custom_shares (prefix none_given too_much : string) (rows : list split_row) (grand : decimal) : res (list share) :=
  r ← given_shares prefix 0 rows d_zero [];
  _ ← raise_if (negb (dpos r.1)) (ValidationError none_given);
  _ ← raise_if (dltb grand r.1) (ValidationError too_much);
  Ok (if dltb r.1 grand
      then r.2 ++ [{| sh_label := "unallocated"; sh_amount := of_decimal (dsub grand r.1); sh_user := None |}]
      else r.2).

Definition _PM_ALIASES : list (string * string) :=
  [("cash", "cash"); ("counter", "cash"); ("cod", "cash"); ("upi", "upi"); ("qr_pay", "upi"); ("qr", "upi");
   ("qr_code", "upi"); ("card", "card"); ("swipe", "card"); ("credit", "card"); ("debit", "card");
   ("wallet", "wallet"); ("online", "online"); ("razorpay", "online"); ("gateway", "online");
   ("netbanking", "online")]%string.
Definition method_alias (method : string) : string :=
  default "cash"%string (snd <$> find (λ p, bool_decide (p.1 = norm (Some method))) _PM_ALIASES).

(** [PLAN_CATALOG[plan]["payments"]] of [subscription_service.py]; the default plan is
    "growth". *)
Definition own_upi_plan (plan : option string) : bool := str_mem (str_or plan "growth") ["starter"; "business"]%string.

Section Billing.
Context {L : Type} `{LedgerApi L} {I : Type}.

Definition orders_of (sid : string) (db : dine_db I) : list order :=
  omap (λ l, order_by_id (lk_order l) (book db)) (filter (λ l, lk_session l = sid) (links db)).
Definition receipts_of (sid : string) (db : dine_db I) : list receipt := filter (λ r, rc_session r = sid) (receipts db).

(** What the SQL of the two payment paths sums. *)
Definition grand_total (sid : string) (db : dine_db I) : Z := zsum (map o_total_amount (orders_of sid db)).
Definition paid_total (sid : string) (db : dine_db I) : Z := zsum (map rc_amount (receipts_of sid db)).

(** The latest order linked to a session. *)
Definition last_order (sid : string) (db : dine_db I) : option order :=
  last (filter (λ o, o_id o ∈ map lk_order (filter (λ l, lk_session l = sid) (links db))) (orders (book db))).

Definition write_totals (sid : string) (grand paid remaining : decimal) (db : dine_db I) : res (dine_db I) :=
  g ← pg_money 12 (of_decimal grand);
  p ← pg_money 12 (of_decimal paid);
  r ← pg_money 12 (of_decimal remaining);
  Ok (update_session sid (set_totals {| to_total := g; to_paid := p; to_remaining := r |}) db).

Definition clamp_zero (d : decimal) : decimal := if dltb d d_zero then d_zero else d.

Definition bill_order_of (o : order) : bill_order := {|
  bo_order := o_id o; bo_number := default (of_chars (take 8 (chars (o_id o)))) (md_order_number (o_metadata o));
  bo_status := o_status o; bo_subtotal := money_float (o_subtotal o); bo_tax := money_float (o_tax_amount o);
  bo_discount := money_float (o_discount_amount o); bo_total := money_float (o_total_amount o) |}.

(** The bill as the tables have it, with the totals written back. *)
Definition read_session_bill (sid : string) (db : dine_db I) : res (dine_db I * session_bill) :=
  match find_session sid db with
  | None => Err (NotFoundError "Session")
  | Some s =>
      let os := orders_of sid db in
      let rs := receipts_of sid db in
      let sum f := dsum (map (λ o, column_dec (f o)) os) in
      let from_cart := dsum (map column_dec (cart_groups (cart_of sid db))) in
      let none := bool_decide (os = []) in
      let subtotal := if none then from_cart else sum o_subtotal in
      let grand := if none then from_cart else sum o_total_amount in
      let paid := dsum (map (λ r, column_dec (rc_amount r)) rs) in
      let remaining := clamp_zero (dsub grand paid) in
      db' ← write_totals sid grand paid remaining db;
      Ok (db', {| bi_status := se_status s; bi_orders := map bill_order_of os; bi_subtotal := of_decimal subtotal;
                  bi_tax := if none then f_zero else of_decimal (sum o_tax_amount);
                  bi_discount := if none then f_zero else of_decimal (sum o_discount_amount);
                  bi_grand_total := of_decimal grand; bi_paid_total := of_decimal paid;
                  bi_remaining := of_decimal remaining; bi_payments := rs |})
  end.

Definition get_session_bill (sid : string) (now : Z) (w : hall L I) : hall L I * res session_bill :=
  let fresh :=
    match read_session_bill sid (h_db w) with
    | Err e => (w, Err e)
    | Ok (db, b) =>
        ({| h_db := db; h_cache := h_cache w;
            h_bills := <[sid := (b, now + BILL_CACHE_TTL_SECONDS * 10 ^ 6)]> (h_bills w);
            h_ledger := h_ledger w; h_events := h_events w |}, Ok b)
    end in
  match h_bills w !! sid with
  | Some (b, expiry) => if now <? expiry then (w, Ok b) else fresh
  | None => fresh
  end.

Definition active_participants (sid : string) (db : dine_db I) : list (string * option string) :=
  map (λ u, (default ("guest_" ++ of_chars (take 6 (chars (su_id u))))%string (su_name u), Some (su_id u)))
    (filter (λ u, su_session u = sid ∧ su_active u = true) (users db)).

Definition part_labels (parts : Z) : list (string * option string) :=
  map (λ k, (("part_" ++ int_text (Z.of_nat k))%string, None)) (seq 1 (Z.to_nat parts)).

(** Splitting proposes amounts; it writes nothing but what reading the bill writes. *)
Definition split_shares (split_type : string) (parts : Z) (item_splits user_splits : list split_row)
    (participants : list (string * option string)) (grand : decimal) : res (list share) :=
  _ ← raise_if (negb (dpos grand)) (ValidationError "Session has no payable amount");
  if bool_decide (lower split_type = "equal"%string) then
    _ ← raise_if (parts <=? 0) (ValidationError "parts must be greater than 0");
    equal_shares (part_labels parts) grand
  else if bool_decide (lower split_type = "by_item"%string) then
    _ ← raise_if (bool_decide (item_splits = [])) (ValidationError "item_splits required for by_item");
    custom_shares "item_group_" "At least one positive item split amount is required"
      "Item split total cannot exceed grand total" item_splits grand
  else if bool_decide (lower split_type = "by_user"%string) then
    match user_splits with
    | [] =>
        _ ← raise_if (bool_decide (participants = [])) (ValidationError "No active session users found");
        equal_shares participants grand
    | _ =>
        custom_shares "user_" "At least one positive user split amount is required"
          "User split total cannot exceed grand total" user_splits grand
    end
  else Err (ValidationError "split_type must be one of: equal, by_item, by_user").

Definition split_bill (sid split_type : string) (parts : Z) (item_splits user_splits : list split_row) (now : Z)
    (w : hall L I) : hall L I * res (list share) :=
  let '(w1, bill) := get_session_bill sid now w in
  (w1, b ← bill;
       split_shares split_type parts item_splits user_splits (active_participants sid (h_db w1))
         (repr_decimal (bi_grand_total b))).

(** ** Closing a paid session *)

Definition end_paid (now : Z) (s : session) : session := set_active_users 0 (touch now (end_with "closed" now s)).

Definition deactivate (u : participant) : participant := {|
  su_id := su_id u; su_session := su_session u; su_type := su_type u; su_name := su_name u;
  su_device := su_device u; su_joined_at := su_joined_at u; su_active := false |}.

(** The transaction that closes the session and frees its table. *)
Definition vacate_session (sid : string) (closed_by : option string) (now : Z) (w : hall L I) : hall L I * res string :=
  match find_session sid (h_db w) with
  | None => (w, Err (NotFoundError "Session"))
  | Some s =>
      if negb (is_active s)
      then (emit (TableStatusChanged (se_table s) sid false "already_vacated") w, Ok (se_status s))
      else
        let close db := update_table (se_table s) (vacate "available")
          (with_users (map (λ u, if bool_decide (su_session u = sid) then deactivate u else u))
             (update_session sid (end_paid now) db)) in
        (emit (TableStatusChanged (se_table s) sid false "paid_and_vacated")
           (emit (SessionClosed sid (se_table s) closed_by) (on_db close w)), Ok "closed"%string)
  end.

Definition paid_and_vacate (sid : string) (closed_by : option string) (force : bool) (now : Z) (w : hall L I)
    : hall L I * res string :=
  let '(w1, bill) := get_session_bill sid now w in
  match bill with
  | Err e => (w1, Err e)
  | Ok b =>
      if dpos (repr_decimal (bi_remaining b)) && negb force
      then (w1, Err (ValidationError "Cannot close session with unpaid amount: "))
      else vacate_session sid closed_by now w1
  end.

(** ** Payments *)

(** Does an error come from a statement, which leaves its transaction aborted? *)
Definition sql_error (e : exn) : bool :=
  match e with DatabaseError _ | UniqueViolationError _ => true | _ => false end.

Definition insert_receipt (r : receipt) (amount : decimal) (db : dine_db I) : res (dine_db I) :=
  n ← pg_money 12 (of_decimal amount);
  _ ← raise_if (n <=? 0) (DatabaseError "table_session_payments_amount_check");
  method ← varchar 50 (rc_method r);
  ref ← varchar_opt 120 (rc_transaction_ref r);
  paid_by ← varchar_opt 120 (rc_paid_by r);
  Ok (with_receipts (λ l, l ++ [{| rc_id := rc_id r; rc_session := rc_session r; rc_amount := n; rc_method := method;
                                   rc_transaction_ref := ref; rc_paid_by := paid_by; rc_notes := rc_notes r;
                                   rc_created_by := rc_created_by r |}]) db).

(** What the deployed payments table accepts, as in Orders. *)
Variable accepts_payment : payment → bool.

(** The row of the payments table, attached to the latest order of the session. *)
Definition mirror_payment (s : session) (method : string) (amount : decimal) (d : dice) (db : dine_db I)
    : res (dine_db I * option string) :=
  match last_order (se_id s) db with
  | None => Ok (db, None)
  | Some o =>
      n ← pg_money 12 (of_decimal amount);
      bk ← insert_payment accepts_payment
        {| py_id := x_payment d; py_order := o_id o;
           py_restaurant := if str_truthy (o_restaurant o) then o_restaurant o else se_restaurant s; py_user := o_user o;
           py_branch := if str_truthy (o_branch o) then o_branch o else se_branch s; py_method := method_alias method;
           py_status := "completed"; py_amount := n; py_paid_at := Some (x_now d) |} (book db);
      Ok (with_book bk db, Some (x_payment d))
  end.

Record pay_in := {
  pi_amount : pyval;
  pi_method : string;
  pi_created_by : option string;
  pi_transaction_ref : option string;
  pi_paid_by : option string;
  pi_notes : option string;
}.

Definition table_capture (s : session) (p : pay_in) (payment : string) : capture := {|
  cap_merchant := se_restaurant s; cap_payment := payment; cap_order := None; cap_branch := se_branch s;
  cap_bank_reference := None; cap_razorpay_payment := None; cap_created_by := pi_created_by p |}.

(** The guards: the amount, the session, and what is left to pay. *)
Definition pay_check (sid : string) (p : pay_in) (db : dine_db I) : res (session * decimal * decimal) :=
  amt ← decimal_or_zero (pi_amount p);
  _ ← raise_if (negb (dpos amt)) (ValidationError "Payment amount must be greater than zero");
  match find_session sid db with
  | None => Err (NotFoundError "Session")
  | Some s =>
      _ ← raise_if (negb (is_active s)) (ValidationError "Payments are only allowed for active sessions");
      let remaining := clamp_zero (dsub (money_dec (grand_total sid db)) (money_dec (paid_total sid db))) in
      _ ← raise_if (negb (dpos remaining)) (ValidationError "Session is already fully paid");
      _ ← raise_if (dltb remaining amt) (ValidationError "Payment exceeds remaining amount (");
      Ok (s, amt, remaining)
  end.

(** The writes of the transaction; a failed mirror aborts it, and the UPDATE fails. *)
Definition pay_writes (sid : string) (p : pay_in) (s : session) (amt remaining : decimal) (d : dice) (db : dine_db I)
    : res (dine_db I * option string) :=
  let paid := money_dec (paid_total sid db) in
  let grand := money_dec (grand_total sid db) in
  db1 ← insert_receipt {| rc_id := x_receipt d; rc_session := sid; rc_amount := 0; rc_method := pi_method p;
           rc_transaction_ref := pi_transaction_ref p; rc_paid_by := pi_paid_by p; rc_notes := pi_notes p;
           rc_created_by := pi_created_by p |} amt db;
  m ← match mirror_payment s (pi_method p) amt d db1 with
      | Ok x => Ok x
      | Err _ => Err (DatabaseError "current transaction is aborted")
      end;
  db2 ← write_totals sid grand (dadd paid amt) (clamp_zero (dsub remaining amt)) m.1;
  Ok (db2, m.2).

(** The ledger posting shares the transaction and logs its errors: when a statement of
    it failed, the commit that follows is a rollback and nobody is told. *)
Definition pay_txn (sid : string) (p : pay_in) (s : session) (amt remaining : decimal) (d : dice) (w : hall L I)
    : res (hall L I) :=
  r ← pay_writes sid p s amt remaining d (h_db w);
  let done l := {| h_db := r.1; h_cache := h_cache w; h_bills := h_bills w; h_ledger := l; h_events := h_events w |} in
  let extra := [("source", "dine_in"); ("session_id", sid)]%string ++ opt_meta "transaction_ref" (pi_transaction_ref p)
                 ++ opt_meta "paid_by" (pi_paid_by p) in
  Ok (match post_payment_received (x_stamp d) (table_capture s p (default (x_receipt d) r.2)) (PDec amt)
              (Some (pi_method p)) extra true (h_ledger w) with
      | Ok l => done l
      | Err e => if sql_error e then w else done (h_ledger w)
      end).

Record paid_reply := { pr_payment : string; pr_amount : float64; pr_remaining : float64 }.

Definition record_session_payment (sid : string) (p : pay_in) (d : dice) (w : hall L I) : hall L I * res paid_reply :=
  match pay_check sid p (h_db w) with
  | Err e => (w, Err e)
  | Ok (s, amt, remaining) =>
      match pay_txn sid p s amt remaining d w with
      | Err e => (w, Err e)
      | Ok w1 =>
          let due := clamp_zero (dsub remaining amt) in
          let w2 := _invalidate_bill_cache sid w1 in
          let '(w3, closed) := if negb (dpos due) then paid_and_vacate sid (pi_created_by p) false (x_now d) w2
                               else (w2, Ok ""%string) in
          match closed with
          | Err e => (w3, Err e)
          | Ok _ =>
              (emit (BillUpdated sid (Some (x_receipt d)) (pi_method p) (of_decimal amt) (of_decimal due)) w3,
               Ok {| pr_payment := x_receipt d; pr_amount := of_decimal amt; pr_remaining := of_decimal due |})
          end
      end
  end.

Inductive settle_reply :=
  | NoSession | AlreadyRecorded (session : string) | AlreadyPaid (session : string) | ZeroAmount (session : string)
  | Settled (session : string) (remaining : float64).

(** The transaction of a captured gateway payment: recorded once per reference, up to
    what is left to pay. *)
Definition settle_txn (order : string) (amount : pyval) (ref : option string) (method : string) (d : dice) (db : dine_db I)
    : res (dine_db I * settle_reply * option (string * decimal * decimal)) :=
  match find (λ l, bool_decide (lk_order l = order)) (links db) with
  | None => Ok (db, NoSession, None)
  | Some l =>
      let sid := lk_session l in
      match find_session sid db with
      | None => Ok (db, NoSession, None)
      | Some s =>
          if str_truthy ref && existsb (λ r, bool_decide (rc_transaction_ref r = ref)) (receipts_of sid db)
          then Ok (db, AlreadyRecorded sid, None)
          else
            let grand := money_dec (grand_total sid db) in
            let paid := money_dec (paid_total sid db) in
            let remaining := dsub grand paid in
            if negb (dpos remaining) then Ok (db, AlreadyPaid sid, None)
            else
              amt ← decimal_or_zero amount;
              if negb (dpos amt) then Ok (db, ZeroAmount sid, None)
              else
                let amt := if dltb remaining amt then remaining else amt in
                let due := clamp_zero (dsub remaining amt) in
                db1 ← insert_receipt {| rc_id := x_receipt d; rc_session := sid; rc_amount := 0; rc_method := method;
                         rc_transaction_ref := ref; rc_paid_by := Some "customer"%string;
                         rc_notes := Some "razorpay_webhook"%string; rc_created_by := None |} amt db;
                db2 ← write_totals sid grand (dadd paid amt) due db1;
                Ok (db2, Settled sid (of_decimal due), Some (sid, amt, due))
      end
  end.

Definition settle_session_from_gateway (order : string) (amount : pyval) (ref : option string) (method : string)
    (d : dice) (w : hall L I) : hall L I * res settle_reply :=
  match settle_txn order amount ref method d (h_db w) with
  | Err e => (w, Err e)
  | Ok (db, r, None) => (on_db (λ _, db) w, Ok r)
  | Ok (db, r, Some (sid, amt, due)) =>
      let w1 := _invalidate_bill_cache sid (on_db (λ _, db) w) in
      let w2 := if negb (dpos due) then (paid_and_vacate sid None false (x_now d) w1).1 else w1 in
      (emit (BillUpdated sid ref method (of_decimal amt) (of_decimal due)) w2, Ok r)
  end.

(** The payment a guest is sent to: an online payment row and a gateway intent for the
    integrated plans, the merchant's own UPI code otherwise. *)
Record intent_reply := { in_order : string; in_payment : option string; in_amount : float64; in_paise : Z }.

Definition online_payment (order : string) (restaurant : option string) (db : dine_db I) : option payment :=
  last (filter (λ p, py_order p = order ∧ py_restaurant p = restaurant ∧ py_method p = "online"%string) (payments (book db))).

Definition pending_payment (s : session) (order : string) (amount : decimal) (d : dice) (db : dine_db I)
    : res (dine_db I * string) :=
  match online_payment order (se_restaurant s) db with
  | Some p => Ok (db, py_id p)
  | None =>
      n ← pg_money 12 (of_decimal amount);
      bk ← insert_payment accepts_payment
        {| py_id := x_payment d; py_order := order; py_restaurant := se_restaurant s; py_user := se_user s;
           py_branch := se_branch s; py_method := "online"; py_status := "pending"; py_amount := n;
           py_paid_at := None |} (book db);
      Ok (with_book bk db, x_payment d)
  end.

Context {G P : Type}.
Variable create_intent_for_order : intent_request → G → G * res P.
Variable client_amount : P → Z.

Definition intent_for (s : session) (order payment : string) (number customer_name customer_phone : option string)
    (amount : decimal) : intent_request := {|
  ir_merchant := se_restaurant s; ir_branch := se_branch s; ir_order := order; ir_payment := payment;
  ir_amount := amount; ir_receipt := default ""%string number; ir_customer_name := customer_name;
  ir_customer_phone := customer_phone; ir_customer_id := None; ir_created_by := ""; ir_owner := Some (se_user s) |}.

(** [plan] is the restaurant's plan, [static_qr] says whether it has a UPI code. *)
Definition create_payment_intent (seen : session) (customer_name customer_phone plan : option string)
    (static_qr : bool) (d : dice) (g : G) (w : hall L I) : hall L I * G * res intent_reply :=
  let sid := se_id seen in
  let '(w1, bill) := get_session_bill sid (x_now d) w in
  match (b ← bill;
         let remaining := repr_decimal (bi_remaining b) in
         _ ← raise_if (negb (dpos remaining)) (ValidationError "This session has nothing left to pay");
         order ← (if str_truthy (se_active_order seen) then Ok (str_or (se_active_order seen) "")
                  else match last_order sid (h_db w1) with
                       | Some o => Ok (o_id o)
                       | None => Err (ValidationError "Place an order before paying")
                       end);
         paise ← quantize ROUND_HALF_UP 0 (dmul remaining (d_int 100));
         Ok (remaining, order, coef paise)) with
  | Err e => (w1, g, Err e)
  | Ok (remaining, order, paise) =>
      let number := (λ o, default (of_chars (take 8 (chars (o_id o)))) (md_order_number (o_metadata o)))
                      <$> order_by_id order (book (h_db w1)) in
      if own_upi_plan (if str_truthy (se_restaurant seen) then plan else None) then
        (w1, g,
         _ ← raise_if (negb (str_truthy (se_restaurant seen))) (ValidationError "Session is not linked to a restaurant");
         _ ← raise_if (negb static_qr) (ValidationError "This restaurant has not set up its UPI payment QR yet");
         Ok {| in_order := order; in_payment := None; in_amount := of_decimal remaining; in_paise := paise |})
      else if negb (str_truthy (se_restaurant seen)) then (w1, g, Err (ValidationError "Session is not linked to a restaurant"))
      else
        match pending_payment seen order remaining d (h_db w1) with
        | Err e => (w1, g, Err e)
        | Ok (db, payment) =>
            let '(g', intent) := create_intent_for_order
              (intent_for seen order payment number customer_name customer_phone remaining) g in
            (on_db (λ _, db) w1, g',
             client ← intent;
             Ok {| in_order := order; in_payment := Some payment; in_amount := of_decimal remaining;
                   in_paise := if client_amount client =? 0 then paise else client_amount client |})
        end
  end.

Record payment_status := { ps_status : string; ps_grand_total : float64; ps_paid : float64; ps_remaining : float64; ps_is_paid : bool }.

(** The guest's poll, by token whatever the session's status. *)
Definition get_payment_status (token : string) (now : Z) (w : hall L I) : hall L I * res payment_status :=
  match session_of_token token (h_db w) with
  | None => (w, Err (NotFoundError "Session"))
  | Some s =>
      let '(w1, bill) := get_session_bill (se_id s) now w in
      (w1, b ← bill;
           Ok {| ps_status := bi_status b; ps_grand_total := bi_grand_total b; ps_paid := bi_paid_total b;
                 ps_remaining := bi_remaining b;
                 ps_is_paid := (0 <? fmant (bi_grand_total b)) && (fmant (bi_remaining b) <=? 0) |})
  end.
End Billing.
