(* ===== verification/DineInAccess.v ===== *)
(** Who sits where: what every sequence of calls of the dine-in service keeps true of
    sessions, tables and the devices that hold a session's token.

    [dine_call] is one call of the service, labelled with what the theorems need of its
    request and reply.  Its transaction runs in the first state; the session row it was
    given is any row the state still has, perhaps older ([opened]).  [calm] says of a
    change of the tables that sessions only end and no device is registered; every
    operation but scanning, joining and adding to the cart is calm. *)

From Stdlib Require Import ZArith Lia String.
From S2P Require Import Prelude PyDecimal PyFloat PyValues TaxEngine StateMachines FeePolicy MerchantLedger RazorpayLedgers Orders DineIn TableBilling.
Open Scope Z_scope.

(** ** What may happen to a session *)

Definition final_statuses : list string := ["expired"; "completed"; "cancelled"; "closed"]%string.

(** A later version of a session: as it was opened, and perhaps ended. *)
Record ages (s s' : session) : Prop := {
  ag_opening : se_opening s' = se_opening s;
  ag_status : se_status s' = se_status s ∨ is_active s = true ∧ se_status s' ∈ final_statuses;
}.

Lemma final_inactive s : se_status s ∈ final_statuses → is_active s = false.
Proof. intros H. apply bool_decide_eq_false. intros E. rewrite E in H. set_solver. Qed.

#[export] Instance ages_preorder : PreOrder ages.
Proof.
  split; [by split; [|left]|]. intros a b c [O1 S1] [O2 S2]. split; [congruence|].
  destruct S1 as [S1|[A1 S1]], S2 as [S2|[A2 S2]].
  - left. congruence.
  - right. split; [|done]. unfold is_active in *. by rewrite <-S1.
  - right. split; [done|]. by rewrite S2.
  - rewrite (final_inactive _ S1) in A2. done.
Qed.

Section Calm.
Context {I : Type}.
Implicit Types db : dine_db I.

Definition registered (sid device : string) db : Prop := ∃ u, u ∈ users db ∧ session_device sid device u = true.

Record calm db db' : Prop := {
  cm_sessions : Forall2 ages (sessions db) (sessions db');
  cm_devices : ∀ sid dev, registered sid dev db' → registered sid dev db;
}.

#[export] Instance calm_preorder : PreOrder calm.
Proof.
  split; [by split|]. intros a b c [S1 D1] [S2 D2]. split; [by etrans|]. eauto.
Qed.

Lemma calm_same db db' : sessions db' = sessions db → users db' = users db → calm db db'.
Proof. intros E1 E2. split; [by rewrite E1|]. intros sid dev (u & Hu & Hd). exists u. by rewrite <-E2. Qed.

Lemma calm_sessions (f : session → session) db : (∀ s, ages s (f s)) → calm db (with_sessions (map f) db).
Proof.
  intros Hf. split; [|done]. cbn. apply Forall2_fmap_r. apply Forall_Forall2_diag, Forall_true. intros s. apply Hf.
Qed.

(** Session ids are a primary key. *)
Definition ids_unique db : Prop := NoDup (map (λ s : session, se_id s) (sessions db)).

Lemma same_session db (s s' : session) :
  ids_unique db → s ∈ sessions db → s' ∈ sessions db → se_id s = se_id s' → s = s'.
Proof. intros Hu Hs Hs' E. by apply (NoDup_map_inj _ _ _ _ Hu). Qed.

Lemma calm_unique db db' : calm db db' → ids_unique db → ids_unique db'.
Proof.
  intros [Hs _]. unfold ids_unique. intros Hu. enough (map (λ s : session, se_id s) (sessions db') = map (λ s : session, se_id s) (sessions db)) as -> by done.
  induction Hs as [|s s' l l' [E _] _ IH]; [done|]. cbn in *. inversion Hu; subst. by rewrite IH, E.
Qed.

(** A change of one row, found with its status. *)
Lemma calm_update_row (s : session) (f : session → session) db :
  ids_unique db → s ∈ sessions db → ages s (f s) → calm db (update_session (se_id s) f db).
Proof.
  intros Hu Hs Hf. split; [|done]. cbn. apply Forall2_fmap_r, Forall_Forall2_diag, Forall_forall. intros x Hx.
  unfold compose. case_bool_decide as E; [|done]. by rewrite (same_session _ _ _ Hu Hx Hs E).
Qed.

Lemma calm_update id (f : session → session) db : (∀ s, ages s (f s)) → calm db (update_session id f db).
Proof. intros Hf. apply calm_sessions. intros s. case_bool_decide; [apply Hf|done]. Qed.

Lemma calm_table id f db : calm db (update_table id f db).
Proof. by apply calm_same. Qed.

Lemma calm_users (f : participant → participant) db :
  (∀ u, su_session (f u) = su_session u ∧ su_device (f u) = su_device u) → calm db (with_users (map f) db).
Proof.
  intros Hf. split; [by apply (reflexivity (sessions db))|]. intros sid dev (v & Hv & Hd). cbn in Hv.
  apply list_elem_of_fmap in Hv as (u & -> & Hu). exists u. split; [done|].
  unfold session_device in *. destruct (Hf u) as [E1 E2]. by rewrite E1, E2 in Hd.
Qed.
End Calm.

Lemma ages_same s s' : se_opening s' = se_opening s → se_status s' = se_status s → ages s s'.
Proof. by split; [|left]. Qed.
Lemma ages_touch now s : ages s (touch now s). Proof. by apply ages_same. Qed.
Lemma ages_totals t s : ages s (set_totals t s). Proof. by apply ages_same. Qed.
Lemma ages_users n s : ages s (set_active_users n s). Proof. by apply ages_same. Qed.
Lemma ages_order o now s : ages s (set_active_order o now s). Proof. by apply ages_same. Qed.
Lemma ages_merge t o now s : ages s (merge_into t o now s). Proof. by apply ages_same. Qed.
Lemma ages_end st now s : is_active s = true → st ∈ final_statuses → ages s (end_with st now s).
Proof. intros Ha Hst. split; [done|by right]. Qed.

Create HintDb calm.
#[export] Hint Resolve calm_update ages_touch ages_totals ages_users ages_order ages_merge : calm.

(** Peel the outermost update of the right-hand side. *)
Ltac calm :=
  repeat first
    [ reflexivity
    | (match goal with |- calm ?a (update_session ?i ?f ?b) => transitivity b; [|solve [auto with calm]] end)
    | (match goal with |- calm ?a (update_table ?i ?f ?b) => transitivity b; [|apply calm_table] end)
    | (match goal with |- calm ?a (with_carts ?f ?b) => transitivity b; [|by apply calm_same] end)
    | (match goal with |- calm ?a (with_links ?f ?b) => transitivity b; [|by apply calm_same] end)
    | (match goal with |- calm ?a (with_receipts ?f ?b) => transitivity b; [|by apply calm_same] end)
    | (match goal with |- calm ?a (with_replies ?f ?b) => transitivity b; [|by apply calm_same] end)
    | (match goal with |- calm ?a (with_kitchen ?f ?g ?b) => transitivity b; [|by apply calm_same] end)
    | (match goal with |- calm ?a (with_book ?f ?b) => transitivity b; [|by apply calm_same] end) ].

(** ** The calm operations *)

Section CalmOps.
Context {L : Type} `{LedgerApi L} {I G P : Type}.
Implicit Types (db : dine_db I) (w : hall L I) (seen : session).
Variable linked_once : bool.
Variable accepts : payment → bool.
Variable create_intent : intent_request → G → G * res P.
Variable client_amount : P → Z.

Definition calm_hall w w' : Prop := calm (h_db w) (h_db w').

Lemma calm_emit e w w' : calm_hall w w' → calm_hall w (emit e w').
Proof. done. Qed.


Lemma find_session_Some id db s : find_session id db = Some s → s ∈ sessions db ∧ se_id s = id.
Proof. intros [Hin Hid]%find_Some_in. split; [done|]. by apply bool_decide_eq_true in Hid. Qed.

Lemma valid_session_calm token now w :
  ids_unique (h_db w) → calm_hall w (_get_valid_session token now w).1.
Proof.
  intros Hu. unfold calm_hall, _get_valid_session. destruct (session_of_token token (h_db w)) as [s|] eqn:Hs; [|done].
  apply find_Some_in in Hs as [Hin _].
  destruct (is_active s) eqn:Ha; cbn [negb]; [|by repeat case_match]. destruct (expired now s); [|done].
  cbn. apply calm_update_row; [done..|]. apply ages_end; [done|set_solver].
Qed.

Lemma close_session_calm seen reason locked d w : calm_hall w (close_session seen reason locked d w).1.
Proof.
  unfold calm_hall, close_session. destruct locked; [|done]. cbn [negb].
  set (st := if bool_decide (reason = "completed"%string) then "completed"%string else "cancelled"%string).
  set (db1 := with_sessions _ (h_db w)).
  assert (calm (h_db w) db1) as H1.
  { apply calm_sessions. intros s. destruct (_ && is_active s) eqn:E; [|reflexivity].
    apply andb_prop in E as [_ E]. apply ages_end; [done|]. subst st. case_bool_decide; set_solver. }
  case_bool_decide; cbn; [|done]. etrans; [exact H1|]. apply calm_table.
Qed.

Lemma expire_calm now w : calm_hall w (expire_inactive_sessions now w).1.
Proof.
  apply calm_sessions. intros s. destruct (overdue now s) eqn:E; [|reflexivity].
  apply andb_prop in E as [E _]. apply ages_end; [done|set_solver].
Qed.

Lemma remember_calm request sid r w : calm_hall w (remember request sid r w).
Proof.
  unfold calm_hall, remember, _save_idempotency. destruct (str_truthy request); [|done].
  unfold on_db. cbn [h_db]. destruct (existsb _ _); calm.
Qed.

Lemma update_txn_calm sid c q ad ex d db db' r : update_txn sid c q ad ex d db = Ok (db', r) → calm db db'.
Proof. unfold update_txn. destruct (find _ _); [|done]. case_match; intros Hr; inv_res; simplify_eq; unfold update_cart.
  - by calm.
  - idtac. by calm. Qed.

Lemma update_cart_calm seen c q ad ex request checked locked d w :
  calm_hall w (update_cart_item seen c q ad ex request checked locked d w).1.
Proof.
  unfold update_cart_item. case_match; [done|]. destruct locked; [|done]. cbn [negb].
  destruct (update_txn _ _ _ _ _ _ _) as [[db1 r]|e] eqn:E; [|done]. apply update_txn_calm in E.
  unfold calm_hall. etrans; [exact E|]. by apply (remember_calm request (se_id seen) r (on_db (λ _, db1) w)).
Qed.

Lemma remove_cart_calm seen c d w : calm_hall w (remove_cart_item seen c d w).1.
Proof. unfold calm_hall. cbn. by calm. Qed.
Lemma clear_cart_calm seen d w : calm_hall w (clear_cart seen d w).1.
Proof. unfold calm_hall. cbn. by calm. Qed.

Lemma add_link_calm l db : calm db (add_link l db).
Proof. unfold add_link. destruct (existsb _ _); calm. Qed.

Lemma book_order_calm s q tn d b again db r : book_order s q tn d b again db = Ok r → calm db r.1.1.
Proof.
  unfold book_order. intros Hr. destruct (open_order s (book db)); inv_res; simplify_eq; cbn [fst]; [calm|].
  calm. etrans; [|apply add_link_calm]. calm.
Qed.

Lemma book_items_calm s o d lines db db' : book_items s o d lines db = Ok db' → calm db db'.
Proof. unfold book_items. intros Hr. inv_res. simplify_eq. calm. Qed.

Lemma place_writes_calm s q d data b again db db' r : place_writes s q d data b again db = Ok (db', r) → calm db db'.
Proof.
  unfold place_writes. intros ([[db1 o] ap] & Hb & Hr)%res_bind_Ok. apply book_order_calm in Hb. cbn [fst] in Hb.
  apply res_bind_Ok in Hr as (db2 & Hi & Hr). apply book_items_calm in Hi. injection Hr as <- _.
  calm. etrans; [exact Hb|]. etrans; [exact Hi|]. destruct (find_table _ _); calm.
Qed.

Lemma place_order_calm m seen q checked locked d w : calm_hall w (place_order m seen q checked locked d w).1.
Proof.
  unfold place_order, place_txn. destruct (cached_reply _ _ _); [done|]. destruct locked; [|done]. cbn [negb].
  case_bool_decide; [done|]. destruct (get_tax_config _ _ _ _) as [[cfg cache1]|]; [|done].
  destruct (compute_cart_tax _ _ _ _) as [b|]; [|done].
  destruct (match open_order _ _ with Some _ => _ | None => _ end) as [[cfg2 cache2]|]; [|done].
  destruct (compute_cart_tax _ _ _ _ ≫= _) as [[db1 r]|e] eqn:E; [|done].
  apply res_bind_Ok in E as (again & _ & E). apply place_writes_calm in E.
  unfold calm_hall. etrans; [exact E|].
  pose proof (remember_calm (pl_request q) (se_id seen) r (on_db (λ _, db1) (with_cache cache2 w))) as Hr.
  destruct r; exact Hr.
Qed.

Lemma link_upsert_calm l b db db' : link_upsert linked_once l b db = Ok db' → calm db db'.
Proof. unfold link_upsert. intros Hr. inv_res. simplify_eq. repeat case_match; calm. Qed.

Lemma merge_orders_calm a b d db db' : merge_orders a b d db = Ok db' → calm db db'.
Proof.
  unfold merge_orders. intros (? & _ & Hr)%res_bind_Ok. apply res_bind_Ok in Hr as (? & _ & Hr).
  apply res_bind_Ok in Hr as ([[[[st tx] cg] sg] tot] & _ & Hr). injection Hr as <-. calm.
Qed.

Lemma merge_txn_calm src tgt d db r : merge_txn linked_once src tgt d db = Ok r → calm db r.1.
Proof.
  unfold merge_txn. intros ([db1 o] & H1 & Hr)%res_bind_Ok. apply res_bind_Ok in Hr as (db2 & H2 & Hr).
  apply res_bind_Ok in Hr as (db4 & H4%link_upsert_calm & Hr). apply res_bind_Ok in Hr as (db5 & H5%link_upsert_calm & Hr).
  injection Hr as <-. cbn [fst].
  assert (calm db db1) as C1 by (destruct (se_active_order tgt), (se_active_order src); simplify_eq; calm).
  assert (calm db1 db2) as C2.
  { destruct (se_active_order src); [|by simplify_eq]. case_bool_decide; [by simplify_eq|]. by eapply merge_orders_calm. }
  calm. etrans; [exact C1|]. etrans; [exact C2|]. etrans; [|exact H5]. etrans; [|exact H4]. calm.
Qed.

Lemma merge_sessions_calm src tgt locked d w : calm_hall w (merge_sessions linked_once src tgt locked d w).1.
Proof.
  unfold merge_sessions. repeat (case_match; [done|]). destruct (merge_txn _ _ _ _ _) as [[db1 o]|e] eqn:E; [|done].
  by apply merge_txn_calm in E.
Qed.

(** *** The bill and the payments *)

Lemma write_totals_calm sid g p r db db' : write_totals sid g p r db = Ok db' → calm db db'.
Proof. unfold write_totals. intros Hr. inv_res. simplify_eq. calm. Qed.

Lemma read_bill_calm sid db r : read_session_bill sid db = Ok r → calm db r.1.
Proof.
  unfold read_session_bill. destruct (find_session sid db); [|done].
  intros (db' & Hw%write_totals_calm & Hr)%res_bind_Ok. by injection Hr as <-.
Qed.

Lemma get_bill_calm sid now w : calm_hall w (get_session_bill sid now w).1.
Proof.
  unfold get_session_bill.
  assert (calm_hall w (match read_session_bill sid (h_db w) with
    | Ok (db, b) => ({| h_db := db; h_cache := h_cache w; h_bills := <[sid := (b, now + BILL_CACHE_TTL_SECONDS * 10 ^ 6)]> (h_bills w);
                        h_ledger := h_ledger w; h_events := h_events w |}, Ok b)
    | Err e => (w, Err e) end).1) as Hf.
  { destruct (read_session_bill sid (h_db w)) as [[db b]|e] eqn:E; [|done]. by apply read_bill_calm in E. }
  destruct (h_bills w !! sid) as [[b t]|]; [|exact Hf]. destruct (now <? t); [done|exact Hf].
Qed.

Lemma calm_hall_trans w1 w2 w3 : calm_hall w1 w2 → calm_hall w2 w3 → calm_hall w1 w3.
Proof. unfold calm_hall. apply transitivity. Qed.

Lemma vacate_calm sid by_ now w : ids_unique (h_db w) → calm_hall w (vacate_session sid by_ now w).1.
Proof.
  intros Hu. unfold vacate_session. destruct (find_session sid (h_db w)) as [s|] eqn:Hs; [|done].
  apply find_session_Some in Hs as [Hin <-]. destruct (is_active s) eqn:Ha; [|done]. unfold calm_hall. cbn.
  etrans; [|apply calm_table]. etrans; [|apply calm_users; intros u; by case_bool_decide].
  apply calm_update_row; [done..|]. split; [done|]. right. split; [done|]. set_solver.
Qed.

Lemma paid_and_vacate_calm sid by_ force now w : ids_unique (h_db w) → calm_hall w (paid_and_vacate sid by_ force now w).1.
Proof.
  intros Hu. unfold paid_and_vacate. pose proof (get_bill_calm sid now w) as Hb.
  destruct (get_session_bill sid now w) as [w1 [b|e]]; [|done]. cbn [fst] in Hb. case_match; [done|].
  eapply calm_hall_trans; [exact Hb|]. apply vacate_calm. by eapply calm_unique.
Qed.

Lemma insert_receipt_calm r a db db' : insert_receipt r a db = Ok db' → calm db db'.
Proof. unfold insert_receipt. intros Hr. inv_res. simplify_eq. calm. Qed.

Lemma mirror_calm s m a d db r : mirror_payment accepts s m a d db = Ok r → calm db r.1.
Proof.
  unfold mirror_payment. destruct (last_order _ _); intros Hr; inv_res; simplify_eq; cbn [fst]; calm.
Qed.

Lemma pay_writes_calm sid p s a rem d db r : pay_writes accepts sid p s a rem d db = Ok r → calm db r.1.
Proof.
  unfold pay_writes. intros (db1 & H1%insert_receipt_calm & Hr)%res_bind_Ok.
  apply res_bind_Ok in Hr as (m & H2 & Hr). apply res_bind_Ok in Hr as (db2 & H3%write_totals_calm & Hr).
  injection Hr as <-. cbn [fst]. destruct (mirror_payment _ _ _ _ _ _) as [m'|] eqn:E; [|done]. injection H2 as <-.
  apply mirror_calm in E. by do 2 (etrans; [eassumption|]).
Qed.

Lemma pay_txn_calm sid p s a rem d w w' : pay_txn accepts sid p s a rem d w = Ok w' → calm_hall w w'.
Proof.
  unfold pay_txn. intros (r & H1%pay_writes_calm & Hr)%res_bind_Ok. injection Hr as <-.
  destruct (post_payment_received _ _ _ _ _ _ _) as [l|e]; [done|]. by destruct (sql_error e).
Qed.

Lemma record_payment_calm sid p d w :
  ids_unique (h_db w) → calm_hall w (record_session_payment accepts sid p d w).1.
Proof.
  intros Hu. unfold record_session_payment. destruct (pay_check _ _ _) as [[[s a] rem]|]; [|done].
  destruct (pay_txn _ _ _ _ _ _ _ _) as [w1|] eqn:E; [|done]. apply pay_txn_calm in E.
  assert (ids_unique (h_db w1)) as Hu1 by (by eapply calm_unique).
  set (w2 := _invalidate_bill_cache sid w1). assert (calm_hall w w2) as H2 by exact E.
  destruct (negb (dpos _)); [|exact H2].
  pose proof (paid_and_vacate_calm sid (pi_created_by p) false (x_now d) w2 Hu1) as H3.
  destruct (paid_and_vacate _ _ _ _ _) as [w3 [r|e]]; cbn [fst] in H3; by eapply calm_hall_trans.
Qed.

Lemma settle_txn_calm o a ref m d db r : settle_txn o a ref m d db = Ok r → calm db r.1.1.
Proof.
  unfold settle_txn. intros Hr. destruct (find _ (links db)) as [l|]; [|by simplify_eq].
  destruct (find_session _ _); [|by simplify_eq]. destruct (_ && _); [by simplify_eq|].
  destruct (negb _); [by simplify_eq|]. apply res_bind_Ok in Hr as (amt & _ & Hr). destruct (negb _); [by simplify_eq|].
  apply res_bind_Ok in Hr as (db1 & H1%insert_receipt_calm & Hr).
  apply res_bind_Ok in Hr as (db2 & H2%write_totals_calm & Hr). injection Hr as <-. cbn [fst]. by etrans.
Qed.

Lemma settle_calm o a ref m d w : ids_unique (h_db w) → calm_hall w (settle_session_from_gateway o a ref m d w).1.
Proof.
  intros Hu. unfold settle_session_from_gateway. destruct (settle_txn _ _ _ _ _ _) as [[[db r] [[[sid amt] due]|]]|] eqn:E; [| |done];
    apply settle_txn_calm in E; cbn [fst] in E; [|exact E].
  set (w1 := _invalidate_bill_cache sid (on_db (λ _, db) w)). assert (calm_hall w w1) as H1 by exact E.
  assert (ids_unique (h_db w1)) as Hu1 by (by eapply calm_unique).
  destruct (negb (dpos due)); [|exact H1]. cbn [fst]. unfold calm_hall. cbn [h_db emit].
  eapply calm_hall_trans; [exact H1|]. by apply paid_and_vacate_calm.
Qed.

Lemma pending_calm s o a d db r : pending_payment accepts s o a d db = Ok r → calm db r.1.
Proof. unfold pending_payment. destruct (online_payment _ _ _); intros Hr; inv_res; simplify_eq; cbn [fst]; calm. Qed.

Lemma create_intent_calm seen cn cp plan qr d g w :
  calm_hall w (create_payment_intent accepts create_intent client_amount seen cn cp plan qr d g w).1.1.
Proof.
  unfold create_payment_intent. pose proof (get_bill_calm (se_id seen) (x_now d) w) as Hb.
  destruct (get_session_bill _ _ _) as [w1 bill]. cbn [fst] in Hb.
  destruct (bill ≫= _) as [[[rem o] paise]|]; [|exact Hb]. destruct (own_upi_plan _); [exact Hb|].
  destruct (negb _); [exact Hb|]. destruct (pending_payment _ _ _ _ _ _) as [[db pay]|] eqn:E; [|exact Hb].
  apply pending_calm in E. destruct (create_intent _ _) as [g' i]. cbn [fst]. by eapply calm_hall_trans.
Qed.

Lemma split_calm sid ty parts is_ us now w : calm_hall w (split_bill sid ty parts is_ us now w).1.
Proof.
  unfold split_bill. pose proof (get_bill_calm sid now w) as Hb. by destruct (get_session_bill _ _ _).
Qed.

Lemma status_calm token now w : calm_hall w (get_payment_status token now w).1.
Proof.
  unfold get_payment_status. destruct (session_of_token _ _) as [s|]; [|done].
  pose proof (get_bill_calm (se_id s) now w) as Hb. by destruct (get_session_bill _ _ _).
Qed.

(** ** Registering a device *)

Lemma ensure_user_spec sid ty name dev d db db' id :
  _ensure_session_user sid ty name dev d db = Ok (db', id) →
  Forall2 ages (sessions db) (sessions db') ∧
  ∀ sid' dev', registered sid' dev' db' →
    registered sid' dev' db ∨ sid' = sid ∧ ∃ dv, dev = Some dv ∧ varchar 120 dv = Ok dev'.
Proof.
  unfold _ensure_session_user. intros (n & _ & Hr)%res_bind_Ok. apply res_bind_Ok in Hr as (dv & Hdv & Hr).
  set (known := if str_truthy dv then _ else None) in Hr.
  destruct (match known with Some _ => _ | None => _ end) as [l i] eqn:E. injection Hr as <- <-. split.
  { apply (cm_sessions (with_users (λ _, l) db)), calm_update. intros s. apply ages_users. }
  intros sid' dev' (u & Hu & Hd). cbn in Hu. destruct known as [v|]; injection E as <- <-.
  - left. apply list_elem_of_fmap in Hu as (u' & -> & Hu'). exists u'. split; [done|]. by case_bool_decide.
  - apply elem_of_app in Hu as [Hu| ->%list_elem_of_singleton]; [left; by exists u|]. right.
    unfold session_device in Hd. cbn in Hd. apply andb_prop in Hd as [Hs%bool_decide_eq_true Hd%bool_decide_eq_true].
    split; [done|]. subst dv. destruct dev as [dv|]; [|done]. exists dv. split; [done|].
    unfold varchar_opt in Hdv. apply res_bind_Ok in Hdv as (t & Ht & Hdv). by simplify_eq.
Qed.

(** A change of the tables in which only device [dv] may be registered, for [sid]. *)
Record registers (sid : string) (dv : option string) db db' : Prop := {
  rg_sessions : Forall2 ages (sessions db) (sessions db');
  rg_devices : ∀ sid' dev', registered sid' dev' db' →
    registered sid' dev' db ∨ sid' = sid ∧ ∃ x, dv = Some x ∧ varchar 120 x = Ok dev';
}.

Lemma registers_calm sid dv db1 db2 db3 db4 :
  calm db1 db2 → registers sid dv db2 db3 → calm db3 db4 → registers sid dv db1 db4.
Proof.
  intros [S1 D1] [S2 D2] [S3 D3]. split; [etrans; [exact S1|]; by etrans|].
  intros s x Hx. destruct (D2 s x (D3 s x Hx)) as [?|?]; [left; by apply D1|by right].
Qed.

Lemma calm_registers sid dv db db' : calm db db' → registers sid dv db db'.
Proof. intros [S D]. split; [done|]. intros s x Hx. left. by apply D. Qed.

Lemma ensure_registers sid ty name dev d db db' id :
  _ensure_session_user sid ty name dev d db = Ok (db', id) → registers sid dev db db'.
Proof. intros [S D]%ensure_user_spec. by split. Qed.

Lemma registers_unique sid dv db db' : registers sid dv db db' → ids_unique db → ids_unique db'.
Proof.
  intros [S _] Hu. refine (calm_unique db (with_sessions (λ _, sessions db') db) _ Hu). split; [exact S|]. by intros.
Qed.

Lemma add_txn_calm m sid user it qn v ad ex no rq d db r :
  add_txn m sid user it qn v ad ex no rq d db = Ok r → calm db r.1.
Proof.
  unfold add_txn. intros (id & _ & Hr)%res_bind_Ok. destruct (find _ (items m)) as [i|]; [|done].
  apply res_bind_Ok in Hr as (? & _ & Hr). apply res_bind_Ok in Hr as (? & _ & Hr). apply res_bind_Ok in Hr as (pr & _ & Hr).
  destruct (find _ (carts db)); inv_res; simplify_eq; cbn [fst]; unfold update_cart; calm.
Qed.

Lemma add_registers m seen it qn v ad ex no dev rq checked locked d w :
  registers (se_id seen) dev (h_db w) (h_db (add_to_cart m seen it qn v ad ex no dev rq checked locked d w).1).
Proof.
  unfold add_to_cart. destruct (_ensure_session_user _ _ _ _ _ _) as [[db0 user]|e] eqn:E; [|by apply calm_registers].
  apply ensure_registers in E. destruct (cached_reply _ _ _); [exact E|]. destruct locked; [|exact E]. cbn [negb].
  destruct (add_txn _ _ _ _ _ _ _ _ _ _ _ _) as [[db1 r]|] eqn:Ea; [|exact E]. apply add_txn_calm in Ea.
  eapply registers_calm; [reflexivity|exact E|]. etrans; [exact Ea|].
  by apply (remember_calm rq (se_id seen) r (on_db (λ _, db1) w)).
Qed.

(** ** Opening a session *)

(** What a scan does to the tables: it may open one session at a table without one. *)
Definition opens (t : string) (s : session) db db' : Prop :=
  sessions db' = sessions db ++ [s] ∧ users db' = users db ∧ se_table s = t ∧ active_at t db = [] ∧
  se_id s ∉ map (λ s : session, se_id s) (sessions db).

Lemma scan_txn_cases t device reserved (seen : option session) d db r :
  scan_txn t device reserved seen d db = Ok r →
  (∃ s, seen = Some s ∧ calm db r.1 ∧
    (r.2 = RequiresJoin (se_id s) ∨
     r.2 = Opened (se_id s) (se_token s) (default ""%string (se_join_pin s)) false (se_active_order s)
     ∧ registered (se_id s) device db)) ∨
  (r.2 = Opened (x_session d) (x_token d) (x_pin d) true None ∧
    ∃ db1, opens (tb_id t) (new_session t device d) db db1 ∧ calm db1 r.1).
Proof.
  unfold scan_txn. destruct seen as [s|]; intros Hr.
  - left. exists s. split; [done|]. destruct (_ && existsb _ _) eqn:E; injection Hr as <-; cbn [fst snd]; [|split; [done|by left]].
    split; [calm|]. right. split; [done|]. apply andb_prop in E as [_ E]. apply existsb_exists in E as (u & Hu & Hd).
    exists u. split; [by apply list_elem_of_In|done].
  - right. apply res_bind_Ok in Hr as (? & _ & Hr). apply res_bind_Ok in Hr as (? & Hn%raise_if_Ok & Hr).
    apply res_bind_Ok in Hr as (? & _ & Hr). apply res_bind_Ok in Hr as (? & Hp%raise_if_Ok & Hr). injection Hr as <-.
    split; [done|]. exists (with_sessions (λ l, l ++ [new_session t device d]) db). cbn [fst]. split; [|calm].
    apply negb_false_iff, bool_decide_eq_true in Hn. split; [done|]. split; [done|]. split; [done|]. split; [done|].
    rewrite existsb_false in Hp. intros (s & Hs & Hin)%list_elem_of_fmap. specialize (Hp s Hin).
    apply bool_decide_eq_false in Hp. cbn in Hs. congruence.
Qed.

(** ** Calls of the service *)

(** What a call shows: the device and the credential it presents, and the reply. *)
Inductive act :=
  | Scan (device : string) (token : option string) (r : res scan_reply)
  | Join (device pin : string) (r : res (string * string * option string))
  | Add (device : option string) (token : string)
  | Other.

(** The session a call works on is a row of the state, as some earlier read saw it. *)
Definition opened w seen : Prop := ∃ s, s ∈ sessions (h_db w) ∧ se_opening s = se_opening seen.

Inductive other_call : hall L I → hall L I → Prop :=
  | other_read token now w : other_call w (_get_valid_session token now w).1
  | other_close seen reason locked d w : opened w seen → other_call w (close_session seen reason locked d w).1
  | other_expire now w : other_call w (expire_inactive_sessions now w).1
  | other_waiter seen ty w : opened w seen → other_call w (call_waiter seen ty w).1
  | other_update seen c q ad ex rq checked locked d w : opened w seen →
      other_call w (update_cart_item seen c q ad ex rq checked locked d w).1
  | other_remove seen c d w : opened w seen → other_call w (remove_cart_item seen c d w).1
  | other_clear seen d w : opened w seen → other_call w (clear_cart seen d w).1
  | other_place m seen q checked locked d w : opened w seen → other_call w (place_order m seen q checked locked d w).1
  | other_merge src tgt locked d w : opened w src → opened w tgt →
      other_call w (merge_sessions linked_once src tgt locked d w).1
  | other_bill sid now w : other_call w (get_session_bill sid now w).1
  | other_split sid ty parts is_ us now w : other_call w (split_bill sid ty parts is_ us now w).1
  | other_pay sid p d w : other_call w (record_session_payment accepts sid p d w).1
  | other_vacate sid by_ now w : other_call w (vacate_session sid by_ now w).1
  | other_paid sid by_ force now w : other_call w (paid_and_vacate sid by_ force now w).1
  | other_settle o a ref m d w : other_call w (settle_session_from_gateway o a ref m d w).1
  | other_intent seen cn cp plan qr d g w : opened w seen →
      other_call w (create_payment_intent accepts create_intent client_amount seen cn cp plan qr d g w).1.1
  | other_status token now w : other_call w (get_payment_status token now w).1.

Inductive dine_call : act → hall L I → hall L I → Prop :=
  | call_scan restaurant table device token reserved (before : dine_db I) d w w' r :
      scan_qr restaurant table device token reserved before d w = (w', r) → dine_call (Scan device token r) w w'
  | call_join table device pin d w w' r :
      join_session table device pin d w = (w', r) → dine_call (Join device pin r) w w'
  | call_add m seen it qn v ad ex no dev rq checked locked d w : opened w seen →
      dine_call (Add dev (se_token seen)) w (add_to_cart m seen it qn v ad ex no dev rq checked locked d w).1
  | call_other w w' : other_call w w' → dine_call Other w w'.

Definition dine_step w w' : Prop := ∃ a, dine_call a w w'.

Lemma other_calm w w' : ids_unique (h_db w) → other_call w w' → calm_hall w w'.
Proof.
  intros Hu. destruct 1; first
    [ by apply valid_session_calm | apply close_session_calm | apply expire_calm | done | apply update_cart_calm
    | apply remove_cart_calm | apply clear_cart_calm | apply place_order_calm | apply merge_sessions_calm
    | apply get_bill_calm | apply split_calm | by apply record_payment_calm | by apply vacate_calm
    | by apply paid_and_vacate_calm | by apply settle_calm | apply create_intent_calm | apply status_calm ].
Qed.

Definition names (given stored : string) : Prop := given = stored ∨ varchar 120 given = Ok stored.

(** The call presents what lets [dev] sit at session [sid]: the session's token, its PIN,
    or the scan that opened it. *)
Definition entitled w (a : act) (sid dev : string) : Prop :=
  match a with
  | Scan dv token r => names dv dev ∧
      ((∃ s : session, s ∈ sessions (h_db w) ∧ se_id s = sid ∧ token = Some (se_token s)) ∨
       ∃ tok pin o, r = Ok (Opened sid tok pin true o))
  | Join dv pin _ => names dv dev ∧
      ∃ s : session, s ∈ sessions (h_db w) ∧ se_id s = sid ∧ strip pin = strip (default ""%string (se_join_pin s)) ∧
           strip pin ≠ ""%string
  | Add (Some dv) tok => names dv dev ∧ ∃ s : session, s ∈ sessions (h_db w) ∧ se_id s = sid ∧ se_token s = tok
  | _ => False
  end.

(** The reply tells [dev] the token of session [sid]. *)
Definition told (a : act) (sid dev : string) : Prop :=
  match a with
  | Scan dv _ (Ok (Restored s _ _)) => dv = dev ∧ s = sid
  | Scan dv _ (Ok (Opened s _ _ _ _)) => dv = dev ∧ s = sid
  | Join dv _ (Ok (s, _, _)) => dv = dev ∧ s = sid
  | _ => False
  end.

(** Stored device ids fit their column. *)
Definition devices_fit db : Prop := ∀ sid dev, registered sid dev db → varchar 120 dev = Ok dev.

(** How a call changes sessions and devices. *)
Record effect (a : act) w w' : Prop := {
  ef_sessions : Forall2 ages (sessions (h_db w)) (sessions (h_db w')) ∨
    ∃ t s db, opens t s (h_db w) db ∧ Forall2 ages (sessions db) (sessions (h_db w'));
  ef_devices sid dev : registered sid dev (h_db w') ∨ told a sid dev → registered sid dev (h_db w) ∨ entitled w a sid dev;
  ef_fit : devices_fit (h_db w');
}.

Lemma registers_fit sid dv db db' : registers sid dv db db' → devices_fit db → devices_fit db'.
Proof.
  intros [_ D] Hf s x Hx. destruct (D s x Hx) as [?|(_ & y & _ & E)]; [by eapply Hf|by eapply varchar_idem].
Qed.
Lemma calm_fit db db' : calm db db' → devices_fit db → devices_fit db'.
Proof. intros [_ D] Hf s x Hx. by eapply Hf, D. Qed.

Lemma effect_calm a w w' :
  devices_fit (h_db w) → calm_hall w w' → (∀ sid dev, told a sid dev → entitled w a sid dev) → effect a w w'.
Proof.
  intros Hf Hc Ht. split; [left; apply Hc| |by eapply calm_fit].
  intros sid dev [Hr|Hr]; [left; by apply (cm_devices _ _ Hc)|right; by apply Ht].
Qed.

(** A call that registers device [dv] for a session it is entitled to. *)
Lemma effect_registers a w w' sid dv :
  devices_fit (h_db w) → registers sid (Some dv) (h_db w) (h_db w') →
  (∀ dev, names dv dev → entitled w a sid dev) → (∀ s dev, told a s dev → s = sid ∧ dv = dev) → effect a w w'.
Proof.
  intros Hf Hr Ha Ht. split; [left; exact (rg_sessions _ _ _ _ Hr)| |by eapply registers_fit].
  intros s x [Hx|Hx].
  - destruct (rg_devices _ _ _ _ Hr s x Hx) as [?|(-> & y & [= <-] & Hy)]; [by left|right]. apply Ha. by right.
  - apply Ht in Hx as [-> <-]. right. apply Ha. by left.
Qed.

Lemma scan_events_db t device s is_new w : h_db (scan_events t device s is_new w) = h_db w.
Proof. unfold scan_events. by destruct is_new. Qed.

Lemma try_restore_Some token now db s :
  _try_restore_session token now db = Some s → s ∈ sessions db ∧ se_token s = token.
Proof.
  unfold _try_restore_session. destruct (find _ _) as [x|] eqn:E; [|done]. case_match; [done|]. intros [= <-].
  apply find_Some_in in E as [Hin [[E _]%andb_prop _]%andb_prop]. by apply bool_decide_eq_true in E.
Qed.

Lemma truthy_Some (x : option string) : str_truthy x = true → x = Some (str_or x "").
Proof. unfold str_truthy, str_or. destruct x as [t|]; [|done]. intros E%negb_true_iff%bool_decide_eq_false. by rewrite decide_False. Qed.

Lemma scan_effect restaurant table device token reserved (before : dine_db I) d w w' r :
  devices_fit (h_db w) → scan_qr restaurant table device token reserved before d w = (w', r) → effect (Scan device token r) w w'.
Proof.
  intros Hf. unfold scan_qr.
  set (restored := if str_truthy token then _try_restore_session _ _ _ else None).
  destruct restored as [s|] eqn:Er; subst restored.
  { destruct (str_truthy token) eqn:Ht; [|done]. apply try_restore_Some in Er as [Hin Htok].
    assert (token = Some (se_token s)) as Htoken by (rewrite Htok; by apply truthy_Some).
    destruct (_ensure_session_user _ _ _ _ _ _) as [[db1 u]|e] eqn:E; intros [= <- <-]; [|by apply effect_calm].
    apply (effect_registers _ _ _ (se_id s) device); [done| | |by intros ? ? [-> ->]].
    - eapply (registers_calm _ _ _ (h_db w) db1); [done|by eapply ensure_registers|]. cbn. calm.
    - intros dev Hn. split; [done|]. left. by exists s. }
  set (term := if str_truthy token then _terminal_session_for_token _ _ else None).
  destruct term as [tr|] eqn:Et; subst term.
  { destruct (str_truthy token); [|done]. unfold _terminal_session_for_token in Et. destruct (find _ _) as [x|]; [|done].
    destruct (is_active x); [done|]. injection Et as <-. intros [= <- <-]. by apply effect_calm. }
  destruct (table_in_scope _ _ _) as [t|]; [|intros [= <- <-]; by apply effect_calm].
  destruct (scan_txn _ _ _ _ _ _) as [[db1 r1]|e] eqn:E; [|intros [= <- <-]; by apply effect_calm].
  apply scan_txn_cases in E as [(s & _ & Hc & [Hr|[Hr Hk]])|[Hr (db0 & Ho & Hc)]]; cbn [fst snd] in *; subst r1.
  - intros [= <- <-]. by apply effect_calm.
  - assert (varchar 120 device = Ok device) as Hfit by (by eapply Hf).
    destruct (_ensure_session_user _ _ _ _ _ _) as [[db2 u]|e] eqn:E; intros [= <- <-]; [|by apply effect_calm].
    apply ensure_registers in E. assert (registers (se_id s) (Some device) (h_db w) db2) as Hreg by (by eapply registers_calm).
    split; rewrite ?scan_events_db; cbn [h_db on_db].
    + left. exact (rg_sessions _ _ _ _ Hreg).
    + intros sid dev [Hx|[-> <-]]; [|by left].
      destruct (rg_devices _ _ _ _ Hreg sid dev Hx) as [?|(-> & y & [= <-] & Hy)]; [by left|]. left.
      rewrite Hfit in Hy. by injection Hy as <-.
    + by eapply registers_fit.
  - destruct Ho as (Es & Eu & Et0 & Ha & Hnew). set (s := new_session t device d) in *.
    assert (devices_fit db0) as Hf0 by (intros sid dev (x & Hx & Hd); apply (Hf sid dev); exists x; by rewrite <-Eu).
    assert (∀ sid dev, registered sid dev db0 → registered sid dev (h_db w)) as Hreg0.
    { intros sid dev (x & Hx & Hd). exists x. by rewrite <-Eu. }
    destruct (_ensure_session_user _ _ _ _ _ _) as [[db2 u]|e] eqn:E; intros [= <- <-].
    + apply ensure_registers in E.
      assert (registers (x_session d) (Some device) db0 db2) as Hreg by (by eapply registers_calm).
      split; rewrite ?scan_events_db; cbn [h_db on_db].
      * right. exists (tb_id t), s, db0. split; [done|]. exact (rg_sessions _ _ _ _ Hreg).
      * intros sid dev [Hx|[-> <-]].
        -- destruct (rg_devices _ _ _ _ Hreg sid dev Hx) as [?|(-> & y & [= <-] & Hy)]; [left; by apply Hreg0|right].
           split; [by right|]. right. by eexists _, _, _.
        -- right. split; [by left|]. right. by eexists _, _, _.
      * by eapply registers_fit.
    + split; cbn [h_db on_db].
      * right. exists (tb_id t), s, db0. split; [done|]. exact (cm_sessions _ _ Hc).
      * intros sid dev [Hx|[]]. left. by apply Hreg0, (cm_devices _ _ Hc).
      * by eapply calm_fit.
Qed.

Lemma join_effect table device pin d w w' r :
  devices_fit (h_db w) → join_session table device pin d w = (w', r) → effect (Join device pin r) w w'.
Proof.
  intros Hf. unfold join_session. destruct (last _) as [s|] eqn:El; [|intros [= <- <-]; by apply effect_calm].
  apply last_Some in El as (l & El). assert (s ∈ sessions (h_db w)) as Hin.
  { enough (s ∈ active_at table (h_db w)) as Hx by (unfold active_at in Hx; by apply list_elem_of_filter in Hx as [_ ?]).
    rewrite El. apply elem_of_app. right. by left. }
  destruct (_ || negb _) eqn:Hg; [intros [= <- <-]; by apply effect_calm|].
  apply orb_false_iff in Hg as [H1%bool_decide_eq_false H2%negb_false_iff%bool_decide_eq_true].
  destruct (_ensure_session_user _ _ _ _ _ _) as [[db2 u]|e] eqn:E; intros [= <- <-].
  - apply ensure_registers in E.
    apply (effect_registers _ _ _ (se_id s) device); [done| | |by intros ? ? [-> ->]].
    + eapply registers_calm; [|exact E|reflexivity]. calm.
    + intros dev Hn. split; [done|]. exists s. split_and!; try done. by rewrite H2.
  - apply effect_calm; [done| |done]. unfold calm_hall. cbn. calm.
Qed.

Lemma dine_effect a w w' : ids_unique (h_db w) → devices_fit (h_db w) → dine_call a w w' → effect a w w'.
Proof.
  intros Hu Hf Hc. destruct Hc as [? ? ? ? ? ? ? ? ? ? E|? ? ? ? ? ? ? E|m seen it qn v ad ex no dev rq checked locked d w Ho|w w' Ho].
  - by eapply scan_effect.
  - by eapply join_effect.
  - pose proof (add_registers m seen it qn v ad ex no dev rq checked locked d w) as Hr.
    split; [left; exact (rg_sessions _ _ _ _ Hr)| |by eapply registers_fit]. intros sid x [Hx|[]].
    destruct (rg_devices _ _ _ _ Hr sid x Hx) as [?|(-> & y & -> & Hy)]; [by left|right].
    split; [by right|]. destruct Ho as (s & Hs & E). exists s. by rewrite E.
  - apply effect_calm; [done|by apply other_calm|done].
Qed.

(** ** Every sequence of calls *)

Record floor_wf db : Prop := {
  fw_ids : ids_unique db;
  fw_fit : devices_fit db;
  fw_table : ∀ t, (length (active_at t db) <= 1)%nat;
}.

Lemma ages_active s s' : ages s s' → is_active s' = true → is_active s = true.
Proof.
  intros [_ [E|[E _]]] Ha; [|done]. unfold is_active in *. by rewrite <-E.
Qed.

(** Ageing leaves no more active sessions at a table. *)
Lemma ages_filter t (l l' : list session) : Forall2 ages l l' →
  (length (filter (λ s : session, se_table s = t ∧ is_active s = true) l') <=
   length (filter (λ s : session, se_table s = t ∧ is_active s = true) l))%nat.
Proof.
  induction 1 as [|s s' l l' Hs _ IH]; [done|]. rewrite !filter_cons.
  destruct (decide (se_table s' = t ∧ is_active s' = true)) as [[Ht Ha]|_].
  - rewrite decide_True; [cbn; lia|]. split; [by rewrite <-(ag_opening _ _ Hs)|by eapply ages_active].
  - destruct (decide _); cbn; lia.
Qed.

Lemma opens_wf t s db db' : opens t s db db' → ids_unique db → (∀ t, (length (active_at t db) <= 1)%nat) →
  ids_unique db' ∧ ∀ t, (length (active_at t db') <= 1)%nat.
Proof.
  intros (Es & _ & Ht & Ha & Hnew) Hu Hone. split.
  - unfold ids_unique. rewrite Es, map_app. by apply NoDup_snoc.
  - intros t'. unfold active_at. rewrite Es, filter_app, length_app, filter_cons. specialize (Hone t'). unfold active_at in Hone, Ha.
    destruct (decide (se_table s = t' ∧ is_active s = true)) as [[Ht' _]|_]; cbn; [|lia].
    assert (t = t') as -> by congruence. rewrite Ha. cbn. lia.
Qed.

Lemma dine_wf a w w' : floor_wf (h_db w) → dine_call a w w' → floor_wf (h_db w').
Proof.
  intros [Hu Hf Hone] Hc. apply dine_effect in Hc as [Hs _ Hfit]; [|done..].
  destruct Hs as [Hs|(t & s & db & Ho & Hs)].
  - split; [|done|].
    + refine (calm_unique (h_db w) (with_sessions (λ _, sessions (h_db w')) (h_db w)) _ Hu). split; [exact Hs|]. by intros.
    + intros t. pose proof (ages_filter t _ _ Hs). specialize (Hone t). unfold active_at in *. lia.
  - destruct (opens_wf _ _ _ _ Ho Hu Hone) as [Hu1 Hone1]. split; [|done|].
    + refine (calm_unique db (with_sessions (λ _, sessions (h_db w')) db) _ Hu1). split; [exact Hs|]. by intros.
    + intros t'. pose proof (ages_filter t' _ _ Hs). specialize (Hone1 t'). unfold active_at in *. lia.
Qed.

Lemma dine_ages a w w' : floor_wf (h_db w) → dine_call a w w' →
  ∀ s, s ∈ sessions (h_db w) → ∃ s', s' ∈ sessions (h_db w') ∧ ages s s'.
Proof.
  intros [Hu Hf Hone] Hc s Hin. apply dine_effect in Hc as [Hs _ _]; [|done..].
  assert (∀ l, s ∈ l → Forall2 ages l (sessions (h_db w')) → ∃ s', s' ∈ sessions (h_db w') ∧ ages s s') as Hx.
  { intros l [i Hi]%list_elem_of_lookup Hl. destruct (Forall2_lookup_l _ _ _ _ _ Hl Hi) as (s' & Hi' & Ha).
    exists s'. split; [|done]. by eapply list_elem_of_lookup_2. }
  destruct Hs as [Hs|(t & x & db & (Es & _) & Hs)]; (eapply Hx; [|exact Hs]); [done|].
  rewrite Es. apply elem_of_app. by left.
Qed.

(** C8: a table has at most one active session, and a session that has ended never
    opens again: whatever calls of the service follow one another, with requests that
    saw older rows and scans that raced, every session keeps what it was opened with
    (its table, token and PIN) and its status changes at most from active to a final one. *)
Theorem one_session_per_table w w' :
  floor_wf (h_db w) → rtc dine_step w w' →
  (∀ t, (length (active_at t (h_db w')) <= 1)%nat) ∧
  ∀ s, s ∈ sessions (h_db w) → ∃ s', s' ∈ sessions (h_db w') ∧ se_opening s' = se_opening s ∧
    (se_status s' = se_status s ∨ is_active s = true ∧ se_status s' ∈ final_statuses).
Proof.
  intros Hwf Hsteps. enough (floor_wf (h_db w') ∧ ∀ s, s ∈ sessions (h_db w) → ∃ s', s' ∈ sessions (h_db w') ∧ ages s s') as [Hwf' Hs].
  { split; [exact (fw_table _ Hwf')|]. intros s Hin. destruct (Hs s Hin) as (s' & Hin' & [E1 E2]). by exists s'. }
  induction Hsteps as [w|w w1 w2 [a Hc] _ IH]; [split; [done|]; intros s Hs; by exists s|].
  pose proof (dine_wf _ _ _ Hwf Hc) as Hwf1. destruct (IH Hwf1) as [Hwf2 IHs]. split; [done|]. intros s Hin.
  destruct (dine_ages _ _ _ Hwf Hc s Hin) as (s1 & Hin1 & Ha1). destruct (IHs s1 Hin1) as (s2 & Hin2 & Ha2).
  exists s2. split; [done|]. by etrans.
Qed.

(** A run of calls, each kept with the state it met. *)
Inductive run : hall L I → list (hall L I * act) → hall L I → Prop :=
  | run_nil w : run w [] w
  | run_cons a w w1 w2 l : dine_call a w w1 → run w1 l w2 → run w ((w, a) :: l) w2.

(** C7: nobody is told the token of a table's session, and so nobody can fill its cart or
    see its bill, without having opened it, presented its token, or given its PIN: if in
    a run of calls that starts without device [dev] at session [sid] some reply hands
    [dev] that session's token, then [dev] made an entitled call in the run. *)
Theorem token_needs_pin w l w' sid dev :
  floor_wf (h_db w) → run w l w' → ¬ registered sid dev (h_db w) →
  (∃ v a, (v, a) ∈ l ∧ told a sid dev) → ∃ v a, (v, a) ∈ l ∧ entitled v a sid dev.
Proof.
  intros Hwf Hrun. revert Hwf. induction Hrun as [w|a w w1 w2 l Hc _ IH]; intros Hwf Hreg (v & b & Hin & Ht);
    [by apply elem_of_nil in Hin|].
  pose proof (ef_devices _ _ _ (dine_effect _ _ _ (fw_ids _ Hwf) (fw_fit _ Hwf) Hc) sid dev) as Hd.
  apply elem_of_cons in Hin as [[= -> ->]|Hin].
  - destruct (Hd (or_intror Ht)) as [?|He]; [done|]. exists w, a. split; [by left|done].
  - destruct (decide (bool_decide (Exists (λ u, session_device sid dev u = true) (users (h_db w1))) = true)) as [Hr|Hr].
    + apply bool_decide_eq_true, Exists_exists in Hr as (u & Hu & Hud).
      destruct (Hd (or_introl (ex_intro _ u (conj Hu Hud)))) as [?|He]; [done|]. exists w, a. split; [by left|done].
    + destruct IH as (v' & b' & Hin' & He).
      * by eapply dine_wf.
      * intros (u & Hu & Hud). apply Hr, bool_decide_eq_true, Exists_exists. by exists u.
      * by exists v, b.
      * exists v', b'. split; [by right|done].
Qed.
End CalmOps.

(** ** A table for two *)

Definition demo_table : rtable := {|
  tb_place := {| tb_id := "t1"; tb_number := "7"; tb_capacity := Some 2; tb_user := "owner";
                 tb_restaurant := Some "r1"%string; tb_active := true |};
  tb_status := "blank"; tb_occupied := false; tb_occupied_since := None; tb_session_token := None;
  tb_current_order := None |}.

Definition no_book : order_db () := {| orders := []; order_items := []; payments := []; claims := [] |}.
Definition demo_floor : dine_db () := {|
  sessions := []; tables := [demo_table]; users := []; carts := []; links := []; receipts := [];
  kitchen_orders := []; kitchen_items := []; replies := []; book := no_book |}.
Definition demo_hall : hall ledger_db () := {|
  h_db := demo_floor; h_cache := ∅; h_bills := ∅; h_ledger := empty_ledger; h_events := [] |}.

Definition demo_dice (n : string) (now : Z) : dice := {|
  x_now := now; x_mono := now; x_session := "s" ++ n; x_token := "token" ++ n; x_pin := "0042"; x_user := "u" ++ n;
  x_cart := "c" ++ n; x_order := "order" ++ n; x_kitchen := "k" ++ n; x_receipt := "receipt" ++ n;
  x_payment := "pay" ++ n; x_stamp := {| MerchantLedger.now := now; yyyymm := "202506" |} |}.

Definition demo_scan (device n : string) (now : Z) (w : hall ledger_db ()) : hall ledger_db () * res scan_reply :=
  scan_qr "r1" "t1" device None false (h_db w) (demo_dice n now) w.
Definition demo_join (device pin n : string) (now : Z) (w : hall ledger_db ())
    : hall ledger_db () * res (string * string * option string) :=
  join_session "t1" device pin (demo_dice n now) w.

(** The first phone opens the session, the second is asked for the PIN. *)
Definition demo_opened : hall ledger_db () := (demo_scan "phone1" "1" 10 demo_hall).1.
Definition demo_refused : hall ledger_db () := (demo_scan "phone2" "2" 20 demo_opened).1.
Definition demo_joined : hall ledger_db () := (demo_join "phone2" " 0042" "3" 30 demo_refused).1.

Example demo_replies :
  (demo_scan "phone1" "1" 10 demo_hall).2 = Ok (Opened "s1" "token1" "0042" true None) ∧
  (demo_scan "phone2" "2" 20 demo_opened).2 = Ok (RequiresJoin "s1") ∧
  (demo_join "phone2" "1234" "3" 30 demo_refused).2 = Err (ValidationError "Invalid table PIN") ∧
  (demo_join "phone2" " 0042" "3" 30 demo_refused).2 = Ok ("s1", "token1", None)%string.
Proof. vm_compute. done. Qed.

Definition any_payment (p : payment) : bool := true.
Definition no_intent (q : intent_request) (g : ()) : () * res () := (g, Err (RuntimeError "no gateway")).
Definition no_amount (p : ()) : Z := 0.

Lemma demo_floor_wf : floor_wf (h_db demo_hall).
Proof.
  split; [constructor| |intros t; cbn; lia]. intros sid dev (u & Hu & _). by apply elem_of_nil in Hu.
Qed.

Notation demo_call := (dine_call false any_payment no_intent no_amount).

Lemma demo_scan_call device n now w r : (demo_scan device n now w).2 = r → demo_call (Scan device None r) w (demo_scan device n now w).1.
Proof. intros <-. eapply call_scan. apply surjective_pairing. Qed.
Lemma demo_join_call device pin n now w r :
  (demo_join device pin n now w).2 = r → demo_call (Join device pin r) w (demo_join device pin n now w).1.
Proof. intros <-. eapply call_join. apply surjective_pairing. Qed.

Lemma one_session_per_table_witness : (length (active_at "t1" (h_db demo_refused)) <= 1)%nat.
Proof.
  apply (one_session_per_table false any_payment no_intent no_amount demo_hall demo_refused demo_floor_wf).
  apply (rtc_l _ _ demo_opened); [|apply rtc_once]; eexists.
  - exact (demo_scan_call "phone1" "1" 10 demo_hall _ eq_refl).
  - exact (demo_scan_call "phone2" "2" 20 demo_opened _ eq_refl).
Defined.

Lemma token_needs_pin_witness : ∃ v a, entitled (L := ledger_db) (I := ()) v a "s1" "phone2".
Proof.
  destruct (token_needs_pin false any_payment no_intent no_amount demo_hall
    [(demo_hall, Scan "phone1" None (Ok (Opened "s1" "token1" "0042" true None)));
     (demo_opened, Scan "phone2" None (Ok (RequiresJoin "s1")));
     (demo_refused, Join "phone2" " 0042" (Ok ("s1", "token1", None)%string))] demo_joined "s1" "phone2") as (v & a & _ & He).
  - exact demo_floor_wf.
  - apply (run_cons _ _ _ _ _ _ demo_opened); [exact (demo_scan_call "phone1" "1" 10 demo_hall _ eq_refl)|].
    apply (run_cons _ _ _ _ _ _ demo_refused); [exact (demo_scan_call "phone2" "2" 20 demo_opened _ eq_refl)|].
    apply (run_cons _ _ _ _ _ _ demo_joined); [exact (demo_join_call "phone2" " 0042" "3" 30 demo_refused _ eq_refl)|].
    constructor.
  - intros (u & Hu & _). by apply elem_of_nil in Hu.
  - eexists demo_refused, _. split; [right; right; by left|]. done.
  - by exists v, a.
Defined.
