(* ===== verification/TableMoney.v ===== *)
(** The money of a table: what placing the cart adds to the session's bill, what payments
    take off it, and how the bill may be split.

    [grand_total] and [paid_total] of TableBilling are what both payment paths sum in
    SQL; the theorems are stated with them.  Prices of the cart are those the rows
    store: a guest's request can name any price for its addons. *)

From Stdlib Require Import ZArith Lia Ascii String.
From S2P Require Import Prelude PyDecimal PyFloat PyValues TaxEngine StateMachines FeePolicy MerchantLedger RazorpayLedgers Orders OrderBilling DineIn TableBilling DineInAccess.
Open Scope Z_scope.

(** ** Amounts *)

Lemma round_near m v c d : 0 < d → 4 * Z.abs (v - c * d) <= d → round_div m v d = c.
Proof. intros Hd H. pose proof (round_div_error m v d Hd). nia. Qed.

(** [column + float]: the float is an amount in paise, so the sum is exact. *)
Lemma pg_money_plus_exact old d n :
  at_scale 2 d n → Z.abs n < 10 ^ 15 → Z.abs (old + n) < 10 ^ 12 → pg_money_plus old (of_decimal d) = Ok (old + n).
Proof.
  intros Hd Hn Hb. unfold pg_money_plus. set (x := exact_decimal (of_decimal d)). set (e := Z.min (-2) (dexp x)).
  set (K := Z.max (- e) (- dexp d)). assert (2 <= K) as HK by lia. pose proof (pow10_pos (K - 2) ltac:(lia)) as Hp.
  assert (10 ^ K = 100 * 10 ^ (K - 2)) as H10 by (change 100 with (10 ^ 2); rewrite <-pow10_split by lia; f_equal; lia).
  pose proof (scaled_at_scale 2 K d n Hd ltac:(lia) HK) as Es.
  pose proof (float_error d K ltac:(lia) ltac:(fold x; lia) ltac:(lia)) as Hf. fold x in Hf. rewrite Es, H10 in Hf.
  rewrite Z.abs_mul, (Z.abs_eq (10 ^ (K - 2))) in Hf by lia. specialize (Hf ltac:(nia)). set (s := Dec _ e).
  assert (scaled K s = old * 10 ^ (K - 2) + scaled K x) as Esum.
  { unfold scaled, s. cbn [coef dexp]. rewrite Z.mul_add_distr_r, <-!Z.mul_assoc, <-!pow10_split by lia. do 3 f_equal; lia. }
  assert (rescale ROUND_HALF_UP (-2) s = old + n) as ->; [|by rewrite (proj2 (Z.ltb_lt _ _) Hb)].
  rewrite (rescale_scaled _ K) by (cbn; lia). apply round_near; [done|]. rewrite Esum.
  replace (old * 10 ^ (K - 2) + scaled K x - (old + n) * 10 ^ (K - 2)) with (scaled K x - n * 10 ^ (K - 2)) by ring. lia.
Qed.

(** A parameter of at most [c] paise is stored as at most [c] paise. *)
Lemma pg_money_le w d c n :
  pg_money w (of_decimal d) = Ok n → w <= 12 → dpos d = true → dltb (money_dec c) d = false → n <= c.
Proof.
  unfold pg_money. intros Hn Hw Hpos Hle.
  destruct (Z.ltb_spec (Z.abs (rescale ROUND_HALF_UP (-2) (exact_decimal (of_decimal d)))) (10 ^ w)) as [Hr|]; [|done].
  injection Hn as <-.
  assert (10 ^ w <= 10 ^ 12) as H12 by (destruct (Z.le_gt_cases 0 w); [by apply pow10_le|rewrite Z.pow_neg_r; lia]).
  destruct (Z.le_gt_cases (10 ^ 12) c); [lia|]. clear Hr H12.
  set (x := exact_decimal (of_decimal d)) in *. set (K := Z.max 2 (Z.max (- dexp d) (- dexp x))).
  pose proof (pow10_pos (K - 2) ltac:(lia)) as Hp.
  assert (10 ^ K = 100 * 10 ^ (K - 2)) as H10 by (change 100 with (10 ^ 2); rewrite <-pow10_split by lia; f_equal; lia).
  pose proof (at_scale_fine K d ltac:(lia)) as Hd. fold (scaled K d) in Hd.
  rewrite (dpos_at_scale K _ _ Hd) in Hpos. apply Z.ltb_lt in Hpos.
  pose proof (at_scale_up 2 K (money_dec c) c ltac:(lia) (at_scale_paise c)) as Hc.
  rewrite (dltb_at_scale K _ _ _ _ Hc Hd) in Hle. apply Z.ltb_ge in Hle.
  pose proof (float_error d K ltac:(lia) ltac:(fold x; lia) ltac:(lia)) as Hf. fold x in Hf. rewrite H10 in Hf. specialize (Hf ltac:(nia)).
  rewrite (rescale_scaled _ K) by lia. pose proof (round_div_error ROUND_HALF_UP (scaled K x) (10 ^ (K - 2)) Hp). nia.
Qed.

(** Amounts as the bill sums them: nothing yet, or whole paise. *)
Lemma money_val_column n : money_val (column_dec n) n.
Proof. unfold column_dec. destruct (Z.eqb_spec n 0) as [->|]; [by right|by left]. Qed.

Lemma money_val_add a b n m : money_val a n → money_val b m → fits (n + m) → money_val (dadd a b) (n + m).
Proof.
  intros Ha [->|[-> ->]] Hf; [left; by apply add_money|]. rewrite Z.add_0_r in *.
  destruct Ha as [->|[-> ->]]; [left|by right]. rewrite <-(Z.add_0_r n) at 2. apply money_add; [by right|by rewrite Z.add_0_r].
Qed.

Lemma money_val_sub a b n m : money_val a n → money_val b m → fits (n - m) → money_val (dsub a b) (n - m).
Proof. intros Ha Hb Hf. apply (money_val_add a (dneg b) n (- m)); [done| |done]. destruct Hb as [->|[-> ->]]; [by left|by right]. Qed.

Lemma money_val_sum l : Forall (λ n, 0 <= n) l → fits (zsum l) → money_val (dsum (map column_dec l)) (zsum l).
Proof.
  intros Hl. unfold dsum. assert (money_val d_zero 0) as H0 by (by right). change (zsum l) with (0 + zsum l).
  assert (0 <= 0) as Hn by done. generalize dependent d_zero. revert Hn. generalize 0 at 2 3 4 5. intros n Hn d Hd.
  revert n Hn d Hd. induction Hl as [|x l Hx Hl IH]; intros n Hn d Hd Hf; cbn [map foldl]; [cbn; by rewrite Z.add_0_r|].
  rewrite zsum_cons in *. pose proof (zsum_nonneg l Hl). rewrite Z.add_assoc. apply IH; [lia| |by rewrite <-Z.add_assoc].
  apply money_val_add; [done|apply money_val_column|]. unfold fits in *. lia.
Qed.

(** Whether an amount is positive survives the detour through JSON. *)
Lemma money_val_pos x n : money_val x n → 0 <= n < 10 ^ 15 → dpos (repr_decimal (of_decimal x)) = (0 <? n).
Proof.
  intros Hx Hn. destruct (Z.eq_dec n 0) as [->|Hnz].
  { assert (of_decimal x = f_zero) as ->; [|done]. by destruct Hx as [->|[-> _]]. }
  destruct Hx as [->|[_ ->]]; [|done]. pose proof (money_through_float ROUND_HALF_UP n Hn) as E.
  assert (0 < rescale ROUND_HALF_UP (-2) (repr_decimal (of_decimal (money_dec n)))) as Hpos by (unfold money_dec; rewrite E; lia).
  apply rescale_pos_coef in Hpos. set (r := repr_decimal _) in *.
  set (K := Z.max 0 (- dexp r)). pose proof (at_scale_fine K r ltac:(lia)) as Hr.
  rewrite (dpos_at_scale K r _ Hr), (proj2 (Z.ltb_lt 0 n)) by lia.
  apply Z.ltb_lt, Z.mul_pos_pos; [done|apply pow10_pos; lia].
Qed.

(** A lookup right after a lookup gives the same configuration. *)
Lemma tax_config_again (fetch : string → option settings_row) id now cache cfg cache' :
  get_tax_config fetch id now cache = Ok (cfg, cache') → get_tax_config fetch id now cache' = Ok (cfg, cache').
Proof.
  unfold get_tax_config. destruct (negb (str_truthy id)); [by intros [= <- <-]|].
  destruct (cache !! str_or id "") as [[c t]|] eqn:E.
  - destruct (now - t <? _CONFIG_TTL_SEC) eqn:Ht.
    + intros [= <- <-]. by rewrite E, Ht.
    + intros (c' & Hc & [= <- <-])%res_bind_Ok. by rewrite lookup_insert_eq, Z.sub_diag.
  - intros (c' & Hc & [= <- <-])%res_bind_Ok. by rewrite lookup_insert_eq, Z.sub_diag.
Qed.

(** ** Equal shares *)

(** The paise a share's float stands for. *)
Definition share_paise (s : share) : Z := rescale ROUND_HALF_UP (-2) (exact_decimal (sh_amount s)).

(** The share of [n] guests: the quotient to the nearest paisa. *)
Lemma equal_share_near a c n :
  at_scale 2 a c → 0 < c < 10 ^ 15 → 0 < n <= 10 ^ 6 →
  ∃ x per, ddiv a (d_int n) = Ok x ∧ quantize ROUND_HALF_EVEN (-2) x = Ok (Dec per (-2)) ∧ 2 * Z.abs (per * n - c) <= n.
Proof.
  intros Ha Hc Hn. assert (0 < coef a) as Hpos.
  { unfold at_scale in Ha. pose proof (pow10_pos (Z.max 0 (dexp a + 2)) ltac:(lia)). pose proof (pow10_pos (Z.max 0 (- (dexp a + 2))) ltac:(lia)). nia. }
  set (lo := Z.max 2 (Z.max (- dexp a) (Z.max 0 (ndigits n - ndigits (coef a) + prec + 1) - dexp a))).
  destruct (ddiv_int_near a n lo Hpos ltac:(lia)) as (y & e & E & Hy & _).
  destruct (ddiv_int_near a n (Z.max lo (- e)) Hpos ltac:(lia)) as (y' & e' & E' & _ & Hnear).
  rewrite E in E'. injection E' as <- <-. set (K := Z.max lo (- e)) in *.
  specialize (Hnear ltac:(lia) ltac:(lia) ltac:(lia)). pose proof (pow10_pos (K - 2) ltac:(lia)) as Hp.
  rewrite (proj1 (at_scale_shift 2 a c K ltac:(lia) ltac:(lia)) Ha) in Hnear.
  exists (Dec y e), (rescale ROUND_HALF_EVEN (-2) (Dec y e)). split; [done|].
  pose proof (rescale_scaled ROUND_HALF_EVEN K (Dec y e) ltac:(cbn; lia) ltac:(lia)) as Hr. unfold scaled in Hr. cbn [coef dexp] in Hr.
  pose proof (round_div_error ROUND_HALF_EVEN (y * 10 ^ (e + K)) (10 ^ (K - 2)) Hp) as Herr. rewrite <-Hr in Herr.
  set (per := rescale ROUND_HALF_EVEN (-2) (Dec y e)) in *. set (X := y * 10 ^ (e + K)) in *. set (T := 10 ^ (K - 2)) in *.
  assert (c * T <= 10 ^ 15 * T) as HcT by (apply Z.mul_le_mono_nonneg_r; lia).
  assert (2 * Z.abs (X * n - c * T) < T) as Hx by lia.
  assert (Z.abs (per * n - c) * 2 < n + 1) as Hlt.
  { apply (Z.mul_lt_mono_pos_r T); [done|].
    assert (Z.abs (per * n - c) * T = Z.abs ((per * T - X) * n + (X * n - c * T))) as E1.
    { rewrite <-(Z.abs_eq T) at 1 by lia. rewrite <-Z.abs_mul. f_equal. ring. }
    assert (2 * Z.abs (per * T - X) * n <= T * n) as H1 by (apply Z.mul_le_mono_nonneg_r; lia).
    assert (Z.abs ((per * T - X) * n) = Z.abs (per * T - X) * n) as H2 by (by rewrite Z.abs_mul, (Z.abs_eq n) by lia). lia. }
  split; [|lia]. apply quantize_Ok. split; [done|]. fold per. unfold fits, prec. clear -Hlt Hn Hc. nia.
Qed.

Lemma share_paise_money label user d n : at_scale 2 d n → Z.abs n < 10 ^ 15 → share_paise {| sh_label := label; sh_amount := of_decimal d; sh_user := user |} = n.
Proof. intros. by apply exact_money_through_float. Qed.

(** Equal shares of an amount add up to it; all but the first are the nearest paisa. *)
Lemma equal_shares_cover labels a c :
  at_scale 2 a c → 0 < c < 10 ^ 14 → labels ≠ [] → Z.of_nat (length labels) <= 10 ^ 6 →
  ∃ shares per, equal_shares labels a = Ok shares ∧ map (λ s, (sh_label s, sh_user s)) shares = labels ∧
    zsum (map share_paise shares) = c ∧ 2 * Z.abs (per * Z.of_nat (length labels) - c) <= Z.of_nat (length labels) ∧
    Forall (λ s, share_paise s = per) (tail shares).
Proof.
  intros Ha Hc Hne Hlen. destruct labels as [|l ls]; [done|]. set (n := Z.of_nat (length (l :: ls))) in *.
  assert (1 <= n) as Hn by (unfold n; cbn; lia).
  destruct (equal_share_near a c n Ha ltac:(lia) ltac:(lia)) as (x & per & E1 & E2 & Hper).
  unfold equal_shares. fold n. rewrite E1, bind_Ok, E2, bind_Ok. cbv zeta.
  pose proof (dmul_at_scale 2 0 (Dec per (-2)) (d_int n) per n (at_scale_paise per) (at_scale_Dec n 0 0 n eq_refl eq_refl)) as Hm.
  specialize (Hm ltac:(fits_tac)). rewrite Z.add_0_r in Hm.
  pose proof (dsub_at_scale 2 _ _ _ _ Ha Hm ltac:(fits_tac)) as Hdelta. set (delta := dsub _ _) in *.
  assert (0 <= per < 10 ^ 15) as Hpb by nia.
  set (first := if coef delta =? 0 then _ else _).
  assert (rescale ROUND_HALF_UP (-2) (exact_decimal first) = c - per * (n - 1)) as Hfirst.
  { unfold first. destruct (Z.eqb_spec (coef delta) 0) as [Hz|Hz].
    - apply (proj2 (at_scale_zero 2 delta)) in Hz. pose proof (at_scale_inj 2 _ _ _ Hz Hdelta) as E.
      rewrite (exact_money_through_float _ _ per (at_scale_paise per)) by lia. lia.
    - pose proof (dadd_at_scale 2 _ _ _ _ (repr_money per Hpb) Hdelta ltac:(fits_tac)) as Hd.
      rewrite (exact_money_through_float _ _ _ Hd) by nia. lia. }
  eexists _, per. split; [reflexivity|].
  assert (∀ s, s ∈ map (λ l : string * option string, {| sh_label := l.1; sh_amount := of_decimal (Dec per (-2)); sh_user := l.2 |}) ls →
    share_paise s = per) as Hrest.
  { intros s (y & -> & _)%list_elem_of_fmap. apply share_paise_money; [apply at_scale_paise|lia]. }
  split_and!.
  - cbn. rewrite map_map. cbn. f_equal; [by destruct l|]. rewrite <-(map_id ls) at 2. apply map_ext. by intros [].
  - cbn [map]. rewrite zsum_cons. unfold share_paise at 1. cbn [sh_amount]. rewrite Hfirst.
    enough (∀ k : list share, (∀ s, s ∈ k → share_paise s = per) → zsum (map share_paise k) = per * Z.of_nat (length k)) as ->.
    + rewrite length_map. unfold n. cbn [length]. lia.
    + exact Hrest.
    + intros k Hk. induction k as [|s k IH]; [cbn; lia|]. cbn [map length]. rewrite zsum_cons, IH, (Hk s); [lia|by left|].
      intros y Hy. apply Hk. by right.
  - exact Hper.
  - cbn [tail]. by apply Forall_forall.
Qed.

(** ** From the cart to the bill *)

Section Cart.
Context {I : Type}.
Implicit Types (db : dine_db I) (b : order_db I).

Definition cart_sale (m : menu) (c : cart_row) : sale_line := {|
  sl_item := ca_item c; sl_quantity := ca_quantity c; sl_unit := ca_unit_price c; sl_total := ca_total_price c;
  sl_name := ca_item_name c; sl_gst := gst_of m c |}.

Lemma cart_sale_priced m cart : Forall2 priced_line (map (cart_sale m) cart) (map (cart_item_of m) cart).
Proof. induction cart as [|c cart IH]; [constructor|]. cbn [map]. constructor; [by split|exact IH]. Qed.

Lemma cart_sale_totals m cart : map sl_total (map (cart_sale m) cart) = map ca_total_price cart.
Proof. by rewrite map_map. Qed.

(** The orders of a session, and the stored total of an order. *)
Definition linked (sid : string) db : list string := map lk_order (filter (λ l, lk_session l = sid) (links db)).
Definition order_total b (id : string) : Z := from_option o_total_amount 0 (order_by_id id b).

Lemma grand_total_linked sid db : grand_total sid db = zsum (map (order_total (book db)) (linked sid db)).
Proof.
  unfold grand_total, orders_of, linked. rewrite map_map. induction (filter _ (links db)) as [|l ls IH]; [done|].
  cbn [map]. rewrite zsum_cons, <-IH. unfold order_total at 1. cbn [omap list_omap].
  destruct (order_by_id (lk_order l) (book db)); [|done]. cbn [map from_option]. by rewrite zsum_cons.
Qed.

Lemma order_total_other b id o : o_id o ≠ id → order_total
  {| orders := orders b ++ [o]; order_items := order_items b; payments := payments b; claims := claims b |} id = order_total b id.
Proof.
  intros Hne. unfold order_total, order_by_id. cbn [orders]. induction (orders b) as [|x l IH]; cbn.
  - by rewrite bool_decide_eq_false_2.
  - by case_bool_decide.
Qed.

Lemma order_total_new b o : existsb (λ x, bool_decide (o_id x = o_id o)) (orders b) = false → order_total
  {| orders := orders b ++ [o]; order_items := order_items b; payments := payments b; claims := claims b |} (o_id o) = o_total_amount o.
Proof.
  unfold order_total, order_by_id. cbn [orders]. induction (orders b) as [|x l IH]; cbn.
  - by rewrite bool_decide_eq_true_2.
  - by case_bool_decide.
Qed.

Lemma order_total_updated b o o' id : o_id o' = o_id o → order_total (update_orders (o_id o) (λ _, o') b) id =
  if bool_decide (o_id o = id ∧ is_Some (order_by_id id b)) then o_total_amount o' else order_total b id.
Proof.
  intros Hid. unfold order_total, order_by_id, update_orders. cbn [orders].
  induction (orders b) as [|x l IH]; cbn; [by case_bool_decide as H; [destruct H as [_ [? ?]]|]|].
  destruct (bool_decide_reflect (o_id x = o_id o)) as [E|E].
  - rewrite Hid, E. destruct (bool_decide_reflect (o_id o = id)) as [<-|Hne]; cbn.
    + rewrite bool_decide_eq_true_2; [done|]. by split.
    + rewrite (bool_decide_eq_false_2 (_ ∧ _)) in * by tauto. exact IH.
  - destruct (bool_decide_reflect (o_id x = id)) as [<-|Hne]; cbn; [|exact IH].
    rewrite bool_decide_eq_false_2; [done|]. intros [? _]. congruence.
Qed.

(** One member of a list without duplicates grows. *)
Lemma zsum_grown (f g : string → Z) k n l :
  NoDup l → k ∈ l → g k = f k + n → (∀ x, x ≠ k → g x = f x) → zsum (map g l) = zsum (map f l) + n.
Proof.
  intros Hnd Hk Hg Hf. induction Hnd as [|x l Hx Hnd IH]; [by apply elem_of_nil in Hk|]. cbn [map]. rewrite !zsum_cons.
  apply elem_of_cons in Hk as [<-|Hk].
  - rewrite Hg. enough (map g l = map f l) as -> by lia. apply map_ext_in. intros y Hy%list_elem_of_In. apply Hf. by intros ->.
  - rewrite (IH Hk), (Hf x); [lia|]. by intros ->.
Qed.

(** A cart that can be placed: its rows fit an order row and add up to less than the
    bound of a checkout, the texts fit their columns, the order's id is new, and an open
    order is linked to the session once and has room for the new lines. *)
Record cart_ready (m : menu) (s : session) (q : placing) (d : dice) (cfg : TaxConfig) db : Prop := {
  cr_some : cart_of (se_id s) db ≠ [];
  cr_fits : Forall (line_fits cfg) (map (cart_sale m) (cart_of (se_id s) db));
  cr_bound : zsum (map ca_total_price (cart_of (se_id s) db)) < order_bound;
  cr_number : varchar_opt 20 (gst_number cfg) = Ok (gst_number cfg);
  cr_table : let n := option_map (λ t : rtable, tb_number t) (find_table (se_table s) db) in varchar_opt 50 n = Ok n;
  cr_phone : varchar_opt 20 (pl_customer_phone q) = Ok (pl_customer_phone q);
  cr_order : existsb (λ x, bool_decide (o_id x = x_order d)) (orders (book db)) = false;
  cr_unlinked : x_order d ∉ linked (se_id s) db;
  cr_once : NoDup (linked (se_id s) db);
  cr_open : ∀ o, open_order s (book db) = Some o → o_id o ∈ linked (se_id s) db ∧
    Forall (λ n, 0 <= n ∧ n + 10 * zsum (map ca_total_price (cart_of (se_id s) db)) < 10 ^ 12)
      [o_subtotal o; o_tax_amount o; o_cgst_amount o; o_sgst_amount o; o_total_amount o];
}.

Lemma cart_total_nonneg m s q d cfg db : cart_ready m s q d cfg db → 0 <= zsum (map ca_total_price (cart_of (se_id s) db)).
Proof.
  intros Hr. rewrite <-(cart_sale_totals m). apply zsum_nonneg, Forall_map. eapply Forall_impl; [exact (cr_fits _ _ _ _ _ _ Hr)|].
  by intros l [_ ? _ _].
Qed.

(** What booking the order leaves alone. *)
Record books (sid order : string) (n : Z) db db' : Prop := {
  bk_total : grand_total sid db' = grand_total sid db + n;
  bk_linked : order ∈ linked sid db';
  bk_items : order_items (book db') = order_items (book db);
  bk_carts : carts db' = carts db;
  bk_receipts : receipts db' = receipts db;
  bk_kitchen : kitchen_items db' = kitchen_items db ∧ kitchen_orders db' = kitchen_orders db;
}.

Lemma book_new_order m s q d cfg db lines (b : CartTaxBreakdown) tn :
  cart_ready m s q d cfg db → open_order s (book db) = None →
  cart_bill lines (map ca_total_price (cart_of (se_id s) db)) cfg false b →
  varchar_opt 50 tn = Ok tn →
  ∃ db1, book_order s q tn d b b db = Ok (db1, x_order d, false) ∧ books (se_id s) (x_order d) (pz (ct_grand_total b)) db db1.
Proof.
  intros Hr Hopen Hb Htn. unfold book_order, dine_order. rewrite Hopen.
  pose proof (cart_total_nonneg _ _ _ _ _ _ Hr) as H0.
  rewrite (read_bill_spec _ _ _ _ Hb), bind_Ok by (split; [done|exact (cr_bound _ _ _ _ _ _ Hr)]).
  assert (varchar_opt 20 (ct_gst_number b) = Ok (ct_gst_number b)) as ->.
  { rewrite (cb_number _ _ _ _ _ Hb). destruct (gst_enabled cfg); [exact (cr_number _ _ _ _ _ _ Hr)|done]. }
  rewrite bind_Ok, Htn, bind_Ok, (cr_phone _ _ _ _ _ _ Hr), !bind_Ok. unfold insert_order. cbn [o_id].
  pose proof (cr_order _ _ _ _ _ _ Hr) as Hnew. rewrite Hnew. cbn [raise_if]. rewrite !bind_Ok.
  eexists. split; [reflexivity|]. match goal with |- context [orders (book db) ++ [?x]] => set (o := x) end.
  set (bk := Build_order_db _ _ _ _). set (l := {| lk_session := _ |}). set (db0 := with_book bk db).
  assert (add_link l db0 = with_links (λ r, r ++ [l]) db0) as ->.
  { unfold add_link. destruct (existsb _ (links db0)) eqn:E; [|reflexivity]. exfalso. apply (cr_unlinked _ _ _ _ _ _ Hr).
    apply existsb_exists in E as (x & Hx & E). apply list_elem_of_In in Hx. apply andb_prop in E as [E1%bool_decide_eq_true E2%bool_decide_eq_true].
    unfold linked. apply list_elem_of_fmap. exists x. split; [done|]. by apply list_elem_of_filter. }
  assert (linked (se_id s) (with_links (λ r, r ++ [l]) db0) = linked (se_id s) db ++ [x_order d]) as Hl.
  { unfold linked. cbn. rewrite filter_app, map_app, filter_cons, decide_True by done. done. }
  split; try done.
  - rewrite !grand_total_linked. unfold update_session. cbn [book with_sessions with_links].
    change (linked (se_id s) (with_sessions _ _)) with (linked (se_id s) (with_links (λ r, r ++ [l]) db0)). rewrite Hl.
    rewrite map_app, zsum_app. cbn [map]. change (zsum [?x]) with (x + 0). f_equal.
    + f_equal. apply map_ext_in. intros id Hid%list_elem_of_In. apply (order_total_other (book db) id o).
      intros E. apply (cr_unlinked _ _ _ _ _ _ Hr). by rewrite <-E in Hid.
    + change (x_order d) with (o_id o). unfold db0, bk. cbn [book with_book].
      rewrite (order_total_new (book db) o Hnew). cbn. lia.
  - change (x_order d ∈ linked (se_id s) (with_links (λ r, r ++ [l]) db0)). rewrite Hl. apply elem_of_app. right. by left.
Qed.

Lemma book_append m s q d cfg db lines (b : CartTaxBreakdown) tn o :
  cart_ready m s q d cfg db → open_order s (book db) = Some o →
  cart_bill lines (map ca_total_price (cart_of (se_id s) db)) cfg false b →
  ∃ db1, book_order s q tn d b b db = Ok (db1, o_id o, true) ∧ books (se_id s) (o_id o) (pz (ct_grand_total b)) db db1.
Proof.
  intros Hr Hopen Hb. unfold book_order. pose proof (cr_bound _ _ _ _ _ _ Hr) as Hbd. unfold order_bound in Hbd.
  pose proof (cart_total_nonneg _ _ _ _ _ _ Hr) as H0. rewrite Hopen. destruct (cr_open _ _ _ _ _ _ Hr o Hopen) as [Hin Hroom].
  destruct (bill_bounds _ _ _ _ Hb) as (Hall & _). rewrite !Forall_cons in Hall.
  destruct Hall as ([X1 Y1] & _ & [X3 Y3] & [X4 Y4] & [X5 Y5] & [X6 Y6] & _).
  rewrite !Forall_cons in Hroom. destruct Hroom as (R1 & R3 & R4 & R5 & R6 & _).
  unfold add_bill. rewrite (pg_money_plus_exact _ _ _ X1), bind_Ok, (pg_money_plus_exact _ _ _ X3), bind_Ok,
    (pg_money_plus_exact _ _ _ X4), bind_Ok, (pg_money_plus_exact _ _ _ X5), bind_Ok, (pg_money_plus_exact _ _ _ X6), !bind_Ok
    by lia.
  eexists. split; [reflexivity|]. set (o' := set_amounts _ _ _ _ _ _ o).
  assert (is_Some (order_by_id (o_id o) (book db))) as Ho.
  { unfold open_order in Hopen. destruct (str_truthy _); [|done]. destruct (order_by_id _ _) as [x|] eqn:E; [|done].
    case_match; [|done]. injection Hopen as <-. pose proof E as [_ Hx]%find_Some_in. apply bool_decide_eq_true in Hx.
    rewrite Hx, E. by eexists. }
  split; try done. rewrite !grand_total_linked. change (linked (se_id s) (with_book _ db)) with (linked (se_id s) db).
  cbn [book with_book]. apply (zsum_grown _ _ (o_id o)); [exact (cr_once _ _ _ _ _ _ Hr)|exact Hin|..].
  - rewrite order_total_updated by done. rewrite bool_decide_eq_true_2 by done. cbn. unfold order_total.
    destruct Ho as [x Hx]. rewrite Hx. cbn. unfold open_order in Hopen.
    destruct (str_truthy _); [|done]. destruct (order_by_id (str_or _ _) _) as [y|] eqn:E; [|done].
    case_match; [|done]. injection Hopen as <-. pose proof E as [_ Hy]%find_Some_in. apply bool_decide_eq_true in Hy.
    rewrite Hy, E in Hx. by injection Hx as <-.
  - intros x Hx. rewrite order_total_updated by done. rewrite bool_decide_eq_false_2; [done|]. intros [? _]. congruence.
Qed.

(** What a cart row is stored as, and what the kitchen gets for it. *)
Definition serves (order : string) (c : cart_row) (row : order_item) : Prop :=
  oi_order row = order ∧ oi_item row = ca_item c ∧ oi_name row = ca_item_name c ∧ oi_quantity row = ca_quantity c ∧
  oi_unit_price row = ca_unit_price c ∧ oi_total_price row = ca_total_price c.
Definition cooks (kitchen_order : string) (x : cart_row * order_item) (k : kitchen_item) : Prop :=
  ki_kitchen_order k = kitchen_order ∧ ki_order_item k = oi_id x.2 ∧ ki_status k = "queued"%string ∧
  ki_name k = ca_item_name x.1 ∧ ki_quantity k = ca_quantity x.1.

Lemma serves_cooks order kitchen_order cart rows :
  Forall2 (serves order) cart rows →
  Forall2 (cooks kitchen_order) (zip cart rows)
    (map (λ r, {| ki_kitchen_order := kitchen_order; ki_order_item := oi_id r; ki_status := "queued"; ki_name := oi_name r;
                  ki_quantity := oi_quantity r |}) rows).
Proof.
  induction 1 as [|c row cart rows (_ & _ & H1 & H2 & _) _ IH]; [constructor|]. cbn [zip zip_with map]. constructor; [|exact IH]. by split_and!.
Qed.

Lemma stored_serves m order cart (rs : list LineTaxResult) rows :
  length rs = length cart → Forall2 (λ x row, stored_line order x.1 x.2 row) (zip (map (cart_sale m) cart) rs) rows →
  Forall2 (serves order) cart rows.
Proof.
  revert rs rows. induction cart as [|c cart IH]; intros [|r rs] rows Hlen H; try done; inversion H as [|? row ? rows' Hx H']; subst; constructor.
  - destruct Hx as [H1 H2 H3 H4 H5 _ _ _ _ _ _ H6]. by split_and!.
  - apply (IH rs); [by injection Hlen|done].
Qed.

Lemma book_cart m (s : session) q d cfg db (b : CartTaxBreakdown) :
  cart_ready m s q d cfg db →
  cart_bill (map (tax_line cfg) (map (cart_sale m) (cart_of (se_id s) db))) (map ca_total_price (cart_of (se_id s) db)) cfg false b →
  ∃ db1 order ap, book_order s q (option_map (λ t : rtable, tb_number t) (find_table (se_table s) db)) d b b db = Ok (db1, order, ap) ∧
    books (se_id s) order (pz (ct_grand_total b)) db db1.
Proof.
  intros Hr Hb. destruct (open_order s (book db)) as [o|] eqn:Ho.
  - destruct (book_append _ _ _ _ _ _ _ _ (option_map (λ t : rtable, tb_number t) (find_table (se_table s) db)) _ Hr Ho Hb) as (db1 & E & Hbk).
    by eexists _, _, _.
  - destruct (book_new_order _ _ _ _ _ _ _ _ (option_map (λ t : rtable, tb_number t) (find_table (se_table s) db)) Hr Ho Hb (cr_table _ _ _ _ _ _ Hr)) as (db1 & E & Hbk).
    by eexists _, _, _.
Qed.

(** What a placed cart leaves behind. *)
Record placed (s : session) (order kitchen_order : string) (n : Z) (cart : list cart_row) (rows : list order_item) db db' : Prop := {
  pc_total : grand_total (se_id s) db' = grand_total (se_id s) db + n;
  pc_linked : order ∈ linked (se_id s) db';
  pc_items : order_items (book db') = order_items (book db) ++ rows;
  pc_rows : Forall2 (serves order) cart rows;
  pc_carts : carts db' = filter (λ c, ca_session c ≠ se_id s) (carts db);
  pc_receipts : receipts db' = receipts db;
  pc_kitchen : kitchen_orders db' = kitchen_orders db ++
    [{| ko_id := kitchen_order; ko_order := order; ko_restaurant := se_restaurant s; ko_user := se_user s; ko_branch := se_branch s;
        ko_status := "queued" |}];
  pc_cooked : ∃ new, kitchen_items db' = kitchen_items db ++ new ∧ Forall2 (cooks kitchen_order) (zip cart rows) new;
}.

Lemma place_writes_spec m (s : session) q d cfg db (b : CartTaxBreakdown) :
  let cart := cart_of (se_id s) db in
  cart_ready m s q d cfg db →
  cart_bill (map (tax_line cfg) (map (cart_sale m) cart)) (map ca_total_price cart) cfg false b →
  ∃ db' order number ap rows,
    place_writes s q d (map (cart_item_of m) cart) b b db
      = Ok (db', OrderPlaced order number (x_kitchen d) (of_decimal (ct_grand_total b)) ap (Z.of_nat (length cart))) ∧
    placed s order (x_kitchen d) (pz (ct_grand_total b)) cart rows db db' ∧
    Forall2 (λ x row, stored_line order x.1 x.2 row) (zip (map (cart_sale m) cart) (ct_lines b)) rows.
Proof.
  intros cart Hr Hb. unfold place_writes. destruct (book_cart _ _ _ _ _ _ _ Hr Hb) as (db1 & order & ap & E & Hbk).
  rewrite E, bind_Ok. destruct Hbk as [B1 B2 B3 B4 B5 [B6 B7]].
  pose proof (cb_totals _ _ _ _ _ Hb) as Htot. pose proof (cr_bound _ _ _ _ _ _ Hr) as Hbd. fold cart in Hbd.
  rewrite <-(cart_sale_totals m) in Htot, Hbd.
  destruct (insert_items_spec cfg (owner_context s) (order_draw order d) _ _ _ (order_items (book db1)) (cr_fits _ _ _ _ _ _ Hr)
    (cart_sale_priced m cart) (cb_ok _ _ _ _ _ Hb) Htot Hbd) as (rows & Eins & _ & Hrows).
  unfold book_items. rewrite Eins, bind_Ok. rewrite drop_app_length. cbn zeta. rewrite bind_Ok.
  assert (length (ct_lines b) = length cart) as Hlen.
  { by rewrite <-(length_map total_of), (cb_totals _ _ _ _ _ Hb), length_map. }
  eexists _, order, _, ap, rows. rewrite length_map. split; [reflexivity|]. split; [|exact Hrows].
  set (db2 := with_kitchen _ _ _). set (db3 := match find_table _ _ with Some _ => _ | None => _ end).
  assert (links db3 = links db1 ∧ orders (book db3) = orders (book db1) ∧ order_items (book db3) = order_items (book db1) ++ rows ∧
    carts db3 = carts db1 ∧ receipts db3 = receipts db1 ∧ kitchen_items db3 = kitchen_items db2 ∧ kitchen_orders db3 = kitchen_orders db2)
    as (D1 & D2 & D3 & D4 & D5 & D6 & D7).
  { unfold db3. by destruct (find_table _ _). }
  assert (Forall2 (serves order) cart rows) as Hserved by (by apply (stored_serves m order cart (ct_lines b))).
  split.
  - rewrite <-B1. unfold grand_total, orders_of, order_by_id. cbn [links book with_carts]. by rewrite D1, D2.
  - unfold linked. cbn [links with_carts]. by rewrite D1.
  - cbn [book with_carts]. by rewrite D3, B3.
  - exact Hserved.
  - cbn [carts with_carts]. by rewrite D4, B4.
  - cbn [receipts with_carts]. by rewrite D5, B5.
  - cbn [kitchen_orders with_carts]. rewrite D7. unfold db2. cbn. by rewrite B7.
  - eexists. cbn [kitchen_items with_carts]. rewrite D6. unfold db2. cbn. rewrite B6. split; [reflexivity|]. by apply (serves_cooks order).
Qed.
End Cart.

Section Money.
Context {L : Type} `{LedgerApi L} {I : Type}.
Implicit Types (w : hall L I) (db : dine_db I).

(** C11: placing the cart adds to the session's bill exactly what the cart shows, whether
    it opens an order or grows the open one: every cart row becomes an order row at its
    price and quantity and a queued kitchen item of its name and quantity, under the one new
    kitchen order, the sum of the session's orders grows by the
    sum of the cart and the tax of the rows whose price does not contain it, nothing that
    was paid is touched, and the cart, and only this session's, is empty. *)
Theorem cart_becomes_order m (seen : session) q checked d cfg cache' w :
  let cart := cart_of (se_id seen) (h_db w) in
  cart_ready m seen q d cfg (h_db w) → cached_reply (pl_request q) (se_id seen) checked = None →
  get_tax_config (λ id, settings m id) (se_restaurant seen) (x_mono d) (h_cache w) = Ok (cfg, cache') →
  ∃ w' order number b ap rows, place_order m seen q checked true d w
      = (w', Ok (OrderPlaced order number (x_kitchen d) (of_decimal (ct_grand_total b)) ap (Z.of_nat (length cart)))) ∧
    compute_cart_tax (map (tax_line cfg) (map (cart_sale m) cart)) (PDec d_zero) cfg false = Ok b ∧
    placed seen order (x_kitchen d) (zsum (map ca_total_price cart) + zsum (map added_tax rows)) cart rows (h_db w) (h_db w') ∧
    h_bills w' !! se_id seen = None.
Proof.
  intros cart Hr Hcache Hcfg. unfold place_order, place_txn. rewrite Hcache. cbn [negb]. fold cart.
  rewrite bool_decide_eq_false_2 by exact (cr_some _ _ _ _ _ _ Hr). rewrite Hcfg.
  rewrite (tax_lines_priced cfg _ _ (cart_sale_priced m cart)).
  assert (zsum (map sl_total (map (cart_sale m) cart)) < money_bound) as Hmb.
  { rewrite cart_sale_totals. pose proof (cr_bound _ _ _ _ _ _ Hr) as Hbd. fold cart in Hbd. unfold order_bound, money_bound in *. lia. }
  pose proof (lines_input cfg _ (cr_fits _ _ _ _ _ _ Hr) Hmb) as Hin. fold cart in Hin.
  destruct (cart_spec _ _ (PDec d_zero) cfg false Hin) as (b & Eb & Hb). rewrite Eb, (tax_config_again _ _ _ _ _ _ Hcfg).
  pose proof Hb as Hb'. rewrite cart_sale_totals in Hb'.
  destruct (place_writes_spec m seen q d cfg (h_db w) b Hr Hb') as (db' & order & number & ap & rows & E & Hp & Hrows).
  fold cart in E, Hp, Hrows.
  assert (match open_order seen (book (h_db w)) with Some _ => Ok (cfg, cache') | None => Ok (cfg, cache') end = Ok (cfg, cache')) as ->
    by (by destruct (open_order _ _)).
  rewrite (tax_lines_priced cfg _ _ (cart_sale_priced m cart)), Eb, bind_Ok, E.
  destruct (bill_sums order _ cfg b rows 0 Hin (or_intror (conj eq_refl Eb)) Hb Hrows) as (_ & S2 & S3 & _ & S5).
  rewrite cart_sale_totals in S2, S3. pose proof (cart_total_nonneg _ _ _ _ _ _ Hr) as H0. fold cart in H0.
  eexists _, order, number, b, ap, rows. split; [reflexivity|]. split; [done|]. split; [|cbn; apply lookup_delete_eq].
  cbn [h_db _invalidate_bill_cache placed_events emit]. replace (zsum _ + zsum _) with (pz (ct_grand_total b)) by lia.
  unfold remember. destruct (str_truthy _); [|exact Hp]. cbn [h_db on_db]. unfold _save_idempotency.
  destruct (existsb _ _); [exact Hp|]. destruct Hp. by split.
Qed.

(** ** Payments *)

(** The tables the balance of a session is read from. *)
Record same_tab (db db' : dine_db I) : Prop := {
  tab_links : links db' = links db;
  tab_orders : orders (book db') = orders (book db);
  tab_receipts : receipts db' = receipts db;
}.

#[export] Instance same_tab_preorder : PreOrder same_tab.
Proof. split; [by split|]. intros a b c [A1 A2 A3] [B1 B2 B3]. split; congruence. Qed.

Lemma same_tab_grand sid db db' : links db' = links db → orders (book db') = orders (book db) → grand_total sid db' = grand_total sid db.
Proof. intros E1 E2. unfold grand_total, orders_of, order_by_id. by rewrite E1, E2. Qed.

Lemma same_tab_paid sid db db' : receipts db' = receipts db → paid_total sid db' = paid_total sid db.
Proof. intros E. unfold paid_total, receipts_of. by rewrite E. Qed.

Lemma write_totals_tab sid g p r (db db' : dine_db I) : write_totals sid g p r db = Ok db' → same_tab db db'.
Proof. unfold write_totals. intros Hr. inv_res. by simplify_eq. Qed.

Lemma read_bill_tab sid db r : read_session_bill sid db = Ok r → same_tab db r.1.
Proof.
  unfold read_session_bill. destruct (find_session sid db); [|done].
  intros (db' & Hw%write_totals_tab & Hr)%res_bind_Ok. by injection Hr as <-.
Qed.

Lemma get_bill_tab sid now w : same_tab (h_db w) (h_db (get_session_bill sid now w).1).
Proof.
  unfold get_session_bill. destruct (read_session_bill sid (h_db w)) as [[db b]|e] eqn:E; [apply read_bill_tab in E|];
    (destruct (h_bills w !! sid) as [[b0 t]|]; [destruct (now <? t)|]); try done; exact E.
Qed.

Lemma vacate_tab sid by_ now w : same_tab (h_db w) (h_db (vacate_session sid by_ now w).1).
Proof. unfold vacate_session. destruct (find_session _ _) as [s|]; [|done]. by destruct (negb (is_active s)). Qed.

Lemma paid_and_vacate_tab sid by_ force now w : same_tab (h_db w) (h_db (paid_and_vacate sid by_ force now w).1).
Proof.
  unfold paid_and_vacate. pose proof (get_bill_tab sid now w) as Hb.
  destruct (get_session_bill sid now w) as [w1 [b|e]]; [|done]. cbn [fst] in Hb. destruct (_ && _); [done|].
  etrans; [exact Hb|apply vacate_tab].
Qed.

(** One receipt more, of an amount that was still due (as the decimals of the code have
    it, which are exact below 10^28 paise). *)
Record collects (sid : string) (ref : option string) (db db' : dine_db I) : Prop := {
  co_links : links db' = links db;
  co_orders : orders (book db') = orders (book db);
  co_receipt : ∃ r, receipts db' = receipts db ++ [r] ∧ rc_session r = sid ∧ varchar_opt 120 ref = Ok (rc_transaction_ref r) ∧
    0 < rc_amount r ∧ (fits (grand_total sid db - paid_total sid db) → rc_amount r <= grand_total sid db - paid_total sid db);
}.

Lemma collects_tab sid ref a b c : collects sid ref a b → same_tab b c → collects sid ref a c.
Proof. intros [A1 A2 (r & A3 & Hr)] [B1 B2 B3]. split; [congruence..|]. exists r. split; [congruence|done]. Qed.

Lemma tab_collects sid ref a b c : same_tab a b → collects sid ref b c → collects sid ref a c.
Proof.
  intros [A1 A2 A3] [B1 B2 (r & B3 & Hr)]. split; [congruence..|]. exists r. split; [congruence|].
  by rewrite (same_tab_grand _ _ _ A1 A2), (same_tab_paid _ _ _ A3) in Hr.
Qed.

Lemma insert_receipt_collects r amt (db db' : dine_db I) :
  insert_receipt r amt db = Ok db' → dpos amt = true →
  (fits (grand_total (rc_session r) db - paid_total (rc_session r) db) →
   dltb (money_dec (grand_total (rc_session r) db - paid_total (rc_session r) db)) amt = false) →
  collects (rc_session r) (rc_transaction_ref r) db db'.
Proof.
  unfold insert_receipt. intros (n & Hn & Hr)%res_bind_Ok Hpos Hle.
  apply res_bind_Ok in Hr as (? & Hn0%raise_if_Ok & Hr). apply res_bind_Ok in Hr as (me & _ & Hr).
  apply res_bind_Ok in Hr as (ref & Href & Hr). apply res_bind_Ok in Hr as (pb & _ & Hr). injection Hr as <-.
  apply Z.leb_gt in Hn0. split; [done..|]. eexists. split; [reflexivity|]. cbn [rc_session rc_transaction_ref rc_amount].
  split; [done|]. split; [done|]. split; [done|]. intros Hf. by eapply (pg_money_le 12); [..|apply Hle].
Qed.

(** What is due, below 10^28 paise. *)
Lemma due_exact sid (db : dine_db I) :
  fits (grand_total sid db - paid_total sid db) →
  at_scale 2 (dsub (money_dec (grand_total sid db)) (money_dec (paid_total sid db))) (grand_total sid db - paid_total sid db).
Proof. intros Hf. apply dsub_at_scale; [apply at_scale_paise..|exact Hf]. Qed.

Lemma due_covers d c amt : at_scale 2 d c → dltb d amt = dltb (money_dec c) amt.
Proof.
  intros Hd. set (s := Z.max 2 (- dexp amt)). pose proof (at_scale_fine s amt ltac:(lia)) as Ha.
  rewrite (dltb_at_scale s _ _ _ _ (at_scale_up 2 s _ _ ltac:(lia) Hd) Ha).
  by rewrite (dltb_at_scale s _ _ _ _ (at_scale_up 2 s (money_dec c) c ltac:(lia) (at_scale_paise c)) Ha).
Qed.

Variable linked_once : bool.
Variable accepts : payment → bool.

Lemma mirror_tab s m a d db r : mirror_payment accepts s m a d db = Ok r → same_tab db r.1.
Proof.
  unfold mirror_payment. destruct (last_order _ _) as [o|]; [|by intros [= <-]].
  intros (n & _ & Hr)%res_bind_Ok. apply res_bind_Ok in Hr as (bk & Hb & Hr). injection Hr as <-.
  unfold insert_payment in Hb. apply res_bind_Ok in Hb as (? & _ & Hb). apply res_bind_Ok in Hb as (? & _ & Hb). by injection Hb as <-.
Qed.

Lemma dpos_clamp d : dpos (clamp_zero d) = true → clamp_zero d = d ∧ dpos d = true.
Proof. unfold clamp_zero. by destruct (dltb d d_zero). Qed.

Lemma pay_check_due sid p db s amt remaining :
  pay_check sid p db = Ok (s, amt, remaining) →
  dpos amt = true ∧ (fits (grand_total sid db - paid_total sid db) →
    dltb (money_dec (grand_total sid db - paid_total sid db)) amt = false).
Proof.
  unfold pay_check. intros (a & _ & Hr)%res_bind_Ok. apply res_bind_Ok in Hr as (? & Hpos%raise_if_Ok & Hr).
  destruct (find_session sid db); [|done]. apply res_bind_Ok in Hr as (? & _ & Hr).
  apply res_bind_Ok in Hr as (? & Hrem%raise_if_Ok & Hr). apply res_bind_Ok in Hr as (? & Hle%raise_if_Ok & Hr).
  injection Hr as -> -> _. apply negb_false_iff in Hpos, Hrem. split; [done|].
  intros Hf. apply dpos_clamp in Hrem as [E _]. rewrite E, (due_covers _ _ _ (due_exact sid db Hf)) in Hle. done.
Qed.

Lemma record_payment_tab sid p d w :
  let w' := (record_session_payment accepts sid p d w).1 in
  same_tab (h_db w) (h_db w') ∨ collects sid (pi_transaction_ref p) (h_db w) (h_db w').
Proof.
  unfold record_session_payment. destruct (pay_check sid p (h_db w)) as [[[s amt] rem]|] eqn:Ec; [|by left].
  apply (pay_check_due sid p _ s amt rem) in Ec as [Hpos Hle].
  destruct (pay_txn accepts sid p s amt rem d w) as [w1|] eqn:Et; [|by left].
  assert (same_tab (h_db w) (h_db w1) ∨ collects sid (pi_transaction_ref p) (h_db w) (h_db w1)) as H1.
  { unfold pay_txn in Et. apply res_bind_Ok in Et as (r & Hw & Et). injection Et as <-.
    assert (collects sid (pi_transaction_ref p) (h_db w) r.1) as Hc.
    { unfold pay_writes in Hw. apply res_bind_Ok in Hw as (db1 & Hi & Hw).
      apply insert_receipt_collects in Hi; [|done|exact Hle]. cbn [rc_session rc_transaction_ref] in Hi.
      apply res_bind_Ok in Hw as (m & Hm & Hw). apply res_bind_Ok in Hw as (db2 & Ht%write_totals_tab & Hw). injection Hw as <-.
      destruct (mirror_payment _ _ _ _ _ _) as [m'|] eqn:Em; [|done]. injection Hm as <-. apply mirror_tab in Em.
      eapply collects_tab; [exact Hi|]. etrans; [exact Em|exact Ht]. }
    destruct (post_payment_received _ _ _ _ _ _ _) as [l|e]; [by right|]. destruct (sql_error e); [by left|by right]. }
  destruct (negb (dpos _)); [|destruct H1 as [H1|H1]; [left|right]; exact H1].
  pose proof (paid_and_vacate_tab sid (pi_created_by p) false (x_now d) (_invalidate_bill_cache sid w1)) as H3.
  destruct (paid_and_vacate _ _ _ _ _) as [w3 [r|e]]; cbn [fst] in H3;
    (destruct H1 as [H1|H1]; [left; etrans; [exact H1|exact H3]|right; eapply collects_tab; [exact H1|exact H3]]).
Qed.

(** The session a gateway payment for an order is settled on. *)
Definition session_of_order (order : string) db : option string :=
  lk_session <$> find (λ l, bool_decide (lk_order l = order)) (links db).

Lemma settle_txn_tab order amount ref method d db r :
  settle_txn order amount ref method d db = Ok r →
  same_tab db r.1.1 ∧ (∀ sid due, r.1.2 ≠ Settled sid due) ∨
  ∃ sid due, r.1.2 = Settled sid due ∧ session_of_order order db = Some sid ∧ is_Some (find_session sid db) ∧ collects sid ref db r.1.1.
Proof.
  intros Hr. unfold settle_txn, session_of_order in *. destruct (find _ (links db)) as [l|] eqn:El; [|injection Hr as <-; left; done].
  destruct (find_session _ _) as [x|] eqn:Ex; [|injection Hr as <-; left; done]. destruct (_ && _); [injection Hr as <-; left; done|].
  destruct (negb (dpos (dsub _ _))) eqn:Hdue; [injection Hr as <-; left; done|]. apply negb_false_iff in Hdue.
  apply res_bind_Ok in Hr as (amt & _ & Hr). destruct (negb (dpos amt)) eqn:Hpos; [injection Hr as <-; left; done|]. apply negb_false_iff in Hpos.
  apply res_bind_Ok in Hr as (db1 & Hi & Hr). apply res_bind_Ok in Hr as (db2 & Ht%write_totals_tab & Hr). injection Hr as <-.
  right. eexists (lk_session l), _. split; [reflexivity|]. split; [done|]. split; [by eexists|]. cbn [fst]. eapply collects_tab; [|exact Ht].
  set (sid := lk_session l) in *. apply insert_receipt_collects in Hi; cbn [rc_session rc_transaction_ref] in *; [exact Hi|by case_match|].
  intros Hf. pose proof (due_exact sid db Hf) as Hx.
  rewrite <-(due_covers _ _ _ Hx). destruct (dltb (dsub _ _) amt) eqn:Hlt; [|exact Hlt].
  by rewrite (dltb_at_scale 2 _ _ _ _ Hx Hx), Z.ltb_irrefl.
Qed.

Lemma settle_tab order amount ref method d w :
  let r := settle_session_from_gateway order amount ref method d w in
  same_tab (h_db w) (h_db r.1) ∧ (∀ sid due, r.2 ≠ Ok (Settled sid due)) ∨
  ∃ sid due, r.2 = Ok (Settled sid due) ∧ session_of_order order (h_db w) = Some sid ∧ is_Some (find_session sid (h_db w)) ∧
    collects sid ref (h_db w) (h_db r.1).
Proof.
  unfold settle_session_from_gateway. destruct (settle_txn _ _ _ _ _ _) as [[[db r] [[[sid amt] due]|]]|] eqn:E; [| |by left];
    apply settle_txn_tab in E; cbn [fst snd] in E.
  2: { destruct E as [[E Hne]|(s & due & -> & E)]; [left|right]; cbn; [split; [done|]; intros ? ? [= ->]; by eapply Hne|by exists s, due]. }
  set (w1 := _invalidate_bill_cache sid (on_db (λ _, db) w)).
  assert (same_tab db (h_db (if negb (dpos due) then (paid_and_vacate sid None false (x_now d) w1).1 else w1))) as H1.
  { destruct (negb (dpos due)); [|done]. exact (paid_and_vacate_tab sid None false (x_now d) w1). }
  cbn [fst snd h_db emit]. destruct E as [[E Hne]|(s & due' & -> & Hs & Hx & E)]; [left|right].
  - split; [etrans; [exact E|exact H1]|]. intros ? ? [= ->]. by eapply Hne.
  - exists s, due'. split; [done|]. split; [done|]. split; [done|]. eapply collects_tab; [exact E|exact H1].
Qed.

(** *** The other calls leave the receipts alone, and at most add links *)

Context {G P : Type}.
Variable create_intent : intent_request → G → G * res P.
Variable client_amount : P → Z.

Definition link_ids db : list (string * string) := map (λ l, (lk_session l, lk_order l)) (links db).

Record kept db db' : Prop := {
  kp_receipts : receipts db' = receipts db;
  kp_links : link_ids db `prefix_of` link_ids db';
}.

#[local] Instance kept_preorder : PreOrder kept.
Proof. split; [by split|]. intros a b c [A1 A2] [B1 B2]. split; [congruence|by etrans]. Qed.

Lemma kept_same db db' : receipts db' = receipts db → links db' = links db → kept db db'.
Proof. intros E1 E2. split; [done|]. unfold link_ids. by rewrite E2. Qed.

Lemma kept_tab db db' : same_tab db db' → kept db db'.
Proof. intros [? _ ?]. by apply kept_same. Qed.

Lemma kept_bill sid now w : kept (h_db w) (h_db (get_session_bill sid now w).1).
Proof. apply kept_tab, get_bill_tab. Qed.

Lemma add_link_kept l db : kept db (add_link l db).
Proof.
  unfold add_link. destruct (existsb _ _); [done|]. split; [done|]. unfold link_ids. cbn. rewrite map_app. by eexists.
Qed.

Lemma remember_kept request sid r w : kept (h_db w) (h_db (remember request sid r w)).
Proof.
  unfold remember, _save_idempotency. destruct (str_truthy request); [|done]. cbn.
  destruct (existsb _ _); [done|by apply kept_same].
Qed.

Lemma ensure_kept sid ty name dev d db r : _ensure_session_user sid ty name dev d db = Ok r → kept db r.1.
Proof.
  unfold _ensure_session_user. intros (n & _ & Hr)%res_bind_Ok. apply res_bind_Ok in Hr as (dv & _ & Hr).
  destruct (match _ with Some _ => _ | None => _ end) as [l i]. injection Hr as <-. by apply kept_same.
Qed.

Lemma add_kept m seen it qn v ad ex no dev rq checked locked d w :
  kept (h_db w) (h_db (add_to_cart m seen it qn v ad ex no dev rq checked locked d w).1).
Proof.
  unfold add_to_cart. destruct (_ensure_session_user _ _ _ _ _ _) as [[db0 user]|e] eqn:E; [|done]. apply ensure_kept in E. cbn [fst] in E.
  destruct (cached_reply _ _ _); [exact E|]. destruct locked; [|exact E]. cbn [negb].
  destruct (add_txn _ _ _ _ _ _ _ _ _ _ _ _) as [[db1 r]|] eqn:Ea; [|exact E].
  cbn [fst h_db emit]. etrans; [exact E|]. refine (transitivity (y := db1) _ (remember_kept rq (se_id seen) r (on_db (λ _, db1) w))).
  unfold add_txn in Ea. apply res_bind_Ok in Ea as (id & _ & Hr). destruct (find _ (items m)) as [i|]; [|done].
  apply res_bind_Ok in Hr as (? & _ & Hr). apply res_bind_Ok in Hr as (? & _ & Hr). apply res_bind_Ok in Hr as (pr & _ & Hr).
  destruct (find _ (carts db0)); inv_res; simplify_eq; by apply kept_same.
Qed.

Lemma update_kept seen c q ad ex request checked locked d w :
  kept (h_db w) (h_db (update_cart_item seen c q ad ex request checked locked d w).1).
Proof.
  unfold update_cart_item. destruct (cached_reply _ _ _); [done|]. destruct locked; [|done]. cbn [negb].
  destruct (update_txn _ _ _ _ _ _ _) as [[db1 r]|e] eqn:E; [|done]. cbn [fst h_db emit].
  refine (transitivity (y := db1) _ (remember_kept request (se_id seen) r (on_db (λ _, db1) w))).
  unfold update_txn in E. destruct (find _ _); [|done]. case_match; inv_res; simplify_eq; by apply kept_same.
Qed.

Lemma book_order_kept (s : session) q tn d (b again : CartTaxBreakdown) db r :
  book_order s q tn d b again db = Ok r → kept db r.1.1.
Proof.
  unfold book_order. intros Hr. destruct (open_order s (book db)).
  - apply res_bind_Ok in Hr as (o' & _ & Hr). injection Hr as <-. by apply kept_same.
  - apply res_bind_Ok in Hr as (o & _ & Hr). apply res_bind_Ok in Hr as (bk & _ & Hr). injection Hr as <-. cbn [fst].
    etrans; [by apply (kept_same db (with_book bk db))|]. etrans; [apply add_link_kept|]. by apply kept_same.
Qed.

Lemma place_kept m seen q checked locked d w : kept (h_db w) (h_db (place_order m seen q checked locked d w).1).
Proof.
  unfold place_order, place_txn. destruct (cached_reply _ _ _); [done|]. destruct locked; [|done]. cbn [negb].
  case_bool_decide; [done|]. destruct (get_tax_config _ _ _ _) as [[cfg cache1]|]; [|done].
  destruct (compute_cart_tax _ _ _ _) as [b|]; [|done].
  destruct (match open_order _ _ with Some _ => _ | None => _ end) as [[cfg2 cache2]|]; [|done].
  destruct (compute_cart_tax _ _ _ _ ≫= _) as [[db1 r]|e] eqn:E; [|done].
  apply res_bind_Ok in E as (again & _ & E). assert (kept (h_db w) db1) as Hk.
  { unfold place_writes in E. apply res_bind_Ok in E as ([[dbo o] ap] & Hb%book_order_kept & Hr). cbn [fst] in Hb. etrans; [exact Hb|].
    apply res_bind_Ok in Hr as (db2 & Hi & Hr). injection Hr as <- _. unfold book_items in Hi.
    apply res_bind_Ok in Hi as (rows & _ & Hi). injection Hi as <-. apply kept_same; by destruct (find_table _ _). }
  pose proof (remember_kept (pl_request q) (se_id seen) r (on_db (λ _, db1) (with_cache cache2 w))) as Hr.
  etrans; [exact Hk|]. destruct r; exact Hr.
Qed.

Lemma link_upsert_kept l replace db db' : link_upsert linked_once l replace db = Ok db' → kept db db'.
Proof.
  unfold link_upsert. intros (? & _ & Hx)%res_bind_Ok. injection Hx as <-. destruct (existsb _ (links db)) eqn:E.
  - destruct replace; [|done]. split; [done|]. unfold link_ids. cbn. rewrite map_map.
    erewrite map_ext; [reflexivity|]. intros y. cbn. destruct (_ && _) eqn:Ex; [|done].
    apply andb_prop in Ex as [E1%bool_decide_eq_true E2%bool_decide_eq_true]. by rewrite E1, E2.
  - split; [done|]. unfold link_ids. cbn. rewrite map_app. by eexists.
Qed.

Lemma merge_kept src tgt locked d w : kept (h_db w) (h_db (merge_sessions linked_once src tgt locked d w).1).
Proof.
  unfold merge_sessions. repeat match goal with |- context [if ?c then _ else _] => destruct c; [done|] end.
  destruct (merge_txn _ _ _ _ _) as [[db1 o]|e] eqn:E; [|done]. cbn.
  unfold merge_txn in E. apply res_bind_Ok in E as ([dba oa] & Ha & Hr). apply res_bind_Ok in Hr as (db2 & H2 & Hr).
  apply res_bind_Ok in Hr as (db4 & H4%link_upsert_kept & Hr). apply res_bind_Ok in Hr as (db5 & H5%link_upsert_kept & Hr). injection Hr as <- _.
  assert (kept (h_db w) dba) as K1 by (destruct (se_active_order tgt), (se_active_order src); simplify_eq; by apply kept_same).
  assert (kept dba db2) as K2.
  { destruct (se_active_order src); [|by simplify_eq]. case_bool_decide; [by simplify_eq|]. unfold merge_orders in H2.
    apply res_bind_Ok in H2 as (? & _ & H2). apply res_bind_Ok in H2 as (? & _ & H2).
    apply res_bind_Ok in H2 as ([[[[st tx] cg] sg] tot] & _ & H2). injection H2 as <-. by apply kept_same. }
  etrans; [exact K1|]. etrans; [exact K2|]. etrans; [|etrans; [exact H4|etrans; [exact H5|by apply kept_same]]]. by apply kept_same.
Qed.

Lemma intent_kept seen cn cp plan qr d g w :
  kept (h_db w) (h_db (create_payment_intent accepts create_intent client_amount seen cn cp plan qr d g w).1.1).
Proof.
  unfold create_payment_intent. pose proof (kept_bill (se_id seen) (x_now d) w) as Hb.
  destruct (get_session_bill _ _ _) as [w1 bill]. cbn [fst] in Hb.
  destruct (bill ≫= _) as [[[rem o] paise]|]; [|exact Hb]. destruct (own_upi_plan _); [exact Hb|].
  destruct (negb _); [exact Hb|]. destruct (pending_payment _ _ _ _ _ _) as [[db pay]|] eqn:E; [|exact Hb].
  destruct (create_intent _ _) as [g' i]. cbn. etrans; [exact Hb|]. unfold pending_payment in E.
  destruct (online_payment _ _ _); inv_res; simplify_eq; by apply kept_same.
Qed.

Lemma scan_kept restaurant table device token reserved before d w :
  kept (h_db w) (h_db (scan_qr restaurant table device token reserved before d w).1).
Proof.
  unfold scan_qr. destruct (if str_truthy token then _try_restore_session _ _ _ else None) as [s|].
  { destruct (_ensure_session_user _ _ _ _ _ _) as [[db1 u]|] eqn:E; [|done]. apply ensure_kept in E.
    etrans; [exact E|]. by apply kept_same. }
  destruct (if str_truthy token then _terminal_session_for_token _ _ else None); [done|].
  destruct (table_in_scope _ _ _) as [t|]; [|done]. destruct (scan_txn _ _ _ _ _ _) as [[db1 r]|] eqn:E; [|done].
  assert (kept (h_db w) db1) as Hk.
  { unfold scan_txn in E. destruct (last _); [destruct (_ && _); simplify_eq|inv_res; simplify_eq]; by apply kept_same. }
  destruct r; try exact Hk. destruct (_ensure_session_user _ _ _ _ _ _) as [[db2 u]|] eqn:Eu; [|exact Hk].
  apply ensure_kept in Eu. cbn [fst]. rewrite scan_events_db. etrans; [exact Hk|exact Eu].
Qed.

Lemma join_kept table device pin d w : kept (h_db w) (h_db (join_session table device pin d w).1).
Proof.
  unfold join_session. destruct (last _) as [s|]; [|done]. destruct (_ || _); [done|].
  destruct (_ensure_session_user _ _ _ _ _ _) as [[db2 u]|] eqn:E; [|by apply kept_same]. apply ensure_kept in E.
  etrans; [|exact E]. by apply kept_same.
Qed.

Lemma valid_kept token now w : kept (h_db w) (h_db (_get_valid_session token now w).1).
Proof. unfold _get_valid_session. destruct (session_of_token _ _); [|done]. repeat case_match; by apply kept_same. Qed.

Lemma close_kept seen reason locked d w : kept (h_db w) (h_db (close_session seen reason locked d w).1).
Proof. unfold close_session. destruct locked; [|done]. cbn [negb]. case_bool_decide; by apply kept_same. Qed.

Notation call := (dine_step linked_once accepts create_intent client_amount).

(** What a call does to the receipts. *)
Lemma call_collects w w' : call w w' → kept (h_db w) (h_db w') ∨ ∃ sid ref, collects sid ref (h_db w) (h_db w').
Proof.
  intros [a Hc]. destruct Hc as [? ? ? ? ? ? ? ? w' r E|? ? ? ? ? w' r E|m seen it qn v ad ex no dev rq checked locked d w _|w w' Ho].
  - left. apply (f_equal fst) in E. cbn in E. rewrite <-E. apply scan_kept.
  - left. apply (f_equal fst) in E. cbn in E. rewrite <-E. apply join_kept.
  - left. apply add_kept.
  - destruct Ho as [| | | | | | | | |sid now w|sid ty parts is_ us now w|sid p d w| | |o a ref m d w| |token now w]; try by left.
    + left. apply valid_kept.
    + left. apply close_kept.
    + left. apply update_kept.
    + left. apply place_kept.
    + left. apply merge_kept.
    + left. apply kept_bill.
    + left. unfold split_bill. pose proof (kept_bill sid now w) as Hb. by destruct (get_session_bill _ _ _).
    + destruct (record_payment_tab sid p d w) as [Hx|Hx]; [left; by apply kept_tab|right; by eexists _, _].
    + left. apply kept_tab, vacate_tab.
    + left. apply kept_tab, paid_and_vacate_tab.
    + destruct (settle_tab o a ref m d w) as [[Hx _]|(sid & due & _ & _ & _ & Hx)]; [left; by apply kept_tab|right; by eexists _, _].
    + left. apply intent_kept.
    + left. unfold get_payment_status. destruct (session_of_token _ _) as [s|]; [|done].
      pose proof (kept_bill (se_id s) now w) as Hb. by destruct (get_session_bill _ _ _).
Qed.

Lemma collects_paid sid ref db db' : collects sid ref db db' →
  ∃ n, 0 < n ∧ (fits (grand_total sid db - paid_total sid db) → n <= grand_total sid db - paid_total sid db) ∧
    ∀ sid', paid_total sid' db' = paid_total sid' db + (if bool_decide (sid = sid') then n else 0).
Proof.
  intros [_ _ (r & Hr & <- & _ & Hn & Hle)]. exists (rc_amount r). split; [done|]. split; [done|]. intros sid'.
  unfold paid_total, receipts_of. rewrite Hr, filter_app, map_app, zsum_app, filter_cons.
  destruct (bool_decide_reflect (rc_session r = sid')) as [E|E].
  - rewrite decide_True by done. cbn. lia.
  - rewrite decide_False by done. cbn. lia.
Qed.

(** C10: nobody pays more than the bill: whatever call changes the total a session has
    paid, by staff or by the gateway, raises it, by what was still due at most, and leaves
    the session's bill as it is; every other call leaves that total as it was. *)
Theorem payments_within_bill w w' sid :
  call w w' → fits (grand_total sid (h_db w) - paid_total sid (h_db w)) → paid_total sid (h_db w') ≠ paid_total sid (h_db w) →
  paid_total sid (h_db w) < paid_total sid (h_db w') <= grand_total sid (h_db w') ∧
  grand_total sid (h_db w') = grand_total sid (h_db w).
Proof.
  intros Hc Hf Hne. destruct (call_collects _ _ Hc) as [[Hk _]|(sid' & ref & Hx)]; [by rewrite (same_tab_paid _ _ _ Hk) in Hne|].
  pose proof (same_tab_grand sid _ _ (co_links _ _ _ _ Hx) (co_orders _ _ _ _ Hx)) as Hg.
  destruct (collects_paid _ _ _ _ Hx) as (n & Hn & Hle & Hp). rewrite Hg. specialize (Hp sid). rewrite Hp in Hne |- *.
  destruct (bool_decide_reflect (sid' = sid)) as [->|]; [|lia]. specialize (Hle Hf). lia.
Qed.

Lemma session_of_link_ids order db : session_of_order order db = fst <$> find (λ p, bool_decide (p.2 = order)) (link_ids db).
Proof.
  unfold session_of_order, link_ids. induction (links db) as [|l ls IH]; [done|]. cbn [map find snd]. by case_bool_decide.
Qed.

Lemma find_prefix {A} (f : A → bool) l k x : find f l = Some x → l `prefix_of` k → find f k = Some x.
Proof.
  intros Hf [t ->]. induction l as [|y l IH]; [done|]. cbn in *. destruct (f y); [done|]. by apply IH.
Qed.

(** What no call undoes: receipts, and the session an order is settled on. *)
Lemma call_appends w w' : call w w' → receipts (h_db w) `prefix_of` receipts (h_db w') ∧
  ∀ order sid, session_of_order order (h_db w) = Some sid → session_of_order order (h_db w') = Some sid.
Proof.
  intros Hc. assert (receipts (h_db w) `prefix_of` receipts (h_db w') ∧ link_ids (h_db w) `prefix_of` link_ids (h_db w')) as [Hr Hl].
  { destruct (call_collects _ _ Hc) as [[Hk Hl]|(sid' & ref & [Hl _ (r & Hr & _)])]; [by rewrite Hk|].
    rewrite Hr. split; [by eexists|]. unfold link_ids. by rewrite Hl. }
  split; [done|]. intros order sid. rewrite !session_of_link_ids. intros (p & Hp & ->)%fmap_Some.
  by rewrite (find_prefix _ _ _ _ Hp Hl).
Qed.

Lemma find_by_id id db : id ∈ map (λ s : session, se_id s) (sessions db) → is_Some (find_session id db).
Proof.
  intros (s & -> & Hin)%list_elem_of_fmap. unfold find_session. destruct (find _ _) eqn:E; [by eexists|].
  pose proof (find_none _ _ E s ltac:(by apply list_elem_of_In)) as Hn. cbn in Hn. by rewrite bool_decide_eq_true_2 in Hn.
Qed.

Lemma calls_keep_session w w' id : rtc call w w' → floor_wf (h_db w) → is_Some (find_session id (h_db w)) → is_Some (find_session id (h_db w')).
Proof.
  induction 1 as [w|w w1 w2 [a Hc] _ IH]; intros Hwf [s Hs]; [by eexists|]. apply IH; [by eapply dine_wf|].
  apply find_session_Some in Hs as [Hin <-]. destruct (dine_ages _ _ _ _ _ _ _ Hwf Hc s Hin) as (s' & Hin' & Hag & _).
  apply find_by_id, list_elem_of_fmap. exists s'. by rewrite Hag.
Qed.

(** A captured payment is counted once: after the gateway's webhook has settled a
    payment of an order under its reference, every later delivery of that reference for
    that order, whatever it says and whatever happened in between, is answered as already
    recorded and changes nothing. *)
Theorem gateway_settles_once w w1 w2 order amount ref method d sid due amount' method' d' :
  floor_wf (h_db w) → ref ≠ ""%string → varchar 120 ref = Ok ref →
  settle_session_from_gateway order amount (Some ref) method d w = (w1, Ok (Settled sid due)) → rtc call w1 w2 →
  settle_session_from_gateway order amount' (Some ref) method' d' w2 = (w2, Ok (AlreadyRecorded sid)).
Proof.
  intros Hwf Hne Hfit E Hcalls.
  assert (call w w1) as Hfirst.
  { eexists. apply call_other. apply (f_equal fst) in E. cbn [fst] in E. rewrite <-E. apply other_settle. }
  pose proof (settle_tab order amount (Some ref) method d w) as Ht. rewrite E in Ht. cbn [fst snd] in Ht.
  destruct Ht as [[_ Hx]|(s & due' & [= <- <-] & Hs & Hsome & [_ _ (r & Hr & Hrs & Href & _)])]; [by destruct (Hx sid due)|].
  cbn [varchar_opt] in Href. rewrite Hfit in Href. injection Href as Href.
  assert (call w w1) as Hstep by exact Hfirst. apply call_appends in Hstep as [_ Hs1]. specialize (Hs1 _ _ Hs).
  assert (rtc call w w2) as Hall by (by eapply rtc_l).
  pose proof (calls_keep_session _ _ _ Hall Hwf Hsome) as [x Hx].
  assert (session_of_order order (h_db w2) = Some sid ∧ r ∈ receipts (h_db w2)) as [Hs2 Hr2].
  { assert (r ∈ receipts (h_db w1)) as Hr1 by (rewrite Hr; apply elem_of_app; right; by left).
    clear -Hcalls Hs1 Hr1. induction Hcalls as [|w1 w' w2 Hc _ IH]; [done|]. apply call_appends in Hc as [[k Hk] Hl].
    apply IH; [by apply Hl|]. rewrite Hk. apply elem_of_app. by left. }
  unfold settle_session_from_gateway, settle_txn. unfold session_of_order in Hs2.
  destruct (find _ (links (h_db w2))) as [l|]; [|done]. injection Hs2 as ->. rewrite Hx.
  assert (str_truthy (Some ref) = true) as -> by (cbn; by rewrite bool_decide_eq_false_2).
  assert (existsb (λ r, bool_decide (rc_transaction_ref r = Some ref)) (receipts_of sid (h_db w2)) = true) as ->.
  { apply existsb_exists. exists r. split; [|by apply bool_decide_eq_true]. apply list_elem_of_In.
    unfold receipts_of. apply list_elem_of_filter. done. }
  cbn. unfold on_db. by destruct w2.
Qed.

(** *** Paying in full *)

(** A session whose orders and receipts are amounts, not more paid than billed. *)
Record sound_tab (sid : string) db : Prop := {
  sb_orders : Forall (λ o, 0 <= o_total_amount o) (orders_of sid db);
  sb_receipts : Forall (λ r, 0 <= rc_amount r) (receipts_of sid db);
  sb_due : paid_total sid db <= grand_total sid db < 10 ^ 15;
}.

Lemma sound_tab_nonneg sid db : sound_tab sid db → 0 <= paid_total sid db.
Proof. intros Hs. apply zsum_nonneg, Forall_map. exact (sb_receipts _ _ Hs). Qed.

(** The bill asks for money exactly when something is due. *)
Lemma bill_remaining sid db db' b :
  sound_tab sid db → orders_of sid db ≠ [] → read_session_bill sid db = Ok (db', b) →
  dpos (repr_decimal (bi_remaining b)) = (0 <? grand_total sid db - paid_total sid db).
Proof.
  intros Hs Hne. unfold read_session_bill. destruct (find_session sid db); [|done]. rewrite bool_decide_eq_false_2 by done.
  intros (db1 & _ & Hr)%res_bind_Ok. injection Hr as _ <-. cbn [bi_remaining].
  pose proof (sound_tab_nonneg _ _ Hs) as H0. pose proof (sb_due _ _ Hs) as Hd.
  pose proof (money_val_sum (map o_total_amount (orders_of sid db))) as Hg. rewrite map_map in Hg.
  specialize (Hg ltac:(apply Forall_map; exact (sb_orders _ _ Hs)) ltac:(fold (grand_total sid db); fits_tac)).
  pose proof (money_val_sum (map rc_amount (receipts_of sid db))) as Hp. rewrite map_map in Hp.
  specialize (Hp ltac:(apply Forall_map; exact (sb_receipts _ _ Hs)) ltac:(fold (paid_total sid db); fits_tac)).
  fold (grand_total sid db) in Hg. fold (paid_total sid db) in Hp.
  pose proof (money_val_sub _ _ _ _ Hg Hp ltac:(fits_tac)) as Hx. set (x := dsub _ _) in *.
  unfold clamp_zero. rewrite (dltb_at_scale 2 x d_zero _ 0 (money_val_at_scale _ _ Hx)) by by apply at_scale_zero.
  rewrite (proj2 (Z.ltb_ge _ _)) by lia. apply money_val_pos; [done|lia].
Qed.

Lemma find_updated_session sid (f : session → session) db :
  (∀ s, se_id (f s) = se_id s) → find_session sid (update_session sid f db) = f <$> find_session sid db.
Proof.
  intros Hf. unfold find_session, update_session. cbn [sessions with_sessions]. induction (sessions db) as [|s l IH]; [done|]. cbn [map find].
  destruct (bool_decide_reflect (se_id s = sid)) as [E|E].
  - rewrite Hf, bool_decide_eq_true_2 by done. done.
  - by rewrite bool_decide_eq_false_2.
Qed.

Lemma write_totals_found sid g p r db db' (s : session) :
  write_totals sid g p r db = Ok db' → find_session sid db = Some s → ∃ t, find_session sid db' = Some (set_totals t s).
Proof.
  unfold write_totals. intros Hr Hs. inv_res. simplify_eq. rewrite find_updated_session by done. rewrite Hs. by eexists.
Qed.

Lemma read_bill_found sid db db' b (s : session) :
  read_session_bill sid db = Ok (db', b) → find_session sid db = Some s → ∃ t, find_session sid db' = Some (set_totals t s).
Proof.
  unfold read_session_bill. intros Hr Hs. rewrite Hs in Hr. apply res_bind_Ok in Hr as (db1 & Hw & Hr). injection Hr as <- _.
  by eapply write_totals_found.
Qed.

(** The session is over and its table is free for the next guests. *)
Definition freed (sid table : string) db : Prop :=
  (∀ s : session, s ∈ sessions db → se_id s = sid → se_status s = "closed"%string) ∧
  (∀ t : rtable, t ∈ tables db → tb_id t = table →
    tb_status t = "available"%string ∧ tb_occupied t = false ∧ tb_current_order t = None) ∧
  ∀ u, u ∈ users db → su_session u = sid → su_active u = false.

Lemma vacate_frees sid by_ now w (s : session) :
  find_session sid (h_db w) = Some s → is_active s = true → freed sid (se_table s) (h_db (vacate_session sid by_ now w).1).
Proof.
  intros Hs Ha. unfold vacate_session. rewrite Hs, Ha. cbn. split_and!.
  - intros x (y & -> & _)%list_elem_of_fmap Hid. by case_bool_decide.
  - intros x (y & -> & _)%list_elem_of_fmap Hid. by case_bool_decide.
  - intros x (y & -> & _)%list_elem_of_fmap Hid. by case_bool_decide.
Qed.

(** Closing after a payment: with nothing due it frees the table, else it fails. *)
Lemma closing_after_payment sid by_ now w (s : session) r :
  sound_tab sid (h_db w) → orders_of sid (h_db w) ≠ [] → h_bills w !! sid = None → find_session sid (h_db w) = Some s → is_active s = true →
  (paid_and_vacate sid by_ false now w).2 = Ok r →
  grand_total sid (h_db w) = paid_total sid (h_db w) ∧ freed sid (se_table s) (h_db (paid_and_vacate sid by_ false now w).1).
Proof.
  intros Htab Hne Hb Hs Ha. unfold paid_and_vacate, get_session_bill. rewrite Hb.
  destruct (read_session_bill sid (h_db w)) as [[db b]|e] eqn:E; [|done].
  rewrite (bill_remaining _ _ _ _ Htab Hne E). pose proof (sb_due _ _ Htab) as Hd.
  destruct (Z.ltb_spec 0 (grand_total sid (h_db w) - paid_total sid (h_db w))); [done|]. cbn [andb negb]. intros _. split; [lia|].
  destruct (read_bill_found _ _ _ _ _ E Hs) as (t & Ht). apply (vacate_frees _ _ _ _ (set_totals t s)); [exact Ht|exact Ha].
Qed.

(** What a committed payment writes. *)
Lemma pay_txn_cases sid p (s0 : session) amt rem d w w1 (s : session) :
  pay_txn accepts sid p s0 amt rem d w = Ok w1 → find_session sid (h_db w) = Some s →
  w1 = w ∨ ∃ r t, receipts (h_db w1) = receipts (h_db w) ++ [r] ∧ rc_session r = sid ∧ 0 < rc_amount r ∧
    pg_money 12 (of_decimal amt) = Ok (rc_amount r) ∧ links (h_db w1) = links (h_db w) ∧
    orders (book (h_db w1)) = orders (book (h_db w)) ∧ find_session sid (h_db w1) = Some (set_totals t s).
Proof.
  unfold pay_txn. intros (r & Hw & Et)%res_bind_Ok Hs. injection Et as <-.
  assert (∃ rc t, receipts r.1 = receipts (h_db w) ++ [rc] ∧ rc_session rc = sid ∧ 0 < rc_amount rc ∧
    pg_money 12 (of_decimal amt) = Ok (rc_amount rc) ∧ links r.1 = links (h_db w) ∧
    orders (book r.1) = orders (book (h_db w)) ∧ find_session sid r.1 = Some (set_totals t s)) as Hall.
  { unfold pay_writes in Hw. apply res_bind_Ok in Hw as (db1 & Hi & Hw). apply res_bind_Ok in Hw as (m & Hm & Hw).
    apply res_bind_Ok in Hw as (db2 & Ht & Hw). injection Hw as <-. cbn [fst]. pose proof (write_totals_tab _ _ _ _ _ _ Ht) as [T1 T2 T3].
    destruct (mirror_payment _ _ _ _ _ _) as [m'|] eqn:Em; [|done]. injection Hm as <-. pose proof (mirror_tab _ _ _ _ _ _ Em) as [M1 M2 M3].
    assert (find_session sid m'.1 = find_session sid db1) as Hf.
    { unfold mirror_payment in Em. destruct (last_order _ _) as [o|]; [|by injection Em as <-].
      apply res_bind_Ok in Em as (n & _ & Hr). apply res_bind_Ok in Hr as (bk & Hb & Hr). by injection Hr as <-. }
    unfold insert_receipt in Hi. apply res_bind_Ok in Hi as (n & Hn & Hi). apply res_bind_Ok in Hi as (? & Hn0%raise_if_Ok & Hi).
    apply res_bind_Ok in Hi as (me & _ & Hi). apply res_bind_Ok in Hi as (rf & _ & Hi). apply res_bind_Ok in Hi as (pb & _ & Hi).
    injection Hi as <-. apply Z.leb_gt in Hn0. destruct (write_totals_found _ _ _ _ _ _ s Ht) as (t & Hs2); [by rewrite Hf|].
    eexists _, t. rewrite T1, T2, T3, M1, M2, M3, Hs2. split; [reflexivity|]. by split_and!. }
  destruct (post_payment_received _ _ _ _ _ _ _) as [l|e]; [right; exact Hall|]. destruct (sql_error e); [by left|right; exact Hall].
Qed.

(** A payment of all that is due frees the table: when staff record exactly the
    remaining amount and the call succeeds, the bill is paid to the paisa, the session
    is closed, its guests are inactive and its table is available without an order. *)
Theorem full_payment_frees_table sid p d w w' r (s : session) amt :
  sound_tab sid (h_db w) → find_session sid (h_db w) = Some s → decimal_or_zero (pi_amount p) = Ok amt →
  at_scale 2 amt (grand_total sid (h_db w) - paid_total sid (h_db w)) →
  record_session_payment accepts sid p d w = (w', Ok r) →
  paid_total sid (h_db w') = grand_total sid (h_db w') ∧ freed sid (se_table s) (h_db w').
Proof.
  intros Htab Hs Ham Hamt E. unfold record_session_payment in E.
  destruct (pay_check sid p (h_db w)) as [[[s0 amt0] rem]|] eqn:Ec; [|done].
  pose proof (sound_tab_nonneg _ _ Htab) as H0. pose proof (sb_due _ _ Htab) as Hd.
  set (due := grand_total sid (h_db w) - paid_total sid (h_db w)) in *.
  assert (amt0 = amt ∧ is_active s = true ∧ 0 < due ∧ at_scale 2 rem due) as (-> & Ha & Hpos & Hrem).
  { unfold pay_check in Ec. rewrite Ham, bind_Ok in Ec. apply res_bind_Ok in Ec as (? & Hp%raise_if_Ok & Ec).
    rewrite Hs in Ec. apply res_bind_Ok in Ec as (? & Ha%raise_if_Ok & Ec). apply res_bind_Ok in Ec as (? & Hr%raise_if_Ok & Ec).
    apply res_bind_Ok in Ec as (? & _ & Ec). injection Ec as _ <- <-. apply negb_false_iff in Hp, Ha, Hr.
    split; [done|]. split; [done|]. rewrite (dpos_at_scale 2 _ _ Hamt) in Hp. apply Z.ltb_lt in Hp. split; [done|].
    apply dpos_clamp in Hr as [-> _]. apply due_exact. fits_tac. }
  destruct (pay_txn accepts sid p s0 amt rem d w) as [w1|] eqn:Et; [|done].
  assert (dpos (clamp_zero (dsub rem amt)) = false) as Hzero.
  { pose proof (dsub_at_scale 2 _ _ _ _ Hrem Hamt ltac:(fits_tac)) as Hx. rewrite Z.sub_diag in Hx. unfold clamp_zero.
    destruct (dltb _ d_zero); [done|]. by rewrite (dpos_at_scale 2 _ _ Hx). }
  rewrite Hzero in E. cbn [negb] in E.
  assert (orders_of sid (h_db w) ≠ []) as Hne.
  { intros Hn. unfold due, grand_total in Hpos. rewrite Hn in Hpos. cbn in Hpos. lia. }
  destruct (paid_and_vacate sid (pi_created_by p) false (x_now d) (_invalidate_bill_cache sid w1)) as [w3 c] eqn:Ev. destruct c as [c|]; [|done].
  injection E as <- _. cbn [h_db emit].
  pose proof (paid_and_vacate_tab sid (pi_created_by p) false (x_now d) (_invalidate_bill_cache sid w1)) as [V1 V2 V3].
  rewrite Ev in V1, V2, V3. cbn [fst] in V1, V2, V3.
  assert (∀ (sx : session), sound_tab sid (h_db w1) → orders_of sid (h_db w1) ≠ [] → find_session sid (h_db w1) = Some sx → is_active sx = true →
    grand_total sid (h_db w1) = paid_total sid (h_db w1) ∧ freed sid (se_table sx) (h_db w3)) as Hclose.
  { intros sx T O F A. pose proof (closing_after_payment sid (pi_created_by p) (x_now d) (_invalidate_bill_cache sid w1) sx c T O) as Hx.
    rewrite Ev in Hx. apply Hx; try done. cbn. apply lookup_delete_eq. }
  destruct (pay_txn_cases _ _ _ _ _ _ _ _ _ Et Hs) as [->|(rc & t & R1 & R2 & R3 & R4 & R5 & R6 & R7)].
  - destruct (Hclose s Htab Hne Hs Ha) as [Heq _]. lia.
  - assert (rc_amount rc = due) as Hn.
    { unfold pg_money in R4. rewrite (exact_money_through_float ROUND_HALF_UP amt due Hamt) in R4 by lia.
      destruct (Z.abs due <? 10 ^ 12); [|done]. by injection R4. }
    assert (receipts_of sid (h_db w1) = receipts_of sid (h_db w) ++ [rc]) as Hrec.
    { unfold receipts_of. rewrite R1, filter_app, filter_cons, decide_True by done. done. }
    assert (orders_of sid (h_db w1) = orders_of sid (h_db w)) as Hord by (unfold orders_of, order_by_id; by rewrite R5, R6).
    assert (paid_total sid (h_db w1) = paid_total sid (h_db w) + due) as Hp.
    { unfold paid_total. rewrite Hrec, map_app, zsum_app, <-Hn. cbn. lia. }
    pose proof (same_tab_grand sid _ _ R5 R6) as Hg.
    destruct (Hclose (set_totals t s)) as [Heq Hfree]; [|by rewrite Hord|exact R7|exact Ha|].
    + split; [rewrite Hord; exact (sb_orders _ _ Htab)| |lia]. rewrite Hrec. apply Forall_app. split; [exact (sb_receipts _ _ Htab)|].
      constructor; [lia|constructor].
    + split; [|exact Hfree]. rewrite (same_tab_paid _ _ _ V3), (same_tab_grand _ _ _ V1 V2). done.
Qed.

(** *** Splitting the bill *)

Lemma bill_grand sid db db' b :
  sound_tab sid db → orders_of sid db ≠ [] → read_session_bill sid db = Ok (db', b) →
  ∃ x, bi_grand_total b = of_decimal x ∧ money_val x (grand_total sid db).
Proof.
  intros Hs Hne. unfold read_session_bill. destruct (find_session sid db); [|done]. rewrite bool_decide_eq_false_2 by done.
  intros (db1 & _ & Hr)%res_bind_Ok. injection Hr as _ <-. cbn [bi_grand_total].
  pose proof (sound_tab_nonneg _ _ Hs) as H0. pose proof (sb_due _ _ Hs) as Hd.
  eexists. split; [reflexivity|].
  pose proof (money_val_sum (map o_total_amount (orders_of sid db))) as Hg. rewrite map_map in Hg.
  apply Hg; [apply Forall_map; exact (sb_orders _ _ Hs)|]. fold (grand_total sid db). fits_tac.
Qed.

(** An equal split covers the bill: the shares of a bill split into equal parts add
    up to it to the paisa, and every share but the first is the exact quotient rounded to
    the nearest paisa, so the first is off by at most half a paisa per part. *)
Theorem equal_split_covers_bill sid parts items_ users_ now w b :
  sound_tab sid (h_db w) → h_bills w !! sid = None → 0 < grand_total sid (h_db w) < 10 ^ 14 → 1 <= parts <= 10 ^ 6 →
  (get_session_bill sid now w).2 = Ok b →
  ∃ shares per, (split_bill sid "equal" parts items_ users_ now w).2 = Ok shares ∧ Z.of_nat (length shares) = parts ∧
    zsum (map share_paise shares) = grand_total sid (h_db w) ∧
    2 * Z.abs (per * parts - grand_total sid (h_db w)) <= parts ∧ Forall (λ s, share_paise s = per) (tail shares).
Proof.
  intros Htab Hb Hg Hp Hbill. unfold split_bill. pose proof Hbill as Hbill'.
  assert (orders_of sid (h_db w) ≠ []) as Hne.
  { intros Hn. unfold grand_total in Hg. rewrite Hn in Hg. cbn in Hg. lia. }
  unfold get_session_bill in Hbill. rewrite Hb in Hbill.
  destruct (read_session_bill sid (h_db w)) as [[db b']|e] eqn:E; [|done]. injection Hbill as ->.
  destruct (bill_grand _ _ _ _ Htab Hne E) as (x & Hx & Hv).
  destruct (get_session_bill sid now w) as [w1 o]. cbn [snd] in Hbill'. subst o. cbn [snd]. rewrite bind_Ok.
  unfold split_shares. rewrite Hx, (money_val_pos x _ Hv), (proj2 (Z.ltb_lt _ _)) by lia. cbn [negb raise_if]. rewrite bind_Ok.
  rewrite bool_decide_eq_true_2 by reflexivity. rewrite (proj2 (Z.leb_gt _ _)) by lia. cbn [raise_if]. rewrite bind_Ok.
  destruct Hv as [->|[_ Hz]]; [|lia].
  assert (length (part_labels parts) = Z.to_nat parts) as Hl by (unfold part_labels; by rewrite length_map, length_seq).
  destruct (equal_shares_cover (part_labels parts) _ _ (repr_money (grand_total sid (h_db w)) ltac:(lia)) Hg) as (shares & per & E1 & E2 & E3 & E4 & E5).
  - intros Hn. rewrite Hn in Hl. cbn in Hl. lia.
  - rewrite Hl. lia.
  - exists shares, per. split; [exact E1|]. rewrite Hl, Z2Nat.id in E4 by lia. split; [|done].
    rewrite <-(length_map (λ s, (sh_label s, sh_user s)) shares), E2, Hl. lia.
Qed.
End Money.

(** ** A dinner for two *)

Notation hall0 := (hall ledger_db ()).

(** The first phone's session; it orders two dosas with chutney and a cola. *)
Definition demo_session : session := default (new_session demo_table "" (demo_dice "" 0)) (find_session "s1" (h_db demo_opened)).
Definition demo_add (item quantity : Z) (ads : list addon_in) (n : string) (w : hall0) : hall0 :=
  (add_to_cart cafe_menu demo_session item quantity None ads [] None (Some "phone1"%string) None (h_db w) true (demo_dice n 40) w).1.
Definition demo_chutney : addon_in := AddonDict [("name"%string, PStr "chutney" None); ("price"%string, PFloat (money_float 550))].
Definition demo_filled : hall0 := demo_add 2 1 [] "5" (demo_add 1 2 [demo_chutney] "4" demo_opened).
Definition demo_placing : placing := {|
  pl_device := Some "phone1"%string; pl_notes := None; pl_customer_name := None; pl_customer_phone := None;
  pl_payment_method := "cash"; pl_request := None |}.
Definition demo_placed : hall0 := (place_order cafe_menu demo_session demo_placing (h_db demo_filled) true (demo_dice "6" 50) demo_filled).1.

Example demo_cart_prices : map (λ c, (ca_unit_price c, ca_total_price c)) (cart_of "s1" (h_db demo_filled)) = [(12050, 25200); (4000, 4000)].
Proof. vm_compute. reflexivity. Qed.
Example demo_bill : grand_total "s1" (h_db demo_placed) = 30460.
Proof. vm_compute. reflexivity. Qed.

Definition demo_config : TaxConfig := default_config.

(** [line_fits], by evaluation. *)
Definition fits_now (cfg : TaxConfig) (l : sale_line) : bool :=
  (0 <=? sl_unit l) && (sl_unit l <? 10 ^ 10) && (0 <=? sl_total l) && Nat.leb (length (chars (sl_name l))) 255
  && (dexp (it_gst_rate (tax_line cfg l)) =? -2).

Lemma fits_now_fits cfg ls : forallb (fits_now cfg) ls = true → Forall (line_fits cfg) ls.
Proof.
  intros Hall. rewrite forallb_forall in Hall. apply Forall_forall. intros l Hl%list_elem_of_In. specialize (Hall l Hl).
  apply andb_prop in Hall as [[[[H1%Z.leb_le H2%Z.ltb_lt]%andb_prop H3%Z.leb_le]%andb_prop H4%Nat.leb_le]%andb_prop H5%Z.eqb_eq].
  split; [done|done|done|]. exists (coef (it_gst_rate (tax_line cfg l))).
  destruct (it_gst_rate (tax_line cfg l)) as [c e]. apply at_scale_Dec; [|done]. cbn in H5. lia.
Qed.

Lemma demo_ready : cart_ready cafe_menu demo_session demo_placing (demo_dice "6" 50) default_config (h_db demo_filled).
Proof.
  split; [| |vm_compute; reflexivity..| | |].
  - vm_compute. done.
  - apply fits_now_fits. vm_compute. reflexivity.
  - vm_compute. intros H. inversion H.
  - vm_compute. constructor.
  - intros o Ho. vm_compute in Ho. done.
Qed.

Lemma cart_becomes_order_witness :
  ∃ w' r order rows, place_order cafe_menu demo_session demo_placing (h_db demo_filled) true (demo_dice "6" 50) demo_filled = (w', Ok r) ∧
    placed demo_session order "k6" (29200 + zsum (map added_tax rows)) (cart_of "s1" (h_db demo_filled)) rows (h_db demo_filled) (h_db w').
Proof.
  destruct (cart_becomes_order cafe_menu demo_session demo_placing (h_db demo_filled) (demo_dice "6" 50) default_config
    (<["r1"%string := (default_config, 50)]> ∅) demo_filled demo_ready) as (w' & order & number & b & ap & rows & E & _ & Hp & _).
  - vm_compute. reflexivity.
  - vm_compute. reflexivity.
  - exists w', (OrderPlaced order number "k6" (of_decimal (ct_grand_total b)) ap 2), order, rows. split; [exact E|exact Hp].
Defined.

Notation demo_step := (dine_step false any_payment DineInAccess.no_intent no_amount).

Lemma demo_opened_now w : se_opening demo_session ∈ map se_opening (sessions (h_db w)) → opened (L := ledger_db) (I := ()) w demo_session.
Proof. intros (s & E & Hs)%list_elem_of_fmap. by exists s. Qed.

Lemma demo_placed_wf : floor_wf (h_db demo_placed).
Proof.
  assert (floor_wf (h_db demo_opened)) as H1.
  { eapply (dine_wf false any_payment DineInAccess.no_intent no_amount); [exact demo_floor_wf|].
    exact (demo_scan_call "phone1" "1" 10 demo_hall _ eq_refl). }
  assert (∀ w item q ads n, floor_wf (h_db w) → opened w demo_session → floor_wf (h_db (demo_add item q ads n w))) as Hadd.
  { intros w item q ads n Hw Ho. eapply (dine_wf false any_payment DineInAccess.no_intent no_amount); [exact Hw|]. by apply call_add. }
  assert (floor_wf (h_db demo_filled)) as H2.
  { apply Hadd; [apply Hadd; [exact H1|]|]; apply demo_opened_now; vm_compute; by left. }
  eapply (dine_wf false any_payment DineInAccess.no_intent no_amount); [exact H2|]. apply call_other, other_place.
  apply demo_opened_now. vm_compute. by left.
Qed.

Definition demo_pay (amount : Z) : pay_in := {|
  pi_amount := PFloat (money_float amount); pi_method := "UPI"; pi_created_by := Some "owner"%string;
  pi_transaction_ref := None; pi_paid_by := None; pi_notes := None |}.
Definition demo_record (amount : Z) (n : string) (w : hall0) : hall0 * res paid_reply :=
  record_session_payment any_payment "s1" (demo_pay amount) (demo_dice n 60) w.

(** Part of the bill, then the rest. *)
Definition demo_part : hall0 := (demo_record 10000 "7" demo_placed).1.
Definition demo_paid : hall0 := (demo_record 20460 "8" demo_part).1.

Example demo_totals : map (λ w : hall0, (grand_total "s1" (h_db w), paid_total "s1" (h_db w), map (λ s : session, se_status s) (sessions (h_db w))))
  [demo_placed; demo_part; demo_paid] = [(30460, 0, ["active"%string]); (30460, 10000, ["active"%string]); (30460, 30460, ["closed"%string])].
Proof. vm_compute. reflexivity. Qed.

Lemma payments_within_bill_witness : paid_total "s1" (h_db demo_part) <= grand_total "s1" (h_db demo_part).
Proof.
  apply (payments_within_bill false any_payment DineInAccess.no_intent no_amount demo_placed demo_part "s1").
  - exists Other. apply call_other, other_pay.
  - vm_compute. reflexivity.
  - vm_compute. intros H. discriminate H.
Defined.

Lemma demo_sound_tab w os rs :
  map o_total_amount (orders_of "s1" (h_db w)) = os → map rc_amount (receipts_of "s1" (h_db w)) = rs →
  forallb (λ n, 0 <=? n) (os ++ rs) && (zsum rs <=? zsum os) && (zsum os <? 10 ^ 14) = true → sound_tab (I := ()) "s1" (h_db (L := ledger_db) w).
Proof.
  intros Ho Hr [[Hall Hle%Z.leb_le]%andb_prop Hlt%Z.ltb_lt]%andb_prop. rewrite forallb_app in Hall. apply andb_prop in Hall as [Hos Hrs].
  rewrite forallb_forall in Hos, Hrs. split.
  - apply (Forall_map o_total_amount (λ n, 0 <= n)). rewrite Ho. apply Forall_forall. intros n Hn%list_elem_of_In. by apply Z.leb_le, Hos.
  - apply (Forall_map rc_amount (λ n, 0 <= n)). rewrite Hr. apply Forall_forall. intros n Hn%list_elem_of_In. by apply Z.leb_le, Hrs.
  - unfold paid_total, grand_total. rewrite Ho, Hr. lia.
Qed.

Lemma full_payment_frees_table_witness :
  ∃ w r, record_session_payment any_payment "s1" (demo_pay 20460) (demo_dice "8" 60) demo_part = (w, Ok r) ∧ freed "s1" "t1" (h_db w).
Proof.
  destruct (record_session_payment any_payment "s1" (demo_pay 20460) (demo_dice "8" 60) demo_part) as [w out] eqn:E.
  assert (∃ r, out = Ok r) as [r Hr].
  { apply (f_equal snd) in E. cbn [snd] in E. rewrite <-E. vm_compute. eexists. reflexivity. }
  destruct (find_session "s1" (h_db demo_part)) as [s|] eqn:Es; [|vm_compute in Es; discriminate].
  assert (se_table s = "t1"%string) as Ht by (vm_compute in Es; injection Es as <-; reflexivity).
  exists w, r. rewrite Hr in E |- *. split; [reflexivity|]. rewrite <-Ht.
  apply (full_payment_frees_table any_payment "s1" (demo_pay 20460) (demo_dice "8" 60) demo_part w r s (Dec 2046 (-1))).
  - apply (demo_sound_tab demo_part [30460] [10000]); vm_compute; reflexivity.
  - exact Es.
  - vm_compute. reflexivity.
  - vm_compute. reflexivity.
  - exact E.
Defined.

Lemma gateway_settles_once_witness :
  ∃ w, settle_session_from_gateway "order6" (PDec (money_dec 15000)) (Some "pay_29QQoUBi66xm2f"%string) "upi" (demo_dice "9" 70) demo_placed =
    (w, Ok (Settled "s1" (money_float 15460))) ∧
  settle_session_from_gateway "order6" (PDec (money_dec 15000)) (Some "pay_29QQoUBi66xm2f"%string) "upi" (demo_dice "10" 70) w =
    (w, Ok (AlreadyRecorded "s1")).
Proof.
  destruct (settle_session_from_gateway "order6" (PDec (money_dec 15000)) (Some "pay_29QQoUBi66xm2f"%string) "upi" (demo_dice "9" 70) demo_placed)
    as [w out] eqn:E.
  assert (out = Ok (Settled "s1" (money_float 15460))) as Hout.
  { apply (f_equal snd) in E. cbn [snd] in E. rewrite <-E. vm_compute. reflexivity. }
  exists w. rewrite Hout in E |- *. split; [reflexivity|].
  apply (gateway_settles_once false any_payment DineInAccess.no_intent no_amount demo_placed w w "order6" (PDec (money_dec 15000))
    "pay_29QQoUBi66xm2f" "upi" (demo_dice "9" 70) "s1" (money_float 15460) (PDec (money_dec 15000)) "upi" (demo_dice "10" 70) demo_placed_wf).
  - discriminate.
  - vm_compute. reflexivity.
  - exact E.
  - apply rtc_refl.
Defined.

Lemma equal_split_covers_bill_witness :
  ∃ shares, (split_bill "s1" "equal" 3 [] [] 60 demo_placed).2 = Ok shares ∧ zsum (map share_paise shares) = 30460.
Proof.
  destruct ((get_session_bill "s1" 60 demo_placed).2) as [b|e] eqn:E; [|vm_compute in E; discriminate].
  destruct (equal_split_covers_bill "s1" 3 [] [] 60 demo_placed b) as (shares & per & Hs & _ & Hsum & _).
  - apply (demo_sound_tab demo_placed [30460] []); vm_compute; reflexivity.
  - vm_compute. reflexivity.
  - vm_compute. split; reflexivity.
  - lia.
  - exact E.
  - exists shares. split; [exact Hs|]. rewrite Hsum. vm_compute. reflexivity.
Defined.

(** Splitting one rupee among 150 parts asks the first one for a negative amount. *)
Example equal_split_can_be_negative :
  match equal_shares (part_labels 150) (money_dec 100) with Ok (s :: _) => share_paise s | _ => 0 end = -49.
Proof. vm_compute. reflexivity. Qed.
