(* ===== verification/PaymentEvents.v ===== *)
(** Payment events: the payment, order, QR, refund and transfer handlers of
    [src/app/services/razorpay/webhook_dispatcher.py], with the payment intents of
    [payment_intent.py] and the static QR codes of [static_qr_service.py] (migrations 060
    and 078).

    The handlers tie the other components together, so their state is the dine-in hall of
    DineIn (orders, payments and the merchant ledger) with the gateway tables around it
    ([desk]) and the gateway's own world [W].  Each statement commits on its own, so a
    handler returns the state beside its outcome ([act]); only the ledger posting is one
    transaction.  Route transfers, refunds and dine-in settlements are the operations of
    RouteTransfers, Refunds and TableBilling on views of this state. *)

From Stdlib Require Import ZArith Lia Ascii String.
From S2P Require Import Prelude PyDecimal PyFloat PyValues FeePolicy MerchantLedger RazorpayLedgers RouteSafety Refunds Orders DineIn TableBilling RouteTransfers.
Open Scope Z_scope.

(** ** Calls that keep their effects when they raise *)

Definition act (S A : Type) : Type := S → S * res A.

#[export] Instance act_ret S : MRet (act S) := λ A a s, (s, Ok a).
#[export] Instance act_bind S : MBind (act S) := λ A B k m s, match m s with (s', Ok a) => k a s' | (s', Err e) => (s', Err e) end.

Section Acts.
Context {S : Type}.
Definition ask {A} (f : S → A) : act S A := λ s, (s, Ok (f s)).
Definition update (f : S → S) : act S () := λ s, (f s, Ok ()).
Definition lift {A} (r : res A) : act S A := λ s, (s, r).
Definition refuse (b : bool) (e : exn) : act S () := lift (raise_if b e).
(** [try: ... except Exception: log] *)
Definition best_effort {A} (m : act S A) : act S () := λ s, ((m s).1, Ok ()).
End Acts.

(** ** Gateway entities *)

(** The notes of an entity; [None] when they are missing or a list. *)
Definition notes_dict : Type := option (list (string * string)).
Definition note (key : string) (n : notes_dict) : option string :=
  match n with Some l => snd <$> find (λ p, bool_decide (p.1 = key)) l | None => None end.

Record pay_entity := {
  pe_id : option string;
  pe_order_id : option string;
  pe_amount : option Z;
  pe_currency : option string;
  pe_status : option string;
  pe_method : option string;
  pe_vpa : option string;
  pe_bank : option string;
  pe_bank_transaction : option string;
  pe_fee : option Z;
  pe_tax : option Z;
  pe_email : option string;
  pe_contact : option string;
  pe_error_code : option string;
  pe_error_description : option string;
  pe_error_reason : option string;
  pe_captured_at : option Z;
  pe_qr_code : option string;
  pe_qr_id : option string;
  pe_notes : notes_dict;
}.

Definition with_order_id (o : option string) (e : pay_entity) : pay_entity := {|
  pe_id := pe_id e; pe_order_id := o; pe_amount := pe_amount e; pe_currency := pe_currency e; pe_status := pe_status e;
  pe_method := pe_method e; pe_vpa := pe_vpa e; pe_bank := pe_bank e; pe_bank_transaction := pe_bank_transaction e;
  pe_fee := pe_fee e; pe_tax := pe_tax e; pe_email := pe_email e; pe_contact := pe_contact e; pe_error_code := pe_error_code e;
  pe_error_description := pe_error_description e; pe_error_reason := pe_error_reason e; pe_captured_at := pe_captured_at e;
  pe_qr_code := pe_qr_code e; pe_qr_id := pe_qr_id e; pe_notes := pe_notes e |}.

Record order_entity := { oe_id : option string; oe_amount_paid : option Z; oe_amount : option Z }.

Record qr_entity := {
  qe_id : option string;
  qe_amount : option Z;            (* payment_amount or amount *)
  qe_status : option string;
  qe_close_by : option Z;
  qe_closed_at : option Z;
  qe_close_reason : option string;
  qe_received : option Z;
  qe_count : option Z;
}.

Record refund_entity := {
  re_id : option string;
  re_payment : option string;
  re_amount : option Z;
  re_currency : option string;
  re_status : option string;
  re_speed_requested : option string;
  re_speed_processed : option string;
  re_batch : option string;
  re_processed_at : option Z;
  re_created_at : option Z;
  re_notes : notes_dict;
}.

(** The entities of an envelope's payload; a missing one has no fields. *)
Record envelope := {
  en_payment : pay_entity;
  en_order : order_entity;
  en_qr : qr_entity;
  en_refund : refund_entity;
  en_transfer : transfer;
}.

Definition with_payment (p : pay_entity) (e : envelope) : envelope := {|
  en_payment := p; en_order := en_order e; en_qr := en_qr e; en_refund := en_refund e; en_transfer := en_transfer e |}.

(** ** Tables *)

(** [rzp_orders]: one row per gateway order and per (merchant, order). *)
Record rzp_order := {
  ro_id : string;                 (* razorpay_order_id *)
  ro_uuid : string;
  ro_merchant : string;
  ro_branch : option string;
  ro_internal : string;
  ro_amount : Z;
  ro_paid : Z;
  ro_due : Z;
  ro_currency : string;
  ro_status : string;
}.

(** [rzp_payments], with what RouteTransfers reads of a row first. *)
Record gateway_payment := {
  gp_row : rzp_payment;
  gp_order_uuid : option string;
  gp_branch : option string;
  gp_status : string;
  gp_captured_at : option Z;
  gp_fee : option Z;
  gp_tax : option Z;
  gp_method : option string;
  gp_vpa : option string;
  gp_bank : option string;
  gp_error_code : option string;
  gp_error_description : option string;
}.
Definition gp_id (p : gateway_payment) : string := rp_id (gp_row p).

(** The gateway columns of the payments table; a row without an entry has none. *)
Record pay_columns := { pc_order : option string; pc_payment : option string }.

Record qr_code := {
  qr_id : string;
  qr_merchant : string;
  qr_branch : option string;
  qr_amount : option Z;
  qr_status : string;
  qr_close_by : option Z;
  qr_closed_at : option Z;
  qr_close_reason : option string;
  qr_received : Z;
  qr_count : Z;
}.
(** [rzp_qr_order_links], oldest first; only primary links are written. *)
Record qr_link := { ql_qr : string; ql_order_uuid : string; ql_order_id : string; ql_internal : string; ql_merchant : string }.

Record refund_mirror := {
  rm_id : string;
  rm_payment : string;
  rm_merchant : string;
  rm_amount : Z;
  rm_currency : string;
  rm_status : string;
  rm_speed_processed : option string;
  rm_processed_at : option Z;
}.

(** [rzp_static_qr_codes] (oldest first) and [rzp_static_qr_payments]. *)
Record static_qr := { sq_merchant : string; sq_account : string; sq_id : string; sq_active : bool; sq_name : string }.
Record static_payment := {
  st_qr : string;
  st_merchant : string;
  st_account : option string;
  st_amount : Z;
  st_currency : string;
  st_status : string;
  st_method : option string;
  st_vpa : option string;
  st_failure_code : option string;
  st_failure_reason : option string;
  st_captured_at : option Z;
}.

Inductive pay_event :=
  | PaymentCompleted (payment order merchant razorpay : string)
  | PaymentFailed (payment : string) (razorpay : option string)
  | PaymentExpired (order payment qr : string)
  | PaymentRefunded (refund payment : string)
  | PaymentInitiated (order payment razorpay_order : string)
  | StaticQrPayment (status payment : string).

Record desk (L I : Type) := {
  dk_hall : hall L I;
  dk_columns : gmap string pay_columns;
  dk_orders : list rzp_order;
  dk_payments : list gateway_payment;
  dk_qr : list qr_code;
  dk_links : list qr_link;
  dk_refund_mirrors : list refund_mirror;
  dk_refunds : list refund;
  dk_requests : gmap string (operation refund);
  dk_lost : list lost_dispute;
  dk_accounts : list account;
  dk_allocations : gmap string allocation;
  dk_operations : gmap string (operation reply);
  dk_mirrors : gmap string mirror;
  dk_static : list static_qr;
  dk_static_payments : gmap string static_payment;
  dk_published : list pay_event;
}.
Arguments dk_hall {L I}. Arguments dk_columns {L I}. Arguments dk_orders {L I}. Arguments dk_payments {L I}. Arguments dk_qr {L I}.
Arguments dk_links {L I}. Arguments dk_refund_mirrors {L I}. Arguments dk_refunds {L I}. Arguments dk_requests {L I}.
Arguments dk_lost {L I}. Arguments dk_accounts {L I}. Arguments dk_allocations {L I}. Arguments dk_operations {L I}.
Arguments dk_mirrors {L I}. Arguments dk_static {L I}. Arguments dk_static_payments {L I}. Arguments dk_published {L I}.

(** ** The state *)

Section Desk.
Context {L : Type} `{LedgerApi L} {I : Type}.

Definition with_hall (h : hall L I) (d : desk L I) : desk L I := {|
  dk_hall := h; dk_columns := dk_columns d; dk_orders := dk_orders d; dk_payments := dk_payments d; dk_qr := dk_qr d;
  dk_links := dk_links d; dk_refund_mirrors := dk_refund_mirrors d; dk_refunds := dk_refunds d; dk_requests := dk_requests d;
  dk_lost := dk_lost d; dk_accounts := dk_accounts d; dk_allocations := dk_allocations d; dk_operations := dk_operations d;
  dk_mirrors := dk_mirrors d; dk_static := dk_static d; dk_static_payments := dk_static_payments d; dk_published := dk_published d |}.
Definition with_columns (c : gmap string pay_columns) (d : desk L I) : desk L I := {|
  dk_hall := dk_hall d; dk_columns := c; dk_orders := dk_orders d; dk_payments := dk_payments d; dk_qr := dk_qr d;
  dk_links := dk_links d; dk_refund_mirrors := dk_refund_mirrors d; dk_refunds := dk_refunds d; dk_requests := dk_requests d;
  dk_lost := dk_lost d; dk_accounts := dk_accounts d; dk_allocations := dk_allocations d; dk_operations := dk_operations d;
  dk_mirrors := dk_mirrors d; dk_static := dk_static d; dk_static_payments := dk_static_payments d; dk_published := dk_published d |}.
Definition with_orders (l : list rzp_order) (d : desk L I) : desk L I := {|
  dk_hall := dk_hall d; dk_columns := dk_columns d; dk_orders := l; dk_payments := dk_payments d; dk_qr := dk_qr d;
  dk_links := dk_links d; dk_refund_mirrors := dk_refund_mirrors d; dk_refunds := dk_refunds d; dk_requests := dk_requests d;
  dk_lost := dk_lost d; dk_accounts := dk_accounts d; dk_allocations := dk_allocations d; dk_operations := dk_operations d;
  dk_mirrors := dk_mirrors d; dk_static := dk_static d; dk_static_payments := dk_static_payments d; dk_published := dk_published d |}.
Definition with_payments (l : list gateway_payment) (d : desk L I) : desk L I := {|
  dk_hall := dk_hall d; dk_columns := dk_columns d; dk_orders := dk_orders d; dk_payments := l; dk_qr := dk_qr d;
  dk_links := dk_links d; dk_refund_mirrors := dk_refund_mirrors d; dk_refunds := dk_refunds d; dk_requests := dk_requests d;
  dk_lost := dk_lost d; dk_accounts := dk_accounts d; dk_allocations := dk_allocations d; dk_operations := dk_operations d;
  dk_mirrors := dk_mirrors d; dk_static := dk_static d; dk_static_payments := dk_static_payments d; dk_published := dk_published d |}.
Definition with_qr (l : list qr_code) (k : list qr_link) (d : desk L I) : desk L I := {|
  dk_hall := dk_hall d; dk_columns := dk_columns d; dk_orders := dk_orders d; dk_payments := dk_payments d; dk_qr := l;
  dk_links := k; dk_refund_mirrors := dk_refund_mirrors d; dk_refunds := dk_refunds d; dk_requests := dk_requests d;
  dk_lost := dk_lost d; dk_accounts := dk_accounts d; dk_allocations := dk_allocations d; dk_operations := dk_operations d;
  dk_mirrors := dk_mirrors d; dk_static := dk_static d; dk_static_payments := dk_static_payments d; dk_published := dk_published d |}.
Definition with_refund_tables (m : list refund_mirror) (l : list refund) (r : gmap string (operation refund)) (d : desk L I) : desk L I := {|
  dk_hall := dk_hall d; dk_columns := dk_columns d; dk_orders := dk_orders d; dk_payments := dk_payments d; dk_qr := dk_qr d;
  dk_links := dk_links d; dk_refund_mirrors := m; dk_refunds := l; dk_requests := r;
  dk_lost := dk_lost d; dk_accounts := dk_accounts d; dk_allocations := dk_allocations d; dk_operations := dk_operations d;
  dk_mirrors := dk_mirrors d; dk_static := dk_static d; dk_static_payments := dk_static_payments d; dk_published := dk_published d |}.
Definition with_static (l : list static_qr) (m : gmap string static_payment) (d : desk L I) : desk L I := {|
  dk_hall := dk_hall d; dk_columns := dk_columns d; dk_orders := dk_orders d; dk_payments := dk_payments d; dk_qr := dk_qr d;
  dk_links := dk_links d; dk_refund_mirrors := dk_refund_mirrors d; dk_refunds := dk_refunds d; dk_requests := dk_requests d;
  dk_lost := dk_lost d; dk_accounts := dk_accounts d; dk_allocations := dk_allocations d; dk_operations := dk_operations d;
  dk_mirrors := dk_mirrors d; dk_static := l; dk_static_payments := m; dk_published := dk_published d |}.
Definition publish (e : pay_event) (d : desk L I) : desk L I := {|
  dk_hall := dk_hall d; dk_columns := dk_columns d; dk_orders := dk_orders d; dk_payments := dk_payments d; dk_qr := dk_qr d;
  dk_links := dk_links d; dk_refund_mirrors := dk_refund_mirrors d; dk_refunds := dk_refunds d; dk_requests := dk_requests d;
  dk_lost := dk_lost d; dk_accounts := dk_accounts d; dk_allocations := dk_allocations d; dk_operations := dk_operations d;
  dk_mirrors := dk_mirrors d; dk_static := dk_static d; dk_static_payments := dk_static_payments d;
  dk_published := dk_published d ++ [e] |}.

(** The tables as RouteTransfers sees them, and what it writes. *)
Definition refund_row (r : refund_mirror) : rzp_refund := {| rr_payment := rm_payment r; rr_amount := rm_amount r; rr_status := rm_status r |}.
Definition route_view (d : desk L I) : route_db := {|
  accounts := dk_accounts d; rzp_payments := map gp_row (dk_payments d); rzp_refunds := map refund_row (dk_refund_mirrors d);
  lost_disputes := dk_lost d; allocations := dk_allocations d; operations := dk_operations d; mirrors := dk_mirrors d |}.
Definition put_route (r : route_db) (d : desk L I) : desk L I := {|
  dk_hall := dk_hall d; dk_columns := dk_columns d; dk_orders := dk_orders d; dk_payments := dk_payments d; dk_qr := dk_qr d;
  dk_links := dk_links d; dk_refund_mirrors := dk_refund_mirrors d; dk_refunds := dk_refunds d; dk_requests := dk_requests d;
  dk_lost := dk_lost d; dk_accounts := dk_accounts d; dk_allocations := allocations r; dk_operations := operations r;
  dk_mirrors := mirrors r; dk_static := dk_static d; dk_static_payments := dk_static_payments d; dk_published := dk_published d |}.

Definition columns_of (d : desk L I) (p : payment) : pay_columns := default {| pc_order := None; pc_payment := None |} (dk_columns d !! py_id p).
Definition the_payments (d : desk L I) : list payment := payments (book (h_db (dk_hall d))).
Definition on_book (f : order_db I → order_db I) (d : desk L I) : desk L I :=
  with_hall (on_db (λ db, with_book (f (book db)) db) (dk_hall d)) d.
Definition set_payments (l : list payment) (d : desk L I) : desk L I :=
  on_book (λ b, {| orders := orders b; order_items := order_items b; payments := l; claims := claims b |}) d.
Definition set_ledger (l : L) (d : desk L I) : desk L I :=
  with_hall {| h_db := h_db (dk_hall d); h_cache := h_cache (dk_hall d); h_bills := h_bills (dk_hall d); h_ledger := l; h_events := h_events (dk_hall d) |} d.

(** The tables as Refunds sees them (amounts in 10^-4), and what its webhook hook writes. *)
Definition refund_payment (d : desk L I) (p : payment) : Refunds.payment := {|
  pay_restaurant := py_restaurant p; Refunds.pay_order := Some (py_order p); pay_amount := 100 * py_amount p; pay_status := py_status p;
  pay_currency := None; pay_razorpay := pc_payment (columns_of d p) |}.
Definition refund_view (d : desk L I) : refund_db L := {|
  payment_rows := list_to_map (map (λ p, (py_id p, refund_payment d p)) (the_payments d));
  refund_rows := dk_refunds d;
  route_allocations := (λ a, (al_gross a, Some (al_merchant_paise a))) <$> dk_allocations d;
  Refunds.rzp_refunds := list_to_map (map (λ r, (rm_id r, {| rz_internal := None; rz_merchant := rm_merchant r; rz_amount := rm_amount r; rz_status := rm_status r |})) (dk_refund_mirrors d));
  merchant_ledger := h_ledger (dk_hall d) |}.
Definition put_refunds (r : refund_db L) (d : desk L I) : desk L I :=
  set_ledger (merchant_ledger r) (with_refund_tables (dk_refund_mirrors d) (refund_rows r) (dk_requests d) d).
End Desk.

(** ** Reading the tables *)

Section Handlers.
Context {L : Type} `{LedgerApi L} {I W : Type}.
Abbreviation state := (desk L I * W)%type.

Definition the_desk : act state (desk L I) := ask fst.
Definition write (f : desk L I → desk L I) : act state () := update (λ s, (f s.1, s.2)).

Definition _resolve_order_context_by_rzp_order (o : option string) (d : desk L I) : option rzp_order :=
  if str_truthy o then find (λ r, bool_decide (Some (ro_id r) = o)) (dk_orders d) else None.

(** The newest primary link of a QR code that exists. *)
Definition _resolve_order_context_by_qr (q : option string) (d : desk L I) : option qr_link :=
  if str_truthy q && existsb (λ c, bool_decide (Some (qr_id c) = q)) (dk_qr d)
  then last (filter (λ l, Some (ql_qr l) = q) (dk_links d)) else None.

Definition saved_order (internal merchant : string) (d : desk L I) : option rzp_order :=
  last (filter (λ r, ro_internal r = internal ∧ ro_merchant r = merchant) (dk_orders d)).

Definition payment_of_order (o : option string) (d : desk L I) : option payment :=
  find (λ p, bool_decide (pc_order (columns_of d p) = o)) (the_payments d).

Definition mirrored_payment (id : option string) (d : desk L I) : option gateway_payment :=
  find (λ p, bool_decide (Some (gp_id p) = id)) (dk_payments d).

(** ** Persistence helpers *)

(** A state-forward update: captured and refunded payments keep their status, a captured
    payment stays captured. *)
Definition forward (e : pay_entity) (status : string) (captured : bool) (now : Z) (p : gateway_payment) : gateway_payment := {|
  gp_row := {| rp_id := rp_id (gp_row p); rp_merchant := rp_merchant (gp_row p); rp_amount := rp_amount (gp_row p);
               rp_currency := rp_currency (gp_row p); rp_captured := rp_captured (gp_row p) || captured;
               rp_order := rp_order (gp_row p); rp_internal_order := rp_internal_order (gp_row p) |};
  gp_order_uuid := gp_order_uuid p; gp_branch := gp_branch p;
  gp_status := if str_mem (gp_status p) ["captured"; "refunded"]%string then gp_status p else status;
  gp_captured_at := coalesce (gp_captured_at p) (if captured then Some now else None);
  gp_fee := coalesce (pe_fee e) (gp_fee p); gp_tax := coalesce (pe_tax e) (gp_tax p);
  gp_method := coalesce (pe_method e) (gp_method p); gp_vpa := coalesce (pe_vpa e) (gp_vpa p);
  gp_bank := coalesce (or_str (pe_bank e) (pe_bank_transaction e)) (gp_bank p);
  gp_error_code := coalesce (pe_error_code e) (gp_error_code p);
  gp_error_description := coalesce (pe_error_description e) (gp_error_description p) |}.

Definition new_payment (e : pay_entity) (id merchant : string) (branch internal uuid : option string) (status currency : string)
    (captured : bool) (now : Z) : gateway_payment := {|
  gp_row := {| rp_id := id; rp_merchant := merchant; rp_amount := default 0 (pe_amount e); rp_currency := currency;
               rp_captured := captured; rp_order := pe_order_id e; rp_internal_order := internal |};
  gp_order_uuid := uuid; gp_branch := branch; gp_status := status; gp_captured_at := if captured then Some now else None;
  gp_fee := pe_fee e; gp_tax := pe_tax e; gp_method := pe_method e; gp_vpa := pe_vpa e;
  gp_bank := or_str (pe_bank e) (pe_bank_transaction e); gp_error_code := pe_error_code e; gp_error_description := pe_error_description e |}.

(** The index of the partitioned table is written with the row, so a row is found by its
    gateway id.  Without an id or a merchant nothing is written. *)
Definition _upsert_rzp_payment (e : pay_entity) (merchant branch internal uuid : option string) (status : string) (captured : bool)
    (now : Z) : act state (option string) :=
  d ← the_desk;
  if negb (str_truthy (pe_id e)) || negb (str_truthy merchant) then mret None
  else
    let id := str_or (pe_id e) "" in
    match mirrored_payment (Some id) d with
    | Some _ =>
        _ ← write (with_payments (map (λ p, if bool_decide (gp_id p = id) then forward e status captured now p else p) (dk_payments d)));
        mret (Some id)
    | None =>
        currency ← lift (varchar 3 (str_or (pe_currency e) "INR"));
        _ ← write (with_payments (dk_payments d ++ [new_payment e id (str_or merchant "") branch internal uuid status currency captured now]));
        mret (Some id)
    end.

Definition set_pay_status (status : string) (paid_at : option Z) (p : payment) : payment := {|
  py_id := py_id p; py_order := py_order p; py_restaurant := py_restaurant p; py_user := py_user p; py_branch := py_branch p;
  py_method := py_method p; py_status := status; py_amount := py_amount p; py_paid_at := paid_at |}.

(** Gives the payments [hit] their gateway payment where they have none. *)
Definition fill_payment_id (id : option string) (hits : list payment) (d : desk L I) : gmap string pay_columns :=
  foldr (λ p m, <[py_id p := {| pc_order := pc_order (columns_of d p); pc_payment := coalesce (pc_payment (columns_of d p)) id |}]> m)
    (dk_columns d) hits.

(** A state-forward UPDATE of the payments of a gateway order; the first updated row. *)
Definition _mark_payments_row (o id : option string) (new_status : string) (expected : list string) (now : Z) : act state (option payment) :=
  d ← the_desk;
  if negb (str_truthy o) then mret None
  else
    let hit p := bool_decide (pc_order (columns_of d p) = o) && str_mem (py_status p) expected in
    let flip p := set_pay_status new_status
                    (if bool_decide (new_status = "completed"%string) then coalesce (py_paid_at p) (Some now) else py_paid_at p) p in
    let hits := filter (λ p, hit p = true) (the_payments d) in
    _ ← write (set_payments (map (λ p, if hit p then flip p else p) (the_payments d)));
    _ ← write (with_columns (if bool_decide (new_status = "failed"%string) then dk_columns d else fill_payment_id id hits d));
    mret (flip <$> head hits).

Definition _confirm_order (order : option string) (now : Z) : act state () :=
  if negb (str_truthy order) then mret ()
  else write (on_book (update_orders (str_or order "")
         (λ o, if str_mem (o_status o) ["Confirmed"; "Completed"; "Cancelled"; "Served"; "Delivered"]%string then o else set_status "Confirmed" now o))).

Definition _bump_rzp_order_paid (o : option string) (amount : option Z) : act state () :=
  if negb (str_truthy o) then mret ()
  else write (λ d, with_orders (map (λ r, if bool_decide (Some (ro_id r) = o) && negb (bool_decide (ro_status r = "paid"%string)) then {|
           ro_id := ro_id r; ro_uuid := ro_uuid r; ro_merchant := ro_merchant r; ro_branch := ro_branch r; ro_internal := ro_internal r;
           ro_amount := ro_amount r; ro_paid := default (ro_paid r) amount;
           ro_due := Z.max (ro_amount r - default (ro_amount r) amount) 0;
           ro_currency := ro_currency r; ro_status := "paid" |} else r) (dk_orders d)) d).

(** ** Payment handlers

    The environment's estimate rate, the gateway and the digest of a request body are
    arguments; [t] is what a call draws. *)

Context (gw : gateway W) (digest : body → string) (rate : decimal).

(** An operation on the Route tables. *)
Definition route {A} (f : route_db * W → route_db * W * res A) : act state A := λ s,
  match f (route_view s.1, s.2) with (db, w, r) => ((put_route db s.1, w), r) end.

(** The order a captured payment is for: its own, or the one its notes name, as we saved
    it. *)
Definition capture_context (e : pay_entity) (d : desk L I) : option string * option rzp_order :=
  match _resolve_order_context_by_rzp_order (pe_order_id e) d with
  | Some c => (pe_order_id e, Some c)
  | None =>
      let internal := note "internal_order_id" (pe_notes e) in
      let merchant := note "merchant_id" (pe_notes e) in
      if str_truthy internal && str_truthy merchant then
        match saved_order (str_or internal "") (str_or merchant "") d with
        | Some r => (Some (ro_id r), _resolve_order_context_by_rzp_order (Some (ro_id r)) d)
        | None => (pe_order_id e, None)
        end
      else (pe_order_id e, None)
  end.

(** The payment row the capture pays, validated and claimed for this gateway payment. *)
Definition claim_payment (ctx : rzp_order) (o : option string) (e : pay_entity) : act state payment :=
  d ← the_desk;
  match payment_of_order o d with
  | None => lift (Err (ValueError "capture has no matching merchant payment"))
  | Some p =>
      _ ← refuse (negb (bool_decide (py_restaurant p = Some (ro_merchant ctx)))) (ValueError "capture has no matching merchant payment");
      _ ← refuse (negb (py_amount p =? default 0 (pe_amount e)) || negb (bool_decide (pe_currency e = Some "INR"%string))
                  || negb (bool_decide (pc_payment (columns_of d p) = None) || bool_decide (pc_payment (columns_of d p) = pe_id e)))
            (ValueError "captured payment amount, currency or identity mismatch");
      _ ← write (with_columns (<[py_id p := {| pc_order := pc_order (columns_of d p); pc_payment := pe_id e |}]> (dk_columns d)));
      mret p
  end.

Definition split_notes (split : Z * Z * Z) : list (string * string) :=
  [("source", "auto_split_on_capture"); ("merchant_share", int_text split.1.1); ("bittu_estimate_paise", int_text split.1.2);
   ("gateway_estimate_paise", int_text split.2)]%string.

(** The transfer of the share, and what refunds already took of it. *)
Definition move_share (ctx : rzp_order) (e : pay_entity) : act state () :=
  let payment := str_or (pe_id e) "" in
  split ← lift (provisional_merchant_transfer_paise rate (PInt (default 0 (pe_amount e))) (pe_method e));
  _ ← route (create_transfer gw digest {|
        ta_merchant := ro_merchant ctx; ta_payment := payment; ta_amount := split.1.1; ta_currency := str_or (pe_currency e) "INR";
        ta_on_hold := false; ta_on_hold_until := None; ta_notes := split_notes split |});
  route (reverse_refunded_share gw digest payment).

Definition frozen_share (payment merchant : string) (d : desk L I) : option Z :=
  match dk_allocations d !! payment with
  | Some a => if bool_decide (al_merchant a = merchant) then Some (al_merchant_paise a) else None
  | None => None
  end.

Definition capture_of (ctx : rzp_order) (p : payment) (e : pay_entity) : capture := {|
  cap_merchant := Some (ro_merchant ctx); cap_payment := py_id p; cap_order := Some (py_order p); cap_branch := ro_branch ctx;
  cap_bank_reference := pe_bank_transaction e; cap_razorpay_payment := pe_id e; cap_created_by := None |}.

(** One transaction on the ledger. *)
Definition post_capture (s : stamp) (ctx : rzp_order) (p : payment) (e : pay_entity) : act state () :=
  d ← the_desk;
  posted ← lift (apply_payment_capture s (capture_of ctx p e) (PDec (money_dec (py_amount p)))
                   (or_str (Some (py_method p)) (pe_method e)) (frozen_share (str_or (pe_id e) "") (ro_merchant ctx) d)
                   (Some KRazorpay) (h_ledger (dk_hall d)));
  write (set_ledger posted.1).

(** The money of a capture, in the order of the code: claim, mirror, transfer, ledger. *)
Definition take_capture (t : dice) (o : option string) (ctx : option rzp_order) (e : pay_entity) : act state (option string) :=
  let merchant := ro_merchant <$> ctx in
  let mirror := _upsert_rzp_payment e merchant (ctx ≫= ro_branch) (ro_internal <$> ctx) (ro_uuid <$> ctx) "captured" true (x_now t) in
  match ctx with
  | None => mirror
  | Some c =>
      p ← claim_payment c o e;
      id ← mirror;
      _ ← move_share c e;
      _ ← post_capture (x_stamp t) c p e;
      mret id
  end.

(** The dine-in bill a captured order belongs to; never fails the webhook. *)
Definition settle_dine_in (t : dice) (internal : string) (amount : Z) (id : option string) : act state () :=
  best_effort (λ s : state,
    match ddiv (d_int amount) (d_int 100) with
    | Err e => (s, Err e)
    | Ok x =>
        let (h, r) := settle_session_from_gateway internal (PFloat (of_decimal x)) id "online" t (dk_hall s.1) in
        ((with_hall h s.1, s.2), r)
    end).

(** *** Static QR codes *)

Definition _lookup_static_qr_by_razorpay_id (q : string) (d : desk L I) : option static_qr :=
  match last (filter (λ r, sq_id r = q ∧ sq_active r = true) (dk_static d)) with
  | Some r => Some r
  | None => last (filter (λ r, sq_id r = q) (dk_static d))
  end.
Definition _fetch_active_row (merchant : string) (d : desk L I) : option static_qr :=
  find (λ r, bool_decide (sq_merchant r = merchant) && sq_active r) (dk_static d).

Definition marked (n : notes_dict) : bool :=
  str_mem (str_or (note "bittu_static_qr" n) "") ["1"; "true"; "True"]%string.

(** The static QR a payment was scanned from. *)
Definition static_qr_of (e : pay_entity) (d : desk L I) : option static_qr :=
  let q := or_str (pe_qr_code e) (or_str (pe_qr_id e) (note "razorpay_qr_id" (pe_notes e))) in
  if marked (pe_notes e) || str_truthy q then
    match (if str_truthy q then _lookup_static_qr_by_razorpay_id (str_or q "") d else None) with
    | Some r => Some r
    | None =>
        let m := note "merchant_id" (pe_notes e) in
        if str_truthy m then _fetch_active_row (str_or m "") d else None
    end
  else None.

Definition ends_with (suffix s : string) : bool :=
  bool_decide (drop (length (chars s) - length (chars suffix)) (chars s) = chars suffix).
Definition _resolve_status (event : string) (status : option string) : option string :=
  let s := lower (str_or status "") in
  if str_mem s ["captured"; "authorized"; "failed"; "refunded"]%string then Some s
  else if ends_with ".captured" event then Some "captured"%string
  else if ends_with ".authorized" event then Some "authorized"%string
  else if ends_with ".failed" event then Some "failed"%string
  else None.

Definition static_row (q : static_qr) (status currency : string) (e : pay_entity) (old : option static_payment) : static_payment :=
  let reason := or_str (pe_error_description e) (pe_error_reason e) in
  match old with
  | None => {| st_qr := sq_id q; st_merchant := sq_merchant q; st_account := Some (sq_account q); st_amount := default 0 (pe_amount e);
               st_currency := currency; st_status := status; st_method := pe_method e; st_vpa := pe_vpa e;
               st_failure_code := pe_error_code e; st_failure_reason := reason; st_captured_at := nonzero (pe_captured_at e) |}
  | Some r => {| st_qr := st_qr r; st_merchant := st_merchant r; st_account := st_account r; st_amount := st_amount r;
                 st_currency := st_currency r; st_status := status; st_method := coalesce (pe_method e) (st_method r);
                 st_vpa := coalesce (pe_vpa e) (st_vpa r); st_failure_code := coalesce (pe_error_code e) (st_failure_code r);
                 st_failure_reason := coalesce reason (st_failure_reason r); st_captured_at := coalesce (nonzero (pe_captured_at e)) (st_captured_at r) |}
  end.

Definition static_notes (q : static_qr) (amount share : Z) : list (string * string) :=
  [("source", "static_qr_auto_split_on_capture"); ("razorpay_qr_id", sq_id q); ("linked_account_id", sq_account q);
   ("merchant_id", sq_merchant q); ("gross_paise", int_text amount); ("commission_paise", int_text (amount - share));
   ("merchant_share", int_text share)]%string.

(** The split of a static QR payment; a share under 100 paise is left out. *)
Definition static_split (t : dice) (q : static_qr) (currency : string) (e : pay_entity) : act state () :=
  let amount := default 0 (pe_amount e) in
  _ ← _upsert_rzp_payment e (Some (sq_merchant q)) None None None "captured" true (x_now t);
  share ← lift (merchant_transfer_paise (PInt amount));
  if share <? 100 then mret ()
  else
    _ ← route (create_transfer gw digest {|
          ta_merchant := sq_merchant q; ta_payment := str_or (pe_id e) ""; ta_amount := share; ta_currency := currency;
          ta_on_hold := false; ta_on_hold_until := None; ta_notes := static_notes q amount share |});
    mret ().

Definition handle_webhook_payment_event (t : dice) (event : string) (e : pay_entity) : act state () :=
  d ← the_desk;
  match static_qr_of e d, _resolve_status event (pe_status e) with
  | Some q, Some status =>
      if negb (str_truthy (pe_id e)) then mret ()
      else
        let id := str_or (pe_id e) "" in
        let currency := of_chars (take 3 (chars (str_or (pe_currency e) "INR"))) in
        _ ← write (with_static (dk_static d) (<[id := static_row q status currency e (dk_static_payments d !! id)]> (dk_static_payments d)));
        _ ← (if bool_decide (status = "captured"%string) && (0 <? default 0 (pe_amount e)) then static_split t q currency e else mret ());
        write (publish (StaticQrPayment status id))
  | _, _ => mret ()
  end.

(** *** The payment events *)

Definition _handle_payment_authorized (t : dice) (env : envelope) : act state () :=
  let e := en_payment env in
  d ← the_desk;
  let ctx := _resolve_order_context_by_rzp_order (pe_order_id e) d in
  _ ← _upsert_rzp_payment e (ro_merchant <$> ctx) (ctx ≫= ro_branch) (ro_internal <$> ctx) (ro_uuid <$> ctx) "authorized" false (x_now t);
  _ ← _mark_payments_row (pe_order_id e) (pe_id e) "initiated" ["pending"%string] (x_now t);
  handle_webhook_payment_event t "payment.authorized" e.

Definition announce_capture (row : option payment) (ctx : option rzp_order) (e : pay_entity) : act state () :=
  match row, ctx with
  | Some p, Some c => write (publish (PaymentCompleted (py_id p) (py_order p) (ro_merchant c) (str_or (pe_id e) "")))
  | _, _ => mret ()
  end.

Definition _handle_payment_captured (t : dice) (env : envelope) : act state (option string) :=
  let e := en_payment env in
  let amount := default 0 (pe_amount e) in
  d ← the_desk;
  let '(o, ctx) := capture_context e d in
  id ← take_capture t o ctx e;
  row ← _mark_payments_row o (pe_id e) "completed" ["pending"; "initiated"]%string (x_now t);
  _ ← _confirm_order (ro_internal <$> ctx) (x_now t);
  _ ← _bump_rzp_order_paid o (Some amount);
  _ ← announce_capture row ctx e;
  _ ← match ctx with Some c => settle_dine_in t (ro_internal c) amount (pe_id e) | None => mret () end;
  _ ← handle_webhook_payment_event t "payment.captured" e;
  mret id.

Definition _handle_payment_failed (t : dice) (env : envelope) : act state () :=
  let e := en_payment env in
  d ← the_desk;
  let ctx := _resolve_order_context_by_rzp_order (pe_order_id e) d in
  _ ← _upsert_rzp_payment e (ro_merchant <$> ctx) (ctx ≫= ro_branch) (ro_internal <$> ctx) (ro_uuid <$> ctx) "failed" false (x_now t);
  row ← _mark_payments_row (pe_order_id e) (pe_id e) "failed" ["pending"; "initiated"]%string (x_now t);
  _ ← match row with Some p => write (publish (PaymentFailed (py_id p) (pe_id e))) | None => mret () end;
  handle_webhook_payment_event t "payment.failed" e.

Definition _handle_order_paid (t : dice) (env : envelope) : act state () :=
  let o := en_order env in
  let paid := default 0 (or_num (oe_amount_paid o) (oe_amount o)) in
  _ ← _bump_rzp_order_paid (oe_id o) (Some paid);
  if str_truthy (pe_id (en_payment env)) then _ ← _handle_payment_captured t env; mret () else mret ().

(** ** QR codes *)

Definition _QR_STATES : list string := ["active"; "closed"; "expired"]%string.

Definition _upsert_rzp_qr (q : qr_entity) : act state () :=
  if negb (str_truthy (qe_id q)) then mret ()
  else
    let id := str_or (qe_id q) "" in
    let status := str_or (qe_status q) "active" in
    _ ← refuse (negb (str_mem status _QR_STATES)) (DatabaseError "invalid input value for enum rzp_qr_state");
    write (λ d,
      if existsb (λ c, bool_decide (qr_id c = id)) (dk_qr d) then
        with_qr (map (λ c, if bool_decide (qr_id c = id) then {|
          qr_id := qr_id c; qr_merchant := qr_merchant c; qr_branch := qr_branch c; qr_amount := qr_amount c; qr_status := status;
          qr_close_by := coalesce (qe_close_by q) (qr_close_by c); qr_closed_at := coalesce (qe_closed_at q) (qr_closed_at c);
          qr_close_reason := coalesce (qe_close_reason q) (qr_close_reason c);
          qr_received := Z.max (default 0 (qe_received q)) (qr_received c); qr_count := Z.max (default 0 (qe_count q)) (qr_count c) |}
          else c) (dk_qr d)) (dk_links d) d
      else
        with_qr (dk_qr d ++ [{| qr_id := id; qr_merchant := platform_merchant; qr_branch := None; qr_amount := qe_amount q;
          qr_status := status; qr_close_by := qe_close_by q; qr_closed_at := qe_closed_at q; qr_close_reason := qe_close_reason q;
          qr_received := default 0 (qe_received q); qr_count := default 0 (qe_count q) |}]) (dk_links d) d).

(** A QR that closes without money expires the open payments of its order. *)
Definition expire_payments (order qr : string) : act state () :=
  d ← the_desk;
  let hit p := bool_decide (py_order p = order) && str_mem (py_status p) ["initiated"; "pending"]%string in
  _ ← write (set_payments (map (λ p, if hit p then set_pay_status "expired" (py_paid_at p) p else p) (the_payments d)));
  match find hit (the_payments d) with
  | Some p => write (publish (PaymentExpired order (py_id p) qr))
  | None => mret ()
  end.

Definition _handle_qr_created (env : envelope) : act state () := _upsert_rzp_qr (en_qr env).

Definition _handle_qr_closed (env : envelope) : act state () :=
  let q := en_qr env in
  _ ← _upsert_rzp_qr q;
  d ← the_desk;
  if negb (str_truthy (qe_id q)) || (0 <? default 0 (qe_received q)) then mret ()
  else match _resolve_order_context_by_qr (qe_id q) d with
       | None => mret ()
       | Some l => expire_payments (ql_internal l) (str_or (qe_id q) "")
       end.

Definition _handle_qr_credited (t : dice) (env : envelope) : act state () :=
  let e := en_payment env in
  _ ← _upsert_rzp_qr (en_qr env);
  d ← the_desk;
  if negb (str_truthy (pe_id e)) then mret ()
  else
    let env' := if str_truthy (pe_order_id e) then env
                else match _resolve_order_context_by_qr (qe_id (en_qr env)) d with
                     | Some l => if bool_decide (ql_order_id l = ""%string) then env else with_payment (with_order_id (Some (ql_order_id l)) e) env
                     | None => env
                     end in
    _ ← _handle_payment_captured t env';
    mret ().

(** ** Refunds *)

Definition mirror_refund (e : refund_entity) (id payment merchant currency status : string) (d : desk L I) : list refund_mirror :=
  let at_ := or_num (re_processed_at e) (re_created_at e) in
  if existsb (λ r, bool_decide (rm_id r = id)) (dk_refund_mirrors d) then
    map (λ r, if bool_decide (rm_id r = id) then {|
      rm_id := rm_id r; rm_payment := rm_payment r; rm_merchant := rm_merchant r; rm_amount := rm_amount r; rm_currency := rm_currency r;
      rm_status := if bool_decide (rm_status r = "processed"%string) then rm_status r else status;
      rm_speed_processed := coalesce (re_speed_processed e) (rm_speed_processed r); rm_processed_at := coalesce at_ (rm_processed_at r) |}
      else r) (dk_refund_mirrors d)
  else dk_refund_mirrors d ++ [{| rm_id := id; rm_payment := payment; rm_merchant := merchant; rm_amount := default 0 (re_amount e);
         rm_currency := currency; rm_status := status; rm_speed_processed := re_speed_processed e; rm_processed_at := at_ |}].

(** A payment whose processed refunds reach its amount is refunded. *)
Definition refund_payments (rzp : string) (d : desk L I) : list payment :=
  map (λ p, if bool_decide (pc_payment (columns_of d p) = Some rzp) && str_mem (py_status p) ["completed"; "settled"]%string
               && (py_amount p <=? refunded_paise rzp (route_view d))
            then set_pay_status "refunded" (py_paid_at p) p else p) (the_payments d).

Definition _upsert_rzp_refund (e : refund_entity) (status : string) : act state () :=
  if negb (str_truthy (re_id e)) then mret ()
  else
    d ← the_desk;
    let merchant := if str_truthy (re_payment e) then (λ p, rp_merchant (gp_row p)) <$> mirrored_payment (re_payment e) d else None in
    match re_payment e with
    | None => lift (Err (DatabaseError "null value in column razorpay_payment_id"))
    | Some payment =>
        currency ← lift (varchar 3 (str_or (re_currency e) "INR"));
        _ ← write (λ d, with_refund_tables
              (mirror_refund e (str_or (re_id e) "") payment (str_or merchant platform_merchant) currency status d)
              (dk_refunds d) (dk_requests d) d);
        if bool_decide (status = "processed"%string) && negb (bool_decide (payment = ""%string)) then
          _ ← write (λ d, set_payments (refund_payments payment d) d);
          write (publish (PaymentRefunded (str_or (re_id e) "") payment))
        else mret ()
    end.

(** The local refund a gateway refund belongs to is linked to it, moved along its machine,
    and its request closed. *)
Definition link_refund (gateway uuid merchant : string) (l : list refund) : list refund :=
  map (λ r, if bool_decide (r_uuid r = uuid) && bool_decide (r_merchant r = merchant)
               && (bool_decide (r_gateway_refund_id r = None) || bool_decide (r_gateway_refund_id r = Some gateway))
            then {| r_id := r_id r; r_uuid := r_uuid r; r_merchant := r_merchant r; r_payment := r_payment r; r_order := r_order r;
                    r_amount := r_amount r; r_currency := r_currency r; r_kind := r_kind r; r_status := r_status r; r_reason := r_reason r;
                    r_customer_contact := r_customer_contact r; r_gateway_refund_id := Some gateway;
                    r_initiated_by_user := r_initiated_by_user r; r_initiated_by_admin := r_initiated_by_admin r;
                    r_ledger_entry := r_ledger_entry r; r_notes := r_notes r; r_failure_reason := r_failure_reason r;
                    r_processed_at := r_processed_at r |} else r) l.

Definition close_request (key resource : string) (local : refund) (m : gmap string (operation refund)) : gmap string (operation refund) :=
  match m !! key with
  | Some op => if bool_decide (resource_key op = resource) then <[key := set_state Succeeded (Some local) op]> m else m
  | None => m
  end.

Definition refund_failure (e : refund_entity) (new_status : string) : option string :=
  if bool_decide (new_status = "failed"%string) then Some (str_or (note "failure_reason" (re_notes e)) "razorpay_refund_failed") else None.

Definition _maybe_transition_local_refund (t : dice) (e : refund_entity) (new_status : string) : act state () :=
  d ← the_desk;
  match (if str_truthy (re_id e) then find (λ r, bool_decide (Some (rm_id r) = re_id e)) (dk_refund_mirrors d) else None) with
  | None => mret ()
  | Some row =>
      let id := rm_id row in
      let uuid := note "internal_refund_uuid" (re_notes e) in
      _ ← (if str_truthy uuid
           then write (λ d, with_refund_tables (dk_refund_mirrors d) (link_refund id (str_or uuid "") (rm_merchant row) (dk_refunds d)) (dk_requests d) d)
           else mret ());
      d ← the_desk;
      moved ← lift (transition_by_gateway_id (x_stamp t) (rm_merchant row) id new_status (refund_failure e new_status) (refund_view d));
      _ ← write (put_refunds moved.1);
      let key := note "bittu_request_key" (re_notes e) in
      let number := note "internal_refund_id" (re_notes e) in
      if str_truthy key && str_truthy number then
        d ← the_desk;
        n ← lift (match py_int (str_or number "") with Some n => Ok n | None => Err (ValueError "invalid literal for int()") end);
        local ← lift (Refunds.get n (Some (rm_merchant row)) (refund_view d));
        write (λ d, with_refund_tables (dk_refund_mirrors d) (dk_refunds d)
                 (close_request (str_or key "") ("refund_request:" ++ rm_merchant row ++ ":" ++ r_payment local)%string local (dk_requests d)) d)
      else mret ()
  end.

Definition _maybe_reverse_route_transfer_for_refund (e : refund_entity) : act state () :=
  if negb (str_truthy (re_id e)) || negb (str_truthy (re_payment e)) then mret ()
  else route (reverse_refunded_share gw digest (str_or (re_payment e) "")).

Definition _handle_refund_created (t : dice) (env : envelope) : act state () :=
  _ ← _upsert_rzp_refund (en_refund env) "pending";
  _maybe_transition_local_refund t (en_refund env) "processing".
Definition _handle_refund_processed (t : dice) (env : envelope) : act state () :=
  _ ← _upsert_rzp_refund (en_refund env) "processed";
  _ ← _maybe_transition_local_refund t (en_refund env) "succeeded";
  _maybe_reverse_route_transfer_for_refund (en_refund env).
Definition _handle_refund_failed (t : dice) (env : envelope) : act state () :=
  _ ← _upsert_rzp_refund (en_refund env) "failed";
  _maybe_transition_local_refund t (en_refund env) "failed".
Definition _handle_refund_speed_changed (env : envelope) : act state () :=
  let s := str_or (re_status (en_refund env)) "pending" in
  _upsert_rzp_refund (en_refund env) (if str_mem s ["pending"; "processed"; "failed"]%string then s else "pending"%string).

(** ** Transfers and the dispatcher *)

Definition _handle_transfer (event : string) (env : envelope) : act state () :=
  let x := en_transfer env in
  let override := if bool_decide (event = "transfer.processed"%string) then Some "processed"%string
                  else if bool_decide (event = "transfer.failed"%string) then Some "failed"%string else None in
  if bool_decide (t_id x = ""%string) then mret ()
  else best_effort (route (λ s, match upsert_transfer_from_razorpay x None override None None s.1 with
                                | Ok (db, _) => (db, s.2, Ok ())
                                | Err e => (s.1, s.2, Err e)
                                end)).

(** The handlers modelled here, by the name of their event. *)
Definition _HANDLERS (t : dice) (env : envelope) : list (string * act state ()) := [
  ("payment.authorized", _handle_payment_authorized t env);
  ("payment.captured", _ ← _handle_payment_captured t env; mret ());
  ("payment.failed", _handle_payment_failed t env);
  ("order.paid", _handle_order_paid t env);
  ("qr_code.created", _handle_qr_created env);
  ("qr_code.credited", _handle_qr_credited t env);
  ("qr_code.closed", _handle_qr_closed env);
  ("refund.created", _handle_refund_created t env);
  ("refund.processed", _handle_refund_processed t env);
  ("refund.failed", _handle_refund_failed t env);
  ("refund.speed_changed", _handle_refund_speed_changed env);
  ("transfer.processed", _handle_transfer "transfer.processed" env);
  ("transfer.failed", _handle_transfer "transfer.failed" env);
  ("payment.downtime.started", mret ()); ("payment.downtime.updated", mret ()); ("payment.downtime.resolved", mret ())]%string.

(** Disputes, settlements, virtual accounts, invoices and subscriptions go to [other]. *)
Definition dispatch_event (other : string → envelope → option (act state ())) (t : dice) (event : string) (env : envelope)
    : act state string :=
  match find (λ h, bool_decide (h.1 = event)) (_HANDLERS t env) with
  | Some h => _ ← h.2; mret "processed"%string
  | None => match other event env with Some h => _ ← h; mret "processed"%string | None => mret "unhandled"%string end
  end.
End Handlers.

(** ** Payment intents *)

Record intent_order := {
  io_merchant : string; io_branch : option string; io_order : string; io_payment : string; io_amount : decimal; io_currency : string;
  io_receipt : option string; io_customer_name : option string; io_create_qr : bool; io_qr_ttl_seconds : Z }.
Record intent := { it_order : string; it_uuid : string; it_amount : Z; it_currency : string; it_qr : option string }.

(** The calls of the gateway and their replies. *)
Record order_call := { oc_amount : Z; oc_currency : string; oc_receipt : string; oc_order : string; oc_key : string; oc_merchant : string }.
Record order_reply := { or_id : string; or_due : option Z }.
Record qr_call := { qc_amount : option Z; qc_name : string; qc_key : string; qc_merchant : string; qc_marker : bool }.
Record qr_reply := { qp_id : option string; qp_amount : option Z }.

Section Intents.
Context {L : Type} `{LedgerApi L} {I W : Type}.
Context (create_order : order_call → W → W * res order_reply) (create_qr : qr_call → W → W * res qr_reply).
Context (close_qr : string → W → W * res ()).
Abbreviation state := (desk L I * W)%type.

Definition call {A} (f : W → W * res A) : act state A := λ s, let (w, r) := f s.2 in ((s.1, w), r).

Definition _fetch_existing_intent (merchant internal : string) (d : desk L I) : option intent :=
  r ← saved_order internal merchant d;
  let link := find (λ l, bool_decide (ql_order_uuid l = ro_uuid r) && existsb (λ c, bool_decide (qr_id c = ql_qr l)) (dk_qr d)) (dk_links d) in
  Some {| it_order := ro_id r; it_uuid := ro_uuid r; it_amount := ro_amount r; it_currency := ro_currency r; it_qr := ql_qr <$> link |}.

(** One transaction: the order (known ones keep their columns) and the payment's link to it. *)
Definition _persist_rzp_order (uuid : string) (q : intent_order) (amount : Z) (reply : order_reply) (d : desk L I) : res (desk L I * string) :=
  let known := find (λ r, bool_decide (ro_merchant r = io_merchant q) && bool_decide (ro_internal r = io_order q)) (dk_orders d) in
  r ← match known with
      | Some r => Ok (dk_orders d, ro_uuid r)
      | None =>
          _ ← raise_if (existsb (λ r, bool_decide (ro_id r = or_id reply)) (dk_orders d)) (UniqueViolationError "rzp_orders_razorpay_order_id_key");
          Ok (dk_orders d ++ [{| ro_id := or_id reply; ro_uuid := uuid; ro_merchant := io_merchant q; ro_branch := io_branch q;
                ro_internal := io_order q; ro_amount := amount; ro_paid := 0; ro_due := default amount (or_due reply);
                ro_currency := io_currency q; ro_status := "created" |}], uuid)
      end;
  let link p m := if bool_decide (py_id p = io_payment q) && bool_decide (py_restaurant p = Some (io_merchant q))
                  then <[py_id p := {| pc_order := Some (or_id reply); pc_payment := pc_payment (columns_of d p) |}]> m else m in
  Ok (with_columns (foldr link (dk_columns d) (the_payments d)) (with_orders r.1 d), r.2).

Definition _persist_qr_and_link (uuid order_id qr : string) (amount close_by : Z) (q : intent_order) (d : desk L I) : desk L I :=
  with_qr
    (if existsb (λ c, bool_decide (qr_id c = qr)) (dk_qr d) then dk_qr d
     else dk_qr d ++ [{| qr_id := qr; qr_merchant := io_merchant q; qr_branch := io_branch q; qr_amount := Some amount; qr_status := "active";
            qr_close_by := Some close_by; qr_closed_at := None; qr_close_reason := None; qr_received := 0; qr_count := 0 |}])
    (if existsb (λ l, bool_decide (ql_qr l = qr) && bool_decide (ql_internal l = io_order q)) (dk_links d) then dk_links d
     else dk_links d ++ [{| ql_qr := qr; ql_order_uuid := uuid; ql_order_id := order_id; ql_internal := io_order q; ql_merchant := io_merchant q |}]) d.

Definition DEFAULT_QR_TTL_SECONDS : Z := 30 * 60.

Definition qr_name (q : intent_order) : string :=
  let prefix n := of_chars (take n (chars (io_order q))) in
  if str_truthy (io_customer_name q) then (str_or (io_customer_name q) "" ++ " #" ++ prefix 6%nat)%string else ("Order " ++ prefix 8%nat)%string.

(** The QR code of an intent; a gateway error leaves the order without one. *)
Definition intent_qr (now : Z) (uuid order_id : string) (q : intent_order) (amount : Z) : act state (option string) := λ s,
  match create_qr {| qc_amount := Some amount; qc_name := of_chars (take 30 (chars (qr_name q)));
                     qc_key := ("rzp_qr:" ++ io_merchant q ++ ":" ++ io_order q)%string; qc_merchant := io_merchant q; qc_marker := false |} s.2 with
  | (w, Err (RazorpayAPIError _)) => ((s.1, w), Ok None)
  | (w, Err e) => ((s.1, w), Err e)
  | (w, Ok reply) =>
      match qp_id reply with
      | None => ((s.1, w), Err (KeyError "id"))
      | Some id => ((_persist_qr_and_link uuid order_id id (default amount (nonzero (qp_amount reply))) (now + io_qr_ttl_seconds q * 10 ^ 6) q s.1, w), Ok (Some id))
      end
  end.

Definition create_intent_for_order (now : Z) (uuid : string) (q : intent_order) : act state intent :=
  let amount := amount_paise (io_amount q) in
  _ ← refuse (amount <=? 0) (ValueError "intent amount must be > 0 paise");
  d ← the_desk;
  match _fetch_existing_intent (io_merchant q) (io_order q) d with
  | Some i => mret i
  | None =>
      _ ← lift (assert_settlement_ready (Some (io_merchant q)) (route_view d));
      share ← lift (if bool_decide (io_currency q = "INR"%string) then merchant_transfer_paise (PInt amount) else Ok 0);
      _ ← refuse (share <? 100) (ValueError "Route requires INR and a merchant transfer of at least 100 paise");
      reply ← call (create_order {| oc_amount := amount; oc_currency := io_currency q;
                 oc_receipt := of_chars (take 40 (chars (str_or (or_str (io_receipt q) (Some (io_order q))) "")));
                 oc_order := io_order q; oc_key := ("rzp_order:" ++ io_merchant q ++ ":" ++ io_order q)%string; oc_merchant := io_merchant q |});
      d ← the_desk;
      saved ← lift (_persist_rzp_order uuid q amount reply d);
      _ ← write (λ _, saved.1);
      qr ← (if io_create_qr q then intent_qr now saved.2 (or_id reply) q amount else mret None);
      _ ← write (publish (PaymentInitiated (io_order q) (io_payment q) (or_id reply)));
      mret {| it_order := or_id reply; it_uuid := saved.2; it_amount := amount; it_currency := io_currency q; it_qr := qr |}
  end.

(** ** Static QR codes

    The names of the linked account and of the restaurant are tables of others. *)
Context (legal_name restaurant_name : string → option string).

Definition _resolve_merchant_display (merchant : string) (fallback : option string) (d : desk L I) : res (string * string) :=
  _ ← raise_if (bool_decide (merchant = ""%string)) (HTTPException 400 "merchant_id required");
  match _existing_account merchant (route_view d) with
  | None => Err (HTTPException 409 "merchant_not_settlement_ready: linked account missing")
  | Some a =>
      _ ← raise_if (bool_decide (ac_linked a = ""%string)) (HTTPException 409 "merchant_not_settlement_ready: linked account missing");
      _ ← raise_if (bool_decide (lower (ac_status a) = "suspended"%string)) (HTTPException 409 "merchant_not_settlement_ready: linked account suspended");
      _ ← raise_if (negb (bool_decide (lower (str_or (ac_product_status a) "") = "activated"%string)))
            (HTTPException 409 "merchant_not_settlement_ready: route product not activated ");
      let name := or_str (Some (strip (str_or (legal_name merchant) "")))
                    (or_str (Some (strip (str_or (restaurant_name merchant) ""))) (Some (strip (str_or fallback "")))) in
      _ ← raise_if (negb (str_truthy name)) (HTTPException 409 "merchant_display_name_unavailable");
      Ok (str_or name "", ac_linked a)
  end.

Definition rename (name : string) (x : static_qr) : static_qr := {|
  sq_merchant := sq_merchant x; sq_account := sq_account x; sq_id := sq_id x; sq_active := sq_active x; sq_name := name |}.
(** A new row, or a known code's row with its new name; a second active row for the
    merchant is refused by the partial unique index. *)
Definition store_static (r : static_qr) (d : desk L I) : res (desk L I * static_qr) :=
  match find (λ x, bool_decide (sq_id x = sq_id r)) (dk_static d) with
  | Some old =>
      Ok (with_static (map (λ x, if bool_decide (sq_id x = sq_id r) then rename (sq_name r) x else x) (dk_static d)) (dk_static_payments d) d,
          rename (sq_name r) old)
  | None =>
      _ ← raise_if (match _fetch_active_row (sq_merchant r) d with Some _ => true | None => false end)
            (UniqueViolationError "uq_rzp_static_qr_active_per_merchant");
      Ok (with_static (dk_static d ++ [r]) (dk_static_payments d) d, r)
  end.

Definition create_static_qr (merchant : string) (fallback : option string) : act state static_qr :=
  d ← the_desk;
  match _fetch_active_row merchant d with
  | Some r => mret r
  | None =>
      shown ← lift (_resolve_merchant_display merchant fallback d);
      reply ← call (create_qr {| qc_amount := None; qc_name := of_chars (take 30 (chars shown.1)); qc_key := ("static_qr:" ++ merchant)%string;
                                 qc_merchant := merchant; qc_marker := true |});
      _ ← refuse (negb (str_truthy (qp_id reply))) (HTTPException 502 "razorpay_static_qr_create_failed: no qr id in response");
      d ← the_desk;
      stored ← lift (store_static {| sq_merchant := merchant; sq_account := shown.2; sq_id := str_or (qp_id reply) ""; sq_active := true; sq_name := shown.1 |} d);
      _ ← write (λ _, stored.1);
      mret stored.2
  end.

Definition close_row (id : string) (d : desk L I) : desk L I :=
  with_static (map (λ x, if bool_decide (sq_id x = id)
    then {| sq_merchant := sq_merchant x; sq_account := sq_account x; sq_id := sq_id x; sq_active := false; sq_name := sq_name x |} else x) (dk_static d))
    (dk_static_payments d) d.

Definition regenerate_static_qr (merchant : string) (fallback : option string) : act state static_qr :=
  d ← the_desk;
  _ ← match _fetch_active_row merchant d with
      | Some r => _ ← best_effort (call (close_qr (sq_id r))); write (close_row (sq_id r))
      | None => mret ()
      end;
  create_static_qr merchant fallback.

Definition close_static_qr (merchant : string) : act state () :=
  d ← the_desk;
  match _fetch_active_row merchant d with
  | None => lift (Err (HTTPException 404 "no_active_static_qr"))
  | Some r => _ ← best_effort (call (close_qr (sq_id r))); write (close_row (sq_id r))
  end.
End Intents.
