(* ===== verification/PaymentFlow.v ===== *)
(** What a run of payment webhooks does: to the gateway (every event is a run of
    RouteMoney, so a share is sent once whatever webhooks arrive), to the payments (their
    statuses only move forward and a payment belongs to one gateway payment), and to the
    merchant's ledger (a capture credits exactly the entitlement, once). *)

From Stdlib Require Import ZArith Lia Ascii String.
From S2P Require Import Prelude PyDecimal PyFloat PyValues FeePolicy MerchantLedger RazorpayLedgers RouteSafety Refunds Orders DineIn TableBilling DineInAccess RouteTransfers RouteMoney PaymentEvents.
Open Scope Z_scope.

(** ** Relations an action keeps *)

Definition keeps {S A} (R : S → S → Prop) (m : act S A) : Prop := ∀ s, R s (m s).1.

Section Keeps.
Context {S : Type} (R : S → S → Prop) `{!PreOrder R}.

Lemma keeps_bind {A B} (m : act S A) (k : A → act S B) : keeps R m → (∀ a, keeps R (k a)) → keeps R (m ≫= k).
Proof using PreOrder0.
  intros Hm Hk s. unfold mbind, act_bind. specialize (Hm s). destruct (m s) as [s1 [a|e]]; [|exact Hm].
  etransitivity; [exact Hm|apply Hk].
Qed.
Lemma keeps_ret {A} (a : A) : keeps R (mret a : act S A).
Proof using PreOrder0. intros s. reflexivity. Qed.
Lemma keeps_ask {A} (f : S → A) : keeps R (ask f).
Proof using PreOrder0. intros s. reflexivity. Qed.
Lemma keeps_lift {A} (r : res A) : keeps R (lift r).
Proof using PreOrder0. intros s. reflexivity. Qed.
Lemma keeps_refuse b e : keeps R (refuse b e).
Proof using PreOrder0. intros s. reflexivity. Qed.
Lemma keeps_best_effort {A} (m : act S A) : keeps R m → keeps R (best_effort m).
Proof. intros Hm s. apply Hm. Qed.
End Keeps.

Lemma act_bind_Ok {S A B} (m : act S A) (k : A → act S B) s s1 a : m s = (s1, Ok a) → (m ≫= k) s = k a s1.
Proof. unfold mbind, act_bind. by intros ->. Qed.
Lemma act_bind_Err {S A B} (m : act S A) (k : A → act S B) s s1 e : m s = (s1, Err e) → (m ≫= k) s = (s1, Err e).
Proof. unfold mbind, act_bind. by intros ->. Qed.

Lemma refuse_Ok {S} b e (s s' : S) (a : ()) : refuse b e s = (s', Ok a) → s' = s ∧ b = false.
Proof. unfold refuse, lift. destruct b; [done|]. by intros [= <-]. Qed.
Lemma lift_Ok {S A} (r : res A) (s s' : S) a : lift r s = (s', Ok a) → s' = s ∧ r = Ok a.
Proof. unfold lift. by intros [= <- ->]. Qed.
Lemma act_bind_inv {S A B} (m : act S A) (k : A → act S B) s s2 b : (m ≫= k) s = (s2, Ok b) → ∃ s1 a, m s = (s1, Ok a) ∧ k a s1 = (s2, Ok b).
Proof. unfold mbind, act_bind. destruct (m s) as [s1 [a|e]]; [|done]. by exists s1, a. Qed.

(** Runs the first action of a sequence: what it keeps, then its two outcomes. *)
Ltac step_act H E :=
  match goal with
  | |- context [(?m ≫= ?k) ?s] =>
      specialize (H s); destruct (m s) as [? [?|?]] eqn:E;
      [rewrite (act_bind_Ok m k s _ _ E) | rewrite (act_bind_Err m k s _ _ E)]; cbn [fst snd] in H
  end.

(** Walks through an action down to its writes. *)
Create HintDb desk.
Ltac walk :=
  repeat match goal with
    | |- keeps _ (mret _) => apply keeps_ret; exact _
    | |- keeps _ (ask _) => apply keeps_ask; exact _
    | |- keeps _ the_desk => apply keeps_ask; exact _
    | |- keeps _ (lift _) => apply keeps_lift; exact _
    | |- keeps _ (refuse _ _) => apply keeps_refuse; exact _
    | |- keeps _ (best_effort _) => apply keeps_best_effort
    | |- keeps _ (_ ≫= _) => apply keeps_bind; [exact _| |intros ?]
    | |- keeps _ _ => solve [eauto 2 with desk]
    | |- keeps _ _ => case_match
    end.

(** ** Every event is a run of transfers *)

Definition frame (db db' : route_db) : Prop :=
  accounts db' = accounts db ∧ rzp_payments db' = rzp_payments db ∧ rzp_refunds db' = rzp_refunds db ∧ lost_disputes db' = lost_disputes db.

#[export] Instance frame_po : PreOrder frame.
Proof. split; [by intros db|]. intros a b c (? & ? & ? & ?) (? & ? & ? & ?). unfold frame. split_and!; congruence. Qed.

Lemma frame_calm db db' : calm db db' → frame db db'.
Proof. by intros []. Qed.

Section Frame.
Context {W : Type} (gw : gateway W) (digest : body → string).

Lemma obtain_frame a s : frame s.1 (obtain_transfers gw digest a s).1.1.
Proof.
  destruct s as [db w]. unfold obtain_transfers. destruct (transfer_checks a db) as [[[acct p] expected]|e]; [|done].
  destruct (gw_payment_transfers _ _ _) as [remote|e]; [|done]. destruct (filter _ remote) as [|t ts].
  - destruct (refuse_send _ _ _ _ _); [|done]. unfold send_transfer. destruct (guarded_mutation _ _ _ _ _) as [[ops w2] r2].
    unfold allocate. by destruct (allocations db !! _).
  - destruct (adopt _ _ _ _ _) as [db1|e] eqn:Ea; [|done]. unfold adopt in Ea. apply res_bind_Ok in Ea as (? & _ & Ea).
    destruct (allocations db !! _); [|by injection Ea as <-]. apply res_bind_Ok in Ea as (? & _ & Ea). injection Ea as <-.
    destruct (operations db !! _); [|done]. by destruct (_ && _).
Qed.

Lemma create_frame a s : frame s.1 (create_transfer gw digest a s).1.1.
Proof.
  unfold create_transfer. pose proof (obtain_frame a s) as Ho. destruct (obtain_transfers gw digest a s) as [[db1 w1] [items|e]]; [|exact Ho].
  destruct (mirror_all_calm (ta_merchant a) (map (with_source (ta_payment a)) items) db1) as (Hc & _ & _).
  destruct (mirror_all _ _ db1) as [db2 r2]. etransitivity; [exact Ho|]. by apply frame_calm.
Qed.

Lemma reverse_one_frame merchant refunded total t s : frame s.1 (reverse_one gw digest merchant refunded total t s).1.1.
Proof.
  destruct s as [db w]. unfold reverse_one. destruct (total =? 0); [done|]. destruct (reconcile _ _ _ _) as [ops [u|e]]; [|done].
  set (target := _ / total). destruct (_ <? target).
  - destruct (guarded_mutation _ _ _ _ _) as [[ops2 w2] [r|e]]; [|done]. destruct (gw_transfer gw _ w2) as [t'|e]; [|done].
    destruct (upsert_transfer_from_razorpay _ _ _ _ _ _) as [[db3 row]|e] eqn:Eu; [|done]. apply upsert_calm in Eu as (Hc & _).
    apply frame_calm in Hc. exact Hc.
  - destruct (upsert_transfer_from_razorpay _ _ _ _ _ _) as [[db3 row]|e] eqn:Eu; [|done]. apply upsert_calm in Eu as (Hc & _).
    apply frame_calm in Hc. exact Hc.
Qed.

Lemma reverse_all_frame merchant refunded total ts s : frame s.1 (reverse_all gw digest merchant refunded total ts s).1.1.
Proof.
  revert s. induction ts as [|t ts IH]; intros s; [done|]. cbn [reverse_all]. pose proof (reverse_one_frame merchant refunded total t s) as Hf.
  destruct (reverse_one _ _ _ _ _ _ s) as [[db1 w1] [u|e]]; [|exact Hf]. etransitivity; [exact Hf|]. apply (IH (db1, w1)).
Qed.

Lemma reverse_frame payment s : frame s.1 (reverse_refunded_share gw digest payment s).1.1.
Proof.
  destruct s as [db w]. unfold reverse_refunded_share. destruct (newest_payment payment db); [|done]. destruct (_ <=? 0); [done|].
  destruct (gw_payment_transfers _ _ _); [|done]. destruct (_ && _); [done|]. apply (reverse_all_frame _ _ _ _ (db, w)).
Qed.
End Frame.

Lemma last_filter_map {A} (P : A → Prop) `{!∀ x, Decision (P x)} (f : A → A) l :
  (∀ x, P (f x) ↔ P x) → last (filter P (map f l)) = f <$> last (filter P l).
Proof.
  intros Hf. assert (filter P (map f l) = map f (filter P l)) as ->.
  { induction l as [|x l IH]; [done|]. cbn [map]. rewrite !filter_cons. destruct (decide (P x)) as [Hx|Hx].
    - rewrite decide_True by (by apply Hf). cbn [map]. by rewrite IH.
    - rewrite decide_False by (by rewrite Hf). exact IH. }
  apply fmap_last.
Qed.

Lemma newest_map (f : rzp_payment → rzp_payment) payment db db' :
  (∀ r, rp_id (f r) = rp_id r) → rzp_payments db' = map f (rzp_payments db) →
  newest_payment payment db' = f <$> newest_payment payment db.
Proof. intros Hf E. unfold newest_payment. rewrite E. apply last_filter_map. intros x. by rewrite Hf. Qed.

Lemma sum_where_le {A B} (b : B → bool) (f : B → Z) (h k : A → B) l :
  (∀ x, x ∈ l → (if b (h x) then f (h x) else 0) <= (if b (k x) then f (k x) else 0)) → sum_where b f (map h l) <= sum_where b f (map k l).
Proof.
  induction l as [|x l IH]; intros Hl; [done|]. cbn [map]. rewrite !sum_where_cons.
  assert (sum_where b f (map h l) <= sum_where b f (map k l)) by (apply IH; intros y Hy; apply Hl; by right).
  specialize (Hl x ltac:(by left)). lia.
Qed.

Section Flow.
Context {L : Type} `{LedgerApi L} {I W : Type} (gw : gateway W) (digest : body → string) (rate : decimal).
Abbreviation state := (desk L I * (W * list sent))%type.
Abbreviation g := (with_log gw).

Definition view (s : state) : route_db * (W * list sent) := (route_view s.1, s.2).

(** Refund amounts in the tables are not negative. *)
Definition sane (db : route_db) : Prop := Forall (λ r, 0 <= rr_amount r) (rzp_refunds db).

Definition flows (s s' : state) : Prop := sane (route_view s.1) → sane (route_view s'.1) ∧ rtc (route_step gw digest) (view s) (view s').

#[local] Instance flows_po : PreOrder flows.
Proof.
  split; [by intros s Hs|]. intros a b c Hab Hbc Ha. destruct (Hab Ha) as [Hb H1]. destruct (Hbc Hb) as [Hc H2].
  split; [done|]. by etransitivity.
Qed.

Lemma flows_same f : (∀ d, route_view (f d) = route_view d) → keeps flows (write (W := W * list sent) f).
Proof. intros Hf [d w] Hs. unfold view. cbn in *. by rewrite Hf. Qed.

Lemma flows_outside d d' w : route_view d' = route_view d ∨ (sane (route_view d) → sane (route_view d') ∧ outside (route_view d) (route_view d')) → flows (d, w) (d', w).
Proof.
  intros [E|Ho] Hs; unfold view in *; cbn in *; [by rewrite E|]. destruct (Ho Hs) as [Hs' Hout]. split; [done|].
  destruct w as [w log]. apply rtc_once, Elsewhere. exact Hout.
Qed.

Lemma put_view db' (d : desk L I) : frame (route_view d) db' → route_view (put_route db' d) = db'.
Proof. intros (H1 & H2 & H3 & H4). unfold route_view, put_route in *. cbn in *. destruct db'. cbn in *. by subst. Qed.

Lemma flows_route {A} (f : route_db * (W * list sent) → route_db * (W * list sent) * res A) :
  (∀ s, frame s.1 (f s).1.1) → (∀ s, route_step gw digest s (f s).1) → keeps flows (route f).
Proof.
  intros Hf Hstep [d w] Hs. unfold view, route in *. specialize (Hf (route_view d, w)). specialize (Hstep (route_view d, w)). cbn [fst snd] in *.
  destruct (f (route_view d, w)) as [[db w'] r]. cbn [fst snd] in *. rewrite (put_view db d Hf). split.
  - destruct Hf as (_ & _ & E & _). unfold sane in *. by rewrite E.
  - by apply rtc_once.
Qed.

Lemma flows_create a : keeps flows (route (create_transfer g digest a)).
Proof.
  apply flows_route; [apply create_frame|]. intros s. destruct (create_transfer g digest a s) as [s' r] eqn:E. by eapply Creates.
Qed.
Lemma flows_reverse payment : keeps flows (route (reverse_refunded_share g digest payment)).
Proof.
  apply flows_route; [apply reverse_frame|]. intros s. destruct (reverse_refunded_share g digest payment s) as [s' r] eqn:E. by eapply Refunds.
Qed.

Lemma flows_upsert e merchant branch internal uuid status captured now : 0 <= default 0 (pe_amount e) →
  keeps flows (_upsert_rzp_payment e merchant branch internal uuid status captured now).
Proof.
  intros He [d w]. unfold _upsert_rzp_payment, mbind, act_bind, the_desk, ask. cbn [fst snd].
  destruct (_ || _); [done|]. destruct (mirrored_payment _ d) as [q|] eqn:Hq.
  - cbn [fst snd]. apply flows_outside. right. intros Hs. split; [exact Hs|].
    set (id := str_or (pe_id e) ""%string). set (F r := if bool_decide (rp_id r = id) then {| rp_id := rp_id r; rp_merchant := rp_merchant r; rp_amount := rp_amount r;
      rp_currency := rp_currency r; rp_captured := rp_captured r || captured; rp_order := rp_order r; rp_internal_order := rp_internal_order r |} else r).
    assert (∀ p, newest_payment p (route_view (with_payments (map (λ p, if bool_decide (gp_id p = id) then forward e status captured now p else p) (dk_payments d)) d))
      = F <$> newest_payment p (route_view d)) as HF.
    { intros p. apply newest_map; [intros r; unfold F; by case_bool_decide|]. cbn. rewrite !map_map. apply map_ext. intros x. unfold F, gp_id.
      by case_bool_decide. }
    split; [done|..|done].
    + intros p row Hrow. exists (F row). rewrite HF, Hrow. split; [done|]. unfold F. by destruct (bool_decide _).
    + intros Hpr p row. rewrite HF. destruct (newest_payment p (route_view d)) as [r|] eqn:Hr; [|done]. intros [= <-].
      specialize (Hpr _ _ Hr). unfold F. by destruct (bool_decide _).
  - destruct (varchar 3 _) as [currency|x]; [|done]. cbn [fst snd]. apply flows_outside. right. intros Hs. split; [exact Hs|].
    set (id := str_or (pe_id e) ""%string) in *. set (new := new_payment _ _ _ _ _ _ _ _ _ _).
    assert (∀ p, newest_payment p (route_view (with_payments (dk_payments d ++ [new]) d))
      = if decide (p = id) then Some (gp_row new) else newest_payment p (route_view d)) as HN.
    { intros p. unfold newest_payment. cbn. rewrite map_app, filter_app, last_app. cbn [map]. rewrite filter_cons, filter_nil. cbn [rp_id gp_row new new_payment].
      destruct (decide (p = id)) as [->|Hne]; [by rewrite decide_True|by rewrite decide_False by congruence]. }
    split; [done|..|done].
    + intros p row Hrow. rewrite HN. destruct (decide (p = id)) as [->|Hne]; [exfalso|by exists row].
      unfold newest_payment in Hrow. apply last_Some_elem_of, list_elem_of_filter in Hrow as [Hid Hin]. cbn in Hin.
      apply list_elem_of_fmap in Hin as (x & -> & Hin). unfold mirrored_payment in Hq. eapply find_none in Hq; [|apply list_elem_of_In, Hin].
      apply bool_decide_eq_false in Hq. apply Hq. unfold gp_id. by rewrite Hid.
    + intros Hpr p row. rewrite HN. destruct (decide (p = id)); [intros [= <-]; cbn; exact He|apply Hpr].
Qed.

(** Mirroring a refund never takes back a processed one. *)
Lemma mirror_refund_grows e id payment merchant currency status (d : desk L I) :
  0 <= default 0 (re_amount e) → sane (route_view d) →
  let d' := with_refund_tables (mirror_refund e id payment merchant currency status d) (dk_refunds d) (dk_requests d) d in
  sane (route_view d') ∧ outside (route_view d) (route_view d').
Proof.
  intros He Hs d'.
  assert (sane (route_view d') ∧ ∀ p, refunded_paise p (route_view d) <= refunded_paise p (route_view d')) as [Hs' Hr].
  { unfold sane, refunded_paise, d', mirror_refund in *. cbn [rzp_refunds route_view dk_refund_mirrors with_refund_tables] in *.
    rewrite List.Forall_map in Hs. destruct (existsb _ _).
    - split.
      + rewrite !List.Forall_map. eapply Forall_impl; [exact Hs|]. intros r Hr. by destruct (bool_decide (rm_id r = id)).
      + intros p. rewrite map_map, Forall_forall in *. apply sum_where_le. intros r Hin. specialize (Hs r Hin). cbn in *.
        destruct (bool_decide (rm_id r = id)); [|done]. cbn. destruct (bool_decide (rm_payment r = p)); [|done].
        destruct (bool_decide (rm_status r = "processed"%string)) eqn:E; cbn; [by rewrite E|]. destruct (bool_decide (status = _)); lia.
    - split.
      + rewrite map_app. apply Forall_app. split; [by rewrite List.Forall_map|by constructor].
      + intros p. rewrite map_app, sum_where_app. assert (∀ x, 0 <= rr_amount x → 0 <= sum_where
          (λ r, bool_decide (rr_payment r = p) && bool_decide (rr_status r = "processed"%string)) rr_amount [x]) as Hone
          by (intros x Hx; apply sum_where_nonneg; by constructor).
        specialize (Hone _ He) || (cbn [map]; match goal with |- _ <= _ + sum_where _ _ [?x] => specialize (Hone x He) end). lia. }
  split; [done|]. split; [done|intros p row Hrow; by exists row|done|]. intros p m. split; [apply Hr|done].
Qed.

#[local] Hint Resolve flows_create flows_reverse flows_upsert : desk.
#[local] Hint Extern 1 (keeps flows (write _)) => (apply flows_same; intros; reflexivity) : desk.

Lemma flows_refund e status : 0 <= default 0 (re_amount e) → keeps flows (_upsert_rzp_refund (W := W * list sent) e status).
Proof.
  intros He. unfold _upsert_rzp_refund. walk; intros [d w]; apply flows_outside; right; intros Hs; by apply mirror_refund_grows.
Qed.

Lemma flows_mark o id new expected now : keeps flows (_mark_payments_row (W := W * list sent) o id new expected now).
Proof. unfold _mark_payments_row. cbn zeta. walk. Qed.
Lemma flows_confirm o now : keeps flows (_confirm_order (W := W * list sent) o now).
Proof. unfold _confirm_order. walk. Qed.
Lemma flows_bump o n : keeps flows (_bump_rzp_order_paid (W := W * list sent) o n).
Proof. unfold _bump_rzp_order_paid. walk. Qed.
Lemma flows_qr q : keeps flows (_upsert_rzp_qr (W := W * list sent) q).
Proof. unfold _upsert_rzp_qr. cbn zeta. walk. intros [d w]. apply flows_outside. left. by destruct (existsb _ _). Qed.
Lemma flows_settle t internal amount id : keeps flows (settle_dine_in (W := W * list sent) t internal amount id).
Proof.
  unfold settle_dine_in. apply keeps_best_effort. intros [d w]. destruct (ddiv _ _); [|reflexivity].
  destruct (settle_session_from_gateway _ _ _ _ _ _) as [h r]. apply flows_outside. by left.
Qed.
#[local] Hint Resolve flows_refund flows_mark flows_confirm flows_bump flows_qr flows_settle : desk.

Lemma flows_static t event e : 0 <= default 0 (pe_amount e) → keeps flows (handle_webhook_payment_event g digest t event e).
Proof. intros He. unfold handle_webhook_payment_event, static_split. cbn zeta. walk. Qed.
#[local] Hint Resolve flows_static : desk.

Lemma flows_captured t env : 0 <= default 0 (pe_amount (en_payment env)) → keeps flows (_handle_payment_captured g digest rate t env).
Proof.
  intros He. unfold _handle_payment_captured, take_capture, claim_payment, move_share, post_capture, announce_capture. cbn zeta. walk.
Qed.
#[local] Hint Resolve flows_captured : desk.

Lemma flows_local_refund t e new : keeps flows (_maybe_transition_local_refund (W := W * list sent) t e new).
Proof. unfold _maybe_transition_local_refund. cbn zeta. walk. Qed.
#[local] Hint Resolve flows_local_refund : desk.

Lemma flows_transfer event env : keeps flows (_handle_transfer (W := W * list sent) event env).
Proof.
  unfold _handle_transfer. cbn zeta. case_match; [apply keeps_ret; exact _|]. apply keeps_best_effort, flows_route.
  - intros [db w]. cbn. destruct (upsert_transfer_from_razorpay _ _ _ _ _ _) as [[db' row]|e] eqn:E; [|done]. cbn.
    apply upsert_calm in E as (Hc & _). by apply frame_calm.
  - intros [db w]. cbn. destruct (upsert_transfer_from_razorpay _ _ _ _ _ _) as [[db' row]|e] eqn:E; cbn.
    + by eapply Notified.
    + destruct w as [w log]. apply Elsewhere, outside_refl.
Qed.
#[local] Hint Resolve flows_transfer : desk.

(** Amounts in events are not negative. *)
Definition fair (env : envelope) : Prop := 0 <= default 0 (pe_amount (en_payment env)) ∧ 0 <= default 0 (re_amount (en_refund env)).

Lemma flows_credited t env : fair env → keeps flows (_handle_qr_credited g digest rate t env).
Proof. intros [He _]. unfold _handle_qr_credited. cbn zeta. walk; apply flows_captured; repeat case_match; exact He. Qed.

Lemma flows_handlers t env name h : fair env → (name, h) ∈ _HANDLERS g digest rate t env → keeps flows h.
Proof.
  intros [He Hr] Hin. unfold _HANDLERS in Hin.
  repeat (apply elem_of_cons in Hin as [[= -> ->]|Hin]); [..|by apply elem_of_nil in Hin];
    unfold _handle_payment_authorized, _handle_payment_failed, _handle_order_paid, _handle_qr_created, _handle_qr_closed, expire_payments,
      _handle_refund_created, _handle_refund_processed, _handle_refund_failed, _handle_refund_speed_changed,
      _maybe_reverse_route_transfer_for_refund; cbn zeta; try (by apply flows_credited); walk.
Qed.

(** *** Runs of events *)

(** An event that arrives, or a change elsewhere that RouteMoney allows. *)
Inductive event_step : state → state → Prop :=
  | Event t name env s : fair env → event_step s (dispatch_event g digest rate (λ _ _, None) t name env s).1
  | Unseen d d' w w' log : (sane (route_view d) → sane (route_view d')) → outside (route_view d) (route_view d') →
      event_step (d, (w, log)) (d', (w', log)).

Definition event_run (s : state) : Prop :=
  ∃ d w, dk_operations d = ∅ ∧ priced (route_view d) ∧ sane (route_view d) ∧ rtc event_step (d, (w, [])) s.

Lemma dispatch_flows t name env : fair env → keeps flows (dispatch_event g digest rate (λ _ _, None) t name env).
Proof.
  intros Hf. unfold dispatch_event. destruct (find _ _) as [[n h]|] eqn:E; [|walk].
  apply find_Some_in in E as [Hin _]. apply keeps_bind; [exact _|by eapply flows_handlers|intros ?; walk].
Qed.

Lemma event_flows s s' : event_step s s' → flows s s'.
Proof.
  intros [t name env s0 Hf|d d' w w' log Hs Ho]; [by apply dispatch_flows|].
  intros Hd. split; [by apply Hs|]. by apply rtc_once, Elsewhere.
Qed.

(** C28: whatever payment, order, QR, refund and transfer events arrive, in any order and
    any number of times, and whatever the gateway answers: what they do to the transfer
    tables and to the gateway is a run of the Route service, so that everything proved of
    its runs holds (a share is sent once and taken back no further than the refunds). *)
Theorem events_refine_route s : event_run s → route_run gw digest (view s).
Proof.
  intros (d & w & Ho & Hp & Hs & Hrun). exists (route_view d), w. split; [done|]. split; [done|].
  assert (flows (d, (w, [])) s) as Hf.
  { clear Ho Hp Hs. induction Hrun as [x|x y z Hxy _ IH]; [reflexivity|]. etransitivity; [by apply event_flows|exact IH]. }
  by apply Hf.
Qed.
End Flow.

(** ** Payments only move forward *)

Lemma str_mem_true s l : str_mem s l = true → s ∈ l.
Proof. apply bool_decide_eq_true. Qed.

(** The machine of a payment, as the events drive it. *)
Inductive pay_step : string → string → Prop :=
  | Authorized : pay_step "pending" "initiated"
  | Closed a b : a ∈ ["pending"; "initiated"]%string → b ∈ ["completed"; "failed"; "expired"]%string → pay_step a b
  | Refunded a : a ∈ ["completed"; "settled"]%string → pay_step a "refunded".

Ltac by_pay_step :=
  let x := fresh "x" in let Hx := fresh "Hx" in intros x Hx%str_mem_true;
  first [apply Closed; set_solver | assert (x = "pending"%string) as -> by set_solver; apply Authorized].

Record forward_payment (p p' : payment) : Prop := {
  fp_same : set_pay_status "" None p' = set_pay_status "" None p;
  fp_status : rtc pay_step (py_status p) (py_status p');
}.

#[export] Instance forward_payment_po : PreOrder forward_payment.
Proof. split; [by split|]. intros p q r [E1 S1] [E2 S2]. split; [congruence|by etrans]. Qed.

Lemma forward_set p status at_ : rtc pay_step (py_status p) status → forward_payment p (set_pay_status status at_ p).
Proof. by split. Qed.

Lemma forward_id p p' : forward_payment p p' → py_id p' = py_id p.
Proof. intros [E _]. by injection E. Qed.

Section Forward.
Context {L : Type} `{LedgerApi L} {I : Type}.

(** Payments keep what they are and move along the machine; the gateway order of a payment
    never changes, and a gateway payment it once belongs to stays its own. *)
Record pay_ages (d d' : desk L I) : Prop := {
  pa_rows : Forall2 forward_payment (the_payments d) (the_payments d');
  pa_order p : pc_order (columns_of d' p) = pc_order (columns_of d p);
  pa_payment p id : pc_payment (columns_of d p) = Some id → pc_payment (columns_of d' p) = Some id;
}.

#[export] Instance pay_ages_po : PreOrder pay_ages.
Proof.
  split; [by split|]. intros a b c [A1 A2 A3] [B1 B2 B3].
  split; [by etransitivity|congruence|auto].
Qed.

Lemma ages_calm (d d' : desk L I) : the_payments d' = the_payments d → dk_columns d' = dk_columns d → pay_ages d d'.
Proof. intros E1 E2. split; [by rewrite E1|intros p|intros p id]; unfold columns_of; by rewrite E2. Qed.

Lemma ages_rows f (d : desk L I) : (∀ p, forward_payment p (f p)) → pay_ages d (set_payments (map f (the_payments d)) d).
Proof.
  intros Hf. split; [|done|done]. unfold set_payments, on_book, the_payments. cbn.
  induction (payments _) as [|p l IH]; constructor; [apply Hf|exact IH].
Qed.

Lemma ages_columns c (d : desk L I) :
  (∀ p, pc_order (default {| pc_order := None; pc_payment := None |} (c !! py_id p)) = pc_order (columns_of d p)) →
  (∀ p id, pc_payment (columns_of d p) = Some id → pc_payment (default {| pc_order := None; pc_payment := None |} (c !! py_id p)) = Some id) →
  pay_ages d (with_columns c d).
Proof. intros H1 H2. by split. Qed.

Lemma columns_by_id (d : desk L I) p q : py_id p = py_id q → columns_of d p = columns_of d q.
Proof. unfold columns_of. by intros ->. Qed.

Lemma ages_fill id hits (d d' : desk L I) : dk_columns d' = dk_columns d → pay_ages d' (with_columns (fill_payment_id id hits d) d').
Proof.
  intros E. assert (∀ p, columns_of d' p = columns_of d p) as Ec by (intros p; unfold columns_of; by rewrite E).
  assert (∀ p, pc_order (default {| pc_order := None; pc_payment := None |} (fill_payment_id id hits d !! py_id p)) = pc_order (columns_of d p) ∧
    ∀ x, pc_payment (columns_of d p) = Some x → pc_payment (default {| pc_order := None; pc_payment := None |} (fill_payment_id id hits d !! py_id p)) = Some x) as Hfill.
  { intros p. induction hits as [|q l IH]; cbn [fill_payment_id foldr]; [by split|]. destruct (decide (py_id q = py_id p)) as [Hq|Hq].
    - rewrite Hq, lookup_insert_eq. cbn. rewrite (columns_by_id d q p Hq). split; [done|]. by intros x ->.
    - rewrite lookup_insert_ne by done. exact IH. }
  apply ages_columns; intros p; rewrite Ec; apply Hfill.
Qed.

(** Settling a dine-in bill writes neither payments nor the ledger. *)
Definition hall_calm (w w' : hall L I) : Prop := payments (book (h_db w')) = payments (book (h_db w)) ∧ h_ledger w' = h_ledger w.

Lemma write_totals_book sid g p r (db db' : dine_db I) : write_totals sid g p r db = Ok db' → book db' = book db.
Proof. unfold write_totals. intros Hr. inv_res. by simplify_eq. Qed.

Lemma bill_calm sid now (w : hall L I) : hall_calm w (get_session_bill sid now w).1.
Proof.
  assert (∀ db b, read_session_bill sid (h_db w) = Ok (db, b) → book db = book (h_db w)) as Hb.
  { unfold read_session_bill. destruct (find_session sid _); [|done]. intros db b (db' & Hw%write_totals_book & Hr)%res_bind_Ok. by injection Hr as <- _. }
  unfold get_session_bill, hall_calm. destruct (read_session_bill sid (h_db w)) as [[db b]|e]; [specialize (Hb _ _ eq_refl)|clear Hb];
    (destruct (h_bills w !! sid) as [[b0 x]|]; [destruct (now <? x)|]); cbn [fst snd h_db h_ledger]; split; try rewrite Hb; reflexivity.
Qed.

Lemma vacate_keeps_calm sid by_ force now (w : hall L I) : hall_calm w (paid_and_vacate sid by_ force now w).1.
Proof.
  unfold paid_and_vacate. pose proof (bill_calm sid now w) as Hb. destruct (get_session_bill sid now w) as [w1 [b|e]]; [|done].
  destruct (_ && _); [done|]. unfold vacate_session. destruct (find_session _ _) as [s|]; [|done]. by destruct (negb (is_active s)).
Qed.

Lemma insert_receipt_book r amount (db db' : dine_db I) : insert_receipt r amount db = Ok db' → book db' = book db.
Proof. unfold insert_receipt. intros Hr. inv_res. by simplify_eq. Qed.

Lemma settle_txn_book order amount ref method t (db : dine_db I) r : settle_txn order amount ref method t db = Ok r → book r.1.1 = book db.
Proof.
  unfold settle_txn. destruct (find _ _); [|by intros [= <-]]. destruct (find_session _ _); [|by intros [= <-]].
  destruct (_ && _); [by intros [= <-]|]. destruct (negb _); [by intros [= <-]|]. intros (amt & _ & Hr)%res_bind_Ok.
  destruct (negb _); [by injection Hr as <-|]. apply res_bind_Ok in Hr as (db1 & Hi%insert_receipt_book & Hr).
  apply res_bind_Ok in Hr as (db2 & Ht%write_totals_book & Hr). injection Hr as <-. cbn [fst]. by rewrite Ht.
Qed.

Lemma settle_keeps_calm order amount ref method t (w : hall L I) : hall_calm w (settle_session_from_gateway order amount ref method t w).1.
Proof.
  unfold settle_session_from_gateway. destruct (settle_txn order amount ref method t (h_db w)) as [[[db r] [[[sid amt] due]|]]|] eqn:E; [| |done];
    apply settle_txn_book in E; cbn [fst] in E.
  2: { split; [exact (f_equal payments E)|reflexivity]. }
  set (w1 := _invalidate_bill_cache sid (on_db (λ _, db) w)). assert (hall_calm w w1) as [C1 C2] by (split; [exact (f_equal payments E)|reflexivity]).
  pose proof (vacate_keeps_calm sid None false (x_now t) w1) as [V1 V2]. unfold hall_calm. cbn [fst emit h_db h_ledger].
  destruct (negb (dpos due)); split; congruence.
Qed.
End Forward.

(** ** What the events write

    A relation on desks that permits the three kinds of writes below holds of every handler
    but the two that post to the ledger. *)
Class Permits {L} `{LedgerApi L} {I} (R : desk L I → desk L I → Prop) : Prop := {
  permits_po :: PreOrder R;
  permits_calm d d' : the_payments d' = the_payments d → dk_columns d' = dk_columns d → h_ledger (dk_hall d') = h_ledger (dk_hall d) → R d d';
  permits_rows f d : (∀ p, forward_payment p (f p)) → R d (set_payments (map f (the_payments d)) d);
  permits_columns c d : pay_ages d (with_columns c d) → R d (with_columns c d);
}.

Section Writes.
Context {L : Type} `{LedgerApi L} {I W : Type} (gw : gateway W) (digest : body → string) (rate : decimal).
Context (R : desk L I → desk L I → Prop) `{!Permits R}.
Abbreviation R_calm := (permits_calm (R := R)).
Abbreviation R_rows := (permits_rows (R := R)).
Abbreviation R_columns := (permits_columns (R := R)).
Abbreviation state := (desk L I * W)%type.

Definition on_desk (s s' : state) : Prop := R s.1 s'.1.
#[local] Instance on_desk_po : PreOrder on_desk.
Proof using Permits0. split; unfold on_desk; [intros s; reflexivity|]. intros a b c H1 H2. unfold on_desk in *. by etransitivity. Qed.

Lemma desk_write f : (∀ d, R d (f d)) → keeps on_desk (write (W := W) f).
Proof using Type. intros Hf [d w]. apply Hf. Qed.
Lemma desk_route {A} (f : route_db * W → route_db * W * res A) : keeps on_desk (route f).
Proof using Permits0. intros [d w]. unfold route. destruct (f _) as [[db w'] r]. by apply R_calm. Qed.
#[local] Hint Resolve desk_route : desk.
#[local] Hint Extern 1 (keeps on_desk (write _)) => (apply desk_write; intros; apply R_calm; reflexivity) : desk.

Lemma desk_upsert e merchant branch internal uuid status captured now : keeps on_desk (_upsert_rzp_payment e merchant branch internal uuid status captured now).
Proof using Permits0. unfold _upsert_rzp_payment. cbn zeta. walk. Qed.

Lemma desk_mark o id new expected now : (∀ a, str_mem a expected = true → pay_step a new) → keeps on_desk (_mark_payments_row (W := W) o id new expected now).
Proof using Permits0.
  intros Hstep [d w]. unfold _mark_payments_row. cbn zeta. unfold mbind, act_bind, the_desk, ask. cbn [fst snd]. destruct (negb _); [reflexivity|].
  unfold write, update. cbn [fst snd]. unfold on_desk. cbn [fst]. etransitivity; [|apply R_columns; destruct (bool_decide (new = "failed"%string)); [by apply ages_calm|by apply ages_fill]].
  apply R_rows. intros p. destruct (_ && _) eqn:E; [|reflexivity]. apply andb_prop in E as [_ E]. by apply forward_set, rtc_once, Hstep.
Qed.

Lemma desk_confirm o now : keeps on_desk (_confirm_order (W := W) o now).
Proof using Permits0. unfold _confirm_order. walk. Qed.
Lemma desk_bump o n : keeps on_desk (_bump_rzp_order_paid (W := W) o n).
Proof using Permits0. unfold _bump_rzp_order_paid. walk. Qed.
Lemma desk_qr q : keeps on_desk (_upsert_rzp_qr (W := W) q).
Proof using Permits0. unfold _upsert_rzp_qr. cbn zeta. walk. apply desk_write. intros d. destruct (existsb _ _); by apply R_calm. Qed.
Lemma desk_settle t internal amount id : keeps on_desk (settle_dine_in (W := W) t internal amount id).
Proof using Permits0.
  unfold settle_dine_in. apply keeps_best_effort. intros [d w]. destruct (ddiv _ _); [|reflexivity]. cbn [fst].
  pose proof (settle_keeps_calm internal (PFloat (of_decimal a)) id "online" t (dk_hall d)) as [H1 H2].
  destruct (settle_session_from_gateway _ _ _ _ _ _) as [h r]. by apply R_calm.
Qed.
Lemma desk_claim c o e : keeps on_desk (claim_payment (W := W) c o e).
Proof using Permits0.
  intros [d w]. unfold claim_payment, mbind, act_bind, the_desk, ask. cbn [fst snd]. destruct (payment_of_order o d) as [p|]; [|reflexivity].
  unfold refuse, lift. destruct (raise_if _ _); [|reflexivity]. destruct (negb _ || negb _ || negb _) eqn:E; [reflexivity|].
  apply orb_false_iff in E as [_ E%negb_false_iff]. apply orb_prop in E. rewrite !bool_decide_eq_true in E. cbn. apply R_columns, ages_columns; intros q.
  - destruct (decide (py_id p = py_id q)) as [Hq|Hq]; [|by rewrite lookup_insert_ne]. rewrite Hq, lookup_insert_eq. cbn. by rewrite (columns_by_id d q p).
  - intros x Hx. destruct (decide (py_id p = py_id q)) as [Hq|Hq]; [|by rewrite lookup_insert_ne]. rewrite Hq, lookup_insert_eq. cbn.
    rewrite (columns_by_id d p q Hq), Hx in E. destruct E as [E|E]; [done|by symmetry].
Qed.
Lemma desk_expire order qr : keeps on_desk (expire_payments (W := W) order qr).
Proof using Permits0.
  intros [d w]. unfold expire_payments. cbn zeta. unfold mbind, act_bind, the_desk, ask, write, update. cbn [fst snd].
  assert (R d (set_payments (map (λ p, if bool_decide (py_order p = order) && str_mem (py_status p) ["initiated"; "pending"]%string
    then set_pay_status "expired" (py_paid_at p) p else p) (the_payments d)) d)) as Hr.
  { apply R_rows. intros p. cbn beta. destruct (_ && _) eqn:E; [|reflexivity]. apply andb_prop in E as [_ E%str_mem_true]. apply forward_set, rtc_once, Closed; set_solver. }
  destruct (find _ _); [|exact Hr]. unfold on_desk. cbn [fst]. etransitivity; [exact Hr|by apply R_calm].
Qed.
Lemma desk_refund e status : keeps on_desk (_upsert_rzp_refund (W := W) e status).
Proof using Permits0.
  unfold _upsert_rzp_refund. walk. apply desk_write. intros d0. apply R_rows. intros p. cbn beta. destruct (_ && _ && _) eqn:E; [|reflexivity].
  apply andb_prop in E as [[_ E%str_mem_true]%andb_prop _]. apply forward_set, rtc_once, Refunded, E.
Qed.
#[local] Hint Resolve desk_upsert desk_confirm desk_bump desk_qr desk_settle desk_claim desk_expire desk_refund : desk.
#[local] Hint Extern 1 (keeps on_desk (_mark_payments_row _ _ _ _ _)) => (apply desk_mark; by_pay_step) : desk.

Lemma desk_static t event e : keeps on_desk (handle_webhook_payment_event gw digest t event e).
Proof using Permits0. unfold handle_webhook_payment_event, static_split. cbn zeta. walk. Qed.
Lemma desk_transfer event env : keeps on_desk (_handle_transfer (W := W) event env).
Proof using Permits0. unfold _handle_transfer. cbn zeta. walk. Qed.
Lemma desk_move c e : keeps on_desk (move_share gw digest rate c e).
Proof using Permits0. unfold move_share. walk. Qed.
Lemma desk_announce row c e : keeps on_desk (announce_capture (W := W) row c e).
Proof using Permits0. unfold announce_capture. walk. Qed.
End Writes.

#[export] Hint Resolve desk_route desk_upsert desk_confirm desk_bump desk_qr desk_settle desk_claim desk_expire desk_refund desk_static desk_transfer desk_move desk_announce : desk.
#[export] Hint Extern 0 (Permits _) => exact _ : desk.
#[export] Hint Extern 1 (keeps (on_desk _) (_mark_payments_row _ _ _ _ _)) => (apply desk_mark; [exact _|by_pay_step]) : desk.
#[export] Hint Extern 1 (keeps (on_desk _) (write _)) => (apply desk_write; intros; apply permits_calm; reflexivity) : desk.

#[export] Instance on_desk_preorder {L} `{LedgerApi L} {I W} (R : desk L I → desk L I → Prop) `{!PreOrder R} : PreOrder (on_desk (W := W) R).
Proof. split; unfold on_desk; [intros s; reflexivity|]. intros a b c H1 H2. by etransitivity. Qed.

#[export] Instance ages_permits {L} `{LedgerApi L} {I} : Permits (@pay_ages L I).
Proof. split; [exact _|intros; by apply ages_calm|intros; by apply ages_rows|done]. Qed.

Section Ages.
Context {L : Type} `{LedgerApi L} {I W : Type} (gw : gateway W) (digest : body → string) (rate : decimal).
Abbreviation state := (desk L I * W)%type.
Abbreviation ages := (on_desk (W := W) (@pay_ages L I)).

Lemma ages_ledger f : (∀ d, the_payments (f d) = the_payments d ∧ dk_columns (f d) = dk_columns d) → keeps ages (write f).
Proof. intros Hf. apply desk_write. intros d. apply ages_calm; apply Hf. Qed.
#[local] Hint Extern 2 (keeps ages (write _)) => (apply ages_ledger; done) : desk.

Lemma ages_take t o c e : keeps ages (take_capture gw digest rate t o c e).
Proof. unfold take_capture, post_capture. cbn zeta. walk. Qed.
#[local] Hint Resolve ages_take : desk.

Lemma ages_captured t env : keeps ages (_handle_payment_captured gw digest rate t env).
Proof. unfold _handle_payment_captured. cbn zeta. walk. Qed.
#[local] Hint Resolve ages_captured : desk.

Lemma ages_local_refund t e new : keeps ages (_maybe_transition_local_refund (W := W) t e new).
Proof. unfold _maybe_transition_local_refund. cbn zeta. walk. Qed.
#[local] Hint Resolve ages_local_refund : desk.

Lemma ages_handlers t env name h : (name, h) ∈ _HANDLERS gw digest rate t env → keeps ages h.
Proof.
  intros Hin. unfold _HANDLERS in Hin.
  repeat (apply elem_of_cons in Hin as [[= -> ->]|Hin]); [..|by apply elem_of_nil in Hin];
    unfold _handle_payment_authorized, _handle_payment_failed, _handle_order_paid, _handle_qr_created, _handle_qr_closed, _handle_qr_credited,
      _handle_refund_created, _handle_refund_processed, _handle_refund_failed, _handle_refund_speed_changed,
      _maybe_reverse_route_transfer_for_refund; cbn zeta; walk.
Qed.

(** A delivered event; what it raises is the caller's. *)
Inductive webhook : state → state → Prop :=
  | Webhook t name env s : webhook s (dispatch_event gw digest rate (λ _ _, None) t name env s).1.

(** C27: whatever payment, order, QR, refund and transfer events arrive, in whatever order and
    number, a payment row keeps what it is for, its status only moves along pending,
    initiated, then completed, failed or expired, and from completed or settled to refunded,
    and once it belongs to a gateway payment no event gives it to another. *)
Theorem payments_move_forward (s s' : state) : rtc webhook s s' → pay_ages s.1 s'.1.
Proof.
  induction 1 as [s|s1 s2 s3 [t name env s] _ IH]; [reflexivity|]. etransitivity; [clear IH|exact IH]. revert s.
  change (keeps ages (dispatch_event gw digest rate (λ _ _, None) t name env)). unfold dispatch_event.
  destruct (find _ _) as [[n h]|] eqn:E; [|walk]. apply find_Some_in in E as [Hin _].
  apply keeps_bind; [exact _|by eapply ages_handlers|intros ?; walk].
Qed.
End Ages.

(** ** The ledger of a capture *)

Definition same_ledger {L I} (d d' : desk L I) : Prop := h_ledger (dk_hall d') = h_ledger (dk_hall d).

#[export] Instance ledger_permits {L} `{LedgerApi L} {I} : Permits (@same_ledger L I).
Proof.
  split; [|done..]. split; [by intros d|]. intros a b c H1 H2. unfold same_ledger in *. congruence.
Qed.

(** What a merchant is owed of a captured payment: the frozen share, or all of it. *)
Definition owed (share : option Z) (gross : Z) : Z := default gross share.

Definition posting_keys (payment : string) : list string :=
  map (λ type, type ++ ":" ++ payment)%string ["payment_received"; "fee_deduction"; "gst_deduction"]%string.

Lemma at_money n : at_scale 2 (money_dec n) n.
Proof. by apply at_scale_Dec. Qed.

Lemma posting_keys_cover c g m : ∀ k, k ∈ capture_keys c g m → k ∈ posting_keys (cap_payment c).
Proof.
  intros k. unfold capture_keys, live, fee_legs, posting_keys. rewrite !filter_cons, filter_nil. cbn [fst snd map].
  destruct (decide _), (decide _); cbn [map]; set_solver.
Qed.

Section PostCapture.
Context {L : Type} `{LedgerApi L} (s : stamp) (c : capture) (mid : string) (method : option string) (g : Z).
Context (Hmid : cap_merchant c = Some mid) (Hmid0 : mid ≠ ""%string) (Hpay : cap_payment c ≠ ""%string) (Hg : 0 < g < ledger_bound).

Abbreviation apply share := (apply_payment_capture s c (PDec (money_dec g)) method share (Some KRazorpay)).
Abbreviation postings m := (capture_postings c mid method (money_dec g) g m).

(** Posting what is owed, as a list of postings. *)
Lemma share_post_all share : 0 <= owed share g <= g →
  ∃ r, ∀ db : L, apply share db = (db' ← post_all s (postings (owed share g)) db; Ok (db', r)).
Proof using Hmid Hmid0 Hpay Hg.
  intros Hm. destruct share as [m|].
  - eexists. intros db. by apply (capture_is_post_all s c mid method (Some KRazorpay) (PDec (money_dec g)) (money_dec g) g m).
  - eexists. intros db. rewrite (capture_receipt s c mid method (Some KRazorpay) (PDec (money_dec g)) (money_dec g) g) by done.
    unfold owed, capture_postings, live, fee_legs. cbn [default from_option]. unfold id. rewrite Z.sub_diag. change (fee_of 0) with 0. cbn.
    destruct (api_post _ _ _) as [[db1 e]|x]; [|done]. by rewrite !bind_Ok.
Qed.

(** More than the gross is never posted. *)
Lemma share_within_gross share (db : L) r : apply share db = Ok r → owed share g <= g.
Proof using Hmid Hmid0 Hpay Hg.
  rewrite (capture_receipt s c mid method (Some KRazorpay) (PDec (money_dec g)) (money_dec g) g) by done.
  intros ([db1 e] & _ & Hr)%res_bind_Ok. unfold owed. destruct share as [m|]; [|done]. apply res_bind_Ok in Hr as (x & Hx & _).
  unfold post_fee_legs in Hx. destruct (Z.ltb_spec (g - m) 0); [done|]. cbn. unfold id. lia.
Qed.
End PostCapture.

(** What is owed is posted once: a second posting for the payment changes nothing. *)
Lemma share_posted_once {L} `{LedgerApi L} s c mid method g share (db : L) posted :
  cap_merchant c = Some mid → mid ≠ ""%string → cap_payment c ≠ ""%string → 0 < g < ledger_bound → 0 <= owed share g →
  api_wf db → Forall (λ k, api_posted db mid k = None) (posting_keys (cap_payment c)) →
  api_room s mid "INR" 3 (200 * g) db →
  apply_payment_capture s c (PDec (money_dec g)) method share (Some KRazorpay) db = Ok posted →
  owed share g <= g ∧
  (∀ m' c', api_balance posted.1 m' c' = api_balance db m' c'
     + if bool_decide (mid = m') && bool_decide ("INR"%string = c') then 100 * owed share g else 0) ∧
  ∀ s' c' method', cap_merchant c' = Some mid → cap_payment c' = cap_payment c →
    ∃ r, apply_payment_capture s' c' (PDec (money_dec g)) method' share (Some KRazorpay) posted.1 = Ok (posted.1, r).
Proof.
  intros Hmid Hmid0 Hpay Hg Hm Hwf Hfree Hroom Hpost. assert (owed share g <= g) as Hmg by (by eapply (share_within_gross s c mid method g)).
  destruct (share_post_all s c mid method g Hmid Hmid0 Hpay Hg share) as [r Hall]; [by split|].
  destruct (capture_moves_spec c mid method (Some KRazorpay) (PDec (money_dec g)) (money_dec g) g (owed share g))
    as (Hmoves & Hkeys & Hsum & Habs & Hnd & Hlen); [done..|apply at_money|done|done|done|].
  set (postings := capture_postings c mid method (money_dec g) g (owed share g)) in *.
  destruct (post_all_new s mid "INR" _ _ _ db (3 - Z.of_nat (length postings)) (100 * owed share g) Hwf Hmoves Hkeys Hnd)
    as (db' & Hnew & Hwf' & Hbal & _ & Hsome & _); [| lia | lia | |].
  { rewrite Forall_forall in *. intros k Hk. apply Hfree. by apply (posting_keys_cover c g (owed share g)). }
  { rewrite Habs. replace (_ + (3 - _)) with 3 by lia. replace (_ + _) with (200 * g) by lia. exact Hroom. }
  rewrite Hall, Hnew, bind_Ok in Hpost. injection Hpost as <-. cbn [fst].
  split; [exact Hmg|]. split; [intros m' c'; by rewrite Hbal, Hsum|]. intros s' c2 method' Hmid2 Hpay2.
  destruct (share_post_all s' c2 mid method' g Hmid2 Hmid0 ltac:(congruence) Hg share) as [r2 Hall2]; [by split|]. exists r2.
  destruct (capture_moves_spec c2 mid method' (Some KRazorpay) (PDec (money_dec g)) (money_dec g) g (owed share g))
    as (Hmoves2 & Hkeys2 & _); [done|done|congruence|done|apply at_money|done|done|done|].
  assert (capture_keys c2 g (owed share g) = capture_keys c g (owed share g)) as Hk by (unfold capture_keys, fee_legs; by rewrite Hpay2).
  rewrite Hk in Hkeys2. by rewrite Hall2, (post_all_old s' mid "INR" _ _ _ db' Hwf' Hmoves2 Hkeys2 Hsome), bind_Ok.
Qed.


Section Capture.
Context {L : Type} `{LedgerApi L} {I W : Type} (gw : gateway W) (digest : body → string) (rate : decimal).
Abbreviation state := (desk L I * W)%type.
Abbreviation ledger s := (h_ledger (dk_hall s.1)).
Abbreviation share_of e c d := (frozen_share (str_or (pe_id e) "") (ro_merchant c) d).

(** The posting of a capture sees the ledger the handler started with; a refusal before it
    leaves that ledger. *)
Lemma take_cases t o c e (s : state) : let r := take_capture gw digest rate t o (Some c) e s in
  ledger r.1 = ledger s ∧ (∃ x, r.2 = Err x) ∨
  ∃ p posted, payment_of_order o s.1 = Some p ∧ ledger r.1 = posted.1 ∧
    apply_payment_capture (x_stamp t) (capture_of c p e) (PDec (money_dec (py_amount p))) (or_str (Some (py_method p)) (pe_method e))
      (share_of e c r.1.1) (Some KRazorpay) (ledger s) = Ok posted.
Proof.
  cbn zeta. unfold take_capture.
  assert (∀ s1 p, claim_payment c o e s = (s1, Ok p) → payment_of_order o s.1 = Some p) as Hp.
  { unfold claim_payment, mbind, act_bind, the_desk, ask. intros s1 p. destruct (payment_of_order o s.1) as [q|]; [|done]. unfold refuse, lift.
    destruct (raise_if _ _); [|done]. destruct (raise_if _ _); [|done]. by intros [= _ <-]. }
  pose proof (desk_claim (W := W) (@same_ledger L I) c o e) as Hc. step_act Hc E1; [|by left; split; [|eexists]]. specialize (Hp _ _ eq_refl).
  set (mirror := _upsert_rzp_payment _ _ _ _ _ _ _ _). assert (keeps (on_desk (@same_ledger L I)) mirror) as Hm by (apply desk_upsert; exact _).
  unfold on_desk, same_ledger in *. cbn [fst] in *. step_act Hm E2; [|left; split; [cbn; congruence|by eexists]].
  pose proof (desk_move (W := W) gw digest rate (@same_ledger L I) c e) as Hv. unfold on_desk, same_ledger in Hv.
  step_act Hv E3; [|left; split; [cbn; congruence|by eexists]]. unfold post_capture, mbind, act_bind, the_desk, ask, lift.
  rewrite Hv, Hm, Hc. destruct (apply_payment_capture _ _ _ _ _ _ _) as [posted|x] eqn:E; [right|left; split; [cbn; congruence|by eexists]].
  eexists _, posted. split; [exact Hp|]. split; [done|exact E].
Qed.

Lemma captured_ledger t env o ctx (s : state) : capture_context (en_payment env) s.1 = (o, ctx) →
  ledger (_handle_payment_captured gw digest rate t env s).1 = ledger (take_capture gw digest rate t o ctx (en_payment env) s).1.
Proof.
  intros Hc. unfold _handle_payment_captured. cbn zeta. rewrite (act_bind_Ok the_desk _ s s s.1) by done. rewrite Hc.
  destruct (take_capture _ _ _ _ _ _ _ s) as [s1 [id|x]] eqn:E; [rewrite (act_bind_Ok _ _ _ _ _ E)|by rewrite (act_bind_Err _ _ _ _ _ E)].
  cbn [fst]. match goal with |- ledger (?m s1).1 = _ => assert (keeps (on_desk (@same_ledger L I)) m) as Hk by walk end. exact (Hk s1).
Qed.

(** C26: a captured payment of an order that goes through credits the merchant with exactly
    what is owed (the share frozen when the transfer was made; the gross when there is
    none), which is at most the gross, and nobody else; and whatever desk the event is
    delivered to again, with the same books and the same frozen share, the ledger stays as
    it is, even when the delivery fails half way. *)
Theorem capture_credits_share t env o c p (s s1 : state) id :
  capture_context (en_payment env) s.1 = (o, Some c) → payment_of_order o s.1 = Some p →
  take_capture gw digest rate t o (Some c) (en_payment env) s = (s1, Ok id) →
  ro_merchant c ≠ ""%string → py_id p ≠ ""%string → 0 < py_amount p < ledger_bound →
  api_wf (ledger s) → Forall (λ k, api_posted (ledger s) (ro_merchant c) k = None) (posting_keys (py_id p)) →
  api_room (x_stamp t) (ro_merchant c) "INR" 3 (200 * py_amount p) (ledger s) →
  let m := owed (share_of (en_payment env) c s1.1) (py_amount p) in 0 <= m →
  let s' := (_handle_payment_captured gw digest rate t env s).1 in
  m <= py_amount p ∧
  (∀ m' c', api_balance (ledger s') m' c'
     = api_balance (ledger s) m' c' + if bool_decide (ro_merchant c = m') && bool_decide ("INR"%string = c') then 100 * m else 0) ∧
  ∀ t' o' c' p' (s2 : state), ledger s2 = ledger s' → capture_context (en_payment env) s2.1 = (o', Some c') → ro_merchant c' = ro_merchant c →
    payment_of_order o' s2.1 = Some p' → py_id p' = py_id p → py_amount p' = py_amount p →
    share_of (en_payment env) c (take_capture gw digest rate t' o' (Some c') (en_payment env) s2).1.1 = share_of (en_payment env) c s1.1 →
    ledger (_handle_payment_captured gw digest rate t' env s2).1 = ledger s2.
Proof.
  intros Hctx Hp Htake Hmer Hid Hg Hwf Hfree Hroom m Hm s'.
  assert (ledger s' = ledger s1) as Hs' by (subst s'; by rewrite (captured_ledger t env o (Some c) s Hctx), Htake).
  destruct (take_cases t o c (en_payment env) s) as [[_ [x Hx]]|(q & posted & Hq & Hl & Hpost)]; rewrite Htake in *; cbn [fst snd] in *; [done|].
  assert (q = p) as -> by congruence. apply (share_posted_once _ _ (ro_merchant c)) in Hpost as (Hmg & Hbal & Hagain); [|done..].
  split; [exact Hmg|]. split; [intros m' c'; by rewrite Hs', Hl, Hbal|].
  intros t' o' c2 p2 s2 Hs2 Hctx2 Hmer2 Hp2 Hid2 Ham2 Hshare. rewrite (captured_ledger t' env o' (Some c2) s2 Hctx2).
  destruct (take_cases t' o' c2 (en_payment env) s2) as [[H1 _]|(q & posted2 & Hq2 & Hl2 & Hpost2)]; [exact H1|].
  assert (q = p2) as -> by congruence. rewrite Hl2. rewrite Hmer2, Hshare, Ham2, Hs2, Hs', Hl in Hpost2.
  destruct (Hagain (x_stamp t') (capture_of c2 p2 (en_payment env)) (or_str (Some (py_method p2)) (pe_method (en_payment env))))
    as [r2 Hr2]; [cbn; by rewrite Hmer2|exact Hid2|]. rewrite Hr2 in Hpost2. injection Hpost2 as <-. cbn. congruence.
Qed.
End Capture.

(** ** Captures that do not match *)

Section Refused.
Context {L : Type} `{LedgerApi L} {I W : Type} (gw : gateway W) (digest : body → string) (rate : decimal).

(** C29: a captured payment of an order without a matching row (no row or another merchant's,
    another amount, another currency than INR, or a row that belongs to another gateway
    payment) is refused with a [ValueError] before anything is written or asked of the
    gateway. *)
Theorem capture_refused t env o c (s : desk L I * W) :
  capture_context (en_payment env) s.1 = (o, Some c) →
  (∀ p, payment_of_order o s.1 = Some p →
     py_restaurant p ≠ Some (ro_merchant c) ∨ py_amount p ≠ default 0 (pe_amount (en_payment env)) ∨
     pe_currency (en_payment env) ≠ Some "INR"%string ∨
     ∃ x, pc_payment (columns_of s.1 p) = Some x ∧ pe_id (en_payment env) ≠ Some x) →
  ∃ why, _handle_payment_captured gw digest rate t env s = (s, Err (ValueError why)).
Proof.
  intros Hc Hbad. set (e := en_payment env) in *.
  assert (∃ why, claim_payment c o e s = (s, Err (ValueError why))) as [why Hwhy].
  { unfold claim_payment. rewrite (act_bind_Ok the_desk _ s s s.1) by done. destruct (payment_of_order o s.1) as [p|]; [|by eexists].
    specialize (Hbad p eq_refl). destruct (decide (py_restaurant p = Some (ro_merchant c))) as [Hr|Hr].
    2: { rewrite (act_bind_Err _ _ s s (ValueError "capture has no matching merchant payment")); [by eexists|]. unfold refuse, lift.
         by rewrite bool_decide_eq_false_2. }
    rewrite (act_bind_Ok _ _ s s ()) by (unfold refuse, lift; by rewrite bool_decide_eq_true_2).
    rewrite (act_bind_Err _ _ s s (ValueError "captured payment amount, currency or identity mismatch")); [by eexists|]. unfold refuse, lift.
    destruct Hbad as [Hb|[Hb|[Hb|(x & Hx & Hb)]]]; [done|by rewrite (proj2 (Z.eqb_neq _ _) Hb)|by rewrite (bool_decide_eq_false_2 _ Hb), orb_true_r|].
    rewrite Hx, (bool_decide_eq_false_2 (Some x = None)), (bool_decide_eq_false_2 (Some x = pe_id e)) by congruence.
    cbn [orb negb]. by rewrite orb_true_r. }
  exists why. unfold _handle_payment_captured. rewrite (act_bind_Ok the_desk _ s s s.1) by done. fold e. rewrite Hc.
  apply act_bind_Err. unfold take_capture. by apply act_bind_Err.
Qed.
End Refused.

(** ** Examples

    One order of 100 rupees with its payment row, and the gateway of RouteMoney. *)

Definition demo_payment (id status : string) : payment := {|
  py_id := id; py_order := "o1"; py_restaurant := Some "m1"%string; py_user := "m1"; py_branch := None; py_method := "online";
  py_status := status; py_amount := 10000; py_paid_at := None |}.
Definition gateway_order : rzp_order := {|
  ro_id := "order_1"; ro_uuid := "r1"; ro_merchant := "m1"; ro_branch := None; ro_internal := "o1"; ro_amount := 10000; ro_paid := 0;
  ro_due := 10000; ro_currency := "INR"; ro_status := "created" |}.
Definition demo_columns : gmap string pay_columns := {[ "p1"%string := {| pc_order := Some "order_1"%string; pc_payment := None |} ]}.
Notation desk0 := (desk ledger_db ()).
Definition desk_of (p : payment) (os : list order) : desk0 := {|
  dk_hall := {| h_db := {| sessions := []; tables := []; users := []; carts := []; links := []; receipts := []; kitchen_orders := [];
      kitchen_items := []; replies := []; book := {| orders := os; order_items := []; Orders.payments := [p]; claims := [] |} |};
    h_cache := ∅; h_bills := ∅; h_ledger := empty_ledger; h_events := [] |};
  dk_columns := demo_columns; dk_orders := [gateway_order]; dk_payments := []; dk_qr := []; dk_links := []; dk_refund_mirrors := [];
  dk_refunds := []; dk_requests := ∅; dk_lost := []; dk_accounts := [demo_account "created"]; dk_allocations := ∅; dk_operations := ∅;
  dk_mirrors := ∅; dk_static := []; dk_static_payments := ∅; dk_published := [] |}.
Definition paid_by (id : string) : pay_entity := {|
  pe_id := Some id; pe_order_id := Some "order_1"%string; pe_amount := Some 10000; pe_currency := Some "INR"%string; pe_status := None;
  pe_method := Some "upi"%string; pe_vpa := None; pe_bank := None; pe_bank_transaction := None; pe_fee := None; pe_tax := None;
  pe_email := None; pe_contact := None; pe_error_code := None; pe_error_description := None; pe_error_reason := None;
  pe_captured_at := None; pe_qr_code := None; pe_qr_id := None; pe_notes := None |}.
Definition no_transfer : transfer := {|
  t_id := ""; t_recipient := Account ""; t_recipient_account_id := None; t_account := None; t_amount := 0; t_currency := None; t_status := None;
  t_transfer_status := None; t_amount_reversed := None; t_on_hold := false; t_on_hold_until := None; t_fees := None; t_tax := None;
  t_processed_at := None; t_created_at := None; t_reversed_at := None; t_source := None; t_razorpay_payment_id := None;
  t_source_account_id := None; t_recipient_settlement_id := None; t_settlement_id := None |}.
Definition no_refund : refund_entity := {|
  re_id := None; re_payment := None; re_amount := None; re_currency := None; re_status := None; re_speed_requested := None;
  re_speed_processed := None; re_batch := None; re_processed_at := None; re_created_at := None; re_notes := None |}.
Definition no_qr : qr_entity := {|
  qe_id := None; qe_amount := None; qe_status := None; qe_close_by := None; qe_closed_at := None; qe_close_reason := None;
  qe_received := None; qe_count := None |}.
Definition payment_envelope (e : pay_entity) : envelope := {|
  en_payment := e; en_order := {| oe_id := None; oe_amount_paid := None; oe_amount := None |}; en_qr := no_qr; en_refund := no_refund;
  en_transfer := no_transfer |}.

Definition fire {W} (gw : gateway W) (name : string) (env : envelope) (s : desk0 * W) : desk0 * W * res string :=
  dispatch_event gw demo_digest d_zero (λ _ _, None) (demo_dice "9" 50) name env s.
Definition capture_event : envelope := payment_envelope (paid_by "pay_1").

(** The first delivery sends the share but loses the answer; the second finds the transfer. *)
Definition demo_start : desk0 * (demo_world * list sent) := (desk_of (demo_payment "p1" "pending") [], ((∅, false), [])).
Definition after_loss : desk0 * (demo_world * list sent) := (fire demo_log_gateway "payment.captured" capture_event demo_start).1.
Definition shown_again : desk0 * (demo_world * list sent) := (after_loss.1, ((after_loss.2.1.1, true), after_loss.2.2)).
Definition after_capture : desk0 * (demo_world * list sent) := (fire demo_log_gateway "payment.captured" capture_event shown_again).1.

Example capture_recovers :
  (fire demo_log_gateway "payment.captured" capture_event demo_start).2 = Err (RazorpayAPIError 504) ∧
  map py_status (the_payments after_loss.1) = ["pending"%string] ∧
  map py_status (the_payments after_capture.1) = ["completed"%string] ∧
  map s_what after_capture.2.2 = [Posted "pay_1" "acc_1" 9500] ∧
  api_balance (h_ledger (dk_hall after_capture.1)) "m1" "INR" = 950000.
Proof. vm_compute. repeat split. Qed.

Lemma demo_fair : fair capture_event.
Proof. split; cbn; lia. Qed.

Lemma demo_event_run : event_run demo_gateway demo_digest d_zero after_capture.
Proof.
  exists demo_start.1, demo_start.2.1. split; [reflexivity|]. split; [intros payment row; unfold newest_payment; cbn; discriminate|].
  split; [constructor|]. eapply (rtc_l _ _ after_loss); [exact (Event _ _ _ _ "payment.captured" capture_event demo_start demo_fair)|].
  eapply (rtc_l _ _ shown_again).
  - rewrite (surjective_pairing after_loss), (surjective_pairing after_loss.2). apply Unseen; [done|apply outside_refl].
  - apply rtc_once. exact (Event _ _ _ _ "payment.captured" capture_event shown_again demo_fair).
Qed.

Lemma events_refine_route_witness : route_run demo_gateway demo_digest (view after_capture).
Proof. exact (events_refine_route demo_gateway demo_digest d_zero after_capture demo_event_run). Defined.

Lemma payments_move_forward_witness : pay_ages demo_start.1 after_loss.1.
Proof.
  apply (payments_move_forward demo_log_gateway demo_digest d_zero demo_start after_loss), rtc_once.
  exact (Webhook _ _ _ _ "payment.captured" capture_event demo_start).
Defined.

(** The money part of the second delivery, and a third. *)
Definition demo_taken : desk0 * (demo_world * list sent) :=
  (take_capture demo_log_gateway demo_digest d_zero (demo_dice "9" 50) (Some "order_1"%string) (Some gateway_order) (paid_by "pay_1") shown_again).1.
Definition captured_again : desk0 * (demo_world * list sent) :=
  (_handle_payment_captured demo_log_gateway demo_digest d_zero (demo_dice "9" 50) capture_event shown_again).1.
Definition paid_order : rzp_order := {|
  ro_id := "order_1"; ro_uuid := "r1"; ro_merchant := "m1"; ro_branch := None; ro_internal := "o1"; ro_amount := 10000; ro_paid := 10000;
  ro_due := 0; ro_currency := "INR"; ro_status := "paid" |}.

Lemma capture_credits_share_witness :
  api_balance (h_ledger (dk_hall captured_again.1)) "m1" "INR" = 950000 ∧
  h_ledger (dk_hall (_handle_payment_captured demo_log_gateway demo_digest d_zero (demo_dice "9" 70) capture_event captured_again).1.1)
  = h_ledger (dk_hall captured_again.1).
Proof.
  destruct (capture_credits_share demo_log_gateway demo_digest d_zero (demo_dice "9" 50) capture_event (Some "order_1"%string) gateway_order
    (demo_payment "p1" "pending") shown_again demo_taken (Some "pay_1"%string)) as (_ & Hbal & Hagain).
  - reflexivity.
  - reflexivity.
  - vm_compute. reflexivity.
  - discriminate.
  - discriminate.
  - split; reflexivity.
  - exact empty_wf.
  - vm_compute. repeat constructor.
  - repeat split; vm_compute; congruence.
  - vm_compute. discriminate.
  - split; [etransitivity; [apply (Hbal "m1"%string "INR"%string)|vm_compute; reflexivity]|].
    apply (Hagain (demo_dice "9" 70) (Some "order_1"%string) paid_order
      (set_pay_status "completed" (Some 50) (demo_payment "p1" "pending")) captured_again); try reflexivity; vm_compute; reflexivity.
Defined.

(** A second payment of the same order. *)
Lemma capture_refused_witness : ∃ why,
  _handle_payment_captured demo_log_gateway demo_digest d_zero (demo_dice "9" 80) (payment_envelope (paid_by "pay_2")) captured_again
  = (captured_again, Err (ValueError why)).
Proof.
  apply (capture_refused demo_log_gateway demo_digest d_zero (demo_dice "9" 80) (payment_envelope (paid_by "pay_2")) (Some "order_1"%string) paid_order captured_again).
  - vm_compute. reflexivity.
  - intros p Hp. right. right. right. exists "pay_1"%string. split; [|discriminate].
    vm_compute in Hp. injection Hp as <-. vm_compute. reflexivity.
Defined.

(** *** What the events do not do *)

(** A gateway that answers at once. *)
Definition prompt_gateway : gateway () := {|
  gw_payment_transfers _ _ := Ok []; gw_order_transfers _ _ := Ok []; gw_transfer _ _ := Err (NotFoundError "transfer"); gw_settled _ _ _ _ := Ok [];
  gw_create p _ _ w := (w, Ok [demo_transfer p 0 "processed"]); gw_reverse _ _ _ w := (w, Ok ()) |}.
Definition deliver (events : list (string * envelope)) (d : desk0) : desk0 * list (res string) :=
  foldl (λ r ev, let '((d', _), x) := fire prompt_gateway ev.1 ev.2 (r.1, ()) in (d', r.2 ++ [x])) (d, []) events.
Definition pays (id : string) : envelope := payment_envelope (paid_by id).
Definition outcome (d : desk0) : list string * Z := (map py_status (the_payments d), api_balance (h_ledger (dk_hall d)) "m1" "INR").

(** The customer fails once and pays then: the money is booked, but the row stays failed and
    no completion is published. *)
Example failed_attempt_then_paid :
  let d := (deliver [("payment.failed", pays "pay_0"); ("payment.captured", pays "pay_1")]%string (desk_of (demo_payment "p1" "pending") [])).1 in
  outcome d = (["failed"], 950000)%string ∧ dk_published d = [PaymentFailed "p1" (Some "pay_0"%string)].
Proof. vm_compute. split; reflexivity. Qed.

(** The same of a payment that arrives after its QR code closed. *)
Example late_payment_stays_expired :
  let d := (deliver [("payment.captured", pays "pay_1")]%string (desk_of (demo_payment "p1" "expired") [])).1 in
  outcome d = (["expired"], 950000)%string ∧ dk_published d = [].
Proof. vm_compute. split; reflexivity. Qed.

(** An attempt that is only authorized keeps the row: the payment that is captured instead
    is refused at every delivery. *)
Example authorized_attempt_blocks_capture :
  let r := deliver [("payment.authorized", pays "pay_1"); ("payment.captured", pays "pay_2"); ("payment.captured", pays "pay_2")]%string
             (desk_of (demo_payment "p1" "pending") []) in
  outcome r.1 = (["initiated"], 0)%string ∧
  r.2 = [Ok "processed"; Err (ValueError "captured payment amount, currency or identity mismatch");
         Err (ValueError "captured payment amount, currency or identity mismatch")]%string.
Proof. vm_compute. split; reflexivity. Qed.

(** A capture sends an order the kitchen already prepares back to confirmed. *)
Example capture_reopens_prepared_order : ∀ (o : order) (d : desk0), o_id o = "o1"%string → o_status o = "Preparing"%string →
  orders (book (h_db (dk_hall d))) = [o] →
  map o_status (orders (book (h_db (dk_hall (_confirm_order (W := ()) (Some "o1"%string) 50 (d, ())).1.1)))) = ["Confirmed"%string].
Proof.
  intros o d Hid Hs Ho.
  change (map o_status (orders (update_orders "o1" (λ o, if str_mem (o_status o) ["Confirmed"; "Completed"; "Cancelled"; "Served"; "Delivered"]
    then o else set_status "Confirmed" 50 o) (book (h_db (dk_hall d))))) = ["Confirmed"])%string.
  unfold update_orders. cbn [orders]. rewrite Ho. cbn [map]. rewrite Hid, bool_decide_eq_true_2, Hs by done. reflexivity.
Qed.

(** Closing a QR code without money expires every open payment of its order, here one that
    waits for cash. *)
Definition closed_qr : envelope :=
  {| en_payment := en_payment capture_event; en_order := en_order capture_event; en_refund := no_refund; en_transfer := no_transfer;
     en_qr := {| qe_id := Some "qr_1"%string; qe_amount := None; qe_status := Some "closed"%string; qe_close_by := None; qe_closed_at := Some 9;
                 qe_close_reason := None; qe_received := None; qe_count := None |} |}.
Definition cash_payment : payment := {|
  py_id := "p2"; py_order := "o1"; py_restaurant := Some "m1"%string; py_user := "m1"; py_branch := None; py_method := "cash";
  py_status := "pending"; py_amount := 10000; py_paid_at := None |}.
Example closed_qr_expires_cash :
  let d0 := with_qr [{| qr_id := "qr_1"; qr_merchant := "m1"; qr_branch := None; qr_amount := Some 10000; qr_status := "active"; qr_close_by := None;
                        qr_closed_at := None; qr_close_reason := None; qr_received := 0; qr_count := 0 |}]
                    [{| ql_qr := "qr_1"; ql_order_uuid := "r1"; ql_order_id := "order_1"; ql_internal := "o1"; ql_merchant := "m1" |}]
                    (set_payments [demo_payment "p1" "failed"; cash_payment] (desk_of (demo_payment "p1" "failed") [])) in
  map py_status (the_payments (deliver [("qr_code.closed", closed_qr)]%string d0).1) = ["failed"; "expired"]%string.
Proof. vm_compute. reflexivity. Qed.
