(* ===== verification/PaymentIntents.v ===== *)
(** What payment intents and static QR codes promise: an order has one intent, and a merchant
    has at most one active static QR code. *)

From Stdlib Require Import ZArith Lia Ascii String.
From S2P Require Import Prelude PyDecimal PyFloat PyValues FeePolicy MerchantLedger RouteSafety Refunds Orders DineIn TableBilling RouteTransfers PaymentEvents PaymentFlow.
Open Scope Z_scope.

(** ** Payment intents *)

Section Intents.
Context {L : Type} `{LedgerApi L} {I W : Type}.
Context (create_order : order_call → W → W * res order_reply) (create_qr : qr_call → W → W * res qr_reply).
Abbreviation state := (desk L I * W)%type.

(** The foreign keys of [rzp_qr_order_links]. *)
Record qr_sound (d : desk L I) : Prop := {
  qs_order : ∀ l, l ∈ dk_links d → ∃ r, r ∈ dk_orders d ∧ ro_uuid r = ql_order_uuid l ∧ ro_internal r = ql_internal l;
  qs_code : ∀ l, l ∈ dk_links d → ql_qr l ∈ map qr_id (dk_qr d)
}.

(** With them, the code of an intent is the one its row is first linked to. *)
Definition linked_qr (uuid : string) (d : desk L I) : option string :=
  ql_qr <$> find (λ l, bool_decide (ql_order_uuid l = uuid)) (dk_links d).
Definition intent_of (r : rzp_order) (qr : option string) : intent :=
  {| it_order := ro_id r; it_uuid := ro_uuid r; it_amount := ro_amount r; it_currency := ro_currency r; it_qr := qr |}.

Lemma code_known (d : desk L I) id : id ∈ map qr_id (dk_qr d) ↔ existsb (λ c, bool_decide (qr_id c = id)) (dk_qr d) = true.
Proof.
  rewrite list_elem_of_fmap, existsb_exists. setoid_rewrite <-list_elem_of_In. setoid_rewrite bool_decide_eq_true. naive_solver.
Qed.

Lemma find_both {A} (f g : A → bool) l : (∀ x, x ∈ l → g x = true) → find (λ x, f x && g x) l = find f l.
Proof.
  induction l as [|x l IH]; intros Hg; [done|]. cbn. rewrite (Hg x) by (by left). rewrite andb_true_r. destruct (f x); [done|].
  apply IH. intros y Hy. apply Hg. by right.
Qed.

Lemma fetch_sound m o d : qr_sound d → _fetch_existing_intent m o d = (λ r, intent_of r (linked_qr (ro_uuid r) d)) <$> saved_order o m d.
Proof.
  intros [_ Hc]. unfold _fetch_existing_intent. destruct (saved_order o m d) as [r|]; [|done]. cbn. unfold intent_of, linked_qr.
  by rewrite (find_both _ _ _ (λ l Hl, proj1 (code_known d _) (Hc l Hl))).
Qed.

(** What a call adds: a row for the order, and a code linked to it. *)
Record makes (uuid : string) (q : intent_order) (d d' : desk L I) (r : rzp_order) (qr : option string) : Prop := {
  mk_orders : dk_orders d' = dk_orders d ++ [r];
  mk_row : ro_uuid r = uuid ∧ ro_internal r = io_order q ∧ ro_merchant r = io_merchant q;
  mk_codes : map qr_id (dk_qr d) ⊆ map qr_id (dk_qr d');
  mk_links : match qr with
             | None => dk_links d' = dk_links d
             | Some id => id ∈ map qr_id (dk_qr d') ∧
                 ((∃ l, dk_links d' = dk_links d ++ [l] ∧ ql_qr l = id ∧ ql_order_uuid l = uuid ∧ ql_internal l = io_order q) ∨
                  (∃ l, dk_links d' = dk_links d ∧ l ∈ dk_links d ∧ ql_internal l = io_order q))
             end
}.

Lemma persisted uuid q amount reply (d d1 : desk L I) id :
  _persist_rzp_order uuid q amount reply d = Ok (d1, id) → saved_order (io_order q) (io_merchant q) d = None →
  id = uuid ∧ ∃ r, makes uuid q d d1 r None ∧ intent_of r None = {| it_order := or_id reply; it_uuid := uuid; it_amount := amount; it_currency := io_currency q; it_qr := None |}.
Proof.
  unfold _persist_rzp_order, saved_order. intros Hp Hnone. destruct (find _ (dk_orders d)) as [r|] eqn:Ef.
  { apply find_Some_in in Ef as [Hin [H1%bool_decide_eq_true H2%bool_decide_eq_true]%andb_prop]. apply last_None in Hnone.
    assert (r ∈ filter (λ r, ro_internal r = io_order q ∧ ro_merchant r = io_merchant q) (dk_orders d)) as Hr by (by apply list_elem_of_filter).
    rewrite Hnone in Hr. by apply elem_of_nil in Hr. }
  destruct (raise_if _ _); [|done]. rewrite !bind_Ok in Hp. cbn [fst snd] in Hp. injection Hp as <- <-.
  split; [done|]. eexists. split; [by split|done].
Qed.

Lemma qr_persisted uuid order_id id amount close_by q (d0 d : desk L I) r :
  makes uuid q d0 d r None → makes uuid q d0 (_persist_qr_and_link uuid order_id id amount close_by q d) r (Some id).
Proof.
  intros [M1 M2 M3 M4].
  split; [done|done| |].
  - cbn. etransitivity; [exact M3|]. destruct (existsb _ (dk_qr d)); [done|]. rewrite map_app. set_solver.
  - split.
    + cbn. destruct (existsb _ (dk_qr d)) eqn:E; [by apply code_known|]. rewrite map_app. cbn. set_solver.
    + cbn. destruct (existsb _ (dk_links d)) eqn:E; rewrite M4 in *.
      * right. apply existsb_exists in E as (l & Hin%list_elem_of_In & [_ Hl%bool_decide_eq_true]%andb_prop). by exists l.
      * left. by eexists.
Qed.

(** A call leaves the tables as they are, or makes an intent. *)
Lemma intent_call now uuid q (s : state) :
  let s' := create_intent_for_order create_order create_qr now uuid q s in
  (s'.1.1 = s.1 ∧ ∀ i, s'.2 = Ok i → _fetch_existing_intent (io_merchant q) (io_order q) s.1 = Some i) ∨
  (saved_order (io_order q) (io_merchant q) s.1 = None ∧
   ∃ r qr, makes uuid q s.1 s'.1.1 r qr ∧ ∀ i, s'.2 = Ok i → i = intent_of r qr).
Proof.
  cbn zeta. destruct (create_intent_for_order _ _ _ _ _ s) as [s' res] eqn:E. cbn [fst snd]. revert E. unfold create_intent_for_order. cbn zeta.
  unfold mbind, act_bind, refuse, lift, the_desk, ask, call, write, update, mret, act_ret.
  destruct (raise_if _ _); [|by intros [= <- <-]; left]. destruct (_fetch_existing_intent _ _ s.1) as [j|] eqn:Hj; [by intros [= <- <-]; left; split; [|intros ? [= <-]]|].
  assert (saved_order (io_order q) (io_merchant q) s.1 = None) as Hnone.
  { unfold _fetch_existing_intent in Hj. by destruct (saved_order _ _ _). }
  destruct (assert_settlement_ready _ _); [|by intros [= <- <-]; left]. destruct (if bool_decide (io_currency q = "INR"%string) then _ else _) as [share|]; [|by intros [= <- <-]; left].
  destruct (raise_if _ _); [|by intros [= <- <-]; left]. destruct (create_order _ _) as [w [reply|e]]; [|by intros [= <- <-]; left]. cbn [fst snd].
  destruct (_persist_rzp_order _ _ _ _ _) as [[d1 id]|e] eqn:Hp; [|by intros [= <- <-]; left]. cbn [fst snd].
  apply persisted in Hp as (-> & r & Hm & Hi); [|done]. intros E. right. split; [done|]. exists r. revert E.
  assert (∀ x, {| it_order := or_id reply; it_uuid := uuid; it_amount := amount_paise (io_amount q); it_currency := io_currency q; it_qr := x |} = intent_of r x) as Hx
    by (intros x; unfold intent_of in *; by injection Hi as <- <- <- <-).
  destruct (io_create_qr q); [|by intros [= <- <-]; exists None; split; [destruct Hm|intros ? [= <-]; apply Hx]].
  unfold intent_qr. destruct (create_qr _ _) as [w' [rp|e]].
  - destruct (qp_id rp) as [id|]; [|by intros [= <- <-]; exists None]. intros [= <- <-]. exists (Some id).
    split; [|intros ? [= <-]; apply Hx]. eapply qr_persisted in Hm. destruct Hm as [M1 M2 M3 M4]. split; [exact M1|exact M2|exact M3|exact M4].
  - destruct e; try (by intros [= <- <-]; exists None). intros [= <- <-]. exists None. split; [by destruct Hm|intros ? [= <-]; apply Hx].
Qed.

Lemma makes_sound uuid q d d' r qr : makes uuid q d d' r qr → qr_sound d → qr_sound d'.
Proof.
  intros [M1 (R1 & R2 & R3) M3 M4] [S1 S2]. assert (∀ l, l ∈ dk_links d → (∃ r0, r0 ∈ dk_orders d' ∧ ro_uuid r0 = ql_order_uuid l ∧ ro_internal r0 = ql_internal l) ∧
    ql_qr l ∈ map qr_id (dk_qr d')) as Hold.
  { intros l Hl. split; [|by apply M3, S2]. destruct (S1 l Hl) as (r0 & Hr & E). exists r0. split; [|done]. rewrite M1. set_solver. }
  destruct qr as [id|]; [|split; intros l; rewrite M4; naive_solver].
  destruct M4 as [Hid [(l0 & El & Eq & Eu & Ei)|(l0 & El & _)]]; [|split; intros l; rewrite El; naive_solver].
  split; intros l; rewrite El; (intros [Hl| ->%list_elem_of_singleton]%elem_of_app; [naive_solver|]).
  - exists r. rewrite M1, Eu, Ei. set_solver.
  - by rewrite Eq.
Qed.

(** The rows whose orders are another's stay what they were. *)
Lemma makes_others uuid q d d' r qr m o :
  makes uuid q d d' r qr → saved_order (io_order q) (io_merchant q) d = None → is_Some (saved_order o m d) → saved_order o m d' = saved_order o m d.
Proof.
  intros [M1 (R1 & R2 & R3) _ _] Hnone Hs. unfold saved_order in *. rewrite M1, filter_app, filter_cons, filter_nil.
  rewrite decide_False; [by rewrite app_nil_r|]. intros [E1 E2]. rewrite <-E1, <-E2, R2, R3, Hnone in Hs. by destruct Hs.
Qed.
Lemma makes_links uuid q d d' r qr x : makes uuid q d d' r qr → x ≠ uuid → linked_qr x d' = linked_qr x d.
Proof.
  intros [_ _ _ M4] Hx. unfold linked_qr. destruct qr as [id|]; [|by rewrite M4]. destruct M4 as [_ [(l & -> & _ & Eu & _)|(l & -> & _)]]; [|done].
  rewrite find_app. destruct (find _ (dk_links d)); [done|]. cbn. by rewrite bool_decide_eq_false_2 by congruence.
Qed.

(** *** While an intent exists *)

(** What the payment events and the expiry of codes leave of the tables. *)
Definition order_identity (r : rzp_order) := (ro_id r, ro_uuid r, ro_merchant r, ro_internal r, ro_amount r, ro_currency r).
Record same_intents (d d' : desk L I) : Prop := {
  si_orders : map order_identity (dk_orders d') = map order_identity (dk_orders d);
  si_links : dk_links d' = dk_links d;
  si_codes : map qr_id (dk_qr d) ⊆ map qr_id (dk_qr d')
}.

(** Other calls, for any orders of any merchants with whatever answers and outcome, and what
    else happens meanwhile; [mine] is the row of the intent, whose id is drawn once. *)
Inductive later (mine : string) : state → state → Prop :=
  | Intends now uuid q s : uuid ≠ mine → later mine s (create_intent_for_order create_order create_qr now uuid q s).1
  | Meanwhile d d' w w' : same_intents d d' → later mine (d, w) (d', w').

Lemma same_saved m o d d' i :
  same_intents d d' → qr_sound d → _fetch_existing_intent m o d = Some i → qr_sound d' ∧ _fetch_existing_intent m o d' = Some i.
Proof.
  intros [E1 E2 E3] S Hi. assert (∀ u n, (∃ r, r ∈ dk_orders d ∧ ro_uuid r = u ∧ ro_internal r = n) → ∃ r, r ∈ dk_orders d' ∧ ro_uuid r = u ∧ ro_internal r = n) as Hrow.
  { intros u n (r & Hr & Hu & Hn). apply (list_elem_of_fmap_2 order_identity) in Hr. change (order_identity <$> dk_orders d) with (map order_identity (dk_orders d)) in Hr.
    rewrite <-E1 in Hr. apply list_elem_of_fmap in Hr as (r' & E & Hr'). unfold order_identity in E. exists r'. split; [done|]. split; congruence. }
  assert (qr_sound d') as S'.
  { destruct S as [S1 S2]. split; intros l; rewrite E2; intros Hl; [by apply Hrow, S1|by apply E3, S2]. }
  split; [done|]. rewrite (fetch_sound _ _ _ S) in Hi. rewrite (fetch_sound _ _ _ S').
  assert (order_identity <$> saved_order o m d' = order_identity <$> saved_order o m d) as Es.
  { unfold saved_order. clear -E1. revert E1. generalize (dk_orders d). generalize (dk_orders d'). intros l.
    induction l as [|x l IH] using rev_ind; intros k E; [by destruct k|]. destruct k as [|y k _] using rev_ind; [by destruct l|].
    rewrite !map_app in E. apply app_inj_tail in E as [E Exy]. specialize (IH k E). rewrite !filter_app, !filter_cons, !filter_nil.
    assert ((ro_internal x = o ∧ ro_merchant x = m) ↔ (ro_internal y = o ∧ ro_merchant y = m)) as Hd by (unfold order_identity in Exy; naive_solver).
    destruct (decide (ro_internal x = o ∧ ro_merchant x = m)) as [Hx|Hx].
    - rewrite decide_True by tauto. rewrite !last_snoc. cbn. by rewrite Exy.
    - rewrite decide_False by tauto. by rewrite !app_nil_r. }
  destruct (saved_order o m d) as [r|]; [|done]. destruct (saved_order o m d') as [r'|]; [|done]. cbn in *. injection Es as E5 E6 E7 E8 E9 E10.
  rewrite <-Hi. unfold intent_of, linked_qr. by rewrite E2, E5, E6, E9, E10.
Qed.

Lemma later_saved m o i s s' :
  later (it_uuid i) s s' → qr_sound s.1 → _fetch_existing_intent m o s.1 = Some i → qr_sound s'.1 ∧ _fetch_existing_intent m o s'.1 = Some i.
Proof.
  intros [now uuid q s0 Hu|d d' w w' Hd] S Hi; [|by eapply same_saved].
  destruct (intent_call now uuid q s0) as [[-> _]|(Hnone & r & qr & Hm & _)]; [done|].
  pose proof (makes_sound _ _ _ _ _ _ Hm S) as S'. split; [done|]. rewrite (fetch_sound _ _ _ S) in Hi. rewrite (fetch_sound _ _ _ S').
  destruct (saved_order o m s0.1) as [r0|] eqn:Er; [|done]. rewrite (makes_others _ _ _ _ _ _ m o Hm Hnone) by (by rewrite Er). rewrite Er.
  injection Hi as <-. cbn in Hu |- *. by rewrite (makes_links _ _ _ _ _ _ (ro_uuid r0) Hm) by congruence.
Qed.

Lemma intent_saved now uuid q (s s' : state) i :
  create_intent_for_order create_order create_qr now uuid q s = (s', Ok i) → qr_sound s.1 →
  (∀ r, r ∈ dk_orders s.1 → ro_uuid r ≠ uuid ∧ (ro_internal r = io_order q → ro_merchant r = io_merchant q)) →
  qr_sound s'.1 ∧ _fetch_existing_intent (io_merchant q) (io_order q) s'.1 = Some i.
Proof.
  intros Hcall S Hfresh. pose proof (intent_call now uuid q s) as Hc. rewrite Hcall in Hc. cbn [fst snd] in Hc.
  destruct Hc as [[-> Hi]|(Hnone & r & qr & Hm & Hi)]; [by auto|]. rewrite (Hi i eq_refl). clear Hi.
  pose proof (makes_sound _ _ _ _ _ _ Hm S) as S'. split; [done|]. rewrite (fetch_sound _ _ _ S').
  destruct Hm as [M1 (R1 & R2 & R3) M3 M4]. assert (saved_order (io_order q) (io_merchant q) s'.1 = Some r) as ->.
  { unfold saved_order. rewrite M1, filter_app, filter_cons, filter_nil, decide_True by done. by rewrite last_snoc. }
  cbn. f_equal. f_equal. rewrite R1. unfold linked_qr.
  assert (find (λ l, bool_decide (ql_order_uuid l = uuid)) (dk_links s.1) = None) as Hn.
  { apply find_None_of. intros l Hl. apply bool_decide_eq_false_2. intros E. destruct (qs_order _ S l Hl) as (r0 & Hr & Hu & _).
    destruct (Hfresh r0 Hr) as [Hne _]. congruence. }
  destruct qr as [id|]; [|by rewrite M4, Hn]. destruct M4 as [_ [(l & -> & E1 & E2 & _)|(l & _ & Hl & E)]].
  - rewrite find_app, Hn. cbn. rewrite bool_decide_eq_true_2 by done. cbn. by rewrite E1.
  - exfalso. destruct (qs_order _ S l Hl) as (r0 & Hr & _ & Hi). unfold saved_order in Hnone. apply last_None in Hnone.
    assert (r0 ∈ filter (λ r, ro_internal r = io_order q ∧ ro_merchant r = io_merchant q) (dk_orders s.1)) as Hin.
    { apply list_elem_of_filter. split; [|done]. split; [congruence|]. apply (Hfresh r0 Hr). congruence. }
    rewrite Hnone in Hin. by apply elem_of_nil in Hin.
Qed.

(** C30: a payment intent is made once: after a call for an order returned, and whatever
    intents are asked for afterwards, for this or other orders and merchants, with whatever
    answers of the gateway, and whatever becomes of the orders' statuses and the codes, any
    call for the same order and merchant with a positive amount returns the same order,
    amount, currency and QR code, without a request to the gateway and without a change.
    (The foreign keys of the links hold, an order belongs to one merchant, and the ids of
    new rows are new.) *)
Theorem intent_made_once now uuid q (s s1 s2 : state) i :
  create_intent_for_order create_order create_qr now uuid q s = (s1, Ok i) → qr_sound s.1 →
  (∀ r, r ∈ dk_orders s.1 → ro_uuid r ≠ uuid ∧ (ro_internal r = io_order q → ro_merchant r = io_merchant q)) →
  rtc (later (it_uuid i)) s1 s2 →
  ∀ now' uuid' q', io_merchant q' = io_merchant q → io_order q' = io_order q → 0 < amount_paise (io_amount q') →
  create_intent_for_order create_order create_qr now' uuid' q' s2 = (s2, Ok i).
Proof.
  intros Hcall S Hfresh Hrun now' uuid' q' Hm Ho Ha. destruct (intent_saved _ _ _ _ _ _ Hcall S Hfresh) as [S1 Hi1].
  assert (_fetch_existing_intent (io_merchant q) (io_order q) s2.1 = Some i) as Hi.
  { clear -S1 Hi1 Hrun. revert S1 Hi1. induction Hrun as [|a b c Hab _ IH]; intros S1 Hi1; [done|].
    destruct (later_saved _ _ _ _ _ Hab S1 Hi1) as [S2 Hi2]. by apply IH. }
  unfold create_intent_for_order. cbn zeta. rewrite (act_bind_Ok _ _ _ s2 ()).
  - rewrite (act_bind_Ok the_desk _ _ s2 s2.1) by done. by rewrite Hm, Ho, Hi.
  - unfold refuse, lift. by destruct (Z.leb_spec (amount_paise (io_amount q')) 0); [lia|].
Qed.
End Intents.

(** ** Static QR codes *)

Definition actives (merchant : string) (l : list static_qr) : list static_qr := filter (λ r, sq_merchant r = merchant ∧ sq_active r = true) l.
Definition one_active {L I} (d : desk L I) : Prop := ∀ merchant, (length (actives merchant (dk_static d)) <= 1)%nat.

Section Static.
Context {L : Type} `{LedgerApi L} {I W : Type}.
Context (create_qr : qr_call → W → W * res qr_reply) (close_qr : string → W → W * res ()).
Context (legal_name restaurant_name : string → option string).
Abbreviation state := (desk L I * W)%type.

Lemma actives_map (f : static_qr → static_qr) merchant l :
  (∀ x, sq_merchant (f x) = sq_merchant x ∧ (sq_active (f x) = true → sq_active x = true)) →
  (length (actives merchant (map f l)) <= length (actives merchant l))%nat.
Proof.
  intros Hf. unfold actives. induction l as [|x l IH]; [done|]. cbn [map]. rewrite !filter_cons. destruct (Hf x) as [Hm Ha].
  destruct (decide _) as [[H1 H2]|_]; [rewrite decide_True by (split; [congruence|auto]); cbn; lia|]. destruct (decide _); cbn; lia.
Qed.

Lemma no_active merchant (d : desk L I) : _fetch_active_row merchant d = None → actives merchant (dk_static d) = [].
Proof.
  intros Hnone. unfold actives.
  destruct (filter _ _) as [|r l] eqn:E; [done|]. assert (r ∈ r :: l) as Hr by left. rewrite <-E in Hr.
  apply list_elem_of_filter in Hr as [[H1 H2] Hin]. unfold _fetch_active_row in Hnone. eapply find_none in Hnone; [|by apply list_elem_of_In].
  by rewrite H1, H2, bool_decide_eq_true_2 in Hnone.
Qed.

Lemma store_static_one r (d d' : desk L I) x : store_static r d = Ok (d', x) → one_active d → one_active d'.
Proof.
  unfold store_static. intros Hs Hone merchant. destruct (find _ (dk_static d)) as [old|] eqn:Ef.
  - injection Hs as <- _. cbn [dk_static with_static]. etransitivity; [|apply (Hone merchant)].
    apply actives_map. intros x'. by destruct (bool_decide _).
  - destruct (_fetch_active_row (sq_merchant r) d) eqn:Ea; [done|]. injection Hs as <- _. cbn [dk_static with_static].
    unfold actives. rewrite filter_app, filter_cons, filter_nil, length_app. destruct (decide _) as [[<- _]|_].
    + fold (actives (sq_merchant r) (dk_static d)). by rewrite (no_active _ _ Ea).
    + specialize (Hone merchant). unfold actives in Hone. cbn. lia.
Qed.

Lemma close_row_one id (d : desk L I) : one_active d → one_active (close_row id d).
Proof.
  intros Hone merchant. etransitivity; [|apply (Hone merchant)]. apply actives_map. intros x. by destruct (bool_decide _).
Qed.

Definition keeps_one (s s' : state) : Prop := one_active s.1 → one_active s'.1.
#[local] Instance keeps_one_po : PreOrder keeps_one.
Proof. split; unfold keeps_one; [by intros s|]. intros a b c H1 H2 Ha. auto. Qed.

Lemma call_one {A} (f : W → W * res A) : keeps keeps_one (call f).
Proof. intros [d w] Hone. unfold call. cbn in *. by destruct (f w). Qed.
Lemma close_one id : keeps keeps_one (write (W := W) (close_row id)).
Proof. intros [d w]. exact (close_row_one id d). Qed.
#[local] Hint Resolve call_one close_one : desk.

Lemma create_one merchant fallback : keeps keeps_one (create_static_qr create_qr legal_name restaurant_name merchant fallback).
Proof.
  unfold create_static_qr. apply keeps_bind; [exact _|walk|intros d0]. case_match; [walk|]. apply keeps_bind; [exact _|walk|intros shown]. apply keeps_bind; [exact _|walk|intros reply].
  apply keeps_bind; [exact _|walk|intros u]. intros [d w] Hone. rewrite (act_bind_Ok the_desk _ _ (d, w) d) by done.
  destruct (store_static _ d) as [[d' x]|e] eqn:E; [|by rewrite (act_bind_Err _ _ _ (d, w) e)].
  rewrite (act_bind_Ok _ _ _ (d, w) (d', x)) by done. by eapply store_static_one.
Qed.
#[local] Hint Resolve create_one : desk.

Lemma regenerate_one merchant fallback : keeps keeps_one (regenerate_static_qr create_qr close_qr legal_name restaurant_name merchant fallback).
Proof. unfold regenerate_static_qr. walk. Qed.
Lemma close_qr_one merchant : keeps keeps_one (close_static_qr close_qr merchant).
Proof. unfold close_static_qr. walk. Qed.

(** The operations on static codes, and what else happens to the tables around them. *)
Inductive static_step : state → state → Prop :=
  | Creates merchant fallback s : static_step s (create_static_qr create_qr legal_name restaurant_name merchant fallback s).1
  | Regenerates merchant fallback s : static_step s (regenerate_static_qr create_qr close_qr legal_name restaurant_name merchant fallback s).1
  | Closes merchant s : static_step s (close_static_qr close_qr merchant s).1
  | Around d d' w w' : dk_static d' = dk_static d → static_step (d, w) (d', w').

(** C31: through any sequence of creating, regenerating and closing static QR codes, whatever
    the gateway answers and even when a call stops half way, a merchant has at most one
    active code. *)
Theorem one_static_qr (s s' : state) : rtc static_step s s' → one_active s.1 → one_active s'.1.
Proof.
  induction 1 as [s|s1 s2 s3 Hstep _ IH]; [done|]. intros Hone. apply IH. revert Hone. clear IH.
  destruct Hstep as [merchant fallback s|merchant fallback s|merchant s|d d' w w' E].
  - apply (create_one merchant fallback s).
  - apply regenerate_one.
  - apply close_qr_one.
  - intros Hone merchant. cbn. rewrite E. apply Hone.
Qed.
End Static.

(** ** Examples *)

Definition order_gateway (c : order_call) (n : nat) : nat * res order_reply := (S n, Ok {| or_id := "order_" ++ int_text (Z.of_nat n); or_due := None |}%string).
Definition demo_qr_gateway (c : qr_call) (n : nat) : nat * res qr_reply := (S n, Ok {| qp_id := Some ("qr_" ++ int_text (Z.of_nat n)); qp_amount := None |}%string).
Definition new_desk : desk0 := with_orders [] (with_columns ∅ (desk_of (demo_payment "p1" "pending") [])).
Definition intent_for (rupees : Z) : intent_order := {|
  io_merchant := "m1"; io_branch := None; io_order := "o1"; io_payment := "p1"; io_amount := d_int rupees; io_currency := "INR";
  io_receipt := None; io_customer_name := None; io_create_qr := true; io_qr_ttl_seconds := DEFAULT_QR_TTL_SECONDS |}.
Definition first_intent : intent := {| it_order := "order_0"; it_uuid := "r1"; it_amount := 10000; it_currency := "INR"; it_qr := Some "qr_1"%string |}.
Definition after_intent : desk0 := (create_intent_for_order order_gateway demo_qr_gateway 5 "r1" (intent_for 100) (new_desk, O)).1.1.

(** The same merchant's next order has its intent; the first one grew to 150 rupees, and its
    intent is still for 100, and nobody is told. *)
Definition other_intent : desk0 * nat :=
  (create_intent_for_order order_gateway demo_qr_gateway 7 "r2" {|
    io_merchant := "m1"; io_branch := None; io_order := "o2"; io_payment := "p2"; io_amount := d_int 30; io_currency := "INR";
    io_receipt := None; io_customer_name := None; io_create_qr := true; io_qr_ttl_seconds := DEFAULT_QR_TTL_SECONDS |} (after_intent, 2%nat)).1.
Example both_intents : map ro_internal (dk_orders other_intent.1) = ["o1"; "o2"]%string ∧ map ql_qr (dk_links other_intent.1) = ["qr_1"; "qr_3"]%string.
Proof. vm_compute. by split. Qed.

Lemma intent_made_once_witness :
  create_intent_for_order order_gateway demo_qr_gateway 9 "r3" (intent_for 150) other_intent = (other_intent, Ok first_intent).
Proof.
  apply (intent_made_once order_gateway demo_qr_gateway 5 "r1" (intent_for 100) (new_desk, O) (after_intent, 2%nat) other_intent first_intent).
  - vm_compute. reflexivity.
  - split; intros l Hl; inversion Hl.
  - intros r Hr. inversion Hr.
  - apply rtc_once. apply Intends. discriminate.
  - reflexivity.
  - reflexivity.
  - vm_compute. reflexivity.
Defined.

(** The client answers a repeated request from its store of idempotent calls. *)
Definition replaying (c : qr_call) (w : gmap string string) : gmap string string * res qr_reply :=
  match w !! qc_key c with
  | Some id => (w, Ok {| qp_id := Some id; qp_amount := None |})
  | None => let id := ("qr_" ++ int_text (Z.of_nat (size w)))%string in (<[qc_key c := id]> w, Ok {| qp_id := Some id; qp_amount := None |})
  end.
Definition closes (_ : string) (w : gmap string string) : gmap string string * res () := (w, Ok ()).
Definition cafe_name (m : string) : option string := Some "Cafe"%string.
Definition made : desk0 * gmap string string := (create_static_qr replaying cafe_name cafe_name "m1" None (new_desk, ∅)).1.
Definition remade := regenerate_static_qr replaying closes cafe_name cafe_name "m1" None made.

Lemma one_static_qr_witness : one_active remade.1.1.
Proof.
  apply (one_static_qr replaying closes cafe_name cafe_name (new_desk, ∅) remade.1).
  - eapply (rtc_l _ _ made); [exact (Creates _ _ _ _ "m1" None (new_desk, ∅))|]. apply rtc_once. exact (Regenerates _ _ _ _ "m1" None made).
  - intros merchant. vm_compute. lia.
Defined.

(** Regenerating repeats the request's key, so it returns the code it has just closed. *)
Example regenerated_code_is_closed :
  (match remade.2 with Ok r => Some (sq_id r, sq_active r) | Err _ => None end) = Some ("qr_0"%string, false) ∧
  _fetch_active_row "m1" made.1 ≠ None ∧ _fetch_active_row "m1" remade.1.1 = None.
Proof. vm_compute. split; [reflexivity|]. split; [discriminate|reflexivity]. Qed.
