(* ===== verification/Inventory.v ===== *)
(** Inventory, the stock ledger: [src/app/services/inventory_event_service.py] and
    [inventory_write.py], with the tables and functions of migrations 001, 006, 035 and 083
    and the stock half of [erp_event_handlers.py].

    Every movement of stock appends a row to [ledger] and, in the same transaction, moves
    the mirror on the ingredient ([i_current_stock]) and the batch it came from.  Quantities
    of the tables are NUMERIC(12,3) or (14,3), kept here in thousandths; the service
    computes with decimals and hands them to the driver as floats, so a stored quantity is
    [numeric 12 3 (float_param d)] of a decimal [d].  Texts that only describe a movement (notes, metadata,
    created_by) are left out. *)

From Stdlib Require Import ZArith Lia Ascii String.
From stdpp Require Import sorting.
From S2P Require Import Prelude PyDecimal PyFloat PyValues.
Open Scope Z_scope.

(** ** Tables *)

(** A NUMERIC(p,s) column, in units of 10^-s. *)
Definition numeric (p s : Z) (d : decimal) : res Z :=
  let n := rescale ROUND_HALF_UP (- s) d in
  if Z.abs n <? 10 ^ p then Ok n else Err (DatabaseError "numeric field overflow").
(** The driver encodes a float parameter as its exact decimal value. *)
Definition float_param (d : decimal) : decimal := exact_decimal (of_decimal d).
Definition milli (n : Z) : decimal := Dec n (-3).

Inductive txn_type :=
  | Opening | Purchase | Consumption | AdjustmentIn | AdjustmentOut | Wastage | Expired | TransferIn | TransferOut
  | ReturnToVendor | Return | RestockCancelledOrder | Recount | ConversionIn | ConversionOut | SaleOut.
#[export] Instance txn_type_eq_dec : EqDecision txn_type.
Proof. solve_decision. Defined.

(** The event types of [core/events.py] the service publishes. *)
Inductive inventory_event :=
  | INVENTORY_PURCHASED | INVENTORY_CONSUMED | INVENTORY_WASTED | INVENTORY_EXPIRED | INVENTORY_TRANSFERRED_OUT
  | INVENTORY_TRANSFERRED_IN | INVENTORY_ADJUSTED | INVENTORY_RECOUNTED | INVENTORY_RETURN_TO_VENDOR
  | INVENTORY_RESTOCK_CANCELLED | INVENTORY_CONVERTED_IN | INVENTORY_CONVERTED_OUT | INVENTORY_SOLD
  | INVENTORY_LOW_STOCK | INVENTORY_ALERT_RAISED.
#[export] Instance inventory_event_eq_dec : EqDecision inventory_event.
Proof. solve_decision. Defined.

Definition EVENT_TO_LEDGER (e : inventory_event) : option txn_type :=
  match e with
  | INVENTORY_PURCHASED => Some Purchase
  | INVENTORY_CONSUMED => Some Consumption
  | INVENTORY_WASTED => Some Wastage
  | INVENTORY_EXPIRED => Some Expired
  | INVENTORY_TRANSFERRED_OUT => Some TransferOut
  | INVENTORY_TRANSFERRED_IN => Some TransferIn
  | INVENTORY_ADJUSTED => Some AdjustmentIn
  | INVENTORY_RECOUNTED => Some Recount
  | INVENTORY_RETURN_TO_VENDOR => Some ReturnToVendor
  | INVENTORY_RESTOCK_CANCELLED => Some RestockCancelledOrder
  | INVENTORY_CONVERTED_IN => Some ConversionIn
  | INVENTORY_CONVERTED_OUT => Some ConversionOut
  | INVENTORY_SOLD => Some SaleOut
  | INVENTORY_LOW_STOCK | INVENTORY_ALERT_RAISED => None
  end.

(** A deduplication key: the f-string that makes it, with its holes.  The holes are ids and
    a printed number, none of which holds a colon, so distinct keys have distinct texts. *)
Inductive dedup_key :=
  | KOrder (order ingredient : string) (batch : option Z)
  | KReversal (event : Z)
  | KSale (sale : Z) (ingredient : string)
  | KConversionOut (run : Z) (ingredient : string)
  | KConversionIn (run : Z)
  | KTransferOut (transfer : Z) (ingredient : string)
  | KTransferIn (transfer : Z) (ingredient : string) (target : decimal)
  | KCount (count : Z) (ingredient : string)
  | KPurchase (order line : Z) (target : decimal)
  | KOpening (ingredient : string).
#[export] Instance dedup_key_eq_dec : EqDecision dedup_key.
Proof. solve_decision. Defined.

(** What a movement was made for: [reference_type] with [reference_id].  Sales, runs,
    transfers and counts are named by their position, as [correlation_id] too. *)
Inductive reference :=
  | ROrder (order : string) | RSale (sale : Z) | RConversion (run : Z) | RTransfer (transfer : Z) | RCount (count : Z)
  | RPurchaseOrder (order : Z) | RIngredient (ingredient : string) | RAdjustment | RWastage | RManual
  | RGrn (grn : Z) | RErpTransfer (transfer : Z).
#[export] Instance reference_eq_dec : EqDecision reference.
Proof. solve_decision. Defined.

Record ledger_row := {
  l_restaurant : string;
  l_branch : option string;
  l_ingredient : string;
  l_type : txn_type;
  l_in : Z;
  l_out : Z;
  l_cost : Z;
  l_reference : reference;
  l_dedup : option dedup_key;
  l_correlation : option reference;
  l_batch : option Z;
  l_source : string;
  l_reversed_by : option Z;
  l_reverses : option Z;
  l_at : Z
}.

Record ingredient := {
  i_user : string;
  i_restaurant : option string;
  i_name : string;
  i_unit : option string;
  i_current_stock : Z;
  i_stock_quantity : Z;
  i_minimum_stock : option Z;
  i_reorder_point : option Z;
  i_cost_per_unit : option Z;
  i_track_batches : bool;
  i_active : bool;
  i_deleted : bool
}.

Inductive batch_status := BActive | BDepleted | BExpired | BQuarantined | BRecalled.
#[export] Instance batch_status_eq_dec : EqDecision batch_status.
Proof. solve_decision. Defined.

Record batch := {
  b_restaurant : string;
  b_branch : option string;
  b_ingredient : string;
  b_number : string;
  b_received : Z;
  b_remaining : Z;
  b_unit : option string;
  b_cost : Z;
  b_received_date : Z;
  b_expiry : option Z;
  b_status : batch_status
}.

Record unit_conversion := {
  u_restaurant : option string;
  u_ingredient : option string;
  u_from : string;
  u_to : string;
  u_factor : Z;
  u_active : bool
}.

Record recipe_line := { rl_ingredient : string; rl_quantity : Z; rl_unit : option string; rl_waste : option Z }.
Record recipe := { rc_restaurant : string; rc_item : Z; rc_yield : Z; rc_active : bool; rc_lines : list recipe_line }.
Record item_ingredient := { ii_item : Z; ii_ingredient : string; ii_quantity : Z; ii_unit : option string }.

Inductive alert_status := AOpen | AAcknowledged | AResolved | ASuppressed.
Inductive alert_type := ALowStock | AOutOfStock | AOtherAlert.
#[export] Instance alert_status_eq_dec : EqDecision alert_status.
Proof. solve_decision. Defined.
#[export] Instance alert_type_eq_dec : EqDecision alert_type.
Proof. solve_decision. Defined.
Record alert := {
  al_restaurant : string;
  al_branch : option string;
  al_ingredient : option string;
  al_type : alert_type;
  al_current : Z;
  al_threshold : Z;
  al_status : alert_status
}.

(** What the bus receives after the commit. *)
Record stock_event := {
  se_type : inventory_event;
  se_event_id : Z;
  se_ingredient : string;
  se_branch : option string;
  se_in : float64;
  se_out : float64;
  se_cost : float64;
  se_batch : option Z
}.

Record stock_db := {
  ingredients : gmap string ingredient;
  ledger : list ledger_row;
  batches : list batch;
  unit_conversions : list unit_conversion;
  recipes : list recipe;
  item_ingredients : list item_ingredient;
  sub_branches : list (string * string);
  alerts : list alert;
  published : list stock_event
}.

Definition with_ingredients (f : gmap string ingredient → gmap string ingredient) (db : stock_db) : stock_db :=
  {| ingredients := f (ingredients db); ledger := ledger db; batches := batches db;
     unit_conversions := unit_conversions db; recipes := recipes db; item_ingredients := item_ingredients db;
     sub_branches := sub_branches db; alerts := alerts db; published := published db |}.
Definition with_ledger (f : list ledger_row → list ledger_row) (db : stock_db) : stock_db :=
  {| ingredients := ingredients db; ledger := f (ledger db); batches := batches db;
     unit_conversions := unit_conversions db; recipes := recipes db; item_ingredients := item_ingredients db;
     sub_branches := sub_branches db; alerts := alerts db; published := published db |}.
Definition with_batches (f : list batch → list batch) (db : stock_db) : stock_db :=
  {| ingredients := ingredients db; ledger := ledger db; batches := f (batches db);
     unit_conversions := unit_conversions db; recipes := recipes db; item_ingredients := item_ingredients db;
     sub_branches := sub_branches db; alerts := alerts db; published := published db |}.
Definition with_alerts (f : list alert → list alert) (db : stock_db) : stock_db :=
  {| ingredients := ingredients db; ledger := ledger db; batches := batches db;
     unit_conversions := unit_conversions db; recipes := recipes db; item_ingredients := item_ingredients db;
     sub_branches := sub_branches db; alerts := f (alerts db); published := published db |}.
Definition with_published (f : list stock_event → list stock_event) (db : stock_db) : stock_db :=
  {| ingredients := ingredients db; ledger := ledger db; batches := batches db;
     unit_conversions := unit_conversions db; recipes := recipes db; item_ingredients := item_ingredients db;
     sub_branches := sub_branches db; alerts := alerts db; published := f (published db) |}.

Definition with_conversions (rows : list unit_conversion) (db : stock_db) : stock_db :=
  {| ingredients := ingredients db; ledger := ledger db; batches := batches db;
     unit_conversions := rows; recipes := recipes db; item_ingredients := item_ingredients db;
     sub_branches := sub_branches db; alerts := alerts db; published := published db |}.

(** [restaurant_id = $1::uuid]: a NULL parameter matches nothing. *)
Definition is_id (x : option string) (s : string) : bool := bool_decide (x = Some s).
Definition same_id (x y : option string) : bool := match x, y with Some a, Some b => bool_decide (a = b) | _, _ => false end.

(** [SELECT ... FROM ingredients WHERE id=$1 AND restaurant_id=$2::uuid] *)
Definition owned_ingredient (db : stock_db) (restaurant : option string) (id : string) : option ingredient :=
  i ← ingredients db !! id; if same_id (i_restaurant i) restaurant then Some i else None.
Definition get_ingredient (db : stock_db) (restaurant : option string) (id : string) : res ingredient :=
  match owned_ingredient db restaurant id with Some i => Ok i | None => Err (NotFoundError "ingredient") end.

(** ** Balances *)

Definition counts_for (ingredient_id : string) (branch_id : option string) (as_of : option Z) (r : ledger_row) : bool :=
  bool_decide (l_ingredient r = ingredient_id)
  && match branch_id with None => true | Some b => bool_decide (l_branch r = Some b) end
  && match as_of with None => true | Some t => l_at r <=? t end.
Definition moved (r : ledger_row) : Z := l_in r - l_out r.
Definition fn_inventory_balance (db : stock_db) (ingredient_id : string) (branch_id : option string) (as_of : option Z) : Z :=
  sum_where (counts_for ingredient_id branch_id as_of) moved (ledger db).
Definition get_balance (db : stock_db) (ingredient_id : string) (branch_id : option string) (as_of : option Z) : decimal :=
  milli (fn_inventory_balance db ingredient_id branch_id as_of).

(** ** Units *)

Definition unit_aliases : list (string * string) :=
  [("grams", "g"); ("gram", "g"); ("kilogram", "kg"); ("kilograms", "kg");
   ("litre", "l"); ("liter", "l"); ("litres", "l"); ("liters", "l");
   ("piece", "pcs"); ("pieces", "pcs"); ("pc", "pcs")]%string.
Definition assoc {A} (key : string) (l : list (string * A)) : option A :=
  snd <$> find (λ p, bool_decide (p.1 = key)) l.
Definition unit_name (u : option string) : string :=
  let n := lower (strip (str_or u "")) in default n (assoc n unit_aliases).

Inductive dimension := Mass | Volume.
#[export] Instance dimension_eq_dec : EqDecision dimension.
Proof. solve_decision. Defined.
Definition metric_units : list (string * (dimension * decimal)) :=
  [("mg", (Mass, Dec 1 (-3))); ("g", (Mass, Dec 1 0)); ("kg", (Mass, Dec 1000 0));
   ("ml", (Volume, Dec 1 0)); ("l", (Volume, Dec 1000 0))]%string.

(** The row of [unit_conversions] the query picks: a restaurant's own before the global
    ones, an ingredient's own before the general ones, the direction asked for before its
    inverse, then the lowest id.  The list is in the order of the ids, which are random. *)
Definition conversion_matches (restaurant : option string) (ingredient_id source target : string) (u : unit_conversion) : bool :=
  u_active u
  && (same_id (u_restaurant u) restaurant || bool_decide (u_restaurant u = None))
  && (is_id (u_ingredient u) ingredient_id || bool_decide (u_ingredient u = None))
  && (bool_decide (lower (u_from u) = source ∧ lower (u_to u) = target)
      || bool_decide (lower (u_from u) = target ∧ lower (u_to u) = source)).
Definition conversion_rank (source : string) (u : unit_conversion) : Z :=
  (if bool_decide (u_restaurant u = None) then 4 else 0) + (if bool_decide (u_ingredient u = None) then 2 else 0)
  + (if bool_decide (lower (u_from u) = source) then 0 else 1).
Definition pick_conversion (db : stock_db) (restaurant : option string) (ingredient_id source target : string) : option unit_conversion :=
  let rows := List.filter (conversion_matches restaurant ingredient_id source target) (unit_conversions db) in
  head (flat_map (λ k, List.filter (λ u, conversion_rank source u =? k) rows) [0; 1; 2; 3; 4; 5; 6; 7]).

Definition unit_factor (db : stock_db) (restaurant : option string) (ingredient_id : string) (from_unit to_unit : option string) : res decimal :=
  let source := unit_name (Some (str_or from_unit (str_or to_unit ""))) in
  let target := unit_name to_unit in
  if bool_decide (source = target) then Ok (d_int 1)
  else
    _ ← raise_if (bool_decide (source = ""%string) || bool_decide (target = ""%string))
          (ValidationError "both source and stock units are required");
    match pick_conversion db restaurant ingredient_id source target with
    | Some u =>
        let factor := Dec (u_factor u) (-8) in
        _ ← raise_if (dleb factor d_zero) (ValidationError "unit conversion factor must be positive");
        if bool_decide (lower (u_from u) = source) then Ok factor else ddiv (d_int 1) factor
    | None =>
        match assoc source metric_units, assoc target metric_units with
        | Some (ds, s), Some (dt, t) =>
            if bool_decide (ds = dt) then ddiv s t else Err (ValidationError "no unit conversion from")
        | _, _ => Err (ValidationError "no unit conversion from")
        end
    end.

(** ** Appending a movement *)

Record stock_request := {
  rq_restaurant : option string;
  rq_branch : option string;
  rq_ingredient : string;
  rq_event : inventory_event;
  rq_in : decimal;
  rq_out : decimal;
  rq_cost : decimal;
  rq_reference : reference;
  rq_dedup : option dedup_key;
  rq_correlation : option reference;
  rq_batch : option Z;
  rq_source : string;
  rq_ledger_type : option txn_type;
  rq_mirror : bool
}.

(** The existing event of a key; [event_id]s are positions in the ledger. *)
Definition find_dedup (db : stock_db) (restaurant : option string) (key : option dedup_key) : option Z :=
  k ← key;
  p ← list_find (λ r, same_id (Some (l_restaurant r)) restaurant = true ∧ l_dedup r = Some k) (ledger db);
  Some (Z.of_nat p.1).

Definition branch_exists (db : stock_db) (branch : option string) : bool :=
  match branch with None => true | Some b => existsb (λ p, bool_decide (p.1 = b)) (sub_branches db) end.

(** [fn_inventory_append_event], with the column types and checks of the table. *)
Definition fn_inventory_append_event (db : stock_db) (now : Z) (rq : stock_request) (ltype : txn_type) : res (stock_db * Z) :=
  match find_dedup db (rq_restaurant rq) (rq_dedup rq) with
  | Some id => Ok (db, id)
  | None =>
      restaurant ← match rq_restaurant rq with Some r => Ok r | None => Err (DatabaseError "null value violates not-null constraint") end;
      q_in ← numeric 12 3 (float_param (rq_in rq));
      q_out ← numeric 12 3 (float_param (rq_out rq));
      cost ← numeric 10 2 (float_param (rq_cost rq));
      _ ← raise_if (negb ((0 <? q_in) || (0 <? q_out))) (DatabaseError "inventory_ledger_check");
      _ ← raise_if (negb (branch_exists db (rq_branch rq))) (DatabaseError "inventory_ledger_branch_id_fkey");
      let row := {| l_restaurant := restaurant; l_branch := rq_branch rq; l_ingredient := rq_ingredient rq; l_type := ltype;
                    l_in := q_in; l_out := q_out; l_cost := cost; l_reference := rq_reference rq; l_dedup := rq_dedup rq;
                    l_correlation := rq_correlation rq; l_batch := rq_batch rq; l_source := rq_source rq;
                    l_reversed_by := None; l_reverses := None; l_at := now |} in
      Ok (with_ledger (λ l, l ++ [row]) db, Z.of_nat (length (ledger db)))
  end.

(** [UPDATE ingredients SET current_stock = COALESCE(current_stock, 0) + $1, ...] *)
Definition add_stock (delta : decimal) (i : ingredient) : res ingredient :=
  current ← numeric 12 3 (numeric_add (milli (i_current_stock i)) (float_param delta));
  quantity ← numeric 12 3 (numeric_add (milli (i_stock_quantity i)) (float_param delta));
  Ok {| i_user := i_user i; i_restaurant := i_restaurant i; i_name := i_name i; i_unit := i_unit i; i_current_stock := current;
        i_stock_quantity := quantity; i_minimum_stock := i_minimum_stock i; i_reorder_point := i_reorder_point i;
        i_cost_per_unit := i_cost_per_unit i; i_track_batches := i_track_batches i; i_active := i_active i;
        i_deleted := i_deleted i |}.

Definition mirror_stock (db : stock_db) (id : string) (delta : decimal) : res stock_db :=
  match ingredients db !! id with
  | None => Ok db
  | Some i => i' ← add_stock delta i; Ok (with_ingredients (<[id := i']>) db)
  end.

(** The batch the movement names: it must be this ingredient's in this branch and must not
    go below zero. *)
Definition move_batch (db : stock_db) (rq : stock_request) (delta : decimal) (id : Z) : res stock_db :=
  let refused := Err (InventoryError "batch not found in this branch or insufficient batch stock") in
  if id <? 0 then refused
  else match batches db !! Z.to_nat id with
  | None => refused
  | Some b =>
      let after := numeric_add (milli (b_remaining b)) delta in
      if bool_decide (b_ingredient b = rq_ingredient rq) && is_id (rq_restaurant rq) (b_restaurant b)
         && bool_decide (b_branch b = rq_branch rq) && dleb d_zero after
      then
        remaining ← numeric 14 3 after;
        let status := if deqb after d_zero then BDepleted
                      else if bool_decide (b_status b = BDepleted) then BActive else b_status b in
        let b' := {| b_restaurant := b_restaurant b; b_branch := b_branch b; b_ingredient := b_ingredient b;
                     b_number := b_number b; b_received := b_received b; b_remaining := remaining; b_unit := b_unit b;
                     b_cost := b_cost b; b_received_date := b_received_date b; b_expiry := b_expiry b; b_status := status |} in
        Ok (with_batches (<[Z.to_nat id := b']>) db)
      else refused
  end.

(** [append_event] inside a transaction; a finite quantity is assumed of the caller, which
    passes a parsed decimal. *)
Definition append_event (now : Z) (rq : stock_request) (db : stock_db) : res (stock_db * Z) :=
  _ ← raise_if (dltb (rq_in rq) d_zero || dltb (rq_out rq) d_zero) (ValidationError "inventory quantities must be finite and non-negative");
  _ ← raise_if (dpos (rq_in rq) && dpos (rq_out rq)) (ValidationError "an inventory event must have only one direction");
  _ ← raise_if (deqb (rq_in rq) d_zero && deqb (rq_out rq) d_zero) (ValidationError "inventory event requires non-zero quantity");
  match (match rq_ledger_type rq with Some t => Some t | None => EVENT_TO_LEDGER (rq_event rq) end) with
  | None => Err (ValidationError "unknown inventory event_type")
  | Some ltype =>
      _ ← get_ingredient db (rq_restaurant rq) (rq_ingredient rq);
      match find_dedup db (rq_restaurant rq) (rq_dedup rq) with
      | Some id => Ok (db, id)
      | None =>
          '(db, id) ← fn_inventory_append_event db now rq ltype;
          let delta := dsub (rq_in rq) (rq_out rq) in
          db ← (if negb (deqb delta d_zero) && rq_mirror rq then mirror_stock db (rq_ingredient rq) delta else Ok db);
          db ← match rq_batch rq with None => Ok db | Some b => move_batch db rq delta b end;
          let event := {| se_type := rq_event rq; se_event_id := id; se_ingredient := rq_ingredient rq; se_branch := rq_branch rq;
                          se_in := of_decimal (rq_in rq); se_out := of_decimal (rq_out rq); se_cost := of_decimal (rq_cost rq);
                          se_batch := rq_batch rq |} in
          Ok (with_published (λ l, l ++ [event]) db, id)
      end
  end.

Definition set_reverses (id : Z) (r : ledger_row) : ledger_row :=
  {| l_restaurant := l_restaurant r; l_branch := l_branch r; l_ingredient := l_ingredient r; l_type := l_type r;
     l_in := l_in r; l_out := l_out r; l_cost := l_cost r; l_reference := l_reference r; l_dedup := l_dedup r;
     l_correlation := l_correlation r; l_batch := l_batch r; l_source := l_source r; l_reversed_by := l_reversed_by r;
     l_reverses := Some id; l_at := l_at r |}.
Definition set_reversed_by (id : Z) (r : ledger_row) : ledger_row :=
  {| l_restaurant := l_restaurant r; l_branch := l_branch r; l_ingredient := l_ingredient r; l_type := l_type r;
     l_in := l_in r; l_out := l_out r; l_cost := l_cost r; l_reference := l_reference r; l_dedup := l_dedup r;
     l_correlation := l_correlation r; l_batch := l_batch r; l_source := l_source r; l_reversed_by := Some id;
     l_reverses := l_reverses r; l_at := l_at r |}.
Definition event_at (db : stock_db) (id : Z) : option ledger_row := if id <? 0 then None else ledger db !! Z.to_nat id.

(** The movement that undoes a row. *)
Definition reversal_request (reversal : inventory_event) (id : Z) (o : ledger_row) : stock_request :=
  {| rq_restaurant := Some (l_restaurant o); rq_branch := l_branch o; rq_ingredient := l_ingredient o; rq_event := reversal;
     rq_in := milli (l_out o); rq_out := milli (l_in o); rq_cost := Dec (l_cost o) (-2); rq_reference := l_reference o;
     rq_dedup := Some (KReversal id); rq_correlation := l_correlation o; rq_batch := l_batch o;
     rq_source := "reversal"; rq_ledger_type := None; rq_mirror := true |}.

Definition reverse_event (now : Z) (original_event_id : Z) (reversal : inventory_event) (db : stock_db) : res (stock_db * Z) :=
  match event_at db original_event_id with
  | None => Err (NotFoundError "inventory_event")
  | Some o =>
      match l_reversed_by o with
      | Some id => Ok (db, id)
      | None =>
          '(db, new_id) ← append_event now (reversal_request reversal original_event_id o) db;
          let db := with_ledger (alter (set_reverses original_event_id) (Z.to_nat new_id)) db in
          Ok (with_ledger (alter (set_reversed_by new_id) (Z.to_nat original_event_id)) db, new_id)
      end
  end.

(** ** Consumption of an order *)

(** [_resolve_recipe] *)
Record consumption := { cn_ingredient : string; cn_per_unit : decimal; cn_unit : option string }.

Definition recipe_line_need (yield : Z) (l : recipe_line) : res consumption :=
  waste ← ddiv (Dec (default 0 (rl_waste l)) (-2)) (d_int 100);
  per ← ddiv (dmul (milli (rl_quantity l)) (dadd (d_int 1) waste)) (if yield =? 0 then d_int 1 else milli yield);
  Ok {| cn_ingredient := rl_ingredient l; cn_per_unit := per; cn_unit := rl_unit l |}.

Definition _resolve_recipe (db : stock_db) (restaurant_id : option string) (item_id : Z) : res (list consumption) :=
  let legacy := map (λ ii, {| cn_ingredient := ii_ingredient ii; cn_per_unit := milli (ii_quantity ii); cn_unit := ii_unit ii |})
                    (List.filter (λ ii, ii_item ii =? item_id) (item_ingredients db)) in
  if str_truthy restaurant_id then
    let rows := flat_map (λ r, map (pair (rc_yield r)) (rc_lines r))
                  (List.filter (λ r, is_id restaurant_id (rc_restaurant r) && (rc_item r =? item_id) && rc_active r) (recipes db)) in
    match rows with [] => Ok legacy | _ => res_map (λ p, recipe_line_need p.1 p.2) rows end
  else Ok legacy.

Record order_item := { oi_item : option Z; oi_quantity : decimal }.

(** The lines of an order: each recipe line with the amount the order needs, in the
    recipe's unit. *)
Definition order_lines (db : stock_db) (restaurant : option string) (items : list order_item) : res (list (consumption * decimal)) :=
  ls ← res_map (λ oi,
         _ ← raise_if (dleb (oi_quantity oi) d_zero) (ValidationError "order quantities must be positive");
         match oi_item oi with
         | None => Ok []
         | Some i => if i =? 0 then Ok [] else
             r ← _resolve_recipe db restaurant i;
             Ok (map (λ c, (c, dmul (cn_per_unit c) (oi_quantity oi))) r)
         end) items;
  Ok (concat ls).

(** [sorted({...})] *)
Fixpoint insert_name (x : string) (l : list string) : list string :=
  match l with
  | [] => [x]
  | y :: l' => if decide (x = y) then l else if string_ltb x y then x :: l else y :: insert_name x l'
  end.
Definition sorted_names (l : list string) : list string := foldr insert_name [] l.

(** What each ingredient loses, in its stock unit. *)
Definition add_need (db : stock_db) (restaurant : option string) (metas : gmap string ingredient) (required : gmap string decimal)
    (l : consumption * decimal) : res (gmap string decimal) :=
  let id := cn_ingredient l.1 in
  match metas !! id with
  | None => Err (NotFoundError "ingredient")
  | Some meta =>
      factor ← unit_factor db restaurant id (cn_unit l.1) (i_unit meta);
      let need := dmul l.2 factor in
      _ ← raise_if (dleb need d_zero) (ValidationError "recipe quantities must be positive");
      Ok (<[id := dadd (default d_zero (required !! id)) need]> required)
  end.

(** *** Batches, first expired first out *)

(** [ORDER BY expiry_date ASC NULLS LAST, received_date, id]; the ids are random, so their
    order among batches received on a day is any, here the one of the list. *)
Definition expiry_key (b : batch) : Z * Z := match b_expiry b with Some d => (0, d) | None => (1, 0) end.
Definition fefo_key (p : Z * batch) : list Z :=
  [(expiry_key p.2).1; (expiry_key p.2).2; b_received_date p.2; p.1].
Fixpoint lex_leb (a b : list Z) : bool :=
  match a, b with x :: a', y :: b' => (x <? y) || ((x =? y) && lex_leb a' b') | _, _ => true end.
Definition fefo_before (p q : Z * batch) : Prop := lex_leb (fefo_key p) (fefo_key q) = true.
#[export] Instance fefo_before_dec p q : Decision (fefo_before p q).
Proof. unfold fefo_before. apply _. Defined.

Definition usable_batch (restaurant : option string) (branch : option string) (ingredient_id : string) (today : Z) (b : batch) : bool :=
  is_id restaurant (b_restaurant b) && bool_decide (b_ingredient b = ingredient_id) && bool_decide (b_branch b = branch)
  && bool_decide (b_status b = BActive) && (0 <? b_remaining b)
  && match b_expiry b with None => true | Some d => today <=? d end.
Definition numbered {A} (l : list A) : list (Z * A) := imap (λ i x, (Z.of_nat i, x)) l.
Definition fefo_batches (db : stock_db) (restaurant branch : option string) (ingredient_id : string) (today : Z) : list (Z * batch) :=
  merge_sort fefo_before (List.filter (λ p, usable_batch restaurant branch ingredient_id today p.2) (numbered (batches db))).

(** The loop over the batches: what is taken of each, and what is still missing. *)
Fixpoint take_batches (db : stock_db) (restaurant : option string) (ingredient_id : string) (unit : option string)
    (remaining : decimal) (bs : list (Z * batch)) : res (list (option Z * decimal * decimal) * decimal) :=
  match bs with
  | [] => Ok ([], remaining)
  | (id, b) :: bs' =>
      if dleb remaining d_zero then Ok ([], remaining)
      else
        factor ← unit_factor db restaurant ingredient_id (b_unit b) unit;
        _ ← raise_if (negb (deqb factor (d_int 1))) (ValidationError "batch unit must match ingredient stock unit");
        let available := milli (b_remaining b) in
        let take := if dltb available remaining then available else remaining in
        '(rest, missing) ← take_batches db restaurant ingredient_id unit (dsub remaining take) bs';
        Ok ((Some id, take, Dec (b_cost b) (-4)) :: rest, missing)
  end.

Definition allocations (db : stock_db) (restaurant branch : option string) (ingredient_id : string) (meta : ingredient) (need : decimal)
    (today : Z) : res (list (option Z * decimal * decimal)) :=
  if i_track_batches meta then
    '(takes, missing) ← take_batches db restaurant ingredient_id (i_unit meta) need (fefo_batches db restaurant branch ingredient_id today);
    _ ← raise_if (dpos missing) (InventoryError "insufficient unexpired batch stock");
    Ok takes
  else Ok [(None, need, Dec (default 0 (i_cost_per_unit meta)) (-2))].

(** *** One ingredient of the order *)

Record order_context := {
  oc_restaurant : option string;
  oc_branch : option string;
  oc_order : string;
  oc_allow_negative : bool;
  oc_mirror : bool;
  oc_now : Z;
  oc_today : Z
}.

Definition consume_request (c : order_context) (ingredient_id : string) (a : option Z * decimal * decimal) : stock_request :=
  {| rq_restaurant := oc_restaurant c; rq_branch := oc_branch c; rq_ingredient := ingredient_id; rq_event := INVENTORY_CONSUMED;
     rq_in := d_zero; rq_out := a.1.2; rq_cost := a.2; rq_reference := ROrder (oc_order c);
     rq_dedup := Some (KOrder (oc_order c) ingredient_id a.1.1); rq_correlation := Some (ROrder (oc_order c)); rq_batch := a.1.1;
     rq_source := "order"; rq_ledger_type := None; rq_mirror := oc_mirror c |}.

Fixpoint append_all (now : Z) (rqs : list stock_request) (db : stock_db) : res (stock_db * list Z) :=
  match rqs with
  | [] => Ok (db, [])
  | rq :: rqs' =>
      '(db, id) ← append_event now rq db;
      '(db, ids) ← append_all now rqs' db;
      Ok (db, id :: ids)
  end.

Record consumed := { cd_events : list Z; cd_ingredient : string; cd_need : decimal; cd_remaining : Z }.
Record low_stock := { lw_ingredient : string; lw_current : Z; lw_threshold : Z }.

Definition threshold (meta : ingredient) : Z := Z.max (default 0 (i_minimum_stock meta)) (default 0 (i_reorder_point meta)).

Definition consume_ingredient (c : order_context) (metas : gmap string ingredient) (required : gmap string decimal)
    (s : stock_db * list consumed * list low_stock) (id : string) : res (stock_db * list consumed * list low_stock) :=
  let '(db, done_, alerts_) := s in
  match required !! id, metas !! id with
  | Some need, Some meta =>
      let bal := fn_inventory_balance db id (oc_branch c) None in
      _ ← raise_if (dltb (milli bal) need && negb (oc_allow_negative c)) (InventoryError "insufficient stock for");
      takes ← allocations db (oc_restaurant c) (oc_branch c) id meta need (oc_today c);
      '(db, ids) ← append_all (oc_now c) (map (consume_request c id) takes) db;
      _ ← raise_if (bool_decide (ids = [])) (LookupError "list index out of range");
      let new_bal := fn_inventory_balance db id (oc_branch c) None in
      let alerts_ := if new_bal <=? threshold meta
                     then alerts_ ++ [{| lw_ingredient := id; lw_current := new_bal; lw_threshold := threshold meta |}] else alerts_ in
      Ok (db, done_ ++ [{| cd_events := ids; cd_ingredient := id; cd_need := need; cd_remaining := new_bal |}], alerts_)
  | _, _ => Err (KeyError id)
  end.

Definition order_row (restaurant : option string) (order : string) (r : ledger_row) : bool :=
  is_id restaurant (l_restaurant r) && bool_decide (l_reference r = ROrder order) && bool_decide (l_type r = Consumption).

(** [_raise_low_stock_alert], after the commit: one open alert per ingredient. *)
Definition raise_low_stock_alert (restaurant branch : option string) (db : stock_db) (a : low_stock) : stock_db :=
  match restaurant with
  | None => db
  | Some rid =>
      if bool_decide (rid = ""%string) then db
      else if existsb (λ x, bool_decide (al_restaurant x = rid) && is_id (al_ingredient x) (lw_ingredient a)
                            && negb (bool_decide (al_type x = AOtherAlert)) && bool_decide (al_status x = AOpen)) (alerts db) then db
      else with_alerts (λ l, l ++ [{| al_restaurant := rid; al_branch := branch; al_ingredient := Some (lw_ingredient a);
             al_type := if lw_current a <=? 0 then AOutOfStock else ALowStock; al_current := lw_current a;
             al_threshold := lw_threshold a; al_status := AOpen |}]) db
  end.

Inductive consume_result :=
  | AlreadyConsumed (events : list Z)
  | SkippedNoRecipe
  | Consumed (done_ : list consumed) (low : list low_stock).

Definition consume_for_order (c : order_context) (items : list order_item) (db : stock_db) : res (stock_db * consume_result) :=
  match List.filter (λ p, order_row (oc_restaurant c) (oc_order c) p.2) (numbered (ledger db)) with
  | (_ :: _) as existing => Ok (db, AlreadyConsumed (map fst existing))
  | [] =>
      lines ← order_lines db (oc_restaurant c) items;
      match lines with
      | [] => Ok (db, SkippedNoRecipe)
      | _ =>
          let ids := sorted_names (map (λ l, cn_ingredient l.1) lines) in
          let metas := filter (λ p, same_id (i_restaurant p.2) (oc_restaurant c) = true ∧ p.1 ∈ ids) (ingredients db) in
          required ← res_foldl (add_need db (oc_restaurant c) metas) ∅ lines;
          '(db, done_, low) ← res_foldl (consume_ingredient c metas required) (db, [], []) ids;
          Ok (foldl (raise_low_stock_alert (oc_restaurant c) (oc_branch c)) db low, Consumed done_ low)
      end
  end.

(** ** Giving an order's stock back *)

(** [restock_cancelled_order]: every reversal is a transaction of its own, so the ones
    before an exception stay. *)
Definition unreversed (p : Z * ledger_row) : bool := bool_decide (l_reversed_by p.2 = None).
Definition restock_originals (db : stock_db) (order_id : string) : list Z :=
  map fst (List.filter (λ p, bool_decide (l_correlation p.2 = Some (ROrder order_id)) && bool_decide (l_type p.2 = Consumption)
                             && unreversed p) (numbered (ledger db))).
Fixpoint reverse_all (now : Z) (ids : list Z) (db : stock_db) : stock_db * res (list Z) :=
  match ids with
  | [] => (db, Ok [])
  | id :: ids' =>
      match reverse_event now id INVENTORY_RESTOCK_CANCELLED db with
      | Err e => (db, Err e)
      | Ok (db', new_id) => let '(db'', r) := reverse_all now ids' db' in (db'', news ← r; Ok (new_id :: news))
      end
  end.
Definition restock_cancelled_order (now : Z) (order_id : string) (db : stock_db) : stock_db * res (list Z) :=
  reverse_all now (restock_originals db order_id) db.

(** The handler of a cancelled order ([_reverse_ledger_and_cogs], its stock half): a
    reversal that fails is logged and the next one tried. *)
Definition cancelled_entries (db : stock_db) (order_id : string) : list (Z * ledger_row) :=
  List.filter (λ p, bool_decide (l_reference p.2 = ROrder order_id) && bool_decide (l_type p.2 = Consumption) && unreversed p)
    (numbered (ledger db)).
Definition try_reverse (now : Z) (db : stock_db) (p : Z * ledger_row) : stock_db :=
  match reverse_event now p.1 INVENTORY_RESTOCK_CANCELLED db with Ok (db', _) => db' | Err _ => db end.
Definition reverse_ledger (now : Z) (order_id : string) (db : stock_db) : stock_db :=
  foldl (try_reverse now) db (cancelled_entries db order_id).
