(* ===== verification/InventoryMoves.v ===== *)
(** Inventory, the operations on stock: [src/app/api/v1/inventory.py] (adjustments, wastage,
    transfers, returns, counts), [inventory_sales_service.py],
    [inventory_conversion_service.py], the purchase receipts of [inventory_service.py], the
    opening stock of [api/v1/ingredients.py], and the writers of [api/v1/erp.py] that share
    the ledger and the transfers with them.

    Each operation is a function on the [shop]: the stock of Inventory with the documents
    that move it.  An operation in one transaction returns [res]; adjustments and wastage
    append first and write their record in a second transaction, so they return the shop
    beside the outcome. *)

From Stdlib Require Import ZArith Lia Ascii String.
From stdpp Require Import sorting.
From S2P Require Import Prelude PyDecimal PyFloat PyValues Inventory.
Open Scope Z_scope.

(** ** Documents *)

Inductive transfer_status := TDraft | TApproved | TInTransit | TReceived | TCancelled.
#[export] Instance transfer_status_eq_dec : EqDecision transfer_status.
Proof. solve_decision. Defined.

Record transfer_item := { ti_ingredient : string; ti_sent : Z; ti_received : option Z; ti_unit : option string }.
Record transfer := {
  tr_restaurant : string;
  tr_from : string;
  tr_to : string;
  tr_status : transfer_status;
  tr_return_of : option Z;
  tr_items : list transfer_item
}.

Inductive count_status := CDraft | CInProgress | CCompleted | CApproved | CCancelled.
#[export] Instance count_status_eq_dec : EqDecision count_status.
Proof. solve_decision. Defined.
Record count_item := { ci_ingredient : string; ci_expected : Z; ci_counted : option Z; ci_unit : option string }.
Record stock_count := {
  sc_restaurant : string;
  sc_branch : option string;
  sc_number : string;
  sc_status : count_status;
  sc_items : list count_item
}.

Record purchase_line := {
  pl_id : Z;
  pl_ingredient : option string;
  pl_ordered : option Z;
  pl_quantity : option Z;
  pl_received : decimal;
  pl_unit : option string;
  pl_price : option Z;
  pl_cost : option Z
}.
Record purchase_order := {
  po_id : Z;
  po_user : string;
  po_branch : option string;
  po_status : string;
  po_approval : string;
  po_lines : list purchase_line
}.

Record sale_line := { sl_ingredient : string; sl_quantity : Z; sl_unit : option string; sl_price : Z; sl_tax : Z; sl_total : Z }.
Record sale := {
  sa_restaurant : string; sa_branch : option string; sa_sub_total : Z; sa_tax : Z; sa_total : Z; sa_lines : list sale_line }.

Record conversion_input := { cv_ingredient : string; cv_quantity : Z; cv_unit : option string; cv_waste : Z }.
Record conversion_recipe := {
  cr_restaurant : string; cr_output : string; cr_yield : Z; cr_inputs : list conversion_input; cr_deleted : bool }.
Record conversion_run := { rn_restaurant : string; rn_branch : option string; rn_output : string; rn_produced : Z }.

Record stock_note := {
  sn_restaurant : string; sn_branch : option string; sn_ingredient : string; sn_kind : string; sn_quantity : Z; sn_event : Z }.

Record goods_receipt := {
  gr_restaurant : string; gr_branch : option string; gr_draft : bool; gr_items : list (string * Z * Z) }.

Record shop := {
  stock : stock_db;
  transfers : list transfer;
  counts : list stock_count;
  purchase_orders : list purchase_order;
  sales : list sale;
  conversion_recipes : list conversion_recipe;
  runs : list conversion_run;
  receipts : list goods_receipt;
  adjustments : list stock_note;
  wastage : list stock_note
}.

Definition with_stock (db : stock_db) (s : shop) : shop :=
  {| stock := db; transfers := transfers s; counts := counts s; purchase_orders := purchase_orders s; sales := sales s;
     conversion_recipes := conversion_recipes s; runs := runs s; receipts := receipts s; adjustments := adjustments s; wastage := wastage s |}.
Definition with_transfers (f : list transfer → list transfer) (s : shop) : shop :=
  {| stock := stock s; transfers := f (transfers s); counts := counts s; purchase_orders := purchase_orders s; sales := sales s;
     conversion_recipes := conversion_recipes s; runs := runs s; receipts := receipts s; adjustments := adjustments s; wastage := wastage s |}.
Definition with_counts (f : list stock_count → list stock_count) (s : shop) : shop :=
  {| stock := stock s; transfers := transfers s; counts := f (counts s); purchase_orders := purchase_orders s; sales := sales s;
     conversion_recipes := conversion_recipes s; runs := runs s; receipts := receipts s; adjustments := adjustments s; wastage := wastage s |}.
Definition with_purchase_orders (f : list purchase_order → list purchase_order) (s : shop) : shop :=
  {| stock := stock s; transfers := transfers s; counts := counts s; purchase_orders := f (purchase_orders s); sales := sales s;
     conversion_recipes := conversion_recipes s; runs := runs s; receipts := receipts s; adjustments := adjustments s; wastage := wastage s |}.
Definition with_sales (f : list sale → list sale) (s : shop) : shop :=
  {| stock := stock s; transfers := transfers s; counts := counts s; purchase_orders := purchase_orders s; sales := f (sales s);
     conversion_recipes := conversion_recipes s; runs := runs s; receipts := receipts s; adjustments := adjustments s; wastage := wastage s |}.
Definition with_runs (f : list conversion_run → list conversion_run) (s : shop) : shop :=
  {| stock := stock s; transfers := transfers s; counts := counts s; purchase_orders := purchase_orders s; sales := sales s;
     conversion_recipes := conversion_recipes s; runs := f (runs s); receipts := receipts s; adjustments := adjustments s; wastage := wastage s |}.
Definition with_conversion_recipes (f : list conversion_recipe → list conversion_recipe) (s : shop) : shop :=
  {| stock := stock s; transfers := transfers s; counts := counts s; purchase_orders := purchase_orders s; sales := sales s;
     conversion_recipes := f (conversion_recipes s); runs := runs s; receipts := receipts s; adjustments := adjustments s; wastage := wastage s |}.
Definition with_adjustments (f : list stock_note → list stock_note) (s : shop) : shop :=
  {| stock := stock s; transfers := transfers s; counts := counts s; purchase_orders := purchase_orders s; sales := sales s;
     conversion_recipes := conversion_recipes s; runs := runs s; receipts := receipts s; adjustments := f (adjustments s); wastage := wastage s |}.
Definition with_wastage (f : list stock_note → list stock_note) (s : shop) : shop :=
  {| stock := stock s; transfers := transfers s; counts := counts s; purchase_orders := purchase_orders s; sales := sales s;
     conversion_recipes := conversion_recipes s; runs := runs s; receipts := receipts s; adjustments := adjustments s; wastage := f (wastage s) |}.

Definition with_receipts (f : list goods_receipt → list goods_receipt) (s : shop) : shop :=
  {| stock := stock s; transfers := transfers s; counts := counts s; purchase_orders := purchase_orders s; sales := sales s;
     conversion_recipes := conversion_recipes s; runs := runs s; receipts := f (receipts s); adjustments := adjustments s;
     wastage := wastage s |}.

(** The caller: what the endpoints read of [UserContext]. *)
Record staff := {
  st_user : string;
  st_owner : string;
  st_restaurant : option string;
  st_branch : option string;
  st_branch_user : bool
}.
Definition restaurant_of (u : staff) : res string :=
  if str_truthy (st_restaurant u) then Ok (str_or (st_restaurant u) "") else Err (ValidationError "restaurant context required").
Definition branch_or (b : option string) (u : staff) : option string := if str_truthy b then b else st_branch u.

(** A foreign key on [ingredients]: any restaurant's ingredient will do. *)
Definition ingredient_key (db : stock_db) (id : string) : res () :=
  raise_if (bool_decide (ingredients db !! id = None)) (DatabaseError "ingredient_id_fkey").

Definition positive_12_3 (d : decimal) : res Z :=
  q ← numeric 12 3 (float_param d);
  _ ← raise_if (q <=? 0) (DatabaseError "quantity_check");
  Ok q.

(** ** Adjustments and wastage *)

Inductive adjustment_type := Increase | Decrease | RecountAdjustment | Damage | Theft | Found.
Definition adjustment_name (a : adjustment_type) : string :=
  match a with
  | Increase => "increase" | Decrease => "decrease" | RecountAdjustment => "recount"
  | Damage => "damage" | Theft => "theft" | Found => "found"
  end.
Definition is_in (a : adjustment_type) : bool := match a with Increase | Found => true | _ => false end.

Record adjustment_in := {
  aj_ingredient : string;
  aj_branch : option string;
  aj_type : adjustment_type;
  aj_quantity : decimal;
  aj_unit : option string;
  aj_cost : option decimal;
  aj_reason : option string
}.

(** The record of an adjustment: its texts must fit their columns. *)
Definition adjustment_row (u : staff) (rid : string) (body : adjustment_in) (event_id : Z) : res stock_note :=
  q ← numeric 14 3 (float_param (aj_quantity body));
  _ ← raise_if (q <=? 0) (DatabaseError "inventory_adjustments_quantity_check");
  _ ← varchar_opt 50 (aj_unit body);
  _ ← numeric 12 4 (float_param (default d_zero (aj_cost body)));
  _ ← varchar_opt 255 (aj_reason body);
  Ok {| sn_restaurant := rid; sn_branch := branch_or (aj_branch body) u; sn_ingredient := aj_ingredient body;
        sn_kind := adjustment_name (aj_type body); sn_quantity := q; sn_event := event_id |}.

Definition adjustment_request (u : staff) (rid : string) (body : adjustment_in) : stock_request :=
  let inward := is_in (aj_type body) in
  {| rq_restaurant := Some rid; rq_branch := branch_or (aj_branch body) u; rq_ingredient := aj_ingredient body;
     rq_event := INVENTORY_ADJUSTED; rq_in := if inward then aj_quantity body else d_zero;
     rq_out := if inward then d_zero else aj_quantity body; rq_cost := default d_zero (aj_cost body);
     rq_reference := RAdjustment; rq_dedup := None; rq_correlation := None; rq_batch := None; rq_source := "manual";
     rq_ledger_type := Some (if inward then AdjustmentIn else AdjustmentOut); rq_mirror := true |}.

Definition create_adjustment (u : staff) (now : Z) (body : adjustment_in) (s : shop) : shop * res Z :=
  match restaurant_of u with
  | Err e => (s, Err e)
  | Ok rid =>
      match append_event now (adjustment_request u rid body) (stock s) with
      | Err e => (s, Err e)
      | Ok (db, event_id) =>
          match adjustment_row u rid body event_id with
          | Err e => (with_stock db s, Err e)
          | Ok row => (with_adjustments (λ l, l ++ [row]) (with_stock db s), Ok event_id)
          end
      end
  end.

Record wastage_in := {
  wa_ingredient : string;
  wa_branch : option string;
  wa_batch : option Z;
  wa_quantity : decimal;
  wa_unit : option string;
  wa_cost : option decimal;
  wa_reason : string
}.

Definition wastage_request (u : staff) (rid : string) (body : wastage_in) : stock_request :=
  {| rq_restaurant := Some rid; rq_branch := branch_or (wa_branch body) u; rq_ingredient := wa_ingredient body;
     rq_event := INVENTORY_WASTED; rq_in := d_zero; rq_out := wa_quantity body; rq_cost := default d_zero (wa_cost body);
     rq_reference := RWastage; rq_dedup := None; rq_correlation := None; rq_batch := wa_batch body; rq_source := "manual";
     rq_ledger_type := None; rq_mirror := true |}.

Definition wastage_row (u : staff) (rid : string) (body : wastage_in) (event_id : Z) : res stock_note :=
  q ← numeric 14 3 (float_param (wa_quantity body));
  _ ← raise_if (q <=? 0) (DatabaseError "inventory_wastage_quantity_check");
  _ ← varchar_opt 50 (wa_unit body);
  _ ← numeric 12 4 (float_param (default d_zero (wa_cost body)));
  Ok {| sn_restaurant := rid; sn_branch := branch_or (wa_branch body) u; sn_ingredient := wa_ingredient body;
        sn_kind := wa_reason body; sn_quantity := q; sn_event := event_id |}.

Definition log_wastage (u : staff) (now : Z) (body : wastage_in) (s : shop) : shop * res Z :=
  match restaurant_of u with
  | Err e => (s, Err e)
  | Ok rid =>
      match append_event now (wastage_request u rid body) (stock s) with
      | Err e => (s, Err e)
      | Ok (db, event_id) =>
          match wastage_row u rid body event_id with
          | Err e => (with_stock db s, Err e)
          | Ok row => (with_wastage (λ l, l ++ [row]) (with_stock db s), Ok event_id)
          end
      end
  end.

(** ** Raw-material sales *)

Record sale_in := {
  si_ingredient : string; si_quantity : decimal; si_unit : option string; si_price : decimal; si_tax : decimal }.
Record sale_draft := { sd_item : sale_in; sd_line_total : decimal; sd_stock_quantity : decimal; sd_stock_cost : decimal }.

Definition sale_money (d : decimal) : res decimal := quantize ROUND_HALF_UP (-2) d.

(** [ORDER BY] and [sort] by ingredient. *)
Definition name_before {A} (f : A → string) (x y : A) : Prop := string_ltb (f y) (f x) = false.
#[export] Instance name_before_dec {A} (f : A → string) x y : Decision (name_before f x y).
Proof. unfold name_before. apply _. Defined.
Definition by_name {A} (f : A → string) (l : list A) : list A := merge_sort (name_before f) l.

(** The amounts of a sale: each line with its printed total, and the running sums. *)
Fixpoint prepare_sale (items : list sale_in) (sub_total tax_amount : decimal) : res (list (sale_in * decimal) * decimal * decimal) :=
  match items with
  | [] => Ok ([], sub_total, tax_amount)
  | it :: items' =>
      _ ← raise_if (dleb (si_quantity it) d_zero) (ValidationError "sale item quantity must be positive");
      let line_net := dmul (si_quantity it) (si_price it) in
      line_tax ← ddiv (dmul line_net (si_tax it)) (d_int 100);
      total ← sale_money (dadd line_net line_tax);
      '(rest, sub, tax) ← prepare_sale items' (dadd sub_total line_net) (dadd tax_amount line_tax);
      Ok ((it, total) :: rest, sub, tax)
  end.

(** One line against the stock: its quantity in the stock unit, if there is enough. *)
Definition check_sale_line (db : stock_db) (restaurant branch : option string) (allow_negative : bool) (l : sale_in * decimal)
    : res sale_draft :=
  let it := l.1 in
  ing ← get_ingredient db restaurant (si_ingredient it);
  factor ← unit_factor db restaurant (si_ingredient it) (si_unit it) (i_unit ing);
  let quantity := dmul (si_quantity it) factor in
  let bal := fn_inventory_balance db (si_ingredient it) branch None in
  _ ← raise_if (dltb (milli bal) quantity && negb allow_negative) (InventoryError "insufficient stock to sell");
  Ok {| sd_item := it; sd_line_total := l.2; sd_stock_quantity := quantity;
        sd_stock_cost := Dec (default 0 (i_cost_per_unit ing)) (-2) |}.

Definition sale_item_row (d : sale_draft) : res sale_line :=
  let it := sd_item d in
  q ← positive_12_3 (si_quantity it);
  u ← varchar_opt 40 (si_unit it);
  price ← numeric 12 2 (float_param (si_price it));
  tax ← numeric 6 3 (float_param (si_tax it));
  total ← numeric 14 2 (float_param (sd_line_total d));
  Ok {| sl_ingredient := si_ingredient it; sl_quantity := q; sl_unit := u; sl_price := price; sl_tax := tax; sl_total := total |}.

Definition sale_request (restaurant branch : option string) (sale_id : Z) (d : sale_draft) : stock_request :=
  {| rq_restaurant := restaurant; rq_branch := branch; rq_ingredient := si_ingredient (sd_item d); rq_event := INVENTORY_SOLD;
     rq_in := d_zero; rq_out := sd_stock_quantity d; rq_cost := sd_stock_cost d; rq_reference := RSale sale_id;
     rq_dedup := Some (KSale sale_id (si_ingredient (sd_item d))); rq_correlation := Some (RSale sale_id); rq_batch := None;
     rq_source := "sale"; rq_ledger_type := None; rq_mirror := true |}.

Definition create_sale (restaurant : string) (branch : option string) (now : Z) (items : list sale_in) (allow_negative : bool) (s : shop)
    : res (shop * Z) :=
  _ ← raise_if (bool_decide (items = [])) (ValidationError "at least one sale item is required");
  '(prepared, sub_total, tax_amount) ← prepare_sale items d_zero d_zero;
  _ ← raise_if (negb (bool_decide (NoDup (map (λ l, si_ingredient l.1) prepared)))) (ValidationError "duplicate ingredients in sale; combine their quantities");
  total ← sale_money (dadd sub_total tax_amount);
  sub ← sale_money sub_total;
  tax ← sale_money tax_amount;
  lines ← res_map (check_sale_line (stock s) (Some restaurant) branch allow_negative) (by_name (λ l, si_ingredient l.1) prepared);
  rows ← res_map sale_item_row lines;
  sub_column ← numeric 14 2 (float_param sub);
  tax_column ← numeric 14 2 (float_param tax);
  total_column ← numeric 14 2 (float_param total);
  let sale_id := Z.of_nat (length (sales s)) in
  '(db, _) ← append_all now (map (sale_request (Some restaurant) branch sale_id) lines) (stock s);
  Ok (with_sales (λ l, l ++ [{| sa_restaurant := restaurant; sa_branch := branch; sa_sub_total := sub_column;
                                sa_tax := tax_column; sa_total := total_column; sa_lines := rows |}]) (with_stock db s), sale_id).

(** ** Conversions *)

Record recipe_input := { ri_ingredient : string; ri_quantity : decimal; ri_unit : option string; ri_waste : decimal }.

Definition recipe_input_row (db : stock_db) (l : recipe_input) : res conversion_input :=
  _ ← ingredient_key db (ri_ingredient l);
  q ← positive_12_3 (ri_quantity l);
  u ← varchar_opt 40 (ri_unit l);
  w ← numeric 6 3 (float_param (ri_waste l));
  Ok {| cv_ingredient := ri_ingredient l; cv_quantity := q; cv_unit := u; cv_waste := w |}.

Definition create_recipe (restaurant output : string) (yield_quantity : decimal) (inputs : list recipe_input) (s : shop) : res (shop * Z) :=
  _ ← raise_if (dleb yield_quantity d_zero) (ValidationError "yield_quantity must be positive");
  _ ← raise_if (bool_decide (length inputs = 0%nat)) (ValidationError "at least one input ingredient is required");
  _ ← get_ingredient (stock s) (Some restaurant) output;
  yield ← positive_12_3 yield_quantity;
  rows ← res_map (recipe_input_row (stock s)) inputs;
  let id := Z.of_nat (length (conversion_recipes s)) in
  Ok (with_conversion_recipes (λ l, l ++ [{| cr_restaurant := restaurant; cr_output := output; cr_yield := yield;
                                             cr_inputs := rows; cr_deleted := false |}]) s, id).

Definition at_index {A} (l : list A) (id : Z) : option A := if id <? 0 then None else l !! Z.to_nat id.

(** [_resolve_inputs]: the inputs of a run, scaled to what it produces. *)
Definition scaled_input (scale : decimal) (l : conversion_input) : res (string * decimal) :=
  waste ← ddiv (Dec (cv_waste l) (-3)) (d_int 100);
  Ok (cv_ingredient l, dmul (dmul (milli (cv_quantity l)) (dadd (d_int 1) waste)) scale).

Definition _resolve_inputs (s : shop) (restaurant : string) (recipe_id : option Z) (produced : decimal)
    (explicit_inputs : list (string * decimal)) : res (list (string * decimal)) :=
  match recipe_id with
  | Some id =>
      match at_index (conversion_recipes s) id with
      | Some r =>
          if bool_decide (cr_restaurant r = restaurant) && negb (cr_deleted r) then
            scale ← ddiv produced (if cr_yield r =? 0 then d_int 1 else milli (cr_yield r));
            res_map (scaled_input scale) (cr_inputs r)
          else Err (NotFoundError "conversion_recipe")
      | None => Err (NotFoundError "conversion_recipe")
      end
  | None => match explicit_inputs with [] => Err (ValidationError "conversion_recipe_id or inputs required") | l => Ok l end
  end.

Definition check_input_meta (db : stock_db) (restaurant : option string) (l : string * decimal) : res () :=
  _ ← get_ingredient db restaurant l.1;
  raise_if (dleb l.2 d_zero) (ValidationError "conversion input quantities must be positive").

Definition check_input_stock (db : stock_db) (branch : option string) (allow_negative : bool) (cost : decimal) (l : string * decimal)
    : res decimal :=
  let bal := fn_inventory_balance db l.1 branch None in
  _ ← raise_if (dltb (milli bal) l.2 && negb allow_negative) (InventoryError "insufficient stock for input");
  let cpu := default 0 (i ← ingredients db !! l.1; i_cost_per_unit i) in
  Ok (dadd cost (dmul (Dec cpu (-2)) l.2)).

Definition input_request (restaurant branch : option string) (run : Z) (l : string * decimal) : stock_request :=
  {| rq_restaurant := restaurant; rq_branch := branch; rq_ingredient := l.1; rq_event := INVENTORY_CONVERTED_OUT;
     rq_in := d_zero; rq_out := l.2; rq_cost := d_zero; rq_reference := RConversion run;
     rq_dedup := Some (KConversionOut run l.1); rq_correlation := Some (RConversion run); rq_batch := None;
     rq_source := "conversion"; rq_ledger_type := None; rq_mirror := true |}.
Definition output_request (restaurant branch : option string) (run : Z) (output : string) (produced unit_cost : decimal) : stock_request :=
  {| rq_restaurant := restaurant; rq_branch := branch; rq_ingredient := output; rq_event := INVENTORY_CONVERTED_IN;
     rq_in := produced; rq_out := d_zero; rq_cost := unit_cost; rq_reference := RConversion run;
     rq_dedup := Some (KConversionIn run); rq_correlation := Some (RConversion run); rq_batch := None;
     rq_source := "conversion"; rq_ledger_type := None; rq_mirror := true |}.

Definition convert (restaurant : string) (branch : option string) (now : Z) (output : string) (produced : decimal) (recipe_id : option Z)
    (inputs : list (string * decimal)) (allow_negative : bool) (s : shop) : res (shop * Z) :=
  _ ← raise_if (dleb produced d_zero) (ValidationError "produced_quantity must be positive");
  _ ← get_ingredient (stock s) (Some restaurant) output;
  resolved ← _resolve_inputs s restaurant recipe_id produced inputs;
  _ ← raise_if (bool_decide (length resolved = 0%nat)) (ValidationError "conversion has no input ingredients");
  _ ← raise_if (negb (bool_decide (NoDup (map fst resolved)))) (ValidationError "duplicate conversion inputs; combine their quantities");
  _ ← res_map (check_input_meta (stock s) (Some restaurant)) resolved;
  input_cost ← res_foldl (check_input_stock (stock s) branch allow_negative) d_zero resolved;
  produced_column ← positive_12_3 produced;
  let run := Z.of_nat (length (runs s)) in
  '(db, _) ← append_all now (map (input_request (Some restaurant) branch run) resolved) (stock s);
  unit_cost ← ddiv input_cost produced;
  '(db, _) ← append_event now (output_request (Some restaurant) branch run output produced unit_cost) db;
  Ok (with_runs (λ l, l ++ [{| rn_restaurant := restaurant; rn_branch := branch; rn_output := output; rn_produced := produced_column |}])
        (with_stock db s), run).

(** ** Transfers between branches *)

Record transfer_line_in := { tl_ingredient : string; tl_quantity : decimal; tl_unit : option string }.

Definition branch_of (db : stock_db) (restaurant branch : string) : bool :=
  existsb (λ p, bool_decide (p.1 = branch ∧ p.2 = restaurant)) (sub_branches db).

Definition transfer_item_row (db : stock_db) (l : transfer_line_in) : res transfer_item :=
  _ ← ingredient_key db (tl_ingredient l);
  q ← positive_12_3 (tl_quantity l);
  u ← varchar_opt 50 (tl_unit l);
  Ok {| ti_ingredient := tl_ingredient l; ti_sent := q; ti_received := None; ti_unit := u |}.

Definition create_transfer (u : staff) (from_branch to_branch : string) (items : list transfer_line_in) (s : shop) : res (shop * Z) :=
  rid ← restaurant_of u;
  _ ← raise_if (bool_decide (from_branch = to_branch)) (ValidationError "from_branch and to_branch must differ");
  _ ← raise_if (negb (bool_decide (NoDup (map tl_ingredient items)))) (ValidationError "duplicate transfer ingredients; combine their quantities");
  _ ← raise_if (negb (branch_of (stock s) rid from_branch && branch_of (stock s) rid to_branch))
        (ValidationError "both branches must belong to this restaurant");
  _ ← raise_if (st_branch_user u && negb (is_id (st_branch u) from_branch)) (ValidationError "transfer must originate from your branch");
  rows ← res_map (transfer_item_row (stock s)) items;
  Ok (with_transfers (λ l, l ++ [{| tr_restaurant := rid; tr_from := from_branch; tr_to := to_branch; tr_status := TDraft;
                                    tr_return_of := None; tr_items := rows |}]) s, Z.of_nat (length (transfers s))).

Definition set_transfer (t : transfer) (status : transfer_status) (items : list transfer_item) : transfer :=
  {| tr_restaurant := tr_restaurant t; tr_from := tr_from t; tr_to := tr_to t; tr_status := status;
     tr_return_of := tr_return_of t; tr_items := items |}.
Definition find_transfer (s : shop) (u : staff) (id : Z) : res transfer :=
  match at_index (transfers s) id with
  | Some t => if is_id (st_restaurant u) (tr_restaurant t) then Ok t else Err (NotFoundError "stock_transfer")
  | None => Err (NotFoundError "stock_transfer")
  end.

Definition ship_request (t : transfer) (id : Z) (ingredient_id : string) (quantity : decimal) (cost : option Z) : stock_request :=
  {| rq_restaurant := Some (tr_restaurant t); rq_branch := Some (tr_from t); rq_ingredient := ingredient_id;
     rq_event := INVENTORY_TRANSFERRED_OUT; rq_in := d_zero; rq_out := quantity; rq_cost := Dec (default 0 cost) (-2);
     rq_reference := RTransfer id; rq_dedup := Some (KTransferOut id ingredient_id); rq_correlation := Some (RTransfer id);
     rq_batch := None; rq_source := "transfer"; rq_ledger_type := None; rq_mirror := true |}.

Definition ship_item (now : Z) (t : transfer) (id : Z) (db : stock_db) (it : transfer_item) : res stock_db :=
  let restaurant := Some (tr_restaurant t) in
  ing ← get_ingredient db restaurant (ti_ingredient it);
  factor ← unit_factor db restaurant (ti_ingredient it) (ti_unit it) (i_unit ing);
  let quantity := dmul (milli (ti_sent it)) factor in
  let bal := fn_inventory_balance db (ti_ingredient it) (Some (tr_from t)) None in
  _ ← raise_if (dltb (milli bal) quantity) (InventoryError "insufficient stock to transfer");
  '(db, _) ← append_event now (ship_request t id (ti_ingredient it) quantity (i_cost_per_unit ing)) db;
  Ok db.

Definition ship_transfer (u : staff) (now : Z) (id : Z) (s : shop) : res (shop * transfer_status) :=
  t ← find_transfer s u id;
  _ ← raise_if (st_branch_user u && negb (is_id (st_branch u) (tr_from t))) (ValidationError "only the source branch can ship this transfer");
  match tr_status t with
  | TInTransit | TReceived => Ok (s, tr_status t)
  | TCancelled => Err (ValidationError "cannot ship from status")
  | TDraft | TApproved =>
      _ ← raise_if (bool_decide (length (tr_items t) = 0%nat) || negb (bool_decide (NoDup (map ti_ingredient (tr_items t)))))
            (ValidationError "transfer requires distinct ingredient lines");
      db ← res_foldl (ship_item now t id) (stock s) (by_name ti_ingredient (tr_items t));
      Ok (with_transfers (<[Z.to_nat id := set_transfer t TInTransit (tr_items t)]>) (with_stock db s), TInTransit)
  end.

(** [target.normalize()] *)
Fixpoint strip_zeros (fuel : nat) (c e : Z) : decimal :=
  match fuel with
  | O => Dec c e
  | S n => if c mod 10 =? 0 then strip_zeros n (c / 10) (e + 1) else Dec c e
  end.
Definition normalize (d : decimal) : decimal :=
  let r := fix_prec d in if coef r =? 0 then d_zero else strip_zeros (Z.to_nat (ndigits (Z.abs (coef r)))) (coef r) (dexp r).

Definition receive_request (t : transfer) (id : Z) (ingredient_id : string) (quantity target : decimal) (cost : option Z) : stock_request :=
  {| rq_restaurant := Some (tr_restaurant t); rq_branch := Some (tr_to t); rq_ingredient := ingredient_id;
     rq_event := INVENTORY_TRANSFERRED_IN; rq_in := quantity; rq_out := d_zero; rq_cost := Dec (default 0 cost) (-2);
     rq_reference := RTransfer id; rq_dedup := Some (KTransferIn id ingredient_id (normalize target));
     rq_correlation := Some (RTransfer id); rq_batch := None; rq_source := "transfer"; rq_ledger_type := None; rq_mirror := true |}.

Definition set_received (received : Z) (it : transfer_item) : transfer_item :=
  {| ti_ingredient := ti_ingredient it; ti_sent := ti_sent it; ti_received := Some received; ti_unit := ti_unit it |}.

(** One line of a receipt: the movement of what is new, and the line as it is after. *)
Definition receive_item (now : Z) (t : transfer) (id : Z) (requested : option (list (string * decimal))) (db : stock_db) (it : transfer_item)
    : res (stock_db * transfer_item * bool) :=
  let restaurant := Some (tr_restaurant t) in
  let sent := milli (ti_sent it) in
  let previous := milli (default 0 (ti_received it)) in
  let target := match requested with None => sent | Some l => default previous (assoc (ti_ingredient it) l) end in
  _ ← raise_if (dltb target previous || dltb sent target)
        (ValidationError "received quantity must be between previous receipt and quantity sent");
  let delta := dsub target previous in
  if deqb delta d_zero then Ok (db, it, deqb target sent)
  else
    ing ← get_ingredient db restaurant (ti_ingredient it);
    factor ← unit_factor db restaurant (ti_ingredient it) (ti_unit it) (i_unit ing);
    '(db, _) ← append_event now (receive_request t id (ti_ingredient it) (dmul delta factor) target (i_cost_per_unit ing)) db;
    received ← numeric 12 3 target;
    Ok (db, set_received received it, deqb target sent).

(** The lines in the order of their ingredients; each comes back in its own place. *)
Fixpoint receive_items (now : Z) (t : transfer) (id : Z) (requested : option (list (string * decimal))) (db : stock_db)
    (lines : list (nat * transfer_item)) : res (stock_db * list (nat * transfer_item) * bool) :=
  match lines with
  | [] => Ok (db, [], true)
  | (k, it) :: lines' =>
      '(db, it, complete) ← receive_item now t id requested db it;
      '(db, rest, all) ← receive_items now t id requested db lines';
      Ok (db, (k, it) :: rest, complete && all)
  end.
Definition put_items (news : list (nat * transfer_item)) (items : list transfer_item) : list transfer_item :=
  foldl (λ l p, <[p.1 := p.2]> l) items news.

Definition receive_transfer (u : staff) (now : Z) (id : Z) (requested : option (list (string * decimal))) (s : shop)
    : res (shop * transfer_status) :=
  t ← find_transfer s u id;
  _ ← raise_if (st_branch_user u && negb (is_id (st_branch u) (tr_to t))) (ValidationError "only the destination branch can receive this transfer");
  _ ← raise_if (negb (bool_decide (tr_status t = TInTransit ∨ tr_status t = TReceived))) (ValidationError "cannot receive from status");
  _ ← match requested with
      | None => Ok ()
      | Some l =>
          _ ← raise_if (negb (bool_decide (NoDup (map fst l)))) (ValidationError "duplicate transfer receipt lines");
          raise_if (negb (forallb (λ p, str_mem p.1 (map ti_ingredient (tr_items t))) l))
            (ValidationError "receipt contains an ingredient outside this transfer")
      end;
  '(db, news, complete) ← receive_items now t id requested (stock s) (by_name (λ p, ti_ingredient p.2) (imap pair (tr_items t)));
  let status := if (complete : bool) then TReceived else TInTransit in
  Ok (with_transfers (<[Z.to_nat id := set_transfer t status (put_items news (tr_items t))]>) (with_stock db s), status).

(** [create_transfer_return]: a new transfer the other way. *)
Definition return_line (requested : list (string * (decimal * option string))) (it : transfer_item) : res (list (string * decimal * option string)) :=
  let got := match ti_received it with Some r => if r =? 0 then ti_sent it else r | None => ti_sent it end in
  match requested with
  | [] => Ok (if 0 <? got then [(ti_ingredient it, milli got, ti_unit it)] else [])
  | _ =>
      match assoc (ti_ingredient it) requested with
      | None => Ok []
      | Some (qty, unit) =>
          _ ← raise_if (dltb (milli got) qty) (ValidationError "cannot return more than received for");
          Ok [(ti_ingredient it, qty, if str_truthy unit then unit else ti_unit it)]
      end
  end.
Definition return_item_row (db : stock_db) (l : string * decimal * option string) : res transfer_item :=
  transfer_item_row db {| tl_ingredient := l.1.1; tl_quantity := l.1.2; tl_unit := l.2 |}.

(** A dict built from the request keeps the last line of an ingredient. *)
Definition create_transfer_return (u : staff) (id : Z) (items : list (string * (decimal * option string))) (s : shop) : res (shop * Z) :=
  rid ← restaurant_of u;
  orig ← find_transfer s u id;
  _ ← raise_if (negb (bool_decide (tr_status orig = TReceived))) (ValidationError "only a received transfer can be returned");
  _ ← raise_if (negb (bool_decide (tr_return_of orig = None))) (ValidationError "a return transfer cannot itself be returned");
  ls ← res_map (return_line (reverse items)) (tr_items orig);
  let lines := concat ls in
  _ ← raise_if (bool_decide (length lines = 0%nat)) (ValidationError "no returnable quantities");
  rows ← res_map (return_item_row (stock s)) lines;
  Ok (with_transfers (λ l, l ++ [{| tr_restaurant := rid; tr_from := tr_to orig; tr_to := tr_from orig; tr_status := TDraft;
                                    tr_return_of := Some id; tr_items := rows |}]) s, Z.of_nat (length (transfers s))).

(** ** Physical counts *)

Definition counted_ingredient (restaurant : string) (p : string * ingredient) : bool :=
  is_id (i_restaurant p.2) restaurant && negb (i_deleted p.2) && i_active p.2.

(** [start_count]; the count's number comes from the clock and must be new. *)
Definition count_item_row (db : stock_db) (branch : option string) (p : string * ingredient) : res count_item :=
  expected ← numeric 14 3 (float_param (milli (fn_inventory_balance db p.1 branch None)));
  Ok {| ci_ingredient := p.1; ci_expected := expected; ci_counted := None; ci_unit := i_unit p.2 |}.
Definition start_count (u : staff) (branch : option string) (number : string) (s : shop) : res (shop * Z) :=
  rid ← restaurant_of u;
  _ ← raise_if (existsb (λ c, bool_decide (sc_restaurant c = rid ∧ sc_number c = number)) (counts s))
        (UniqueViolationError "inventory_counts_restaurant_id_count_number_key");
  rows ← res_map (count_item_row (stock s) (branch_or branch u))
           (by_name fst (List.filter (counted_ingredient rid) (map_to_list (ingredients (stock s)))));
  Ok (with_counts (λ l, l ++ [{| sc_restaurant := rid; sc_branch := branch_or branch u; sc_number := number;
                                 sc_status := CInProgress; sc_items := rows |}]) s, Z.of_nat (length (counts s))).

Definition find_count (s : shop) (u : staff) (id : Z) : res stock_count :=
  match at_index (counts s) id with
  | Some c => if is_id (st_restaurant u) (sc_restaurant c) then Ok c else Err (NotFoundError "inventory_count")
  | None => Err (NotFoundError "inventory_count")
  end.
Definition set_count (c : stock_count) (status : count_status) (items : list count_item) : stock_count :=
  {| sc_restaurant := sc_restaurant c; sc_branch := sc_branch c; sc_number := sc_number c; sc_status := status; sc_items := items |}.
Definition other_branch (u : staff) (branch : option string) : bool :=
  st_branch_user u && negb (bool_decide (branch = st_branch u)).

Definition submit_count_item (u : staff) (id : Z) (ingredient_id : string) (counted : decimal) (unit : option string) (s : shop) : res shop :=
  c ← find_count s u id;
  _ ← raise_if (other_branch u (sc_branch c)) (ValidationError "stock count belongs to another branch");
  _ ← raise_if (negb (bool_decide (sc_status c = CInProgress))) (ValidationError "only in-progress stock counts can be edited");
  match find (λ i, bool_decide (ci_ingredient i = ingredient_id)) (sc_items c) with
  | None => Err (NotFoundError "inventory_count_item")
  | Some item =>
      factor ← unit_factor (stock s) (st_restaurant u) ingredient_id unit (ci_unit item);
      q ← numeric 14 3 (dmul counted factor);
      let update i := if bool_decide (ci_ingredient i = ingredient_id)
                      then {| ci_ingredient := ci_ingredient i; ci_expected := ci_expected i; ci_counted := Some q; ci_unit := ci_unit i |}
                      else i in
      Ok (with_counts (<[Z.to_nat id := set_count c (sc_status c) (map update (sc_items c))]>) s)
  end.

(** The generated column [variance]. *)
Definition variance (i : count_item) : Z := default 0 (ci_counted i) - ci_expected i.
Definition recount_request (c : stock_count) (id : Z) (i : count_item) : stock_request :=
  let v := variance i in
  {| rq_restaurant := Some (sc_restaurant c); rq_branch := sc_branch c; rq_ingredient := ci_ingredient i; rq_event := INVENTORY_RECOUNTED;
     rq_in := if 0 <? v then milli (Z.abs v) else d_zero; rq_out := if v <? 0 then milli (Z.abs v) else d_zero;
     rq_cost := d_zero; rq_reference := RCount id; rq_dedup := Some (KCount id (ci_ingredient i)); rq_correlation := Some (RCount id);
     rq_batch := None; rq_source := "recount"; rq_ledger_type := Some (if 0 <? v then AdjustmentIn else AdjustmentOut); rq_mirror := true |}.
Definition variances (c : stock_count) : list count_item :=
  List.filter (λ i, negb (bool_decide (ci_counted i = None)) && negb (variance i =? 0)) (by_name ci_ingredient (sc_items c)).

Definition finalize_count (u : staff) (now : Z) (id : Z) (s : shop) : res (shop * Z) :=
  c ← find_count s u id;
  _ ← raise_if (other_branch u (sc_branch c)) (ValidationError "stock count belongs to another branch");
  match sc_status c with
  | CApproved => Ok (s, 0)
  | CInProgress | CCompleted =>
      '(db, ids) ← append_all now (map (recount_request c id) (variances c)) (stock s);
      Ok (with_counts (<[Z.to_nat id := set_count c CApproved (sc_items c)]>) (with_stock db s), Z.of_nat (length ids))
  | CDraft | CCancelled => Err (ValidationError "cannot finalize from status")
  end.

(** ** Purchase receipts *)

(** [tenant_where_clause] *)
Definition po_tenant (u : staff) (p : purchase_order) : bool :=
  if st_branch_user u then bool_decide (po_user p = st_owner u) && same_id (po_branch p) (st_branch u)
  else bool_decide (po_user p = st_user u).

Record receipt_line := { re_id : Z; re_quantity : decimal; re_batch : option string; re_expiry : option Z }.

Definition line_before (p q : nat * purchase_line) : Prop :=
  match pl_ingredient p.2, pl_ingredient q.2 with
  | Some a, Some b => string_ltb a b = true ∨ a = b ∧ pl_id p.2 <= pl_id q.2
  | Some _, None => True
  | None, Some _ => False
  | None, None => pl_id p.2 <= pl_id q.2
  end.
#[export] Instance line_before_dec p q : Decision (line_before p q).
Proof. unfold line_before. destruct (pl_ingredient p.2), (pl_ingredient q.2); apply _. Defined.

Definition ordered_of (l : purchase_line) : decimal := milli (default (default 0 (pl_quantity l)) (pl_ordered l)).
Definition price_of (l : purchase_line) : decimal := Dec (default (default 0 (pl_cost l)) (pl_price l)) (-2).

Definition insert_batch (db : stock_db) (rid : string) (branch : option string) (ingredient_id number : string) (received : decimal)
    (unit : option string) (cost : decimal) (today : Z) (expiry : option Z) : res (stock_db * Z) :=
  n ← varchar 100 number;
  q ← numeric 14 3 received;
  _ ← raise_if (q <=? 0) (DatabaseError "inventory_batches_received_quantity_check");
  c ← numeric 12 4 cost;
  _ ← raise_if (existsb (λ b, bool_decide (b_restaurant b = rid ∧ b_ingredient b = ingredient_id ∧ b_number b = n)) (batches db))
        (UniqueViolationError "inventory_batches_restaurant_id_ingredient_id_batch_number_key");
  Ok (with_batches (λ l, l ++ [{| b_restaurant := rid; b_branch := branch; b_ingredient := ingredient_id; b_number := n;
                                  b_received := q; b_remaining := 0; b_unit := unit; b_cost := c; b_received_date := today;
                                  b_expiry := expiry; b_status := BActive |}]) db, Z.of_nat (length (batches db))).

Definition set_cost (cost : Z) (i : ingredient) : ingredient :=
  {| i_user := i_user i; i_restaurant := i_restaurant i; i_name := i_name i; i_unit := i_unit i; i_current_stock := i_current_stock i;
     i_stock_quantity := i_stock_quantity i; i_minimum_stock := i_minimum_stock i; i_reorder_point := i_reorder_point i;
     i_cost_per_unit := Some cost; i_track_batches := i_track_batches i; i_active := i_active i; i_deleted := i_deleted i |}.
Definition set_line_received (received : decimal) (l : purchase_line) : purchase_line :=
  {| pl_id := pl_id l; pl_ingredient := pl_ingredient l; pl_ordered := pl_ordered l; pl_quantity := pl_quantity l;
     pl_received := received; pl_unit := pl_unit l; pl_price := pl_price l; pl_cost := pl_cost l |}.

Definition purchase_request (rid : string) (branch : option string) (po line : Z) (ingredient_id : string) (quantity cost target : decimal)
    (batch_id : option Z) : stock_request :=
  {| rq_restaurant := Some rid; rq_branch := branch; rq_ingredient := ingredient_id; rq_event := INVENTORY_PURCHASED;
     rq_in := quantity; rq_out := d_zero; rq_cost := cost; rq_reference := RPurchaseOrder po;
     rq_dedup := Some (KPurchase po line (normalize target)); rq_correlation := None; rq_batch := batch_id;
     rq_source := "purchase_order"; rq_ledger_type := None; rq_mirror := true |}.

(** What is new of a line: its batch when the ingredient keeps them, the movement, and the
    ingredient's last price. *)
Definition receive_stock (rid : string) (now today : Z) (po : purchase_order) (request : option receipt_line) (l : purchase_line)
    (target delta : decimal) (db : stock_db) : res stock_db :=
  let id := default "" (pl_ingredient l) in
  ing ← match pl_ingredient l with Some i => get_ingredient db (Some rid) i | None => Err (NotFoundError "ingredient") end;
  factor ← unit_factor db (Some rid) id (pl_unit l) (i_unit ing);
  let quantity := dmul delta factor in
  cost ← ddiv (price_of l) factor;
  let label := ("PO-" ++ int_text (po_id po) ++ "-" ++ int_text (pl_id l) ++ "-" ++ decimal_text target)%string in
  '(db, batch_id) ← (if i_track_batches ing then
       '(db, b) ← insert_batch db rid (po_branch po) id (str_or (r ← request; re_batch r) label) quantity (i_unit ing) cost today
                    (r ← request; re_expiry r);
       Ok (db, Some b)
     else Ok (db, None));
  '(db, _) ← append_event now (purchase_request rid (po_branch po) (po_id po) (pl_id l) id quantity cost target batch_id) db;
  if dpos cost then price ← numeric 10 2 cost; Ok (with_ingredients (alter (set_cost price) id) db) else Ok db.

Definition receive_line (rid : string) (now today : Z) (po : purchase_order) (requested : option (list receipt_line)) (db : stock_db)
    (l : purchase_line) : res (stock_db * purchase_line * bool * bool) :=
  let request := rs ← requested; find (λ r, re_id r =? pl_id l) rs in
  let target := match requested with None => ordered_of l | Some _ => match request with Some r => re_quantity r | None => pl_received l end end in
  _ ← raise_if (dltb target (pl_received l) || dltb (ordered_of l) target)
        (ValidationError "received quantity must be between the previous receipt and ordered quantity");
  let delta := dsub target (pl_received l) in
  if deqb delta d_zero then Ok (db, l, deqb target (ordered_of l), false)
  else
    db ← receive_stock rid now today po request l target delta db;
    Ok (db, set_line_received target l, deqb target (ordered_of l), true).

Fixpoint receive_lines (rid : string) (now today : Z) (po : purchase_order) (requested : option (list receipt_line)) (db : stock_db)
    (ls : list (nat * purchase_line)) : res (stock_db * list (nat * purchase_line) * bool * Z) :=
  match ls with
  | [] => Ok (db, [], true, 0)
  | (k, l) :: ls' =>
      '(db, l, complete, new) ← receive_line rid now today po requested db l;
      '(db, rest, all, updated) ← receive_lines rid now today po requested db ls';
      Ok (db, (k, l) :: rest, complete && all, (if (new : bool) then 1 else 0) + updated)
  end.

Definition set_order (p : purchase_order) (status : string) (ls : list purchase_line) : purchase_order :=
  {| po_id := po_id p; po_user := po_user p; po_branch := po_branch p; po_status := status; po_approval := po_approval p; po_lines := ls |}.

Definition receive_purchase_order (u : staff) (now today : Z) (id : Z) (requested : option (list receipt_line)) (s : shop)
    : res (shop * (string * Z)) :=
  match list_find (λ p : purchase_order, (po_tenant u p && (po_id p =? id)) = true) (purchase_orders s) with
  | None => Err (NotFoundError "Purchase order")
  | Some (k, po) =>
      _ ← raise_if (negb (bool_decide (po_approval po = "approved"%string))) (ValidationError "purchase order must be approved before receiving stock");
      _ ← raise_if (str_mem (po_status po) ["cancelled"; "rejected"]%string) (ValidationError "cannot receive a cancelled or rejected purchase order");
      _ ← raise_if (bool_decide (length (po_lines po) = 0%nat)) (ValidationError "purchase order has no items");
      _ ← match requested with
          | None => Ok ()
          | Some rs =>
              _ ← raise_if (negb (bool_decide (NoDup (map re_id rs)))) (ValidationError "duplicate purchase order receipt lines");
              raise_if (negb (forallb (λ r, existsb (λ l : purchase_line, pl_id l =? re_id r) (po_lines po)) rs))
                (ValidationError "receipt contains an item outside this purchase order")
          end;
      let rid := str_or (st_restaurant u) "" in
      '(db, news, complete, updated) ← receive_lines rid now today po requested (stock s) (merge_sort line_before (imap pair (po_lines po)));
      let status := if (complete : bool) then "received"%string else "partial"%string in
      let ls := foldl (λ l p, <[p.1 := p.2]> l) (po_lines po) news in
      Ok (with_purchase_orders (<[k := set_order po status ls]>) (with_stock db s), (status, updated))
  end.

(** ** New ingredients *)

(** [create_ingredient]: the row commits first; its opening event is best effort.  The row's
    id is the caller's fresh [new_id]. *)
Record ingredient_in := {
  in_name : string; in_unit : string; in_stock : float64; in_minimum : option Z; in_reorder : option Z; in_cost : option Z;
  in_track : bool; in_branch : option string }.

Definition ingredient_row (u : staff) (body : ingredient_in) : res ingredient :=
  q ← numeric 12 3 (exact_decimal (in_stock body));
  Ok {| i_user := if st_branch_user u then st_owner u else st_user u; i_restaurant := st_restaurant u; i_name := strip (in_name body);
        i_unit := Some (str_or (Some (in_unit body)) "unit"); i_current_stock := q; i_stock_quantity := q;
        i_minimum_stock := in_minimum body; i_reorder_point := in_reorder body; i_cost_per_unit := in_cost body;
        i_track_batches := in_track body; i_active := true; i_deleted := false |}.

Definition opening_request (u : staff) (id : string) (body : ingredient_in) : stock_request :=
  {| rq_restaurant := st_restaurant u; rq_branch := branch_or (in_branch body) u; rq_ingredient := id; rq_event := INVENTORY_PURCHASED;
     rq_in := repr_decimal (in_stock body); rq_out := d_zero; rq_cost := Dec (default 0 (in_cost body)) (-2);
     rq_reference := RIngredient id; rq_dedup := Some (KOpening id); rq_correlation := None; rq_batch := None; rq_source := "manual";
     rq_ledger_type := Some Opening; rq_mirror := false |}.

Definition create_ingredient (u : staff) (now : Z) (new_id : string) (body : ingredient_in) (s : shop) : res (shop * string) :=
  let owner := if st_branch_user u then st_owner u else st_user u in
  let name := strip (in_name body) in
  _ ← raise_if (bool_decide (name = ""%string)) (HTTPException 400 "name required");
  match find (λ p, bool_decide (i_user p.2 = owner ∧ lower (i_name p.2) = lower name) && negb (i_deleted p.2))
          (map_to_list (ingredients (stock s))) with
  | Some p => Ok (s, p.1)
  | None =>
      row ← ingredient_row u body;
      _ ← raise_if (bool_decide (is_Some (ingredients (stock s) !! new_id))) (DatabaseError "ingredients_pkey");
      let db := with_ingredients (<[new_id := row]>) (stock s) in
      if (0 <? fmant (in_stock body)) && str_truthy (st_restaurant u) then
        match append_event now (opening_request u new_id body) db with
        | Ok (db', _) => Ok (with_stock db' s, new_id)
        | Err _ => Ok (with_stock db s, new_id)
        end
      else Ok (with_stock db s, new_id)
  end.

(** ** Unit conversions and alerts *)

(** [upsert_conversion]: a NULL ingredient never conflicts; a new row takes a random id,
    whose place among the others is [at_]. *)
Record conversion_in := { co_ingredient : option string; co_from : string; co_to : string; co_factor : decimal }.

Definition same_conversion (rid : string) (ingredient_id : option string) (f t : string) (u : unit_conversion) : Prop :=
  u_restaurant u = Some rid ∧ same_id (u_ingredient u) ingredient_id = true ∧ u_from u = f ∧ u_to u = t.
#[export] Instance same_conversion_dec rid i f t u : Decision (same_conversion rid i f t u).
Proof. unfold same_conversion. apply _. Defined.
Definition set_factor (factor : Z) (u : unit_conversion) : unit_conversion :=
  {| u_restaurant := u_restaurant u; u_ingredient := u_ingredient u; u_from := u_from u; u_to := u_to u; u_factor := factor; u_active := true |}.

Definition upsert_conversion (u : staff) (at_ : nat) (body : conversion_in) (s : shop) : res (shop * ()) :=
  rid ← restaurant_of u;
  f ← varchar 50 (co_from body);
  t ← varchar 50 (co_to body);
  factor ← numeric 18 8 (float_param (co_factor body));
  _ ← raise_if (factor <=? 0) (DatabaseError "unit_conversions_factor_check");
  _ ← match co_ingredient body with None => Ok () | Some i => ingredient_key (stock s) i end;
  let rows := unit_conversions (stock s) in
  let rows' :=
    match list_find (same_conversion rid (co_ingredient body) f t) rows with
    | Some (k, _) => alter (set_factor factor) k rows
    | None => take at_ rows ++ [{| u_restaurant := Some rid; u_ingredient := co_ingredient body; u_from := f; u_to := t;
                                   u_factor := factor; u_active := true |}] ++ drop at_ rows
    end in
  Ok (with_stock (with_conversions rows' (stock s)) s, ()).

(** [ack_alert] and [resolve_alert] find the alert by its id alone. *)
Definition set_alert_status (st : alert_status) (a : alert) : alert :=
  {| al_restaurant := al_restaurant a; al_branch := al_branch a; al_ingredient := al_ingredient a; al_type := al_type a;
     al_current := al_current a; al_threshold := al_threshold a; al_status := st |}.
Definition ack_alert (id : nat) (s : shop) : shop := with_stock (with_alerts (alter (set_alert_status AAcknowledged) id) (stock s)) s.
Definition resolve_alert (id : nat) (s : shop) : shop := with_stock (with_alerts (alter (set_alert_status AResolved) id) (stock s)) s.

(** [reconciliation_drift]: the ingredients whose mirror is more than a thousandth away from
    the ledger, with the two figures. *)
Definition reconciliation_drift (restaurant : option string) (db : stock_db) : list (string * Z * Z) :=
  if str_truthy restaurant then
    flat_map (λ p, let b := fn_inventory_balance db p.1 None None in
                   if same_id (i_restaurant p.2) restaurant && negb (i_deleted p.2) && (1 <? Z.abs (i_current_stock p.2 - b))
                   then [(p.1, i_current_stock p.2, b)] else []) (map_to_list (ingredients db))
  else [].

(** ** The older endpoints of [api/v1/erp.py]

    They write rows into the same ledger, with no key, no mirror and no check of the
    balance. *)

Definition erp_row (db : stock_db) (rid : string) (branch : option string) (ingredient_id : string) (ltype : txn_type)
    (q_in q_out cost : decimal) (ref : reference) (now : Z) : res stock_db :=
  i ← numeric 12 3 q_in;
  o ← numeric 12 3 q_out;
  c ← numeric 10 2 cost;
  _ ← raise_if ((i <? 0) || (o <? 0) || negb ((0 <? i) || (0 <? o))) (DatabaseError "inventory_ledger_check");
  _ ← raise_if (negb (branch_exists db branch)) (DatabaseError "inventory_ledger_branch_id_fkey");
  _ ← ingredient_key db ingredient_id;
  Ok (with_ledger (λ l, l ++ [{| l_restaurant := rid; l_branch := branch; l_ingredient := ingredient_id; l_type := ltype; l_in := i;
                                 l_out := o; l_cost := c; l_reference := ref; l_dedup := None; l_correlation := None; l_batch := None;
                                 l_source := "system"; l_reversed_by := None; l_reverses := None; l_at := now |}]) db).

Definition adjust_stock (u : staff) (now : Z) (branch : option string) (ingredient_id : string) (ltype : txn_type) (quantity cost : float64)
    (s : shop) : res shop :=
  _ ← raise_if (negb (bool_decide (ltype ∈ [AdjustmentIn; AdjustmentOut; Wastage]))) (HTTPException 400 "transaction_type must be one of");
  rid ← not_null (st_restaurant u);
  let q := exact_decimal quantity in
  let inward := bool_decide (ltype = AdjustmentIn) in
  db ← erp_row (stock s) rid (branch_or branch u) ingredient_id ltype (if inward then q else d_zero) (if inward then d_zero else q)
         (exact_decimal cost) RManual now;
  Ok (with_stock db s).

(** A receipt is entered as a draft; verifying it books it.  The line totals are not
    modelled. *)
Definition grn_item_row (db : stock_db) (it : string * float64 * float64) : res (string * Z * Z) :=
  _ ← ingredient_key db it.1.1;
  q ← numeric 12 3 (exact_decimal it.1.2);
  c ← numeric 10 2 (exact_decimal it.2);
  Ok (it.1.1, q, c).
Definition create_grn (u : staff) (branch : option string) (items : list (string * float64 * float64)) (s : shop) : res (shop * Z) :=
  rid ← not_null (st_restaurant u);
  _ ← raise_if (negb (branch_exists (stock s) (branch_or branch u))) (DatabaseError "goods_receipt_notes_branch_id_fkey");
  rows ← res_map (grn_item_row (stock s)) items;
  Ok (with_receipts (λ l, l ++ [{| gr_restaurant := rid; gr_branch := branch_or branch u; gr_draft := true; gr_items := rows |}]) s,
      Z.of_nat (length (receipts s))).
Definition verify_grn_item (rid : string) (now : Z) (id : Z) (branch : option string) (db : stock_db) (it : string * Z * Z) : res stock_db :=
  erp_row db rid branch it.1.1 Purchase (milli it.1.2) d_zero (Dec it.2 (-2)) (RGrn id) now.
Definition verify_grn (u : staff) (now : Z) (id : Z) (s : shop) : res shop :=
  match at_index (receipts s) id with
  | Some g =>
      let rid := gr_restaurant g in
      _ ← raise_if (negb (is_id (st_restaurant u) rid)) (HTTPException 404 "GRN not found");
      _ ← raise_if (negb (gr_draft g)) (HTTPException 400 "Cannot verify GRN in status:");
      db ← res_foldl (verify_grn_item rid now id (gr_branch g)) (stock s) (gr_items g);
      let g' := {| gr_restaurant := gr_restaurant g; gr_branch := gr_branch g; gr_draft := false; gr_items := gr_items g |} in
      Ok (with_receipts (<[Z.to_nat id := g']>) (with_stock db s))
  | None => Err (HTTPException 404 "GRN not found")
  end.

(** A transfer of the older endpoint: any branches, ingredients in any number of lines, or
    none. *)
Definition erp_transfer_row (db : stock_db) (l : string * float64 * option string) : res transfer_item :=
  _ ← ingredient_key db l.1.1;
  q ← numeric 12 3 (exact_decimal l.1.2);
  _ ← raise_if (q <=? 0) (DatabaseError "stock_transfer_items_quantity_sent_check");
  un ← varchar_opt 50 l.2;
  Ok {| ti_ingredient := l.1.1; ti_sent := q; ti_received := None; ti_unit := un |}.
Definition erp_create_transfer (u : staff) (from_branch to_branch : string) (items : list (string * float64 * option string)) (s : shop)
    : res (shop * Z) :=
  _ ← raise_if (bool_decide (from_branch = to_branch)) (HTTPException 400 "Cannot transfer to the same branch");
  rid ← not_null (st_restaurant u);
  _ ← raise_if (negb (branch_exists (stock s) (Some from_branch) && branch_exists (stock s) (Some to_branch)))
        (DatabaseError "stock_transfers_branch_id_fkey");
  rows ← res_map (erp_transfer_row (stock s)) items;
  Ok (with_transfers (λ l, l ++ [{| tr_restaurant := rid; tr_from := from_branch; tr_to := to_branch; tr_status := TDraft;
                                    tr_return_of := None; tr_items := rows |}]) s, Z.of_nat (length (transfers s))).

Definition erp_transfer (s : shop) (u : staff) (id : Z) (status : transfer_status) (missing : string) : res transfer :=
  match at_index (transfers s) id with
  | Some t => if is_id (st_restaurant u) (tr_restaurant t) && bool_decide (tr_status t = status) then Ok t else Err (HTTPException 404 missing)
  | None => Err (HTTPException 404 missing)
  end.
Definition approve_transfer (u : staff) (id : Z) (s : shop) : res shop :=
  t ← erp_transfer s u id TDraft "Transfer not found or not in draft status";
  Ok (with_transfers (<[Z.to_nat id := set_transfer t TApproved (tr_items t)]>) s).

Definition erp_ship_item (rid : string) (now : Z) (id : Z) (t : transfer) (db : stock_db) (it : transfer_item) : res stock_db :=
  erp_row db rid (Some (tr_from t)) (ti_ingredient it) TransferOut d_zero (milli (ti_sent it)) d_zero (RErpTransfer id) now.
Definition erp_ship_transfer (u : staff) (now : Z) (id : Z) (s : shop) : res shop :=
  t ← erp_transfer s u id TApproved "Transfer not found or not approved";
  db ← res_foldl (erp_ship_item (tr_restaurant t) now id t) (stock s) (tr_items t);
  Ok (with_transfers (<[Z.to_nat id := set_transfer t TInTransit (tr_items t)]>) (with_stock db s)).

Definition erp_receive_item (rid : string) (now : Z) (id : Z) (t : transfer) (a : stock_db * list transfer_item) (line : string * float64)
    : res (stock_db * list transfer_item) :=
  let q := exact_decimal line.2 in
  received ← numeric 12 3 q;
  db ← erp_row a.1 rid (Some (tr_to t)) line.1 TransferIn q d_zero d_zero (RErpTransfer id) now;
  Ok (db, map (λ it, if bool_decide (ti_ingredient it = line.1) then set_received received it else it) a.2).
Definition erp_receive_transfer (u : staff) (now : Z) (id : Z) (lines : list (string * float64)) (s : shop) : res shop :=
  t ← erp_transfer s u id TInTransit "Transfer not found or not in transit";
  '(db, items) ← res_foldl (erp_receive_item (tr_restaurant t) now id t) (stock s, tr_items t) lines;
  Ok (with_transfers (<[Z.to_nat id := set_transfer t TReceived items]>) (with_stock db s)).

(** ** Runs

    One call of one of the endpoints; a call that raises leaves what its transaction left,
    which is nothing for all but adjustments, wastage and restocks. *)
Inductive stock_op :=
  | OConsume (c : order_context) (items : list order_item)
  | ORestock (now : Z) (order : string)
  | OCancel (now : Z) (order : string)
  | OAdjust (u : staff) (now : Z) (body : adjustment_in)
  | OWaste (u : staff) (now : Z) (body : wastage_in)
  | OSale (restaurant : string) (branch : option string) (now : Z) (items : list sale_in) (allow_negative : bool)
  | ORecipe (restaurant output : string) (yield_quantity : decimal) (inputs : list recipe_input)
  | OConvert (restaurant : string) (branch : option string) (now : Z) (output : string) (produced : decimal) (recipe_id : option Z)
      (inputs : list (string * decimal)) (allow_negative : bool)
  | OTransfer (u : staff) (from_branch to_branch : string) (items : list transfer_line_in)
  | OShip (u : staff) (now : Z) (id : Z)
  | OReceive (u : staff) (now : Z) (id : Z) (requested : option (list (string * decimal)))
  | OReturn (u : staff) (id : Z) (items : list (string * (decimal * option string)))
  | OStartCount (u : staff) (branch : option string) (number : string)
  | OSubmitCount (u : staff) (id : Z) (ingredient_id : string) (counted : decimal) (unit : option string)
  | OFinalizeCount (u : staff) (now : Z) (id : Z)
  | OPurchase (u : staff) (now today : Z) (id : Z) (requested : option (list receipt_line))
  | OConversion (u : staff) (at_ : nat) (body : conversion_in)
  | OAck (id : nat)
  | OResolve (id : nat)
  | OIngredient (u : staff) (now : Z) (new_id : string) (body : ingredient_in)
  | OErpAdjust (u : staff) (now : Z) (branch : option string) (ingredient_id : string) (ltype : txn_type) (quantity cost : float64)
  | OErpReceipt (u : staff) (branch : option string) (items : list (string * float64 * float64))
  | OErpVerify (u : staff) (now : Z) (id : Z)
  | OErpTransfer (u : staff) (from_branch to_branch : string) (items : list (string * float64 * option string))
  | OErpApprove (u : staff) (id : Z)
  | OErpShip (u : staff) (now : Z) (id : Z)
  | OErpReceive (u : staff) (now : Z) (id : Z) (lines : list (string * float64)).

Definition after {A} (s : shop) (r : res (shop * A)) : shop := match r with Ok (s', _) => s' | Err _ => s end.

Definition after_ (s : shop) (r : res shop) : shop := match r with Ok s' => s' | Err _ => s end.

Definition do_op (s : shop) (op : stock_op) : shop :=
  match op with
  | OConsume c items => match consume_for_order c items (stock s) with Ok (db, _) => with_stock db s | Err _ => s end
  | ORestock now order => with_stock (restock_cancelled_order now order (stock s)).1 s
  | OCancel now order => with_stock (reverse_ledger now order (stock s)) s
  | OAdjust u now body => (create_adjustment u now body s).1
  | OWaste u now body => (log_wastage u now body s).1
  | OSale r b now items neg => after s (create_sale r b now items neg s)
  | ORecipe r o y inputs => after s (create_recipe r o y inputs s)
  | OConvert r b now o q id inputs neg => after s (convert r b now o q id inputs neg s)
  | OTransfer u f t items => after s (create_transfer u f t items s)
  | OShip u now id => after s (ship_transfer u now id s)
  | OReceive u now id requested => after s (receive_transfer u now id requested s)
  | OReturn u id items => after s (create_transfer_return u id items s)
  | OStartCount u b n => after s (start_count u b n s)
  | OSubmitCount u id i q unit => match submit_count_item u id i q unit s with Ok s' => s' | Err _ => s end
  | OFinalizeCount u now id => after s (finalize_count u now id s)
  | OPurchase u now today id requested => after s (receive_purchase_order u now today id requested s)
  | OConversion u at_ body => after s (upsert_conversion u at_ body s)
  | OAck id => ack_alert id s
  | OResolve id => resolve_alert id s
  | OIngredient u now new_id body => after s (create_ingredient u now new_id body s)
  | OErpAdjust u now b i t q c => after_ s (adjust_stock u now b i t q c s)
  | OErpReceipt u b items => after s (create_grn u b items s)
  | OErpVerify u now id => after_ s (verify_grn u now id s)
  | OErpTransfer u f t items => after s (erp_create_transfer u f t items s)
  | OErpApprove u id => after_ s (approve_transfer u id s)
  | OErpShip u now id => after_ s (erp_ship_transfer u now id s)
  | OErpReceive u now id lines => after_ s (erp_receive_transfer u now id lines s)
  end.
Definition run (s : shop) (ops : list stock_op) : shop := foldl do_op s ops.
