(* ===== verification/InventoryStock.v ===== *)
(** Inventory, what the ledger records: how a movement changes the tables
    ([append_event_inv]), what the columns of a stored quantity keep of the decimal it came
    from ([stored_close], [stored_le], [stored_milli]), and which movements each operation
    makes ([op_moves]).  The theorems about the stock are in InventoryOrders,
    InventoryMirror and InventoryBatches. *)

From Stdlib Require Import ZArith Lia Ascii String.
From stdpp Require Import sorting relations.
From S2P Require Import Prelude PyDecimal PyFloat PyValues Inventory InventoryMoves.
Open Scope Z_scope.

(** ** One movement *)

Definition event_of (rq : stock_request) (id : Z) : stock_event :=
  {| se_type := rq_event rq; se_event_id := id; se_ingredient := rq_ingredient rq; se_branch := rq_branch rq;
     se_in := of_decimal (rq_in rq); se_out := of_decimal (rq_out rq); se_cost := of_decimal (rq_cost rq); se_batch := rq_batch rq |}.
Definition ledger_type_of (rq : stock_request) : option txn_type :=
  match rq_ledger_type rq with Some t => Some t | None => EVENT_TO_LEDGER (rq_event rq) end.
Definition delta_of (rq : stock_request) : decimal := dsub (rq_in rq) (rq_out rq).

(** The row a movement appends, and what it does to the other tables. *)
Record records (now : Z) (rq : stock_request) (r : ledger_row) : Prop := {
  rec_restaurant : rq_restaurant rq = Some (l_restaurant r);
  rec_branch : l_branch r = rq_branch rq;
  rec_ingredient : l_ingredient r = rq_ingredient rq;
  rec_type : ledger_type_of rq = Some (l_type r);
  rec_in : numeric 12 3 (float_param (rq_in rq)) = Ok (l_in r);
  rec_out : numeric 12 3 (float_param (rq_out rq)) = Ok (l_out r);
  rec_some : 0 < l_in r ∨ 0 < l_out r;
  rec_reference : l_reference r = rq_reference rq;
  rec_dedup : l_dedup r = rq_dedup rq;
  rec_correlation : l_correlation r = rq_correlation rq;
  rec_batch : l_batch r = rq_batch rq;
  rec_unmarked : l_reversed_by r = None ∧ l_reverses r = None
}.

Record appends (now : Z) (rq : stock_request) (db db' : stock_db) (r : ledger_row) : Prop := {
  ap_records : records now rq r;
  ap_sided : (0 <= coef (rq_in rq) ∧ 0 <= coef (rq_out rq)) ∧ (coef (rq_in rq) = 0 ∨ coef (rq_out rq) = 0);
  ap_owned : is_ok (get_ingredient db (rq_restaurant rq) (rq_ingredient rq)) = true;
  ap_branch : branch_exists db (rq_branch rq) = true;
  ap_ledger : ledger db' = ledger db ++ [r];
  ap_mirror : mirror_stock db (rq_ingredient rq) (delta_of rq) = Ok (with_ingredients (λ _, ingredients db') db) ∨
              ingredients db' = ingredients db ∧ (deqb (delta_of rq) d_zero = true ∨ rq_mirror rq = false);
  ap_batches : match rq_batch rq with
               | None => batches db' = batches db
               | Some b => move_batch db rq (delta_of rq) b = Ok (with_batches (λ _, batches db') db)
               end;
  ap_frame : (unit_conversions db', recipes db', item_ingredients db', sub_branches db', alerts db') =
             (unit_conversions db, recipes db, item_ingredients db, sub_branches db, alerts db);
  ap_published : published db' = published db ++ [event_of rq (Z.of_nat (length (ledger db)))]
}.

Lemma dpos_coef d : dpos d = (0 <? coef d).
Proof.
  unfold dpos. rewrite (dltb_at_scale (Z.max 0 (- dexp d)) d_zero d 0 (coef d * 10 ^ (dexp d + Z.max 0 (- dexp d)))).
  - pose proof (pow10_pos (dexp d + Z.max 0 (- dexp d)) ltac:(lia)). destruct (Z.ltb_spec 0 (coef d)), (Z.ltb_spec 0 (coef d * 10 ^ (dexp d + Z.max 0 (- dexp d)))); nia.
  - by apply at_scale_zero.
  - apply at_scale_fine. lia.
Qed.

Lemma dltb_zero d : dltb d d_zero = (coef d <? 0).
Proof.
  rewrite (dltb_at_scale (Z.max 0 (- dexp d)) d d_zero (coef d * 10 ^ (dexp d + Z.max 0 (- dexp d))) 0).
  - pose proof (pow10_pos (dexp d + Z.max 0 (- dexp d)) ltac:(lia)). destruct (Z.ltb_spec (coef d) 0), (Z.ltb_spec (coef d * 10 ^ (dexp d + Z.max 0 (- dexp d))) 0); nia.
  - apply at_scale_fine. lia.
  - by apply at_scale_zero.
Qed.

Lemma mirror_stock_frame db id d db' : mirror_stock db id d = Ok db' → db' = with_ingredients (λ _, ingredients db') db.
Proof. unfold mirror_stock. destruct (ingredients db !! id); intros H; inv_res; subst; [by destruct db|by destruct db']. Qed.

Lemma move_batch_frame db rq d id db' : move_batch db rq d id = Ok db' → db' = with_batches (λ _, batches db') db.
Proof.
  unfold move_batch. destruct (id <? 0); [done|]. destruct (batches db !! _) as [b|]; [|done].
  destruct (_ && _); [|done]. intros H. inv_res. subst. by destruct db.
Qed.

(** A batch is moved the same whatever else changed, as long as the batches did not. *)
Lemma move_batch_same db1 db2 rq d id db' :
  batches db1 = batches db2 → move_batch db1 rq d id = Ok db' → move_batch db2 rq d id = Ok (with_batches (λ _, batches db') db2).
Proof.
  intros E. unfold move_batch. destruct (id <? 0); [done|]. rewrite E. destruct (batches db2 !! _) as [b|]; [|done].
  destruct (_ && _); [|done]. intros H. inv_res. subst. rewrite Hy. cbn. by rewrite E.
Qed.

Lemma mirror_stock_same db1 db2 id d db' :
  ingredients db1 = ingredients db2 → mirror_stock db1 id d = Ok db' →
  mirror_stock db2 id d = Ok (with_ingredients (λ _, ingredients db') db2).
Proof.
  intros E. unfold mirror_stock. rewrite E. destruct (ingredients db2 !! id) as [i|]; intros H; inv_res; subst.
  - rewrite Hy. cbn. by rewrite E.
  - rewrite E. by destruct db2.
Qed.

Lemma append_event_inv now rq db db' id :
  append_event now rq db = Ok (db', id) →
  (db' = db ∧ find_dedup db (rq_restaurant rq) (rq_dedup rq) = Some id) ∨
  (∃ r, find_dedup db (rq_restaurant rq) (rq_dedup rq) = None ∧ id = Z.of_nat (length (ledger db)) ∧ appends now rq db db' r).
Proof.
  unfold append_event. intros H. inv_res. fold (ledger_type_of rq) in H. destruct (ledger_type_of rq) as [ty|] eqn:Ety; [|done].
  inv_res. destruct (find_dedup _ _ _) as [old|] eqn:Ef; [inv_res; left; naive_solver|].
  right. unfold fn_inventory_append_event in H. rewrite Ef in H. inv_res.
  apply orb_false_iff in Hy as [N1 N2]. rewrite dltb_zero in N1, N2. apply Z.ltb_ge in N1, N2.
  apply andb_false_iff in Hy0. rewrite !dpos_coef, !Z.ltb_ge in Hy0.
  destruct (rq_restaurant rq) as [rid|] eqn:Er; inv_res. subst. cbn [fst snd] in H.
  match type of H with context [with_ledger (λ l, l ++ [?x]) db] => set (row := x) in * end. inv_res.
  exists row. split; [done|].
  apply negb_false_iff in Hy8, Hy9. apply orb_true_iff in Hy8. rewrite !Z.ltb_lt in Hy8.
  set (db1 := with_ledger (λ l, l ++ [row]) db) in *.
  match goal with E : (if _ then _ else _) = Ok ?d |- _ => rename d into db2; rename E into Hm end.
  match goal with E : match rq_batch rq with _ => _ end = Ok ?d |- _ => rename d into db3; rename E into Hb end.
  assert (db2 = with_ingredients (λ _, ingredients db2) db1) as E2.
  { clear -Hm. revert Hm. destruct (_ && _); intros Hm; [by eapply mirror_stock_frame|]. injection Hm as <-. by destruct db1. }
  assert (db3 = with_batches (λ _, batches db3) db2) as E3.
  { clear -Hb. destruct (rq_batch rq); [by eapply move_batch_frame|]. injection Hb as <-. by destruct db2. }
  assert (batches db2 = batches db) as B2 by (by rewrite E2).
  assert (ingredients db3 = ingredients db2) as I3 by (by rewrite E3).
  subst db' id. split; [done|]. split; cbn.
  - split; cbn; try done.
  - split; [done|]. lia.
  - by rewrite Er, Hy2.
  - done.
  - by rewrite E3, E2.
  - rewrite I3. revert Hm. destruct (negb _ && rq_mirror rq) eqn:Ec; intros Hm.
    + left. by apply (mirror_stock_same db1 db _ _ _ eq_refl) in Hm.
    + right. injection Hm as <-. split; [done|]. apply andb_false_iff in Ec as [Ec|Ec]; [left; by apply negb_false_iff|by right].
  - destruct (rq_batch rq); [by apply (move_batch_same db2 db _ _ _ _ B2)|]. injection Hb as <-. done.
  - by rewrite E3, E2.
  - by rewrite E3, E2.
Qed.

(** ** What the columns hold *)

Record stock_columns (db : stock_db) : Prop := {
  col_rows : Forall (λ r, 0 <= l_in r < 10 ^ 12 ∧ 0 <= l_out r < 10 ^ 12) (ledger db);
  col_batches : Forall (λ b, Z.abs (b_remaining b) < 10 ^ 14) (batches db)
}.

Lemma float_param_nonneg d : 0 <= coef d → 0 <= coef (float_param d).
Proof.
  intros Hd. unfold float_param, of_decimal. set (n := coef d * _). set (k := 10 ^ _).
  assert (0 < k) as Hk by (apply pow10_pos; lia).
  assert (0 <= n) as Hn by (apply Z.mul_nonneg_nonneg; [done|]; apply Z.lt_le_incl, pow10_pos; lia).
  destruct (Z.eq_dec n 0) as [->|]; [by vm_compute|].
  destruct (of_ratio_spec n k ltac:(lia) Hk) as (_ & _ & Hm & _). unfold exact_decimal.
  destruct (0 <=? _); cbn [coef]; apply Z.mul_nonneg_nonneg; try lia; apply Z.pow_nonneg; lia.
Qed.

Lemma numeric_inv p s d n : numeric p s d = Ok n → n = rescale ROUND_HALF_UP (- s) d ∧ Z.abs n < 10 ^ p.
Proof. unfold numeric. destruct (Z.ltb_spec (Z.abs (rescale ROUND_HALF_UP (- s) d)) (10 ^ p)); intros E; inv_res; by subst. Qed.

Lemma stored_nonneg p s d n : 0 <= coef d → numeric p s (float_param d) = Ok n → 0 <= n < 10 ^ p.
Proof. intros Hd [-> Hn]%numeric_inv. pose proof (rescale_nonneg ROUND_HALF_UP (- s) _ (float_param_nonneg d Hd)). lia. Qed.

(** A stored quantity against the decimal it came from, in units of 10^-K: the column's
    rounding, and the float's error, which is far below a thousandth. *)
Lemma stored_close d q K :
  0 < coef d → numeric 12 3 (float_param d) = Ok q → - dexp d <= K → - dexp (float_param d) <= K → 3 <= K →
  2 * Z.abs (q * 10 ^ (K - 3) - scaled K (float_param d)) <= 10 ^ (K - 3) ∧
  2 ^ 23 * Z.abs (scaled K (float_param d) - scaled K d) <= 10 ^ K.
Proof.
  intros Hd [Eq Hq]%numeric_inv HK HKx HK3.
  rewrite (rescale_fine _ 3 K) in Eq by lia. fold (scaled K (float_param d)) in Eq.
  pose proof (pow10_pos (K - 3) ltac:(lia)) as HP.
  pose proof (round_div_error ROUND_HALF_UP (scaled K (float_param d)) (10 ^ (K - 3)) HP) as Herr. rewrite <-Eq in Herr.
  split; [done|]. assert (10 ^ K = 1000 * 10 ^ (K - 3)) as EK.
  { change 1000 with (10 ^ 3). rewrite <-pow10_split by lia. f_equal. lia. }
  apply (float_error_fine 22); [done..|lia|lia|]. change (2 ^ (53 - 22)) with 2147483648.
  change (10 ^ 12) with 1000000000000 in Hq. set (P := 10 ^ (K - 3)) in *.
  destruct (Z.le_gt_cases (10 ^ K) (scaled K d)) as [Hb|Hb]; [|lia].
  pose proof (float_half d K Hd HK HKx ltac:(lia) Hb). fold (float_param d) in *. nia.
Qed.

Lemma scaled_milli K n : 3 <= K → scaled K (milli n) = n * 10 ^ (K - 3).
Proof. intros. unfold scaled, milli. cbn [coef dexp]. f_equal. f_equal. lia. Qed.

(** What is stored of a decimal that is at most [n] thousandths is at most [n]; a whole
    number of thousandths is stored as it is. *)
Lemma stored_le d q n : 0 < coef d → numeric 12 3 (float_param d) = Ok q → dltb (milli n) d = false → q <= n.
Proof.
  intros Hd Hq Hn. set (K := Z.max 3 (Z.max (- dexp d) (- dexp (float_param d)))).
  destruct (stored_close d q K Hd Hq) as [H1 H2]; [lia..|].
  rewrite (dltb_at_scale K _ _ _ _ (at_scale_fine K (milli n) ltac:(cbn; lia)) (at_scale_fine K d ltac:(lia))) in Hn.
  apply Z.ltb_ge in Hn. fold (scaled K d) (scaled K (milli n)) in Hn. rewrite scaled_milli in Hn by lia.
  assert (10 ^ K = 1000 * 10 ^ (K - 3)) as EK by (change 1000 with (10 ^ 3); rewrite <-pow10_split by lia; f_equal; lia).
  rewrite EK in H2. pose proof (pow10_pos (K - 3) ltac:(lia)) as HP. change (2 ^ 23) with 8388608 in H2.
  set (P := 10 ^ (K - 3)) in *. clearbody P. set (X := scaled K (float_param d)) in *. set (S := scaled K d) in *. clearbody X S. nia.
Qed.

Lemma stored_milli n q : 0 <= n → numeric 12 3 (float_param (milli n)) = Ok q → q = n.
Proof.
  intros Hn Hq. destruct (Z.eq_dec n 0) as [->|Hn0]; [apply numeric_inv in Hq as [-> _]; by vm_compute|].
  set (K := Z.max 3 (- dexp (float_param (milli n)))).
  destruct (stored_close (milli n) q K ltac:(cbn; lia) Hq) as [H1 H2]; [cbn; lia|lia..|].
  rewrite scaled_milli in H2 by lia.
  assert (10 ^ K = 1000 * 10 ^ (K - 3)) as EK by (change 1000 with (10 ^ 3); rewrite <-pow10_split by lia; f_equal; lia).
  rewrite EK in H2. pose proof (pow10_pos (K - 3) ltac:(lia)) as HP. change (2 ^ 23) with 8388608 in H2.
  set (P := 10 ^ (K - 3)) in *. clearbody P. set (X := scaled K (float_param (milli n))) in *. clearbody X. nia.
Qed.

Lemma stored_zero q : numeric 12 3 (float_param d_zero) = Ok q → q = 0.
Proof. intros [-> _]%numeric_inv. by vm_compute. Qed.

Lemma batch_moved db rq d b db' :
  Forall (λ b, Z.abs (b_remaining b) < 10 ^ 14) (batches db) → move_batch db rq d b = Ok db' →
  Forall (λ b, Z.abs (b_remaining b) < 10 ^ 14) (batches db').
Proof.
  intros Hdb. unfold move_batch. destruct (b <? 0); [done|]. destruct (batches db !! _) as [x|]; [|done].
  destruct (_ && _); [|done]. intros H. inv_res. subst. cbn. apply Forall_insert; [done|]. cbn. by apply numeric_inv in Hy as [_ ?].
Qed.

(** ** Moves

    What an operation does to the stock, as a sequence of movements that satisfy [ok], of
    rows the older endpoints write straight into the ledger, of reversals of an order's
    rows, and of changes that touch neither the ledger nor the mirror of an ingredient. *)
Definition stock_of (db : stock_db) (id : string) : option (Z * Z) :=
  (λ i, (i_current_stock i, i_stock_quantity i)) <$> ingredients db !! id.

Record calm (db db' : stock_db) : Prop := {
  calm_stock : ∀ id x, stock_of db id = Some x → stock_of db' id = Some x;
  calm_ledger : ledger db' = ledger db;
  calm_published : published db' = published db;
  calm_batches : Forall (λ b, Z.abs (b_remaining b) < 10 ^ 14) (batches db) → Forall (λ b, Z.abs (b_remaining b) < 10 ^ 14) (batches db')
}.

(** The row of [erp_row]: the numbers as they come, no key and no mirror.  The event kind is
    not used: nothing is published. *)
Definition plain_request (rid : string) (branch : option string) (i : string) (t : txn_type) (q_in q_out cost : decimal) (ref : reference)
    : stock_request :=
  {| rq_restaurant := Some rid; rq_branch := branch; rq_ingredient := i; rq_event := INVENTORY_ADJUSTED; rq_in := q_in; rq_out := q_out;
     rq_cost := cost; rq_reference := ref; rq_dedup := None; rq_correlation := None; rq_batch := None; rq_source := "system";
     rq_ledger_type := Some t; rq_mirror := false |}.
Record plain_row (rq : stock_request) (r : ledger_row) : Prop := {
  pr_branch : l_branch r = rq_branch rq;
  pr_ingredient : l_ingredient r = rq_ingredient rq;
  pr_type : ledger_type_of rq = Some (l_type r);
  pr_reference : l_reference r = rq_reference rq;
  pr_dedup : rq_dedup rq = None ∧ l_dedup r = None;
  pr_in : numeric 12 3 (rq_in rq) = Ok (l_in r) ∧ 0 <= l_in r;
  pr_out : numeric 12 3 (rq_out rq) = Ok (l_out r) ∧ 0 <= l_out r;
  pr_mirror : rq_mirror rq = false
}.

Inductive move (ok : stock_db → stock_request → Prop) : stock_db → stock_db → Prop :=
  | m_append now rq db db' id : ok db rq → append_event now rq db = Ok (db', id) → move ok db db'
  | m_row rq r db : ok db rq → plain_row rq r → move ok db (with_ledger (λ l, l ++ [r]) db)
  | m_reverse now k o db db' id :
      event_at db k = Some o → l_type o = Consumption → l_reversed_by o = None →
      reverse_event now k INVENTORY_RESTOCK_CANCELLED db = Ok (db', id) → move ok db db'
  | m_calm db db' : calm db db' → move ok db db'.
Definition moves ok := rtc (move ok).

#[export] Instance moves_preorder ok : PreOrder (moves ok).
Proof. unfold moves. apply _. Qed.

Lemma moves_once ok db db' : move ok db db' → moves ok db db'.
Proof. apply rtc_once. Qed.

Lemma calm_refl db : calm db db.
Proof. by split. Qed.

Lemma moves_weaken (ok ok' : stock_db → stock_request → Prop) db db' :
  (∀ d rq, ok d rq → ok' d rq) → moves ok db db' → moves ok' db db'.
Proof.
  intros Hw. induction 1 as [|x y z Hxy _ IH]; [done|]. etransitivity; [|exact IH]. apply moves_once.
  destruct Hxy; [eapply m_append; eauto|eapply m_row; eauto|eapply m_reverse; eauto|by apply m_calm].
Qed.

Lemma append_all_moves (ok : stock_db → stock_request → Prop) now rqs db db' ids :
  (∀ d rq, rq ∈ rqs → moves ok db d → ok d rq) → append_all now rqs db = Ok (db', ids) → moves ok db db'.
Proof.
  revert db ids. induction rqs as [|rq rqs IH]; intros db ids Hok H; cbn in H; inv_res; [by subst|].
  destruct y as [d i]. inv_res. destruct y as [d' ids']. inv_res. subst.
  assert (moves ok db d) as Hd by (apply moves_once; eapply m_append; [|done]; by apply Hok; [left|]).
  etransitivity; [exact Hd|]. eapply IH; [|done]. intros x r Hr Hx. apply Hok; [by right|]. by etransitivity.
Qed.

(** *** Every move keeps the columns *)

Lemma append_columns now rq db db' id : append_event now rq db = Ok (db', id) → stock_columns db → stock_columns db'.
Proof.
  intros [[-> _]|(r & _ & _ & A)]%append_event_inv; [done|]. intros [Hr Hb]. pose proof (ap_records _ _ _ _ _ A) as R.
  destruct (ap_sided _ _ _ _ _ A) as [[N1 N2] _]. split.
  - rewrite (ap_ledger _ _ _ _ _ A). apply Forall_app. split; [done|]. apply Forall_singleton.
    split; [apply (stored_nonneg 12 3 _ _ N1), R|apply (stored_nonneg 12 3 _ _ N2), R].
  - pose proof (ap_batches _ _ _ _ _ A) as Hm. destruct (rq_batch rq); [|by rewrite Hm].
    apply (batch_moved _ _ _ _ _ Hb) in Hm. done.
Qed.

Lemma Forall_alter {A} (P : A → Prop) f i (l : list A) : (∀ x, P x → P (f x)) → Forall P l → Forall P (alter f i l).
Proof.
  intros Hf. rewrite !Forall_lookup. intros Hl j x. rewrite list_lookup_alter. case_decide; [|apply Hl].
  intros (y & Hy & ->)%fmap_Some. eauto.
Qed.

Lemma reverse_event_cases now k ev db db' id o :
  event_at db k = Some o → l_reversed_by o = None → reverse_event now k ev db = Ok (db', id) →
  ∃ d, append_event now (reversal_request ev k o) db = Ok (d, id) ∧
    db' = with_ledger (λ l, alter (set_reversed_by id) (Z.to_nat k) (alter (set_reverses k) (Z.to_nat id) l)) d.
Proof. unfold reverse_event. intros -> ->. intros H. inv_res. destruct y as [d i]. inv_res. subst. by exists d. Qed.

Lemma move_columns ok db db' : move ok db db' → stock_columns db → stock_columns db'.
Proof.
  destruct 1 as [now rq db db' id _ H|rq r db _ [_ _ _ _ _ [I1 I2] [O1 O2] _]|now k o db db' id Ho _ Hn H|db db' [_ E _ B]]; intros C.
  - by eapply append_columns.
  - destruct C as [Hr Hb]. split; [|done]. cbn. apply Forall_app. split; [done|]. apply Forall_singleton.
    apply numeric_inv in I1 as [_ I1], O1 as [_ O1]. lia.
  - destruct (reverse_event_cases _ _ _ _ _ _ _ Ho Hn H) as (d & Hd & ->). apply append_columns in Hd as [Hr Hb]; [|done].
    split; [|done]. cbn. by apply Forall_alter; [|apply Forall_alter].
  - destruct C as [Hr Hb]. split; [by rewrite E|]. by apply B.
Qed.

Lemma moves_columns ok db db' : moves ok db db' → stock_columns db → stock_columns db'.
Proof. induction 1 as [|x y z H _ IH]; [done|]. intros C. apply IH. by eapply move_columns. Qed.

(** *** Where the movements of an operation come from *)

Definition sized (rq : stock_request) : Prop := fits (coef (rq_in rq)) ∧ fits (coef (rq_out rq)).

Definition made_by (op : stock_op) (rq : stock_request) : Prop :=
  match op with
  | OConsume c _ => ∃ id a, rq = consume_request c id a
  | OAdjust u _ body => ∃ rid, rq = adjustment_request u rid body
  | OWaste u _ body => ∃ rid, rq = wastage_request u rid body
  | OSale r b _ _ _ => ∃ id d, rq = sale_request (Some r) b id d
  | OConvert r b _ _ _ _ _ _ =>
      (∃ k l, rq = input_request (Some r) b k l) ∨ (∃ k o q c, rq = output_request (Some r) b k o q c)
  | OShip _ _ id => ∃ t i q c, rq = ship_request t id i q c
  | OReceive _ _ id _ => ∃ t i q g c, rq = receive_request t id i q g c
  | OFinalizeCount _ _ id => ∃ c i, rq = recount_request c id i
  | OPurchase _ _ _ id _ => ∃ r b l i q c g bt, rq = purchase_request r b id l i q c g bt
  | OIngredient u _ id body => rq = opening_request u id body
  | OErpAdjust _ _ _ i t _ _ => ∃ rid b q_in q_out c, rq = plain_request rid b i t q_in q_out c RManual ∧ t ≠ Consumption
  | OErpVerify _ _ id => ∃ rid b i q c, rq = plain_request rid b i Purchase q d_zero c (RGrn id)
  | OErpShip _ _ id => ∃ rid b i q, rq = plain_request rid b i TransferOut d_zero q d_zero (RErpTransfer id)
  | OErpReceive _ _ id _ => ∃ rid b i q, rq = plain_request rid b i TransferIn q d_zero d_zero (RErpTransfer id)
  | _ => False
  end.

(** The quantities a client sends, and that reach the mirror, have at most 28 digits. *)
Definition sized_op (op : stock_op) : Prop :=
  match op with
  | OAdjust _ _ body => fits (coef (aj_quantity body))
  | OWaste _ _ body => fits (coef (wa_quantity body))
  | OConvert _ _ _ _ q _ inputs _ => fits (coef q) ∧ Forall (λ l, fits (coef l.2)) inputs
  | _ => True
  end.

Definition count_columns (c : stock_count) : Prop :=
  Forall (λ i, Z.abs (ci_expected i) < 10 ^ 14 ∧ Z.abs (default 0 (ci_counted i)) < 10 ^ 14) (sc_items c).
Definition shop_columns (s : shop) : Prop := stock_columns (stock s) ∧ Forall count_columns (counts s).

Definition from_op (s : shop) (op : stock_op) (_ : stock_db) (rq : stock_request) : Prop :=
  made_by op rq ∧ (rq_mirror rq = true → sized_op op → shop_columns s → sized rq).

Lemma fits_small n : Z.abs n < 10 ^ 15 → fits n.
Proof. unfold fits, prec. change (10 ^ 28) with (10 ^ 15 * 10 ^ 13). lia. Qed.
Lemma dmul_fits a b : fits (coef (dmul a b)).
Proof. apply fix_prec_fits. Qed.
Lemma dadd_fits a b : fits (coef (dadd a b)).
Proof. apply fix_prec_fits. Qed.
Lemma zero_fits : fits 0.
Proof. by apply fits_small. Qed.
#[export] Hint Resolve dmul_fits dadd_fits zero_fits : res.

Lemma in_numbered {A} (l : list A) p : p ∈ numbered l → p.2 ∈ l.
Proof.
  unfold numbered. intros (i & Hi)%list_elem_of_lookup. rewrite list_lookup_imap in Hi.
  apply fmap_Some in Hi as (x & Hx & ->). cbn. by eapply list_elem_of_lookup_2.
Qed.

Lemma in_filtered {A} (f : A → bool) l x : x ∈ List.filter f l ↔ x ∈ l ∧ f x = true.
Proof. rewrite !list_elem_of_In. apply filter_In. Qed.

Lemma fefo_usable db r b id today p :
  p ∈ fefo_batches db r b id today → usable_batch r b id today p.2 = true ∧ p ∈ numbered (batches db).
Proof. unfold fefo_batches. rewrite merge_sort_Permutation, in_filtered. naive_solver. Qed.

Lemma take_batches_fits db r id u bs remaining takes missing :
  fits (coef remaining) → Forall (λ p, Z.abs (b_remaining p.2) < 10 ^ 14) bs →
  take_batches db r id u remaining bs = Ok (takes, missing) → Forall (λ a, fits (coef a.1.2)) takes.
Proof.
  revert remaining takes missing. induction bs as [|[k b] bs IH]; intros remaining takes missing Hr Hb H; cbn in H; [inv_res; subst; constructor|].
  destruct (dleb remaining d_zero); [inv_res; subst; constructor|]. inv_res. destruct y1 as [rest m]. inv_res. subst.
  apply Forall_cons in Hb as [Hb1 Hb2]. constructor.
  - cbn in *. destruct (dltb _ _); [|done]. apply fits_small. cbn. lia.
  - eapply IH; [| |done]; [|done]. apply dadd_fits.
Qed.

Lemma allocations_fit db r b id meta need today takes :
  fits (coef need) → stock_columns db → allocations db r b id meta need today = Ok takes → Forall (λ a, fits (coef a.1.2)) takes.
Proof.
  intros Hn [_ Hb]. unfold allocations. destruct (i_track_batches meta); intros H; inv_res; [|subst; by constructor].
  destruct y as [l m]. inv_res. subst. eapply take_batches_fits; [exact Hn| |done].
  apply Forall_forall. intros p [_ Hp]%fefo_usable. apply in_numbered in Hp. by eapply Forall_forall in Hb.
Qed.

Lemma alerts_calm r b db low : calm db (foldl (raise_low_stock_alert r b) db low).
Proof.
  revert db. induction low as [|a low IH]; intros db; [apply calm_refl|]. cbn. destruct (IH (raise_low_stock_alert r b db a)) as [E1 E2 E3 E4].
  assert (stock_of (raise_low_stock_alert r b db a) = stock_of db ∧ ledger (raise_low_stock_alert r b db a) = ledger db
    ∧ published (raise_low_stock_alert r b db a) = published db ∧ batches (raise_low_stock_alert r b db a) = batches db) as (A1 & A2 & A3 & A4).
  { unfold raise_low_stock_alert. destruct r; [|done]. destruct (bool_decide _); [done|]. by destruct (existsb _ _). }
  split; intros; [apply E1; by rewrite A1|by rewrite E2|by rewrite E3|apply E4; by rewrite A4].
Qed.

Lemma consume_ingredient_moves (s : shop) c items metas required st st' id :
  (∀ i d, required !! i = Some d → fits (coef d)) →
  moves (from_op s (OConsume c items)) (stock s) st.1.1 →
  consume_ingredient c metas required st id = Ok st' → moves (from_op s (OConsume c items)) st.1.1 st'.1.1.
Proof.
  intros Hreq Hst. destruct st as [[db done_] low]. cbn. destruct (required !! id) as [need|] eqn:En; [|done]. destruct (metas !! id) as [meta|]; [|done].
  intros H. inv_res. destruct y1 as [db' ids]. inv_res. subst. cbn in *. eapply append_all_moves; [|done].
  intros d rq (a & -> & Ha)%list_elem_of_fmap Hd. split; [by exists id, a|]. intros _ _ [C _]. split; [apply zero_fits|]. cbn.
  apply (allocations_fit _ _ _ _ _ _ _ _ (Hreq _ _ En)) in Hy0; [|by eapply moves_columns]. by eapply Forall_forall in Hy0.
Qed.

Lemma add_need_fits db r metas required l required' :
  (∀ i d, required !! i = Some d → fits (coef d)) → add_need db r metas required l = Ok required' →
  ∀ i d, required' !! i = Some d → fits (coef d).
Proof.
  intros Hr. unfold add_need. destruct (metas !! _) as [meta|]; [|done]. intros H. inv_res. subst. intros j d.
  rewrite lookup_insert_Some. intros [[_ <-]|[_ Hd]]; [apply dadd_fits|by eapply Hr].
Qed.

(** A loop keeps what each of its steps keeps. *)
Lemma res_foldl_inv {A S} (P : S → Prop) (f : S → A → res S) l s s' :
  (∀ x s s', x ∈ l → P s → f s x = Ok s' → P s') → P s → res_foldl f s l = Ok s' → P s'.
Proof.
  revert s. induction l as [|x l IH]; intros s Hf Hs H; cbn in H; inv_res; [by subst|].
  eapply IH; [| |exact H]; [|by eapply Hf; [left| |]]. intros z a b Hz. apply Hf. by right.
Qed.

Lemma consume_moves (s : shop) c items db' res_ :
  consume_for_order c items (stock s) = Ok (db', res_) → moves (from_op s (OConsume c items)) (stock s) db'.
Proof.
  unfold consume_for_order. destruct (List.filter _ _) as [|p ps]; [|intros H; inv_res; by subst].
  intros H. inv_res. destruct y as [|l ls]; [inv_res; by subst|]. inv_res. destruct y0 as [[db done_] low]. inv_res. subst.
  assert (∀ i d, y !! i = Some d → fits (coef d)) as Hreq.
  { eapply (res_foldl_inv (λ m : gmap string decimal, ∀ i d, m !! i = Some d → fits (coef d))); [|by intros ? ?; rewrite lookup_empty|exact Hy0].
    intros x a b _. apply add_need_fits. }
  transitivity db; [|apply moves_once, m_calm, alerts_calm].
  refine (res_foldl_inv (λ st, moves (from_op s (OConsume c items)) (stock s) st.1.1) _ _ _ _ _ _ Hy1); [|cbn; reflexivity].
  intros x a b _ Ha Hx. etransitivity; [exact Ha|]. by eapply consume_ingredient_moves.
Qed.

Lemma res_map_in {A B} (f : A → res B) l l' y : res_map f l = Ok l' → y ∈ l' → ∃ x, x ∈ l ∧ f x = Ok y.
Proof.
  intros H%res_map_Ok_Forall2. revert y. induction H as [|x z l l' Hx _ IH]; intros y Hy; [by apply elem_of_nil in Hy|].
  apply elem_of_cons in Hy as [->|Hy]; [exists x; split; [left|done]|].
  destruct (IH _ Hy) as (w & Hw & E). exists w. split; [by right|done].
Qed.

Lemma res_map_proj {A B C} (f : A → res B) (g : B → C) (h : A → C) l l' :
  (∀ x y, f x = Ok y → g y = h x) → res_map f l = Ok l' → map g l' = map h l.
Proof. intros Hf H%res_map_Ok_Forall2. induction H as [|x y l l' Hxy _ IH]; [done|]. cbn. by rewrite (Hf _ _ Hxy), IH. Qed.

Lemma sale_moves (s : shop) r b now items neg s' id :
  create_sale r b now items neg s = Ok (s', id) → moves (from_op s (OSale r b now items neg)) (stock s) (stock s').
Proof.
  unfold create_sale. intros H. inv_res. destruct y0 as [[prepared sub_total] tax_amount]. inv_res. destruct y9 as [db ids]. inv_res. subst. cbn.
  eapply append_all_moves; [|done]. intros d rq (l & -> & Hl)%list_elem_of_fmap _. split; [by eexists _, l|].
  intros _ _ _. split; [apply zero_fits|]. cbn. destruct (res_map_in _ _ _ _ Hy5 Hl) as (p & _ & Hp).
  unfold check_sale_line in Hp. inv_res. subst. apply dmul_fits.
Qed.

Lemma resolve_fits s r id produced inputs l :
  Forall (λ l, fits (coef l.2)) inputs → _resolve_inputs s r id produced inputs = Ok l → Forall (λ l, fits (coef l.2)) l.
Proof.
  intros Hi. unfold _resolve_inputs. destruct id as [id|].
  - destruct (at_index _ _); [|done]. destruct (_ && _); [|done]. intros H. inv_res. apply Forall_forall. intros p Hp.
    destruct (res_map_in _ _ _ _ H Hp) as (x & _ & Hx). unfold scaled_input in Hx. inv_res. subst. apply dmul_fits.
  - destruct inputs; [done|]. intros H. inv_res. by subst.
Qed.

Lemma convert_moves (s : shop) r b now o q id inputs neg s' run_id :
  convert r b now o q id inputs neg s = Ok (s', run_id) →
  moves (from_op s (OConvert r b now o q id inputs neg)) (stock s) (stock s').
Proof.
  unfold convert. intros H. inv_res. destruct y7 as [db ids]. inv_res. destruct y8 as [db2 id2]. inv_res. subst. cbn.
  transitivity db.
  - eapply append_all_moves; [|done]. intros d rq (l & -> & Hl)%list_elem_of_fmap _. split; [left; by eexists _, l|].
    intros _ [_ Hi] _. split; [apply zero_fits|]. cbn. apply resolve_fits in Hy1; [|done]. by eapply Forall_forall in Hy1.
  - apply moves_once. eapply m_append; [|done]. split; [right; by eexists _, _, _, _|]. intros _ [Hq _] _. split; [done|apply zero_fits].
Qed.

Lemma ship_moves (s : shop) u now id s' st :
  ship_transfer u now id s = Ok (s', st) → moves (from_op s (OShip u now id)) (stock s) (stock s').
Proof.
  unfold ship_transfer. intros H. inv_res. destruct (tr_status y); inv_res; try (by subst).
  all: subst; cbn; eapply (res_foldl_rel (moves (from_op s (OShip u now id)))); [|done].
  all: intros it d d' _ E; unfold ship_item in E; inv_res; destruct y6 as [e i]; inv_res; subst.
  all: apply moves_once; eapply m_append; [|done]; split; [by eexists _, _, _, _|]; intros _ _ _; split; [apply zero_fits|apply dmul_fits].
Qed.

Lemma receive_item_moves s u now t id requested req db it x :
  receive_item now t id requested db it = Ok x → moves (from_op s (OReceive u now id req)) db x.1.1.
Proof.
  unfold receive_item. intros H. inv_res. destruct (deqb _ _); inv_res; [by subst|]. destruct y2 as [d i]. inv_res. subst. cbn.
  apply moves_once. eapply m_append; [|done]. split; [by eexists _, _, _, _, _|]. intros _ _ _. split; [apply dmul_fits|apply zero_fits].
Qed.

Lemma receive_moves (s : shop) u now id requested s' st :
  receive_transfer u now id requested s = Ok (s', st) → moves (from_op s (OReceive u now id requested)) (stock s) (stock s').
Proof.
  unfold receive_transfer. intros H. inv_res. destruct y3 as [[db news] complete]. inv_res. subst. cbn.
  revert Hy3. generalize (stock s) at 1 2. generalize (by_name (λ p : nat * transfer_item, ti_ingredient p.2) (imap pair (tr_items y))).
  intros l. revert db news complete. induction l as [|[k it] l IH]; intros db news complete d0 H; cbn in H; inv_res; [by subst|].
  destruct y3 as [[d1 it'] c1]. inv_res. destruct y3 as [[d2 rest] c2]. inv_res. subst.
  etransitivity; [by apply (receive_item_moves s u now _ id _ requested) in Hy3|]. by eapply IH.
Qed.

Lemma insert_batch_calm db r b i n q u c today e db' id : insert_batch db r b i n q u c today e = Ok (db', id) → calm db db'.
Proof.
  unfold insert_batch. intros H. inv_res. subst. split; [done..|]. cbn. intros Hb. apply Forall_app. split; [done|]. by apply Forall_singleton.
Qed.

Lemma set_cost_calm db price id : calm db (with_ingredients (alter (set_cost price) id) db).
Proof.
  split; [|done..]. intros j x. unfold stock_of. cbn. destruct (decide (id = j)) as [->|]; [|by rewrite lookup_alter_ne].
  rewrite lookup_alter, decide_True by done. by destruct (ingredients db !! j).
Qed.

Lemma receive_stock_moves s u now today req r po request l target delta db db' :
  receive_stock r now today po request l target delta db = Ok db' → moves (from_op s (OPurchase u now today (po_id po) req)) db db'.
Proof.
  unfold receive_stock. intros H. inv_res. destruct y2 as [d1 bt]. inv_res. destruct y2 as [d2 i]. inv_res.
  transitivity d1.
  { destruct (i_track_batches y); inv_res; [|by subst]. destruct y2 as [d b]. inv_res. subst.
    by apply moves_once, m_calm, (insert_batch_calm _ _ _ _ _ _ _ _ _ _ _ _ Hy4). }
  transitivity d2.
  { apply moves_once. eapply m_append; [|done]. split; [by eexists _, _, _, _, _, _, _, _|]. intros _ _ _. split; [apply dmul_fits|apply zero_fits]. }
  destruct (dpos y1); inv_res; [|by subst]. subst. apply moves_once, m_calm, set_cost_calm.
Qed.

Lemma purchase_moves (s : shop) u now today id requested s' st :
  receive_purchase_order u now today id requested s = Ok (s', st) →
  moves (from_op s (OPurchase u now today id requested)) (stock s) (stock s').
Proof.
  unfold receive_purchase_order. destruct (list_find _ _) as [[k po]|] eqn:Ef; [|done]. intros H. inv_res.
  destruct y3 as [[[db news] complete] updated]. inv_res. subst. cbn.
  apply list_find_Some in Ef as (_ & E & _). apply andb_true_iff in E as [_ E%Z.eqb_eq]. subst id.
  revert Hy3. generalize (stock s) at 1 2. generalize (merge_sort line_before (imap pair (po_lines po))).
  intros l. revert db news complete updated. induction l as [|[j ln] l IH]; intros db news complete updated d0 H; cbn in H; inv_res; [by subst|].
  destruct y3 as [[[d1 ln'] c1] n1]. inv_res. destruct y3 as [[[d2 rest] c2] n2]. inv_res. subst.
  transitivity d1; [|by eapply IH]. unfold receive_line in Hy3. inv_res. destruct (deqb _ _); inv_res; [by subst|]. subst.
  by eapply receive_stock_moves.
Qed.

(** *** Rows stay, except for their marks *)

Definition unmarked (r : ledger_row) : ledger_row :=
  {| l_restaurant := l_restaurant r; l_branch := l_branch r; l_ingredient := l_ingredient r; l_type := l_type r;
     l_in := l_in r; l_out := l_out r; l_cost := l_cost r; l_reference := l_reference r; l_dedup := l_dedup r;
     l_correlation := l_correlation r; l_batch := l_batch r; l_source := l_source r; l_reversed_by := None;
     l_reverses := None; l_at := l_at r |}.

Lemma alter_unmarked f i l : (∀ r, unmarked (f r) = unmarked r) → map unmarked (alter f i l) = map unmarked l.
Proof.
  intros Hf. apply list_eq. intros j. rewrite !list_lookup_fmap, list_lookup_alter. case_decide; [|done].
  subst. destruct (l !! j); cbn; by rewrite ?Hf.
Qed.

Lemma reversal_rows now k o db db' id :
  event_at db k = Some o → l_reversed_by o = None → reverse_event now k INVENTORY_RESTOCK_CANCELLED db = Ok (db', id) →
  ∃ d, append_event now (reversal_request INVENTORY_RESTOCK_CANCELLED k o) db = Ok (d, id) ∧
       map unmarked (ledger db') = map unmarked (ledger d).
Proof.
  intros Ho Hn H. destruct (reverse_event_cases _ _ _ _ _ _ _ Ho Hn H) as (d & Hd & ->). exists d. split; [done|]. cbn.
  by rewrite !alter_unmarked.
Qed.

Lemma append_prefix now rq db db' id : append_event now rq db = Ok (db', id) → ledger db `prefix_of` ledger db'.
Proof. intros [[-> _]|(r & _ & _ & A)]%append_event_inv; [done|]. rewrite (ap_ledger _ _ _ _ _ A). by apply prefix_app_r. Qed.

Lemma prefix_fmap {A B} (f : A → B) l k : l `prefix_of` k → map f l `prefix_of` map f k.
Proof. intros [x ->]. exists (map f x). apply map_app. Qed.

Lemma move_prefix ok db db' : move ok db db' → map unmarked (ledger db) `prefix_of` map unmarked (ledger db').
Proof.
  destruct 1 as [now rq db db' id _ H|rq r db _ _|now k o db db' id Ho _ Hn H|db db' [_ E _ _]].
  - by eapply prefix_fmap, append_prefix.
  - by apply prefix_fmap, prefix_app_r.
  - destruct (reversal_rows _ _ _ _ _ _ Ho Hn H) as (d & Hd & ->). by eapply prefix_fmap, append_prefix.
  - by rewrite E.
Qed.
Lemma moves_prefix ok db db' : moves ok db db' → map unmarked (ledger db) `prefix_of` map unmarked (ledger db').
Proof. induction 1 as [|x y z H _ IH]; [done|]. etransitivity; [by eapply move_prefix|done]. Qed.

Lemma moves_row ok db db' i r :
  moves ok db db' → ledger db !! i = Some r → ∃ r', ledger db' !! i = Some r' ∧ unmarked r' = unmarked r.
Proof.
  intros H%moves_prefix Hi. assert (map unmarked (ledger db) !! i = Some (unmarked r)) as Hu by (by rewrite list_lookup_fmap, Hi).
  eapply prefix_lookup_Some in Hu; [|exact H]. rewrite list_lookup_fmap in Hu. apply fmap_Some in Hu as (r' & Hr & ->). eauto.
Qed.

Lemma event_at_row db k o : event_at db k = Some o ↔ 0 <= k ∧ ledger db !! Z.to_nat k = Some o.
Proof. unfold event_at. destruct (Z.ltb_spec k 0); naive_solver lia. Qed.

(** Reversing rows that were consumptions when they were read. *)
Definition consumption_at (db : stock_db) (k : Z) : Prop := ∃ o, event_at db k = Some o ∧ l_type o = Consumption.

Lemma consumption_kept ok db db' k : moves ok db db' → consumption_at db k → consumption_at db' k.
Proof.
  intros H (o & [Hk Ho]%event_at_row & Ht). destruct (moves_row _ _ _ _ _ H Ho) as (o' & Ho' & E). exists o'.
  split; [by apply event_at_row|]. apply (f_equal l_type) in E. by rewrite <-Ht.
Qed.

Lemma reverse_moves ok now k db db' id :
  consumption_at db k → reverse_event now k INVENTORY_RESTOCK_CANCELLED db = Ok (db', id) → moves ok db db'.
Proof.
  intros (o & Ho & Ht) H. destruct (l_reversed_by o) as [old|] eqn:Hn.
  - unfold reverse_event in H. rewrite Ho, Hn in H. inv_res. by subst.
  - apply moves_once. by eapply m_reverse.
Qed.

Lemma reversals_move_back ok now ids db : (∀ k, k ∈ ids → consumption_at db k) → moves ok db (reverse_all now ids db).1.
Proof.
  revert db. induction ids as [|k ids IH]; intros db Hk; [done|]. cbn. destruct (reverse_event _ _ _ _) as [[d n]|e] eqn:E; [|done].
  assert (moves ok db d) as Hd by (eapply reverse_moves; [apply Hk; by left|exact E]).
  specialize (IH d). destruct (reverse_all now ids d) as [d' r]. cbn in *. etransitivity; [exact Hd|]. apply IH.
  intros j Hj. eapply consumption_kept; [exact Hd|]. apply Hk. by right.
Qed.

Lemma try_reverse_moves ok now l db : (∀ p, p ∈ l → consumption_at db p.1) → moves ok db (foldl (try_reverse now) db l).
Proof.
  revert db. induction l as [|p l IH]; intros db Hk; [done|]. cbn. assert (moves ok db (try_reverse now db p)) as Hd.
  { unfold try_reverse. destruct (reverse_event _ _ _ _) as [[d n]|e] eqn:E; [|done]. eapply reverse_moves; [apply Hk; by left|exact E]. }
  etransitivity; [exact Hd|]. apply IH. intros q Hq. eapply consumption_kept; [exact Hd|]. apply Hk. by right.
Qed.

Lemma numbered_at db p : p ∈ numbered (ledger db) → event_at db p.1 = Some p.2.
Proof.
  unfold numbered. intros (i & Hi)%list_elem_of_lookup. rewrite list_lookup_imap in Hi. apply fmap_Some in Hi as (x & Hx & ->).
  apply event_at_row. cbn. rewrite Nat2Z.id. split; [lia|done].
Qed.

Lemma recount_sized c id i : count_columns c → i ∈ sc_items c → sized (recount_request c id i).
Proof.
  intros Hc Hi. eapply Forall_forall in Hc as [H1 H2]; [|exact Hi].
  assert (fits (Z.abs (variance i))) as Hf by (apply fits_small; unfold variance; lia).
  unfold sized, recount_request. cbn. destruct (0 <? _), (_ <? 0); cbn; split; try done; apply zero_fits.
Qed.

Lemma at_index_Some {A} (l : list A) k x : at_index l k = Some x → x ∈ l.
Proof. unfold at_index. destruct (k <? 0); [done|]. apply list_elem_of_lookup_2. Qed.

Lemma finalize_moves (s : shop) u now id s' n :
  finalize_count u now id s = Ok (s', n) → moves (from_op s (OFinalizeCount u now id)) (stock s) (stock s').
Proof.
  unfold finalize_count. intros H. inv_res. unfold find_count in Hy. destruct (at_index _ _) as [c|] eqn:Ec; [|done].
  destruct (is_id _ _); [|done]. inv_res. subst y.
  assert (∀ db ids, append_all now (map (recount_request c id) (variances c)) (stock s) = Ok (db, ids) →
            moves (from_op s (OFinalizeCount u now id)) (stock s) db) as Hall.
  { intros db ids. apply append_all_moves. intros d rq (i & -> & Hi)%list_elem_of_fmap _. split; [by eexists _, _|].
    intros _ _ [_ C]. eapply Forall_forall in C; [|by eapply at_index_Some]. apply recount_sized; [done|].
    unfold variances in Hi. apply in_filtered in Hi as [Hi _]. unfold by_name in Hi. by rewrite merge_sort_Permutation in Hi. }
  destruct (sc_status c); inv_res; try done; try (by subst).
  all: match goal with p : (stock_db * list Z)%type |- _ => destruct p as [db ids] end; inv_res; subst; cbn; by eapply Hall.
Qed.

(** *** The older endpoints *)

Lemma erp_row_inv db rid b i t q_in q_out c ref now db' :
  erp_row db rid b i t q_in q_out c ref now = Ok db' →
  ∃ r, plain_row (plain_request rid b i t q_in q_out c ref) r ∧ db' = with_ledger (λ l, l ++ [r]) db.
Proof.
  unfold erp_row. intros H. inv_res. subst. apply orb_false_iff in Hy2 as [[N1%Z.ltb_ge N2%Z.ltb_ge]%orb_false_iff _].
  eexists. split; [|done]. by split; cbn.
Qed.

Lemma erp_row_moves (ok : stock_db → stock_request → Prop) db rid b i t q_in q_out c ref now db' :
  ok db (plain_request rid b i t q_in q_out c ref) → erp_row db rid b i t q_in q_out c ref now = Ok db' → moves ok db db'.
Proof. intros Hok (r & Hr & ->)%erp_row_inv. apply moves_once. by eapply m_row. Qed.

Lemma erp_adjust_moves (s : shop) u now b i t q c s' :
  adjust_stock u now b i t q c s = Ok s' → moves (from_op s (OErpAdjust u now b i t q c)) (stock s) (stock s').
Proof.
  unfold adjust_stock. intros H. inv_res. subst. cbn.
  eapply erp_row_moves; [|eassumption]. split; [|done]. eexists _, _, _, _, _. split; [done|]. intros ->. by vm_compute in Hy.
Qed.

Lemma erp_verify_moves (s : shop) u now id s' :
  verify_grn u now id s = Ok s' → moves (from_op s (OErpVerify u now id)) (stock s) (stock s').
Proof.
  unfold verify_grn. destruct (at_index _ _) as [g|]; [|done]. intros H. inv_res. subst. cbn.
  eapply (res_foldl_rel (moves (from_op s (OErpVerify u now id)))); [|eassumption]. intros it d d' _ E.
  eapply erp_row_moves; [|exact E]. split; [|done]. by eexists _, _, _, _, _.
Qed.

Lemma erp_ship_moves (s : shop) u now id s' :
  erp_ship_transfer u now id s = Ok s' → moves (from_op s (OErpShip u now id)) (stock s) (stock s').
Proof.
  unfold erp_ship_transfer. intros H. inv_res. subst. cbn.
  eapply (res_foldl_rel (moves (from_op s (OErpShip u now id)))); [|eassumption]. intros it d d' _ E.
  eapply erp_row_moves; [|exact E]. split; [|done]. by eexists _, _, _, _.
Qed.

Lemma erp_receive_moves (s : shop) u now id lines s' :
  erp_receive_transfer u now id lines s = Ok s' → moves (from_op s (OErpReceive u now id lines)) (stock s) (stock s').
Proof.
  unfold erp_receive_transfer. intros H. inv_res. destruct y0 as [db items]. inv_res. subst. cbn.
  refine (res_foldl_inv (λ a, moves (from_op s (OErpReceive u now id lines)) (stock s) a.1) _ _ _ _ _ _ Hy0); [|done].
  intros l a a' _ Ha E. etransitivity; [exact Ha|]. unfold erp_receive_item in E. inv_res. subst. cbn.
  eapply erp_row_moves; [|eassumption]. split; [|done]. by eexists _, _, _, _.
Qed.

(** A new ingredient: the row, and its opening event if that succeeds. *)
Lemma create_ingredient_cases (s : shop) u now new_id body s' id :
  create_ingredient u now new_id body s = Ok (s', id) →
  s' = s ∨ ∃ row, ingredients (stock s) !! new_id = None ∧ id = new_id ∧
    let db := with_ingredients (<[new_id := row]>) (stock s) in
    s' = with_stock db s ∨ ∃ db' k, append_event now (opening_request u new_id body) db = Ok (db', k) ∧ s' = with_stock db' s.
Proof.
  unfold create_ingredient. intros H. inv_res. destruct (find _ _); inv_res; [subst; by left|]. right. exists y0.
  apply bool_decide_eq_false, eq_None_not_Some in Hy1.
  split; [done|]. destruct ((0 <? _) && _).
  - destruct (append_event _ _ _) as [[db' k]|e] eqn:E; inv_res; subst; (split; [done|]); [right; by exists db', k|by left].
  - inv_res. subst. split; [done|by left].
Qed.

Lemma new_ingredient_calm db id row : ingredients db !! id = None → calm db (with_ingredients (<[id := row]>) db).
Proof.
  intros Hn. split; [|done..]. intros j x. unfold stock_of. cbn. destruct (decide (id = j)) as [->|]; [by rewrite Hn|by rewrite lookup_insert_ne].
Qed.

Lemma create_ingredient_moves (s : shop) u now new_id body s' id :
  create_ingredient u now new_id body s = Ok (s', id) → moves (from_op s (OIngredient u now new_id body)) (stock s) (stock s').
Proof.
  intros [->|(row & Hn & _ & H)]%create_ingredient_cases; [done|]. cbn zeta in H.
  destruct H as [->|(db' & k & E & ->)]; cbn; [by apply moves_once, m_calm, new_ingredient_calm|].
  etransitivity; [by apply moves_once, m_calm, new_ingredient_calm|]. apply moves_once. by eapply m_append.
Qed.

Lemma op_moves s op : moves (from_op s op) (stock s) (stock (do_op s op)).
Proof.
  destruct op; cbn; unfold after.
  - destruct (consume_for_order _ _ _) as [[db r]|] eqn:E; [|done]. cbn. by eapply consume_moves.
  - apply reversals_move_back. intros k (p & -> & [Hp1 Hp2]%in_filtered)%list_elem_of_fmap. exists p.2.
    split; [by apply numbered_at|]. apply andb_true_iff in Hp2 as [[_ Hp2]%andb_true_iff _]. by apply bool_decide_eq_true in Hp2.
  - apply try_reverse_moves. intros p [Hp1 Hp2]%in_filtered. exists p.2.
    split; [by apply numbered_at|]. apply andb_true_iff in Hp2 as [[_ Hp2]%andb_true_iff _]. by apply bool_decide_eq_true in Hp2.
  - unfold create_adjustment. destruct (restaurant_of u) as [rid|]; [|done]. destruct (append_event _ _ _) as [[db i]|] eqn:E; [|done].
    assert (moves (from_op s (OAdjust u now body)) (stock s) db).
    { apply moves_once. eapply m_append; [|exact E]. split; [by exists rid|]. intros _ Hs _. unfold sized, adjustment_request. cbn in *.
      destruct (is_in _); split; try done; apply zero_fits. }
    by destruct (adjustment_row _ _ _ _).
  - unfold log_wastage. destruct (restaurant_of u) as [rid|]; [|done]. destruct (append_event _ _ _) as [[db i]|] eqn:E; [|done].
    assert (moves (from_op s (OWaste u now body)) (stock s) db).
    { apply moves_once. eapply m_append; [|exact E]. split; [by exists rid|]. intros _ Hs _. split; [apply zero_fits|done]. }
    by destruct (wastage_row _ _ _ _).
  - destruct (create_sale _ _ _ _ _ _) as [[s' i]|] eqn:E; [|done]. by eapply sale_moves.
  - destruct (create_recipe _ _ _ _ _) as [[s' i]|] eqn:E; [|done]. unfold create_recipe in E. inv_res. by subst.
  - destruct (convert _ _ _ _ _ _ _ _ _) as [[s' i]|] eqn:E; [|done]. by eapply convert_moves.
  - destruct (create_transfer _ _ _ _ _) as [[s' i]|] eqn:E; [|done]. unfold create_transfer in E. inv_res. by subst.
  - destruct (ship_transfer _ _ _ _) as [[s' i]|] eqn:E; [|done]. by eapply ship_moves.
  - destruct (receive_transfer _ _ _ _ _) as [[s' i]|] eqn:E; [|done]. by eapply receive_moves.
  - destruct (create_transfer_return _ _ _ _) as [[s' i]|] eqn:E; [|done]. unfold create_transfer_return in E. inv_res. by subst.
  - destruct (start_count _ _ _ _) as [[s' i]|] eqn:E; [|done]. unfold start_count in E. inv_res. by subst.
  - destruct (submit_count_item _ _ _ _ _ _) as [s'|] eqn:E; [|done]. unfold submit_count_item in E. inv_res.
    destruct (find _ _); [|done]. inv_res. by subst.
  - destruct (finalize_count _ _ _ _) as [[s' i]|] eqn:E; [|done]. by eapply finalize_moves.
  - destruct (receive_purchase_order _ _ _ _ _ _) as [[s' i]|] eqn:E; [|done]. by eapply purchase_moves.
  - destruct (upsert_conversion _ _ _ _) as [[s' i]|] eqn:E; [|done]. unfold upsert_conversion in E. inv_res. subst. by apply moves_once, m_calm.
  - by apply moves_once, m_calm.
  - by apply moves_once, m_calm.
  - destruct (create_ingredient _ _ _ _ _) as [[s' i]|] eqn:E; [|done]. by eapply create_ingredient_moves.
  - unfold after_. destruct (adjust_stock _ _ _ _ _ _ _ _) as [s'|] eqn:E; [|done]. by eapply erp_adjust_moves.
  - destruct (create_grn _ _ _ _) as [[s' i]|] eqn:E; [|done]. unfold create_grn in E. inv_res. by subst.
  - unfold after_. destruct (verify_grn _ _ _ _) as [s'|] eqn:E; [|done]. by eapply erp_verify_moves.
  - destruct (erp_create_transfer _ _ _ _ _) as [[s' i]|] eqn:E; [|done]. unfold erp_create_transfer in E. inv_res. by subst.
  - unfold after_. destruct (approve_transfer _ _ _) as [s'|] eqn:E; [|done]. unfold approve_transfer in E. inv_res. by subst.
  - unfold after_. destruct (erp_ship_transfer _ _ _ _) as [s'|] eqn:E; [|done]. by eapply erp_ship_moves.
  - unfold after_. destruct (erp_receive_transfer _ _ _ _ _) as [s'|] eqn:E; [|done]. by eapply erp_receive_moves.
Qed.

(** Which operations write the transfers and the counts. *)
Definition writes_transfers (op : stock_op) : bool :=
  match op with
  | OTransfer _ _ _ _ | OShip _ _ _ | OReceive _ _ _ _ | OReturn _ _ _
  | OErpTransfer _ _ _ _ | OErpApprove _ _ | OErpShip _ _ _ | OErpReceive _ _ _ _ => true
  | _ => false end.
Definition writes_counts (op : stock_op) : bool :=
  match op with OStartCount _ _ _ | OSubmitCount _ _ _ _ _ | OFinalizeCount _ _ _ => true | _ => false end.

Ltac same_documents E := repeat (progress inv_res || match goal with p : (_ * _)%type |- _ => destruct p end || case_match); subst; try done.

Lemma do_op_documents s op :
  (writes_transfers op = false → transfers (do_op s op) = transfers s) ∧ (writes_counts op = false → counts (do_op s op) = counts s).
Proof.
  destruct op; split; intros Hw; try discriminate Hw; clear Hw; cbn; unfold after, after_; try done.
  all: lazymatch goal with
    | |- context [create_adjustment ?u ?n ?b ?s] => unfold create_adjustment; destruct (restaurant_of u) as [rid|]; [|done];
        destruct (append_event _ _ _) as [[]|]; [|done]; by destruct (adjustment_row _ _ _ _)
    | |- context [log_wastage ?u ?n ?b ?s] => unfold log_wastage; destruct (restaurant_of u) as [rid|]; [|done];
        destruct (append_event _ _ _) as [[]|]; [|done]; by destruct (wastage_row _ _ _ _)
    | |- context [match ?r with Ok _ => _ | Err _ => _ end] => destruct r as [y|] eqn:E; [|done]; try destruct y as [s' x]; try done
    end.
  all: unfold create_sale, create_recipe, convert, create_transfer, ship_transfer, receive_transfer, create_transfer_return, start_count,
    submit_count_item, finalize_count, receive_purchase_order, upsert_conversion, create_ingredient, adjust_stock, create_grn, verify_grn,
    erp_create_transfer, approve_transfer, erp_ship_transfer, erp_receive_transfer in E; same_documents E.
Qed.

(** ** A shop to try the theorems on *)

Module Demo.
Definition ing (name unit : string) (batched : bool) : ingredient :=
  {| i_user := "o"; i_restaurant := Some "r"; i_name := name; i_unit := Some unit; i_current_stock := 0; i_stock_quantity := 0;
     i_minimum_stock := Some 1000; i_reorder_point := None; i_cost_per_unit := Some 250; i_track_batches := batched;
     i_active := true; i_deleted := false |}%string.
Definition line (ingredient_id unit : string) (quantity : Z) (waste : option Z) : recipe_line :=
  {| rl_ingredient := ingredient_id; rl_quantity := quantity; rl_unit := Some unit; rl_waste := waste |}.
Definition db : stock_db :=
  {| ingredients := {["rice" := ing "Rice" "kg" false; "milk" := ing "Milk" "l" true]}; ledger := []; batches := [];
     unit_conversions := []; recipes := [{| rc_restaurant := "r"; rc_item := 7; rc_yield := 3000; rc_active := true;
       rc_lines := [line "rice" "kg" 500 (Some 500); line "milk" "ml" 250000 None] |}];
     item_ingredients := []; sub_branches := [("b1", "r"); ("b2", "r")]; alerts := []; published := [] |}%string.
Definition po_line (id : Z) (ingredient_id unit : string) (ordered price : Z) : purchase_line :=
  {| pl_id := id; pl_ingredient := Some ingredient_id; pl_ordered := Some ordered; pl_quantity := None; pl_received := d_zero;
     pl_unit := Some unit; pl_price := Some price; pl_cost := None |}.
Definition order (id : Z) : purchase_order :=
  {| po_id := id; po_user := "o"; po_branch := Some "b1"; po_status := "draft"; po_approval := "approved";
     po_lines := [po_line 1 "rice" "kg" 10000 200; po_line 2 "milk" "l" 5000 300] |}%string.
Definition s : shop :=
  {| stock := db; transfers := []; counts := []; purchase_orders := [order 1; order 2]; sales := []; conversion_recipes := [];
     runs := []; receipts := []; adjustments := []; wastage := [] |}.
Definition u : staff := {| st_user := "o"; st_owner := "o"; st_restaurant := Some "r"; st_branch := Some "b1"; st_branch_user := false |}%string.
Definition c : order_context :=
  {| oc_restaurant := Some "r"; oc_branch := Some "b1"; oc_order := "o1"; oc_allow_negative := false; oc_mirror := true;
     oc_now := 5; oc_today := 100 |}%string.
Definition items : list order_item := [{| oi_item := Some 7; oi_quantity := d_int 2 |}].
(** Two orders of stock received; rice for the recipe, two kilos of it sent to the other
    branch and received in two parts. *)
Definition bought : shop := run s [OPurchase u 1 99 1 None; OPurchase u 1 99 2 (Some [{| re_id := 2; re_quantity := d_int 1; re_batch := None; re_expiry := Some 104 |}])].
Definition sent : list stock_op :=
  [OTransfer u "b1" "b2" [{| tl_ingredient := "rice"; tl_quantity := d_int 2; tl_unit := None |}]; OShip u 6 0;
   OReceive u 7 0 (Some [("rice", Dec 15 (-1))]); OReceive u 7 0 None]%string.
Definition day : list stock_op :=
  [OPurchase u 1 99 1 None; OConsume c items] ++ sent ++ [OConsume c items; OCancel 9 "o1"; ORestock 9 "o1"]%string.
End Demo.
