(* ===== verification/InventoryOrders.v ===== *)
(** Inventory, an order's stock: it leaves once ([order_consumed_once]) and comes back at
    most once ([order_net_effect]), over every run of the operations of InventoryMoves. *)

From Stdlib Require Import ZArith Lia Ascii String.
From stdpp Require Import sorting relations.
From S2P Require Import Prelude PyDecimal PyFloat PyValues Inventory InventoryMoves InventoryStock.
Open Scope Z_scope.

(** ** An order's stock *)

Definition of_order (order ingredient_id : string) (branch : option string) (r : ledger_row) : bool :=
  bool_decide (l_reference r = ROrder order) && bool_decide (l_ingredient r = ingredient_id) && bool_decide (l_branch r = branch).
Definition outstanding (order ingredient_id : string) (branch : option string) (r : ledger_row) : bool :=
  of_order order ingredient_id branch r && bool_decide (l_type r = Consumption) && bool_decide (l_reversed_by r = None).

(** How the rows of orders hang together: a consumption is a row of some order, with its
    key; a reversal's key points to the row that carries its mark; and what an order has
    moved of an ingredient is what its consumptions without a mark took. *)
Record orders_sound (l : list ledger_row) : Prop := {
  os_consumption : ∀ j r, l !! j = Some r → l_type r = Consumption →
    l_in r = 0 ∧ 0 < l_out r ∧ ∃ o, l_reference r = ROrder o ∧ l_correlation r = Some (ROrder o);
  os_keys : ∀ j r o i b, l !! j = Some r → l_dedup r = Some (KOrder o i b) → l_type r = Consumption ∧ l_reference r = ROrder o;
  os_reversals : ∀ j r k, l !! j = Some r → l_dedup r = Some (KReversal k) →
    ∃ o, 0 <= k ∧ l !! Z.to_nat k = Some o ∧ l_reversed_by o = Some (Z.of_nat j);
  os_net : ∀ o i b, sum_where (of_order o i b) moved l = - sum_where (outstanding o i b) l_out l
}.

(** Only [consume_for_order] makes consumptions, rows of orders and their keys. *)
Lemma made_by_consumption op rq :
  made_by op rq → ledger_type_of rq = Some Consumption ∨ (∃ o, rq_reference rq = ROrder o) ∨ (∃ o i b, rq_dedup rq = Some (KOrder o i b)) →
  ∃ c items i a, op = OConsume c items ∧ rq = consume_request c i a.
Proof.
  intros Hm H. destruct op; cbn in Hm; try done; [destruct Hm as (i & a & ->); by eexists _, _, _, _|exfalso..].
  all: repeat match goal with H : ∃ _, _ |- _ => destruct H end; try destruct Hm as [Hm|Hm].
  all: repeat match goal with H : ∃ _, _ |- _ => destruct H end; subst; unfold ledger_type_of, adjustment_request in H; cbn in H.
  all: repeat match type of H with context [if ?b then _ else _] => destruct b end; naive_solver.
Qed.

Lemma made_by_not_reversal op rq k : made_by op rq → rq_dedup rq ≠ Some (KReversal k).
Proof.
  destruct op; cbn; try done; intros H; repeat (match goal with H : _ ∨ _ |- _ => destruct H as [H|H] | H : ∃ _, _ |- _ => destruct H | H : _ ∧ _ |- _ => destruct H end).
  all: by subst.
Qed.

Lemma find_dedup_Some db r key i :
  find_dedup db r key = Some i → ∃ j x, i = Z.of_nat j ∧ ledger db !! j = Some x ∧ l_dedup x = key ∧ same_id (Some (l_restaurant x)) r = true.
Proof.
  unfold find_dedup. destruct key as [k|]; [|done]. cbn. destruct (list_find _ _) as [[j x]|] eqn:E; [|done]. cbn. intros [= <-].
  apply list_find_Some in E as (Hx & [H1 H2] & _). by exists j, x.
Qed.

Lemma lookup_snoc_cases {A} (l : list A) x j y : (l ++ [x]) !! j = Some y → l !! j = Some y ∨ j = length l ∧ y = x.
Proof. rewrite lookup_app_Some. intros [H|[Hj H]]; [by left|]. apply list_lookup_singleton_Some in H as [H <-]. right. split; [lia|done]. Qed.

Lemma append_orders_sound op now rq db db' id :
  made_by op rq → append_event now rq db = Ok (db', id) → orders_sound (ledger db) → orders_sound (ledger db').
Proof.
  intros Hm [[-> _]|(r & _ & _ & A)]%append_event_inv; [done|]. intros [S1 S2 S3 S4].
  pose proof (ap_records _ _ _ _ _ A) as R. rewrite (ap_ledger _ _ _ _ _ A).
  assert (l_type r = Consumption ∨ (∃ o, l_reference r = ROrder o) ∨ (∃ o i b, l_dedup r = Some (KOrder o i b)) →
          l_in r = 0 ∧ 0 < l_out r ∧ l_type r = Consumption ∧ l_reversed_by r = None ∧
          (∃ c, l_reference r = ROrder c ∧ l_correlation r = Some (ROrder c) ∧ ∀ o i b, l_dedup r = Some (KOrder o i b) → o = c)) as Hc.
  { intros H. destruct (made_by_consumption op rq Hm) as (c & items & i & a & -> & ->).
    { rewrite (rec_type _ _ _ R), <-(rec_reference _ _ _ R), <-(rec_dedup _ _ _ R). destruct H as [->|[H|H]]; auto. }
    pose proof (stored_zero _ (rec_in _ _ _ R)) as Hin. pose proof (rec_some _ _ _ R). pose proof (rec_type _ _ _ R) as Ht. cbn in Ht.
    split; [done|]. split; [lia|]. split; [by injection Ht|]. split; [by apply R|]. exists (oc_order c).
    split; [by rewrite (rec_reference _ _ _ R)|]. split; [by rewrite (rec_correlation _ _ _ R)|].
    intros o j b. rewrite (rec_dedup _ _ _ R). cbn. by intros [= <- _ _]. }
  split.
  - intros j x [Hx|[_ ->]]%lookup_snoc_cases Ht; [by eapply S1|]. destruct Hc as (E1 & E2 & _ & _ & (o & E3 & E4 & _)); [by left|]. eauto 6.
  - intros j x o i b [Hx|[_ ->]]%lookup_snoc_cases Hk; [by eapply S2|].
    destruct Hc as (_ & _ & E1 & _ & (c & E2 & _ & E3)); [by right; right; eexists _, _, _|]. by rewrite (E3 _ _ _ Hk).
  - intros j x k [Hx|[_ ->]]%lookup_snoc_cases Hk.
    + destruct (S3 _ _ _ Hx Hk) as (o & H1 & H2 & H3). exists o. split; [done|]. split; [|done]. by apply lookup_app_l_Some.
    + rewrite (rec_dedup _ _ _ R) in Hk. by eapply made_by_not_reversal in Hk.
  - intros o i b. rewrite !sum_where_snoc, S4.
    replace (outstanding o i b r) with (of_order o i b r && bool_decide (l_type r = Consumption) && bool_decide (l_reversed_by r = None)) by done.
    destruct (of_order o i b r) eqn:Eo; cbn [andb]; [|by rewrite !Z.add_0_r]. unfold of_order in Eo. apply andb_true_iff in Eo as [[Eo _]%andb_true_iff _]. apply bool_decide_eq_true in Eo.
    destruct Hc as (E1 & _ & -> & -> & _); [right; left; by exists o|]. rewrite !bool_decide_true by done. cbn [andb]. unfold moved. rewrite E1. ring.
Qed.

(** A row of an older endpoint is of no order. *)
Lemma row_orders_sound op rq r l :
  made_by op rq → plain_row rq r → orders_sound l → orders_sound (l ++ [r]) ∧ l_type r ≠ Consumption.
Proof.
  intros Hm R [S1 S2 S3 S4]. destruct (pr_dedup _ _ R) as [Hq Hd].
  assert (l_type r ≠ Consumption ∧ ∀ o, l_reference r ≠ ROrder o) as [Ht Ho].
  { split; [intros Ht|intros o Ht]; (destruct (made_by_consumption op rq Hm) as (c & items & i & a & _ & ->); [|by discriminate Hq]).
    - left. by rewrite (pr_type _ _ R), Ht.
    - right; left. exists o. by rewrite <-(pr_reference _ _ R). }
  split; [|done]. split.
  - intros j x [Hx|[_ ->]]%lookup_snoc_cases Hk; [by eapply S1|done].
  - intros j x o i b [Hx|[_ ->]]%lookup_snoc_cases Hk; [by eapply S2|by rewrite Hd in Hk].
  - intros j x k [Hx|[_ ->]]%lookup_snoc_cases Hk; [|by rewrite Hd in Hk].
    destruct (S3 _ _ _ Hx Hk) as (o & H1 & H2 & H3). exists o. split; [done|]. split; [|done]. by apply lookup_app_l_Some.
  - intros o i b. rewrite !sum_where_snoc, S4. assert (of_order o i b r = false) as E.
    { unfold of_order. by rewrite (bool_decide_false _ (Ho o)). }
    unfold outstanding. rewrite E. cbn. ring.
Qed.

Lemma unreversed_new db k o :
  orders_sound (ledger db) → event_at db k = Some o → l_reversed_by o = None →
  find_dedup db (Some (l_restaurant o)) (Some (KReversal k)) = None.
Proof.
  intros S [Hk Ho]%event_at_row Hn. destruct (find_dedup _ _ _) as [i|] eqn:E; [exfalso|done].
  apply find_dedup_Some in E as (j & x & _ & Hx & Hd & _). destruct (os_reversals _ S _ _ _ Hx Hd) as (o' & _ & Ho' & Hr). naive_solver.
Qed.

(** A reversal appends the row that gives back what the original took, and marks both. *)
Lemma reverse_row now k o db db' id :
  orders_sound (ledger db) → event_at db k = Some o → l_type o = Consumption → l_reversed_by o = None →
  reverse_event now k INVENTORY_RESTOCK_CANCELLED db = Ok (db', id) →
  ∃ d r, appends now (reversal_request INVENTORY_RESTOCK_CANCELLED k o) db d r ∧ l_in r = l_out o ∧ l_out r = 0 ∧
    (Z.to_nat k < length (ledger db))%nat ∧
    db' = with_ledger (λ _, <[Z.to_nat k := set_reversed_by (Z.of_nat (length (ledger db))) o]> (ledger db) ++ [set_reverses k r]) d.
Proof.
  intros S Ho Ht Hn H. destruct (reverse_event_cases _ _ _ _ _ _ _ Ho Hn H) as (d & Hd & ->).
  apply event_at_row in Ho as Ho'. destruct Ho' as [Hk Hrow].
  destruct (os_consumption _ S _ _ Hrow Ht) as (Hin & Hout & _).
  apply append_event_inv in Hd as [[_ Hf]|(r & _ & -> & A)].
  { cbn [reversal_request rq_restaurant rq_dedup] in Hf. by rewrite unreversed_new in Hf. }
  pose proof (ap_records _ _ _ _ _ A) as R. exists d, r. split; [done|].
  split; [apply (stored_milli _ _ (Z.lt_le_incl _ _ Hout) (rec_in _ _ _ R))|].
  pose proof (rec_out _ _ _ R) as Ho2. cbn in Ho2. rewrite Hin in Ho2. split; [by apply stored_milli in Ho2|].
  pose proof (lookup_lt_Some _ _ _ Hrow). split; [lia|]. unfold with_ledger. rewrite (ap_ledger _ _ _ _ _ A), Nat2Z.id. f_equal.
  rewrite <-(Nat.add_0_r (length (ledger db))) at 2. rewrite alter_app_r. cbn. rewrite alter_app_l by lia. f_equal.
  rewrite list_insert_alter. apply list_alter_ext; [|done]. intros x Hx. naive_solver.
Qed.

Lemma mark_orders_sound l k o n r :
  orders_sound l → l !! k = Some o → l_type o = Consumption → l_reversed_by o = None → n = Z.of_nat (length l) →
  l_in r = l_out o → l_out r = 0 → l_type r = RestockCancelledOrder → l_reversed_by r = None →
  l_reference r = l_reference o → l_ingredient r = l_ingredient o → l_branch r = l_branch o → l_dedup r = Some (KReversal (Z.of_nat k)) →
  orders_sound (<[k := set_reversed_by n o]> l ++ [r]).
Proof.
  intros [S1 S2 S3 S4] Ho Ht Hn -> R1 R2 R3 R4 R5 R6 R7 R8. pose proof (lookup_lt_Some _ _ _ Ho) as Hk.
  assert (∀ j x, (<[k := set_reversed_by (Z.of_nat (length l)) o]> l) !! j = Some x → ∃ y, l !! j = Some y ∧ unmarked x = unmarked y ∧
            (j ≠ k → x = y)) as Hold.
  { intros j x. destruct (decide (j = k)) as [->|Hj].
    - rewrite list_lookup_insert_eq by done. intros [= <-]. by exists o.
    - rewrite list_lookup_insert_ne by done. eauto. }
  split.
  - intros j x [(y & Hy & E & _)%Hold|[_ ->]]%lookup_snoc_cases Hx; [|by rewrite R3 in Hx].
    destruct x, y. injection E as ->. subst. cbn in *. exact (S1 _ _ Hy Hx).
  - intros j x c i b [(y & Hy & E & _)%Hold|[_ ->]]%lookup_snoc_cases Hx; [|by rewrite R8 in Hx].
    destruct x, y. injection E as ->. subst. cbn in *. exact (S2 _ _ _ _ _ Hy Hx).
  - intros j x i [(y & Hy & E & _)%Hold|[-> ->]]%lookup_snoc_cases Hx.
    + apply (f_equal l_dedup) in E. cbn in E. rewrite E in Hx. destruct (S3 _ _ _ Hy Hx) as (z & H1 & H2 & H3). exists z.
      split; [done|]. split; [|done]. apply lookup_app_l_Some. rewrite list_lookup_insert_ne; [done|]. intros E2. rewrite <-E2 in H2. congruence.
    + rewrite R8 in Hx. injection Hx as <-. exists (set_reversed_by (Z.of_nat (length l)) o). split; [lia|]. rewrite Nat2Z.id.
      rewrite length_insert. split; [|done]. apply lookup_app_l_Some. by rewrite list_lookup_insert_eq.
  - intros c i b. rewrite !sum_where_snoc, !(sum_where_insert _ _ _ _ _ _ Ho), S4. unfold moved. rewrite R1, R2.
    assert (of_order c i b r = of_order c i b o) as -> by (unfold of_order; by rewrite R5, R6, R7).
    assert (outstanding c i b r = false) as -> by (unfold outstanding; rewrite R3; by destruct (of_order c i b r)).
    assert (outstanding c i b (set_reversed_by (Z.of_nat (length l)) o) = false) as -> by (unfold outstanding; by rewrite andb_false_r).
    assert (outstanding c i b o = of_order c i b o) as -> by (unfold outstanding; rewrite Ht, Hn; by rewrite !andb_true_r).
    change (of_order c i b (set_reversed_by _ o)) with (of_order c i b o). cbn [set_reversed_by l_in l_out]. destruct (of_order c i b o); lia.
Qed.

Lemma move_orders_sound s op db db' : move (from_op s op) db db' → orders_sound (ledger db) → orders_sound (ledger db').
Proof.
  destruct 1 as [now rq db db' id [Hm _] H|rq r db [Hm _] Hr|now k o db db' id Ho Ht Hn H|db db' [_ E _ _]]; intros S.
  - by eapply append_orders_sound.
  - cbn. by eapply row_orders_sound.
  - destruct (reverse_row _ _ _ _ _ _ S Ho Ht Hn H) as (d & r & A & E1 & E2 & E3 & ->). cbn.
    pose proof (ap_records _ _ _ _ _ A) as R. apply event_at_row in Ho as [Hk Ho].
    apply mark_orders_sound; try done; cbn; try (by apply R); try (symmetry; by apply R).
    + pose proof (rec_type _ _ _ R) as T. by injection T.
    + rewrite (rec_dedup _ _ _ R). cbn. by rewrite Z2Nat.id.
  - by rewrite E.
Qed.

Lemma run_orders_sound s ops : orders_sound (ledger (stock s)) → orders_sound (ledger (stock (run s ops))).
Proof.
  revert s. induction ops as [|op ops IH]; intros s S; [done|]. cbn. apply IH.
  assert (∀ d d', moves (from_op s op) d d' → orders_sound (ledger d) → orders_sound (ledger d')) as Hm.
  { induction 1 as [|x y z Hxy _ IHm]; [done|]. intros Hx. apply IHm. by eapply move_orders_sound. }
  eapply Hm; [apply op_moves|done].
Qed.

Lemma fresh_orders_sound : orders_sound [].
Proof. by split. Qed.

(** *** Taken once *)

(** The rows an order's consumption left: their positions, ingredients and quantities. *)
Definition order_taken (restaurant : option string) (order : string) (l : list ledger_row) : list (Z * string * Z) :=
  map (λ p, (p.1, l_ingredient p.2, l_out p.2)) (List.filter (λ p, order_row restaurant order p.2) (numbered l)).

Lemma numbered_snoc {A} (l : list A) x : numbered (l ++ [x]) = numbered l ++ [(Z.of_nat (length l), x)].
Proof. unfold numbered. rewrite imap_app. cbn. by rewrite Nat.add_0_r. Qed.

Lemma order_taken_snoc r o l x :
  order_taken r o (l ++ [x]) = order_taken r o l ++ (if order_row r o x then [(Z.of_nat (length l), l_ingredient x, l_out x)] else []).
Proof.
  unfold order_taken. rewrite numbered_snoc, List.filter_app, map_app. f_equal. cbn. by destruct (order_row r o x).
Qed.

Lemma order_taken_unmarked r o l : order_taken r o (map unmarked l) = order_taken r o l.
Proof.
  induction l as [|x l IH] using rev_ind; [done|]. rewrite map_app. cbn [map]. rewrite !order_taken_snoc, IH, length_map. f_equal.
Qed.

Lemma order_taken_at r o l j x : l !! j = Some x → order_row r o x = true → order_taken r o l ≠ [].
Proof.
  intros Hj Hx. assert ((Z.of_nat j, x) ∈ List.filter (λ p, order_row r o p.2) (numbered l)) as Hin.
  { apply in_filtered. split; [|done]. apply list_elem_of_lookup. exists j. unfold numbered. by rewrite list_lookup_imap, Hj. }
  unfold order_taken. destruct (List.filter _ _); [by apply elem_of_nil in Hin|done].
Qed.

Definition consumes (r : option string) (o : string) (op : stock_op) : Prop :=
  match op with OConsume c _ => oc_restaurant c = r ∧ oc_order c = o | _ => False end.

Lemma move_keeps_taken s op db db' r o :
  ¬ consumes r o op → move (from_op s op) db db' → orders_sound (ledger db) → order_taken r o (ledger db') = order_taken r o (ledger db).
Proof.
  intros Hop. destruct 1 as [now rq db db' id [Hm _] H|rq y db [Hm _] Hr|now k x db db' id Hx Ht Hn H|db db' [_ E _ _]]; intros S; [| | |by rewrite E].
  - apply append_event_inv in H as [[-> _]|(y & _ & _ & A)]; [done|]. rewrite (ap_ledger _ _ _ _ _ A), order_taken_snoc.
    destruct (order_row r o y) eqn:Ey; [exfalso|by rewrite app_nil_r]. pose proof (ap_records _ _ _ _ _ A) as R.
    unfold order_row in Ey. rewrite !andb_true_iff in Ey. destruct Ey as [[E1 E2] E3]. apply bool_decide_eq_true in E1, E2, E3.
    destruct (made_by_consumption op rq Hm) as (c & items & i & a & -> & ->); [left; by rewrite (rec_type _ _ _ R), E3|].
    apply Hop. pose proof (rec_restaurant _ _ _ R) as Er. pose proof (rec_reference _ _ _ R) as Eo. cbn in *. split; congruence.
  - cbn [with_ledger ledger]. rewrite order_taken_snoc. destruct (row_orders_sound _ _ _ _ Hm Hr S) as [_ Ht].
    unfold order_row. by rewrite (bool_decide_false _ Ht), andb_false_r, app_nil_r.
  - destruct (reverse_row _ _ _ _ _ _ S Hx Ht Hn H) as (d & y & A & _ & _ & _ & ->). cbn [with_ledger ledger]. rewrite order_taken_snoc.
    pose proof (rec_type _ _ _ (ap_records _ _ _ _ _ A)) as T. cbn in T. injection T as T.
    assert (order_row r o (set_reverses k y) = false) as ->.
    { unfold order_row. cbn. rewrite <-T. by rewrite (bool_decide_false _ (λ H : RestockCancelledOrder = Consumption, ltac:(discriminate H))), andb_false_r. }
    rewrite app_nil_r, <-order_taken_unmarked, list_insert_alter. apply event_at_row in Hx as [_ Hx].
    rewrite <-(order_taken_unmarked _ _ (ledger db)). f_equal. apply list_eq. intros j.
    rewrite !list_lookup_fmap, list_lookup_alter. case_decide; [|done]. subst. by rewrite Hx.
Qed.

Lemma moves_keep_taken s op db db' r o :
  ¬ consumes r o op → moves (from_op s op) db db' → orders_sound (ledger db) → order_taken r o (ledger db') = order_taken r o (ledger db).
Proof.
  intros Hop. induction 1 as [|x y z H _ IH]; [done|]. intros S. rewrite IH; [by eapply move_keeps_taken|by eapply move_orders_sound].
Qed.

Lemma consume_again c items db :
  order_taken (oc_restaurant c) (oc_order c) (ledger db) ≠ [] →
  consume_for_order c items db = Ok (db, AlreadyConsumed (map (λ x, x.1.1) (order_taken (oc_restaurant c) (oc_order c) (ledger db)))).
Proof.
  unfold consume_for_order, order_taken. destruct (List.filter _ _) as [|p ps]; [done|]. intros _. by rewrite map_map.
Qed.

Lemma do_op_keeps_taken s op r o :
  orders_sound (ledger (stock s)) → order_taken r o (ledger (stock s)) ≠ [] →
  order_taken r o (ledger (stock (do_op s op))) = order_taken r o (ledger (stock s)).
Proof.
  intros S Ht. assert (consumes r o op ∨ ¬ consumes r o op) as [Hc|Hc].
  { destruct op; cbn; auto. destruct (decide (oc_restaurant c = r)), (decide (oc_order c = o)); naive_solver. }
  - destruct op; try done. destruct Hc as [<- <-]. cbn. by rewrite consume_again.
  - eapply moves_keep_taken; [done|apply op_moves|done].
Qed.

Lemma run_keeps_taken s ops r o :
  orders_sound (ledger (stock s)) → order_taken r o (ledger (stock s)) ≠ [] →
  order_taken r o (ledger (stock (run s ops))) = order_taken r o (ledger (stock s)).
Proof.
  revert s. induction ops as [|op ops IH]; intros s S Ht; [done|]. cbn. rewrite IH; [by apply do_op_keeps_taken| |by rewrite do_op_keeps_taken].
  by apply (run_orders_sound s [op]).
Qed.

(** A consumption that reports what it took has left rows of its order. *)
Lemma append_takes c i a now db db' id :
  append_event now (consume_request c i a) db = Ok (db', id) → orders_sound (ledger db) →
  order_taken (oc_restaurant c) (oc_order c) (ledger db') ≠ [].
Proof.
  intros [[-> Hf]|(y & _ & _ & A)]%append_event_inv S.
  - cbn [consume_request rq_restaurant rq_dedup] in Hf. apply find_dedup_Some in Hf as (j & x & _ & Hx & Hd & Hr).
    destruct (os_keys _ S _ _ _ _ _ Hx Hd) as [Ht Ho]. apply (order_taken_at _ _ _ _ _ Hx). unfold order_row.
    rewrite Ht, Ho, !bool_decide_true by done. unfold same_id in Hr. destruct (oc_restaurant c) as [rc|]; [|done].
    apply bool_decide_eq_true in Hr as ->. unfold is_id. by rewrite bool_decide_true.
  - pose proof (ap_records _ _ _ _ _ A) as R. rewrite (ap_ledger _ _ _ _ _ A), order_taken_snoc.
    pose proof (rec_restaurant _ _ _ R) as E1. pose proof (rec_reference _ _ _ R) as E2. pose proof (rec_type _ _ _ R) as E3.
    cbn in E1, E2, E3. injection E3 as E3. unfold order_row. rewrite <-E3, E2, E1, !bool_decide_true by done. unfold is_id.
    rewrite bool_decide_true by done. cbn. intros H%app_eq_nil. by destruct H.
Qed.

Lemma taken_prefix r o l k : l `prefix_of` k → order_taken r o l ≠ [] → order_taken r o k ≠ [].
Proof.
  intros [x ->]. induction x as [|y x IH] using rev_ind; [by rewrite app_nil_r|]. intros Hl. rewrite app_assoc, order_taken_snoc.
  intros E%app_eq_nil. destruct E as [E _]. by apply IH in E.
Qed.

Lemma append_all_takes c i takes db db' ids :
  orders_sound (ledger db) → append_all (oc_now c) (map (consume_request c i) takes) db = Ok (db', ids) →
  orders_sound (ledger db') ∧ ledger db `prefix_of` ledger db' ∧ (ids ≠ [] → order_taken (oc_restaurant c) (oc_order c) (ledger db') ≠ []).
Proof.
  revert db ids. induction takes as [|a takes IH]; intros db ids S H; cbn in H; inv_res; [by subst|].
  destruct y as [d k]. inv_res. destruct y as [d' ks]. inv_res. subst.
  assert (orders_sound (ledger d)) as S' by (eapply (append_orders_sound (OConsume c [])); [by eexists _, _|exact Hy|done]).
  destruct (IH _ _ S' Hy0) as (S'' & P & _). split; [done|]. split; [etransitivity; [by eapply append_prefix|done]|].
  intros _. eapply taken_prefix; [exact P|]. by eapply append_takes.
Qed.

Lemma consume_ingredient_takes c metas required st st' id :
  orders_sound (ledger st.1.1) → consume_ingredient c metas required st id = Ok st' →
  orders_sound (ledger st'.1.1) ∧ order_taken (oc_restaurant c) (oc_order c) (ledger st'.1.1) ≠ [].
Proof.
  destruct st as [[db done_] low]. cbn. intros S. destruct (required !! id) as [need|]; [|done]. destruct (metas !! id) as [meta|]; [|done]. intros H. inv_res.
  destruct y1 as [d ids]. inv_res. subst. cbn. destruct (append_all_takes _ _ _ _ _ _ S Hy1) as (S' & _ & Hids). split; [done|].
  apply Hids. by apply bool_decide_eq_false in Hy2.
Qed.

Lemma consumed_takes c items db db' done_ low :
  orders_sound (ledger db) → consume_for_order c items db = Ok (db', Consumed done_ low) →
  orders_sound (ledger db') ∧ order_taken (oc_restaurant c) (oc_order c) (ledger db') ≠ [].
Proof.
  intros S. unfold consume_for_order. destruct (List.filter _ _) as [|p ps]; [|done]. intros H. inv_res. destruct y as [|l ls]; [done|].
  inv_res. destruct y0 as [[d dn] lw]. inv_res. subst. rewrite (calm_ledger _ _ (alerts_calm _ _ _ _)).
  destruct (sorted_names _) as [|i ids] eqn:E.
  { cbn in E. destruct (foldr insert_name [] _); cbn in E; [done|]. destruct (decide _); [done|]. by destruct (string_ltb _ _). }
  cbn in Hy1. inv_res. destruct (consume_ingredient_takes _ _ _ (db, [], []) _ _ S Hy2) as [S' T].
  refine (res_foldl_inv (λ st, orders_sound (ledger st.1.1) ∧ order_taken (oc_restaurant c) (oc_order c) (ledger st.1.1) ≠ []) _ _ _ _ _ _ Hy1);
    [|done]. intros x a b _ [Sa _] Hx. by eapply consume_ingredient_takes.
Qed.

(** C15: an order's stock leaves once.  After an order's consumption has succeeded, no later
    call of any operation, by anyone and in any order, adds to, removes or changes what it
    took, and consuming the order again answers with the same events and writes nothing. *)
Theorem order_consumed_once s c items db done_ low ops :
  orders_sound (ledger (stock s)) → consume_for_order c items (stock s) = Ok (db, Consumed done_ low) →
  let s' := run (with_stock db s) ops in
  let taken := order_taken (oc_restaurant c) (oc_order c) in
  taken (ledger db) ≠ [] ∧ taken (ledger (stock s')) = taken (ledger db) ∧
  ∀ c' items', oc_restaurant c' = oc_restaurant c → oc_order c' = oc_order c →
    consume_for_order c' items' (stock s') = Ok (stock s', AlreadyConsumed (map (λ x, x.1.1) (taken (ledger db)))).
Proof.
  intros S H. destruct (consumed_takes _ _ _ _ _ _ S H) as [S' T].
  pose proof (run_keeps_taken (with_stock db s) ops _ _ S' T) as E. split; [done|]. split; [exact E|].
  intros c' items' E1 E2. cbn [stock with_stock] in E. rewrite <-E, <-E1, <-E2. apply consume_again. by rewrite E1, E2, E.
Qed.

(** *** Given back at most once *)

Definition open_at (db : stock_db) (k : Z) : Prop := ∃ o, event_at db k = Some o ∧ l_type o = Consumption ∧ l_reversed_by o = None.

Lemma reverse_closes now k db db' id :
  orders_sound (ledger db) → consumption_at db k → reverse_event now k INVENTORY_RESTOCK_CANCELLED db = Ok (db', id) →
  orders_sound (ledger db') ∧ ∀ j, open_at db' j → open_at db j ∧ j ≠ k.
Proof.
  intros S (o & Ho & Ht) H. destruct (l_reversed_by o) as [old|] eqn:Hn.
  { unfold reverse_event in H. rewrite Ho, Hn in H. inv_res. subst. split; [done|]. intros j Hj. split; [done|]. intros ->.
    destruct Hj as (o' & Ho' & _ & Hn'). naive_solver. }
  split; [eapply (move_orders_sound {| stock := db; transfers := []; counts := []; purchase_orders := []; sales := []; conversion_recipes := [];
            runs := []; receipts := []; adjustments := []; wastage := [] |} (ORestock 0 "")); [by eapply m_reverse|done]|].
  destruct (reverse_row _ _ _ _ _ _ S Ho Ht Hn H) as (d & r & A & _ & _ & Hk & ->).
  pose proof (rec_type _ _ _ (ap_records _ _ _ _ _ A)) as T. cbn in T. injection T as T.
  intros j (x & [Hj Hx]%event_at_row & Hxt & Hxn). cbn [with_ledger ledger] in Hx.
  apply lookup_snoc_cases in Hx as [Hx|[_ ->]]; [|cbn in Hxt; by rewrite <-T in Hxt].
  apply event_at_row in Ho as [Hk0 Ho]. destruct (decide (Z.to_nat j = Z.to_nat k)) as [E|E].
  - rewrite E, list_lookup_insert_eq in Hx by done. by injection Hx as <-.
  - rewrite list_lookup_insert_ne in Hx by done. split; [|by intros ->]. exists x. split; [by apply event_at_row|done].
Qed.

Lemma reverse_all_closes now ids db db' news :
  orders_sound (ledger db) → (∀ k, k ∈ ids → consumption_at db k) → reverse_all now ids db = (db', Ok news) →
  orders_sound (ledger db') ∧ ∀ j, open_at db' j → open_at db j ∧ j ∉ ids.
Proof.
  revert db news. induction ids as [|k ids IH]; intros db news S Hk H; cbn in H.
  { injection H as <- <-. split; [done|]. intros j Hj. split; [done|]. apply not_elem_of_nil. }
  destruct (reverse_event _ _ _ _) as [[d n]|] eqn:E; [|done]. destruct (reverse_all now ids d) as [d' r] eqn:Er. injection H as -> Hr. inv_res. subst.
  destruct (reverse_closes _ _ _ _ _ S (Hk k ltac:(left)) E) as [S' Hc]. destruct (IH d y S') as [S'' Hc']; [|done|].
  - intros j Hj. eapply (consumption_kept (λ _ _, False)); [|apply Hk; by right]. eapply reverse_moves; [apply Hk; by left|exact E].
  - split; [done|]. intros j Hj. apply Hc' in Hj as [Hj Hn]. apply Hc in Hj as [Hj Hne]. split; [done|]. by apply not_elem_of_cons.
Qed.

Lemma sum_where_none {A} (b : A → bool) f l : (∀ x, x ∈ l → b x = false) → sum_where b f l = 0.
Proof.
  induction l as [|x l IH]; intros Hb; [done|]. rewrite sum_where_cons, IH, (Hb x (list_elem_of_here _ _)); [done|].
  intros y Hy. apply Hb. by right.
Qed.

Lemma restock_closes now order db db' news o i b :
  orders_sound (ledger db) → order = o → restock_cancelled_order now order db = (db', Ok news) →
  sum_where (outstanding o i b) l_out (ledger db') = 0.
Proof.
  intros S -> H. unfold restock_cancelled_order in H.
  assert (∀ k, k ∈ restock_originals db o → consumption_at db k) as Hids.
  { intros k (p & -> & [Hp1 Hp2]%in_filtered)%list_elem_of_fmap. exists p.2.
    split; [by apply numbered_at|]. apply andb_true_iff in Hp2 as [[_ Hp2]%andb_true_iff _]. by apply bool_decide_eq_true in Hp2. }
  pose proof (reversals_move_back (λ _ _, False) now _ db Hids) as Hm. rewrite H in Hm. cbn in Hm.
  apply reverse_all_closes in H as [S' Hc]; [|done|done].
  apply sum_where_none. intros x [j Hx]%list_elem_of_lookup. destruct (outstanding o i b x) eqn:E; [exfalso|done].
  unfold outstanding, of_order in E. rewrite !andb_true_iff, !bool_decide_eq_true in E. destruct E as [[[[E1 _] _] E2] E3].
  destruct (Hc (Z.of_nat j)) as [(y & Hy & Hyt & Hyn) Hn].
  { exists x. split; [apply event_at_row; rewrite Nat2Z.id; split; [lia|done]|done]. }
  apply Hn. unfold restock_originals. apply list_elem_of_fmap. exists (Z.of_nat j, y). split; [done|]. apply in_filtered.
  apply event_at_row in Hy as [_ Hy]. rewrite Nat2Z.id in Hy. split.
  - apply list_elem_of_lookup. exists j. unfold numbered. by rewrite list_lookup_imap, Hy.
  - destruct (moves_row _ _ _ _ _ Hm Hy) as (x' & Hx' & Eu). rewrite Hx in Hx'. injection Hx' as <-. apply (f_equal l_reference) in Eu. cbn in Eu.
    destruct (os_consumption _ S _ _ Hy Hyt) as (_ & _ & o' & Ho & Hcor). unfold unreversed. cbn.
    rewrite Hyt, Hyn, Hcor.
    assert (o' = o) as -> by congruence. by rewrite !bool_decide_true.
Qed.

(** C20: an order's stock comes back at most once.  In every state reached from an empty
    ledger, whatever was retried or cancelled twice, what an order has moved of an
    ingredient in a branch is exactly what its consumptions that carry no reversal took; so
    when a restock of the order succeeds, the order has moved nothing. *)
Theorem order_net_effect s ops order ingredient_id branch :
  ledger (stock s) = [] →
  let s' := run s ops in
  let net db := sum_where (of_order order ingredient_id branch) moved (ledger db) in
  net (stock s') = - sum_where (outstanding order ingredient_id branch) l_out (ledger (stock s')) ∧
  ∀ now db news, restock_cancelled_order now order (stock s') = (db, Ok news) → net db = 0.
Proof.
  intros Hs s' net. assert (orders_sound (ledger (stock s'))) as S by (apply run_orders_sound; rewrite Hs; apply fresh_orders_sound).
  split; [apply S|]. intros now db news H. pose proof (restock_closes _ _ _ _ _ order ingredient_id branch S eq_refl H) as E.
  assert (orders_sound (ledger db)) as S'.
  { pose proof (run_orders_sound s' [ORestock now order] S) as S2. cbn in S2. by rewrite H in S2. }
  unfold net. by rewrite (os_net _ S'), E.
Qed.

Definition consumed_db : stock_db := match consume_for_order Demo.c Demo.items (stock Demo.bought) with Ok (db, _) => db | Err _ => stock Demo.bought end.
Lemma order_demo_sound : orders_sound (ledger (stock Demo.bought)).
Proof. apply run_orders_sound, fresh_orders_sound. Qed.

(** The rice and the milk of an order leave once, the milk from the batch that expires
    first. *)
Lemma order_consumed_once_witness :
  let taken := order_taken (Some "r") "o1" in
  let s' := run (with_stock consumed_db Demo.bought) Demo.sent in
  taken (ledger (stock s')) = [(3, "milk", 167); (4, "rice", 350)]%string ∧
  consume_for_order Demo.c Demo.items (stock s') = Ok (stock s', AlreadyConsumed [3; 4]).
Proof.
  destruct (consume_for_order Demo.c Demo.items (stock Demo.bought)) as [[db [| |done_ low]]|] eqn:E; [vm_compute in E; discriminate E..| |vm_compute in E; discriminate E].
  destruct (order_consumed_once Demo.bought Demo.c Demo.items db done_ low Demo.sent order_demo_sound E) as (_ & H1 & H2).
  specialize (H2 Demo.c Demo.items eq_refl eq_refl). assert (db = consumed_db) as -> by (unfold consumed_db; by rewrite E).
  assert (order_taken (Some "r") "o1" (ledger consumed_db) = [(3, "milk", 167); (4, "rice", 350)])%string as Et by (vm_compute; reflexivity).
  change (oc_restaurant Demo.c) with (Some "r"%string) in *. change (oc_order Demo.c) with "o1"%string in *.
  rewrite Et in H2. split; [exact (eq_trans H1 Et)|exact H2].
Defined.

Lemma order_net_effect_witness :
  sum_where (of_order "o1" "rice" (Some "b1")) moved (ledger (stock (run Demo.s Demo.day))) = 0 ∧
  sum_where (of_order "o1" "rice" (Some "b1")) moved (ledger (stock (run Demo.s (take 2 Demo.day)))) = - (350).
Proof.
  split.
  - destruct (order_net_effect Demo.s Demo.day "o1" "rice" (Some "b1"%string) eq_refl) as [H _]. rewrite H. vm_compute. reflexivity.
  - vm_compute. reflexivity.
Defined.
