(* ===== verification/InventoryMirror.v ===== *)
(** Inventory, the mirror: [ingredients.current_stock] and [stock_quantity] follow the
    ledger ([mirror_follows_ledger]).  The ledger rounds the quantity of a movement to
    thousandths and the mirror rounds its own sum, so the two part only over a quantity
    that falls exactly half way between two thousandths. *)

From Stdlib Require Import ZArith Lia Ascii String.
From stdpp Require Import sorting relations.
From S2P Require Import Prelude PyDecimal PyFloat PyValues Inventory InventoryMoves InventoryStock.
Open Scope Z_scope.

(** ** Rounding a sum *)

(** Exactly half way between two thousandths. *)
Definition half_milli (d : decimal) : bool :=
  let p := 10 ^ Z.max 0 (- (dexp d + 3)) in 2 * (Z.abs (coef d) mod p) =? p.
Definition halfway (f : float64) : bool := half_milli (exact_decimal f).

Lemma round_div_strict m n d : 0 < d → 2 * (Z.abs n mod d) ≠ d → 2 * Z.abs (round_div m n d * d - n) < d.
Proof.
  intros Hd Ht. unfold round_div. pose proof (Z.div_mod (Z.abs n) d ltac:(lia)). pose proof (Z.mod_pos_bound (Z.abs n) d Hd).
  set (q := Z.abs n / d) in *. set (r := Z.abs n mod d) in *.
  destruct (rounds_up m q r d) eqn:E; [apply rounds_up_true in E|apply rounds_up_false in E]; clearbody q r;
    destruct (Z.sgn_spec n) as [[Hn ->]|[[Hn ->]|[Hn ->]]]; nia.
Qed.

Lemma round_div_shift m c n d :
  0 < d →
  Z.abs (round_div m (c * d + n) d - (c + round_div m n d)) <= 1 ∧
  (2 * (Z.abs n mod d) ≠ d → round_div m (c * d + n) d = c + round_div m n d).
Proof.
  intros Hd. pose proof (round_div_error m (c * d + n) d Hd). pose proof (round_div_error m n d Hd). split; [nia|].
  intros Ht. pose proof (round_div_strict m n d Hd Ht). nia.
Qed.

Lemma rescale_sum c x :
  let whole := c + rescale ROUND_HALF_UP (-3) x in
  let sum := rescale ROUND_HALF_UP (-3) (numeric_add (milli c) x) in
  Z.abs (sum - whole) <= 1 ∧ (half_milli x = false → sum = whole).
Proof.
  cbn zeta. set (k := Z.max 3 (- dexp x)). unfold half_milli. rewrite Z.eqb_neq.
  rewrite !(rescale_fine _ 3 k) by (cbn; lia). unfold numeric_add, milli. cbn [coef dexp].
  set (e := Z.min (-3) (dexp x)). set (n := coef x * 10 ^ (dexp x + k)). set (d := 10 ^ (k - 3)).
  assert (0 < d) as Hd by (apply pow10_pos; lia).
  assert ((c * 10 ^ (-3 - e) + coef x * 10 ^ (dexp x - e)) * 10 ^ (e + k) = c * d + n) as ->.
  { rewrite Z.mul_add_distr_r, <-!Z.mul_assoc, <-!pow10_split by lia. unfold n, d. f_equal; do 2 f_equal; lia. }
  pose proof (round_div_shift ROUND_HALF_UP c n d Hd) as [H1 H2]. split; [done|]. intros Ht. apply H2.
  destruct (Z.le_gt_cases (-3) (dexp x)) as [Hx|Hx].
  - assert (d = 1) as -> by (unfold d, k; replace (Z.max 3 (- dexp x) - 3) with 0 by lia; done). rewrite Z.mod_1_r. lia.
  - replace n with (coef x) by (unfold n, k; replace (dexp x + Z.max 3 (- dexp x)) with 0 by lia; lia).
    replace d with (10 ^ Z.max 0 (- (dexp x + 3))) by (unfold d, k; f_equal; lia). done.
Qed.

Lemma half_milli_neg d : half_milli (dneg d) = half_milli d.
Proof. unfold half_milli, dneg. cbn [coef dexp]. by rewrite Z.abs_opp. Qed.

(** ** The quantity the mirror adds *)

Lemma at_own_scale d : at_scale (- dexp d) d (coef d).
Proof. destruct d. by apply at_scale_Dec; [cbn; lia|]. Qed.

Lemma delta_in rq : fits (coef (rq_in rq)) → coef (rq_out rq) = 0 → of_decimal (delta_of rq) = of_decimal (rq_in rq).
Proof.
  intros Hf H0. apply (of_decimal_value (- dexp (rq_in rq)) _ _ (coef (rq_in rq))); [|apply at_own_scale].
  rewrite <-(Z.sub_0_r (coef (rq_in rq))). apply dsub_at_scale; [apply at_own_scale|by apply at_scale_zero|by rewrite Z.sub_0_r].
Qed.

Lemma delta_out rq : fits (coef (rq_out rq)) → coef (rq_in rq) = 0 → of_decimal (delta_of rq) = of_decimal (dneg (rq_out rq)).
Proof.
  intros Hf H0. assert (at_scale (- dexp (rq_out rq)) (dneg (rq_out rq)) (- coef (rq_out rq))) as Hn by apply dneg_at_scale, at_own_scale.
  apply (of_decimal_value (- dexp (rq_out rq)) _ _ (- coef (rq_out rq))); [|done].
  rewrite <-(Z.sub_0_l (coef (rq_out rq))). apply dsub_at_scale; [by apply at_scale_zero|apply at_own_scale|].
  unfold fits in *. lia.
Qed.

Lemma stored_of_zero d q : coef d = 0 → numeric 12 3 (float_param d) = Ok q → q = 0.
Proof.
  intros Hd [-> _]%numeric_inv. unfold float_param. rewrite (of_decimal_value 0 d d_zero 0) by (by apply at_scale_zero). by vm_compute.
Qed.

(** What a row records is the rounding of what the mirror is given, and a half way delta is
    visible in the published event. *)
Lemma delta_moved now rq db db' r :
  appends now rq db db' r → sized rq →
  moved r = rescale ROUND_HALF_UP (-3) (float_param (delta_of rq)) ∧
  half_milli (float_param (delta_of rq)) = halfway (of_decimal (rq_in rq)) || halfway (of_decimal (rq_out rq)) ∧
  deqb (delta_of rq) d_zero = false.
Proof.
  intros A [S1 S2]. pose proof (ap_records _ _ _ _ _ A) as R. destruct (ap_sided _ _ _ _ _ A) as [[N1 N2] Hside].
  pose proof (rec_in _ _ _ R) as Hin. pose proof (rec_out _ _ _ R) as Hout. pose proof (rec_some _ _ _ R) as Hsome.
  assert (∀ d, coef d = 0 → halfway (of_decimal d) = false) as Hz.
  { intros d Hd. by rewrite (of_decimal_value 0 d d_zero 0) by (by apply at_scale_zero). }
  assert (coef (delta_of rq) = 0 → coef (rq_in rq) = 0 ∧ coef (rq_out rq) = 0) as Hd0.
  { set (s := Z.max (- dexp (rq_in rq)) (- dexp (rq_out rq))). destruct Hside as [Hs|Hs]; intros H0; split; try done.
    - assert (at_scale (- dexp (rq_out rq)) (delta_of rq) (0 - coef (rq_out rq))) as Hat.
      { apply dsub_at_scale; [by apply at_scale_zero|apply at_own_scale|]. unfold fits in *. lia. }
      apply (at_scale_zero (- dexp (rq_out rq))) in H0. pose proof (at_scale_inj _ _ _ _ Hat H0). lia.
    - assert (at_scale (- dexp (rq_in rq)) (delta_of rq) (coef (rq_in rq) - 0)) as Hat.
      { apply dsub_at_scale; [apply at_own_scale|by apply at_scale_zero|]. by rewrite Z.sub_0_r. }
      apply (at_scale_zero (- dexp (rq_in rq))) in H0. pose proof (at_scale_inj _ _ _ _ Hat H0). lia. }
  assert (deqb (delta_of rq) d_zero = false) as Hne.
  { rewrite (deqb_at_scale (Z.max 0 (- dexp (delta_of rq))) _ _ _ 0 (at_scale_fine (Z.max 0 (- dexp (delta_of rq))) (delta_of rq) ltac:(lia))) by (by apply at_scale_zero).
    apply Z.eqb_neq. intros E. apply Z.mul_eq_0 in E as [E|E]; [|idtac].
    2: { exfalso. pose proof (pow10_pos (dexp (delta_of rq) + Z.max 0 (- dexp (delta_of rq))) ltac:(lia)). lia. }
    destruct (Hd0 E) as [E1 E2]. apply stored_of_zero in Hin, Hout; [|done..]. lia. }
  destruct Hside as [Hs|Hs].
  - apply (stored_of_zero _ _ Hs) in Hin as Hi0. apply numeric_inv in Hout as [Eo _].
    unfold float_param. rewrite (delta_out rq S2 Hs), exact_decimal_neg, rescale_opp, half_milli_neg, (Hz _ Hs).
    unfold moved. by rewrite Hi0, Eo.
  - apply (stored_of_zero _ _ Hs) in Hout as Ho0. apply numeric_inv in Hin as [Ei _].
    unfold float_param. rewrite (delta_in rq S1 Hs), (Hz _ Hs), orb_false_r. unfold moved. rewrite Ho0, Ei. split; [|done].
    unfold float_param. change (- (3)) with (-3). ring.
Qed.

(** ** Drift *)

(** The published movements of an ingredient whose quantity fell half way. *)
Definition ties (db : stock_db) (id : string) : Z :=
  sum_where (λ e, bool_decide (se_ingredient e = id) && (halfway (se_in e) || halfway (se_out e))) (λ _, 1) (published db).
Definition balance_of (db : stock_db) (id : string) : Z := fn_inventory_balance db id None None.

Definition drift (db db' : stock_db) : Prop :=
  ∀ id cur qty, stock_of db id = Some (cur, qty) →
    ∃ cur' qty', stock_of db' id = Some (cur', qty') ∧
      let entered := balance_of db' id - balance_of db id in
      let n := ties db' id - ties db id in
      Z.abs (cur' - (cur + entered)) <= n ∧ Z.abs (qty' - (qty + entered)) <= n.

#[export] Instance drift_preorder : PreOrder drift.
Proof.
  split.
  - intros db id cur qty H. exists cur, qty. split; [done|]. cbn zeta. lia.
  - intros x y z H1 H2 id cur qty H. destruct (H1 _ _ _ H) as (c1 & q1 & E1 & A1). destruct (H2 _ _ _ E1) as (c2 & q2 & E2 & A2).
    exists c2, q2. split; [done|]. cbn zeta in *. lia.
Qed.

Lemma balance_unmarked db id b t : fn_inventory_balance db id b t = sum_where (counts_for id b t) moved (map unmarked (ledger db)).
Proof. symmetry. by apply sum_where_map. Qed.

Lemma drift_same db db' :
  (∀ id x, stock_of db id = Some x → stock_of db' id = Some x) → map unmarked (ledger db') = map unmarked (ledger db) → published db' = published db →
  drift db db'.
Proof.
  intros E1 E2 E3 id cur qty H. exists cur, qty. split; [by apply E1|]. unfold balance_of, ties. rewrite !balance_unmarked, E2, E3. cbn zeta. lia.
Qed.

Lemma numeric_milli p d n : numeric p 3 d = Ok n → n = rescale ROUND_HALF_UP (-3) d.
Proof. by intros [-> _]%numeric_inv. Qed.

(** [injection] would take the tables apart field by field. *)
Lemma Ok_ingredients (f g : gmap string ingredient → gmap string ingredient) db :
  Ok (with_ingredients f db) = Ok (with_ingredients g db) → g (ingredients db) = f (ingredients db).
Proof. by intros E%(f_equal (λ r, match r with Ok d => ingredients d | Err _ => ∅ end)). Qed.

Lemma add_stock_inv delta i i' :
  add_stock delta i = Ok i' →
  i_current_stock i' = rescale ROUND_HALF_UP (-3) (numeric_add (milli (i_current_stock i)) (float_param delta)) ∧
  i_stock_quantity i' = rescale ROUND_HALF_UP (-3) (numeric_add (milli (i_stock_quantity i)) (float_param delta)).
Proof.
  unfold add_stock. intros (q1 & E1 & (q2 & E2 & H)%res_bind_Ok)%res_bind_Ok.
  assert (i_current_stock i' = q1 ∧ i_stock_quantity i' = q2) as [-> ->].
  { by apply (f_equal (λ r, match r with Ok x => (i_current_stock x = q1 ∧ i_stock_quantity x = q2) | Err _ => False end)) in H as <-. }
  split; by eapply numeric_milli.
Qed.

(** A movement leaves the other ingredients alone. *)
Lemma append_other now rq db db' r j :
  appends now rq db db' r → rq_ingredient rq ≠ j →
  stock_of db' j = stock_of db j ∧ balance_of db' j = balance_of db j ∧ ties db' j = ties db j.
Proof.
  intros A Hne. unfold balance_of, fn_inventory_balance, ties. rewrite (ap_ledger _ _ _ _ _ A), (ap_published _ _ _ _ _ A), !sum_where_snoc.
  cbn [event_of se_ingredient]. unfold counts_for at 2. rewrite (rec_ingredient _ _ _ (ap_records _ _ _ _ _ A)), !bool_decide_false by done.
  cbn [andb]. split; [|lia]. unfold stock_of. f_equal. destruct (ap_mirror _ _ _ _ _ A) as [Hmir|[-> _]]; [|done]. unfold mirror_stock in Hmir.
  destruct (ingredients db !! rq_ingredient rq) as [i|]; inv_res.
  - by rewrite <-Hmir, lookup_insert_ne.
  - apply (f_equal ingredients) in Hmir. cbn [with_ingredients ingredients] in Hmir. by rewrite Hmir.
Qed.

Lemma append_drift now rq db db' id :
  append_event now rq db = Ok (db', id) → rq_mirror rq = true → sized rq → drift db db'.
Proof.
  intros [[-> _]|(r & _ & _ & A)]%append_event_inv Hm Hs; [reflexivity|].
  destruct (delta_moved _ _ _ _ _ A Hs) as (Emoved & Ehalf & Ene).
  destruct (ap_mirror _ _ _ _ _ A) as [Hmir|[_ [?|?]]]; [|congruence..]. intros j cur qty Hj.
  destruct (decide (rq_ingredient rq = j)) as [<-|Hne].
  2: { destruct (append_other _ _ _ _ _ _ A Hne) as (-> & -> & ->). exists cur, qty. split; [done|]. cbn zeta. lia. }
  unfold balance_of, fn_inventory_balance, ties. rewrite (ap_ledger _ _ _ _ _ A), (ap_published _ _ _ _ _ A), !sum_where_snoc.
  cbn [event_of se_ingredient se_in se_out]. rewrite <-Ehalf.
  assert (counts_for (rq_ingredient rq) None None r = true) as ->.
  { unfold counts_for. rewrite !andb_true_r, (rec_ingredient _ _ _ (ap_records _ _ _ _ _ A)). by apply bool_decide_true. }
  unfold mirror_stock in Hmir.
  rewrite !bool_decide_true by done. unfold stock_of in Hj. apply fmap_Some in Hj as (i & Hi & [= -> ->]). rewrite Hi in Hmir.
  apply res_bind_Ok in Hmir as (y & Hy & Hmir). apply Ok_ingredients in Hmir. apply add_stock_inv in Hy as [E1 E2]. unfold stock_of.
  rewrite Hmir, lookup_insert_eq. eexists _, _. split; [done|]. cbn [andb]. rewrite E1, E2.
  rewrite Emoved. pose proof (rescale_sum (i_current_stock i) (float_param (delta_of rq))) as S1.
  pose proof (rescale_sum (i_stock_quantity i) (float_param (delta_of rq))) as S2. revert S1 S2. cbn zeta.
  generalize (rescale ROUND_HALF_UP (-3) (float_param (delta_of rq))).
  generalize (rescale ROUND_HALF_UP (-3) (numeric_add (milli (i_current_stock i)) (float_param (delta_of rq)))).
  generalize (rescale ROUND_HALF_UP (-3) (numeric_add (milli (i_stock_quantity i)) (float_param (delta_of rq)))).
  clear. intros q1 q2 q [B1 C1] [B2 C2]. destruct (half_milli _); [lia|]. specialize (C1 eq_refl). specialize (C2 eq_refl). lia.
Qed.

Lemma reverse_drift now k o db db' id :
  stock_columns db → event_at db k = Some o → l_reversed_by o = None →
  reverse_event now k INVENTORY_RESTOCK_CANCELLED db = Ok (db', id) → drift db db'.
Proof.
  intros [C _] Ho Hn H. destruct (reverse_event_cases _ _ _ _ _ _ _ Ho Hn H) as (d & Hd & ->). transitivity d.
  - eapply append_drift; [exact Hd|done|]. apply event_at_row in Ho as [_ Ho]. eapply Forall_lookup_1 in C as [C1 C2]; [|exact Ho].
    split; apply fits_small; cbn; lia.
  - apply drift_same; [done| |done]. cbn. by rewrite !alter_unmarked.
Qed.

(** ** Every operation *)

(** The operations that keep the mirror: an order's consumption when it is asked to, and
    everything else but the older endpoints that write rows of their own. *)
Definition mirrored (op : stock_op) : Prop :=
  match op with
  | OConsume c _ => oc_mirror c = true
  | OErpAdjust _ _ _ _ _ _ _ | OErpVerify _ _ _ | OErpShip _ _ _ | OErpReceive _ _ _ _ => False
  | _ => True
  end.
Definition opens (op : stock_op) : Prop := match op with OIngredient _ _ _ _ => True | _ => False end.

Lemma made_by_mirrored op rq : mirrored op → ¬ opens op → made_by op rq → rq_mirror rq = true.
Proof.
  destruct op; cbn; try done; intros Hm Ho H;
    repeat (match goal with H : _ ∨ _ |- _ => destruct H as [H|H] | H : ∃ _, _ |- _ => destruct H end); by subst.
Qed.

Lemma move_drift s op db db' :
  mirrored op → ¬ opens op → sized_op op → shop_columns s → stock_columns db → move (from_op s op) db db' → drift db db'.
Proof.
  intros Hm Ho Hs Hc C. destruct 1 as [now rq db db' id [Hb Hz] H|rq r db [Hb _] Hr|now k o db db' id Hk _ Hn H|db db' [E1 E2 E3 _]].
  - assert (rq_mirror rq = true) as Hq by (by eapply made_by_mirrored). eapply append_drift; [done..|by apply Hz].
  - pose proof (pr_mirror _ _ Hr) as Hq. rewrite (made_by_mirrored op rq) in Hq by done. done.
  - by eapply reverse_drift.
  - apply drift_same; [done|by rewrite E2|done].
Qed.

Lemma moves_drift s op db db' :
  mirrored op → ¬ opens op → sized_op op → shop_columns s → stock_columns db → moves (from_op s op) db db' → drift db db'.
Proof.
  intros Hm Ho Hs Hc C. induction 1 as [|x y z H _ IH]; [reflexivity|]. transitivity y; [by eapply move_drift|]. apply IH. by eapply move_columns.
Qed.

(** A new ingredient is no other ingredient's stock, whatever becomes of its opening
    event. *)
Lemma opening_drift (s : shop) u now new_id body s' id :
  create_ingredient u now new_id body s = Ok (s', id) → drift (stock s) (stock s').
Proof.
  intros [->|(row & Hn & -> & H)]%create_ingredient_cases; [reflexivity|]. cbn zeta in H.
  assert (drift (stock s) (with_ingredients (<[new_id := row]>) (stock s))) as D by (by apply drift_same; [apply new_ingredient_calm|..]).
  destruct H as [->|(db' & k & E & ->)]; cbn [with_stock stock]; [exact D|].
  apply append_event_inv in E as [[-> _]|(r & _ & _ & A)]; [exact D|]. intros j cur qty Hj. destruct (D j cur qty Hj) as (c & q & E & B).
  assert (new_id ≠ j) as Hne by (intros ->; unfold stock_of in Hj; by rewrite Hn in Hj).
  destruct (append_other _ _ _ _ _ j A Hne) as (-> & -> & ->). by exists c, q.
Qed.

Lemma do_op_drift s op : mirrored op → sized_op op → shop_columns s → drift (stock s) (stock (do_op s op)).
Proof.
  intros Hm Hs C. assert (opens op ∨ ¬ opens op) as [Ho|Ho] by (destruct op; cbn; auto).
  - destruct op; try done. cbn. unfold after. destruct (create_ingredient _ _ _ _ _) as [[s' i]|] eqn:E; [|reflexivity]. by eapply opening_drift.
  - eapply moves_drift; [done..| |apply op_moves]. apply C.
Qed.

Lemma count_item_columns (c : stock_count) items st :
  count_columns c → Forall (λ i, Z.abs (ci_expected i) < 10 ^ 14 ∧ Z.abs (default 0 (ci_counted i)) < 10 ^ 14) items →
  count_columns (set_count c st items).
Proof. done. Qed.

Lemma start_count_columns u b n s s' id : start_count u b n s = Ok (s', id) → Forall count_columns (counts s) → Forall count_columns (counts s').
Proof.
  unfold start_count. intros H C. inv_res. subst. cbn. apply Forall_app. split; [done|]. apply Forall_singleton.
  unfold count_columns. cbn [sc_items]. apply Forall_forall. intros i Hi. destruct (res_map_in _ _ _ _ Hy1 Hi) as (p & _ & Hp).
  unfold count_item_row in Hp. inv_res. subst. cbn [ci_expected ci_counted default].
  match goal with N : numeric _ _ _ = Ok _ |- _ => apply numeric_inv in N as [_ N]; split; [exact N|done] end.
Qed.

Lemma submit_count_columns u id i q unit s s' :
  submit_count_item u id i q unit s = Ok s' → Forall count_columns (counts s) → Forall count_columns (counts s').
Proof.
  unfold submit_count_item. intros H C. inv_res. destruct (find _ _); [|done]. inv_res. subst. cbn. apply Forall_insert; [done|].
  unfold find_count in Hy. destruct (at_index _ _) as [c'|] eqn:Ec; [|done]. destruct (is_id _ _); [|done]. inv_res. subst.
  apply at_index_Some in Ec. eapply Forall_forall in C; [|exact Ec]. unfold count_columns in *. cbn. apply Forall_map.
  eapply Forall_impl; [exact C|]. intros it [H1 H2]. destruct (bool_decide (ci_ingredient it = i)); [|by split].
  match goal with N : numeric _ _ _ = Ok _ |- _ => apply numeric_inv in N as [_ N]; split; [exact H1|exact N] end.
Qed.

Lemma finalize_count_columns u now id s s' n :
  finalize_count u now id s = Ok (s', n) → Forall count_columns (counts s) → Forall count_columns (counts s').
Proof.
  unfold finalize_count. intros H C. inv_res. unfold find_count in Hy. destruct (at_index _ _) as [c|] eqn:Ec; [|done].
  destruct (is_id _ _); [|done]. inv_res. subst y. apply at_index_Some in Ec. eapply Forall_forall in C as Cc; [|exact Ec].
  destruct (sc_status c); same_documents H; cbn; by apply Forall_insert.
Qed.

Lemma do_op_columns s op : shop_columns s → shop_columns (do_op s op).
Proof.
  intros [C1 C2]. split; [by eapply moves_columns; [apply op_moves|]|].
  destruct (writes_counts op) eqn:Ew; [|by rewrite (proj2 (do_op_documents s op) Ew)]. destruct op; try done; cbn; unfold after.
  - destruct (start_count _ _ _ _) as [[s' i]|] eqn:E; [|done]. by eapply start_count_columns.
  - destruct (submit_count_item _ _ _ _ _ _) as [s'|] eqn:E; [|done]. by eapply submit_count_columns.
  - destruct (finalize_count _ _ _ _) as [[s' i]|] eqn:E; [|done]. by eapply finalize_count_columns.
Qed.

(** C17: the mirror follows the ledger.  Whatever operations that keep the mirror run (the
    consumption of orders with [mirror_master], as the order handler asks, and every
    operation but the older endpoints' adjustments, receipts and transfers, which write
    ledger rows only), in any order and with any of them failing, an ingredient's [current_stock] and its [stock_quantity] both change by
    what the ledger's balance of it changes by, up to one thousandth for every movement whose
    quantity, as the float that was sent, is exactly half way between two thousandths; with
    no such movement the three agree exactly. *)
Theorem mirror_follows_ledger s ops id cur qty :
  shop_columns s → Forall sized_op ops → Forall mirrored ops → stock_of (stock s) id = Some (cur, qty) →
  let s' := run s ops in
  let entered := fn_inventory_balance (stock s') id None None - fn_inventory_balance (stock s) id None None in
  let n := ties (stock s') id - ties (stock s) id in
  ∃ cur' qty', stock_of (stock s') id = Some (cur', qty') ∧
    Z.abs (cur' - (cur + entered)) <= n ∧ Z.abs (qty' - (qty + entered)) <= n.
Proof.
  intros C Hs Hm. assert (drift (stock s) (stock (run s ops))) as D; [|exact (D id cur qty)].
  revert s C. induction ops as [|op ops IH]; intros s C; [reflexivity|]. apply Forall_cons in Hs as [Hs1 Hs2], Hm as [Hm1 Hm2].
  transitivity (stock (do_op s op)); [|by apply IH; [| |apply do_op_columns]].
  by apply do_op_drift.
Qed.

Lemma demo_columns : shop_columns Demo.s.
Proof. by repeat split; constructor. Qed.

(** After purchases, an order and its cancellation and a transfer, the stock of rice is the
    ledger's. *)
Lemma mirror_follows_ledger_witness : ∃ cur qty, stock_of (stock (run Demo.s Demo.day)) "rice" = Some (cur, qty) ∧ cur = 10000 ∧ qty = 10000.
Proof.
  destruct (mirror_follows_ledger Demo.s Demo.day "rice" 0 0 demo_columns) as (cur & qty & E & H1 & H2);
    [by repeat constructor|by repeat constructor|by vm_compute|].
  exists cur, qty. split; [exact E|].
  assert (fn_inventory_balance (stock (run Demo.s Demo.day)) "rice" None None = 10000) as Eb by (vm_compute; reflexivity).
  assert (fn_inventory_balance (stock Demo.s) "rice" None None = 0) as Eb0 by (vm_compute; reflexivity).
  assert (ties (stock (run Demo.s Demo.day)) "rice" = 0) as Et by (vm_compute; reflexivity).
  assert (ties (stock Demo.s) "rice" = 0) as Et0 by (vm_compute; reflexivity).
  rewrite Eb, Eb0, Et, Et0 in H1, H2. lia.
Defined.
