(* ===== verification/InventoryBatches.v ===== *)
(** Inventory, what may be taken: an ingredient kept in batches is taken first expired first
    out, to the exact amount ([fefo_allocations]), and the operations that check the balance
    before they take never bring a branch below zero ([branch_stock_never_negative]). *)

From Stdlib Require Import ZArith Lia Ascii String.
From stdpp Require Import sorting relations.
From S2P Require Import Prelude PyDecimal PyFloat PyValues Inventory InventoryMoves InventoryStock InventoryOrders.
Open Scope Z_scope.

(** ** The order of the batches *)

Lemma lex_leb_trans a b c : length a = length b → length b = length c → lex_leb a b = true → lex_leb b c = true → lex_leb a c = true.
Proof.
  revert b c. induction a as [|x a IH]; intros [|y b] [|z c]; try done. cbn. intros [= L1] [= L2].
  rewrite !orb_true_iff, !andb_true_iff, !Z.ltb_lt, !Z.eqb_eq. intros [H1|[-> H1]] [H2|[-> H2]]; [left; lia|left; lia|left; lia|right]. eauto.
Qed.

Lemma lex_leb_total a b : lex_leb a b = true ∨ lex_leb b a = true.
Proof.
  revert b. induction a as [|x a IH]; intros [|y b]; cbn; auto. rewrite !orb_true_iff, !andb_true_iff, !Z.ltb_lt, !Z.eqb_eq.
  destruct (Z.lt_trichotomy x y) as [|[->|]]; [auto| |auto]. destruct (IH b); auto.
Qed.

#[export] Instance fefo_before_trans : Transitive fefo_before.
Proof. intros p q r. unfold fefo_before. by apply lex_leb_trans. Qed.
#[export] Instance fefo_before_total : Total fefo_before.
Proof. intros p q. apply lex_leb_total. Qed.

(** ** What the loop over the batches takes *)

Definition whole (p : Z * batch) : option Z * decimal * decimal := (Some p.1, milli (b_remaining p.2), Dec (b_cost p.2) (-4)).
Definition total (ps : list (Z * batch)) : Z := zsum (map (λ p, b_remaining p.2) ps).

Lemma total_cons p ps : total (p :: ps) = b_remaining p.2 + total ps.
Proof. unfold total. by rewrite map_cons, zsum_cons. Qed.

(** A quantity below 10^21 has a scale, at least thousandths, at which it is an integer of
    at most 28 digits. *)
Lemma need_scale d :
  0 <= coef d → fits (coef d) → dltb (milli (10 ^ 24)) d = false → ∃ s n, 3 <= s ∧ at_scale s d n ∧ 0 <= n ∧ fits n.
Proof.
  intros H0 Hf Hd. destruct (Z.le_gt_cases (dexp d) (-3)) as [He|He].
  - exists (- dexp d), (coef d). split; [lia|]. split; [|done]. destruct d. by apply at_scale_Dec; [cbn; lia|].
  - exists 3, (coef d * 10 ^ (dexp d + 3)). assert (at_scale 3 d (coef d * 10 ^ (dexp d + 3))) as Ha by (apply at_scale_fine; lia).
    assert (at_scale 3 (milli (10 ^ 24)) (10 ^ 24)) as Hm by (by apply at_scale_Dec).
    rewrite (dltb_at_scale 3 _ _ _ _ Hm Ha) in Hd. apply Z.ltb_ge in Hd. split; [lia|]. split; [done|].
    assert (0 <= coef d * 10 ^ (dexp d + 3)) by (apply Z.mul_nonneg_nonneg; [done|]; apply Z.lt_le_incl, pow10_pos; lia).
    split; [done|]. unfold fits, prec. change (10 ^ 28) with (10 ^ 24 * 10000). lia.
Qed.

Lemma at_scale_milli s n : 3 <= s → at_scale s (milli n) (n * 10 ^ (s - 3)).
Proof. intros. apply at_scale_up; [done|]. by apply at_scale_Dec. Qed.

Lemma take_batches_inv db r id u bs need takes missing s n :
  3 <= s → at_scale s need n → 0 < n → fits n → Forall (λ p, 0 < b_remaining p.2) bs →
  take_batches db r id u need bs = Ok (takes, missing) →
  (takes = map whole bs ∧ at_scale s missing (n - total bs * 10 ^ (s - 3)) ∧ 0 < n - total bs * 10 ^ (s - 3)) ∨
  (∃ drained p rest t, bs = drained ++ p :: rest ∧ takes = map whole drained ++ [(Some p.1, t, Dec (b_cost p.2) (-4))] ∧
     at_scale s t (n - total drained * 10 ^ (s - 3)) ∧ 0 < n - total drained * 10 ^ (s - 3) <= b_remaining p.2 * 10 ^ (s - 3) ∧
     dpos missing = false).
Proof.
  intros Hs. revert need n takes missing. induction bs as [|[k b] bs IH]; intros need n takes missing Hn Hn0 Hf Hb H.
  { cbn in H. inv_res. subst. left. unfold total. cbn. rewrite Z.sub_0_r. done. }
  apply Forall_cons in Hb as [Hb1 Hb2]. cbn [take_batches] in H. cbn in Hb1.
  rewrite (dleb_at_scale s need d_zero n 0) in H by (done || by apply at_scale_zero).
  destruct (Z.leb_spec n 0) as [|_]; [lia|]. inv_res. destruct y1 as [rest m]. inv_res. subst takes missing.
  assert (0 < 10 ^ (s - 3)) as Hp by (apply pow10_pos; lia).
  assert (at_scale s (milli (b_remaining b)) (b_remaining b * 10 ^ (s - 3))) as Hav by (by apply at_scale_milli).
  rewrite (dltb_at_scale s _ _ _ _ Hav Hn) in *. destruct (Z.ltb_spec (b_remaining b * 10 ^ (s - 3)) n) as [Hlt|Hge].
  - apply (IH _ (n - b_remaining b * 10 ^ (s - 3))) in Hy1; [|by apply dsub_at_scale; [done..|unfold fits in *; nia]|lia|unfold fits in *; nia|done].
    destruct Hy1 as [(-> & Hm & Hpos)|(drained & p & rest' & t & -> & -> & Ht & Hb' & Hm)].
    + left. rewrite total_cons. cbn [map snd]. split; [done|].
      replace (n - (b_remaining b + total bs) * 10 ^ (s - 3)) with (n - b_remaining b * 10 ^ (s - 3) - total bs * 10 ^ (s - 3)) by ring. done.
    + right. exists ((k, b) :: drained), p, rest', t. rewrite total_cons. cbn [map app snd]. split; [done|]. split; [done|].
      replace (n - (b_remaining b + total drained) * 10 ^ (s - 3)) with (n - b_remaining b * 10 ^ (s - 3) - total drained * 10 ^ (s - 3)) by ring. done.
  - right. exists [], (k, b), bs, need. cbn [map app fst snd]. unfold total. cbn [map zsum foldr]. rewrite Z.mul_0_l, Z.sub_0_r. split; [done|].
    assert (at_scale s (dsub need need) 0) as Hz by (rewrite <-(Z.sub_diag n); apply dsub_at_scale; [done..|by rewrite Z.sub_diag]).
    assert (rest = [] ∧ m = dsub need need) as [-> ->].
    { destruct bs as [|[k' b'] bs']; cbn [take_batches] in Hy1; [by inv_res|].
      rewrite (dleb_at_scale s _ d_zero 0 0 Hz) in Hy1 by (by apply at_scale_zero). cbn in Hy1. by inv_res. }
    repeat split; try done. by rewrite (dpos_at_scale s _ _ Hz).
Qed.

Lemma usable_remaining db r b id today : Forall (λ p, 0 < b_remaining p.2) (fefo_batches db r b id today).
Proof.
  apply Forall_forall. intros p [Hp _]%fefo_usable. unfold usable_batch in Hp. rewrite !andb_true_iff in Hp.
  destruct Hp as [[_ Hp] _]. by apply Z.ltb_lt.
Qed.

Lemma StronglySorted_weaken {A} (R R' : A → A → Prop) l : (∀ x y, R x y → R' x y) → StronglySorted R l → StronglySorted R' l.
Proof. intros HR. induction 1 as [|x l _ IH Hx]; constructor; [done|]. eapply Forall_impl; [exact Hx|]. auto. Qed.

(** Which batches may be taken, and which of two goes first: the one that expires first, a
    batch without a date after all dated ones, and of two that expire together the one
    received first. *)
Record takeable (r : string) (branch : option string) (id : string) (today : Z) (b : batch) : Prop := {
  tk_here : b_restaurant b = r ∧ b_branch b = branch ∧ b_ingredient b = id;
  tk_stock : b_status b = BActive ∧ 0 < b_remaining b;
  tk_fresh d : b_expiry b = Some d → today <= d;
}.
Definition taken_first (p q : Z * batch) : Prop :=
  match b_expiry p.2, b_expiry q.2 with
  | Some x, Some y => x < y ∨ x = y ∧ b_received_date p.2 <= b_received_date q.2
  | Some _, None => True
  | None, Some _ => False
  | None, None => b_received_date p.2 <= b_received_date q.2
  end.

Lemma fefo_taken p q : fefo_before p q → taken_first p q.
Proof.
  unfold fefo_before, taken_first, fefo_key, expiry_key. cbn [lex_leb]. rewrite !orb_true_iff, !andb_true_iff, !Z.ltb_lt, !Z.eqb_eq.
  destruct (b_expiry p.2), (b_expiry q.2); cbn; lia.
Qed.

Lemma usable_takeable r b id today x : usable_batch (Some r) b id today x = true ↔ takeable r b id today x.
Proof.
  unfold usable_batch, is_id. rewrite !andb_true_iff, !bool_decide_eq_true, Z.ltb_lt. split.
  - intros [[[[[[= E1] E2] E3] E4] E5] E6]. split; [done|done|]. intros d Hd. rewrite Hd in E6. by apply Z.leb_le.
  - intros [(E1 & E2 & E3) [E4 E5] E6]. split_and!; try done; [by rewrite E1|]. destruct (b_expiry x) as [d|]; [|done].
    by apply Z.leb_le, E6.
Qed.

Lemma numbered_In {A} (l : list A) i x : (i, x) ∈ numbered l ↔ ∃ n : nat, i = Z.of_nat n ∧ l !! n = Some x.
Proof.
  unfold numbered. rewrite list_elem_of_lookup. setoid_rewrite list_lookup_imap. split.
  - intros (n & (y & Hy & [= -> ->])%fmap_Some). by exists n.
  - intros (n & -> & Hn). exists n. by rewrite Hn.
Qed.
Lemma numbered_NoDup {A} (l : list A) : NoDup (map fst (numbered l)).
Proof.
  unfold numbered. change (map fst ?x) with (fst <$> x). rewrite fmap_imap. apply NoDup_alt. intros i j x. rewrite !list_lookup_imap.
  intros (y & _ & ->)%fmap_Some (z & _ & Hz)%fmap_Some. cbn in Hz. lia.
Qed.

(** The batches in the order they are taken. *)
Lemma fefo_batches_spec db r b id today :
  NoDup (map fst (fefo_batches db (Some r) b id today)) ∧
  (∀ i x, (i, x) ∈ fefo_batches db (Some r) b id today ↔ (∃ n : nat, i = Z.of_nat n ∧ batches db !! n = Some x) ∧ takeable r b id today x) ∧
  StronglySorted taken_first (fefo_batches db (Some r) b id today).
Proof.
  split; [|split].
  - unfold fefo_batches. rewrite (fmap_Permutation fst _ _ (merge_sort_Permutation _ _) : map fst _ ≡ₚ map fst _).
    apply (sublist_NoDup _ (map fst (numbered (batches db)))); [apply numbered_NoDup|]. apply (fmap_sublist fst).
    induction (numbered (batches db)) as [|p l IH]; [done|]. cbn. destruct (usable_batch _ _ _ _ p.2); by constructor.
  - intros i x. unfold fefo_batches. by rewrite merge_sort_Permutation, in_filtered, numbered_In, usable_takeable.
  - apply (StronglySorted_weaken fefo_before), (StronglySorted_merge_sort fefo_before). apply fefo_taken.
Qed.


(** C19: stock kept in batches is taken first expired first out.  When the allocation of a
    need succeeds, the batches that may be taken (active, of this branch, with stock left
    and not past their date), each once and in the order of their expiry (no date last) and,
    for the same date, of their receipt, split into ones that are taken whole, one that
    gives the rest, and later ones that are not touched; together they give exactly the
    need, and no batch gives more than it holds. *)
Theorem fefo_allocations db r b id meta need today takes :
  i_track_batches meta = true → 0 < coef need → fits (coef need) → dltb (milli (10 ^ 24)) need = false →
  allocations db (Some r) b id meta need today = Ok takes →
  ∃ drained p rest t,
    NoDup (map fst (drained ++ p :: rest)) ∧
    (∀ i x, (i, x) ∈ drained ++ p :: rest ↔ (∃ n : nat, i = Z.of_nat n ∧ batches db !! n = Some x) ∧ takeable r b id today x) ∧
    StronglySorted taken_first (drained ++ p :: rest) ∧
    takes = map whole drained ++ [(Some p.1, t, Dec (b_cost p.2) (-4))] ∧
    ∃ s n, 3 <= s ∧ at_scale s need n ∧ at_scale s t (n - total drained * 10 ^ (s - 3)) ∧
      0 < n - total drained * 10 ^ (s - 3) <= b_remaining p.2 * 10 ^ (s - 3).
Proof.
  intros Ht Hc Hf Hb H. unfold allocations in H. rewrite Ht in H. inv_res. destruct y as [ts missing]. inv_res. subst ts.
  destruct (need_scale need ltac:(lia) Hf Hb) as (s & n & Hs & Hn & Hn0 & Hfn).
  assert (n ≠ 0) as Hne by (intros ->; apply at_scale_zero in Hn; lia).
  apply (take_batches_inv _ _ _ _ _ _ _ _ s n) in Hy; [|done|done|lia|done|apply usable_remaining].
  destruct Hy as [(_ & Hm & Hpos)|(drained & p & rest & t & E & -> & Hat & Hle & _)].
  { rewrite (dpos_at_scale s _ _ Hm) in Hy0. apply Z.ltb_ge in Hy0. lia. }
  exists drained, p, rest, t. rewrite <-E. destruct (fefo_batches_spec db r b id today) as (H1 & H2 & H3).
  split_and!; try done. by exists s, n.
Qed.

(** ** No branch goes below zero *)

Definition branch_balance (db : stock_db) (id b : string) : Z := fn_inventory_balance db id (Some b) None.
Definition stocked (db : stock_db) : Prop := ∀ id b, 0 <= branch_balance db id b.

(** A movement takes no more than [n] thousandths. *)
Definition covered (db : stock_db) (rq : stock_request) : Prop :=
  ∀ b, rq_branch rq = Some b → dltb (milli (branch_balance db (rq_ingredient rq) b)) (rq_out rq) = false.

Lemma branch_balance_snoc db db' r id b :
  ledger db' = ledger db ++ [r] →
  branch_balance db' id b = branch_balance db id b + (if bool_decide (l_ingredient r = id ∧ l_branch r = Some b) then moved r else 0).
Proof.
  intros E. unfold branch_balance, fn_inventory_balance. rewrite E, sum_where_snoc. f_equal. unfold counts_for. rewrite andb_true_r.
  repeat case_bool_decide; naive_solver.
Qed.

Lemma append_row now rq db db' id : append_event now rq db = Ok (db', id) →
  db' = db ∨ ∃ r, ledger db' = ledger db ++ [r] ∧ l_ingredient r = rq_ingredient rq ∧ l_branch r = rq_branch rq ∧ 0 <= l_in r ∧
    numeric 12 3 (float_param (rq_out rq)) = Ok (l_out r) ∧ 0 <= coef (rq_out rq).
Proof.
  intros [[-> _]|(r & _ & _ & A)]%append_event_inv; [by left|right]. exists r. pose proof (ap_records _ _ _ _ _ A) as R.
  destruct (ap_sided _ _ _ _ _ A) as [[N1 N2] _].
  split; [apply A|]. split; [apply R|]. split; [apply R|]. split; [apply (stored_nonneg 12 3 _ _ N1), R|]. split; [apply R|done].
Qed.

Lemma stored_covered d q n : 0 <= coef d → 0 <= n → numeric 12 3 (float_param d) = Ok q → dltb (milli n) d = false → q <= n.
Proof.
  intros Hd Hn Hq Hle. destruct (Z.eq_dec (coef d) 0) as [E|E]; [|apply (stored_le d q n); [lia|done..]].
  apply numeric_inv in Hq as [-> _]. unfold float_param. rewrite (of_decimal_value 0 d d_zero 0) by (by apply at_scale_zero). by vm_compute (rescale _ _ _).
Qed.

Lemma append_stocked now rq db db' id :
  append_event now rq db = Ok (db', id) → stocked db → covered db rq → stocked db'.
Proof.
  intros H S C. apply append_row in H as [->|(r & E & Ei & Eb & Hin & Hq & Hpos)]; [done|]. intros j b.
  rewrite (branch_balance_snoc _ _ _ _ _ E). case_bool_decide as Hj; [|pose proof (S j b); lia]. destruct Hj as [<- Hb].
  rewrite Eb in Hb. pose proof (C _ Hb) as Hle. rewrite <-Ei in Hle.
  pose proof (stored_covered _ _ _ Hpos (S _ _) Hq Hle). unfold moved. lia.
Qed.

(** A movement of another ingredient leaves the balance alone. *)
Lemma append_elsewhere now rq db db' id j b :
  append_event now rq db = Ok (db', id) → j ≠ rq_ingredient rq → branch_balance db' j b = branch_balance db j b.
Proof.
  intros [->|(r & E & Ei & _)]%append_row Hj; [done|]. rewrite (branch_balance_snoc _ _ _ _ _ E).
  rewrite bool_decide_false by naive_solver. lia.
Qed.

(** Movements of distinct ingredients, each covered by the balance before the first. *)
Lemma append_all_stocked now rqs db db' ids :
  append_all now rqs db = Ok (db', ids) → NoDup (map rq_ingredient rqs) → (∀ rq, rq ∈ rqs → covered db rq) → stocked db → stocked db'.
Proof.
  revert db ids. induction rqs as [|rq rqs IH]; intros db ids H N C S; cbn in H; inv_res; [by subst|].
  destruct y as [d i]. inv_res. destruct y as [d' ids']. inv_res. subst. apply NoDup_cons in N as [Nrq N].
  eapply (IH d); [exact Hy0|done| |by eapply append_stocked; [exact Hy|done|apply C; left]].
  intros x Hx b Hb. rewrite (append_elsewhere _ _ _ _ _ _ _ Hy); [by apply C; [right|]|].
  intros E. apply Nrq. rewrite <-E. by apply list_elem_of_fmap_2.
Qed.

(** *** What each operation checks *)

Lemma sale_line_inv db r b l d :
  check_sale_line db r b false l = Ok d →
  si_ingredient (sd_item d) = si_ingredient l.1 ∧
  dltb (milli (fn_inventory_balance db (si_ingredient (sd_item d)) b None)) (sd_stock_quantity d) = false.
Proof. unfold check_sale_line. intros H. inv_res. subst. cbn. by rewrite andb_true_r in Hy1. Qed.

Lemma sale_stocked (s : shop) r b now items s' id :
  create_sale r b now items false s = Ok (s', id) → stocked (stock s) → stocked (stock s').
Proof.
  unfold create_sale. intros H S. inv_res. destruct y0 as [[prepared sub_total] tax_amount]. inv_res. destruct y9 as [db ids]. inv_res. subst. cbn.
  eapply append_all_stocked; [done| | |done].
  - rewrite map_map. cbn [sale_request rq_ingredient].
    rewrite (res_map_proj _ (λ d, si_ingredient (sd_item d)) (λ l, si_ingredient l.1) _ _ (λ x d Hx, proj1 (sale_line_inv _ _ _ _ _ Hx)) Hy5).
    apply negb_false_iff, bool_decide_eq_true in Hy1. unfold by_name. by rewrite merge_sort_Permutation.
  - intros rq (d & -> & Hd)%list_elem_of_fmap j Hj. cbn in Hj |- *. subst b. destruct (res_map_in _ _ _ _ Hy5 Hd) as (p & _ & Hp).
    by apply sale_line_inv in Hp as [_ ?].
Qed.

Lemma res_foldl_in {A S} (f : S → A → res S) l s s' x : res_foldl f s l = Ok s' → x ∈ l → ∃ a b, f a x = Ok b.
Proof.
  revert s. induction l as [|y l IH]; intros s H Hx; [by apply elem_of_nil in Hx|]. cbn in H. inv_res.
  apply elem_of_cons in Hx as [->|Hx]; [by eexists _, _|by eapply IH].
Qed.

(** A movement that takes nothing is covered. *)
Lemma gain_covered db rq : stocked db → coef (rq_out rq) = 0 → covered db rq.
Proof.
  intros S H0 b _. rewrite (dltb_at_scale 3 (milli (branch_balance db (rq_ingredient rq) b)) _ (branch_balance db (rq_ingredient rq) b) 0).
  - apply Z.ltb_ge, S.
  - by apply at_scale_Dec.
  - by apply at_scale_zero.
Qed.

Lemma convert_stocked (s : shop) r b now o q id inputs s' k :
  convert r b now o q id inputs false s = Ok (s', k) → stocked (stock s) → stocked (stock s').
Proof.
  unfold convert. intros H S. inv_res. destruct y7 as [db ids]. inv_res. destruct y8 as [db2 id2]. inv_res. subst. cbn.
  assert (stocked db) as Sd; [|by eapply append_stocked; [done..|by apply gain_covered]].
  eapply append_all_stocked; [exact Hy7| | |done].
  - rewrite map_map. cbn [input_request rq_ingredient]. by apply negb_false_iff, bool_decide_eq_true in Hy3.
  - intros rq (l & -> & Hl)%list_elem_of_fmap j Hj. cbn in Hj |- *. subst b. destruct (res_foldl_in _ _ _ _ _ Hy5 Hl) as (c & c' & Hc).
    unfold check_input_stock in Hc. inv_res.
    match goal with N : _ && _ = false |- _ => by rewrite andb_true_r in N end.
Qed.

Lemma ship_stocked (s : shop) u now id s' st : ship_transfer u now id s = Ok (s', st) → stocked (stock s) → stocked (stock s').
Proof.
  unfold ship_transfer. intros H S. inv_res. destruct (tr_status y); inv_res; try (by subst).
  all: subst; cbn; refine (res_foldl_inv stocked _ _ _ _ _ S _); [|done].
  all: intros it d d' _ Sd E; unfold ship_item in E; inv_res; destruct y6 as [e i]; inv_res; subst.
  all: eapply append_stocked; [done..|]; intros b [= <-]; cbn; done.
Qed.

(** Operations that take nothing. *)
Definition gains (op : stock_op) : Prop :=
  match op with OConsume _ _ | OSale _ _ _ _ _ | OConvert _ _ _ _ _ _ _ _ | OShip _ _ _ | OAdjust _ _ _ | OWaste _ _ _ | OFinalizeCount _ _ _
  | OErpAdjust _ _ _ _ _ _ _ | OErpShip _ _ _ => False | _ => True end.

Lemma made_by_gain op rq : gains op → made_by op rq → coef (rq_out rq) = 0.
Proof. destruct op; cbn; try done; intros _ H; repeat (match goal with H : ∃ _, _ |- _ => destruct H end); by subst. Qed.

Lemma numeric_zero d q : coef d = 0 → numeric 12 3 d = Ok q → q = 0.
Proof.
  intros Hd [-> _]%numeric_inv. rewrite (rescale_fine _ 3 (Z.max 3 (- dexp d))) by lia. rewrite Hd, Z.mul_0_l. unfold round_div.
  rewrite Z.abs_0, Z.mod_0_l, Z.div_0_l by (apply Z.pow_nonzero; lia). unfold rounds_up.
  pose proof (pow10_pos (Z.max 3 (- dexp d) - 3) ltac:(lia)). cbn. reflexivity.
Qed.

(** A row of an older endpoint that takes nothing. *)
Lemma row_stocked rq r db : plain_row rq r → coef (rq_out rq) = 0 → stocked db → stocked (with_ledger (λ l, l ++ [r]) db).
Proof.
  intros R H0 S i b. rewrite (branch_balance_snoc db _ r) by done. pose proof (S i b). destruct (pr_in _ _ R) as [_ Hin].
  destruct (pr_out _ _ R) as [Hout _]. apply (numeric_zero _ _ H0) in Hout. unfold moved. case_bool_decide; lia.
Qed.

Lemma branch_balance_unmarked db db' id b :
  map unmarked (ledger db') = map unmarked (ledger db) → branch_balance db' id b = branch_balance db id b.
Proof.
  assert (∀ d, branch_balance d id b = sum_where (counts_for id (Some b) None) moved (map unmarked (ledger d))) as E by (intros d; symmetry; by apply sum_where_map).
  rewrite !E. by intros ->.
Qed.

Lemma moves_stocked s op db db' :
  gains op → moves (from_op s op) db db' → orders_sound (ledger db) → stocked db → stocked db'.
Proof.
  intros Hg. induction 1 as [|x y z H _ IH]; [done|]. intros O S. apply IH; [by eapply move_orders_sound|].
  destruct H as [now rq x y id [Hm _] H|rq r x [Hm _] Hr|now k o x y id Ho Ht Hn H|x y [_ E _ _]].
  - eapply append_stocked; [done..|]. apply gain_covered; [done|by eapply made_by_gain].
  - eapply row_stocked; [done|by eapply made_by_gain|done].
  - destruct (reversal_rows _ _ _ _ _ _ Ho Hn H) as (d & Hd & E). intros i b. rewrite (branch_balance_unmarked _ _ _ _ E). revert i b.
    eapply append_stocked; [exact Hd|done|]. apply gain_covered; [done|]. apply event_at_row in Ho as [_ Ho].
    cbn. by destruct (os_consumption _ O _ _ Ho Ht) as (-> & _).
  - intros i b. unfold branch_balance, fn_inventory_balance. rewrite E. apply S.
Qed.

(** *** The consumption of an order *)

Lemma balance_bound db id b t : stock_columns db → fn_inventory_balance db id b t <= Z.of_nat (length (ledger db)) * 10 ^ 12.
Proof.
  intros [C _]. unfold fn_inventory_balance. induction C as [|r l [H1 H2] _ IH]; [done|]. rewrite sum_where_cons. cbn [length]. unfold moved at 1.
  rewrite Nat2Z.inj_succ. change (10 ^ 12) with 1000000000000 in *. destruct (counts_for id b t r); lia.
Qed.

Lemma take_all_stocked c id drained k t cost now s n db db' ids :
  3 <= s → Forall (λ p, 0 < b_remaining p.2) drained →
  at_scale s t (n - total drained * 10 ^ (s - 3)) → 0 <= n - total drained * 10 ^ (s - 3) →
  (∀ b, oc_branch c = Some b → n <= branch_balance db id b * 10 ^ (s - 3)) →
  append_all now (map (consume_request c id) (map whole drained ++ [(k, t, cost)])) db = Ok (db', ids) → stocked db → stocked db'.
Proof.
  intros Hs. assert (0 < 10 ^ (s - 3)) as Hp by (apply pow10_pos; lia). revert n db ids.
  induction drained as [|q drained IH]; intros n db ids Hd Ht Hn Hb H S; cbn [map app append_all] in H; inv_res; destruct y as [d i]; inv_res;
    destruct y as [d' ids']; inv_res; subst.
  - injection Hy0 as <- _. unfold total in Ht. cbn in Ht, Hn. rewrite Z.sub_0_r in Ht.
    eapply append_stocked; [exact Hy|done|]. intros b Eb. cbn in Eb |- *. specialize (Hb b Eb).
    rewrite (dltb_at_scale s _ _ _ _ (at_scale_milli s (branch_balance db id b) Hs) Ht). by apply Z.ltb_ge.
  - rewrite total_cons in Ht, Hn. apply Forall_cons in Hd as [Hq Hd].
    assert (0 <= total drained) as H0.
    { unfold total. clear -Hd. induction Hd as [|p l Hp _ IHl]; [done|]. rewrite map_cons, zsum_cons. lia. }
    assert (∀ b, oc_branch c = Some b → b_remaining q.2 <= branch_balance db id b) as Hle by (intros b Eb; specialize (Hb b Eb); nia).
    eapply (IH (n - b_remaining q.2 * 10 ^ (s - 3)) d); [done| | | |exact Hy0|].
    + replace (n - b_remaining q.2 * 10 ^ (s - 3) - total drained * 10 ^ (s - 3)) with (n - (b_remaining q.2 + total drained) * 10 ^ (s - 3)) by ring. done.
    + lia.
    + intros b Eb. specialize (Hb b Eb). specialize (Hle b Eb). apply append_row in Hy as [->|(r & E & _ & _ & Hin & Hq' & _)]; [nia|].
      cbn in Hq'. apply stored_milli in Hq'; [|lia]. rewrite (branch_balance_snoc _ _ _ _ _ E). case_bool_decide; [unfold moved|]; nia.
    + eapply append_stocked; [exact Hy|done|]. intros b Eb. cbn in Eb |- *. specialize (Hle b Eb).
      rewrite (dltb_at_scale 3 _ _ _ _ (at_scale_milli 3 (branch_balance db id b) ltac:(lia)) (at_scale_milli 3 (b_remaining q.2) ltac:(lia))).
      apply Z.ltb_ge. lia.
Qed.

Lemma no_need_no_takes db r id u need bs takes missing :
  coef need <= 0 → take_batches db r id u need bs = Ok (takes, missing) → takes = [].
Proof.
  intros Hn. assert (dleb need d_zero = true) as E.
  { rewrite (dleb_at_scale (Z.max 0 (- dexp need)) need d_zero (coef need * 10 ^ (dexp need + Z.max 0 (- dexp need))) 0).
    - apply Z.leb_le. pose proof (pow10_pos (dexp need + Z.max 0 (- dexp need)) ltac:(lia)). nia.
    - apply at_scale_fine. lia.
    - by apply at_scale_zero. }
  destruct bs as [|[k b] bs]; cbn [take_batches]; [|rewrite E]; intros H; by inv_res.
Qed.

Lemma dltb_below a b d : a <= b → dltb (milli a) d = false → dltb (milli b) d = false.
Proof.
  intros Hab. set (s := Z.max 3 (- dexp d)). assert (∀ n, dltb (milli n) d = (n * 10 ^ (s - 3) <? coef d * 10 ^ (dexp d + s))) as E.
  { intros n. apply (dltb_at_scale s); [apply at_scale_milli; lia|apply at_scale_fine; lia]. }
  rewrite !E, !Z.ltb_ge. pose proof (pow10_pos (s - 3) ltac:(lia)). nia.
Qed.

Lemma consume_ingredient_stocked c metas required st st' id :
  oc_allow_negative c = false → (∀ i d, required !! i = Some d → fits (coef d)) → stock_columns st.1.1 →
  Z.of_nat (length (ledger st.1.1)) <= 10 ^ 12 → consume_ingredient c metas required st id = Ok st' → stocked st.1.1 → stocked st'.1.1.
Proof.
  intros Hneg Hreq C Hlen. destruct st as [[db done_] low]. cbn. destruct (required !! id) as [need|] eqn:En; [|done].
  destruct (metas !! id) as [meta|]; [|done]. intros H S. inv_res. destruct y1 as [d ids]. inv_res. subst. cbn in *.
  rewrite Hneg, andb_true_r in Hy. rename Hy into Hcheck. apply bool_decide_eq_false in Hy2. unfold allocations in Hy0. destruct (i_track_batches meta).
  - inv_res. match goal with N : take_batches _ _ _ _ _ _ = Ok ?y |- _ => destruct y as [takes missing]; rename N into Ht end. inv_res.
    match goal with N : dpos missing = false |- _ => rename N into Hmis end. subst. destruct (Z.le_gt_cases (coef need) 0) as [Hz|Hz].
    { apply (no_need_no_takes _ _ _ _ _ _ _ _ Hz) in Ht as ->. cbn in Hy1. by inv_res. }
    assert (dltb (milli (10 ^ 24)) need = false) as Hb.
    { eapply dltb_below; [|exact Hcheck]. etransitivity; [by apply balance_bound|]. change (10 ^ 24) with (10 ^ 12 * 10 ^ 12). nia. }
    destruct (need_scale need ltac:(lia) (Hreq _ _ En) Hb) as (s & n & Hs & Hn & Hn0 & Hfn).
    assert (n ≠ 0) as Hne by (intros ->; apply at_scale_zero in Hn; lia).
    apply (take_batches_inv _ _ _ _ _ _ _ _ s n) in Ht; [|done|done|lia|done|apply usable_remaining].
    destruct Ht as [(_ & Hm & Hpos)|(drained & p & rest & t & E & -> & Hat & Hle & _)].
    { rewrite (dpos_at_scale s _ _ Hm) in Hmis. apply Z.ltb_ge in Hmis. lia. }
    eapply (take_all_stocked c id drained _ t _ _ s n); [done| |done|lia| |exact Hy1|done].
    + pose proof (usable_remaining db (oc_restaurant c) (oc_branch c) id (oc_today c)) as Hu. rewrite E in Hu. by apply Forall_app in Hu as [? _].
    + intros b Eb. rewrite Eb in Hcheck. rewrite (dltb_at_scale s _ _ _ _ (at_scale_milli s _ Hs) Hn) in Hcheck. by apply Z.ltb_ge.
  - inv_res. subst. cbn in Hy1. inv_res. destruct y0 as [d1 i1]. injection Hy1 as -> <-.
    eapply append_stocked; [done..|].
    intros b Eb. cbn in Eb |- *. by rewrite Eb in Hcheck.
Qed.

(** A loop keeps what each step keeps as long as a measure that only grows stays small. *)
Lemma res_foldl_bounded {A S} (m : S → Z) (N : Z) (P : S → Prop) (f : S → A → res S) l s s' :
  (∀ x a b, f a x = Ok b → m a <= m b) → (∀ x a b, x ∈ l → m b <= N → P a → f a x = Ok b → P b) →
  P s → m s' <= N → res_foldl f s l = Ok s' → P s'.
Proof.
  intros Hm. assert (∀ l a b, res_foldl f a l = Ok b → m a <= m b) as Hmono.
  { induction l0 as [|x l0 IH]; intros a b H; cbn in H; inv_res; [subst; lia|]. transitivity (m y); [by eapply Hm|by apply IH]. }
  revert s. induction l as [|x l IH]; intros s Hf Hs HN H; cbn in H; inv_res; [by subst|].
  assert (m y <= N) by (etransitivity; [by apply (Hmono l)|done]).
  apply (IH y); [|by eapply Hf; [left|..]|done..]. intros z a b Hz. apply Hf. by right.
Qed.

Definition rows_in (db : stock_db) : Z := Z.of_nat (length (ledger db)).
Lemma moves_rows ok db db' : moves ok db db' → rows_in db <= rows_in db'.
Proof. intros H%moves_prefix%prefix_length. rewrite !length_map in H. unfold rows_in. lia. Qed.

Lemma append_all_rows now rqs db db' ids : append_all now rqs db = Ok (db', ids) → rows_in db <= rows_in db'.
Proof.
  revert db ids. induction rqs as [|rq rqs IH]; intros db ids H; cbn in H; inv_res; [by subst|].
  destruct y as [d i]. inv_res. destruct y as [d' ids']. inv_res. subst. apply append_prefix, prefix_length in Hy. apply IH in Hy0.
  unfold rows_in in *. lia.
Qed.

Lemma consume_ingredient_rows c metas required id st st' :
  consume_ingredient c metas required st id = Ok st' → rows_in st.1.1 <= rows_in st'.1.1.
Proof.
  destruct st as [[db done_] low]. cbn. destruct (required !! id) as [need|]; [|done]. destruct (metas !! id) as [meta|]; [|done].
  intros H. inv_res. destruct y1 as [d ids]. inv_res. subst. cbn. by eapply append_all_rows.
Qed.

Lemma consume_loop_stocked (s : shop) c items metas required ids st st' :
  oc_allow_negative c = false → (∀ i d, required !! i = Some d → fits (coef d)) → stock_columns (stock s) →
  moves (from_op s (OConsume c items)) (stock s) st.1.1 → rows_in st'.1.1 <= 10 ^ 12 →
  res_foldl (consume_ingredient c metas required) st ids = Ok st' → stocked st.1.1 → stocked st'.1.1.
Proof.
  intros Hneg Hreq C Hm Hlen H S.
  refine (proj2 (res_foldl_bounded (λ st, rows_in st.1.1) (10 ^ 12)
    (λ st, moves (from_op s (OConsume c items)) (stock s) st.1.1 ∧ stocked st.1.1) _ _ _ _ _ _ _ Hlen H)); [| |done].
  - intros x a b. apply consume_ingredient_rows.
  - intros x a b _ Hb [Ha Sa] Hx. pose proof (consume_ingredient_rows _ _ _ _ _ _ Hx) as Hr.
    split; [etransitivity; [exact Ha|by eapply consume_ingredient_moves]|].
    eapply consume_ingredient_stocked; [done..| |exact (Z.le_trans _ _ _ Hr Hb)|exact Hx|done]. by eapply moves_columns.
Qed.

Lemma consume_stocked (s : shop) c items db' res_ :
  oc_allow_negative c = false → stock_columns (stock s) → rows_in db' <= 10 ^ 12 →
  consume_for_order c items (stock s) = Ok (db', res_) → stocked (stock s) → stocked db'.
Proof.
  intros Hneg C Hlen. unfold consume_for_order. destruct (List.filter _ _) as [|p ps]; [|intros H; inv_res; by subst].
  intros H S. inv_res. destruct y as [|l ls]; [inv_res; by subst|]. inv_res. destruct y0 as [[db done_] low]. inv_res. subst.
  assert (∀ i d, y !! i = Some d → fits (coef d)) as Hreq.
  { eapply (res_foldl_inv (λ m : gmap string decimal, ∀ i d, m !! i = Some d → fits (coef d))); [|by intros ? ?; rewrite lookup_empty|exact Hy0].
    intros x a b _. apply add_need_fits. }
  assert (ledger (foldl (raise_low_stock_alert (oc_restaurant c) (oc_branch c)) db low) = ledger db) as E by apply alerts_calm.
  unfold rows_in in Hlen. rewrite E in Hlen.
  assert (stocked db) as Sd; [|by intros i b; unfold branch_balance, fn_inventory_balance; rewrite E; apply Sd].
  apply (consume_loop_stocked s c items _ y _ _ (db, done_, low) Hneg Hreq C) in Hy1; [done..].
Qed.

(** *** Every run *)

(** The operations that look before they take: not the adjustments, the wastage and the
    counts, which record what happened, not the callers that allow a negative stock, and
    not the older endpoints' adjustment and shipment, which do not look. *)
Definition checked (op : stock_op) : Prop :=
  match op with
  | OConsume c _ => oc_allow_negative c = false
  | OSale _ _ _ _ neg | OConvert _ _ _ _ _ _ _ neg => neg = false
  | OAdjust _ _ _ | OWaste _ _ _ | OFinalizeCount _ _ _ | OErpAdjust _ _ _ _ _ _ _ | OErpShip _ _ _ => False
  | _ => True
  end.

Lemma do_op_stocked s op :
  checked op → stock_columns (stock s) → orders_sound (ledger (stock s)) → rows_in (stock (do_op s op)) <= 10 ^ 12 →
  stocked (stock s) → stocked (stock (do_op s op)).
Proof.
  intros Hc C O Hlen S. assert (gains op → stocked (stock (do_op s op))) as Hg by (intros Hg; by eapply moves_stocked; [|apply op_moves|..]).
  destruct op; try (by apply Hg); try done; cbn in Hc, Hlen |- *; subst.
  - destruct (consume_for_order _ _ _) as [[db r]|] eqn:E; [|done]. by eapply consume_stocked.
  - destruct (create_sale _ _ _ _ _ _) as [[s' i]|] eqn:E; [|done]. by eapply sale_stocked.
  - destruct (convert _ _ _ _ _ _ _ _ _) as [[s' i]|] eqn:E; [|done]. by eapply convert_stocked.
  - destruct (ship_transfer _ _ _ _) as [[s' i]|] eqn:E; [|done]. by eapply ship_stocked.
Qed.

(** C18: what looks before it takes never takes what is not there.  In every state reached
    from an empty ledger by the operations that check the balance or take nothing
    (purchases, orders, cancellations, sales and conversions whose caller does not allow
    negative stock, the current endpoint's transfers, receipts and returns, counts being
    taken, new ingredients, and the older endpoints' receipts, approvals and receiving),
    every branch's balance of every ingredient is at least zero, rounding included, batches
    or not (for ledgers of up to 10^12 rows).  It is not so with adjustments, wastage and
    finalised counts, nor with the older endpoint that ships unchecked
    ([InventoryCases.older_shipment_unchecked]). *)
Theorem branch_stock_never_negative s ops id branch :
  ledger (stock s) = [] → Forall (λ b, Z.abs (b_remaining b) < 10 ^ 14) (batches (stock s)) → Forall checked ops →
  Z.of_nat (length (ledger (stock (run s ops)))) <= 10 ^ 12 →
  0 <= fn_inventory_balance (stock (run s ops)) id (Some branch) None.
Proof.
  intros Hl Hb Hc Hlen. assert (stocked (stock (run s ops))) as S; [|apply S]. revert Hlen Hc.
  assert (stocked (stock s)) as S by (intros i b; unfold branch_balance, fn_inventory_balance; by rewrite Hl).
  assert (stock_columns (stock s)) as C by (split; [by rewrite Hl|done]).
  assert (orders_sound (ledger (stock s))) as O by (rewrite Hl; apply fresh_orders_sound).
  clear Hl Hb. revert s S C O. induction ops as [|op ops IH]; intros s S C O Hlen Hc; [done|].
  apply Forall_cons in Hc as [Hc1 Hc2]. cbn [run foldl] in Hlen |- *.
  assert (rows_in (stock (do_op s op)) <= 10 ^ 12) as Hlen1.
  { etransitivity; [|exact Hlen]. change (rows_in (stock (do_op s op)) <= rows_in (stock (run (do_op s op) ops))). clear.
    generalize (do_op s op). induction ops as [|o ops IH]; intros s'; [done|]. etransitivity; [eapply moves_rows, (op_moves s' o)|]. apply IH. }
  apply IH; [by apply do_op_stocked|by eapply moves_columns; [apply op_moves|]|by apply (run_orders_sound s [op])|done|done].
Qed.

Definition milk : ingredient := default (Demo.ing "Milk" "l" true) (ingredients (stock Demo.bought) !! "milk"%string).

(** Two litres of milk: the litre that expires first, and one of the others. *)
Lemma fefo_allocations_witness :
  ∃ drained p rest t, StronglySorted taken_first (drained ++ p :: rest) ∧
    (∀ i x, (i, x) ∈ drained ++ p :: rest ↔ (∃ n : nat, i = Z.of_nat n ∧ batches (stock Demo.bought) !! n = Some x) ∧ takeable "r" (Some "b1"%string) "milk" 100 x) ∧
    [(Some 1, milli 1000, Dec 30000 (-4)); (Some 0, Dec 1000 (-3), Dec 30000 (-4))] = map whole drained ++ [(Some p.1, t, Dec (b_cost p.2) (-4))].
Proof.
  destruct (fefo_allocations (stock Demo.bought) "r" (Some "b1"%string) "milk" milk (d_int 2) 100
    [(Some 1, milli 1000, Dec 30000 (-4)); (Some 0, Dec 1000 (-3), Dec 30000 (-4))]) as (drained & p & rest & t & H1 & H2 & H3 & H4 & _);
    [by vm_compute..|]. by exists drained, p, rest, t.
Defined.

Lemma branch_stock_never_negative_witness : 0 <= fn_inventory_balance (stock (run Demo.s Demo.day)) "rice" (Some "b1"%string) None.
Proof.
  apply (branch_stock_never_negative Demo.s Demo.day "rice" "b1"); [done|by constructor|by repeat constructor|by vm_compute].
Defined.
