(* ===== verification/InventoryTransfers.v ===== *)
(** Inventory, transfers between branches: what arrives is what left
    ([transfer_conserves]), over every run of the operations of InventoryMoves. *)

From Stdlib Require Import ZArith Lia Ascii String.
From stdpp Require Import sorting relations.
From S2P Require Import Prelude PyDecimal PyFloat PyValues Inventory InventoryMoves InventoryStock InventoryOrders.
Open Scope Z_scope.

(** ** Whole thousandths *)

Lemma stored_whole d n q : 0 <= n → at_scale 3 d n → numeric 12 3 (float_param d) = Ok q → q = n.
Proof.
  intros Hn Hd Hq. apply (stored_milli n q Hn). unfold float_param in *. by rewrite (of_decimal_value 3 (milli n) d n) by (done || by apply at_scale_Dec).
Qed.

Lemma column_whole d n q : at_scale 3 d n → numeric 12 3 d = Ok q → q = n ∧ Z.abs n < 10 ^ 12.
Proof. intros Hd [E Hq]%numeric_inv. rewrite (rescale_at_scale ROUND_HALF_UP 3 d n Hd) in E. by subst. Qed.

Lemma strip_zeros_at_scale s fuel c e n : at_scale s (Dec c e) n → at_scale s (strip_zeros fuel c e) n.
Proof.
  revert c e. induction fuel as [|fuel IH]; intros c e H; [done|]. cbn. destruct (Z.eqb_spec (c mod 10) 0) as [Hc|]; [|done].
  apply IH. set (k := Z.max s (- e)). rewrite (at_scale_shift s _ n k) in H by (cbn; lia). rewrite (at_scale_shift s _ n (k + 1)) by (cbn; lia).
  cbn [coef dexp] in *. rewrite Z.add_comm in H. replace (k + 1 - s) with (k - s + 1) by lia. rewrite (pow10_split (k - s) 1) by lia.
  rewrite Z.mul_assoc, <-H. replace (e + 1 + (k + 1)) with (k + e + 1 + 1) by lia. rewrite !(pow10_split _ 1) by lia.
  rewrite (Z.div_mod c 10) at 2 by lia. rewrite Hc. change (10 ^ 1) with 10. ring.
Qed.

Lemma normalize_at_scale s d n : at_scale s d n → fits n → at_scale s (normalize d) n.
Proof.
  intros Hd Hn. unfold normalize. pose proof (fix_prec_at_scale s d n Hd Hn) as H. destruct (Z.eqb_spec (coef (fix_prec d)) 0) as [E|E].
  - apply (at_scale_zero s) in E. rewrite (at_scale_inj _ _ _ _ H E). by apply at_scale_zero.
  - apply strip_zeros_at_scale. by destruct (fix_prec d).
Qed.

(** An omitted unit is the stock unit. *)
Lemma no_unit_factor db r i u to : str_truthy u = false → unit_factor db r i u to = Ok (d_int 1).
Proof.
  intros Hu. unfold unit_factor. rewrite bool_decide_true; [done|]. unfold unit_name.
  assert (str_or u (str_or to "") = str_or to "") as ->.
  { destruct u as [u|]; cbn in Hu |- *; [|done]. apply negb_false_iff, bool_decide_eq_true in Hu as ->. done. }
  cbn [str_or]. by case_decide as E; [rewrite E|].
Qed.

Lemma dmul_one d n : at_scale 3 d n → fits n → at_scale 3 (dmul d (d_int 1)) n.
Proof.
  intros Hd Hf. pose proof (dmul_at_scale 3 0 d (d_int 1) n 1 Hd (at_scale_Dec 1 0 0 1 eq_refl eq_refl)) as H.
  rewrite Z.mul_1_r in H. by apply H.
Qed.

(** ** The rows of a transfer *)

(** The rows of a transfer for an ingredient, whichever endpoint wrote them. *)
Definition of_transfer (id : nat) (i : string) (r : ledger_row) : bool :=
  bool_decide ((l_reference r = RTransfer (Z.of_nat id) ∨ l_reference r = RErpTransfer (Z.of_nat id)) ∧ l_ingredient r = i).
(** Its rows for one ingredient, without the marks of reversals. *)
Definition transfer_rows (id : nat) (i : string) (l : list ledger_row) : list ledger_row := List.filter (of_transfer id i) (map unmarked l).

Definition shipped (t : transfer) : bool := bool_decide (tr_status t = TInTransit ∨ tr_status t = TReceived).
Definition side (b : string) (f : ledger_row → Z) (l : list ledger_row) : Z := sum_where (λ r, bool_decide (l_branch r = Some b)) f l.

(** A shipped item: its rows say what left and what has arrived, and the keys of its
    receipts are of no more than that. *)
Record item_moved (t : transfer) (it : transfer_item) (rows : list ledger_row) : Prop := {
  im_received : 0 <= default 0 (ti_received it) <= ti_sent it;
  im_out : side (tr_from t) l_out rows = ti_sent it;
  im_in : side (tr_to t) l_in rows = default 0 (ti_received it);
  im_keys : ∀ r j i d, r ∈ rows → l_dedup r = Some (KTransferIn j i d) → ∃ n, at_scale 3 d n ∧ n <= default 0 (ti_received it)
}.
Definition item_sound (t : transfer) (it : transfer_item) (rows : list ledger_row) : Prop :=
  0 < ti_sent it < 10 ^ 12 ∧
  if shipped t then item_moved t it rows ∧ (tr_status t = TReceived → default 0 (ti_received it) = ti_sent it)
  else rows = [] ∧ default 0 (ti_received it) = 0.

Definition transfer_sound (t : transfer) (id : nat) (l : list ledger_row) : Prop :=
  (shipped t = true → NoDup (map ti_ingredient (tr_items t))) ∧
  ∀ it, it ∈ tr_items t → str_truthy (ti_unit it) = false → item_sound t it (transfer_rows id (ti_ingredient it) l).

(** The keys of transfers are on their rows. *)
Definition keys_sound (l : list ledger_row) : Prop := ∀ r id i, r ∈ l →
  l_dedup r = Some (KTransferOut (Z.of_nat id) i) ∨ (∃ d, l_dedup r = Some (KTransferIn (Z.of_nat id) i d)) → of_transfer id i r = true.

(** The state of one transfer, here [id], whether it exists yet or not. *)
Record transfers_sound (id : nat) (s : shop) : Prop := {
  ts_each : ∀ t, transfers s !! id = Some t → transfer_sound t id (ledger (stock s));
  ts_fresh : ∀ i, (length (transfers s) <= id)%nat → transfer_rows id i (ledger (stock s)) = [];
  ts_keys : keys_sound (ledger (stock s))
}.

Lemma transfer_rows_snoc id i l r : transfer_rows id i (l ++ [r]) = transfer_rows id i l ++ (if of_transfer id i r then [unmarked r] else []).
Proof. unfold transfer_rows. rewrite map_app, List.filter_app. by f_equal. Qed.

(** Movements of other transfers, or of none, leave the rows alone. *)
Definition moves_of (op : stock_op) : option Z := match op with OShip _ _ id | OReceive _ _ id _ | OErpShip _ _ id | OErpReceive _ _ id _ => Some id | _ => None end.

Lemma made_by_reference op rq k :
  made_by op rq → (rq_reference rq = RTransfer k ∨ rq_reference rq = RErpTransfer k) ∨ (∃ i, rq_dedup rq = Some (KTransferOut k i)) ∨ (∃ i d, rq_dedup rq = Some (KTransferIn k i d)) →
  moves_of op = Some k.
Proof.
  intros Hm H. destruct op; cbn in Hm |- *; try done; repeat (match goal with H : _ ∨ _ |- _ => destruct H as [H|H] | H : ∃ _, _ |- _ => destruct H | H : _ ∧ _ |- _ => destruct H end); subst; cbn in *; congruence.
Qed.

Lemma made_by_keys op rq k i :
  made_by op rq → rq_dedup rq = Some (KTransferOut k i) ∨ (∃ d, rq_dedup rq = Some (KTransferIn k i d)) →
  rq_reference rq = RTransfer k ∧ rq_ingredient rq = i.
Proof.
  intros Hm H. destruct op; cbn in Hm |- *; try done; repeat (match goal with H : _ ∨ _ |- _ => destruct H as [H|H] | H : ∃ _, _ |- _ => destruct H | H : _ ∧ _ |- _ => destruct H end); subst; cbn in *; naive_solver.
Qed.

Lemma append_keys_sound op now rq db db' n :
  made_by op rq → append_event now rq db = Ok (db', n) → keys_sound (ledger db) → keys_sound (ledger db').
Proof.
  intros Hm [[-> _]|(r & _ & _ & A)]%append_event_inv K; [done|]. pose proof (ap_records _ _ _ _ _ A) as R. rewrite (ap_ledger _ _ _ _ _ A).
  intros x id i [Hx|Hx%list_elem_of_singleton]%elem_of_app Hk; [by apply K|]. subst x. rewrite (rec_dedup _ _ _ R) in Hk.
  destruct (made_by_keys _ _ _ _ Hm Hk) as [E1 E2]. unfold of_transfer. by rewrite bool_decide_true by (rewrite (rec_reference _ _ _ R), (rec_ingredient _ _ _ R); auto).
Qed.

Lemma append_elsewhere_rows op now rq db db' n id i :
  made_by op rq → moves_of op ≠ Some (Z.of_nat id) ∨ rq_ingredient rq ≠ i → append_event now rq db = Ok (db', n) →
  transfer_rows id i (ledger db') = transfer_rows id i (ledger db).
Proof.
  intros Hm Hop [[-> _]|(r & _ & _ & A)]%append_event_inv; [done|]. pose proof (ap_records _ _ _ _ _ A) as R.
  rewrite (ap_ledger _ _ _ _ _ A), transfer_rows_snoc. unfold of_transfer. rewrite bool_decide_false; [by rewrite app_nil_r|].
  rewrite (rec_reference _ _ _ R), (rec_ingredient _ _ _ R). intros [E1 E2]. destruct Hop as [Hop|Hop]; [|done].
  apply Hop, (made_by_reference op rq); auto.
Qed.

Lemma transfer_rows_unmarked id i l l' : map unmarked l = map unmarked l' → transfer_rows id i l = transfer_rows id i l'.
Proof. unfold transfer_rows. by intros ->. Qed.

Lemma reverse_transfers now k o db db' n :
  orders_sound (ledger db) → event_at db k = Some o → l_type o = Consumption → l_reversed_by o = None →
  reverse_event now k INVENTORY_RESTOCK_CANCELLED db = Ok (db', n) →
  (∀ id i, transfer_rows id i (ledger db') = transfer_rows id i (ledger db)) ∧ (keys_sound (ledger db) → keys_sound (ledger db')).
Proof.
  intros S Ho Ht Hn H. destruct (reverse_row _ _ _ _ _ _ S Ho Ht Hn H) as (d & r & A & _ & _ & _ & ->). cbn [with_ledger ledger].
  apply event_at_row in Ho as [Hk Ho]. destruct (os_consumption _ S _ _ Ho Ht) as (_ & _ & c & Hc & _).
  pose proof (ap_records _ _ _ _ _ A) as R. split.
  - intros id i. rewrite transfer_rows_snoc. assert (of_transfer id i (set_reverses k r) = false) as ->.
    { unfold of_transfer. cbn. rewrite bool_decide_false; [done|]. rewrite (rec_reference _ _ _ R). cbn. rewrite Hc. naive_solver. }
    rewrite app_nil_r. apply transfer_rows_unmarked. apply list_eq. intros j. rewrite !list_lookup_fmap.
    destruct (decide (j = Z.to_nat k)) as [->|Hj]; [|by rewrite list_lookup_insert_ne].
    rewrite list_lookup_insert_eq by (by eapply lookup_lt_Some). by rewrite Ho.
  - intros K x id i [Hx|Hx%list_elem_of_singleton]%elem_of_app Hkey.
    + apply list_elem_of_lookup in Hx as [j Hx]. destruct (decide (j = Z.to_nat k)) as [->|Hj].
      * rewrite list_lookup_insert_eq in Hx by (by eapply lookup_lt_Some). injection Hx as <-. cbn in Hkey.
        apply (K o); [by eapply list_elem_of_lookup_2|done].
      * rewrite list_lookup_insert_ne in Hx by done. apply K; [by eapply list_elem_of_lookup_2|done].
    + subst x. cbn in Hkey. rewrite (rec_dedup _ _ _ R) in Hkey. cbn in Hkey. destruct Hkey as [?|[? ?]]; congruence.
Qed.

Lemma row_transfers op rq r id i l :
  made_by op rq → plain_row rq r →
  (moves_of op ≠ Some (Z.of_nat id) → transfer_rows id i (l ++ [r]) = transfer_rows id i l) ∧ (keys_sound l → keys_sound (l ++ [r])).
Proof.
  intros Hm R. split.
  - intros Hop. rewrite transfer_rows_snoc. unfold of_transfer. rewrite bool_decide_false; [by rewrite app_nil_r|].
    rewrite (pr_reference _ _ R). intros [E _]. apply Hop, (made_by_reference op rq); auto.
  - intros K x j k [Hx|Hx%list_elem_of_singleton]%elem_of_app Hk; [by apply K|]. subst x. destruct (pr_dedup _ _ R) as [_ Hd].
    rewrite Hd in Hk. destruct Hk as [?|[? ?]]; congruence.
Qed.

Lemma move_transfers s op db db' :
  move (from_op s op) db db' → orders_sound (ledger db) →
  (∀ id i, moves_of op ≠ Some (Z.of_nat id) → transfer_rows id i (ledger db') = transfer_rows id i (ledger db)) ∧
  (keys_sound (ledger db) → keys_sound (ledger db')).
Proof.
  destruct 1 as [now rq db db' n [Hm _] H|rq r db [Hm _] Hr|now k o db db' n Ho Ht Hn H|db db' [_ E _ _]]; intros S; [| | |by rewrite E].
  - split; [intros id i Hop; eapply append_elsewhere_rows; [done|by left|done]|by eapply append_keys_sound].
  - split; [intros id i; by apply (row_transfers op rq r id i)|by apply (row_transfers op rq r 0 EmptyString)].
  - destruct (reverse_transfers _ _ _ _ _ _ S Ho Ht Hn H) as [H1 H2]. split; [|done]. intros id i _. apply H1.
Qed.

Lemma moves_transfers s op db db' :
  moves (from_op s op) db db' → orders_sound (ledger db) →
  (∀ id i, moves_of op ≠ Some (Z.of_nat id) → transfer_rows id i (ledger db') = transfer_rows id i (ledger db)) ∧
  (keys_sound (ledger db) → keys_sound (ledger db')).
Proof.
  induction 1 as [|x y z H _ IH]; [done|]. intros S. destruct (move_transfers _ _ _ _ H S) as [H1 H2].
  destruct (IH (move_orders_sound _ _ _ _ H S)) as [H3 H4]. split; [|auto]. intros id i Hop. by rewrite H3, H1.
Qed.

Lemma in_transfer_rows id i l r : r ∈ l → of_transfer id i r = true → unmarked r ∈ transfer_rows id i l.
Proof. intros Hr Ho. unfold transfer_rows. apply in_filtered. split; [by apply list_elem_of_fmap_2|done]. Qed.

Lemma side_snoc b f l r : side b f (l ++ [r]) = side b f l + (if bool_decide (l_branch r = Some b) then f r else 0).
Proof. unfold side. by rewrite sum_where_snoc. Qed.

Lemma side_one b f r : side b f [r] = if bool_decide (l_branch r = Some b) then f r else 0.
Proof. change [r] with ([] ++ [r]). by rewrite side_snoc. Qed.

(** *** Shipping *)

(** The row one item's shipment leaves. *)
Definition ship_row (t : transfer) (it : transfer_item) (r : ledger_row) : Prop :=
  l_branch r = Some (tr_from t) ∧ l_out r = ti_sent it ∧ l_in r = 0 ∧ ∃ j i, l_dedup r = Some (KTransferOut j i).

Lemma ship_item_rows now t id db it db' :
  ship_item now t (Z.of_nat id) db it = Ok db' → keys_sound (ledger db) →
  keys_sound (ledger db') ∧
  (∀ i, i ≠ ti_ingredient it → transfer_rows id i (ledger db') = transfer_rows id i (ledger db)) ∧
  (str_truthy (ti_unit it) = false → 0 < ti_sent it < 10 ^ 12 → transfer_rows id (ti_ingredient it) (ledger db) = [] →
   ∃ r, transfer_rows id (ti_ingredient it) (ledger db') = [r] ∧ ship_row t it r).
Proof.
  unfold ship_item. intros H K. inv_res. destruct y2 as [d n]. inv_res. subst d.
  match goal with H : append_event _ ?q _ = _ |- _ => set (rq := q) in *; rename H into Ha end.
  set (op := OShip {| st_user := ""; st_owner := ""; st_restaurant := None; st_branch := None; st_branch_user := false |} now (Z.of_nat id)).
  assert (made_by op rq) as Hm by (by eexists _, _, _, _). split; [by eapply (append_keys_sound op)|].
  split; [intros i Hi; eapply (append_elsewhere_rows op); [done|right; cbn; congruence|done]|].
  intros Hu Hs Hrows. rewrite no_unit_factor in Hy0 by done. injection Hy0 as <-.
  assert (at_scale 3 (rq_out rq) (ti_sent it)) as Hq.
  { cbn. apply dmul_one; [by apply at_scale_Dec|apply fits_small; lia]. }
  apply append_event_inv in Ha as [[_ Hf]|(r & _ & _ & A)].
  - apply find_dedup_Some in Hf as (j & x & _ & Hx & Hk & _). apply list_elem_of_lookup_2 in Hx.
    assert (of_transfer id (ti_ingredient it) x = true) as Ho by (apply K; [done|left; exact Hk]).
    apply (in_transfer_rows _ _ _ _ Hx) in Ho. rewrite Hrows in Ho. by apply elem_of_nil in Ho.
  - pose proof (ap_records _ _ _ _ _ A) as R. exists (unmarked r). rewrite (ap_ledger _ _ _ _ _ A), transfer_rows_snoc, Hrows.
    assert (of_transfer id (ti_ingredient it) r = true) as ->.
    { unfold of_transfer. by rewrite bool_decide_true by (rewrite (rec_reference _ _ _ R), (rec_ingredient _ _ _ R); auto). }
    split; [done|]. split; [apply R|]. split; [eapply stored_whole; [lia|exact Hq|apply R]|].
    split; [apply (stored_zero _ (rec_in _ _ _ R))|]. eexists _, _. apply (rec_dedup _ _ _ R).
Qed.

Lemma ship_items_rows now t id l db db' :
  res_foldl (ship_item now t (Z.of_nat id)) db l = Ok db' → NoDup (map ti_ingredient l) → keys_sound (ledger db) →
  keys_sound (ledger db') ∧
  (∀ i, i ∉ map ti_ingredient l → transfer_rows id i (ledger db') = transfer_rows id i (ledger db)) ∧
  (∀ it, it ∈ l → str_truthy (ti_unit it) = false → 0 < ti_sent it < 10 ^ 12 → transfer_rows id (ti_ingredient it) (ledger db) = [] →
   ∃ r, transfer_rows id (ti_ingredient it) (ledger db') = [r] ∧ ship_row t it r).
Proof.
  revert db. induction l as [|x l IH]; intros db H N K; cbn in H; inv_res.
  { subst. split; [done|]. split; [done|]. intros it Hit. by apply elem_of_nil in Hit. }
  apply NoDup_cons in N as [Nx N]. destruct (ship_item_rows _ _ _ _ _ _ Hy K) as (K1 & F1 & R1). destruct (IH _ H N K1) as (K2 & F2 & R2).
  split; [done|]. split.
  - intros i [Hi1 Hi2]%not_elem_of_cons. by rewrite F2, F1.
  - intros it [->|Hit]%elem_of_cons Hu Hs Hrows.
    + destruct (R1 Hu Hs Hrows) as (r & E & Hr). exists r. by rewrite F2.
    + apply R2; [done..|]. rewrite F1; [done|]. intros E. apply Nx. rewrite <-E. by apply list_elem_of_fmap_2.
Qed.

(** *** Receiving *)

Definition whole_lines (requested : option (list (string * decimal))) : Prop :=
  match requested with None => True | Some l => Forall (λ p, ∃ n, at_scale 3 p.2 n) l end.

Lemma assoc_in {A} k (l : list (string * A)) x : assoc k l = Some x → (k, x) ∈ l.
Proof.
  unfold assoc. destruct (find _ l) as [[k' y]|] eqn:E; [|done]. cbn. intros [= ->]. apply find_some in E as [E1 E2].
  apply bool_decide_eq_true in E2. cbn in E2. subst. by apply list_elem_of_In.
Qed.

(** What a receipt asks for, in whole thousandths. *)
Lemma receive_target requested i p sent :
  whole_lines requested → ∃ n, at_scale 3 (match requested with None => milli sent | Some l => default (milli p) (assoc i l) end) n.
Proof.
  assert (∀ n, at_scale 3 (milli n) n) as Hm by (intros n; by apply at_scale_Dec).
  destruct requested as [l|]; intros Hw; [|eauto]. destruct (assoc i l) as [d|] eqn:E; [|cbn; eauto].
  apply assoc_in in E. eapply Forall_forall in Hw; [|exact E]. exact Hw.
Qed.

Definition same_item (it it' : transfer_item) : Prop :=
  ti_ingredient it' = ti_ingredient it ∧ ti_sent it' = ti_sent it ∧ ti_unit it' = ti_unit it.

Lemma receive_item_rows now t id requested db it db' it' c :
  receive_item now t (Z.of_nat id) requested db it = Ok (db', it', c) → keys_sound (ledger db) →
  keys_sound (ledger db') ∧ same_item it it' ∧
  (∀ i, i ≠ ti_ingredient it → transfer_rows id i (ledger db') = transfer_rows id i (ledger db)) ∧
  (str_truthy (ti_unit it) = false → whole_lines requested → 0 < ti_sent it < 10 ^ 12 →
   item_moved t it (transfer_rows id (ti_ingredient it) (ledger db)) →
   item_moved t it' (transfer_rows id (ti_ingredient it) (ledger db')) ∧ (c = true → default 0 (ti_received it') = ti_sent it)).
Proof.
  unfold receive_item. set (sent := ti_sent it). set (prev := default 0 (ti_received it)).
  set (target := match requested with None => milli sent | Some l => _ end). intros H K. inv_res.
  assert (∀ n, at_scale 3 (milli n) n) as Hmilli by (intros n; by apply at_scale_Dec).
  destruct (deqb (dsub target (milli prev)) d_zero) eqn:Ed.
  { inv_res. subst db' it' c. split; [done|]. split; [done|]. split; [done|]. intros _ Hw Hs Him. split; [done|]. intros Ec. fold prev.
    destruct (receive_target requested (ti_ingredient it) prev sent Hw) as [N HN]. fold target in HN.
    apply orb_false_iff in Hy as [B1 B2]. rewrite (dltb_at_scale 3 _ _ _ _ HN (Hmilli prev)) in B1. rewrite (dltb_at_scale 3 _ _ _ _ (Hmilli sent) HN) in B2.
    apply Z.ltb_ge in B1, B2. rewrite (deqb_at_scale 3 _ _ _ _ HN (Hmilli sent)) in Ec. apply Z.eqb_eq in Ec.
    destruct Him as [Hr _ _ _]. fold prev sent in Hr.
    assert (at_scale 3 (dsub target (milli prev)) (N - prev)) as Hd by (apply dsub_at_scale; [done..|apply fits_small; lia]).
    rewrite (deqb_at_scale 3 _ _ _ 0 Hd) in Ed by (by apply at_scale_zero). apply Z.eqb_eq in Ed. lia. }
  inv_res. destruct y2 as [d n]. inv_res. subst db' it' c.
  match goal with H : append_event _ ?q _ = _ |- _ => set (rq := q) in *; rename H into Ha end.
  set (op := OReceive {| st_user := ""; st_owner := ""; st_restaurant := None; st_branch := None; st_branch_user := false |} now (Z.of_nat id) requested).
  assert (made_by op rq) as Hm by (by eexists _, _, _, _, _). split; [by eapply (append_keys_sound op)|]. split; [done|].
  split; [intros i Hi; eapply (append_elsewhere_rows op); [done|right; cbn; congruence|done]|].
  intros Hu Hw Hs [Hr Hout Hin Hk]. fold prev sent in Hr, Hout, Hin, Hs.
  destruct (receive_target requested (ti_ingredient it) prev sent Hw) as [N HN]. fold target in HN.
  apply orb_false_iff in Hy as [B1 B2]. rewrite (dltb_at_scale 3 _ _ _ _ HN (Hmilli prev)) in B1. rewrite (dltb_at_scale 3 _ _ _ _ (Hmilli sent) HN) in B2.
  apply Z.ltb_ge in B1, B2. assert (fits N) as HfN by (apply fits_small; lia).
  assert (at_scale 3 (dsub target (milli prev)) (N - prev)) as Hd by (apply dsub_at_scale; [done..|apply fits_small; lia]).
  rewrite (deqb_at_scale 3 _ _ _ 0 Hd) in Ed by (by apply at_scale_zero). apply Z.eqb_neq in Ed.
  match goal with H : unit_factor _ _ _ _ _ = _ |- _ => rewrite no_unit_factor in H by done; injection H as <- end.
  match goal with H : numeric 12 3 target = Ok _ |- _ => apply (column_whole _ N) in H as [-> _]; [|done] end.
  assert (at_scale 3 (normalize target) N) as HNn by (by apply normalize_at_scale).
  apply append_event_inv in Ha as [[_ Hf]|(r & _ & _ & A)].
  { exfalso. apply find_dedup_Some in Hf as (j & x & _ & Hx & Hkey & _). apply list_elem_of_lookup_2 in Hx.
    assert (of_transfer id (ti_ingredient it) x = true) as Ho by (apply K; [done|right; eexists; exact Hkey]).
    destruct (Hk _ _ _ _ (in_transfer_rows _ _ _ _ Hx Ho) Hkey) as (m & Hm' & Hle). fold prev in Hle.
    pose proof (at_scale_inj _ _ _ _ HNn Hm'). lia. }
  pose proof (ap_records _ _ _ _ _ A) as R. rewrite (ap_ledger _ _ _ _ _ A), transfer_rows_snoc.
  assert (of_transfer id (ti_ingredient it) r = true) as ->.
  { unfold of_transfer. by rewrite bool_decide_true by (rewrite (rec_reference _ _ _ R), (rec_ingredient _ _ _ R); auto). }
  assert (l_in r = N - prev) as Eri by (eapply stored_whole; [lia| |apply R]; cbn; apply dmul_one; [done|apply fits_small; lia]).
  pose proof (stored_zero _ (rec_out _ _ _ R)) as Ero. split; [|cbn; intros Ec; rewrite (deqb_at_scale 3 _ _ _ _ HN (Hmilli sent)) in Ec; by apply Z.eqb_eq].
  split; cbn [set_received ti_received ti_sent default].
  - change (0 <= N <= sent). lia.
  - rewrite side_snoc, Hout. cbn [unmarked l_out l_branch]. rewrite Ero. by case_bool_decide; rewrite Z.add_0_r.
  - rewrite side_snoc, Hin. cbn [unmarked l_in l_branch]. rewrite (rec_branch _ _ _ R), Eri. rewrite bool_decide_true by done. change (prev + (N - prev) = N). ring.
  - intros x j i dd [Hx|Hx%list_elem_of_singleton]%elem_of_app Hkey.
    + destruct (Hk _ _ _ _ Hx Hkey) as (m & Hm' & Hle). fold prev in Hle. exists m. split; [done|]. change (m <= N). lia.
    + subst x. cbn in Hkey. rewrite (rec_dedup _ _ _ R) in Hkey. injection Hkey as _ _ <-. by exists N.
Qed.

Lemma receive_items_rows now t id requested db lines db' news all :
  receive_items now t (Z.of_nat id) requested db lines = Ok (db', news, all) → NoDup (map (λ p, ti_ingredient p.2) lines) → keys_sound (ledger db) →
  keys_sound (ledger db') ∧ map fst news = map fst lines ∧
  (∀ i, i ∉ map (λ p, ti_ingredient p.2) lines → transfer_rows id i (ledger db') = transfer_rows id i (ledger db)) ∧
  (∀ k it, (k, it) ∈ lines → ∃ it', (k, it') ∈ news ∧ same_item it it' ∧
     (str_truthy (ti_unit it) = false → whole_lines requested → 0 < ti_sent it < 10 ^ 12 →
      item_moved t it (transfer_rows id (ti_ingredient it) (ledger db)) →
      item_moved t it' (transfer_rows id (ti_ingredient it) (ledger db')) ∧ (all = true → default 0 (ti_received it') = ti_sent it))).
Proof.
  revert db db' news all. induction lines as [|[k x] lines IH]; intros db db' news all H N K; cbn in H; inv_res.
  { subst. split; [done|]. split; [done|]. split; [done|]. intros k it Hit. by apply elem_of_nil in Hit. }
  destruct y as [[d x'] c]. inv_res. destruct y as [[d' rest] c']. inv_res. subst. cbn [map] in N |- *. apply NoDup_cons in N as [Nx N].
  cbn [snd] in Nx. destruct (receive_item_rows _ _ _ _ _ _ _ _ _ Hy K) as (K1 & E1 & F1 & R1).
  destruct (IH _ _ _ _ Hy0 N K1) as (K2 & E2 & F2 & R2). split; [done|]. split; [by rewrite E2|]. split.
  - intros i [Hi1 Hi2]%not_elem_of_cons. by rewrite F2, F1.
  - intros j it [[= -> ->]|Hit]%elem_of_cons.
    + exists x'. split; [left|]. split; [done|]. intros Hu Hw Hs Hm. rewrite F2 by done. destruct (R1 Hu Hw Hs Hm) as [H1 H2].
      split; [done|]. intros [Hc _]%andb_true_iff. auto.
    + destruct (R2 _ _ Hit) as (it' & Hin & E & HR). exists it'. split; [by right|]. split; [done|]. intros Hu Hw Hs Hm.
      destruct HR as [H1 H2]; [done..| |].
      * rewrite F1; [done|]. intros Ei. apply Nx. rewrite <-Ei. apply (list_elem_of_fmap_2 (λ p : nat * transfer_item, ti_ingredient p.2) _ _ Hit).
      * split; [done|]. intros [_ Hc]%andb_true_iff. auto.
Qed.

(** Each line comes back in its own place. *)
Lemma put_other news items k : k ∉ map fst news → put_items news items !! k = items !! k.
Proof.
  unfold put_items. revert items. induction news as [|[j x] news IH]; intros items; [done|]. cbn. intros [Hj Hk]%not_elem_of_cons.
  by rewrite IH, list_lookup_insert_ne.
Qed.

Lemma put_item news items k x : NoDup (map fst news) → (k, x) ∈ news → (k < length items)%nat → put_items news items !! k = Some x.
Proof.
  revert items. induction news as [|[j y] news IH]; intros items N Hx Hk; [by apply elem_of_nil in Hx|]. cbn in N. apply NoDup_cons in N as [Nj N].
  apply elem_of_cons in Hx as [[= <- <-]|Hx]; [|by apply IH; [..|rewrite length_insert]].
  change (put_items ((k, x) :: news) items) with (put_items news (<[k := x]> items)). by rewrite put_other, list_lookup_insert_eq.
Qed.

Lemma in_lines (items : list transfer_item) k it : (k, it) ∈ by_name (λ p, ti_ingredient p.2) (imap pair items) ↔ items !! k = Some it.
Proof.
  unfold by_name. rewrite merge_sort_Permutation, list_elem_of_lookup. split.
  - intros (i & Hi). rewrite list_lookup_imap in Hi. apply fmap_Some in Hi as (x & Hx & [= -> ->]). done.
  - intros Hk. exists k. by rewrite list_lookup_imap, Hk.
Qed.

Lemma lines_names (items : list transfer_item) :
  map (λ p, ti_ingredient p.2) (by_name (λ p : nat * transfer_item, ti_ingredient p.2) (imap pair items)) ≡ₚ map ti_ingredient items.
Proof.
  unfold by_name. rewrite merge_sort_Permutation. apply reflexive_eq, list_eq. intros k. rewrite !list_lookup_fmap, list_lookup_imap.
  by destruct (items !! k).
Qed.

Lemma lines_places (items : list transfer_item) :
  NoDup (map fst (by_name (λ p : nat * transfer_item, ti_ingredient p.2) (imap pair items))).
Proof.
  unfold by_name. rewrite merge_sort_Permutation. change (map fst (imap pair items)) with (fst <$> imap pair items).
  rewrite fmap_imap. change (imap _ items) with (imap (λ j _, id j) items). rewrite imap_seq_0, list_fmap_id. apply NoDup_seq.
Qed.

(** *** What each operation keeps *)

(** The older endpoints do not touch this transfer once it is approved, and its receipts are
    in whole thousandths. *)
Definition whole_op (id : nat) (op : stock_op) : Prop :=
  match op with
  | OReceive _ _ k requested => k = Z.of_nat id → whole_lines requested
  | OErpShip _ _ k | OErpReceive _ _ k _ => k ≠ Z.of_nat id
  | _ => True
  end.

Lemma at_index_nat {A} (l : list A) k x : at_index l k = Some x → ∃ id, k = Z.of_nat id ∧ l !! id = Some x.
Proof. unfold at_index. destruct (Z.ltb_spec k 0); [done|]. intros H'. exists (Z.to_nat k). split; [lia|done]. Qed.

Lemma find_transfer_inv s u k t : find_transfer s u k = Ok t → ∃ id, k = Z.of_nat id ∧ transfers s !! id = Some t.
Proof. unfold find_transfer. destruct (at_index _ _) as [x|] eqn:E; [|done]. destruct (is_id _ _); [|done]. intros H. inv_res. subst. by apply at_index_nat. Qed.

(** The transfer itself, replaced. *)
Lemma replace_sound s db id t t' :
  transfers s !! id = Some t → keys_sound (ledger db) → transfer_sound t' id (ledger db) →
  transfers_sound id (with_transfers (<[id := t']>) (with_stock db s)).
Proof.
  intros Ht K Hs. pose proof (lookup_lt_Some _ _ _ Ht). split; [..|exact K]; cbn [with_transfers with_stock transfers stock].
  - intros x. rewrite list_lookup_insert_eq by done. by intros [= <-].
  - intros i. rewrite length_insert. lia.
Qed.

(** An operation on another transfer, or on none. *)
Lemma other_sound s s' op id :
  moves (from_op s op) (stock s) (stock s') → orders_sound (ledger (stock s)) → moves_of op ≠ Some (Z.of_nat id) →
  transfers s' !! id = transfers s !! id → length (transfers s') = length (transfers s) → transfers_sound id s → transfers_sound id s'.
Proof.
  intros Hm O Hop Et El [S1 S2 S3]. destruct (moves_transfers _ _ _ _ Hm O) as [F K].
  split; [|intros i; rewrite El, F by done; apply S2|by apply K]. intros t. rewrite Et. intros Ht. destruct (S1 _ Ht) as [N Hi]. split; [done|].
  intros it Hit Hu. rewrite F by done. by apply Hi.
Qed.

Lemma ship_sound (s : shop) u now id s' st :
  ship_transfer u now (Z.of_nat id) s = Ok (s', st) → transfers_sound id s → transfers_sound id s'.
Proof.
  unfold ship_transfer. intros H S. inv_res. rename y into t.
  apply find_transfer_inv in Hy as (j0 & <-%Nat2Z.inj & Ht). destruct (tr_status t) eqn:Est; inv_res; try (by subst).
  all: match goal with H : res_foldl _ _ _ = Ok ?d |- _ => rename H into Hf; rename d into db end; subst.
  all: match goal with H : _ || negb (bool_decide (NoDup _)) = false |- _ => apply orb_false_iff in H as [_ N]; apply negb_false_iff, bool_decide_eq_true in N end.
  all: rewrite Nat2Z.id; destruct (ts_each _ _ S _ Ht) as [_ Hi].
  all: destruct (ship_items_rows now t id _ _ _ Hf) as (K & _ & R);
    [unfold by_name; by rewrite merge_sort_Permutation|apply S|].
  all: eapply replace_sound; [done|done|].
  all: split; [done|]; cbn [set_transfer tr_items]; intros it Hit Hu; destruct (Hi it Hit Hu) as [Hs Hw].
  all: unfold shipped in Hw; rewrite Est, bool_decide_false in Hw by naive_solver; destruct Hw as [Hw1 Hw2].
  all: destruct (R it) as (r & E & Hb & Hout & Hin & j & i & Hd);
    [unfold by_name; by rewrite merge_sort_Permutation|done|done|done|].
  all: rewrite E; split; [done|]; unfold shipped; cbn [set_transfer tr_status]; rewrite bool_decide_true by auto; split; [|done].
  all: split; cbn [set_transfer tr_from tr_to]; rewrite ?Hw2; [lia| | |].
  all: try (by rewrite side_one, Hb, bool_decide_true by done).
  1,3: rewrite side_one, Hin; by destruct (bool_decide (l_branch r = Some (tr_to t))).
  all: intros x j' i' d' ->%list_elem_of_singleton; congruence.
Qed.

Lemma receive_sound (s : shop) u now id requested s' st :
  receive_transfer u now (Z.of_nat id) requested s = Ok (s', st) → whole_lines requested →
  transfers_sound id s → transfers_sound id s'.
Proof.
  unfold receive_transfer. intros H Hw S. inv_res. rename y into t.
  apply find_transfer_inv in Hy as (j0 & <-%Nat2Z.inj & Ht). destruct y3 as [[db news] all]. inv_res. subst.
  match goal with H : receive_items _ _ _ _ _ _ = Ok _ |- _ => rename H into Hf end.
  match goal with H : negb (bool_decide (tr_status t = _ ∨ _)) = false |- _ => apply negb_false_iff, bool_decide_eq_true in H; rename H into Est end.
  rewrite Nat2Z.id. destruct (ts_each _ _ S _ Ht) as [N Hi]. specialize (N (bool_decide_eq_true_2 _ Est)).
  destruct (receive_items_rows _ _ _ _ _ _ _ _ _ Hf) as (K & Efst & _ & R); [by rewrite lines_names|apply S|].
  assert (NoDup (map fst news)) as Nn by (rewrite Efst; apply lines_places).
  assert (∀ i it, tr_items t !! i = Some it → ∃ it', put_items news (tr_items t) !! i = Some it' ∧ same_item it it' ∧
            (i, it') ∈ news) as Hput.
  { intros i it Hit. destruct (R i it) as (it' & Hin & E & _); [by apply in_lines|]. exists it'.
    split; [by apply put_item; [|done|eapply lookup_lt_Some]|done]. }
  eapply replace_sound; [done|done|].
  set (t' := set_transfer t _ _).
  assert (length (put_items news (tr_items t)) = length (tr_items t)) as Hlen.
  { unfold put_items. clear. generalize (tr_items t). induction news as [|p news IH]; intros l; [done|]. cbn. by rewrite IH, length_insert. }
  split.
  - assert (map ti_ingredient (tr_items t') = map ti_ingredient (tr_items t)) as ->; [|done]. apply list_eq. intros i. rewrite !list_lookup_fmap.
    cbn [t' set_transfer tr_items]. destruct (tr_items t !! i) as [it|] eqn:E.
    + destruct (Hput _ _ E) as (it' & -> & (Ei & _) & _). cbn. by rewrite Ei.
    + apply lookup_ge_None in E. rewrite <-Hlen in E. apply lookup_ge_None in E. by rewrite E.
  - intros it' [i Hi']%list_elem_of_lookup Hu. cbn [t' set_transfer tr_items] in Hi'.
    destruct (tr_items t !! i) as [it|] eqn:E; [|apply lookup_ge_None in E; apply lookup_lt_Some in Hi'; lia].
    destruct (R i it) as (it2 & Hin & (Ei & Es & Eu) & HR); [by apply in_lines|].
    pose proof (put_item _ (tr_items t) _ _ Nn Hin (lookup_lt_Some _ _ _ E)) as Hp. assert (it2 = it') as -> by congruence.
    rewrite Ei. rewrite Eu in Hu. destruct (Hi it) as [Hs Hm']; [by eapply list_elem_of_lookup_2|done|].
    unfold shipped in Hm'. rewrite bool_decide_true in Hm' by done. destruct Hm' as [Hm' _]. destruct (HR Hu Hw Hs Hm') as [H1 H2].
    split; [by rewrite Es|]. unfold shipped. cbn [t' set_transfer tr_status]. rewrite bool_decide_true by (destruct all; auto).
    split; [|intros Ed; rewrite Es; apply H2; by destruct all]. by destruct H1.
Qed.

(** *** New transfers *)

Lemma new_sound s t id :
  transfers_sound id s → shipped t = false → (∀ it, it ∈ tr_items t → 0 < ti_sent it < 10 ^ 12 ∧ ti_received it = None) →
  transfers_sound id (with_transfers (λ l, l ++ [t]) s).
Proof.
  intros [S1 S2 S3] Hs Hi. split; [..|exact S3]; cbn [with_transfers transfers stock].
  - intros x Hx. apply lookup_app_Some in Hx as [Hx|[Hl Hx]]; [by apply S1|]. apply list_lookup_singleton_Some in Hx as [Hx <-].
    split; [by rewrite Hs|]. intros it Hit _. destruct (Hi it Hit) as [H1 H2]. split; [done|]. rewrite Hs, H2. split; [|done]. apply S2. lia.
  - intros i Hl. rewrite length_app in Hl. apply S2. cbn in Hl. lia.
Qed.

Lemma transfer_item_row_inv db l it : transfer_item_row db l = Ok it → 0 < ti_sent it < 10 ^ 12 ∧ ti_received it = None.
Proof.
  unfold transfer_item_row, positive_12_3. intros H. inv_res. subst. cbn [ti_sent ti_received].
  match goal with N : numeric _ _ _ = Ok _ |- _ => apply numeric_inv in N as [_ N] end.
  match goal with N : (_ <=? 0) = false |- _ => apply Z.leb_gt in N end. split; [|done]. lia.
Qed.
Lemma erp_transfer_row_inv db l it : erp_transfer_row db l = Ok it → 0 < ti_sent it < 10 ^ 12 ∧ ti_received it = None.
Proof.
  unfold erp_transfer_row. intros H. inv_res. subst. cbn [ti_sent ti_received].
  match goal with N : numeric _ _ _ = Ok _ |- _ => apply numeric_inv in N as [_ N] end.
  match goal with N : (_ <=? 0) = false |- _ => apply Z.leb_gt in N end. split; [|done]. lia.
Qed.

(** Every operation that makes a transfer makes a draft. *)
Lemma created_sound (s s' : shop) id :
  (∃ t, s' = with_transfers (λ l, l ++ [t]) s ∧ shipped t = false ∧ ∀ it, it ∈ tr_items t → 0 < ti_sent it < 10 ^ 12 ∧ ti_received it = None) →
  transfers_sound id s → transfers_sound id s'.
Proof. intros (t & -> & Hs & Hi) S. by apply new_sound. Qed.

Lemma rows_made {A} (f : A → res transfer_item) l rows :
  (∀ x it, f x = Ok it → 0 < ti_sent it < 10 ^ 12 ∧ ti_received it = None) → res_map f l = Ok rows →
  ∀ it, it ∈ rows → 0 < ti_sent it < 10 ^ 12 ∧ ti_received it = None.
Proof. intros Hf H it Hit. destruct (res_map_in _ _ _ _ H Hit) as (x & _ & Hx). by eapply Hf. Qed.

Lemma creates_sound s op id :
  match op with OTransfer _ _ _ _ | OReturn _ _ _ | OErpTransfer _ _ _ _ => True | _ => False end →
  transfers_sound id s → transfers_sound id (do_op s op).
Proof.
  intros Hop S. destruct op; try done; cbn; unfold after.
  - destruct (create_transfer _ _ _ _ _) as [[s' i]|] eqn:E; [|done]. revert S. apply created_sound. unfold create_transfer in E. inv_res. subst.
    eexists. split; [done|]. split; [done|]. eapply rows_made; [apply transfer_item_row_inv|eassumption].
  - destruct (create_transfer_return _ _ _ _) as [[s' i]|] eqn:E; [|done]. revert S. apply created_sound. unfold create_transfer_return in E. inv_res. subst.
    eexists. split; [done|]. split; [done|]. eapply rows_made; [|eassumption]. intros x it. apply transfer_item_row_inv.
  - destruct (erp_create_transfer _ _ _ _ _) as [[s' i]|] eqn:E; [|done]. revert S. apply created_sound. unfold erp_create_transfer in E. inv_res. subst.
    eexists. split; [done|]. split; [done|]. eapply rows_made; [apply erp_transfer_row_inv|eassumption].
Qed.

(** Approving changes the status and nothing else. *)
Lemma approve_sound s u k s' id : approve_transfer u k s = Ok s' → transfers_sound id s → transfers_sound id s'.
Proof.
  unfold approve_transfer, erp_transfer. intros H S. inv_res. destruct (at_index _ _) as [t|] eqn:Et; [|done].
  destruct (_ && _) eqn:Eb; [|done]. inv_res. subst. apply at_index_nat in Et as (j & -> & Ht). rewrite Nat2Z.id.
  apply andb_true_iff in Eb as [_ Eb%bool_decide_eq_true]. destruct S as [S1 S2 S3]. destruct (decide (j = id)) as [->|Hj].
  - split; [..|exact S3]; cbn [with_transfers transfers stock].
    + intros x. rewrite list_lookup_insert_eq by (by eapply lookup_lt_Some). intros [= <-]. destruct (S1 _ Ht) as [N Hi]. split; [done|].
      intros it Hit Hu. specialize (Hi it Hit Hu). unfold item_sound, shipped in *. cbn [set_transfer tr_status] in *. by rewrite Eb in Hi.
    + intros i. rewrite length_insert. apply S2.
  - split; [..|exact S3]; cbn [with_transfers transfers stock].
    + intros x. rewrite list_lookup_insert_ne by done. apply S1.
    + intros i. rewrite length_insert. apply S2.
Qed.

Lemma replaced_elsewhere k (t : transfer) l id :
  Z.of_nat k ≠ Z.of_nat id → <[Z.to_nat (Z.of_nat k) := t]> l !! id = l !! id ∧ length (<[Z.to_nat (Z.of_nat k) := t]> l) = length l.
Proof. intros Hk. rewrite Nat2Z.id, length_insert. split; [|done]. apply list_lookup_insert_ne. lia. Qed.

(** Shipping and receiving another transfer, by either endpoint. *)
Lemma moves_elsewhere s op id k :
  moves_of op = Some k → k ≠ Z.of_nat id →
  transfers (do_op s op) !! id = transfers s !! id ∧ length (transfers (do_op s op)) = length (transfers s).
Proof.
  intros Hop Hk. destruct op; try done; injection Hop as ->; cbn; unfold after, after_.
  - destruct (ship_transfer _ _ _ _) as [[s' i]|] eqn:E; [|done]. unfold ship_transfer in E. inv_res.
    apply find_transfer_inv in Hy as (j & -> & _). destruct (tr_status y); inv_res; subst; try done; by apply replaced_elsewhere.
  - destruct (receive_transfer _ _ _ _ _) as [[s' i]|] eqn:E; [|done]. unfold receive_transfer in E. inv_res.
    apply find_transfer_inv in Hy as (j & -> & _). destruct y3 as [[db news] all]. inv_res. subst. by apply replaced_elsewhere.
  - destruct (erp_ship_transfer _ _ _ _) as [s'|] eqn:E; [|done]. unfold erp_ship_transfer, erp_transfer in E. inv_res.
    destruct (at_index _ _) as [t|] eqn:Et; [|done]. apply at_index_nat in Et as (j & -> & _). subst. by apply replaced_elsewhere.
  - destruct (erp_receive_transfer _ _ _ _ _) as [s'|] eqn:E; [|done]. unfold erp_receive_transfer, erp_transfer in E. inv_res.
    destruct (at_index _ _) as [t|] eqn:Et; [|done]. apply at_index_nat in Et as (j & -> & _). destruct y0. inv_res. subst. by apply replaced_elsewhere.
Qed.

Lemma do_op_transfers s op id :
  whole_op id op → orders_sound (ledger (stock s)) → transfers_sound id s → transfers_sound id (do_op s op).
Proof.
  intros Hw O S. destruct (writes_transfers op) eqn:Ew.
  - destruct op; try done; try (by apply creates_sound).
    + destruct (decide (id0 = Z.of_nat id)) as [->|Hk].
      * cbn; unfold after. destruct (ship_transfer _ _ _ _) as [[s' i]|] eqn:E; [|done]. by eapply ship_sound.
      * eapply other_sound; [apply op_moves|done|cbn; congruence|by eapply moves_elsewhere..|done].
    + destruct (decide (id0 = Z.of_nat id)) as [->|Hk].
      * cbn; unfold after. destruct (receive_transfer _ _ _ _ _) as [[s' i]|] eqn:E; [|done]. eapply receive_sound; [done|by apply Hw|done].
      * eapply other_sound; [apply op_moves|done|cbn; congruence|by eapply moves_elsewhere..|done].
    + cbn. unfold after_. destruct (approve_transfer _ _ _) as [s'|] eqn:E; [|done]. by eapply approve_sound.
    + eapply other_sound; [apply op_moves|done|cbn in *; congruence|by eapply moves_elsewhere..|done].
    + eapply other_sound; [apply op_moves|done|cbn in *; congruence|by eapply moves_elsewhere..|done].
  - pose proof (proj1 (do_op_documents s op) Ew) as Et. eapply other_sound; [apply op_moves|done|by destruct op|by rewrite Et..|done].
Qed.

(** The rows of a transfer for an ingredient in a branch. *)
Definition transfer_side (id : nat) (i b : string) (r : ledger_row) : bool := of_transfer id i r && bool_decide (l_branch r = Some b).

Lemma side_rows id i b f l :
  (∀ r, f (unmarked r) = f r) → side b f (transfer_rows id i l) = sum_where (transfer_side id i b) f l.
Proof.
  intros Hf. unfold transfer_rows, transfer_side. induction l as [|r l IH]; [done|]. cbn [map List.filter].
  change (of_transfer id i (unmarked r)) with (of_transfer id i r). rewrite sum_where_cons. destruct (of_transfer id i r); cbn [andb]; [|by rewrite IH].
  unfold side in *. rewrite sum_where_cons, IH, Hf. done.
Qed.

(** C16: what arrives is what left.  In every state reached from an empty ledger with no
    transfers, by operations of any kind in any order, retried or failing, of which the
    older endpoints' shipment and receipt do not name this transfer: once it is shipped the
    ledger has taken exactly the quantity of each of its items out of the sending branch,
    and has put into the receiving branch exactly what the item says was received, never
    more than was sent, and all of it when the transfer is closed; before that it has moved
    nothing.  This is for items in their stock unit and receipts of the transfer in whole
    thousandths; a transfer that is received by both endpoints arrives twice
    ([InventoryCases.received_by_both]). *)
Theorem transfer_conserves s ops id t it :
  ledger (stock s) = [] → transfers s = [] → Forall (whole_op id) ops →
  transfers (run s ops) !! id = Some t → it ∈ tr_items t → str_truthy (ti_unit it) = false →
  let moved_at b f := sum_where (transfer_side id (ti_ingredient it) b) f (ledger (stock (run s ops))) in
  moved_at (tr_from t) l_out = (if shipped t then ti_sent it else 0) ∧
  moved_at (tr_to t) l_in = default 0 (ti_received it) ∧
  0 <= default 0 (ti_received it) <= ti_sent it ∧
  (tr_status t = TReceived → default 0 (ti_received it) = ti_sent it).
Proof.
  intros Hl Ht0 Hw Ht Hit Hu moved_at.
  assert (transfers_sound id (run s ops)) as S.
  { assert (transfers_sound id s) as S0 by (split; [intros x; by rewrite Ht0|intros i _; by rewrite Hl|intros r j i; rewrite Hl; intros Hr; by apply elem_of_nil in Hr]).
    assert (orders_sound (ledger (stock s))) as O0 by (rewrite Hl; apply fresh_orders_sound). clear -S0 O0 Hw. revert s S0 O0.
    induction ops as [|op ops IH]; intros s S0 O0; [done|]. apply Forall_cons in Hw as [Hw1 Hw2]. cbn.
    apply IH; [done|by apply do_op_transfers|by apply (run_orders_sound s [op])]. }
  destruct (ts_each _ _ S _ Ht) as [_ Hi]. destruct (Hi it Hit Hu) as [Hs Hm]. unfold moved_at. rewrite <-!side_rows by done.
  assert (tr_status t = TReceived → shipped t = true) as Hsh by (intros E; unfold shipped; by rewrite bool_decide_true by auto).
  destruct (shipped t).
  - destruct Hm as [[H1 H2 H3 _] H4]. auto.
  - destruct Hm as [-> ->]. split; [done|]. split; [done|]. split; [lia|]. intros E. by discriminate (Hsh E).
Qed.

(** Two kilos sent, received in two parts. *)
Lemma transfer_conserves_witness :
  let l := ledger (stock (run Demo.s Demo.day)) in
  sum_where (transfer_side 0 "rice" "b1") l_out l = 2000 ∧ sum_where (transfer_side 0 "rice" "b2") l_in l = 2000.
Proof.
  intros l. set (it := {| ti_ingredient := "rice"%string; ti_sent := 2000; ti_received := Some 2000; ti_unit := None |}).
  destruct (transfer_conserves Demo.s Demo.day 0
    {| tr_restaurant := "r"; tr_from := "b1"; tr_to := "b2"; tr_status := TReceived; tr_return_of := None; tr_items := [it] |} it) as (H1 & H2 & _);
    [done|done| |by vm_compute|left|done|by split].
  repeat constructor. by exists 1500.
Defined.
