(* ===== verification/InventoryCases.v ===== *)
(** Inventory, cases: small runs of the operations where the stock does not do what its
    caller would expect.  Each one is the evidence of a finding. *)

From Stdlib Require Import ZArith Lia Ascii String.
From S2P Require Import Prelude PyDecimal PyFloat PyValues Inventory InventoryMoves InventoryStock.
Open Scope Z_scope.

(** Stock of an ingredient: the mirror, and the ledger's balance. *)
Definition mirror_and_ledger (s : shop) (id : string) : option Z * Z :=
  (i_current_stock <$> ingredients (stock s) !! id, fn_inventory_balance (stock s) id None None).
Definition rice (u : option string) (q : decimal) (t : adjustment_type) (reason : option string) : adjustment_in :=
  {| aj_ingredient := "rice"; aj_branch := Some "b1"%string; aj_type := t; aj_quantity := q; aj_unit := u; aj_cost := None; aj_reason := reason |}.
Definition waste_rice (q : decimal) : wastage_in :=
  {| wa_ingredient := "rice"; wa_branch := Some "b1"%string; wa_batch := None; wa_quantity := q; wa_unit := None; wa_cost := None; wa_reason := "spoiled" |}.
Definition stocked_shop : shop := run Demo.s [OPurchase Demo.u 1 99 1 None].

(** The ledger rounds what moves, the mirror rounds what is left: two wastages of 62.5 g and
    the drift report lists the ingredient. *)
Example tie_drifts :
  let s := run stocked_shop [OWaste Demo.u 2 (waste_rice (Dec 625 (-4))); OWaste Demo.u 3 (waste_rice (Dec 625 (-4)))] in
  mirror_and_ledger s "rice" = (Some 9876, 9874) ∧ reconciliation_drift (Some "r"%string) (stock s) = [("rice", 9876, 9874)]%string.
Proof. vm_compute. by split. Qed.

(** A recipe that uses less than half a gram per plate rounds to nothing, which the ledger's
    check refuses: the whole order stays unconsumed. *)
Definition pinch : stock_db :=
  {| ingredients := ingredients (stock stocked_shop); ledger := ledger (stock stocked_shop); batches := batches (stock stocked_shop);
     unit_conversions := []; recipes := [{| rc_restaurant := "r"; rc_item := 8; rc_yield := 3000; rc_active := true;
       rc_lines := [Demo.line "rice" "kg" 1 None; Demo.line "milk" "l" 600 None] |}]; item_ingredients := []; sub_branches := sub_branches Demo.db;
     alerts := []; published := [] |}%string.
Example pinch_blocks_order :
  consume_for_order Demo.c [{| oi_item := Some 8; oi_quantity := d_int 1 |}] pinch = Err (DatabaseError "inventory_ledger_check").
Proof. vm_compute. reflexivity. Qed.

(** Counting 12 kilos where the books say 10, entered as a "recount": the stock goes down by
    12. *)
Example recount_takes_away :
  mirror_and_ledger (create_adjustment Demo.u 2 (rice None (d_int 12) RecountAdjustment None) stocked_shop).1 "rice" = (Some (-2000), -2000).
Proof. vm_compute. reflexivity. Qed.

(** An adjustment whose record is refused has moved the stock all the same, and again when
    it is sent again. *)
Definition long_reason : string := String.concat "" (repeat "too long! " 26).
Example refused_adjustment_moves :
  let send s := create_adjustment Demo.u 2 (rice None (d_int 1) Increase (Some long_reason)) s in
  (send stocked_shop).2 = Err (DatabaseError "value too long for type character varying") ∧
  mirror_and_ledger (send (send stocked_shop).1).1 "rice" = (Some 12000, 12000).
Proof. vm_compute. by split. Qed.

(** A received transfer can be returned again and again. *)
Definition received_shop : shop := run stocked_shop Demo.sent.
Example returned_twice :
  let back s := match create_transfer_return Demo.u 0 [] s with Ok (s', _) => s' | Err _ => s end in
  map (λ t, map ti_sent (tr_items t)) (transfers (back (back received_shop))) = [[2000]; [2000]; [2000]].
Proof. vm_compute. reflexivity. Qed.

(** The quantity of a return is compared without its unit: 1500 kilos of 2000 grams. *)
Example return_in_another_unit :
  let s := run stocked_shop [OTransfer Demo.u "b1" "b2" [{| tl_ingredient := "rice"; tl_quantity := d_int 2000; tl_unit := Some "g"%string |}];
                             OShip Demo.u 6 0; OReceive Demo.u 7 0 None]%string in
  match create_transfer_return Demo.u 0 [("rice", (d_int 1500, Some "kg"))]%string s with
  | Ok (s', _) => map (λ t, map (λ it, (ti_sent it, ti_unit it)) (tr_items t)) (transfers s') = [[(2000000, Some "g")]; [(1500000, Some "kg")]]%string
  | Err _ => False
  end.
Proof. vm_compute. reflexivity. Qed.

(** An adjustment through the older endpoint reaches the ledger and not the mirror. *)
Example older_adjustment_unmirrored :
  match adjust_stock Demo.u 2 (Some "b1"%string) "rice" AdjustmentIn (of_decimal (d_int 3)) (of_decimal d_zero) stocked_shop with
  | Ok s => mirror_and_ledger s "rice" = (Some 10000, 13000)
  | Err _ => False
  end.
Proof. vm_compute. reflexivity. Qed.

(** A transfer of 2 kilos, 1.5 of them received, then received whole by the older endpoint:
    3.5 kilos arrive. *)
Example received_by_both :
  let s := run stocked_shop [OTransfer Demo.u "b1" "b2" [{| tl_ingredient := "rice"; tl_quantity := d_int 2; tl_unit := None |}];
                             OShip Demo.u 6 0; OReceive Demo.u 7 0 (Some [("rice", Dec 15 (-1))])]%string in
  match erp_receive_transfer Demo.u 8 0 [("rice"%string, of_decimal (d_int 2))] s with
  | Ok s' => fn_inventory_balance (stock s') "rice" (Some "b2"%string) None = 3500 ∧ fn_inventory_balance (stock s') "rice" (Some "b1"%string) None = 8000
  | Err _ => False
  end.
Proof. vm_compute. by split. Qed.

(** The older endpoint ships what the branch does not have: two kilos of a shop with an
    empty ledger. *)
Example older_shipment_unchecked :
  let s := run Demo.s [OErpTransfer Demo.u "b1" "b2" [("rice", of_decimal (d_int 2), None)]; OErpApprove Demo.u 0; OErpShip Demo.u 6 0]%string in
  fn_inventory_balance (stock s) "rice" (Some "b1"%string) None = -2000 ∧
  ship_transfer Demo.u 6 0 (run Demo.s [OErpTransfer Demo.u "b1" "b2" [("rice", of_decimal (d_int 2), None)]; OErpApprove Demo.u 0]%string) =
    Err (InventoryError "insufficient stock to transfer").
Proof. vm_compute. by split. Qed.

(** The seeded conversion between dozens and pieces is never found: the alias turns "piece"
    into "pcs" before the table is searched. *)
Definition seeded : list unit_conversion :=
  map (λ p, {| u_restaurant := None; u_ingredient := None; u_from := p.1.1; u_to := p.1.2; u_factor := p.2; u_active := true |})
    [("kg", "g", 100000000000); ("g", "kg", 100000); ("l", "ml", 100000000000); ("ml", "l", 100000);
     ("dozen", "piece", 1200000000); ("piece", "dozen", 8333333)]%string.
Example dozen_unreachable :
  unit_factor (with_conversions seeded Demo.db) (Some "r"%string) "egg" (Some "dozen"%string) (Some "piece"%string) =
  Err (ValidationError "no unit conversion from").
Proof. vm_compute. reflexivity. Qed.

(** A conversion's inputs ignore their unit: 500 "g" of rice per batch takes 500 kilos. *)
Example conversion_unit_ignored :
  let s := run stocked_shop [ORecipe "r" "rice" (d_int 1) [{| ri_ingredient := "rice"; ri_quantity := d_int 500; ri_unit := Some "g"%string; ri_waste := d_zero |}]]%string in
  match _resolve_inputs s "r" (Some 0) (d_int 1) [] with
  | Ok [(id, q)] => id = "rice"%string ∧ deqb q (d_int 500) = true
  | _ => False
  end.
Proof. vm_compute. by split. Qed.

(** Correcting a restaurant's general conversion adds a second row; the first one goes on
    being used when its id is the lower. *)
Example conversion_not_corrected :
  let body f := {| co_ingredient := None; co_from := "box"; co_to := "pcs"; co_factor := d_int f |}%string in
  let s := run Demo.s [OConversion Demo.u 0 (body 12); OConversion Demo.u 1 (body 10)] in
  length (unit_conversions (stock s)) = 2%nat ∧
  match unit_factor (stock s) (Some "r"%string) "egg" (Some "box"%string) (Some "pcs"%string) with
  | Ok f => deqb f (d_int 12) = true | Err _ => False end.
Proof. vm_compute. by split. Qed.

(** Milk is kept in batches: what is sent to another branch arrives without one, and an
    order there finds none. *)
Example sent_batches_lost :
  let s := run stocked_shop [OTransfer Demo.u "b1" "b2" [{| tl_ingredient := "milk"; tl_quantity := d_int 4; tl_unit := None |};
                                                         {| tl_ingredient := "rice"; tl_quantity := d_int 4; tl_unit := None |}];
                             OShip Demo.u 6 0; OReceive Demo.u 7 0 None]%string in
  let c := {| oc_restaurant := Some "r"; oc_branch := Some "b2"; oc_order := "o2"; oc_allow_negative := false; oc_mirror := true;
              oc_now := 8; oc_today := 100 |}%string in
  fn_inventory_balance (stock s) "milk" (Some "b2"%string) None = 4000 ∧ map b_remaining (batches (stock s)) = [5000] ∧
  consume_for_order c Demo.items (stock s) = Err (InventoryError "insufficient unexpired batch stock").
Proof. vm_compute. by repeat split. Qed.

(** Any restaurant's alert can be closed: the caller is not looked at. *)
Example alert_of_another_restaurant :
  let a := {| al_restaurant := "other"; al_branch := None; al_ingredient := None; al_type := ALowStock; al_current := 0; al_threshold := 1;
              al_status := AOpen |}%string in
  map al_status (alerts (stock (resolve_alert 0 (with_stock (with_alerts (λ _, [a]) Demo.db) Demo.s)))) = [AResolved].
Proof. vm_compute. reflexivity. Qed.
